(* ===== verification/_CoqProject ===== *)
-Q . S2P
Prelude.v
Spec.v
SpecUtils.v
Samples.v
NodePools.v
Consume.v
Diff.v
Store.v
ProcessTask.v
GenerateState.v
Cidr.v
ExistingState.v
Manifest.v
Validate.v
DesiredState.v
Schedule.v
Ping.v
Health.v
ScheduleKubernetes.v
Endpoint.v
ScheduleLoadBalancers.v
Unreachable.v
Union.v
ManagementCluster.v
Reconcile.v
Stable.v
Watchers.v
Pending.v
Handlers.v
Worker.v
Commands.v
Mirror.v
TofuFiles.v
Tofu.v
Terraformer.v
Vpn.v
Ansibler.v
KubeEleven.v
Kubectl.v
NodeDeletion.v
NodePatch.v
Kuber.v
Pipeline.v
Messages.v
ManagerClient.v
Crd.v
Operator.v
Services.v
Consumer.v
InMemory.v
