(* ===== verification/Prelude.v ===== *)
(** * Claudie: a verification library

    Claudie (github.com/berops/claudie) builds and maintains Kubernetes
    clusters across cloud providers from declarative InputManifest resources.
    This library models its services: the operator that reads the resources
    (src/services/claudie-operator), the manager that decides
    (src/services/manager) and the four workers that act
    (src/services/{terraformer,ansibler,kube-eleven,kuber}), with the packages
    they share (src/internal, src/proto/pb/spec).

    ** The program

    A resource passes the validating webhook of the operator.  Its controller
    collects the secrets and template references the resource names, builds a
    manifest and hands it to the manager through gRPC (UpsertManifest,
    MarkForDeletion), retrying writes that were refused as dirty.  The manager
    keeps a configuration for each manifest in a document store (MongoDB)
    guarded by optimistic versions.  Three periodic watchers move every
    configuration around the cycle
<<
        Pending --reconcile--> Scheduled --all clusters finished--> Done | Error
           ^                                                            |
           +--------------- manifest or load changed -------------------+
>>
    - the pending pass parses the manifest, builds the desired state
      ([createDesiredState]), carries what already exists over into it
      ([transferImmutableState]), generates what is missing (hashes, node
      names, subnets, keys, ports), compares it with the current state
      ([Diff]) and schedules at most one task per cluster ([reconciliate]).
      A task is a delta, the state it starts from, and a pipeline of stages;
    - the scheduled pass hands the current stage of each waiting task to its
      worker over NATS;
    - a worker runs the passes of the stage with its tool (OpenTofu, ansible,
      kubeone, kubectl), replies with the state it reached and acknowledges
      the message;
    - [ProcessTask] receives the replies (at least once), folds what the
      worker did into the state of the task, and advances, finishes or stops
      the task;
    - the done/error pass notices changed manifests and deletes
      configurations that are gone.

    ** The files

    Shared: [Prelude] (results of Go functions, ranges over Go maps, loops
    with early return, machine integers, list and string lemmas, tactics
    [bind_inv], [case_goal], hint databases); [Spec] (the protobuf messages);
    [SpecUtils] (their methods, src/proto/pb/spec/utils.go); [Samples] (a
    concrete infrastructure for witnesses).

    Node pools and states: [NodePools] (internal/nodepools/nodepools.go,
    iter.go, internal/clusters/clusters.go); [Consume]
    (pb/spec/utils_consume.go); [Diff] (service/diff.go, proxy.go); [Union]
    (clustersUnion of service/reconciliation.go).

    Persistence: [Store] (manager/internal/store/*.go, api/manifest/state.go):
    the documents, both conversions, and the interface with its contract as
    classes ([Store], [Crud], [Marking]) and the mongo client as the instance
    that discharges them; [InMemory] (in_memory_store.go, over a heap of
    shared documents).

    From manifest to desired state: [Manifest], [Validate]
    (internal/api/manifest), [GenerateState] (service/generate_state.go),
    [Cidr], [DesiredState] (service/create_desired_state.go),
    [ExistingState] (service/existing_state.go).

    From difference to task: [Schedule] (service/reconciliate_other.go,
    rolling_update.go), [ScheduleKubernetes], [ScheduleLoadBalancers],
    [Unreachable] (the three reconciliate_*.go files), [Ping]
    (clusters/ping4.go), [Health] (service/healthcheck.go),
    [ManagementCluster] (service/managementcluster), [Reconcile] (service/reconciliation.go), with
    [Endpoint] and [Stable] for properties that span them.

    The running manager: [ProcessTask] (service/process_task.go), [Watchers]
    and [Pending] (service/watchers.go), [Handlers] (service/handler_*.go).

    The workers: [Worker] (what their ProcessTask functions share), [Commands]
    (internal/command, internal/sanitise: retries of external commands, what
    is masked in their log, the writer of their output), [Mirror]
    (clones of template repositories, internal/extemplates), [TofuFiles] (the
    files OpenTofu runs with), [Tofu] and [Terraformer] (building and
    destroying, every task_*.go), [Vpn] (private addresses) and [Ansibler],
    [KubeEleven], [Kubectl] (internal/kubectl), [NodeDeletion],
    [NodePatch] and [Kuber].

    Between them: [Pipeline] (the manager and the workers over a whole
    pipeline), [Messages] (handler_msg.go of the five services), [Consumer]
    (the consumer loop and the shutdown of service.go), [Services] (New and
    Stop of service.go, internal/envs, internal/healthcheck), [ManagerClient]
    (manager/client), [Crd] (the resource, its manifest and the webhook) and
    [Operator] (the controller).

    ** How Go is rendered

    - A function that can fail returns an [outcome]: [Ret], [Fail] (a
      non-nil error; its text is shortened) or [Panic] (nil dereference,
      index out of range, write to a nil map, explicit panic, or a loop that
      never ends).
    - A pointer the code compares with nil is an [option], one that every
      reader dereferences is a plain field; an absent *LoadBalancers is the
      empty list; a look-up returning -1 is [None].  A function that mutates
      through a pointer returns the mutated value; where two pointers share
      a pool (PartialCopy.., the task's view of a cluster) or a document (the
      in-memory store) both see the change.  proto.Clone is the identity and
      proto.Equal decidable equality.
    - Iterating over a Go map goes through [RangeOrder], an arbitrary
      enumeration of the keys: theorems hold for every order.
    - int32, uint8, uint32, int64 and uint64 wrap explicitly.
    - uuid.New and time.Now are arguments; random numbers and key pairs are
      the class [Entropy], read with a draw counter.
    - Go-routines that interleave are labelled transition systems ([Consumer],
      the system of [Operator]) or explicit interleavings ([NodePatch]).
    - Code that is not in the repository is a class with the behaviour relied
      on: protobuf and RFC 3339 [Codec], the mongo driver [Collection] and
      [CollectionOps], git [Git], yaml [Yaml] and [YamlOut], validator and
      apimachinery [Validator] and [ProviderValidator], NATS [Nats], [Wire]
      and [JetStream], kubectl, ssh and sockets [Network] and [Icmp], connections [Host], template
      rendering, git and disk [Templates] and [GitTools], OpenTofu and object
      storage [Tofu], ansible [Ansible], kubeone [KubeOne], the shell and what it
      prints [Shell], [NodeTools], [TagList] and [KuberEnv], the order of
      concurrent commands [Interleaving], the Kubernetes API server
      [KubeReader], [KubeWriter] and [Finalizers], the environment
      [OperatorEnvs] and [Deployment].  A tool answers differently at each
      call.  Every theorem over such a class has a witness with a concrete
      instance.
    - Log lines and metrics are dropped, except for the reads they make that
      can panic and for the log of retried commands ([Commands]).

    ** What is proved

    - States: the difference of two views, executed, gives the desired view,
      and equals its set-theoretic reference ([Diff]); the union covers both
      states ([Union]); deletions and copies keep pools well formed
      ([NodePools]); a worker's report is merged exactly, and refused without
      a change when it is inconsistent ([Consume]).
    - Tasks: [finished_cluster] and [errored_cluster] simulate an abstract
      pipeline machine whose measure decreases, so a pipeline ends; a
      redelivered reply changes nothing; an error of a FATAL stage stops the
      task ([ProcessTask]).
    - Generation: subnets, node names, static node names and Envoy ports are
      unique, references reuse existing pools, immutable fields are carried
      over, autoscaler limits hold, and the whole of [populate] succeeds
      ([Cidr], [GenerateState], [ExistingState], [DesiredState]).
    - Validation: an accepted manifest is consistent across its sections
      ([Validate]).
    - Reconciliation: the node that serves the API is never deleted before
      the endpoint has moved ([Endpoint]); updates start from the current
      state, credentials converge, each outcome of one reconciliation is
      characterised ([Reconcile]); unreachable nodes are only deleted when
      the user removed them ([Unreachable]); a settled cluster stays settled
      ([Stable]); the secrets of a destroyed cluster are gone
      ([ManagementCluster]).
    - Documents: conversions round-trip and concurrent writers lose no update
      ([Store]); the in-memory store refines the mongo client except where it
      panics ([InMemory]); every pass makes the progress it promises and hands
      over one stage at a time ([Watchers], [Pending]); the handlers change
      exactly what they are asked to ([Handlers]).
    - Health: an address counts as reachable exactly when enough echo requests
      are answered by packets of its own ([Ping]), and the nodes reported as
      unknown or not joined are exactly the ones that should be ([Health]).
    - Commands: the log of a retried command does not depend on the
      kubeconfig or password in it, the result of retries is the first success
      or the last error, whole lines of output are printed ([Commands]).
    - Workers: a download leaves the templates of its commit ([Mirror]); every
      dynamic pool is in the files OpenTofu runs with ([TofuFiles]); additions
      are recorded even when OpenTofu fails, removals only when it succeeds, and a built node has an address ([Tofu],
      [Terraformer]); private addresses do not clash ([Vpn]); the API
      endpoint stays unique ([Ansibler]); kubeone gets the nodes of the
      cluster and the right leader ([KubeEleven]); nodes are cordoned before
      they are drained and leave etcd before they are deleted
      ([NodeDeletion]); after a patch every node carries the labels, taints
      and annotations of its pool ([NodePatch]).
    - Composition: whatever the tools answer, a task stays about its cluster
      through the pipeline and the manager accepts the reports ([Pipeline]); a
      worker acknowledges only after a confirmed reply, and the reply finds
      its task ([Messages]); a service never runs two consumers at once and
      its shutdown ends ([Consumer]); what a failed start opened is closed, and
      a probe fails exactly after four minutes of failures ([Services]).
    - Operator: a pass follows an abstract decision table; a configuration in
      the manager always has its resource with the finalizer, so nothing is
      orphaned; the manifests that are sent are valid; a deletion is requested
      and takes effect under interference ([Crd], [Operator],
      [ManagerClient]).

    Lemmas and examples whose names speak of a loss, a panic or a mismatch
    ([static_loadbalancer_changes_are_lost], [static_loadbalancer_panics],
    [warn_error_in_last_stage_panics], [marked_endpoint_is_deleted],
    [message_in_flight_after_stop], [failed_clone_is_permanent],
    [split_line_loses_its_beginning], [unpinged_node_listed],
    [jetstream_error_keeps_connection], ...) show behaviour of the code that
    its comments do not promise.

    ** Bounds and fuel

    [uniqueNodeName] counts in a uint8, so 256 steps are a whole cycle: a
    loop that has not ended then never ends ([Panic]).  [getCIDR] has 256
    candidates, after which the code fails itself.  [fresh_pool_name] draws
    random suffixes until one is unused; no number of draws is certain to be
    enough, so the fuel is an argument and theorems quantify over it.  The
    retries are those of the code: 20 writes of the manager client, 5
    publications and 45 acknowledgements of a message, 3 requests to
    Cloudflare, 5 or 8 echo requests, one retry of OpenTofu and of kubeone,
    three (two for Envoy) of ansible, the retries of a kubectl command.  The
    replacements of a regular expression and the lines of a buffer take at
    most as many steps as the string has characters, which is their fuel.
    Everything else is structural.

    ** Not modelled

    The processes behind the tools (OpenTofu, ansible, kubeone, kubectl, git)
    and the texts of templates, playbooks and Kubernetes manifests; of their
    use, the commands, files and answers are.  The main functions and the
    tickers of the watch loops, dialling, key files on disk, logging and
    metrics, HTTP and gRPC servers; refreshing the deadline of a message in
    progress.  Of the standard library, ParseCIDR and ParseIP are modelled for
    IPv4, %q without escapes, JSON and base64 not at all: data are compared
    before they are encoded.  The testing framework and the helpers of tests
    are not part of the program. *)

From stdpp Require Import base gmap strings list sorting pretty.

(** ** Results of Go functions

    A Go function of the repository can return normally, return a non-nil
    [error], or panic (nil dereference, index out of range, explicit
    [panic]).  [outcome] keeps the three apart, so that a theorem "the call
    succeeds" excludes both an error and a panic. *)
Inductive outcome (A : Type) : Type :=
| Ret (a : A)
| Fail (err : string)
| Panic (why : string).
Arguments Ret {A} a.
Arguments Fail {A} err.
Arguments Panic {A} why.

Definition bindO {A B} (m : outcome A) (k : A → outcome B) : outcome B :=
  match m with
  | Ret a => k a
  | Fail e => Fail e
  | Panic w => Panic w
  end.

Declare Scope go_scope.
Delimit Scope go_scope with go.
Notation "'let*' x := m 'in' k" := (bindO m (λ x, k))
  (at level 10, x pattern, m at level 100, k at level 200) : go_scope.
Open Scope go_scope.

(** A slice expression [s[i]]: out of range is a run-time panic. *)
Definition index {A} (l : list A) (i : nat) : outcome A :=
  match l !! i with
  | Some a => Ret a
  | None => Panic "index out of range"
  end.

(** A method call or field access through a pointer: nil is a panic. *)
Definition deref {A} (o : option A) : outcome A :=
  match o with
  | Some a => Ret a
  | None => Panic "invalid memory address or nil pointer dereference"
  end.

(** ** Machine integers

    [int32] fields of the protobuf messages are kept in [Z]; arithmetic on
    them wraps as Go's does. *)
Definition int32 (z : Z) : Z := ((z + 2^31) mod 2^32 - 2^31)%Z.

Definition in_int32 (z : Z) : Prop := (-(2^31) ≤ z < 2^31)%Z.

Lemma int32_id z : in_int32 z → int32 z = z.
Proof. unfold int32, in_int32. intros H. rewrite Z.mod_small; lia. Qed.

Lemma int32_range z : in_int32 (int32 z).
Proof. unfold int32, in_int32. pose proof (Z.mod_pos_bound (z + 2^31) (2^32)). lia. Qed.

(** ** Iteration over Go maps

    A [range] over a Go map visits every entry once, in an order the
    language leaves unspecified and that may differ between two loops over
    the same map.  The order is a parameter: [range site m] is the sequence
    of entries the loop [site] visits.  Nothing is known of it but that it is
    a permutation of the entries; theorems are proved for every order. *)
Class RangeOrder := {
  range : string → ∀ {A : Type}, gmap string A → list (string * A);
  range_perm : ∀ site A (m : gmap string A), range site m ≡ₚ map_to_list m
}.

(** One possible order, used to evaluate the definitions. *)
#[export] Instance canonical_order : RangeOrder :=
  {| range _ A m := map_to_list m;
     range_perm _ _ _ := reflexivity _ |}.

Section range.
Context `{RangeOrder} {A : Type}.
Implicit Types (m : gmap string A).

Lemma elem_of_range site m k v : (k, v) ∈ range site m ↔ m !! k = Some v.
Proof. rewrite range_perm. apply elem_of_map_to_list. Qed.

Lemma NoDup_range_fst site m : NoDup (range site m).*1.
Proof. rewrite range_perm. apply NoDup_fst_map_to_list. Qed.

Lemma range_nil site m : range site m = [] ↔ m = ∅.
Proof.
  split.
  - intros E. apply map_to_list_empty_iff.
    apply Permutation_nil_r. rewrite <- (range_perm site), E. done.
  - intros ->. apply Permutation_nil_r. rewrite range_perm, map_to_list_empty. done.
Qed.

Lemma range_list_to_map site m : list_to_map (range site m) = m.
Proof.
  apply map_eq. intros k. apply option_eq. intros v.
  rewrite <- elem_of_list_to_map by apply NoDup_range_fst.
  apply elem_of_range.
Qed.
End range.

(** [for k, v := range m { ...; return ... }]: the first entry, if any. *)
Definition first_of `{RangeOrder} {A} (site : string) (m : gmap string A) : option (string * A) :=
  head (range site m).

Lemma first_of_Some `{RangeOrder} {A} site (m : gmap string A) k v :
  first_of site m = Some (k, v) → m !! k = Some v.
Proof.
  unfold first_of. destruct (range site m) as [|p l] eqn:E; simpl; [done|].
  intros [= ->]. rewrite <- (elem_of_range site), E. by left.
Qed.

Lemma first_of_None `{RangeOrder} {A} site (m : gmap string A) :
  first_of site m = None ↔ m = ∅.
Proof.
  unfold first_of. rewrite <- (range_nil site).
  destruct (range site m); simpl; split; congruence.
Qed.

Lemma range_empty `{RangeOrder} {A} site : range site (∅ : gmap string A) = [].
Proof. by apply range_nil. Qed.

Lemma first_of_empty `{RangeOrder} {A} site : first_of site (∅ : gmap string A) = None.
Proof. by apply first_of_None. Qed.

(** ** Slices *)

(** [slices.Contains] *)
Definition contains {A} `{EqDecision A} (l : list A) (x : A) : bool := bool_decide (x ∈ l).

(** [slices.IndexFunc]: [None] stands for -1. *)
Definition index_func {A} (f : A → bool) (l : list A) : option nat :=
  fst <$> list_find (λ x, f x = true) l.

(** First element satisfying a predicate, the shape of every
    [for _, x := range xs { if p(x) { return x } }; return nil]. *)
Fixpoint find_first {A} (f : A → bool) (l : list A) : option A :=
  match l with
  | [] => None
  | x :: l => if f x then Some x else find_first f l
  end.

(** In-place update of the first match, through its pointer. *)
Fixpoint update_first {A} (f : A → bool) (g : A → A) (l : list A) : list A :=
  match l with
  | [] => []
  | x :: l => if f x then g x :: l else x :: update_first f g l
  end.

(** [slices.DeleteFunc] keeps, in order, what the predicate rejects. *)
Definition delete_func {A} (f : A → bool) (l : list A) : list A :=
  filter (λ x, f x = false) l.

Section slices.
Context {A : Type}.
Implicit Types (l : list A) (f : A → bool).

Lemma contains_spec `{EqDecision A} l x : contains l x = true ↔ x ∈ l.
Proof. apply bool_decide_eq_true. Qed.

Lemma contains_false `{EqDecision A} l x : contains l x = false ↔ x ∉ l.
Proof. apply bool_decide_eq_false. Qed.

Lemma find_first_Some f l x : find_first f l = Some x → x ∈ l ∧ f x = true.
Proof.
  induction l as [|y l IH]; simpl; [done|].
  destruct (f y) eqn:E; [intros [= ->]|intros [??]%IH]; split; auto; by constructor.
Qed.

Lemma find_first_None f l : find_first f l = None ↔ ∀ x, x ∈ l → f x = false.
Proof.
  induction l as [|y l IH]; simpl.
  - split; [intros _ x Hx; by apply not_elem_of_nil in Hx|done].
  - destruct (f y) eqn:E.
    + split; [done|]. intros H. specialize (H y (list_elem_of_here _ _)). congruence.
    + rewrite IH. split.
      * intros H x [->|Hx]%elem_of_cons; auto.
      * intros H x Hx. apply H. by right.
Qed.

Lemma index_func_None f l : index_func f l = None ↔ ∀ x, x ∈ l → f x = false.
Proof.
  unfold index_func. rewrite fmap_None, list_find_None, Forall_forall. split; intros Hf x Hx.
  - apply not_true_iff_false. by apply Hf.
  - rewrite (Hf x Hx). done.
Qed.

Lemma index_func_Some f l i : index_func f l = Some i → ∃ x, l !! i = Some x ∧ f x = true.
Proof.
  unfold index_func. intros E. apply fmap_Some in E as ([j x] & Hf & ->). apply list_find_Some in Hf as (? & ? & _). by exists x.
Qed.

Lemma length_update_first f g l : length (update_first f g l) = length l.
Proof. induction l as [|x l IH]; simpl; [done|]. destruct (f x); simpl; lia. Qed.

Lemma elem_of_delete_func f l x : x ∈ delete_func f l ↔ x ∈ l ∧ f x = false.
Proof. unfold delete_func. rewrite list_elem_of_filter. tauto. Qed.
End slices.

Lemma foldl_id {A B} (f : B → A → B) (l : list A) (b : B) :
  (∀ x, x ∈ l → f b x = b) → foldl f b l = b.
Proof.
  induction l as [|x l IH]; intros Hf; simpl; [done|].
  rewrite Hf by by left. apply IH. intros y Hy. apply Hf. by right.
Qed.

(** A map filled in a loop, when no key is written twice. *)
Lemma lookup_foldl_insert {A} (l : list (string * A)) (m : gmap string A) k v :
  NoDup l.*1 →
  foldl (λ m p, <[p.1 := p.2]> m) m l !! k = Some v ↔ (k, v) ∈ l ∨ (k ∉ l.*1) ∧ m !! k = Some v.
Proof.
  revert m. induction l as [|[k' v'] l IH]; intros m; csimpl.
  { intros _. rewrite !elem_of_nil. tauto. }
  intros [Hk' Hnd]%NoDup_cons. rewrite (IH _ Hnd), lookup_insert_Some, !elem_of_cons.
  assert (Hv : ∀ v, (k', v) ∈ l → k' ∈ l.*1) by (intros w Hw; apply list_elem_of_fmap; by exists (k', w)).
  destruct (decide (k' = k)) as [->|]; naive_solver.
Qed.

Lemma filter_ext_in {A} (P Q : A → Prop) `{∀ x, Decision (P x), ∀ x, Decision (Q x)} (l : list A) :
  (∀ x, x ∈ l → P x ↔ Q x) → filter P l = filter Q l.
Proof.
  induction l as [|x l IH]; intros Hpq; [done|]. rewrite !filter_cons.
  assert (P x ↔ Q x) by (apply Hpq; by left).
  rewrite IH by (intros y Hy; apply Hpq; by right).
  repeat case_decide; naive_solver.
Qed.

Lemma filter_nil_iff {A} (P : A → Prop) `{∀ x, Decision (P x)} (l : list A) :
  filter P l = [] ↔ ∀ x, x ∈ l → ¬ P x.
Proof.
  split.
  - intros E x Hx Hp. assert (x ∈ filter P l) by (apply list_elem_of_filter; done).
    rewrite E in *. by eapply not_elem_of_nil.
  - intros Hn. destruct (filter P l) as [|x l'] eqn:E; [done|].
    assert (x ∈ filter P l) as [? ?]%list_elem_of_filter by (rewrite E; by left).
    by destruct (Hn x).
Qed.

Lemma filter_all {A} (P : A → Prop) `{∀ x, Decision (P x)} (l : list A) :
  (∀ x, x ∈ l → P x) → filter P l = l.
Proof.
  induction l as [|x l IH]; intros Hp; [done|]. rewrite filter_cons, decide_True by (apply Hp; by left).
  f_equal. apply IH. intros y Hy. apply Hp. by right.
Qed.

Lemma size_list_to_set_le {A} `{Countable A} (l : list A) :
  size (list_to_set l : gset A) ≤ length l.
Proof.
  induction l as [|x l IH]; [done|]. rewrite list_to_set_cons. simpl.
  pose proof (size_union_alt {[x]} (list_to_set l : gset A)) as E.
  pose proof (subseteq_size (list_to_set l ∖ {[x]} : gset A) (list_to_set l)) as Hd.
  rewrite size_singleton in E. specialize (Hd ltac:(set_solver)). lia.
Qed.

(** ** Strings *)

(** [idx := strings.LastIndex(s, c)] followed by [s[:idx], s[idx+1:]];
    [None] when [idx < 0]. *)
Fixpoint split_last (c : Ascii.ascii) (s : string) : option (string * string) :=
  match s with
  | EmptyString => None
  | String a s' =>
      match split_last c s' with
      | Some (x, y) => Some (String a x, y)
      | None => if Ascii.eqb a c then Some (EmptyString, s') else None
      end
  end.

(** No occurrence of [c]. *)
Fixpoint no_char (c : Ascii.ascii) (s : string) : bool :=
  match s with
  | EmptyString => true
  | String a s' => negb (Ascii.eqb a c) && no_char c s'
  end.

(** [strings.ToLower] on the ASCII range. *)
Definition lower_char (a : Ascii.ascii) : Ascii.ascii :=
  let n := Ascii.nat_of_ascii a in
  if (65 <=? n) && (n <=? 90) then Ascii.ascii_of_nat (n + 32) else a.

Fixpoint ToLower (s : string) : string :=
  match s with
  | EmptyString => EmptyString
  | String a s => String (lower_char a) (ToLower s)
  end.

(** [strings.Trim] and [strings.TrimSpace] *)

Fixpoint trim_left (f : Ascii.ascii → bool) (s : string) : string :=
  match s with
  | EmptyString => EmptyString
  | String a s' => if f a then trim_left f s' else s
  end.

Fixpoint trim_right (f : Ascii.ascii → bool) (s : string) : string :=
  match s with
  | EmptyString => EmptyString
  | String a s =>
      match trim_right f s with
      | EmptyString => if f a then EmptyString else String a EmptyString
      | s => String a s
      end
  end.

Definition trim (f : Ascii.ascii → bool) (s : string) : string := trim_right f (trim_left f s).

(** The ASCII white space of [unicode.IsSpace]. *)
Definition is_space (a : Ascii.ascii) : bool :=
  let n := Ascii.nat_of_ascii a in bool_decide (9 ≤ n ≤ 13) || bool_decide (n = 32).

Lemma split_last_None c s : split_last c s = None ↔ no_char c s = true.
Proof.
  induction s as [|a s IH]; simpl; [done|].
  destruct (split_last c s) as [[x y]|] eqn:E.
  - split; [done|]. rewrite andb_true_iff. intros [_ H%IH]. done.
  - destruct (Ascii.eqb a c); simpl; [done|]. tauto.
Qed.

Lemma split_last_Some c s x y :
  split_last c s = Some (x, y) ↔ s = String.append x (String c y) ∧ no_char c y = true.
Proof.
  split.
  - revert x. induction s as [|a s IH]; intros x; simpl; [done|].
    destruct (split_last c s) as [[x' y']|] eqn:E.
    + intros [= <- <-]. by destruct (IH x' eq_refl) as [-> ?].
    + destruct (Ascii.eqb_spec a c) as [->|]; [|done].
      intros [= <- <-]. by rewrite split_last_None in E.
  - intros [-> Hy]. induction x as [|a x IH]; simpl.
    + apply split_last_None in Hy. by rewrite Hy, Ascii.eqb_refl.
    + by rewrite IH.
Qed.

Lemma string_app_cons c a b : String.append (String c a) b = String c (String.append a b).
Proof. reflexivity. Qed.

Lemma string_length_app a b : String.length (String.append a b) = String.length a + String.length b.
Proof. induction a as [|c a IH]; [done|]. rewrite string_app_cons. simpl. by rewrite IH. Qed.

Lemma string_app_inj_l a b c : String.append a b = String.append a c → b = c.
Proof. induction a as [|x a IH]; [done|]. rewrite !string_app_cons. intros [= ?]; auto. Qed.

Lemma string_app_assoc a b c : String.append (String.append a b) c = String.append a (String.append b c).
Proof. induction a as [|x a IH]; [done|]. by rewrite !string_app_cons, IH. Qed.

(** Strings with tails of one length are split in one way. *)
Lemma string_app_inj a b a' b' :
  String.length b = String.length b' → String.append a b = String.append a' b' → a = a' ∧ b = b'.
Proof.
  intros Hlen. revert a'. induction a as [|x a IH]; intros [|x' a']; rewrite ?string_app_cons; intros E.
  - by split.
  - change (b = String x' (String.append a' b')) in E. subst b. simpl in Hlen. rewrite string_length_app in Hlen. lia.
  - change (String x (String.append a b) = b') in E. subst b'. simpl in Hlen. rewrite string_length_app in Hlen. lia.
  - injection E as -> E. by destruct (IH a' E) as [-> ->].
Qed.

(** ** Tactics and hints of the development *)

Create HintDb claudie discriminated.
Create Rewrite HintDb claudie_rw.
#[export] Hint Resolve int32_range elem_of_range : claudie.

(** Peel a successful run of a [let*] chain into its successful parts. *)
Ltac bind_inv H :=
  match type of H with
  | bindO ?m _ = Ret _ =>
      let x := fresh "x" in let Hx := fresh "Hx" in
      destruct m as [x|?|?] eqn:Hx; simpl in H; [bind_inv H|discriminate H|discriminate H]
  | Ret _ = Ret _ => injection H as H
  | _ => idtac
  end.

Lemma index_Ret {A} (l : list A) i x : index l i = Ret x → l !! i = Some x.
Proof. unfold index. by destruct (l !! i); intros [= ->]. Qed.

(** A loop that may fail keeps what each of its iterations keeps. *)
Lemma foldl_outcome_ind {A B} (P : B → Prop) (f : B → A → outcome B) (l : list A) (b c : B) :
  P b → (∀ b x c, x ∈ l → P b → f b x = Ret c → P c) →
  foldl (λ acc x, let* b := acc in f b x) (Ret b) l = Ret c → P c.
Proof.
  revert b. induction l as [|x l IH]; intros b Hb Hf; simpl; [by intros [= <-]|].
  destruct (f b x) as [b'|e|w] eqn:E.
  - apply IH; [by eapply Hf; [left|..]|]. intros b1 y c1 Hy. apply Hf. by right.
  - intros Hl. exfalso. clear -Hl. by induction l.
  - intros Hl. exfalso. clear -Hl. by induction l.
Qed.

(** An iteration that establishes [Q] in a loop that keeps it. *)
Lemma foldl_outcome_elem {A B} (I Q : B → Prop) (f : B → A → outcome B) (l : list A) (b c : B) (x : A) :
  x ∈ l → I b → (∀ b y c, y ∈ l → I b → f b y = Ret c → I c ∧ (Q b → Q c)) → (∀ b c, I b → f b x = Ret c → Q c) →
  foldl (λ acc x, let* b := acc in f b x) (Ret b) l = Ret c → Q c.
Proof.
  intros Hx Hb Hf Hq. apply list_elem_of_split in Hx as (l1 & l2 & ->). rewrite foldl_app.
  destruct (foldl _ (Ret b) l1) as [b1|e|w] eqn:E1; simpl.
  - assert (Hb1 : I b1).
    { revert E1. apply (foldl_outcome_ind I); [done|]. intros b' y c' Hy Hi Hs.
      exact (proj1 (Hf b' y c' (proj2 (elem_of_app _ _ _) (or_introl Hy)) Hi Hs)). }
    destruct (f b1 x) as [b2|e|w] eqn:E2; [|clear; by induction l2..].
    intros E3. refine (proj2 (foldl_outcome_ind (λ b, I b ∧ Q b) f l2 b2 c _ _ E3)).
    + split; [|by eapply Hq]. refine (proj1 (Hf b1 x b2 _ Hb1 E2)). apply elem_of_app. right. by left.
    + intros b' y c' Hy [Hi HQ] Hs. destruct (Hf b' y c') as [??]; [|done..|by auto].
      apply elem_of_app. right. by right.
  - clear. by induction l2.
  - clear. by induction l2.
Qed.

(** Case on the condition of every [if]/[match] in the goal. *)
Ltac case_goal :=
  repeat match goal with
  | |- context [if ?b then _ else _] => destruct b eqn:?
  | |- context [match ?x with _ => _ end] => destruct x eqn:?
  end.

(** Decidable closed facts, by evaluation. *)
Ltac by_decide := apply (bool_decide_unpack _); vm_compute; exact I.

(** Evaluate a closed call that returns a value and no error; [x] names the
    value and [H] the equation. *)
Ltac run_ok m x H :=
  destruct m as [[x [?|]]|?|?] eqn:H; try (vm_compute in H; discriminate H).
