(* ===== verification/Spec.v ===== *)
(** * The data model shared by all services (proto/spec, proto/pb/spec)

    The protobuf messages the manager keeps, diffs and sends to the workers.
    A message is a record, a [oneof] or an enum an inductive type with the
    generated Go constructors' names (a [oneof] has an extra [.._nil]
    constructor for "not set").  A pointer field the code compares with nil
    is an [option]; a pointer every producer sets and every reader
    dereferences is a plain field; an absent [*LoadBalancers] is identified
    with an empty list.  [proto.Equal] is the decidable equality of these
    types, [proto.Clone] the identity. *)

From stdpp Require Import base gmap strings list.
From S2P Require Import Prelude.

(** ** Providers and templates (provider.proto) *)

Inductive Protocol := PROTOCOL_UNSPECIFIED | PROTOCOL_HTTPS.
#[export] Instance Protocol_eq_dec : EqDecision Protocol.
Proof. solve_decision. Defined.

Record Endpoint := mkEndpoint { Endpoint_Url : string; Endpoint_Protocol : Protocol }.
#[export] Instance Endpoint_eq_dec : EqDecision Endpoint.
Proof. solve_decision. Defined.

Record Auth := mkAuth { Auth_Username : option string; Auth_Token : string }.
#[export] Instance Auth_eq_dec : EqDecision Auth.
Proof. solve_decision. Defined.

Record TemplatePaths := mkTemplatePaths {
  Paths_Terraformer : string; Paths_Playbooks : string; Paths_ConfigLb : string;
  Paths_ConfigK8s : string; Paths_ManifestsK8s : string }.
#[export] Instance TemplatePaths_eq_dec : EqDecision TemplatePaths.
Proof. solve_decision. Defined.

Record TemplateRepository := mkTemplateRepository {
  Tpl_Commit : string;
  Tpl_CommitHash : string;
  Tpl_Endpoint : Endpoint;
  Tpl_Auth : option Auth;
  Tpl_Paths : TemplatePaths }.
#[export] Instance TemplateRepository_eq_dec : EqDecision TemplateRepository.
Proof. solve_decision. Defined.

Inductive ProviderType :=
| Provider_Gcp (key project : string)
| Provider_Hetzner (token : string)
| Provider_Oci (userOCID tenancyOCID keyFingerprint compartmentOCID privateKey : string)
| Provider_Aws (secretKey accessKey : string)
| Provider_Azure (subscriptionID tenantID clientID clientSecret : string)
| Provider_Cloudflare (token accountID : string)
| Provider_Openstack (authURL domainID projectID applicationCredentialID
                      applicationCredentialSecret : string)
| Provider_Exoscale (apiKey apiSecret : string)
| Provider_Cloudrift (token : string) (teamId : option string)
| Provider_Verda (clientId clientSecret : string) (baseUrl : option string)
| Provider_Ovh (clientId clientSecret serviceName : string) (endpoint : option string)
| Provider_nil.
#[export] Instance ProviderType_eq_dec : EqDecision ProviderType.
Proof. solve_decision. Defined.

Record Provider := mkProvider {
  Provider_SpecName : string;
  Provider_CloudProviderName : string;
  Provider_Type : ProviderType;
  Provider_Templates : TemplateRepository }.
#[export] Instance Provider_eq_dec : EqDecision Provider.
Proof. solve_decision. Defined.

Definition set_Provider_Type (p : Provider) (t : ProviderType) : Provider :=
  mkProvider (Provider_SpecName p) (Provider_CloudProviderName p) t (Provider_Templates p).

Definition set_Provider_Templates (p : Provider) (t : TemplateRepository) : Provider :=
  mkProvider (Provider_SpecName p) (Provider_CloudProviderName p) (Provider_Type p) t.

(** ** Node pools (nodepool.proto) *)

Inductive NodeType := worker | master | apiEndpoint.
#[export] Instance NodeType_eq_dec : EqDecision NodeType.
Proof. solve_decision. Defined.

Inductive NodeStatus := Preparing | Joined | MarkedForDeletion.
#[export] Instance NodeStatus_eq_dec : EqDecision NodeStatus.
Proof. solve_decision. Defined.

Record Node := mkNode {
  Node_Name : string;
  Node_Private : string;
  Node_Public : string;
  Node_NodeType : NodeType;
  Node_Username : string;
  Node_Status : NodeStatus;
  Node_SshPort : Z;
  Node_WireguardPort : Z }.
#[export] Instance Node_eq_dec : EqDecision Node.
Proof. solve_decision. Defined.

Definition set_Node_NodeType (n : Node) (t : NodeType) : Node :=
  mkNode (Node_Name n) (Node_Private n) (Node_Public n) t (Node_Username n)
    (Node_Status n) (Node_SshPort n) (Node_WireguardPort n).

Definition set_Node_Status (n : Node) (s : NodeStatus) : Node :=
  mkNode (Node_Name n) (Node_Private n) (Node_Public n) (Node_NodeType n) (Node_Username n)
    s (Node_SshPort n) (Node_WireguardPort n).

Record Taint := mkTaint { Taint_Key : string; Taint_Value : string; Taint_Effect : string }.
#[export] Instance Taint_eq_dec : EqDecision Taint.
Proof. solve_decision. Defined.

Record MachineSpec := mkMachineSpec {
  MachineSpec_CpuCount : Z; MachineSpec_Memory : Z;
  MachineSpec_NvidiaGpuCount : Z; MachineSpec_NvidiaGpuType : string }.
#[export] Instance MachineSpec_eq_dec : EqDecision MachineSpec.
Proof. solve_decision. Defined.

Record AutoscalerConf := mkAutoscalerConf {
  Autoscaler_Min : Z; Autoscaler_Max : Z; Autoscaler_TargetSize : Z }.
#[export] Instance AutoscalerConf_eq_dec : EqDecision AutoscalerConf.
Proof. solve_decision. Defined.

Definition set_Autoscaler_TargetSize (a : AutoscalerConf) (t : Z) : AutoscalerConf :=
  mkAutoscalerConf (Autoscaler_Min a) (Autoscaler_Max a) t.

Record DynamicNodePool := mkDynamicNodePool {
  Dyn_ServerType : string;
  Dyn_Image : string;
  Dyn_StorageDiskSize : Z;
  Dyn_Region : string;
  Dyn_Zone : string;
  Dyn_Count : Z;
  Dyn_Provider : Provider;
  Dyn_AutoscalerConfig : option AutoscalerConf;
  Dyn_MachineSpec : option MachineSpec;
  Dyn_PublicKey : string;
  Dyn_PrivateKey : string;
  Dyn_Cidr : string;
  Dyn_ExternalNetworkName : string;
  Dyn_Spot : bool }.
#[export] Instance DynamicNodePool_eq_dec : EqDecision DynamicNodePool.
Proof. solve_decision. Defined.

Definition set_Dyn_Count (d : DynamicNodePool) (c : Z) : DynamicNodePool :=
  mkDynamicNodePool (Dyn_ServerType d) (Dyn_Image d) (Dyn_StorageDiskSize d) (Dyn_Region d)
    (Dyn_Zone d) c (Dyn_Provider d) (Dyn_AutoscalerConfig d) (Dyn_MachineSpec d)
    (Dyn_PublicKey d) (Dyn_PrivateKey d) (Dyn_Cidr d) (Dyn_ExternalNetworkName d) (Dyn_Spot d).

Definition set_Dyn_Provider (d : DynamicNodePool) (p : Provider) : DynamicNodePool :=
  mkDynamicNodePool (Dyn_ServerType d) (Dyn_Image d) (Dyn_StorageDiskSize d) (Dyn_Region d)
    (Dyn_Zone d) (Dyn_Count d) p (Dyn_AutoscalerConfig d) (Dyn_MachineSpec d)
    (Dyn_PublicKey d) (Dyn_PrivateKey d) (Dyn_Cidr d) (Dyn_ExternalNetworkName d) (Dyn_Spot d).

Definition set_Dyn_Autoscaler (d : DynamicNodePool) (a : option AutoscalerConf) : DynamicNodePool :=
  mkDynamicNodePool (Dyn_ServerType d) (Dyn_Image d) (Dyn_StorageDiskSize d) (Dyn_Region d)
    (Dyn_Zone d) (Dyn_Count d) (Dyn_Provider d) a (Dyn_MachineSpec d)
    (Dyn_PublicKey d) (Dyn_PrivateKey d) (Dyn_Cidr d) (Dyn_ExternalNetworkName d) (Dyn_Spot d).

Definition set_Dyn_Keys (d : DynamicNodePool) (pub priv cidr : string) : DynamicNodePool :=
  mkDynamicNodePool (Dyn_ServerType d) (Dyn_Image d) (Dyn_StorageDiskSize d) (Dyn_Region d)
    (Dyn_Zone d) (Dyn_Count d) (Dyn_Provider d) (Dyn_AutoscalerConfig d) (Dyn_MachineSpec d)
    pub priv cidr (Dyn_ExternalNetworkName d) (Dyn_Spot d).

(** [<Node Endpoint>] to private key. *)
Record StaticNodePool := mkStaticNodePool { Static_NodeKeys : gmap string string }.
#[export] Instance StaticNodePool_eq_dec : EqDecision StaticNodePool.
Proof. solve_decision. Defined.

Inductive NodePoolType :=
| NodePool_DynamicNodePool (d : DynamicNodePool)
| NodePool_StaticNodePool (s : StaticNodePool)
| NodePool_nil.
#[export] Instance NodePoolType_eq_dec : EqDecision NodePoolType.
Proof. solve_decision. Defined.

Record NodePool := mkNodePool {
  NodePool_Type : NodePoolType;
  NodePool_Name : string;
  NodePool_Nodes : list Node;
  NodePool_IsControl : bool;
  NodePool_Labels : gmap string string;
  NodePool_Taints : list Taint;
  NodePool_Annotations : gmap string string;
  NodePool_SshPort : Z }.
#[export] Instance NodePool_eq_dec : EqDecision NodePool.
Proof. solve_decision. Defined.

Definition set_NodePool_Type (np : NodePool) (t : NodePoolType) : NodePool :=
  mkNodePool t (NodePool_Name np) (NodePool_Nodes np) (NodePool_IsControl np)
    (NodePool_Labels np) (NodePool_Taints np) (NodePool_Annotations np) (NodePool_SshPort np).

Definition set_NodePool_Name (np : NodePool) (n : string) : NodePool :=
  mkNodePool (NodePool_Type np) n (NodePool_Nodes np) (NodePool_IsControl np)
    (NodePool_Labels np) (NodePool_Taints np) (NodePool_Annotations np) (NodePool_SshPort np).

Definition set_NodePool_Nodes (np : NodePool) (ns : list Node) : NodePool :=
  mkNodePool (NodePool_Type np) (NodePool_Name np) ns (NodePool_IsControl np)
    (NodePool_Labels np) (NodePool_Taints np) (NodePool_Annotations np) (NodePool_SshPort np).

Definition set_NodePool_SshPort (np : NodePool) (p : Z) : NodePool :=
  mkNodePool (NodePool_Type np) (NodePool_Name np) (NodePool_Nodes np) (NodePool_IsControl np)
    (NodePool_Labels np) (NodePool_Taints np) (NodePool_Annotations np) p.

Definition GetDynamicNodePool (np : NodePool) : option DynamicNodePool :=
  match NodePool_Type np with NodePool_DynamicNodePool d => Some d | _ => None end.

Definition GetStaticNodePool (np : NodePool) : option StaticNodePool :=
  match NodePool_Type np with NodePool_StaticNodePool s => Some s | _ => None end.

(** ** Clusters (manifest.proto) *)

Record ClusterInfo := mkClusterInfo {
  ClusterInfo_Name : string;
  ClusterInfo_Hash : string;
  ClusterInfo_NodePools : list NodePool }.
#[export] Instance ClusterInfo_eq_dec : EqDecision ClusterInfo.
Proof. solve_decision. Defined.

Definition set_NodePools (c : ClusterInfo) (nps : list NodePool) : ClusterInfo :=
  mkClusterInfo (ClusterInfo_Name c) (ClusterInfo_Hash c) nps.

Record InstallationProxy := mkInstallationProxy {
  Proxy_Mode : string; Proxy_Endpoint : string; Proxy_NoProxy : string }.
#[export] Instance InstallationProxy_eq_dec : EqDecision InstallationProxy.
Proof. solve_decision. Defined.

Record K8Scluster := mkK8Scluster {
  K8s_ClusterInfo : ClusterInfo;
  K8s_Network : string;
  K8s_Kubeconfig : string;
  K8s_Kubernetes : string;
  K8s_InstallationProxy : InstallationProxy }.
#[export] Instance K8Scluster_eq_dec : EqDecision K8Scluster.
Proof. solve_decision. Defined.

Definition set_K8s_ClusterInfo (k : K8Scluster) (c : ClusterInfo) : K8Scluster :=
  mkK8Scluster c (K8s_Network k) (K8s_Kubeconfig k) (K8s_Kubernetes k) (K8s_InstallationProxy k).

Definition K8s_NodePools (k : K8Scluster) : list NodePool := ClusterInfo_NodePools (K8s_ClusterInfo k).

Definition set_K8s_NodePools (k : K8Scluster) (nps : list NodePool) : K8Scluster :=
  set_K8s_ClusterInfo k (set_NodePools (K8s_ClusterInfo k) nps).

Record AlternativeName := mkAlternativeName { Alt_Hostname : string; Alt_Endpoint : string }.
#[export] Instance AlternativeName_eq_dec : EqDecision AlternativeName.
Proof. solve_decision. Defined.

Record DNS := mkDNS {
  DNS_DnsZone : string;
  DNS_Hostname : string;
  DNS_Provider : Provider;
  DNS_Endpoint : string;
  DNS_AlternativeNames : list AlternativeName }.
#[export] Instance DNS_eq_dec : EqDecision DNS.
Proof. solve_decision. Defined.

Inductive RoleType := ApiServer | Ingress.
#[export] Instance RoleType_eq_dec : EqDecision RoleType.
Proof. solve_decision. Defined.

Record Role_Settings := mkRole_Settings {
  Settings_ProxyProtocol : bool;
  Settings_StickySessions : bool;
  Settings_EnvoyAdminPort : Z }.
#[export] Instance Role_Settings_eq_dec : EqDecision Role_Settings.
Proof. solve_decision. Defined.

Record Role := mkRole {
  Role_Name : string;
  Role_Protocol : string;
  Role_Port : Z;
  Role_TargetPort : Z;
  Role_RoleType : RoleType;
  Role_TargetPools : list string;
  Role_Settings_ : Role_Settings }.
#[export] Instance Role_eq_dec : EqDecision Role.
Proof. solve_decision. Defined.

Definition set_Role_TargetPools (r : Role) (tp : list string) : Role :=
  mkRole (Role_Name r) (Role_Protocol r) (Role_Port r) (Role_TargetPort r) (Role_RoleType r)
    tp (Role_Settings_ r).

Definition set_Role_EnvoyAdminPort (r : Role) (p : Z) : Role :=
  mkRole (Role_Name r) (Role_Protocol r) (Role_Port r) (Role_TargetPort r) (Role_RoleType r)
    (Role_TargetPools r)
    (mkRole_Settings (Settings_ProxyProtocol (Role_Settings_ r))
       (Settings_StickySessions (Role_Settings_ r)) p).

Definition Role_EnvoyAdminPort (r : Role) : Z := Settings_EnvoyAdminPort (Role_Settings_ r).

Record LBcluster := mkLBcluster {
  LB_ClusterInfo : ClusterInfo;
  LB_Roles : list Role;
  LB_Dns : option DNS;
  LB_TargetedK8S : string;
  LB_UsedApiEndpoint : bool }.
#[export] Instance LBcluster_eq_dec : EqDecision LBcluster.
Proof. solve_decision. Defined.

Definition LB_NodePools (l : LBcluster) : list NodePool := ClusterInfo_NodePools (LB_ClusterInfo l).

Definition set_LB_NodePools (l : LBcluster) (nps : list NodePool) : LBcluster :=
  mkLBcluster (set_NodePools (LB_ClusterInfo l) nps) (LB_Roles l) (LB_Dns l)
    (LB_TargetedK8S l) (LB_UsedApiEndpoint l).

Definition set_LB_Roles (l : LBcluster) (rs : list Role) : LBcluster :=
  mkLBcluster (LB_ClusterInfo l) rs (LB_Dns l) (LB_TargetedK8S l) (LB_UsedApiEndpoint l).

Definition set_LB_UsedApiEndpoint (l : LBcluster) (b : bool) : LBcluster :=
  mkLBcluster (LB_ClusterInfo l) (LB_Roles l) (LB_Dns l) (LB_TargetedK8S l) b.

Definition set_LB_Dns (l : LBcluster) (d : option DNS) : LBcluster :=
  mkLBcluster (LB_ClusterInfo l) (LB_Roles l) d (LB_TargetedK8S l) (LB_UsedApiEndpoint l).

Record Clusters := mkClusters {
  K8S : option K8Scluster;
  LoadBalancers : list LBcluster }.
#[export] Instance Clusters_eq_dec : EqDecision Clusters.
Proof. solve_decision. Defined.

(** ** Pipeline stages (pass.proto) *)

Inductive ErrorLevel := ERROR_FATAL | ERROR_WARN.
#[export] Instance ErrorLevel_eq_dec : EqDecision ErrorLevel.
Proof. solve_decision. Defined.

Record StageDescription := mkDesc { About : string; Level : ErrorLevel }.
#[export] Instance StageDescription_eq_dec : EqDecision StageDescription.
Proof. solve_decision. Defined.

Inductive StageTerraformer_SubPassKind :=
| BUILD_INFRASTRUCTURE | UPDATE_INFRASTRUCTURE | DESTROY_INFRASTRUCTURE | API_PORT_ON_KUBERNETES.
#[export] Instance StageTerraformer_SubPassKind_eq_dec : EqDecision StageTerraformer_SubPassKind.
Proof. solve_decision. Defined.

Inductive StageAnsibler_SubPassKind :=
| INSTALL_NODE_REQUIREMENTS | INSTALL_VPN | DETERMINE_API_ENDPOINT_CHANGE
| RECONCILE_LOADBALANCERS | REMOVE_CLAUDIE_UTILITIES | UPDATE_API_ENDPOINT
| COMMIT_PROXY_ENVS | UPDATE_PROXY_ENVS_ON_NODES | CLEAR_PROXY_ENVS_ON_NODES.
#[export] Instance StageAnsibler_SubPassKind_eq_dec : EqDecision StageAnsibler_SubPassKind.
Proof. solve_decision. Defined.

Inductive StageKubeEleven_SubPassKind := RECONCILE_CLUSTER | DESTROY_CLUSTER.
#[export] Instance StageKubeEleven_SubPassKind_eq_dec : EqDecision StageKubeEleven_SubPassKind.
Proof. solve_decision. Defined.

Inductive StageKuber_SubPassKind :=
| CILIUM_RESTART | DELETE_NODES | PATCH_CLUSTER_INFO_CM | PATCH_KUBEADM
| REMOVE_LB_SCRAPE_CONFIG | STORE_LB_SCRAPE_CONFIG | PATCH_NODES | DEPLOY_LONGHORN
| ENABLE_LONGHORN_CA | DISABLE_LONGHORN_CA | RECONCILE_LONGHORN_STORAGE_CLASSES
| DEPLOY_KUBELET_CSR_APPROVER.
#[export] Instance StageKuber_SubPassKind_eq_dec : EqDecision StageKuber_SubPassKind.
Proof. solve_decision. Defined.

Record SubPass (K : Type) := mkSubPass { Kind : K; Description : StageDescription }.
Arguments mkSubPass {K} _ _.
Arguments Kind {K} _.
Arguments Description {K} _.
#[export] Instance SubPass_eq_dec {K} `{EqDecision K} : EqDecision (SubPass K).
Proof. solve_decision. Defined.

Inductive Stage :=
| Stage_Terraformer (d : StageDescription) (subPasses : list (SubPass StageTerraformer_SubPassKind))
| Stage_Ansibler (d : StageDescription) (subPasses : list (SubPass StageAnsibler_SubPassKind))
| Stage_KubeEleven (d : StageDescription) (subPasses : list (SubPass StageKubeEleven_SubPassKind))
| Stage_Kuber (d : StageDescription) (subPasses : list (SubPass StageKuber_SubPassKind)).
#[export] Instance Stage_eq_dec : EqDecision Stage.
Proof. solve_decision. Defined.

(** [fatal]/[warn] build the [StageDescription] literals of the schedulers. *)
Definition fatal (about : string) : StageDescription := mkDesc about ERROR_FATAL.
Definition warn (about : string) : StageDescription := mkDesc about ERROR_WARN.

(** ** Tasks (manifest.proto) *)

Inductive Event := UNKNOWN | CREATE | UPDATE | DELETE.
#[export] Instance Event_eq_dec : EqDecision Event.
Proof. solve_decision. Defined.

Inductive ApiEndpointChangeState :=
| NoChange | AttachingLoadBalancer | DetachingLoadBalancer | EndpointRenamed | MoveEndpoint.
#[export] Instance ApiEndpointChangeState_eq_dec : EqDecision ApiEndpointChangeState.
Proof. solve_decision. Defined.

Record Unreachable := mkUnreachable {
  Unreachable_Kubernetes : gmap string (list string);
  Unreachable_Loadbalancers : gmap string (gmap string (list string)) }.
#[export] Instance Unreachable_eq_dec : EqDecision Unreachable.
Proof. solve_decision. Defined.

(** [Existing]/[New] alternatives of the "add nodes" messages. *)
Inductive AddNodesKind :=
| Existing (nodepool : string) (nodes : list Node)
| New (nodepool : NodePool)
| AddNodes_nil.
#[export] Instance AddNodesKind_eq_dec : EqDecision AddNodesKind.
Proof. solve_decision. Defined.

(** [Whole]/[Partial] alternatives of the "deleted nodes" messages; a whole
    node pool is a pointer, nil when the lookup that fills it fails. *)
Inductive DeletedNodesKind :=
| Whole (nodepool : option NodePool)
| Partial (nodepool : string) (nodes : list Node) (staticNodeKeys : gmap string string)
| DeletedNodes_nil.
#[export] Instance DeletedNodesKind_eq_dec : EqDecision DeletedNodesKind.
Proof. solve_decision. Defined.

Record KuberPatchNodes := mkKuberPatchNodes {
  Add_Taints : gmap string (list Taint);
  Add_Labels : gmap string (gmap string string);
  Add_Annotations : gmap string (gmap string string);
  Remove_Taints : gmap string (list Taint);
  Remove_Annotations : gmap string (list string);
  Remove_Labels : gmap string (list string) }.
#[export] Instance KuberPatchNodes_eq_dec : EqDecision KuberPatchNodes.
Proof. solve_decision. Defined.

Inductive Delta :=
| Update_None_
| Update_TfAddLoadBalancer (handle : LBcluster)
| Update_TfAddLoadBalancerNodes (handle : string) (kind : AddNodesKind)
| Update_TfReplaceDns (handle : string) (dns : option DNS) (oldApiEndpoint : option string)
| Update_TfAddK8SNodes (kind : AddNodesKind)
| Update_TfAddLoadBalancerRoles (handle : string) (roles : list Role)
| Update_TfDeleteLoadBalancerNodes (handle : string) (withNodePool : bool) (nodepool : string)
    (nodes : list string) (unreachable : option Unreachable)
| Update_TfMoveNodePoolToAutoscaled (nodepool : string) (config : AutoscalerConf)
| Update_TfMoveNodePoolFromAutoscaled (nodepool : string)
| Update_TfReplaceRoleExternalSettings (handle role : string) (roleType : RoleType)
    (protocol : string) (port : Z)
| Update_AnsReplaceProxy (proxy : InstallationProxy)
| Update_AnsReplaceTargetPools (handle : string) (roles : gmap string (list string))
| Update_AnsReplaceRoleInternalSettings (handle role : string) (targetPort : Z)
    (settings : option Role_Settings)
| Update_KpatchNodes (patch : KuberPatchNodes)
| Update_KDeleteNodes (withNodePool : bool) (nodepool : string) (nodes : list string)
    (unreachable : option Unreachable)
| Update_AddedLoadBalancer_ (handle : string)
| Update_AddedLoadBalancerNodes_ (handle : string) (newNodePool : bool) (nodePool : string)
    (nodes : list string)
| Update_ReplacedDns_ (handle : string) (oldApiEndpoint : option string)
| Update_AddedK8SNodes_ (newNodePool : bool) (nodepool : string) (nodes : list string)
| Update_ReplacedProxy
| Update_PatchedNodes_
| Update_AddedLoadBalancerRoles_ (handle : string) (roles : list string)
| Update_ReplacedTargetPools_ (handle : string) (roles : gmap string (list string))
| Update_MovedNodePoolToAutoscaled_ (nodepool : string)
| Update_MovedNodePoolFromAutoscaled_ (nodepool : string) (config : option AutoscalerConf)
| Update_ReplacedRoleInternalSettings_ (handle role : string)
| Update_ReplacedRoleExternalSettings_ (handle role : string)
| Update_DeleteLoadBalancer_ (handle : string) (unreachable : option Unreachable)
| Update_DeletedK8SNodes_ (unreachable : option Unreachable) (kind : DeletedNodesKind)
| Update_DeletedLoadBalancerNodes_ (unreachable : option Unreachable) (handle : string)
    (kind : DeletedNodesKind)
| Update_DeleteLoadBalancerRoles_ (handle : string) (roles : list string)
| Update_ApiEndpoint_ (state : ApiEndpointChangeState) (currentEndpointId desiredEndpointId : string)
| Update_ClusterApiPort (open : bool)
| Update_K8SApiEndpoint (nodepool node : string)
| Update_UpgradeVersion_ (version : string)
| Update_nil.
#[export] Instance Delta_eq_dec : EqDecision Delta.
Proof. solve_decision. Defined.

(** Every task carries the state it works on: the [k8s] pointer and the
    attached load balancers. *)
Inductive Task :=
| Task_Create (state : Clusters)
| Task_Update (state : Clusters) (delta : Delta)
| Task_Delete (state : Clusters)
| Task_nil.
#[export] Instance Task_eq_dec : EqDecision Task.
Proof. solve_decision. Defined.

(** [LowerPriority] chains a task behind the one that overtook it. *)
Inductive TaskEvent := mkTaskEvent {
  TaskEvent_Id : string;
  TaskEvent_Timestamp : Z;
  TaskEvent_Event : Event;
  TaskEvent_Task : Task;
  TaskEvent_Description : string;
  TaskEvent_Pipeline : list Stage;
  TaskEvent_CurrentStage : Z;
  TaskEvent_LowerPriority : option TaskEvent }.

Definition set_TaskEvent_Id (t : TaskEvent) (id : string) : TaskEvent :=
  mkTaskEvent id (TaskEvent_Timestamp t) (TaskEvent_Event t) (TaskEvent_Task t)
    (TaskEvent_Description t) (TaskEvent_Pipeline t) (TaskEvent_CurrentStage t)
    (TaskEvent_LowerPriority t).

Definition set_TaskEvent_Task (t : TaskEvent) (tk : Task) : TaskEvent :=
  mkTaskEvent (TaskEvent_Id t) (TaskEvent_Timestamp t) (TaskEvent_Event t) tk
    (TaskEvent_Description t) (TaskEvent_Pipeline t) (TaskEvent_CurrentStage t)
    (TaskEvent_LowerPriority t).

Definition set_TaskEvent_CurrentStage (t : TaskEvent) (s : Z) : TaskEvent :=
  mkTaskEvent (TaskEvent_Id t) (TaskEvent_Timestamp t) (TaskEvent_Event t) (TaskEvent_Task t)
    (TaskEvent_Description t) (TaskEvent_Pipeline t) s (TaskEvent_LowerPriority t).

Definition set_TaskEvent_LowerPriority (t : TaskEvent) (l : option TaskEvent) : TaskEvent :=
  mkTaskEvent (TaskEvent_Id t) (TaskEvent_Timestamp t) (TaskEvent_Event t) (TaskEvent_Task t)
    (TaskEvent_Description t) (TaskEvent_Pipeline t) (TaskEvent_CurrentStage t) l.

(** ** Results sent back by the workers *)

Inductive ErrorKind := FATAL | PARTIAL.
#[export] Instance ErrorKind_eq_dec : EqDecision ErrorKind.
Proof. solve_decision. Defined.

Record TaskResult_UpdateState := mkUpdateState {
  UpdateState_K8S : option K8Scluster;
  UpdateState_LoadBalancers : list LBcluster }.

Record TaskResult_ClearState := mkClearState {
  ClearState_K8S : option bool;
  ClearState_LoadBalancersIDs : list string }.

Inductive TaskResult_Result :=
| TaskResult_None_
| TaskResult_Update (u : TaskResult_UpdateState)
| TaskResult_Clear (c : TaskResult_ClearState)
| TaskResult_nil.

Record TaskResult := mkTaskResult {
  TaskResult_Error : option (ErrorKind * string);
  TaskResult_Result_ : TaskResult_Result }.

(** ** Workflow and configuration *)

Inductive Workflow_Status := DONE | ERROR | IN_PROGRESS | WAIT_FOR_PICKUP.
#[export] Instance Workflow_Status_eq_dec : EqDecision Workflow_Status.
Proof. solve_decision. Defined.

(** The stage kinds the store distinguishes (store/api.go). *)
Inductive StageKind := Unknown | Terraformer | Ansibler | KubeEleven | Kuber.
#[export] Instance StageKind_eq_dec : EqDecision StageKind.
Proof. solve_decision. Defined.

Record FinishedWorkflow := mkFinishedWorkflow {
  Finished_Status : Workflow_Status;
  Finished_TaskDescription : string;
  Finished_Stage : StageKind;
  Finished_Timestamp : Z }.
#[export] Instance FinishedWorkflow_eq_dec : EqDecision FinishedWorkflow.
Proof. solve_decision. Defined.

Record Workflow := mkWorkflow {
  Workflow_Status_ : Workflow_Status;
  Workflow_Description : string;
  Workflow_Previous : list FinishedWorkflow;
  Workflow_TicksUntilRefresh : Z }.
#[export] Instance Workflow_eq_dec : EqDecision Workflow.
Proof. solve_decision. Defined.

Definition set_Workflow_Status (w : Workflow) (s : Workflow_Status) (d : string) : Workflow :=
  mkWorkflow s d (Workflow_Previous w) (Workflow_TicksUntilRefresh w).

(** Failed scale-ups per autoscaled node pool. *)
Definition Counters := gmap string Z.

Record ClusterState := mkClusterState {
  Current : option Clusters;
  State : option Workflow;
  InFlight : option TaskEvent;
  K8SNodePoolScaleUpFailed : Counters }.

Definition set_Current (c : ClusterState) (x : option Clusters) : ClusterState :=
  mkClusterState x (State c) (InFlight c) (K8SNodePoolScaleUpFailed c).
Definition set_State (c : ClusterState) (x : option Workflow) : ClusterState :=
  mkClusterState (Current c) x (InFlight c) (K8SNodePoolScaleUpFailed c).
Definition set_InFlight (c : ClusterState) (x : option TaskEvent) : ClusterState :=
  mkClusterState (Current c) (State c) x (K8SNodePoolScaleUpFailed c).
Definition set_Counters (c : ClusterState) (x : Counters) : ClusterState :=
  mkClusterState (Current c) (State c) (InFlight c) x.

(** [manifest.State] (internal/api/manifest/state.go) and [Manifest_State]. *)
Inductive Manifest_State := Pending | Scheduled | Done | Error.
#[export] Instance Manifest_State_eq_dec : EqDecision Manifest_State.
Proof. solve_decision. Defined.

(** Checksums are byte slices that may be nil. *)
Record Manifest := mkManifest {
  Manifest_Raw : string;
  Manifest_Checksum : option string;
  Manifest_LastAppliedChecksum : option string;
  Manifest_State_ : Manifest_State;
  Manifest_StateTimestamp : Z }.

Record KubernetesContext := mkKubernetesContext {
  Ctx_Name : string; Ctx_Namespace : string }.

Record Config := mkConfig {
  Config_Version : Z;
  Config_Name : string;
  Config_K8SCtx : KubernetesContext;
  Config_Manifest : Manifest;
  Config_Clusters : gmap string ClusterState }.
