(* ===== verification/SpecUtils.v ===== *)
(** * Methods of the messages (proto/pb/spec/utils.go)

    Identity of a cluster, API-endpoint tests, and the credentials of a
    provider: reading, copying and comparing them. *)

From stdpp Require Import base gmap strings list.
From S2P Require Import Prelude Spec.

(** internal/sanitise: [String], on ASCII: lower case, and [-] for a space,
    a colon or an underscore *)
Definition sanitise_char (a : Ascii.ascii) : Ascii.ascii :=
  let n := Ascii.nat_of_ascii a in
  if bool_decide (n = 32) || bool_decide (n = 58) || bool_decide (n = 95) then Ascii.ascii_of_nat 45 else a.

Fixpoint replace_chars (s : string) : string :=
  match s with EmptyString => EmptyString | String a s => String (sanitise_char a) (replace_chars s) end.

Definition sanitise_String (s : string) : string := replace_chars (ToLower s).

(** [ClusterInfo.Id] *)
Definition Id (c : ClusterInfo) : string :=
  String.append (ClusterInfo_Name c) (String.append "-" (ClusterInfo_Hash c)).

Definition K8s_Id (k : K8Scluster) : string := Id (K8s_ClusterInfo k).
Definition LB_Id (l : LBcluster) : string := Id (LB_ClusterInfo l).

Definition HasApiRole (c : option LBcluster) : bool :=
  match c with
  | None => false
  | Some c => existsb (λ r, bool_decide (Role_RoleType r = ApiServer)) (LB_Roles c)
  end.

Definition IsApiEndpoint (c : option LBcluster) : bool :=
  match c with
  | None => false
  | Some c' => HasApiRole c && LB_UsedApiEndpoint c'
  end.

Definition EndpointNode (n : option NodePool) : option Node :=
  match n with
  | None => None
  | Some np => find_first (λ node, bool_decide (Node_NodeType node = apiEndpoint)) (NodePool_Nodes np)
  end.

Definition Credentials (pr : option Provider) : outcome string :=
  match pr with
  | None => Ret ""
  | Some p =>
      match Provider_Type p with
      | Provider_Gcp key _ => Ret key
      | Provider_Hetzner token => Ret token
      | Provider_Oci _ _ _ _ privateKey => Ret privateKey
      | Provider_Aws secretKey _ => Ret secretKey
      | Provider_Azure _ _ _ clientSecret => Ret clientSecret
      | Provider_Cloudflare token _ => Ret token
      | Provider_Openstack _ _ _ _ secret => Ret secret
      | Provider_Exoscale _ apiSecret => Ret apiSecret
      | Provider_Cloudrift token _ => Ret token
      | Provider_Verda _ clientSecret _ => Ret clientSecret
      | Provider_Ovh _ clientSecret _ _ => Ret clientSecret
      | Provider_nil => Panic "unexpected type"
      end
  end.

(** The receiver after the call and the [updated] result. *)
Definition CopyCredentials (pr other : option Provider) : option Provider * bool :=
  match pr, other with
  | None, _ => (pr, false)
  | _, None => (pr, false)
  | Some p, Some o =>
      let ok t := (Some (set_Provider_Type p t), true) in
      match Provider_Type p, Provider_Type o with
      | Provider_Aws _ _, Provider_Aws sk ak => ok (Provider_Aws sk ak)
      | Provider_Azure sub ten cid _, Provider_Azure _ _ _ cs => ok (Provider_Azure sub ten cid cs)
      | Provider_Cloudflare _ acc, Provider_Cloudflare t _ => ok (Provider_Cloudflare t acc)
      | Provider_Cloudrift _ team, Provider_Cloudrift t _ => ok (Provider_Cloudrift t team)
      | Provider_Exoscale _ _, Provider_Exoscale k s => ok (Provider_Exoscale k s)
      | Provider_Gcp _ proj, Provider_Gcp k _ => ok (Provider_Gcp k proj)
      | Provider_Hetzner _, Provider_Hetzner t => ok (Provider_Hetzner t)
      | Provider_Oci u t _ c _, Provider_Oci _ _ fp _ pk => ok (Provider_Oci u t fp c pk)
      | Provider_Openstack a d pj _ _, Provider_Openstack _ _ _ id sec =>
          ok (Provider_Openstack a d pj id sec)
      | Provider_Verda _ _ _, Provider_Verda id sec url => ok (Provider_Verda id sec url)
      | Provider_Ovh _ _ _ ep, Provider_Ovh id sec sn _ => ok (Provider_Ovh id sec sn ep)
      | _, _ => (pr, false)
      end
  end.

(** [GetBaseUrl] of an unset optional string is the empty string. *)
Definition GetBaseUrl (u : option string) : string := default "" u.

Definition CredentialsEqual (pr other : option Provider) : bool :=
  match pr, other with
  | Some p, Some o =>
      match Provider_Type p, Provider_Type o with
      | Provider_Aws sk ak, Provider_Aws sk' ak' => bool_decide (ak = ak') && bool_decide (sk = sk')
      | Provider_Azure _ _ _ s, Provider_Azure _ _ _ s' => bool_decide (s = s')
      | Provider_Cloudflare t _, Provider_Cloudflare t' _ => bool_decide (t = t')
      | Provider_Cloudrift t _, Provider_Cloudrift t' _ => bool_decide (t = t')
      | Provider_Exoscale k s, Provider_Exoscale k' s' => bool_decide (s = s') && bool_decide (k = k')
      | Provider_Gcp k _, Provider_Gcp k' _ => bool_decide (k = k')
      | Provider_Hetzner t, Provider_Hetzner t' => bool_decide (t = t')
      | Provider_Oci _ _ fp _ pk, Provider_Oci _ _ fp' _ pk' =>
          bool_decide (fp = fp') && bool_decide (pk = pk')
      | Provider_Openstack _ _ _ id s, Provider_Openstack _ _ _ id' s' =>
          bool_decide (id = id') && bool_decide (s = s')
      | Provider_Verda id s u, Provider_Verda id' s' u' =>
          bool_decide (id = id') && bool_decide (s = s') && bool_decide (GetBaseUrl u = GetBaseUrl u')
      | Provider_Ovh id s n _, Provider_Ovh id' s' n' _ =>
          bool_decide (id = id') && bool_decide (s = s') && bool_decide (n = n')
      | _, _ => false
      end
  | _, _ => false
  end.

(** [NodePool.Zone]: the STATIC_PROVIDER enum name stands for a static pool. *)
Definition Zone (n : NodePool) : outcome string :=
  let* sn := match NodePool_Type n with
             | NodePool_DynamicNodePool d => Ret (Provider_SpecName (Dyn_Provider d))
             | NodePool_StaticNodePool _ => Ret "STATIC_PROVIDER"
             | NodePool_nil => Panic "unsupported nodepool type"
             end in
  if bool_decide (sn = "") then Panic "no zone specified"
  else Ret (String.append sn "-zone").

(** Two providers are of the same kind. *)
Definition same_provider_kind (a b : ProviderType) : bool :=
  match a, b with
  | Provider_Gcp _ _, Provider_Gcp _ _ | Provider_Hetzner _, Provider_Hetzner _
  | Provider_Oci _ _ _ _ _, Provider_Oci _ _ _ _ _ | Provider_Aws _ _, Provider_Aws _ _
  | Provider_Azure _ _ _ _, Provider_Azure _ _ _ _
  | Provider_Cloudflare _ _, Provider_Cloudflare _ _
  | Provider_Openstack _ _ _ _ _, Provider_Openstack _ _ _ _ _
  | Provider_Exoscale _ _, Provider_Exoscale _ _ | Provider_Cloudrift _ _, Provider_Cloudrift _ _
  | Provider_Verda _ _ _, Provider_Verda _ _ _ | Provider_Ovh _ _ _ _, Provider_Ovh _ _ _ _ => true
  | _, _ => false
  end.

(** Case analysis on the [oneof]s of two providers. *)
Ltac provider_cases p o :=
  destruct p as [? ? tp ?]; destruct o as [? ? to_ ?];
  destruct tp, to_; simpl in *; try done.

Lemma bool_decide_refl {A} `{EqDecision A} (x : A) : bool_decide (x = x) = true.
Proof. by apply bool_decide_eq_true. Qed.

Lemma bool_decide_ne_refl {A} `{EqDecision A} (x : A) : bool_decide (x ≠ x) = false.
Proof. apply bool_decide_eq_false. by intros ?. Qed.

#[export] Hint Rewrite @bool_decide_refl @bool_decide_ne_refl : claudie_rw.

Lemma CopyCredentials_updated p o :
  (CopyCredentials (Some p) (Some o)).2 = same_provider_kind (Provider_Type p) (Provider_Type o).
Proof. provider_cases p o. Qed.

Lemma CopyCredentials_equal p o p' :
  CopyCredentials (Some p) (Some o) = (Some p', true) → CredentialsEqual (Some p') (Some o) = true.
Proof. provider_cases p o; intros [= <-]; simpl; autorewrite with claudie_rw; done. Qed.

Lemma CopyCredentials_frame p o p' b :
  CopyCredentials (Some p) (Some o) = (Some p', b) →
  Provider_SpecName p' = Provider_SpecName p ∧
  Provider_CloudProviderName p' = Provider_CloudProviderName p ∧
  Provider_Templates p' = Provider_Templates p ∧
  (b = false → p' = p).
Proof. provider_cases p o; intros [= <- <-]; simpl; done. Qed.

Lemma CredentialsEqual_kind p o :
  CredentialsEqual (Some p) (Some o) = true →
  same_provider_kind (Provider_Type p) (Provider_Type o) = true.
Proof. provider_cases p o. Qed.

(** What [Credentials] hands to the infrastructure templates is decided by
    [CredentialsEqual]. *)
Lemma CredentialsEqual_Credentials p o :
  CredentialsEqual (Some p) (Some o) = true → Credentials (Some p) = Credentials (Some o).
Proof.
  provider_cases p o; rewrite ?andb_true_iff, ?bool_decide_eq_true; naive_solver.
Qed.

Lemma HasApiRole_spec lb :
  HasApiRole (Some lb) = true ↔ ∃ r, r ∈ LB_Roles lb ∧ Role_RoleType r = ApiServer.
Proof.
  simpl. rewrite existsb_exists. setoid_rewrite bool_decide_eq_true.
  setoid_rewrite list_elem_of_In. done.
Qed.

Lemma IsApiEndpoint_HasApiRole lb : IsApiEndpoint lb = true → HasApiRole lb = true.
Proof. destruct lb; simpl; [rewrite andb_true_iff; tauto|done]. Qed.
