(* ===== verification/Samples.v ===== *)
(** * Concrete inputs

    One small infrastructure (a control plane pool and a static worker pool,
    with one load balancer in front) at which the theorems with hypotheses
    are instantiated. *)

From stdpp Require Import base gmap strings list.
From S2P Require Import Prelude Spec SpecUtils.

Module Samples.

Definition templates (commit : string) : TemplateRepository :=
  mkTemplateRepository "v1" commit (mkEndpoint "github.com/berops/claudie-config" PROTOCOL_HTTPS) None
    (mkTemplatePaths "tf" "pb" "lb" "k8s" "man").

Definition hetzner (token commit : string) : Provider :=
  mkProvider "hetzner-1" "hetzner" (Provider_Hetzner token) (templates commit).

Definition node (name public : string) (t : NodeType) : Node :=
  mkNode name "" public t "root" Preparing 22 51820.

Definition dyn (count : Z) (auto : option AutoscalerConf) (token commit cidr : string) : DynamicNodePool :=
  mkDynamicNodePool "cpx11" "ubuntu" 50 "nbg1" "nbg1-dc3" count (hetzner token commit) auto None
    "pub" "priv" cidr "" false.

Definition pool (name : string) (control : bool) (d : DynamicNodePool) (ns : list Node) : NodePool :=
  mkNodePool (NodePool_DynamicNodePool d) name ns control ∅ [] ∅ 22.

Definition ctrl : NodePool :=
  pool "ctrl-0000001" true (dyn 2 None "t" "c1" "10.0.0.0/24")
    [node "ctrl-0000001-01" "1.1.1.1" apiEndpoint; node "ctrl-0000001-02" "1.1.1.2" master].

(** The same pool after its first node, the API endpoint, is gone. *)
Definition ctrl_shrunk : NodePool :=
  pool "ctrl-0000001" true (dyn 1 None "t" "c1" "10.0.0.0/24")
    [node "ctrl-0000001-02" "1.1.1.2" master].

Definition workers : NodePool :=
  mkNodePool (NodePool_StaticNodePool (mkStaticNodePool {["2.2.2.1" := "key-1"; "2.2.2.2" := "key-2"]}))
    "workers" [node "workers-01" "2.2.2.1" worker; node "workers-02" "2.2.2.2" worker]
    false {["zone" := "home"]} [] ∅ 22.

Definition workers_shrunk : NodePool :=
  mkNodePool (NodePool_StaticNodePool (mkStaticNodePool {["2.2.2.1" := "key-1"]}))
    "workers" [node "workers-01" "2.2.2.1" worker] false {["zone" := "home"]} [] ∅ 22.

Definition k8s_with (nps : list NodePool) : K8Scluster :=
  mkK8Scluster (mkClusterInfo "prod" "abcdefg" nps) "192.168.2.0/24" "kubeconfig" "v1.30.0"
    (mkInstallationProxy "off" "" "").

Definition k8s : K8Scluster := k8s_with [ctrl; workers].

Definition role (name : string) (port : Z) (t : RoleType) : Role :=
  mkRole name "tcp" port port t ["ctrl"] (mkRole_Settings false false 60000).

Definition dns (endpoint : string) : DNS :=
  mkDNS "example.com" "api" (hetzner "t" "c1") endpoint [].

Definition lb_with (name : string) (nps : list NodePool) (roles : list Role) (used : bool) : LBcluster :=
  mkLBcluster (mkClusterInfo name "hijklmn" nps) roles (Some (dns "api.example.com")) "prod" used.

Definition lb_pool : NodePool :=
  pool "lb-0000002" false (dyn 1 None "t" "c1" "10.0.1.0/24") [node "lb-0000002-01" "3.3.3.1" worker].

Definition lb_static (ns : list Node) (keys : gmap string string) : NodePool :=
  mkNodePool (NodePool_StaticNodePool (mkStaticNodePool keys)) "edge" ns false ∅ [] ∅ 22.

Definition lb : LBcluster := lb_with "lb" [lb_pool] [role "api" 6443 ApiServer] true.

Definition clusters : Clusters := mkClusters (Some k8s) [lb].

End Samples.
