(* ===== verification/NodePools.v ===== *)
(** * Node pool operations (internal/nodepools, internal/clusters)

    The functions that every service uses to look up, copy, filter and
    delete node pools and their nodes.  Go mutates the pools through
    pointers; here a function that mutates its argument returns the mutated
    pool.  The invariant [wf_nodepool] (the node count of a dynamic pool, the
    key map of a static pool agree with the node list) is what the
    operations maintain. *)

From Stdlib Require Import Ascii.
From stdpp Require Import base gmap strings list.
From S2P Require Import Prelude Spec SpecUtils Samples.

Module NodePools.

(** ** internal/nodepools/nodepools.go *)

Definition DefaultSSHPort : Z := 22.

(** Returns the normalised pool and the port. *)
Definition SSHPort (np : NodePool) : NodePool * Z :=
  if bool_decide (NodePool_SshPort np = 0%Z)
  then (set_NodePool_SshPort np DefaultSSHPort, DefaultSSHPort)
  else (np, NodePool_SshPort np).

Definition NodeSSHPort (np : NodePool) (n : Node) : NodePool * Z :=
  if bool_decide (0 < Node_SshPort n)%Z then (np, Node_SshPort n) else SSHPort np.

Definition has_name (name : string) (np : NodePool) : bool := bool_decide (NodePool_Name np = name).
Definition node_in (names : list string) (n : Node) : bool := contains names (Node_Name n).
Definition is_node (name : string) (n : Node) : bool := bool_decide (Node_Name n = name).

(** Removes the first pool with that name. *)
Fixpoint DeleteByName (nodepools : list NodePool) (name : string) : list NodePool :=
  match nodepools with
  | [] => []
  | np :: l => if has_name name np then l else np :: DeleteByName l name
  end.

(** [delete(s.NodeKeys, k)] / [d.Count -= 1] on the pool's type. *)
Definition forget_node (t : NodePoolType) (n : Node) : NodePoolType :=
  match t with
  | NodePool_StaticNodePool s =>
      NodePool_StaticNodePool (mkStaticNodePool (delete (Node_Public n) (Static_NodeKeys s)))
  | NodePool_DynamicNodePool d =>
      NodePool_DynamicNodePool (set_Dyn_Count d (int32 (Dyn_Count d - 1)))
  | NodePool_nil => NodePool_nil
  end.

(** [slices.Delete(l, j, j+1)] at the first match. *)
Fixpoint remove_first {A} (f : A → bool) (l : list A) : list A :=
  match l with
  | [] => []
  | x :: l => if f x then l else x :: remove_first f l
  end.

Fixpoint DeleteNodeByName (nodepools : list NodePool) (nodeName : string)
    (keepNodePools : gset string) : list NodePool :=
  match nodepools with
  | [] => []
  | np :: l =>
      match find_first (is_node nodeName) (NodePool_Nodes np) with
      | None => np :: DeleteNodeByName l nodeName keepNodePools
      | Some n =>
          let np' := set_NodePool_Nodes (set_NodePool_Type np (forget_node (NodePool_Type np) n))
                       (remove_first (is_node nodeName) (NodePool_Nodes np)) in
          if bool_decide (NodePool_Nodes np' = []) && bool_decide (NodePool_Name np ∉ keepNodePools)
          then l
          else np' :: l
      end
  end.

Definition NodeCount (nodepools : list NodePool) : Z :=
  foldr (λ np out, match NodePool_Type np with
                   | NodePool_DynamicNodePool d => Dyn_Count d
                   | NodePool_StaticNodePool s => Z.of_nat (size (Static_NodeKeys s))
                   | NodePool_nil => 0
                   end + out)%Z 0%Z nodepools.

Definition AppendDynamicNodes (dst : NodePool) (nodes : list Node) : NodePool :=
  match NodePool_Type dst with
  | NodePool_DynamicNodePool d =>
      set_NodePool_Nodes
        (set_NodePool_Type dst (NodePool_DynamicNodePool
           (set_Dyn_Count d (int32 (Dyn_Count d + int32 (Z.of_nat (length nodes)))))))
        (NodePool_Nodes dst ++ nodes)
  | _ => dst
  end.

(** The key of an endpoint; reading a missing key of a Go map yields "". *)
Definition node_key (keys : gmap string string) (n : Node) : string := default "" (keys !! Node_Public n).

Definition keys_for (keys : gmap string string) (ns : list Node) : gmap string string :=
  list_to_map (reverse ((λ n, (Node_Public n, node_key keys n)) <$> ns)).

(** The deep-cloned type of a partial copy that keeps [ns]. *)
Definition retype (t : NodePoolType) (ns : list Node) : NodePoolType :=
  match t with
  | NodePool_DynamicNodePool d =>
      NodePool_DynamicNodePool (set_Dyn_Count d (int32 (Z.of_nat (length ns))))
  | NodePool_StaticNodePool s =>
      NodePool_StaticNodePool (mkStaticNodePool (keys_for (Static_NodeKeys s) ns))
  | NodePool_nil => NodePool_nil
  end.

Definition PartialCopyWithNodeExclusion (np : NodePool) (nodes : list string) : NodePool :=
  let kept := filter (λ n, node_in nodes n = false) (NodePool_Nodes np) in
  mkNodePool (retype (NodePool_Type np) kept) (NodePool_Name np) kept (NodePool_IsControl np)
    (NodePool_Labels np) (NodePool_Taints np) (NodePool_Annotations np) (NodePool_SshPort np).

Definition PartialCopyWithNodeFilter (np : NodePool) (nodes : list string) : NodePool :=
  let kept := filter (λ n, node_in nodes n = true) (NodePool_Nodes np) in
  mkNodePool (retype (NodePool_Type np) kept) (NodePool_Name np) kept (NodePool_IsControl np)
    (NodePool_Labels np) (NodePool_Taints np) (NodePool_Annotations np) (NodePool_SshPort np).

(** The literal sets no [SshPort], which is therefore 0. *)
Definition PartialCopyWithReplacedNodes (np : NodePool) (nodes : list Node)
    (nodeKeys : gmap string string) : NodePool :=
  mkNodePool
    match NodePool_Type np with
    | NodePool_DynamicNodePool d =>
        NodePool_DynamicNodePool (set_Dyn_Count d (int32 (Z.of_nat (length nodes))))
    | NodePool_StaticNodePool _ => NodePool_StaticNodePool (mkStaticNodePool nodeKeys)
    | NodePool_nil => NodePool_nil
    end
    (NodePool_Name np) nodes (NodePool_IsControl np)
    (NodePool_Labels np) (NodePool_Taints np) (NodePool_Annotations np) 0.

(** One iteration of the loop of [CopyNodes]. *)
Definition copy_node (src dst : NodePool) (n : Node) : NodePool :=
  let dst' := set_NodePool_Nodes dst (NodePool_Nodes dst ++ [n]) in
  match NodePool_Type src, NodePool_Type dst with
  | NodePool_DynamicNodePool _, NodePool_DynamicNodePool d =>
      set_NodePool_Type dst' (NodePool_DynamicNodePool (set_Dyn_Count d (int32 (Dyn_Count d + 1))))
  | NodePool_StaticNodePool s, NodePool_StaticNodePool t =>
      set_NodePool_Type dst' (NodePool_StaticNodePool (mkStaticNodePool
        (<[Node_Public n := node_key (Static_NodeKeys s) n]> (Static_NodeKeys t))))
  | _, _ => dst'
  end.

(** [dst] after the loop. *)
Definition copied_nodes (dst src : NodePool) (nodes : list string) : NodePool :=
  let noop := match NodePool_Type src, NodePool_Type dst with
              | NodePool_DynamicNodePool _, NodePool_DynamicNodePool _ => false
              | NodePool_DynamicNodePool _, _ => true
              | NodePool_StaticNodePool _, NodePool_StaticNodePool _ => false
              | NodePool_StaticNodePool _, _ => true
              | NodePool_nil, _ => false
              end in
  if noop then dst
  else foldl (copy_node src) dst (filter (λ n, node_in nodes n = true) (NodePool_Nodes src)).

Definition CloneTargetNodes (n : option NodePool) (nodes : list string) : list Node :=
  match n with
  | None => []
  | Some np => filter (λ n, node_in nodes n = true) (NodePool_Nodes np)
  end.

Definition DeleteNodes (np : NodePool) (nodes : list string) : NodePool :=
  let deleted := filter (λ n, node_in nodes n = true) (NodePool_Nodes np) in
  let np' := set_NodePool_Nodes np (delete_func (node_in nodes) (NodePool_Nodes np)) in
  set_NodePool_Type np'
    match NodePool_Type np with
    | NodePool_DynamicNodePool d =>
        NodePool_DynamicNodePool
          (set_Dyn_Count d (int32 (Dyn_Count d - int32 (Z.of_nat (length deleted)))))
    | NodePool_StaticNodePool s =>
        NodePool_StaticNodePool (mkStaticNodePool
          (foldl (λ keys n, delete (Node_Public n) keys) (Static_NodeKeys s) deleted))
    | NodePool_nil => NodePool_nil
    end.

Definition ContainsNode (nodepools : list NodePool) (nodeName : string) : bool :=
  existsb (λ np, existsb (is_node nodeName) (NodePool_Nodes np)) nodepools.

Fixpoint FindNode (nodepools : list NodePool) (nodeName : string) : option (NodePool * Node) :=
  match nodepools with
  | [] => None
  | np :: l =>
      match find_first (is_node nodeName) (NodePool_Nodes np) with
      | None => FindNode l nodeName
      | Some n => Some (np, n)
      end
  end.

(** [None] stands for -1. *)
Definition IndexByName (nodePoolName : string) (nodepools : list NodePool) : option nat :=
  index_func (has_name nodePoolName) nodepools.

Definition FindByName (nodePoolName : string) (nodePools : list NodePool) : option NodePool :=
  find_first (has_name nodePoolName) nodePools.

(** Applies a mutation to the pool [FindByName] returns a pointer to. *)
Definition update_nodepool (name : string) (f : NodePool → NodePool) (nps : list NodePool) : list NodePool :=
  update_first (has_name name) f nps.

Definition ExtractDynamic (nodepools : list NodePool) : list DynamicNodePool :=
  omap GetDynamicNodePool nodepools.

Definition IsAutoscaled (np : option NodePool) : bool :=
  match np ≫= GetDynamicNodePool with
  | Some d => bool_decide (is_Some (Dyn_AutoscalerConfig d))
  | None => false
  end.

Definition Autoscaled (nodepools : list NodePool) : list NodePool :=
  filter (λ np, IsAutoscaled (Some np) = true) nodepools.

Definition is_dynamic (np : NodePool) : bool := bool_decide (is_Some (GetDynamicNodePool np)).
Definition is_static (np : NodePool) : bool := bool_decide (is_Some (GetStaticNodePool np)).

(** The states that are worked on were unmarshalled or cloned, in which a map
    without entries is nil. *)
Definition nil_keys (np : NodePool) : bool :=
  match NodePool_Type np with
  | NodePool_StaticNodePool s => bool_decide (Static_NodeKeys s = ∅)
  | _ => false
  end.

(** The key of the first copied node is assigned to the map of [dst]. *)
Definition CopyNodes (dst src : NodePool) (nodes : list string) : outcome NodePool :=
  if is_static src && nil_keys dst && existsb (node_in nodes) (NodePool_Nodes src)
  then Panic "assignment to entry in nil map"
  else Ret (copied_nodes dst src nodes).

(** [CopyNodes] into the pool of the name in a list of pools; a nil [dst] is
    left alone. *)
Definition copy_into (np : string) (src : NodePool) (nodes : list string) (nps : list NodePool) : outcome (list NodePool) :=
  match FindByName np nps with
  | Some dst => let* dst := CopyNodes dst src nodes in Ret (update_nodepool np (λ _, dst) nps)
  | None => Ret nps
  end.

Definition Dynamic (nodepools : list NodePool) : list NodePool := filter (λ np, is_dynamic np = true) nodepools.
Definition Static (nodepools : list NodePool) : list NodePool := filter (λ np, is_static np = true) nodepools.

(** [hash.Length] (internal/hash/checksum.go) *)
Definition hash_Length : nat := 7.

Definition dash : Ascii.ascii := "-"%char.

(** [("", "")] when the name is not [nodepoolType-<7 character hash>]. *)
Definition MatchNameAndHashWithTemplate (nodepoolType nodepoolName : string) : string * string :=
  if bool_decide (String.length nodepoolName ≠ String.length nodepoolType + hash_Length + 1) then ("", "")
  else match split_last dash nodepoolName with
       | None => ("", "")
       | Some (t, h) => if bool_decide (t ≠ nodepoolType) then ("", "") else (t, h)
       end.

Definition HasNodePoolTypeOf (nodepoolType nodepoolName : string) : bool :=
  bool_decide (nodepoolType = (MatchNameAndHashWithTemplate nodepoolType nodepoolName).1).

Definition MustExtractNameAndHash (pool : string) : outcome (string * string) :=
  match split_last dash pool with
  | None => Panic "this function expect that the nodepool name contains a appended hash delimited by '-'"
  | Some nh => Ret nh
  end.

Fixpoint FindApiEndpoint (nodepools : list NodePool) : option (NodePool * Node) :=
  match nodepools with
  | [] => None
  | np :: l =>
      if NodePool_IsControl np then
        match EndpointNode (Some np) with
        | Some node => Some (np, node)
        | None => FindApiEndpoint l
        end
      else FindApiEndpoint l
  end.

Fixpoint FirstControlNode (nodepools : list NodePool) : option Node :=
  match nodepools with
  | [] => None
  | np :: l =>
      if NodePool_IsControl np then
        match NodePool_Nodes np with
        | n :: _ => Some n
        | [] => FirstControlNode l
        end
      else FirstControlNode l
  end.

Definition FindReferences (name : string) (nodePools : list NodePool) : list NodePool :=
  filter (λ np, has_name name np = true) nodePools.

Definition PublicEndpoints (nodepools : list NodePool) : list string :=
  nodepools ≫= λ np, Node_Public <$> NodePool_Nodes np.

(** ** internal/nodepools/iter.go *)

Definition Control (nodepools : list NodePool) : list NodePool :=
  filter (λ np, NodePool_IsControl np = true) nodepools.

Definition Compute_ (nodepools : list NodePool) : list NodePool :=
  filter (λ np, NodePool_IsControl np = false) nodepools.

(** [m[k] = append(m[k], v)] *)
Definition push {V} (m : gmap string (list V)) (k : string) (v : V) : gmap string (list V) :=
  <[k := default [] (m !! k) ++ [v]]> m.

(** [v] is one of the values of key [k]. *)
Definition listed {V} (m : gmap string (list V)) (k : string) (v : V) : Prop := ∃ l, m !! k = Some l ∧ v ∈ l.

Definition ByProviderSpecName (nodepools : list NodePool) : gmap string (list NodePool) :=
  foldl (λ m np, match NodePool_Type np with
                 | NodePool_DynamicNodePool d => push m (Provider_SpecName (Dyn_Provider d)) np
                 | NodePool_StaticNodePool _ => push m "STATIC_PROVIDER" np
                 | NodePool_nil => m
                 end) ∅ nodepools.

Definition provider_region (d : DynamicNodePool) : string :=
  String.append (Provider_SpecName (Dyn_Provider d)) (String.append "-" (Dyn_Region d)).

Definition ByProviderRegion (nodepools : list NodePool) : gmap string (list NodePool) :=
  foldl (λ m np, match NodePool_Type np with
                 | NodePool_DynamicNodePool d => push m (provider_region d) np
                 | NodePool_StaticNodePool _ => push m "STATIC_PROVIDER-STATIC_REGION" np
                 | NodePool_nil => m
                 end) ∅ nodepools.

(** ** internal/clusters/clusters.go *)

Definition IndexLoadbalancerById (target : string) (clusters : list LBcluster) : option nat :=
  index_func (λ c, bool_decide (LB_Id c = target)) clusters.

Definition FindAssignedLbApiEndpoint (clusters : list LBcluster) : option LBcluster :=
  find_first (λ lb, IsApiEndpoint (Some lb)) clusters.

Definition NodePublic (name : string) (cluster : option K8Scluster) : string :=
  match cluster with
  | None => ""
  | Some k => match FindNode (K8s_NodePools k) name with
              | Some (_, n) => Node_Public n
              | None => ""
              end
  end.

(** ** The node pool invariant *)

Definition wf_nodepool (np : NodePool) : Prop :=
  NoDup (Node_Name <$> NodePool_Nodes np) ∧
  (Z.of_nat (length (NodePool_Nodes np)) < 2^31)%Z ∧
  match NodePool_Type np with
  | NodePool_DynamicNodePool d => Dyn_Count d = Z.of_nat (length (NodePool_Nodes np))
  | NodePool_StaticNodePool s =>
      NoDup (Node_Public <$> NodePool_Nodes np) ∧
      dom (Static_NodeKeys s) = list_to_set (Node_Public <$> NodePool_Nodes np)
  | NodePool_nil => False
  end.

#[export] Instance wf_nodepool_dec np : Decision (wf_nodepool np).
Proof.
  unfold wf_nodepool. apply and_dec; [apply _|]. apply and_dec; [apply _|].
  destruct (NodePool_Type np); apply _.
Defined.

(** *** Lemmas on the loops *)

Lemma filter_bool_perm {A} (f : A → bool) (l : list A) :
  l ≡ₚ filter (λ x, f x = true) l ++ filter (λ x, f x = false) l.
Proof.
  induction l as [|x l IH]; [done|]. rewrite !filter_cons.
  destruct (f x) eqn:E; repeat case_decide; try congruence; simpl.
  - by constructor.
  - rewrite <- Permutation_middle. by constructor.
Qed.

Lemma length_filter_bool {A} (f : A → bool) (l : list A) :
  length l = length (filter (λ x, f x = true) l) + length (filter (λ x, f x = false) l).
Proof. by rewrite (filter_bool_perm f l) at 1; rewrite length_app. Qed.

Lemma NoDup_fmap_filter {A B} (g : A → B) P `{∀ x, Decision (P x)} (l : list A) :
  NoDup (g <$> l) → NoDup (g <$> filter P l).
Proof.
  intros Hnd. eapply sublist_NoDup; [exact Hnd|].
  apply fmap_sublist, sublist_filter.
Qed.

Lemma dom_foldl_delete (keys : gmap string string) (ns : list Node) :
  dom (foldl (λ keys n, delete (Node_Public n) keys) keys ns) =
  dom keys ∖ list_to_set (Node_Public <$> ns).
Proof.
  revert keys. induction ns as [|n ns IH]; intros keys; simpl; [set_solver|].
  rewrite IH, dom_delete_L. set_solver.
Qed.

(** Splitting a duplicate-free list by a predicate splits its image. *)
Lemma image_split {A} (g : A → string) (f : A → bool) (l : list A) :
  NoDup (g <$> l) →
  (list_to_set (g <$> l) : gset string) ∖ list_to_set (g <$> filter (λ x, f x = true) l) =
  list_to_set (g <$> filter (λ x, f x = false) l).
Proof.
  intros H. rewrite (filter_bool_perm f l) in H. rewrite fmap_app, NoDup_app in H.
  destruct H as (_ & Hdisj & _).
  rewrite (filter_bool_perm f l) at 1. rewrite fmap_app, list_to_set_app_L.
  apply set_eq. intros x. rewrite elem_of_difference, elem_of_union, !elem_of_list_to_set.
  specialize (Hdisj x). tauto.
Qed.

Lemma dom_keys_for keys ns : dom (keys_for keys ns) = list_to_set (Node_Public <$> ns).
Proof.
  unfold keys_for. rewrite dom_list_to_map_L.
  rewrite fmap_reverse, <- list_fmap_compose.
  apply list_to_set_perm_L, reverse_Permutation.
Qed.

Lemma count_in_range (np : NodePool) f :
  wf_nodepool np → in_int32 (Z.of_nat (length (filter (λ n, f n = true) (NodePool_Nodes np)))).
Proof.
  intros (_ & Hlen & _). pose proof (length_filter_bool f (NodePool_Nodes np)).
  unfold in_int32. lia.
Qed.

Lemma retype_wf np f :
  wf_nodepool np →
  let ns := filter (λ n, f n = true) (NodePool_Nodes np) in
  wf_nodepool (mkNodePool (retype (NodePool_Type np) ns) (NodePool_Name np) ns (NodePool_IsControl np)
    (NodePool_Labels np) (NodePool_Taints np) (NodePool_Annotations np) (NodePool_SshPort np)).
Proof.
  intros Hwf ns. pose proof (count_in_range np f Hwf) as Hr. fold ns in Hr.
  destruct Hwf as (Hnd & Hlen & Hty). unfold wf_nodepool; simpl.
  split; [by apply NoDup_fmap_filter|].
  split; [unfold in_int32 in Hr; lia|].
  destruct (NodePool_Type np); simpl; [by apply int32_id|..|done].
  split; [apply NoDup_fmap_filter, Hty|apply dom_keys_for].
Qed.

(** *** Deleting and copying nodes *)

Lemma DeleteNodes_nodes np ns :
  NodePool_Nodes (DeleteNodes np ns) = filter (λ n, node_in ns n = false) (NodePool_Nodes np).
Proof. reflexivity. Qed.

Lemma DeleteNodes_preserves_wf np ns : wf_nodepool np → wf_nodepool (DeleteNodes np ns).
Proof.
  intros Hwf. pose proof (count_in_range np (node_in ns) Hwf) as Hr.
  destruct Hwf as (Hnd & Hlen & Hty).
  pose proof (length_filter_bool (node_in ns) (NodePool_Nodes np)) as Hl.
  unfold wf_nodepool. rewrite DeleteNodes_nodes. simpl.
  split; [by apply NoDup_fmap_filter|]. split; [lia|].
  destruct (NodePool_Type np) as [d|s|] eqn:E; simpl; [..|done].
  - rewrite (int32_id _ Hr), Hty, int32_id; [lia|unfold in_int32 in *; lia].
  - destruct Hty as [Hpub Hdom]. split; [by apply NoDup_fmap_filter|].
    rewrite dom_foldl_delete, Hdom. by apply image_split.
Qed.

(** [copy_node] with the kinds fixed. *)
Definition same_kind (a b : NodePoolType) : bool :=
  match a, b with
  | NodePool_DynamicNodePool _, NodePool_DynamicNodePool _
  | NodePool_StaticNodePool _, NodePool_StaticNodePool _ => true
  | _, _ => false
  end.

Lemma copy_node_wf src dst n :
  same_kind (NodePool_Type src) (NodePool_Type dst) = true →
  wf_nodepool dst →
  Node_Name n ∉ (Node_Name <$> NodePool_Nodes dst) →
  Node_Public n ∉ (Node_Public <$> NodePool_Nodes dst) →
  (Z.of_nat (S (length (NodePool_Nodes dst))) < 2^31)%Z →
  wf_nodepool (copy_node src dst n) ∧
  same_kind (NodePool_Type src) (NodePool_Type (copy_node src dst n)) = true ∧
  NodePool_Nodes (copy_node src dst n) = NodePool_Nodes dst ++ [n].
Proof.
  intros Hk (Hnd & Hlen & Hty) Hname Hpub Hl. unfold copy_node.
  destruct (NodePool_Type src) as [ds|ss|], (NodePool_Type dst) as [dd|sd|]; try done; simpl;
    (split; [|done]); unfold wf_nodepool; simpl;
    rewrite length_app, fmap_app, ?NoDup_app; simpl.
  - split_and!; [done|set_solver|apply NoDup_singleton|lia|].
    rewrite Hty, int32_id; [lia|unfold in_int32; lia].
  - destruct Hty as [Hp Hd]. rewrite fmap_app, NoDup_app.
    split_and!; [done|set_solver|apply NoDup_singleton|lia|done|set_solver|apply NoDup_singleton|].
    rewrite dom_insert_L, Hd, list_to_set_app_L. set_solver.
Qed.

Lemma foldl_copy_node_wf src ns dst :
  same_kind (NodePool_Type src) (NodePool_Type dst) = true →
  wf_nodepool dst →
  NoDup ((Node_Name <$> NodePool_Nodes dst) ++ (Node_Name <$> ns)) →
  NoDup ((Node_Public <$> NodePool_Nodes dst) ++ (Node_Public <$> ns)) →
  (Z.of_nat (length (NodePool_Nodes dst) + length ns) < 2^31)%Z →
  wf_nodepool (foldl (copy_node src) dst ns) ∧
  NodePool_Nodes (foldl (copy_node src) dst ns) = NodePool_Nodes dst ++ ns.
Proof.
  revert dst. induction ns as [|n ns IH]; intros dst Hk Hwf Hn Hp Hl; simpl in *.
  - by rewrite app_nil_r.
  - destruct (copy_node_wf src dst n Hk Hwf) as (Hwf' & Hk' & Hnodes).
    + apply NoDup_app in Hn as (_ & Hd & _). intros ?%Hd. set_solver.
    + apply NoDup_app in Hp as (_ & Hd & _). intros ?%Hd. set_solver.
    + lia.
    + destruct (IH (copy_node src dst n)) as [H1 H2]; try done.
      * rewrite Hnodes, fmap_app, <- (assoc_L (++)). done.
      * rewrite Hnodes, fmap_app, <- (assoc_L (++)). done.
      * rewrite Hnodes, length_app. simpl. lia.
      * split; [done|]. rewrite H2, Hnodes, <- (assoc_L (++)). done.
Qed.

Lemma copy_into_Ret np src nodes nps nps' :
  copy_into np src nodes nps = Ret nps' → nps' = update_nodepool np (λ dst, copied_nodes dst src nodes) nps.
Proof.
  unfold copy_into, CopyNodes, FindByName, update_nodepool. induction nps as [|x nps IH] in nps' |- *; simpl; [by intros [= <-]|].
  destruct (has_name np x); [destruct (_ && _); simpl; by intros [= <-]|].
  destruct (find_first _ nps) as [dst|]; [|by intros [= <-]; rewrite <- (IH nps eq_refl)].
  destruct (_ && _); simpl in *; [done|]. intros [= <-]. f_equal. by apply IH.
Qed.

(** On a pool that has a key for a node nothing panics. *)
Lemma CopyNodes_Ret dst src nodes : nil_keys dst = false → CopyNodes dst src nodes = Ret (copied_nodes dst src nodes).
Proof. intros Hd. unfold CopyNodes. by rewrite Hd, andb_false_r. Qed.

Lemma CopyNodes_foldl dst src ns :
  same_kind (NodePool_Type src) (NodePool_Type dst) = true →
  copied_nodes dst src ns =
  foldl (copy_node src) dst (filter (λ n, node_in ns n = true) (NodePool_Nodes src)).
Proof. unfold copied_nodes. by destruct (NodePool_Type src), (NodePool_Type dst). Qed.

Lemma same_kind_DeleteNodes np ns :
  wf_nodepool np → same_kind (NodePool_Type np) (NodePool_Type (DeleteNodes np ns)) = true.
Proof. intros (_ & _ & H). simpl. by destruct (NodePool_Type np). Qed.

(** *** Names and hashes *)

Lemma MatchNameAndHash_make typ h :
  String.length h = hash_Length → no_char dash h = true →
  MatchNameAndHashWithTemplate typ (String.append typ (String dash h)) = (typ, h).
Proof.
  intros Hl Hd. unfold MatchNameAndHashWithTemplate.
  rewrite bool_decide_eq_false_2 by (rewrite string_length_app; simpl; lia).
  rewrite (proj2 (split_last_Some dash _ typ h)) by done.
  by rewrite bool_decide_eq_false_2 by (intros ?; done).
Qed.

Lemma MatchNameAndHash_inv typ name t h :
  MatchNameAndHashWithTemplate typ name = (t, h) → h ≠ "" →
  t = typ ∧ name = String.append typ (String dash h) ∧
  String.length h = hash_Length ∧ no_char dash h = true.
Proof.
  unfold MatchNameAndHashWithTemplate. case_bool_decide as Hl; [congruence|].
  destruct (split_last dash name) as [[t' h']|] eqn:E; [|congruence].
  apply split_last_Some in E as [-> Hd].
  case_bool_decide as Ht; [congruence|]. subst t'.
  intros [= <- <-] _. split_and!; try done.
  rewrite string_length_app in Hl. simpl in Hl. lia.
Qed.

(** *** Lookup *)

Lemma FindByName_Some name nps np :
  FindByName name nps = Some np → np ∈ nps ∧ NodePool_Name np = name.
Proof.
  intros [? H]%find_first_Some. unfold has_name in H. by apply bool_decide_eq_true in H.
Qed.

Lemma FindByName_None name nps :
  FindByName name nps = None ↔ ∀ np, np ∈ nps → NodePool_Name np ≠ name.
Proof.
  unfold FindByName. rewrite find_first_None. unfold has_name.
  by setoid_rewrite bool_decide_eq_false.
Qed.

Lemma FindByName_elem nps np :
  NoDup (NodePool_Name <$> nps) → np ∈ nps → FindByName (NodePool_Name np) nps = Some np.
Proof.
  unfold FindByName. induction nps as [|x nps IH]; simpl; [set_solver|].
  intros [Hx Hnd]%NoDup_cons [->|Hin]%elem_of_cons; unfold has_name in *.
  - by rewrite bool_decide_refl.
  - rewrite bool_decide_eq_false_2; [by apply IH|].
    intros E. apply Hx. rewrite E. by apply list_elem_of_fmap_2.
Qed.

Lemma NoDup_fmap_app_comm {A B} (f : A → B) (g : A → bool) (l : list A) :
  NoDup (f <$> l) →
  NoDup ((f <$> filter (λ x, g x = false) l) ++ (f <$> filter (λ x, g x = true) l)).
Proof.
  intros Hnd. rewrite <- fmap_app, (Permutation_app_comm (filter (λ x, g x = false) l)).
  by rewrite <- filter_bool_perm.
Qed.

(** The effect of the copy loop on the type of the destination. *)
Lemma foldl_copy_node_dyn src ds ns dst d :
  NodePool_Type src = NodePool_DynamicNodePool ds →
  NodePool_Type dst = NodePool_DynamicNodePool d →
  ∃ c, NodePool_Type (foldl (copy_node src) dst ns) = NodePool_DynamicNodePool (set_Dyn_Count d c).
Proof.
  intros Hs. revert dst d. induction ns as [|n ns IH]; intros dst d Hd; simpl.
  - exists (Dyn_Count d). rewrite Hd. by destruct d.
  - destruct (IH (copy_node src dst n) (set_Dyn_Count d (int32 (Dyn_Count d + 1)))) as [c Hc].
    + unfold copy_node. by rewrite Hs, Hd.
    + exists c. by rewrite Hc.
Qed.

Lemma foldl_copy_node_static src ss ns dst t :
  NodePool_Type src = NodePool_StaticNodePool ss →
  NodePool_Type dst = NodePool_StaticNodePool t →
  ∃ t', NodePool_Type (foldl (copy_node src) dst ns) = NodePool_StaticNodePool t' ∧
  ∀ k, Static_NodeKeys t' !! k =
       if bool_decide (k ∈ (Node_Public <$> ns)) then Some (default "" (Static_NodeKeys ss !! k))
       else Static_NodeKeys t !! k.
Proof.
  intros Hs. revert dst t. induction ns as [|n ns IH]; intros dst t Hd; simpl.
  - by exists t.
  - destruct (IH (copy_node src dst n) (mkStaticNodePool
      (<[Node_Public n := node_key (Static_NodeKeys ss) n]> (Static_NodeKeys t)))) as (t' & Ht' & Hk).
    { unfold copy_node. by rewrite Hs, Hd. }
    exists t'. split; [done|]. intros k. rewrite Hk. simpl.
    destruct (decide (k ∈ Node_Public <$> ns)) as [Hin|Hin].
    { rewrite !bool_decide_eq_true_2; [done|set_solver|done]. }
    rewrite (bool_decide_eq_false_2 _ Hin). destruct (decide (Node_Public n = k)) as [<-|E].
    + by rewrite lookup_insert_eq, bool_decide_eq_true_2 by set_solver.
    + by rewrite lookup_insert_ne, bool_decide_eq_false_2 by set_solver.
Qed.

Lemma lookup_foldl_delete (keys : gmap string string) (ns : list Node) k :
  foldl (λ keys n, delete (Node_Public n) keys) keys ns !! k =
  if bool_decide (k ∈ (Node_Public <$> ns)) then None else keys !! k.
Proof.
  revert keys. induction ns as [|n ns IH]; intros keys; simpl.
  - done.
  - rewrite IH. destruct (decide (k ∈ Node_Public <$> ns)) as [Hin|Hin].
    { rewrite !bool_decide_eq_true_2; [done|set_solver|done]. }
    rewrite (bool_decide_eq_false_2 _ Hin). destruct (decide (Node_Public n = k)) as [<-|E].
    + by rewrite lookup_delete_eq, bool_decide_eq_true_2 by set_solver.
    + by rewrite lookup_delete_ne, bool_decide_eq_false_2 by set_solver.
Qed.

Lemma CopyNodes_DeleteNodes np ns :
  wf_nodepool np → NoDup (Node_Public <$> NodePool_Nodes np) →
  wf_nodepool (copied_nodes (DeleteNodes np ns) np ns) ∧
  NodePool_Nodes (copied_nodes (DeleteNodes np ns) np ns) =
    filter (λ n, node_in ns n = false) (NodePool_Nodes np) ++
    filter (λ n, node_in ns n = true) (NodePool_Nodes np).
Proof.
  intros Hwf Hpub. pose proof Hwf as (Hnd & Hlen & _).
  rewrite CopyNodes_foldl by by apply same_kind_DeleteNodes.
  apply foldl_copy_node_wf.
  - by apply same_kind_DeleteNodes.
  - by apply DeleteNodes_preserves_wf.
  - by apply NoDup_fmap_app_comm.
  - by apply NoDup_fmap_app_comm.
  - rewrite DeleteNodes_nodes. pose proof (length_filter_bool (node_in ns) (NodePool_Nodes np)). lia.
Qed.

Lemma CopyNodes_DeleteNodes_type np ns :
  wf_nodepool np → NoDup (Node_Public <$> NodePool_Nodes np) →
  NodePool_Type (copied_nodes (DeleteNodes np ns) np ns) = NodePool_Type np.
Proof.
  intros Hwf Hpub. destruct (CopyNodes_DeleteNodes np ns Hwf Hpub) as [(_ & _ & Hty) Hnodes].
  pose proof (length_filter_bool (node_in ns) (NodePool_Nodes np)) as Hl.
  revert Hty Hnodes. rewrite CopyNodes_foldl by by apply same_kind_DeleteNodes.
  destruct Hwf as (_ & _ & Hwf). destruct (NodePool_Type np) as [d|s|] eqn:E; [..|done].
  - destruct (foldl_copy_node_dyn np d (filter (λ n, node_in ns n = true) (NodePool_Nodes np))
      (DeleteNodes np ns) (set_Dyn_Count d (int32 (Dyn_Count d - int32 (Z.of_nat (length
        (filter (λ n, node_in ns n = true) (NodePool_Nodes np)))))))) as [c Hc]; [done| |].
    { simpl. by rewrite E. }
    rewrite Hc. intros Hcount Hnodes. rewrite Hnodes, length_app in Hcount. simpl in Hcount.
    f_equal. destruct d; simpl in *. unfold set_Dyn_Count. simpl. f_equal. lia.
  - destruct Hwf as [_ Hdom].
    edestruct (foldl_copy_node_static np s (filter (λ n, node_in ns n = true) (NodePool_Nodes np))
      (DeleteNodes np ns)) as (t' & Ht' & Hk); [done|simpl; by rewrite E|].
    rewrite Ht'. intros _ _. f_equal. destruct s as [keys], t' as [keys']. f_equal.
    apply map_eq. intros k. simpl in *. rewrite Hk, lookup_foldl_delete.
    case_bool_decide as Hin; [|done].
    assert (k ∈ dom keys) as [v Hv]%elem_of_dom; [|by rewrite Hv].
    rewrite Hdom, elem_of_list_to_set.
    apply list_elem_of_fmap in Hin as (n & -> & [_ ?]%list_elem_of_filter).
    by apply list_elem_of_fmap_2.
Qed.

(** ** Properties *)

(** [DeleteNodes] removes exactly the named nodes, keeps the order and
    the content of the others, and leaves a well-formed pool: the node count
    of a dynamic pool and the key map of a static pool follow the nodes. *)
Lemma delete_nodes_correct (np : NodePool) (ns : list string) :
  wf_nodepool np →
  wf_nodepool (DeleteNodes np ns) ∧
  sublist (NodePool_Nodes (DeleteNodes np ns)) (NodePool_Nodes np) ∧
  (∀ n, n ∈ NodePool_Nodes (DeleteNodes np ns) ↔ n ∈ NodePool_Nodes np ∧ ¬ (Node_Name n ∈ ns)) ∧
  NodePool_Name (DeleteNodes np ns) = NodePool_Name np.
Proof.
  intros Hwf. rewrite DeleteNodes_nodes. split_and!.
  - by apply DeleteNodes_preserves_wf.
  - apply sublist_filter.
  - intros n. rewrite list_elem_of_filter. unfold node_in. rewrite contains_false. tauto.
  - reflexivity.
Qed.

Lemma delete_nodes_correct_witness :
  wf_nodepool (DeleteNodes Samples.ctrl ["ctrl-0000001-01"]) ∧
  DeleteNodes Samples.ctrl ["ctrl-0000001-01"] = Samples.ctrl_shrunk.
Proof.
  split; [|vm_compute; reflexivity].
  refine (proj1 (delete_nodes_correct Samples.ctrl ["ctrl-0000001-01"] _)). by_decide.
Defined.

(** Copying the deleted nodes back from the original pool undoes
    [DeleteNodes]: the pool's type (count, or key map with its keys) is the
    original one and its nodes are the original nodes, up to order. *)
Lemma copy_undoes_delete (np : NodePool) (ns : list string) :
  wf_nodepool np → NoDup (Node_Public <$> NodePool_Nodes np) →
  let np' := copied_nodes (DeleteNodes np ns) np ns in
  wf_nodepool np' ∧ NodePool_Type np' = NodePool_Type np ∧ NodePool_Nodes np' ≡ₚ NodePool_Nodes np.
Proof.
  intros Hwf Hpub np'. destruct (CopyNodes_DeleteNodes np ns Hwf Hpub) as [Hwf' Hnodes].
  split_and!; [done|by apply CopyNodes_DeleteNodes_type|].
  unfold np'. rewrite Hnodes, Permutation_app_comm. symmetry. apply filter_bool_perm.
Qed.

Lemma copy_undoes_delete_witness :
  NodePool_Type (copied_nodes (DeleteNodes Samples.workers ["workers-01"]) Samples.workers ["workers-01"])
  = NodePool_Type Samples.workers.
Proof. refine (proj1 (proj2 (copy_undoes_delete Samples.workers ["workers-01"] _ _))); by_decide. Defined.

Lemma partial_copies_wf np ns :
  wf_nodepool np →
  wf_nodepool (PartialCopyWithNodeFilter np ns) ∧ wf_nodepool (PartialCopyWithNodeExclusion np ns).
Proof.
  intros Hwf. split; [by apply (retype_wf np (node_in ns))|].
  pose proof (retype_wf np (λ n, negb (node_in ns n)) Hwf) as H. simpl in H.
  unfold PartialCopyWithNodeExclusion.
  rewrite (filter_ext_in (λ n, node_in ns n = false) (λ n, negb (node_in ns n) = true)); [done|].
  intros n _. destruct (node_in ns n); simpl; split; congruence.
Qed.

(** The two partial copies of a well-formed pool are well-formed and
    split it: every node is in exactly one of them, and together they hold
    all nodes of the pool. *)
Lemma partial_copies_partition (np : NodePool) (ns : list string) :
  wf_nodepool np →
  let a := PartialCopyWithNodeFilter np ns in
  let b := PartialCopyWithNodeExclusion np ns in
  wf_nodepool a ∧ wf_nodepool b ∧
  NodePool_Nodes a ++ NodePool_Nodes b ≡ₚ NodePool_Nodes np ∧
  (∀ n, n ∈ NodePool_Nodes a → ¬ (n ∈ NodePool_Nodes b)) ∧
  NodeCount [a; b] = NodeCount [np].
Proof.
  intros Hwf a b. destruct (partial_copies_wf np ns Hwf) as [Ha Hb].
  pose proof (filter_bool_perm (node_in ns) (NodePool_Nodes np)) as Hp.
  split_and!; [done|done|by symmetry| |].
  - intros n. simpl. rewrite !list_elem_of_filter. intros [? _] [? _]. congruence.
  - pose proof (length_filter_bool (node_in ns) (NodePool_Nodes np)) as Hl.
    destruct Ha as (_ & _ & Ha), Hb as (_ & _ & Hb), Hwf as (_ & _ & Hc).
    unfold NodeCount. simpl in *. destruct (NodePool_Type np) as [d|s|]; simpl in *; [lia| |lia].
    destruct Ha as [Ha1 Ha2], Hb as [Hb1 Hb2], Hc as [Hc1 Hc2].
    rewrite <- !size_dom, Ha2, Hb2, Hc2, !size_list_to_set, !length_fmap by done. lia.
Qed.

(** Names of node pools generated from a dynamic template are
    [type-hash], and [MatchNameAndHashWithTemplate] recovers the parts
    exactly then: a hash is reported if and only if the name is the type, a
    dash and a dash-free hash of the right length. *)
Lemma match_name_and_hash_roundtrip (typ name h : string) :
  h ≠ "" →
  MatchNameAndHashWithTemplate typ name = (typ, h) ↔
  (name = String.append typ (String dash h) ∧ String.length h = hash_Length ∧ no_char dash h = true).
Proof.
  intros Hh. split.
  - intros H. by destruct (MatchNameAndHash_inv _ _ _ _ H Hh).
  - intros (-> & ? & ?). by apply MatchNameAndHash_make.
Qed.

Lemma listed_push {V} (m : gmap string (list V)) k x k' v :
  listed (push m k x) k' v ↔ listed m k' v ∨ (k', v) = (k, x).
Proof.
  unfold listed, push. destruct (decide (k' = k)) as [->|Hne]; [|rewrite lookup_insert_ne by done; naive_solver].
  rewrite lookup_insert, decide_True by done. split.
  - intros (l & [= <-] & [Hv|Hv%list_elem_of_singleton]%elem_of_app); [left|by right; subst].
    destruct (m !! k) as [l|]; [by exists l|by apply elem_of_nil in Hv].
  - intros Hv. eexists. split; [done|]. apply elem_of_app. destruct Hv as [(l & -> & ?)|[= ->]]; [by left|right; by left].
Qed.

End NodePools.
