(* ===== verification/Consume.v ===== *)
(** * Consuming results of the workers (proto/pb/spec/utils_consume.go)

    A worker reports what it did as an update (new versions of the clusters)
    or as a clear (clusters that are gone).  The manager folds the report into
    the state carried by the task and rewrites the task's delta from "to be
    done" into "done".  Workers build reports with the [InFlight..] builders. *)

From stdpp Require Import base gmap strings list.
From S2P Require Import Prelude Spec SpecUtils Samples NodePools.
Import NodePools.

Module Consume.

(** ** The state of a task *)

Definition task_state (te : Task) : option Clusters :=
  match te with
  | Task_Create s | Task_Update s _ | Task_Delete s => Some s
  | Task_nil => None
  end.

(** Writes through the [k8s] and [lbs] pointers into the task. *)
Definition set_task_state (te : Task) (s : Clusters) : Task :=
  match te with
  | Task_Create _ => Task_Create s
  | Task_Update _ d => Task_Update s d
  | Task_Delete _ => Task_Delete s
  | Task_nil => Task_nil
  end.

Definition MutableClusters (te : Task) : outcome Clusters :=
  match task_state te with
  | Some s => Ret s
  | None => Fail "unknown task"
  end.

Definition ReplaceClusters (te : Task) (c : Clusters) : Task := set_task_state te c.

(** ** Clear *)

(** The task after the call and the error, if any: an error leaves the
    cleared load balancers removed. *)
Definition ConsumeClearResult (te : Task) (result : TaskResult_ClearState) : Task * option string :=
  match task_state te with
  | None => (te, None)
  | Some s =>
      let lbs := delete_func (λ lb, contains (ClearState_LoadBalancersIDs result) (LB_Id lb))
                   (LoadBalancers s) in
      if bool_decide (ClearState_K8S result = Some true) then
        if bool_decide (lbs ≠ []) then
          (set_task_state te (mkClusters (K8S s) lbs),
           Some "refuse to clear kubernetes cluster while loadbalancers for it still exists")
        else (set_task_state te (mkClusters None []), None)
      else (set_task_state te (mkClusters (K8S s) lbs), None)
  end.

(** ** Update *)

(** The [Partial] alternative built from the affected pool. *)
Definition partial_deletion (affected : NodePool) (nodepool : string) (names : list string)
    : DeletedNodesKind :=
  let nodes := filter (λ n, node_in names n = true) (NodePool_Nodes affected) in
  Partial nodepool nodes
    (match GetStaticNodePool affected with
     | Some stt => keys_for (Static_NodeKeys stt) nodes
     | None => ∅
     end).

(** "Consume delete updates, if any": the new delta, or an error. *)
Definition consume_delete (k8s : K8Scluster) (lbs : list LBcluster) (d : Delta) : Delta + string :=
  match d with
  | Update_KDeleteNodes withNodePool nodepool nodes unreachable =>
      match find_first (has_name nodepool) (K8s_NodePools k8s) with
      | None => inr "received update result with invalid deleted nodepool"
      | Some affected =>
          inl (Update_DeletedK8SNodes_ unreachable
                 (if withNodePool then Whole (Some affected)
                  else partial_deletion affected nodepool nodes))
      end
  | Update_TfDeleteLoadBalancerNodes handle withNodePool nodepool nodes unreachable =>
      match find_first (λ lb, bool_decide (LB_Id lb = handle)) lbs with
      | None => inr "received update result with invalid loadbalancer id"
      | Some lb =>
          match find_first (has_name nodepool) (LB_NodePools lb) with
          | None => inr "received update result with invalid deleted nodepool"
          | Some affected =>
              inl (Update_DeletedLoadBalancerNodes_ unreachable handle
                     (if withNodePool then Whole (Some affected)
                      else partial_deletion affected nodepool nodes))
          end
      end
  | _ => inl d
  end.

(** "update existing ones": the updated list and the updates left over. *)
Fixpoint update_existing (lbs toUpdate : list LBcluster) : list LBcluster * list LBcluster :=
  match lbs with
  | [] => ([], toUpdate)
  | lb :: rest =>
      let same := λ u, bool_decide (LB_Id lb = LB_Id u) in
      match find_first same toUpdate with
      | Some u =>
          let '(out, lft) := update_existing rest (remove_first same toUpdate) in (u :: out, lft)
      | None =>
          let '(out, lft) := update_existing rest toUpdate in (lb :: out, lft)
      end
  end.

(** ... followed by "add new ones". *)
Definition merge_lbs (lbs toUpdate : list LBcluster) : list LBcluster :=
  let '(out, lft) := update_existing lbs toUpdate in out ++ lft.

(** The autoscaler configuration of the last dynamic pool with that name. *)
Definition autoscaler_of (nodepool : string) (nps : list NodePool) : option AutoscalerConf :=
  foldl (λ config np,
    if has_name nodepool np then
      match GetDynamicNodePool np with
      | Some dyn => Dyn_AutoscalerConfig dyn
      | None => config
      end
    else config) None nps.

Definition added_nodes (k : AddNodesKind) : bool * string * list string :=
  match k with
  | Existing np nodes => (false, np, Node_Name <$> nodes)
  | New np => (true, NodePool_Name np, Node_Name <$> NodePool_Nodes np)
  | AddNodes_nil => (false, "", [])
  end.

(** "Consume replace updates, if any". *)
Definition consume_replace (k8s : K8Scluster) (d : Delta) : Delta :=
  match d with
  | Update_TfMoveNodePoolFromAutoscaled np =>
      Update_MovedNodePoolFromAutoscaled_ np (autoscaler_of np (K8s_NodePools k8s))
  | Update_TfMoveNodePoolToAutoscaled np _ => Update_MovedNodePoolToAutoscaled_ np
  | Update_AnsReplaceRoleInternalSettings handle role _ _ =>
      Update_ReplacedRoleInternalSettings_ handle role
  | Update_TfReplaceRoleExternalSettings handle role _ _ _ =>
      Update_ReplacedRoleExternalSettings_ handle role
  | Update_AnsReplaceProxy _ => Update_ReplacedProxy
  | Update_AnsReplaceTargetPools handle roles => Update_ReplacedTargetPools_ handle roles
  | Update_KpatchNodes _ => Update_PatchedNodes_
  | Update_TfAddK8SNodes kind =>
      let '(isNew, np, nodes) := added_nodes kind in Update_AddedK8SNodes_ isNew np nodes
  | Update_TfAddLoadBalancer handle => Update_AddedLoadBalancer_ (LB_Id handle)
  | Update_TfAddLoadBalancerNodes handle kind =>
      let '(isNew, np, nodes) := added_nodes kind in
      Update_AddedLoadBalancerNodes_ handle isNew np nodes
  | Update_TfAddLoadBalancerRoles handle roles =>
      Update_AddedLoadBalancerRoles_ handle (Role_Name <$> roles)
  | Update_TfReplaceDns handle _ oldApiEndpoint => Update_ReplacedDns_ handle oldApiEndpoint
  | _ => d
  end.

Definition set_delta (te : Task) (d : Delta) : Task :=
  match te with Task_Update s _ => Task_Update s d | _ => te end.

Definition task_delta (te : Task) : option Delta :=
  match te with Task_Update _ d => Some d | _ => None end.

(** The task after the call and the error.  When the update's cluster does
    not match, the delta was already rewritten. *)
Definition ConsumeUpdateResult (te : Task) (result : TaskResult_UpdateState)
    : outcome (Task * option string) :=
  match task_state te with
  | None => Ret (te, None)
  | Some s =>
      let* k8s := deref (K8S s) in
      match match task_delta te with
            | Some d => consume_delete k8s (LoadBalancers s) d
            | None => inl Update_nil
            end with
      | inr e => Ret (te, Some e)
      | inl d1 =>
          let te1 := set_delta te d1 in
          let mismatch := match UpdateState_K8S result with
                          | Some k => bool_decide (K8s_Id k ≠ K8s_Id k8s)
                          | None => false
                          end in
          if mismatch then Ret (te1, Some "can't update cluster with received cluster")
          else
            let k8s' := default k8s (UpdateState_K8S result) in
            let toUpdate := delete_func
                  (λ lb, bool_decide (LB_TargetedK8S lb ≠ ClusterInfo_Name (K8s_ClusterInfo k8s)))
                  (UpdateState_LoadBalancers result) in
            let te2 := set_task_state te1 (mkClusters (Some k8s') (merge_lbs (LoadBalancers s) toUpdate)) in
            Ret (set_delta te2 (consume_replace k8s' d1), None)
      end
  end.

(** ** The builders of reports *)

(** [InFlightUpdateState] accumulates the state; [Kubernetes] and
    [Loadbalancers] clone their arguments into it (nil arguments are dropped). *)
Definition Update_ : TaskResult_UpdateState := mkUpdateState None [].

Definition InFlightUpdate_Kubernetes (s : TaskResult_UpdateState) (c : option K8Scluster)
    : TaskResult_UpdateState :=
  match c with
  | Some c => mkUpdateState (Some c) (UpdateState_LoadBalancers s)
  | None => s
  end.

Definition InFlightUpdate_Loadbalancers (s : TaskResult_UpdateState) (lbs : list (option LBcluster))
    : TaskResult_UpdateState :=
  match lbs with
  | [] => s
  | _ => mkUpdateState (UpdateState_K8S s) (omap id lbs)
  end.

Definition InFlightUpdate_Commit (r : TaskResult) (s : TaskResult_UpdateState) : TaskResult :=
  match TaskResult_Result_ r with
  | TaskResult_Update old =>
      mkTaskResult (TaskResult_Error r) (TaskResult_Update (mkUpdateState
        (match UpdateState_K8S s with Some k => Some k | None => UpdateState_K8S old end)
        (merge_lbs (UpdateState_LoadBalancers old) (UpdateState_LoadBalancers s))))
  | _ => mkTaskResult (TaskResult_Error r) (TaskResult_Update s)
  end.

Definition Clear_ : TaskResult_ClearState := mkClearState None [].

Definition InFlightClear_Kubernetes (s : TaskResult_ClearState) : TaskResult_ClearState :=
  mkClearState (Some true) (ClearState_LoadBalancersIDs s).

Definition InFlightClear_LoadBalancers (s : TaskResult_ClearState) (lbs : list string)
    : TaskResult_ClearState :=
  match lbs with [] => s | _ => mkClearState (ClearState_K8S s) lbs end.

Definition InFlightClear_Commit (r : TaskResult) (s : TaskResult_ClearState) : TaskResult :=
  mkTaskResult (TaskResult_Error r) (TaskResult_Clear s).

Definition IsNone (r : TaskResult) : bool :=
  match TaskResult_Result_ r with TaskResult_None_ => true | _ => false end.
Definition IsUpdate (r : TaskResult) : bool :=
  match TaskResult_Result_ r with TaskResult_Update _ => true | _ => false end.
Definition IsClear (r : TaskResult) : bool :=
  match TaskResult_Result_ r with TaskResult_Clear _ => true | _ => false end.

(** ** Lemmas *)

Definition lb_ids (lbs : list LBcluster) : list string := LB_Id <$> lbs.

Lemma lb_ids_cons lb lbs : lb_ids (lb :: lbs) = LB_Id lb :: lb_ids lbs.
Proof. reflexivity. Qed.

(** The load balancer with an id. *)
Definition lb_lookup (id : string) (lbs : list LBcluster) : option LBcluster :=
  find_first (λ lb, bool_decide (LB_Id lb = id)) lbs.

(** Abstract result of a merge: the update wins. *)
Definition merged (id : string) (lbs upd : list LBcluster) : option LBcluster :=
  match lb_lookup id upd with Some u => Some u | None => lb_lookup id lbs end.

Lemma find_first_ext {A} (f g : A → bool) l : (∀ x, f x = g x) → find_first f l = find_first g l.
Proof. intros E. induction l as [|x l IH]; simpl; [done|]. by rewrite E, IH. Qed.

Lemma same_id_sym lb u : bool_decide (LB_Id lb = LB_Id u) = bool_decide (LB_Id u = LB_Id lb).
Proof. apply bool_decide_ext. split; congruence. Qed.

Lemma lb_lookup_Some id lbs lb : lb_lookup id lbs = Some lb → lb ∈ lbs ∧ LB_Id lb = id.
Proof. intros [? H%bool_decide_eq_true]%find_first_Some. done. Qed.

Lemma lb_lookup_None id lbs : lb_lookup id lbs = None ↔ id ∉ lb_ids lbs.
Proof.
  unfold lb_lookup. rewrite find_first_None. unfold lb_ids. rewrite list_elem_of_fmap.
  setoid_rewrite bool_decide_eq_false. split.
  - intros H (lb & -> & Hin). by apply (H lb).
  - intros H lb Hin E. apply H. by exists lb.
Qed.

Lemma lb_lookup_app id a b :
  lb_lookup id (a ++ b) = match lb_lookup id a with Some x => Some x | None => lb_lookup id b end.
Proof.
  unfold lb_lookup. induction a as [|x a IH]; simpl; [done|]. by case_bool_decide.
Qed.

Lemma remove_first_split {A} (f : A → bool) (l : list A) x :
  find_first f l = Some x → ∃ a b, l = a ++ x :: b ∧ remove_first f l = a ++ b.
Proof.
  induction l as [|y l IH]; simpl; [done|]. destruct (f y) eqn:E.
  - intros [= ->]. by exists [], l.
  - intros (a & b & -> & ->)%IH. by exists (y :: a), b.
Qed.

(** Removing the update for [id]: other ids are not affected. *)
Lemma lb_lookup_remove lb upd u id :
  NoDup (lb_ids upd) →
  find_first (λ u, bool_decide (LB_Id lb = LB_Id u)) upd = Some u →
  let upd' := remove_first (λ u, bool_decide (LB_Id lb = LB_Id u)) upd in
  LB_Id lb = LB_Id u ∧ NoDup (lb_ids upd') ∧ (LB_Id u ∉ lb_ids upd') ∧
  (∀ i, i ∈ lb_ids upd' → i ∈ lb_ids upd) ∧
  lb_lookup id upd = if bool_decide (id = LB_Id u) then Some u else lb_lookup id upd'.
Proof.
  intros Hnd Hf upd'. pose proof Hf as [_ Hid%bool_decide_eq_true]%find_first_Some.
  apply remove_first_split in Hf as (a & b & -> & Hrm). unfold upd'. rewrite Hrm.
  unfold lb_ids in *. rewrite fmap_app, fmap_cons in Hnd.
  apply NoDup_app in Hnd as (Ha & Hab & Hb). apply NoDup_cons in Hb as [Hub Hb].
  rewrite fmap_app. split_and!; [done| | |set_solver|].
  - apply NoDup_app. split_and!; [done|set_solver|done].
  - rewrite elem_of_app. intros [Hin|Hin]; [by apply (Hab _ Hin); left|done].
  - rewrite !lb_lookup_app. case_bool_decide as E.
    + subst id. assert (lb_lookup (LB_Id u) a = None) as ->.
      { apply lb_lookup_None. intros Hin. by apply (Hab _ Hin); left. }
      unfold lb_lookup. simpl. by rewrite bool_decide_refl.
    + destruct (lb_lookup id a) eqn:Ea; [done|]. unfold lb_lookup. simpl.
      by rewrite bool_decide_eq_false_2 by congruence.
Qed.

Lemma update_existing_spec lbs upd :
  NoDup (lb_ids lbs) → NoDup (lb_ids upd) →
  let '(out, lft) := update_existing lbs upd in
  lb_ids out = lb_ids lbs ∧ NoDup (lb_ids lft) ∧
  (∀ id, id ∈ lb_ids lft ↔ id ∈ lb_ids upd ∧ id ∉ lb_ids lbs) ∧
  (∀ id, id ∈ lb_ids lbs → lb_lookup id out = merged id lbs upd) ∧
  (∀ id, id ∉ lb_ids lbs → lb_lookup id lft = lb_lookup id upd).
Proof.
  revert upd. induction lbs as [|lb lbs IH]; intros upd Hl Hu; simpl.
  { split_and!; try done; set_solver. }
  apply NoDup_cons in Hl as [Hlb Hl].
  destruct (find_first _ upd) as [u|] eqn:Ef.
  - pose proof (λ id, lb_lookup_remove lb upd u id Hu Ef) as Hrm. simpl in Hrm.
    set (upd' := remove_first _ upd) in *.
    destruct (Hrm "") as (Hid & Hnd & Hni & Hsub & _).
    specialize (IH upd' Hl Hnd). destruct (update_existing lbs upd') as [out lft] eqn:Eu.
    destruct IH as (I1 & I2 & I3 & I4 & I5). rewrite !lb_ids_cons, I1.
    split_and!; [by rewrite Hid|done|..].
    + intros id. rewrite I3. split.
      * intros [Hin Hn]. split; [by apply Hsub|]. apply not_elem_of_cons. split; [|done].
        intros ->. by rewrite Hid in Hin.
      * intros [Hin [Hne Hn]%not_elem_of_cons]. split; [|done].
        destruct (Hrm id) as (_ & _ & _ & _ & Hlk). rewrite bool_decide_eq_false_2 in Hlk by congruence.
        apply dec_stable. intros Hx. apply lb_lookup_None in Hx. rewrite Hx in Hlk.
        by apply lb_lookup_None in Hlk.
    + intros id Hin. unfold merged. destruct (Hrm id) as (_ & _ & _ & _ & ->).
      unfold lb_lookup at 1 3. simpl. rewrite Hid. case_bool_decide as E.
      * by rewrite bool_decide_eq_true_2.
      * rewrite bool_decide_eq_false_2 by congruence. apply elem_of_cons in Hin as [->|Hin]; [congruence|].
        fold (lb_lookup id out). rewrite I4 by done. done.
    + intros id [Hne Hn]%not_elem_of_cons. rewrite I5 by done.
      destruct (Hrm id) as (_ & _ & _ & _ & ->). by rewrite bool_decide_eq_false_2 by congruence.
  - specialize (IH upd Hl Hu). destruct (update_existing lbs upd) as [out lft] eqn:Eu.
    destruct IH as (I1 & I2 & I3 & I4 & I5). rewrite !lb_ids_cons, I1.
    assert (LB_Id lb ∉ lb_ids upd) as Hlu.
    { apply lb_lookup_None. unfold lb_lookup. rewrite <- Ef. apply find_first_ext. intros u.
      apply same_id_sym. }
    split_and!; [done|done|..].
    + intros id. rewrite I3. split.
      * intros [? ?]. split; [done|]. apply not_elem_of_cons. split; [|done]. by intros ->.
      * intros [? [? ?]%not_elem_of_cons]. done.
    + intros id Hin. unfold merged. unfold lb_lookup at 1 3. simpl. case_bool_decide as E.
      * subst id. apply lb_lookup_None in Hlu. by rewrite Hlu.
      * apply elem_of_cons in Hin as [->|Hin]; [done|]. exact (I4 id Hin).
    + intros id [_ Hn]%not_elem_of_cons. by apply I5.
Qed.

Lemma merge_lbs_spec lbs upd :
  NoDup (lb_ids lbs) → NoDup (lb_ids upd) →
  NoDup (lb_ids (merge_lbs lbs upd)) ∧
  (∀ id, lb_lookup id (merge_lbs lbs upd) = merged id lbs upd) ∧
  ∃ new, lb_ids (merge_lbs lbs upd) = lb_ids lbs ++ new.
Proof.
  intros Hl Hu. pose proof (update_existing_spec lbs upd Hl Hu) as H. unfold merge_lbs.
  destruct (update_existing lbs upd) as [out lft]. destruct H as (I1 & I2 & I3 & I4 & I5).
  assert (lb_ids (out ++ lft) = lb_ids lbs ++ lb_ids lft) as E.
  { unfold lb_ids in *. by rewrite fmap_app, I1. }
  split_and!; [| |by eexists].
  - rewrite E. apply NoDup_app. split_and!; [done| |done]. intros id Hin Hle. by apply I3 in Hle as [_ ?].
  - intros id. rewrite lb_lookup_app. destruct (decide (id ∈ lb_ids lbs)) as [Hin|Hin].
    + rewrite (I4 id Hin). destruct (merged id lbs upd) eqn:Em; [done|]. unfold merged in Em.
      destruct (lb_lookup id upd); [done|]. by apply lb_lookup_None in Em.
    + assert (lb_lookup id out = None) as -> by (apply lb_lookup_None; by rewrite I1).
      rewrite I5 by done. unfold merged. destruct (lb_lookup id upd); [done|].
      symmetry. by apply lb_lookup_None.
Qed.

Lemma task_state_set_delta te d : task_state (set_delta te d) = task_state te.
Proof. by destruct te. Qed.

Lemma task_state_set te s s0 : task_state te = Some s0 → task_state (set_task_state te s) = Some s.
Proof. by destruct te. Qed.

Lemma task_delta_set_state te s : task_delta (set_task_state te s) = task_delta te.
Proof. by destruct te. Qed.

Lemma task_delta_set te d d0 : task_delta te = Some d0 → task_delta (set_delta te d) = Some d.
Proof. by destruct te. Qed.

Lemma set_delta_not_update te d : task_delta te = None → set_delta te d = te.
Proof. by destruct te. Qed.

(** The load balancers of a report that belong to the cluster. *)
Definition targeting (name : string) (lbs : list LBcluster) : list LBcluster :=
  delete_func (λ lb, bool_decide (LB_TargetedK8S lb ≠ name)) lbs.

(** A successful consumption, taken apart. *)
Lemma ConsumeUpdateResult_Ret te r te' s :
  task_state te = Some s → ConsumeUpdateResult te r = Ret (te', None) →
  ∃ k8s, K8S s = Some k8s ∧
    let k8s' := default k8s (UpdateState_K8S r) in
    K8s_Id k8s' = K8s_Id k8s ∧
    task_state te' = Some (mkClusters (Some k8s')
      (merge_lbs (LoadBalancers s)
         (targeting (ClusterInfo_Name (K8s_ClusterInfo k8s)) (UpdateState_LoadBalancers r)))) ∧
    match task_delta te with
    | Some d => ∃ d1, consume_delete k8s (LoadBalancers s) d = inl d1 ∧
                      task_delta te' = Some (consume_replace k8s' d1)
    | None => task_delta te' = None
    end.
Proof.
  intros Hs. unfold ConsumeUpdateResult. rewrite Hs. destruct (K8S s) as [k8s|]; simpl; [|done].
  intros H. exists k8s. split; [done|]. revert H.
  destruct (match task_delta te with Some d => _ | None => _ end) as [d1|e] eqn:Ed; [|done].
  destruct (match UpdateState_K8S r with Some k => _ | None => _ end) eqn:Em; [done|].
  intros [= <-]. split_and!.
  - destruct (UpdateState_K8S r) as [k|]; simpl; [|done].
    apply bool_decide_eq_false in Em. by apply dec_stable in Em.
  - rewrite task_state_set_delta. by erewrite task_state_set by (by rewrite task_state_set_delta).
  - destruct te; simpl in *; simplify_eq; eauto.
Qed.

Lemma lookup_keys_for keys ns n :
  NoDup (Node_Public <$> ns) → n ∈ ns → is_Some (keys !! Node_Public n) →
  keys_for keys ns !! Node_Public n = keys !! Node_Public n.
Proof.
  intros Hnd Hn [v Hv]. unfold keys_for. rewrite Hv.
  apply elem_of_list_to_map_1.
  - rewrite fmap_reverse, <- list_fmap_compose. by rewrite reverse_Permutation.
  - apply elem_of_reverse, list_elem_of_fmap. exists n. unfold node_key. by rewrite Hv.
Qed.

(** Rewritten deltas are fixed points of both rewriting passes. *)
Lemma consume_final k k' lbs d d1 lbs' k'' d2 :
  consume_delete k lbs d = inl d1 →
  consume_delete k'' lbs' (consume_replace k' d1) = inl d2 →
  ∀ k3, consume_replace k3 d2 = consume_replace k' d1.
Proof.
  intros H1 H2 k3. destruct d; simpl in H1; try (case_match; try done); try (case_match; try done);
    simplify_eq; simpl in H2; simplify_eq; simpl; try done;
    by destruct kind; simplify_eq; simpl in *; simplify_eq.
Qed.

Lemma targeting_all name lbs : Forall (λ lb, LB_TargetedK8S lb = name) lbs → targeting name lbs = lbs.
Proof.
  unfold targeting, delete_func. induction 1 as [|lb lbs Hlb _ IH]; [done|].
  rewrite filter_cons, decide_True; [by rewrite IH|]. rewrite Hlb. apply bool_decide_ne_refl.
Qed.

Lemma Forall_update_existing (P : LBcluster → Prop) lbs upd :
  Forall P lbs → Forall P upd →
  Forall P (update_existing lbs upd).1 ∧ Forall P (update_existing lbs upd).2.
Proof.
  revert upd. induction lbs as [|lb lbs IH]; intros upd Hl Hu; simpl; [done|].
  apply Forall_cons in Hl as [Hlb Hl]. destruct (find_first _ upd) as [u|] eqn:Ef.
  - pose proof Ef as (a & b & -> & E)%remove_first_split. rewrite E.
    apply Forall_app in Hu as [Ha [Hu Hb]%Forall_cons].
    destruct (IH (a ++ b) Hl) as [I1 I2]; [by apply Forall_app|].
    destruct (update_existing lbs (a ++ b)); simpl in *. auto.
  - destruct (IH upd Hl Hu). destruct (update_existing lbs upd); simpl in *. auto.
Qed.

Lemma Forall_merge_lbs (P : LBcluster → Prop) lbs upd :
  Forall P lbs → Forall P upd → Forall P (merge_lbs lbs upd).
Proof.
  intros Hl Hu. destruct (Forall_update_existing P lbs upd Hl Hu). unfold merge_lbs.
  destruct (update_existing lbs upd). by apply Forall_app.
Qed.

(** ** Properties *)

(** [ConsumeClearResult] removes exactly the cleared load balancers and
    drops the kubernetes cluster only when no load balancer is left: when the
    clear of the cluster is requested too early it is refused with an error
    and the cluster is kept. *)
Lemma consume_clear_correct (te : Task) (s : Clusters) (r : TaskResult_ClearState) :
  task_state te = Some s →
  ∃ s', task_state (ConsumeClearResult te r).1 = Some s' ∧
    (∀ lb, lb ∈ LoadBalancers s' ↔ lb ∈ LoadBalancers s ∧ ¬ (LB_Id lb ∈ ClearState_LoadBalancersIDs r)) ∧
    K8S s' = (if bool_decide (ClearState_K8S r = Some true ∧ LoadBalancers s' = []) then None else K8S s) ∧
    ((ConsumeClearResult te r).2 = None ↔ ¬ (ClearState_K8S r = Some true ∧ LoadBalancers s' ≠ [])).
Proof.
  intros Hs. unfold ConsumeClearResult. rewrite Hs.
  set (lbs := delete_func _ _).
  assert (∀ lb, lb ∈ lbs ↔ lb ∈ LoadBalancers s ∧ ¬ (LB_Id lb ∈ ClearState_LoadBalancersIDs r)) as Hl.
  { intros lb. unfold lbs. by rewrite elem_of_delete_func, contains_false. }
  clearbody lbs. case_bool_decide as Hk; [case_bool_decide as Hn|]; simpl;
    rewrite (task_state_set _ _ _ Hs); eexists; (split; [reflexivity|]); simpl.
  - split_and!; [done|by rewrite bool_decide_eq_false_2 by tauto|]. split; [done|tauto].
  - subst lbs.
    split_and!; [done|by rewrite bool_decide_eq_true_2|]. split; [|done]. by intros _ [_ ?].
  - split_and!; [done|by rewrite bool_decide_eq_false_2 by tauto|]. tauto.
Qed.

Lemma consume_clear_correct_witness :
  (ConsumeClearResult (Task_Delete Samples.clusters) (mkClearState (Some true) [])).2 ≠ None.
Proof.
  destruct (consume_clear_correct (Task_Delete Samples.clusters) Samples.clusters (mkClearState (Some true) []))
    as (s' & Hs & _ & _ & Herr); [reflexivity|].
  rewrite Herr. intros Hn. apply Hn. split; [reflexivity|].
  vm_compute in Hs. injection Hs as <-. discriminate.
Defined.

(** A successful [ConsumeUpdateResult] merges the report into the task's
    state: the cluster keeps its identity, ids of load balancers stay unique,
    every load balancer the report carries for this cluster replaces or joins
    the existing ones, and every other load balancer is kept as it was. *)
Lemma consume_update_merges (te te' : Task) (s : Clusters) (k8s : K8Scluster) (r : TaskResult_UpdateState) :
  task_state te = Some s → K8S s = Some k8s →
  NoDup (lb_ids (LoadBalancers s)) → NoDup (lb_ids (UpdateState_LoadBalancers r)) →
  ConsumeUpdateResult te r = Ret (te', None) →
  ∃ s' k', task_state te' = Some s' ∧ K8S s' = Some k' ∧
    k' = default k8s (UpdateState_K8S r) ∧ K8s_Id k' = K8s_Id k8s ∧
    NoDup (lb_ids (LoadBalancers s')) ∧
    ∀ id, lb_lookup id (LoadBalancers s') =
      merged id (LoadBalancers s)
        (targeting (ClusterInfo_Name (K8s_ClusterInfo k8s)) (UpdateState_LoadBalancers r)).
Proof.
  intros Hs Hk Hl Hu Hc.
  destruct (ConsumeUpdateResult_Ret _ _ _ _ Hs Hc) as (k & Hk' & Hid & Hst & _).
  rewrite Hk in Hk'. injection Hk' as <-.
  destruct (merge_lbs_spec (LoadBalancers s)
    (targeting (ClusterInfo_Name (K8s_ClusterInfo k8s)) (UpdateState_LoadBalancers r))) as (M1 & M2 & _).
  - done.
  - by apply NoDup_fmap_filter.
  - do 2 eexists. split_and!; [exact Hst|reflexivity|reflexivity|done|done|done].
Qed.

Lemma consume_update_merges_witness :
  let lb2 := Samples.lb_with "lb" [] [] true in
  ∃ te', ConsumeUpdateResult (Task_Create Samples.clusters) (mkUpdateState None [lb2]) = Ret (te', None) ∧
    ∃ s', task_state te' = Some s' ∧ lb_lookup "lb-hijklmn" (LoadBalancers s') = Some lb2.
Proof.
  intros lb2. run_ok (ConsumeUpdateResult (Task_Create Samples.clusters) (mkUpdateState None [lb2])) te' H.
  exists te'. split; [reflexivity|].
  destruct (consume_update_merges (Task_Create Samples.clusters) te' Samples.clusters Samples.k8s
    (mkUpdateState None [lb2])) as (s' & k' & Hs & _ & _ & _ & _ & Hm);
    [reflexivity|reflexivity|by_decide|by_decide|exact H|].
  exists s'. split; [exact Hs|]. rewrite Hm. vm_compute. reflexivity.
Defined.

(** [ConsumeUpdateResult] never panics on a task that carries a cluster,
    and an error leaves the clusters of the task untouched; it fails exactly
    when the delta names a node pool or load balancer that does not exist, or
    the report is for another cluster. *)
Lemma consume_update_error_keeps_state (te : Task) (s : Clusters) (k8s : K8Scluster)
    (r : TaskResult_UpdateState) :
  task_state te = Some s → K8S s = Some k8s →
  ∃ te' err, ConsumeUpdateResult te r = Ret (te', err) ∧
    (err ≠ None → task_state te' = Some s) ∧
    (err ≠ None ↔
       (∃ d e, task_delta te = Some d ∧ consume_delete k8s (LoadBalancers s) d = inr e) ∨
       (∃ k, UpdateState_K8S r = Some k ∧ K8s_Id k ≠ K8s_Id k8s)).
Proof.
  intros Hs Hk. unfold ConsumeUpdateResult. rewrite Hs, Hk. simpl.
  destruct (task_delta te) as [d|] eqn:Ed; [destruct (consume_delete _ _ d) as [d1|e] eqn:Ec|].
  2: { do 2 eexists. split; [reflexivity|]. split; [done|]. split; [eauto 6|done]. }
  all: destruct (UpdateState_K8S r) as [k|] eqn:Er; [case_bool_decide as Em|];
    (do 2 eexists; split; [reflexivity|]; split; [intros Hn; first [by destruct (Hn eq_refl)|by rewrite task_state_set_delta]|]);
    (split; [intros Hn; first [by destruct (Hn eq_refl)|right; by eauto]|]); intros [(d' & e' & ? & ?)|(k' & ? & ?)]; congruence.
Qed.

Lemma consume_update_error_keeps_state_witness :
  ∃ te' err, ConsumeUpdateResult
    (Task_Update Samples.clusters (Update_KDeleteNodes false "missing" [] None)) (mkUpdateState None [])
    = Ret (te', err) ∧ task_state te' = Some Samples.clusters.
Proof.
  destruct (consume_update_error_keeps_state
    (Task_Update Samples.clusters (Update_KDeleteNodes false "missing" [] None)) Samples.clusters Samples.k8s
    (mkUpdateState None [])) as (te' & err & Hc & Hs & He); [reflexivity|reflexivity|].
  exists te', err. split; [exact Hc|]. apply Hs. rewrite He. left. do 2 eexists. split; reflexivity.
Defined.

(** What a consumed node deletion remembers is what the pool held: the
    whole pool, or exactly the named nodes together with their keys, so that
    the later stages can still reach the deleted nodes. *)
Lemma consumed_deletion_records_nodes (te' : Task) (s : Clusters) (r : TaskResult_UpdateState)
    withNp np names unreachable :
  ConsumeUpdateResult (Task_Update s (Update_KDeleteNodes withNp np names unreachable)) r = Ret (te', None) →
  ∃ k8s affected, K8S s = Some k8s ∧ FindByName np (K8s_NodePools k8s) = Some affected ∧
  ∃ kind, task_delta te' = Some (Update_DeletedK8SNodes_ unreachable kind) ∧
  if withNp then kind = Whole (Some affected)
  else ∃ nodes keys, kind = Partial np nodes keys ∧
    (∀ n, n ∈ nodes ↔ n ∈ NodePool_Nodes affected ∧ Node_Name n ∈ names) ∧
    (∀ stt, NodePool_Type affected = NodePool_StaticNodePool stt → wf_nodepool affected →
       dom keys = list_to_set (Node_Public <$> nodes) ∧
       ∀ n, n ∈ nodes → keys !! Node_Public n = Static_NodeKeys stt !! Node_Public n).
Proof.
  intros Hc. destruct (ConsumeUpdateResult_Ret (Task_Update _ _) _ _ s eq_refl Hc) as (k & Hk & _ & _ & H). simpl in H.
  destruct H as (d1 & Hd & Ht). destruct (find_first _ _) as [affected|] eqn:Ef; [|done]. injection Hd as <-.
  exists k, affected. split; [done|]. split; [done|]. eexists. split; [exact Ht|].
  destruct withNp; [done|]. unfold partial_deletion. do 2 eexists. split; [reflexivity|]. split.
  - intros n. rewrite list_elem_of_filter. unfold node_in. rewrite contains_spec. tauto.
  - intros stt Hty (_ & _ & Hwf). unfold GetStaticNodePool. rewrite Hty in *. destruct Hwf as [Hpub Hdom].
    rewrite dom_keys_for. split; [done|]. intros n Hn.
    apply lookup_keys_for; [by apply NoDup_fmap_filter|done|].
    apply list_elem_of_filter in Hn as [_ Hn]. apply elem_of_dom. rewrite Hdom.
    apply elem_of_list_to_set. by apply list_elem_of_fmap_2.
Qed.

(** Consumption is final: the delta a successful [ConsumeUpdateResult]
    leaves behind is not rewritten by any later one, whatever the report. *)
Lemma consumed_delta_is_final (te te' te'' : Task) (r r' : TaskResult_UpdateState) :
  ConsumeUpdateResult te r = Ret (te', None) →
  ConsumeUpdateResult te' r' = Ret (te'', None) →
  task_delta te'' = task_delta te'.
Proof.
  intros H1 H2. destruct (task_state te) as [s|] eqn:Es.
  - destruct (ConsumeUpdateResult_Ret _ _ _ _ Es H1) as (k & _ & _ & Hs' & Hd').
    destruct (ConsumeUpdateResult_Ret _ _ _ _ Hs' H2) as (k' & _ & _ & _ & Hd'').
    destruct (task_delta te) as [d|]; [|by rewrite Hd' in *].
    destruct Hd' as (d1 & Hdel & Hd'). rewrite Hd' in *. destruct Hd'' as (d2 & Hdel2 & ->).
    f_equal. eapply consume_final; [exact Hdel|exact Hdel2].
  - unfold ConsumeUpdateResult in *. rewrite Es in H1. injection H1 as <-.
    rewrite Es in H2. by injection H2 as <-.
Qed.

(** A worker that commits two updates into one report has the same effect
    as two reports consumed one after the other: the resulting cluster is the
    same and so is every load balancer, by id. *)
Lemma commit_twice_is_consume_twice (s : Clusters) (k8s : K8Scluster) (err : option (ErrorKind * string))
    (u1 u2 u12 : TaskResult_UpdateState) te1 te2 te12 :
  K8S s = Some k8s →
  let name := ClusterInfo_Name (K8s_ClusterInfo k8s) in
  NoDup (lb_ids (LoadBalancers s)) →
  NoDup (lb_ids (UpdateState_LoadBalancers u1)) → NoDup (lb_ids (UpdateState_LoadBalancers u2)) →
  Forall (λ lb, LB_TargetedK8S lb = name) (UpdateState_LoadBalancers u1 ++ UpdateState_LoadBalancers u2) →
  (∀ k, UpdateState_K8S u1 = Some k → ClusterInfo_Name (K8s_ClusterInfo k) = name) →
  InFlightUpdate_Commit (InFlightUpdate_Commit (mkTaskResult err TaskResult_None_) u1) u2
    = mkTaskResult err (TaskResult_Update u12) →
  ConsumeUpdateResult (Task_Create s) u1 = Ret (te1, None) →
  ConsumeUpdateResult te1 u2 = Ret (te2, None) →
  ConsumeUpdateResult (Task_Create s) u12 = Ret (te12, None) →
  ∃ s2 s12, task_state te2 = Some s2 ∧ task_state te12 = Some s12 ∧ K8S s2 = K8S s12 ∧
    ∀ id, lb_lookup id (LoadBalancers s2) = lb_lookup id (LoadBalancers s12).
Proof.
  intros Hk name Hl H1 H2 Ht Hname Hcommit C1 C2 C12. injection Hcommit as <-.
  apply Forall_app in Ht as [T1 T2].
  destruct (ConsumeUpdateResult_Ret (Task_Create _) _ _ s eq_refl C1) as (k1 & E1 & I1 & S1 & _).
  destruct (ConsumeUpdateResult_Ret _ _ _ _ S1 C2) as (k2 & E2 & I2 & S2 & _).
  destruct (ConsumeUpdateResult_Ret (Task_Create _) _ _ s eq_refl C12) as (k12 & E12 & I12 & S12 & _).
  rewrite Hk in *. simplify_eq/=. fold name in S1, S2, S12.
  assert (ClusterInfo_Name (K8s_ClusterInfo (default k1 (UpdateState_K8S u1))) = name) as Hn.
  { destruct (UpdateState_K8S u1) as [k|]; [by apply Hname|done]. }
  rewrite Hn in S2. rewrite (targeting_all name (UpdateState_LoadBalancers u1) T1) in *.
  rewrite (targeting_all name (UpdateState_LoadBalancers u2) T2) in *.
  destruct (merge_lbs_spec _ _ H1 H2) as (N12 & M12 & _).
  destruct (merge_lbs_spec _ _ Hl H1) as (N1 & M1 & _).
  rewrite (targeting_all name) in S12 by by apply Forall_merge_lbs.
  do 2 eexists. split; [exact S2|]. split; [exact S12|]. split; simpl.
  - by destruct (UpdateState_K8S u1), (UpdateState_K8S u2).
  - intros id. destruct (merge_lbs_spec _ _ N1 H2) as (_ & -> & _).
    destruct (merge_lbs_spec _ _ Hl N12) as (_ & -> & _).
    unfold merged. rewrite M1, M12. unfold merged.
    by destruct (lb_lookup id (UpdateState_LoadBalancers u2)).
Qed.

End Consume.
