(* ===== verification/Diff.v ===== *)
(** * Differences between two states (services/manager/internal/service/diff.go, proxy.go)

    What the reconciliation acts on: which node pools and nodes were added
    and deleted between the current and the desired state, which load
    balancers changed and how, and what happens to the API endpoint. *)

From stdpp Require Import base gmap strings list.
From S2P Require Import Prelude Spec SpecUtils Samples NodePools.
Import NodePools.

Module Diff.

(** ** Data *)

(** [NodePoolsViewType], [PendingDeletionsViewType], [TargetPoolsViewType]:
    name to list of names. *)
Abbreviation View := (gmap string (list string)).

Record NodePoolsDiffResult := mkNodePoolsDiffResult {
  PartiallyDeleted : View;
  Deleted : View;
  PartiallyAdded : View;
  Added : View }.
#[export] Instance NodePoolsDiffResult_eq_dec : EqDecision NodePoolsDiffResult.
Proof. solve_decision. Defined.

(** The zero value of the struct. *)
Definition noNodePoolsDiff : NodePoolsDiffResult := mkNodePoolsDiffResult ∅ ∅ ∅ ∅.

Definition IsEmpty (r : NodePoolsDiffResult) : bool :=
  bool_decide (Deleted r = ∅) && bool_decide (PartiallyDeleted r = ∅) &&
  bool_decide (Added r = ∅) && bool_decide (PartiallyAdded r = ∅).

Inductive ProxyChange := ProxyNoChange | ProxyOff | ProxyOn | ProxyRefresh.
#[export] Instance ProxyChange_eq_dec : EqDecision ProxyChange.
Proof. solve_decision. Defined.

Record ProxyDiffResult := mkProxyDiffResult {
  Proxy_CurrentUsed : bool; Proxy_DesiredUsed : bool; Proxy_Change : ProxyChange }.

Record LabelsTaintsAnnotationsDiffResult := mkLTA {
  Deleted_LabelKeys : gmap string (list string);
  Deleted_AnnotationsKeys : gmap string (list string);
  Deleted_TaintKeys : gmap string (list Taint);
  Added_Labels : gmap string (gmap string string);
  Added_Annotations : gmap string (gmap string string);
  Added_Taints : gmap string (list Taint) }.

Record K8sApiEndpointDiff := mkK8sApiEndpointDiff {
  Api_Current : string; Api_CurrentNodePool : string;
  Api_Desired : string; Api_DesiredNodePool : string }.

Record KubernetesDiffResult := mkKubernetesDiffResult {
  Kd_Version : bool;
  Kd_Proxy : ProxyDiffResult;
  Kd_Dynamic : NodePoolsDiffResult;
  Kd_Static : NodePoolsDiffResult;
  Kd_ChangedToAutoscaled : gmap string AutoscalerConf;
  Kd_ChangedToFixed : gset string;
  Kd_PendingDynamicDeletions : View;
  Kd_PendingStaticDeletions : View;
  Kd_ApiEndpoint : K8sApiEndpointDiff;
  Kd_LabelsTaintsAnnotations : LabelsTaintsAnnotationsDiffResult;
  Kd_RollingUpdates : gmap string TemplateRepository }.

Record ModifiedRoles := mkModifiedRoles {
  Roles_Added : list string;
  Roles_Deleted : list string;
  Roles_TargetPoolsAdded : View;
  Roles_TargetPoolsDeleted : View;
  Roles_InternalSettingsChanged : list string;
  Roles_ExternalSettingsChanged : list string }.

Record ModifiedLoadBalancer := mkModifiedLoadBalancer {
  Mod_CurrentIdx : nat;
  Mod_DesiredIdx : nat;
  Mod_DNS : bool;
  Mod_Roles : ModifiedRoles;
  Mod_Dynamic : NodePoolsDiffResult;
  Mod_Static : NodePoolsDiffResult;
  Mod_PendingDynamicDeletions : View;
  Mod_PendingStaticDeletions : View;
  Mod_RollingUpdate : gmap string TemplateRepository }.

Record LoadBalancerIdentifier := mkLoadBalancerIdentifier { Lb_Id_ : string; Lb_Index : nat }.
#[export] Instance LoadBalancerIdentifier_eq_dec : EqDecision LoadBalancerIdentifier.
Proof. solve_decision. Defined.

Record LoadBalancersDiffResult := mkLoadBalancersDiffResult {
  Lbd_Added : list LoadBalancerIdentifier;
  Lbd_Deleted : list LoadBalancerIdentifier;
  Lbd_Modified : gmap string ModifiedLoadBalancer;
  Lbd_Api_Current : string;
  Lbd_Api_New : string;
  Lbd_Api_State : ApiEndpointChangeState }.

Record DiffResult := mkDiffResult {
  Diff_Kubernetes : KubernetesDiffResult;
  Diff_LoadBalancers : LoadBalancersDiffResult }.

(** ** proxy.go *)

Definition ProxyDefaultMode : string := "default".
Definition ProxyOffMode : string := "off".
Definition ProxyOnMode : string := "on".

Definition hasHetznerNode (k8s : K8Scluster) : bool :=
  existsb (λ np, match GetDynamicNodePool np with
                 | Some d => bool_decide (ToLower (Provider_CloudProviderName (Dyn_Provider d)) = "hetzner")
                 | None => false
                 end) (K8s_NodePools k8s).

Definition UsesProxy (k8s : K8Scluster) : bool :=
  (bool_decide (Proxy_Mode (K8s_InstallationProxy k8s) = ProxyDefaultMode) && hasHetznerNode k8s)
  || bool_decide (Proxy_Mode (K8s_InstallationProxy k8s) = ProxyOnMode).

(** ** Node pools *)

(** Entries of a view that survive a per-entry computation: an entry is
    only created when at least one node is appended to it. *)
Definition nonempty (l : list string) : option (list string) :=
  match l with [] => None | _ => Some l end.

(** [NodePoolsDiff]: the loops visit each key once and touch only that
    key, so the result does not depend on the iteration order. *)
Definition NodePoolsDiff (old desired : View) : NodePoolsDiffResult :=
  (* 1. node pools completely absent in the new version *)
  let deleted := filter (λ '(np, _), desired !! np = None) old in
  let old1 := old ∖ deleted in
  (* 2. node pools new in the new version *)
  let added := filter (λ '(np, _), old1 !! np = None) desired in
  let desired1 := desired ∖ added in
  (* 3. nodes deleted from pools present in both versions *)
  let partiallyDeleted := map_imap (λ np oldNodes,
        let newNodes := default [] (desired1 !! np) in
        nonempty (filter (λ n, n ∉ newNodes) oldNodes)) old1 in
  let old2 := map_imap (λ np nodes,
        Some (filter (λ n, n ∉ default [] (partiallyDeleted !! np)) nodes)) old1 in
  (* 4. nodes added to pools present in both versions *)
  let partiallyAdded := map_imap (λ np newNodes,
        let oldNodes := default [] (old2 !! np) in
        nonempty (filter (λ n, n ∉ oldNodes) newNodes)) desired1 in
  mkNodePoolsDiffResult partiallyDeleted deleted partiallyAdded added.

(** The loop body of [NodePoolsView]. *)
Definition view_pool (v : View * View) (np : NodePool) : outcome (View * View) :=
  let names := Node_Name <$> NodePool_Nodes np in
  match NodePool_Type np with
  | NodePool_DynamicNodePool _ => Ret (<[NodePool_Name np := names]> v.1, v.2)
  | NodePool_StaticNodePool _ => Ret (v.1, <[NodePool_Name np := names]> v.2)
  | NodePool_nil => Panic "Unsupported NodePool Type"
  end.

Definition NodePoolsView (info : ClusterInfo) : outcome (View * View) :=
  foldl (λ acc np, let* v := acc in view_pool v np) (Ret (∅, ∅)) (ClusterInfo_NodePools info).

(** ** Kubernetes *)

Definition newAPIEndpointNodeCandidate (desired : list NodePool) : outcome (string * string) :=
  match find_first NodePool_IsControl desired with
  | Some np => let* n := index (NodePool_Nodes np) 0 in Ret (NodePool_Name np, Node_Name n)
  | None => Panic "no suitable api endpoint replacement candidate found, malformed state."
  end.

(** The pairs of equally named pools, in the order of the nested loops. *)
Definition matching_pools (old desired : list NodePool) : list (NodePool * NodePool) :=
  old ≫= λ c, (λ d, (c, d)) <$> filter (λ d, NodePool_Name c = NodePool_Name d) desired.

Definition rolling_updates (pairs : list (NodePool * NodePool)) : gmap string TemplateRepository :=
  foldl (λ m '(cnp, dnp),
    match GetDynamicNodePool cnp, GetDynamicNodePool dnp with
    | Some cdyn, Some ddyn =>
        if bool_decide (Tpl_CommitHash (Provider_Templates (Dyn_Provider cdyn)) ≠
                        Tpl_CommitHash (Provider_Templates (Dyn_Provider ddyn)))
        then <[NodePool_Name dnp := Provider_Templates (Dyn_Provider ddyn)]> m
        else m
    | _, _ => m
    end) ∅ pairs.

Definition changed_to_autoscaled (pairs : list (NodePool * NodePool)) : gmap string AutoscalerConf :=
  foldl (λ m '(cnp, dnp),
    match GetDynamicNodePool cnp, GetDynamicNodePool dnp with
    | Some cdyn, Some ddyn =>
        match Dyn_AutoscalerConfig cdyn, Dyn_AutoscalerConfig ddyn with
        | None, Some da => <[NodePool_Name dnp := da]> m
        | Some ca, Some da =>
            if bool_decide (Autoscaler_Min ca ≠ Autoscaler_Min da) ||
               bool_decide (Autoscaler_Max ca ≠ Autoscaler_Max da)
            then <[NodePool_Name dnp := da]> m
            else m
        | _, _ => m
        end
    | _, _ => m
    end) ∅ pairs.

Definition changed_to_fixed (pairs : list (NodePool * NodePool)) : gset string :=
  foldl (λ m '(cnp, dnp),
    match GetDynamicNodePool cnp, GetDynamicNodePool dnp with
    | Some cdyn, Some ddyn =>
        match Dyn_AutoscalerConfig cdyn, Dyn_AutoscalerConfig ddyn with
        | Some _, None => {[NodePool_Name dnp]} ∪ m
        | _, _ => m
        end
    | _, _ => m
    end) ∅ pairs.

(** Nodes of the pair present on both sides and marked for deletion on both. *)
Definition pending_nodes (cnp dnp : NodePool) : list string :=
  NodePool_Nodes cnp ≫= λ cn,
    Node_Name <$> filter (λ dn, Node_Name cn = Node_Name dn ∧ Node_Status cn = Node_Status dn ∧
                                Node_Status cn = MarkedForDeletion) (NodePool_Nodes dnp).

(** [wantDynamic] selects the pools whose desired side is dynamic. *)
Definition pending_deletions (wantDynamic : bool) (pairs : list (NodePool * NodePool)) : View :=
  foldl (λ m '(cnp, dnp),
    if bool_decide (is_dynamic dnp = wantDynamic)
    then foldl (λ m n, push m (NodePool_Name dnp) n) m (pending_nodes cnp dnp)
    else m) ∅ pairs.

Definition proxy_diff (old desired : K8Scluster) : ProxyDiffResult :=
  let c := UsesProxy old in
  let d := UsesProxy desired in
  mkProxyDiffResult c d
    (if c && negb d then ProxyOff
     else if negb c && d then ProxyOn
     else if c && d then
       if bool_decide (Proxy_NoProxy (K8s_InstallationProxy old) ≠ Proxy_NoProxy (K8s_InstallationProxy desired))
       then ProxyRefresh else ProxyNoChange
     else ProxyNoChange).

(** One of the four "is the endpoint among the deleted nodes" checks. *)
Definition check_deleted (deleted : View) (desired : list NodePool) (api : K8sApiEndpointDiff)
    : outcome K8sApiEndpointDiff :=
  match deleted !! Api_CurrentNodePool api with
  | Some del =>
      if contains del (Api_Current api) then
        let* (np, ep) := newAPIEndpointNodeCandidate desired in
        Ret (mkK8sApiEndpointDiff (Api_Current api) (Api_CurrentNodePool api) ep np)
      else Ret api
  | None => Ret api
  end.

Definition api_endpoint_diff (old desired : list NodePool) (dyn stt : NodePoolsDiffResult)
    : outcome K8sApiEndpointDiff :=
  match FindApiEndpoint old with
  | None => Ret (mkK8sApiEndpointDiff "" "" "" "")
  | Some (np, node) =>
      let api := mkK8sApiEndpointDiff (Node_Name node) (NodePool_Name np) (Node_Name node) (NodePool_Name np) in
      if bool_decide (Api_Current api = "") then Ret api
      else
        let* api := check_deleted (Deleted dyn) desired api in
        let* api := check_deleted (PartiallyDeleted dyn) desired api in
        let* api := check_deleted (Deleted stt) desired api in
        check_deleted (PartiallyDeleted stt) desired api
  end.

(** The pairs of the second loop nest, which breaks after the first match. *)
Definition first_matching_pools (old desired : list NodePool) : list (NodePool * NodePool) :=
  omap (λ c, pair c <$> find_first (λ d, bool_decide (NodePool_Name c = NodePool_Name d)) desired) old.

Section labels.
Context `{RangeOrder}.

(** Keys of [c] that are missing in [n], appended under [name]. *)
Definition deleted_keys (site : string) (pairs : list (NodePool * NodePool))
    (get : NodePool → gmap string string) : gmap string (list string) :=
  foldl (λ m '(c, n),
    foldl (λ m '(k, _),
      match get n !! k with
      | None => push m (NodePool_Name n) k
      | Some _ => m
      end) m (range site (get c))) ∅ pairs.

(** [diff.Added.Labels[c.Name][k] = nv] for new and changed keys. *)
Definition added_keys (site : string) (pairs : list (NodePool * NodePool))
    (get : NodePool → gmap string string) : gmap string (gmap string string) :=
  foldl (λ m '(c, n),
    foldl (λ m '(k, nv),
      if bool_decide (get c !! k = Some nv) then m
      else <[NodePool_Name c := <[k := nv]> (default ∅ (m !! NodePool_Name c))]> m)
      m (range site (get n))) ∅ pairs.

Definition missing_taints (pairs : list (NodePool * NodePool))
    (name : NodePool → NodePool → string) (a b : NodePool → NodePool → list Taint)
    : gmap string (list Taint) :=
  foldl (λ m '(c, n),
    foldl (λ m t, if contains (b c n) t then m else push m (name c n) t) m (a c n)) ∅ pairs.

Definition labels_diff (old desired : list NodePool) : LabelsTaintsAnnotationsDiffResult :=
  let pairs := first_matching_pools old desired in
  mkLTA
    (deleted_keys "KubernetesDiff.deleted.labels" pairs NodePool_Labels)
    (deleted_keys "KubernetesDiff.deleted.annotations" pairs NodePool_Annotations)
    (missing_taints pairs (λ _ n, NodePool_Name n) (λ c _, NodePool_Taints c) (λ _ n, NodePool_Taints n))
    (added_keys "KubernetesDiff.added.labels" pairs NodePool_Labels)
    (added_keys "KubernetesDiff.added.annotations" pairs NodePool_Annotations)
    (missing_taints pairs (λ c _, NodePool_Name c) (λ _ n, NodePool_Taints n) (λ c _, NodePool_Taints c)).

Definition KubernetesDiff (old desired : K8Scluster) : outcome KubernetesDiffResult :=
  let* (odynamic, ostatic) := NodePoolsView (K8s_ClusterInfo old) in
  let* (ndynamic, nstatic) := NodePoolsView (K8s_ClusterInfo desired) in
  let dynamicDiff := NodePoolsDiff odynamic ndynamic in
  let staticDiff := NodePoolsDiff ostatic nstatic in
  let pairs := matching_pools (K8s_NodePools old) (K8s_NodePools desired) in
  let* api := api_endpoint_diff (K8s_NodePools old) (K8s_NodePools desired) dynamicDiff staticDiff in
  Ret (mkKubernetesDiffResult
         (bool_decide (K8s_Kubernetes old ≠ K8s_Kubernetes desired))
         (proxy_diff old desired)
         dynamicDiff staticDiff
         (changed_to_autoscaled pairs) (changed_to_fixed pairs)
         (pending_deletions true pairs) (pending_deletions false pairs)
         api
         (labels_diff (K8s_NodePools old) (K8s_NodePools desired))
         (rolling_updates pairs)).
End labels.

(** ** Load balancers *)

Definition role_named (name : string) (r : Role) : bool := bool_decide (Role_Name r = name).

Definition missing_roles (a b : list Role) : list string :=
  Role_Name <$> filter (λ o, existsb (role_named (Role_Name o)) b = false) a.

(** The pairs of equally named roles, each old role with its first match. *)
Definition common_roles (old desired : list Role) : list (Role * Role) :=
  omap (λ o, pair o <$> find_first (role_named (Role_Name o)) desired) old.

Definition target_pools (pairs : list (Role * Role)) (a b : Role → Role → list string) : View :=
  foldl (λ m '(o, n),
    foldl (λ m p, if contains (b o n) p then m else push m (Role_Name n) p) m (a o n)) ∅ pairs.

Definition roles_diff (old desired : list Role) : ModifiedRoles :=
  let pairs := common_roles old desired in
  mkModifiedRoles
    (missing_roles desired old)
    (missing_roles old desired)
    (target_pools pairs (λ _ n, Role_TargetPools n) (λ o _, Role_TargetPools o))
    (target_pools pairs (λ o _, Role_TargetPools o) (λ _ n, Role_TargetPools n))
    ((λ p, Role_Name p.2) <$> filter (λ '(o, n), Role_TargetPort o ≠ Role_TargetPort n ∨
                                     Role_Settings_ o ≠ Role_Settings_ n) pairs)
    ((λ p, Role_Name p.2) <$> filter (λ '(o, n), Role_Port o ≠ Role_Port n ∨
                                     Role_Protocol o ≠ Role_Protocol n) pairs).

Definition dns_changed (old desired : option DNS) : bool :=
  match old, desired with
  | None, Some _ => true
  | Some _, None => true
  | Some o, Some d =>
      negb (bool_decide (Provider_SpecName (DNS_Provider o) = Provider_SpecName (DNS_Provider d))
            && bool_decide (o = d))
  | None, None => false
  end.

(** The entry recorded for a load balancer present in both states, [None]
    when nothing differs.  [Static] is filled from the dynamic difference, as
    the source does. *)
Definition modified_loadbalancer (oldIdx idx : nat) (old desired : LBcluster)
    : outcome (option ModifiedLoadBalancer) :=
  let roles := roles_diff (LB_Roles old) (LB_Roles desired) in
  let dnsChanged := dns_changed (LB_Dns old) (LB_Dns desired) in
  let pairs := matching_pools (LB_NodePools old) (LB_NodePools desired) in
  let pendingDynamicDeletions := pending_deletions true pairs in
  let pendingStaticDeletions := pending_deletions false pairs in
  let rollingUpdates := rolling_updates pairs in
  let* (oldDynamic, oldStatic) := NodePoolsView (LB_ClusterInfo old) in
  let* (newDynamic, newStatic) := NodePoolsView (LB_ClusterInfo desired) in
  let dynDiff := NodePoolsDiff oldDynamic newDynamic in
  let sttDiff := NodePoolsDiff oldStatic newStatic in
  let modified :=
    bool_decide (Roles_Added roles ≠ []) || bool_decide (Roles_Deleted roles ≠ []) ||
    bool_decide (Roles_InternalSettingsChanged roles ≠ []) ||
    bool_decide (Roles_ExternalSettingsChanged roles ≠ []) ||
    bool_decide (Roles_TargetPoolsAdded roles ≠ ∅) || bool_decide (Roles_TargetPoolsDeleted roles ≠ ∅) ||
    dnsChanged ||
    bool_decide (pendingDynamicDeletions ≠ ∅) || bool_decide (pendingStaticDeletions ≠ ∅) ||
    bool_decide (rollingUpdates ≠ ∅) ||
    (negb (IsEmpty dynDiff) || negb (IsEmpty sttDiff)) in
  Ret (if modified then
         Some (mkModifiedLoadBalancer oldIdx idx dnsChanged roles
                 (if negb (IsEmpty dynDiff) then dynDiff else noNodePoolsDiff)
                 (if negb (IsEmpty sttDiff) then dynDiff else noNodePoolsDiff)
                 pendingDynamicDeletions pendingStaticDeletions rollingUpdates)
       else None).

Definition determineLBApiEndpointChange (currentLbs desiredLbs : list LBcluster)
    : string * string * ApiEndpointChangeState :=
  let candidates := filter (λ lb, HasApiRole (Some lb) = true ∧ LB_Dns lb ≠ None) desiredLbs in
  let first := match candidates with lb :: _ => LB_Id lb | [] => "" end in
  (* the map desired[id], in which a later entry overwrites an earlier one *)
  let desired := λ id, find_first (λ lb, bool_decide (LB_Id lb = id)) (reverse candidates) in
  match FindAssignedLbApiEndpoint currentLbs with
  | Some current =>
      match candidates, LB_Dns current with
      | [], None => ("", "", NoChange)
      | [], Some _ => (LB_Id current, "", DetachingLoadBalancer)
      | _, None =>
          match desired (LB_Id current) with
          | Some d => (LB_Id current, LB_Id d, EndpointRenamed)
          | None => ("", first, AttachingLoadBalancer)
          end
      | _, Some cdns =>
          match desired (LB_Id current) with
          | Some d =>
              if bool_decide (Some (DNS_Endpoint cdns) ≠ DNS_Endpoint <$> LB_Dns d)
              then (LB_Id current, LB_Id d, EndpointRenamed)
              else ("", "", NoChange)
          | None => (LB_Id current, first, MoveEndpoint)
          end
      end
  | None =>
      match candidates with
      | [] => ("", "", NoChange)
      | _ => ("", first, AttachingLoadBalancer)
      end
  end.

(** Identifiers of the load balancers of [a] that have no counterpart in [b]. *)
Definition lbs_missing (a b : list LBcluster) : list LoadBalancerIdentifier :=
  filter (λ id, IndexLoadbalancerById (Lb_Id_ id) b = None)
    (imap (λ i lb, mkLoadBalancerIdentifier (LB_Id lb) i) a).

(** One iteration of the second loop for a load balancer of the old state. *)
Definition record_modified (desired : list LBcluster) (acc : outcome (gmap string ModifiedLoadBalancer))
    (entry : nat * LBcluster) : outcome (gmap string ModifiedLoadBalancer) :=
  let* m := acc in
  match IndexLoadbalancerById (LB_Id entry.2) desired with
  | None => Ret m
  | Some idx =>
      let* d := index desired idx in
      let* e := modified_loadbalancer entry.1 idx entry.2 d in
      Ret (match e with Some e => <[LB_Id entry.2 := e]> m | None => m end)
  end.

Definition LoadBalancersDiff (old desired : list LBcluster) : outcome LoadBalancersDiffResult :=
  let* modified := foldl (record_modified desired) (Ret ∅) (imap pair old) in
  let '(cid, did, change) := determineLBApiEndpointChange old desired in
  Ret (mkLoadBalancersDiffResult (lbs_missing desired old) (lbs_missing old desired) modified
         cid did change).

Definition Diff `{RangeOrder} (old desired : Clusters) : outcome DiffResult :=
  let* ok8s := deref (K8S old) in
  let* dk8s := deref (K8S desired) in
  let* k := KubernetesDiff ok8s dk8s in
  let* l := LoadBalancersDiff (LoadBalancers old) (LoadBalancers desired) in
  Ret (mkDiffResult k l).

(** ** Properties of the node pool difference *)

(** The difference of one node pool, as the documentation of
    [NodePoolsDiffResult] describes it. *)
Definition spec_deleted (old desired : View) (np : string) : option (list string) :=
  match old !! np, desired !! np with
  | Some nodes, None => Some nodes
  | _, _ => None
  end.

Definition spec_partially_deleted (old desired : View) (np : string) : option (list string) :=
  match old !! np, desired !! np with
  | Some o, Some d => nonempty (filter (λ n, n ∉ d) o)
  | _, _ => None
  end.

Lemma nonempty_None l : nonempty l = None ↔ l = [].
Proof. by destruct l. Qed.

Lemma nonempty_Some l l' : nonempty l = Some l' ↔ l = l' ∧ l ≠ [].
Proof. destruct l; simpl; naive_solver. Qed.

Lemma default_nonempty l : default [] (nonempty l) = l.
Proof. by destruct l. Qed.

Section nodepools_diff.
Implicit Types (old desired : View) (np : string).

Lemma Deleted_lookup old desired np :
  Deleted (NodePoolsDiff old desired) !! np = spec_deleted old desired np.
Proof.
  simpl. unfold spec_deleted. rewrite map_lookup_filter.
  destruct (old !! np); simpl; [|done].
  case_guard as E; simpl; destruct (desired !! np); done.
Qed.

(** [old] and [desired] after the first two phases: the common pools. *)
Lemma common_lookup (a b : View) np :
  (a ∖ filter (λ '(k, _), b !! k = None) a) !! np =
  match a !! np, b !! np with Some v, Some _ => Some v | _, _ => None end.
Proof.
  rewrite lookup_difference, map_lookup_filter.
  destruct (a !! np); simpl; [|done].
  case_guard as E; simpl; destruct (b !! np); done.
Qed.

Lemma Added_lookup old desired np :
  Added (NodePoolsDiff old desired) !! np = spec_deleted desired old np.
Proof.
  simpl. unfold spec_deleted. rewrite map_lookup_filter.
  destruct (desired !! np) as [d|] eqn:Ed; simpl; [|done].
  case_guard as E; pose proof E as E'; rewrite common_lookup, Ed in E'; simpl; destruct (old !! np); done.
Qed.

Lemma PartiallyDeleted_lookup old desired np :
  PartiallyDeleted (NodePoolsDiff old desired) !! np = spec_partially_deleted old desired np.
Proof.
  simpl. unfold spec_partially_deleted. rewrite map_lookup_imap, !common_lookup.
  by destruct (old !! np), (desired !! np).
Qed.

Lemma PartiallyAdded_lookup old desired np :
  PartiallyAdded (NodePoolsDiff old desired) !! np = spec_partially_deleted desired old np.
Proof.
  pose proof (PartiallyDeleted_lookup old desired np) as Hpd. simpl in Hpd.
  simpl. unfold spec_partially_deleted in *. rewrite map_lookup_imap, !common_lookup.
  destruct (desired !! np) as [d|] eqn:Ed, (old !! np) as [o|] eqn:Eo; simpl; try done.
  rewrite map_lookup_imap, common_lookup, Ed, Eo. simpl. rewrite Hpd, default_nonempty.
  f_equal. apply filter_ext_in. intros n Hn. rewrite !list_elem_of_filter. naive_solver.
Qed.
End nodepools_diff.

(** An empty difference has four empty views. *)
Lemma IsEmpty_true r : IsEmpty r = true ↔ r = noNodePoolsDiff.
Proof.
  unfold IsEmpty. rewrite !andb_true_iff, !bool_decide_eq_true.
  destruct r; unfold noNodePoolsDiff; simpl; naive_solver.
Qed.

Lemma NodePoolsDiff_self (v : View) : NodePoolsDiff v v = noNodePoolsDiff.
Proof.
  assert (∀ np, spec_deleted v v np = None) as Hd.
  { intros np. unfold spec_deleted. by destruct (v !! np). }
  assert (∀ np, spec_partially_deleted v v np = None) as Hp.
  { intros np. unfold spec_partially_deleted. destruct (v !! np) as [l|]; [|done].
    apply nonempty_None, filter_nil_iff. set_solver. }
  rewrite <- IsEmpty_true. unfold IsEmpty.
  rewrite !andb_true_iff, !bool_decide_eq_true.
  split_and!; apply map_empty; intros np.
  - by rewrite Deleted_lookup.
  - by rewrite PartiallyDeleted_lookup.
  - by rewrite Added_lookup.
  - by rewrite PartiallyAdded_lookup.
Qed.

(** ** A state does not differ from itself *)

Definition pools_typed (nps : list NodePool) : Prop := Forall (λ np, NodePool_Type np ≠ NodePool_nil) nps.

Lemma foldl_bind_Ret {A B} (f : B → A → outcome B) (l : list A) (b : B) :
  (∀ b x, x ∈ l → ∃ b', f b x = Ret b') →
  ∃ b', foldl (λ acc x, let* b := acc in f b x) (Ret b) l = Ret b'.
Proof.
  revert b. induction l as [|x l IH]; intros b Hf; simpl; [by exists b|].
  destruct (Hf b x) as [b' ->]; [by left|]. apply IH. intros ? y Hy. apply Hf. by right.
Qed.

Lemma NodePoolsView_total info :
  pools_typed (ClusterInfo_NodePools info) → ∃ v, NodePoolsView info = Ret v.
Proof.
  intros Ht. apply foldl_bind_Ret. intros v np Hnp.
  eapply Forall_forall in Ht; [|done]. unfold view_pool.
  destruct (NodePool_Type np); [eauto..|done].
Qed.

Lemma matching_pools_self nps c d :
  NoDup (NodePool_Name <$> nps) → (c, d) ∈ matching_pools nps nps → c = d.
Proof.
  intros Hnd. unfold matching_pools. rewrite list_elem_of_bind.
  intros (x & Hin & Hx). apply list_elem_of_fmap in Hin as (y & ? & [Hn Hy]%list_elem_of_filter).
  simplify_eq.
  pose proof (FindByName_elem nps x Hnd Hx) as E1.
  pose proof (FindByName_elem nps y Hnd Hy) as E2. congruence.
Qed.

Lemma first_matching_pools_self nps c d :
  NoDup (NodePool_Name <$> nps) → (c, d) ∈ first_matching_pools nps nps → c = d.
Proof.
  intros Hnd. unfold first_matching_pools. rewrite list_elem_of_omap.
  intros (x & Hx & E). apply fmap_Some in E as (y & [Hy Hn]%find_first_Some & ?).
  simplify_eq. apply bool_decide_eq_true in Hn.
  pose proof (FindByName_elem nps x Hnd Hx) as E1.
  pose proof (FindByName_elem nps y Hnd Hy) as E2. congruence.
Qed.

Section self.
Context `{RangeOrder} (nps : list NodePool) (Hnd : NoDup (NodePool_Name <$> nps)).

Lemma rolling_updates_self : rolling_updates (matching_pools nps nps) = ∅.
Proof.
  apply foldl_id. intros [c d] ->%matching_pools_self; [|done].
  destruct (GetDynamicNodePool d); [|done]. by rewrite bool_decide_ne_refl.
Qed.

Lemma changed_to_autoscaled_self : changed_to_autoscaled (matching_pools nps nps) = ∅.
Proof.
  apply foldl_id. intros [c d] ->%matching_pools_self; [|done].
  destruct (GetDynamicNodePool d) as [dy|]; [|done]. destruct (Dyn_AutoscalerConfig dy); [|done].
  by rewrite !bool_decide_ne_refl.
Qed.

Lemma changed_to_fixed_self : changed_to_fixed (matching_pools nps nps) = ∅.
Proof.
  apply foldl_id. intros [c d] ->%matching_pools_self; [|done].
  destruct (GetDynamicNodePool d) as [dy|]; [|done]. by destruct (Dyn_AutoscalerConfig dy).
Qed.

Lemma labels_diff_self : labels_diff nps nps = mkLTA ∅ ∅ ∅ ∅ ∅ ∅.
Proof.
  unfold labels_diff. f_equal; apply foldl_id; intros [c d] ->%first_matching_pools_self; try done;
    apply foldl_id.
  1-2: intros [k v] ->%elem_of_range; done.
  1,4: intros t Ht%contains_spec; by rewrite Ht.
  1-2: intros [k v] ->%elem_of_range; by rewrite bool_decide_refl.
Qed.
End self.

(** ** The API endpoint *)

(** A control plane node of [nps], by pool and name. *)
Definition control_node (nps : list NodePool) (np node : string) : Prop :=
  ∃ p n, p ∈ nps ∧ NodePool_IsControl p = true ∧ n ∈ NodePool_Nodes p ∧
         NodePool_Name p = np ∧ Node_Name n = node.

Lemma newAPIEndpointNodeCandidate_control desired np ep :
  newAPIEndpointNodeCandidate desired = Ret (np, ep) → control_node desired np ep.
Proof.
  unfold newAPIEndpointNodeCandidate. destruct (find_first _ _) as [p|] eqn:E; [|done].
  apply find_first_Some in E as [Hp Hc]. intros Hb. bind_inv Hb. simplify_eq.
  exists p, x. unfold index in Hx. case_match; simplify_eq.
  split_and!; try done. by eapply list_elem_of_lookup_2.
Qed.

Lemma FindApiEndpoint_Some nps np n :
  FindApiEndpoint nps = Some (np, n) →
  np ∈ nps ∧ NodePool_IsControl np = true ∧ n ∈ NodePool_Nodes np ∧ Node_NodeType n = apiEndpoint.
Proof.
  induction nps as [|p nps IH]; simpl; [done|].
  assert (FindApiEndpoint nps = Some (np, n) → _) as IH' by exact IH.
  destruct (NodePool_IsControl p) eqn:Ec; [|intros (?&?&?&?)%IH; split_and!; auto; by right].
  destruct (find_first _ _) as [x|] eqn:Ef; [|intros (?&?&?&?)%IH; split_and!; auto; by right].
  intros [= <- <-]. apply find_first_Some in Ef as [? Ht%bool_decide_eq_true].
  split_and!; auto. by left.
Qed.

(** The endpoint node is among the nodes deleted from its pool. *)
Definition deleted_in (del : View) (api : K8sApiEndpointDiff) : Prop :=
  Api_Current api ∈ default [] (del !! Api_CurrentNodePool api).

Lemma check_deleted_spec del desired api api' :
  check_deleted del desired api = Ret api' →
  Api_Current api' = Api_Current api ∧ Api_CurrentNodePool api' = Api_CurrentNodePool api ∧
  (¬ deleted_in del api → api' = api) ∧
  (deleted_in del api → control_node desired (Api_DesiredNodePool api') (Api_Desired api')).
Proof.
  unfold check_deleted, deleted_in. destruct (del !! _) as [l|]; simpl.
  - destruct (contains l _) eqn:E.
    + destruct (newAPIEndpointNodeCandidate desired) as [[np ep]|?|?] eqn:En; simpl; try done.
      intros [= <-]. simpl. apply contains_spec in E. split_and!; try done.
      intros _. by apply newAPIEndpointNodeCandidate_control.
    + apply contains_false in E. intros [= <-]. split_and!; done.
  - intros [= <-]. split_and!; try done. set_solver.
Qed.

Lemma check_deleted_keeps del desired api api' :
  check_deleted del desired api = Ret api' →
  control_node desired (Api_DesiredNodePool api) (Api_Desired api) →
  control_node desired (Api_DesiredNodePool api') (Api_Desired api').
Proof.
  intros Hc Hn. destruct (check_deleted_spec _ _ _ _ Hc) as (_ & _ & Hkeep & Hnew).
  destruct (decide (Api_Current api ∈ default [] (del !! Api_CurrentNodePool api))); [by apply Hnew|].
  by rewrite Hkeep.
Qed.

(** ** What the views record *)

Definition node_names (np : NodePool) : list string := Node_Name <$> NodePool_Nodes np.

Lemma foldl_bind_inv {A B} (f : B → A → outcome B) (l : list A) m w :
  foldl (λ acc x, let* b := acc in f b x) m l = Ret w → ∃ b, m = Ret b.
Proof.
  revert m. induction l as [|x l IH]; intros m; simpl; [eauto|].
  intros [b Hb]%IH. destruct m; eauto; done.
Qed.

(** The loop of [NodePoolsView], for any starting views. *)
Lemma view_sound nps v w :
  foldl (λ acc np, let* v := acc in view_pool v np) (Ret v) nps = Ret w →
  ∀ k ns, (w.1 !! k = Some ns ∨ w.2 !! k = Some ns) →
  (v.1 !! k = Some ns ∨ v.2 !! k = Some ns) ∨
  ∃ p, p ∈ nps ∧ NodePool_Name p = k ∧ node_names p = ns.
Proof.
  revert v. induction nps as [|p nps IH]; intros v; simpl; [intros [= ->]; by left|].
  destruct (view_pool v p) as [v'|?|?] eqn:Ev; simpl; intros Hf k ns Hk.
  2-3: by apply foldl_bind_inv in Hf as [??].
  destruct (IH v' Hf k ns Hk) as [Hv|(q & ? & ? & ?)]; [|right; exists q; set_solver].
  unfold view_pool in Ev. destruct (NodePool_Type p); simplify_eq; simpl in Hv.
  all: destruct (decide (NodePool_Name p = k)) as [E|E];
    [subst k; rewrite lookup_insert_eq in Hv|rewrite lookup_insert_ne in Hv by done; by left].
  - destruct Hv as [[= <-]|?]; [right; exists p; set_solver|by left; right].
  - destruct Hv as [?|[= <-]]; [by left; left|right; exists p; set_solver].
Qed.

Lemma view_frame nps v w k :
  foldl (λ acc np, let* v := acc in view_pool v np) (Ret v) nps = Ret w →
  k ∉ (NodePool_Name <$> nps) → w.1 !! k = v.1 !! k ∧ w.2 !! k = v.2 !! k.
Proof.
  revert v. induction nps as [|p nps IH]; intros v; simpl; [by intros [= ->]|].
  destruct (view_pool v p) as [v'|?|?] eqn:Ev; simpl; intros Hf Hk.
  2-3: by apply foldl_bind_inv in Hf as [??].
  apply not_elem_of_cons in Hk as [Hk Hk']. destruct (IH v' Hf Hk') as [-> ->].
  unfold view_pool in Ev. destruct (NodePool_Type p); simplify_eq; simpl;
    by rewrite lookup_insert_ne.
Qed.

Lemma view_complete nps v w p :
  foldl (λ acc np, let* v := acc in view_pool v np) (Ret v) nps = Ret w →
  NoDup (NodePool_Name <$> nps) → p ∈ nps →
  w.1 !! NodePool_Name p = Some (node_names p) ∨ w.2 !! NodePool_Name p = Some (node_names p).
Proof.
  revert v. induction nps as [|q nps IH]; intros v; simpl; [set_solver|].
  destruct (view_pool v q) as [v'|?|?] eqn:Ev; simpl; intros Hf Hnd Hp.
  2-3: by apply foldl_bind_inv in Hf as [??].
  apply NoDup_cons in Hnd as [Hq Hnd]. apply elem_of_cons in Hp as [<-|Hp]; [|by eapply IH].
  destruct (view_frame _ _ _ _ Hf Hq) as [-> ->].
  unfold view_pool in Ev. destruct (NodePool_Type p); simplify_eq; simpl;
    rewrite lookup_insert_eq; auto.
Qed.

(** A node that the difference does not delete is still there. *)
Lemma survives (old desired : View) k ns n :
  old !! k = Some ns → n ∈ ns →
  n ∉ default [] (Deleted (NodePoolsDiff old desired) !! k) →
  n ∉ default [] (PartiallyDeleted (NodePoolsDiff old desired) !! k) →
  ∃ ds, desired !! k = Some ds ∧ n ∈ ds.
Proof.
  intros Ho Hn. rewrite Deleted_lookup, PartiallyDeleted_lookup.
  unfold spec_deleted, spec_partially_deleted. rewrite Ho.
  destruct (desired !! k) as [ds|]; simpl; [|done].
  rewrite default_nonempty, list_elem_of_filter. intros _ H2. exists ds. split; [done|].
  apply dec_stable. tauto.
Qed.

(** The chain of the four checks: either the endpoint was never found
    deleted and the result is the input, or a control node was picked. *)
Lemma check_chain d1 d2 d3 d4 desired api r :
  (let* a := check_deleted d1 desired api in
   let* a := check_deleted d2 desired a in
   let* a := check_deleted d3 desired a in
   check_deleted d4 desired a) = Ret r →
  (Api_Current r = Api_Current api ∧ Api_CurrentNodePool r = Api_CurrentNodePool api) ∧
  ((r = api ∧ ¬ deleted_in d1 api ∧ ¬ deleted_in d2 api ∧ ¬ deleted_in d3 api ∧ ¬ deleted_in d4 api) ∨
   control_node desired (Api_DesiredNodePool r) (Api_Desired r)).
Proof.
  intros Hr. bind_inv Hr.
  destruct (check_deleted_spec _ _ _ _ Hx) as (C1 & P1 & K1 & N1).
  destruct (check_deleted_spec _ _ _ _ Hx0) as (C2 & P2 & K2 & N2).
  destruct (check_deleted_spec _ _ _ _ Hx1) as (C3 & P3 & K3 & N3).
  destruct (check_deleted_spec _ _ _ _ Hr) as (C4 & P4 & K4 & N4).
  split; [split; congruence|].
  assert (∀ d a, Decision (deleted_in d a)) as Hdec by (intros; unfold deleted_in; apply _).
  destruct (decide (deleted_in d1 api)) as [D1|D1].
  { right. eauto using check_deleted_keeps. }
  rewrite K1 in * by done.
  destruct (decide (deleted_in d2 api)) as [D2|D2]; [right; eauto using check_deleted_keeps|].
  rewrite K2 in * by done.
  destruct (decide (deleted_in d3 api)) as [D3|D3]; [right; eauto using check_deleted_keeps|].
  rewrite K3 in * by done.
  destruct (decide (deleted_in d4 api)) as [D4|D4]; [right; eauto|].
  left. by rewrite K4.
Qed.

(** A node of [nps], by pool and name. *)
Definition node_at (nps : list NodePool) (np node : string) : Prop :=
  ∃ p, p ∈ nps ∧ NodePool_Name p = np ∧ node ∈ node_names p.

Lemma control_node_at nps np node : control_node nps np node → node_at nps np node.
Proof.
  intros (p & n & ? & _ & Hn & ? & <-). exists p. split_and!; try done.
  by apply list_elem_of_fmap_2.
Qed.

(** ** Properties *)

(** C40: The four views [NodePoolsDiff] computes are, for every node pool
    name, exactly what the documentation of [NodePoolsDiffResult] says: whole
    pools missing on one side, and the nodes of common pools missing on one
    side.  The loops that shrink both inputs while they run do not change
    this, and "added" is "deleted" with the arguments swapped. *)
Theorem nodepools_diff_equals_reference (old desired : View) (np : string) :
  Deleted (NodePoolsDiff old desired) !! np = spec_deleted old desired np ∧
  Added (NodePoolsDiff old desired) !! np = spec_deleted desired old np ∧
  PartiallyDeleted (NodePoolsDiff old desired) !! np = spec_partially_deleted old desired np ∧
  PartiallyAdded (NodePoolsDiff old desired) !! np = spec_partially_deleted desired old np.
Proof.
  auto using Deleted_lookup, Added_lookup, PartiallyDeleted_lookup, PartiallyAdded_lookup.
Qed.

(** C5: The difference is complete: removing the deleted nodes from the old
    view and adding the added ones gives, pool by pool, exactly the nodes of
    the desired view, so a reconciliation that executes every entry of the
    difference reaches the desired node sets. *)
Theorem nodepools_diff_reaches_desired (old desired : View) (np n : string) :
  let r := NodePoolsDiff old desired in
  n ∈ default [] (desired !! np) ↔
  ((n ∈ default [] (old !! np) ∧
    ¬ (n ∈ default [] (Deleted r !! np)) ∧ ¬ (n ∈ default [] (PartiallyDeleted r !! np))) ∨
   n ∈ default [] (Added r !! np) ∨ n ∈ default [] (PartiallyAdded r !! np)).
Proof.
  intros r. unfold r.
  rewrite Deleted_lookup, Added_lookup, PartiallyDeleted_lookup, PartiallyAdded_lookup.
  unfold spec_deleted, spec_partially_deleted.
  destruct (old !! np) as [o|], (desired !! np) as [d|]; rewrite ?default_nonempty; simpl;
    rewrite ?list_elem_of_filter; try set_solver.
  destruct (decide (n ∈ o)), (decide (n ∈ d)); set_unfold; tauto.
Qed.

(** [NodePoolsDiffResult.IsEmpty] holds exactly when the two views have
    the same pools with the same nodes in each. *)
Lemma nodepools_diff_empty_iff_same (old desired : View) :
  IsEmpty (NodePoolsDiff old desired) = true ↔
  ∀ np, (is_Some (old !! np) ↔ is_Some (desired !! np)) ∧
        ∀ n, n ∈ default [] (old !! np) ↔ n ∈ default [] (desired !! np).
Proof.
  unfold IsEmpty. rewrite !andb_true_iff, !bool_decide_eq_true, !map_empty.
  split.
  - intros [[[Hd Hpd] Ha] Hpa] np. specialize (Hd np). specialize (Hpd np).
    specialize (Ha np). specialize (Hpa np).
    rewrite Deleted_lookup in Hd. rewrite Added_lookup in Ha.
    rewrite PartiallyDeleted_lookup in Hpd. rewrite PartiallyAdded_lookup in Hpa.
    unfold spec_deleted, spec_partially_deleted in *.
    destruct (old !! np), (desired !! np); simplify_eq; simpl; try done.
    rewrite nonempty_None, filter_nil_iff in Hpd, Hpa.
    split; [by split; intros _; eexists|].
    intros n. split; intros Hn; apply dec_stable; [by apply Hpd|by apply Hpa].
  - intros Hs. split_and!; intros np; specialize (Hs np) as [[H1 H2] Hn];
      rewrite ?Deleted_lookup, ?Added_lookup, ?PartiallyDeleted_lookup, ?PartiallyAdded_lookup;
      unfold spec_deleted, spec_partially_deleted;
      destruct (old !! np), (desired !! np); simpl in *; try done;
      try (by destruct H1); try (by destruct H2);
      apply nonempty_None, filter_nil_iff; intros n Hin; specialize (Hn n); tauto.
Qed.

(** Comparing a kubernetes cluster with itself reports no work: no node
    pool, version, proxy, autoscaler, template, label, taint or annotation
    difference, and the API endpoint stays where it is.  (Nodes already
    marked for deletion are still reported as pending.) *)
Lemma kubernetes_diff_of_same_state `{RangeOrder} (k : K8Scluster) :
  NoDup (NodePool_Name <$> K8s_NodePools k) → pools_typed (K8s_NodePools k) →
  ∃ r, KubernetesDiff k k = Ret r ∧
    Kd_Version r = false ∧ Proxy_Change (Kd_Proxy r) = ProxyNoChange ∧
    Kd_Dynamic r = noNodePoolsDiff ∧ Kd_Static r = noNodePoolsDiff ∧
    Kd_ChangedToAutoscaled r = ∅ ∧ Kd_ChangedToFixed r = ∅ ∧ Kd_RollingUpdates r = ∅ ∧
    Kd_LabelsTaintsAnnotations r = mkLTA ∅ ∅ ∅ ∅ ∅ ∅ ∧
    Api_Desired (Kd_ApiEndpoint r) = Api_Current (Kd_ApiEndpoint r).
Proof.
  intros Hnd Ht. unfold KubernetesDiff.
  destruct (NodePoolsView_total (K8s_ClusterInfo k) Ht) as [[d s] ->]. simpl.
  rewrite !NodePoolsDiff_self, rolling_updates_self, changed_to_autoscaled_self,
    changed_to_fixed_self, labels_diff_self by done.
  unfold api_endpoint_diff, check_deleted. simpl. rewrite ?lookup_empty.
  destruct (FindApiEndpoint (K8s_NodePools k)) as [[np n]|]; simpl;
    [destruct (bool_decide (Node_Name n = "")); simpl; rewrite ?lookup_empty; simpl|];
    eexists; split; try reflexivity; simpl;
    rewrite bool_decide_ne_refl; unfold proxy_diff;
    destruct (UsesProxy k); simpl; rewrite ?bool_decide_ne_refl; done.
Qed.

(** After [KubernetesDiff] the node named as the desired API endpoint
    exists in the desired state: it is either the endpoint of the old state,
    which the desired state keeps, or a node of a control plane pool of the
    desired state.  The cluster is never left pointing at a deleted node. *)
Lemma api_endpoint_exists_in_desired `{RangeOrder} (old desired : K8Scluster) r :
  KubernetesDiff old desired = Ret r →
  NoDup (NodePool_Name <$> K8s_NodePools old) →
  Api_Current (Kd_ApiEndpoint r) ≠ "" →
  let a := Kd_ApiEndpoint r in
  node_at (K8s_NodePools desired) (Api_DesiredNodePool a) (Api_Desired a) ∧
  ((Api_Desired a = Api_Current a ∧ Api_DesiredNodePool a = Api_CurrentNodePool a) ∨
   control_node (K8s_NodePools desired) (Api_DesiredNodePool a) (Api_Desired a)).
Proof.
  intros Hr Hnd Hne a. subst a. unfold KubernetesDiff in Hr. bind_inv Hr.
  destruct x as [od os]. bind_inv Hr. destruct x as [nd ns]. bind_inv Hr. subst r. simpl in *.
  rename x into api. unfold api_endpoint_diff in Hx1.
  destruct (FindApiEndpoint (K8s_NodePools old)) as [[p n]|] eqn:Ef; [|by simplify_eq].
  case_bool_decide as En; [by simplify_eq|]. apply check_chain in Hx1 as [[HC HP] Hx1].
  destruct Hx1 as [(-> & D1 & D2 & D3 & D4)|Hc]; [|by auto using control_node_at].
  split; [|by left]. unfold deleted_in in *. simpl in *.
  apply FindApiEndpoint_Some in Ef as (Hp & _ & Hn & _).
  assert (Node_Name n ∈ node_names p) as Hn' by by apply list_elem_of_fmap_2.
  destruct (view_complete _ _ _ _ Hx Hnd Hp) as [Hv|Hv]; simpl in Hv.
  - destruct (survives od nd _ _ _ Hv Hn' D1 D2) as (ds & Hds & Hin).
    destruct (view_sound _ _ _ Hx0 (NodePool_Name p) ds) as [[E|E]|(q & ? & ? & <-)];
      [by left|done..|by exists q].
  - destruct (survives os ns _ _ _ Hv Hn' D3 D4) as (ds & Hds & Hin).
    destruct (view_sound _ _ _ Hx0 (NodePool_Name p) ds) as [[E|E]|(q & ? & ? & <-)];
      [by right|done..|by exists q].
Qed.

(** What each verdict on the load balancers' API endpoint means. *)
Definition api_candidate (lb : LBcluster) : Prop := HasApiRole (Some lb) = true ∧ LB_Dns lb ≠ None.

Definition is_candidate (desired : list LBcluster) (id : string) : Prop :=
  ∃ lb, lb ∈ desired ∧ LB_Id lb = id ∧ api_candidate lb.

Definition no_candidates (desired : list LBcluster) : Prop :=
  ∀ lb, lb ∈ desired → ¬ api_candidate lb.

Definition endpoint_verdict (current desired : list LBcluster) (c d : string)
    (ch : ApiEndpointChangeState) : Prop :=
  match ch with
  | NoChange =>
      c = "" ∧ d = "" ∧
      ((no_candidates desired ∧ ∀ lb, FindAssignedLbApiEndpoint current = Some lb → LB_Dns lb = None) ∨
       ∃ lb dlb, FindAssignedLbApiEndpoint current = Some lb ∧ dlb ∈ desired ∧ api_candidate dlb ∧
         LB_Id dlb = LB_Id lb ∧ DNS_Endpoint <$> LB_Dns dlb = DNS_Endpoint <$> LB_Dns lb)
  | AttachingLoadBalancer =>
      c = "" ∧ is_candidate desired d ∧
      ∀ lb, FindAssignedLbApiEndpoint current = Some lb →
        LB_Dns lb = None ∧ ¬ is_candidate desired (LB_Id lb)
  | DetachingLoadBalancer =>
      d = "" ∧ no_candidates desired ∧
      ∃ lb, FindAssignedLbApiEndpoint current = Some lb ∧ LB_Id lb = c ∧ LB_Dns lb ≠ None
  | EndpointRenamed =>
      c = d ∧ is_candidate desired d ∧ ∃ lb, FindAssignedLbApiEndpoint current = Some lb ∧ LB_Id lb = c
  | MoveEndpoint =>
      is_candidate desired d ∧ ¬ is_candidate desired c ∧
      ∃ lb, FindAssignedLbApiEndpoint current = Some lb ∧ LB_Id lb = c ∧ LB_Dns lb ≠ None
  end.

(** The verdict of [determineLBApiEndpointChange] is justified on every
    branch: an endpoint is attached or moved only to a desired load balancer
    with an API role and a DNS entry, detached only when no such load
    balancer is left, and reported unchanged only when the assigned one keeps
    its DNS endpoint or there is nothing to assign. *)
Lemma lb_api_endpoint_change_sound (current desired : list LBcluster) :
  let '(c, d, ch) := determineLBApiEndpointChange current desired in
  endpoint_verdict current desired c d ch.
Proof.
  unfold determineLBApiEndpointChange.
  set (cands := filter _ desired).
  assert (∀ lb, lb ∈ cands ↔ lb ∈ desired ∧ api_candidate lb) as Hc.
  { intros lb. unfold cands, api_candidate. rewrite list_elem_of_filter. tauto. }
  assert (∀ id, find_first (λ lb, bool_decide (LB_Id lb = id)) (reverse cands) = None →
                ¬ is_candidate desired id) as Hno.
  { intros id Hf (lb & Hin & Hid & Hcand). rewrite find_first_None in Hf.
    specialize (Hf lb). rewrite bool_decide_eq_false in Hf. apply Hf; [|done].
    apply elem_of_reverse, Hc. done. }
  assert (∀ id lb, find_first (λ lb, bool_decide (LB_Id lb = id)) (reverse cands) = Some lb →
                lb ∈ desired ∧ api_candidate lb ∧ LB_Id lb = id) as Hyes.
  { intros id lb [Hin%elem_of_reverse%Hc Hid%bool_decide_eq_true]%find_first_Some. tauto. }
  assert (∀ lb l, cands = lb :: l → is_candidate desired (LB_Id lb)) as Hfirst.
  { intros lb l E. exists lb. assert (lb ∈ cands) as ?%Hc by (rewrite E; by left). tauto. }
  assert (cands = [] → no_candidates desired) as Hnil.
  { intros E lb Hin Hcand. assert (lb ∈ cands) by (apply Hc; done). rewrite E in *. set_solver. }
  clearbody cands. destruct (FindAssignedLbApiEndpoint current) as [cur|] eqn:Ec.
  - destruct cands as [|lb l] eqn:El, (LB_Dns cur) as [cdns|] eqn:Ed; simpl; rewrite ?Ec.
    + split_and!; auto. exists cur. by rewrite Ed.
    + split_and!; auto. left. split; [auto|congruence].
    + destruct (find_first _ _) as [dl|] eqn:Ef.
      * apply Hyes in Ef as (? & ? & Hid). case_bool_decide as E; simpl; rewrite ?Ec.
        -- split_and!; [done| |by exists cur]. exists dl. split_and!; done.
        -- split_and!; auto. right. exists cur, dl. split_and!; auto.
           rewrite Ed. simpl. apply dec_stable. congruence.
      * simpl. rewrite Ec. split_and!; eauto. exists cur. by rewrite Ed.
    + destruct (find_first _ _) as [dl|] eqn:Ef; simpl; rewrite ?Ec.
      * apply Hyes in Ef as (? & ? & Hid). split_and!; [done| |by exists cur]. by exists dl.
      * split_and!; eauto. intros ? [= <-]. auto.
  - destruct cands; simpl; rewrite ?Ec; split_and!; eauto; try done. left. split; [auto|done].
Qed.

(** A load balancer whose dynamic node pools do not differ is recorded
    without any node pool difference, even when its static node pools do
    differ: the entry's [Static] field is filled from the dynamic difference.
    Added and deleted static nodes of a load balancer are therefore not
    acted upon. *)
Lemma static_loadbalancer_changes_are_lost oldIdx idx (old desired : LBcluster) e od os nd ns :
  NodePoolsView (LB_ClusterInfo old) = Ret (od, os) →
  NodePoolsView (LB_ClusterInfo desired) = Ret (nd, ns) →
  NodePoolsDiff od nd = noNodePoolsDiff →
  modified_loadbalancer oldIdx idx old desired = Ret (Some e) →
  Mod_Dynamic e = noNodePoolsDiff ∧ Mod_Static e = noNodePoolsDiff.
Proof.
  unfold modified_loadbalancer. intros -> -> Hd. simpl. rewrite Hd.
  destruct (negb (IsEmpty (NodePoolsDiff os ns))); case_match; intros [= <-]; done.
Qed.

(** *** Instances *)

(** The API endpoint node of [ctrl] is deleted; the other control plane node
    takes over. *)
Lemma api_endpoint_exists_in_desired_witness :
  ∃ r, KubernetesDiff Samples.k8s (Samples.k8s_with [Samples.ctrl_shrunk; Samples.workers]) = Ret r ∧
    Api_Desired (Kd_ApiEndpoint r) = "ctrl-0000001-02" ∧
    node_at [Samples.ctrl_shrunk; Samples.workers] (Api_DesiredNodePool (Kd_ApiEndpoint r))
      (Api_Desired (Kd_ApiEndpoint r)).
Proof.
  destruct (KubernetesDiff Samples.k8s (Samples.k8s_with [Samples.ctrl_shrunk; Samples.workers]))
    as [r|?|?] eqn:Hr; [|vm_compute in Hr; discriminate Hr..].
  exists r. split; [reflexivity|]. split; [vm_compute in Hr; injection Hr as <-; reflexivity|].
  refine (proj1 (api_endpoint_exists_in_desired _ _ r Hr _ _)); [by_decide|].
  vm_compute in Hr. injection Hr as <-. discriminate.
Defined.

(** A load balancer that loses one of its two static nodes. *)
Lemma static_loadbalancer_changes_are_lost_witness :
  let n1 := Samples.node "edge-1" "4.4.4.1" worker in
  let n2 := Samples.node "edge-2" "4.4.4.2" worker in
  let old := Samples.lb_with "lb" [Samples.lb_static [n1; n2] {["4.4.4.1" := "k1"; "4.4.4.2" := "k2"]}] [] false in
  let new := Samples.lb_with "lb" [Samples.lb_static [n1] {["4.4.4.1" := "k1"]}] [] false in
  ∃ e, modified_loadbalancer 0 0 old new = Ret (Some e) ∧ Mod_Static e = noNodePoolsDiff.
Proof.
  intros n1 n2 old new.
  destruct (modified_loadbalancer 0 0 old new) as [[e|]|?|?] eqn:He;
    [|vm_compute in He; discriminate He..].
  exists e. split; [reflexivity|].
  refine (proj2 (static_loadbalancer_changes_are_lost 0 0 old new e ∅ {["edge" := ["edge-1"; "edge-2"]]}
    ∅ {["edge" := ["edge-1"]]} _ _ _ He)); vm_compute; reflexivity.
Defined.

End Diff.
