(* ===== verification/Store.v ===== *)
(** * The store (services/manager/internal/store, internal/api/manifest/state.go)

    The documents the manager keeps in its database, the conversions between
    the database and the gRPC representation, and the optimistic locking
    contract of the [Store] interface with its two implementations.  The
    database keeps tasks and clusters as marshalled protobuf and enums and
    times as strings; protobuf and the time format are library code and enter
    as the class [Codec]. *)

From Stdlib Require Import Ascii.
From stdpp Require Import base gmap strings list.
From S2P Require Import Prelude Spec SpecUtils Samples.

Module Store.

(** ** Manifest states *)

Definition StateTransitionMap (src : Manifest_State) : list Manifest_State :=
  match src with
  | Pending => [Pending; Scheduled]
  | Scheduled => [Scheduled; Done; Error]
  | Done => [Done; Pending]
  | Error => [Error; Pending]
  end.

Definition ValidStateTransition (src dst : Manifest_State) : bool := contains (StateTransitionMap src) dst.

Definition ValidStateTransitionString (src : string) (dst : Manifest_State) : outcome bool :=
  if bool_decide (src = "Pending") then Ret (ValidStateTransition Pending dst)
  else if bool_decide (src = "Scheduled") then Ret (ValidStateTransition Scheduled dst)
  else if bool_decide (src = "Done") then Ret (ValidStateTransition Done dst)
  else if bool_decide (src = "Error") then Ret (ValidStateTransition Error dst)
  else Fail "unrecognized state".

Definition StateFromString (src : string) : Manifest_State * option string :=
  let s := ToLower src in
  if bool_decide (s = "pending") then (Pending, None)
  else if bool_decide (s = "scheduled") then (Scheduled, None)
  else if bool_decide (s = "done") then (Done, None)
  else if bool_decide (s = "error") then (Error, None)
  else (Error, Some "unrecognized state").

(** ** Enums

    [x.String()] and the generated [.._value] map, which yields the zero
    value for an unknown name. *)
Class GoEnum (E : Type) := {
  enum_String : E → string;
  enum_value : string → E;
  enum_value_String : ∀ e, enum_value (enum_String e) = e
}.

Definition value_of {E} (all : list E) (name : E → string) (zero : E) (s : string) : E :=
  default zero (find_first (λ e, bool_decide (name e = s)) all).

Definition ErrorLevel_name (e : ErrorLevel) : string :=
  match e with ERROR_FATAL => "ERROR_FATAL" | ERROR_WARN => "ERROR_WARN" end.
#[export] Program Instance ErrorLevel_enum : GoEnum ErrorLevel :=
  {| enum_String := ErrorLevel_name; enum_value := value_of [ERROR_FATAL; ERROR_WARN] ErrorLevel_name ERROR_FATAL |}.
Next Obligation. by intros []. Qed.

Definition Event_name (e : Event) : string :=
  match e with UNKNOWN => "UNKNOWN" | CREATE => "CREATE" | UPDATE => "UPDATE" | DELETE => "DELETE" end.
#[export] Program Instance Event_enum : GoEnum Event :=
  {| enum_String := Event_name; enum_value := value_of [UNKNOWN; CREATE; UPDATE; DELETE] Event_name UNKNOWN |}.
Next Obligation. by intros []. Qed.

Definition Workflow_Status_name (e : Workflow_Status) : string :=
  match e with
  | DONE => "DONE" | ERROR => "ERROR" | IN_PROGRESS => "IN_PROGRESS" | WAIT_FOR_PICKUP => "WAIT_FOR_PICKUP"
  end.
#[export] Program Instance Workflow_Status_enum : GoEnum Workflow_Status :=
  {| enum_String := Workflow_Status_name;
     enum_value := value_of [DONE; ERROR; IN_PROGRESS; WAIT_FOR_PICKUP] Workflow_Status_name DONE |}.
Next Obligation. by intros []. Qed.

Definition Manifest_State_name (e : Manifest_State) : string :=
  match e with Pending => "Pending" | Scheduled => "Scheduled" | Done => "Done" | Error => "Error" end.
#[export] Program Instance Manifest_State_enum : GoEnum Manifest_State :=
  {| enum_String := Manifest_State_name;
     enum_value := value_of [Pending; Scheduled; Done; Error] Manifest_State_name Pending |}.
Next Obligation. by intros []. Qed.

Definition Terraformer_Kind_name (k : StageTerraformer_SubPassKind) : string :=
  match k with
  | BUILD_INFRASTRUCTURE => "BUILD_INFRASTRUCTURE" | UPDATE_INFRASTRUCTURE => "UPDATE_INFRASTRUCTURE"
  | DESTROY_INFRASTRUCTURE => "DESTROY_INFRASTRUCTURE" | API_PORT_ON_KUBERNETES => "API_PORT_ON_KUBERNETES"
  end.
#[export] Program Instance Terraformer_Kind_enum : GoEnum StageTerraformer_SubPassKind :=
  {| enum_String := Terraformer_Kind_name;
     enum_value := value_of [BUILD_INFRASTRUCTURE; UPDATE_INFRASTRUCTURE; DESTROY_INFRASTRUCTURE;
       API_PORT_ON_KUBERNETES] Terraformer_Kind_name BUILD_INFRASTRUCTURE |}.
Next Obligation. by intros []. Qed.

Definition Ansibler_Kind_name (k : StageAnsibler_SubPassKind) : string :=
  match k with
  | INSTALL_NODE_REQUIREMENTS => "INSTALL_NODE_REQUIREMENTS" | INSTALL_VPN => "INSTALL_VPN"
  | DETERMINE_API_ENDPOINT_CHANGE => "DETERMINE_API_ENDPOINT_CHANGE"
  | RECONCILE_LOADBALANCERS => "RECONCILE_LOADBALANCERS"
  | REMOVE_CLAUDIE_UTILITIES => "REMOVE_CLAUDIE_UTILITIES" | UPDATE_API_ENDPOINT => "UPDATE_API_ENDPOINT"
  | COMMIT_PROXY_ENVS => "COMMIT_PROXY_ENVS"
  | UPDATE_PROXY_ENVS_ON_NODES => "UPDATE_PROXY_ENVS_ON_NODES"
  | CLEAR_PROXY_ENVS_ON_NODES => "CLEAR_PROXY_ENVS_ON_NODES"
  end.
#[export] Program Instance Ansibler_Kind_enum : GoEnum StageAnsibler_SubPassKind :=
  {| enum_String := Ansibler_Kind_name;
     enum_value := value_of [INSTALL_NODE_REQUIREMENTS; INSTALL_VPN; DETERMINE_API_ENDPOINT_CHANGE;
       RECONCILE_LOADBALANCERS; REMOVE_CLAUDIE_UTILITIES; UPDATE_API_ENDPOINT; COMMIT_PROXY_ENVS;
       UPDATE_PROXY_ENVS_ON_NODES; CLEAR_PROXY_ENVS_ON_NODES] Ansibler_Kind_name INSTALL_NODE_REQUIREMENTS |}.
Next Obligation. by intros []. Qed.

Definition KubeEleven_Kind_name (k : StageKubeEleven_SubPassKind) : string :=
  match k with RECONCILE_CLUSTER => "RECONCILE_CLUSTER" | DESTROY_CLUSTER => "DESTROY_CLUSTER" end.
#[export] Program Instance KubeEleven_Kind_enum : GoEnum StageKubeEleven_SubPassKind :=
  {| enum_String := KubeEleven_Kind_name;
     enum_value := value_of [RECONCILE_CLUSTER; DESTROY_CLUSTER] KubeEleven_Kind_name RECONCILE_CLUSTER |}.
Next Obligation. by intros []. Qed.

Definition Kuber_Kind_name (k : StageKuber_SubPassKind) : string :=
  match k with
  | CILIUM_RESTART => "CILIUM_RESTART" | DELETE_NODES => "DELETE_NODES"
  | PATCH_CLUSTER_INFO_CM => "PATCH_CLUSTER_INFO_CM" | PATCH_KUBEADM => "PATCH_KUBEADM"
  | REMOVE_LB_SCRAPE_CONFIG => "REMOVE_LB_SCRAPE_CONFIG" | STORE_LB_SCRAPE_CONFIG => "STORE_LB_SCRAPE_CONFIG"
  | PATCH_NODES => "PATCH_NODES" | DEPLOY_LONGHORN => "DEPLOY_LONGHORN"
  | ENABLE_LONGHORN_CA => "ENABLE_LONGHORN_CA" | DISABLE_LONGHORN_CA => "DISABLE_LONGHORN_CA"
  | RECONCILE_LONGHORN_STORAGE_CLASSES => "RECONCILE_LONGHORN_STORAGE_CLASSES"
  | DEPLOY_KUBELET_CSR_APPROVER => "DEPLOY_KUBELET_CSR_APPROVER"
  end.
#[export] Program Instance Kuber_Kind_enum : GoEnum StageKuber_SubPassKind :=
  {| enum_String := Kuber_Kind_name;
     enum_value := value_of [CILIUM_RESTART; DELETE_NODES; PATCH_CLUSTER_INFO_CM; PATCH_KUBEADM;
       REMOVE_LB_SCRAPE_CONFIG; STORE_LB_SCRAPE_CONFIG; PATCH_NODES; DEPLOY_LONGHORN; ENABLE_LONGHORN_CA;
       DISABLE_LONGHORN_CA; RECONCILE_LONGHORN_STORAGE_CLASSES; DEPLOY_KUBELET_CSR_APPROVER]
       Kuber_Kind_name CILIUM_RESTART |}.
Next Obligation. by intros []. Qed.

(** ** Library code used by the conversions

    [proto.Marshal]/[proto.Unmarshal] of the three stored messages and
    [time.RFC3339].  Unmarshalling what was marshalled gives the message
    back; a nil cluster and an empty list of load balancers marshal to no
    bytes, a cluster with its [ClusterInfo] set to some.

    A time is its number of nanoseconds since the epoch (in the years 0 to
    9999 a protobuf timestamp can have).  [Format(time.RFC3339)] writes whole
    seconds: what is parsed back is the time rounded down to its second. *)
Definition whole_second (t : Z) : Z := (t / 1000000000 * 1000000000)%Z.

Class Codec := {
  bytes : Type;
  len0 : bytes → bool;
  marshal_task : Task → option bytes;
  unmarshal_task : bytes → option Task;
  marshal_k8s : option K8Scluster → option bytes;
  unmarshal_k8s : bytes → option K8Scluster;
  marshal_lbs : list LBcluster → option bytes;
  unmarshal_lbs : bytes → option (list LBcluster);
  format_time : Z → string;
  parse_time : string → option Z;
  task_roundtrip : ∀ t b, marshal_task t = Some b → unmarshal_task b = Some t;
  k8s_roundtrip : ∀ k b, marshal_k8s (Some k) = Some b → unmarshal_k8s b = Some k ∧ len0 b = false;
  k8s_nil : ∀ b, marshal_k8s None = Some b → len0 b = true;
  lbs_roundtrip : ∀ l b, marshal_lbs l = Some b → unmarshal_lbs b = Some l ∧ (len0 b = true ↔ l = []);
  time_roundtrip : ∀ t, parse_time (format_time t) = Some (whole_second t)
}.

(** ** Database documents (store/api.go) *)

Section documents.
Context `{Codec}.

Record DbStageDescription := mkDbStageDescription { Db_About : string; Db_ErrorLevel : string }.

Record DbSubPass := mkDbSubPass { Db_SubKind : string; Db_SubDescription : DbStageDescription }.

Record DbStage := mkDbStage {
  Db_Kind : StageKind; Db_Description : DbStageDescription; Db_SubPasses : list DbSubPass }.

Inductive DbTaskEvent := mkDbTaskEvent {
  Db_Id : string;
  Db_Timestamp : string;
  Db_Type : string;
  Db_Task : bytes;
  Db_TaskDescription : string;
  Db_Pipeline : list DbStage;
  Db_CurrentStage : Z;
  Db_LowerPriority : option DbTaskEvent }.

Record DbFinishedWorkflow := mkDbFinishedWorkflow {
  Db_Fin_Status : string; Db_Fin_Stage : StageKind;
  Db_Fin_TaskDescription : string; Db_Fin_Timestamp : string }.

Record DbWorkflow := mkDbWorkflow {
  Db_Status : string;
  Db_StatusDescription : string;
  Db_WfTimestamp : string;
  Db_Previous : list DbFinishedWorkflow;
  Db_TicksUntilRefresh : Z }.

Record DbClusters := mkDbClusters { Db_K8s : bytes; Db_LoadBalancers : bytes }.

Record DbClusterState := mkDbClusterState {
  Db_Current : DbClusters;
  Db_InFlight : option DbTaskEvent;
  Db_State : DbWorkflow;
  Db_Counters : Counters }.

Record DbManifest := mkDbManifest {
  Db_Raw : string; Db_Checksum : option string; Db_LastAppliedChecksum : option string;
  Db_ManifestState : string; Db_StateTimestamp : string }.

Record DbConfig := mkDbConfig {
  Db_Version : Z; Db_Name : string; Db_K8SCtx : KubernetesContext;
  Db_Manifest : DbManifest; Db_Clusters : gmap string DbClusterState }.

(** [ClusterState.Exists] on a pointer. *)
Definition Exists (cs : option DbClusterState) : bool :=
  match cs with
  | Some cs => negb (len0 (Db_K8s (Db_Current cs)))
  | None => false
  end.

End documents.

(** ** Conversions (store/convert_db_grpc.go) *)

Definition to_description (d : DbStageDescription) : StageDescription :=
  mkDesc (Db_About d) (enum_value (Db_ErrorLevel d)).
Definition from_description (d : StageDescription) : DbStageDescription :=
  mkDbStageDescription (About d) (enum_String (Level d)).

Definition to_subpasses {K} `{GoEnum K} (ps : list DbSubPass) : list (SubPass K) :=
  (λ p, mkSubPass (enum_value (Db_SubKind p)) (to_description (Db_SubDescription p))) <$> ps.
Definition from_subpasses {K} `{GoEnum K} (ps : list (SubPass K)) : list DbSubPass :=
  (λ p, mkDbSubPass (enum_String (Kind p)) (from_description (Description p))) <$> ps.

Definition to_stage (st : DbStage) : outcome Stage :=
  let d := to_description (Db_Description st) in
  match Db_Kind st with
  | Ansibler => Ret (Stage_Ansibler d (to_subpasses (Db_SubPasses st)))
  | KubeEleven => Ret (Stage_KubeEleven d (to_subpasses (Db_SubPasses st)))
  | Kuber => Ret (Stage_Kuber d (to_subpasses (Db_SubPasses st)))
  | Terraformer => Ret (Stage_Terraformer d (to_subpasses (Db_SubPasses st)))
  | Unknown => Fail "unrecognized stage kind"
  end.

(** A loop that converts element by element and returns at the first error. *)
Fixpoint convert_all {A B} (f : A → outcome B) (l : list A) : outcome (list B) :=
  match l with
  | [] => Ret []
  | x :: l => let* y := f x in let* ys := convert_all f l in Ret (y :: ys)
  end.

Definition ConvertToGRPCStages (stages : list DbStage) : outcome (list Stage) := convert_all to_stage stages.

Definition from_stage (st : Stage) : DbStage :=
  match st with
  | Stage_Ansibler d ps => mkDbStage Ansibler (from_description d) (from_subpasses ps)
  | Stage_KubeEleven d ps => mkDbStage KubeEleven (from_description d) (from_subpasses ps)
  | Stage_Kuber d ps => mkDbStage Kuber (from_description d) (from_subpasses ps)
  | Stage_Terraformer d ps => mkDbStage Terraformer (from_description d) (from_subpasses ps)
  end.

(** A [Stage] with no kind set does not exist in the model, so the error of
    the default case cannot occur. *)
Definition ConvertFromGRPCStages (stages : list Stage) : list DbStage := from_stage <$> stages.

(** The result of a library call that can fail. *)
Definition or_fail {A} (msg : string) (o : option A) : outcome A :=
  match o with Some a => Ret a | None => Fail msg end.

(** [for k, v := range m { c, err := f(v); ...; out[k] = c }] *)
Definition convert_map `{RangeOrder} {A B} (site : string) (f : A → outcome B) (m : gmap string A)
    : outcome (gmap string B) :=
  foldl (λ acc kv, let* out := acc in let* c := f kv.2 in Ret (<[kv.1 := c]> out)) (Ret ∅) (range site m).

Section conversions.
Context `{Codec} `{RangeOrder}.

Definition ConvertFromGRPCTask (t : Task) : outcome bytes := or_fail "marshal" (marshal_task t).
Definition ConvertToGRPCTask (t : bytes) : outcome Task := or_fail "unmarshal" (unmarshal_task t).

Fixpoint from_task_event (te : TaskEvent) : outcome DbTaskEvent :=
  let* lowerPriority := match TaskEvent_LowerPriority te with
                        | Some l => let* l' := from_task_event l in Ret (Some l')
                        | None => Ret None
                        end in
  let* task := ConvertFromGRPCTask (TaskEvent_Task te) in
  Ret (mkDbTaskEvent (TaskEvent_Id te) (format_time (TaskEvent_Timestamp te))
         (enum_String (TaskEvent_Event te)) task (TaskEvent_Description te)
         (ConvertFromGRPCStages (TaskEvent_Pipeline te)) (TaskEvent_CurrentStage te) lowerPriority).

Definition ConvertFromGRPCTaskEvent (te : option TaskEvent) : outcome (option DbTaskEvent) :=
  match te with Some te => let* e := from_task_event te in Ret (Some e) | None => Ret None end.

Fixpoint to_task_event (te : DbTaskEvent) : outcome TaskEvent :=
  let* lowerPriority := match Db_LowerPriority te with
                        | Some l => let* l' := to_task_event l in Ret (Some l')
                        | None => Ret None
                        end in
  let* task := ConvertToGRPCTask (Db_Task te) in
  let* t := or_fail "timestamp" (parse_time (Db_Timestamp te)) in
  let* pipeline := ConvertToGRPCStages (Db_Pipeline te) in
  Ret (mkTaskEvent (Db_Id te) t (enum_value (Db_Type te)) task (Db_TaskDescription te)
         pipeline (Db_CurrentStage te) lowerPriority).

Definition ConvertToGRPCTaskEvent (te : option DbTaskEvent) : outcome (option TaskEvent) :=
  match te with Some te => let* e := to_task_event te in Ret (Some e) | None => Ret None end.

(** [now] is the time of the call. *)
Definition ConvertFromGRPCWorkflow (now : Z) (w : Workflow) : DbWorkflow :=
  mkDbWorkflow (enum_String (Workflow_Status_ w)) (Workflow_Description w) (format_time now)
    ((λ p, mkDbFinishedWorkflow (enum_String (Finished_Status p)) (Finished_Stage p)
             (Finished_TaskDescription p) (format_time (Finished_Timestamp p))) <$> Workflow_Previous w)
    (Workflow_TicksUntilRefresh w).

(** An unparsable timestamp becomes nil, which reads as the epoch. *)
Definition ConvertToGRPCWorkflow (w : DbWorkflow) : Workflow :=
  mkWorkflow (enum_value (Db_Status w)) (Db_StatusDescription w)
    ((λ p, mkFinishedWorkflow (enum_value (Db_Fin_Status p)) (Db_Fin_TaskDescription p) (Db_Fin_Stage p)
             (default 0%Z (parse_time (Db_Fin_Timestamp p)))) <$> Db_Previous w)
    (Db_TicksUntilRefresh w).

Definition ConvertToGRPCClusters (c : DbClusters) : outcome Clusters :=
  if len0 (Db_K8s c) then Ret (mkClusters None [])
  else
    let* k8s := or_fail "failed to unmarshall kuberentes cluster" (unmarshal_k8s (Db_K8s c)) in
    let* lbs := if len0 (Db_LoadBalancers c) then Ret []
                else or_fail "failed to unmarshall load balancer clusters"
                       (unmarshal_lbs (Db_LoadBalancers c)) in
    Ret (mkClusters (Some k8s) lbs).

(** The getters of a nil [Clusters] return nil. *)
Definition ConvertFromGRPCClusters (c : option Clusters) : outcome DbClusters :=
  let* k8s := or_fail "failed to marshal kubernetes cluster" (marshal_k8s (c ≫= K8S)) in
  let* lbs := or_fail "failed to marshal loadbalancer cluster"
                (marshal_lbs (match c with Some c => LoadBalancers c | None => [] end)) in
  Ret (mkDbClusters k8s lbs).

Definition ConvertToGRPCClusterState (c : DbClusterState) : outcome ClusterState :=
  let* i := ConvertToGRPCTaskEvent (Db_InFlight c) in
  let* current := ConvertToGRPCClusters (Db_Current c) in
  Ret (mkClusterState (Some current) (Some (ConvertToGRPCWorkflow (Db_State c))) i (Db_Counters c)).

Definition ConvertFromGRPCClusterState (now : Z) (c : ClusterState) : outcome DbClusterState :=
  let* clusters := ConvertFromGRPCClusters (Current c) in
  let* task := ConvertFromGRPCTaskEvent (InFlight c) in
  let* w := deref (State c) in
  Ret (mkDbClusterState clusters task (ConvertFromGRPCWorkflow now w) (K8SNodePoolScaleUpFailed c)).

Definition ConvertFromGRPC (now : Z) (cfg : Config) : outcome DbConfig :=
  let m := Config_Manifest cfg in
  let* clusters := convert_map "ConvertFromGRPC" (ConvertFromGRPCClusterState now) (Config_Clusters cfg) in
  Ret (mkDbConfig (Config_Version cfg) (Config_Name cfg) (Config_K8SCtx cfg)
         (mkDbManifest (Manifest_Raw m) (Manifest_Checksum m) (Manifest_LastAppliedChecksum m)
            (enum_String (Manifest_State_ m)) (format_time (Manifest_StateTimestamp m)))
         clusters).

Definition ConvertToGRPC (cfg : DbConfig) : outcome Config :=
  let m := Db_Manifest cfg in
  let* clusters := convert_map "ConvertToGRPC" ConvertToGRPCClusterState (Db_Clusters cfg) in
  Ret (mkConfig (Db_Version cfg) (Db_Name cfg) (Db_K8SCtx cfg)
         (mkManifest (Db_Raw m) (Db_Checksum m) (Db_LastAppliedChecksum m)
            (enum_value (Db_ManifestState m)) (default 0%Z (parse_time (Db_StateTimestamp m))))
         clusters).

(** ** Round trips *)

Lemma description_roundtrip d : to_description (from_description d) = d.
Proof. by destruct d as [a []]. Qed.

Lemma subpasses_roundtrip {K} `{GoEnum K} (ps : list (SubPass K)) : to_subpasses (from_subpasses ps) = ps.
Proof.
  unfold to_subpasses, from_subpasses. rewrite <- list_fmap_compose.
  rewrite <- (list_fmap_id ps) at 2. apply list_fmap_ext. intros i [k d] _. simpl.
  by rewrite enum_value_String, description_roundtrip.
Qed.

Lemma stage_roundtrip st : to_stage (from_stage st) = Ret st.
Proof.
  destruct st; unfold to_stage; simpl Db_Kind; simpl Db_Description; simpl Db_SubPasses;
    cbv iota zeta; by rewrite description_roundtrip, subpasses_roundtrip.
Qed.

Lemma convert_all_fmap {A B} (f : A → outcome B) (g : B → A) l :
  (∀ x, x ∈ l → f (g x) = Ret x) → convert_all f (g <$> l) = Ret l.
Proof.
  induction l as [|x l IH]; intros Hf; csimpl; [done|].
  rewrite Hf by by left. simpl. rewrite IH; [done|]. intros y Hy. apply Hf. by right.
Qed.

Lemma stages_roundtrip sts : ConvertToGRPCStages (ConvertFromGRPCStages sts) = Ret sts.
Proof. apply convert_all_fmap. intros. apply stage_roundtrip. Qed.

Lemma task_bytes_roundtrip t b : ConvertFromGRPCTask t = Ret b → ConvertToGRPCTask b = Ret t.
Proof.
  unfold ConvertFromGRPCTask, ConvertToGRPCTask. destruct (marshal_task t) as [b'|] eqn:E; [|done].
  intros [= <-]. by rewrite (task_roundtrip _ _ E).
Qed.

(** What is left of a message after it was stored: the times of the task and
    of the tasks queued behind it, of the history and of the manifest are
    rounded down to the second. *)
Fixpoint whole_event (te : TaskEvent) : TaskEvent :=
  mkTaskEvent (TaskEvent_Id te) (whole_second (TaskEvent_Timestamp te)) (TaskEvent_Event te) (TaskEvent_Task te)
    (TaskEvent_Description te) (TaskEvent_Pipeline te) (TaskEvent_CurrentStage te)
    (match TaskEvent_LowerPriority te with Some l => Some (whole_event l) | None => None end).

Definition whole_finished (p : FinishedWorkflow) : FinishedWorkflow :=
  mkFinishedWorkflow (Finished_Status p) (Finished_TaskDescription p) (Finished_Stage p)
    (whole_second (Finished_Timestamp p)).

Definition whole_workflow (w : Workflow) : Workflow :=
  mkWorkflow (Workflow_Status_ w) (Workflow_Description w) (whole_finished <$> Workflow_Previous w)
    (Workflow_TicksUntilRefresh w).

Definition whole_state (cs : ClusterState) : ClusterState :=
  mkClusterState (Current cs) (whole_workflow <$> State cs) (whole_event <$> InFlight cs)
    (K8SNodePoolScaleUpFailed cs).

Definition whole_config (cfg : Config) : Config :=
  let m := Config_Manifest cfg in
  mkConfig (Config_Version cfg) (Config_Name cfg) (Config_K8SCtx cfg)
    (mkManifest (Manifest_Raw m) (Manifest_Checksum m) (Manifest_LastAppliedChecksum m) (Manifest_State_ m)
       (whole_second (Manifest_StateTimestamp m)))
    (whole_state <$> Config_Clusters cfg).

(** Induction over the chain of overtaken tasks. *)
Fixpoint priority_depth (te : TaskEvent) : nat :=
  match TaskEvent_LowerPriority te with Some l => S (priority_depth l) | None => 0 end.

Lemma task_event_roundtrip te db : from_task_event te = Ret db → to_task_event db = Ret (whole_event te).
Proof.
  remember (priority_depth te) as n eqn:Hn. revert te db Hn.
  induction n as [n IH] using lt_wf_ind. intros [id ts ev t d pl cs lp] db Hn. simpl.
  assert (∀ lp', match lp with Some l => let* l' := from_task_event l in Ret (Some l') | None => Ret None end
                 = Ret lp' →
    match lp' with Some l => let* l' := to_task_event l in Ret (Some l') | None => Ret None end
    = Ret (match lp with Some l => Some (whole_event l) | None => None end)) as Hlp.
  { intros lp'. destruct lp as [l|]; [|by intros [= <-]].
    destruct (from_task_event l) as [l'|?|?] eqn:E; simpl; [|done..].
    intros [= <-]. simpl in Hn. by rewrite (IH (priority_depth l) ltac:(lia) l l' eq_refl E). }
  intros Hc. bind_inv Hc. subst db. simpl. rewrite (Hlp _ eq_refl). simpl.
  rewrite (task_bytes_roundtrip _ _ Hx0). simpl. rewrite time_roundtrip. simpl.
  rewrite stages_roundtrip. simpl. by destruct ev.
Qed.

Lemma workflow_roundtrip now w : ConvertToGRPCWorkflow (ConvertFromGRPCWorkflow now w) = whole_workflow w.
Proof.
  destruct w as [st d prev ticks]. unfold ConvertToGRPCWorkflow, ConvertFromGRPCWorkflow, whole_workflow.
  cbn [Db_Status Db_StatusDescription Db_Previous Db_TicksUntilRefresh Workflow_Status_
       Workflow_Description Workflow_Previous Workflow_TicksUntilRefresh].
  f_equal; [by destruct st|].
  rewrite <- list_fmap_compose.
  apply list_fmap_ext. intros i [s1 td sk t] _. simpl. rewrite time_roundtrip. by destruct s1.
Qed.

Lemma clusters_roundtrip c db :
  (K8S c = None → LoadBalancers c = []) →
  ConvertFromGRPCClusters (Some c) = Ret db → ConvertToGRPCClusters db = Ret c.
Proof.
  destruct c as [k lbs]. simpl. intros Hwf. unfold ConvertFromGRPCClusters, or_fail. simpl.
  destruct (marshal_k8s k) as [kb|] eqn:Ek; simpl; [|done].
  destruct (marshal_lbs lbs) as [lb|] eqn:El; simpl; [|done]. intros [= <-].
  unfold ConvertToGRPCClusters. simpl. destruct k as [k|].
  - destruct (k8s_roundtrip _ _ Ek) as [-> ->]. simpl.
    destruct (lbs_roundtrip _ _ El) as [-> Hl]. destruct (len0 lb); simpl; [|done].
    by rewrite (proj1 Hl eq_refl).
  - rewrite (k8s_nil _ Ek). by rewrite Hwf.
Qed.

(** [convert_map] converts every entry and nothing else. *)
Lemma convert_map_lookup {A B} site (f : A → outcome B) m m' :
  convert_map site f m = Ret m' →
  ∀ k, match m !! k, m' !! k with
       | Some v, Some v' => f v = Ret v'
       | None, None => True
       | _, _ => False
       end.
Proof.
  unfold convert_map. intros Hc k.
  assert (∀ l acc, NoDup l.*1 → (∀ k, k ∈ l.*1 → acc !! k = None) →
    foldl (λ acc kv, let* out := acc in let* c := f kv.2 in Ret (<[kv.1 := c]> out)) (Ret acc) l = Ret m' →
    (∀ k v, (k, v) ∈ l → ∃ v', f v = Ret v' ∧ m' !! k = Some v') ∧
    (∀ k, k ∉ l.*1 → m' !! k = acc !! k)) as Hgen.
  { clear. induction l as [|[k v] l IH]; intros acc Hnd Hacc Hf; csimpl in *.
    - injection Hf as ->. split; [intros ??; set_solver|done].
    - apply NoDup_cons in Hnd as [Hk Hnd]. destruct (f v) as [c|?|?] eqn:Ef; simpl in Hf.
      2-3: exfalso; clear -Hf; induction l; simpl in Hf; [discriminate|auto].
      destruct (IH (<[k := c]> acc) Hnd) as [I1 I2]; [|done|].
      { intros k' Hk'. rewrite lookup_insert_ne by (intros ->; done). apply Hacc. by right. }
      split.
      + intros k' v' [[= -> ->]|Hin]%elem_of_cons; [|by apply I1].
        exists c. split; [done|]. rewrite I2 by done. apply lookup_insert_eq.
      + intros k' [Hne Hk']%not_elem_of_cons. rewrite I2 by done. by rewrite lookup_insert_ne. }
  destruct (Hgen (range site m) ∅ (NoDup_range_fst site m)) as [G1 G2]; [intros; apply lookup_empty|done|].
  destruct (m !! k) as [v|] eqn:Em.
  - destruct (G1 k v) as (v' & Hv & ->); [by apply elem_of_range|done].
  - rewrite G2, lookup_empty; [done|]. intros ([k' v] & -> & Hin)%list_elem_of_fmap.
    apply elem_of_range in Hin. simpl in *. congruence.
Qed.

Lemma convert_map_total {A B} site (f : A → outcome B) m :
  (∀ k v, m !! k = Some v → ∃ v', f v = Ret v') → ∃ m', convert_map site f m = Ret m'.
Proof.
  unfold convert_map. intros Hf.
  assert (∀ (l : list (string * A)) (acc : gmap string B), (∀ k v, (k, v) ∈ l → ∃ v', f v = Ret v') →
    ∃ m', foldl (λ acc kv, let* out := acc in let* c := f kv.2 in Ret (<[kv.1 := c]> out)) (Ret acc) l
          = Ret m') as Hgen.
  { induction l as [|[k v] l IH]; intros acc Hl; simpl; [eauto|].
    destruct (Hl k v) as [c Hc]; [by left|]. rewrite Hc. simpl. apply IH.
    intros k' v' Hin. apply (Hl k'). by right. }
  apply Hgen. intros k v Hin. apply elem_of_range in Hin. eauto.
Qed.

(** What the manager stores: a cluster state with its parts set, and no load
    balancers without a kubernetes cluster. *)
Definition storable (cs : ClusterState) : Prop :=
  ∃ c w, Current cs = Some c ∧ State cs = Some w ∧ (K8S c = None → LoadBalancers c = []).

Lemma cluster_state_roundtrip now cs db :
  storable cs → ConvertFromGRPCClusterState now cs = Ret db → ConvertToGRPCClusterState db = Ret (whole_state cs).
Proof.
  intros (c & w & Hc & Hw & Hwf). unfold ConvertFromGRPCClusterState. rewrite Hc, Hw.
  destruct cs as [cur st inf cnt]. simpl in *. subst cur st. intros Hr.
  destruct (ConvertFromGRPCClusters (Some c)) as [dc|?|?] eqn:Edc; simpl in Hr; [|done..].
  destruct (ConvertFromGRPCTaskEvent inf) as [dt|?|?] eqn:Edt; simpl in Hr; [|done..].
  injection Hr as <-. unfold ConvertToGRPCClusterState. simpl.
  assert (ConvertToGRPCTaskEvent dt = Ret (whole_event <$> inf)) as ->.
  { destruct inf as [te|]; simpl in Edt; [|by injection Edt as <-].
    destruct (from_task_event te) as [d|?|?] eqn:Ef; simpl in Edt; [|done..]. injection Edt as <-. simpl.
    by rewrite (task_event_roundtrip _ _ Ef). }
  simpl. rewrite (clusters_roundtrip _ _ Hwf Edc). simpl. by rewrite workflow_roundtrip.
Qed.

End conversions.

#[global] Arguments whole_event : simpl never.
#[global] Arguments from_task_event : simpl never.
#[global] Arguments to_task_event : simpl never.

(** ** A concrete codec

    Marshalled messages kept as values, times as signed binary digits of their
    seconds. *)
Inductive blob := blob_none | blob_task (t : Task) | blob_k8s (k : K8Scluster) | blob_lbs (l : list LBcluster).

Fixpoint pos_str (p : positive) : string :=
  match p with xH => "e" | xO p => String "0"%char (pos_str p) | xI p => String "1"%char (pos_str p) end.

Fixpoint str_pos (s : string) : option positive :=
  match s with
  | String a s =>
      if Ascii.eqb a "e"%char then Some xH
      else if Ascii.eqb a "0"%char then xO <$> str_pos s
      else xI <$> str_pos s
  | EmptyString => None
  end.

Definition time_str (z : Z) : string :=
  match z with Z0 => "" | Zpos p => String "+"%char (pos_str p) | Zneg p => String "-"%char (pos_str p) end.

Definition str_time (s : string) : option Z :=
  match s with
  | EmptyString => Some 0%Z
  | String a s => if Ascii.eqb a "+"%char then Zpos <$> str_pos s else Zneg <$> str_pos s
  end.

Lemma str_pos_str p : str_pos (pos_str p) = Some p.
Proof. induction p as [p IH|p IH|]; simpl; [by rewrite IH..|done]. Qed.

(** The seconds of a time, rounded down. *)
Definition seconds (t : Z) : Z :=
  match t with
  | Z0 => 0
  | Zpos p => (Z.pos_div_eucl p 1000000000).1
  | Zneg p => Z.opp (Z.pos_div_eucl (p + 999999999) 1000000000).1
  end.

Definition seconds_str (t : Z) : string := time_str (seconds t).
Definition str_seconds (s : string) : option Z := (λ z, z * 1000000000)%Z <$> str_time s.

Lemma pos_div_eucl_div p q : (Z.pos_div_eucl p (Zpos q)).1 = (Zpos p / Zpos q)%Z.
Proof. unfold Z.div, Z.div_eucl. by destruct (Z.pos_div_eucl p (Zpos q)). Qed.

Lemma seconds_div t : seconds t = (t / 1000000000)%Z.
Proof.
  destruct t as [|p|p]; [done|apply pos_div_eucl_div|]. unfold seconds. rewrite pos_div_eucl_div.
  rewrite Pos2Z.inj_add. pose proof (Pos2Z.is_pos p). rewrite <- (Pos2Z.opp_pos p).
  generalize dependent (Zpos p). intros z Hz. Z.div_mod_to_equations. lia.
Qed.

Lemma time_seconds_roundtrip t : str_seconds (seconds_str t) = Some (whole_second t).
Proof.
  unfold str_seconds, seconds_str, whole_second. rewrite seconds_div.
  destruct (t / 1000000000)%Z as [|p|p]; simpl; by rewrite ?str_pos_str.
Qed.

#[export] Instance blob_codec : Codec.
Proof.
  refine {| bytes := blob;
     len0 := λ b, match b with blob_none => true | _ => false end;
     marshal_task := λ t, Some (blob_task t);
     unmarshal_task := λ b, match b with blob_task t => Some t | _ => None end;
     marshal_k8s := λ k, Some (match k with Some k => blob_k8s k | None => blob_none end);
     unmarshal_k8s := λ b, match b with blob_k8s k => Some k | _ => None end;
     marshal_lbs := λ l, Some (match l with [] => blob_none | _ => blob_lbs l end);
     unmarshal_lbs := λ b, match b with blob_lbs l => Some l | blob_none => Some [] | _ => None end;
     format_time := seconds_str;
     parse_time := str_seconds |}.
  - by intros t b [= <-].
  - by intros k b [= <-].
  - by intros b [= <-].
  - by intros [|x l] b [= <-].
  - exact time_seconds_roundtrip.
Defined.

(** ** Properties of the conversions *)

(** C37: Writing a configuration to the database and reading it back gives
    the same configuration with its times rounded down to the second: every
    cluster with its state, its in-flight task and all the tasks queued behind
    it, the pipelines with their sub-passes and error levels, the workflow
    history and the manifest.  The clusters are [storable]: their current
    state and workflow are set, and there are no load balancers without a
    kubernetes cluster (they would not be read back). *)
Theorem config_db_roundtrip `{Codec} `{RangeOrder} (now : Z) (cfg : Config) (db : DbConfig) :
  map_Forall (λ _, storable) (Config_Clusters cfg) →
  ConvertFromGRPC now cfg = Ret db → ConvertToGRPC db = Ret (whole_config cfg).
Proof.
  intros Hst. destruct cfg as [v n ctx [raw ck lck st ts] cl]. unfold ConvertFromGRPC. simpl in *.
  destruct (convert_map _ _ cl) as [dcl|?|?] eqn:Ecl; simpl; [|done..]. intros [= <-].
  unfold ConvertToGRPC. simpl.
  pose proof (convert_map_lookup _ _ _ _ Ecl) as Hl.
  assert (∀ k dv, dcl !! k = Some dv → ∃ v, cl !! k = Some v ∧ ConvertToGRPCClusterState dv = Ret (whole_state v)) as Hback.
  { intros k dv Hk. specialize (Hl k). rewrite Hk in Hl. destruct (cl !! k) as [x|] eqn:Ex; [|done].
    exists x. split; [done|]. eapply cluster_state_roundtrip; [|exact Hl]. by apply (Hst k). }
  destruct (convert_map_total "ConvertToGRPC" ConvertToGRPCClusterState dcl) as [cl' Hcl'].
  { intros k dv (x & _ & ?)%Hback. eauto. }
  rewrite Hcl'. simpl. rewrite time_roundtrip. simpl.
  assert (cl' = whole_state <$> cl) as ->; [|by destruct st].
  apply map_eq. intros k. rewrite lookup_fmap. pose proof (convert_map_lookup _ _ _ _ Hcl' k) as Hk. specialize (Hl k).
  destruct (dcl !! k) as [dv|] eqn:Ed.
  - destruct (Hback _ _ Ed) as (x & -> & Hx). destruct (cl' !! k); [|done]. simpl. congruence.
  - by destruct (cl' !! k), (cl !! k).
Qed.

(** A configuration with a task that overtook another one. *)
Definition sample_pipeline : list Stage :=
  [Stage_Terraformer (fatal "creating infrastructure")
     [mkSubPass BUILD_INFRASTRUCTURE (fatal "building infrastructure")];
   Stage_Ansibler (fatal "configuring nodes")
     [mkSubPass INSTALL_NODE_REQUIREMENTS (fatal "installing requirements");
      mkSubPass INSTALL_VPN (warn "installing VPN")]].

Definition sample_event (id : string) (lower : option TaskEvent) : TaskEvent :=
  mkTaskEvent id 1700000000250000000 CREATE (Task_Create Samples.clusters) "creating cluster" sample_pipeline 0 lower.

Definition sample_config : Config :=
  mkConfig 4 "manifest" (mkKubernetesContext "ctx" "ns")
    (mkManifest "raw" (Some "aa") None Scheduled 1700000000999999999)
    {["prod" := mkClusterState (Some Samples.clusters)
        (Some (mkWorkflow IN_PROGRESS "creating" [mkFinishedWorkflow DONE "t" Terraformer 1699999999000000001] 100))
        (Some (sample_event "t2" (Some (sample_event "t1" None)))) ∅]}.

Lemma sample_storable : map_Forall (λ _, storable) (Config_Clusters sample_config).
Proof.
  apply map_Forall_singleton. do 2 eexists. split; [reflexivity|]. split; [reflexivity|]. done.
Qed.

Lemma sample_stored :
  match ConvertFromGRPC 1700000001000000000 sample_config with Ret _ => true | _ => false end = true.
Proof. vm_compute. reflexivity. Qed.

Lemma config_db_roundtrip_witness :
  ∃ db, ConvertFromGRPC 1700000001000000000 sample_config = Ret db ∧ ConvertToGRPC db = Ret (whole_config sample_config).
Proof.
  pose proof sample_stored as Hs. revert Hs.
  generalize (config_db_roundtrip 1700000001000000000 sample_config).
  destruct (ConvertFromGRPC 1700000001000000000 sample_config) as [db|?|?]; [|discriminate..].
  intros Hr _. exists db. split; [reflexivity|]. exact (Hr db sample_storable eq_refl).
Defined.

(** ** The store interface (store/api.go) and its mongo implementation *)

Inductive store_err := ErrNotFoundOrDirty | ErrOther (msg : string).
#[export] Instance store_err_eq_dec : EqDecision store_err.
Proof. solve_decision. Defined.

Definition uint64 (z : Z) : Z := (z mod 2^64)%Z.

Section store.
Context `{Codec}.

Definition set_Db_Version (c : DbConfig) (v : Z) : DbConfig :=
  mkDbConfig v (Db_Name c) (Db_K8SCtx c) (Db_Manifest c) (Db_Clusters c).
Definition set_Db_Manifest (c : DbConfig) (m : DbManifest) : DbConfig :=
  mkDbConfig (Db_Version c) (Db_Name c) (Db_K8SCtx c) m (Db_Clusters c).
Definition set_Db_Clusters (c : DbConfig) (cl : gmap string DbClusterState) : DbConfig :=
  mkDbConfig (Db_Version c) (Db_Name c) (Db_K8SCtx c) (Db_Manifest c) cl.
Definition set_Db_ManifestState (m : DbManifest) (st ts : string) : DbManifest :=
  mkDbManifest (Db_Raw m) (Db_Checksum m) (Db_LastAppliedChecksum m) st ts.

(** The document a successful [UpdateConfig] leaves. *)
Definition bumped (c : DbConfig) : DbConfig := set_Db_Version c (uint64 (Db_Version c + 1)).

(** A stored document has the name and version of the supplied one. *)
Definition current_version (docs : gmap string DbConfig) (name : string) (version : Z) : Prop :=
  ∃ old, docs !! name = Some old ∧ Db_Version old = version.

(** The contract of the interface: what the comments of store/api.go promise
    and the manager relies on.  The mongo client below discharges it from the
    driver's single-document operations ([Mongo_Store]).  The in-memory store
    of the repository does not: it hands out and keeps pointers to the same
    document (see the model in InMemory.v), so theorems over this class are
    theorems about the manager on mongo.  An update
    or a delete takes effect exactly when the stored document has the supplied
    version, an unsuccessful one reports [ErrNotFoundOrDirty] and changes
    nothing; another error (a lost connection) leaves open whether the write
    happened. *)
Class Store (T : Type) := {
  contents : T → gmap string DbConfig;
  GetConfig : T → string → DbConfig + store_err;
  UpdateConfig : T → DbConfig → T * option store_err;
  GetConfig_ok : ∀ s n c, GetConfig s n = inl c → contents s !! n = Some c;
  GetConfig_missing : ∀ s n, GetConfig s n = inr ErrNotFoundOrDirty → contents s !! n = None;
  UpdateConfig_ok : ∀ s c s', UpdateConfig s c = (s', None) →
    current_version (contents s) (Db_Name c) (Db_Version c) ∧
    contents s' = <[Db_Name c := bumped c]> (contents s);
  UpdateConfig_dirty : ∀ s c s', UpdateConfig s c = (s', Some ErrNotFoundOrDirty) →
    ¬ current_version (contents s) (Db_Name c) (Db_Version c) ∧ contents s' = contents s;
  UpdateConfig_err : ∀ s c s' e, UpdateConfig s c = (s', Some (ErrOther e)) →
    contents s' = contents s ∨
    (current_version (contents s) (Db_Name c) (Db_Version c) ∧
     contents s' = <[Db_Name c := bumped c]> (contents s))
}.

(** *** The mongo collection

    The driver's single-document operations on a collection with a unique
    index on the name. *)
Class Collection (T : Type) := {
  docs : T → gmap string DbConfig;
  find_one : T → string → option DbConfig + string;
  find_one_and_update : T → string → Z → (DbConfig → DbConfig) → T * (bool + string);
  find_one_ok : ∀ s n r, find_one s n = inl r → docs s !! n = r;
  find_one_and_update_true : ∀ s n v f s', find_one_and_update s n v f = (s', inl true) →
    ∃ old, docs s !! n = Some old ∧ Db_Version old = v ∧ docs s' = <[n := f old]> (docs s);
  find_one_and_update_false : ∀ s n v f s', find_one_and_update s n v f = (s', inl false) →
    ¬ current_version (docs s) n v ∧ docs s' = docs s;
  find_one_and_update_err : ∀ s n v f s' e, find_one_and_update s n v f = (s', inr e) →
    docs s' = docs s ∨
    (∃ old, docs s !! n = Some old ∧ Db_Version old = v ∧ docs s' = <[n := f old]> (docs s))
}.

Context {T : Type} `{!Collection T}.

Definition Mongo_GetConfig (m : T) (name : string) : DbConfig + store_err :=
  match find_one m name with
  | inr e => inr (ErrOther e)
  | inl None => inr ErrNotFoundOrDirty
  | inl (Some db) => inl db
  end.

(** [$set] with the whole config replaces the document. *)
Definition Mongo_UpdateConfig (m : T) (config : DbConfig) : T * option store_err :=
  let suppliedVersion := Db_Version config in
  let config' := set_Db_Version config (uint64 (suppliedVersion + 1)) in
  match find_one_and_update m (Db_Name config) suppliedVersion (λ _, config') with
  | (m', inl true) => (m', None)
  | (m', inl false) => (m', Some ErrNotFoundOrDirty)
  | (m', inr e) => (m', Some (ErrOther e))
  end.

(** [digest] is [hash.Digest("delete")]. *)
Definition marked (digest : string) (old : DbConfig) : DbConfig :=
  set_Db_Version
    (set_Db_Manifest old (mkDbManifest "" None (Some digest) (Db_ManifestState (Db_Manifest old))
                            (Db_StateTimestamp (Db_Manifest old))))
    (Db_Version old + 1).

Definition Mongo_MarkForDeletion (digest : string) (m : T) (name : string) (version : Z)
    : T * option store_err :=
  match find_one_and_update m name version (marked digest) with
  | (m', inl true) => (m', None)
  | (m', inl false) => (m', Some ErrNotFoundOrDirty)
  | (m', inr e) => (m', Some (ErrOther e))
  end.

(** The mongo client keeps the contract of the interface. *)
#[export] Instance Mongo_Store : Store T.
Proof.
  refine {| contents := docs; GetConfig := Mongo_GetConfig; UpdateConfig := Mongo_UpdateConfig |}.
  - intros s n c. unfold Mongo_GetConfig. destruct (find_one s n) as [[db|]|e] eqn:E; intros; simplify_eq.
    by apply find_one_ok in E.
  - intros s n. unfold Mongo_GetConfig. destruct (find_one s n) as [[db|]|e] eqn:E; intros; simplify_eq.
    by apply find_one_ok in E.
  - intros s c s'. unfold Mongo_UpdateConfig.
    destruct (find_one_and_update _ _ _ _) as [s2 [[]|e]] eqn:E; intros; simplify_eq.
    apply find_one_and_update_true in E as (old & ? & ? & ?). split; [by exists old|done].
  - intros s c s'. unfold Mongo_UpdateConfig.
    destruct (find_one_and_update _ _ _ _) as [s2 [[]|e]] eqn:E; intros; simplify_eq.
    by apply find_one_and_update_false in E.
  - intros s c s' e. unfold Mongo_UpdateConfig.
    destruct (find_one_and_update _ _ _ _) as [s2 [[]|e']] eqn:E; intros; simplify_eq.
    apply find_one_and_update_err in E as [?|(old & ? & ? & ?)]; [by left|right].
    split; [by exists old|done].
Defined.

(** Marking a configuration for deletion is an update of its manifest. *)
Class Marking (T : Type) `{!Store T} (digest : string) := {
  MarkForDeletion : T → string → Z → T * option store_err;
  MarkForDeletion_ok : ∀ s n v s', MarkForDeletion s n v = (s', None) →
    ∃ old, contents s !! n = Some old ∧ Db_Version old = v ∧ contents s' = <[n := marked digest old]> (contents s);
  MarkForDeletion_dirty : ∀ s n v s', MarkForDeletion s n v = (s', Some ErrNotFoundOrDirty) →
    ¬ current_version (contents s) n v ∧ contents s' = contents s;
  MarkForDeletion_err : ∀ s n v s' e, MarkForDeletion s n v = (s', Some (ErrOther e)) →
    contents s' = contents s ∨
    (∃ old, contents s !! n = Some old ∧ Db_Version old = v ∧ contents s' = <[n := marked digest old]> (contents s))
}.

#[export] Instance Mongo_Marking (digest : string) : Marking T digest.
Proof.
  refine {| MarkForDeletion := Mongo_MarkForDeletion digest |}; intros s n v s'; unfold Mongo_MarkForDeletion;
    destruct (find_one_and_update _ _ _ _) as [s2 [[]|e]] eqn:E; intros; simplify_eq.
  - by apply find_one_and_update_true in E.
  - by apply find_one_and_update_false in E.
  - by apply find_one_and_update_err in E.
Defined.

(** The rest of the interface: listing, creating and deleting documents. *)
Definition created (c : DbConfig) : DbConfig :=
  set_Db_Version (set_Db_Manifest c (set_Db_ManifestState (Db_Manifest c) (enum_String Pending)
                                       (Db_StateTimestamp (Db_Manifest c)))) 0.

Class Crud (T : Type) `{!Store T} := {
  ListConfigs : T → list string → list DbConfig + store_err;
  CreateConfig : T → DbConfig → T * option store_err;
  DeleteConfig : T → string → Z → T * option store_err;
  ListConfigs_ok : ∀ s f l, ListConfigs s f = inl l →
    ∀ c, c ∈ l ↔ contents s !! Db_Name c = Some c ∧ (f = [] ∨ Db_ManifestState (Db_Manifest c) ∈ f);
  CreateConfig_ok : ∀ s c s', CreateConfig s c = (s', None) →
    contents s !! Db_Name c = None ∧ contents s' = <[Db_Name c := created c]> (contents s);
  CreateConfig_err : ∀ s c s' e, CreateConfig s c = (s', Some e) →
    contents s' = contents s ∨ (contents s !! Db_Name c = None ∧ contents s' = <[Db_Name c := created c]> (contents s));
  DeleteConfig_ok : ∀ s n v s', DeleteConfig s n v = (s', None) →
    current_version (contents s) n v ∧ contents s' = delete n (contents s);
  DeleteConfig_err : ∀ s n v s' e, DeleteConfig s n v = (s', Some e) →
    contents s' = contents s ∨ (current_version (contents s) n v ∧ contents s' = delete n (contents s))
}.

(** The driver's remaining operations: a query on the manifest state (no
    condition when the list is empty), an insert that a unique index on the
    name guards, and a conditional delete. *)
Class CollectionOps := {
  find_all : T → list string → list DbConfig + string;
  insert_one : T → DbConfig → T * option string;
  delete_one : T → string → Z → T * (bool + string);
  find_all_ok : ∀ s f l, find_all s f = inl l →
    ∀ c, c ∈ l ↔ docs s !! Db_Name c = Some c ∧ (f = [] ∨ Db_ManifestState (Db_Manifest c) ∈ f);
  insert_one_ok : ∀ s c s', insert_one s c = (s', None) →
    docs s !! Db_Name c = None ∧ docs s' = <[Db_Name c := c]> (docs s);
  insert_one_err : ∀ s c s' e, insert_one s c = (s', Some e) →
    docs s' = docs s ∨ (docs s !! Db_Name c = None ∧ docs s' = <[Db_Name c := c]> (docs s));
  delete_one_true : ∀ s n v s', delete_one s n v = (s', inl true) →
    current_version (docs s) n v ∧ docs s' = delete n (docs s);
  delete_one_false : ∀ s n v s', delete_one s n v = (s', inl false) → docs s' = docs s;
  delete_one_err : ∀ s n v s' e, delete_one s n v = (s', inr e) →
    docs s' = docs s ∨ (current_version (docs s) n v ∧ docs s' = delete n (docs s))
}.

Context `{!CollectionOps}.

(** The cursor is read to its end. *)
Definition Mongo_ListConfigs (m : T) (filter : list string) : list DbConfig + store_err :=
  match find_all m filter with inl l => inl l | inr e => inr (ErrOther e) end.

Definition Mongo_CreateConfig (m : T) (config : DbConfig) : T * option store_err :=
  match insert_one m (created config) with
  | (m', None) => (m', None)
  | (m', Some e) => (m', Some (ErrOther e))
  end.

Definition Mongo_DeleteConfig (m : T) (name : string) (version : Z) : T * option store_err :=
  match delete_one m name version with
  | (m', inl true) => (m', None)
  | (m', inl false) => (m', Some ErrNotFoundOrDirty)
  | (m', inr e) => (m', Some (ErrOther e))
  end.

#[export] Instance Mongo_Crud : Crud T.
Proof.
  refine {| ListConfigs := Mongo_ListConfigs; CreateConfig := Mongo_CreateConfig; DeleteConfig := Mongo_DeleteConfig |}.
  - intros s f l. unfold Mongo_ListConfigs. destruct (find_all s f) as [l'|] eqn:E; intros; simplify_eq.
    by apply find_all_ok.
  - intros s c s'. unfold Mongo_CreateConfig. destruct (insert_one s (created c)) as [s2 [e|]] eqn:E; intros; simplify_eq.
    by apply insert_one_ok in E.
  - intros s c s' e. unfold Mongo_CreateConfig.
    destruct (insert_one s (created c)) as [s2 [e'|]] eqn:E; intros; simplify_eq. by apply insert_one_err in E.
  - intros s n v s'. unfold Mongo_DeleteConfig. destruct (delete_one s n v) as [s2 [[]|e]] eqn:E; intros; simplify_eq.
    by apply delete_one_true in E.
  - intros s n v s' e. unfold Mongo_DeleteConfig.
    destruct (delete_one s n v) as [s2 [[]|e']] eqn:E; intros; simplify_eq.
    + apply delete_one_false in E. by left.
    + by apply delete_one_err in E.
Defined.

End store.

(** A collection that never loses its connection. *)
#[export] Instance map_collection `{Codec} : Collection (gmap string DbConfig).
Proof.
  refine {| docs := id;
    find_one := λ s n, inl (s !! n);
    find_one_and_update := λ s n v f,
      match s !! n with
      | Some old => if bool_decide (Db_Version old = v) then (<[n := f old]> s, inl true) else (s, inl false)
      | None => (s, inl false)
      end |}.
  - by intros s n r [= <-].
  - intros s n v f s'. destruct (s !! n) as [old|] eqn:E; [|done]. case_bool_decide; [|done].
    intros [= <-]. by exists old.
  - intros s n v f s'. unfold current_version. simpl. destruct (s !! n) as [old|] eqn:E.
    + case_bool_decide as Hv; [done|]. intros [= <-]. split; [|done]. intros (o & ? & ?). congruence.
    + intros [= <-]. split; [|done]. intros (o & ? & ?). congruence.
  - intros s n v f s' e. destruct (s !! n); [case_bool_decide|]; done.
Defined.

Definition matches `{Codec} (states : list string) (c : DbConfig) : bool :=
  bool_decide (states = []) || contains states (Db_ManifestState (Db_Manifest c)).

#[export] Instance map_collection_ops `{Codec} : CollectionOps (T := gmap string DbConfig).
Proof.
  refine {| find_all := λ s f, inl (omap (λ kv, if bool_decide (kv.1 = Db_Name kv.2) && matches f kv.2
                                               then Some kv.2 else None) (map_to_list s));
    insert_one := λ s c, match s !! Db_Name c with
                         | Some _ => (s, Some "duplicate key")
                         | None => (<[Db_Name c := c]> s, None)
                         end;
    delete_one := λ s n v, match s !! n with
                           | Some old => if bool_decide (Db_Version old = v) then (delete n s, inl true) else (s, inl false)
                           | None => (s, inl false)
                           end |}.
  - intros s f l [= <-] c. rewrite list_elem_of_omap. unfold matches. split.
    + intros ([k d] & Hin%elem_of_map_to_list & E). simpl in E. case_bool_decide as Hk; [|done]. simpl in E.
      destruct (_ || _) eqn:Em; [|done]. injection E as ->. split; [by rewrite <- Hk|].
      apply orb_true_iff in Em as [Em|Em]; [left; by apply bool_decide_eq_true in Em|right; by apply contains_spec].
    + intros [Hl Hf]. exists (Db_Name c, c). split; [by apply elem_of_map_to_list|]. simpl.
      rewrite bool_decide_eq_true_2 by done. simpl.
      destruct Hf as [->|Hf]; [done|]. apply contains_spec in Hf. by rewrite Hf, orb_true_r.
  - intros s c s'. destruct (s !! Db_Name c) eqn:E; [done|]. by intros [= <-].
  - intros s c s' e. destruct (s !! Db_Name c) eqn:E; [|done]. intros [= <- _]. by left.
  - intros s n v s'. destruct (s !! n) as [old|] eqn:E; [|done]. case_bool_decide; [|done].
    intros [= <-]. split; [by exists old|done].
  - intros s n v s'. destruct (s !! n) as [old|] eqn:E; [case_bool_decide; [done|]|]; by intros [= <-].
  - intros s n v s' e. destruct (s !! n); [case_bool_decide|]; done.
Defined.

(** ** Clients that work on the same document *)

Section clients.
Context `{Codec} {T : Type} `{!Collection T} `{!CollectionOps (T := T)} (digest : string).

(** One call of some client, for any document, however it ends. *)
Inductive client_step : T → T → Prop :=
| Client_update s c s' r : Mongo_UpdateConfig s c = (s', r) → client_step s s'
| Client_mark s n v s' r : Mongo_MarkForDeletion digest s n v = (s', r) → client_step s s'
| Client_create s c s' r : Mongo_CreateConfig s c = (s', r) → client_step s s'
| Client_delete s n v s' r : Mongo_DeleteConfig s n v = (s', r) → client_step s s'.

(** A call after which the document [n] is there. *)
Definition keeping (n : string) (s s' : T) : Prop := client_step s s' ∧ is_Some (docs s' !! n).

(** A call leaves the document alone or writes it under the next version. *)
Lemma client_step_version n s s' old :
  docs s !! n = Some old → keeping n s s' →
  docs s' !! n = Some old ∨
  ∃ d, docs s' !! n = Some d ∧ (Db_Version d = Db_Version old + 1 ∨ Db_Version d = uint64 (Db_Version old + 1))%Z.
Proof.
  assert (∀ s m v f s' r, find_one_and_update s m v f = (s', r) → docs s !! n = Some old →
    docs s' !! n = Some old ∨ (m = n ∧ Db_Version old = v ∧ docs s' !! n = Some (f old))) as Hfind.
  { intros a m v f b r E Ho.
    assert (docs b = docs a ∨ ∃ o, docs a !! m = Some o ∧ Db_Version o = v ∧ docs b = <[m := f o]> (docs a))
      as [->|(o & Hm & Hv & ->)].
    - destruct r as [[]|e]; [right; by apply find_one_and_update_true in E|left; by apply find_one_and_update_false in E as [_ ?]|].
      apply find_one_and_update_err in E as [?|?]; auto.
    - by left.
    - destruct (decide (m = n)) as [->|Hne]; [|left; by rewrite lookup_insert_ne].
      right. rewrite Ho in Hm. injection Hm as <-. by rewrite lookup_insert_eq. }
  intros Ho [Hs Hsome]. destruct Hs as [s c s' r Hu|s m v s' r Hu|s c s' r Hu|s m v s' r Hu].
  - unfold Mongo_UpdateConfig in Hu. destruct (find_one_and_update _ _ _ _) as [a r'] eqn:E.
    assert (a = s') as -> by (destruct r' as [[]|]; congruence).
    destruct (Hfind _ _ _ _ _ _ E Ho) as [?|(_ & Hv & Hd)]; [by left|right].
    eexists. split; [exact Hd|]. right. simpl. by rewrite Hv.
  - unfold Mongo_MarkForDeletion in Hu. destruct (find_one_and_update _ _ _ _) as [a r'] eqn:E.
    assert (a = s') as -> by (destruct r' as [[]|]; congruence).
    destruct (Hfind _ _ _ _ _ _ E Ho) as [?|(_ & _ & Hd)]; [by left|right].
    eexists. split; [exact Hd|]. by left.
  - left. unfold Mongo_CreateConfig in Hu. destruct (insert_one _ _) as [a r'] eqn:E.
    assert (a = s') as -> by (destruct r'; congruence).
    assert (docs s' = docs s ∨ docs s !! Db_Name (created c) = None ∧ docs s' = <[Db_Name (created c) := created c]> (docs s))
      as [->|[Hnone ->]]; [|done|].
    + destruct r'; [apply insert_one_err in E|apply insert_one_ok in E]; tauto.
    + rewrite lookup_insert_ne; [done|]. intros E'. simpl in *. congruence.
  - left. unfold Mongo_DeleteConfig in Hu. destruct (delete_one _ _ _) as [a r'] eqn:E.
    assert (a = s') as -> by (destruct r' as [[]|]; congruence).
    assert (docs s' = docs s ∨ docs s' = delete m (docs s)) as [->|Hd]; [|done|].
    + destruct r' as [[]|]; [apply delete_one_true in E|apply delete_one_false in E|apply delete_one_err in E]; tauto.
    + rewrite Hd in Hsome |- *. destruct (decide (m = n)) as [->|]; [|by rewrite lookup_delete_ne].
      rewrite lookup_delete_eq in Hsome. by destruct Hsome.
Qed.

(** After [k] calls the document is the one that was read, or its version has
    grown. *)
Lemma versions_grow n k s s' d :
  docs s !! n = Some d → nsteps (keeping n) k s s' →
  (0 ≤ Db_Version d)%Z → (Db_Version d + Z.of_nat k < 2^64)%Z →
  docs s' !! n = Some d ∨
  ∃ d', docs s' !! n = Some d' ∧ (Db_Version d < Db_Version d' ≤ Db_Version d + Z.of_nat k)%Z.
Proof.
  intros Hd Hk H0. revert s' Hk. induction k as [|k IH]; intros s' Hk Hmax.
  - inversion Hk; subst. by left.
  - apply nsteps_inv_r in Hk as (a & Hk & Hs).
    assert (∃ x, docs a !! n = Some x ∧ (x = d ∨ Db_Version d < Db_Version x)%Z ∧
      (Db_Version d ≤ Db_Version x ≤ Db_Version d + Z.of_nat k)%Z) as (x & Ha & Hx & Hb).
    { destruct (IH a Hk) as [?|(x & ? & ?)]; [lia|exists d|exists x]; (split; [done|]; split; [auto; lia|lia]). }
    destruct (client_step_version _ _ _ _ Ha Hs) as [?|(x' & Hx' & Hv)].
    + destruct Hx as [->|Hx]; [by left|right]. exists x. split; [done|lia].
    + right. exists x'. split; [done|]. unfold uint64 in Hv. rewrite Z.mod_small in Hv by lia. lia.
Qed.

End clients.

(** C38: Optimistic locking prevents lost updates.  A client reads a document
    and later updates it, while any number of other clients update it, mark it
    for deletion, create and delete documents in between.  When its update
    succeeds, the document it replaced is the one it had read: no write of
    another client is overwritten unseen.  When the update is refused as dirty
    the document is another one by then and nothing is written, and after a
    lost connection one of the two holds.  (The document is not deleted and
    created again in between, which would start its versions anew, and the
    version does not run over.) *)
Theorem no_lost_updates `{Codec} {T : Type} `{!Collection T} `{!CollectionOps (T := T)} (digest : string)
    (k : nat) (n : string) (s0 s1 s2 : T) (d c : DbConfig) (r : option store_err) :
  Mongo_GetConfig s0 n = inl d →
  nsteps (keeping digest n) k s0 s1 →
  (0 ≤ Db_Version d)%Z → (Db_Version d + Z.of_nat k < 2^64)%Z →
  Db_Name c = n → Db_Version c = Db_Version d →
  Mongo_UpdateConfig s1 c = (s2, r) →
  let written := docs s1 !! n = Some d ∧ docs s2 = <[n := bumped c]> (docs s1) in
  let refused := docs s2 = docs s1 in
  match r with
  | None => written
  | Some ErrNotFoundOrDirty => docs s1 !! n ≠ Some d ∧ refused
  | Some (ErrOther _) => refused ∨ written
  end.
Proof.
  intros Hg Hk H0 Hmax Hn Hv Hu. cbv zeta.
  assert (docs s0 !! n = Some d) as Hd.
  { unfold Mongo_GetConfig in Hg. destruct (find_one s0 n) as [[x|]|] eqn:E; simplify_eq. by apply find_one_ok in E. }
  pose proof (versions_grow _ _ _ _ _ _ Hd Hk H0 Hmax) as Hgrow.
  assert (∀ old, docs s1 !! n = Some old → Db_Version old = Db_Version d → docs s1 !! n = Some d) as Hsame.
  { intros old Ho Hv'. destruct Hgrow as [?|(d' & Hd' & Hlt & _)]; [done|]. rewrite Hd' in Ho. injection Ho as <-. lia. }
  unfold Mongo_UpdateConfig in Hu. rewrite Hn, Hv in Hu.
  destruct (find_one_and_update _ _ _ _) as [a [[]|e]] eqn:E; injection Hu as <- <-.
  - apply find_one_and_update_true in E as (old & Ho & Hvo & ->). split; [by eapply Hsame|].
    unfold bumped. by rewrite Hv.
  - apply find_one_and_update_false in E as [Hc ?]. split; [|done]. intros Hd1. apply Hc. by exists d.
  - apply find_one_and_update_err in E as [?|(old & Ho & Hvo & ->)]; [by left|right].
    split; [by eapply Hsame|]. unfold bumped. by rewrite Hv.
Qed.

(** A client reads version 3; another one writes the document before it. *)
Lemma no_lost_updates_witness :
  let d := mkDbConfig 3 "m" (mkKubernetesContext "" "") (mkDbManifest "" None None "Pending" "") ∅ in
  let c1 := set_Db_Manifest d (mkDbManifest "first" None None "Pending" "") in
  let c2 := set_Db_Manifest d (mkDbManifest "second" None None "Pending" "") in
  let s : gmap string DbConfig := {["m" := d]} in
  let s1 := (Mongo_UpdateConfig s c1).1 in
  (Mongo_UpdateConfig s1 c2).2 = Some ErrNotFoundOrDirty ∧ docs (Mongo_UpdateConfig s1 c2).1 = docs s1.
Proof.
  intros d c1 c2 s s1.
  assert ((Mongo_UpdateConfig s1 c2).2 = Some ErrNotFoundOrDirty) as Hr by (vm_compute; reflexivity).
  split; [exact Hr|].
  refine (proj2 (no_lost_updates "digest" 1 "m" s s1 _ d c2 (Some ErrNotFoundOrDirty) _ _ _ _ eq_refl eq_refl _));
    [reflexivity| |simpl; lia|simpl; lia|rewrite <- Hr; apply surjective_pairing].
  eapply nsteps_l; [|constructor]. split; [eapply Client_update; apply surjective_pairing|].
  exists (bumped c1). vm_compute. reflexivity.
Defined.

End Store.
