(* ===== verification/ProcessTask.v ===== *)
(** * Processing results of tasks (services/manager/internal/service/process_task.go)

    A worker's reply for the current stage of the in-flight task of a cluster
    arrives at least once.  [ProcessTask] checks that it is for the current
    task and stage, folds the result into the task, moves the task to the next
    stage or finishes it, and writes the document back. *)

From stdpp Require Import base gmap strings list relations.
From S2P Require Import Prelude Spec SpecUtils Samples NodePools Consume Store.
Import NodePools Consume Store.

Module ProcessTask.

Definition PreviouslyCachedWorkflowResults : nat := 3.

Definition uint32 (z : Z) : Z := (z mod 2^32)%Z.
Definition int64 (z : Z) : Z := ((z + 2^63) mod 2^64 - 2^63)%Z.

Record Work := mkWork {
  Work_InputManifest : string;
  Work_Cluster : string;
  Work_TaskID : string;
  Work_TaskStage : Z;
  Work_Stage : StageKind;
  Work_Result : TaskResult }.

(** ** Counters of failed scale-ups *)

(** [counters[np] += 1] *)
Definition count_failure (counters : Counters) (np : string) : Counters :=
  <[np := int64 (default 0%Z (counters !! np) + 1)]> counters.

(** The pools of the update's cluster; reading them through a nil cluster panics. *)
Definition update_pools (s : Clusters) : outcome (list NodePool) :=
  let* k := deref (K8S s) in Ret (K8s_NodePools k).

Definition PopulateTaskErrorCounters (task : Task) (counters : Counters) : outcome Counters :=
  match task with
  | Task_Update s (Update_TfAddK8SNodes (Existing np nodes)) =>
      let* pools := update_pools s in
      Ret (if IsAutoscaled (FindByName np pools) && bool_decide (nodes ≠ [])
           then count_failure counters np else counters)
  | Task_Update s (Update_AddedK8SNodes_ _ np nodes) =>
      let* pools := update_pools s in
      Ret (if IsAutoscaled (FindByName np pools) && bool_decide (nodes ≠ [])
           then count_failure counters np else counters)
  | _ => Ret counters
  end.

Definition PopulateTaskSuccessCounters (task : Task) (counters : Counters) : outcome Counters :=
  match task with
  | Task_Update _ (Update_AddedK8SNodes_ _ np _) => Ret (delete np counters)
  | Task_Update _ (Update_DeletedK8SNodes_ _ (Whole np)) =>
      let* np := deref np in Ret (delete (NodePool_Name np) counters)
  | Task_Update _ (Update_TfMoveNodePoolFromAutoscaled np) => Ret (delete np counters)
  | Task_Update _ (Update_MovedNodePoolFromAutoscaled_ np _) => Ret (delete np counters)
  | _ => Ret counters
  end.

Section process.
Context `{Codec}.

(** ** Field updates of the documents *)

Definition set_Db_InFlight (c : DbClusterState) (i : option DbTaskEvent) : DbClusterState :=
  mkDbClusterState (Db_Current c) i (Db_State c) (Db_Counters c).
Definition set_Db_State (c : DbClusterState) (w : DbWorkflow) : DbClusterState :=
  mkDbClusterState (Db_Current c) (Db_InFlight c) w (Db_Counters c).
Definition set_Db_Counters (c : DbClusterState) (k : Counters) : DbClusterState :=
  mkDbClusterState (Db_Current c) (Db_InFlight c) (Db_State c) k.
Definition set_Db_Current (c : DbClusterState) (x : DbClusters) : DbClusterState :=
  mkDbClusterState x (Db_InFlight c) (Db_State c) (Db_Counters c).

Definition set_Db_Id (t : DbTaskEvent) (id : string) : DbTaskEvent :=
  mkDbTaskEvent id (Db_Timestamp t) (Db_Type t) (Db_Task t) (Db_TaskDescription t) (Db_Pipeline t)
    (Db_CurrentStage t) (Db_LowerPriority t).
Definition set_Db_Task (t : DbTaskEvent) (b : bytes) : DbTaskEvent :=
  mkDbTaskEvent (Db_Id t) (Db_Timestamp t) (Db_Type t) b (Db_TaskDescription t) (Db_Pipeline t)
    (Db_CurrentStage t) (Db_LowerPriority t).
Definition set_Db_CurrentStage (t : DbTaskEvent) (n : Z) : DbTaskEvent :=
  mkDbTaskEvent (Db_Id t) (Db_Timestamp t) (Db_Type t) (Db_Task t) (Db_TaskDescription t) (Db_Pipeline t)
    n (Db_LowerPriority t).
Definition set_Db_LowerPriority (t : DbTaskEvent) (l : option DbTaskEvent) : DbTaskEvent :=
  mkDbTaskEvent (Db_Id t) (Db_Timestamp t) (Db_Type t) (Db_Task t) (Db_TaskDescription t) (Db_Pipeline t)
    (Db_CurrentStage t) l.

Definition set_status (w : DbWorkflow) (st : Workflow_Status) (descr : string) : DbWorkflow :=
  mkDbWorkflow (enum_String st) descr (Db_WfTimestamp w) (Db_Previous w) (Db_TicksUntilRefresh w).

(** ** Finishing and advancing *)

(** The state of a finished task goes to the task it overtook, or becomes
    the current state of the cluster. *)
Definition propagateInFlightState (state : DbClusterState) (e : DbTaskEvent) : outcome DbClusterState :=
  let* t := ConvertToGRPCTask (Db_Task e) in
  let* s := MutableClusters t in
  let* counters := PopulateTaskSuccessCounters t (Db_Counters state) in
  let state := set_Db_Counters state counters in
  match Db_LowerPriority e with
  | Some lp =>
      let* lt := ConvertToGRPCTask (Db_Task lp) in
      let* changed := ConvertFromGRPCTask (ReplaceClusters lt s) in
      Ret (set_Db_InFlight state (Some (set_Db_LowerPriority e (Some (set_Db_Task lp changed)))))
  | None =>
      let* cs := ConvertFromGRPCClusters (Some s) in
      Ret (set_Db_Current (set_Db_InFlight state (Some e)) cs)
  end.

Definition advanceToNextStage (state : DbClusterState) : outcome DbClusterState :=
  let* e := deref (Db_InFlight state) in
  let e := set_Db_CurrentStage e (uint32 (Db_CurrentStage e + 1)) in
  if bool_decide (Db_CurrentStage e < Z.of_nat (length (Db_Pipeline e)))%Z then
    let* st := index (Db_Pipeline e) (Z.to_nat (Db_CurrentStage e)) in
    Ret (set_Db_State (set_Db_InFlight state (Some e))
           (set_status (Db_State state) WAIT_FOR_PICKUP (Db_About (Db_Description st))))
  else
    let* state := propagateInFlightState state e in
    let* e := deref (Db_InFlight state) in
    Ret (set_Db_State (set_Db_InFlight state (Db_LowerPriority e)) (set_status (Db_State state) DONE "")).

(** ** Folding a result into the task

    The cluster after the call and the error.  Only a failure to marshal the
    changed task changes the cluster: it has then lost its task. *)
Definition consume (t : Task) (r : TaskResult_Result) : outcome (Task * option string) :=
  match r with
  | TaskResult_Update u => ConsumeUpdateResult t u
  | TaskResult_Clear c => Ret (ConsumeClearResult t c)
  | TaskResult_None_ | TaskResult_nil => Ret (t, None)
  end.

Definition propagateResult (cluster : DbClusterState) (result : TaskResult)
    : outcome (DbClusterState * option string) :=
  match ConvertToGRPCTaskEvent (Db_InFlight cluster) with
  | Panic w => Panic w
  | Fail e => Ret (cluster, Some e)
  | Ret inFlight =>
      let* inFlight := deref inFlight in
      let* (t, err) := consume (TaskEvent_Task inFlight) (TaskResult_Result_ result) in
      match err with
      | Some e => Ret (cluster, Some e)
      | None =>
          match ConvertFromGRPCTaskEvent (Some (set_TaskEvent_Task inFlight t)) with
          | Ret e => Ret (set_Db_InFlight cluster e, None)
          | Fail e => Ret (set_Db_InFlight cluster None, Some e)
          | Panic w => Panic w
          end
      end
  end.

(** ** The handler *)

(** Remember a finished stage, at most [PreviouslyCachedWorkflowResults]. *)
Definition push_previous (cluster : DbClusterState) (st : Workflow_Status) (stage : StageKind) (now : Z)
    : DbClusterState :=
  let w := Db_State cluster in
  let previous := mkDbFinishedWorkflow (enum_String st) stage (Db_StatusDescription w) (format_time now) in
  let kept := if bool_decide (PreviouslyCachedWorkflowResults ≤ length (Db_Previous w))
              then tail (Db_Previous w) else Db_Previous w in
  set_Db_State cluster (mkDbWorkflow (Db_Status w) (Db_StatusDescription w) (Db_WfTimestamp w)
                          (kept ++ [previous]) (Db_TicksUntilRefresh w)).

Context (TicksForInfrastructureRefresh : Z).

(** The task is scheduled again under a new id. *)
Definition reschedule (cluster : DbClusterState) (newUUID : string) : outcome DbClusterState :=
  let* e := deref (Db_InFlight cluster) in
  Ret (set_Db_State (set_Db_InFlight cluster (Some (set_Db_Id e newUUID)))
         (mkDbWorkflow (enum_String WAIT_FOR_PICKUP) "" "" (Db_Previous (Db_State cluster))
            TicksForInfrastructureRefresh)).

(** What happens to a cluster and whether the document is written. *)
Inductive verdict :=
| Write (cluster : DbClusterState)
| Halt.

(** [processTaskWithError] up to the write. *)
Definition errored_cluster (cluster : DbClusterState) (stage : DbStage) (kind : ErrorKind) (descr : string)
    (result : TaskResult) (newUUID : string) (now : Z) : outcome verdict :=
  let* cluster :=
    if bool_decide (Db_Status (Db_State cluster) = enum_String ERROR) then Ret cluster
    else match ConvertToGRPCTaskEvent (Db_InFlight cluster) with
         | Ret inFlight =>
             let* inFlight := deref inFlight in
             let* counters := PopulateTaskErrorCounters (TaskEvent_Task inFlight) (Db_Counters cluster) in
             Ret (set_Db_Counters cluster counters)
         | Fail _ => Ret cluster
         | Panic w => Panic w
         end in
  let cluster := push_previous cluster ERROR (Db_Kind stage) now in
  let cluster := set_Db_State cluster (set_status (Db_State cluster) ERROR descr) in
  let* (cluster, err) :=
    if bool_decide (kind = PARTIAL) then propagateResult cluster result else Ret (cluster, None) in
  match err with
  | Some _ => let* cluster := reschedule cluster newUUID in Ret (Write cluster)
  | None =>
      if bool_decide (Db_ErrorLevel (Db_Description stage) = enum_String ERROR_WARN) then
        match advanceToNextStage cluster with
        | Ret cluster => Ret (Write cluster)
        | Fail _ => Ret Halt
        | Panic w => Panic w
        end
      else Ret (Write cluster)
  end.

(** The part of [ProcessTask] after the result is known to be no error. *)
Definition finished_cluster (cluster : DbClusterState) (stage : DbStage) (result : TaskResult)
    (newUUID : string) (now : Z) : outcome verdict :=
  let* (cluster, err) := propagateResult cluster result in
  match err with
  | Some _ => let* cluster := reschedule cluster newUUID in Ret (Write cluster)
  | None =>
      let cluster := push_previous cluster DONE (Db_Kind stage) now in
      match advanceToNextStage cluster with
      | Ret cluster => Ret (Write cluster)
      | Fail _ => Ret Halt
      | Panic w => Panic w
      end
  end.

Context {T : Type} `{!Store T}.

(** The store after the call and whether the message is acknowledged. *)
Definition ProcessTask (s : T) (work : Work) (newUUID : string) (now : Z) : outcome (T * bool) :=
  match GetConfig s (Work_InputManifest work) with
  | inr ErrNotFoundOrDirty => Ret (s, true)
  | inr (ErrOther _) => Ret (s, false)
  | inl im =>
      match Db_Clusters im !! Work_Cluster work with
      | None => Ret (s, true)
      | Some cluster =>
          match Db_InFlight cluster with
          | None => Ret (s, true)
          | Some e =>
              if bool_decide (Db_Id e ≠ Work_TaskID work) then Ret (s, true)
              else if bool_decide (Db_CurrentStage e ≠ Work_TaskStage work) then Ret (s, true)
              else
                let* stage := index (Db_Pipeline e) (Z.to_nat (Db_CurrentStage e)) in
                if bool_decide (Db_Kind stage ≠ Work_Stage work) then Ret (s, true)
                else
                  let* v := match TaskResult_Error (Work_Result work) with
                            | Some (kind, descr) =>
                                errored_cluster cluster stage kind descr (Work_Result work) newUUID now
                            | None => finished_cluster cluster stage (Work_Result work) newUUID now
                            end in
                  match v with
                  | Halt => Ret (s, false)
                  | Write cluster' =>
                      let '(s', err) := UpdateConfig s
                        (set_Db_Clusters im (<[Work_Cluster work := cluster']> (Db_Clusters im))) in
                      match err with
                      | Some _ => Ret (s', false)
                      | None =>
                          (* the metrics of an errored task read the type of the task in flight *)
                          match TaskResult_Error (Work_Result work), Db_InFlight cluster' with
                          | Some _, None => Panic "invalid memory address or nil pointer dereference"
                          | _, _ => Ret (s', true)
                          end
                      end
                  end
          end
      end
  end.

(** ** Lemmas *)

(** What the conversions keep of an event, without unmarshalling its task. *)
Lemma to_task_event_Ret e te :
  to_task_event e = Ret te →
  TaskEvent_Id te = Db_Id e ∧ TaskEvent_CurrentStage te = Db_CurrentStage e ∧
  ConvertToGRPCTask (Db_Task e) = Ret (TaskEvent_Task te) ∧
  ConvertToGRPCStages (Db_Pipeline e) = Ret (TaskEvent_Pipeline te) ∧
  ConvertToGRPCTaskEvent (Db_LowerPriority e) = Ret (TaskEvent_LowerPriority te).
Proof.
  destruct e as [id ts ty tb d pl st lp]. unfold to_task_event. simpl. fold to_task_event.
  destruct (match lp with Some l => _ | None => _ end) as [lp'|?|?] eqn:El; simpl; [|done..].
  destruct (ConvertToGRPCTask tb) as [t|?|?] eqn:Et; simpl; [|done..].
  destruct (or_fail _ _) as [tm|?|?]; simpl; [|done..].
  destruct (ConvertToGRPCStages pl) as [pl'|?|?] eqn:Ep; simpl; [|done..].
  intros [= <-]. simpl. split_and!; try done.
Qed.

Lemma from_task_event_Ret te e :
  from_task_event te = Ret e →
  Db_Id e = TaskEvent_Id te ∧ Db_CurrentStage e = TaskEvent_CurrentStage te ∧
  Db_Pipeline e = ConvertFromGRPCStages (TaskEvent_Pipeline te) ∧
  ConvertFromGRPCTaskEvent (TaskEvent_LowerPriority te) = Ret (Db_LowerPriority e).
Proof.
  destruct te as [id ts ev t d pl st lp]. unfold from_task_event. simpl. fold from_task_event.
  destruct (match lp with Some l => _ | None => _ end) as [lp'|?|?] eqn:El; simpl; [|done..].
  destruct (ConvertFromGRPCTask t) as [tb|?|?] eqn:Et; simpl; [|done..].
  intros [= <-]. simpl. split_and!; try done.
Qed.

Definition lower_id (e : DbTaskEvent) : option string := Db_Id <$> Db_LowerPriority e.

(** A consumed result: the event keeps its identity, its stage and what is
    queued behind it. *)
Lemma propagateResult_ok cluster r cluster' e :
  Db_InFlight cluster = Some e →
  propagateResult cluster r = Ret (cluster', None) →
  ∃ te t' e', to_task_event e = Ret te ∧
    consume (TaskEvent_Task te) (TaskResult_Result_ r) = Ret (t', None) ∧
    from_task_event (set_TaskEvent_Task te t') = Ret e' ∧
    cluster' = set_Db_InFlight cluster (Some e').
Proof.
  intros He. unfold propagateResult. rewrite He. simpl.
  destruct (to_task_event e) as [te|?|?] eqn:Et; simpl; [|done..].
  destruct (consume _ _) as [[t' [err|]]|?|?] eqn:Ec; simpl; [done| |done..].
  destruct (from_task_event _) as [e'|?|?] eqn:Ef; simpl; [|done..].
  intros [= <-]. by exists te, t', e'.
Qed.

Lemma propagateResult_err cluster r cluster' err e :
  Db_InFlight cluster = Some e →
  propagateResult cluster r = Ret (cluster', Some err) →
  cluster' = cluster ∨ Db_InFlight cluster' = None.
Proof.
  intros He. unfold propagateResult. rewrite He. simpl.
  destruct (to_task_event e) as [te|?|?] eqn:Et; simpl; [|by intros [= <-]; left|done].
  destruct (consume _ _) as [[t' [err'|]]|?|?] eqn:Ec; simpl; [by intros [= <-]; left| |done..].
  destruct (from_task_event _) as [e'|?|?] eqn:Ef; simpl; [done|by intros [= <-]; right|done].
Qed.

Lemma kept_by_roundtrip e te t' e' :
  to_task_event e = Ret te → from_task_event (set_TaskEvent_Task te t') = Ret e' →
  Db_Id e' = Db_Id e ∧ Db_CurrentStage e' = Db_CurrentStage e ∧ lower_id e' = lower_id e.
Proof.
  intros Ht Hf. apply to_task_event_Ret in Ht as (I & C & _ & _ & L).
  apply from_task_event_Ret in Hf as (I' & C' & _ & L'). simpl in *.
  split_and!; [congruence..|]. unfold lower_id.
  destruct (Db_LowerPriority e) as [l|]; simpl in L.
  - destruct (to_task_event l) as [tl|?|?] eqn:El; simpl in L; [|done..]. injection L as L.
    rewrite <- L in L'. simpl in L'. destruct (from_task_event tl) as [l'|?|?] eqn:El'; simpl in L'; [|done..].
    injection L' as L'. rewrite <- L'. simpl.
    apply to_task_event_Ret in El as (? & _). apply from_task_event_Ret in El' as (? & _). congruence.
  - injection L as L. rewrite <- L in L'. simpl in L'. by injection L' as <-.
Qed.

(** [propagateInFlightState] keeps the event but for the lower priority task. *)
Lemma propagateInFlightState_InFlight st e st' :
  propagateInFlightState st e = Ret st' →
  ∃ e', Db_InFlight st' = Some e' ∧ lower_id e' = lower_id e ∧ Db_State st' = Db_State st.
Proof.
  unfold propagateInFlightState. intros Hp.
  destruct (ConvertToGRPCTask _) as [t|?|?]; simpl in Hp; [|done..].
  destruct (MutableClusters t) as [s|?|?]; simpl in Hp; [|done..].
  destruct (PopulateTaskSuccessCounters _ _) as [c|?|?]; simpl in Hp; [|done..].
  unfold lower_id. destruct (Db_LowerPriority e) as [lp|] eqn:El.
  - bind_inv Hp. subst st'. simpl. eexists. split_and!; [reflexivity|done|done].
  - bind_inv Hp. subst st'. simpl. eexists. split_and!; [reflexivity|by rewrite El|done].
Qed.

(** Where an advanced event can be. *)
Definition moved_on (e : DbTaskEvent) (c' : DbClusterState) : Prop :=
  ∀ e', Db_InFlight c' = Some e' →
    (Db_Id e' = Db_Id e ∧ Db_CurrentStage e' = uint32 (Db_CurrentStage e + 1)) ∨
    Some (Db_Id e') = lower_id e.

Lemma advanceToNextStage_moves c e c' :
  Db_InFlight c = Some e → advanceToNextStage c = Ret c' → moved_on e c'.
Proof.
  intros He. unfold advanceToNextStage. rewrite He. simpl. case_bool_decide as Hl; intros Ha; bind_inv Ha.
  - subst c'. intros e' [= <-]. left. done.
  - subst c'. intros e' Hl'. right. apply propagateInFlightState_InFlight in Hx as (e2 & He2 & Hid & _).
    rewrite He2 in Hx0. simpl in Hx0. injection Hx0 as <-. simpl in Hl'.
    unfold lower_id in *. simpl in Hid. by rewrite Hl' in Hid.
Qed.

Lemma reschedule_id c uuid c' :
  reschedule c uuid = Ret c' → ∃ e', Db_InFlight c' = Some e' ∧ Db_Id e' = uuid.
Proof.
  unfold reschedule. destruct (Db_InFlight c); simpl; [|done]. intros [= <-]. by eexists.
Qed.

Lemma finished_cluster_moves c e stage r uuid now c' :
  Db_InFlight c = Some e → finished_cluster c stage r uuid now = Ret (Write c') →
  (∃ e', Db_InFlight c' = Some e' ∧ Db_Id e' = uuid) ∨ moved_on e c'.
Proof.
  intros He. unfold finished_cluster.
  destruct (propagateResult c r) as [[c1 [err|]]|?|?] eqn:Ep; simpl; [| |done..].
  - intros Hr. bind_inv Hr. left. subst x. by eapply reschedule_id.
  - destruct (propagateResult_ok _ _ _ _ He Ep) as (te & t' & e1 & Hte & _ & Hfe & ->).
    destruct (kept_by_roundtrip _ _ _ _ Hte Hfe) as (Hid & Hst & Hlp).
    set (c2 := push_previous _ _ _ _). assert (Db_InFlight c2 = Some e1) as He1 by reflexivity.
    clearbody c2. destruct (advanceToNextStage c2) as [c3|?|?] eqn:Ea; simpl; [|done..].
    intros [= <-]. right. intros e' He'.
    destruct (advanceToNextStage_moves _ _ _ He1 Ea e' He') as [[? ?]|?]; [left|right]; split || idtac;
      congruence.
Qed.

Lemma uint32_succ_ne z : uint32 (z + 1) ≠ z.
Proof.
  unfold uint32. pose proof (Z.mod_pos_bound (z + 1) (2^32) ltac:(lia)).
  pose proof (Z.div_mod (z + 1) (2^32) ltac:(lia)). intros E. rewrite E in *. lia.
Qed.

(** A message that is not for the current task and stage is acknowledged
    without effect. *)
Definition stale (s : T) (work : Work) : Prop :=
  ∀ im cluster e, GetConfig s (Work_InputManifest work) = inl im →
    Db_Clusters im !! Work_Cluster work = Some cluster → Db_InFlight cluster = Some e →
    Db_Id e ≠ Work_TaskID work ∨ Db_CurrentStage e ≠ Work_TaskStage work.

Lemma stale_ignored s work uuid now :
  stale s work → ∃ ack, ProcessTask s work uuid now = Ret (s, ack).
Proof.
  intros Hs. unfold ProcessTask.
  destruct (GetConfig s _) as [im|[|]] eqn:Eg; [|by eauto..].
  destruct (Db_Clusters im !! _) as [c|] eqn:Ec; [|by eauto].
  destruct (Db_InFlight c) as [e|] eqn:Ee; [|by eauto].
  destruct (Hs im c e) as [Hne|Hne]; [done..| |].
  - rewrite bool_decide_eq_true_2 by done. eauto.
  - case_bool_decide; [by eauto|]. rewrite bool_decide_eq_true_2 by done. eauto.
Qed.

End process.

(** ** The abstract machine

    The life of the in-flight task of a cluster, on decoded states: what the
    reply [r] of a stage that ended without an error does. *)

Definition stage_kind (st : Stage) : StageKind :=
  match st with
  | Stage_Terraformer _ _ => Terraformer | Stage_Ansibler _ _ => Ansibler
  | Stage_KubeEleven _ _ => KubeEleven | Stage_Kuber _ _ => Kuber
  end.

Definition stage_description (st : Stage) : StageDescription :=
  match st with
  | Stage_Terraformer d _ | Stage_Ansibler d _ | Stage_KubeEleven d _ | Stage_Kuber d _ => d
  end.

(** The history after one more finished stage; its time is stored in seconds. *)
Definition remember (w : Workflow) (st : Workflow_Status) (k : StageKind) (now : Z) : list FinishedWorkflow :=
  (if bool_decide (PreviouslyCachedWorkflowResults ≤ length (Workflow_Previous w))
   then tail (Workflow_Previous w) else Workflow_Previous w)
  ++ [mkFinishedWorkflow st (Workflow_Description w) k (whole_second now)].

Definition next_stage (te : TaskEvent) : Z := uint32 (TaskEvent_CurrentStage te + 1).

(** What the database keeps of a finished task's clusters. *)
Definition stored (s : Clusters) : Clusters := match K8S s with None => mkClusters None [] | Some _ => s end.

Inductive task_step (ticks : Z) (r : TaskResult) (uuid : string) (now : Z) : ClusterState → ClusterState → Prop :=
| Step_next cur w te cnt t' k next :
    consume (TaskEvent_Task te) (TaskResult_Result_ r) = Ret (t', None) →
    stage_kind <$> TaskEvent_Pipeline te !! Z.to_nat (TaskEvent_CurrentStage te) = Some k →
    TaskEvent_Pipeline te !! Z.to_nat (next_stage te) = Some next →
    task_step ticks r uuid now
      (mkClusterState cur (Some w) (Some te) cnt)
      (mkClusterState cur
         (Some (mkWorkflow WAIT_FOR_PICKUP (About (stage_description next)) (remember w DONE k now)
                  (Workflow_TicksUntilRefresh w)))
         (Some (set_TaskEvent_CurrentStage (set_TaskEvent_Task (whole_event te) t') (next_stage te))) cnt)
| Step_done cur w te cnt t' k s cnt' :
    consume (TaskEvent_Task te) (TaskResult_Result_ r) = Ret (t', None) →
    stage_kind <$> TaskEvent_Pipeline te !! Z.to_nat (TaskEvent_CurrentStage te) = Some k →
    (Z.of_nat (length (TaskEvent_Pipeline te)) ≤ next_stage te)%Z →
    TaskEvent_LowerPriority te = None →
    task_state t' = Some s → PopulateTaskSuccessCounters t' cnt = Ret cnt' →
    task_step ticks r uuid now
      (mkClusterState cur (Some w) (Some te) cnt)
      (mkClusterState (Some (stored s))
         (Some (mkWorkflow DONE "" (remember w DONE k now) (Workflow_TicksUntilRefresh w))) None cnt')
| Step_resume cur w te cnt t' k s cnt' lp :
    consume (TaskEvent_Task te) (TaskResult_Result_ r) = Ret (t', None) →
    stage_kind <$> TaskEvent_Pipeline te !! Z.to_nat (TaskEvent_CurrentStage te) = Some k →
    (Z.of_nat (length (TaskEvent_Pipeline te)) ≤ next_stage te)%Z →
    TaskEvent_LowerPriority te = Some lp →
    task_state t' = Some s → PopulateTaskSuccessCounters t' cnt = Ret cnt' →
    task_step ticks r uuid now
      (mkClusterState cur (Some w) (Some te) cnt)
      (mkClusterState cur
         (Some (mkWorkflow DONE "" (remember w DONE k now) (Workflow_TicksUntilRefresh w)))
         (Some (set_TaskEvent_Task (whole_event lp) (set_task_state (TaskEvent_Task lp) s))) cnt')
| Step_reschedule cur w te cnt t' err :
    consume (TaskEvent_Task te) (TaskResult_Result_ r) = Ret (t', Some err) →
    task_step ticks r uuid now
      (mkClusterState cur (Some w) (Some te) cnt)
      (mkClusterState cur (Some (mkWorkflow WAIT_FOR_PICKUP "" (Workflow_Previous w) ticks))
         (Some (set_TaskEvent_Id te uuid)) cnt).

Lemma whole_event_task te t : whole_event (set_TaskEvent_Task te t) = set_TaskEvent_Task (whole_event te) t.
Proof. by destruct te. Qed.
Lemma whole_event_pipeline te : TaskEvent_Pipeline (whole_event te) = TaskEvent_Pipeline te.
Proof. by destruct te. Qed.
Lemma whole_event_stage te : TaskEvent_CurrentStage (whole_event te) = TaskEvent_CurrentStage te.
Proof. by destruct te. Qed.
Lemma whole_event_lower te :
  TaskEvent_LowerPriority (whole_event te) = whole_event <$> TaskEvent_LowerPriority te.
Proof. by destruct te as [??????? []]. Qed.
Lemma whole_event_of te : TaskEvent_Task (whole_event te) = TaskEvent_Task te.
Proof. by destruct te. Qed.

Lemma whole_event_mk id ts ev t d pl cs lp :
  whole_event (mkTaskEvent id ts ev t d pl cs lp) =
  mkTaskEvent id (whole_second ts) ev t d pl cs (whole_event <$> lp).
Proof. by destruct lp. Qed.

Lemma whole_event_idem te : whole_event (whole_event te) = whole_event te.
Proof.
  remember (priority_depth te) as n eqn:Hn. revert te Hn.
  induction n as [n IH] using lt_wf_ind. intros [id ts ev t d pl cs lp] Hn.
  assert (whole_second (whole_second ts) = whole_second ts) as Ht
    by (unfold whole_second; by rewrite Z.div_mul by lia).
  rewrite !whole_event_mk, Ht. f_equal. destruct lp as [l|]; [|done].
  simpl in *. by rewrite (IH (priority_depth l) ltac:(lia) l eq_refl).
Qed.

Section refinement.
Context `{Codec}.

Lemma to_task_event_stage e te n :
  to_task_event e = Ret te →
  to_task_event (set_Db_CurrentStage e n) = Ret (set_TaskEvent_CurrentStage te n).
Proof.
  destruct e as [id ts ty tb d pl st lp]. unfold to_task_event. simpl. fold to_task_event.
  destruct (match lp with Some l => _ | None => _ end) as [lp'|?|?]; simpl; [|done..].
  destruct (ConvertToGRPCTask tb) as [t|?|?]; simpl; [|done..].
  destruct (or_fail _ _) as [tm|?|?]; simpl; [|done..].
  destruct (ConvertToGRPCStages pl) as [pl'|?|?]; simpl; [|done..]. by intros [= <-].
Qed.

Lemma to_task_event_id e te id :
  to_task_event e = Ret te → to_task_event (set_Db_Id e id) = Ret (set_TaskEvent_Id te id).
Proof.
  destruct e as [id' ts ty tb d pl st lp]. unfold to_task_event. simpl. fold to_task_event.
  destruct (match lp with Some l => _ | None => _ end) as [lp'|?|?]; simpl; [|done..].
  destruct (ConvertToGRPCTask tb) as [t|?|?]; simpl; [|done..].
  destruct (or_fail _ _) as [tm|?|?]; simpl; [|done..].
  destruct (ConvertToGRPCStages pl) as [pl'|?|?]; simpl; [|done..]. by intros [= <-].
Qed.

Lemma to_task_event_task e te b t :
  to_task_event e = Ret te → ConvertToGRPCTask b = Ret t →
  to_task_event (set_Db_Task e b) = Ret (set_TaskEvent_Task te t).
Proof.
  destruct e as [id' ts ty tb d pl st lp]. unfold to_task_event. simpl. fold to_task_event.
  destruct (match lp with Some l => _ | None => _ end) as [lp'|?|?]; simpl; [|done..].
  destruct (ConvertToGRPCTask tb) as [t0|?|?]; simpl; [|done..].
  destruct (or_fail _ _) as [tm|?|?]; simpl; [|done..].
  destruct (ConvertToGRPCStages pl) as [pl'|?|?]; simpl; [|done..]. intros [= <-] ->. done.
Qed.

Lemma convert_all_lookup {A B} (f : A → outcome B) l l' i :
  convert_all f l = Ret l' →
  match l !! i, l' !! i with Some x, Some y => f x = Ret y | None, None => True | _, _ => False end.
Proof.
  revert l' i. induction l as [|x l IH]; intros l' i; simpl; [by intros [= <-]|].
  destruct (f x) as [y|?|?] eqn:E; simpl; [|done..].
  destruct (convert_all f l) as [ys|?|?]; simpl; [|done..]. intros [= <-].
  destruct i; simpl; [done|]. by apply IH.
Qed.

Lemma to_stage_kind st st' :
  to_stage st = Ret st' →
  stage_kind st' = Db_Kind st ∧ About (stage_description st') = Db_About (Db_Description st).
Proof. unfold to_stage. destruct st as [[] d ps]; simpl; [done|..]; by intros [= <-]. Qed.

Lemma stages_lookup pl pl' i :
  ConvertToGRPCStages pl = Ret pl' →
  length pl = length pl' ∧
  match pl !! i, pl' !! i with
  | Some st, Some st' => stage_kind st' = Db_Kind st ∧ About (stage_description st') = Db_About (Db_Description st)
  | None, None => True
  | _, _ => False
  end.
Proof.
  intros Hc. split.
  - clear -Hc. unfold ConvertToGRPCStages in Hc. revert pl' Hc.
    induction pl as [|x pl IH]; intros pl'; simpl; [by intros [= <-]|].
    destruct (to_stage x); simpl; [|done..]. destruct (convert_all to_stage pl) as [ys|?|?]; simpl; [|done..].
    intros [= <-]. simpl. by rewrite (IH ys).
  - pose proof (convert_all_lookup _ _ _ i Hc) as Hl.
    destruct (pl !! i), (pl' !! i); try done. by apply to_stage_kind.
Qed.

Lemma stored_roundtrip s db : ConvertFromGRPCClusters (Some s) = Ret db → ConvertToGRPCClusters db = Ret (stored s).
Proof.
  intros Hc. destruct s as [[k|] lbs]; unfold stored; simpl.
  - by apply clusters_roundtrip.
  - revert Hc. unfold ConvertFromGRPCClusters, or_fail. simpl.
    destruct (marshal_k8s None) as [kb|] eqn:Ek; simpl; [|done].
    destruct (marshal_lbs lbs) as [lb|] eqn:El; simpl; [|done]. intros [= <-].
    unfold ConvertToGRPCClusters. simpl. by rewrite (k8s_nil _ Ek).
Qed.

Lemma remembered w st k now (d : string) (st' : Workflow_Status) :
  ConvertToGRPCWorkflow (set_status (Db_State (push_previous w st k now)) st' d) =
  mkWorkflow st' d (remember (ConvertToGRPCWorkflow (Db_State w)) st k now)
    (Db_TicksUntilRefresh (Db_State w)).
Proof.
  destruct w as [cur inf [ws wd wt wp wticks] cnt]. unfold push_previous, remember, set_status.
  unfold ConvertToGRPCWorkflow. simpl. f_equal; [by destruct st'|].
  rewrite fmap_app, length_fmap. simpl. rewrite time_roundtrip. simpl. f_equal.
  - case_bool_decide; [|done]. by destruct wp.
  - by destruct st.
Qed.

(** Decoding a cluster with a task in flight. *)
Lemma decode_inflight c cs e :
  Db_InFlight c = Some e → ConvertToGRPCClusterState c = Ret cs →
  ∃ te cur, to_task_event e = Ret te ∧ ConvertToGRPCClusters (Db_Current c) = Ret cur ∧
    cs = mkClusterState (Some cur) (Some (ConvertToGRPCWorkflow (Db_State c))) (Some te) (Db_Counters c).
Proof.
  intros He. unfold ConvertToGRPCClusterState. rewrite He. simpl.
  destruct (to_task_event e) as [te|?|?]; simpl; [|done..].
  destruct (ConvertToGRPCClusters _) as [cur|?|?]; simpl; [|done..]. intros [= <-]. by exists te, cur.
Qed.

Lemma decode_idle c cs : Db_InFlight c = None → ConvertToGRPCClusterState c = Ret cs → InFlight cs = None.
Proof.
  intros He. unfold ConvertToGRPCClusterState. rewrite He. simpl.
  destruct (ConvertToGRPCClusters _) as [cur|?|?]; simpl; [|done..]. by intros [= <-].
Qed.

Lemma decode_counters c cs : ConvertToGRPCClusterState c = Ret cs → Db_Counters c = K8SNodePoolScaleUpFailed cs.
Proof.
  unfold ConvertToGRPCClusterState. destruct (ConvertToGRPCTaskEvent _); simpl; [|done..].
  destruct (ConvertToGRPCClusters _); simpl; [|done..]. by intros [= <-].
Qed.

(** The finishing part of [advanceToNextStage]. *)
Lemma propagateInFlightState_refines c e te t' c' cur :
  to_task_event e = Ret te → TaskEvent_Task te = t' →
  ConvertToGRPCClusters (Db_Current c) = Ret cur →
  propagateInFlightState c e = Ret c' →
  ∃ s cnt', task_state t' = Some s ∧ PopulateTaskSuccessCounters t' (Db_Counters c) = Ret cnt' ∧
    Db_Counters c' = cnt' ∧ Db_State c' = Db_State c ∧
    match TaskEvent_LowerPriority te with
    | None => ∃ e', Db_InFlight c' = Some e' ∧ Db_LowerPriority e' = None ∧
                ConvertToGRPCClusters (Db_Current c') = Ret (stored s)
    | Some lp => ∃ e', Db_InFlight c' = Some e' ∧ ConvertToGRPCClusters (Db_Current c') = Ret cur ∧
                ConvertToGRPCTaskEvent (Db_LowerPriority e') =
                  Ret (Some (set_TaskEvent_Task lp (set_task_state (TaskEvent_Task lp) s)))
    end.
Proof.
  intros Hte Ht Hcur Hp. apply to_task_event_Ret in Hte as (_ & _ & Htask & _ & Hlow).
  unfold propagateInFlightState in Hp. rewrite Htask, Ht in Hp. simpl in Hp.
  unfold MutableClusters in Hp. destruct (task_state t') as [s|]; simpl in Hp; [|done].
  destruct (PopulateTaskSuccessCounters t' (Db_Counters c)) as [cnt'|?|?]; simpl in Hp; [|done..].
  exists s, cnt'. split; [done|]. split; [done|].
  destruct (Db_LowerPriority e) as [l|] eqn:El; simpl in Hlow.
  - destruct (to_task_event l) as [tl|?|?] eqn:Etl; simpl in Hlow; [|done..]. injection Hlow as <-.
    pose proof Etl as (_ & _ & Hlt & _)%to_task_event_Ret. rewrite Hlt in Hp. simpl in Hp.
    destruct (ConvertFromGRPCTask _) as [b|?|?] eqn:Eb; simpl in Hp; [|done..]. injection Hp as <-.
    simpl. split_and!; [done..|]. eexists. split_and!; [reflexivity|done|]. simpl.
    apply task_bytes_roundtrip in Eb. by rewrite (to_task_event_task _ _ _ _ Etl Eb).
  - injection Hlow as <-. destruct (ConvertFromGRPCClusters (Some s)) as [dc|?|?] eqn:Edc; simpl in Hp; [|done..].
    injection Hp as <-. simpl. split_and!; [done..|]. eexists. split_and!; [reflexivity|done|].
    by apply stored_roundtrip.
Qed.

Lemma finished_ok_refines ticks c e te r c' stage uuid now t' e1 cur :
  Db_InFlight c = Some e → to_task_event e = Ret te →
  ConvertToGRPCClusters (Db_Current c) = Ret cur →
  Db_Pipeline e !! Z.to_nat (Db_CurrentStage e) = Some stage →
  consume (TaskEvent_Task te) (TaskResult_Result_ r) = Ret (t', None) →
  from_task_event (set_TaskEvent_Task te t') = Ret e1 →
  advanceToNextStage (push_previous (set_Db_InFlight c (Some e1)) DONE (Db_Kind stage) now) = Ret c' →
  ∃ cs', ConvertToGRPCClusterState c' = Ret cs' ∧
    task_step ticks r uuid now
      (mkClusterState (Some cur) (Some (ConvertToGRPCWorkflow (Db_State c))) (Some te) (Db_Counters c)) cs'.
Proof.
  intros He Hte Hcur Hst Hc Hfe Ha.
  pose proof (task_event_roundtrip _ _ Hfe) as Hte1. rewrite whole_event_task in Hte1.
  pose proof Hte as (_ & HC & _ & Hpl & _)%to_task_event_Ret.
  pose proof Hte1 as (_ & HC1 & _ & Hpl1 & _)%to_task_event_Ret.
  simpl in HC1, Hpl1. rewrite whole_event_stage in HC1. rewrite whole_event_pipeline in Hpl1.
  assert (stage_kind <$> TaskEvent_Pipeline te !! Z.to_nat (TaskEvent_CurrentStage te) = Some (Db_Kind stage)) as Hk.
  { rewrite HC. destruct (stages_lookup _ _ (Z.to_nat (Db_CurrentStage e)) Hpl) as [_ Hl].
    rewrite Hst in Hl. destruct (TaskEvent_Pipeline te !! _); [|done]. simpl. by destruct Hl as [-> _]. }
  pose proof (remembered (set_Db_InFlight c (Some e1)) DONE (Db_Kind stage) now) as Hrem.
  set (c2 := push_previous _ _ _ _) in *.
  assert (Db_InFlight c2 = Some e1 ∧ Db_Current c2 = Db_Current c ∧ Db_Counters c2 = Db_Counters c)
    as (Hi & Hcc & Hcn) by done.
  clearbody c2. simpl in Hrem. unfold advanceToNextStage in Ha. rewrite Hi in Ha. simpl in Ha.
  rewrite <- Hcc in Hcur. rewrite <- Hcn.
  pose proof (to_task_event_stage _ _ (uint32 (Db_CurrentStage e1 + 1)) Hte1) as Hte2.
  assert (uint32 (Db_CurrentStage e1 + 1) = next_stage te) as Hnext by (unfold next_stage; by rewrite HC1).
  rewrite Hnext in *. destruct (stages_lookup _ _ (Z.to_nat (next_stage te)) Hpl1) as [Hlen Hl].
  case_bool_decide as Hlt.
  - unfold index in Ha. destruct (Db_Pipeline e1 !! _) as [nx|] eqn:En; simpl in Ha; [|done]. injection Ha as <-.
    destruct (TaskEvent_Pipeline te !! Z.to_nat (next_stage te)) as [next|] eqn:Enx; [|done]. destruct Hl as [_ Hab].
    unfold ConvertToGRPCClusterState. simpl. rewrite Hte2. simpl. rewrite Hcur. simpl.
    eexists. split; [reflexivity|].
    rewrite Hrem, <- Hab.
    by eapply (Step_next ticks r uuid now (Some cur) (ConvertToGRPCWorkflow (Db_State c)) te).
  - destruct (propagateInFlightState _ _) as [c3|?|?] eqn:Ep; simpl in Ha; [|done..].
    eapply propagateInFlightState_refines in Ep; [|exact Hte2|reflexivity|exact Hcur].
    destruct Ep as (s & cnt' & Hs & Hcnt & Hcnt' & Hwf & Hlow). simpl in *. subst cnt'.
    assert (Z.of_nat (length (TaskEvent_Pipeline te)) ≤ next_stage te)%Z as Hge by (rewrite <- Hlen; lia).
    rewrite whole_event_lower in Hlow. destruct (TaskEvent_LowerPriority te) as [lp|] eqn:Elp; simpl in Hlow.
    + destruct Hlow as (e' & He' & Hcur' & Hlow). rewrite whole_event_of in Hlow. rewrite He' in Ha. simpl in Ha. injection Ha as <-.
      unfold ConvertToGRPCClusterState. simpl. rewrite Hlow. simpl. rewrite Hcur'. simpl.
      eexists. split; [reflexivity|]. rewrite Hwf, Hrem.
      by eapply (Step_resume ticks r uuid now (Some cur) (ConvertToGRPCWorkflow (Db_State c)) te).
    + destruct Hlow as (e' & He' & Hnone & Hcur'). rewrite He' in Ha. simpl in Ha. injection Ha as <-.
      unfold ConvertToGRPCClusterState. simpl. rewrite Hnone. simpl. rewrite Hcur'. simpl.
      eexists. split; [reflexivity|]. rewrite Hwf, Hrem.
      by eapply (Step_done ticks r uuid now (Some cur) (ConvertToGRPCWorkflow (Db_State c)) te).
Qed.

(** The last stage of a pipeline: the task is finished and leaves the cluster. *)
Lemma advance_last c e t s dc :
  Db_InFlight c = Some e →
  ConvertToGRPCTask (Db_Task e) = Ret t → task_state t = Some s →
  (∃ cnt, PopulateTaskSuccessCounters t (Db_Counters c) = Ret cnt) →
  ConvertFromGRPCClusters (Some s) = Ret dc →
  Db_LowerPriority e = None →
  (Z.of_nat (length (Db_Pipeline e)) ≤ uint32 (Db_CurrentStage e + 1))%Z →
  ∃ c', advanceToNextStage c = Ret c' ∧ Db_InFlight c' = None ∧
    Db_Status (Db_State c') = enum_String DONE ∧ Db_Current c' = dc.
Proof.
  intros He Ht Hs [cnt Hcnt] Hdc Hlow Hlen. unfold advanceToNextStage. rewrite He. simpl.
  rewrite bool_decide_eq_false_2 by lia. unfold propagateInFlightState. simpl. rewrite Ht. simpl.
  unfold MutableClusters. rewrite Hs. simpl. rewrite Hcnt. simpl. rewrite Hlow, Hdc. simpl.
  rewrite Hlow. eauto.
Qed.

Lemma advance_not_last c e st :
  Db_InFlight c = Some e →
  Db_Pipeline e !! Z.to_nat (uint32 (Db_CurrentStage e + 1)) = Some st →
  ∃ c', advanceToNextStage c = Ret c' ∧
    Db_InFlight c' = Some (set_Db_CurrentStage e (uint32 (Db_CurrentStage e + 1))) ∧
    Db_Status (Db_State c') = enum_String WAIT_FOR_PICKUP ∧ Db_Counters c' = Db_Counters c.
Proof.
  intros He Hst. unfold advanceToNextStage. rewrite He. simpl.
  pose proof (Z.mod_pos_bound (Db_CurrentStage e + 1) (2^32) ltac:(lia)) as Hb. fold (uint32 (Db_CurrentStage e + 1)) in Hb.
  rewrite bool_decide_eq_true_2.
  - unfold index. rewrite Hst. simpl. eauto.
  - apply lookup_lt_Some in Hst. lia.
Qed.

(** An error in a last stage of the level WARN: the task is dropped. *)
Lemma errored_warn_last ticks c e stage descr te cl dc r uuid now :
  Db_InFlight c = Some e →
  Db_ErrorLevel (Db_Description stage) = enum_String ERROR_WARN →
  (Z.of_nat (length (Db_Pipeline e)) ≤ uint32 (Db_CurrentStage e + 1))%Z → Db_LowerPriority e = None →
  to_task_event e = Ret te → task_state (TaskEvent_Task te) = Some cl →
  (∀ cnt, ∃ cnt', PopulateTaskErrorCounters (TaskEvent_Task te) cnt = Ret cnt') →
  (∀ cnt, ∃ cnt', PopulateTaskSuccessCounters (TaskEvent_Task te) cnt = Ret cnt') →
  ConvertFromGRPCClusters (Some cl) = Ret dc →
  ∃ c', errored_cluster ticks c stage FATAL descr r uuid now = Ret (Write c') ∧ Db_InFlight c' = None.
Proof.
  intros He Hlvl Hlen Hlow Hte Hcl Hecnt Hcnt Hdc.
  assert (∃ cnt, (if bool_decide (Db_Status (Db_State c) = enum_String ERROR) then Ret c
    else match ConvertToGRPCTaskEvent (Db_InFlight c) with
         | Ret inFlight =>
             let* inFlight := deref inFlight in
             let* counters := PopulateTaskErrorCounters (TaskEvent_Task inFlight) (Db_Counters c) in
             Ret (set_Db_Counters c counters)
         | Fail _ => Ret c
         | Panic w => Panic w
         end) = Ret (set_Db_Counters c cnt)) as [cnt Hfirst].
  { case_bool_decide; [exists (Db_Counters c); by destruct c|].
    rewrite He. simpl. rewrite Hte. simpl. destruct (Hecnt (Db_Counters c)) as [cnt ->]. by exists cnt. }
  unfold errored_cluster. rewrite Hfirst. cbn [bindO].
  rewrite bool_decide_eq_false_2 by done. rewrite bool_decide_eq_true_2 by done. cbn [bindO].
  set (c1 := push_previous _ _ _ _). set (c2 := set_Db_State _ _).
  apply to_task_event_Ret in Hte as (_ & _ & Ht & _).
  destruct (advance_last c2 e (TaskEvent_Task te) cl dc) as (c' & -> & Hn & _); try done.
  by exists c'.
Qed.

(** *** Replies to consecutive stages *)

(** The document after the replies of consecutive stages, each processed at
    the stage the task is at; every reply comes with the id and the time of
    the call. *)
Fixpoint process_replies (ticks : Z) (rs : list (TaskResult * (string * Z))) (c : DbClusterState)
    : outcome DbClusterState :=
  match rs with
  | [] => Ret c
  | (r, (uuid, now)) :: rs =>
      let* e := deref (Db_InFlight c) in
      let* stage := index (Db_Pipeline e) (Z.to_nat (Db_CurrentStage e)) in
      let* v := match TaskResult_Error r with
                | Some (kind, descr) => errored_cluster ticks c stage kind descr r uuid now
                | None => finished_cluster ticks c stage r uuid now
                end in
      match v with
      | Write c' => process_replies ticks rs c'
      | Halt => Fail "not acknowledged"
      end
  end.

(** The task after the results of the replies, while they are accepted. *)
Fixpoint consume_all (t : Task) (rs : list TaskResult_Result) : outcome (Task * option string) :=
  match rs with
  | [] => Ret (t, None)
  | r :: rs =>
      let* (t', err) := consume t r in
      match err with Some e => Ret (t', Some e) | None => consume_all t' rs end
  end.

(** Tasks marshal. *)
Definition tasks_marshal : Prop := ∀ t, is_Some (marshal_task t).

Lemma ConvertFromGRPCTask_total t : tasks_marshal → ∃ b, ConvertFromGRPCTask t = Ret b.
Proof. intros Hm. unfold ConvertFromGRPCTask. destruct (Hm t) as [b ->]. by exists b. Qed.

Lemma from_task_event_total te : tasks_marshal → ∃ e, from_task_event te = Ret e.
Proof.
  intros Hm. remember (priority_depth te) as n eqn:Hn. revert te Hn.
  induction n as [n IH] using lt_wf_ind. intros [id ts ev t d pl cs lp] Hn.
  assert (∃ lp', match lp with Some l => let* l' := from_task_event l in Ret (Some l') | None => Ret None end
                 = Ret lp') as [lp' Hlp].
  { destruct lp as [l|]; [|eauto]. simpl in Hn.
    destruct (IH (priority_depth l) ltac:(lia) l eq_refl) as [l' ->]. simpl. eauto. }
  destruct (ConvertFromGRPCTask_total t Hm) as [b Hb]. eexists.
  transitivity (let* lp' := match lp with Some l => let* l' := from_task_event l in Ret (Some l') | None => Ret None end in
                let* b := ConvertFromGRPCTask t in
                Ret (mkDbTaskEvent id (format_time ts) (enum_String ev) b d (ConvertFromGRPCStages pl) cs lp'));
    [reflexivity|].
  rewrite Hlp. cbn [bindO]. rewrite Hb. reflexivity.
Qed.

(** What the end of a pipeline needs: the task has a state, its counters and
    the state can be written. *)
Definition can_finish (t : Task) (cnt : Counters) : Prop :=
  ∃ s cnt' dc, task_state t = Some s ∧ PopulateTaskSuccessCounters t cnt = Ret cnt' ∧
    ConvertFromGRPCClusters (Some s) = Ret dc.

Lemma advance_progress c e te :
  Db_InFlight c = Some e → to_task_event e = Ret te → tasks_marshal →
  (Z.of_nat (length (Db_Pipeline e)) ≤ uint32 (Db_CurrentStage e + 1) → can_finish (TaskEvent_Task te) (Db_Counters c))%Z →
  ∃ c', advanceToNextStage c = Ret c'.
Proof.
  intros He Hte Hm Hfin. unfold advanceToNextStage. rewrite He. simpl.
  pose proof (Z.mod_pos_bound (Db_CurrentStage e + 1) (2^32) ltac:(lia)) as Hb. fold (uint32 (Db_CurrentStage e + 1)) in Hb.
  case_bool_decide as Hlt.
  - unfold index. destruct (lookup_lt_is_Some_2 (Db_Pipeline e) (Z.to_nat (uint32 (Db_CurrentStage e + 1)))) as [st ->]; [lia|].
    simpl. eauto.
  - destruct Hfin as (s & cnt' & dc & Hs & Hcnt & Hdc); [lia|].
    apply to_task_event_Ret in Hte as (_ & _ & Ht & _ & Hl). unfold propagateInFlightState. simpl.
    rewrite Ht. simpl. unfold MutableClusters. rewrite Hs. simpl. rewrite Hcnt. simpl.
    destruct (Db_LowerPriority e) as [l|]; simpl.
    + simpl in Hl. destruct (to_task_event l) as [tl|?|?] eqn:Etl; simpl in Hl; [|done..].
      apply to_task_event_Ret in Etl as (_ & _ & -> & _). simpl.
      destruct (ConvertFromGRPCTask_total (ReplaceClusters (TaskEvent_Task tl) s) Hm) as [b ->]. simpl. eauto.
    + rewrite Hdc. simpl. eauto.
Qed.

(** An accepted reply is written, and what is written is one step. *)
Lemma accepted_reply_steps ticks c e te cur r stage uuid now t' :
  Db_InFlight c = Some e → to_task_event e = Ret te → ConvertToGRPCClusters (Db_Current c) = Ret cur →
  Db_Pipeline e !! Z.to_nat (Db_CurrentStage e) = Some stage → tasks_marshal →
  consume (TaskEvent_Task te) (TaskResult_Result_ r) = Ret (t', None) →
  (Z.of_nat (length (TaskEvent_Pipeline te)) ≤ next_stage te → can_finish t' (Db_Counters c))%Z →
  ∃ c' cs', finished_cluster ticks c stage r uuid now = Ret (Write c') ∧
    ConvertToGRPCClusterState c' = Ret cs' ∧
    task_step ticks r uuid now
      (mkClusterState (Some cur) (Some (ConvertToGRPCWorkflow (Db_State c))) (Some te) (Db_Counters c)) cs'.
Proof.
  intros He Hte Hcur Hst Hm Hc Hfin.
  destruct (from_task_event_total (set_TaskEvent_Task te t') Hm) as [e1 Hfe].
  pose proof (task_event_roundtrip _ _ Hfe) as Hte1. rewrite whole_event_task in Hte1.
  pose proof Hte1 as (_ & HC1 & _ & Hpl1 & _)%to_task_event_Ret.
  simpl in HC1, Hpl1. rewrite whole_event_stage in HC1. rewrite whole_event_pipeline in Hpl1.
  destruct (stages_lookup _ _ 0 Hpl1) as [Hlen _].
  set (c1 := push_previous (set_Db_InFlight c (Some e1)) DONE (Db_Kind stage) now).
  destruct (advance_progress c1 e1 (set_TaskEvent_Task (whole_event te) t') eq_refl Hte1 Hm) as [c' Ha].
  { simpl. rewrite Hlen, <- HC1. exact Hfin. }
  destruct (finished_ok_refines ticks c e te r c' stage uuid now t' e1 cur) as (cs' & Hcs' & Hs); try done.
  exists c', cs'. split; [|done]. unfold finished_cluster, propagateResult. rewrite He. simpl. rewrite Hte. simpl.
  rewrite Hc. simpl. rewrite Hfe. simpl. fold c1. by rewrite Ha.
Qed.

End refinement.

(** ** Properties *)

(** C13: Results are applied once although they are delivered at least once:
    after the reply of a stage, without an error, was processed and
    acknowledged, delivering the same message again changes nothing, however
    the first delivery ended (the task moved to its next stage, finished, or
    was rescheduled under a new id).  Documents are stored under their names,
    the new id is not the id of the task in the message, and the task that is
    queued behind it has another id. *)
Theorem redelivered_result_is_ignored `{Codec} (ticks : Z) {T : Type} `{!Store T} (s s1 : T) (work : Work)
    (uuid uuid' : string) (now now' : Z) :
  TaskResult_Error (Work_Result work) = None →
  uuid ≠ Work_TaskID work →
  (∀ n c, contents s !! n = Some c → Db_Name c = n) →
  (∀ im cluster e, contents s !! Work_InputManifest work = Some im →
     Db_Clusters im !! Work_Cluster work = Some cluster → Db_InFlight cluster = Some e →
     lower_id e ≠ Some (Work_TaskID work)) →
  ProcessTask ticks s work uuid now = Ret (s1, true) →
  ∃ ack, ProcessTask ticks s1 work uuid' now' = Ret (s1, ack).
Proof.
  intros Herr Huuid Hnames Hlow Hp. unfold ProcessTask in Hp.
  destruct (GetConfig s (Work_InputManifest work)) as [im|[|]] eqn:Eg.
  2-3: injection Hp as <-; apply stale_ignored; intros ???; congruence.
  destruct (Db_Clusters im !! Work_Cluster work) as [c|] eqn:Ec.
  2: injection Hp as <-; apply stale_ignored; intros ??????; congruence.
  destruct (Db_InFlight c) as [e|] eqn:Ee.
  2: injection Hp as <-; apply stale_ignored; intros ??????; congruence.
  case_bool_decide as Hid.
  { injection Hp as <-. apply stale_ignored. intros ??? ???. left. congruence. }
  case_bool_decide as Hst.
  { injection Hp as <-. apply stale_ignored. intros ??? ???. right. congruence. }
  destruct (index _ _) as [stage|?|?] eqn:Ei; simpl in Hp; [|done..].
  case_bool_decide as Hk.
  { injection Hp as <-. unfold ProcessTask. rewrite Eg, Ec, Ee, Ei.
    rewrite !bool_decide_eq_false_2 by tauto. simpl. rewrite bool_decide_eq_true_2 by done. eauto. }
  rewrite Herr in Hp. destruct (finished_cluster _ _ _ _ _ _) as [[c'|]|?|?] eqn:Ef; simpl in Hp; [|done..].
  destruct (UpdateConfig s _) as [s' [err|]] eqn:Eu; [done|]. injection Hp as <-.
  apply stale_ignored. intros im1 c1 e1 Hg Hc1 He1.
  apply UpdateConfig_ok in Eu as [_ Hs']. apply GetConfig_ok in Hg, Eg.
  rewrite Hs' in Hg. simpl in Hg. rewrite (Hnames _ _ Eg), lookup_insert_eq in Hg. injection Hg as <-.
  simpl in Hc1. rewrite lookup_insert_eq in Hc1. injection Hc1 as <-.
  destruct (finished_cluster_moves _ _ _ _ _ _ _ _ Ee Ef) as [(e' & He' & Hu)|Hm].
  - left. congruence.
  - destruct (Hm e1 He1) as [[_ Hcs]|Hl]; [right; rewrite Hcs, <- Hst; apply uint32_succ_ne|left].
    intros E. apply (Hlow im c e); congruence.
Qed.

(** C4: The handler on database documents implements the abstract machine on
    decoded states: whatever it writes for a reply without an error decodes
    to the result of exactly one step (next stage, task finished, overtaken
    task resumed on the new state, or rescheduled under a new id). *)
Theorem finished_cluster_refines_machine `{Codec} (ticks : Z) (c c' : DbClusterState) (cs : ClusterState)
    (e : DbTaskEvent) (stage : DbStage) (r : TaskResult) (uuid : string) (now : Z) :
  Db_InFlight c = Some e →
  Db_Pipeline e !! Z.to_nat (Db_CurrentStage e) = Some stage →
  ConvertToGRPCClusterState c = Ret cs →
  finished_cluster ticks c stage r uuid now = Ret (Write c') →
  ∃ cs', ConvertToGRPCClusterState c' = Ret cs' ∧ task_step ticks r uuid now cs cs'.
Proof.
  intros He Hst Hcs Hf. destruct (decode_inflight _ _ _ He Hcs) as (te & cur & Hte & Hcur & ->).
  unfold finished_cluster in Hf.
  destruct (propagateResult c r) as [[c1 [err|]]|?|?] eqn:Ep; simpl in Hf; [| |done..].
  - bind_inv Hf. subst x. destruct (propagateResult_err _ _ _ _ _ He Ep) as [->|Hn].
    + unfold reschedule in Hx. rewrite He in Hx. simpl in Hx. injection Hx as <-.
      unfold ConvertToGRPCClusterState. simpl. rewrite (to_task_event_id _ _ uuid Hte). simpl. rewrite Hcur. simpl.
      eexists. split; [reflexivity|].
      unfold propagateResult in Ep. rewrite He in Ep. simpl in Ep. rewrite Hte in Ep. simpl in Ep.
      destruct (consume _ _) as [[t' [er|]]|?|?] eqn:Ec; simpl in Ep; [| |done..].
      * exact (Step_reschedule ticks r uuid now _ (ConvertToGRPCWorkflow (Db_State c)) te _ _ _ Ec).
      * destruct (from_task_event _) as [e1|?|?]; simpl in Ep; [done| |done].
        injection Ep as Ep _. rewrite <- Ep in He. simpl in He. done.
    + unfold reschedule in Hx. rewrite Hn in Hx. done.
  - destruct (propagateResult_ok _ _ _ _ He Ep) as (te' & t' & e1 & Hte' & Hc & Hfe & ->).
    rewrite Hte in Hte'. injection Hte' as <-.
    destruct (advanceToNextStage _) as [c3|?|?] eqn:Ea; simpl in Hf; [|done..]. injection Hf as <-.
    by eapply finished_ok_refines.
Qed.

(** What the end of the pipeline of [te] leaves, with the state [st] the task
    built: the overtaken task takes over, on that state, or the state becomes
    the current one and nothing is in flight. *)
Definition task_ended (te : TaskEvent) (st : Clusters) (cs cs' : ClusterState) : Prop :=
  match TaskEvent_LowerPriority te with
  | None => InFlight cs' = None ∧ Current cs' = Some (stored st)
  | Some lp =>
      InFlight cs' = Some (set_TaskEvent_Task (whole_event lp) (set_task_state (TaskEvent_Task lp) st)) ∧
      Current cs' = Current cs
  end.

Lemma task_step_next ticks r uuid now cur w te cnt cs' t' :
  task_step ticks r uuid now (mkClusterState cur (Some w) (Some te) cnt) cs' →
  consume (TaskEvent_Task te) (TaskResult_Result_ r) = Ret (t', None) →
  (next_stage te < Z.of_nat (length (TaskEvent_Pipeline te)))%Z →
  ∃ w', cs' = mkClusterState cur (Some w')
    (Some (set_TaskEvent_CurrentStage (set_TaskEvent_Task (whole_event te) t') (next_stage te))) cnt.
Proof.
  intros Hs Hc Hl. inversion Hs; subst; try lia; rewrite Hc in *; simplify_eq. eauto.
Qed.

Lemma task_step_last ticks r uuid now cur w te cnt cs' t' st cnt' :
  task_step ticks r uuid now (mkClusterState cur (Some w) (Some te) cnt) cs' →
  consume (TaskEvent_Task te) (TaskResult_Result_ r) = Ret (t', None) →
  (Z.of_nat (length (TaskEvent_Pipeline te)) ≤ next_stage te)%Z →
  task_state t' = Some st → PopulateTaskSuccessCounters t' cnt = Ret cnt' →
  Workflow_Status_ <$> State cs' = Some DONE ∧ K8SNodePoolScaleUpFailed cs' = cnt' ∧
  task_ended te st (mkClusterState cur (Some w) (Some te) cnt) cs'.
Proof.
  intros Hs Hc Hl Hst Hcnt. unfold task_ended.
  inversion Hs; subst; rewrite Hc in *; simplify_eq/=; rewrite ?Hst, ?Hcnt in *; simplify_eq/=.
  - match goal with H : _ !! Z.to_nat (next_stage te) = Some _ |- _ => apply lookup_lt_Some in H; lia end.
  - by match goal with H : TaskEvent_LowerPriority te = _ |- _ => rewrite H end.
  - by match goal with H : TaskEvent_LowerPriority te = _ |- _ => rewrite H end.
Qed.

(** C36: A pipeline terminates: from any stage of it, the error-free replies
    to exactly the remaining stages, each accepted by the task, are all
    written by the handler and finish the task.  The workflow is DONE; the
    state the replies built becomes the current state of the cluster and
    nothing is in flight, or, when the task had overtaken another one, that
    one is in flight on the new state.  (Replies with an error are not part of
    it, and marshalling is assumed to succeed.) *)
Theorem pipeline_terminates `{Codec} (ticks : Z) (rs : list (TaskResult * (string * Z))) (c : DbClusterState)
    (cs : ClusterState) (te : TaskEvent) (t : Task) (st : Clusters) (cnt : Counters) (dc : DbClusters) :
  tasks_marshal →
  ConvertToGRPCClusterState c = Ret cs → InFlight cs = Some te →
  (0 ≤ TaskEvent_CurrentStage te)%Z → (Z.of_nat (length (TaskEvent_Pipeline te)) < 2^32)%Z →
  rs ≠ [] → Z.of_nat (length (TaskEvent_Pipeline te)) = (TaskEvent_CurrentStage te + Z.of_nat (length rs))%Z →
  Forall (λ r, TaskResult_Error r.1 = None) rs →
  consume_all (TaskEvent_Task te) (TaskResult_Result_ <$> rs.*1) = Ret (t, None) →
  task_state t = Some st → PopulateTaskSuccessCounters t (Db_Counters c) = Ret cnt →
  ConvertFromGRPCClusters (Some st) = Ret dc →
  ∃ c' cs', process_replies ticks rs c = Ret c' ∧ ConvertToGRPCClusterState c' = Ret cs' ∧
    Workflow_Status_ <$> State cs' = Some DONE ∧ K8SNodePoolScaleUpFailed cs' = cnt ∧ task_ended te st cs cs'.
Proof.
  intros Hm. revert c cs te. induction rs as [|[r [uuid now]] rs IH]; [done|].
  intros c cs te Hcs Hte H0 Hmax _ Hlen [Hr Hrs]%Forall_cons Hall Hst Hcnt Hdc. csimpl in *.
  destruct (Db_InFlight c) as [e|] eqn:He; 
    [|by rewrite (decode_idle _ _ He Hcs) in Hte].
  destruct (decode_inflight _ _ _ He Hcs) as (te0 & cur & Hd & Hcur & ->). injection Hte as ->.
  pose proof Hd as (_ & HC & _ & Hpl & _)%to_task_event_Ret.
  destruct (lookup_lt_is_Some_2 (Db_Pipeline e) (Z.to_nat (Db_CurrentStage e))) as [stage Hstage].
  { destruct (stages_lookup _ _ 0 Hpl) as [-> _]. lia. }
  destruct (consume _ _) as [[t1 [err|]]|?|?] eqn:Ec; simpl in Hall; [done| |done..].
  assert (next_stage te = TaskEvent_CurrentStage te + 1)%Z as Hn
    by (unfold next_stage, uint32; rewrite Z.mod_small by lia; lia).
  destruct (accepted_reply_steps ticks c e te cur r stage uuid now t1) as (c1 & cs1 & Hf & Hd1 & Hs); try done.
  { intros Hlast. destruct rs; [|simpl in Hlen; lia]. simpl in Hall. injection Hall as ->. by exists st, cnt, dc. }
  cbn [process_replies deref bindO]. unfold index. rewrite ?He. cbn [deref bindO]. rewrite Hstage. cbn [bindO]. rewrite Hr, Hf. cbn [bindO]. destruct rs as [|r2 rs].
  - simpl in Hall. injection Hall as ->. simpl in *. exists c1, cs1. split; [done|]. split; [done|].
    eapply task_step_last; eauto; lia.
  - destruct (task_step_next _ _ _ _ _ _ _ _ _ _ Hs Ec) as [w' Hcs1]; [simpl in Hlen; lia|]. subst cs1.
    eapply IH in Hd1 as (c' & cs' & Hp & Hd' & Hw & Hk & Hend); [|reflexivity|..]; simpl;
      rewrite ?whole_event_pipeline; try done; [|lia|simpl in *; lia|].
    + exists c', cs'. split_and!; try done. revert Hend. unfold task_ended. simpl. rewrite whole_event_lower.
      destruct (TaskEvent_LowerPriority te); simpl; [|done]. by rewrite whole_event_idem, whole_event_of.
    + by rewrite (decode_counters _ _ Hd1).
Qed.

(** A two stage task, as the database keeps it. *)
Definition sample_db_clusters : DbClusters := mkDbClusters (blob_k8s Samples.k8s) (blob_lbs [Samples.lb]).

Definition sample_db_event (pipeline : list Stage) (stage : Z) : DbTaskEvent :=
  mkDbTaskEvent "t1" (time_str 1700000000) "CREATE" (blob_task (Task_Create Samples.clusters)) "creating"
    (ConvertFromGRPCStages pipeline) stage None.

Definition sample_cluster (pipeline : list Stage) (stage : Z) : DbClusterState :=
  mkDbClusterState (mkDbClusters blob_none blob_none) (Some (sample_db_event pipeline stage))
    (mkDbWorkflow "IN_PROGRESS" "creating" "" [] 100) ∅.

(** The terraformer reports a changed cluster, the ansibler nothing. *)
Definition sample_replies : list (TaskResult * (string * Z)) :=
  [(mkTaskResult None (TaskResult_Update (mkUpdateState (Some (Samples.k8s_with [Samples.ctrl_shrunk; Samples.workers])) [])), ("u1", 5000000000%Z));
   (mkTaskResult None TaskResult_None_, ("u2", 6000000000%Z))].

Lemma pipeline_terminates_witness :
  ∃ c' cs', process_replies 100 sample_replies (sample_cluster sample_pipeline 0) = Ret c' ∧
    ConvertToGRPCClusterState c' = Ret cs' ∧ Workflow_Status_ <$> State cs' = Some DONE ∧
    InFlight cs' = None ∧
    Current cs' = Some (mkClusters (Some (Samples.k8s_with [Samples.ctrl_shrunk; Samples.workers])) [Samples.lb]).
Proof.
  edestruct (pipeline_terminates 100 sample_replies (sample_cluster sample_pipeline 0)) as (c' & cs' & Hp & Hd & Hw & _ & Hend);
    [intros t; eexists; reflexivity|reflexivity|reflexivity|simpl; lia|simpl; lia|discriminate|reflexivity
    |repeat constructor|reflexivity|reflexivity|reflexivity|reflexivity|].
  exists c', cs'. split; [exact Hp|]. split; [exact Hd|]. split; [exact Hw|exact Hend].
Defined.

(** A stage that fails with a fatal error stops the task where it is: the
    task in flight and the current state are untouched, the workflow is in
    ERROR with the worker's message, and the failed scale-up counters change
    only when the workflow was not in ERROR already, so that a repeated
    delivery counts a failure once. *)
Lemma fatal_error_stops_task `{Codec} (ticks : Z) (c c' : DbClusterState) (stage : DbStage) (descr : string)
    (r : TaskResult) (uuid : string) (now : Z) :
  Db_ErrorLevel (Db_Description stage) ≠ enum_String ERROR_WARN →
  errored_cluster ticks c stage FATAL descr r uuid now = Ret (Write c') →
  Db_InFlight c' = Db_InFlight c ∧ Db_Current c' = Db_Current c ∧
  Db_Status (Db_State c') = enum_String ERROR ∧ Db_StatusDescription (Db_State c') = descr ∧
  (Db_Status (Db_State c) = enum_String ERROR → Db_Counters c' = Db_Counters c).
Proof.
  intros Hlvl. unfold errored_cluster.
  destruct (if bool_decide (Db_Status (Db_State c) = _) then _ else _) as [c1|?|?] eqn:E1; simpl; [|done..].
  rewrite bool_decide_eq_false_2 by done. intros [= <-]. simpl.
  case_bool_decide as Hs; [injection E1 as <-; split_and!; done|].
  destruct (ConvertToGRPCTaskEvent _) as [i|?|?] eqn:Ei; [|injection E1 as <-; split_and!; try done|done].
  bind_inv E1. subst c1. simpl. by split_and!.
Qed.

Lemma fatal_error_stops_task_witness :
  let stage := from_stage (Stage_Terraformer (fatal "creating infrastructure") []) in
  ∃ c', errored_cluster 100 (sample_cluster sample_pipeline 0) stage FATAL "no quota"
          (mkTaskResult (Some (FATAL, "no quota")) TaskResult_None_) "t2" 5 = Ret (Write c') ∧
    Db_InFlight c' = Db_InFlight (sample_cluster sample_pipeline 0).
Proof.
  intros stage. eexists. split; [reflexivity|].
  refine (proj1 (fatal_error_stops_task 100 _ _ stage "no quota"
    (mkTaskResult (Some (FATAL, "no quota")) TaskResult_None_) "t2" 5 _ _)); [discriminate|reflexivity].
Defined.

(** When the last stage of a task is of the level WARN and its worker
    reports an error, the document is written with the task gone and the
    handler then panics: the metrics of the errored task are chosen by the
    type of [cluster.InFlight], which is nil by then. *)
Lemma warn_error_in_last_stage_panics `{Codec} (ticks : Z) {T : Type} `{!Store T} (s : T) (work : Work)
    (uuid : string) (now : Z) im c e stage descr te cl dc :
  GetConfig s (Work_InputManifest work) = inl im →
  Db_Clusters im !! Work_Cluster work = Some c → Db_InFlight c = Some e →
  Db_Id e = Work_TaskID work → Db_CurrentStage e = Work_TaskStage work →
  Db_Pipeline e !! Z.to_nat (Db_CurrentStage e) = Some stage → Db_Kind stage = Work_Stage work →
  Db_ErrorLevel (Db_Description stage) = enum_String ERROR_WARN →
  TaskResult_Error (Work_Result work) = Some (FATAL, descr) →
  (Z.of_nat (length (Db_Pipeline e)) ≤ uint32 (Db_CurrentStage e + 1))%Z → Db_LowerPriority e = None →
  to_task_event e = Ret te → task_state (TaskEvent_Task te) = Some cl →
  (∀ cnt, ∃ cnt', PopulateTaskErrorCounters (TaskEvent_Task te) cnt = Ret cnt') →
  (∀ cnt, ∃ cnt', PopulateTaskSuccessCounters (TaskEvent_Task te) cnt = Ret cnt') →
  ConvertFromGRPCClusters (Some cl) = Ret dc →
  ∃ c', Db_InFlight c' = None ∧
    ∀ s', UpdateConfig s (set_Db_Clusters im (<[Work_Cluster work := c']> (Db_Clusters im))) = (s', None) →
    ∃ why, ProcessTask ticks s work uuid now = Panic why.
Proof.
  intros Hg Hc He Hid Hst Hpl Hk Hlvl Herr Hlen Hlow Hte Hcl Hecnt Hcnt Hdc.
  destruct (errored_warn_last ticks c e stage descr te cl dc (Work_Result work) uuid now)
    as (c' & Hw & Hn); try done.
  exists c'. split; [done|]. intros s' Hu. unfold ProcessTask. rewrite Hg, Hc, He.
  rewrite !bool_decide_eq_false_2 by tauto. unfold index. rewrite Hpl. cbn [bindO].
  rewrite bool_decide_eq_false_2 by tauto. rewrite Herr, Hw. cbn [bindO]. rewrite Hu, Hn. eauto.
Qed.

(** A one stage task whose only stage may fail with a warning. *)
Lemma warn_error_in_last_stage_panics_witness :
  let pl := [Stage_Kuber (warn "patching nodes") [mkSubPass PATCH_NODES (warn "patching nodes")]] in
  let db := mkDbConfig 1 "m" (mkKubernetesContext "" "") (mkDbManifest "" None None "Scheduled" "")
              {["prod" := sample_cluster pl 0]} in
  let work := mkWork "m" "prod" "t1" 0 Kuber (mkTaskResult (Some (FATAL, "node missing")) TaskResult_None_) in
  let s : gmap string DbConfig := {["m" := db]} in
  ∃ why, ProcessTask 100 s work "t2" 5 = Panic why.
Proof.
  intros pl db work s.
  destruct (warn_error_in_last_stage_panics 100 s work "t2" 5 db (sample_cluster pl 0)
    (sample_db_event pl 0)
    (mkDbStage Kuber (mkDbStageDescription "patching nodes" "ERROR_WARN")
       [mkDbSubPass "PATCH_NODES" (mkDbStageDescription "patching nodes" "ERROR_WARN")])
    "node missing"
    (mkTaskEvent "t1" 1700000000000000000 CREATE (Task_Create Samples.clusters) "creating" pl 0 None)
    Samples.clusters sample_db_clusters) as (c' & _ & Hp);
    [try (vm_compute; reflexivity)..|].
  - vm_compute. discriminate.
  - intros cnt. exists cnt. reflexivity.
  - intros cnt. exists cnt. reflexivity.
  - eapply Hp. vm_compute. reflexivity.
Defined.

Lemma redelivered_result_is_ignored_witness :
  let db := mkDbConfig 1 "m" (mkKubernetesContext "" "") (mkDbManifest "" None None "Scheduled" "")
              {["prod" := sample_cluster sample_pipeline 0]} in
  let work := mkWork "m" "prod" "t1" 0 Terraformer (mkTaskResult None TaskResult_None_) in
  let s : gmap string DbConfig := {["m" := db]} in
  ∃ s1, ProcessTask 100 s work "t2" 5 = Ret (s1, true) ∧
  ∃ ack, ProcessTask 100 s1 work "t3" 6 = Ret (s1, ack).
Proof.
  intros db work s. destruct (ProcessTask 100 s work "t2" 5) as [[s1 []]|?|?] eqn:E;
    try (vm_compute in E; discriminate E).
  exists s1. split; [reflexivity|].
  refine (redelivered_result_is_ignored 100 s s1 work "t2" "t3" 5 6 eq_refl _ _ _ E).
  - discriminate.
  - intros n c. change (contents s) with s. unfold s. intros [<- <-]%lookup_singleton_Some. reflexivity.
  - intros im cl e. change (contents s) with s. unfold s. intros [_ <-]%lookup_singleton_Some.
    simpl. intros [_ <-]%lookup_singleton_Some. simpl. intros [= <-]. discriminate.
Defined.

Lemma finished_cluster_refines_machine_witness :
  let c := sample_cluster sample_pipeline 1 in
  let stage := from_stage (Stage_Ansibler (fatal "configuring nodes")
     [mkSubPass INSTALL_NODE_REQUIREMENTS (fatal "installing requirements");
      mkSubPass INSTALL_VPN (warn "installing VPN")]) in
  let r := mkTaskResult None TaskResult_None_ in
  ∃ c' cs cs', finished_cluster 100 c stage r "t2" 5 = Ret (Write c') ∧
    ConvertToGRPCClusterState c = Ret cs ∧ ConvertToGRPCClusterState c' = Ret cs' ∧
    task_step 100 r "t2" 5 cs cs'.
Proof.
  intros c stage r. destruct (finished_cluster 100 c stage r "t2" 5) as [[c'|]|?|?] eqn:Ef;
    try (vm_compute in Ef; discriminate Ef).
  destruct (ConvertToGRPCClusterState c) as [cs|?|?] eqn:Ec; try (vm_compute in Ec; discriminate Ec).
  destruct (finished_cluster_refines_machine 100 c c' cs (sample_db_event sample_pipeline 1) stage r "t2" 5)
    as (cs' & Hcs' & Hstep); [reflexivity|reflexivity|exact Ec|exact Ef|].
  exists c', cs, cs'. split; [reflexivity|]. split; [reflexivity|]. split; [exact Hcs'|exact Hstep].
Defined.

(** A task and every task queued behind it are at a stage of their pipeline. *)
Fixpoint wf_event (te : TaskEvent) : Prop :=
  (0 ≤ TaskEvent_CurrentStage te < Z.of_nat (length (TaskEvent_Pipeline te)))%Z ∧
  match TaskEvent_LowerPriority te with Some l => wf_event l | None => True end.

Definition machine_inv (cs : ClusterState) : Prop :=
  (∃ w, State cs = Some w ∧ length (Workflow_Previous w) ≤ PreviouslyCachedWorkflowResults) ∧
  match InFlight cs with Some te => wf_event te | None => True end.

(** The machine, with any replies, at any times and with any new ids. *)
Definition task_moves (ticks : Z) (a b : ClusterState) : Prop :=
  ∃ r uuid now, task_step ticks r uuid now a b.

Lemma remember_bounded w st k now :
  length (Workflow_Previous w) ≤ PreviouslyCachedWorkflowResults →
  length (remember w st k now) ≤ PreviouslyCachedWorkflowResults.
Proof.
  unfold remember, PreviouslyCachedWorkflowResults. intros Hl. rewrite length_app. simpl.
  case_bool_decide as Hb; [|lia]. destruct (Workflow_Previous w); simpl in *; lia.
Qed.

Lemma wf_whole_event te : wf_event te → wf_event (whole_event te).
Proof.
  remember (priority_depth te) as n eqn:Hn. revert te Hn.
  induction n as [n IH] using lt_wf_ind. intros [id ts ev t d pl cs lp] Hn. rewrite whole_event_mk. simpl in *.
  intros [Hb Hl]. split; [done|]. destruct lp as [l|]; [|done]. by apply (IH (priority_depth l)); [lia|..].
Qed.

Lemma task_step_inv ticks r uuid now a b : task_step ticks r uuid now a b → machine_inv a → machine_inv b.
Proof.
  intros Hs [(w0 & Hw & Hl) Hi]. unfold machine_inv. destruct Hs; simpl in *; injection Hw as <-.
  - split; [eexists; split; [done|]; by apply remember_bounded|].
    apply lookup_lt_Some in H1. pose proof (Z.mod_pos_bound (TaskEvent_CurrentStage te + 1) (2^32) ltac:(lia)).
    apply wf_whole_event in Hi. rewrite <- whole_event_pipeline in H1.
    unfold next_stage, uint32 in *. destruct (whole_event te); simpl in *. split; [lia|tauto].
  - split; [eexists; split; [done|]; by apply remember_bounded|done].
  - split; [eexists; split; [done|]; by apply remember_bounded|].
    assert (wf_event (whole_event lp)) as Hlp by (apply wf_whole_event; destruct te; simplify_eq/=; tauto).
    by destruct (whole_event lp).
  - split; [by eexists|]. by destruct te.
Qed.

(** In every state reachable by processing replies, the workflow history
    holds at most three entries and the task in flight, like every task
    queued behind it, is at an existing stage of its pipeline: the handler
    never reads past the end of a pipeline. *)
Lemma machine_invariant (ticks : Z) (a b : ClusterState) :
  rtc (task_moves ticks) a b → machine_inv a → machine_inv b.
Proof. induction 1 as [|a b c (r & uuid & now & Hs) _ IH]; eauto using task_step_inv. Qed.

Lemma machine_invariant_witness :
  let te := sample_event "t1" None in
  let a := mkClusterState (Some Samples.clusters) (Some (mkWorkflow IN_PROGRESS "" [] 100)) (Some te) ∅ in
  ∃ b, rtc (task_moves 100) a b ∧ a ≠ b ∧ machine_inv b.
Proof.
  intros te a.
  assert (task_step 100 (mkTaskResult None TaskResult_None_) "t2" 5000000500 a
    (mkClusterState (Some Samples.clusters)
      (Some (mkWorkflow WAIT_FOR_PICKUP "configuring nodes" [mkFinishedWorkflow DONE "" Terraformer 5000000000] 100))
      (Some (set_TaskEvent_CurrentStage (whole_event te) 1)) ∅)) as Hs.
  { refine (Step_next 100 (mkTaskResult None TaskResult_None_) "t2" 5000000500 (Some Samples.clusters)
      (mkWorkflow IN_PROGRESS "" [] 100) te ∅ (Task_Create Samples.clusters) Terraformer
      (Stage_Ansibler (fatal "configuring nodes")
        [mkSubPass INSTALL_NODE_REQUIREMENTS (fatal "installing requirements");
         mkSubPass INSTALL_VPN (warn "installing VPN")]) _ _ _); reflexivity. }
  eexists. split; [apply rtc_once; do 3 eexists; exact Hs|]. split; [discriminate|].
  eapply (machine_invariant 100 a); [apply rtc_once; do 3 eexists; exact Hs|].
  split; [exists (mkWorkflow IN_PROGRESS "" [] 100); split; [reflexivity|simpl; unfold PreviouslyCachedWorkflowResults; lia]|].
  simpl. lia.
Defined.

End ProcessTask.
