(* ===== verification/Cidr.v ===== *)
(** * Subnets of the node pools (service/create_desired_state.go)

    Every dynamic node pool gets a /24 subnet that no other pool of the same
    cluster has in the same provider region. *)

From Stdlib Require Import Ascii.
From stdpp Require Import base gmap strings list pretty.
From S2P Require Import Prelude Spec SpecUtils Samples NodePools.

Import NodePools.

Module Cidr.

Definition baseSubnetCIDR : string := "10.0.0.0/24".
Definition defaultOctetToChange : nat := 2.

(** ** net.ParseCIDR and net.IP.String, for IPv4 *)

Fixpoint split_on (c : Ascii.ascii) (s : string) : list string :=
  match s with
  | EmptyString => [EmptyString]
  | String a s =>
      if Ascii.eqb a c then EmptyString :: split_on c s
      else match split_on c s with
           | [] => [String a EmptyString]
           | w :: l => String a w :: l
           end
  end.

Fixpoint digits (acc : Z) (s : string) : option Z :=
  match s with
  | EmptyString => Some acc
  | String a s =>
      let n := Z.of_nat (nat_of_ascii a) in
      if bool_decide (48 ≤ n ≤ 57)%Z then digits (acc * 10 + (n - 48))%Z s else None
  end.

Definition parse_dec (s : string) : option Z :=
  match s with EmptyString => None | _ => digits 0 s end.

(** Leading zeros are rejected. *)
Definition parse_octet (s : string) : option Z :=
  n ← parse_dec s;
  if bool_decide (n ≤ 255)%Z && (bool_decide (String.length s ≤ 1) || negb (String.prefix "0" s))
  then Some n else None.

(** The [k]-th byte of an address under a mask of [ones] bits. *)
Definition mask_byte (ones : Z) (k : nat) (b : Z) : Z :=
  let bits := Z.max 0 (Z.min 8 (ones - 8 * Z.of_nat k)) in
  Z.land b (256 - 2 ^ (8 - bits)).

(** The network address and the number of leading ones of its mask. *)
Definition ParseCIDR (s : string) : option (list Z * Z) :=
  match split_on "/"%char s with
  | [addr; mask] =>
      ip ← mapM parse_octet (split_on "."%char addr);
      ones ← parse_dec mask;
      if bool_decide (length ip = 4) && bool_decide (ones ≤ 32)%Z
      then Some (imap (mask_byte ones) ip, ones) else None
  | _ => None
  end.

(** [net.ParseIP], for IPv4; [None] is the nil address. *)
Definition ParseIP (s : string) : option (list Z) :=
  ip ← mapM parse_octet (split_on "."%char s);
  if bool_decide (length ip = 4) then Some ip else None.

Fixpoint IP_String (ip : list Z) : string :=
  match ip with
  | [] => ""
  | [a] => pretty a
  | a :: l => String.append (pretty a) (String.append "." (IP_String l))
  end.

Definition cidr_string (ip : list Z) (ones : Z) : string :=
  String.append (IP_String ip) (String.append "/" (pretty ones)).

(** ** Choosing a subnet *)

(** The values of [i] the loop has still to try. *)
Fixpoint search_cidr (candidates : list Z) (ip : list Z) (position : nat) (ones : Z)
    (existing : list string) : outcome string :=
  match candidates with
  | [] => Fail "maximum number of IPs assigned"
  | i :: candidates =>
      let ip := <[position := i]> ip in
      if contains existing (cidr_string ip ones) then search_cidr candidates ip position ones existing
      else Ret (cidr_string ip ones)
  end.

Definition getCIDR (baseCIDR : string) (position : nat) (existing : list string) : outcome string :=
  match ParseCIDR baseCIDR with
  | None => Fail "cannot parse a CIDR"
  | Some (ip, ones) =>
      if bool_decide (length ip ≤ position) then Panic "index out of range"
      else search_cidr (seqZ 0 256) ip position ones existing
  end.

Definition set_Dyn_Cidr (d : DynamicNodePool) (cidr : string) : DynamicNodePool :=
  set_Dyn_Keys d (Dyn_PublicKey d) (Dyn_PrivateKey d) cidr.

(** Returns the pools and the [existing] map after the call. *)
Fixpoint calculateCIDR (baseCIDR key : string) (existing : gmap string (list string))
    (nodepools : list DynamicNodePool) : outcome (list DynamicNodePool * gmap string (list string)) :=
  match nodepools with
  | [] => Ret ([], existing)
  | np :: nodepools =>
      if bool_decide (Dyn_Cidr np ≠ "") then
        let* (nps, existing) := calculateCIDR baseCIDR key existing nodepools in
        Ret (np :: nps, existing)
      else
        let* cidr := getCIDR baseCIDR defaultOctetToChange (default [] (existing !! key)) in
        let* (nps, existing) := calculateCIDR baseCIDR key (push existing key cidr) nodepools in
        Ret (set_Dyn_Cidr np cidr :: nps, existing)
  end.

(** [calculateCIDR] works on pointers into the cluster's pools: its results
    replace the dynamic pools of the group [key]. *)
Fixpoint write_back (key : string) (nps : list NodePool) (ds : list DynamicNodePool) : list NodePool :=
  match nps with
  | [] => []
  | np :: nps =>
      match NodePool_Type np, ds with
      | NodePool_DynamicNodePool d, d' :: ds' =>
          if bool_decide (provider_region d = key)
          then set_NodePool_Type np (NodePool_DynamicNodePool d') :: write_back key nps ds'
          else np :: write_back key nps ds
      | _, _ => np :: write_back key nps ds
      end
  end.

Section generate.
Context `{RangeOrder}.

(** The subnets in use, by provider region. *)
Definition existing_cidrs (site : string) (nps : list NodePool) : gmap string (list string) :=
  foldl (λ existing e, foldl (λ existing np, push existing e.1 (Dyn_Cidr np)) existing (ExtractDynamic e.2))
    ∅ (range site (ByProviderRegion nps)).

(** The loop over the groups of the desired pools. *)
Fixpoint fill_groups (groups : list (string * list NodePool)) (nps : list NodePool)
    (existing : gmap string (list string)) : outcome (list NodePool) :=
  match groups with
  | [] => Ret nps
  | (p, group) :: groups =>
      let* (ds, existing) := calculateCIDR baseSubnetCIDR p existing (ExtractDynamic group) in
      fill_groups groups (write_back p nps ds) existing
  end.

Definition fill_cidrs (site : string) (current desired : list NodePool) : outcome (list NodePool) :=
  fill_groups (range (String.append site "desired") (ByProviderRegion desired)) desired
    (existing_cidrs (String.append site "current") current).

(** The error of a load balancer names it. *)
Definition fill_lb (current : list LBcluster) (desired : LBcluster) : outcome LBcluster :=
  let currentPools := match IndexLoadbalancerById (LB_Id desired) current with
                      | Some i => default [] (LB_NodePools <$> (current !! i))
                      | None => []
                      end in
  match fill_cidrs (LB_Id desired) currentPools (LB_NodePools desired) with
  | Ret nps => Ret (set_LB_NodePools desired nps)
  | Fail e => Fail (String.append "error while generating cidr for loadbalancer "
                      (String.append (LB_Id desired) (String.append ", nodepools: " e)))
  | Panic w => Panic w
  end.

Fixpoint fill_lbs (current desired : list LBcluster) : outcome (list LBcluster) :=
  match desired with
  | [] => Ret []
  | lb :: desired =>
      let* lb := fill_lb current lb in
      let* lbs := fill_lbs current desired in
      Ret (lb :: lbs)
  end.

Definition generateMissingCIDR (current : option Clusters) (desired : Clusters) : outcome Clusters :=
  let currentPools := default [] (K8s_NodePools <$> (current ≫= K8S)) in
  let* k := match K8S desired with
            | None => Ret None
            | Some k => match fill_cidrs "k8s" currentPools (K8s_NodePools k) with
                        | Ret nps => Ret (Some (set_K8s_NodePools k nps))
                        | Fail e => Fail (String.append "error while generating cidr for nodepool: " e)
                        | Panic w => Panic w
                        end
            end in
  let* lbs := fill_lbs (default [] (LoadBalancers <$> current)) (LoadBalancers desired) in
  Ret (mkClusters k lbs).
End generate.

Example base_parses : ParseCIDR baseSubnetCIDR = Some ([10; 0; 0; 0]%Z, 24%Z).
Proof. reflexivity. Qed.

Example third_subnet :
  getCIDR baseSubnetCIDR defaultOctetToChange ["10.0.0.0/24"; "10.0.1.0/24"] = Ret "10.0.2.0/24".
Proof. reflexivity. Qed.

(** ** One subnet *)

Definition subnet (i : Z) : string := cidr_string [10; 0; i; 0]%Z 24.

Lemma NoDup_subnets : NoDup (subnet <$> seqZ 0 256).
Proof. by_decide. Qed.

Lemma search_subnet l j existing :
  search_cidr l [10; 0; j; 0]%Z defaultOctetToChange 24 existing
  = match find_first (λ c, negb (contains existing c)) (subnet <$> l) with
    | Some c => Ret c
    | None => Fail "maximum number of IPs assigned"
    end.
Proof.
  revert j. induction l as [|i l IH]; intros j; [done|]. cbn [search_cidr fmap list_fmap find_first].
  change (<[defaultOctetToChange:=i]> [10; 0; j; 0]%Z) with [10; 0; i; 0]%Z.
  fold (subnet i). destruct (contains existing (subnet i)); [apply IH|done].
Qed.

Lemma getCIDR_spec existing :
  getCIDR baseSubnetCIDR defaultOctetToChange existing
  = match find_first (λ c, negb (contains existing c)) (subnet <$> seqZ 0 256) with
    | Some c => Ret c
    | None => Fail "maximum number of IPs assigned"
    end.
Proof. unfold getCIDR. rewrite base_parses. rewrite <- (search_subnet _ 0). reflexivity. Qed.

Lemma subnet_nonempty i : subnet i ≠ "".
Proof. discriminate. Qed.

Lemma getCIDR_Ret existing c :
  getCIDR baseSubnetCIDR defaultOctetToChange existing = Ret c → (c ∉ existing) ∧ c ≠ "".
Proof.
  rewrite getCIDR_spec. destruct (find_first _ _) as [c'|] eqn:E; [|done]. intros [= ->].
  apply find_first_Some in E as [Hin Hc]. apply negb_true_iff, contains_false in Hc.
  apply list_elem_of_fmap in Hin as (i & -> & _). by split.
Qed.

(** Fewer than 256 subnets in use leave one free. *)
Lemma getCIDR_total existing :
  length existing < 256 → ∃ c, getCIDR baseSubnetCIDR defaultOctetToChange existing = Ret c.
Proof.
  intros Hl. rewrite getCIDR_spec. destruct (find_first _ _) as [c|] eqn:E; [by exists c|].
  rewrite find_first_None in E.
  assert (Hsub : subnet <$> seqZ 0 256 ⊆+ existing).
  { apply NoDup_submseteq; [apply NoDup_subnets|]. intros x Hx%E.
    by apply negb_false_iff, contains_spec in Hx. }
  apply submseteq_length in Hsub. rewrite length_fmap, length_seqZ in Hsub. lia.
Qed.

(** ** The pools of one region *)

Definition missing_cidr (d : DynamicNodePool) : Prop := Dyn_Cidr d = "".
#[export] Instance missing_cidr_dec d : Decision (missing_cidr d) := decide (Dyn_Cidr d = "").

(** A pool with a subnet is kept; one without gets a subnet not in [used]. *)
Definition filled (used : list string) (d d' : DynamicNodePool) : Prop :=
  if decide (missing_cidr d)
  then ∃ c, c ≠ "" ∧ (c ∉ used) ∧ d' = set_Dyn_Cidr d c
  else d' = d.

Lemma filled_weaken used used' d d' : used ⊆ used' → filled used' d d' → filled used d d'.
Proof.
  unfold filled. intros Hs. case_decide; [|done]. intros (c & Hc & Hn & ->). exists c. set_solver.
Qed.

Lemma filled_region used d d' : filled used d d' → provider_region d' = provider_region d.
Proof. unfold filled. case_decide; [by intros (c & _ & _ & ->)|by intros ->]. Qed.

(** A subnet that is in use, and not by a kept pool, is in no pool after. *)
Lemma filled_fresh used ds ds' c :
  Forall2 (filled used) ds ds' → c ∈ used → c ∉ Dyn_Cidr <$> filter (λ d, ¬ missing_cidr d) ds →
  c ∉ Dyn_Cidr <$> ds'.
Proof.
  intros H2 Hc Hn (d' & -> & Hd')%list_elem_of_fmap.
  apply list_elem_of_lookup in Hd' as [i Hi].
  destruct (Forall2_lookup_r _ _ _ _ _ H2 Hi) as (d & Hd & Hf).
  apply list_elem_of_lookup_2 in Hd. unfold filled in Hf. case_decide as Hm.
  - destruct Hf as (c & _ & Hc' & ->). done.
  - subst d'. apply Hn, list_elem_of_fmap_2, list_elem_of_filter. done.
Qed.

Lemma default_push {V} (m : gmap string (list V)) k v :
  default [] (push m k v !! k) = default [] (m !! k) ++ [v].
Proof. unfold push. by rewrite lookup_insert_eq. Qed.

(** Cases on the head pool of a group. *)
Lemma kept_cons d ds :
  filter (λ d, ¬ missing_cidr d) (d :: ds)
  = (if decide (missing_cidr d) then [] else [d]) ++ filter (λ d, ¬ missing_cidr d) ds.
Proof. rewrite filter_cons. repeat case_decide; done. Qed.

Lemma calculateCIDR_total key ds existing :
  let used := default [] (existing !! key) in
  length used + length (filter missing_cidr ds) ≤ 256 →
  NoDup (Dyn_Cidr <$> filter (λ d, ¬ missing_cidr d) ds) →
  Dyn_Cidr <$> filter (λ d, ¬ missing_cidr d) ds ⊆ used →
  ∃ ds' existing', calculateCIDR baseSubnetCIDR key existing ds = Ret (ds', existing') ∧
    Forall2 (filled used) ds ds' ∧ NoDup (Dyn_Cidr <$> ds') ∧
    (∀ k, k ≠ key → existing' !! k = existing !! k).
Proof.
  revert existing. induction ds as [|d ds IH]; intros existing used Hlen Hnd Hsub; simpl.
  { exists [], existing. split; [done|]. split; [constructor|]. split; [apply NoDup_nil_2|done]. }
  rewrite kept_cons in Hnd, Hsub. rewrite filter_cons in Hlen. unfold filled at 1.
  destruct (decide (missing_cidr d)) as [Hm|Hm]; simpl in Hnd, Hsub, Hlen.
  - rewrite bool_decide_eq_false_2 by (intros Hn; by apply Hn). fold used.
    destruct (getCIDR_total used ltac:(lia)) as [c Hc]. rewrite Hc. simpl.
    apply getCIDR_Ret in Hc as [Hnew Hne].
    destruct (IH (push existing key c)) as (ds' & existing' & -> & H2 & Hnd' & Hk).
    { rewrite default_push, length_app. fold used. simpl. lia. }
    { done. }
    { rewrite default_push. fold used. set_solver. }
    rewrite default_push in H2. fold used in H2. simpl. do 2 eexists. split; [done|]. split; [|split].
    + constructor; [unfold filled; rewrite decide_True by done; by exists c|].
      eapply Forall2_impl; [exact H2|]. intros x y. apply filled_weaken. set_solver.
    + csimpl. constructor; [|done]. eapply filled_fresh; [exact H2|set_solver|].
      intros Hin. apply Hnew, Hsub, Hin.
    + intros k Hne'. rewrite Hk by done. unfold push. by rewrite lookup_insert_ne.
  - rewrite bool_decide_eq_true_2 by done. csimpl in Hnd. csimpl in Hsub.
    apply NoDup_cons in Hnd as [Hd Hnd].
    destruct (IH existing) as (ds' & existing' & -> & H2 & Hnd' & Hk); [done|done|set_solver|].
    simpl. do 2 eexists. split; [done|]. split; [|split].
    + constructor; [|done]. unfold filled. by rewrite decide_False.
    + csimpl. constructor; [|done]. eapply filled_fresh; [exact H2|set_solver|done].
    + done.
Qed.

(** ** All pools of a cluster *)

(** The dynamic pools of one provider region. *)
Definition in_region (p : string) (nps : list NodePool) : list DynamicNodePool :=
  filter (λ d, provider_region d = p) (ExtractDynamic nps).

(** The key [ByProviderRegion] files a pool under. *)
Definition region_key (np : NodePool) : option string :=
  match NodePool_Type np with
  | NodePool_DynamicNodePool d => Some (provider_region d)
  | NodePool_StaticNodePool _ => Some "STATIC_PROVIDER-STATIC_REGION"
  | NodePool_nil => None
  end.

Definition group (p : string) (nps : list NodePool) : list NodePool :=
  filter (λ np, region_key np = Some p) nps.

Lemma group_snoc p nps np :
  group p (nps ++ [np]) = group p nps ++ (if decide (region_key np = Some p) then [np] else []).
Proof. unfold group. rewrite filter_app, filter_cons. by case_decide. Qed.

Lemma ByProviderRegion_snoc nps np :
  ByProviderRegion (nps ++ [np]) = match region_key np with
                                   | Some p => push (ByProviderRegion nps) p np
                                   | None => ByProviderRegion nps
                                   end.
Proof. unfold ByProviderRegion, region_key. rewrite foldl_app. simpl. by destruct (NodePool_Type np). Qed.

Lemma ByProviderRegion_lookup nps p :
  ByProviderRegion nps !! p = if decide (group p nps = []) then None else Some (group p nps).
Proof.
  induction nps as [|np nps IH] using rev_ind; [done|].
  rewrite ByProviderRegion_snoc, group_snoc.
  destruct (region_key np) as [q|]; [|rewrite (decide_False (P := None = Some p)), app_nil_r by done; exact IH].
  destruct (decide (q = p)) as [->|Hq].
  - unfold push. rewrite lookup_insert_eq, IH. rewrite (decide_True (P := Some p = Some p)) by done.
    rewrite (decide_False (P := group p nps ++ [np] = [])) by (by destruct (group p nps)).
    case_decide as E; simpl; [by rewrite E|done].
  - unfold push. rewrite lookup_insert_ne by done. rewrite (decide_False (P := Some q = Some p)) by congruence.
    by rewrite app_nil_r.
Qed.

Lemma ExtractDynamic_cons np nps :
  ExtractDynamic (np :: nps) = option_list (GetDynamicNodePool np) ++ ExtractDynamic nps.
Proof. unfold ExtractDynamic. simpl. by destruct (GetDynamicNodePool np). Qed.

Lemma region_key_dynamic np d :
  GetDynamicNodePool np = Some d → region_key np = Some (provider_region d).
Proof. unfold GetDynamicNodePool, region_key. destruct (NodePool_Type np); by intros [= ->]. Qed.

Lemma ExtractDynamic_group p nps : ExtractDynamic (group p nps) = in_region p nps.
Proof.
  unfold in_region, group. induction nps as [|np nps IH]; [done|].
  rewrite filter_cons, (ExtractDynamic_cons np nps), filter_app, <- IH.
  destruct (GetDynamicNodePool np) as [d|] eqn:E; simpl.
  - rewrite filter_cons. pose proof (region_key_dynamic _ _ E) as Hk.
    case_decide as Hp; case_decide as Hq; try congruence; [|done].
    by rewrite ExtractDynamic_cons, E.
  - case_decide; [|done]. by rewrite ExtractDynamic_cons, E.
Qed.

Lemma in_region_other p nps : ByProviderRegion nps !! p = None → in_region p nps = [].
Proof.
  rewrite ByProviderRegion_lookup, <- ExtractDynamic_group. case_decide as E; [|done]. by rewrite E.
Qed.

Lemma in_region_entry p g nps : ByProviderRegion nps !! p = Some g → ExtractDynamic g = in_region p nps.
Proof.
  rewrite ByProviderRegion_lookup, <- ExtractDynamic_group. case_decide; [done|]. by intros [= <-].
Qed.

(** The subnets recorded for a region are those of its pools. *)
Lemma foldl_push_cidrs k ds (m : gmap string (list string)) q :
  default [] (foldl (λ m np, push m k (Dyn_Cidr np)) m ds !! q)
  = default [] (m !! q) ++ (if decide (q = k) then Dyn_Cidr <$> ds else []).
Proof.
  revert m. induction ds as [|d ds IH]; intros m; simpl.
  { case_decide; by rewrite app_nil_r. }
  rewrite IH. case_decide as E.
  - subst q. rewrite default_push, <- app_assoc. done.
  - unfold push. by rewrite lookup_insert_ne.
Qed.

Section fill.
Context `{RangeOrder}.

Lemma existing_fold (l : list (string * list NodePool)) (m : gmap string (list string)) q :
  NoDup l.*1 →
  (q ∉ l.*1 → default [] (foldl (λ m e, foldl (λ m np, push m e.1 (Dyn_Cidr np)) m (ExtractDynamic e.2)) m l !! q)
              = default [] (m !! q)) ∧
  (∀ g, (q, g) ∈ l → default [] (foldl (λ m e, foldl (λ m np, push m e.1 (Dyn_Cidr np)) m (ExtractDynamic e.2)) m l !! q)
              = default [] (m !! q) ++ (Dyn_Cidr <$> ExtractDynamic g)).
Proof.
  revert m. induction l as [|[k h] l IH]; intros m Hnd; csimpl.
  { split; [done|]. intros g Hg. by apply not_elem_of_nil in Hg. }
  csimpl in Hnd. apply NoDup_cons in Hnd as [Hk Hnd].
  destruct (IH (foldl (λ m np, push m k (Dyn_Cidr np)) m (ExtractDynamic h)) Hnd) as [IH1 IH2].
  split.
  - intros [Hq Hl]%not_elem_of_cons. rewrite IH1 by done. rewrite foldl_push_cidrs.
    rewrite decide_False by done. by rewrite app_nil_r.
  - intros g [[= -> ->]|Hg]%elem_of_cons.
    + rewrite IH1 by done. rewrite foldl_push_cidrs. by rewrite decide_True.
    + rewrite (IH2 _ Hg), foldl_push_cidrs. rewrite decide_False, app_nil_r; [done|].
      intros ->. apply Hk, list_elem_of_fmap. by exists (k, g).
Qed.

Lemma existing_cidrs_lookup site nps q :
  default [] (existing_cidrs site nps !! q) = Dyn_Cidr <$> in_region q nps.
Proof.
  unfold existing_cidrs.
  destruct (existing_fold (range site (ByProviderRegion nps)) ∅ q (NoDup_range_fst _ _)) as [H1 H2].
  destruct (ByProviderRegion nps !! q) as [g|] eqn:E.
  - rewrite (H2 g) by (by apply elem_of_range). by rewrite (in_region_entry q g nps E).
  - rewrite H1, (in_region_other q nps E); [done|].
    intros ([k g] & -> & Hg)%list_elem_of_fmap. apply elem_of_range in Hg. simpl in E. congruence.
Qed.

Lemma in_region_cons q np nps :
  in_region q (np :: nps)
  = match GetDynamicNodePool np with
    | Some d => if decide (provider_region d = q) then d :: in_region q nps else in_region q nps
    | None => in_region q nps
    end.
Proof.
  unfold in_region. rewrite ExtractDynamic_cons. destruct (GetDynamicNodePool np); [|done].
  simpl. by rewrite filter_cons.
Qed.

Lemma write_back_cons key np nps ds :
  write_back key (np :: nps) ds
  = match GetDynamicNodePool np, ds with
    | Some d, d' :: ds' =>
        if decide (provider_region d = key)
        then set_NodePool_Type np (NodePool_DynamicNodePool d') :: write_back key nps ds'
        else np :: write_back key nps ds
    | _, _ => np :: write_back key nps ds
    end.
Proof.
  simpl. unfold GetDynamicNodePool. destruct (NodePool_Type np), ds; try done.
  case_bool_decide; case_decide; done.
Qed.

(** The only field of a pool the generation writes. *)
Definition same_but_cidr (np np' : NodePool) : Prop :=
  np' = np ∨ ∃ d c, GetDynamicNodePool np = Some d ∧ missing_cidr d ∧ c ≠ "" ∧
    np' = set_NodePool_Type np (NodePool_DynamicNodePool (set_Dyn_Cidr d c)).

Lemma write_back_spec used key nps ds :
  Forall2 (filled used) (in_region key nps) ds →
  Forall2 same_but_cidr nps (write_back key nps ds) ∧
  (∀ q, in_region q (write_back key nps ds) = if decide (q = key) then ds else in_region q nps).
Proof.
  revert ds. induction nps as [|np nps IH]; intros ds H2.
  { inversion H2; subst. split; [constructor|]. intros q. by case_decide. }
  rewrite in_region_cons in H2. rewrite write_back_cons.
  destruct (GetDynamicNodePool np) as [d|] eqn:E; [destruct (decide (provider_region d = key)) as [Hk|Hk]|].
  - inversion H2 as [|? d' ? ds' Hf H2']; subst. destruct (IH _ H2') as [IHs IHr]. split.
    + constructor; [|done]. unfold filled in Hf. case_decide; [|left; subst d'].
      * destruct Hf as (c & Hc & _ & ->). right. by exists d, c.
      * unfold GetDynamicNodePool in E. destruct np as [ty ? ? ? ? ? ? ?]; simpl in *.
        destruct ty; by inversion E.
    + intros q. rewrite in_region_cons. simpl. rewrite (filled_region _ _ _ Hf), IHr, in_region_cons, E.
      repeat case_decide; subst; done.
  - destruct (IH _ H2) as [IHs IHr].
    assert (Hw : Forall2 same_but_cidr (np :: nps) (np :: write_back key nps ds)) by (constructor; [by left|done]).
    assert (Hr : ∀ q, in_region q (np :: write_back key nps ds)
                      = if decide (q = key) then ds else in_region q (np :: nps)).
    { intros q. rewrite !in_region_cons, E, IHr. repeat case_decide; subst; done. }
    by destruct ds.
  - destruct (IH _ H2) as [IHs IHr]. split; [constructor; [by left|done]|].
    intros q. rewrite !in_region_cons, E. apply IHr.
Qed.

Lemma same_but_cidr_trans a b c : same_but_cidr a b → same_but_cidr b c → same_but_cidr a c.
Proof.
  intros [->|(d & x & Hd & Hm & Hx & ->)]; [done|].
  intros [->|(d' & y & [= <-] & Hm' & _)]; [right; by exists d, x|done].
Qed.

(** What the loop needs of one region, and what it establishes. *)
Definition region_ready (used : list string) (ds : list DynamicNodePool) : Prop :=
  length used + length (filter missing_cidr ds) ≤ 256 ∧
  NoDup (Dyn_Cidr <$> filter (λ d, ¬ missing_cidr d) ds) ∧
  Dyn_Cidr <$> filter (λ d, ¬ missing_cidr d) ds ⊆ used.

Lemma fill_groups_total groups nps existing :
  NoDup groups.*1 →
  (∀ p g, (p, g) ∈ groups → ExtractDynamic g = in_region p nps) →
  (∀ p, p ∈ groups.*1 → region_ready (default [] (existing !! p)) (in_region p nps)) →
  ∃ nps', fill_groups groups nps existing = Ret nps' ∧ Forall2 same_but_cidr nps nps' ∧
    ∀ p, if decide (p ∈ groups.*1)
         then Forall2 (filled (default [] (existing !! p))) (in_region p nps) (in_region p nps') ∧
              NoDup (Dyn_Cidr <$> in_region p nps')
         else in_region p nps' = in_region p nps.
Proof.
  revert nps existing. induction groups as [|[p g] groups IH]; intros nps existing Hnd Hg Hr; csimpl.
  { exists nps. split; [done|]. split; [|done].
    apply Forall_Forall2_diag, Forall_forall. by left. }
  csimpl in Hnd. apply NoDup_cons in Hnd as [Hp Hnd].
  rewrite (Hg p g) by by left.
  destruct (Hr p) as (Hl & Hk & Hs); [by left|].
  destruct (calculateCIDR_total p (in_region p nps) existing Hl Hk Hs)
    as (ds & existing' & -> & H2 & Hds & He). simpl.
  destruct (write_back_spec _ _ _ _ H2) as [Hsame Hreg].
  assert (Hother : ∀ q, q ∈ groups.*1 → q ≠ p) by (intros q Hq ->; done).
  destruct (IH (write_back p nps ds) existing') as (nps' & -> & Hsame' & Hreg'); [done|..].
  { intros q h Hq. rewrite Hreg, decide_False; [apply Hg; by right|].
    apply Hother, list_elem_of_fmap. by exists (q, h). }
  { intros q Hq. rewrite Hreg, decide_False, He by by apply Hother. apply Hr. by right. }
  exists nps'. split; [done|]. split; [eapply Forall2_trans; [exact same_but_cidr_trans|eassumption..]|].
  intros q. specialize (Hreg' q). rewrite Hreg in Hreg'. destruct (decide (q = p)) as [->|Hq].
  - rewrite decide_False in Hreg' by done. rewrite decide_True by by left. by rewrite Hreg'.
  - destruct (decide (q ∈ groups.*1)).
    + rewrite decide_True by by right. by rewrite He in Hreg'.
    + rewrite decide_False; [done|]. by rewrite not_elem_of_cons.
Qed.

Lemma fill_cidrs_total site current desired :
  (∀ p, region_ready (Dyn_Cidr <$> in_region p current) (in_region p desired)) →
  ∃ nps, fill_cidrs site current desired = Ret nps ∧ Forall2 same_but_cidr desired nps ∧
    ∀ p, Forall2 (filled (Dyn_Cidr <$> in_region p current)) (in_region p desired) (in_region p nps) ∧
         NoDup (Dyn_Cidr <$> in_region p nps).
Proof.
  intros Hr. unfold fill_cidrs.
  destruct (fill_groups_total (range (String.append site "desired") (ByProviderRegion desired)) desired
    (existing_cidrs (String.append site "current") current)) as (nps & -> & Hs & Hn).
  - apply NoDup_range_fst.
  - intros p g Hg%elem_of_range. by apply in_region_entry.
  - intros p _. rewrite existing_cidrs_lookup. apply Hr.
  - exists nps. split; [done|]. split; [done|]. intros p. specialize (Hn p).
    case_decide as Hp; [by rewrite existing_cidrs_lookup in Hn|].
    destruct (ByProviderRegion desired !! p) as [g|] eqn:E.
    + destruct Hp. apply list_elem_of_fmap. exists (p, g). by rewrite elem_of_range.
    + rewrite Hn, (in_region_other p desired E). split; [constructor|apply NoDup_nil_2].
Qed.

(** The pools the cluster of a load balancer has now. *)
Definition current_lb_pools (current : option Clusters) (lb : LBcluster) : list NodePool :=
  match IndexLoadbalancerById (LB_Id lb) (default [] (LoadBalancers <$> current)) with
  | Some i => default [] (LB_NodePools <$> (default [] (LoadBalancers <$> current) !! i))
  | None => []
  end.

Definition current_k8s_pools (current : option Clusters) : list NodePool :=
  default [] (K8s_NodePools <$> (current ≫= K8S)).

(** The pools [before] of one cluster with subnets: each has one, no two pools
    of a region share one, and no new one is in use by a current pool. *)
Definition subnets_assigned (current before after : list NodePool) : Prop :=
  Forall2 same_but_cidr before after ∧
  ∀ p, NoDup (Dyn_Cidr <$> in_region p after) ∧
    Forall2 (λ d d', Dyn_Cidr d' ≠ "" ∧ (Dyn_Cidr d = "" → Dyn_Cidr d' ∉ Dyn_Cidr <$> in_region p current))
      (in_region p before) (in_region p after).

Definition cluster_ready (current before : list NodePool) : Prop :=
  ∀ p, region_ready (Dyn_Cidr <$> in_region p current) (in_region p before).

Lemma fill_cidrs_assigned site current desired :
  cluster_ready current desired → ∃ nps, fill_cidrs site current desired = Ret nps ∧ subnets_assigned current desired nps.
Proof.
  intros Hr. destruct (fill_cidrs_total site current desired Hr) as (nps & -> & Hs & Hn).
  exists nps. split; [done|]. split; [done|]. intros p. destruct (Hn p) as [Hf Hd]. split; [done|].
  eapply Forall2_impl; [exact Hf|]. intros d d'. unfold filled. case_decide as Hm.
  - intros (c & Hc & Hu & ->). by split.
  - intros ->. by split.
Qed.

Lemma fill_lbs_assigned current lbs :
  Forall (λ lb, cluster_ready (current_lb_pools current lb) (LB_NodePools lb)) lbs →
  ∃ lbs', fill_lbs (default [] (LoadBalancers <$> current)) lbs = Ret lbs' ∧
    Forall2 (λ lb lb', ∃ nps, lb' = set_LB_NodePools lb nps ∧
               subnets_assigned (current_lb_pools current lb) (LB_NodePools lb) nps) lbs lbs'.
Proof.
  induction 1 as [|lb lbs Hlb _ (lbs' & IH & Hf)]; simpl; [by exists []|].
  destruct (fill_cidrs_assigned (LB_Id lb) _ _ Hlb) as (nps & Ef & Hs). unfold fill_lb.
  unfold current_lb_pools in Ef. rewrite Ef. simpl. rewrite IH. simpl. eexists. split; [done|].
  constructor; [by exists nps|done].
Qed.

(** C29: [generateMissingCIDR] for every order in which the provider regions
    are visited: if in each region of each cluster (the kubernetes cluster and
    every load balancer) the subnets the desired pools already have are
    distinct and taken over from the current pools of that cluster, and those
    in use together with the missing ones are at most 256, it succeeds and
    changes nothing but missing subnets.  Afterwards every dynamic pool has a
    subnet, no two pools of a region of the same cluster share one, and no new
    one is in use by a current pool of that region of the cluster.  (Pools of
    different clusters may have the same subnet.) *)
Theorem generated_cidrs_unique (current : option Clusters) (desired : Clusters) :
  (∀ k, K8S desired = Some k → cluster_ready (current_k8s_pools current) (K8s_NodePools k)) →
  Forall (λ lb, cluster_ready (current_lb_pools current lb) (LB_NodePools lb)) (LoadBalancers desired) →
  ∃ k' lbs', generateMissingCIDR current desired = Ret (mkClusters k' lbs') ∧
    match K8S desired, k' with
    | Some k, Some k' => ∃ nps, k' = set_K8s_NodePools k nps ∧
        subnets_assigned (current_k8s_pools current) (K8s_NodePools k) nps
    | None, None => True
    | _, _ => False
    end ∧
    Forall2 (λ lb lb', ∃ nps, lb' = set_LB_NodePools lb nps ∧
               subnets_assigned (current_lb_pools current lb) (LB_NodePools lb) nps) (LoadBalancers desired) lbs'.
Proof.
  intros Hk Hl. destruct (fill_lbs_assigned _ _ Hl) as (lbs' & Hlbs & Hf). unfold generateMissingCIDR.
  destruct (K8S desired) as [k|]; simpl.
  - destruct (fill_cidrs_assigned "k8s" _ _ (Hk k eq_refl)) as (nps & Ef & Hs).
    unfold current_k8s_pools in Ef. rewrite Ef. simpl. rewrite Hlbs. simpl.
    do 2 eexists. split; [done|]. split; [by exists nps|done].
  - rewrite Hlbs. simpl. by do 2 eexists.
Qed.
End fill.

(** A second pool, without a subnet, next to the control pool. *)
Definition fresh_pool : NodePool := Samples.pool "compute-0000003" false (Samples.dyn 1 None "t" "c1" "") [].

(** The load balancer is new and its pool is in the region of the others. *)
Definition fresh_lb : LBcluster :=
  Samples.lb_with "lb" [Samples.pool "lb-0000002" false (Samples.dyn 1 None "t" "c1" "") []] [] false.

Lemma in_region_sole q p nps :
  Forall (λ d, provider_region d = q) (ExtractDynamic nps) → p ≠ q → in_region p nps = [].
Proof.
  intros Hall Hp. unfold in_region. induction Hall as [|d ds Hd _ IH]; [done|].
  rewrite filter_cons, decide_False by congruence. exact IH.
Qed.

(** A cluster whose pools are all in one region needs a look at that one. *)
Lemma cluster_ready_sole q current before :
  Forall (λ d, provider_region d = q) (ExtractDynamic current) →
  Forall (λ d, provider_region d = q) (ExtractDynamic before) →
  region_ready (Dyn_Cidr <$> in_region q current) (in_region q before) → cluster_ready current before.
Proof.
  intros Hc Hb Hq p. destruct (decide (p = q)) as [->|Hp]; [done|].
  rewrite !(in_region_sole q p) by done. split; [simpl; lia|]. split; [by apply NoDup_nil_2|done].
Qed.

Lemma generated_cidrs_unique_witness :
  ∃ nps lbs, generateMissingCIDR (Some (mkClusters (Some (Samples.k8s_with [Samples.ctrl])) []))
               (mkClusters (Some (Samples.k8s_with [Samples.ctrl; fresh_pool])) [fresh_lb])
             = Ret (mkClusters (Some (Samples.k8s_with nps)) lbs) ∧
    NoDup (Dyn_Cidr <$> in_region "hetzner-1-nbg1" nps) ∧ length lbs = 1.
Proof.
  destruct (generated_cidrs_unique (Some (mkClusters (Some (Samples.k8s_with [Samples.ctrl])) []))
              (mkClusters (Some (Samples.k8s_with [Samples.ctrl; fresh_pool])) [fresh_lb])) as (k' & lbs & E & Hk & Hl).
  - intros k [= <-]. apply (cluster_ready_sole "hetzner-1-nbg1"); [by_decide|by_decide|].
    split; [vm_compute; lia|]. split; [by_decide|]. intros x Hx. exact Hx.
  - constructor; [|constructor]. apply (cluster_ready_sole "hetzner-1-nbg1"); [by_decide|by_decide|].
    split; [vm_compute; lia|]. split; [by_decide|]. intros x Hx. exact Hx.
  - destruct k' as [k'|]; [|destruct Hk]. destruct Hk as (nps & -> & _ & Hn). exists nps, lbs.
    split; [exact E|]. split; [apply Hn|]. symmetry. exact (Forall2_length _ _ _ Hl).
Defined.

End Cidr.
