(* ===== verification/ExistingState.v ===== *)
(** * Carrying existing state over (service/existing_state.go)

    A freshly parsed desired state knows nothing of what is already built.
    These functions give its node pools the hashes of the existing ones
    ([resolve..References]), give new static nodes unused names
    ([deduplicateStaticNodeNames]) and copy what may never change once it is
    assigned ([transfer..]).  Go mutates the desired state through pointers;
    here every function returns it. *)

From Stdlib Require Import Ascii.
From stdpp Require Import base gmap strings list.
From S2P Require Import Prelude Spec SpecUtils Samples NodePools GenerateState.

Import NodePools GenerateState.

Module ExistingState.

(** ** Static node names *)

Definition set_Node_Name (n : Node) (name : string) : Node :=
  mkNode name (Node_Private n) (Node_Public n) (Node_NodeType n) (Node_Username n)
    (Node_Status n) (Node_SshPort n) (Node_WireguardPort n).

Definition has_public (nodes : list Node) (n : Node) : bool :=
  existsb (λ cn, bool_decide (Node_Public cn = Node_Public n)) nodes.

(** The loop over [desired.Nodes]. *)
Fixpoint rename_new (current : list Node) (poolName : string) (usedNames : gset string)
    (nodes : list Node) : outcome (list Node) :=
  match nodes with
  | [] => Ret []
  | n :: nodes =>
      if has_public current n then
        let* rest := rename_new current poolName usedNames nodes in
        Ret (n :: rest)
      else
        let* (name, usedNames) := uniqueNodeName poolName usedNames in
        let* rest := rename_new current poolName usedNames nodes in
        Ret (set_Node_Name n name :: rest)
  end.

(** One current pool against the first desired pool of that name. *)
Fixpoint dedup_pool (current : NodePool) (desired : list NodePool) : outcome (list NodePool) :=
  match desired with
  | [] => Ret []
  | d :: rest =>
      if has_name (NodePool_Name current) d then
        if is_static current && is_static d then
          let* nodes := rename_new (NodePool_Nodes current) (NodePool_Name d)
                          (list_to_set (Node_Name <$> NodePool_Nodes current)) (NodePool_Nodes d) in
          Ret (set_NodePool_Nodes d nodes :: rest)
        else Ret desired
      else
        let* rest := dedup_pool current rest in
        Ret (d :: rest)
  end.

Fixpoint dedup_pools (current desired : list NodePool) : outcome (list NodePool) :=
  match current with
  | [] => Ret desired
  | c :: current =>
      let* desired := dedup_pool c desired in
      dedup_pools current desired
  end.

Definition k8s_pools (c : option Clusters) : list NodePool :=
  default [] (K8s_NodePools <$> (c ≫= K8S)).

Definition deduplicateStaticNodeNames (current : option Clusters) (desired : Clusters) : outcome Clusters :=
  match K8S desired with
  | None => Ret desired
  | Some k =>
      let* nps := dedup_pools (k8s_pools current) (K8s_NodePools k) in
      Ret (mkClusters (Some (set_K8s_NodePools k nps)) (LoadBalancers desired))
  end.

(** ** References to node pool types *)

Definition hash_of (nodepoolType : string) (np : NodePool) : string :=
  (MatchNameAndHashWithTemplate nodepoolType (NodePool_Name np)).2.

Definition add_suffix (np : NodePool) (hash : string) : NodePool :=
  set_NodePool_Name np (String.append (NodePool_Name np) (String.append "-" hash)).

(** [GetDynamicNodePool().GetProvider().GetTemplates()] *)
Definition templates_of (np : NodePool) : option TemplateRepository :=
  (λ d, Provider_Templates (Dyn_Provider d)) <$> GetDynamicNodePool np.

Definition same_templates (ref existing : NodePool) : bool :=
  bool_decide (templates_of existing = templates_of ref).

(** The current pools of the given type, whose hashes are recorded. *)
Definition of_type (nodepoolType : string) (nps : list NodePool) : list NodePool :=
  delete_func (λ np, bool_decide (hash_of nodepoolType np = "")) nps.

Definition hashes (nodepoolType : string) (nps : list NodePool) : gset string :=
  list_to_set (filter (λ h, h ≠ "") (hash_of nodepoolType <$> nps)).

(** The hash a reference carries over and the candidates left: one with equal
    templates if there is any, else the first; [None] when none is left. *)
Definition pick (nodepoolType : string) (ref : NodePool) (candidates : list NodePool)
    : option (string * list NodePool) :=
  let i := index_func (same_templates ref) candidates in
  let carryhash := default "" (hash_of nodepoolType <$> (i ≫= (candidates !!.))) in
  if bool_decide (carryhash ≠ "") then
    Some (carryhash, match i with Some i => delete i candidates | None => candidates end)
  else match candidates with
       | [] => None
       | c :: rest => Some (hash_of nodepoolType c, rest)
       end.

(** The loop over the references, which are the pools of [nps] that satisfy
    [is_ref]; it breaks when no candidate is left. *)
Fixpoint carry (nodepoolType : string) (is_ref : NodePool → bool) (candidates nps : list NodePool)
    : list NodePool :=
  match nps with
  | [] => []
  | np :: rest =>
      if is_ref np then
        match pick nodepoolType np candidates with
        | Some (h, candidates) => add_suffix np h :: carry nodepoolType is_ref candidates rest
        | None => nps
        end
      else np :: carry nodepoolType is_ref candidates rest
  end.

(** A dynamic pool whose name is still the bare type. *)
Definition is_reference (nodepoolType : string) (control : bool) (np : NodePool) : bool :=
  has_name nodepoolType np && is_dynamic np && Bool.eqb (NodePool_IsControl np) control.

Definition resolveK8sNodePoolReferences (used : gset string) (nodepoolType : string)
    (current desired : list NodePool) : gset string * list NodePool :=
  let control := Control (Dynamic current) in
  let compute := Compute_ (Dynamic current) in
  let used := used ∪ hashes nodepoolType control ∪ hashes nodepoolType compute in
  let desired := carry nodepoolType (is_reference nodepoolType true) (of_type nodepoolType control) desired in
  (used, carry nodepoolType (is_reference nodepoolType false) (of_type nodepoolType compute) desired).

(** One pair of load balancers of equal name. *)
Definition resolve_lb (nodepoolType : string) (current : LBcluster) (acc : gset string * LBcluster)
    : gset string * LBcluster :=
  let '(used, desired) := acc in
  if bool_decide (ClusterInfo_Name (LB_ClusterInfo desired) ≠ ClusterInfo_Name (LB_ClusterInfo current))
  then acc
  else
    let currentNodePools := Dynamic (LB_NodePools current) in
    (used ∪ hashes nodepoolType currentNodePools,
     set_LB_NodePools desired
       (carry nodepoolType (λ np, has_name nodepoolType np && is_dynamic np)
          (of_type nodepoolType currentNodePools) (LB_NodePools desired))).

Fixpoint resolveLbNodePoolReferences (used : gset string) (nodepoolType : string)
    (current desired : list LBcluster) : gset string * list LBcluster :=
  match desired with
  | [] => (used, [])
  | d :: rest =>
      let '(used, d) := foldl (λ acc c, resolve_lb nodepoolType c acc) (used, d) current in
      let '(used, rest) := resolveLbNodePoolReferences used nodepoolType current rest in
      (used, d :: rest)
  end.

(** The last loop: [for _, ok := used[h]; ok; {}] evaluates [used[h]] once, so
    it does not end when the first hash is taken. *)
Fixpoint new_hashes `{Entropy} (nodepoolType : string) (used : gset string) (nps : list NodePool)
    (i : nat) : outcome (list NodePool * gset string * nat) :=
  match nps with
  | [] => Ret ([], used, i)
  | np :: rest =>
      if has_name nodepoolType np then
        let '(h, j) := Create hash_Length i in
        if bool_decide (h ∈ used) then Panic "the search for an unused hash does not end"
        else
          let* (rest, used, j) := new_hashes nodepoolType ({[h]} ∪ used) rest j in
          Ret (add_suffix np h :: rest, used, j)
      else
        let* (rest, used, j) := new_hashes nodepoolType used rest i in
        Ret (np :: rest, used, j)
  end.

Fixpoint new_hashes_lbs `{Entropy} (nodepoolType : string) (used : gset string) (lbs : list LBcluster)
    (i : nat) : outcome (list LBcluster * nat) :=
  match lbs with
  | [] => Ret ([], i)
  | lb :: rest =>
      let* (nps, used, j) := new_hashes nodepoolType used (LB_NodePools lb) i in
      let* (rest, j) := new_hashes_lbs nodepoolType used rest j in
      Ret (set_LB_NodePools lb nps :: rest, j)
  end.

(** The body of the loop over the manifest's dynamic node pool types. *)
Definition resolve_type `{Entropy} (current : option Clusters) (nodepoolType : string)
    (desired : Clusters) (i : nat) : outcome (Clusters * nat) :=
  let '(used, pools) := resolveK8sNodePoolReferences ∅ nodepoolType (k8s_pools current)
                          (k8s_pools (Some desired)) in
  let '(used, lbs) := resolveLbNodePoolReferences used nodepoolType
                        (default [] (LoadBalancers <$> current)) (LoadBalancers desired) in
  let* (pools, used, i) := new_hashes nodepoolType used pools i in
  let* (lbs, i) := new_hashes_lbs nodepoolType used lbs i in
  Ret (mkClusters ((λ k, set_K8s_NodePools k pools) <$> K8S desired) lbs, i).

Fixpoint resolveDynamicNodePoolReferences `{Entropy} (types : list string) (current : option Clusters)
    (desired : Clusters) (i : nat) : outcome (Clusters * nat) :=
  match types with
  | [] => Ret (desired, i)
  | t :: types =>
      let* (desired, i) := resolve_type current t desired i in
      resolveDynamicNodePoolReferences types current desired i
  end.

(** ** Immutable state *)

(** [switch { case lo > v: lo; case hi < v: hi; default: v }] *)
Definition clamp (lo hi v : Z) : Z :=
  if bool_decide (lo > v)%Z then lo else if bool_decide (hi < v)%Z then hi else v.

Definition transfer_autoscaler (cnp dnp : DynamicNodePool) : DynamicNodePool :=
  match Dyn_AutoscalerConfig dnp with
  | None => dnp
  | Some a =>
      let a := match Dyn_AutoscalerConfig cnp with
               | Some c => set_Autoscaler_TargetSize a
                             (clamp (Autoscaler_Min a) (Autoscaler_Max a) (Autoscaler_TargetSize c))
               | None => a
               end in
      let desiredCount := Z.max (Dyn_Count cnp) (Autoscaler_TargetSize a) in
      set_Dyn_Count (set_Dyn_Autoscaler dnp (Some a))
        (clamp (Autoscaler_Min a) (Autoscaler_Max a) desiredCount)
  end.

Fixpoint transfer_nodes (skipMarkedForDeletion : Z) (nodes : list Node) : list Node :=
  match nodes with
  | [] => []
  | n :: nodes =>
      if bool_decide (0 < skipMarkedForDeletion)%Z && bool_decide (Node_Status n = MarkedForDeletion)
      then transfer_nodes (skipMarkedForDeletion - 1) nodes
      else n :: transfer_nodes skipMarkedForDeletion nodes
  end.

Definition transfer_provider (cnp dnp : DynamicNodePool) : DynamicNodePool :=
  let p := Dyn_Provider dnp in
  set_Dyn_Provider (set_Dyn_Keys dnp (Dyn_PublicKey cnp) (Dyn_PrivateKey cnp) (Dyn_Cidr cnp))
    (mkProvider (Provider_SpecName (Dyn_Provider cnp)) (Provider_CloudProviderName (Dyn_Provider cnp))
       (Provider_Type p) (Provider_Templates p)).

(** [current.Nodes[:count]] outside of the slice is a panic. *)
Definition transferDynamicNodePool (current desired : NodePool) : outcome NodePool :=
  let* cnp := deref (GetDynamicNodePool current) in
  let* dnp := deref (GetDynamicNodePool desired) in
  let dnp := transfer_autoscaler cnp (transfer_provider cnp dnp) in
  let count := Z.min (Dyn_Count cnp) (Dyn_Count dnp) in
  let skip := Z.max (int32 (Dyn_Count cnp - count)) 0 in
  if bool_decide (0 ≤ count ≤ Z.of_nat (length (NodePool_Nodes current)))%Z then
    Ret (set_NodePool_Nodes
           (set_NodePool_SshPort (set_NodePool_Type desired (NodePool_DynamicNodePool dnp))
              (NodePool_SshPort current))
           (transfer_nodes skip (take (Z.to_nat count) (NodePool_Nodes current))))
  else Panic "slice bounds out of range".

Definition same_public (cn dn : Node) : bool := bool_decide (Node_Public cn = Node_Public dn).

Definition copy_identity (cn dn : Node) : Node :=
  mkNode (Node_Name cn) (Node_Private cn) (Node_Public dn) (Node_NodeType cn) (Node_Username dn)
    (Node_Status dn) (Node_SshPort dn) (Node_WireguardPort dn).

Definition transferStaticNodePool (current desired : NodePool) : NodePool :=
  set_NodePool_Nodes desired
    (foldl (λ dns cn, update_first (same_public cn) (copy_identity cn) dns)
       (NodePool_Nodes desired) (NodePool_Nodes current)).

(** The inner loop: [continue outer] on pools of different types. *)
Fixpoint transfer_pool (current : list NodePool) (desired : NodePool) : outcome NodePool :=
  match current with
  | [] => Ret desired
  | c :: rest =>
      if has_name (NodePool_Name desired) c then
        match NodePool_Type c with
        | NodePool_DynamicNodePool _ =>
            if is_dynamic desired then
              let* desired := transferDynamicNodePool c desired in
              transfer_pool rest desired
            else Ret desired
        | NodePool_StaticNodePool _ =>
            if is_static desired then transfer_pool rest (transferStaticNodePool c desired)
            else Ret desired
        | NodePool_nil => transfer_pool rest desired
        end
      else transfer_pool rest desired
  end.

Definition transferClusterInfo (current desired : ClusterInfo) : outcome ClusterInfo :=
  let* nps := mapM (transfer_pool (ClusterInfo_NodePools current)) (ClusterInfo_NodePools desired) in
  Ret (mkClusterInfo (ClusterInfo_Name current) (ClusterInfo_Hash current) nps).

Definition transferK8sState (current desired : K8Scluster) : outcome K8Scluster :=
  let* ci := transferClusterInfo (K8s_ClusterInfo current) (K8s_ClusterInfo desired) in
  Ret (mkK8Scluster ci (K8s_Network current) (K8s_Kubeconfig current) (K8s_Kubernetes desired)
         (K8s_InstallationProxy desired)).

Definition transferRoles (current desired : list Role) : list Role :=
  foldl (λ ds c, (λ d, if bool_decide (Role_Name c = Role_Name d)
                       then set_Role_EnvoyAdminPort d (Role_EnvoyAdminPort c) else d) <$> ds)
    desired current.

Definition transfer_alternative_names (current desired : list AlternativeName) : list AlternativeName :=
  foldl (λ ds c, (λ d, if bool_decide (Alt_Hostname d = Alt_Hostname c)
                       then mkAlternativeName (Alt_Hostname d) (Alt_Endpoint c) else d) <$> ds)
    desired current.

Definition transferDns (current desired : LBcluster) : outcome LBcluster :=
  match LB_Dns current with
  | None => Ret desired
  | Some c =>
      let* d := deref (LB_Dns desired) in
      if bool_decide (DNS_DnsZone c ≠ DNS_DnsZone d) then Ret desired
      else
        let alts := transfer_alternative_names (DNS_AlternativeNames c) (DNS_AlternativeNames d) in
        let dns hostname endpoint :=
          set_LB_Dns desired (Some (mkDNS (DNS_DnsZone d) hostname (DNS_Provider d) endpoint alts)) in
        if bool_decide (DNS_Hostname d ≠ "") then
          Ret (dns (DNS_Hostname d)
                 (if bool_decide (DNS_Hostname d = DNS_Hostname c) then DNS_Endpoint c else DNS_Endpoint d))
        else Ret (dns (DNS_Hostname c) (DNS_Endpoint c))
  end.

Definition transfer_lb (current desired : LBcluster) : outcome LBcluster :=
  let* desired := transferDns current desired in
  let* ci := transferClusterInfo (LB_ClusterInfo current) (LB_ClusterInfo desired) in
  Ret (mkLBcluster ci (transferRoles (LB_Roles current) (LB_Roles desired)) (LB_Dns desired)
         (LB_TargetedK8S desired) (LB_UsedApiEndpoint current)).

(** The first desired load balancer of the same name, then [break]. *)
Fixpoint transfer_first (current : LBcluster) (desired : list LBcluster) : outcome (list LBcluster) :=
  match desired with
  | [] => Ret []
  | d :: rest =>
      if bool_decide (ClusterInfo_Name (LB_ClusterInfo current) = ClusterInfo_Name (LB_ClusterInfo d)) then
        let* d := transfer_lb current d in Ret (d :: rest)
      else
        let* rest := transfer_first current rest in Ret (d :: rest)
  end.

Fixpoint transferLBState (current desired : list LBcluster) : outcome (list LBcluster) :=
  match current with
  | [] => Ret desired
  | c :: current =>
      let* desired := transfer_first c desired in
      transferLBState current desired
  end.

Definition transferImmutableState (current desired : Clusters) : outcome Clusters :=
  let* ck := deref (K8S current) in
  let* dk := deref (K8S desired) in
  let* k := transferK8sState ck dk in
  let* lbs := transferLBState (LoadBalancers current) (LoadBalancers desired) in
  Ret (mkClusters (Some k) lbs).

(** ** Autoscaled pools (service/create_desired_state.go) *)

(** The loop over [np.Nodes]. *)
Fixpoint mark_nodes (toBeMarked : Z) (nodes : list Node) : list Node :=
  match nodes with
  | [] => []
  | n :: rest =>
      if bool_decide (0 < toBeMarked)%Z then
        if bool_decide (Node_Status n ≠ MarkedForDeletion)
        then set_Node_Status n MarkedForDeletion :: mark_nodes (toBeMarked - 1) rest
        else n :: mark_nodes toBeMarked rest
      else nodes
  end.

Definition fixup_pool (np : NodePool) : NodePool :=
  match GetDynamicNodePool np with
  | Some dyn =>
      match Dyn_AutoscalerConfig dyn with
      | Some a =>
          if bool_decide (Autoscaler_TargetSize a >= Dyn_Count dyn)%Z then np
          else set_NodePool_Nodes np
                 (mark_nodes (int32 (Dyn_Count dyn - Autoscaler_TargetSize a)) (NodePool_Nodes np))
      | None => np
      end
  | None => np
  end.

Definition fixupAutoscalerCounts (desired : Clusters) : outcome Clusters :=
  let* k := deref (K8S desired) in
  Ret (mkClusters (Some (set_K8s_NodePools k (fixup_pool <$> K8s_NodePools k))) (LoadBalancers desired)).

(** ** Dynamic pools *)

Lemma clamp_range lo hi v : (lo ≤ hi)%Z → (lo ≤ clamp lo hi v ≤ hi)%Z.
Proof. unfold clamp. repeat case_bool_decide; lia. Qed.

Lemma clamp_id lo hi v : (lo ≤ v ≤ hi)%Z → clamp lo hi v = v.
Proof. unfold clamp. repeat case_bool_decide; lia. Qed.





Lemma wf_dynamic_count np d :
  wf_nodepool np → GetDynamicNodePool np = Some d → Dyn_Count d = Z.of_nat (length (NodePool_Nodes np)).
Proof.
  intros (_ & _ & Hty) Hd. unfold GetDynamicNodePool in Hd.
  destruct (NodePool_Type np); by inversion Hd; subst.
Qed.


Lemma transferDynamicNodePool_Ret current desired cnp dnp :
  wf_nodepool current →
  GetDynamicNodePool current = Some cnp → GetDynamicNodePool desired = Some dnp →
  let d := transfer_autoscaler cnp (transfer_provider cnp dnp) in
  (0 ≤ Dyn_Count d)%Z →
  ∃ nodes, transferDynamicNodePool current desired
    = Ret (set_NodePool_Nodes (set_NodePool_SshPort (set_NodePool_Type desired (NodePool_DynamicNodePool d))
             (NodePool_SshPort current)) nodes) ∧
    nodes = transfer_nodes (Dyn_Count cnp - Z.min (Dyn_Count cnp) (Dyn_Count d))
              (take (Z.to_nat (Dyn_Count d)) (NodePool_Nodes current)).
Proof.
  intros Hwf Hc Hd d Hpos. unfold transferDynamicNodePool. rewrite Hc, Hd. simpl. fold d.
  pose proof (wf_dynamic_count _ _ Hwf Hc) as Hcnt. destruct Hwf as (_ & Hlen & _).
  rewrite bool_decide_eq_true_2 by lia. eexists. split; [done|].
  rewrite int32_id by (unfold in_int32; lia). rewrite Z.max_l by lia. f_equal.
  destruct (Z.le_gt_cases (Dyn_Count cnp) (Dyn_Count d)) as [Hle|Hgt].
  - rewrite Z.min_l by done. rewrite !take_ge by lia. done.
  - by rewrite Z.min_r by lia.
Qed.





(** No marked node in the slice: nothing is skipped. *)
Lemma transfer_nodes_healthy skip nodes :
  Forall (λ n, Node_Status n ≠ MarkedForDeletion) nodes → transfer_nodes skip nodes = nodes.
Proof.
  induction 1 as [|n nodes Hn _ IH]; [done|]. simpl.
  rewrite (bool_decide_eq_false_2 (Node_Status n = MarkedForDeletion)) by done.
  by rewrite andb_false_r, IH.
Qed.

(** When a fixed-size pool of a marked node followed by healthy nodes
    shrinks by one, the healthy nodes alone would fill it; but the slice is
    cut before the marked node is skipped, so the last healthy node is not
    transferred and the pool is left one node short of its count. *)
Lemma shrinking_drops_healthy_node (current desired : NodePool) (cnp dnp : DynamicNodePool)
    (marked : Node) (healthy : list Node) (last_ : Node) :
  wf_nodepool current →
  GetDynamicNodePool current = Some cnp → GetDynamicNodePool desired = Some dnp →
  Dyn_AutoscalerConfig dnp = None → Dyn_Count dnp = (Dyn_Count cnp - 1)%Z →
  NodePool_Nodes current = marked :: healthy ++ [last_] →
  Node_Status marked = MarkedForDeletion →
  Forall (λ n, Node_Status n ≠ MarkedForDeletion) (healthy ++ [last_]) →
  ∃ np, transferDynamicNodePool current desired = Ret np ∧ NodePool_Nodes np = healthy ∧
    Z.of_nat (length (NodePool_Nodes np)) = (Dyn_Count dnp - 1)%Z ∧ (last_ ∉ NodePool_Nodes np).
Proof.
  intros Hwf Hc Hd Ha Hcnt Hn Hm Hh.
  pose proof (wf_dynamic_count _ _ Hwf Hc) as Hcc. rewrite Hn in Hcc. simpl in Hcc.
  rewrite length_app in Hcc. simpl in Hcc.
  assert (Ed : transfer_autoscaler cnp (transfer_provider cnp dnp) = transfer_provider cnp dnp)
    by (unfold transfer_autoscaler; simpl; by rewrite Ha).
  destruct (transferDynamicNodePool_Ret current desired cnp dnp Hwf Hc Hd) as (nodes & -> & Hnodes).
  { rewrite Ed. simpl. lia. }
  rewrite Ed in Hnodes. simpl in Hnodes. rewrite Hn, Hcnt, Z.min_r in Hnodes by lia.
  replace (Z.to_nat (Dyn_Count cnp - 1)) with (S (length healthy)) in Hnodes by lia.
  replace (Dyn_Count cnp - (Dyn_Count cnp - 1))%Z with 1%Z in Hnodes by lia.
  rewrite firstn_cons, take_app_length in Hnodes. simpl in Hnodes.
  rewrite Hm, bool_decide_refl in Hnodes. apply Forall_app in Hh as [Hh _].
  rewrite transfer_nodes_healthy in Hnodes by done.
  eexists. split; [done|]. simpl. subst nodes. split; [done|]. split; [lia|].
  destruct Hwf as (Hnd & _). rewrite Hn in Hnd. csimpl in Hnd. apply NoDup_cons in Hnd as [_ Hnd].
  rewrite fmap_app in Hnd. apply NoDup_app in Hnd as (_ & Hdis & _).
  intros Hin. apply (Hdis (Node_Name last_)); [by apply list_elem_of_fmap_2|by left].
Qed.

(** The first of the two control nodes is marked for deletion. *)
Definition ctrl_marked : NodePool :=
  set_NodePool_Nodes Samples.ctrl
    [set_Node_Status (Samples.node "prod-abcdefg-ctrl-0000001-01" "1.1.1.1" master) MarkedForDeletion;
     Samples.node "prod-abcdefg-ctrl-0000001-02" "1.1.1.2" apiEndpoint].

(** ** Static pools *)

Lemma update_first_public cn dns :
  Node_Public <$> update_first (same_public cn) (copy_identity cn) dns = Node_Public <$> dns.
Proof.
  induction dns as [|d dns IH]; [done|]. simpl. destruct (same_public cn d); csimpl; [done|by rewrite IH].
Qed.

(** With distinct endpoints, the loop gives every desired node the identity of
    the current node with its endpoint, if there is one. *)
Definition carried (current : list Node) (dn : Node) : Node :=
  match find_first (λ cn, same_public cn dn) current with
  | Some cn => copy_identity cn dn
  | None => dn
  end.

Lemma update_first_distinct cn dns :
  NoDup (Node_Public <$> dns) →
  update_first (same_public cn) (copy_identity cn) dns
  = (λ dn, if same_public cn dn then copy_identity cn dn else dn) <$> dns.
Proof.
  induction dns as [|d dns IH]; intros Hnd; [done|]. csimpl in Hnd. apply NoDup_cons in Hnd as [Hd Hnd].
  csimpl. unfold same_public at 1 3. case_bool_decide as E; [|by rewrite IH].
  f_equal. rewrite <- (list_fmap_id dns) at 1. apply list_fmap_ext. intros i x Hx.
  unfold same_public. rewrite bool_decide_eq_false_2; [done|]. intros E'.
  apply Hd. rewrite <- E, E'. apply list_elem_of_fmap_2. by eapply list_elem_of_lookup_2.
Qed.

Lemma transfer_static_carried current dns :
  NoDup (Node_Public <$> current) → NoDup (Node_Public <$> dns) →
  foldl (λ dns cn, update_first (same_public cn) (copy_identity cn) dns) dns current
  = carried current <$> dns.
Proof.
  revert dns. induction current as [|c current IH]; intros dns Hc Hd; csimpl.
  { by rewrite <- (list_fmap_id dns) at 1. }
  csimpl in Hc. apply NoDup_cons in Hc as [Hcn Hc].
  rewrite IH by (try done; by rewrite update_first_public).
  rewrite update_first_distinct, <- list_fmap_compose by done. apply list_fmap_ext.
  intros i dn _. unfold carried. simpl. destruct (same_public c dn) eqn:E; [|done].
  destruct (find_first _ current) as [c'|] eqn:E'; [|done].
  apply find_first_Some in E' as [Hin Hp]. exfalso. apply Hcn.
  apply bool_decide_eq_true in E, Hp. simpl in Hp. rewrite E, <- Hp. by apply list_elem_of_fmap_2.
Qed.

(** New nodes get distinct names that are not in use; others are kept. *)
Definition renamed (current : list Node) (used : gset string) (n n' : Node) : Prop :=
  if has_public current n then n' = n
  else ∃ name, (name ∉ used) ∧ n' = set_Node_Name n name.

Definition new_in (current : list Node) (nodes : list Node) : list Node :=
  filter (λ n, has_public current n = false) nodes.

Lemma renamed_public current used n n' : renamed current used n n' → Node_Public n' = Node_Public n.
Proof. unfold renamed. destruct (has_public current n); [by intros ->|by intros (? & _ & ->)]. Qed.

Lemma has_public_ext current n n' :
  Node_Public n' = Node_Public n → has_public current n' = has_public current n.
Proof. intros E. unfold has_public. by rewrite E. Qed.

Lemma renamed_new_name current used nodes nodes' name :
  Forall2 (renamed current used) nodes nodes' → name ∈ Node_Name <$> new_in current nodes' → name ∉ used.
Proof.
  intros H2 (n' & -> & [Hn Hin]%list_elem_of_filter)%list_elem_of_fmap.
  apply list_elem_of_lookup in Hin as [i Hi].
  destruct (Forall2_lookup_r _ _ _ _ _ H2 Hi) as (n & _ & Hr).
  rewrite (has_public_ext _ _ _ (renamed_public _ _ _ _ Hr)) in Hn. unfold renamed in Hr.
  rewrite Hn in Hr. by destruct Hr as (name & Hname & ->).
Qed.

Lemma rename_new_total current poolName used nodes :
  size used + length nodes ≤ 255 →
  ∃ nodes', rename_new current poolName used nodes = Ret nodes' ∧
    Forall2 (renamed current used) nodes nodes' ∧ NoDup (Node_Name <$> new_in current nodes').
Proof.
  revert used. induction nodes as [|n nodes IH]; intros used Hlen; simpl.
  { exists []. split; [done|]. split; [constructor|apply NoDup_nil_2]. }
  destruct (has_public current n) eqn:Ep.
  - destruct (IH used) as (rest & -> & H2 & Hnd); [simpl in Hlen; lia|]. simpl. eexists. split; [done|].
    split; [constructor; [unfold renamed; by rewrite Ep|done]|].
    unfold new_in. by rewrite filter_cons, decide_False by congruence.
  - destruct (uniqueNodeName_total poolName used) as (c & -> & Hc); [simpl in Hlen; lia|]. simpl.
    destruct (IH ({[c]} ∪ used)) as (rest & -> & H2 & Hnd).
    { rewrite size_union by set_solver. rewrite size_singleton. simpl in Hlen. lia. }
    simpl. eexists. split; [done|]. split.
    + constructor; [unfold renamed; rewrite Ep; by exists c|].
      eapply Forall2_impl; [exact H2|]. intros x y. unfold renamed.
      destruct (has_public current x); [done|]. intros (name & Hname & ->). exists name. set_solver.
    + unfold new_in. rewrite filter_cons, decide_True by (rewrite <- Ep; by apply has_public_ext).
      csimpl. constructor; [|exact Hnd]. intros Hin.
      by apply (renamed_new_name _ _ _ _ _ H2) in Hin; set_solver.
Qed.

Lemma has_public_find current n :
  has_public current n = bool_decide (is_Some (find_first (λ cn, same_public cn n) current)).
Proof.
  unfold has_public. induction current as [|c current IH]; [done|]. simpl.
  fold (same_public c n). destruct (same_public c n); simpl; [done|exact IH].
Qed.

Lemma NoDup_fmap_inj_on {A B} (f : A → B) (l : list A) x y :
  NoDup (f <$> l) → x ∈ l → y ∈ l → f x = f y → x = y.
Proof.
  induction l as [|z l IH]; csimpl; intros Hnd Hx Hy E; [by apply not_elem_of_nil in Hx|].
  apply NoDup_cons in Hnd as [Hz Hnd].
  apply elem_of_cons in Hx as [->|Hx], Hy as [->|Hy]; [done|..|by apply IH].
  - destruct Hz. rewrite E. by apply list_elem_of_fmap_2.
  - destruct Hz. rewrite <- E. by apply list_elem_of_fmap_2.
Qed.

(** Names after the transfer are distinct: carried ones because endpoints and
    current names are, new ones because they avoid the current names. *)
Lemma carried_names_distinct current nodes :
  NoDup (Node_Name <$> current) → NoDup (Node_Public <$> nodes) →
  (∀ name, name ∈ Node_Name <$> new_in current nodes → name ∉ Node_Name <$> current) →
  NoDup (Node_Name <$> new_in current nodes) →
  NoDup (Node_Name <$> (carried current <$> nodes)).
Proof.
  intros Hc Hp Hfresh Hnew. rewrite <- list_fmap_compose.
  apply NoDup_fmap_2_strong; [|by eapply NoDup_fmap_1].
  intros x y Hx Hy. simpl. unfold carried.
  assert (Hin : ∀ n, n ∈ nodes → find_first (λ cn, same_public cn n) current = None →
                     Node_Name n ∈ Node_Name <$> new_in current nodes).
  { intros n Hn E. apply list_elem_of_fmap_2, list_elem_of_filter. split; [|done].
    by rewrite has_public_find, E. }
  assert (Hnew' : ∀ n c, n ∈ nodes → find_first (λ cn, same_public cn n) current = None →
                     c ∈ current → Node_Name n ≠ Node_Name c).
  { intros n c Hn E Hcin En. apply (Hfresh (Node_Name n)); [by apply Hin|].
    rewrite En. by apply list_elem_of_fmap_2. }
  destruct (find_first (λ cn, same_public cn x) current) as [cx|] eqn:Ex;
    destruct (find_first (λ cn, same_public cn y) current) as [cy|] eqn:Ey; simpl; intros E.
  - apply find_first_Some in Ex as [Hcx Ex], Ey as [Hcy Ey].
    apply bool_decide_eq_true in Ex, Ey.
    assert (cx = cy) as -> by by eapply (NoDup_fmap_inj_on Node_Name current).
    eapply (NoDup_fmap_inj_on Node_Public nodes); [done..|]. congruence.
  - apply find_first_Some in Ex as [Hcx _]. by destruct (Hnew' y cx Hy Ey Hcx).
  - apply find_first_Some in Ey as [Hcy _]. by destruct (Hnew' x cy Hx Ex Hcy).
  - eapply (NoDup_fmap_inj_on Node_Name (new_in current nodes)); [done|..|done];
      apply list_elem_of_filter; by rewrite has_public_find, ?Ex, ?Ey.
Qed.

(** A static pool of the desired state against the current pool of the
    same name, both with distinct endpoints: generating names for the new
    nodes and then transferring the identity of the existing ones succeeds
    (up to 255 nodes altogether) and leaves distinct names; a node whose
    endpoint exists keeps its current name, private address and role, any
    other gets a name no current node has; endpoints do not change. *)
Lemma static_node_names_distinct (current desired : NodePool) :
  is_static current = true → is_static desired = true → NodePool_Name desired = NodePool_Name current →
  NoDup (Node_Name <$> NodePool_Nodes current) → NoDup (Node_Public <$> NodePool_Nodes current) →
  NoDup (Node_Public <$> NodePool_Nodes desired) →
  length (NodePool_Nodes current) + length (NodePool_Nodes desired) ≤ 255 →
  ∃ np1, dedup_pool current [desired] = Ret [np1] ∧
    let np := transferStaticNodePool current np1 in
    NoDup (Node_Name <$> NodePool_Nodes np) ∧
    (Node_Public <$> NodePool_Nodes np) = (Node_Public <$> NodePool_Nodes desired) ∧
    ∀ n, n ∈ NodePool_Nodes np →
      match find_first (λ cn, same_public cn n) (NodePool_Nodes current) with
      | Some cn => Node_Name n = Node_Name cn ∧ Node_Private n = Node_Private cn ∧ Node_NodeType n = Node_NodeType cn
      | None => Node_Name n ∉ Node_Name <$> NodePool_Nodes current
      end.
Proof.
  intros Hsc Hsd Hname Hnc Hpc Hpd Hlen. unfold dedup_pool, has_name.
  rewrite bool_decide_eq_true_2, Hsc, Hsd by done. simpl.
  destruct (rename_new_total (NodePool_Nodes current) (NodePool_Name desired)
    (list_to_set (Node_Name <$> NodePool_Nodes current)) (NodePool_Nodes desired)) as (nodes & -> & H2 & Hnd).
  { by rewrite names_size. }
  simpl. eexists. split; [done|]. simpl.
  assert (Hpub : Node_Public <$> nodes = Node_Public <$> NodePool_Nodes desired).
  { clear -H2. induction H2 as [|n n' l l' Hr _ IH]; [done|]. csimpl. rewrite IH.
    f_equal. by eapply renamed_public. }
  assert (Hfresh : ∀ name, name ∈ Node_Name <$> new_in (NodePool_Nodes current) nodes →
                           name ∉ Node_Name <$> NodePool_Nodes current).
  { intros name Hin. apply (renamed_new_name _ _ _ _ _ H2) in Hin. by rewrite elem_of_list_to_set in Hin. }
  rewrite transfer_static_carried by (try done; by rewrite Hpub).
  split; [apply carried_names_distinct; try done; by rewrite Hpub|]. split.
  - rewrite <- Hpub, <- list_fmap_compose. apply list_fmap_ext. intros i n _. simpl.
    unfold carried. by destruct (find_first _ _).
  - intros n (m & -> & Hm)%list_elem_of_fmap. unfold carried.
    destruct (find_first (λ cn, same_public cn m) (NodePool_Nodes current)) as [cn|] eqn:E; simpl.
    + change (λ cn0, same_public cn0 (copy_identity cn m)) with (λ cn0, same_public cn0 m). by rewrite E.
    + rewrite E. apply Hfresh, list_elem_of_fmap_2, list_elem_of_filter. by rewrite has_public_find, E.
Qed.

(** A third static node is added and one is taken away. *)
Definition workers_changed : NodePool :=
  set_NodePool_Nodes Samples.workers
    [Samples.node "workers-01" "2.2.2.2" worker; Samples.node "workers-02" "2.2.2.3" worker].

Lemma static_node_names_distinct_witness :
  ∃ np1, dedup_pool Samples.workers [workers_changed] = Ret [np1] ∧
    NoDup (Node_Name <$> NodePool_Nodes (transferStaticNodePool Samples.workers np1)).
Proof.
  destruct (static_node_names_distinct Samples.workers workers_changed) as (np1 & E & Hnd & _);
    [reflexivity..|by_decide|by_decide|by_decide|vm_compute; lia|].
  exists np1. split; [exact E|exact Hnd].
Defined.

(** ** References *)

(** A current pool of the type is named by the type and its hash. *)
Lemma of_type_name typ nps c :
  c ∈ of_type typ nps → c ∈ nps ∧ NodePool_Name c = String.append typ (String.append "-" (hash_of typ c)) ∧ hash_of typ c ≠ "".
Proof.
  unfold of_type. rewrite elem_of_delete_func, bool_decide_eq_false. intros [Hc Hh]. split; [done|].
  split; [|done]. unfold hash_of in *.
  destruct (MatchNameAndHashWithTemplate typ (NodePool_Name c)) as [t h] eqn:E. simpl in *.
  apply MatchNameAndHash_inv in E; [|done]. naive_solver.
Qed.

(** Some candidate is picked unless none is left; one with equal templates is
    preferred. *)
Lemma pick_spec typ ref candidates :
  Forall (λ c, hash_of typ c ≠ "") candidates →
  match pick typ ref candidates with
  | None => candidates = []
  | Some (h, rest) => ∃ c, h = hash_of typ c ∧ candidates ≡ₚ c :: rest ∧
      (Exists (λ x, same_templates ref x = true) candidates → same_templates ref c = true)
  end.
Proof.
  intros Hh. unfold pick, index_func.
  destruct (list_find (λ x, same_templates ref x = true) candidates) as [[i c]|] eqn:E; simpl.
  - apply list_find_Some in E as (Hi & Hc & _). rewrite Hi. simpl.
    rewrite Forall_forall in Hh. rewrite bool_decide_eq_true_2 by (eapply Hh, list_elem_of_lookup_2, Hi).
    exists c. split; [done|]. split; [|done]. by apply delete_Permutation.
  - apply list_find_None in E. destruct candidates as [|c rest]; [done|]. exists c. split; [done|].
    split; [done|]. intros [x [Hx Hs]]%Exists_exists. rewrite Forall_forall in E. by destruct (E x Hx).
Qed.

Definition refs_of (is_ref : NodePool → bool) (nps : list NodePool) : list NodePool :=
  filter (λ np, is_ref np = true) nps.
Definition others_of (is_ref : NodePool → bool) (nps : list NodePool) : list NodePool :=
  filter (λ np, is_ref np = false) nps.

Lemma refs_others_cons is_ref np nps :
  refs_of is_ref (np :: nps) = (if is_ref np then [np] else []) ++ refs_of is_ref nps ∧
  others_of is_ref (np :: nps) = (if is_ref np then [] else [np]) ++ others_of is_ref nps.
Proof. unfold refs_of, others_of. rewrite !filter_cons. by destruct (is_ref np). Qed.

(** The loop renames as many references as there are candidates, in order, to
    names of distinct candidates, and nothing else. *)
Lemma carry_spec typ is_ref candidates nps :
  (∀ c, c ∈ candidates → NodePool_Name c = String.append typ (String.append "-" (hash_of typ c)) ∧ hash_of typ c ≠ "") →
  (∀ np, is_ref np = true → NodePool_Name np = typ) →
  ∃ picked rest, candidates ≡ₚ picked ++ rest ∧
    length picked = length (refs_of is_ref nps) `min` length candidates ∧
    NodePool_Name <$> carry typ is_ref candidates nps
    ≡ₚ (NodePool_Name <$> picked) ++ (NodePool_Name <$> drop (length picked) (refs_of is_ref nps))
       ++ (NodePool_Name <$> others_of is_ref nps).
Proof.
  intros Hc Href. revert candidates Hc. induction nps as [|np nps IH]; intros candidates Hc; simpl.
  { exists [], candidates. done. }
  destruct (refs_others_cons is_ref np nps) as [-> ->].
  destruct (is_ref np) eqn:Er; simpl.
  - assert (Hh : Forall (λ c, hash_of typ c ≠ "") candidates) by (apply Forall_forall; naive_solver).
    pose proof (pick_spec typ np candidates Hh) as Hp.
    destruct (pick typ np candidates) as [[h cs]|].
    + destruct Hp as (c & -> & Hperm & _).
      destruct (IH cs) as (picked & rest & Hcs & Hlen & Hnames).
      { intros x Hx. apply Hc. rewrite Hperm. by right. }
      exists (c :: picked), rest. split; [by rewrite Hperm, Hcs|]. split.
      * rewrite Hperm. simpl. lia.
      * csimpl. rewrite Hnames. destruct (Hc c) as [-> _]; [rewrite Hperm; by left|].
        by rewrite (Href np).
    + subst candidates. exists [], []. split; [done|]. split; [simpl; lia|]. csimpl.
      constructor. rewrite <- fmap_app. apply Permutation_map, filter_bool_perm.
  - destruct (IH candidates Hc) as (picked & rest & Hcs & Hlen & Hnames).
    exists picked, rest. split; [done|]. split; [done|]. csimpl. rewrite Hnames.
    rewrite !app_assoc. by rewrite <- Permutation_middle.
Qed.

Lemma is_reference_name typ b np : is_reference typ b np = true → NodePool_Name np = typ.
Proof. unfold is_reference. rewrite !andb_true_iff. intros [[Hn _] _]. by apply bool_decide_eq_true in Hn. Qed.

(** Pools of the other role are neither references nor renamed. *)
Lemma carry_other_role typ b candidates nps :
  refs_of (is_reference typ (negb b)) (carry typ (is_reference typ b) candidates nps)
  = refs_of (is_reference typ (negb b)) nps.
Proof.
  assert (Hno : ∀ np np', is_reference typ b np = true → NodePool_IsControl np' = NodePool_IsControl np →
                          is_reference typ (negb b) np' = false).
  { intros np np' Hr E. unfold is_reference in *. rewrite andb_true_iff in Hr. destruct Hr as [_ Hr].
    apply eqb_prop in Hr. rewrite E, Hr. destruct b; apply andb_false_r. }
  revert candidates. induction nps as [|np nps IH]; intros candidates; simpl; [done|].
  destruct (is_reference typ b np) eqn:Er.
  - destruct (pick typ np candidates) as [[h cs]|]; [|done].
    destruct (refs_others_cons (is_reference typ (negb b)) np nps) as [-> _].
    destruct (refs_others_cons (is_reference typ (negb b)) (add_suffix np h)
      (carry typ (is_reference typ b) cs nps)) as [-> _].
    by rewrite (Hno np np Er), (Hno np (add_suffix np h) Er), IH.
  - destruct (refs_others_cons (is_reference typ (negb b)) np nps) as [-> _].
    destruct (refs_others_cons (is_reference typ (negb b)) np
      (carry typ (is_reference typ b) candidates nps)) as [-> _]. by rewrite IH.
Qed.

(** The candidates of one role. *)
Definition candidates (typ : string) (control : bool) (current : list NodePool) : list NodePool :=
  of_type typ (if control then Control (Dynamic current) else Compute_ (Dynamic current)).

Lemma candidates_names typ b current c :
  c ∈ candidates typ b current →
  c ∈ current ∧ NodePool_Name c = String.append typ (String.append "-" (hash_of typ c)) ∧ hash_of typ c ≠ "".
Proof.
  intros [Hin Hrest]%of_type_name. split; [|done]. unfold Control, Compute_, Dynamic in Hin.
  destruct b; rewrite !list_elem_of_filter in Hin; naive_solver.
Qed.

Lemma carry_reuses typ b current nps :
  length (candidates typ b current) ≤ length (refs_of (is_reference typ b) nps) →
  ∀ c, c ∈ candidates typ b current →
    NodePool_Name c ∈ NodePool_Name <$> carry typ (is_reference typ b) (candidates typ b current) nps.
Proof.
  intros Hlen c Hc.
  destruct (carry_spec typ (is_reference typ b) (candidates typ b current) nps)
    as (picked & rest & Hp & Hl & ->).
  { intros x Hx. by apply candidates_names in Hx as [_ ?]. }
  { apply is_reference_name. }
  assert (rest = []) as ->.
  { apply (f_equal id) in Hl. apply Permutation_length in Hp. rewrite length_app in Hp.
    apply nil_length_inv. unfold id in Hl. lia. }
  rewrite app_nil_r in Hp. apply elem_of_app. left. apply list_elem_of_fmap_2. by rewrite <- Hp.
Qed.

(** A renaming loop keeps a name that is not the bare type. *)
Lemma carry_keeps_name typ b cs nps name :
  name ≠ typ → name ∈ NodePool_Name <$> nps → name ∈ NodePool_Name <$> carry typ (is_reference typ b) cs nps.
Proof.
  intros Hne. revert cs. induction nps as [|np nps IH]; intros cs; simpl; [done|]. intros Hin.
  destruct (is_reference typ b np) eqn:Er.
  - destruct (pick typ np cs) as [[h cs']|]; [|done]. csimpl in Hin. csimpl.
    apply elem_of_cons in Hin as [->|Hin]; [by apply is_reference_name in Er|]. right. by apply IH.
  - csimpl in Hin. csimpl. apply elem_of_cons in Hin as [->|Hin]; [by left|]. right. by apply IH.
Qed.

(** If the desired state has at least as many references to a node pool
    type, among its control and among its compute pools, as there are current
    pools of that type and role, then every one of those current pools is in
    the desired state again under its own name: reapplying a manifest, or
    adding references to it, never replaces an existing pool by a new one. *)
Lemma references_reuse_existing_pools (typ : string) (used : gset string) (current desired : list NodePool) :
  (∀ b, length (candidates typ b current) ≤ length (refs_of (is_reference typ b) desired)) →
  let resolved := (resolveK8sNodePoolReferences used typ current desired).2 in
  ∀ c, c ∈ current → is_dynamic c = true → hash_of typ c ≠ "" → NodePool_Name c ∈ NodePool_Name <$> resolved.
Proof.
  intros Hlen resolved c Hin Hdyn Hh. unfold resolved, resolveK8sNodePoolReferences. simpl.
  fold (candidates typ true current) (candidates typ false current).
  assert (Hc : c ∈ candidates typ (NodePool_IsControl c) current).
  { unfold candidates, of_type. rewrite elem_of_delete_func, bool_decide_eq_false. split; [|done].
    destruct (NodePool_IsControl c) eqn:E; unfold Control, Compute_, Dynamic; by rewrite !list_elem_of_filter. }
  destruct (NodePool_IsControl c).
  - apply carry_keeps_name; [|by apply carry_reuses].
    apply candidates_names in Hc as (_ & -> & _). intros E%(f_equal String.length).
    rewrite string_length_app in E. simpl in E. lia.
  - apply carry_reuses; [|done]. by rewrite (carry_other_role typ true).
Qed.

(** The same manifest applied again: a control and a compute reference. *)
Definition bare_refs : list NodePool :=
  [Samples.pool "ctrl" true (Samples.dyn 2 None "t" "c1" "") [];
   Samples.pool "ctrl" false (Samples.dyn 2 None "t" "c1" "") []].

Lemma references_reuse_existing_pools_witness :
  NodePool_Name Samples.ctrl ∈ NodePool_Name <$> (resolveK8sNodePoolReferences ∅ "ctrl" [Samples.ctrl] bare_refs).2.
Proof.
  apply (references_reuse_existing_pools "ctrl" ∅ [Samples.ctrl] bare_refs).
  - intros [|]; vm_compute; lia.
  - by left.
  - reflexivity.
  - vm_compute. discriminate.
Defined.

(** A hash drawn for a new node pool that is already taken makes the search
    for an unused one loop forever: the loop condition is evaluated once,
    before the hash is redrawn. *)
Lemma hash_collision_never_ends `{Entropy} (typ : string) (used : gset string) (np : NodePool)
    (rest : list NodePool) (i : nat) :
  NodePool_Name np = typ → (Create hash_Length i).1 ∈ used →
  new_hashes typ used (np :: rest) i = Panic "the search for an unused hash does not end".
Proof.
  intros Hn Hu. cbn [new_hashes]. unfold has_name. rewrite bool_decide_eq_true_2 by done.
  destruct (Create hash_Length i) as [h j]. simpl in Hu. by rewrite bool_decide_eq_true_2.
Qed.

(** ** Autoscaled pools *)

Definition unmarked (nodes : list Node) : nat :=
  length (filter (λ n, Node_Status n ≠ MarkedForDeletion) nodes).

Lemma unmarked_cons n nodes :
  unmarked (n :: nodes) = (if decide (Node_Status n ≠ MarkedForDeletion) then 1 else 0) + unmarked nodes.
Proof. unfold unmarked. rewrite filter_cons. by case_decide. Qed.

Lemma mark_nodes_unmarked k nodes :
  unmarked (mark_nodes k nodes) = unmarked nodes - Z.to_nat k.
Proof.
  revert k. induction nodes as [|n nodes IH]; intros k; simpl; [done|].
  case_bool_decide as Hk; [|replace (Z.to_nat k) with 0 by lia; lia].
  case_bool_decide as Hn; rewrite !unmarked_cons, IH; simpl.
  - rewrite (decide_True (P := Node_Status n ≠ MarkedForDeletion)) by done. lia.
  - rewrite !(decide_False (P := Node_Status n ≠ MarkedForDeletion)) by tauto. lia.
Qed.

Lemma mark_nodes_names k nodes : Node_Name <$> mark_nodes k nodes = Node_Name <$> nodes.
Proof.
  revert k. induction nodes as [|n nodes IH]; intros k; simpl; [done|].
  case_bool_decide; [|done]. case_bool_decide; csimpl; by rewrite IH.
Qed.

(** Transferring an autoscaled pool clamps: the target size and the count
    lie within the manifest's limits, the target size the autoscaler asked
    for is kept when it does, and the count is never below it; when a
    well-formed pool then has more nodes than its target size,
    [fixupAutoscalerCounts] keeps all nodes and leaves at most target-size
    many of them unmarked for deletion. *)
Lemma autoscaler_limits_respected (cnp dnp : DynamicNodePool) (ac a : AutoscalerConf) (np : NodePool) :
  Dyn_AutoscalerConfig cnp = Some ac → Dyn_AutoscalerConfig dnp = Some a →
  (0 ≤ Autoscaler_Min a ≤ Autoscaler_Max a)%Z →
  let d := transfer_autoscaler cnp dnp in
  wf_nodepool np → GetDynamicNodePool np = Some d →
  ∃ a', Dyn_AutoscalerConfig d = Some a' ∧
    Autoscaler_Min a' = Autoscaler_Min a ∧ Autoscaler_Max a' = Autoscaler_Max a ∧
    (Autoscaler_Min a ≤ Autoscaler_TargetSize a' ≤ Dyn_Count d)%Z ∧ (Dyn_Count d ≤ Autoscaler_Max a)%Z ∧
    ((Autoscaler_Min a ≤ Autoscaler_TargetSize ac ≤ Autoscaler_Max a)%Z →
     Autoscaler_TargetSize a' = Autoscaler_TargetSize ac) ∧
    (Node_Name <$> NodePool_Nodes (fixup_pool np)) = (Node_Name <$> NodePool_Nodes np) ∧
    (Z.of_nat (unmarked (NodePool_Nodes (fixup_pool np))) ≤ Autoscaler_TargetSize a')%Z.
Proof.
  intros Hc Hd Hr d Hwf Hnp. pose proof (wf_dynamic_count _ _ Hwf Hnp) as Hcount.
  unfold d, transfer_autoscaler in Hnp, Hcount |- *. rewrite Hd, Hc in Hnp, Hcount |- *.
  set (a' := set_Autoscaler_TargetSize a _) in *. exists a'. simpl in Hcount |- *.
  pose proof (clamp_range (Autoscaler_Min a) (Autoscaler_Max a) (Autoscaler_TargetSize ac) ltac:(lia)) as Ht.
  split; [done|]. split; [done|]. split; [done|].
  assert (Hle : (Autoscaler_TargetSize a' ≤ clamp (Autoscaler_Min a) (Autoscaler_Max a)
                   (Dyn_Count cnp `max` Autoscaler_TargetSize a'))%Z).
  { simpl. unfold clamp at 2. repeat case_bool_decide; lia. }
  split; [split; [apply Ht|exact Hle]|]. split; [apply clamp_range; lia|].
  split; [apply clamp_id|]. unfold fixup_pool. rewrite Hnp. simpl.
  destruct Hwf as (_ & Hlen & _). case_bool_decide as Hge.
  - split; [done|]. transitivity (Z.of_nat (length (NodePool_Nodes np))); [|lia].
    apply Nat2Z.inj_le, length_filter.
  - simpl. rewrite mark_nodes_names. split; [done|]. rewrite mark_nodes_unmarked.
    rewrite int32_id by (unfold in_int32; lia).
    assert (unmarked (NodePool_Nodes np) ≤ length (NodePool_Nodes np)) by apply length_filter.
    simpl in *. lia.
Qed.

(** A pool autoscaled between 1 and 3 nodes, with two nodes and target 1. *)
Definition autoscaled (target : Z) : DynamicNodePool :=
  Samples.dyn 2 (Some (mkAutoscalerConf 1 3 target)) "t" "c1" "10.0.0.0/24".

Lemma autoscaler_limits_respected_witness :
  ∃ a', Dyn_AutoscalerConfig (transfer_autoscaler (autoscaled 1) (autoscaled 2)) = Some a' ∧
    (Z.of_nat (unmarked (NodePool_Nodes (fixup_pool
       (Samples.pool "ctrl-0000001" true (transfer_autoscaler (autoscaled 1) (autoscaled 2))
          (NodePool_Nodes Samples.ctrl))))) ≤ Autoscaler_TargetSize a')%Z.
Proof.
  destruct (autoscaler_limits_respected (autoscaled 1) (autoscaled 2) (mkAutoscalerConf 1 3 1)
    (mkAutoscalerConf 1 3 2) (Samples.pool "ctrl-0000001" true
       (transfer_autoscaler (autoscaled 1) (autoscaled 2)) (NodePool_Nodes Samples.ctrl)))
    as (a' & E & _ & _ & _ & _ & _ & _ & Hu); [reflexivity..|by_decide|by_decide|reflexivity|].
  exists a'. split; [exact E|exact Hu].
Defined.

End ExistingState.
