(* ===== verification/Manifest.v ===== *)
(** * The input manifest (internal/api/manifest/manifest.go, utils.go)

    The parsed YAML document, the providers it names and the node pools a
    cluster of it asks for.  Reading YAML is outside; the commits of a template
    repository come from a git server, the parameter [Git]. *)

From Stdlib Require Import Ascii.
From stdpp Require Import base gmap strings list.
From S2P Require Import Prelude Spec SpecUtils Samples NodePools GenerateState.

Import NodePools GenerateState.

(** The references a git server lists: [Remote.List] of go-git. *)
Record GitRef := mkGitRef {
  Ref_IsBranch : bool; Ref_IsTag : bool; Ref_Short : string; Ref_Hash : string }.

Class Git := { Remote_List : string → option (string * string) → outcome (list GitRef) }.

(** A server that lists one branch, used to evaluate the definitions. *)
#[export] Instance one_branch : Git :=
  {| Remote_List _ _ := Ret [mkGitRef true false "master" "00112233445566778899aabbccddeeff00112233"] |}.

Module Manifest.

(** ** manifest.go *)

Record GitAuth := mkGitAuth { GitAuth_Username : string; GitAuth_Token : string }.

Record TemplatesEndpoint := mkTemplatesEndpoint { URL : string; EndpointProtocol : string }.

Record TemplatesPaths := mkTemplatesPaths {
  PathTerraformer : string; PathPlaybooks : string; PathConfigLb : string;
  PathConfigK8s : string; PathManifestsK8s : string }.

Record TemplateRepo := mkTemplateRepo {
  RepoEndpoint : TemplatesEndpoint; RepoAuth : option GitAuth; RepoCommit : string;
  RepoPaths : TemplatesPaths }.

Record GCP := mkGCP {
  GCP_Name : string; GCP_Credentials : string; GCP_Project : string; GCP_Templates : option TemplateRepo }.
Record Hetzner := mkHetzner {
  Hetzner_Name : string; Hetzner_Credentials : string; Hetzner_Templates : option TemplateRepo }.
Record AWS := mkAWS {
  AWS_Name : string; AWS_AccessKey : string; AWS_SecretKey : string; AWS_Templates : option TemplateRepo }.
Record OCI := mkOCI {
  OCI_Name : string; OCI_PrivateKey : string; OCI_KeyFingerprint : string; OCI_TenancyOCID : string;
  OCI_UserOCID : string; OCI_CompartmentID : string; OCI_Templates : option TemplateRepo }.
Record Azure := mkAzure {
  Azure_Name : string; Azure_SubscriptionId : string; Azure_TenantId : string; Azure_ClientId : string;
  Azure_ClientSecret : string; Azure_Templates : option TemplateRepo }.
Record Cloudflare := mkCloudflare {
  Cloudflare_Name : string; Cloudflare_ApiToken : string; Cloudflare_AccountID : string;
  Cloudflare_Templates : option TemplateRepo }.
Record Openstack := mkOpenstack {
  Openstack_Name : string; Openstack_AuthURL : string; Openstack_DomainId : string;
  Openstack_ProjectId : string; Openstack_ApplicationCredentialId : string;
  Openstack_ApplicationCredentialSecret : string; Openstack_Templates : option TemplateRepo }.
Record Exoscale := mkExoscale {
  Exoscale_Name : string; Exoscale_ApiKey : string; Exoscale_ApiSecret : string;
  Exoscale_Templates : option TemplateRepo }.
Record CloudRift := mkCloudRift {
  CloudRift_Name : string; CloudRift_Token : string; CloudRift_TeamId : string;
  CloudRift_Templates : option TemplateRepo }.
Record Verda := mkVerda {
  Verda_Name : string; Verda_ClientId : string; Verda_ClientSecret : string; Verda_BaseUrl : string;
  Verda_Templates : option TemplateRepo }.
Record OVH := mkOVH {
  OVH_Name : string; OVH_ClientId : string; OVH_ClientSecret : string; OVH_ServiceName : string;
  OVH_Endpoint : string; OVH_Templates : option TemplateRepo }.

Record Providers := mkProviders {
  gcp : list GCP; hetzner : list Hetzner; aws : list AWS; oci : list OCI; azure : list Azure;
  cloudflare : list Cloudflare; openstack : list Openstack; exoscale : list Exoscale;
  cloudrift : list CloudRift; verda : list Verda; ovh : list OVH }.

Record ProviderSpec := mkProviderSpec {
  PS_Name : string; PS_Region : string; PS_Zone : string; PS_ExternalNetworkName : string }.

Record MachineSpecConf := mkMachineSpecConf {
  MSC_CpuCount : Z; MSC_Memory : Z; MSC_NvidiaGpuCount : Z; MSC_NvidiaGpuType : string; MSC_NvidiaGpu : Z }.

Record AutoscalerConfig := mkAutoscalerConfig { AC_Min : Z; AC_Max : Z }.

Record DynamicPool := mkDynamicPool {
  DP_Name : string; DP_ProviderSpec : ProviderSpec; DP_Count : Z; DP_ServerType : string; DP_Image : string;
  DP_StorageDiskSize : option Z; DP_AutoscalerConfig : AutoscalerConfig; DP_Labels : gmap string string;
  DP_Annotations : gmap string string; DP_Taints : list Taint; DP_MachineSpec : option MachineSpecConf;
  DP_Spot : bool }.

Record StaticNode := mkStaticNode { SN_Endpoint : string; SN_Key : string; SN_Username : string }.

Record StaticPool := mkStaticPool {
  SP_Name : string; SP_Nodes : list StaticNode; SP_Labels : gmap string string;
  SP_Annotations : gmap string string; SP_Taints : list Taint; SP_SshPort : option Z }.

Record ManifestProxy := mkManifestProxy {
  MProxy_Mode : string; MProxy_Endpoint : string; MProxy_NoProxy : string }.

Record Cluster := mkCluster {
  Cluster_Name : string; Cluster_Version : string; Cluster_Network : string;
  Cluster_Control : list string; Cluster_Compute : list string;
  Cluster_InstallationProxy : option ManifestProxy }.

Record RoleSettings := mkRoleSettings { RS_ProxyProtocol : bool; RS_StickySessions : bool }.

Record ManifestRole := mkManifestRole {
  MR_Name : string; MR_Protocol : string; MR_Port : Z; MR_TargetPort : Z; MR_TargetPools : list string;
  MR_Settings : option RoleSettings }.

Record ManifestDNS := mkManifestDNS {
  MD_DNSZone : string; MD_Provider : string; MD_Hostname : string; MD_AlternativeNames : list string }.

Record LoadBalancerCluster := mkLoadBalancerCluster {
  LBC_Name : string; LBC_Roles : list string; LBC_DNS : ManifestDNS; LBC_TargetedK8s : string;
  LBC_Pools : list string }.

Record InputManifest := mkInputManifest {
  M_Name : string;
  M_Providers : Providers;
  M_Dynamic : list DynamicPool;
  M_Static : list StaticPool;
  M_Clusters : list Cluster;
  M_Roles : list ManifestRole;
  M_LoadBalancers : list LoadBalancerCluster }.

(** ** utils.go *)

Definition defaultDiskSize : Z := 50.

Definition convertToGrpcTemplates (t : option TemplateRepo) : outcome TemplateRepository :=
  let* t := deref t in
  if bool_decide (ToLower (EndpointProtocol (RepoEndpoint t)) = "https") then
    Ret (mkTemplateRepository (RepoCommit t) "" (mkEndpoint (URL (RepoEndpoint t)) PROTOCOL_HTTPS)
           ((λ a, mkAuth (if bool_decide (GitAuth_Username a = "") then None else Some (GitAuth_Username a))
                    (GitAuth_Token a)) <$> RepoAuth t)
           (mkTemplatePaths (PathTerraformer (RepoPaths t)) (PathPlaybooks (RepoPaths t))
              (PathConfigLb (RepoPaths t)) (PathConfigK8s (RepoPaths t)) (PathManifestsK8s (RepoPaths t))))
  else Fail (String.append "unsupported protocol " (EndpointProtocol (RepoEndpoint t))).

Definition is_hex (a : Ascii.ascii) : bool :=
  let n := nat_of_ascii a in
  bool_decide (48 ≤ n ≤ 57) || bool_decide (97 ≤ n ≤ 102) || bool_decide (65 ≤ n ≤ 70).

Fixpoint all_hex (s : string) : bool :=
  match s with
  | EmptyString => true
  | String a s => is_hex a && all_hex s
  end.

Definition isGitHash (s : string) : bool :=
  (bool_decide (String.length s = 40) || bool_decide (String.length s = 64)) && all_hex s.

Definition set_CommitHash (t : TemplateRepository) (h : string) : TemplateRepository :=
  mkTemplateRepository (Tpl_Commit t) h (Tpl_Endpoint t) (Tpl_Auth t) (Tpl_Paths t).

Definition HttpsUrl (r : TemplateRepository) : string :=
  String.append "https://" (Endpoint_Url (Tpl_Endpoint r)).

(** The loop over the references: branch, tag and peeled tag commit. *)
Definition match_refs (commit : string) (rfs : list GitRef) : string * string * string :=
  foldl (λ '(branch, tag, peeled) r,
    if Ref_IsBranch r && bool_decide (Ref_Short r = commit) then (Ref_Hash r, tag, peeled)
    else if Ref_IsTag r && bool_decide (Ref_Short r = commit) then (branch, Ref_Hash r, peeled)
    else if Ref_IsTag r && bool_decide (Ref_Short r = String.append commit "^{}") then (branch, tag, Ref_Hash r)
    else (branch, tag, peeled)) ("", "", "") rfs.

Definition FetchCommitHash `{Git} (tmpl : TemplateRepository) : outcome TemplateRepository :=
  if isGitHash (Tpl_Commit tmpl) then Ret (set_CommitHash tmpl (Tpl_Commit tmpl))
  else
    match Endpoint_Protocol (Tpl_Endpoint tmpl) with
    | PROTOCOL_HTTPS =>
        let repository := HttpsUrl tmpl in
        let auth := (λ a, (default "x-access-token" (Auth_Username a), Auth_Token a)) <$> Tpl_Auth tmpl in
        match Remote_List repository auth with
        | Fail e => Fail (String.append "failed to list remote repository "
                            (String.append repository (String.append ": " e)))
        | Panic w => Panic w
        | Ret rfs =>
            let '(branchCommit, tagCommit, tagPeeledCommit) := match_refs (Tpl_Commit tmpl) rfs in
            if bool_decide (tagPeeledCommit ≠ "") then Ret (set_CommitHash tmpl tagPeeledCommit)
            else if bool_decide (tagCommit ≠ "") then Ret (set_CommitHash tmpl tagCommit)
            else if bool_decide (branchCommit ≠ "") then Ret (set_CommitHash tmpl branchCommit)
            else Fail (String.append "couldn't find the requested commit " (Tpl_Commit tmpl))
        end
    | PROTOCOL_UNSPECIFIED => Fail "protocol is unsupported for retrieving commit hashes"
    end.

(** The body shared by the loops of [GetProvider]. *)
Definition build_provider `{Git} (name cloud : string) (typ : ProviderType) (templates : option TemplateRepo)
    : outcome Provider :=
  match convertToGrpcTemplates templates with
  | Fail e => Fail (String.append "failed to convert template for provider "
                      (String.append name (String.append ": " e)))
  | Panic w => Panic w
  | Ret t => let* t := FetchCommitHash t in Ret (mkProvider name cloud typ t)
  end.

(** [&conf.Field] when the field is not empty. *)
Definition optional (s : string) : option string := if bool_decide (s = "") then None else Some s.

(** A loop over one kind of providers, continuing with the next kind. *)
Definition search_kind {A} (name : A → string) (providerSpecName : string) (build : A → outcome Provider)
    (l : list A) (next : outcome Provider) : outcome Provider :=
  match find_first (λ c, bool_decide (name c = providerSpecName)) l with
  | Some c => build c
  | None => next
  end.

(** The second half of [GetProvider]: the kinds from Openstack on. *)
Definition get_provider_rest `{Git} (p : Providers) (providerSpecName : string) : outcome Provider :=
  search_kind Openstack_Name providerSpecName
    (λ c, build_provider providerSpecName "openstack"
            (Provider_Openstack (Openstack_AuthURL c) (Openstack_DomainId c) (Openstack_ProjectId c)
               (Openstack_ApplicationCredentialId c) (Openstack_ApplicationCredentialSecret c))
            (Openstack_Templates c)) (openstack p) $
  search_kind Exoscale_Name providerSpecName
    (λ c, build_provider providerSpecName "exoscale" (Provider_Exoscale (Exoscale_ApiKey c) (Exoscale_ApiSecret c))
            (Exoscale_Templates c)) (exoscale p) $
  search_kind CloudRift_Name providerSpecName
    (λ c, build_provider providerSpecName "cloudrift"
            (Provider_Cloudrift (CloudRift_Token c) (optional (CloudRift_TeamId c))) (CloudRift_Templates c))
    (cloudrift p) $
  search_kind Verda_Name providerSpecName
    (λ c, build_provider providerSpecName "verda"
            (Provider_Verda (Verda_ClientId c) (Verda_ClientSecret c) (optional (Verda_BaseUrl c)))
            (Verda_Templates c)) (verda p) $
  search_kind OVH_Name providerSpecName
    (λ c, build_provider providerSpecName "ovh"
            (Provider_Ovh (OVH_ClientId c) (OVH_ClientSecret c) (OVH_ServiceName c) (optional (OVH_Endpoint c)))
            (OVH_Templates c)) (ovh p) $
  Fail (String.append "failed to find provider with name: " providerSpecName).

Definition GetProvider `{Git} (ds : InputManifest) (providerSpecName : string) : outcome Provider :=
  let p := M_Providers ds in
  search_kind GCP_Name providerSpecName
    (λ c, build_provider (GCP_Name c) "gcp" (Provider_Gcp (GCP_Credentials c) (GCP_Project c)) (GCP_Templates c))
    (gcp p) $
  search_kind Hetzner_Name providerSpecName
    (λ c, build_provider (Hetzner_Name c) "hetzner" (Provider_Hetzner (Hetzner_Credentials c)) (Hetzner_Templates c))
    (hetzner p) $
  search_kind OCI_Name providerSpecName
    (λ c, build_provider (OCI_Name c) "oci"
            (Provider_Oci (OCI_UserOCID c) (OCI_TenancyOCID c) (OCI_KeyFingerprint c) (OCI_CompartmentID c)
               (OCI_PrivateKey c)) (OCI_Templates c)) (oci p) $
  search_kind Azure_Name providerSpecName
    (λ c, build_provider (Azure_Name c) "azure"
            (Provider_Azure (Azure_SubscriptionId c) (Azure_TenantId c) (Azure_ClientId c) (Azure_ClientSecret c))
            (Azure_Templates c)) (azure p) $
  search_kind AWS_Name providerSpecName
    (λ c, build_provider (AWS_Name c) "aws" (Provider_Aws (AWS_SecretKey c) (AWS_AccessKey c)) (AWS_Templates c))
    (aws p) $
  search_kind Cloudflare_Name providerSpecName
    (λ c, build_provider providerSpecName "cloudflare"
            (Provider_Cloudflare (Cloudflare_ApiToken c) (Cloudflare_AccountID c)) (Cloudflare_Templates c))
    (cloudflare p) $
  get_provider_rest p providerSpecName.

(** The providers in the order [ForEachProvider] visits them, with their type. *)
Definition ForEachProvider (ds : InputManifest) : list (string * string) :=
  let p := M_Providers ds in
  ((λ c, (GCP_Name c, "gcp")) <$> gcp p) ++ ((λ c, (Hetzner_Name c, "hetzner")) <$> hetzner p) ++
  ((λ c, (OCI_Name c, "oci")) <$> oci p) ++ ((λ c, (AWS_Name c, "aws")) <$> aws p) ++
  ((λ c, (Azure_Name c, "azure")) <$> azure p) ++ ((λ c, (Cloudflare_Name c, "cloudflare")) <$> cloudflare p) ++
  ((λ c, (Openstack_Name c, "openstack")) <$> openstack p) ++
  ((λ c, (Exoscale_Name c, "exoscale")) <$> exoscale p) ++
  ((λ c, (CloudRift_Name c, "cloudrift")) <$> cloudrift p) ++ ((λ c, (Verda_Name c, "verda")) <$> verda p) ++
  ((λ c, (OVH_Name c, "ovh")) <$> ovh p).

Definition GetProviderType (ds : InputManifest) (provider : string) : option string :=
  snd <$> find_first (λ c, bool_decide (c.1 = provider)) (ForEachProvider ds).

Definition IsKubernetesClusterPresent (m : InputManifest) (name : string) : bool :=
  existsb (λ c, bool_decide (Cluster_Name c = name)) (M_Clusters m).

Definition FindDynamicNodePool (ds : InputManifest) (nodePoolName : string) : option DynamicPool :=
  find_first (λ np, bool_decide (DP_Name np = nodePoolName)) (M_Dynamic ds).

Definition FindStaticNodePool (ds : InputManifest) (nodePoolName : string) : option StaticPool :=
  find_first (λ np, bool_decide (SP_Name np = nodePoolName)) (M_Static ds).

Definition isDefined (a : AutoscalerConfig) : bool := bool_decide (0 ≤ AC_Min a)%Z && bool_decide (0 < AC_Max a)%Z.

Definition resolveSSHPort (port : option Z) : Z := default DefaultSSHPort port.

Definition getNodeKeys (nodepool : StaticPool) : gmap string string :=
  foldl (λ m n, <[SN_Endpoint n := SN_Key n]> m) ∅ (SP_Nodes nodepool).

(** The node at index [i]; [%02x] of [uint8(i+1)]. *)
Definition static_node (np : StaticPool) (isControl : bool) (i : nat) (node : StaticNode) : Node :=
  mkNode (node_name (SP_Name np) (uint8 (Z.of_nat i + 1))) "" (SN_Endpoint node)
    (if isControl then master else worker) (SN_Username node) Preparing 0 0.

Definition staticNodes (np : StaticPool) (isControl : bool) : outcome (list Node) :=
  if bool_decide (255 < length (SP_Nodes np))
  then Panic "static nodepool defined more than 255 nodes, which is the claudie internal maximum"
  else Ret (imap (static_node np isControl) (SP_Nodes np)).

(** Conversions from [int] to [int32]; the GPU count falls back to the
    deprecated field. *)
Definition machine_spec (m : MachineSpecConf) : MachineSpec :=
  let gpuCount := int32 (MSC_NvidiaGpuCount m) in
  let gpuCount := if bool_decide (gpuCount = 0%Z) && bool_decide (0 < MSC_NvidiaGpu m)%Z
                  then int32 (MSC_NvidiaGpu m) else gpuCount in
  mkMachineSpec (int32 (MSC_CpuCount m)) (int32 (MSC_Memory m)) gpuCount (MSC_NvidiaGpuType m).

Definition dynamic_pool (np : DynamicPool) (isControl : bool) (provider : Provider) : NodePool :=
  let autoscalerConf := if isDefined (DP_AutoscalerConfig np)
                        then Some (mkAutoscalerConf (AC_Min (DP_AutoscalerConfig np))
                                     (AC_Max (DP_AutoscalerConfig np)) (AC_Min (DP_AutoscalerConfig np)))
                        else None in
  let count := match autoscalerConf with Some a => Autoscaler_TargetSize a | None => DP_Count np end in
  let ps := DP_ProviderSpec np in
  mkNodePool
    (NodePool_DynamicNodePool
       (mkDynamicNodePool (DP_ServerType np) (DP_Image np) (default defaultDiskSize (DP_StorageDiskSize np))
          (PS_Region ps) (PS_Zone ps) count provider autoscalerConf (machine_spec <$> DP_MachineSpec np)
          "" "" "" (PS_ExternalNetworkName ps) (DP_Spot np)))
    (DP_Name np) [] isControl (DP_Labels np) (DP_Taints np) (DP_Annotations np) 0.

Definition static_pool (np : StaticPool) (isControl : bool) (nodes : list Node) : NodePool :=
  mkNodePool (NodePool_StaticNodePool (mkStaticNodePool (getNodeKeys np))) (SP_Name np) nodes isControl
    (SP_Labels np) (SP_Taints np) (SP_Annotations np) (resolveSSHPort (SP_SshPort np)).

Definition create_nodepool `{Git} (ds : InputManifest) (isControl : bool) (nodePoolName : string)
    : outcome NodePool :=
  match FindDynamicNodePool ds nodePoolName with
  | Some np =>
      let* provider := GetProvider ds (PS_Name (DP_ProviderSpec np)) in
      Ret (dynamic_pool np isControl provider)
  | None =>
      match FindStaticNodePool ds nodePoolName with
      | Some np => let* nodes := staticNodes np isControl in Ret (static_pool np isControl nodes)
      | None => Fail (String.append "nodepool " (String.append nodePoolName " not defined"))
      end
  end.

Definition CreateNodepools `{Git} (ds : InputManifest) (pools : list string) (isControl : bool)
    : outcome (list NodePool) :=
  mapM (create_nodepool ds isControl) pools.

(** Whether a pool is defined and whether it is static. *)
Definition nodePoolDefined (ds : InputManifest) (pool : string) : bool * bool :=
  if existsb (λ np, bool_decide (SP_Name np = pool)) (M_Static ds) then (true, true)
  else if existsb (λ np, bool_decide (DP_Name np = pool)) (M_Dynamic ds) then (true, false)
  else (false, false).

End Manifest.
