(* ===== verification/Validate.v ===== *)
(** * Validation of the input manifest (internal/api/manifest/validate*.go)

    What the operator and the manager check before a manifest is accepted.
    The struct tags are checked by go-playground/validator and label syntax by
    k8s.io/apimachinery, both outside: the class [Validator] holds their
    verdicts.  The rest, the checks across sections of the manifest, is
    modelled here statement by statement, in the order of the code. *)

From stdpp Require Import base gmap strings list pretty.
From S2P Require Import Prelude Spec SpecUtils Samples NodePools GenerateState Manifest.

Import NodePools GenerateState Manifest.

(** [None] is "valid", [Some e] the error. *)
Class Validator := {
  Struct_Manifest : InputManifest → option string;
  Struct_Cluster : Cluster → option string;
  Struct_Role : ManifestRole → option string;
  Struct_LoadBalancer : LoadBalancerCluster → option string;
  Struct_Dynamic : DynamicPool → option string;
  Struct_Static : StaticPool → option string;
  IsQualifiedName : string → bool;
  IsValidLabelValue : string → bool
}.

(** Checks the tags whose bounds the theorems rely on; used to evaluate. *)
#[export] Instance tag_validator : Validator :=
  {| Struct_Manifest _ := None;
     Struct_Cluster _ := None;
     Struct_Role _ := None;
     Struct_LoadBalancer _ := None;
     Struct_Dynamic d := if bool_decide (AC_Max (DP_AutoscalerConfig d) ≤ 255)%Z then None else Some "max";
     Struct_Static _ := None;
     IsQualifiedName s := bool_decide (s ≠ "");
     IsValidLabelValue _ := true |}.

Module Validate.

(** [if cond { return fmt.Errorf(..) }] *)
Definition reject (cond : bool) (err : string) : outcome () := if cond then Fail err else Ret ().

(** [if err := f(); err != nil { return fmt.Errorf("..: %w", err) }] *)
Definition wrap {A} (ctx : string) (m : outcome A) : outcome A :=
  match m with Fail e => Fail (String.append ctx e) | m => m end.

Definition accept (err : option string) : outcome () :=
  match err with Some e => Fail e | None => Ret () end.

(** A loop that threads its variables and may return early with an error. *)
Fixpoint for_each {A B} (body : B → A → outcome B) (vars : B) (l : list A) : outcome B :=
  match l with
  | [] => Ret vars
  | x :: l => let* vars := body vars x in for_each body vars l
  end.

Section validate.
Context `{Validator}.

(** ** validate_node_pool.go *)

Definition TotalAnnotationSizeLimitB : Z := (256 * 1024)%Z.

Definition IsReferenced (name : string) (m : InputManifest) : bool :=
  existsb (λ k8s, contains (Cluster_Control k8s) name || contains (Cluster_Compute k8s) name) (M_Clusters m) ||
  existsb (λ lb, contains (LBC_Pools lb) name) (M_LoadBalancers m).

Definition isControlPlane (name : string) (m : InputManifest) : bool :=
  existsb (λ k8s, contains (Cluster_Control k8s) name) (M_Clusters m).

Definition validateGCPGpuConfig (d : DynamicPool) (m : InputManifest) : outcome () :=
  match GetProviderType m (PS_Name (DP_ProviderSpec d)) with
  | None => Ret ()
  | Some providerType =>
      if bool_decide (providerType ≠ "gcp") then Ret ()
      else match DP_MachineSpec d with
           | None => Ret ()
           | Some ms =>
               let gpuCount := if bool_decide (MSC_NvidiaGpuCount ms = 0%Z) then MSC_NvidiaGpu ms
                               else MSC_NvidiaGpuCount ms in
               reject (bool_decide (0 < gpuCount)%Z && bool_decide (MSC_NvidiaGpuType ms = ""))
                 "nvidiaGpuType is required for GCP when nvidiaGpuCount > 0"
           end
  end.

Definition validateSpot (d : DynamicPool) (m : InputManifest) : outcome () :=
  if negb (DP_Spot d) then Ret ()
  else match GetProviderType m (PS_Name (DP_ProviderSpec d)) with
       | None => Ret ()
       | Some providerType =>
           let* _ := reject (negb (contains ["gcp"; "verda"; "aws"; "azure"; "oci"] providerType))
                       "spot instances are only supported on GCP, Verda, AWS, Azure, OCI" in
           reject (isControlPlane (DP_Name d) m)
             "spot instances are not allowed on control-plane nodepools (etcd data-corruption hazard)"
       end.

Definition validate_dynamic (d : DynamicPool) (m : InputManifest) : outcome () :=
  let* _ := reject (match DP_StorageDiskSize d with
                    | Some s => negb (bool_decide (s = 0%Z) || bool_decide (50 ≤ s)%Z)
                    | None => false
                    end) "storageDiskSize size must be either 0 or >= 50" in
  let* _ := reject (bool_decide (255 < DP_Count d)%Z) "max available count for a nodepool is 255" in
  let* _ := validateGCPGpuConfig d m in
  let* _ := validateSpot d m in
  accept (Struct_Dynamic d).

Definition checkTaints (taints : list Taint) : outcome () :=
  for_each (λ _ t,
    let* _ := reject (negb (contains ["NoSchedule"; "NoExecute"; "PreferNoSchedule"] (Taint_Effect t)))
                "taint effect is not supported" in
    let* _ := reject (negb (IsQualifiedName (Taint_Key t))) "invalid taint key" in
    reject (negb (IsValidLabelValue (Taint_Value t))) "value is not valid") () taints.

(** Go visits the map in some order; the verdict does not depend on it. *)
Definition checkLabels (labels : gmap string string) : outcome () :=
  for_each (λ _ '(k, v),
    let* _ := reject (negb (IsQualifiedName k)) "key is not valid" in
    reject (negb (IsValidLabelValue v)) "value is not valid") () (map_to_list labels).

(** The sum is an [int64], far from overflowing. *)
Definition checkAnnotations (annotations : gmap string string) : outcome () :=
  let* totalSize :=
    for_each (λ (size : Z) '(k, v),
      let* _ := reject (negb (IsQualifiedName (ToLower k))) "key is not valid" in
      Ret (size + Z.of_nat (String.length k) + Z.of_nat (String.length v))%Z) 0%Z (map_to_list annotations) in
  reject (bool_decide (TotalAnnotationSizeLimitB < totalSize)%Z) "annotations size is larger than limit".

(** The first loop; [names] are the pool names seen so far. *)
Definition validate_dynamic_entry (m : InputManifest) (names : gset string) (n : DynamicPool) : outcome (gset string) :=
  let* _ := reject (negb (IsReferenced (DP_Name n) m)) "unused nodepool, unused nodepools are not allowed" in
  let* _ := reject (bool_decide (GetProviderType m (PS_Name (DP_ProviderSpec n)) = None)) "provider doesn't exists" in
  let* _ := wrap "failed to validate DynamicNodePool: " (validate_dynamic n m) in
  let* _ := reject (bool_decide (DP_Name n ∈ names)) "name is used across multiple node pools, must be unique" in
  let* _ := reject (bool_decide (DP_Count n ≠ 0%Z) && isDefined (DP_AutoscalerConfig n))
              "nodepool cannot have both, autoscaler enabled and count defined" in
  let* _ := wrap "nodepool has incorrectly defined taints: " (checkTaints (DP_Taints n)) in
  let* _ := wrap "nodepool has incorrectly defined labels: " (checkLabels (DP_Labels n)) in
  Ret ({[DP_Name n]} ∪ names).

(** The second loop also records the endpoints in use. *)
Definition validate_static_entry (m : InputManifest) (vars : gset string * gset string) (n : StaticPool)
    : outcome (gset string * gset string) :=
  let '(names, reusedStaticIp) := vars in
  let* _ := reject (negb (IsReferenced (SP_Name n) m)) "unused nodepool, unused nodepools are not allowed" in
  let* _ := wrap "failed to validate StaticNodePool: " (accept (Struct_Static n)) in
  let* ips := for_each (λ (ips : gset string) sn,
                let* _ := reject (bool_decide (SN_Endpoint sn ∈ ips)) "same IP is referenced by multiple static nodes" in
                Ret ({[SN_Endpoint sn]} ∪ ips)) reusedStaticIp (SP_Nodes n) in
  let* _ := reject (bool_decide (SP_Name n ∈ names)) "name is used across multiple node pools, must be unique" in
  let* _ := wrap "nodepool has incorrectly defined taints: " (checkTaints (SP_Taints n)) in
  let* _ := wrap "nodepool has incorrectly defined labels: " (checkLabels (SP_Labels n)) in
  let* _ := wrap "nodepool has incorrectly defined annotations: " (checkAnnotations (SP_Annotations n)) in
  Ret ({[SP_Name n]} ∪ names, ips).

Definition validate_nodepools (m : InputManifest) : outcome () :=
  let* names := for_each (validate_dynamic_entry m) ∅ (M_Dynamic m) in
  let* _ := for_each (validate_static_entry m) (names, ∅) (M_Static m) in
  Ret ().

(** ** validate_kubernetes.go *)

(** The control loop and the compute loop of [validateNodepools]. *)
Definition validateNodepools (m : InputManifest) (cluster : Cluster) : outcome () :=
  let* controlNames := for_each (λ (controlNames : gset string) pool,
      let* _ := reject (negb (nodePoolDefined m pool).1) "control nodepool not defined inside manifest" in
      let* _ := reject (bool_decide (pool ∈ controlNames)) "nodepool used multiple times as control nodepool" in
      Ret ({[pool]} ∪ controlNames)) ∅ (Cluster_Control cluster) in
  let* _ := for_each (λ (computeNames : gset string) pool,
      let* _ := reject (negb (nodePoolDefined m pool).1) "compute nodepool not defined inside manifest" in
      let* _ := reject (bool_decide (pool ∈ computeNames)) "nodepool used multiple times as compute nodepool" in
      let* _ := reject ((nodePoolDefined m pool).2 && bool_decide (pool ∈ controlNames))
                  "static nodepool used multiple times across control and compute planes" in
      Ret ({[pool]} ∪ computeNames)) ∅ (Cluster_Compute cluster) in
  Ret ().

(** [static pool name] to the cluster that uses it. *)
Definition claim_pool (m : InputManifest) (cluster : string) (reused : gmap string string) (pool : string)
    : outcome (gmap string string) :=
  if negb (nodePoolDefined m pool).2 then Ret reused
  else
    let* _ := reject (match reused !! pool with Some c => bool_decide (c ≠ cluster) | None => false end)
                "static nodepool used multiple times across clusters" in
    Ret (<[pool := cluster]> reused).

Definition validateStaticNodepool (m : InputManifest) (clusters : list Cluster) : outcome (gmap string string) :=
  for_each (λ reused cluster,
    let* reused := for_each (claim_pool m (Cluster_Name cluster)) reused (Cluster_Control cluster) in
    for_each (claim_pool m (Cluster_Name cluster)) reused (Cluster_Compute cluster)) ∅ clusters.

Definition validate_kubernetes_entry (m : InputManifest) (names : gset string) (cluster : Cluster)
    : outcome (gset string) :=
  let* _ := wrap "failed to validate kubernetes cluster: " (accept (Struct_Cluster cluster)) in
  let* _ := reject (bool_decide (Cluster_Name cluster ∈ names)) "name is used across multiple clusters, must be unique" in
  let* _ := wrap "failed to validate nodepools: " (validateNodepools m cluster) in
  Ret ({[Cluster_Name cluster]} ∪ names).

Definition validate_kubernetes (m : InputManifest) : outcome () :=
  let* _ := for_each (validate_kubernetes_entry m) ∅ (M_Clusters m) in
  let* _ := wrap "failed to validate static nodepools: " (validateStaticNodepool m (M_Clusters m)) in
  Ret ().

(** ** validate_load_balancer.go *)

Definition zero_role : ManifestRole := mkManifestRole "" "" 0 0 [] None.

(** The variables of the roles loop: roles by name, the last API server role. *)
Definition validate_role (m : InputManifest) (vars : gmap string ManifestRole * ManifestRole) (role : ManifestRole)
    : outcome (gmap string ManifestRole * ManifestRole) :=
  let '(roles, apiServerRole) := vars in
  let* _ := wrap "failed to validate role: " (accept (Struct_Role role)) in
  let* apiServerRole :=
    if bool_decide (MR_TargetPort role = APIServerPort) then
      let* _ := reject (bool_decide (MR_Port role ≠ APIServerPort))
                  "as of now, only port '6443' is supported for the kubernetes Api server port" in
      Ret role
    else Ret apiServerRole in
  let* _ := reject (bool_decide (is_Some (roles !! MR_Name role))) "name is used across multiple roles, must be unique" in
  let* _ := reject (bool_decide (ReservedPortRangeStart ≤ MR_Port role < ReservedPortRangeEnd)%Z)
              "role uses port which is from a reserved port range" in
  let* _ := for_each (λ (seen : gset string) np,
      let* _ := reject (negb (nodePoolDefined m np).1) "role targets undefined nodepool" in
      let* _ := reject (bool_decide (np ∈ seen)) "role has target pool referenced more than once" in
      Ret ({[np]} ∪ seen)) ∅ (MR_TargetPools role) in
  Ret (<[MR_Name role := role]> roles, apiServerRole).

(** Every pool of the list is used by the targeted cluster, as [uses] says. *)
Definition targets_valid (m : InputManifest) (uses : Cluster → string → bool) (targetedK8s : string)
    (pools : list string) : bool :=
  forallb (λ k8s, negb (bool_decide (Cluster_Name k8s = targetedK8s)) || forallb (uses k8s) pools) (M_Clusters m).

Definition in_cluster (k8s : Cluster) (np : string) : bool :=
  contains (Cluster_Control k8s) np || contains (Cluster_Compute k8s) np.
Definition in_control (k8s : Cluster) (np : string) : bool := contains (Cluster_Control k8s) np.

(** One role of a load balancer; [apiServerLBExists] holds the clusters that
    have an API server load balancer already. *)
Definition validate_lb_role (m : InputManifest) (roles : gmap string ManifestRole) (apiServerRole : ManifestRole)
    (cluster : LoadBalancerCluster) (apiServerLBExists : gset string) (role : string) : outcome (gset string) :=
  match roles !! role with
  | None => Fail "role used inside cluster is not defined"
  | Some roleDef =>
      let* _ := reject (negb (targets_valid m in_cluster (LBC_TargetedK8s cluster) (MR_TargetPools roleDef)))
                  "role definition targets nodepool which is not used by the target k8s cluster" in
      if bool_decide (role = MR_Name apiServerRole) then
        let* _ := reject (bool_decide (LBC_TargetedK8s cluster ∈ apiServerLBExists))
                    "role is used across multiple load-balancers. Can have only one kubeapi-server load-balancer per k8s-cluster" in
        let* _ := reject (bool_decide (MD_AlternativeNames (LBC_DNS cluster) ≠ []))
                    "cannot have alternative names for the kubeapi-server load-balancer cluster" in
        let* _ := reject (negb (targets_valid m in_control (LBC_TargetedK8s cluster) (MR_TargetPools apiServerRole)))
                    "api server role must only target control nodepools" in
        Ret ({[LBC_TargetedK8s cluster]} ∪ apiServerLBExists)
      else Ret apiServerLBExists
  end.

Definition same_zone (hostnamesPerDNS : gmap string string) (name zone : string) : bool :=
  bool_decide (hostnamesPerDNS !! name = Some zone).

(** The alternative names of one load balancer. *)
Definition validate_alternative (cluster : LoadBalancerCluster) (vars : gset string * gmap string string) (n : string)
    : outcome (gset string * gmap string string) :=
  let '(seen, hostnamesPerDNS) := vars in
  let dns := LBC_DNS cluster in
  let* _ := reject (bool_decide (n ∈ seen)) "duplicate alternative names, must be unique" in
  let* _ := reject (bool_decide (MD_Hostname dns ≠ "") && bool_decide (n = MD_Hostname dns))
              "alternative name has the same value as hostname, must be unique" in
  let* _ := reject (same_zone hostnamesPerDNS n (MD_DNSZone dns))
              "alternative name is used across multiple clusters for the same DNS zone, must be unique" in
  Ret ({[n]} ∪ seen, <[n := MD_DNSZone dns]> hostnamesPerDNS).

Record LbVars := mkLbVars {
  hostnamesPerDNS : gmap string string;
  lbNames : gset string;
  apiServerLBExists : gset string }.

Definition validate_lb (m : InputManifest) (roles : gmap string ManifestRole) (apiServerRole : ManifestRole)
    (vars : LbVars) (cluster : LoadBalancerCluster) : outcome LbVars :=
  let dns := LBC_DNS cluster in
  let* _ := reject (bool_decide (MaxRolesPerLoadBalancer < Z.of_nat (length (LBC_Roles cluster)))%Z)
              "a single loadbalancer cannot have more than 1018 roles assigned" in
  let* _ := reject (bool_decide (LBC_Name cluster ∈ lbNames vars)) "name is used across multiple clusters, must be unique" in
  let* _ := wrap "failed to validate cluster: " (accept (Struct_LoadBalancer cluster)) in
  let* apis := for_each (validate_lb_role m roles apiServerRole cluster) (apiServerLBExists vars) (LBC_Roles cluster) in
  let* (_, hosts) := for_each (validate_alternative cluster) (∅, hostnamesPerDNS vars) (MD_AlternativeNames dns) in
  let* _ := reject (same_zone hosts (MD_Hostname dns) (MD_DNSZone dns))
              "hostname is used across multiple clusters for the same DNS zone, must be unique" in
  let hosts := if bool_decide (MD_Hostname dns ≠ "") then <[MD_Hostname dns := MD_DNSZone dns]> hosts else hosts in
  match GetProviderType m (MD_Provider dns) with
  | None => Fail "provider used inside cluster is not defined"
  | Some providerTyp =>
      let* _ := reject (negb (contains ["gcp"; "aws"; "azure"; "oci"; "cloudflare"; "hetzner"; "exoscale"; "ovh"] providerTyp))
                  "provider exists but is not a supported provider" in
      let* _ := reject (negb (IsKubernetesClusterPresent m (LBC_TargetedK8s cluster))) "target k8s is not defined" in
      let* _ := for_each (λ (poolNames : gset string) pool,
          let* _ := reject (negb (nodePoolDefined m pool).1) "nodepool used inside cluster is not defined" in
          let* _ := reject (bool_decide (pool ∈ poolNames)) "nodepool used multiple times as a loadbalancer nodepool" in
          Ret ({[pool]} ∪ poolNames)) ∅ (LBC_Pools cluster) in
      Ret (mkLbVars hosts ({[LBC_Name cluster]} ∪ lbNames vars) apis)
  end.

(** A failed [validateStaticNodepool] yields a nil map here. *)
Definition validateLBStaticNodePool (m : InputManifest) (clusters : list LoadBalancerCluster) : outcome () :=
  for_each (λ _ cluster,
    for_each (λ _ pool,
      if negb (nodePoolDefined m pool).2 then Ret ()
      else
        let used := match validateStaticNodepool m (M_Clusters m) with Ret used => used | _ => ∅ end in
        reject (bool_decide (is_Some (used !! pool)))
          "static nodepool used multiple times as a loadbalancer and as a control/compute plane nodepool")
      () (LBC_Pools cluster)) () clusters.

Definition validate_loadbalancers (m : InputManifest) : outcome () :=
  let* (roles, apiServerRole) := for_each (validate_role m) (∅, zero_role) (M_Roles m) in
  let* _ := for_each (validate_lb m roles apiServerRole) (mkLbVars ∅ ∅ ∅) (M_LoadBalancers m) in
  wrap "failed to validate static nodepools: " (validateLBStaticNodePool m (M_LoadBalancers m)).

(** ** check_future_domain.go *)

Definition maxLength : Z := 80.
Definition baseLength : Z := (8 + 15 + 19)%Z.

Definition getCount (m : InputManifest) (nodepoolName : string) : Z :=
  match FindDynamicNodePool m nodepoolName with
  | Some n => DP_Count n
  | None => match FindStaticNodePool m nodepoolName with
            | Some n => Z.of_nat (length (SP_Nodes n))
            | None => -1
            end
  end.

Definition checkNodepoolDomain (m : InputManifest) (nodepoolName : string) : outcome () :=
  let count := getCount m nodepoolName in
  let* _ := reject (bool_decide (count = -1)%Z) "nodepool was not found, cannot validate the future domain" in
  let total := (1 + Z.of_nat (String.length nodepoolName) + Z.of_nat (String.length (pretty count)))%Z in
  reject (bool_decide (maxLength < total + baseLength)%Z) "nodepool name is too long, consider shortening it".

Definition CheckLengthOfFutureDomain (m : InputManifest) : outcome () :=
  for_each (λ _ cluster,
    let* _ := for_each (λ _ np, checkNodepoolDomain m np) () (Cluster_Control cluster) in
    for_each (λ _ np, checkNodepoolDomain m np) () (Cluster_Compute cluster)) () (M_Clusters m).

(** ** validate.go *)

Definition Validate (m : InputManifest) : outcome () :=
  let* _ := wrap "failed to validate manifest: " (accept (Struct_Manifest m)) in
  let* _ := reject (bool_decide (length (ForEachProvider m) < 1) && bool_decide (0 < length (M_Dynamic m)))
              "need to define at least one provider inside the providers section of the manifest" in
  let* _ := wrap "failed to validate nodepools section inside manifest: " (validate_nodepools m) in
  let* _ := wrap "failed to validate kubernetes section inside manifest: " (validate_kubernetes m) in
  let* _ := wrap "failed to validate loadbalancers section inside manifest: " (validate_loadbalancers m) in
  wrap "failed to validate future domains: " (CheckLengthOfFutureDomain m).
End validate.

(** ** Accepted checks *)

Lemma reject_Ret c e u : reject c e = Ret u → c = false.
Proof. by destruct c. Qed.

Lemma wrap_Ret {A} ctx (m : outcome A) a : wrap ctx m = Ret a → m = Ret a.
Proof. by destruct m. Qed.

Lemma accept_Ret e u : accept e = Ret u → e = None.
Proof. by destruct e. Qed.

(** Open a successful run into the facts its checks established. *)
Ltac accepted_facts :=
  repeat match goal with
  | Hx : reject _ _ = Ret _ |- _ => apply reject_Ret in Hx
  | Hx : wrap _ _ = Ret _ |- _ => apply wrap_Ret in Hx
  | Hx : accept _ = Ret _ |- _ => apply accept_Ret in Hx
  | Hx : bool_decide _ = false |- _ => apply bool_decide_eq_false in Hx
  | Hx : negb _ = false |- _ => apply negb_false_iff in Hx
  end.

Ltac accepted Hv := cbv beta in Hv; bind_inv Hv; accepted_facts.

Section loops.
Context {A B : Type}.
Implicit Types (body : B → A → outcome B).

Lemma for_each_ext body body' v l :
  (∀ v x, body v x = body' v x) → for_each body v l = for_each body' v l.
Proof.
  intros Hb. revert v. induction l as [|x l IH]; intros v; [done|]. simpl. rewrite Hb. by destruct (body' v x); simpl.
Qed.

Lemma for_each_Forall body (P : A → Prop) v l v' :
  (∀ v x v', body v x = Ret v' → P x) → for_each body v l = Ret v' → Forall P l.
Proof.
  intros Hb. revert v. induction l as [|x l IH]; intros v; simpl; [constructor|].
  destruct (body v x) as [w|?|?] eqn:E; simpl; [|done..]. intros Hl. constructor; [by eapply Hb|by eapply IH].
Qed.

(** A loop that records [f x] in a set and rejects what it has recorded. *)
Lemma for_each_seen body (f : A → list string) (seen : B → gset string) v l v' :
  (∀ v x v', body v x = Ret v' →
     NoDup (f x) ∧ (∀ y, y ∈ f x → y ∉ seen v) ∧ seen v' = list_to_set (f x) ∪ seen v) →
  for_each body v l = Ret v' →
  NoDup (l ≫= f) ∧ (∀ y, y ∈ l ≫= f → y ∉ seen v) ∧ seen v' = list_to_set (l ≫= f) ∪ seen v.
Proof.
  intros Hb. revert v. induction l as [|x l IH]; intros v; simpl.
  { intros [= ->]. split; [constructor|]. split; [|set_solver]. intros y Hy. by apply not_elem_of_nil in Hy. }
  destruct (body v x) as [w|?|?] eqn:E; simpl; [|done..]. intros Hl.
  destruct (Hb _ _ _ E) as (Hnd & Hnot & Hseen). destruct (IH w Hl) as (Hnd' & Hnot' & Hseen'). split; [|split].
  - apply NoDup_app. split; [done|]. split; [|done]. intros y Hy Hy'. apply (Hnot' y Hy'). set_solver.
  - intros y [Hy|Hy]%elem_of_app; [by apply Hnot|]. specialize (Hnot' y Hy). set_solver.
  - rewrite Hseen', Hseen, list_to_set_app_L. set_solver.
Qed.
End loops.

(** One name per element. *)
Lemma for_each_unique {A} (body : gset string → A → outcome (gset string)) (f : A → string) s l s' :
  (∀ s x s', body s x = Ret s' → (f x ∉ s) ∧ s' = {[f x]} ∪ s) →
  for_each body s l = Ret s' → NoDup (f <$> l) ∧ (∀ x, x ∈ l → f x ∉ s) ∧ s' = list_to_set (f <$> l) ∪ s.
Proof.
  intros Hb Hl.
  destruct (for_each_seen body (λ x, [f x]) id s l s') as (Hnd & Hnot & Hs).
  - intros v x v' [Hx ->]%Hb. split; [apply NoDup_singleton|]. split; [|simpl; set_solver].
    intros y ->%list_elem_of_singleton. done.
  - done.
  - assert (E : l ≫= (λ x, [f x]) = f <$> l).
    { clear. induction l as [|x l IH]; [done|]. csimpl. by rewrite IH. }
    rewrite E in *. split; [done|]. split; [|done]. intros x Hx. by apply Hnot, list_elem_of_fmap_2.
Qed.

Section sound.
Context `{Validator} (m : InputManifest).

(** The pools of a valid manifest. *)
Definition pools_valid : Prop :=
  NoDup ((DP_Name <$> M_Dynamic m) ++ (SP_Name <$> M_Static m)) ∧
  NoDup (M_Static m ≫= λ n, SN_Endpoint <$> SP_Nodes n) ∧
  Forall (λ d, (DP_Count d ≤ 255)%Z ∧ Struct_Dynamic d = None ∧
    is_Some (GetProviderType m (PS_Name (DP_ProviderSpec d))) ∧
    IsReferenced (DP_Name d) m = true ∧ (DP_Count d = 0%Z ∨ isDefined (DP_AutoscalerConfig d) = false))
    (M_Dynamic m).

Lemma validate_dynamic_entry_Ret names d names' :
  validate_dynamic_entry m names d = Ret names' →
  (DP_Name d ∉ names) ∧ names' = {[DP_Name d]} ∪ names ∧
  (DP_Count d ≤ 255)%Z ∧ Struct_Dynamic d = None ∧
  is_Some (GetProviderType m (PS_Name (DP_ProviderSpec d))) ∧
  IsReferenced (DP_Name d) m = true ∧ (DP_Count d = 0%Z ∨ isDefined (DP_AutoscalerConfig d) = false).
Proof.
  unfold validate_dynamic_entry. intros Hv. accepted Hv. subst names'.
  match goal with Hd : validate_dynamic _ _ = _ |- _ => unfold validate_dynamic in Hd; accepted Hd end.
  split_and!; try done; [lia|..].
  - by apply not_eq_None_Some.
  - match goal with Hx : bool_decide _ && _ = false |- _ => apply andb_false_iff in Hx as [Hx|Hx]; [left|by right] end.
    match goal with Hx : bool_decide (_ ≠ _) = false |- _ => apply bool_decide_eq_false in Hx end. lia.
Qed.

Lemma validate_static_entry_Ret vars n vars' :
  validate_static_entry m vars n = Ret vars' →
  (SP_Name n ∉ vars.1) ∧ vars'.1 = {[SP_Name n]} ∪ vars.1 ∧
  NoDup (SN_Endpoint <$> SP_Nodes n) ∧ (∀ y, y ∈ SN_Endpoint <$> SP_Nodes n → y ∉ vars.2) ∧
  vars'.2 = list_to_set (SN_Endpoint <$> SP_Nodes n) ∪ vars.2.
Proof.
  destruct vars as [names ips]. unfold validate_static_entry. intros Hv. accepted Hv. subst vars'. simpl.
  match goal with Hx : for_each ?b ips (SP_Nodes n) = Ret ?ips' |- _ =>
    destruct (for_each_unique b SN_Endpoint ips (SP_Nodes n) ips') as (Hnd & Hnot & ->); [|exact Hx|] end.
  - intros s sn s' Hb. accepted Hb. done.
  - split_and!; try done. intros y (sn & -> & Hsn)%list_elem_of_fmap. by apply Hnot.
Qed.

Lemma validate_nodepools_sound : validate_nodepools m = Ret () → pools_valid.
Proof.
  unfold validate_nodepools. intros Hv. accepted Hv.
  match goal with Hd : for_each (validate_dynamic_entry m) ∅ _ = Ret ?n,
                  Hs : for_each (validate_static_entry m) (?n, ∅) _ = Ret ?v |- _ =>
    destruct (for_each_unique (validate_dynamic_entry m) DP_Name ∅ _ n (λ s x s' E,
       let P := validate_dynamic_entry_Ret s x s' E in conj (proj1 P) (proj1 (proj2 P))) Hd) as (Hnd & _ & Hn);
    destruct (for_each_seen (validate_static_entry m) (λ n, [SP_Name n]) fst (n, ∅) (M_Static m) v)
      as (Hsn & Hsd & _); [|exact Hs|];
    [|destruct (for_each_seen (validate_static_entry m) (λ n, SN_Endpoint <$> SP_Nodes n) snd (n, ∅) (M_Static m) v)
      as (Hips & _ & _); [|exact Hs|]];
    [..|pose proof (for_each_Forall _ _ _ _ _ (λ s x s' E, proj2 (proj2 (validate_dynamic_entry_Ret s x s' E))) Hd)]
  end.
  - intros w sp w' (Hsp & -> & _)%validate_static_entry_Ret. split; [apply NoDup_singleton|].
    split; [|simpl; set_solver]. by intros y ->%list_elem_of_singleton.
  - intros w sp w' (_ & _ & Hsp & Hy & ->)%validate_static_entry_Ret. by split_and!.
  - assert (E : M_Static m ≫= (λ n, [SP_Name n]) = SP_Name <$> M_Static m).
    { clear. induction (M_Static m) as [|x l IH]; [done|]. csimpl. by rewrite IH. }
    rewrite E in *. split_and!; try done. apply NoDup_app. split_and!; try done.
    intros y Hy Hy'. apply (Hsd y Hy'). simpl. rewrite Hn. set_solver.
Qed.

(** The clusters of a valid manifest: their pools are defined and not used
    twice, a static pool not even across the roles. *)
Definition cluster_valid (c : Cluster) : Prop :=
  NoDup (Cluster_Control c) ∧ NoDup (Cluster_Compute c) ∧
  Forall (λ pool, (nodePoolDefined m pool).1 = true) (Cluster_Control c ++ Cluster_Compute c) ∧
  Forall (λ pool, (nodePoolDefined m pool).2 = false ∨ pool ∉ Cluster_Control c) (Cluster_Compute c).

Lemma fmap_id_eq {A} (l : list A) : (λ x, x) <$> l = l.
Proof. apply list_fmap_id. Qed.

(** The two loops of [validateNodepools]. *)
Lemma control_loop (l : list string) s s' :
  for_each (λ (controlNames : gset string) pool,
      let* _ := reject (negb (nodePoolDefined m pool).1) "control nodepool not defined inside manifest" in
      let* _ := reject (bool_decide (pool ∈ controlNames)) "nodepool used multiple times as control nodepool" in
      Ret ({[pool]} ∪ controlNames)) s l = Ret s' →
  NoDup l ∧ s' = list_to_set l ∪ s ∧ Forall (λ pool, (nodePoolDefined m pool).1 = true) l.
Proof.
  intros Hl. match type of Hl with for_each ?b _ _ = _ =>
    destruct (for_each_unique b (λ x, x) s l s') as (Hnd & _ & Hs);
    [intros w x w' Hb; accepted Hb; done|exact Hl|]; rewrite fmap_id_eq in *;
    pose proof (for_each_Forall b (λ pool, (nodePoolDefined m pool).1 = true) s l s') as HF end.
  split; [done|]. split; [done|]. apply HF; [|exact Hl]. intros w x w' Hb. by accepted Hb.
Qed.

Lemma validateNodepools_sound c : validateNodepools m c = Ret () → cluster_valid c.
Proof.
  unfold validateNodepools. intros Hv. accepted Hv. apply control_loop in Hx as (Hnd & -> & Hdef).
  match type of Hx0 with for_each ?b _ _ = Ret ?s' =>
    destruct (for_each_unique b (λ x, x) ∅ (Cluster_Compute c) s') as (Hnd2 & _ & _);
    [intros w pool w' Hb; accepted Hb; done|exact Hx0|]; rewrite fmap_id_eq in Hnd2;
    pose proof (for_each_Forall b (λ pool, (nodePoolDefined m pool).1 = true ∧
      ((nodePoolDefined m pool).2 = false ∨ pool ∉ Cluster_Control c)) ∅ (Cluster_Compute c) s') as HF end.
  assert (HF' := HF ltac:(intros w pool w' Hb; accepted Hb; split; [done|];
    match goal with Hx : _ && _ = false |- _ => apply andb_false_iff in Hx as [Hx|Hx]; [by left|right] end;
    match goal with Hx : bool_decide (pool ∈ _) = false |- _ => apply bool_decide_eq_false in Hx end;
    set_solver) Hx0).
  split; [done|]. split; [done|]. split.
  - apply Forall_app. split; [done|]. eapply Forall_impl; [exact HF'|]. by intros pool [? _].
  - eapply Forall_impl; [exact HF'|]. by intros pool [_ ?].
Qed.

Lemma validate_kubernetes_sound :
  validate_kubernetes m = Ret () → NoDup (Cluster_Name <$> M_Clusters m) ∧ Forall cluster_valid (M_Clusters m).
Proof.
  unfold validate_kubernetes. intros Hv. accepted Hv.
  match type of Hx with _ = Ret ?s' =>
    destruct (for_each_unique (validate_kubernetes_entry m) Cluster_Name ∅ (M_Clusters m) s') as (Hnd & _ & _);
    [intros w c w' Hb; unfold validate_kubernetes_entry in Hb; accepted Hb; done|exact Hx|] end.
  split; [done|]. eapply for_each_Forall; [|exact Hx]. intros w c w' Hb.
  unfold validate_kubernetes_entry in Hb. accepted Hb.
  match goal with Hn : validateNodepools m c = Ret ?u |- _ => destruct u; by apply validateNodepools_sound end.
Qed.

(** Roles and load balancers of a valid manifest. *)
Definition role_valid (r : ManifestRole) : Prop :=
  ¬ (ReservedPortRangeStart ≤ MR_Port r < ReservedPortRangeEnd)%Z ∧
  (MR_TargetPort r = APIServerPort → MR_Port r = APIServerPort).

Lemma validate_role_Ret vars r vars' :
  validate_role m vars r = Ret vars' →
  role_valid r ∧ vars.1 !! MR_Name r = None ∧ vars'.1 = <[MR_Name r := r]> vars.1.
Proof.
  destruct vars as [roles api]. unfold validate_role. intros Hv. accepted Hv. subst vars'. simpl.
  split; [|split; [by apply eq_None_not_Some|done]]. split; [done|].
  case_bool_decide; [|done]. intros _.
  match goal with Ha : bindO _ _ = Ret _ |- _ => accepted Ha end. by apply dec_stable.
Qed.

Lemma roles_loop l vars vars' :
  for_each (validate_role m) vars l = Ret vars' →
  Forall role_valid l ∧ NoDup (MR_Name <$> l) ∧
  (∀ name r, vars'.1 !! name = Some r → vars.1 !! name = Some r ∨ (r ∈ l ∧ MR_Name r = name)).
Proof.
  intros Hl. split; [|split].
  - eapply for_each_Forall; [|exact Hl]. intros v r v' Hr. by apply validate_role_Ret in Hr as [? _].
  - destruct (for_each_seen (validate_role m) (λ r, [MR_Name r]) (λ v, dom v.1) vars l vars') as (Hnd & _ & _);
      [|exact Hl|].
    + intros v r v' (_ & Hn & ->)%validate_role_Ret. split; [apply NoDup_singleton|]. split; [|set_solver].
      intros y ->%list_elem_of_singleton. by apply not_elem_of_dom.
    + assert (E : l ≫= (λ r, [MR_Name r]) = MR_Name <$> l).
      { clear. induction l as [|r l IH]; [done|]. csimpl. by rewrite IH. }
      by rewrite E in Hnd.
  - revert vars Hl. induction l as [|r l IH]; intros vars Hl name q Hq; simpl in Hl.
    { injection Hl as <-. by left. }
    accepted Hl. apply validate_role_Ret in Hx as (_ & Hn & E).
    apply (IH _ Hl) in Hq as [Hq|[Hin Hq]]; [|right; split; [by right|done]].
    rewrite E in Hq. apply lookup_insert_Some in Hq as [[<- <-]|[_ Hq]]; [right|by left].
    split; [by left|done].
Qed.

Definition lb_valid (lb : LoadBalancerCluster) : Prop :=
  (Z.of_nat (length (LBC_Roles lb)) ≤ MaxRolesPerLoadBalancer)%Z ∧
  (∀ role, role ∈ LBC_Roles lb → ∃ r, r ∈ M_Roles m ∧ MR_Name r = role ∧
     targets_valid m in_cluster (LBC_TargetedK8s lb) (MR_TargetPools r) = true) ∧
  is_Some (GetProviderType m (MD_Provider (LBC_DNS lb))) ∧
  IsKubernetesClusterPresent m (LBC_TargetedK8s lb) = true ∧
  NoDup (LBC_Pools lb) ∧ Forall (λ pool, (nodePoolDefined m pool).1 = true) (LBC_Pools lb).

Lemma lb_roles_loop roles api lb apis l apis' :
  for_each (validate_lb_role m roles api lb) apis l = Ret apis' →
  Forall (λ role, ∃ r, roles !! role = Some r ∧
            targets_valid m in_cluster (LBC_TargetedK8s lb) (MR_TargetPools r) = true) l.
Proof.
  intros Hl. eapply for_each_Forall; [|exact Hl]. intros v role v' Hr. unfold validate_lb_role in Hr.
  destruct (roles !! role) as [r|]; [|done]. exists r. split; [done|]. by accepted Hr.
Qed.

Lemma validate_lb_Ret roles api vars lb vars' :
  (∀ name r, roles !! name = Some r → r ∈ M_Roles m ∧ MR_Name r = name) →
  validate_lb m roles api vars lb = Ret vars' →
  lb_valid lb ∧ (LBC_Name lb ∉ lbNames vars) ∧ lbNames vars' = {[LBC_Name lb]} ∪ lbNames vars.
Proof.
  intros Hroles Hv. unfold validate_lb in Hv. cbv zeta in Hv. accepted Hv.
  match goal with Hh : for_each (validate_alternative lb) _ _ = Ret ?p |- _ => destruct p as [seen hosts] end.
  accepted Hv. destruct (GetProviderType m (MD_Provider (LBC_DNS lb))) as [typ|] eqn:Et; [|done].
  accepted Hv. subst vars'. simpl. split; [|done].
  match goal with Hr : for_each (validate_lb_role _ _ _ _) _ _ = Ret _ |- _ => apply lb_roles_loop in Hr as Hdef end.
  match goal with Hp : for_each ?b ∅ (LBC_Pools lb) = Ret ?s' |- _ =>
    destruct (for_each_unique b (λ x, x) ∅ (LBC_Pools lb) s') as (Hnd & _ & _);
    [intros w pool w' Hb; accepted Hb; done|exact Hp|]; rewrite fmap_id_eq in Hnd;
    pose proof (for_each_Forall b (λ pool, (nodePoolDefined m pool).1 = true) ∅ (LBC_Pools lb) s'
      ltac:(intros w pool w' Hb; by accepted Hb) Hp) as Hpools end.
  split_and!; try done; [lia|]. intros role Hrole. rewrite Forall_forall in Hdef.
  destruct (Hdef role Hrole) as (r & [Hin Hname]%Hroles & Ht). by exists r.
Qed.

Lemma validate_loadbalancers_sound :
  validate_loadbalancers m = Ret () →
  NoDup (MR_Name <$> M_Roles m) ∧ Forall role_valid (M_Roles m) ∧
  NoDup (LBC_Name <$> M_LoadBalancers m) ∧ Forall lb_valid (M_LoadBalancers m).
Proof.
  unfold validate_loadbalancers. intros Hv. bind_inv Hv. destruct x as [roles api].
  apply roles_loop in Hx as (Hrv & Hrn & Hr). simpl in Hr.
  assert (Hroles : ∀ name r, roles !! name = Some r → r ∈ M_Roles m ∧ MR_Name r = name).
  { intros name r Hl. by destruct (Hr _ _ Hl) as [?|?]. }
  accepted Hv. split; [done|]. split; [done|].
  match goal with Hl : for_each (validate_lb m roles api) ?v _ = Ret ?v' |- _ =>
    destruct (for_each_seen (validate_lb m roles api) (λ lb, [LBC_Name lb]) lbNames v (M_LoadBalancers m) v')
      as (Hnd & _ & _);
    [|exact Hl|assert (HF := for_each_Forall (validate_lb m roles api) lb_valid _ _ _
       (λ w lb w' E, proj1 (validate_lb_Ret roles api w lb w' Hroles E)) Hl)] end.
  - intros w lb w' (_ & Hn & ->)%validate_lb_Ret; [|done]. split; [apply NoDup_singleton|].
    split; [|simpl; set_solver]. by intros y ->%list_elem_of_singleton.
  - assert (E : M_LoadBalancers m ≫= (λ lb, [LBC_Name lb]) = LBC_Name <$> M_LoadBalancers m).
    { clear. induction (M_LoadBalancers m) as [|r l IH]; [done|]. csimpl. by rewrite IH. }
    by rewrite E in Hnd.
Qed.

(** C11: A manifest that [Validate] accepts is consistent: pool, cluster, role
    and load balancer names and static endpoints are unique; dynamic pools
    are referenced, have an existing provider, at most 255 nodes and not both
    a count and an autoscaler; the pools of a cluster or load balancer are
    defined and not used twice; no role listens on a reserved port; every
    role of a load balancer exists and targets pools of the targeted cluster,
    which exists; no load balancer has more than [MaxRolesPerLoadBalancer]
    roles. *)
Theorem validate_sound :
  Validate m = Ret () →
  pools_valid ∧
  (NoDup (Cluster_Name <$> M_Clusters m) ∧ Forall cluster_valid (M_Clusters m)) ∧
  (NoDup (MR_Name <$> M_Roles m) ∧ Forall role_valid (M_Roles m)) ∧
  (NoDup (LBC_Name <$> M_LoadBalancers m) ∧ Forall lb_valid (M_LoadBalancers m)).
Proof.
  unfold Validate. intros Hv. accepted Hv.
  match goal with Hn : validate_nodepools m = Ret ?u, Hk : validate_kubernetes m = Ret ?v,
                  Hl : validate_loadbalancers m = Ret ?w |- _ =>
    destruct u, v, w; apply validate_nodepools_sound in Hn; apply validate_kubernetes_sound in Hk;
    apply validate_loadbalancers_sound in Hl end.
  naive_solver.
Qed.
End sound.


(** ** A manifest *)

Definition sample_repo : TemplateRepo :=
  mkTemplateRepo (mkTemplatesEndpoint "github.com/berops/claudie-config" "https") None "master"
    (mkTemplatesPaths "tf" "pb" "lb" "k8s" "man").

Definition sample_role (name : string) (port : Z) : ManifestRole :=
  mkManifestRole name "tcp" port port ["ctrl"] None.

Definition sample_lb (name : string) (roles : list string) (zone host : string) : LoadBalancerCluster :=
  mkLoadBalancerCluster name roles (mkManifestDNS zone "hetzner-1" host []) "prod" ["lb"].

Definition sample_pool (name : string) : DynamicPool :=
  mkDynamicPool name (mkProviderSpec "hetzner-1" "nbg1" "nbg1-dc3" "") 2 "cpx11" "ubuntu" None
    (mkAutoscalerConfig 0 0) ∅ ∅ [] None false.

(** A cluster with a dynamic control pool and a static compute pool, and load
    balancers in front of it. *)
Definition sample_manifest (roles : list ManifestRole) (lbs : list LoadBalancerCluster) : InputManifest :=
  mkInputManifest "sample"
    (mkProviders [] [mkHetzner "hetzner-1" "token" (Some sample_repo)] [] [] [] [] [] [] [] [] [])
    [sample_pool "ctrl"; sample_pool "lb"]
    [mkStaticPool "workers" [mkStaticNode "2.2.2.1" "key-1" "root"; mkStaticNode "2.2.2.2" "key-2" "root"]
       {["zone" := "home"]} ∅ [] None]
    [mkCluster "prod" "v1.34.0" "192.168.2.0/24" ["ctrl"] ["workers"] None] roles lbs.

Lemma validate_sound_witness :
  let m := sample_manifest [sample_role "api" 6443; sample_role "web" 80] [sample_lb "lb" ["api"; "web"] "example.com" "api"] in
  pools_valid m ∧ NoDup (LBC_Name <$> M_LoadBalancers m).
Proof.
  destruct (validate_sound (sample_manifest [sample_role "api" 6443; sample_role "web" 80]
    [sample_lb "lb" ["api"; "web"] "example.com" "api"])) as (Hp & _ & _ & Hl & _); [vm_compute; reflexivity|].
  split; [exact Hp|exact Hl].
Defined.

(** Only the last role with the API server's port is remembered: two load
    balancers of one cluster that both serve the API server are accepted,
    each through a role of its own. *)
Lemma two_api_loadbalancers_accepted :
  Validate (sample_manifest [sample_role "api-1" 6443; sample_role "api-2" 6443]
    [sample_lb "lb-1" ["api-1"] "example.com" "a"; sample_lb "lb-2" ["api-2"] "example.com" "b"]) = Ret ().
Proof. vm_compute. reflexivity. Qed.

(** Only the last zone of a host name is remembered: the same host name of the
    same zone is accepted twice if another zone has it in between. *)
Lemma duplicate_hostname_accepted :
  Validate (sample_manifest [sample_role "web" 80]
    [sample_lb "lb-1" ["web"] "one.com" "api"; sample_lb "lb-2" ["web"] "two.com" "api";
     sample_lb "lb-3" ["web"] "one.com" "api"]) = Ret ().
Proof. vm_compute. reflexivity. Qed.

End Validate.
