(* ===== verification/Schedule.v ===== *)
(** * Scheduling (service/reconciliate_other.go, service/rolling_update.go)

    The tasks that create, delete and refresh whole clusters, the pool that
    replaces another one in a rolling update, and the parts every scheduled
    update shares.  The identifier [uuid.New] returns and the clock are
    arguments; a scheduled task carries a clone of the state it starts from. *)

From Stdlib Require Import Ascii.
From stdpp Require Import base gmap strings list pretty.
From S2P Require Import Prelude Spec SpecUtils Samples NodePools Diff GenerateState Cidr.
Import NodePools Diff GenerateState Cidr.

Module Schedule.

(** ** Formatting *)

Definition newline : string := String (Ascii.ascii_of_nat 10) "".

(** [%q] of a name; names have no character that would be escaped. *)
Definition quoted (s : string) : string :=
  let q := String (Ascii.ascii_of_nat 34) "" in String.append q (String.append s q).

(** [fmt.Sprintf] with the verbs already formatted. *)
Definition sprintf (parts : list string) : string := foldr String.append "" parts.

(** [%v] of a length. *)
Definition len_string {A} (l : list A) : string := pretty (length l).

(** ** Scheduled tasks *)

(** The [spec.TaskEvent] literals: the current stage and the lower priority
    task have their zero values. *)
Definition task_event (id : string) (now : Z) (e : Event) (t : Task) (description : string)
    (pipeline : list Stage) : TaskEvent :=
  mkTaskEvent id now e t description pipeline 0 None.

Definition update_event (id : string) (now : Z) (state : Clusters) (delta : Delta) (description : string)
    (pipeline : list Stage) : TaskEvent :=
  task_event id now UPDATE (Task_Update state delta) description pipeline.

(** ** reconciliate_other.go *)

Definition update_proxy_passes (middle : list (SubPass StageAnsibler_SubPassKind)) :
    list (SubPass StageAnsibler_SubPassKind) :=
  [mkSubPass UPDATE_PROXY_ENVS_ON_NODES
     (fatal "Updating HttpProxy,NoProxy environment variables to be used by the package manager")]
  ++ middle ++
  [mkSubPass UPDATE_PROXY_ENVS_ON_NODES
     (fatal "Updating HttpProxy,NoProxy environment variables, after populating private addresses on nodes")].

Definition commit_proxy : SubPass StageAnsibler_SubPassKind :=
  mkSubPass COMMIT_PROXY_ENVS (fatal "Committing proxy environment variables").

Definition create_terraformer (isCreate : bool) : Stage :=
  if isCreate then
    Stage_Terraformer (fatal "Creating infrastructure for the new cluster")
      [mkSubPass BUILD_INFRASTRUCTURE (fatal "Building desired state infrastructure")]
  else
    Stage_Terraformer (fatal "Refreshing infrastructure for the cluster")
      [mkSubPass UPDATE_INFRASTRUCTURE (fatal "Building desired state infrastructure")].

Definition create_ansibler (isCreate useProxy : bool) : Stage :=
  let install := [mkSubPass INSTALL_NODE_REQUIREMENTS (fatal "Installing pre-requisites on all of the nodes of the cluster");
                  mkSubPass INSTALL_VPN (fatal "Setting up VPN across the nodes of the kuberentes and loadbalancer clusters")] in
  let envoy := [mkSubPass RECONCILE_LOADBALANCERS (fatal "Reconciling Envoy service across the loadbalancer nodes")] in
  Stage_Ansibler (fatal "Configuring cluster infrastructure")
    (if useProxy then
       update_proxy_passes install ++ envoy ++
       (if isCreate then []
        else [mkSubPass COMMIT_PROXY_ENVS (fatal "Committing updated proxy environment variables")])
     else install ++ envoy).

Definition create_kuber (k8s : K8Scluster) (lbs : list LBcluster) : Stage :=
  Stage_Kuber (fatal "Configuring cluster")
    ([mkSubPass DEPLOY_KUBELET_CSR_APPROVER (warn "Deploying kubelet csr-approver");
      mkSubPass PATCH_NODES (fatal "Patching nodes");
      mkSubPass DEPLOY_LONGHORN (fatal "Deploying longhorn for storage");
      mkSubPass RECONCILE_LONGHORN_STORAGE_CLASSES (warn "Reconciling longhorn claudie storage classes")] ++
     (if bool_decide (Autoscaled (K8s_NodePools k8s) = []) then []
      else [mkSubPass ENABLE_LONGHORN_CA (fatal "Enabling cluster-autoscaler support in longhorn")]) ++
     (if bool_decide (lbs = []) then []
      else [mkSubPass STORE_LB_SCRAPE_CONFIG (warn "Storing scrape config for loadbalancers")])).

Definition CreatePipeline (clusters : Clusters) (isCreate : bool) : outcome (list Stage) :=
  let* k8s := deref (K8S clusters) in
  Ret [create_terraformer isCreate;
       create_ansibler isCreate (UsesProxy k8s);
       Stage_KubeEleven (fatal "Reconciling kubernetes cluster")
         [mkSubPass RECONCILE_CLUSTER (fatal "Creating kubernetes cluster from the set up infrastructure")];
       create_kuber k8s (LoadBalancers clusters)].

Definition ScheduleCreateCluster (id : string) (now : Z) (desired : Clusters) : outcome TaskEvent :=
  let* pipeline := CreatePipeline desired true in
  Ret (task_event id now CREATE (Task_Create desired) "creating cluster" pipeline).

Definition ScheduleDeleteCluster (id : string) (now : Z) (current : Clusters) : outcome TaskEvent :=
  let* k8s := deref (K8S current) in
  let cleanup :=
    if bool_decide (Static (K8s_NodePools k8s) = []) then []
    else [Stage_KubeEleven (warn "Destroying kubernetes cluster and related binaries")
            [mkSubPass DESTROY_CLUSTER (fatal "Tearing down kuberentes cluster")];
          Stage_Ansibler (warn "Removing claudie installed utilities across nodes")
            [mkSubPass REMOVE_CLAUDIE_UTILITIES (warn "Removing claudie installed utilities")]] in
  Ret (task_event id now DELETE (Task_Delete current) "deleting cluster and its attached loadbalancers"
         (cleanup ++
          [Stage_Terraformer (fatal "Destroying infrastructure of the cluster")
             [mkSubPass DESTROY_INFRASTRUCTURE (fatal "Destroying current state")]])).

Definition ScheduleRefreshVPN (id : string) (now : Z) (usesProxy : bool) (current : Clusters) : TaskEvent :=
  let vpn := [mkSubPass INSTALL_VPN
                (fatal "Fixing drift in VPN across nodes of the kuberentes and loadbalancer clusters")] in
  update_event id now current Update_None_ "Refreshing VPN"
    [Stage_Ansibler (fatal "Configuring infrastructure, after drift detection")
       (if usesProxy then update_proxy_passes vpn ++ [commit_proxy] else vpn)].

Definition ScheduleRefreshInfrastructure (id : string) (now : Z) (current : Clusters) : outcome TaskEvent :=
  let* pipeline := CreatePipeline current false in
  Ret (update_event id now current Update_None_ "Refreshing infrastructure to match current state" pipeline).

(** ** rolling_update.go *)

(** The loop draws until the name is free; [fuel] bounds how many draws are
    followed, as nothing bounds them in the code. *)
Fixpoint fresh_pool_name `{Entropy} (fuel : nat) (n : string) (used : list string) (i : nat) : outcome (string * nat) :=
  match fuel with
  | O => Panic "no end of the search for a free name in sight"
  | S fuel =>
      let '(h, j) := Create hash_Length i in
      let name := String.append n (String.append "-" h) in
      if contains used name then fresh_pool_name fuel n used j else Ret (name, j)
  end.

Definition clear_generated (d : DynamicNodePool) : DynamicNodePool :=
  set_Dyn_Keys d "" "" "".

Definition set_templates (d : DynamicNodePool) (t : TemplateRepository) : DynamicNodePool :=
  set_Dyn_Provider d (set_Provider_Templates (Dyn_Provider d) t).

(** The pool appended to the clone of the current state, after
    [generateMissingCIDR] wrote its subnet through the shared pointer. *)
Definition with_cidr `{RangeOrder} (current : Clusters) (cid : option nat) (np : NodePool) : outcome NodePool :=
  match cid with
  | None =>
      let* k := deref (K8S current) in
      let* wanted := generateMissingCIDR (Some current)
                       (mkClusters (Some (set_K8s_NodePools k (K8s_NodePools k ++ [np]))) (LoadBalancers current)) in
      let* k := deref (K8S wanted) in
      deref (last (K8s_NodePools k))
  | Some i =>
      let* lb := index (LoadBalancers current) i in
      let* wanted := generateMissingCIDR (Some current)
                       (mkClusters (K8S current)
                          (<[i := set_LB_NodePools lb (LB_NodePools lb ++ [np])]> (LoadBalancers current))) in
      let* lb := index (LoadBalancers wanted) i in
      deref (last (LB_NodePools lb))
  end.

(** [cid] is the index of the load balancer, if the pool is one of it. *)
Definition CreateNodePoolForRollingUpdate `{Entropy, RangeOrder} (fuel : nat) (current : Clusters) (cid : option nat)
    (nodepool : string) (newTemplates : TemplateRepository) : draws NodePool := λ i,
  let* k8s := deref (K8S current) in
  let* (clusterId, search) :=
    match cid with
    | None => Ret (K8s_Id k8s, K8s_NodePools k8s)
    | Some c => let* lb := index (LoadBalancers current) c in Ret (LB_Id lb, LB_NodePools lb)
    end in
  let* reference := deref (FindByName nodepool search) in
  let* (n, _) := MustExtractNameAndHash (NodePool_Name reference) in
  let* (name, i) := fresh_pool_name fuel n (NodePool_Name <$> search) i in
  let np := set_NodePool_Nodes (set_NodePool_Name reference name) [] in
  let* inner := deref (GetDynamicNodePool np) in
  let* (np, i) := generateSSHKeys (set_NodePool_Type np (NodePool_DynamicNodePool (clear_generated inner))) i in
  let* np := with_cidr current cid np in
  let* inner := deref (GetDynamicNodePool np) in
  let* np := PopulateDynamicNodes clusterId
               (set_NodePool_Type np (NodePool_DynamicNodePool (set_templates inner newTemplates))) in
  Ret (np, i).

(** ** What every scheduled update has in common *)

Definition has_passes (st : Stage) : bool :=
  match st with
  | Stage_Terraformer _ ps => negb (bool_decide (ps = []))
  | Stage_Ansibler _ ps => negb (bool_decide (ps = []))
  | Stage_KubeEleven _ ps => negb (bool_decide (ps = []))
  | Stage_Kuber _ ps => negb (bool_decide (ps = []))
  end.

(** A pipeline with work in every stage. *)
Definition runnable (pipeline : list Stage) : bool :=
  negb (bool_decide (pipeline = [])) && forallb has_passes pipeline.

(** The deltas of static nodes are merged into the state when they are
    scheduled, as there is nothing to build for them. *)
Definition merged_early (delta : Delta) : bool :=
  match delta with
  | Update_AddedK8SNodes_ _ _ _ | Update_AddedLoadBalancerNodes_ _ _ _ _ | Update_DeletedLoadBalancerNodes_ _ _ _ => true
  | _ => false
  end.

Definition same_identity (a b : Clusters) : Prop :=
  K8s_Id <$> K8S a = K8s_Id <$> K8S b ∧ LB_Id <$> LoadBalancers a = LB_Id <$> LoadBalancers b.

(** A fresh update that starts from [current]. *)
Definition fresh_update (id : string) (now : Z) (current : Clusters) (ev : TaskEvent) : Prop :=
  ∃ st delta descr pl,
    ev = update_event id now st delta descr pl ∧ runnable pl = true ∧
    if merged_early delta then same_identity st current else st = current.

Lemma same_identity_refl c : same_identity c c.
Proof. done. Qed.

Lemma same_identity_k8s current k nps :
  K8S current = Some k → same_identity (mkClusters (Some (set_K8s_NodePools k nps)) (LoadBalancers current)) current.
Proof. intros E. split; [by rewrite E|done]. Qed.

Lemma same_identity_lb current i lb nps :
  LoadBalancers current !! i = Some lb →
  same_identity (mkClusters (K8S current) (<[i := set_LB_NodePools lb nps]> (LoadBalancers current))) current.
Proof.
  intros E. split; [done|]. simpl. rewrite list_fmap_insert.
  apply list_insert_id. by rewrite list_lookup_fmap, E.
Qed.

(** A literal event: the goal is split into its parts. *)
Ltac fresh_tac := do 4 eexists; split; [reflexivity|]; split; [try reflexivity|cbn [merged_early]; try reflexivity].

Lemma CreatePipeline_runnable clusters b pl : CreatePipeline clusters b = Ret pl → runnable pl = true.
Proof.
  unfold CreatePipeline. intros H. bind_inv H. subst pl.
  unfold create_kuber. generalize (UsesProxy x). intros u.
  by destruct b, u, (bool_decide (Autoscaled (K8s_NodePools x) = [])), (bool_decide (LoadBalancers clusters = [])).
Qed.

End Schedule.
