(* ===== verification/Ping.v ===== *)
(** * Echo requests (internal/clusters/ping4.go)

    Whether a node is reachable: the echo requests that are sent to it, which
    packets count as their replies, and how many may be lost.  The sockets
    are the parameter [Icmp]; the order in which the replies to concurrent
    pings arrive is left open. *)

From Stdlib Require Import Ascii.
From stdpp Require Import base gmap strings list pretty.
From S2P Require Import Prelude Spec SpecUtils NodePools Cidr.
Import NodePools Cidr.

Inductive ping_err := ErrEchoTimeout | PingOther (why : string).
#[export] Instance ping_err_eq_dec : EqDecision ping_err.
Proof. solve_decision. Defined.

(** The type of an icmp message and, when it has an echo body, the sequence
    number in it. *)
Inductive IcmpType := ICMPTypeEchoReply | OtherType.
#[export] Instance IcmpType_eq_dec : EqDecision IcmpType.
Proof. solve_decision. Defined.

Record Message := mkMessage { Msg_Type : IcmpType; Msg_Seq : option nat }.

(** What an iteration of the read loop meets.  A packet has the address it
    came from and, when it can be parsed, its message. *)
Inductive ReadEvent :=
| DeadlineNotSet (e : string)
| DeadlineExceeded
| ReadFailed (e : string)
| Packet (peer : string) (reply : option Message).

(** [icmp_ListenPacket] is the error of opening the socket for an address;
    [icmp_send] the error of sending the request with the given sequence
    number; [icmp_reads] what is then read until the context of the request
    expires; [ping_workers] the number of goroutines that ping
    (PING_CONCURRENT_WORKERS); [arrival] the order in which the failures of
    concurrent pings are received. *)
Class Icmp := {
  icmp_ListenPacket : string → option string;
  icmp_send : string → nat → option string;
  icmp_reads : string → nat → list ReadEvent;
  ping_workers : Z;
  arrival : list (string * ping_err) → list (string * ping_err);
  arrival_perm : ∀ l, arrival l ≡ₚ l }.

Module Ping.

Definition PingRetryCount : nat := 5.

(** A packet that answers request [seq] to [dst]. *)
Definition answers (dst : string) (seq : nat) (ev : ReadEvent) : bool :=
  match ev with
  | Packet peer (Some (mkMessage ICMPTypeEchoReply (Some s))) => bool_decide (peer = dst) && bool_decide (s = seq)
  | _ => false
  end.

(** The read loop: the end of the list is the context that is done. *)
Fixpoint read_reply (dst : string) (seq : nat) (reads : list ReadEvent) : option ping_err :=
  match reads with
  | [] => Some ErrEchoTimeout
  | ev :: reads =>
      match ev with
      | DeadlineNotSet _ => read_reply dst seq reads
      | DeadlineExceeded => Some ErrEchoTimeout
      | ReadFailed _ => read_reply dst seq reads
      | Packet peer reply =>
          if bool_decide (peer ≠ dst) then read_reply dst seq reads
          else match reply with
          | None => read_reply dst seq reads
          | Some m =>
              match Msg_Type m with
              | ICMPTypeEchoReply =>
                  match Msg_Seq m with
                  | None => read_reply dst seq reads
                  | Some s => if bool_decide (s ≠ seq) then read_reply dst seq reads else None
                  end
              | OtherType => read_reply dst seq reads
              end
          end
      end
  end.

Section icmp.
Context `{Icmp}.

Definition ping4 (dst : string) (seq : nat) : option ping_err :=
  match icmp_send dst seq with
  | Some e => Some (PingOther e)
  | None => read_reply dst seq (icmp_reads dst seq)
  end.

(** [net.UDPAddr.String] without a port *)
Definition udp_addr (ip : list Z) : string := String.append (IP_String ip) ":0".

(** [for i := range count]: the requests that were lost. *)
Fixpoint lost_of (dst : string) (i count : nat) : nat :=
  match count with
  | 0 => 0
  | S count => (match ping4 dst (i + 1) with Some _ => 1 | None => 0 end) + lost_of dst (i + 1) count
  end.

Definition Ping (count : nat) (dst : string) : option ping_err :=
  match ParseIP dst with
  | None => Some ErrEchoTimeout
  | Some ip =>
      match icmp_ListenPacket dst with
      | Some e => Some (PingOther e)
      | None =>
          let lost := lost_of (udp_addr ip) 0 count in
          if bool_decide (Nat.max (count / 2) ((count + 1) / 2) < lost) then Some ErrEchoTimeout else None
      end
  end.

(** ** Pings of all nodes *)

(** The addresses whose ping failed, with the error. *)
Definition pingAll (goroutineCount : Z) (ips : list string) : list (string * ping_err) :=
  if bool_decide (goroutineCount < 1)%Z then []
  else arrival (omap (λ ip, pair ip <$> Ping PingRetryCount ip) ips).

(** The pool of every public address. *)
Definition addresses (nps : list NodePool) : gmap string string :=
  foldl (λ a np, foldl (λ a n, <[Node_Public n := NodePool_Name np]> a) a (NodePool_Nodes np)) ∅ nps.

(** The same for every load balancer. *)
Definition lb_addresses (state : Clusters) : gmap string (gmap string string) :=
  foldl (λ m lb, <[LB_Id lb := addresses (LB_NodePools lb)]> m) ∅ (LoadBalancers state).

(** An unreachable address is added to the pool it has in each of the load
    balancers. *)
Definition report_address (ip : string) (lbsip : gmap string (gmap string (list string)))
    (entry : string * gmap string string) : gmap string (gmap string (list string)) :=
  match entry.2 !! ip with
  | Some np => <[entry.1 := push (default ∅ (lbsip !! entry.1)) np ip]> lbsip
  | None => lbsip
  end.

Section nodes.
Context `{RangeOrder}.

Definition lb_ips (lbsNodes : gmap string (gmap string string)) : list string :=
  range "lbsNodes" lbsNodes ≫= λ '(_, lbs), (range "ips" lbs).*1.

(** The unreachable addresses and the joined error. *)
Definition PingLoadBalancerNodes (state : Clusters) : gmap string (gmap string (list string)) * list ping_err :=
  let lbsNodes := lb_addresses state in
  let unreachable := pingAll ping_workers (lb_ips lbsNodes) in
  (foldl (λ lbsip '(ip, _), foldl (report_address ip) lbsip (range "unreachable" lbsNodes)) ∅ unreachable,
   unreachable.*2).

Definition PingNodes (state : Clusters)
    : gmap string (list string) * gmap string (gmap string (list string)) * list ping_err :=
  let k8sNodes := addresses (match K8S state with Some k => K8s_NodePools k | None => [] end) in
  let lbsNodes := lb_addresses state in
  let unreachable := pingAll ping_workers ((range "k8sNodes" k8sNodes).*1 ++ lb_ips lbsNodes) in
  (foldl (λ '(k8sip, lbsip) '(ip, _),
     match k8sNodes !! ip with
     | Some np => (push k8sip np ip, lbsip)
     | None => (k8sip, foldl (report_address ip) lbsip (range "unreachable" lbsNodes))
     end) (∅, ∅) unreachable,
   unreachable.*2).

End nodes.
End icmp.

(** ** Which requests are answered *)

(** What is read before the deadline. *)
Fixpoint in_time (reads : list ReadEvent) : list ReadEvent :=
  match reads with
  | [] | DeadlineExceeded :: _ => []
  | ev :: reads => ev :: in_time reads
  end.

(** The request was sent and a reply to it was read in time. *)
Definition answered `{Icmp} (dst : string) (seq : nat) : bool :=
  bool_decide (icmp_send dst seq = None) && existsb (answers dst seq) (in_time (icmp_reads dst seq)).

Lemma read_reply_answered dst seq reads :
  read_reply dst seq reads = None ↔ existsb (answers dst seq) (in_time reads) = true.
Proof.
  induction reads as [|[| | |peer [[[] [s|]]|]] reads IH]; simpl; try done.
  - destruct (decide (peer = dst)) as [->|?]; [|by rewrite bool_decide_true, bool_decide_false].
    rewrite bool_decide_false, (bool_decide_true (dst = dst)) by auto. simpl.
    destruct (decide (s = seq)) as [->|?]; [by rewrite bool_decide_false, bool_decide_true by auto|].
    by rewrite bool_decide_true, bool_decide_false.
  - by case_bool_decide.
  - by case_bool_decide.
  - by case_bool_decide.
  - by case_bool_decide.
Qed.

Section reachability.
Context `{Icmp}.

Lemma ping4_answered dst seq : ping4 dst seq = None ↔ answered dst seq = true.
Proof.
  unfold ping4, answered. destruct (icmp_send dst seq); [by rewrite bool_decide_false|].
  rewrite bool_decide_true by done. apply read_reply_answered.
Qed.

Lemma lost_and_answered dst count i :
  lost_of dst i count + length (filter (λ s, answered dst s = true) (seq (i + 1) count)) = count.
Proof.
  revert i. induction count as [|count IH]; intros i; [done|]. simpl.
  specialize (IH (i + 1)). replace (S (i + 1)) with (i + 1 + 1) by lia.
  rewrite filter_cons. case_decide as Ea.
  - apply ping4_answered in Ea. rewrite Ea. simpl. lia.
  - destruct (ping4 dst (i + 1)) eqn:Ep; [simpl; lia|]. by apply ping4_answered in Ep.
Qed.

(** An address the service can reach: at least half of the requests, rounded
    down, are answered. *)
Definition reachable (count : nat) (dst : string) : Prop :=
  ∃ ip, ParseIP dst = Some ip ∧ icmp_ListenPacket dst = None ∧
    count / 2 ≤ length (filter (λ s, answered (udp_addr ip) s = true) (seq 1 count)).

Lemma half_rounded_up n : Nat.max (n / 2) ((n + 1) / 2) + n / 2 = n.
Proof.
  pose proof (Nat.div_mod_eq n 2). pose proof (Nat.mod_upper_bound n 2 ltac:(lia)).
  pose proof (Nat.div_mod_eq (n + 1) 2). pose proof (Nat.mod_upper_bound (n + 1) 2 ltac:(lia)). lia.
Qed.

Lemma Ping_reachable count dst : Ping count dst = None ↔ reachable count dst.
Proof.
  unfold Ping, reachable. destruct (ParseIP dst) as [ip|] eqn:Ei; [|split; [done|by intros (? & ? & _)]].
  destruct (icmp_ListenPacket dst) eqn:El; [split; [done|by intros (? & _ & ? & _)]|].
  pose proof (lost_and_answered (udp_addr ip) count 0) as Hl. pose proof (half_rounded_up count). simpl in Hl.
  case_bool_decide as Hb; split; try done.
  - intros (? & [= <-] & _ & Ha). lia.
  - intros _. exists ip. split_and!; [done..|lia].
Qed.

(** ** Which nodes are reported *)

(** The nodes of a list of pools with the addresses they have. *)
Definition node_addresses (nps : list NodePool) : list (string * string) :=
  nps ≫= λ np, (λ n, (Node_Public n, NodePool_Name np)) <$> NodePool_Nodes np.

Lemma addresses_foldl nps : addresses nps = foldl (λ m p, <[p.1 := p.2]> m) ∅ (node_addresses nps).
Proof.
  unfold addresses. generalize (∅ : gmap string string). induction nps as [|np nps IH]; intros m; [done|].
  unfold node_addresses. simpl. rewrite foldl_app, foldl_fmap. apply IH.
Qed.

Lemma lookup_addresses nps ip p :
  NoDup (node_addresses nps).*1 → addresses nps !! ip = Some p ↔ (ip, p) ∈ node_addresses nps.
Proof.
  intros Hnd. rewrite addresses_foldl, lookup_foldl_insert by done. rewrite lookup_empty. naive_solver.
Qed.

(** The load balancers are told apart by their ids and the nodes of each by
    their addresses. *)
Definition distinct_addresses (state : Clusters) : Prop :=
  NoDup (LB_Id <$> LoadBalancers state) ∧ ∀ c, c ∈ LoadBalancers state → NoDup (node_addresses (LB_NodePools c)).*1.

(** A node with address [ip] in pool [p] of load balancer [lb] *)
Definition lb_node (state : Clusters) (lb p ip : string) : Prop :=
  ∃ c np n, c ∈ LoadBalancers state ∧ LB_Id c = lb ∧ np ∈ LB_NodePools c ∧ NodePool_Name np = p ∧
    n ∈ NodePool_Nodes np ∧ Node_Public n = ip.

Lemma elem_of_node_addresses nps ip p :
  (ip, p) ∈ node_addresses nps ↔ ∃ np n, np ∈ nps ∧ NodePool_Name np = p ∧ n ∈ NodePool_Nodes np ∧ Node_Public n = ip.
Proof.
  unfold node_addresses. rewrite list_elem_of_bind. split.
  - intros (np & Hin & Hnp). apply list_elem_of_fmap in Hin as (n & [= -> ->] & Hn). by exists np, n.
  - intros (np & n & Hnp & <- & Hn & <-). exists np. split; [|done]. apply list_elem_of_fmap. by exists n.
Qed.

Lemma lookup_lb_addresses state lb p ip :
  distinct_addresses state →
  (∃ nodes, lb_addresses state !! lb = Some nodes ∧ nodes !! ip = Some p) ↔ lb_node state lb p ip.
Proof.
  intros [Hids Hips].
  assert (Hm : ∀ nodes, lb_addresses state !! lb = Some nodes ↔
    ∃ c, c ∈ LoadBalancers state ∧ LB_Id c = lb ∧ nodes = addresses (LB_NodePools c)).
  { intros nodes. set (L := (λ c, (LB_Id c, addresses (LB_NodePools c))) <$> LoadBalancers state).
    assert (lb_addresses state = foldl (λ (m : gmap string (gmap string string)) p, <[p.1 := p.2]> m) ∅ L) as ->
      by (unfold L, lb_addresses; by rewrite foldl_fmap).
    rewrite lookup_foldl_insert by (unfold L; by rewrite <- list_fmap_compose).
    rewrite lookup_empty. unfold L. rewrite list_elem_of_fmap. naive_solver. }
  unfold lb_node. setoid_rewrite Hm. split.
  - intros (nodes & (c & Hc & <- & ->) & Hip). apply lookup_addresses, elem_of_node_addresses in Hip as (np & n & ?); [|by apply Hips].
    exists c, np, n. naive_solver.
  - intros (c & np & n & Hc & <- & Hn). exists (addresses (LB_NodePools c)). split; [by exists c|].
    apply lookup_addresses; [by apply Hips|]. apply elem_of_node_addresses. by exists np, n.
Qed.

(** Address [ip] is listed for pool [p] of load balancer [lb]. *)
Definition reported (r : gmap string (gmap string (list string))) (lb p ip : string) : Prop :=
  ∃ m, r !! lb = Some m ∧ listed m p ip.

Lemma report_address_reported ip r entry lb p a :
  reported (report_address ip r entry) lb p a ↔
  reported r lb p a ∨ (lb, a) = (entry.1, ip) ∧ entry.2 !! ip = Some p.
Proof.
  unfold report_address, reported. destruct entry as [lb' nodes]; simpl. destruct (nodes !! ip) as [p'|] eqn:En; [|naive_solver].
  destruct (decide (lb = lb')) as [->|Hne]; [|rewrite lookup_insert_ne by done; naive_solver].
  rewrite lookup_insert, decide_True by done.
  assert (Hd : listed (default ∅ (r !! lb')) p a ↔ ∃ m, r !! lb' = Some m ∧ listed m p a).
  { destruct (r !! lb') as [m|]; simpl; [naive_solver|]. unfold listed. setoid_rewrite lookup_empty. naive_solver. }
  rewrite <- Hd. setoid_rewrite (inj_iff Some). split.
  - intros (m & <- & Hm). apply listed_push in Hm as [?|[= -> ->]]; auto.
  - intros Hr. eexists. split; [done|]. apply listed_push. destruct Hr as [?|[[= ->] [= ->]]]; auto.
Qed.

Lemma foldl_reported ip L r lb p a :
  reported (foldl (report_address ip) r L) lb p a ↔
  reported r lb p a ∨ a = ip ∧ ∃ nodes, (lb, nodes) ∈ L ∧ nodes !! ip = Some p.
Proof.
  revert r. induction L as [|[lb' nodes] L IH]; intros r; simpl.
  { setoid_rewrite elem_of_nil. naive_solver. }
  rewrite IH, report_address_reported. setoid_rewrite elem_of_cons. naive_solver.
Qed.

Lemma foldl_all_reported (U : list (string * ping_err)) L r lb p a :
  reported (foldl (λ r '(ip, _), foldl (report_address ip) r L) r U) lb p a ↔
  reported r lb p a ∨ a ∈ U.*1 ∧ ∃ nodes, (lb, nodes) ∈ L ∧ nodes !! a = Some p.
Proof.
  revert r. induction U as [|[ip e] U IH]; intros r; csimpl.
  { rewrite elem_of_nil. naive_solver. }
  rewrite IH, foldl_reported, elem_of_cons. naive_solver.
Qed.

Lemma elem_of_pingAll n ips ip : (1 ≤ n)%Z → ip ∈ (pingAll n ips).*1 ↔ ip ∈ ips ∧ ¬ reachable PingRetryCount ip.
Proof.
  intros Hn. unfold pingAll. rewrite bool_decide_false by lia. rewrite arrival_perm, <- Ping_reachable.
  rewrite list_elem_of_fmap. setoid_rewrite list_elem_of_omap. split.
  - intros ([ip' e] & -> & x & Hx & He). destruct (Ping _ x) eqn:Ep; [|done]. injection He as -> ->. simpl. by rewrite Ep.
  - intros [Hip Hp]. destruct (Ping PingRetryCount ip) as [e|] eqn:Ep; [|done]. exists (ip, e). split; [done|].
    exists ip. by rewrite Ep.
Qed.

Lemma elem_of_lb_ips `{RangeOrder} m ip :
  ip ∈ lb_ips m ↔ ∃ lb nodes p, m !! lb = Some nodes ∧ nodes !! ip = Some p.
Proof.
  unfold lb_ips. rewrite list_elem_of_bind. split.
  - intros ([lb nodes] & Hip & Hlb%elem_of_range). apply list_elem_of_fmap in Hip as ([? p] & -> & Hp%elem_of_range). by exists lb, nodes, p.
  - intros (lb & nodes & p & Hlb & Hp). exists (lb, nodes). split; [|by apply elem_of_range].
    apply list_elem_of_fmap. exists (ip, p). split; [done|]. by apply elem_of_range.
Qed.

(** The nodes of load balancers that are listed are those that cannot be
    reached. *)
Lemma PingLoadBalancerNodes_reported `{RangeOrder} state lb p ip :
  distinct_addresses state → (1 ≤ ping_workers)%Z →
  reported (PingLoadBalancerNodes state).1 lb p ip ↔ lb_node state lb p ip ∧ ¬ reachable PingRetryCount ip.
Proof.
  intros Hd Hw. unfold PingLoadBalancerNodes. simpl. rewrite foldl_all_reported, elem_of_pingAll, elem_of_lb_ips by done.
  setoid_rewrite elem_of_range. rewrite (lookup_lb_addresses _ _ _ _ Hd). split.
  - intros [(m & Hm & _)|[[_ ?] ?]]; [by rewrite lookup_empty in Hm|done].
  - intros [Hn Hr]. right. split_and!; [|done..]. apply (lookup_lb_addresses _ _ _ _ Hd) in Hn as (nodes & ? & ?). by exists lb, nodes, p.
Qed.

End reachability.
End Ping.
