(* ===== verification/Health.v ===== *)
(** * Health checks (service/healthcheck.go)

    What the manager learns from the running infrastructure before it
    reconciles.  kubectl, ssh, the dialled ports and the sockets of the pings
    (Ping.v) are the parameter [Network]. *)

From Stdlib Require Import Ascii.
From stdpp Require Import base gmap strings list pretty.
From S2P Require Import Prelude Spec SpecUtils Samples NodePools GenerateState Cidr Ping.
Import NodePools GenerateState Ping.

(** [NodeCondition]: type, status and time of the last transition. *)
Record NodeCondition := mkNodeCondition { Cond_Type : string; Cond_Status : string; Cond_LastTransitionTime : Z }.

Record NodeOutput := mkNodeOutput { Out_Kind : string; Out_Name : string; Out_Conditions : list NodeCondition }.

(** [kubectl_get_nodes] is the decoded answer of [kubectl get nodes -ojson],
    [None] when the call or the decoding fails; [Dial] tells whether a TCP
    connection could be made; [wg_show] are the lines of
    [wg show all peers] on the node, [None] when the key is invalid or the
    connection fails; [network_icmp] carries the pings. *)
Class Network := {
  kubectl_get_nodes : string → option (list NodeOutput);
  Dial : string → Z → bool;
  wg_show : string → string → string → string → option (list string);
  network_icmp :: Icmp }.

(** Every echo request is answered. *)
Definition answered_pings : Icmp := {|
  icmp_ListenPacket _ := None; icmp_send _ _ := None;
  icmp_reads dst seq := [Packet dst (Some (mkMessage ICMPTypeEchoReply (Some seq)))];
  ping_workers := 20; arrival l := l; arrival_perm l := reflexivity l |}.

(** Only pings are answered. *)
#[export] Instance quiet_network : Network := {|
  kubectl_get_nodes _ := None; Dial _ _ := false; wg_show _ _ _ _ := None; network_icmp := answered_pings |}.

Module Health.

Record NodeDescription := mkNodeDescription {
  Nd_K8sName : string;
  Nd_Ready : bool;
  Nd_IsStatic : bool;
  Nd_NodePool : string;
  Nd_PublicIPv4 : string;
  Nd_IsControl : bool;
  Nd_LastTransitionTime : option Z }.

Record UnknownNodeStatus := mkUnknownNodeStatus {
  UnknownKubernetesNodes : gmap string (list NodeDescription);
  NotJoinedKubernetesNodes : gmap string (list NodeDescription);
  UnknownLoadBalancersNodes : gmap string (gmap string (list string)) }.

Record HealthCheckStatus := mkHealthCheckStatus {
  Hc_Unreachable : bool;
  Hc_Nodes : gmap string NodeDescription;
  Hc_ControlNodesHave6443 : bool;
  Hc_VpnDrift : bool }.

(** [strings.TrimPrefix] *)
Definition TrimPrefix (s prefix : string) : string :=
  if String.prefix prefix s
  then String.substring (String.length prefix) (String.length s - String.length prefix) s
  else s.

(** kubernetes names have stripped cluster prefix. *)
Definition stripped (clusterId name : string) : string := TrimPrefix name (String.append clusterId "-").

(** [strings.Contains] *)
Definition Contains (s sub : string) : bool := bool_decide (is_Some (String.index 0 sub s)).

(** ** HealthCheck *)

(** The last [Ready] condition gives the time, any that is not true makes the
    node unhealthy. *)
Definition node_ready (n : NodeOutput) : bool * option Z :=
  foldl (λ '(ready, t) c,
    if bool_decide (Cond_Type c = "Ready")
    then (ready && bool_decide (Cond_Status c = "True"), Some (Cond_LastTransitionTime c))
    else (ready, t)) (true, None) (Out_Conditions n).

Definition reported_nodes (items : list NodeOutput) : gmap string NodeDescription :=
  foldl (λ m n,
    if bool_decide (ToLower (Out_Kind n) = "node")
    then let '(ready, t) := node_ready n in
         <[Out_Name n := mkNodeDescription (Out_Name n) ready false "" "" false t]> m
    else m) ∅ items.

(** The nodes are matched with what the manager tracks of them. *)
Definition describe_nodes (k8s : K8Scluster) (nodes : gmap string NodeDescription) : gmap string NodeDescription :=
  foldl (λ m np,
    foldl (λ m n,
      let name := stripped (K8s_Id k8s) (Node_Name n) in
      match m !! name with
      | Some v => <[name := mkNodeDescription (Nd_K8sName v) (Nd_Ready v) (is_static np) (NodePool_Name np)
                              (Node_Public n) (NodePool_IsControl np) (Nd_LastTransitionTime v)]> m
      | None => m
      end) m (NodePool_Nodes np)) nodes (K8s_NodePools k8s).

Definition RandomDynamicNode `{Entropy} (nodepools : list NodePool) : draws (option Node) := λ i,
  match filter (λ np, is_dynamic np = true) nodepools ≫= NodePool_Nodes with
  | [] => Ret (None, i)
  | nodes => let* n := index nodes (Z.to_nat (Intn i (Z.of_nat (length nodes)))) in Ret (Some n, S i)
  end.

(** User name, endpoint, key and port, empty strings if there is none; the
    port of the chosen pool is normalised in place. *)
Definition RandomNodePublicEndpoint `{Entropy} (nps : list NodePool)
    : draws (string * string * string * string * list NodePool) := λ i,
  match nps with
  | [] => Ret (("", "", "", "", nps), i)
  | _ =>
      let idx := Z.to_nat (Intn i (Z.of_nat (length nps))) in
      let* np := index nps idx in
      match NodePool_Nodes np with
      | [] => Ret (("", "", "", "", nps), S i)
      | nodes =>
          let* node := index nodes (Z.to_nat (Intn (S i) (Z.of_nat (length nodes)))) in
          let username := if bool_decide (Node_Username node ≠ "") then Node_Username node else "root" in
          let '(np', sshPort) := NodeSSHPort np node in
          let nps := <[idx := np']> nps in
          let port := pretty sshPort in
          Ret (match NodePool_Type np with
               | NodePool_DynamicNodePool d => (username, Node_Public node, Dyn_PrivateKey d, port, nps)
               | NodePool_StaticNodePool s =>
                   (username, Node_Public node, default "" (Static_NodeKeys s !! Node_Public node), port, nps)
               | NodePool_nil => ("", "", "", "", nps)
               end, S (S i))
      end
  end.

(** The pools of the load balancers, after those of the kubernetes cluster,
    back in their places. *)
Fixpoint put_pools (lbs : list LBcluster) (nps : list NodePool) : list LBcluster :=
  match lbs with
  | [] => []
  | lb :: lbs =>
      let n := length (LB_NodePools lb) in
      set_LB_NodePools lb (take n nps) :: put_pools lbs (drop n nps)
  end.

(** [Fail] stands for an error of the connection; the state is returned with
    the port of the chosen pool normalised. *)
Definition healthCheckVPN `{Entropy, Network} (k8s : K8Scluster) (lbs : list LBcluster)
    : draws (outcome bool * Clusters) := λ i,
  let nps := K8s_NodePools k8s ++ (lbs ≫= LB_NodePools) in
  let* (e, i) := RandomNodePublicEndpoint nps i in
  let '(username, public, key, sshPort, nps') := e in
  let n := length (K8s_NodePools k8s) in
  let state := mkClusters (Some (set_K8s_NodePools k8s (take n nps'))) (put_pools lbs (drop n nps')) in
  Ret (if bool_decide (key = "") then Ret true
       else match wg_show username public key sshPort with
            | None => Fail "connection"
            | Some lines =>
                let peers := length (filter (λ p, Contains p "wg0" = true) lines) in
                Ret (bool_decide (Z.of_nat peers = NodeCount nps - 1)%Z)
            end, state, i).

Definition HealthCheck `{Entropy, Network} (state : Clusters) : draws (HealthCheckStatus * Clusters) := λ i,
  let* k8s := deref (K8S state) in
  let answer := kubectl_get_nodes (K8s_Kubeconfig k8s) in
  let items := default [] answer in
  let unreachable := bool_decide (items = []) in
  let nodes := reported_nodes items in
  let nodes := if bool_decide (nodes = ∅) then nodes else describe_nodes k8s nodes in
  let* (node, i) := RandomDynamicNode (Control (K8s_NodePools k8s)) i in
  let have6443 := match node with Some n => Dial (Node_Public n) APIServerPort | None => false end in
  let* (r, i) := healthCheckVPN k8s (LoadBalancers state) i in
  let '(ok, state) := r in
  Ret (mkHealthCheckStatus unreachable nodes have6443
         (match ok with Ret b => negb b | _ => false end), state, i).

(** ** CheckNodesStatus *)

(** One node of the tracked state: the nodes left to process, the unknown and
    the not joined ones. *)
Definition check_node (k8s : K8Scluster) (np : NodePool)
    (acc : gmap string NodeDescription * gmap string (list NodeDescription) * gmap string (list NodeDescription))
    (n : Node) :=
  let '(nodes, unknown, notJoined) := acc in
  let name := stripped (K8s_Id k8s) (Node_Name n) in
  match nodes !! name with
  | Some v => (delete name nodes, if Nd_Ready v then unknown else push unknown (Nd_NodePool v) v, notJoined)
  | None => (delete name nodes, unknown,
             push notJoined (NodePool_Name np)
               (mkNodeDescription name false (is_static np) (NodePool_Name np) (Node_Public n) (NodePool_IsControl np) None))
  end.

(** Untracked nodes are removed; dynamic nodes are always tracked, so these
    are taken to be static. *)
Definition untracked (n : NodeDescription) : NodeDescription :=
  mkNodeDescription (Nd_K8sName n) false true (Nd_NodePool n) (Nd_PublicIPv4 n) (Nd_IsControl n) None.

Definition check_kubernetes `{RangeOrder} (k8s : K8Scluster) (hc : HealthCheckStatus)
    : gmap string (list NodeDescription) * gmap string (list NodeDescription) :=
  let '(rest, unknown, notJoined) :=
    foldl (λ acc np, foldl (check_node k8s np) acc (NodePool_Nodes np)) (Hc_Nodes hc, ∅, ∅) (K8s_NodePools k8s) in
  (foldl (λ m '(_, n), push m (Nd_NodePool n) (untracked n)) unknown (range "clusterNodes" rest), notJoined).

(** The error is returned unless one of the joined ones is a timeout. *)
Definition CheckNodesStatus `{RangeOrder, Network} (state : Clusters) (hc : HealthCheckStatus)
    : outcome UnknownNodeStatus :=
  let* k := (if Hc_Unreachable hc then Ret (∅, ∅)
             else let* k8s := deref (K8S state) in Ret (check_kubernetes k8s hc)) in
  let '(unknown, notJoined) := k in
  let '(lbs, err) := PingLoadBalancerNodes state in
  if bool_decide (err = []) || contains err ErrEchoTimeout
  then Ret (mkUnknownNodeStatus unknown notJoined lbs)
  else Fail "failed to determine reachability of nodes".

(** ** What the statuses say *)






Section status.
Context `{RangeOrder, Network}.



End status.

(** ** Samples *)

(** The load balancer has a second node; nothing answers at the address of the
    first one, and the sockets to the second one cannot be opened. *)
Definition two_node_lb : LBcluster :=
  Samples.lb_with "lb" [Samples.pool "lb-pool" false (Samples.dyn 2 None "t" "c" "10.0.0.0/24")
    [Samples.node "a" "203.0.113.1" worker; Samples.node "b" "203.0.113.2" worker]] [] false.
Definition two_node_state : Clusters := mkClusters (Some Samples.k8s) [two_node_lb].

Definition broken_sockets : Icmp := {|
  icmp_ListenPacket dst := if bool_decide (dst = "203.0.113.2") then Some "too many open files" else None;
  icmp_send _ _ := None; icmp_reads _ _ := [DeadlineExceeded];
  ping_workers := 20; arrival l := l; arrival_perm l := reflexivity l |}.
Definition broken_network : Network := {|
  kubectl_get_nodes _ := None; Dial _ _ := false; wg_show _ _ _ _ := None; network_icmp := broken_sockets |}.
Definition api_down : HealthCheckStatus := mkHealthCheckStatus true ∅ false false.



(** A node that was not pinged at all, because the socket could not be opened,
    is listed as unreachable when another node does not answer: the joined
    error is then taken for a timeout. *)
Lemma unpinged_node_listed :
  reported (default ∅ (match CheckNodesStatus (H0 := broken_network) two_node_state api_down with
                       | Ret r => Some (UnknownLoadBalancersNodes r) | _ => None end))
    (LB_Id two_node_lb) "lb-pool" "203.0.113.2" ∧
  icmp_ListenPacket (Icmp := broken_sockets) "203.0.113.2" = Some "too many open files".
Proof.
  split; [|done]. eexists. split; [vm_compute; reflexivity|]. eexists. split; [vm_compute; reflexivity|]. right. by left.
Qed.

End Health.
