(* ===== verification/ScheduleKubernetes.v ===== *)
(** * Kubernetes tasks (service/reconciliate_kubernetes.go)

    The tasks that bring a kubernetes cluster closer to its desired state, one
    at a time: which change is scheduled next, with which pipeline, and what
    the task carries. *)

From stdpp Require Import base gmap strings list pretty.
From S2P Require Import Prelude Spec SpecUtils Samples NodePools Diff GenerateState Cidr Schedule Health.
Import NodePools Diff GenerateState Schedule Health.

Module ScheduleKubernetes.

(** ** Tasks without a choice *)

Section simple.
Context (id : string) (now : Z).

Definition ScheduleUpgradeKubernetesVersion (current desired : Clusters) : outcome TaskEvent :=
  let* k := deref (K8S desired) in
  Ret (update_event id now current (Update_UpgradeVersion_ (K8s_Kubernetes k)) "Updating kubernetes version"
         [Stage_KubeEleven (fatal "Reconciling kubernetes cluster")
            [mkSubPass RECONCILE_CLUSTER (fatal "Rolling update of the nodes")]]).

Definition ScheduleProxyOff (current desired : Clusters) : outcome TaskEvent :=
  let* k := deref (K8S desired) in
  Ret (update_event id now current (Update_AnsReplaceProxy (K8s_InstallationProxy k)) "Refreshing Proxy Environment"
         [Stage_Ansibler (fatal "Configuring infrastructure")
            [mkSubPass CLEAR_PROXY_ENVS_ON_NODES (fatal "Clearing Proxy environment variables across nodes of the cluster");
             commit_proxy]]).

Definition ScheduleProxyOn (current desired : Clusters) : outcome TaskEvent :=
  let* k := deref (K8S desired) in
  Ret (update_event id now current (Update_AnsReplaceProxy (K8s_InstallationProxy k)) "Refreshing Proxy Environment"
         [Stage_Ansibler (fatal "Configuring infrastructure")
            [mkSubPass UPDATE_PROXY_ENVS_ON_NODES (fatal "Updating Proxy environment variables across nodes of the cluster");
             commit_proxy]]).

Definition SchedulePatchNodes (current : Clusters) (diff : LabelsTaintsAnnotationsDiffResult) : TaskEvent :=
  update_event id now current
    (Update_KpatchNodes (mkKuberPatchNodes (Added_Taints diff) (Added_Labels diff) (Added_Annotations diff)
       (Deleted_TaintKeys diff) (Deleted_AnnotationsKeys diff) (Deleted_LabelKeys diff)))
    "Patching kubernetes nodes"
    [Stage_Kuber (fatal "Reconciling changes to Taints/Annotaions/Labels")
       [mkSubPass PATCH_NODES (warn "Reconciling changes")]].

(** The stages that follow a change of the API endpoint. *)
Definition endpoint_stages : list Stage :=
  [Stage_KubeEleven (fatal "Reconciling kubernetes cluster")
     [mkSubPass RECONCILE_CLUSTER (fatal "Refreshing kubeconfig after API endpoint change")];
   Stage_Kuber (fatal "Updating Config Maps after endpoint change")
     [mkSubPass PATCH_CLUSTER_INFO_CM (fatal "Updating cluster-info cluster map with new endpoint");
      mkSubPass PATCH_KUBEADM (fatal "Updating Kubeadm cluster map with new endpoint");
      mkSubPass CILIUM_RESTART (warn "Performing rollout restart for cilium after changes")]].

Definition ScheduleTransferApiEndpoint (current : Clusters) (nodepool node : string) : TaskEvent :=
  update_event id now current (Update_K8SApiEndpoint nodepool node)
    (sprintf ["Transferring Api endpoint to "; node; " from nodepool "; nodepool])
    (Stage_Ansibler (fatal "Configuring infrastructure")
       [mkSubPass UPDATE_API_ENDPOINT (fatal "Transferring api endpoint")] :: endpoint_stages).

Definition ScheduleMoveNodePoolToAutoscaled (current : Clusters) (nodepool : string) (config : AutoscalerConf)
    : outcome TaskEvent :=
  let* k := deref (K8S current) in
  let enableCA := bool_decide (Autoscaled (K8s_NodePools k) = []) in
  Ret (update_event id now current (Update_TfMoveNodePoolToAutoscaled nodepool config)
         (sprintf ["Moving nodepool "; quoted nodepool; " to autoscaled type"])
         ([Stage_Terraformer (fatal "Reconciling infrastructure for cluster")
             [mkSubPass UPDATE_INFRASTRUCTURE (fatal "Moving nodepool to autoscaled type")]] ++
          (if enableCA then
             [Stage_Kuber (fatal "Configuring cluster after move to autoscaled nodepool")
                [mkSubPass ENABLE_LONGHORN_CA (fatal "Enable cluster-autoscaler support for longhorn")]]
           else []))).

(** Whether [np] is the only autoscaled pool. *)
Definition last_autoscaled (k : K8Scluster) (np : string) : bool :=
  match Autoscaled (K8s_NodePools k) with
  | [a] => bool_decide (NodePool_Name a = np)
  | _ => false
  end.

(** The sub-pass of the last stage has no kind, which is [CILIUM_RESTART]. *)
Definition ScheduleMoveNodePoolFromAutoscaled (current : Clusters) (nodepool : string) : outcome TaskEvent :=
  let* k := deref (K8S current) in
  Ret (update_event id now current (Update_TfMoveNodePoolFromAutoscaled nodepool)
         (sprintf ["Moving nodepool "; quoted nodepool; " from autoscaled type to fixed"])
         ([Stage_Terraformer (fatal "Reconciling infrastructure for cluster")
             [mkSubPass UPDATE_INFRASTRUCTURE (fatal "Moving nodepool from autoscaled type to fixed")]] ++
          (if last_autoscaled k nodepool then
             [Stage_Kuber (fatal "Configuring cluster after move from autoscaled nodepool")
                [mkSubPass CILIUM_RESTART (fatal "Disabling Longhorn cluster autoscaler setting")]]
           else []))).

End simple.

(** ** Additions *)

Record K8sNodeAdditionOptions := mkK8sNodeAdditionOptions {
  Add_UseProxy : bool; Add_HasApiServer : bool; Add_IsStatic : bool }.

(** Whether a role of some load balancer targets the node pool. *)
Definition targeted (current : Clusters) (np : string) (isStatic : bool) : bool :=
  existsb (λ lb, existsb (λ r, existsb (λ tg,
      HasNodePoolTypeOf tg np || (isStatic && bool_decide (tg = np))) (Role_TargetPools r)) (LB_Roles lb))
    (LoadBalancers current).

Definition kubeadm_passes (hasApiServer isControl : bool) : list (SubPass StageKuber_SubPassKind) :=
  if hasApiServer && isControl then
    [mkSubPass PATCH_KUBEADM (fatal "Updating Kubeadm certSANs");
     mkSubPass CILIUM_RESTART (warn "Rollout restart of cilium pods")]
  else [].

Definition addition_ansibler (useProxy : bool) : Stage :=
  let install := [mkSubPass INSTALL_NODE_REQUIREMENTS (fatal "Installing node requirments for newly added nodes");
                  mkSubPass INSTALL_VPN (fatal "Installing VPN and interconnect new nodes with existing infrastructure")] in
  Stage_Ansibler (fatal "Configuring nodes of the cluster and its loadbalancers")
    (if useProxy then update_proxy_passes install ++ [commit_proxy] else install).

Definition addition_pipeline (opts : K8sNodeAdditionOptions) (kuber : list (SubPass StageKuber_SubPassKind))
    (refreshLbs : bool) : list Stage :=
  (if Add_IsStatic opts then []
   else [Stage_Terraformer (fatal "Reconciling infrastructure for kubernetes cluster")
           [mkSubPass UPDATE_INFRASTRUCTURE (fatal "Spawning VMs for new nodes")]]) ++
  [addition_ansibler (Add_UseProxy opts);
   Stage_KubeEleven (fatal "Reconciling kubernetes cluster")
     [mkSubPass RECONCILE_CLUSTER (fatal "Joining new nodes into the kubernetes cluster")];
   Stage_Kuber (fatal "Configuring kubernetes cluster")
     (mkSubPass PATCH_NODES (fatal "Patching newly added nodes") :: kuber)] ++
  (if refreshLbs then
     [Stage_Ansibler (fatal "Updating Envoy configuration on the LoadBalancers")
        [mkSubPass RECONCILE_LOADBALANCERS (fatal "Reconciling Envoy settings after changes to nodepool")]]
   else []).

(** The state in flight with changed kubernetes node pools. *)
Definition with_k8s_pools (current : Clusters) (k : K8Scluster) (nps : list NodePool) : Clusters :=
  mkClusters (Some (set_K8s_NodePools k nps)) (LoadBalancers current).

(** A whole new pool; static nodes are not built, they join the state in
    flight at once. *)
Definition add_nodepool (id : string) (now : Z) (current : Clusters) (k : K8Scluster) (opts : K8sNodeAdditionOptions)
    (np : string) (nodes : list string) (toAdd : NodePool) : TaskEvent :=
  let enableCA := bool_decide (Autoscaled (K8s_NodePools k) = []) && IsAutoscaled (Some toAdd) in
  let kuber := kubeadm_passes (Add_HasApiServer opts) (NodePool_IsControl toAdd) ++
    (if enableCA then [mkSubPass ENABLE_LONGHORN_CA (fatal "Enable cluster-autoscaler support for longhorn")] else []) ++
    [mkSubPass RECONCILE_LONGHORN_STORAGE_CLASSES
       (warn "Reconciling claudie longhorn storage classes after new nodepool")] in
  let '(inFlight, delta) :=
    if Add_IsStatic opts
    then (with_k8s_pools current k (K8s_NodePools k ++ [toAdd]), Update_AddedK8SNodes_ true np nodes)
    else (current, Update_TfAddK8SNodes (New toAdd)) in
  update_event id now inFlight delta (sprintf ["Adding nodepool "; np])
    (addition_pipeline opts kuber (targeted current np (Add_IsStatic opts))).

(** Nodes of a pool that exists. *)
Definition add_nodes_to_pool (id : string) (now : Z) (current : Clusters) (k dk : K8Scluster)
    (opts : K8sNodeAdditionOptions) (np : string) (nodes : list string) (matched : NodePool) : outcome TaskEvent :=
  let src := FindByName np (K8s_NodePools dk) in
  let* (inFlight, delta) :=
    (if Add_IsStatic opts then
       let* src := deref src in
       let* nps := copy_into np src nodes (K8s_NodePools k) in
       Ret (with_k8s_pools current k nps, Update_AddedK8SNodes_ false np nodes)
     else Ret (current, Update_TfAddK8SNodes (Existing np (CloneTargetNodes src nodes)))) in
  Ret (update_event id now inFlight delta
         (sprintf ["Adding "; len_string nodes; " nodes into nodepool "; np])
         (addition_pipeline opts (kubeadm_passes (Add_HasApiServer opts) (NodePool_IsControl matched))
            (targeted current np (Add_IsStatic opts)))).

(** The first entry whose pool [find] knows; the others are skipped. *)
Definition first_known {A B} (find : string → option B) (l : list (string * A)) : option (string * A * B) :=
  head (omap (λ '(np, x), pair (np, x) <$> find np) l).

Definition ScheduleAdditionsInNodePools `{RangeOrder} (id : string) (now : Z) (current desired : Clusters)
    (diff : NodePoolsDiffResult) (opts : K8sNodeAdditionOptions) : outcome (option TaskEvent) :=
  let* k := deref (K8S current) in
  let* dk := deref (K8S desired) in
  match first_known (λ np, FindByName np (K8s_NodePools dk)) (range "additions.added" (Added diff)) with
  | Some (np, nodes, toAdd) => Ret (Some (add_nodepool id now current k opts np nodes toAdd))
  | None =>
      match first_known (λ np, FindByName np (K8s_NodePools k)) (range "additions.partial" (PartiallyAdded diff)) with
      | Some (np, nodes, matched) =>
          let* ev := add_nodes_to_pool id now current k dk opts np nodes matched in Ret (Some ev)
      | None => Ret None
      end
  end.

(** ** Deletions *)

Record K8sNodeDeletionOptions := mkK8sNodeDeletionOptions {
  Del_UseProxy : bool; Del_HasApiServer : bool; Del_IsStatic : bool; Del_Unreachable : option Unreachable }.

(** The clean-up of the nodes, if there is any. *)
Definition deletion_ansibler (opts : K8sNodeDeletionOptions) : list Stage :=
  let passes :=
    (if Del_IsStatic opts then [mkSubPass REMOVE_CLAUDIE_UTILITIES (warn "Removing claudie install utilities")] else []) ++
    (if Del_UseProxy opts then
       [mkSubPass INSTALL_VPN (fatal "Refreshing VPN on nodes after deletion");
        mkSubPass UPDATE_PROXY_ENVS_ON_NODES (fatal "Updating HttpProxy,NoProxy environment variables");
        commit_proxy]
     else []) in
  match passes with
  | [] => []
  | _ => [Stage_Ansibler (fatal "Configuring nodes of the cluster and its loadbalancers") passes]
  end.

Definition deletion_pipeline (opts : K8sNodeDeletionOptions) (kuber : list (SubPass StageKuber_SubPassKind))
    (refreshLbs : bool) : list Stage :=
  [Stage_Kuber (fatal "Removing Nodes from tracked state") [mkSubPass DELETE_NODES (fatal "Updating tracked state")]] ++
  (if refreshLbs then
     [Stage_Ansibler (fatal "Updating envoy configuration")
        [mkSubPass RECONCILE_LOADBALANCERS (fatal "Removing deleted nodes from envoy")]]
   else []) ++
  [Stage_Kuber (fatal "Reconciling cluster")
     (mkSubPass DELETE_NODES (fatal "Deleting nodes from cluster") :: kuber)] ++
  deletion_ansibler opts ++
  (if Del_IsStatic opts then []
   else [Stage_Terraformer (fatal "Reconciling infrastructure for kubernetes cluster")
           [mkSubPass UPDATE_INFRASTRUCTURE (fatal "Destroying VMs for deleted nodes")]]).

Definition is_control_pool (k : K8Scluster) (np : string) : bool :=
  match FindByName np (K8s_NodePools k) with Some p => NodePool_IsControl p | None => false end.

Definition delete_nodes_from_pool (id : string) (now : Z) (current : Clusters) (k : K8Scluster)
    (opts : K8sNodeDeletionOptions) (np : string) (nodes : list string) : TaskEvent :=
  update_event id now current (Update_KDeleteNodes false np nodes (Del_Unreachable opts))
    (sprintf ["Deleting "; len_string nodes; " nodes from nodepool "; quoted np])
    (deletion_pipeline opts (kubeadm_passes (Del_HasApiServer opts) (is_control_pool k np))
       (targeted current np (Del_IsStatic opts))).

Definition delete_nodepool (id : string) (now : Z) (current : Clusters) (k : K8Scluster)
    (opts : K8sNodeDeletionOptions) (np : string) (nodes : list string) : TaskEvent :=
  let kuber := kubeadm_passes (Del_HasApiServer opts) (is_control_pool k np) ++
    (if last_autoscaled k np
     then [mkSubPass DISABLE_LONGHORN_CA (fatal "Disabling Longhorn cluster autoscaler setting")] else []) ++
    [mkSubPass RECONCILE_LONGHORN_STORAGE_CLASSES
       (warn "Reconciling claudie longhorn storage classes after nodepool deletion")] in
  update_event id now current (Update_KDeleteNodes true np nodes (Del_Unreachable opts))
    (sprintf ["Deleting nodepool "; quoted np])
    (deletion_pipeline opts kuber (targeted current np (Del_IsStatic opts))).

Definition ScheduleDeletionsInNodePools `{RangeOrder} (id : string) (now : Z) (current : Clusters)
    (diff : NodePoolsDiffResult) (opts : K8sNodeDeletionOptions) : outcome (option TaskEvent) :=
  let* k := deref (K8S current) in
  Ret match first_of "deletions.partial" (PartiallyDeleted diff) with
      | Some (np, nodes) => Some (delete_nodes_from_pool id now current k opts np nodes)
      | None =>
          match first_of "deletions.deleted" (Deleted diff) with
          | Some (np, nodes) => Some (delete_nodepool id now current k opts np nodes)
          | None => None
          end
      end.

(** ** Rolling update *)

(** A failure to create the pool is logged and nothing is scheduled. *)
Definition ScheduleRollingUpdate `{Entropy, RangeOrder} (fuel : nat) (id : string) (now : Z) (current : Clusters)
    (np : string) (templates : TemplateRepository) (opts : K8sNodeAdditionOptions) : draws (option TaskEvent) := λ i,
  match CreateNodePoolForRollingUpdate fuel current None np templates i with
  | Panic w => Panic w
  | Fail _ => Ret (None, i)
  | Ret (newNodePool, i) =>
      let* k := deref (K8S current) in
      let desired := with_k8s_pools current k (K8s_NodePools k ++ [newNodePool]) in
      let nodesAdded := Node_Name <$> NodePool_Nodes newNodePool in
      let diff := mkNodePoolsDiffResult ∅ ∅ ∅ {[NodePool_Name newNodePool := nodesAdded]} in
      let* ev := ScheduleAdditionsInNodePools id now current desired diff opts in
      Ret (ev, i)
  end.

(** ** The three phases *)

Record KubernetesReconciliate := mkKubernetesReconciliate {
  Kr_Hc : HealthCheckStatus;
  Kr_Diff : KubernetesDiffResult;
  Kr_Current : Clusters;
  Kr_Desired : Clusters }.

Section phases.
Context `{RangeOrder} (id : string) (now : Z).

Definition additions_in (d : NodePoolsDiffResult) : bool :=
  negb (bool_decide (Added d = ∅)) || negb (bool_decide (PartiallyAdded d = ∅)).

Definition deletions_in (d : NodePoolsDiffResult) : bool :=
  negb (bool_decide (Deleted d = ∅)) || negb (bool_decide (PartiallyDeleted d = ∅)).

(** [len(r.Diff...)] through the pointers of the wrapper. *)
Definition addition_options (d : KubernetesDiffResult) (isStatic : bool) : K8sNodeAdditionOptions :=
  mkK8sNodeAdditionOptions (Proxy_CurrentUsed (Kd_Proxy d)) (bool_decide (Api_Current (Kd_ApiEndpoint d) ≠ "")) isStatic.

Definition deletion_options (d : KubernetesDiffResult) (isStatic : bool) (u : option Unreachable) : K8sNodeDeletionOptions :=
  mkK8sNodeDeletionOptions (Proxy_CurrentUsed (Kd_Proxy d)) (bool_decide (Api_Current (Kd_ApiEndpoint d) ≠ "")) isStatic u.

(** The endpoint moves when its new node is in the cluster already. *)
Definition transfers (r : KubernetesReconciliate) : outcome bool :=
  let api := Kd_ApiEndpoint (Kr_Diff r) in
  if bool_decide (Api_Current api ≠ "") && bool_decide (Api_Desired api ≠ "") then
    let* k := deref (K8S (Kr_Current r)) in
    Ret (bool_decide (Api_Current api ≠ Api_Desired api) && ContainsNode (K8s_NodePools k) (Api_Desired api))
  else Ret false.

Definition KubernetesModifications (r : KubernetesReconciliate) : outcome (option TaskEvent) :=
  let d := Kr_Diff r in
  let api := Kd_ApiEndpoint d in
  let* transfer := transfers r in
  if transfer : bool then
    Ret (Some (ScheduleTransferApiEndpoint id now (Kr_Current r) (Api_DesiredNodePool api) (Api_Desired api)))
  else if additions_in (Kd_Dynamic d) then
    ScheduleAdditionsInNodePools id now (Kr_Current r) (Kr_Desired r) (Kd_Dynamic d) (addition_options d false)
  else if additions_in (Kd_Static d) then
    ScheduleAdditionsInNodePools id now (Kr_Current r) (Kr_Desired r) (Kd_Static d) (addition_options d true)
  else Ret None.

(** Nodes that are marked for deletion go one at a time. *)
Definition one_pending (site : string) (v : View) : outcome (option NodePoolsDiffResult) :=
  match first_of site v with
  | None => Ret None
  | Some (np, nodes) =>
      let* n := index nodes 0 in
      Ret (Some (mkNodePoolsDiffResult {[np := [n]]} ∅ ∅ ∅))
  end.

Definition KubernetesDeletions (r : KubernetesReconciliate) : outcome (option TaskEvent) :=
  let d := Kr_Diff r in
  if deletions_in (Kd_Dynamic d) then
    ScheduleDeletionsInNodePools id now (Kr_Current r) (Kd_Dynamic d) (deletion_options d false None)
  else if deletions_in (Kd_Static d) then
    ScheduleDeletionsInNodePools id now (Kr_Current r) (Kd_Static d) (deletion_options d true None)
  else
    let* pending := one_pending "pending.dynamic" (Kd_PendingDynamicDeletions d) in
    match pending with
    | Some diff => ScheduleDeletionsInNodePools id now (Kr_Current r) diff (deletion_options d false None)
    | None =>
        let* pending := one_pending "pending.static" (Kd_PendingStaticDeletions d) in
        match pending with
        | Some diff => ScheduleDeletionsInNodePools id now (Kr_Current r) diff (deletion_options d true None)
        | None => Ret None
        end
    end.

Definition patches (l : LabelsTaintsAnnotationsDiffResult) : bool :=
  negb (bool_decide (Added_Labels l = ∅)) || negb (bool_decide (Deleted_LabelKeys l = ∅)) ||
  (negb (bool_decide (Added_Annotations l = ∅)) || negb (bool_decide (Deleted_AnnotationsKeys l = ∅))) ||
  (negb (bool_decide (Added_Taints l = ∅)) || negb (bool_decide (Deleted_TaintKeys l = ∅))).

Definition some_event (m : outcome TaskEvent) : outcome (option TaskEvent) := let* ev := m in Ret (Some ev).

(** Everything but the rolling updates. *)
Definition low_priority_update (r : KubernetesReconciliate) : outcome (option TaskEvent) :=
  let d := Kr_Diff r in
  if Kd_Version d then some_event (ScheduleUpgradeKubernetesVersion id now (Kr_Current r) (Kr_Desired r))
  else match Proxy_Change (Kd_Proxy d) with
  | ProxyOff => some_event (ScheduleProxyOff id now (Kr_Current r) (Kr_Desired r))
  | ProxyOn | ProxyRefresh => some_event (ScheduleProxyOn id now (Kr_Current r) (Kr_Desired r))
  | ProxyNoChange =>
      if patches (Kd_LabelsTaintsAnnotations d)
      then Ret (Some (SchedulePatchNodes id now (Kr_Current r) (Kd_LabelsTaintsAnnotations d)))
      else match first_of "changed.autoscaled" (Kd_ChangedToAutoscaled d) with
      | Some (np, conf) => some_event (ScheduleMoveNodePoolToAutoscaled id now (Kr_Current r) np conf)
      | None =>
          match first_of "changed.fixed" (gset_to_gmap () (Kd_ChangedToFixed d)) with
          | Some (np, _) => some_event (ScheduleMoveNodePoolFromAutoscaled id now (Kr_Current r) np)
          | None => Ret None
          end
      end
  end.

Definition KubernetesLowPriority `{Entropy} (fuel : nat) (r : KubernetesReconciliate) : draws (option TaskEvent) := λ i,
  let* ev := low_priority_update r in
  match ev with
  | Some ev => Ret (Some ev, i)
  | None =>
      match first_of "rolling" (Kd_RollingUpdates (Kr_Diff r)) with
      | Some (np, tpl) => ScheduleRollingUpdate fuel id now (Kr_Current r) np tpl (addition_options (Kr_Diff r) false) i
      | None => Ret (None, i)
      end
  end.

End phases.

(** ** Scheduled updates *)

Section fresh.
Context `{RangeOrder} (id : string) (now : Z).

Lemma addition_pipeline_runnable opts kuber b : runnable (addition_pipeline opts kuber b) = true.
Proof. destruct opts as [[] ? []], b; reflexivity. Qed.

Lemma deletion_pipeline_runnable opts kuber b : runnable (deletion_pipeline opts kuber b) = true.
Proof. destruct opts as [[] ? [] ?], b; reflexivity. Qed.

Lemma add_nodepool_fresh current k opts np nodes toAdd :
  K8S current = Some k → fresh_update id now current (add_nodepool id now current k opts np nodes toAdd).
Proof.
  intros Hk. unfold add_nodepool. destruct opts as [u a []]; simpl; fresh_tac;
    try apply addition_pipeline_runnable. by apply same_identity_k8s.
Qed.

Lemma add_nodes_fresh current k dk opts np nodes matched ev :
  K8S current = Some k → add_nodes_to_pool id now current k dk opts np nodes matched = Ret ev →
  fresh_update id now current ev.
Proof.
  intros Hk. unfold add_nodes_to_pool. destruct opts as [u a []]; simpl.
  - destruct (FindByName np (K8s_NodePools dk)) as [src|]; simpl; [|done].
    destruct (copy_into np src nodes (K8s_NodePools k)) as [nps|?|?]; simpl; [|done..]. intros [= <-]. fresh_tac;
      [apply addition_pipeline_runnable|by apply same_identity_k8s].
  - intros [= <-]. fresh_tac. apply addition_pipeline_runnable.
Qed.

Lemma additions_fresh current desired diff opts ev :
  ScheduleAdditionsInNodePools id now current desired diff opts = Ret (Some ev) → fresh_update id now current ev.
Proof.
  unfold ScheduleAdditionsInNodePools. destruct (K8S current) as [k|] eqn:Hk; simpl; [|done].
  destruct (K8S desired) as [dk|]; simpl; [|done].
  destruct (first_known _ _) as [[[np nodes] toAdd]|].
  { intros [= <-]. by apply add_nodepool_fresh. }
  destruct (first_known _ _) as [[[np nodes] matched]|]; [|done].
  destruct (add_nodes_to_pool _ _ _ _ _ _ _ _ _) eqn:E; simpl; [|done..]. intros [= <-].
  by eapply add_nodes_fresh.
Qed.

Lemma deletions_fresh current diff opts ev :
  ScheduleDeletionsInNodePools id now current diff opts = Ret (Some ev) → fresh_update id now current ev.
Proof.
  unfold ScheduleDeletionsInNodePools. destruct (K8S current) as [k|] eqn:Hk; simpl; [|done].
  destruct (first_of _ _) as [[np nodes]|]; [intros [= <-]; fresh_tac; apply deletion_pipeline_runnable|].
  destruct (first_of _ _) as [[np nodes]|]; [intros [= <-]; fresh_tac; apply deletion_pipeline_runnable|done].
Qed.

Lemma modifications_fresh r ev :
  KubernetesModifications id now r = Ret (Some ev) → fresh_update id now (Kr_Current r) ev.
Proof.
  unfold KubernetesModifications. destruct (transfers r) as [[]|?|?]; simpl; [|try done..].
  - intros [= <-]. fresh_tac.
  - destruct (additions_in _); [apply additions_fresh|]. destruct (additions_in _); [apply additions_fresh|done].
Qed.

Lemma k8s_deletions_fresh r ev :
  KubernetesDeletions id now r = Ret (Some ev) → fresh_update id now (Kr_Current r) ev.
Proof.
  unfold KubernetesDeletions. destruct (deletions_in _); [apply deletions_fresh|].
  destruct (deletions_in _); [apply deletions_fresh|].
  destruct (one_pending _ _) as [[d|]|?|?]; simpl; [apply deletions_fresh| |done..].
  destruct (one_pending _ _) as [[d|]|?|?]; simpl; [apply deletions_fresh|done..].
Qed.

Lemma low_priority_fresh `{Entropy} fuel r i ev j :
  KubernetesLowPriority id now fuel r i = Ret (Some ev, j) → fresh_update id now (Kr_Current r) ev.
Proof.
  unfold KubernetesLowPriority. intros Hl. bind_inv Hl. destruct x as [ev'|].
  - injection Hl as -> ->. unfold low_priority_update, some_event in Hx.
    destruct (Kd_Version _); [bind_inv Hx; subst; unfold ScheduleUpgradeKubernetesVersion in *; bind_inv Hx0; subst; fresh_tac|].
    destruct (Proxy_Change _);
      [|bind_inv Hx; subst; unfold ScheduleProxyOff, ScheduleProxyOn in *; bind_inv Hx0; subst; fresh_tac..].
    destruct (patches _); [injection Hx as <-; fresh_tac|].
    destruct (first_of _ _) as [[np conf]|].
    { bind_inv Hx; subst. unfold ScheduleMoveNodePoolToAutoscaled in Hx0. bind_inv Hx0. subst. fresh_tac.
      by destruct (bool_decide _). }
    destruct (first_of _ _) as [[np []]|]; [|done].
    bind_inv Hx; subst. unfold ScheduleMoveNodePoolFromAutoscaled in Hx0. bind_inv Hx0. subst. fresh_tac.
    by destruct (last_autoscaled _ _).
  - destruct (first_of _ _) as [[np tpl]|]; [|done]. unfold ScheduleRollingUpdate in Hl.
    destruct (CreateNodePoolForRollingUpdate _ _ _ _ _ _) as [[np' i']|?|?]; [|done..].
    bind_inv Hl. subst. by eapply additions_fresh.
Qed.

End fresh.

End ScheduleKubernetes.
