(* ===== verification/Endpoint.v ===== *)
(** * The API endpoint during deletions

    The deletions a cluster schedules (reconciliate_kubernetes.go, on the
    differences of diff.go) and the node its API endpoint is on. *)

From stdpp Require Import base gmap strings list.
From S2P Require Import Prelude Spec SpecUtils Samples NodePools Diff Schedule Health ScheduleKubernetes.
Import NodePools Diff Schedule Health ScheduleKubernetes.

Module Endpoint.

(** ** Nothing to add *)

Lemma first_known_None {A B} (find : string → option B) (l : list (string * A)) :
  first_known find l = None → ∀ np x, (np, x) ∈ l → find np = None.
Proof.
  unfold first_known. intros Hh np x Hin. destruct (find np) as [b|] eqn:Hf; [|done]. exfalso.
  assert (Hb : (np, x, b) ∈ omap (λ '(np, x), pair (np, x) <$> find np) l).
  { apply list_elem_of_omap. exists (np, x). by rewrite Hf. }
  destruct (omap _ l); [by apply not_elem_of_nil in Hb|done].
Qed.

Section endpoint.
Context `{RangeOrder} (id : string) (now : Z).

(** Additions that name pools of the desired and of the current state are
    scheduled. *)
Lemma additions_scheduled current desired k dk diff opts :
  K8S current = Some k → K8S desired = Some dk →
  (∀ np ns, Added diff !! np = Some ns → is_Some (FindByName np (K8s_NodePools dk))) →
  (∀ np ns, PartiallyAdded diff !! np = Some ns → is_Some (FindByName np (K8s_NodePools k))) →
  ScheduleAdditionsInNodePools id now current desired diff opts = Ret None → Added diff = ∅ ∧ PartiallyAdded diff = ∅.
Proof.
  intros Hk Hdk Ha Hp. unfold ScheduleAdditionsInNodePools. rewrite Hk, Hdk. simpl.
  destruct (first_known _ (range _ (Added diff))) as [[[??]?]|] eqn:E1; [done|].
  destruct (first_known _ (range _ (PartiallyAdded diff))) as [[[??]?]|] eqn:E2; [by destruct (add_nodes_to_pool _ _ _ _ _ _ _ _ _)|].
  intros _. split; apply map_empty; intros np; apply eq_None_not_Some; intros [ns Hns].
  - destruct (Ha _ _ Hns) as [p Hf]. apply (elem_of_range "additions.added") in Hns.
    by rewrite (first_known_None _ _ E1 _ _ Hns) in Hf.
  - destruct (Hp _ _ Hns) as [p Hf]. apply (elem_of_range "additions.partial") in Hns.
    by rewrite (first_known_None _ _ E2 _ _ Hns) in Hf.
Qed.

(** The names that identify pools and nodes: of the pools in each state, of
    the nodes in each pool, and of the pool of a node that is in both states. *)
Definition well_named (k dk : K8Scluster) : Prop :=
  (NoDup (NodePool_Name <$> K8s_NodePools k) ∧ NoDup (NodePool_Name <$> K8s_NodePools dk)) ∧
  Forall (λ p, NoDup (node_names p)) (K8s_NodePools k) ∧
  Forall (λ p, "" ∉ node_names p) (K8s_NodePools k ++ K8s_NodePools dk) ∧
  Forall (λ p, Forall (λ q, Forall (λ n, n ∈ node_names q → NodePool_Name p = NodePool_Name q) (node_names p))
                 (K8s_NodePools dk)) (K8s_NodePools k).

#[export] Instance well_named_dec k dk : Decision (well_named k dk).
Proof. unfold well_named. apply _. Defined.

(** Without additions a desired view is part of the old one. *)
Lemma no_additions_subset (old desired : View) k ds :
  Added (NodePoolsDiff old desired) = ∅ → PartiallyAdded (NodePoolsDiff old desired) = ∅ → desired !! k = Some ds →
  ∃ os, old !! k = Some os ∧ ds ⊆ os.
Proof.
  intros Ha Hp Hk. pose proof (Added_lookup old desired k) as La. pose proof (PartiallyAdded_lookup old desired k) as Lp.
  rewrite Ha, lookup_empty in La. rewrite Hp, lookup_empty in Lp. unfold spec_deleted, spec_partially_deleted in *.
  rewrite Hk in *. destruct (old !! k) as [os|]; [|done]. exists os. split; [done|].
  symmetry in Lp. apply nonempty_None in Lp. intros n Hn.
  apply dec_stable. intros Hno. assert (Hf : n ∈ filter (λ n, n ∉ os) ds) by (by apply list_elem_of_filter).
  rewrite Lp in Hf. by apply not_elem_of_nil in Hf.
Qed.

(** The pools of a view are pools of the state. *)
Lemma view_found info v k ns :
  NodePoolsView info = Ret v → v.1 !! k = Some ns ∨ v.2 !! k = Some ns →
  is_Some (FindByName k (ClusterInfo_NodePools info)).
Proof.
  intros Hv Hk. destruct (view_sound _ _ _ Hv _ _ Hk) as [[E|E]|(p & Hp & <- & _)]; [done..|].
  destruct (FindByName _ _) eqn:Hf; [done|]. rewrite FindByName_None in Hf. by destruct (Hf _ Hp).
Qed.

Lemma views_scheduled current desired k dk (old new : View) opts :
  K8S current = Some k → K8S desired = Some dk →
  (∀ np ns, old !! np = Some ns → is_Some (FindByName np (K8s_NodePools k))) →
  (∀ np ns, new !! np = Some ns → is_Some (FindByName np (K8s_NodePools dk))) →
  let diff := NodePoolsDiff old new in
  (additions_in diff = true → ScheduleAdditionsInNodePools id now current desired diff opts = Ret None) →
  Added diff = ∅ ∧ PartiallyAdded diff = ∅.
Proof.
  intros Hk Hdk Ho Hn diff. unfold additions_in.
  destruct (decide (Added diff = ∅ ∧ PartiallyAdded diff = ∅)) as [?|Hne]; [done|]. intros Hs.
  eapply additions_scheduled; [exact Hk|exact Hdk|..|apply Hs].
  - intros np ns. unfold diff. rewrite Added_lookup. unfold spec_deleted. destruct (new !! np) eqn:E; [|done]. eauto.
  - intros np ns. unfold diff. rewrite PartiallyAdded_lookup. unfold spec_partially_deleted.
    destruct (new !! np), (old !! np) eqn:E; try done. eauto.
  - rewrite orb_true_iff, !negb_true_iff, !bool_decide_eq_false. by apply not_and_l.
Qed.

(** Nothing left to add in the differences. *)
Definition no_additions (d : KubernetesDiffResult) : Prop :=
  (Added (Kd_Dynamic d) = ∅ ∧ PartiallyAdded (Kd_Dynamic d) = ∅) ∧
  (Added (Kd_Static d) = ∅ ∧ PartiallyAdded (Kd_Static d) = ∅).

Lemma modifications_done hc k dk d current desired :
  K8S current = Some k → K8S desired = Some dk → KubernetesDiff k dk = Ret d →
  KubernetesModifications id now (mkKubernetesReconciliate hc d current desired) = Ret None → no_additions d.
Proof.
  intros Hk Hdk Hd Hm. unfold KubernetesDiff in Hd. bind_inv Hd.
  destruct x as [od os]. bind_inv Hd. destruct x as [nd ns]. bind_inv Hd. subst d.
  unfold KubernetesModifications in Hm. bind_inv Hm. destruct x0; [done|]. simpl in Hm. unfold no_additions. simpl.
  assert (Hdyn : Added (NodePoolsDiff od nd) = ∅ ∧ PartiallyAdded (NodePoolsDiff od nd) = ∅).
  { eapply views_scheduled; [exact Hk|exact Hdk|..|intros Ha; rewrite Ha in Hm; exact Hm];
      intros; [eapply (view_found _ _ _ _ Hx)|eapply (view_found _ _ _ _ Hx0)]; by left. }
  split; [exact Hdyn|].
  assert (Hno : additions_in (NodePoolsDiff od nd) = false).
  { unfold additions_in. destruct Hdyn as [-> ->]. by rewrite bool_decide_eq_true_2. }
  rewrite Hno in Hm. eapply views_scheduled; [exact Hk|exact Hdk|..|intros Ha; rewrite Ha in Hm; exact Hm];
    intros; [eapply (view_found _ _ _ _ Hx)|eapply (view_found _ _ _ _ Hx0)]; by right.
Qed.

(** Then every desired node is in the current state. *)
Lemma desired_is_built (od nd os ns : View) k dk np node :
  NodePoolsView (K8s_ClusterInfo k) = Ret (od, os) → NodePoolsView (K8s_ClusterInfo dk) = Ret (nd, ns) →
  Added (NodePoolsDiff od nd) = ∅ → PartiallyAdded (NodePoolsDiff od nd) = ∅ →
  Added (NodePoolsDiff os ns) = ∅ → PartiallyAdded (NodePoolsDiff os ns) = ∅ →
  NoDup (NodePool_Name <$> K8s_NodePools dk) →
  node_at (K8s_NodePools dk) np node → node_at (K8s_NodePools k) np node.
Proof.
  intros Hx Hx0 A1 P1 A2 P2 Hnd (p & Hp & <- & Hn).
  assert (∃ ons, (od !! NodePool_Name p = Some ons ∨ os !! NodePool_Name p = Some ons) ∧ node_names p ⊆ ons)
    as (ons & Ho & Hsub).
  { destruct (view_complete _ _ _ _ Hx0 Hnd Hp) as [Hv|Hv];
      [destruct (no_additions_subset _ _ _ _ A1 P1 Hv) as (ons & ? & ?)
      |destruct (no_additions_subset _ _ _ _ A2 P2 Hv) as (ons & ? & ?)]; eauto. }
  destruct (view_sound _ _ _ Hx _ _ Ho) as [[E|E]|(q & ? & ? & <-)]; [done..|].
  exists q. split_and!; [done..|]. by apply Hsub.
Qed.

(** The pools of the two views are of their type. *)
Lemma view_typed info v k ns :
  NodePoolsView info = Ret v →
  (v.1 !! k = Some ns → ∃ p, p ∈ ClusterInfo_NodePools info ∧ NodePool_Name p = k ∧ is_dynamic p = true) ∧
  (v.2 !! k = Some ns → ∃ p, p ∈ ClusterInfo_NodePools info ∧ NodePool_Name p = k ∧ is_dynamic p = false).
Proof.
  intros Hv. revert k ns.
  refine (foldl_outcome_ind (λ v, ∀ k ns,
    (v.1 !! k = Some ns → ∃ p, p ∈ ClusterInfo_NodePools info ∧ NodePool_Name p = k ∧ is_dynamic p = true) ∧
    (v.2 !! k = Some ns → ∃ p, p ∈ ClusterInfo_NodePools info ∧ NodePool_Name p = k ∧ is_dynamic p = false))
    view_pool _ (∅, ∅) v _ _ Hv); [by intros|].
  intros v0 p v1 Hp IH. unfold view_pool, is_dynamic. destruct (NodePool_Type p) eqn:Et; intros [= <-] k ns; simpl;
    destruct (IH k ns) as [I1 I2]; split; try done;
    (destruct (decide (NodePool_Name p = k)); [|rewrite lookup_insert_ne by done; done]);
    intros _; exists p; unfold GetDynamicNodePool; by rewrite Et.
Qed.

(** ** What is deleted *)

Lemma deletions_delta current diff opts ev st w np nodes u :
  ScheduleDeletionsInNodePools id now current diff opts = Ret (Some ev) →
  TaskEvent_Task ev = Task_Update st (Update_KDeleteNodes w np nodes u) →
  PartiallyDeleted diff !! np = Some nodes ∨ Deleted diff !! np = Some nodes.
Proof.
  unfold ScheduleDeletionsInNodePools. destruct (K8S current); simpl; [|done].
  destruct (first_of _ _) as [[p ns]|] eqn:E1.
  - intros [= <-]. intros [= <- <- <- <- <-]. left. by eapply first_of_Some.
  - destruct (first_of "deletions.deleted" _) as [[p ns]|] eqn:E2; [|done].
    intros [= <-]. intros [= <- <- <- <- <-]. right. by eapply first_of_Some.
Qed.

Lemma one_pending_Some site v diff :
  one_pending site v = Ret (Some diff) →
  ∃ np nodes n, v !! np = Some nodes ∧ n ∈ nodes ∧ diff = mkNodePoolsDiffResult {[np := [n]]} ∅ ∅ ∅.
Proof.
  unfold one_pending. destruct (first_of site v) as [[np nodes]|] eqn:E; [|done]. intros Hi. bind_inv Hi.
  exists np, nodes, x. split; [by eapply first_of_Some|]. split; [|congruence].
  unfold index in Hx. destruct (nodes !! 0) eqn:En; [|done]. injection Hx as <-. by eapply list_elem_of_lookup_2.
Qed.

Lemma elem_of_foldl_push (k np n : string) (l : list string) (m : View) :
  n ∈ default [] (foldl (λ m n, push m k n) m l !! np) → n ∈ default [] (m !! np) ∨ (np = k ∧ n ∈ l).
Proof.
  revert m. induction l as [|x l IH]; intros m; simpl; [by left|]. intros [Hp|[-> Hn]]%IH.
  - unfold push in Hp. destruct (decide (k = np)) as [<-|Hne].
    + rewrite lookup_insert_eq in Hp. simpl in Hp. apply elem_of_app in Hp as [?|Hx]; [by left|].
      apply list_elem_of_singleton in Hx as ->. right. split; [done|by left].
    + rewrite lookup_insert_ne in Hp by done. by left.
  - right. split; [done|by right].
Qed.

(** Pending nodes are marked on both sides. *)
Lemma pending_marked b pairs np n :
  n ∈ default [] (pending_deletions b pairs !! np) →
  ∃ c d, (c, d) ∈ pairs ∧ NodePool_Name d = np ∧ n ∈ pending_nodes c d.
Proof.
  unfold pending_deletions.
  assert (Hg : ∀ m, n ∈ default [] (foldl (λ m '(cnp, dnp),
      if bool_decide (is_dynamic dnp = b) then foldl (λ m n, push m (NodePool_Name dnp) n) m (pending_nodes cnp dnp)
      else m) m pairs !! np) →
    n ∈ default [] (m !! np) ∨ ∃ c d, (c, d) ∈ pairs ∧ NodePool_Name d = np ∧ n ∈ pending_nodes c d).
  { induction pairs as [|[c d] pairs IH]; intros m; simpl; [by left|]. intros [Hm|(c' & d' & ? & ? & ?)]%IH.
    - case_bool_decide; [|by left]. apply elem_of_foldl_push in Hm as [?|[-> ?]]; [by left|].
      right. exists c, d. split_and!; [by left|done..].
    - right. exists c', d'. split_and!; [by right|done..]. }
  intros [Hn|?]%Hg; [|done]. by apply not_elem_of_nil in Hn.
Qed.

Lemma pending_of k dk d :
  KubernetesDiff k dk = Ret d →
  Kd_PendingDynamicDeletions d = pending_deletions true (matching_pools (K8s_NodePools k) (K8s_NodePools dk)) ∧
  Kd_PendingStaticDeletions d = pending_deletions false (matching_pools (K8s_NodePools k) (K8s_NodePools dk)).
Proof.
  unfold KubernetesDiff. intros Hd. bind_inv Hd. destruct x as [od os]. bind_inv Hd. destruct x as [nd ns]. bind_inv Hd.
  by subst d.
Qed.

Lemma pending_endpoint_marked site b k dk cnp n diff opts current ev st w nodes u :
  NoDup (NodePool_Name <$> K8s_NodePools k) → Forall (λ p, NoDup (node_names p)) (K8s_NodePools k) →
  one_pending site (pending_deletions b (matching_pools (K8s_NodePools k) (K8s_NodePools dk))) = Ret (Some diff) →
  ScheduleDeletionsInNodePools id now current diff opts = Ret (Some ev) →
  TaskEvent_Task ev = Task_Update st (Update_KDeleteNodes w (NodePool_Name cnp) nodes u) →
  cnp ∈ K8s_NodePools k → n ∈ NodePool_Nodes cnp → Node_Name n ∈ nodes → Node_Status n = MarkedForDeletion.
Proof.
  intros Hnd Hnn Ho Hs Ht Hp Hn Hin. apply one_pending_Some in Ho as (np & l & m & Hl & Hm & ->).
  destruct (deletions_delta _ _ _ _ _ _ _ _ _ Hs Ht) as [E|E]; simpl in E; [|done].
  apply lookup_singleton_Some in E as [-> <-]. apply list_elem_of_singleton in Hin as <-.
  assert (Hm' : Node_Name n ∈ default [] (pending_deletions b (matching_pools (K8s_NodePools k) (K8s_NodePools dk)) !! NodePool_Name cnp))
    by by rewrite Hl.
  apply pending_marked in Hm' as (c & dd & Hcd & Hnd' & Hpn). unfold matching_pools in Hcd.
  apply list_elem_of_bind in Hcd as (c' & Hd & Hc'). apply list_elem_of_fmap in Hd as (d' & [= <- <-] & Hd).
  apply list_elem_of_filter in Hd as [Hname _]. unfold pending_nodes in Hpn.
  apply list_elem_of_bind in Hpn as (cn & Hpn & Hcn). apply list_elem_of_fmap in Hpn as (dn & Ed & Hdn).
  apply list_elem_of_filter in Hdn as [(Ec & _ & Hmark) _].
  assert (c = cnp) as ->.
  { pose proof (FindByName_elem _ _ Hnd Hc') as F1. pose proof (FindByName_elem _ _ Hnd Hp) as F2.
    rewrite Hname, Hnd', F2 in F1. by injection F1. }
  rewrite Forall_forall in Hnn. specialize (Hnn _ Hp).
  assert (n = cn) as ->; [|exact Hmark].
  apply list_elem_of_lookup in Hn as [i Hi], Hcn as [j Hj].
  assert (i = j) as ->; [|congruence].
  eapply NoDup_lookup; [exact Hnn|unfold node_names; rewrite list_lookup_fmap, Hi; done|].
  unfold node_names. rewrite list_lookup_fmap, Hj. simpl. congruence.
Qed.

(** ** The endpoint survives *)

Definition removed (diff : NodePoolsDiffResult) (np node : string) : Prop :=
  node ∈ default [] (Deleted diff !! np) ∨ node ∈ default [] (PartiallyDeleted diff !! np).

Lemma removed_spec (old new : View) np node :
  removed (NodePoolsDiff old new) np node →
  is_Some (old !! np) ∧ ∀ ds, new !! np = Some ds → node ∉ ds.
Proof.
  unfold removed. rewrite Deleted_lookup, PartiallyDeleted_lookup. unfold spec_deleted, spec_partially_deleted.
  destruct (old !! np) as [os|], (new !! np) as [ds|]; simpl; rewrite ?default_nonempty, ?list_elem_of_filter; set_solver.
Qed.

(** A removed node is in no desired pool of its pool's name, whatever the
    type of that pool. *)
Lemma removed_not_desired od nd os ns k dk np node :
  NodePoolsView (K8s_ClusterInfo k) = Ret (od, os) → NodePoolsView (K8s_ClusterInfo dk) = Ret (nd, ns) →
  Added (NodePoolsDiff od nd) = ∅ → PartiallyAdded (NodePoolsDiff od nd) = ∅ →
  Added (NodePoolsDiff os ns) = ∅ → PartiallyAdded (NodePoolsDiff os ns) = ∅ →
  NoDup (NodePool_Name <$> K8s_NodePools k) → NoDup (NodePool_Name <$> K8s_NodePools dk) →
  removed (NodePoolsDiff od nd) np node ∨ removed (NodePoolsDiff os ns) np node →
  ¬ node_at (K8s_NodePools dk) np node.
Proof.
  intros Hx Hx0 A1 P1 A2 P2 Hndk Hnddk Hr (q & Hq & <- & Hn).
  assert (Hboth : is_Some (od !! NodePool_Name q) → is_Some (os !! NodePool_Name q) → False).
  { intros [l1 H1] [l2 H2]. destruct (proj1 (view_typed _ _ _ l1 Hx) H1) as (p1 & Hp1 & E1 & D1).
    destruct (proj2 (view_typed _ _ _ l2 Hx) H2) as (p2 & Hp2 & E2 & D2).
    pose proof (FindByName_elem _ _ Hndk Hp1) as F1. pose proof (FindByName_elem _ _ Hndk Hp2) as F2.
    rewrite E1 in F1. rewrite E2, F1 in F2. congruence. }
  destruct (view_complete _ _ _ _ Hx0 Hnddk Hq) as [Hv|Hv]; simpl in Hv;
    destruct Hr as [[Ho Hno]%removed_spec|[Ho Hno]%removed_spec].
  - by apply (Hno _ Hv).
  - apply Hboth; [|done]. destruct (no_additions_subset _ _ _ _ A1 P1 Hv) as (? & -> & _). done.
  - apply Hboth; [done|]. destruct (no_additions_subset _ _ _ _ A2 P2 Hv) as (? & -> & _). done.
  - by apply (Hno _ Hv).
Qed.

Lemma node_at_contained nps np node : node_at nps np node → ContainsNode nps node = true.
Proof.
  intros (p & Hp & _ & Hn). apply list_elem_of_fmap in Hn as (n & -> & Hn). unfold ContainsNode.
  apply existsb_exists. exists p. split; [by apply list_elem_of_In|].
  apply existsb_exists. exists n. split; [by apply list_elem_of_In|]. unfold is_node. by rewrite bool_decide_eq_true_2.
Qed.

(** A removed endpoint has to move first. *)
Lemma removed_endpoint_moves hc k dk d current desired cnp n :
  K8S current = Some k → K8S desired = Some dk → KubernetesDiff k dk = Ret d → well_named k dk →
  FindApiEndpoint (K8s_NodePools k) = Some (cnp, n) →
  removed (Kd_Dynamic d) (NodePool_Name cnp) (Node_Name n) ∨ removed (Kd_Static d) (NodePool_Name cnp) (Node_Name n) →
  KubernetesModifications id now (mkKubernetesReconciliate hc d current desired) = Ret None → False.
Proof.
  intros Hk Hdk Hd ([Hndk Hnddk] & _ & Hempty & Hsame) Hf Hr Hm.
  destruct (modifications_done _ _ _ _ _ _ Hk Hdk Hd Hm) as [[A1 P1] [A2 P2]].
  unfold KubernetesDiff in Hd. bind_inv Hd. destruct x as [od os]. bind_inv Hd. destruct x as [nd ns]. bind_inv Hd. subst d.
  simpl in *. rename x into api. pose proof (FindApiEndpoint_Some _ _ _ Hf) as (Hp & _ & Hn & _).
  assert (Hn' : Node_Name n ∈ node_names cnp) by by apply list_elem_of_fmap_2.
  apply Forall_app in Hempty. rewrite !Forall_forall in Hempty. destruct Hempty as [Hek Hedk].
  unfold api_endpoint_diff in Hx1. rewrite Hf in Hx1. cbn [Api_Current] in Hx1.
  rewrite bool_decide_eq_false_2 in Hx1 by (intros En; apply (Hek cnp Hp); by rewrite <- En).
  apply check_chain in Hx1 as [[HC HP] [(-> & D1 & D2 & D3 & D4)|Hc]].
  { unfold deleted_in, removed in *. simpl in *. tauto. }
  simpl in HC, HP. apply control_node_at in Hc.
  pose proof (desired_is_built _ _ _ _ _ _ _ _ Hx Hx0 A1 P1 A2 P2 Hnddk Hc) as Hin.
  pose proof (removed_not_desired _ _ _ _ _ _ _ _ Hx Hx0 A1 P1 A2 P2 Hndk Hnddk Hr) as Hnot.
  assert (Hne : Api_Desired api ≠ Node_Name n).
  { intros E. rewrite E in Hc. apply Hnot. destruct Hc as (q & Hq & Ep & Hq'). exists q. split_and!; [done| |done].
    symmetry. pose proof (proj1 (Forall_forall _ _) Hsame _ Hp) as Hs1. pose proof (proj1 (Forall_forall _ _) Hs1 _ Hq) as Hs2.
    exact (proj1 (Forall_forall _ _) Hs2 _ Hn' Hq'). }
  assert (Hne' : Api_Desired api ≠ "").
  { intros E. destruct Hc as (q & Hq & _ & Hq'). apply (Hedk q Hq). by rewrite <- E. }
  unfold KubernetesModifications, transfers in Hm. simpl in Hm. rewrite HC, Hk in Hm. simpl in Hm.
  rewrite (bool_decide_eq_true_2 (Node_Name n ≠ "")) in Hm by (intros En; apply (Hek cnp Hp); by rewrite <- En).
  rewrite (bool_decide_eq_true_2 _ Hne'), (bool_decide_eq_true_2 (Node_Name n ≠ _)) in Hm by congruence.
  simpl in Hm. by rewrite (node_at_contained _ _ _ Hin) in Hm.
Qed.

(** C3: When the modifications of a cluster have nothing left to schedule,
    the deletion that is scheduled next spares the node the API endpoint is
    on, unless that node is marked for deletion: a node that holds the
    endpoint and is not desired any more is deleted only after the endpoint
    moved. *)
Theorem api_endpoint_survives (hc : HealthCheckStatus) (k dk : K8Scluster) (d : KubernetesDiffResult) (current desired : Clusters)
    (cnp : NodePool) (n : Node) (ev : TaskEvent) (st : Clusters) (w : bool) (np : string) (nodes : list string) (u : option Unreachable) :
  let r := mkKubernetesReconciliate hc d current desired in
  K8S current = Some k → K8S desired = Some dk → KubernetesDiff k dk = Ret d → well_named k dk →
  KubernetesModifications id now r = Ret None → KubernetesDeletions id now r = Ret (Some ev) →
  TaskEvent_Task ev = Task_Update st (Update_KDeleteNodes w np nodes u) →
  FindApiEndpoint (K8s_NodePools k) = Some (cnp, n) → Node_Status n ≠ MarkedForDeletion →
  ¬ (np = NodePool_Name cnp ∧ Node_Name n ∈ nodes).
Proof.
  intros r Hk Hdk Hd Hw Hm He Ht Hf Hst [-> Hin].
  pose proof (removed_endpoint_moves hc _ _ _ _ _ _ _ Hk Hdk Hd Hw Hf) as Hmove.
  unfold KubernetesDeletions in He. simpl in He.
  destruct (deletions_in _).
  { apply Hmove; [left|exact Hm]. destruct (deletions_delta _ _ _ _ _ _ _ _ _ He Ht) as [E|E]; [right|left]; by rewrite E. }
  destruct (deletions_in _).
  { apply Hmove; [right|exact Hm]. destruct (deletions_delta _ _ _ _ _ _ _ _ _ He Ht) as [E|E]; [right|left]; by rewrite E. }
  assert (Hpend : ∀ site b diff opts,
    one_pending site (pending_deletions b (matching_pools (K8s_NodePools k) (K8s_NodePools dk))) = Ret (Some diff) →
    ScheduleDeletionsInNodePools id now current diff opts = Ret (Some ev) → Node_Status n = MarkedForDeletion).
  { intros site b diff opts Ho Hs. destruct Hw as ([Hnd _] & Hnn & _). apply FindApiEndpoint_Some in Hf as (? & _ & ? & _).
    by eapply pending_endpoint_marked. }
  destruct (pending_of _ _ _ Hd) as [Ed Es]. rewrite Ed, Es in He.
  apply Hst. destruct (one_pending _ (pending_deletions true _)) as [[diff|]|?|?] eqn:E1; simpl in He; [| |done..].
  - eapply Hpend; eauto.
  - destruct (one_pending _ (pending_deletions false _)) as [[diff|]|?|?] eqn:E2; simpl in He; [|done..].
    eapply Hpend; eauto.
Qed.

End endpoint.

(** *** Instances *)

Definition healthy : HealthCheckStatus := mkHealthCheckStatus false ∅ false false.

(** A worker goes, the endpoint stays on the control plane. *)
Lemma api_endpoint_survives_witness :
  let desired := Samples.k8s_with [Samples.ctrl; Samples.workers_shrunk] in
  ∃ d ev st, KubernetesDiff Samples.k8s desired = Ret d ∧
    KubernetesDeletions "id" 0
      (mkKubernetesReconciliate healthy d Samples.clusters (mkClusters (Some desired) [Samples.lb])) = Ret (Some ev) ∧
    TaskEvent_Task ev = Task_Update st (Update_KDeleteNodes false "workers" ["workers-02"] None) ∧
    ¬ ("workers" = "ctrl-0000001" ∧ "ctrl-0000001-01" ∈ ["workers-02"]).
Proof.
  intros desired. destruct (KubernetesDiff Samples.k8s desired) as [d|?|?] eqn:Hd; [|vm_compute in Hd; discriminate Hd..].
  eexists d, _, _. split; [reflexivity|]. split; [|split].
  3: { eapply (api_endpoint_survives "id" 0 healthy Samples.k8s desired d Samples.clusters
         (mkClusters (Some desired) [Samples.lb]) Samples.ctrl (Samples.node "ctrl-0000001-01" "1.1.1.1" apiEndpoint));
       [reflexivity|reflexivity|exact Hd|by_decide|vm_compute in Hd; injection Hd as <-; vm_compute; reflexivity
       |vm_compute in Hd; injection Hd as <-; vm_compute; reflexivity|reflexivity|reflexivity|discriminate]. }
  - vm_compute in Hd. injection Hd as <-. vm_compute. reflexivity.
  - reflexivity.
Defined.

(** The same control plane with its endpoint node marked for deletion. *)
Definition marked_ctrl : NodePool :=
  Samples.pool "ctrl-0000001" true (Samples.dyn 2 None "t" "c1" "10.0.0.0/24")
    [mkNode "ctrl-0000001-01" "" "1.1.1.1" apiEndpoint "root" MarkedForDeletion 22 51820;
     Samples.node "ctrl-0000001-02" "1.1.1.2" master].

(** Without that exception the statement fails: a marked endpoint node is
    deleted at once, with no transfer of the endpoint before it. *)
Example marked_endpoint_is_deleted :
  let k := Samples.k8s_with [marked_ctrl; Samples.workers] in
  let state := mkClusters (Some k) [] in
  (let* d := KubernetesDiff k k in
   let r := mkKubernetesReconciliate healthy d state state in
   let* modification := KubernetesModifications "id" 0 r in
   let* deletion := KubernetesDeletions "id" 0 r in
   Ret (modification, TaskEvent_Task <$> deletion))
  = Ret (None, Some (Task_Update state (Update_KDeleteNodes false "ctrl-0000001" ["ctrl-0000001-01"] None))).
Proof. vm_compute. reflexivity. Qed.

End Endpoint.
