(* ===== verification/ScheduleLoadBalancers.v ===== *)
(** * Load balancer tasks (service/reconciliate_loadbalancers.go)

    The tasks for the load balancers of a cluster, and the three phases in
    which they are considered around the changes of the kubernetes cluster.
    A load balancer of a difference is identified by its id and its index in
    the current and in the desired state. *)

From stdpp Require Import base gmap strings list pretty.
From S2P Require Import Prelude Spec SpecUtils Samples NodePools Diff GenerateState Schedule Health ScheduleKubernetes.
Import NodePools Diff GenerateState Schedule Health ScheduleKubernetes.

Module ScheduleLoadBalancers.

Record LoadBalancerNodePoolsOptions := mkLoadBalancerNodePoolsOptions {
  Lbo_UseProxy : bool; Lbo_IsStatic : bool; Lbo_Unreachable : option Unreachable }.

(** The state in flight with one load balancer changed. *)
Definition with_lb (current : Clusters) (i : nat) (lb : LBcluster) : Clusters :=
  mkClusters (K8S current) (<[i := lb]> (LoadBalancers current)).

Section schedule.
Context (id : string) (now : Z).

(** ** Node pools *)

Definition lb_deletion_pipeline (opts : LoadBalancerNodePoolsOptions) : list Stage :=
  (if Lbo_IsStatic opts then []
   else [Stage_Terraformer (fatal "Reconciling infrastructure for the load balancer")
           [mkSubPass UPDATE_INFRASTRUCTURE (fatal "Remvoing firewalls and nodes")]]) ++
  (if Lbo_UseProxy opts then
     [Stage_Ansibler (fatal "Configuring nodes of the cluster and the loadbalancers")
        [mkSubPass INSTALL_VPN (fatal "Refreshing VPN on nodes of the cluster after nodes/nodepool deletion");
         mkSubPass UPDATE_PROXY_ENVS_ON_NODES
           (fatal "Updating HttpProxy,NoProxy environment variables, after node/nodepool removal");
         commit_proxy]]
   else []) ++
  [Stage_Kuber (fatal "Configuring kubernetes cluster")
     [mkSubPass STORE_LB_SCRAPE_CONFIG (warn "Reconciling scrape config")]].

(** Static nodes leave the state in flight at once. *)
Definition delete_lb_nodes (current : Clusters) (cid : LoadBalancerIdentifier) (np : string) (nodes : list string)
    (opts : LoadBalancerNodePoolsOptions) : outcome (Clusters * Delta) :=
  if Lbo_IsStatic opts then
    match IndexLoadbalancerById (Lb_Id_ cid) (LoadBalancers current) with
    | None => Ret (current, Update_None_)
    | Some idx =>
        let* lb := index (LoadBalancers current) idx in
        let affected := FindByName np (LB_NodePools lb) in
        let affectedNodes := CloneTargetNodes affected nodes in
        let keys := match affected ≫= GetStaticNodePool with
                    | Some stt => keys_for (Static_NodeKeys stt) affectedNodes
                    | None => ∅
                    end in
        let* _ := deref affected in
        Ret (with_lb current idx
               (set_LB_NodePools lb (update_nodepool np (λ p, DeleteNodes p nodes) (LB_NodePools lb))),
             Update_DeletedLoadBalancerNodes_ (Lbo_Unreachable opts) (Lb_Id_ cid) (Partial np affectedNodes keys))
    end
  else Ret (current, Update_TfDeleteLoadBalancerNodes (Lb_Id_ cid) false np nodes (Lbo_Unreachable opts)).

(** The deleted static pool is looked up by the id of the load balancer. *)
Definition delete_lb_pool (current : Clusters) (cid : LoadBalancerIdentifier) (np : string) (nodes : list string)
    (opts : LoadBalancerNodePoolsOptions) : outcome (Clusters * Delta) :=
  if Lbo_IsStatic opts then
    match IndexLoadbalancerById (Lb_Id_ cid) (LoadBalancers current) with
    | None => Ret (current, Update_None_)
    | Some idx =>
        let* lb := index (LoadBalancers current) idx in
        let affected := FindByName (Lb_Id_ cid) (LB_NodePools lb) in
        Ret (with_lb current idx (set_LB_NodePools lb (DeleteByName (LB_NodePools lb) np)),
             Update_DeletedLoadBalancerNodes_ (Lbo_Unreachable opts) (Lb_Id_ cid) (Whole affected))
    end
  else Ret (current, Update_TfDeleteLoadBalancerNodes (Lb_Id_ cid) true np nodes (Lbo_Unreachable opts)).

Definition ScheduleDeletionLoadBalancerNodePools `{RangeOrder} (current : Clusters) (cid : LoadBalancerIdentifier)
    (diff : NodePoolsDiffResult) (opts : LoadBalancerNodePoolsOptions) : outcome (option TaskEvent) :=
  match first_of "lb.deletions.partial" (PartiallyDeleted diff) with
  | Some (np, nodes) =>
      let* (inFlight, delta) := delete_lb_nodes current cid np nodes opts in
      Ret (Some (update_event id now inFlight delta
                   (sprintf ["Deleting "; len_string nodes; " nodes from nodepool "; quoted np;
                             " of load balancer "; quoted (Lb_Id_ cid)]) (lb_deletion_pipeline opts)))
  | None =>
      match first_of "lb.deletions.deleted" (Deleted diff) with
      | Some (np, nodes) =>
          let* (inFlight, delta) := delete_lb_pool current cid np nodes opts in
          Ret (Some (update_event id now inFlight delta
                       (sprintf ["Deleting nodepool "; quoted np; " from load balancer "; quoted (Lb_Id_ cid)])
                       (lb_deletion_pipeline opts)))
      | None => Ret None
      end
  end.

Definition lb_addition_pipeline (opts : LoadBalancerNodePoolsOptions) : list Stage :=
  let vpn := [mkSubPass INSTALL_VPN
                (fatal "Installing VPN and interconnect new nodes/nodepools with existing infrastructure")] in
  let envoy := [mkSubPass RECONCILE_LOADBALANCERS
                  (fatal "Refreshing/Deploying envoy services for new nodes/nodepools")] in
  (if Lbo_IsStatic opts then []
   else [Stage_Terraformer (fatal "Reconciling infrastructure for the load balancer")
           [mkSubPass UPDATE_INFRASTRUCTURE (fatal "Reconciling firewalls and VMs for new nodes/nodepools")]]) ++
  [Stage_Ansibler (fatal "Configuring newly added nodes of the load balancer")
     (if Lbo_UseProxy opts then update_proxy_passes vpn ++ [commit_proxy] ++ envoy else vpn ++ envoy);
   Stage_Kuber (fatal "Configuring cluster") [mkSubPass STORE_LB_SCRAPE_CONFIG (warn "Reconciling scrape config")]].

Definition add_lb_nodes (current desired : Clusters) (cid did : LoadBalancerIdentifier) (np : string)
    (nodes : list string) (opts : LoadBalancerNodePoolsOptions) : outcome (Clusters * Delta) :=
  if Lbo_IsStatic opts then
    let* dstlb := index (LoadBalancers current) (Lb_Index cid) in
    let* srclb := index (LoadBalancers desired) (Lb_Index did) in
    let* _ := deref (FindByName np (LB_NodePools dstlb)) in
    let* src := deref (FindByName np (LB_NodePools srclb)) in
    let* nps := copy_into np src nodes (LB_NodePools dstlb) in
    Ret (with_lb current (Lb_Index cid) (set_LB_NodePools dstlb nps),
         Update_AddedLoadBalancerNodes_ (Lb_Id_ cid) false np nodes)
  else
    let* srclb := index (LoadBalancers desired) (Lb_Index did) in
    Ret (current, Update_TfAddLoadBalancerNodes (Lb_Id_ cid)
                    (Existing np (CloneTargetNodes (FindByName np (LB_NodePools srclb)) nodes))).

(** A pool that is not in the desired state, of which there is none in a
    difference, would be added as a nil pointer. *)
Definition add_lb_pool (current desired : Clusters) (cid did : LoadBalancerIdentifier) (np : string)
    (nodes : list string) (opts : LoadBalancerNodePoolsOptions) : outcome (Clusters * Delta) :=
  let* srclb := index (LoadBalancers desired) (Lb_Index did) in
  let* toAdd := deref (FindByName np (LB_NodePools srclb)) in
  if Lbo_IsStatic opts then
    let* dstlb := index (LoadBalancers current) (Lb_Index cid) in
    Ret (with_lb current (Lb_Index cid) (set_LB_NodePools dstlb (LB_NodePools dstlb ++ [toAdd])),
         Update_AddedLoadBalancerNodes_ (Lb_Id_ cid) true np nodes)
  else Ret (current, Update_TfAddLoadBalancerNodes (Lb_Id_ cid) (New toAdd)).

Definition ScheduleAdditionLoadBalancerNodePools `{RangeOrder} (current desired : Clusters)
    (cid did : LoadBalancerIdentifier) (diff : NodePoolsDiffResult) (opts : LoadBalancerNodePoolsOptions)
    : outcome (option TaskEvent) :=
  match first_of "lb.additions.partial" (PartiallyAdded diff) with
  | Some (np, nodes) =>
      let* (inFlight, delta) := add_lb_nodes current desired cid did np nodes opts in
      Ret (Some (update_event id now inFlight delta
                   (sprintf ["Adding "; len_string nodes; " nodes to nodepool "; quoted np;
                             " for loadbalancer "; quoted (Lb_Id_ cid)]) (lb_addition_pipeline opts)))
  | None =>
      match first_of "lb.additions.added" (Added diff) with
      | Some (np, nodes) =>
          let* (inFlight, delta) := add_lb_pool current desired cid did np nodes opts in
          Ret (Some (update_event id now inFlight delta
                       (sprintf ["Adding nodepool "; quoted np; " for loadbalancer "; quoted (Lb_Id_ cid)])
                       (lb_addition_pipeline opts)))
      | None => Ret None
      end
  end.

Definition ScheduleRollingUpdateLoadBalancer `{Entropy, RangeOrder} (fuel : nat) (current : Clusters)
    (cid : LoadBalancerIdentifier) (np : string) (templates : TemplateRepository)
    (opts : LoadBalancerNodePoolsOptions) : draws (option TaskEvent) := λ i,
  match CreateNodePoolForRollingUpdate fuel current (Some (Lb_Index cid)) np templates i with
  | Panic w => Panic w
  | Fail _ => Ret (None, i)
  | Ret (newNodePool, i) =>
      let* lb := index (LoadBalancers current) (Lb_Index cid) in
      let desired := with_lb current (Lb_Index cid) (set_LB_NodePools lb (LB_NodePools lb ++ [newNodePool])) in
      let nodesAdded := Node_Name <$> NodePool_Nodes newNodePool in
      let diff := mkNodePoolsDiffResult ∅ ∅ ∅ {[NodePool_Name newNodePool := nodesAdded]} in
      let* ev := ScheduleAdditionLoadBalancerNodePools current desired cid cid diff opts in
      Ret (ev, i)
  end.

(** ** DNS and API endpoint *)

Definition ScheduleReplaceDns (useProxy : bool) (current desired : Clusters) (cid did : LoadBalancerIdentifier)
    (apiEndpoint : bool) : outcome TaskEvent :=
  let* dlb := index (LoadBalancers desired) (Lb_Index did) in
  let updateProxy := mkSubPass UPDATE_PROXY_ENVS_ON_NODES (fatal "Updating HttpProxy,NoProxy environment variables") in
  let* (old, stages) :=
    (if IsApiEndpoint (Some dlb) && apiEndpoint then
       let* clb := index (LoadBalancers current) (Lb_Index cid) in
       let prev := match LB_Dns clb with Some d => DNS_Endpoint d | None => "" end in
       let move := mkSubPass DETERMINE_API_ENDPOINT_CHANGE
                     (fatal (sprintf ["Moving API endpoint from "; quoted prev; " to the newly configured DNS"])) in
       Ret (Some prev,
            Stage_Ansibler (fatal "Configuring infrastructure of the cluster")
              (if useProxy then [updateProxy; move; commit_proxy] else [move]) :: endpoint_stages)
     else Ret (None,
               if useProxy then [Stage_Ansibler (fatal "Configuring nodes after DNS change") [updateProxy; commit_proxy]]
               else [])) in
  Ret (update_event id now current (Update_TfReplaceDns (Lb_Id_ cid) (LB_Dns dlb) old)
         (sprintf ["Reconciling DNS for load balancer "; quoted (Lb_Id_ cid)])
         (Stage_Terraformer (fatal "Reconciling infrastructure")
            [mkSubPass UPDATE_INFRASTRUCTURE (fatal "Replacing old DNS infrastructure with new")] :: stages)).

Definition ScheduleControlNodesPort6443 (current : Clusters) (open : bool) : outcome TaskEvent :=
  let* k := deref (K8S current) in
  Ret (update_event id now current (Update_ClusterApiPort open)
         (sprintf ["Reconciling API endpoint port for cluster "; quoted (K8s_Id k)])
         [Stage_Terraformer (fatal "Reconciling infrastructure")
            [mkSubPass API_PORT_ON_KUBERNETES (fatal "Adjusting firewall rules")]]).

Definition change_name (c : ApiEndpointChangeState) : string :=
  match c with
  | NoChange => "NoChange" | AttachingLoadBalancer => "AttachingLoadBalancer"
  | DetachingLoadBalancer => "DetachingLoadBalancer" | EndpointRenamed => "EndpointRenamed"
  | MoveEndpoint => "MoveEndpoint"
  end.

Definition ScheduleMoveApiEndpoint (current : Clusters) (cid did : string) (change : ApiEndpointChangeState) : TaskEvent :=
  update_event id now current (Update_ApiEndpoint_ change cid did)
    (sprintf ["Moving Api endpoint "; change_name change; " from "; quoted cid; " to "; quoted did])
    (Stage_Ansibler (fatal "Configuring infrastructure")
       [mkSubPass DETERMINE_API_ENDPOINT_CHANGE (fatal "Moving api endpoint")] :: endpoint_stages).

(** ** Whole load balancers *)

Definition remove_scrape_config (level : string → StageDescription) (current : Clusters) : list Stage :=
  if bool_decide (length (LoadBalancers current) = 1)
  then [Stage_Kuber (level "Configuring cluster")
          [mkSubPass REMOVE_LB_SCRAPE_CONFIG (warn "Removing load balancer scrape config")]]
  else [].

Definition destroy_lb : Stage :=
  Stage_Terraformer (fatal "Reconciling infrastructure")
    [mkSubPass UPDATE_INFRASTRUCTURE (fatal "Destroying infrastructure")].

Definition ScheduleDeleteLoadBalancer (useProxy : bool) (current : Clusters) (cid : LoadBalancerIdentifier) : TaskEvent :=
  update_event id now current (Update_DeleteLoadBalancer_ (Lb_Id_ cid) None)
    (sprintf ["Removing load balancer "; quoted (Lb_Id_ cid)])
    ([destroy_lb] ++
     (if useProxy then
        [Stage_Ansibler (fatal "Configuring nodes after Load Balancer deletion")
           [mkSubPass INSTALL_VPN (fatal "Refreshing VPN on nodes of the cluster");
            mkSubPass UPDATE_PROXY_ENVS_ON_NODES (fatal "Updating HttpProxy,NoProxy environment variables");
            commit_proxy]]
      else []) ++ remove_scrape_config fatal current).

(** reconciliate_unreachable_nodes.go *)
Definition ScheduleRawDeleteLoadBalancer (current : Clusters) (cid : LoadBalancerIdentifier)
    (unreachable : option Unreachable) : TaskEvent :=
  update_event id now current (Update_DeleteLoadBalancer_ (Lb_Id_ cid) unreachable)
    (sprintf ["Removing load balancer "; quoted (Lb_Id_ cid)])
    ([destroy_lb] ++ remove_scrape_config warn current).

Definition ScheduleJoinLoadBalancer (useProxy : bool) (current desired : Clusters) (did : LoadBalancerIdentifier)
    : outcome TaskEvent :=
  let* toJoin := index (LoadBalancers desired) (Lb_Index did) in
  let vpn := [mkSubPass INSTALL_VPN (fatal "Installing VPN and interconnect with existing infrastructure")] in
  let envoy := [mkSubPass RECONCILE_LOADBALANCERS (fatal "Setup envoy for roles of the loadbalancer")] in
  Ret (update_event id now current (Update_TfAddLoadBalancer toJoin)
         (sprintf ["Joining loadbalancer "; quoted (Lb_Id_ did); " into existing infrastructure"])
         [Stage_Terraformer (fatal "Creating infrastructure for newly added loadbalancer")
            [mkSubPass UPDATE_INFRASTRUCTURE (fatal "Spawning infrastructure")];
          Stage_Ansibler (fatal "Configuring newly spawned infrastructure")
            (if useProxy then update_proxy_passes vpn ++ envoy ++ [commit_proxy] else vpn ++ envoy);
          Stage_Kuber (fatal "Configuring cluster")
            [mkSubPass STORE_LB_SCRAPE_CONFIG (warn "Reconciling load balancer scrape config")]]).

(** ** Roles *)

Definition role_stages (tf : option string) (envoy : string) (scrape : bool) : list Stage :=
  match tf with
  | Some about => [Stage_Terraformer (fatal "Reconciling infrastructure for the load balancer")
                     [mkSubPass UPDATE_INFRASTRUCTURE (fatal about)]]
  | None => []
  end ++
  [Stage_Ansibler (fatal "Configuring nodes of the reconciled load balancer")
     [mkSubPass RECONCILE_LOADBALANCERS (fatal envoy)]] ++
  (if scrape then [Stage_Kuber (fatal "Configuring cluster")
                     [mkSubPass STORE_LB_SCRAPE_CONFIG (warn "Reconciling load balancer scrape config")]] else []).

Definition reconciling (cid : LoadBalancerIdentifier) : string :=
  sprintf ["Reconciling load balancer "; quoted (Lb_Id_ cid)].

Definition ScheduleDeleteRoles (current : Clusters) (cid : LoadBalancerIdentifier) (roles : list string) : TaskEvent :=
  update_event id now current (Update_DeleteLoadBalancerRoles_ (Lb_Id_ cid) roles) (reconciling cid)
    (role_stages (Some "Adjusting firewalls rules after deletetion of roles")
       "Refreshing existing envoy services and removing unused for deleted roles" true).

(** A port in use is replaced by 0, an ephemeral one, until it is free. *)
Definition ScheduleAddRoles (current desired : Clusters) (cid did : LoadBalancerIdentifier) (roles : list string)
    : outcome TaskEvent :=
  let* dlb := index (LoadBalancers desired) (Lb_Index did) in
  let used := LoadBalancers current ≫= λ lb, Role_EnvoyAdminPort <$> LB_Roles lb in
  let toAdd := (λ r, if contains used (Role_EnvoyAdminPort r) then set_Role_EnvoyAdminPort r 0 else r) <$>
                 filter (λ r, contains roles (Role_Name r) = true) (LB_Roles dlb) in
  Ret (update_event id now current (Update_TfAddLoadBalancerRoles (Lb_Id_ cid) toAdd) (reconciling cid)
         (role_stages (Some "Reconciling firewalls for new roles")
            "Refreshing existing envoy services and deploy new for newly added roles" true)).

Definition ScheduleReconcileRoleTargetPools (current desired : Clusters) (cid did : LoadBalancerIdentifier)
    : outcome TaskEvent :=
  let* clb := index (LoadBalancers current) (Lb_Index cid) in
  let* dlb := index (LoadBalancers desired) (Lb_Index did) in
  let toReconcile := foldl (λ m cr,
    match find_first (role_named (Role_Name cr)) (LB_Roles dlb) with
    | Some dr => <[Role_Name cr := Role_TargetPools dr]> m
    | None => m
    end) ∅ (LB_Roles clb) in
  Ret (update_event id now current (Update_AnsReplaceTargetPools (Lb_Id_ cid) toReconcile) (reconciling cid)
         (role_stages None "Refreshing existing envoy services and deploy new for changed target pools of role" true)).

Definition ScheduleRefreshLoadBalancerRoleInternalSettings (current desired : Clusters)
    (cid did : LoadBalancerIdentifier) (role : string) : outcome TaskEvent :=
  let* dlb := index (LoadBalancers desired) (Lb_Index did) in
  let '(port, settings) := match find_first (role_named role) (LB_Roles dlb) with
                           | Some dr => (Role_TargetPort dr, Some (Role_Settings_ dr))
                           | None => (0%Z, None)
                           end in
  Ret (update_event id now current (Update_AnsReplaceRoleInternalSettings (Lb_Id_ cid) role port settings)
         (sprintf ["Updating internal settings for role "; quoted role; " loadbalancer "; quoted (Lb_Id_ cid)])
         (role_stages None "Refreshing existing envoy services for changed settings of the role" false)).

Definition ScheduleRefreshLoadBalancerRoleExternalSettings (current desired : Clusters)
    (cid did : LoadBalancerIdentifier) (role : string) : outcome TaskEvent :=
  let* dlb := index (LoadBalancers desired) (Lb_Index did) in
  let '(typ, protocol, port) :=
    match find_first (role_named role) (LB_Roles dlb) with
    | Some dr => (if bool_decide (Role_Port dr = APIServerPort) then ApiServer else Ingress, Role_Protocol dr, Role_Port dr)
    | None => (ApiServer, "", 0%Z)
    end in
  Ret (update_event id now current (Update_TfReplaceRoleExternalSettings (Lb_Id_ cid) role typ protocol port)
         (sprintf ["Updating external settings for role "; quoted role; " loadbalancer "; quoted (Lb_Id_ cid)])
         (role_stages (Some "Reconciling firewalls for role")
            "Refreshing existing envoy services for changed settings of the role" false)).

End schedule.

(** ** The three phases *)

Record LoadBalancersReconciliate := mkLoadBalancersReconciliate {
  Lbr_Hc : HealthCheckStatus;
  Lbr_Diff : LoadBalancersDiffResult;
  Lbr_Proxy : ProxyDiffResult;
  Lbr_Current : Clusters;
  Lbr_Desired : Clusters }.

Section phases.
Context `{RangeOrder} (id : string) (now : Z).

Definition lb_options (r : LoadBalancersReconciliate) (isStatic : bool) : LoadBalancerNodePoolsOptions :=
  mkLoadBalancerNodePoolsOptions (Proxy_CurrentUsed (Lbr_Proxy r)) isStatic None.

(** [cid] and [did] of a modified load balancer. *)
Definition current_id (lb : string) (m : ModifiedLoadBalancer) : LoadBalancerIdentifier :=
  mkLoadBalancerIdentifier lb (Mod_CurrentIdx m).
Definition desired_id (lb : string) (m : ModifiedLoadBalancer) : LoadBalancerIdentifier :=
  mkLoadBalancerIdentifier lb (Mod_DesiredIdx m).

(** The body of a loop over the modified load balancers either returns or
    goes on with the next one; [None] stands for the latter. *)
Fixpoint first_return (body : string → ModifiedLoadBalancer → option (outcome (option TaskEvent)))
    (l : list (string * ModifiedLoadBalancer)) : option (outcome (option TaskEvent)) :=
  match l with
  | [] => None
  | (lb, m) :: l => match body lb m with Some r => Some r | None => first_return body l end
  end.

Definition returned (r : option (outcome (option TaskEvent))) (k : outcome (option TaskEvent)) : outcome (option TaskEvent) :=
  match r with Some r => r | None => k end.

(** Which change of the API endpoint can be made now. *)
Definition endpoint_step (r : LoadBalancersReconciliate) : option (outcome (option TaskEvent)) :=
  let d := Lbr_Diff r in
  let lbs := LoadBalancers (Lbr_Current r) in
  let move := Some (Ret (Some (ScheduleMoveApiEndpoint id now (Lbr_Current r) (Lbd_Api_Current d) (Lbd_Api_New d) (Lbd_Api_State d)))) in
  match Lbd_Api_State d with
  | AttachingLoadBalancer =>
      match IndexLoadbalancerById (Lbd_Api_New d) lbs with
      | Some i => if HasApiRole (lbs !! i) then move else None
      | None => None
      end
  | DetachingLoadBalancer =>
      if Hc_ControlNodesHave6443 (Lbr_Hc r) then move
      else Some (some_event (ScheduleControlNodesPort6443 id now (Lbr_Current r) true))
  | MoveEndpoint =>
      let synced lb := match Lbd_Modified d !! lb with
                       | Some m => bool_decide (Roles_Added (Mod_Roles m) = [])
                       | None => true
                       end in
      if bool_decide (is_Some (IndexLoadbalancerById (Lbd_Api_Current d) lbs)) &&
         bool_decide (is_Some (IndexLoadbalancerById (Lbd_Api_New d) lbs)) &&
         synced (Lbd_Api_Current d) && synced (Lbd_Api_New d)
      then move else None
  | EndpointRenamed =>
      first_return (λ lb m,
        if Mod_DNS m && bool_decide (lb = Lbd_Api_Current d)
        then Some (some_event (ScheduleReplaceDns id now (Proxy_CurrentUsed (Lbr_Proxy r)) (Lbr_Current r) (Lbr_Desired r)
                     (current_id lb m) (desired_id lb m) true))
        else None) (range "endpoint.renamed" (Lbd_Modified d))
  | NoChange => None
  end.

(** A pending deletion of a load balancer node. *)
Definition pending_lb (site : string) (r : LoadBalancersReconciliate) (cid : LoadBalancerIdentifier) (v : View)
    (isStatic : bool) : option (outcome (option TaskEvent)) :=
  match first_of site v with
  | None => None
  | Some (np, nodes) =>
      Some (let* n := index nodes 0 in
            ScheduleDeletionLoadBalancerNodePools id now (Lbr_Current r) cid
              (mkNodePoolsDiffResult {[np := [n]]} ∅ ∅ ∅) (lb_options r isStatic))
  end.

Definition pre_modified (r : LoadBalancersReconciliate) (lb : string) (m : ModifiedLoadBalancer)
    : option (outcome (option TaskEvent)) :=
  let cid := current_id lb m in
  let did := desired_id lb m in
  let add d isStatic := Some (ScheduleAdditionLoadBalancerNodePools id now (Lbr_Current r) (Lbr_Desired r) cid did d (lb_options r isStatic)) in
  let del d isStatic := Some (ScheduleDeletionLoadBalancerNodePools id now (Lbr_Current r) cid d (lb_options r isStatic)) in
  if Mod_DNS m then
    Some (some_event (ScheduleReplaceDns id now (Proxy_CurrentUsed (Lbr_Proxy r)) (Lbr_Current r) (Lbr_Desired r) cid did false))
  else if additions_in (Mod_Dynamic m) then add (Mod_Dynamic m) false
  else if additions_in (Mod_Static m) then add (Mod_Static m) true
  else if deletions_in (Mod_Dynamic m) then del (Mod_Dynamic m) false
  else if deletions_in (Mod_Static m) then del (Mod_Static m) true
  else match pending_lb "lb.pending.dynamic" r cid (Mod_PendingDynamicDeletions m) false with
       | Some e => Some e
       | None => pending_lb "lb.pending.static" r cid (Mod_PendingStaticDeletions m) true
       end.

Definition PreKubernetesDiff (r : LoadBalancersReconciliate) : outcome (option TaskEvent) :=
  returned (endpoint_step r)
    (returned (first_return (pre_modified r) (range "pre.modified" (Lbd_Modified (Lbr_Diff r)))) (Ret None)).

Definition added_roles (r : LoadBalancersReconciliate) (lb : string) (m : ModifiedLoadBalancer)
    : option (outcome (option TaskEvent)) :=
  match Roles_Added (Mod_Roles m) with
  | [] => None
  | roles => Some (some_event (ScheduleAddRoles id now (Lbr_Current r) (Lbr_Desired r) (current_id lb m) (desired_id lb m) roles))
  end.

Definition changed_roles (r : LoadBalancersReconciliate) (lb : string) (m : ModifiedLoadBalancer)
    : option (outcome (option TaskEvent)) :=
  match Roles_Deleted (Mod_Roles m) with
  | [] =>
      if negb (bool_decide (Roles_TargetPoolsAdded (Mod_Roles m) = ∅)) ||
         negb (bool_decide (Roles_TargetPoolsDeleted (Mod_Roles m) = ∅))
      then Some (some_event (ScheduleReconcileRoleTargetPools id now (Lbr_Current r) (Lbr_Desired r) (current_id lb m) (desired_id lb m)))
      else None
  | roles => Some (Ret (Some (ScheduleDeleteRoles id now (Lbr_Current r) (current_id lb m) roles)))
  end.

Definition PostKubernetesDiff (r : LoadBalancersReconciliate) : outcome (option TaskEvent) :=
  let d := Lbr_Diff r in
  let useProxy := Proxy_CurrentUsed (Lbr_Proxy r) in
  match Lbd_Added d with
  | lb :: _ => some_event (ScheduleJoinLoadBalancer id now useProxy (Lbr_Current r) (Lbr_Desired r) lb)
  | [] =>
      returned (first_return (added_roles r) (range "post.added" (Lbd_Modified d)))
        (returned (first_return (changed_roles r) (range "post.changed" (Lbd_Modified d)))
           match Lbd_Deleted d with
           | lb :: _ => Ret (Some (ScheduleDeleteLoadBalancer id now useProxy (Lbr_Current r) lb))
           | [] =>
               match FindAssignedLbApiEndpoint (LoadBalancers (Lbr_Current r)) with
               | Some _ => if Hc_ControlNodesHave6443 (Lbr_Hc r)
                           then some_event (ScheduleControlNodesPort6443 id now (Lbr_Current r) false)
                           else Ret None
               | None => Ret None
               end
           end)
  end.

(** The loop of the low priority tasks, which may draw. *)
Fixpoint lb_low_priority `{Entropy} (fuel : nat) (r : LoadBalancersReconciliate) (l : list (string * ModifiedLoadBalancer))
    : draws (option TaskEvent) := λ i,
  match l with
  | [] => Ret (None, i)
  | (lb, m) :: l =>
      let cid := current_id lb m in
      let did := desired_id lb m in
      match Roles_InternalSettingsChanged (Mod_Roles m), Roles_ExternalSettingsChanged (Mod_Roles m),
            first_of "lb.rolling" (Mod_RollingUpdate m) with
      | role :: _, _, _ =>
          let* ev := ScheduleRefreshLoadBalancerRoleInternalSettings id now (Lbr_Current r) (Lbr_Desired r) cid did role in
          Ret (Some ev, i)
      | [], role :: _, _ =>
          let* ev := ScheduleRefreshLoadBalancerRoleExternalSettings id now (Lbr_Current r) (Lbr_Desired r) cid did role in
          Ret (Some ev, i)
      | [], [], Some (np, tpl) =>
          ScheduleRollingUpdateLoadBalancer id now fuel (Lbr_Current r) cid np tpl (lb_options r false) i
      | [], [], None => lb_low_priority fuel r l i
      end
  end.

Definition LoadBalancersLowPriority `{Entropy} (fuel : nat) (r : LoadBalancersReconciliate) : draws (option TaskEvent) :=
  lb_low_priority fuel r (range "low.modified" (Lbd_Modified (Lbr_Diff r))).

End phases.

(** ** Scheduled updates *)

Section fresh.
Context `{RangeOrder} (id : string) (now : Z).

Lemma lb_deletion_runnable opts : runnable (lb_deletion_pipeline opts) = true.
Proof. destruct opts as [[] [] ?]; reflexivity. Qed.

Lemma lb_addition_runnable opts : runnable (lb_addition_pipeline opts) = true.
Proof. destruct opts as [[] [] ?]; reflexivity. Qed.

(** The state and the delta of a change of the node pools. *)
Definition kept (current st : Clusters) (delta : Delta) : Prop :=
  if merged_early delta then same_identity st current else st = current.

Lemma delete_lb_nodes_kept current cid np nodes opts st delta :
  delete_lb_nodes current cid np nodes opts = Ret (st, delta) → kept current st delta.
Proof.
  unfold delete_lb_nodes. destruct (Lbo_IsStatic opts); [|by intros [= <- <-]].
  destruct (IndexLoadbalancerById _ _) as [i|]; [|by intros [= <- <-]].
  intros E. bind_inv E. subst. by apply same_identity_lb, index_Ret.
Qed.

Lemma delete_lb_pool_kept current cid np nodes opts st delta :
  delete_lb_pool current cid np nodes opts = Ret (st, delta) → kept current st delta.
Proof.
  unfold delete_lb_pool. destruct (Lbo_IsStatic opts); [|by intros [= <- <-]].
  destruct (IndexLoadbalancerById _ _) as [i|]; [|by intros [= <- <-]].
  intros E. bind_inv E. subst. by apply same_identity_lb, index_Ret.
Qed.

Lemma add_lb_nodes_kept current desired cid did np nodes opts st delta :
  add_lb_nodes current desired cid did np nodes opts = Ret (st, delta) → kept current st delta.
Proof.
  unfold add_lb_nodes. destruct (Lbo_IsStatic opts); intros E; bind_inv E; subst; [|done].
  by apply same_identity_lb, index_Ret.
Qed.

Lemma add_lb_pool_kept current desired cid did np nodes opts st delta :
  add_lb_pool current desired cid did np nodes opts = Ret (st, delta) → kept current st delta.
Proof.
  unfold add_lb_pool. intros E. bind_inv E. destruct (Lbo_IsStatic opts); bind_inv E; subst; [|done].
  by apply same_identity_lb, index_Ret.
Qed.

Lemma lb_deletions_fresh current cid diff opts ev :
  ScheduleDeletionLoadBalancerNodePools id now current cid diff opts = Ret (Some ev) → fresh_update id now current ev.
Proof.
  unfold ScheduleDeletionLoadBalancerNodePools. intros E.
  destruct (first_of _ _) as [[np nodes]|]; [|destruct (first_of _ _) as [[np nodes]|]; [|done]];
    bind_inv E; destruct x as [st delta]; injection E as <-; do 4 eexists;
    (split; [reflexivity|]); (split; [apply lb_deletion_runnable|]).
  - by eapply delete_lb_nodes_kept.
  - by eapply delete_lb_pool_kept.
Qed.

Lemma lb_additions_fresh current desired cid did diff opts ev :
  ScheduleAdditionLoadBalancerNodePools id now current desired cid did diff opts = Ret (Some ev) →
  fresh_update id now current ev.
Proof.
  unfold ScheduleAdditionLoadBalancerNodePools. intros E.
  destruct (first_of _ _) as [[np nodes]|]; [|destruct (first_of _ _) as [[np nodes]|]; [|done]];
    bind_inv E; destruct x as [st delta]; injection E as <-; do 4 eexists;
    (split; [reflexivity|]); (split; [apply lb_addition_runnable|]).
  - by eapply add_lb_nodes_kept.
  - by eapply add_lb_pool_kept.
Qed.

Lemma replace_dns_fresh u current desired cid did b ev :
  ScheduleReplaceDns id now u current desired cid did b = Ret ev → fresh_update id now current ev.
Proof.
  unfold ScheduleReplaceDns. intros E. bind_inv E. destruct x0 as [old stages]. injection E as <-.
  destruct (_ && _); bind_inv Hx0; subst; fresh_tac; by destruct u.
Qed.

Lemma port_fresh current b ev :
  ScheduleControlNodesPort6443 id now current b = Ret ev → fresh_update id now current ev.
Proof. unfold ScheduleControlNodesPort6443. intros E. bind_inv E. subst. fresh_tac. Qed.

Lemma move_endpoint_fresh current c d s : fresh_update id now current (ScheduleMoveApiEndpoint id now current c d s).
Proof. fresh_tac. Qed.

Lemma some_event_Ret m ev : some_event m = Ret (Some ev) → m = Ret ev.
Proof. unfold some_event. intros E. bind_inv E. by subst. Qed.

Lemma delete_lb_fresh u current cid : fresh_update id now current (ScheduleDeleteLoadBalancer id now u current cid).
Proof.
  unfold ScheduleDeleteLoadBalancer, remove_scrape_config.
  fresh_tac. by destruct u, (bool_decide (length (LoadBalancers current) = 1)).
Qed.

Lemma join_lb_fresh u current desired did ev :
  ScheduleJoinLoadBalancer id now u current desired did = Ret ev → fresh_update id now current ev.
Proof. unfold ScheduleJoinLoadBalancer. intros E. bind_inv E. subst. fresh_tac. by destruct u. Qed.

Lemma roles_fresh current desired cid did roles ev :
  ScheduleAddRoles id now current desired cid did roles = Ret ev → fresh_update id now current ev.
Proof. unfold ScheduleAddRoles. intros E. bind_inv E. subst. fresh_tac. Qed.

Lemma target_pools_fresh current desired cid did ev :
  ScheduleReconcileRoleTargetPools id now current desired cid did = Ret ev → fresh_update id now current ev.
Proof. unfold ScheduleReconcileRoleTargetPools. intros E. bind_inv E. subst. fresh_tac. Qed.

(** A loop returns what one of its iterations returns. *)
Lemma first_return_Some body l r :
  first_return body l = Some r → ∃ lb m, (lb, m) ∈ l ∧ body lb m = Some r.
Proof.
  induction l as [|[lb m] l IH]; simpl; [done|]. destruct (body lb m) as [r'|] eqn:E.
  - intros [= ->]. exists lb, m. split; [by left|done].
  - intros (lb' & m' & Hin & Hb)%IH. exists lb', m'. split; [by right|done].
Qed.

Lemma endpoint_step_fresh r ev :
  endpoint_step id now r = Some (Ret (Some ev)) → fresh_update id now (Lbr_Current r) ev.
Proof.
  unfold endpoint_step. destruct (Lbd_Api_State _); [done|..].
  - destruct (IndexLoadbalancerById _ _); [|done]. destruct (HasApiRole _); [|done].
    intros [= <-]. apply move_endpoint_fresh.
  - destruct (Hc_ControlNodesHave6443 _); [intros [= <-]; apply move_endpoint_fresh|].
    intros [= E]. apply some_event_Ret in E. by eapply port_fresh.
  - intros (lb & m & _ & E)%first_return_Some. destruct (_ && _); [|done].
    injection E as E. apply some_event_Ret in E. by eapply replace_dns_fresh.
  - destruct (_ && _); [|done]. intros [= <-]. apply move_endpoint_fresh.
Qed.

Lemma pending_lb_fresh site r cid v b ev :
  pending_lb id now site r cid v b = Some (Ret (Some ev)) → fresh_update id now (Lbr_Current r) ev.
Proof.
  unfold pending_lb. destruct (first_of _ _) as [[np nodes]|]; [|done]. intros [= E]. bind_inv E.
  by eapply lb_deletions_fresh.
Qed.

Lemma pre_modified_fresh r lb m ev :
  pre_modified id now r lb m = Some (Ret (Some ev)) → fresh_update id now (Lbr_Current r) ev.
Proof.
  unfold pre_modified. destruct (Mod_DNS m).
  { intros [= E]. apply some_event_Ret in E. by eapply replace_dns_fresh. }
  destruct (additions_in _); [intros [= E]; by eapply lb_additions_fresh|].
  destruct (additions_in _); [intros [= E]; by eapply lb_additions_fresh|].
  destruct (deletions_in _); [intros [= E]; by eapply lb_deletions_fresh|].
  destruct (deletions_in _); [intros [= E]; by eapply lb_deletions_fresh|].
  destruct (pending_lb _ _ _ _ _ _ _) eqn:E1; [intros [= ->]; by eapply pending_lb_fresh|apply pending_lb_fresh].
Qed.

Lemma pre_fresh r ev : PreKubernetesDiff id now r = Ret (Some ev) → fresh_update id now (Lbr_Current r) ev.
Proof.
  unfold PreKubernetesDiff, returned. destruct (endpoint_step _ _ _) eqn:E; [intros ->; by apply endpoint_step_fresh|].
  destruct (first_return _ _) eqn:E1; [|done]. intros ->.
  apply first_return_Some in E1 as (lb & m & _ & Hb). by eapply pre_modified_fresh.
Qed.

Lemma post_fresh r ev : PostKubernetesDiff id now r = Ret (Some ev) → fresh_update id now (Lbr_Current r) ev.
Proof.
  unfold PostKubernetesDiff, returned. destruct (Lbd_Added _).
  2: { intros E%some_event_Ret. by eapply join_lb_fresh. }
  destruct (first_return (added_roles _ _ _) _) eqn:E1.
  { intros ->. apply first_return_Some in E1 as (lb & m & _ & Hb). unfold added_roles in Hb.
    destruct (Roles_Added _); [done|]. injection Hb as Hb. apply some_event_Ret in Hb. by eapply roles_fresh. }
  destruct (first_return (changed_roles _ _ _) _) eqn:E2.
  { intros ->. apply first_return_Some in E2 as (lb & m & _ & Hb). unfold changed_roles in Hb.
    destruct (Roles_Deleted _); [|injection Hb as <-; fresh_tac].
    destruct (_ || _); [|done]. injection Hb as Hb. apply some_event_Ret in Hb. by eapply target_pools_fresh. }
  destruct (Lbd_Deleted _); [|intros [= <-]; apply delete_lb_fresh].
  destruct (FindAssignedLbApiEndpoint _); [|done]. destruct (Hc_ControlNodesHave6443 _); [|done].
  intros E%some_event_Ret. by eapply port_fresh.
Qed.

Lemma lb_low_fresh `{Entropy} fuel r l i ev j :
  lb_low_priority id now fuel r l i = Ret (Some ev, j) → fresh_update id now (Lbr_Current r) ev.
Proof.
  induction l as [|[lb m] l IH]; simpl; [done|].
  destruct (Roles_InternalSettingsChanged _) as [|role ?].
  - destruct (Roles_ExternalSettingsChanged _) as [|role ?].
    + destruct (first_of _ _) as [[np tpl]|]; [|done]. unfold ScheduleRollingUpdateLoadBalancer.
      destruct (CreateNodePoolForRollingUpdate _ _ _ _ _ _) as [[np' i']|?|?]; [|done..].
      intros E. bind_inv E. subst. by eapply lb_additions_fresh.
    + unfold ScheduleRefreshLoadBalancerRoleExternalSettings. intros E. bind_inv E. subst. bind_inv Hx.
      destruct (match find_first _ _ with Some _ => _ | None => _ end) as [[? ?] ?]. injection Hx as <-. fresh_tac.
  - unfold ScheduleRefreshLoadBalancerRoleInternalSettings. intros E. bind_inv E. subst. bind_inv Hx.
    destruct (match find_first _ _ with Some _ => _ | None => _ end) as [? ?]. injection Hx as <-. fresh_tac.
Qed.

End fresh.

End ScheduleLoadBalancers.
