(* ===== verification/Unreachable.v ===== *)
(** * Nodes with unknown status (service/reconciliate_unreachable_nodes.go)

    What is done about nodes the health checks could not reach: a task that
    deletes them, or an error that asks the user to decide. *)

From stdpp Require Import base gmap strings list pretty.
From S2P Require Import Prelude Spec SpecUtils Samples NodePools Diff GenerateState Schedule Health ScheduleKubernetes ScheduleLoadBalancers.
Import NodePools Diff Schedule Health ScheduleKubernetes ScheduleLoadBalancers.

Module UnreachableNodes.

Record KubernetesUnreachableNodes := mkKubernetesUnreachableNodes {
  Ku_Hc : HealthCheckStatus;
  Ku_NodeStatus : UnknownNodeStatus;
  Ku_Diff : KubernetesDiffResult;
  Ku_Current : Clusters;
  Ku_Desired : Clusters }.

(** Nodes of unknown status and nodes that never joined, per pool. *)
Definition unknown_nodes (ns : UnknownNodeStatus) : gmap string (list NodeDescription) :=
  union_with (λ a b, Some (a ++ b)) (UnknownKubernetesNodes ns) (NotJoinedKubernetesNodes ns).

Definition unreachable_infra (ns : UnknownNodeStatus) : Unreachable :=
  mkUnreachable (fmap (M := gmap string) (λ nodes : list NodeDescription, Nd_PublicIPv4 <$> nodes) (unknown_nodes ns))
    (UnknownLoadBalancersNodes ns).

(** k8s names have the cluster ID stripped; static nodes have no prefix. *)
Definition full_name (k : K8Scluster) (n : NodeDescription) : string :=
  if Nd_IsStatic n then Nd_K8sName n else String.append (K8s_Id k) (String.append "-" (Nd_K8sName n)).

(** How an iteration ends: with more errors, or with the returned task. *)
Inductive handled := Blocked (errs : list string) | Scheduled_ (ev : option TaskEvent).

Section handle.
Context `{RangeOrder} (id : string) (now : Z) (TimeForNodeDeletion : Z).

(** Entries are only made for pools with at least one node. *)
Definition view_of (np : string) (names : list string) : View :=
  match names with [] => ∅ | _ => {[np := names]} end.

Definition delete_unknown (r : KubernetesUnreachableNodes) (k : K8Scluster) (np : string) (nodes : list NodeDescription)
    (isStatic : bool) : outcome handled :=
  let* ev := ScheduleDeletionsInNodePools id now (Ku_Current r)
               (mkNodePoolsDiffResult (view_of np (full_name k <$> nodes)) ∅ ∅ ∅)
               (deletion_options (Ku_Diff r) isStatic (Some (unreachable_infra (Ku_NodeStatus r)))) in
  Ret (Scheduled_ ev).

(** A pool that has no desired state. *)
Definition handle_removed_pool (r : KubernetesUnreachableNodes) (k : K8Scluster) (cnp : NodePool)
    (nodes : list NodeDescription) : outcome handled :=
  if NodePool_IsControl cnp && bool_decide (length (Control (K8s_NodePools k)) = 1) then
    Ret (Blocked [sprintf ["can't delete nodes with unknown status from nodepool "; quoted (NodePool_Name cnp);
                           ", the nodepool is the last control nodepool"]])
  else if NodePool_IsControl cnp && bool_decide (Api_Current (Kd_ApiEndpoint (Ku_Diff r)) ≠ "") &&
          bool_decide (is_Some (EndpointNode (Some cnp))) then
    Ret (Blocked [sprintf ["can't delete nodepool "; quoted (NodePool_Name cnp);
                           " with unknown node status, the nodepool has the kubeapi server endpoint"]])
  else delete_unknown r k (NodePool_Name cnp) nodes (is_static cnp).

(** A node that changed its status recently is left alone; a static node that
    is still desired is reported to the user. *)
Definition keep_node (r : KubernetesUnreachableNodes) (dk : K8Scluster) (np : string)
    (acc : list NodeDescription * list string) (n : NodeDescription) : list NodeDescription * list string :=
  let recent := match Nd_LastTransitionTime n with
                | Some t => bool_decide (now - t ≤ TimeForNodeDeletion)%Z
                | None => false
                end in
  if recent then acc
  else
    let wanted := match FindNode (K8s_NodePools dk) (Nd_K8sName n) with
                  | Some (nn, _) => is_static nn
                  | None => false
                  end in
    if Nd_IsStatic n && wanted then
      (acc.1, acc.2 ++ [sprintf ["static node "; quoted (Nd_K8sName n); ", nodepool "; quoted np; " is unhealthy";
                                 match Hc_Nodes (Ku_Hc r) !! Nd_K8sName n with
                                 | Some _ => ""
                                 | None => ", the node has been removed from the kubernetes cluster"
                                 end]])
    else (acc.1 ++ [n], acc.2).

Definition handle_pool (r : KubernetesUnreachableNodes) (k dk : K8Scluster) (np : string)
    (nodes : list NodeDescription) : outcome handled :=
  match FindByName np (K8s_NodePools k), FindByName np (K8s_NodePools dk) with
  | Some cnp, None => handle_removed_pool r k cnp nodes
  | _, _ =>
      let '(canDelete, errs) := foldl (keep_node r dk np) ([], []) nodes in
      match canDelete with
      | [] => Ret (Blocked errs)
      | n :: _ => delete_unknown r k np canDelete (Nd_IsStatic n)
      end
  end.

Fixpoint handle_pools (r : KubernetesUnreachableNodes) (k dk : K8Scluster) (errs : list string)
    (l : list (string * list NodeDescription)) : outcome (option TaskEvent) :=
  match l with
  | [] => match errs with [] => Ret None | _ => Fail (foldr String.append "" errs) end
  | (np, nodes) :: l =>
      let* h := handle_pool r k dk np nodes in
      match h with
      | Blocked e => handle_pools r k dk (errs ++ e) l
      | Scheduled_ ev => Ret ev
      end
  end.

(** [Fail] is an error the user has to resolve. *)
Definition HandleKubernetesUnknownNodes (r : KubernetesUnreachableNodes) : outcome (option TaskEvent) :=
  match range "unknown" (unknown_nodes (Ku_NodeStatus r)) with
  | [] => Ret None
  | l => let* k := deref (K8S (Ku_Current r)) in
         let* dk := deref (K8S (Ku_Desired r)) in
         handle_pools r k dk [] l
  end.

(** ** Load balancers *)

Record LoadBalancerUnreachableNodes := mkLoadBalancerUnreachableNodes {
  Lu_NodeStatus : UnknownNodeStatus;
  Lu_Diff : KubernetesDiffResult;
  Lu_Current : Clusters;
  Lu_Desired : Clusters }.

(** The nodes named in the error; an address without a node is out of range. *)
Definition describe_ips (cnp : NodePool) (ips : list string) : outcome (list string) :=
  mapM (λ ip, let* n := deref (find_first (λ n, bool_decide (Node_Public n = ip)) (NodePool_Nodes cnp)) in
              Ret (Node_Name n)) ips.

(** One unreachable pool of a load balancer that is still desired. *)
Definition handle_lb_pool (r : LoadBalancerUnreachableNodes) (lb : string) (cid : nat) (clb dlb : LBcluster)
    (np : string) (ips : list string) : outcome handled :=
  let* cnp := deref (FindByName np (LB_NodePools clb)) in
  match FindByName np (LB_NodePools dlb) with
  | None =>
      let opts := mkLoadBalancerNodePoolsOptions (Proxy_CurrentUsed (Kd_Proxy (Lu_Diff r))) (is_static cnp)
                    (Some (unreachable_infra (Lu_NodeStatus r))) in
      let* ev := ScheduleDeletionLoadBalancerNodePools id now (Lu_Current r) (mkLoadBalancerIdentifier lb cid)
                   (mkNodePoolsDiffResult ∅ (view_of (NodePool_Name cnp) (Node_Name <$> NodePool_Nodes cnp)) ∅ ∅) opts in
      Ret (Scheduled_ ev)
  | Some _ =>
      let* names := describe_ips cnp ips in
      Ret (Blocked [sprintf (["nodepool "; quoted np; " from loadbalancer "; quoted lb; " has "; len_string ips;
                              " loadbalancer node/s with unknown status"] ++ names)])
  end.

Fixpoint handle_lb_pools (r : LoadBalancerUnreachableNodes) (lb : string) (cid : nat) (clb dlb : LBcluster)
    (errs : list string) (l : list (string * list string)) : outcome handled :=
  match l with
  | [] => Ret (Blocked errs)
  | (np, ips) :: l =>
      let* h := handle_lb_pool r lb cid clb dlb np ips in
      match h with
      | Blocked e => handle_lb_pools r lb cid clb dlb (errs ++ e) l
      | Scheduled_ ev => Ret (Scheduled_ ev)
      end
  end.

Definition handle_lb (r : LoadBalancerUnreachableNodes) (lb : string) (unreachable : gmap string (list string))
    : outcome handled :=
  let* cid := deref (IndexLoadbalancerById lb (LoadBalancers (Lu_Current r))) in
  let* clb := index (LoadBalancers (Lu_Current r)) cid in
  match IndexLoadbalancerById lb (LoadBalancers (Lu_Desired r)) with
  | None =>
      if IsApiEndpoint (Some clb) then
        Ret (Blocked [sprintf ["can't delete loadbalancer "; quoted lb; ", the loadbalancer is targeting the kube-api server"]])
      else Ret (Scheduled_ (Some (ScheduleRawDeleteLoadBalancer id now (Lu_Current r) (mkLoadBalancerIdentifier lb cid)
                                    (Some (unreachable_infra (Lu_NodeStatus r))))))
  | Some did =>
      let* dlb := index (LoadBalancers (Lu_Desired r)) did in
      handle_lb_pools r lb cid clb dlb [] (range "lb.unreachable" unreachable)
  end.

Fixpoint handle_lbs (r : LoadBalancerUnreachableNodes) (errs : list string)
    (l : list (string * gmap string (list string))) : outcome (option TaskEvent) :=
  match l with
  | [] => match errs with [] => Ret None | _ => Fail (foldr String.append "" errs) end
  | (lb, unreachable) :: l =>
      let* h := handle_lb r lb unreachable in
      match h with
      | Blocked e => handle_lbs r (errs ++ e) l
      | Scheduled_ ev => Ret ev
      end
  end.

Definition HandleLoadBalancerUnknownNodes (r : LoadBalancerUnreachableNodes) : outcome (option TaskEvent) :=
  handle_lbs r [] (range "unknown.lbs" (UnknownLoadBalancersNodes (Lu_NodeStatus r))).

End handle.

(** ** What may be deleted *)

Section spared.
Context `{RangeOrder} (id : string) (now : Z) (TimeForNodeDeletion : Z).

(** Nodes of [np] that may go: those of a pool that is not desired, neither
    the last of the control plane nor the one with the endpoint; or, of any
    other pool, those that have been unhealthy for long enough and are not
    static nodes that are still desired. *)
Definition may_delete (r : KubernetesUnreachableNodes) (k dk : K8Scluster) (np : string) (nodes : list NodeDescription) : Prop :=
  match FindByName np (K8s_NodePools k), FindByName np (K8s_NodePools dk) with
  | Some cnp, None =>
      NodePool_IsControl cnp = true →
      length (Control (K8s_NodePools k)) ≠ 1 ∧
      (Api_Current (Kd_ApiEndpoint (Ku_Diff r)) ≠ "" → EndpointNode (Some cnp) = None)
  | _, _ =>
      ∀ n, n ∈ nodes →
        (∀ t, Nd_LastTransitionTime n = Some t → (TimeForNodeDeletion < now - t)%Z) ∧
        (Nd_IsStatic n = true → ∀ nn node, FindNode (K8s_NodePools dk) (Nd_K8sName n) = Some (nn, node) → is_static nn = false)
  end.

(** The nodes that are kept for deletion. *)
Lemma keep_nodes r dk np nodes acc n :
  n ∈ (foldl (keep_node now TimeForNodeDeletion r dk np) acc nodes).1 →
  n ∈ acc.1 ∨ (n ∈ nodes ∧
    (∀ t, Nd_LastTransitionTime n = Some t → (TimeForNodeDeletion < now - t)%Z) ∧
    (Nd_IsStatic n = true → ∀ nn node, FindNode (K8s_NodePools dk) (Nd_K8sName n) = Some (nn, node) → is_static nn = false)).
Proof.
  revert acc. induction nodes as [|m nodes IH]; intros acc; simpl; [by left|].
  intros [Hin|(Hn & Ht)]%IH; [|right; split; [by right|done]]. unfold keep_node in Hin.
  destruct (match Nd_LastTransitionTime m with Some t => _ | None => _ end) eqn:Er; [by left|].
  destruct (Nd_IsStatic m && _) eqn:Es; simpl in Hin; [by left|].
  apply elem_of_app in Hin as [?|Hin%list_elem_of_singleton]; [by left|]. subst m. right. split; [by left|]. split.
  - intros t E. rewrite E in Er. apply bool_decide_eq_false in Er. lia.
  - intros Hs nn node Hf. rewrite Hs, Hf in Es. done.
Qed.

Lemma delete_unknown_delta r k np nodes b ev :
  delete_unknown id now r k np nodes b = Ret (Scheduled_ (Some ev)) →
  TaskEvent_Task ev = Task_Update (Ku_Current r)
    (Update_KDeleteNodes false np (full_name k <$> nodes) (Some (unreachable_infra (Ku_NodeStatus r)))).
Proof.
  unfold delete_unknown. intros E. bind_inv E. subst x. unfold ScheduleDeletionsInNodePools in Hx. simpl in Hx.
  bind_inv Hx. destruct nodes as [|n nodes]; simpl in Hx.
  - by rewrite !first_of_empty in Hx.
  - destruct (first_of _ _) as [[p l]|] eqn:Ef in Hx.
    + apply first_of_Some, lookup_singleton_Some in Ef as [<- <-]. by injection Hx as <-.
    + by rewrite first_of_empty in Hx.
Qed.

Lemma handle_pool_deletes r k dk np nodes ev :
  handle_pool id now TimeForNodeDeletion r k dk np nodes = Ret (Scheduled_ (Some ev)) →
  ∃ gone, gone ⊆ nodes ∧ may_delete r k dk np gone ∧
    TaskEvent_Task ev = Task_Update (Ku_Current r)
      (Update_KDeleteNodes false np (full_name k <$> gone) (Some (unreachable_infra (Ku_NodeStatus r)))).
Proof.
  assert (Hkeep : (∃ c, FindByName np (K8s_NodePools k) = Some c ∧ FindByName np (K8s_NodePools dk) = None) ∨
    (handle_pool id now TimeForNodeDeletion r k dk np nodes = Ret (Scheduled_ (Some ev)) →
     ∃ gone, gone ⊆ nodes ∧ may_delete r k dk np gone ∧ TaskEvent_Task ev = Task_Update (Ku_Current r)
      (Update_KDeleteNodes false np (full_name k <$> gone) (Some (unreachable_infra (Ku_NodeStatus r)))))).
  { unfold handle_pool, may_delete.
    destruct (FindByName np (K8s_NodePools k)) as [c|], (FindByName np (K8s_NodePools dk)) as [dn|]; [|by left; exists c|..]; right;
    pose proof (keep_nodes r dk np nodes ([], [])) as Hk;
    (destruct (foldl _ _ nodes) as [[|n gone] errs]; [done|]); intros E%delete_unknown_delta; exists (n :: gone);
    (split_and!; [|..|exact E]); intros m Hm; destruct (Hk m Hm) as [E'|[??]]; try done; by apply not_elem_of_nil in E'. }
  destruct Hkeep as [(c & Hc & Hd)|?]; [|done]. unfold handle_pool, may_delete. rewrite Hc, Hd.
  unfold handle_removed_pool. destruct (NodePool_IsControl c); simpl.
  - case_bool_decide as Hl; [done|]. destruct (bool_decide (Api_Current _ ≠ "") && _) eqn:Ea; [done|].
    apply FindByName_Some in Hc as [_ <-]. intros E%delete_unknown_delta. exists nodes. split_and!; [done| |exact E].
    intros _. split; [done|]. intros Hne. rewrite (bool_decide_eq_true_2 _ Hne) in Ea. simpl in Ea.
    apply bool_decide_eq_false in Ea. by apply eq_None_not_Some.
  - apply FindByName_Some in Hc as [_ <-]. intros E%delete_unknown_delta. by exists nodes.
Qed.

Lemma handle_pools_deletes r k dk errs l ev :
  handle_pools id now TimeForNodeDeletion r k dk errs l = Ret (Some ev) →
  ∃ np nodes gone, (np, nodes) ∈ l ∧ gone ⊆ nodes ∧ may_delete r k dk np gone ∧
    TaskEvent_Task ev = Task_Update (Ku_Current r)
      (Update_KDeleteNodes false np (full_name k <$> gone) (Some (unreachable_infra (Ku_NodeStatus r)))).
Proof.
  revert errs. induction l as [|[np nodes] l IH]; intros errs; simpl; [by destruct errs|]. intros E. bind_inv E.
  destruct x as [e|ev']; [|injection E as ->].
  - destruct (IH _ E) as (np' & nodes' & gone & ? & ?). exists np', nodes', gone. split; [by right|done].
  - apply handle_pool_deletes in Hx as (gone & ? & ? & ?). exists np, nodes, gone. split_and!; [by left|done..].
Qed.

Local Arguments handle_pools : simpl never.

(** *** Load balancers *)

(** What may be scheduled for unreachable nodes of load balancer [lb]: its
    deletion when it is not desired any more and does not serve the API, or
    the deletion of a pool with unreachable nodes that is not desired any
    more. *)
Definition may_delete_lb (r : LoadBalancerUnreachableNodes) (lb : string) (unreachable : gmap string (list string)) (ev : TaskEvent) : Prop :=
  ∃ cid clb, IndexLoadbalancerById lb (LoadBalancers (Lu_Current r)) = Some cid ∧ LoadBalancers (Lu_Current r) !! cid = Some clb ∧
    match IndexLoadbalancerById lb (LoadBalancers (Lu_Desired r)) with
    | None =>
        IsApiEndpoint (Some clb) = false ∧
        ev = ScheduleRawDeleteLoadBalancer id now (Lu_Current r) (mkLoadBalancerIdentifier lb cid) (Some (unreachable_infra (Lu_NodeStatus r)))
    | Some did =>
        ∃ dlb np ips cnp, LoadBalancers (Lu_Desired r) !! did = Some dlb ∧ unreachable !! np = Some ips ∧
          FindByName np (LB_NodePools clb) = Some cnp ∧ FindByName np (LB_NodePools dlb) = None ∧
          ScheduleDeletionLoadBalancerNodePools id now (Lu_Current r) (mkLoadBalancerIdentifier lb cid)
            (mkNodePoolsDiffResult ∅ (view_of (NodePool_Name cnp) (Node_Name <$> NodePool_Nodes cnp)) ∅ ∅)
            (mkLoadBalancerNodePoolsOptions (Proxy_CurrentUsed (Kd_Proxy (Lu_Diff r))) (is_static cnp)
               (Some (unreachable_infra (Lu_NodeStatus r)))) = Ret (Some ev)
    end.

Lemma handle_lb_pools_deletes r lb cid clb dlb errs l ev :
  handle_lb_pools id now r lb cid clb dlb errs l = Ret (Scheduled_ (Some ev)) →
  ∃ np ips cnp, (np, ips) ∈ l ∧ FindByName np (LB_NodePools clb) = Some cnp ∧ FindByName np (LB_NodePools dlb) = None ∧
    ScheduleDeletionLoadBalancerNodePools id now (Lu_Current r) (mkLoadBalancerIdentifier lb cid)
      (mkNodePoolsDiffResult ∅ (view_of (NodePool_Name cnp) (Node_Name <$> NodePool_Nodes cnp)) ∅ ∅)
      (mkLoadBalancerNodePoolsOptions (Proxy_CurrentUsed (Kd_Proxy (Lu_Diff r))) (is_static cnp)
         (Some (unreachable_infra (Lu_NodeStatus r)))) = Ret (Some ev).
Proof.
  revert errs. induction l as [|[np ips] l IH]; intros errs; cbn [handle_lb_pools]; [done|].
  unfold handle_lb_pool. destruct (FindByName np (LB_NodePools clb)) as [cnp|] eqn:Ec; cbn; [|done].
  destruct (FindByName np (LB_NodePools dlb)) as [dnp|] eqn:Ed.
  - destruct (describe_ips cnp ips); cbn; [|done..]. intros (np' & ips' & cnp' & ? & ?)%IH.
    exists np', ips', cnp'. split; [by right|done].
  - destruct (ScheduleDeletionLoadBalancerNodePools _ _ _ _ _ _) as [ev'| |] eqn:Es; cbn; [|done..]. intros [= ->].
    exists np, ips, cnp. split_and!; [by left|done..].
Qed.

Lemma handle_lbs_deletes r errs l ev :
  handle_lbs id now r errs l = Ret (Some ev) → ∃ lb unreachable, (lb, unreachable) ∈ l ∧ may_delete_lb r lb unreachable ev.
Proof.
  revert errs. induction l as [|[lb unreachable] l IH]; intros errs; cbn [handle_lbs]; [by destruct errs|].
  destruct (handle_lb id now r lb unreachable) as [[e|ev']| |] eqn:Eh; cbn; [|intros [= ->]|done..].
  { intros (lb' & u & ? & ?)%IH. exists lb', u. split; [by right|done]. }
  exists lb, unreachable. split; [by left|]. unfold handle_lb in Eh. unfold may_delete_lb.
  destruct (IndexLoadbalancerById lb (LoadBalancers (Lu_Current r))) as [cid|] eqn:Ec; cbn in Eh; [|done].
  destruct (index (LoadBalancers (Lu_Current r)) cid) as [clb| |] eqn:Ei; cbn in Eh; [|done..]. apply index_Ret in Ei.
  exists cid, clb. split_and!; [done..|]. destruct (IndexLoadbalancerById lb (LoadBalancers (Lu_Desired r))) as [did|].
  - destruct (index (LoadBalancers (Lu_Desired r)) did) as [dlb| |] eqn:Ed; cbn in Eh; [|done..]. apply index_Ret in Ed.
    apply handle_lb_pools_deletes in Eh as (np & ips & cnp & Hin%elem_of_range & ? & ? & ?). by exists dlb, np, ips, cnp.
  - destruct (IsApiEndpoint (Some clb)) eqn:Ea; cbn in Ea; rewrite Ea in Eh; [done|]. by injection Eh as <-.
Qed.

(** C19: What is scheduled for nodes with an unknown status is always a
    deletion.  For kubernetes nodes it is a deletion of nodes that the health
    checks reported, from one pool, carrying the current state and the
    infrastructure that is known to be unreachable.  From a pool that is not
    desired any more nothing is deleted when it is the last control plane
    pool or holds the API endpoint, and there is no waiting time; from any
    other pool only nodes go whose transition time, if there is one, is longer
    ago than [TimeForNodeDeletion], and no static node that is still desired.
    For load balancers it is the deletion of one that has unreachable nodes, is
    not desired any more and does not serve the API, or of a pool with
    unreachable nodes that is not desired any more. *)
Theorem unknown_nodes_deletion (r : KubernetesUnreachableNodes) (l : LoadBalancerUnreachableNodes) (ev : TaskEvent) :
  (HandleKubernetesUnknownNodes id now TimeForNodeDeletion r = Ret (Some ev) →
   ∃ k dk np nodes gone, K8S (Ku_Current r) = Some k ∧ K8S (Ku_Desired r) = Some dk ∧
     unknown_nodes (Ku_NodeStatus r) !! np = Some nodes ∧ gone ⊆ nodes ∧ may_delete r k dk np gone ∧
     TaskEvent_Task ev = Task_Update (Ku_Current r)
       (Update_KDeleteNodes false np (full_name k <$> gone) (Some (unreachable_infra (Ku_NodeStatus r))))) ∧
  (HandleLoadBalancerUnknownNodes id now l = Ret (Some ev) →
   ∃ lb unreachable, UnknownLoadBalancersNodes (Lu_NodeStatus l) !! lb = Some unreachable ∧ may_delete_lb l lb unreachable ev).
Proof.
  split.
  - unfold HandleKubernetesUnknownNodes.
    destruct (range "unknown" (unknown_nodes (Ku_NodeStatus r))) as [|e rest] eqn:El; [done|].
    destruct (K8S (Ku_Current r)) as [k|]; simpl; [|done]. destruct (K8S (Ku_Desired r)) as [dk|]; simpl; [|done].
    intros (np & nodes & gone & Hin & ? & ? & ?)%handle_pools_deletes. exists k, dk, np, nodes, gone.
    rewrite <- El in Hin. apply elem_of_range in Hin. done.
  - intros (lb & u & Hin%elem_of_range & ?)%handle_lbs_deletes. by exists lb, u.
Qed.

End spared.

(** *** Instances *)

(** A worker that is not ready since long ago; the diff is that of equal
    states. *)
Definition lost_worker : KubernetesUnreachableNodes :=
  mkKubernetesUnreachableNodes (mkHealthCheckStatus false ∅ false false)
    (mkUnknownNodeStatus {["ctrl-0000001" := [mkNodeDescription "ctrl-0000001-02" false false "ctrl-0000001" "1.1.1.2" true (Some 0%Z)]]} ∅ ∅)
    (mkKubernetesDiffResult false (mkProxyDiffResult false false ProxyNoChange) noNodePoolsDiff noNodePoolsDiff ∅ ∅ ∅ ∅
       (mkK8sApiEndpointDiff "" "" "" "") (mkLTA ∅ ∅ ∅ ∅ ∅ ∅) ∅)
    Samples.clusters Samples.clusters.

(** The load balancer of the samples is not desired any more, does not serve
    the API, and its node does not answer. *)
Definition idle_lb : LBcluster := set_LB_UsedApiEndpoint Samples.lb false.
Definition lost_lb : LoadBalancerUnreachableNodes :=
  mkLoadBalancerUnreachableNodes
    (mkUnknownNodeStatus ∅ ∅ {[LB_Id idle_lb := {["lb-pool" := ["203.0.113.1"]]}]})
    (Ku_Diff lost_worker) (mkClusters (Some Samples.k8s) [idle_lb]) (mkClusters (Some Samples.k8s) []).

Lemma unknown_nodes_deletion_witness :
  (∃ k dk np nodes gone, K8S (Ku_Current lost_worker) = Some k ∧ K8S (Ku_Desired lost_worker) = Some dk ∧
    unknown_nodes (Ku_NodeStatus lost_worker) !! np = Some nodes ∧ gone ⊆ nodes ∧
    may_delete 1000 600 lost_worker k dk np gone) ∧
  (∃ ev lb unreachable, UnknownLoadBalancersNodes (Lu_NodeStatus lost_lb) !! lb = Some unreachable ∧
    may_delete_lb "id" 1000 lost_lb lb unreachable ev).
Proof.
  split.
  - destruct (HandleKubernetesUnknownNodes "id" 1000 600 lost_worker) as [[ev|]|?|?] eqn:E; [|vm_compute in E; discriminate E..].
    destruct (proj1 (unknown_nodes_deletion "id" 1000 600 lost_worker lost_lb ev) E) as (k & dk & np & nodes & gone & ? & ? & ? & ? & ? & _).
    exists k, dk, np, nodes, gone. split_and!; assumption.
  - destruct (HandleLoadBalancerUnknownNodes "id" 1000 lost_lb) as [[ev|]|?|?] eqn:E; [|vm_compute in E; discriminate E..].
    exists ev. exact (proj2 (unknown_nodes_deletion "id" 1000 600 lost_worker lost_lb ev) E).
Defined.

End UnreachableNodes.
