(* ===== verification/Union.v ===== *)
(** * Union of two states (clustersUnion of service/reconciliation.go)

    What is destroyed when a cluster is deleted while a task is in flight:
    the current state and whatever the task may have built already. *)

From stdpp Require Import base gmap strings list.
From S2P Require Import Prelude Spec SpecUtils Samples NodePools Diff Endpoint.
Import NodePools Diff Endpoint.

Module ClustersUnion.

(** The loop bodies of [union_pools]. *)
Definition copy_step (modified ir : list NodePool) (entry : string * list string) : outcome (list NodePool) :=
  let '(np, nodes) := entry in
  let* src := deref (FindByName np modified) in
  copy_into np src nodes ir.

Definition append_step (modified ir : list NodePool) (entry : string * list string) : outcome (list NodePool) :=
  let '(np, _) := entry in
  let* src := deref (FindByName np modified) in
  Ret (ir ++ [src]).

(** Nodes and pools of [modified] that are missing in [ir]. *)
Definition union_pools `{RangeOrder} (site : string) (diff : NodePoolsDiffResult) (modified ir : list NodePool)
    : outcome (list NodePool) :=
  let* ir := foldl (λ acc entry, let* ir := acc in copy_step modified ir entry) (Ret ir)
               (range (String.append site ".partial") (PartiallyAdded diff)) in
  foldl (λ acc entry, let* ir := acc in append_step modified ir entry) (Ret ir)
    (range (String.append site ".added") (Added diff)).

Definition union_roles `{RangeOrder} (diff : ModifiedRoles) (modified ir : list Role) : list Role :=
  let ir := foldl (λ ir added, match find_first (role_named added) modified with
                               | Some r => ir ++ [r]
                               | None => ir
                               end) ir (Roles_Added diff) in
  foldl (λ ir '(role, pools),
    update_first (role_named role) (λ r, set_Role_TargetPools r (Role_TargetPools r ++ pools)) ir)
    ir (range "union.targets" (Roles_TargetPoolsAdded diff)).

Definition union_lb `{RangeOrder} (modified : list LBcluster) (ir : list LBcluster)
    (entry : string * ModifiedLoadBalancer) : outcome (list LBcluster) :=
  let '(lb, diff) := entry in
  let* cidx := deref (IndexLoadbalancerById lb ir) in
  let* nidx := deref (IndexLoadbalancerById lb modified) in
  let* clb := index ir cidx in
  let* nlb := index modified nidx in
  let* nps := union_pools "union.lb.dynamic" (Mod_Dynamic diff) (LB_NodePools nlb) (LB_NodePools clb) in
  let* nps := union_pools "union.lb.static" (Mod_Static diff) (LB_NodePools nlb) nps in
  Ret (<[cidx := set_LB_Roles (set_LB_NodePools clb nps)
                   (union_roles (Mod_Roles diff) (LB_Roles nlb) (LB_Roles clb))]> ir).

Definition union_lbs `{RangeOrder} (old modified : list LBcluster) : outcome (list LBcluster) :=
  let* lbs := LoadBalancersDiff old modified in
  let* ir := foldl (λ acc lb,
               let* ir := acc in
               let* idx := deref (IndexLoadbalancerById (Lb_Id_ lb) modified) in
               let* lb := index modified idx in
               Ret (ir ++ [lb])) (Ret old) (Lbd_Added lbs) in
  foldl (λ acc entry, let* ir := acc in union_lb modified ir entry) (Ret ir) (range "union.modified" (Lbd_Modified lbs)).

Definition clustersUnion `{RangeOrder} (old modified : Clusters) : outcome Clusters :=
  match K8S old, K8S modified with
  | None, Some _ => Ret modified
  | Some _, None => Ret old
  | None, None => Ret (mkClusters None [])
  | Some ok, Some mk =>
      let* k8s := KubernetesDiff ok mk in
      let* nps := union_pools "union.dynamic" (Kd_Dynamic k8s) (K8s_NodePools mk) (K8s_NodePools ok) in
      let* nps := union_pools "union.static" (Kd_Static k8s) (K8s_NodePools mk) nps in
      let* lbs := union_lbs (LoadBalancers old) (LoadBalancers modified) in
      Ret (mkClusters (Some (set_K8s_NodePools ok nps)) lbs)
  end.

(** ** Pools only grow *)

(** [g] is [p] with nodes added. *)
Definition grown (p g : NodePool) : Prop :=
  NodePool_Name g = NodePool_Name p ∧ same_kind (NodePool_Type p) (NodePool_Type g) = true ∧ node_names p ⊆ node_names g.

(** Every pool of [old] is the first of its name in [ir], with its nodes. *)
Definition keeps (old ir : list NodePool) : Prop :=
  ∀ p, p ∈ old → ∃ g, FindByName (NodePool_Name p) ir = Some g ∧ grown p g.

Lemma same_kind_trans a b c : same_kind a b = true → same_kind b c = true → same_kind a c = true.
Proof. by destruct a, b, c. Qed.

Lemma copy_node_grows src dst n :
  NodePool_Name (copy_node src dst n) = NodePool_Name dst ∧
  NodePool_Nodes (copy_node src dst n) = NodePool_Nodes dst ++ [n] ∧
  (NodePool_Type dst ≠ NodePool_nil → same_kind (NodePool_Type dst) (NodePool_Type (copy_node src dst n)) = true).
Proof. unfold copy_node. by destruct (NodePool_Type src), (NodePool_Type dst) eqn:E; simpl; rewrite ?E. Qed.

Lemma foldl_copy_node_grows src ns dst :
  NodePool_Type dst ≠ NodePool_nil →
  let g := foldl (copy_node src) dst ns in
  NodePool_Name g = NodePool_Name dst ∧ NodePool_Nodes g = NodePool_Nodes dst ++ ns ∧
  same_kind (NodePool_Type dst) (NodePool_Type g) = true.
Proof.
  revert dst. induction ns as [|n ns IH]; intros dst Hd; simpl.
  - rewrite app_nil_r. split_and!; [done..|]. by destruct (NodePool_Type dst).
  - destruct (copy_node_grows src dst n) as (E1 & E2 & E3). specialize (E3 Hd).
    destruct (IH (copy_node src dst n)) as (I1 & I2 & I3).
    { intros E. rewrite E in E3. by destruct (NodePool_Type dst). }
    rewrite I1, I2, E1, E2, <- app_assoc. split_and!; [done..|]. by eapply same_kind_trans.
Qed.

(** [CopyNodes] grows any pool, and brings the wanted nodes of a pool of the
    same kind. *)
Lemma CopyNodes_grows dst src ns : NodePool_Type dst ≠ NodePool_nil → grown dst (copied_nodes dst src ns).
Proof.
  intros Hd. unfold copied_nodes.
  assert (Hr : grown dst dst) by (split_and!; [done| |done]; by destruct (NodePool_Type dst)).
  destruct (match NodePool_Type src, NodePool_Type dst with
            | NodePool_DynamicNodePool _, NodePool_DynamicNodePool _ => false | _, _ => _ end); [exact Hr|].
  destruct (foldl_copy_node_grows src (filter (λ n, node_in ns n = true) (NodePool_Nodes src)) dst Hd) as (E1 & E2 & E3).
  split_and!; [done..|]. unfold node_names. rewrite E2, fmap_app. set_solver.
Qed.

Lemma CopyNodes_brings dst src ns n :
  NodePool_Type dst ≠ NodePool_nil → same_kind (NodePool_Type src) (NodePool_Type dst) = true →
  n ∈ node_names src → n ∈ ns → n ∈ node_names (copied_nodes dst src ns).
Proof.
  intros Hd Hk Hn Hns. rewrite CopyNodes_foldl by done.
  destruct (foldl_copy_node_grows src (filter (λ n, node_in ns n = true) (NodePool_Nodes src)) dst Hd) as (_ & E2 & _).
  unfold node_names. rewrite E2, fmap_app, elem_of_app. right. apply list_elem_of_fmap in Hn as (m & -> & Hm).
  apply list_elem_of_fmap_2, list_elem_of_filter. split; [|done]. unfold node_in. by apply contains_spec.
Qed.

(** Finding a pool after [update_nodepool] and after an append. *)
Lemma FindByName_update np k f nps :
  (∀ p, NodePool_Name (f p) = NodePool_Name p) →
  FindByName k (update_nodepool np f nps) = (if decide (k = np) then f else id) <$> FindByName k nps.
Proof.
  intros Hf. unfold FindByName, update_nodepool. induction nps as [|p nps IH]; simpl; [done|].
  destruct (has_name np p) eqn:E1; simpl.
  - assert (Hn : has_name k (f p) = has_name k p) by (unfold has_name; by rewrite Hf). rewrite Hn.
    apply bool_decide_eq_true in E1. destruct (has_name k p) eqn:E2; simpl.
    + apply bool_decide_eq_true in E2. by rewrite decide_True by congruence.
    + apply bool_decide_eq_false in E2. rewrite decide_False by congruence. by rewrite option_fmap_id.
  - destruct (has_name k p) eqn:E2; [|exact IH]. apply bool_decide_eq_false in E1. apply bool_decide_eq_true in E2.
    simpl. by rewrite decide_False by congruence.
Qed.

Lemma FindByName_app k nps nps' : is_Some (FindByName k nps) → FindByName k (nps ++ nps') = FindByName k nps.
Proof.
  unfold FindByName. induction nps as [|p nps IH]; simpl; [by intros [? [=]]|]. destruct (has_name k p); [done|exact IH].
Qed.

Lemma CopyNodes_name dst src ns : NodePool_Name (copied_nodes dst src ns) = NodePool_Name dst.
Proof.
  unfold copied_nodes. destruct (match NodePool_Type src, NodePool_Type dst with
            | NodePool_DynamicNodePool _, NodePool_DynamicNodePool _ => false | _, _ => _ end); [done|].
  revert dst. induction (filter _ (NodePool_Nodes src)) as [|n l IH]; intros dst; simpl; [done|].
  rewrite IH. apply copy_node_grows.
Qed.

Lemma CopyNodes_nodes dst src ns : node_names dst ⊆ node_names (copied_nodes dst src ns).
Proof.
  unfold copied_nodes. destruct (match NodePool_Type src, NodePool_Type dst with
            | NodePool_DynamicNodePool _, NodePool_DynamicNodePool _ => false | _, _ => _ end); [done|].
  revert dst. induction (filter _ (NodePool_Nodes src)) as [|n l IH]; intros dst; simpl; [done|].
  etrans; [|apply IH]. unfold node_names. rewrite (proj1 (proj2 (copy_node_grows src dst n))), fmap_app. set_solver.
Qed.

Lemma grown_trans p g h : grown p g → grown g h → grown p h.
Proof.
  intros (E1 & K1 & N1) (E2 & K2 & N2). split_and!; [congruence|by eapply same_kind_trans|by etrans].
Qed.

Lemma same_kind_not_nil a b : same_kind a b = true → b ≠ NodePool_nil.
Proof. by destruct a, b. Qed.

Lemma copy_step_Ret modified ir np nodes ir' :
  copy_step modified ir (np, nodes) = Ret ir' →
  ∃ src, FindByName np modified = Some src ∧ ir' = update_nodepool np (λ dst, copied_nodes dst src nodes) ir.
Proof.
  unfold copy_step. intros E. bind_inv E. exists x. split; [by destruct (FindByName np modified); simplify_eq/=|].
  by apply copy_into_Ret.
Qed.

(** Both bodies keep the pools and the nodes there are. *)
Lemma copy_step_keeps old modified ir entry ir' np node :
  keeps old ir → copy_step modified ir entry = Ret ir' → keeps old ir' ∧ (node_at ir np node → node_at ir' np node).
Proof.
  intros Hk. destruct entry as [np' nodes]. intros (x & _ & ->)%copy_step_Ret. split.
  - intros p Hp. destruct (Hk p Hp) as (g & Hg & Hgr). rewrite FindByName_update, Hg by (intros; apply CopyNodes_name).
    simpl. eexists. split; [done|]. destruct (decide _); [|done]. eapply grown_trans; [done|].
    apply CopyNodes_grows. destruct Hgr as (_ & K & _). by eapply same_kind_not_nil.
  - intros (g & Hg & <- & Hn). clear -Hg Hn. unfold node_at, update_nodepool. induction ir as [|q ir IH]; [by apply not_elem_of_nil in Hg|].
    simpl. apply elem_of_cons in Hg as [<-|Hg].
    + destruct (has_name np' g); [|exists g; split_and!; [by left|done..]].
      eexists. split_and!; [by left|apply CopyNodes_name|by apply CopyNodes_nodes].
    + destruct (has_name np' q); [exists g; split_and!; [by right|done..]|].
      destruct (IH Hg) as (h & ? & ?). exists h. split; [by right|done].
Qed.

Lemma append_step_keeps old modified ir entry ir' np node :
  keeps old ir → append_step modified ir entry = Ret ir' → keeps old ir' ∧ (node_at ir np node → node_at ir' np node).
Proof.
  intros Hk. unfold append_step. destruct entry as [np' nodes]. intros E. bind_inv E. subst ir'. split.
  - intros p Hp. destruct (Hk p Hp) as (g & Hg & Hgr). exists g. by rewrite FindByName_app; [|exists g].
  - intros (g & Hg & ? & ?). exists g. split; [apply elem_of_app; by left|done].
Qed.

(** ** The union covers both states *)

Lemma same_kind_sym a b : same_kind a b = same_kind b a.
Proof. by destruct a, b. Qed.

Lemma copy_step_brings old modified ir ir' p src ns n :
  keeps old ir → copy_step modified ir (NodePool_Name p, ns) = Ret ir' →
  p ∈ old → FindByName (NodePool_Name p) modified = Some src → same_kind (NodePool_Type p) (NodePool_Type src) = true →
  n ∈ ns → n ∈ node_names src → node_at ir' (NodePool_Name p) n.
Proof.
  intros Hk E Hp Hs Hkind Hn Hns. destruct (Hk p Hp) as (g & Hg & Hname & Kg & _).
  apply copy_step_Ret in E as (src' & Hs' & ->). rewrite Hs in Hs'. injection Hs' as <-.
  pose proof (FindByName_update (NodePool_Name p) (NodePool_Name p) (λ dst, copied_nodes dst src ns) ir
    (λ q, CopyNodes_name q src ns)) as Hu.
  rewrite decide_True, Hg in Hu by done. simpl in Hu. apply FindByName_Some in Hu as [Hin _].
  eexists. split_and!; [exact Hin|by rewrite CopyNodes_name|].
  apply CopyNodes_brings; [by eapply same_kind_not_nil| |done..].
  rewrite same_kind_sym in Hkind. by eapply same_kind_trans.
Qed.

Section union.
Context `{RangeOrder}.

Lemma union_pools_spec site diff old modified ir ir' :
  keeps old ir → union_pools site diff modified ir = Ret ir' →
  keeps old ir' ∧ (∀ np n, node_at ir np n → node_at ir' np n) ∧
  (∀ np ns src n, Added diff !! np = Some ns → FindByName np modified = Some src → n ∈ node_names src → node_at ir' np n) ∧
  (∀ p src ns n, p ∈ old → PartiallyAdded diff !! NodePool_Name p = Some ns → FindByName (NodePool_Name p) modified = Some src →
    same_kind (NodePool_Type p) (NodePool_Type src) = true → n ∈ ns → n ∈ node_names src → node_at ir' (NodePool_Name p) n).
Proof.
  intros Hk E. unfold union_pools in E.
  destruct (foldl _ (Ret ir) _) as [ir1|e|w] eqn:E1; simpl in E; [|done..].
  assert (Hk1 : keeps old ir1 ∧ ∀ np n, node_at ir np n → node_at ir1 np n).
  { revert E1. apply (foldl_outcome_ind (λ ir1, keeps old ir1 ∧ ∀ np n, node_at ir np n → node_at ir1 np n)); [done|].
    intros b x c _ [Hb Hn] Hs. split; [by eapply (copy_step_keeps old _ _ _ _ "" "")|].
    intros np n Hin. eapply (copy_step_keeps old); [done..|by apply Hn]. }
  destruct Hk1 as [Hk1 Hn1].
  assert (Hk2 : keeps old ir' ∧ ∀ np n, node_at ir1 np n → node_at ir' np n).
  { revert E. apply (foldl_outcome_ind (λ ir', keeps old ir' ∧ ∀ np n, node_at ir1 np n → node_at ir' np n)); [done|].
    intros b x c _ [Hb Hn] Hs. split; [by eapply (append_step_keeps old _ _ _ _ "" "")|].
    intros np n Hin. eapply (append_step_keeps old); [done..|by apply Hn]. }
  destruct Hk2 as [Hk2 Hn2]. split_and!; [done|by auto|..].
  - intros np ns src n Ha Hs Hin. apply (elem_of_range (String.append site ".added")) in Ha.
    revert E. apply (foldl_outcome_elem (keeps old) (λ ir, node_at ir np n) _ _ _ _ _ Ha Hk1).
    + intros b y c _ Hb Hy. by eapply append_step_keeps.
    + intros b c _. unfold append_step. rewrite Hs. simpl. intros [= <-]. exists src.
      apply FindByName_Some in Hs as [_ Hname]. split_and!; [|done..]. apply elem_of_app. right. by left.
  - intros p src ns n Hp Ha Hs Hkind Hn Hin. apply (elem_of_range (String.append site ".partial")) in Ha.
    apply Hn2. revert E1. apply (foldl_outcome_elem (keeps old) (λ ir, node_at ir (NodePool_Name p) n) _ _ _ _ _ Ha Hk).
    + intros b y c _ Hb Hy. by eapply copy_step_keeps.
    + intros b c Hb Hy. by eapply copy_step_brings.
Qed.

(** Viewed pools have a type. *)
Lemma view_typed_pools info v p :
  NodePoolsView info = Ret v → p ∈ ClusterInfo_NodePools info → NodePool_Type p ≠ NodePool_nil.
Proof.
  unfold NodePoolsView. generalize (∅ : View, ∅ : View). induction (ClusterInfo_NodePools info) as [|q l IH]; intros v0; simpl.
  { intros _ Hp. by apply not_elem_of_nil in Hp. }
  destruct (view_pool v0 q) as [v1|?|?] eqn:E; intros Hv Hp; [|by apply foldl_bind_inv in Hv as [??]..].
  apply elem_of_cons in Hp as [->|Hp]; [|by eapply IH]. intros Ht. unfold view_pool in E. by rewrite Ht in E.
Qed.

Lemma same_kind_dynamic p q :
  NodePool_Type p ≠ NodePool_nil → NodePool_Type q ≠ NodePool_nil → is_dynamic p = is_dynamic q →
  same_kind (NodePool_Type p) (NodePool_Type q) = true.
Proof. unfold is_dynamic, GetDynamicNodePool. by destruct (NodePool_Type p), (NodePool_Type q). Qed.

(** A pool of a view is the pool of its name and kind. *)
Lemma view_pool_kind info v np ns p :
  NodePoolsView info = Ret v → NoDup (NodePool_Name <$> ClusterInfo_NodePools info) →
  FindByName np (ClusterInfo_NodePools info) = Some p →
  (v.1 !! np = Some ns → is_dynamic p = true) ∧ (v.2 !! np = Some ns → is_dynamic p = false).
Proof.
  intros Hv Hnd Hp. destruct (view_typed _ _ np ns Hv) as [H1 H2].
  split; [intros (q & Hq & <- & Hd)%H1|intros (q & Hq & <- & Hd)%H2];
    rewrite (FindByName_elem _ _ Hnd Hq) in Hp; by injection Hp as <-.
Qed.

(** What one pair of views contributes. *)
Lemma union_view site (vo vm : View) old modified ir ir' p n :
  keeps old ir → union_pools site (NodePoolsDiff vo vm) modified ir = Ret ir' →
  NoDup (NodePool_Name <$> modified) → p ∈ modified → vm !! NodePool_Name p = Some (node_names p) →
  (∀ ns, vo !! NodePool_Name p = Some ns →
     ∃ q, q ∈ old ∧ NodePool_Name q = NodePool_Name p ∧ node_names q = ns ∧ same_kind (NodePool_Type q) (NodePool_Type p) = true) →
  (∀ np n, node_at old np n → node_at ir np n) →
  n ∈ node_names p → node_at ir' (NodePool_Name p) n.
Proof.
  intros Hk Hu Hnd Hp Hv Ho Hold Hn. destruct (union_pools_spec _ _ _ _ _ _ Hk Hu) as (_ & Hkeep & Hadd & Hpart).
  pose proof (FindByName_elem _ _ Hnd Hp) as Hf.
  pose proof (Added_lookup vo vm (NodePool_Name p)) as La. pose proof (PartiallyAdded_lookup vo vm (NodePool_Name p)) as Lp.
  unfold spec_deleted, spec_partially_deleted in *. rewrite Hv in La, Lp.
  destruct (vo !! NodePool_Name p) as [ns|]; [|by eapply Hadd].
  destruct (Ho ns) as (q & Hq & Hname & Hnames & Hkind); [done|].
  destruct (decide (n ∈ ns)) as [Hin|Hin]; [apply Hkeep, Hold; exists q; by rewrite Hnames|].
  assert (Hf' : n ∈ filter (λ n, n ∉ ns) (node_names p)) by (by apply list_elem_of_filter).
  rewrite <- Hname. eapply (Hpart q p); [done| |by rewrite Hname|done|exact Hf'|done].
  rewrite Hname, Lp. apply nonempty_Some. split; [done|]. intros E.
  rewrite E in Hf'. by apply not_elem_of_nil in Hf'.
Qed.

(** ** Load balancers *)

Lemma union_lb_ids modified ir entry ir' :
  union_lb modified ir entry = Ret ir' → LB_Id <$> ir' = LB_Id <$> ir.
Proof.
  unfold union_lb. destruct entry as [lb diff]. intros E. bind_inv E. subst ir'.
  rewrite list_fmap_insert. apply list_insert_id. rewrite list_lookup_fmap.
  unfold index in *. destruct (ir !! x) eqn:El; simplify_eq. done.
Qed.

Lemma lbs_missing_elem (a b : list LBcluster) lb :
  lb ∈ a → LB_Id lb ∉ LB_Id <$> b → LB_Id lb ∈ Lb_Id_ <$> lbs_missing a b.
Proof.
  intros Hin Hno. apply list_elem_of_lookup in Hin as [i Hi]. apply list_elem_of_fmap.
  exists (mkLoadBalancerIdentifier (LB_Id lb) i). split; [done|]. apply list_elem_of_filter. split.
  - simpl. unfold IndexLoadbalancerById. apply index_func_None. intros c Hc. apply bool_decide_eq_false.
    intros E. apply Hno. rewrite <- E. by apply list_elem_of_fmap_2.
  - apply list_elem_of_lookup. exists i. by rewrite list_lookup_imap, Hi.
Qed.

Lemma union_lbs_covers old modified lbs :
  union_lbs old modified = Ret lbs →
  ∀ id, id ∈ (LB_Id <$> old) ++ (LB_Id <$> modified) → id ∈ LB_Id <$> lbs.
Proof.
  unfold union_lbs. intros E id Hid. bind_inv E. rename x0 into ir.
  assert (Hids : LB_Id <$> lbs = LB_Id <$> ir).
  { revert E. apply (foldl_outcome_ind (λ l, LB_Id <$> l = LB_Id <$> ir)); [done|].
    intros b e c _ Hb Hs. by rewrite (union_lb_ids _ _ _ _ Hs). }
  rewrite Hids. set (step := λ ir lb, let* idx := deref (IndexLoadbalancerById (Lb_Id_ lb) modified) in
                                      let* lb := index modified idx in Ret (ir ++ [lb])) in *.
  assert (Hkeep : ∀ b y c, step b y = Ret c → LB_Id <$> b ⊆ LB_Id <$> c).
  { intros b y c Hs. unfold step in Hs. bind_inv Hs. subst c. rewrite fmap_app. set_solver. }
  destruct (decide (id ∈ LB_Id <$> old)) as [Hold|Hno].
  { revert Hx0. apply (foldl_outcome_ind (λ l, id ∈ LB_Id <$> l) step); [done|].
    intros b y c _ Hb Hs. by apply (Hkeep _ _ _ Hs). }
  apply elem_of_app in Hid as [?|Hid]; [done|]. apply list_elem_of_fmap in Hid as (lb & -> & Hlb).
  unfold LoadBalancersDiff in Hx. bind_inv Hx. destruct (determineLBApiEndpointChange old modified) as [[? ?] ?].
  injection Hx as <-. simpl in Hx0.
  pose proof (lbs_missing_elem _ _ _ Hlb Hno) as Hmiss. apply list_elem_of_fmap in Hmiss as (e & He & Hin).
  revert Hx0. apply (foldl_outcome_elem (λ _, True) (λ l, LB_Id lb ∈ LB_Id <$> l) step _ _ _ e Hin I).
  - intros b y c _ _ Hs. split; [done|]. intros Hb. by apply (Hkeep _ _ _ Hs).
  - intros b c _ Hs. unfold step in Hs. bind_inv Hs. subst c. rewrite fmap_app, elem_of_app. right.
    unfold deref in *. destruct (IndexLoadbalancerById _ _) as [j|] eqn:Ei; simplify_eq.
    apply index_func_Some in Ei as (l & Hl & Hb). apply bool_decide_eq_true in Hb.
    unfold index in *. rewrite Hl in *. simplify_eq. rewrite He, <- Hb. by left.
Qed.

End union.

(** C10: When a cluster is deleted while a task is in flight, the union that is
    destroyed has every node of every kubernetes pool of the current state
    and of the state in flight, and every load balancer of both. *)
Theorem clusters_union_covers `{RangeOrder} (old modified u : Clusters) (ok mk : K8Scluster) :
  clustersUnion old modified = Ret u → K8S old = Some ok → K8S modified = Some mk →
  NoDup (NodePool_Name <$> K8s_NodePools ok) → NoDup (NodePool_Name <$> K8s_NodePools mk) →
  ∃ uk, K8S u = Some uk ∧
    (∀ np n, node_at (K8s_NodePools ok) np n ∨ node_at (K8s_NodePools mk) np n → node_at (K8s_NodePools uk) np n) ∧
    (∀ id, id ∈ (LB_Id <$> LoadBalancers old) ++ (LB_Id <$> LoadBalancers modified) → id ∈ LB_Id <$> LoadBalancers u).
Proof.
  intros E Ho Hm Hno Hnm. unfold clustersUnion in E. rewrite Ho, Hm in E. bind_inv E. subst u.
  rename Hx0 into Hu1, Hx1 into Hu2, Hx2 into Hlb. eexists. split; [done|].
  split; [|by eapply union_lbs_covers].
  unfold KubernetesDiff in Hx. bind_inv Hx. destruct x3 as [od os]. bind_inv Hx. destruct x3 as [nd ns]. bind_inv Hx. subst x.
  simpl in Hu1, Hu2. change (K8s_NodePools (set_K8s_NodePools ok x1)) with x1.
  assert (Hk : keeps (K8s_NodePools ok) (K8s_NodePools ok)).
  { intros p Hp. exists p. split; [by apply FindByName_elem|]. split_and!; [done| |done].
    apply same_kind_dynamic; [exact (view_typed_pools _ _ _ Hx0 Hp)..|done]. }
  destruct (union_pools_spec _ _ _ _ _ _ Hk Hu1) as (Hk1 & Hkeep1 & _).
  destruct (union_pools_spec _ _ _ _ _ _ Hk1 Hu2) as (Hk2 & Hkeep2 & _).
  intros np n [Hn|(p & Hp & <- & Hn)]; [by apply Hkeep2, Hkeep1|].
  pose proof (FindByName_elem _ _ Hnm Hp) as Hf.
  assert (Hsame : ∀ ns0, (od !! NodePool_Name p = Some ns0 ∧ is_dynamic p = true) ∨ (os !! NodePool_Name p = Some ns0 ∧ is_dynamic p = false) →
    ∃ q, q ∈ K8s_NodePools ok ∧ NodePool_Name q = NodePool_Name p ∧ node_names q = ns0 ∧
         same_kind (NodePool_Type q) (NodePool_Type p) = true).
  { intros ns0 Hv. destruct (view_sound _ _ _ Hx0 (NodePool_Name p) ns0) as [[?|?]|(q & Hq & Hname & Hnames)]; [tauto|done..|].
    exists q. split_and!; [done..|]. pose proof (FindByName_elem _ _ Hno Hq) as Hfq. rewrite Hname in Hfq.
    destruct (view_pool_kind _ _ _ ns0 _ Hx0 Hno Hfq) as [Kd Ks]. simpl in *.
    apply same_kind_dynamic; [exact (view_typed_pools _ _ _ Hx0 Hq)|exact (view_typed_pools _ _ _ Hx1 Hp)|].
    destruct Hv as [[Hv Hd]|[Hv Hd]]; rewrite Hd; [by apply Kd|by apply Ks]. }
  destruct (view_pool_kind _ _ _ (node_names p) _ Hx1 Hnm Hf) as [Kd Ks].
  destruct (view_complete _ _ _ _ Hx1 Hnm Hp) as [Hv|Hv]; simpl in Hv.
  - apply Hkeep2. eapply (union_view _ od nd _ _ _ _ p n Hk Hu1 Hnm Hp Hv); [|done..]. intros ns0 E0. apply Hsame. left. by auto.
  - eapply (union_view _ os ns _ _ _ _ p n Hk1 Hu2 Hnm Hp Hv); [|exact Hkeep1|done]. intros ns0 E0. apply Hsame. right. by auto.
Qed.

(** *** Instances *)

(** A deletion while the second control node is being added again. *)
Lemma clusters_union_covers_witness :
  let old := mkClusters (Some (Samples.k8s_with [Samples.ctrl_shrunk; Samples.workers])) [] in
  ∃ u uk, clustersUnion old Samples.clusters = Ret u ∧ K8S u = Some uk ∧
    node_at (K8s_NodePools uk) "ctrl-0000001" "ctrl-0000001-01" ∧ "lb-hijklmn" ∈ LB_Id <$> LoadBalancers u.
Proof.
  intros old. destruct (clustersUnion old Samples.clusters) as [u|?|?] eqn:E; [|vm_compute in E; discriminate E..].
  destruct (clusters_union_covers old Samples.clusters u _ _ E eq_refl eq_refl) as (uk & Hk & Hn & Hl); [by_decide..|].
  exists u, uk. split_and!; [reflexivity|exact Hk| |].
  - apply Hn. right. exists Samples.ctrl. by_decide.
  - apply Hl. by_decide.
Defined.

End ClustersUnion.
