(* ===== verification/ManagementCluster.v ===== *)
(** * Secrets of the management cluster

    services/manager/internal/service/managementcluster: after a cluster is
    built the manager keeps its kubeconfig and the addresses and keys of its
    nodes in two secrets of the cluster Claudie itself runs in, and deletes
    them before the cluster is destroyed.  The callers only log what kubectl
    answers, so an operation returns the commands it hands to kubectl; a
    secret's data is kept as it is before it is encoded as JSON and base64. *)

From Stdlib Require Import Ascii.
From stdpp Require Import base gmap strings list.
From S2P Require Import Prelude Spec SpecUtils Samples NodePools Cidr.
Import NodePools Cidr.

Module ManagementCluster.

(** The namespace Claudie is deployed in, from the environment; empty in a
    local deployment. *)
Class Deployment := { Namespace : string }.

(** ** Secrets (secret.go) *)

Inductive OutputType := KubeconfigSecret | MetadataSecret.

Definition output_string (o : OutputType) : string :=
  match o with KubeconfigSecret => "kubeconfig" | MetadataSecret => "metadata" end.

Record Metadata := mkMetadata { Md_Name : string; Md_Labels : gmap string string }.

Definition SecretMetadata (ci : ClusterInfo) (projectName : string) (outputType : OutputType) : Metadata :=
  mkMetadata (String.append (Id ci) (String.append "-" (output_string outputType)))
    {["claudie.io/project" := projectName;
      "claudie.io/cluster" := ClusterInfo_Name ci;
      "claudie.io/cluster-id" := Id ci;
      "claudie.io/output" := output_string outputType;
      "app.kubernetes.io/part-of" := "claudie"]}.

(** *** Metadata of a cluster (store_metadata.go) *)

Record IPPair := mkIPPair { PublicIP : option (list Z); PrivateIP : option (list Z) }.
Record StaticNodeInfo := mkStaticNodeInfo { Info_Endpoint : string; Info_PrivateKey : string }.
Record DynamicMetadata := mkDynamicMetadata { NodeIps : gmap string IPPair; Md_PrivateKey : string }.
Record StaticMetadata := mkStaticMetadata { NodeInfo : gmap string StaticNodeInfo }.

Record ClusterMetadata := mkClusterMetadata {
  DynamicNodepools : gmap string DynamicMetadata;
  StaticNodepools : gmap string StaticMetadata;
  DynamicLoadBalancerNodePools : gmap string (gmap string DynamicMetadata);
  StaticLoadBalancerNodePools : gmap string (gmap string StaticMetadata) }.

Inductive SecretData := KubeconfigData (kubeconfig : string) | MetadataData (md : ClusterMetadata).

(** [NewSecretYaml] fills in the constant fields. *)
Record Secret := mkSecret { Secret_Metadata : Metadata; Secret_Data : SecretData }.

(** What is handed to kubectl: [Apply] of a secret, [KubectlDeleteResource]. *)
Inductive command :=
| ApplySecret (namespace : string) (s : Secret)
| DeleteSecret (namespace name : string).

(** A map filled in a loop: later entries of a key replace earlier ones. *)
Definition collect_into {A B} (key : A → string) (val : A → option B) (m : gmap string B) (l : list A) : gmap string B :=
  foldl (λ m x, match val x with Some v => <[key x := v]> m | None => m end) m l.

Definition collect {A B} (key : A → string) (val : A → option B) (l : list A) : gmap string B := collect_into key val ∅ l.

Definition node_ips (n : Node) : IPPair := mkIPPair (ParseIP (Node_Public n)) (ParseIP (Node_Private n)).

Definition dynamic_metadata (pool : NodePool) : option DynamicMetadata :=
  match GetDynamicNodePool pool with
  | Some np => Some (mkDynamicMetadata (collect Node_Name (λ n, Some (node_ips n)) (NodePool_Nodes pool)) (Dyn_PrivateKey np))
  | None => None
  end.

Definition static_metadata (pool : NodePool) : option StaticMetadata :=
  match GetStaticNodePool pool with
  | Some np =>
      Some (mkStaticMetadata (collect Node_Name
        (λ n, Some (mkStaticNodeInfo (Node_Public n) (default "" (Static_NodeKeys np !! Node_Public n)))) (NodePool_Nodes pool)))
  | None => None
  end.

(** [m\[outer\]\[inner\] = v] in Go: the inner map has to be there. *)
Definition assign {A} (m : gmap string (gmap string A)) (outer inner : string) (v : A) : outcome (gmap string (gmap string A)) :=
  match m !! outer with
  | Some i => Ret (<[outer := <[inner := v]> i]> m)
  | None => Panic "assignment to entry in nil map"
  end.

Definition lb_maps : Type := gmap string (gmap string DynamicMetadata) * gmap string (gmap string StaticMetadata).

Definition lb_pool_metadata (lb : string) (acc : lb_maps) (pool : NodePool) : outcome lb_maps :=
  let '(lbdp, lbst) := acc in
  match dynamic_metadata pool, static_metadata pool with
  | Some md, _ => let* lbdp := assign lbdp lb (NodePool_Name pool) md in Ret (lbdp, lbst)
  | None, Some md => let* lbst := assign lbst lb (NodePool_Name pool) md in Ret (lbdp, lbst)
  | None, None => Ret (lbdp, lbst)
  end.

Fixpoint fold_outcome {A B} (f : A → B → outcome A) (a : A) (l : list B) : outcome A :=
  match l with [] => Ret a | b :: l => let* a := f a b in fold_outcome f a l end.

(** Only the map of the dynamic pools is made for each load balancer. *)
Definition lb_metadata (acc : lb_maps) (lb : LBcluster) : outcome lb_maps :=
  let name := ClusterInfo_Name (LB_ClusterInfo lb) in
  fold_outcome (lb_pool_metadata name) (<[name := ∅]> acc.1, acc.2) (LB_NodePools lb).

Definition StoreClusterMetadata `{Deployment} (manifestName : string) (clusters : Clusters) : outcome (list command) :=
  if bool_decide (Namespace = "") then Ret []
  else
    let* k := deref (K8S clusters) in
    let dp := collect NodePool_Name dynamic_metadata (K8s_NodePools k) in
    let sp := collect NodePool_Name static_metadata (K8s_NodePools k) in
    let* lbs := fold_outcome lb_metadata (∅, ∅) (LoadBalancers clusters) in
    Ret [ApplySecret Namespace (mkSecret (SecretMetadata (K8s_ClusterInfo k) manifestName MetadataSecret)
                                  (MetadataData (mkClusterMetadata dp sp lbs.1 lbs.2)))].

(** ** The other secret and the deletions *)

Definition StoreKubeconfig `{Deployment} (manifestName : string) (clusters : Clusters) : outcome (list command) :=
  if bool_decide (Namespace = "") then Ret []
  else
    let* k := deref (K8S clusters) in
    Ret [ApplySecret Namespace (mkSecret (SecretMetadata (K8s_ClusterInfo k) manifestName KubeconfigSecret)
                                  (KubeconfigData (K8s_Kubeconfig k)))].

(** The identity is read before the namespace is tested. *)
Definition DeleteKubeconfig `{Deployment} (clusters : Clusters) : outcome (list command) :=
  let* k := deref (K8S clusters) in
  if bool_decide (Namespace = "") then Ret [] else Ret [DeleteSecret Namespace (String.append (K8s_Id k) "-kubeconfig")].

Definition DeleteClusterMetadata `{Deployment} (clusters : Clusters) : outcome (list command) :=
  let* k := deref (K8S clusters) in
  if bool_decide (Namespace = "") then Ret [] else Ret [DeleteSecret Namespace (String.append (K8s_Id k) "-metadata")].

(** What the reconciliation does before it updates and before it destroys a
    cluster (service/reconciliation.go). *)
Definition store_secrets `{Deployment} (manifestName : string) (current : Clusters) : outcome (list command) :=
  let* kubeconfig := StoreKubeconfig manifestName current in
  let* metadata := StoreClusterMetadata manifestName current in
  Ret (kubeconfig ++ metadata).

Definition delete_secrets `{Deployment} (del : Clusters) : outcome (list command) :=
  let* kubeconfig := DeleteKubeconfig del in
  let* metadata := DeleteClusterMetadata del in
  Ret (kubeconfig ++ metadata).

(** ** What the metadata say *)

Lemma collect_into_other {A B} (key : A → string) (val : A → option B) (m : gmap string B) (l : list A) k :
  k ∉ key <$> l → collect_into key val m l !! k = m !! k.
Proof.
  unfold collect_into. induction l as [|z l IH] in m |- *; intros Hy; csimpl in *; [done|].
  apply not_elem_of_cons in Hy as [Hne Hy]. rewrite IH by done. destruct (val z); [by rewrite lookup_insert_ne|done].
Qed.

Lemma collect_into_lookup {A B} (key : A → string) (val : A → option B) (m : gmap string B) (l : list A) x v :
  NoDup (key <$> l) → x ∈ l → val x = Some v → collect_into key val m l !! key x = Some v.
Proof.
  induction l as [|z l IH] in m |- *; csimpl; intros Hnd Hx Hv; [by apply not_elem_of_nil in Hx|].
  apply NoDup_cons in Hnd as [Hz Hnd]. apply elem_of_cons in Hx as [->|Hx]; [|by apply IH].
  change (collect_into key val (match val z with Some v => <[key z := v]> m | None => m end) l !! key z = Some v).
  by rewrite collect_into_other, Hv, lookup_insert_eq.
Qed.

(** With distinct keys every entry is found again. *)
Lemma collect_lookup {A B} (key : A → string) (val : A → option B) (l : list A) x v :
  NoDup (key <$> l) → x ∈ l → val x = Some v → collect key val l !! key x = Some v.
Proof. apply collect_into_lookup. Qed.

(** A load balancer with a static pool. *)
Definition static_lb (lb : LBcluster) : bool := existsb is_static (LB_NodePools lb).

(** A pool is dynamic, static or neither. *)
Lemma pool_kind pool :
  match dynamic_metadata pool, static_metadata pool with
  | Some _, _ | None, None => is_static pool = false
  | None, Some _ => is_static pool = true
  end.
Proof. unfold dynamic_metadata, static_metadata, is_static, GetDynamicNodePool, GetStaticNodePool. by destruct (NodePool_Type pool). Qed.

(** The pools of one load balancer: nothing was ever assigned to the map of
    the static ones, so the first static pool panics. *)
Lemma lb_pools_spec name pools lbdp inner :
  lbdp !! name = Some inner →
  fold_outcome (lb_pool_metadata name) (lbdp, ∅) pools =
    if existsb is_static pools then Panic "assignment to entry in nil map"
    else Ret (<[name := collect_into NodePool_Name dynamic_metadata inner pools]> lbdp, ∅).
Proof.
  induction pools as [|pool pools IH] in lbdp, inner |- *; intros Hn; cbn [fold_outcome existsb].
  { by rewrite insert_id. }
  pose proof (pool_kind pool) as Hk. unfold lb_pool_metadata at 1, assign.
  change (collect_into NodePool_Name dynamic_metadata inner (pool :: pools)) with
    (collect_into NodePool_Name dynamic_metadata
       (match dynamic_metadata pool with Some v => <[NodePool_Name pool := v]> inner | None => inner end) pools).
  destruct (dynamic_metadata pool) as [md|], (static_metadata pool) as [md'|]; rewrite Hk; simpl.
  1, 2: rewrite Hn; simpl; erewrite IH by apply lookup_insert_eq; by rewrite insert_insert_eq.
  - by rewrite lookup_empty.
  - by erewrite IH.
Qed.

(** All load balancers: their dynamic pools, or the panic. *)
Lemma lb_metadata_spec lbs lbdp :
  fold_outcome lb_metadata (lbdp, ∅) lbs =
    if existsb static_lb lbs then Panic "assignment to entry in nil map"
    else Ret (foldl (λ m lb, <[ClusterInfo_Name (LB_ClusterInfo lb) := collect NodePool_Name dynamic_metadata (LB_NodePools lb)]> m) lbdp lbs, ∅).
Proof.
  induction lbs as [|lb lbs IH] in lbdp |- *; cbn [fold_outcome existsb foldl]; [done|].
  unfold lb_metadata at 1; simpl. erewrite lb_pools_spec by apply lookup_insert_eq. fold (static_lb lb).
  destruct (static_lb lb); simpl; [done|]. rewrite insert_insert_eq. apply IH.
Qed.

Section secrets.
Context `{Deployment}.

(** In a deployment the metadata are stored, or a static pool of a load
    balancer panics. *)
Lemma StoreClusterMetadata_spec name clusters k :
  Namespace ≠ "" → K8S clusters = Some k →
  StoreClusterMetadata name clusters =
    if existsb static_lb (LoadBalancers clusters) then Panic "assignment to entry in nil map"
    else Ret [ApplySecret Namespace (mkSecret (SecretMetadata (K8s_ClusterInfo k) name MetadataSecret)
                (MetadataData (mkClusterMetadata
                   (collect NodePool_Name dynamic_metadata (K8s_NodePools k))
                   (collect NodePool_Name static_metadata (K8s_NodePools k))
                   (collect (λ lb, ClusterInfo_Name (LB_ClusterInfo lb))
                      (λ lb, Some (collect NodePool_Name dynamic_metadata (LB_NodePools lb))) (LoadBalancers clusters))
                   ∅)))].
Proof.
  intros Hn Hk. unfold StoreClusterMetadata. rewrite bool_decide_eq_false_2 by done. rewrite Hk; simpl.
  rewrite lb_metadata_spec. by destruct (existsb static_lb (LoadBalancers clusters)).
Qed.

(** The metadata of a dynamic pool have its key and the addresses of each of
    its nodes; those of a static pool the endpoint and the key of each node. *)
Lemma dynamic_metadata_nodes pool d n :
  GetDynamicNodePool pool = Some d → NoDup (Node_Name <$> NodePool_Nodes pool) → n ∈ NodePool_Nodes pool →
  ∃ md, dynamic_metadata pool = Some md ∧ Md_PrivateKey md = Dyn_PrivateKey d ∧ NodeIps md !! Node_Name n = Some (node_ips n).
Proof.
  intros Hd Hnd Hn. unfold dynamic_metadata. rewrite Hd. eexists. split_and!; [done..|]. simpl.
  by apply (collect_lookup Node_Name (λ n, Some (node_ips n))).
Qed.

Lemma static_metadata_nodes pool st n key :
  GetStaticNodePool pool = Some st → NoDup (Node_Name <$> NodePool_Nodes pool) → n ∈ NodePool_Nodes pool →
  Static_NodeKeys st !! Node_Public n = Some key →
  ∃ md, static_metadata pool = Some md ∧ NodeInfo md !! Node_Name n = Some (mkStaticNodeInfo (Node_Public n) key).
Proof.
  intros Hs Hnd Hn Hk. unfold static_metadata. rewrite Hs. eexists. split; [done|]. simpl.
  apply (collect_lookup Node_Name
    (λ n, Some (mkStaticNodeInfo (Node_Public n) (default "" (Static_NodeKeys st !! Node_Public n))))); [done..|]. by rewrite Hk.
Qed.

(** Whoever reads the secret finds every node of the cluster and of its load
    balancers. *)
Lemma metadata_lists_dynamic_nodes name clusters k ns sec md pool d n :
  K8S clusters = Some k → StoreClusterMetadata name clusters = Ret [ApplySecret ns sec] → Secret_Data sec = MetadataData md →
  NoDup (NodePool_Name <$> K8s_NodePools k) → NoDup (Node_Name <$> NodePool_Nodes pool) →
  pool ∈ K8s_NodePools k → GetDynamicNodePool pool = Some d → n ∈ NodePool_Nodes pool →
  ∃ pmd, DynamicNodepools md !! NodePool_Name pool = Some pmd ∧ Md_PrivateKey pmd = Dyn_PrivateKey d
         ∧ NodeIps pmd !! Node_Name n = Some (node_ips n).
Proof.
  intros Hk Hs Hsec Hp Hnn Hpool Hd Hn.
  assert (Hns : Namespace ≠ "") by (unfold StoreClusterMetadata in Hs; by case_bool_decide).
  rewrite (StoreClusterMetadata_spec name clusters k Hns Hk) in Hs. destruct (existsb _ _); simplify_eq/=.
  destruct (dynamic_metadata_nodes pool d n Hd Hnn Hn) as (pmd & Hmd & ? & ?). exists pmd. split_and!; [|done..].
  by apply collect_lookup.
Qed.

Lemma metadata_lists_loadbalancer_nodes name clusters k ns sec md lb pool d n :
  K8S clusters = Some k → StoreClusterMetadata name clusters = Ret [ApplySecret ns sec] → Secret_Data sec = MetadataData md →
  NoDup ((λ lb, ClusterInfo_Name (LB_ClusterInfo lb)) <$> LoadBalancers clusters) → lb ∈ LoadBalancers clusters →
  NoDup (NodePool_Name <$> LB_NodePools lb) → NoDup (Node_Name <$> NodePool_Nodes pool) →
  pool ∈ LB_NodePools lb → GetDynamicNodePool pool = Some d → n ∈ NodePool_Nodes pool →
  ∃ pools pmd, DynamicLoadBalancerNodePools md !! ClusterInfo_Name (LB_ClusterInfo lb) = Some pools
         ∧ pools !! NodePool_Name pool = Some pmd ∧ Md_PrivateKey pmd = Dyn_PrivateKey d
         ∧ NodeIps pmd !! Node_Name n = Some (node_ips n).
Proof.
  intros Hk Hs Hsec Hlbs Hlb Hp Hnn Hpool Hd Hn.
  assert (Hns : Namespace ≠ "") by (unfold StoreClusterMetadata in Hs; by case_bool_decide).
  rewrite (StoreClusterMetadata_spec name clusters k Hns Hk) in Hs. destruct (existsb _ _); simplify_eq/=.
  destruct (dynamic_metadata_nodes pool d n Hd Hnn Hn) as (pmd & Hmd & ? & ?).
  exists (collect NodePool_Name dynamic_metadata (LB_NodePools lb)), pmd. split_and!; [|by apply collect_lookup|done..].
  by apply (collect_lookup (λ lb, ClusterInfo_Name (LB_ClusterInfo lb))
              (λ lb, Some (collect NodePool_Name dynamic_metadata (LB_NodePools lb)))).
Qed.

(** ** The secrets of a cluster over its life *)

(** The management cluster after a command that kubectl carried out. *)
Definition perform (secrets : gmap (string * string) Secret) (c : command) : gmap (string * string) Secret :=
  match c with
  | ApplySecret ns s => <[(ns, Md_Name (Secret_Metadata s)) := s]> secrets
  | DeleteSecret ns name => delete (ns, name) secrets
  end.

Definition secret_name (id : string) (o : OutputType) : string := String.append id (String.append "-" (output_string o)).

(** Destroying a cluster deletes exactly the two secrets that are stored for
    it, under the names they were stored with. *)
Lemma deleted_are_stored name clusters k stored :
  K8S clusters = Some k → store_secrets name clusters = Ret stored → Namespace ≠ "" →
  ∃ deleted, delete_secrets clusters = Ret deleted
  ∧ (∀ c, c ∈ stored → ∃ s, c = ApplySecret Namespace s ∧ DeleteSecret Namespace (Md_Name (Secret_Metadata s)) ∈ deleted)
  ∧ deleted = [DeleteSecret Namespace (secret_name (K8s_Id k) KubeconfigSecret);
               DeleteSecret Namespace (secret_name (K8s_Id k) MetadataSecret)].
Proof.
  intros Hk Hs Hns. unfold store_secrets, StoreKubeconfig in Hs. rewrite bool_decide_eq_false_2 in Hs by done.
  rewrite Hk in Hs; simpl in Hs. rewrite (StoreClusterMetadata_spec name clusters k Hns Hk) in Hs.
  destruct (existsb _ _); simplify_eq/=. eexists. split_and!.
  - unfold delete_secrets, DeleteKubeconfig, DeleteClusterMetadata. rewrite Hk; simpl. by rewrite !bool_decide_eq_false_2.
  - intros c. rewrite !elem_of_cons. intros [->|[->|[]%not_elem_of_nil]]; eexists; (split; [done|]); simpl; [left|right; left].
  - done.
Qed.

(** After the deletion neither of them is left, whatever was stored before. *)
Lemma destroyed_cluster_leaves_no_secret clusters k deleted secrets o :
  K8S clusters = Some k → Namespace ≠ "" → delete_secrets clusters = Ret deleted →
  foldl perform secrets deleted !! (Namespace, secret_name (K8s_Id k) o) = None.
Proof.
  intros Hk Hns. unfold delete_secrets, DeleteKubeconfig, DeleteClusterMetadata. rewrite Hk; simpl.
  rewrite !bool_decide_eq_false_2 by done. intros [= <-]. simpl. destruct o; simpl.
  - apply lookup_delete_None. right. apply lookup_delete_None. by left.
  - apply lookup_delete_None. by left.
Qed.

End secrets.

End ManagementCluster.
