(* ===== verification/Reconcile.v ===== *)
(** * Reconciliation (service/reconciliation.go)

    The choice of the next task of every cluster of a pending configuration
    from its current, its desired and its in-flight state. *)

From stdpp Require Import base gmap strings list.
From S2P Require Import Prelude Spec SpecUtils Samples NodePools Consume Diff GenerateState Cidr Schedule Health ScheduleKubernetes ScheduleLoadBalancers Unreachable Union ManagementCluster.
Import NodePools Consume Diff GenerateState Schedule Health ScheduleKubernetes ScheduleLoadBalancers UnreachableNodes ClustersUnion ManagementCluster.

Module Reconcile.

Inductive ScheduleResult := Reschedule | NoReschedule | Noop | NotReady.
#[export] Instance ScheduleResult_eq_dec : EqDecision ScheduleResult.
Proof. solve_decision. Defined.

(** ** Credentials *)

(** The pool after the update and whether it was updated. *)
Definition updateNodePoolCredentials (current desired : NodePool) : NodePool * bool :=
  match NodePool_Type current, NodePool_Type desired with
  | NodePool_DynamicNodePool c, NodePool_DynamicNodePool d =>
      if CredentialsEqual (Some (Dyn_Provider c)) (Some (Dyn_Provider d)) then (current, false)
      else match CopyCredentials (Some (Dyn_Provider c)) (Some (Dyn_Provider d)) with
           | (Some p, true) => (set_NodePool_Type current (NodePool_DynamicNodePool (set_Dyn_Provider c p)), true)
           | _ => (current, false)
           end
  | NodePool_StaticNodePool c, NodePool_StaticNodePool d =>
      let keys := map_imap (λ ep key, Some (default key (Static_NodeKeys d !! ep))) (Static_NodeKeys c) in
      (set_NodePool_Type current (NodePool_StaticNodePool (mkStaticNodePool keys)),
       negb (bool_decide (keys = Static_NodeKeys c)))
  | _, _ => (current, false)
  end.

Definition update_pools_credentials (current desired : list NodePool) : list NodePool * bool :=
  let l := (λ cnp, match FindByName (NodePool_Name cnp) desired with
                   | None => (cnp, false)
                   | Some dnp => updateNodePoolCredentials cnp dnp
                   end) <$> current in
  (l.*1, existsb snd l).

Definition set_DNS_Provider (d : DNS) (p : Provider) : DNS :=
  mkDNS (DNS_DnsZone d) (DNS_Hostname d) p (DNS_Endpoint d) (DNS_AlternativeNames d).

Definition update_dns_credentials (current desired : option DNS) : option DNS * bool :=
  match current, desired with
  | Some c, Some d =>
      if CredentialsEqual (Some (DNS_Provider c)) (Some (DNS_Provider d)) then (current, false)
      else match CopyCredentials (Some (DNS_Provider c)) (Some (DNS_Provider d)) with
           | (Some p, true) => (Some (set_DNS_Provider c p), true)
           | _ => (current, false)
           end
  | _, _ => (current, false)
  end.

Definition update_lb_credentials (desired : list LBcluster) (clb : LBcluster) : LBcluster * bool :=
  match IndexLoadbalancerById (LB_Id clb) desired ≫= λ di, desired !! di with
  | None => (clb, false)
  | Some dlb =>
      let '(nps, u1) := update_pools_credentials (LB_NodePools clb) (LB_NodePools dlb) in
      let '(dns, u2) := update_dns_credentials (LB_Dns clb) (LB_Dns dlb) in
      (set_LB_Dns (set_LB_NodePools clb nps) dns, u1 || u2)
  end.

Definition updateCredentials (current desired : Clusters) : Clusters * bool :=
  let '(k, u1) := match K8S current with
                  | None => (None, false)
                  | Some k => let '(nps, u) := update_pools_credentials (K8s_NodePools k)
                                                 (default [] (K8s_NodePools <$> K8S desired)) in
                              (Some (set_K8s_NodePools k nps), u)
                  end in
  let lbs := update_lb_credentials (LoadBalancers desired) <$> LoadBalancers current in
  (mkClusters k lbs.*1, u1 || existsb snd lbs).

(** ** Tasks in flight *)

Definition shouldRescheduleInFlight (inFlight : option TaskEvent) : outcome bool :=
  match inFlight with
  | None => Ret false
  | Some ev =>
      match TaskEvent_Task ev with
      | Task_Update _ delta =>
          match delta with
          | Update_ApiEndpoint_ _ _ _ | Update_DeleteLoadBalancerRoles_ _ _ | Update_DeleteLoadBalancer_ _ _
          | Update_TfDeleteLoadBalancerNodes _ _ _ _ _ | Update_DeletedLoadBalancerNodes_ _ _ _
          | Update_K8SApiEndpoint _ _ | Update_KDeleteNodes _ _ _ _ | Update_DeletedK8SNodes_ _ _
          | Update_UpgradeVersion_ _ => Ret true
          | Update_ReplacedDns_ _ old =>
              if bool_decide (Z.of_nat (length (TaskEvent_Pipeline ev)) ≤ TaskEvent_CurrentStage ev)%Z then Ret false
              else match old with
                   | None => Ret false
                   | Some _ => let* st := index (TaskEvent_Pipeline ev) (Z.to_nat (TaskEvent_CurrentStage ev)) in
                               Ret (match st with Stage_Terraformer _ _ => false | _ => true end)
                   end
          | _ => Ret false
          end
      | _ => Ret false
      end
  end.

Definition areScheduledTasksEqual (a b : option TaskEvent) : bool :=
  match a, b with
  | None, None => true
  | Some a, Some b =>
      bool_decide (TaskEvent_Event a = TaskEvent_Event b) &&
      bool_decide (TaskEvent_Description a = TaskEvent_Description b) &&
      bool_decide (TaskEvent_Pipeline a = TaskEvent_Pipeline b) &&
      bool_decide (TaskEvent_Task a = TaskEvent_Task b)
  | _, _ => false
  end.

(** ** The next update *)

Section reconcile.
Context `{Entropy, RangeOrder, Deployment} (now : Z).

(** The phases are asked in turn; the order matters. *)
Definition handleUpdate (fuel : nat) (id : string) (hc : HealthCheckStatus) (diff : DiffResult) (current desired : Clusters)
    : draws (option TaskEvent) := λ i,
  let lbr := mkLoadBalancersReconciliate hc (Diff_LoadBalancers diff) (Kd_Proxy (Diff_Kubernetes diff)) current desired in
  let kr := mkKubernetesReconciliate hc (Diff_Kubernetes diff) current desired in
  let* next := PreKubernetesDiff id now lbr in
  match next with Some ev => Ret (Some ev, i) | None =>
  let* next := KubernetesModifications id now kr in
  match next with Some ev => Ret (Some ev, i) | None =>
  let* next := PostKubernetesDiff id now lbr in
  match next with Some ev => Ret (Some ev, i) | None =>
  let* next := KubernetesDeletions id now kr in
  match next with Some ev => Ret (Some ev, i) | None =>
  let* (next, i) := LoadBalancersLowPriority id now fuel lbr i in
  match next with Some ev => Ret (Some ev, i) | None =>
  let* (next, i) := KubernetesLowPriority id now fuel kr i in
  match next with Some ev => Ret (Some ev, i) | None =>
  if Hc_VpnDrift hc
  then Ret (Some (ScheduleRefreshVPN id now (Proxy_CurrentUsed (Kd_Proxy (Diff_Kubernetes diff))) current), i)
  else Ret (None, i)
  end end end end end end.

Definition handleClusterUnknownNodes (TimeForNodeDeletion : Z) (id : string) (current desired : Clusters) (diff : DiffResult)
    (ns : UnknownNodeStatus) (hc : HealthCheckStatus) : outcome (option TaskEvent) :=
  let* next := HandleLoadBalancerUnknownNodes id now (mkLoadBalancerUnreachableNodes ns (Diff_Kubernetes diff) current desired) in
  match next with
  | Some ev => Ret (Some ev)
  | None => HandleKubernetesUnknownNodes id now TimeForNodeDeletion
              (mkKubernetesUnreachableNodes hc ns (Diff_Kubernetes diff) current desired)
  end.

(** ** One cluster *)

Definition is_nil (c : option Clusters) : bool :=
  match c with
  | None => true
  | Some c => bool_decide (K8S c = None) && bool_decide (LoadBalancers c = [])
  end.

(** The API endpoint of a new cluster: its first load balancer with the API
    role, or else its first control node. *)
Fixpoint mark_first_control (nps : list NodePool) : option (list NodePool) :=
  match nps with
  | [] => None
  | np :: nps =>
      match NodePool_IsControl np, NodePool_Nodes np with
      | true, n :: ns => Some (set_NodePool_Nodes np (set_Node_NodeType n apiEndpoint :: ns) :: nps)
      | _, _ => cons np <$> mark_first_control nps
      end
  end.

Definition choose_endpoint (desired : Clusters) : outcome Clusters :=
  let has_role lb := HasApiRole (Some lb) in
  if existsb has_role (LoadBalancers desired) then
    Ret (mkClusters (K8S desired) (update_first has_role (λ lb, set_LB_UsedApiEndpoint lb true) (LoadBalancers desired)))
  else
    let* k := deref (K8S desired) in
    let* nps := deref (mark_first_control (K8s_NodePools k)) in
    Ret (mkClusters (Some (set_K8s_NodePools k nps)) (LoadBalancers desired)).

(** What is left of a task that was never committed is deleted first; a task
    without a state leaves everything as it is. *)
Definition reconcile_create (id : string) (state : ClusterState) (desired : Clusters) : outcome ClusterState :=
  match InFlight state with
  | Some inFlight =>
      match MutableClusters (TaskEvent_Task inFlight) with
      | Ret cs => let* ev := ScheduleDeleteCluster id now cs in Ret (set_InFlight state (Some ev))
      | Fail _ => Ret state
      | Panic w => Panic w
      end
  | None =>
      let* desired := choose_endpoint desired in
      let* ev := ScheduleCreateCluster id now desired in
      Ret (set_InFlight state (Some ev))
  end.

Definition no_clusters : Clusters := mkClusters None [].

(** The commands for the management cluster are handed to kubectl and their
    answers logged; nothing here depends on them. *)
Definition reconcile_destroy (id : string) (state : ClusterState) : outcome ClusterState :=
  let current := default no_clusters (Current state) in
  let schedule del :=
    let* _ := delete_secrets del in
    let* ev := ScheduleDeleteCluster id now del in
    Ret (set_InFlight state (Some ev)) in
  match InFlight state with
  | Some inFlight =>
      match MutableClusters (TaskEvent_Task inFlight) with
      | Ret cs => let* del := clustersUnion current cs in schedule del
      | Fail _ => Ret state
      | Panic w => Panic w
      end
  | None => schedule current
  end.

(** A pool that failed to scale up gets its size as the target size again;
    the pools, the counters left and whether there was such a counter. *)
Definition reset_target (np : NodePool) : NodePool :=
  match GetDynamicNodePool np with
  | Some d =>
      match Dyn_AutoscalerConfig d with
      | Some a => set_NodePool_Type np
                    (NodePool_DynamicNodePool (set_Dyn_Autoscaler d (Some (set_Autoscaler_TargetSize a (Dyn_Count d)))))
      | None => np
      end
  | None => np
  end.

Definition scale_up_step (acc : Clusters * Counters * bool) (entry : string * Z) : outcome (Clusters * Counters * bool) :=
  let '(current, counters, changed) := acc in
  let '(np, counter) := entry in
  if bool_decide (0 < counter)%Z then
    let* k := deref (K8S current) in
    Ret (mkClusters (Some (set_K8s_NodePools k (update_nodepool np reset_target (K8s_NodePools k)))) (LoadBalancers current),
         delete np counters, true)
  else Ret (current, counters, changed).

Definition scale_up_feedback (current : Clusters) (counters : Counters) : outcome (Clusters * Counters * bool) :=
  foldl (λ acc entry, let* a := acc in scale_up_step a entry) (Ret (current, counters, false)) (range "counters" counters).

Definition set_error (state : ClusterState) (description : string) : outcome ClusterState :=
  let* w := deref (State state) in
  Ret (set_State state (Some (set_Workflow_Status w ERROR description))).

(** The task that deals with unknown nodes overtakes the last one, unless it
    is the last one. *)
Definition overtakes (lastTask next : option TaskEvent) : option TaskEvent :=
  match next with
  | Some n => if areScheduledTasksEqual lastTask next then None else Some (set_TaskEvent_LowerPriority n lastTask)
  | None => None
  end.

(** What the caller of [handleClusterUnknownNodes] does with its answer:
    [otherwise] when there is nothing to overtake. *)
Definition with_unknown (unknown : outcome (option TaskEvent)) (lastTask : option TaskEvent) (state : ClusterState)
    (otherwise : outcome (ScheduleResult * ClusterState)) : outcome (ScheduleResult * ClusterState) :=
  match unknown with
  | Panic w => Panic w
  | Fail e => let* state := set_error state e in Ret (NotReady, state)
  | Ret next =>
      match overtakes lastTask next with
      | Some ev => Ret (Reschedule, set_InFlight state (Some ev))
      | None => otherwise
      end
  end.

(** No task and none in flight: the infrastructure is refreshed every now and
    then. *)
Definition tick (id : string) (state : ClusterState) (current : Clusters) : outcome (ScheduleResult * ClusterState) :=
  let* w := deref (State state) in
  let ticks := (Z.max (Workflow_TicksUntilRefresh w) 0 - 1)%Z in
  let state := set_State state (Some (mkWorkflow (Workflow_Status_ w) (Workflow_Description w) (Workflow_Previous w) ticks)) in
  if bool_decide (ticks ≤ 0)%Z then
    let* ev := ScheduleRefreshInfrastructure id now current in
    Ret (Reschedule, set_InFlight state (Some ev))
  else Ret (NotReady, state).

Definition unhealthy (ns : UnknownNodeStatus) : bool :=
  bool_decide (0 < size (NotJoinedKubernetesNodes ns) + size (UnknownKubernetesNodes ns) + size (UnknownLoadBalancersNodes ns)).

(** The choice once the health of the nodes is known.  [current] and
    [localDesired] are the states that are compared, [desired] is that of the
    manifest. *)
Definition choose_task (fuel : nat) (TimeForNodeDeletion : Z) (uuid : nat → string) (state : ClusterState) (hc : HealthCheckStatus)
    (diff : DiffResult) (ns : UnknownNodeStatus) (current localDesired desired : Clusters)
    : draws (ScheduleResult * ClusterState) := λ i,
  let lastTask := InFlight state in
  let unknown := handleClusterUnknownNodes TimeForNodeDeletion (uuid 1) current desired diff ns hc in
  let* again := shouldRescheduleInFlight lastTask in
  if again : bool then
    let* r := with_unknown unknown lastTask state
                (Ret (Reschedule, set_InFlight state ((λ ev, set_TaskEvent_Id ev (uuid 2)) <$> lastTask))) in
    Ret (r, i)
  else
    let* (next, i) := handleUpdate fuel (uuid 0) hc diff current localDesired i in
    let state := set_InFlight state next in
    let* r := match next, lastTask with
              | Some _, _ => with_unknown unknown lastTask state (Ret (Reschedule, state))
              | None, Some _ => Ret (NotReady, state)
              | None, None =>
                  if unhealthy ns then with_unknown unknown lastTask state (tick (uuid 2) state current)
                  else tick (uuid 2) state current
              end in
    Ret (r, i).

(** The credentials in the current state and in the task in flight. *)
Definition propagate_credentials (state : ClusterState) (current desired : Clusters) : outcome (ClusterState * bool) :=
  let* (state, u1) :=
    match InFlight state with
    | None => Ret (state, false)
    | Some ev =>
        let* inFlight := MutableClusters (TaskEvent_Task ev) in
        let '(inFlight, u) := updateCredentials inFlight desired in
        Ret (set_InFlight state (Some (set_TaskEvent_Task ev (set_task_state (TaskEvent_Task ev) inFlight))), u)
    end in
  let '(current, u2) := updateCredentials current desired in
  Ret (set_Current state (Some current), u2 || u1).

Definition reconcile_update `{Network} (fuel : nat) (TimeForNodeDeletion : Z) (uuid : nat → string) (name : string)
    (state : ClusterState) (current desired : Clusters) : draws (ScheduleResult * ClusterState) := λ i,
  let* _ := store_secrets name current in
  let* (r, changed) := match InFlight state with
                       | None => scale_up_feedback current (K8SNodePoolScaleUpFailed state)
                       | Some _ => Ret (current, K8SNodePoolScaleUpFailed state, false)
                       end in
  let '(current, counters) := r in
  let state := set_Counters (set_Current state (Some current)) counters in
  if changed : bool then Ret ((NotReady, state), i)
  else
    match propagate_credentials state current desired with
    | Panic w => Panic w
    | Fail e => let* state := set_error state (String.append "Failed to extract state from failed 'InFlight' state: " e) in
                Ret ((Noop, state), i)
    | Ret (state, true) => Ret ((NotReady, state), i)
    | Ret (state, false) =>
        let actual := default current (Current state) in
        let* (compared, localDesired) :=
          match InFlight state with
          | None => Ret (actual, desired)
          | Some ev => let* inFlight := MutableClusters (TaskEvent_Task ev) in Ret (inFlight, actual)
          end in
        let* (h, i) := HealthCheck compared i in
        let '(hc, compared) := h in
        let state := match InFlight state with None => set_Current state (Some compared) | Some _ => state end in
        let* diff := Diff compared localDesired in
        match CheckNodesStatus compared hc with
        | Panic w => Panic w
        | Fail e => let* state := set_error state (String.append "Can't schedule task, failed to determine reachability of nodes of the clusters: " e) in
                    Ret ((NotReady, state), i)
        | Ret ns => choose_task fuel TimeForNodeDeletion uuid state hc diff ns compared localDesired desired i
        end
    end.

(** A cluster that is worked on loses its error and its ticks start again. *)
Definition wait_for_pickup (ticks : Z) (state : ClusterState) : ClusterState :=
  set_State state (Some (mkWorkflow WAIT_FOR_PICKUP "" (default [] (Workflow_Previous <$> State state)) ticks)).

Definition reconcile_cluster `{Network} (fuel : nat) (TimeForNodeDeletion ticks : Z) (uuid : nat → string) (name : string)
    (state : ClusterState) (desired : option Clusters) : draws (ScheduleResult * ClusterState) := λ i,
  let isCurrentNil := is_nil (Current state) in
  let isDesiredNil := is_nil desired in
  let hasInFlightState := bool_decide (is_Some (InFlight state)) in
  let* (r, i) :=
    (if isCurrentNil && isDesiredNil && negb hasInFlightState then Ret ((NoReschedule, state), i)
     else if isCurrentNil && negb isDesiredNil then
       let* state := reconcile_create (uuid 0) state (default no_clusters desired) in Ret ((Reschedule, state), i)
     else if isDesiredNil then
       let* state := reconcile_destroy (uuid 0) state in Ret ((Reschedule, state), i)
     else reconcile_update fuel TimeForNodeDeletion uuid name state (default no_clusters (Current state)) (default no_clusters desired) i) in
  Ret (match r with
       | (Reschedule, state) => (Reschedule, wait_for_pickup ticks state)
       | (NoReschedule, state) => (NoReschedule, wait_for_pickup ticks state)
       | r => r
       end, i).

(** ** All clusters *)

Definition PopulateEntriesForNewClusters (current : gmap string ClusterState) (desired : gmap string Clusters)
    : gmap string ClusterState :=
  current ∪ ((λ _, mkClusterState (Some no_clusters) None None ∅) <$> desired).

Definition final_result (rs : list ScheduleResult) : ScheduleResult :=
  if contains rs Reschedule then Reschedule
  else if contains rs NotReady then NotReady
  else if bool_decide (Forall (λ r, r = NoReschedule) rs) then NoReschedule
  else if bool_decide (Forall (λ r, r = Noop) rs) then Noop
  else Reschedule.

Fixpoint reconcile_all (f : string → ClusterState → draws (ScheduleResult * ClusterState)) (l : list (string * ClusterState))
    : draws (list ScheduleResult * gmap string ClusterState) := λ i,
  match l with
  | [] => Ret (([], ∅), i)
  | (cluster, state) :: l =>
      let* (r, i) := f cluster state i in
      let* (rs, i) := reconcile_all f l i in
      Ret ((r.1 :: rs.1, <[cluster := r.2]> rs.2), i)
  end.

Definition reconciliate `{Network} (fuel : nat) (TimeForNodeDeletion ticks : Z) (uuid : string → nat → string)
    (pending : Config) (desiredStates : gmap string Clusters) : draws (ScheduleResult * Config) := λ i,
  let clusters := PopulateEntriesForNewClusters (Config_Clusters pending) desiredStates in
  let* (r, i) := reconcile_all (λ cluster state,
                   reconcile_cluster fuel TimeForNodeDeletion ticks (uuid cluster) (Config_Name pending) state (desiredStates !! cluster))
                   (range "reconciliate" clusters) i in
  Ret ((final_result r.1, mkConfig (Config_Version pending) (Config_Name pending) (Config_K8SCtx pending)
                            (Config_Manifest pending) r.2), i).

End reconcile.

(** ** Credentials converge *)

Local Arguments CredentialsEqual : simpl never.
Local Arguments CopyCredentials : simpl never.

Lemma updateNodePoolCredentials_name c d : NodePool_Name (updateNodePoolCredentials c d).1 = NodePool_Name c.
Proof.
  unfold updateNodePoolCredentials. destruct (NodePool_Type c), (NodePool_Type d); try done.
  destruct (CredentialsEqual _ _); [done|]. destruct (CopyCredentials _ _) as [[p|] []]; done.
Qed.

Lemma updateNodePoolCredentials_idemp c d :
  updateNodePoolCredentials (updateNodePoolCredentials c d).1 d = ((updateNodePoolCredentials c d).1, false).
Proof.
  unfold updateNodePoolCredentials at 2 3.
  destruct (NodePool_Type c) as [cd|cs|] eqn:Ec, (NodePool_Type d) as [dd|ds|] eqn:Ed; simpl;
    try (unfold updateNodePoolCredentials; rewrite Ec, ?Ed; done).
  - destruct (CredentialsEqual _ _) eqn:Eq; simpl; [unfold updateNodePoolCredentials; by rewrite Ec, Ed, Eq|].
    destruct (CopyCredentials _ _) as [[p|] []] eqn:Ep; simpl;
      unfold updateNodePoolCredentials; simpl; rewrite ?Ec, Ed, ?Eq, ?Ep; try done.
    simpl. by rewrite (CopyCredentials_equal _ _ _ Ep).
  - unfold updateNodePoolCredentials. simpl. rewrite Ed.
    set (keys := map_imap _ (Static_NodeKeys cs)).
    assert (E : map_imap (λ ep key, Some (default key (Static_NodeKeys ds !! ep))) keys = keys).
    { apply map_eq. intros ep. unfold keys. rewrite !map_lookup_imap.
      destruct (Static_NodeKeys cs !! ep) as [k|]; simpl; [|done].
      by destruct (Static_NodeKeys ds !! ep). }
    simpl. rewrite E, bool_decide_eq_true_2 by done. done.
Qed.

(** A pointwise update that is idempotent on every element is idempotent. *)
Lemma fmap_update_idemp {A} (f : A → A * bool) (l : list A) :
  (∀ x, f (f x).1 = ((f x).1, false)) →
  (f <$> (f <$> l).*1).*1 = (f <$> l).*1 ∧ existsb snd (f <$> (f <$> l).*1) = false.
Proof.
  intros Hf. induction l as [|x l [IH1 IH2]]; [done|].
  rewrite !fmap_cons, Hf. split; [by f_equal|exact IH2].
Qed.

Lemma update_pools_credentials_idemp current desired :
  update_pools_credentials (update_pools_credentials current desired).1 desired
  = ((update_pools_credentials current desired).1, false).
Proof.
  unfold update_pools_credentials. simpl.
  match goal with |- context [?f <$> current] => destruct (fmap_update_idemp f current) as [-> ->] end; [|done].
  intros np. destruct (FindByName (NodePool_Name np) desired) as [d|] eqn:E; simpl; [|by rewrite E].
  rewrite updateNodePoolCredentials_name, E. apply updateNodePoolCredentials_idemp.
Qed.

Lemma update_dns_credentials_idemp c d :
  update_dns_credentials (update_dns_credentials c d).1 d = ((update_dns_credentials c d).1, false).
Proof.
  destruct c as [c|], d as [d|]; simpl; try done. destruct (CredentialsEqual _ _) eqn:Eq; simpl; [by rewrite Eq|].
  destruct (CopyCredentials _ _) as [[p|] []] eqn:Ep; simpl; rewrite ?Eq, ?Ep; try done.
  by rewrite (CopyCredentials_equal _ _ _ Ep).
Qed.

Lemma update_lb_credentials_eq desired lb dlb :
  IndexLoadbalancerById (LB_Id lb) desired ≫= (λ di, desired !! di) = Some dlb →
  update_lb_credentials desired lb
  = (set_LB_Dns (set_LB_NodePools lb (update_pools_credentials (LB_NodePools lb) (LB_NodePools dlb)).1)
       (update_dns_credentials (LB_Dns lb) (LB_Dns dlb)).1,
     (update_pools_credentials (LB_NodePools lb) (LB_NodePools dlb)).2 ||
     (update_dns_credentials (LB_Dns lb) (LB_Dns dlb)).2).
Proof.
  intros E. unfold update_lb_credentials. rewrite E.
  by destruct (update_pools_credentials _ _), (update_dns_credentials _ _).
Qed.

Lemma update_lb_credentials_idemp desired lb :
  update_lb_credentials desired (update_lb_credentials desired lb).1 = ((update_lb_credentials desired lb).1, false).
Proof.
  destruct (IndexLoadbalancerById (LB_Id lb) desired ≫= (λ di, desired !! di)) as [dlb|] eqn:E.
  - rewrite (update_lb_credentials_eq _ _ _ E). cbn [fst]. rewrite (update_lb_credentials_eq desired _ dlb) by exact E.
    cbn [LB_NodePools set_LB_Dns set_LB_NodePools LB_ClusterInfo ClusterInfo_NodePools set_NodePools LB_Dns].
    by rewrite update_pools_credentials_idemp, update_dns_credentials_idemp.
  - assert (Eq : update_lb_credentials desired lb = (lb, false)) by (unfold update_lb_credentials; by rewrite E).
    by rewrite !Eq.
Qed.

(** A pool uses the credentials of the desired one: those of the provider, if
    it is of the same kind, or the keys of the nodes. *)
Definition same_credentials (np dnp : NodePool) : Prop :=
  match NodePool_Type np, NodePool_Type dnp with
  | NodePool_DynamicNodePool c, NodePool_DynamicNodePool d =>
      same_provider_kind (Provider_Type (Dyn_Provider c)) (Provider_Type (Dyn_Provider d)) = true →
      CredentialsEqual (Some (Dyn_Provider c)) (Some (Dyn_Provider d)) = true
  | NodePool_StaticNodePool c, NodePool_StaticNodePool d =>
      ∀ ep k k', Static_NodeKeys c !! ep = Some k → Static_NodeKeys d !! ep = Some k' → k = k'
  | _, _ => True
  end.

Lemma not_updated_same c d : (updateNodePoolCredentials c d).2 = false → same_credentials c d.
Proof.
  unfold updateNodePoolCredentials, same_credentials.
  destruct (NodePool_Type c) as [cd|cs|], (NodePool_Type d) as [dd|ds|]; try done.
  - destruct (CredentialsEqual _ _) eqn:Eq; [done|]. pose proof (CopyCredentials_updated (Dyn_Provider cd) (Dyn_Provider dd)) as Hu.
    destruct (CopyCredentials _ _) as [[p|] b] eqn:Ep; simpl in Hu; subst b.
    + by destruct (same_provider_kind _ _).
    + intros _ Hk. by destruct (Dyn_Provider cd), (Dyn_Provider dd), Provider_Type, Provider_Type0.
  - simpl. rewrite negb_false_iff, bool_decide_eq_true. intros Hkeys ep k k' Hc Hd.
    rewrite <- Hkeys, map_lookup_imap in Hc.
    destruct (Static_NodeKeys cs !! ep); simpl in Hc; [|done]. rewrite Hd in Hc. simpl in Hc. congruence.
Qed.

Lemma pools_use_credentials current desired np dnp :
  np ∈ (update_pools_credentials current desired).1 → FindByName (NodePool_Name np) desired = Some dnp →
  same_credentials np dnp.
Proof.
  pose proof (f_equal snd (update_pools_credentials_idemp current desired)) as Hi.
  generalize dependent (update_pools_credentials current desired).1. intros l Hi.
  unfold update_pools_credentials in Hi. cbn [snd] in Hi. intros Hnp Hd. apply not_updated_same.
  match type of Hi with existsb _ (?f <$> ?l) = _ => assert (Hf : (f np).2 = false) end.
  { apply not_true_iff_false. intros Ht. rewrite <- not_true_iff_false in Hi. apply Hi, existsb_exists.
    eexists. split; [apply list_elem_of_In, list_elem_of_fmap; by exists np|exact Ht]. }
  cbv beta in Hf. by rewrite Hd in Hf.
Qed.

(** Propagating credentials is done after one round: every pool of the
    kubernetes cluster then uses the credentials of the desired pool of its
    name, and running [updateCredentials] again reports no update and changes
    nothing, so credentials keep the reconciliation from scheduling for one
    iteration only. *)
Lemma credentials_converge (current desired : Clusters) :
  let current' := (updateCredentials current desired).1 in
  updateCredentials current' desired = (current', false) ∧
  ∀ k' dk np dnp, K8S current' = Some k' → K8S desired = Some dk → np ∈ K8s_NodePools k' →
    FindByName (NodePool_Name np) (K8s_NodePools dk) = Some dnp → same_credentials np dnp.
Proof.
  intros current'. unfold current', updateCredentials.
  destruct (fmap_update_idemp (update_lb_credentials (LoadBalancers desired)) (LoadBalancers current)) as [E1 E2];
    [intros lb; apply update_lb_credentials_idemp|].
  destruct (K8S current) as [k|]; cbn [fst K8S LoadBalancers]; [|by rewrite E1, E2].
  pose proof (update_pools_credentials_idemp (K8s_NodePools k) (default [] (K8s_NodePools <$> K8S desired))) as Hp.
  pose proof (pools_use_credentials (K8s_NodePools k) (default [] (K8s_NodePools <$> K8S desired))) as Hc.
  destruct (update_pools_credentials (K8s_NodePools k) _) as [nps u]. cbn [fst K8S LoadBalancers] in *.
  change (K8s_NodePools (set_K8s_NodePools k nps)) with nps. rewrite Hp, E1, E2. split; [done|].
  intros k' dk np dnp [= <-] Hdk Hnp Hf. apply Hc; [exact Hnp|]. by rewrite Hdk.
Qed.

(** ** Scheduled updates *)

Section scheduled.
Context `{Entropy, RangeOrder, Deployment} (now : Z).

(** Whatever [handleUpdate] schedules is a fresh update of the current
    state: it has the given identifier, its first stage comes first, no task
    waits behind it, every stage of its pipeline has work to do, and it
    carries the current state itself, except for static nodes, which are
    merged at once into clusters of the same identity. *)
Lemma updates_start_from_current (fuel : nat) (id : string) (hc : HealthCheckStatus) (diff : DiffResult)
    (current desired : Clusters) (i j : nat) (ev : TaskEvent) :
  handleUpdate now fuel id hc diff current desired i = Ret (Some ev, j) → fresh_update id now current ev.
Proof.
  unfold handleUpdate. intros E. bind_inv E.
  destruct x as [e|]; [injection E as -> ->; by apply pre_fresh in Hx|]. bind_inv E.
  destruct x as [e|]; [injection E as -> ->; by apply modifications_fresh in Hx0|]. bind_inv E.
  destruct x as [e|]; [injection E as -> ->; by apply post_fresh in Hx1|]. bind_inv E.
  destruct x as [e|]; [injection E as -> ->; by apply k8s_deletions_fresh in Hx2|]. bind_inv E.
  destruct x as [[e|] i1]; [injection E as -> ->; by apply lb_low_fresh in Hx3|]. bind_inv E.
  destruct x as [[e|] i2]; [injection E as -> ->; by apply low_priority_fresh in Hx4|].
  destruct (Hc_VpnDrift hc); [|done]. injection E as <- <-.
  unfold ScheduleRefreshVPN. fresh_tac. by destruct (Proxy_CurrentUsed _).
Qed.

(** ** The record of what exists *)

(** Which clusters, pools and nodes there are. *)
Definition pool_shape (np : NodePool) : string * bool * list Node :=
  (NodePool_Name np, NodePool_IsControl np, NodePool_Nodes np).

Definition shape (c : Clusters) : option (string * list (string * bool * list Node)) * list (string * list Role * list (string * bool * list Node)) :=
  ((λ k, (K8s_Id k, pool_shape <$> K8s_NodePools k)) <$> K8S c,
   (λ lb, (LB_Id lb, LB_Roles lb, pool_shape <$> LB_NodePools lb)) <$> LoadBalancers c).

Lemma update_first_fmap {A B} (g : A → B) (f : A → bool) (h : A → A) (l : list A) :
  (∀ x, g (h x) = g x) → g <$> update_first f h l = g <$> l.
Proof.
  intros Hg. induction l as [|x l IH]; [done|]. simpl. destruct (f x); rewrite !fmap_cons; f_equal; [apply Hg|exact IH].
Qed.

(** Pools of the same shape in their places. *)
Lemma shape_k8s k nps nps' lbs lbs' :
  pool_shape <$> nps' = pool_shape <$> nps → K8s_NodePools k = nps →
  (λ lb, (LB_Id lb, LB_Roles lb, pool_shape <$> LB_NodePools lb)) <$> lbs'
  = (λ lb, (LB_Id lb, LB_Roles lb, pool_shape <$> LB_NodePools lb)) <$> lbs →
  shape (mkClusters (Some (set_K8s_NodePools k nps')) lbs') = shape (mkClusters (Some k) lbs).
Proof.
  intros E1 <- E2. unfold shape. cbn [K8S LoadBalancers option_fmap option_map fmap].
  change (K8s_NodePools (set_K8s_NodePools k nps')) with nps'. by rewrite E1, E2.
Qed.

Lemma scale_up_feedback_shape current counters current' counters' b :
  scale_up_feedback current counters = Ret (current', counters', b) → shape current' = shape current.
Proof.
  apply (foldl_outcome_ind (λ a, shape a.1.1 = shape current)); [done|].
  intros [[c n] b0] [np counter] [[c' n'] b'] _ Hs. simpl in *. case_bool_decide; [|by intros [= <- <- <-]].
  destruct c as [[k|] lbs]; simpl; [|done]. intros [= <- <- <-]. rewrite <- Hs.
  eapply shape_k8s; [|done|done]. apply update_first_fmap. intros p. unfold reset_target.
  destruct (GetDynamicNodePool p); [|done]. by destruct (Dyn_AutoscalerConfig d).
Qed.

Lemma updateNodePoolCredentials_shape c d : pool_shape (updateNodePoolCredentials c d).1 = pool_shape c.
Proof.
  unfold updateNodePoolCredentials. destruct (NodePool_Type c), (NodePool_Type d); try done.
  destruct (CredentialsEqual _ _); [done|]. destruct (CopyCredentials _ _) as [[p|] []]; done.
Qed.

Lemma update_pools_credentials_shape current desired :
  pool_shape <$> (update_pools_credentials current desired).1 = pool_shape <$> current.
Proof.
  unfold update_pools_credentials. cbn [fst]. rewrite <- !list_fmap_compose. apply list_fmap_ext. intros i np _. simpl.
  destruct (FindByName _ _); [apply updateNodePoolCredentials_shape|done].
Qed.

Lemma updateCredentials_shape current desired : shape (updateCredentials current desired).1 = shape current.
Proof.
  assert (Hl : ∀ lbs, (λ lb, (LB_Id lb, LB_Roles lb, pool_shape <$> LB_NodePools lb)) <$>
      (update_lb_credentials (LoadBalancers desired) <$> lbs).*1
    = (λ lb, (LB_Id lb, LB_Roles lb, pool_shape <$> LB_NodePools lb)) <$> lbs).
  { intros lbs. rewrite <- !list_fmap_compose. apply list_fmap_ext. intros i lb _. simpl.
    destruct (IndexLoadbalancerById (LB_Id lb) (LoadBalancers desired) ≫= (λ di, LoadBalancers desired !! di)) as [dlb|] eqn:E.
    - rewrite (update_lb_credentials_eq _ _ _ E).
      pose proof (update_pools_credentials_shape (LB_NodePools lb) (LB_NodePools dlb)) as Hp.
      destruct (update_pools_credentials _ _) as [nps u]. cbn [fst] in *. rewrite <- Hp. done.
    - unfold update_lb_credentials. by rewrite E. }
  unfold updateCredentials. destruct current as [[k|] lbs]; cbn [K8S LoadBalancers].
  - pose proof (update_pools_credentials_shape (K8s_NodePools k) (default [] (K8s_NodePools <$> K8S desired))) as Hp.
    destruct (update_pools_credentials _ _) as [nps u]. cbn [fst] in *. by eapply shape_k8s.
  - unfold shape. simpl. by rewrite Hl.
Qed.

Lemma put_pools_shape lbs nps :
  pool_shape <$> nps = pool_shape <$> (lbs ≫= LB_NodePools) →
  (λ lb, (LB_Id lb, LB_Roles lb, pool_shape <$> LB_NodePools lb)) <$> put_pools lbs nps
  = (λ lb, (LB_Id lb, LB_Roles lb, pool_shape <$> LB_NodePools lb)) <$> lbs.
Proof.
  revert nps. induction lbs as [|lb lbs IH]; intros nps; simpl; [done|]. rewrite fmap_app. intros E.
  f_equal.
  - f_equal. change (LB_NodePools (set_LB_NodePools lb (take (length (LB_NodePools lb)) nps)))
      with (take (length (LB_NodePools lb)) nps).
    by rewrite fmap_take, E, take_app_length'; rewrite ?length_fmap.
  - apply IH. by rewrite fmap_drop, E, drop_app_length'; rewrite ?length_fmap.
Qed.

Lemma RandomNodePublicEndpoint_shape nps i u e k p nps' j :
  RandomNodePublicEndpoint nps i = Ret ((u, e, k, p, nps'), j) → pool_shape <$> nps' = pool_shape <$> nps.
Proof.
  unfold RandomNodePublicEndpoint. destruct nps as [|np0 l]; [by intros [= <- <- <- <- <- <-]|].
  generalize (np0 :: l). intros nps. intros E. bind_inv E. apply index_Ret in Hx. destruct (NodePool_Nodes x) as [|n ns]; [by injection E as _ _ _ _ <- _|].
  bind_inv E. destruct (NodeSSHPort x x0) as [np' port] eqn:Ep.
  assert (Hs : pool_shape np' = pool_shape x).
  { unfold NodeSSHPort, SSHPort in Ep. destruct (bool_decide _); [by injection Ep as <- <-|].
    by destruct (bool_decide _); injection Ep as <- <-. }
  assert (Hi : pool_shape <$> <[Z.to_nat (Intn i (Z.of_nat (length nps))) := np']> nps = pool_shape <$> nps).
  { rewrite list_fmap_insert, Hs. apply list_insert_id. by rewrite list_lookup_fmap, Hx. }
  by destruct (NodePool_Type x); injection E as _ _ _ _ <- _.
Qed.

Lemma HealthCheck_shape `{Network} state i hc state' j :
  HealthCheck state i = Ret ((hc, state'), j) → shape state' = shape state.
Proof.
  unfold HealthCheck. destruct state as [[k|] lbs]; simpl; [|done]. intros E. bind_inv E. destruct x as [node i1].
  bind_inv E. destruct x as [[ok st] i2]. injection E as _ <- _.
  unfold healthCheckVPN in Hx0. bind_inv Hx0. destruct x as [[[[[u e] key] p] nps'] i3]. injection Hx0 as _ <- _.
  apply RandomNodePublicEndpoint_shape in Hx1. rewrite fmap_app in Hx1.
  eapply shape_k8s; [|done|].
  - by rewrite fmap_take, Hx1, take_app_length'; rewrite ?length_fmap.
  - apply put_pools_shape. by rewrite fmap_drop, Hx1, drop_app_length'; rewrite ?length_fmap.
Qed.

(** ** One iteration for one cluster *)

(** The result of the branches of an update. *)
Definition chosen (state : ClusterState) (r : ScheduleResult * ClusterState) : Prop :=
  Current r.2 = Current state ∧
  match r.1 with
  | Reschedule => is_Some (InFlight r.2)
  | NoReschedule => False
  | Noop | NotReady => True
  end.

Lemma set_error_Ret state d state' : set_error state d = Ret state' → Current state' = Current state.
Proof. unfold set_error. intros E. bind_inv E. by subst. Qed.

Lemma with_unknown_chosen unknown lastTask state otherwise r :
  (otherwise = Ret r → chosen state r) → with_unknown unknown lastTask state otherwise = Ret r → chosen state r.
Proof.
  intros Ho. unfold with_unknown. destruct unknown as [next|e|w]; [|intros E; bind_inv E; subst|done].
  - destruct (overtakes lastTask next); [|exact Ho]. intros [= <-]. split; [done|by eexists].
  - split; [by apply set_error_Ret in Hx|done].
Qed.

Lemma tick_chosen id state current r : tick now id state current = Ret r → chosen state r.
Proof.
  unfold tick. intros E. bind_inv E. destruct (bool_decide _); [bind_inv E|injection E as <-]; subst; (split; [done|]); [by eexists|done].
Qed.

Lemma again_Some lastTask : shouldRescheduleInFlight lastTask = Ret true → is_Some lastTask.
Proof. by destruct lastTask. Qed.

Lemma choose_task_chosen fuel T uuid state hc diff ns current localDesired desired i r j :
  choose_task now fuel T uuid state hc diff ns current localDesired desired i = Ret (r, j) → chosen state r.
Proof.
  unfold choose_task. intros E. bind_inv E. destruct x.
  { bind_inv E. subst. eapply with_unknown_chosen; [|exact Hx0]. intros [= <-]. split; [done|]. simpl.
    apply again_Some in Hx as [ev ->]. done. }
  bind_inv E. destruct x as [next i']. bind_inv E. subst. destruct next as [ev|].
  - eapply (with_unknown_chosen _ _ (set_InFlight state (Some ev))); [|exact Hx1]. intros [= <-]. split; [done|by eexists].
  - destruct (InFlight state); [injection Hx1 as <-; by split|].
    assert (Ht : ∀ r, tick now (uuid 2) (set_InFlight state None) current = Ret r → chosen state r)
      by (intros r'; apply tick_chosen).
    destruct (unhealthy ns); [|by apply Ht].
    by apply (with_unknown_chosen _ _ (set_InFlight state None)) in Hx1; [|intros; apply Ht].
Qed.

Lemma propagate_credentials_shape state current desired state' b :
  propagate_credentials state current desired = Ret (state', b) → shape <$> Current state' = Some (shape current).
Proof.
  unfold propagate_credentials. intros E. bind_inv E. destruct x as [st u1].
  pose proof (updateCredentials_shape current desired) as Hs.
  destruct (updateCredentials current desired) as [c u2]. injection E as <- <-. simpl in *. by rewrite Hs.
Qed.

Lemma reconcile_update_result `{Network} fuel T uuid name state current desired i r state' j :
  reconcile_update now fuel T uuid name state current desired i = Ret ((r, state'), j) →
  shape <$> Current state' = Some (shape current) ∧ r ≠ NoReschedule ∧ (r = Reschedule → is_Some (InFlight state')).
Proof.
  unfold reconcile_update. destruct (store_secrets name current) as [cmds|?|?]; simpl; [|done..]. intros E. bind_inv E. destruct x as [[c n] changed].
  assert (Hc : shape c = shape current).
  { destruct (InFlight state); [by injection Hx as -> _ _|by apply scale_up_feedback_shape in Hx]. }
  rewrite <- Hc. destruct changed; [by injection E as <- <- _|].
  destruct (propagate_credentials _ _ _) as [[st []]|e|w] eqn:Hp; [| | |done].
  - apply propagate_credentials_shape in Hp. by injection E as <- <- _.
  - apply propagate_credentials_shape in Hp. bind_inv E. destruct x as [compared localDesired].
    bind_inv E. destruct x as [[hc compared'] i1]. apply HealthCheck_shape in Hx1.
    match type of E with context [choose_task _ _ _ _ ?s _ _ _ _ _ _ _] => set (st' := s) in * end.
    assert (Hst : shape <$> Current st' = Some (shape c)).
    { unfold st'. destruct (InFlight st); [done|]. injection Hx0 as <- _. simpl. rewrite Hx1.
      by destruct (Current st). }
    bind_inv E. destruct (CheckNodesStatus compared' hc) as [ns|e|w]; [| |done].
    + apply choose_task_chosen in E as [E1 E2]. simpl in *. rewrite E1. split; [done|]. by destruct r.
    + bind_inv E. simplify_eq. apply set_error_Ret in Hx3. by rewrite Hx3.
  - bind_inv E. simplify_eq. apply set_error_Ret in Hx0. by rewrite Hx0.
Qed.

Lemma create_result id state desired state' :
  reconcile_create now id state desired = Ret state' → Current state' = Current state ∧ is_Some (InFlight state').
Proof.
  unfold reconcile_create. destruct (InFlight state) as [ev|] eqn:Hf.
  - destruct (MutableClusters _); [|intros [= <-]; by rewrite Hf|done].
    intros E. bind_inv E. by subst.
  - intros E. bind_inv E. bind_inv E. by subst.
Qed.

Lemma destroy_result id state state' :
  reconcile_destroy now id state = Ret state' → Current state' = Current state ∧ is_Some (InFlight state').
Proof.
  unfold reconcile_destroy. destruct (InFlight state) as [ev|] eqn:Hf.
  - destruct (MutableClusters _); [|intros [= <-]; by rewrite Hf|done].
    intros E. bind_inv E. bind_inv E. bind_inv E. by subst.
  - intros E. bind_inv E. bind_inv E. by subst.
Qed.

(** What an iteration returns, branch by branch. *)
Definition iteration (ticks : Z) (state state' : ClusterState) (desired : option Clusters) (r : ScheduleResult) : Prop :=
  shape <$> Current state' = shape <$> Current state ∧
  match r with
  | Reschedule => is_Some (InFlight state') ∧ Workflow_Status_ <$> State state' = Some WAIT_FOR_PICKUP
  | NoReschedule => is_nil (Current state) = true ∧ is_nil desired = true ∧ InFlight state = None ∧
                    state' = wait_for_pickup ticks state
  | Noop | NotReady => is_nil (Current state) = false ∧ is_nil desired = false
  end.

Lemma reconcile_cluster_iteration `{Network} fuel T ticks uuid name state state' desired r i j :
  reconcile_cluster now fuel T ticks uuid name state desired i = Ret ((r, state'), j) → iteration ticks state state' desired r.
Proof.
  unfold iteration.
  unfold reconcile_cluster. intros E. bind_inv E. destruct x as [[r0 st] i0].
  destruct (is_nil (Current state)) eqn:Hc, (is_nil desired) eqn:Hd; simpl in Hx.
  - case_bool_decide as Hf; simpl in Hx.
    + bind_inv Hx. simplify_eq. by apply destroy_result in Hx0 as [<- ?].
    + simplify_eq. split; [done|]. split_and!; [done..| |done]. by apply eq_None_not_Some.
  - bind_inv Hx. simplify_eq. by apply create_result in Hx0 as [<- ?].
  - bind_inv Hx. simplify_eq. by apply destroy_result in Hx0 as [<- ?].
  - apply reconcile_update_result in Hx as (Hs & Hn & Hi).
    destruct (Current state) as [c|]; [|done]. simpl in Hs.
    destruct r0; simplify_eq; simpl in *; rewrite Hs; (split; [done|]); try done. by split; [apply Hi|].
Qed.

(** A built cluster whose load balancer has a static pool cannot be reconciled:
    storing its metadata panics, whatever the manifest asks for.  The panic is
    not recovered, so it stops the manager at each pass over the
    configuration. *)
Lemma static_loadbalancer_panics `{Network} fuel T ticks uuid name state desired i c k :
  Namespace ≠ "" → Current state = Some c → K8S c = Some k → existsb static_lb (LoadBalancers c) = true →
  is_nil desired = false →
  reconcile_cluster now fuel T ticks uuid name state desired i = Panic "assignment to entry in nil map".
Proof.
  intros Hns Hc Hk Hs Hd. unfold reconcile_cluster. rewrite Hc, Hd; simpl. rewrite Hk; simpl.
  unfold reconcile_update, store_secrets. unfold StoreKubeconfig. rewrite bool_decide_eq_false_2 by done. rewrite Hk; simpl.
  by rewrite (StoreClusterMetadata_spec name c k Hns Hk), Hs.
Qed.

(** C16: One iteration of the reconciliation of a cluster leaves the record of
    which clusters, pools and nodes exist as it is; when it asks to be
    rescheduled there is a task in flight that waits to be picked up; and it
    stops rescheduling only when there is neither a current nor a desired
    state nor a task. *)
Theorem reconciled_cluster `{Network} (fuel : nat) (T ticks : Z) (uuid : nat → string) (name : string) (state state' : ClusterState)
    (desired : option Clusters) (r : ScheduleResult) (i j : nat) :
  reconcile_cluster now fuel T ticks uuid name state desired i = Ret ((r, state'), j) →
  shape <$> Current state' = shape <$> Current state ∧
  match r with
  | Reschedule => is_Some (InFlight state') ∧ Workflow_Status_ <$> State state' = Some WAIT_FOR_PICKUP
  | NoReschedule => is_nil (Current state) = true ∧ is_nil desired = true ∧ InFlight state = None
  | Noop | NotReady => is_nil (Current state) = false ∧ is_nil desired = false
  end.
Proof. intros (Hs & Hr)%reconcile_cluster_iteration. split; [exact Hs|]. destruct r; tauto. Qed.

End scheduled.

(** *** Instances *)

Definition fewer_workers : Clusters := mkClusters (Some (Samples.k8s_with [Samples.ctrl; Samples.workers_shrunk])) [Samples.lb].

(** Claudie deployed in its own namespace. *)
#[local] Instance claudie : Deployment := {| Namespace := "claudie" |}.

Lemma updates_start_from_current_witness :
  ∃ hc diff ev j, handleUpdate 0 0 "id" hc diff Samples.clusters fewer_workers 0 = Ret (Some ev, j) ∧
    fresh_update "id" 0 Samples.clusters ev.
Proof.
  destruct (Diff Samples.clusters fewer_workers) as [diff|?|?] eqn:Hd; [|vm_compute in Hd; discriminate Hd..].
  set (hc := mkHealthCheckStatus false ∅ false false).
  assert (Hu : match handleUpdate 0 0 "id" hc diff Samples.clusters fewer_workers 0 with
               | Ret (Some _, _) => true | _ => false end = true).
  { vm_compute in Hd. injection Hd as <-. vm_compute. reflexivity. }
  destruct (handleUpdate 0 0 "id" hc diff Samples.clusters fewer_workers 0) as [[[ev|] j]|?|?] eqn:E; [|discriminate Hu..].
  exists hc, diff, ev, j. split; [exact E|]. exact (updates_start_from_current 0 0 "id" hc diff _ _ _ _ _ E).
Defined.

Definition built : ClusterState :=
  mkClusterState (Some Samples.clusters) (Some (mkWorkflow DONE "" [] 5)) None ∅.

Lemma reconciled_cluster_witness :
  ∃ state' j, reconcile_cluster 0 0 600 20 (λ _, "id") "m" built (Some fewer_workers) 0 = Ret ((Reschedule, state'), j) ∧
    shape <$> Current state' = Some (shape Samples.clusters) ∧ is_Some (InFlight state').
Proof.
  assert (Hu : match reconcile_cluster 0 0 600 20 (λ _, "id") "m" built (Some fewer_workers) 0 with
               | Ret ((Reschedule, _), _) => true | _ => false end = true) by (vm_compute; reflexivity).
  destruct (reconcile_cluster 0 0 600 20 (λ _, "id") "m" built (Some fewer_workers) 0) as [[[[] state'] j]|?|?] eqn:E;
    [|discriminate Hu..].
  exists state', j. split; [reflexivity|].
  destruct (reconciled_cluster 0 0 600 20 (λ _, "id") "m" built state' (Some fewer_workers) Reschedule 0 j E) as (Hs & Hi & _).
  split; [exact Hs|exact Hi].
Defined.

(** A cluster with a load balancer on a static node, which manifests may have. *)
Definition edge_cluster : Clusters :=
  mkClusters (Some Samples.k8s)
    [Samples.lb_with "lb" [Samples.lb_static [Samples.node "edge-01" "3.3.3.1" worker] {["3.3.3.1" := "key"]}]
       [Samples.role "api" 6443 ApiServer] true].

Example edge_loadbalancer_panics :
  reconcile_cluster 0 0 600 20 (λ _, "id") "m" (mkClusterState (Some edge_cluster) (Some (mkWorkflow DONE "" [] 5)) None ∅)
    (Some edge_cluster) 0 = Panic "assignment to entry in nil map".
Proof. by eapply static_loadbalancer_panics. Qed.

End Reconcile.
