(* ===== verification/Stable.v ===== *)
(** * Settled clusters

    A cluster whose current state is its desired state, with nothing marked
    for deletion and an API endpoint where it belongs, and what the
    reconciliation (service/diff.go, service/reconciliation.go) makes of it. *)

From stdpp Require Import base gmap strings list.
From S2P Require Import Prelude Spec SpecUtils Samples NodePools Diff GenerateState Cidr Schedule Health ScheduleKubernetes Endpoint ScheduleLoadBalancers Unreachable Union Reconcile.
Import NodePools Diff GenerateState Schedule Health ScheduleKubernetes Endpoint ScheduleLoadBalancers Reconcile.

Module Stable.

Definition settled_pools (nps : list NodePool) : Prop :=
  NoDup (NodePool_Name <$> nps) ∧ pools_typed nps ∧
  Forall (λ np, Forall (λ n, Node_Status n ≠ MarkedForDeletion) (NodePool_Nodes np)) nps.

Definition settled_lb (lb : LBcluster) : Prop := settled_pools (LB_NodePools lb) ∧ NoDup (Role_Name <$> LB_Roles lb).

(** The load balancer that is the API endpoint may be it, and without one
    there is none that could be. *)
Definition settled_endpoint (lbs : list LBcluster) : Prop :=
  match FindAssignedLbApiEndpoint lbs with
  | Some lb => HasApiRole (Some lb) = true ∧ LB_Dns lb ≠ None
  | None => Forall (λ lb, ¬ (HasApiRole (Some lb) = true ∧ LB_Dns lb ≠ None)) lbs
  end.

Definition settled (c : Clusters) : Prop :=
  match K8S c with
  | None => False
  | Some k => settled_pools (K8s_NodePools k)
  end ∧ NoDup (LB_Id <$> LoadBalancers c) ∧ Forall settled_lb (LoadBalancers c) ∧ settled_endpoint (LoadBalancers c).

#[export] Instance settled_pools_dec nps : Decision (settled_pools nps).
Proof. unfold settled_pools, pools_typed. apply _. Defined.

#[export] Instance settled_dec c : Decision (settled c).
Proof.
  unfold settled, settled_endpoint. repeat apply and_dec.
  - destruct (K8S c); apply _.
  - apply _.
  - apply Forall_dec. intros lb. unfold settled_lb. apply _.
  - destruct (FindAssignedLbApiEndpoint _); apply _.
Defined.

(** ** Nothing differs *)

Lemma pending_deletions_self b nps : settled_pools nps → pending_deletions b (matching_pools nps nps) = ∅.
Proof.
  intros (Hnd & _ & Hm). apply foldl_id. intros [c d] Hcd.
  assert (Hc : c ∈ nps).
  { unfold matching_pools in Hcd. apply list_elem_of_bind in Hcd as (c' & Hd & Hc').
    by apply list_elem_of_fmap in Hd as (d' & [= <- <-] & _). }
  assert (E : pending_nodes c d = []); [|by rewrite E; destruct (bool_decide _)].
  apply elem_of_nil_inv. intros n Hn. unfold pending_nodes in Hn.
  apply list_elem_of_bind in Hn as (cn & Hn & Hcn). apply list_elem_of_fmap in Hn as (dn & _ & Hdn).
  apply list_elem_of_filter in Hdn as [(_ & _ & Hmark) _].
  pose proof (proj1 (Forall_forall _ _) Hm _ Hc) as Hm1. exact (proj1 (Forall_forall _ _) Hm1 _ Hcn Hmark).
Qed.

(** *** Roles *)

Lemma missing_roles_self rs : missing_roles rs rs = [].
Proof.
  unfold missing_roles. rewrite (proj2 (filter_nil_iff _ _)); [done|]. intros r Hr Hn.
  apply not_true_iff_false in Hn. apply Hn, existsb_exists. exists r. split; [by apply list_elem_of_In|].
  unfold role_named. by apply bool_decide_eq_true.
Qed.

Lemma common_roles_self rs o n : NoDup (Role_Name <$> rs) → (o, n) ∈ common_roles rs rs → o = n.
Proof.
  intros Hnd Hin. unfold common_roles in Hin. apply list_elem_of_omap in Hin as (r & Hr & E).
  apply fmap_Some in E as (r' & Hf & [= -> ->]). apply find_first_Some in Hf as [Hr' Hn].
  apply bool_decide_eq_true in Hn. apply list_elem_of_lookup in Hr as [i Hi], Hr' as [j Hj].
  assert (i = j) as ->; [|congruence]. eapply (NoDup_lookup (Role_Name <$> rs)); [done|by rewrite list_lookup_fmap, Hi|].
  by rewrite list_lookup_fmap, Hj; simpl; rewrite Hn.
Qed.

Lemma roles_diff_self rs : NoDup (Role_Name <$> rs) → roles_diff rs rs = mkModifiedRoles [] [] ∅ ∅ [] [].
Proof.
  intros Hnd. unfold roles_diff. rewrite missing_roles_self.
  assert (Hf : ∀ (P : Role * Role → Prop) `{∀ p, Decision (P p)}, (∀ r, ¬ P (r, r)) → filter P (common_roles rs rs) = []).
  { intros P ? HP. apply filter_nil_iff. intros [o n] Hin%common_roles_self; [|done]. subst o. apply HP. }
  f_equal; try (apply foldl_id; intros [o n] ->%common_roles_self; [|done]; apply foldl_id; intros p Hp%contains_spec; by rewrite Hp).
  - rewrite Hf; [done|]. tauto.
  - rewrite Hf; [done|]. tauto.
Qed.

(** *** Load balancers *)

Lemma dns_changed_self d : dns_changed d d = false.
Proof. destruct d; simpl; [|done]. by rewrite !bool_decide_eq_true_2. Qed.

Lemma modified_loadbalancer_self i j lb : settled_lb lb → modified_loadbalancer i j lb lb = Ret None.
Proof.
  intros [Hp Hr]. pose proof Hp as (Hnd & Ht & _). unfold modified_loadbalancer.
  rewrite roles_diff_self, dns_changed_self, !pending_deletions_self, rolling_updates_self by done.
  destruct (NodePoolsView_total (LB_ClusterInfo lb) Ht) as [[d s] ->]. simpl.
  by rewrite !NodePoolsDiff_self.
Qed.

Lemma index_lb_self lbs i lb :
  NoDup (LB_Id <$> lbs) → lbs !! i = Some lb → IndexLoadbalancerById (LB_Id lb) lbs = Some i.
Proof.
  intros Hnd Hi. unfold IndexLoadbalancerById. destruct (index_func _ lbs) as [j|] eqn:Ej.
  - apply index_func_Some in Ej as (x & Hx & He). apply bool_decide_eq_true in He. f_equal.
    eapply (NoDup_lookup (LB_Id <$> lbs)); [done|rewrite list_lookup_fmap, Hx; simpl; by rewrite He|by rewrite list_lookup_fmap, Hi].
  - rewrite index_func_None in Ej. specialize (Ej lb (list_elem_of_lookup_2 _ _ _ Hi)).
    by apply bool_decide_eq_false in Ej.
Qed.

Lemma lbs_missing_self lbs : lbs_missing lbs lbs = [].
Proof.
  unfold lbs_missing. apply filter_nil_iff. intros e He Hn. apply list_elem_of_lookup in He as [i Hi].
  rewrite list_lookup_imap in Hi. apply fmap_Some in Hi as (lb & Hl & ->). simpl in Hn.
  unfold IndexLoadbalancerById in Hn. rewrite index_func_None in Hn.
  specialize (Hn lb (list_elem_of_lookup_2 _ _ _ Hl)). by apply bool_decide_eq_false in Hn.
Qed.

Lemma endpoint_change_self lbs :
  NoDup (LB_Id <$> lbs) → settled_endpoint lbs → determineLBApiEndpointChange lbs lbs = ("", "", NoChange).
Proof.
  intros Hnd Hs. unfold settled_endpoint in Hs. unfold determineLBApiEndpointChange.
  set (cands := filter _ lbs). destruct (FindAssignedLbApiEndpoint lbs) as [lb|] eqn:Ea.
  - apply find_first_Some in Ea as [Hin _].
    assert (Hc : lb ∈ cands) by (by apply list_elem_of_filter).
    assert (Hf : find_first (λ l, bool_decide (LB_Id l = LB_Id lb)) (reverse cands) = Some lb).
    { destruct (find_first _ (reverse cands)) as [l|] eqn:Ef.
      - apply find_first_Some in Ef as [Hl Hid%bool_decide_eq_true].
        rewrite elem_of_reverse in Hl. apply list_elem_of_filter in Hl as [_ Hl]. apply list_elem_of_lookup in Hin as [i Hi], Hl as [j Hj].
        pose proof (index_lb_self _ _ _ Hnd Hi) as E1. pose proof (index_lb_self _ _ _ Hnd Hj) as E2. congruence.
      - rewrite find_first_None in Ef. specialize (Ef lb (proj2 (elem_of_reverse _ _) Hc)). by apply bool_decide_eq_false in Ef. }
    destruct cands as [|c l]; [by apply not_elem_of_nil in Hc|]. destruct Hs as [_ Hdns]. rewrite Hf.
    destruct (LB_Dns lb) as [d|] eqn:Ed; [|done]. simpl. by rewrite bool_decide_eq_false_2 by (intros Hne; by apply Hne).
  - assert (E : cands = []); [|by rewrite E]. apply filter_nil_iff. intros l Hl. exact (proj1 (Forall_forall _ _) Hs _ Hl).
Qed.

Lemma LoadBalancersDiff_self lbs :
  NoDup (LB_Id <$> lbs) → Forall settled_lb lbs → settled_endpoint lbs →
  LoadBalancersDiff lbs lbs = Ret (mkLoadBalancersDiffResult [] [] ∅ "" "" NoChange).
Proof.
  intros Hnd Hl He. unfold LoadBalancersDiff. rewrite endpoint_change_self, lbs_missing_self by done.
  rewrite foldl_id; [done|]. intros [i lb] Hin. apply list_elem_of_lookup in Hin as [n Hn].
  rewrite list_lookup_imap in Hn. apply fmap_Some in Hn as (lb' & Hlb & [= -> ->]).
  unfold record_modified. simpl. rewrite (index_lb_self _ _ _ Hnd Hlb). unfold index. rewrite Hlb. simpl.
  rewrite modified_loadbalancer_self; [done|]. exact (proj1 (Forall_forall _ _) Hl _ (list_elem_of_lookup_2 _ _ _ Hlb)).
Qed.

(** ** Nothing is scheduled *)

(** C17: A settled cluster is a fixed point of the reconciliation: the
    difference of its state with itself can be computed, and on that
    difference [handleUpdate] schedules nothing and draws nothing, as long as
    the VPN did not drift and the control plane does not listen on the port
    of the API server while a load balancer is the endpoint. *)
Theorem settled_state_is_stable `{Entropy, RangeOrder} (now : Z) (fuel : nat) (id : string) (hc : HealthCheckStatus)
    (c : Clusters) (i : nat) :
  settled c → Hc_VpnDrift hc = false →
  (is_Some (FindAssignedLbApiEndpoint (LoadBalancers c)) → Hc_ControlNodesHave6443 hc = false) →
  ∃ diff, Diff c c = Ret diff ∧ handleUpdate now fuel id hc diff c c i = Ret (None, i).
Proof.
  intros (Hk & Hnd & Hl & He) Hvpn Hport. destruct (K8S c) as [k|] eqn:Ek; [|done]. pose proof Hk as (Hndk & Ht & _).
  destruct (kubernetes_diff_of_same_state k Hndk Ht) as (r & Hr & Hv & Hp & Hd & Hs & Ha & Hf & Hroll & Hlta & Hapi).
  destruct (pending_of _ _ _ Hr) as [Hpd Hps]. rewrite pending_deletions_self in Hpd, Hps by done.
  eexists. split.
  { unfold Diff. rewrite Ek. simpl. rewrite Hr. simpl. by rewrite LoadBalancersDiff_self. }
  unfold handleUpdate, PreKubernetesDiff, returned, endpoint_step. simpl. rewrite !range_empty. simpl.
  unfold KubernetesModifications, transfers. simpl. rewrite Hapi, Ek, Hd, Hs. simpl.
  rewrite bool_decide_ne_refl. simpl.
  assert (Hpost : PostKubernetesDiff id now (mkLoadBalancersReconciliate hc (mkLoadBalancersDiffResult [] [] ∅ "" "" NoChange) (Kd_Proxy r) c c) = Ret None).
  { unfold PostKubernetesDiff, returned. simpl. rewrite !range_empty. simpl.
    destruct (FindAssignedLbApiEndpoint _) as [lb|]; [|done]. by rewrite Hport. }
  assert (Hdel : KubernetesDeletions id now (mkKubernetesReconciliate hc r c c) = Ret None).
  { unfold KubernetesDeletions, one_pending. simpl. rewrite Hd, Hs, Hpd, Hps. simpl. by rewrite !first_of_empty. }
  assert (Hlow : KubernetesLowPriority id now fuel (mkKubernetesReconciliate hc r c c) i = Ret (None, i)).
  { unfold KubernetesLowPriority, low_priority_update. simpl. rewrite Hv, Hp, Hlta, Ha, Hf, Hroll. simpl.
    by rewrite gset_to_gmap_empty, !first_of_empty. }
  destruct (bool_decide _ && bool_decide _); simpl; rewrite Hpost; simpl; rewrite Hdel; simpl;
    unfold LoadBalancersLowPriority; simpl; rewrite range_empty; simpl; rewrite Hlow; simpl; by rewrite Hvpn.
Qed.

Lemma settled_state_is_stable_witness :
  ∃ diff, Diff Samples.clusters Samples.clusters = Ret diff ∧
    handleUpdate 0 0 "id" healthy diff Samples.clusters Samples.clusters 0 = Ret (None, 0).
Proof. apply (settled_state_is_stable 0 0 "id" healthy Samples.clusters 0); [by_decide|reflexivity|reflexivity]. Defined.

End Stable.
