(* ===== verification/Watchers.v ===== *)
(** * The watchers (service/watchers.go)

    Periodic passes over the stored configurations: one hands the current
    stage of every waiting task to its worker and finishes a manifest all of
    whose clusters are finished, one moves idle manifests that changed back to
    pending and deletes those that are gone.  NATS is the parameter [Nats];
    the messages a pass publishes are part of its result. *)

From stdpp Require Import base gmap strings list pretty.
From S2P Require Import Prelude Spec SpecUtils Samples Store.
Import Store.

(** ** Messages *)

(** A sub-pass packed with [anypb.New]. *)
Inductive AnyPass :=
| Any_Terraformer (p : SubPass StageTerraformer_SubPassKind)
| Any_Ansibler (p : SubPass StageAnsibler_SubPassKind)
| Any_KubeEleven (p : SubPass StageKubeEleven_SubPassKind)
| Any_Kuber (p : SubPass StageKuber_SubPassKind).

Record Msg := mkMsg {
  Msg_Subject : string;
  Msg_Id : string;
  Msg_ReplyTo : string;
  Msg_InputManifest : string;
  Msg_Cluster : string;
  Msg_Task : Task;
  Msg_Passes : list AnyPass }.

(** [marshal_work] tells whether packing the passes and marshalling the
    [spec.Work] succeeds; [PublishMsg i] is the answer of JetStream to a
    publication when [i] messages of the configuration were accepted before:
    whether the message was a duplicate, or an error. *)
Class Nats := {
  marshal_work : Task → list AnyPass → bool;
  PublishMsg : nat → Msg → bool + string
}.

#[export] Instance reliable_nats : Nats := {| marshal_work _ _ := true; PublishMsg _ _ := inl false |}.

Module Watchers.

Definition TerraformerRequests : string := "claudie-internal-cluster-request-terraformer".
Definition TerraformerResponse : string := "claudie-internal-cluster-response-terraformer".
Definition AnsiblerRequests : string := "claudie-internal-cluster-requests-ansibler".
Definition AnsiblerResponse : string := "claudie-internal-cluster-response-ansibler".
Definition KubeElevenRequests : string := "claudie-internal-cluster-request-kube-eleven".
Definition KubeElevenResponse : string := "claudie-internal-cluster-response-kube-eleven".
Definition KuberRequests : string := "claudie-internal-cluster-requests-kuber".
Definition KuberResponse : string := "claudie-internal-cluster-response-kuber".

Definition newline : string := String (Ascii.ascii_of_nat 10) "".

(** What the builder holds after the loop over the sub-passes. *)
Definition describe {K} (d : StageDescription) (passes : list (SubPass K)) : string :=
  foldl (λ b p, String.append b (String.append newline (String.append "  - " (About (Description p)))))
    (About d) passes.

(** The alternatives of the type switch: passes, subjects and description. *)
Definition stage_parts (st : Stage) : list AnyPass * string * string * string :=
  match st with
  | Stage_Ansibler d ps => (Any_Ansibler <$> ps, AnsiblerRequests, AnsiblerResponse, describe d ps)
  | Stage_KubeEleven d ps => (Any_KubeEleven <$> ps, KubeElevenRequests, KubeElevenResponse, describe d ps)
  | Stage_Kuber d ps => (Any_Kuber <$> ps, KuberRequests, KuberResponse, describe d ps)
  | Stage_Terraformer d ps => (Any_Terraformer <$> ps, TerraformerRequests, TerraformerResponse, describe d ps)
  end.

Definition stage_id (eventID subject : string) (stage : Z) : string :=
  String.append eventID (String.append "-" (String.append subject (String.append "-" (pretty stage)))).

(** The message and its description. *)
Definition messageForStage `{Codec, Nats} (inputManifestName clusterName eventID : string)
    (marshalledTask : bytes) (stage : Z) (pipeline : list Stage) : outcome (Msg * string) :=
  let* task := or_fail "unmarshal" (unmarshal_task marshalledTask) in
  let* st := index pipeline (Z.to_nat stage) in
  let '(passes, subject, replySubject, description) := stage_parts st in
  if marshal_work task passes then
    Ret (mkMsg subject (stage_id eventID subject stage) replySubject inputManifestName clusterName task passes,
         description)
  else Fail "marshal".

Section watch.
Context `{Codec} `{RangeOrder} `{Nats} {T : Type} `{!Store T} `{!Crud T}.

(** ** Scheduled documents *)

Definition set_Db_Status (c : DbClusterState) (status description : string) : DbClusterState :=
  let w := Db_State c in
  mkDbClusterState (Db_Current c) (Db_InFlight c)
    (mkDbWorkflow status description (Db_WfTimestamp w) (Db_Previous w) (Db_TicksUntilRefresh w)) (Db_Counters c).

Definition drop_InFlight (c : DbClusterState) : DbClusterState :=
  mkDbClusterState (Db_Current c) None (Db_State c) (Db_Counters c).

(** The configuration is mutated in memory through the pointers of its map. *)
Definition put_cluster (cfg : DbConfig) (name : string) (c : DbClusterState) : DbConfig :=
  set_Db_Clusters cfg (<[name := c]> (Db_Clusters cfg)).

(** The variables of the loop over the clusters of one configuration. *)
Record Watch := mkWatch {
  W_store : T;
  W_cfg : DbConfig;
  W_sent : list Msg;
  W_done : nat;
  W_error : bool }.

(** How an iteration ends: the next cluster, or [break clusters]. *)
Inductive flow := Next (w : Watch) | Break (w : Watch).

(** [UpdateConfig] bumps the version of the configuration it is given; a
    failed one restores it. *)
Definition update (s : T) (cfg : DbConfig) : T * DbConfig * option store_err :=
  match UpdateConfig s cfg with
  | (s, None) => (s, bumped cfg, None)
  | (s, Some e) => (s, cfg, Some e)
  end.

Definition no_work (e : option DbTaskEvent) : bool :=
  match e with
  | None => true
  | Some e => bool_decide (length (Db_Pipeline e) < 1) ||
              bool_decide (Z.of_nat (length (Db_Pipeline e)) < Db_CurrentStage e)%Z
  end.

(** A cluster with nothing to work on is moved to DONE. *)
Definition finish_idle (w : Watch) (cluster : string) (state : DbClusterState) : flow :=
  let cfg := put_cluster (W_cfg w) cluster (set_Db_Status (drop_InFlight state) (enum_String DONE) "") in
  let '(s, cfg, err) := update (W_store w) cfg in
  let w := mkWatch s cfg (W_sent w) (W_done w) (W_error w) in
  match err with
  | Some (ErrOther _) => Next w
  | _ => Break w
  end.

(** The stage of a task that waits for pickup is published; the unlabelled
    [break] after a dirty write leaves only the [switch]. *)
Definition pick_up (w : Watch) (cluster : string) (state : DbClusterState) (event : DbTaskEvent)
    (pipeline : list Stage) : outcome flow :=
  match messageForStage (Db_Name (W_cfg w)) cluster (Db_Id event) (Db_Task event) (Db_CurrentStage event) pipeline with
  | Panic why => Panic why
  | Fail _ => Ret (Next w)
  | Ret (msg, description) =>
      match PublishMsg (length (W_sent w)) msg with
      | inr _ => Ret (Next w)
      | inl _ =>
          let cfg := put_cluster (W_cfg w) cluster
                       (set_Db_Status state (enum_String IN_PROGRESS)
                          (String.append (Db_TaskDescription event)
                             (String.append newline (String.append "- " description)))) in
          let '(s, cfg, err) := update (W_store w) cfg in
          let w := mkWatch s cfg (W_sent w ++ [msg]) (W_done w) (W_error w) in
          Ret (match err with Some ErrNotFoundOrDirty => Next w | _ => Break w end)
      end
  end.

Definition watch_cluster (w : Watch) (cluster : string) (state : DbClusterState) : outcome flow :=
  let status := Db_Status (Db_State state) in
  if bool_decide (status = enum_String DONE) then
    Ret (Next (mkWatch (W_store w) (W_cfg w) (W_sent w) (S (W_done w)) (W_error w)))
  else if bool_decide (status = enum_String ERROR) then
    Ret (Next (mkWatch (W_store w) (W_cfg w) (W_sent w) (S (W_done w)) true))
  else if no_work (Db_InFlight state) then Ret (finish_idle w cluster state)
  else
    let* event := deref (Db_InFlight state) in
    match ConvertToGRPCStages (Db_Pipeline event) with
    | Panic why => Panic why
    | Fail _ => Ret (Next w)
    | Ret pipeline =>
        if bool_decide (status = enum_String WAIT_FOR_PICKUP) then pick_up w cluster state event pipeline
        else Ret (Next w)
    end.

Fixpoint watch_clusters (w : Watch) (clusters : list (string * DbClusterState)) : outcome Watch :=
  match clusters with
  | [] => Ret w
  | (cluster, state) :: clusters =>
      let* f := watch_cluster w cluster state in
      match f with
      | Next w => watch_clusters w clusters
      | Break w => Ret w
      end
  end.

(** The end of a manifest: an update whose failure is only logged. *)
Definition finish_manifest (now : Z) (w : Watch) : T :=
  if bool_decide (W_done w = size (Db_Clusters (W_cfg w))) then
    let newManifestState := if W_error w then Error else Done in
    match ValidStateTransitionString (Db_ManifestState (Db_Manifest (W_cfg w))) newManifestState with
    | Ret true =>
        (update (W_store w)
           (set_Db_Manifest (W_cfg w)
              (set_Db_ManifestState (Db_Manifest (W_cfg w)) (enum_String newManifestState) (format_time now)))).1.1
    | _ => W_store w
    end
  else W_store w.

(** One configuration: the store after and the messages published. *)
Definition watch_scheduled (now : Z) (s : T) (scheduled : DbConfig) : outcome (T * list Msg) :=
  let* w := watch_clusters (mkWatch s scheduled [] 0 false) (range "clusters" (Db_Clusters scheduled)) in
  Ret (finish_manifest now w, W_sent w).

Fixpoint watch_all (f : T → DbConfig → outcome (T * list Msg)) (s : T) (cfgs : list DbConfig) : outcome (T * list Msg) :=
  match cfgs with
  | [] => Ret (s, [])
  | cfg :: cfgs =>
      let* (s, sent) := f s cfg in
      let* (s, sent') := watch_all f s cfgs in
      Ret (s, sent ++ sent')
  end.

Definition WatchForScheduledDocuments (now : Z) (s : T) : outcome (T * list Msg) :=
  match ListConfigs s [enum_String Scheduled] with
  | inr _ => Fail "failed to list configs"
  | inl cfgs => watch_all (watch_scheduled now) s cfgs
  end.

(** ** Idle documents *)

(** The clusters of an idle manifest that were destroyed are forgotten. *)
Definition destroyed (c : DbClusterState) : bool :=
  len0 (Db_K8s (Db_Current c)) && len0 (Db_LoadBalancers (Db_Current c)) && bool_decide (Db_InFlight c = None).

(** [bytes.Equal] identifies nil and the empty slice. *)
Definition bytes_equal (a b : option string) : bool := bool_decide (default "" a = default "" b).

Definition watch_idle (now : Z) (s : T) (idle : DbConfig) : T :=
  let m := Db_Manifest idle in
  if negb (bytes_equal (Db_LastAppliedChecksum m) (Db_Checksum m)) then
    match ValidStateTransitionString (Db_ManifestState m) Pending with
    | Ret true =>
        (UpdateConfig s
           (set_Db_Clusters (set_Db_Manifest idle (set_Db_ManifestState m (enum_String Pending) (format_time now)))
              (filter (λ kv, destroyed kv.2 = false) (Db_Clusters idle)))).1
    | _ => s
    end
  else if bool_decide (Db_ManifestState m = enum_String Done) &&
          bool_decide (Db_Checksum m = None) && bool_decide (Db_LastAppliedChecksum m = None) then
    (DeleteConfig s (Db_Name idle) (Db_Version idle)).1
  else s.

Definition WatchForDoneOrErrorDocuments (now : Z) (s : T) : outcome T :=
  match ListConfigs s [enum_String Done; enum_String Error] with
  | inr _ => Fail "failed to list configs"
  | inl cfgs => Ret (foldl (watch_idle now) s cfgs)
  end.

(** ** Message identifiers *)

Lemma stage_parts_subject st :
  (stage_parts st).1.1.2 ∈ [TerraformerRequests; AnsiblerRequests; KubeElevenRequests; KuberRequests].
Proof. destruct st; simpl; set_solver. Qed.

Lemma messageForStage_Ret im cl id task stage pipeline msg d :
  messageForStage im cl id task stage pipeline = Ret (msg, d) →
  ∃ st, pipeline !! Z.to_nat stage = Some st ∧ Msg_Subject msg = (stage_parts st).1.1.2 ∧
    Msg_Id msg = stage_id id (Msg_Subject msg) stage ∧ Msg_Cluster msg = cl ∧ Msg_InputManifest msg = im ∧
    Msg_Passes msg = (stage_parts st).1.1.1 ∧ unmarshal_task task = Some (Msg_Task msg).
Proof.
  unfold messageForStage, index. destruct (unmarshal_task task) as [t|]; [|done]. simpl.
  destruct (pipeline !! Z.to_nat stage) as [st|]; [|done]. simpl.
  destruct (stage_parts st) as [[[passes subject] reply] descr] eqn:E. destruct (marshal_work t passes); [|done].
  intros [= <- <-]. exists st. by rewrite E.
Qed.

(** No request subject is a prefix of another one. *)
Lemma subjects_separate s1 s2 a b :
  s1 ∈ [TerraformerRequests; AnsiblerRequests; KubeElevenRequests; KuberRequests] →
  s2 ∈ [TerraformerRequests; AnsiblerRequests; KubeElevenRequests; KuberRequests] →
  String.append s1 a = String.append s2 b → s1 = s2.
Proof.
  set_unfold. intros Ha Hb E. repeat destruct Ha as [->|Ha]; repeat destruct Hb as [->|Hb]; try done.
Qed.

(** Messages for the stages of one task never share an identifier: two
    messages of the same event have the same identifier, by which JetStream
    recognises duplicates, only if they are for the same stage and worker. *)
Lemma message_ids_distinguish_stages (im1 im2 cl1 cl2 id : string) (t1 t2 : bytes) (stage1 stage2 : Z)
    (p1 p2 : list Stage) (m1 m2 : Msg) (d1 d2 : string) :
  messageForStage im1 cl1 id t1 stage1 p1 = Ret (m1, d1) →
  messageForStage im2 cl2 id t2 stage2 p2 = Ret (m2, d2) →
  Msg_Id m1 = Msg_Id m2 → stage1 = stage2 ∧ Msg_Subject m1 = Msg_Subject m2.
Proof.
  intros (st1 & _ & Hs1 & Hi1 & _)%messageForStage_Ret (st2 & _ & Hs2 & Hi2 & _)%messageForStage_Ret E.
  rewrite Hi1, Hi2 in E. unfold stage_id in E. apply string_app_inj_l, string_app_inj_l in E.
  assert (Hs : Msg_Subject m1 = Msg_Subject m2).
  { eapply subjects_separate; [rewrite Hs1; apply stage_parts_subject|rewrite Hs2; apply stage_parts_subject|exact E]. }
  rewrite Hs in E. apply string_app_inj_l, string_app_inj_l, pretty_Z_inj in E. done.
Qed.

(** ** Finishing a manifest *)

Definition is_status (st : Workflow_Status) (c : DbClusterState) : bool :=
  bool_decide (Db_Status (Db_State c) = enum_String st).

Definition finished (c : DbClusterState) : bool := is_status DONE c || is_status ERROR c.

(** What an iteration may do to the store and to the configuration in memory. *)
Definition touched (w w2 : Watch) (cluster : string) : Prop :=
  (W_store w2 = W_store w ∧ W_cfg w2 = W_cfg w) ∨
  ∃ c, (W_store w2, W_cfg w2) = (update (W_store w) (put_cluster (W_cfg w) cluster c)).1.

Lemma watch_cluster_Ret w cluster state f :
  watch_cluster w cluster state = Ret f →
  (finished state = true ∧
   f = Next (mkWatch (W_store w) (W_cfg w) (W_sent w) (S (W_done w)) (W_error w || is_status ERROR state))) ∨
  (finished state = false ∧ ∃ w2, (f = Next w2 ∨ f = Break w2) ∧ W_done w2 = W_done w ∧ touched w w2 cluster).
Proof.
  unfold watch_cluster, finished, is_status. case_bool_decide as Hd.
  { intros [= <-]. left. split; [done|]. rewrite Hd. by rewrite orb_false_r. }
  case_bool_decide as He.
  { intros [= <-]. left. split; [done|]. by rewrite orb_true_r. }
  intros Hw. right. split; [done|].
  destruct (no_work (Db_InFlight state)).
  { injection Hw as <-. unfold finish_idle.
    destruct (update _ _) as [[s cfg] err] eqn:E. eexists. split; [destruct err as [[|]|]; auto|].
    split; [done|]. right. eexists. simpl. by rewrite E. }
  bind_inv Hw. destruct (ConvertToGRPCStages _) as [pipeline|?|?]; [|injection Hw as <-; eexists; split; [by left|]; split; [done|by left]|done].
  case_bool_decide; [|injection Hw as <-; eexists; split; [by left|]; split; [done|by left]].
  unfold pick_up in Hw. destruct (messageForStage _ _ _ _ _ _) as [[msg d]|?|?];
    [|injection Hw as <-; eexists; split; [by left|]; split; [done|by left]|done].
  destruct (PublishMsg _ msg); [|injection Hw as <-; eexists; split; [by left|]; split; [done|by left]].
  destruct (update _ _) as [[s cfg] err] eqn:E. injection Hw as <-. eexists.
  split; [destruct err as [[|]|]; auto|]. split; [done|]. right. eexists. simpl. by rewrite E.
Qed.

(** A loop that counts every cluster saw only finished ones and wrote nothing. *)
Lemma watch_clusters_count w l w' :
  watch_clusters w l = Ret w' →
  W_done w' ≤ W_done w + length l ∧
  (W_done w' = W_done w + length l →
   Forall (λ e, finished e.2 = true) l ∧ W_store w' = W_store w ∧ W_cfg w' = W_cfg w ∧ W_sent w' = W_sent w ∧
   W_error w' = W_error w || existsb (λ e, is_status ERROR e.2) l).
Proof.
  revert w. induction l as [|[cluster state] l IH]; intros w; simpl.
  { intros [= ->]. split; [lia|]. intros _. by rewrite orb_false_r. }
  intros Hw. bind_inv Hw. apply watch_cluster_Ret in Hx as [[Hf ->]|(Hf & w2 & Hx & Hd & _)].
  - apply IH in Hw as [Hle Hall]. simpl in *. split; [lia|]. intros Heq.
    destruct (Hall ltac:(lia)) as (Hl & -> & -> & -> & ->). split; [by constructor|]. by rewrite orb_assoc.
  - destruct Hx as [->| ->]; [apply IH in Hw as [Hle _]|injection Hw as ->]; split; lia.
Qed.

(** The configuration in memory keeps its manifest and its clusters' names;
    in the store at most its document changes, and not its manifest. *)
Definition loop_inv (cfg : DbConfig) (docs0 : gmap string DbConfig) (w : Watch) : Prop :=
  Db_Name (W_cfg w) = Db_Name cfg ∧ Db_Manifest (W_cfg w) = Db_Manifest cfg ∧
  dom (Db_Clusters (W_cfg w)) = dom (Db_Clusters cfg) ∧
  (∀ n, n ≠ Db_Name cfg → contents (W_store w) !! n = docs0 !! n) ∧
  ∃ d, contents (W_store w) !! Db_Name cfg = Some d ∧ Db_Manifest d = Db_Manifest cfg.

Lemma update_contents s cfg :
  let '(s', cfg', _) := update s cfg in
  (cfg' = cfg ∨ cfg' = bumped cfg) ∧
  (contents s' = contents s ∨ contents s' = <[Db_Name cfg := bumped cfg]> (contents s)).
Proof.
  unfold update. destruct (UpdateConfig s cfg) as [s' [[|e]|]] eqn:E.
  - apply UpdateConfig_dirty in E as [_ ->]. by split; left.
  - apply UpdateConfig_err in E as [->|[_ ->]]; by split; auto.
  - apply UpdateConfig_ok in E as [_ ->]. by split; right.
Qed.

Lemma touched_inv cfg docs0 w w2 cluster :
  cluster ∈ dom (Db_Clusters cfg) → touched w w2 cluster → loop_inv cfg docs0 w → loop_inv cfg docs0 w2.
Proof.
  intros Hc [[Hs Hcfg]|[c E]] (Hn & Hm & Hdom & Hother & d & Hd & Hdm).
  { unfold loop_inv. rewrite Hs, Hcfg. by split_and!; eauto. }
  pose proof (update_contents (W_store w) (put_cluster (W_cfg w) cluster c)) as Hu.
  destruct (update _ _) as [[s' cfg'] err]. simpl in E. injection E as Es Ec.
  assert (Hdom' : dom (<[cluster := c]> (Db_Clusters (W_cfg w))) = dom (Db_Clusters cfg)).
  { rewrite dom_insert_L, Hdom. set_solver. }
  destruct Hu as [Hcfg Hs]. unfold loop_inv. rewrite Es, Ec.
  split; [by destruct Hcfg as [->| ->]|]. split; [by destruct Hcfg as [->| ->]|].
  split; [by destruct Hcfg as [->| ->]|].
  destruct Hs as [->| ->]; [by split; eauto|]. simpl. rewrite Hn. split.
  - intros n Hne. rewrite lookup_insert_ne by done. by apply Hother.
  - eexists. rewrite lookup_insert_eq. split; [done|]. done.
Qed.

Lemma watch_clusters_inv cfg docs0 l w w' :
  (∀ e, e ∈ l → e.1 ∈ dom (Db_Clusters cfg)) →
  loop_inv cfg docs0 w → watch_clusters w l = Ret w' → loop_inv cfg docs0 w'.
Proof.
  intros Hl. revert w. induction l as [|[cluster state] l IH]; intros w Hinv; simpl; [by intros [= <-]|].
  intros Hw. bind_inv Hw.
  assert (Hc : cluster ∈ dom (Db_Clusters cfg)) by (apply (Hl (cluster, state)); by left).
  apply watch_cluster_Ret in Hx as [[_ ->]|(_ & w2 & Hx & _ & Ht)].
  - apply IH in Hw; [done|intros e He; apply Hl; by right|done].
  - apply (touched_inv _ _ _ _ _ Hc Ht) in Hinv.
    destruct Hx as [->| ->]; [|by injection Hw as <-].
    apply IH in Hw; [done|intros e He; apply Hl; by right|done].
Qed.

Lemma loop_inv_start cfg s :
  contents s !! Db_Name cfg = Some cfg → loop_inv cfg (contents s) (mkWatch s cfg [] 0 false).
Proof. intros Hs. unfold loop_inv; simpl. split_and!; [done..|]. by exists cfg. Qed.

Lemma loop_inv_length cfg docs0 w :
  loop_inv cfg docs0 w → size (Db_Clusters (W_cfg w)) = length (range "clusters" (Db_Clusters cfg)).
Proof. intros (_ & _ & Hdom & _). by rewrite range_perm, length_map_to_list, <- !size_dom, Hdom. Qed.

(** One pass over a scheduled configuration touches no other document,
    and changes the state of its manifest only when every one of its clusters
    has finished: to Error when one of them is in error, to Done otherwise, a
    transition the state map allows, and without publishing anything. *)
Lemma manifest_finishes_with_its_clusters (now : Z) (s s' : T) (cfg : DbConfig) (sent : list Msg) :
  contents s !! Db_Name cfg = Some cfg → Db_ManifestState (Db_Manifest cfg) = enum_String Scheduled →
  watch_scheduled now s cfg = Ret (s', sent) →
  (∀ n, n ≠ Db_Name cfg → contents s' !! n = contents s !! n) ∧
  ∃ d, contents s' !! Db_Name cfg = Some d ∧
    (Db_ManifestState (Db_Manifest d) = enum_String Scheduled ∨
     (sent = [] ∧ map_Forall (λ _ c, finished c = true) (Db_Clusters cfg) ∧
      Db_ManifestState (Db_Manifest d)
      = enum_String (if existsb (λ e, is_status ERROR e.2) (range "clusters" (Db_Clusters cfg)) then Error else Done))).
Proof.
  intros Hs Hst Hw. unfold watch_scheduled in Hw. bind_inv Hw. subst sent s'. rename x into w, Hx into Hw.
  assert (Hinv : loop_inv cfg (contents s) w).
  { apply (watch_clusters_inv cfg (contents s) _ _ _) in Hw; [done| |].
    - intros [k v] Hin%elem_of_range. by eapply elem_of_dom_2.
    - by apply loop_inv_start. }
  apply watch_clusters_count in Hw as [_ Hall]. simpl in Hall.
  pose proof (loop_inv_length _ _ _ Hinv) as Hlen. destruct Hinv as (Hn & Hm & Hdom & Hother & d & Hd & Hdm).
  unfold finish_manifest. case_bool_decide as Hdone;
    [|split; [done|]; exists d; split; [done|left; by rewrite Hdm]].
  destruct (Hall ltac:(lia)) as (Hfin & Hws & Hwc & -> & Herr).
  rewrite Hm, Hst.
  assert (Hv : ValidStateTransitionString (enum_String Scheduled) (if W_error w then Error else Done) = Ret true)
    by by destruct (W_error w).
  rewrite Hv, Herr. simpl.
  set (st := if existsb _ _ then Error else Done).
  match goal with |- context [update ?a ?b] => pose proof (update_contents a b) as Hu; destruct (update a b) as [[s2 c2] err] end.
  cbn [fst]. destruct Hu as [_ [-> | ->]]; simpl.
  - split; [done|]. exists d. split; [done|left; by rewrite Hdm].
  - rewrite Hn. split; [intros n Hne; rewrite lookup_insert_ne by done; by apply Hother|].
    eexists. rewrite lookup_insert_eq. split; [done|]. right. split; [done|]. split; [|done].
    intros k c Hk. rewrite Forall_forall in Hfin. apply (Hfin (k, c)). by apply elem_of_range.
Qed.

(** ** Handing over a stage *)

(** Every write answers: it succeeded, or the document was not as expected. *)
Definition answers : Prop := ∀ s c e, (UpdateConfig s c).2 ≠ Some (ErrOther e).

(** [m] carries the current stage of the task of a cluster that waits for
    pickup, and [docs'] records that the cluster is in progress. *)
Definition handed_over (cfg : DbConfig) (m : Msg) (docs docs' : gmap string DbConfig) : Prop :=
  ∃ c e pipeline st d,
    Db_Clusters cfg !! Msg_Cluster m = Some c ∧ Db_Status (Db_State c) = enum_String WAIT_FOR_PICKUP ∧
    Db_InFlight c = Some e ∧ ConvertToGRPCStages (Db_Pipeline e) = Ret pipeline ∧
    pipeline !! Z.to_nat (Db_CurrentStage e) = Some st ∧ Msg_InputManifest m = Db_Name cfg ∧
    Msg_Subject m = (stage_parts st).1.1.2 ∧ Msg_Passes m = (stage_parts st).1.1.1 ∧
    unmarshal_task (Db_Task e) = Some (Msg_Task m) ∧
    docs' = <[Db_Name cfg := bumped (put_cluster cfg (Msg_Cluster m) (set_Db_Status c (enum_String IN_PROGRESS) d))]> docs.

(** A write of the document as it was read succeeds. *)
Lemma update_fresh s cfg cluster c :
  answers → contents s !! Db_Name cfg = Some cfg →
  ∃ s', update s (put_cluster cfg cluster c) = (s', bumped (put_cluster cfg cluster c), None) ∧
    contents s' = <[Db_Name cfg := bumped (put_cluster cfg cluster c)]> (contents s).
Proof.
  intros Ha Hs. unfold update. pose proof (Ha s (put_cluster cfg cluster c)) as Hu.
  destruct (UpdateConfig s (put_cluster cfg cluster c)) as [s' [[|e]|]] eqn:E.
  - apply UpdateConfig_dirty in E as [[] _]. by exists cfg.
  - by destruct (Hu e).
  - apply UpdateConfig_ok in E as [_ E]. by exists s'.
Qed.

Lemma watch_cluster_sends w cluster state f :
  answers → contents (W_store w) !! Db_Name (W_cfg w) = Some (W_cfg w) →
  Db_Clusters (W_cfg w) !! cluster = Some state → watch_cluster w cluster state = Ret f →
  match f with
  | Next w2 => W_store w2 = W_store w ∧ W_cfg w2 = W_cfg w ∧ W_sent w2 = W_sent w
  | Break w2 => W_sent w2 = W_sent w ∨
      ∃ m, W_sent w2 = W_sent w ++ [m] ∧ handed_over (W_cfg w) m (contents (W_store w)) (contents (W_store w2))
  end.
Proof.
  intros Ha Hs Hc. unfold watch_cluster. case_bool_decide; [by intros [= <-]|].
  case_bool_decide; [by intros [= <-]|]. destruct (no_work _).
  { intros [= <-]. unfold finish_idle.
    destruct (update_fresh (W_store w) (W_cfg w) cluster (set_Db_Status (drop_InFlight state) (enum_String DONE) "")
      Ha Hs) as (s' & -> & _). by left. }
  intros Hw. bind_inv Hw. destruct (Db_InFlight state) as [e|] eqn:He; [|done]. injection Hx as <-.
  destruct (ConvertToGRPCStages _) as [pipeline|?|?] eqn:Ep; [|by injection Hw as <-|done].
  case_bool_decide as Hst; [|by injection Hw as <-]. unfold pick_up in Hw.
  destruct (messageForStage _ _ _ _ _ _) as [[msg d]|?|?] eqn:Em; [|by injection Hw as <-|done].
  destruct (PublishMsg _ msg); [|by injection Hw as <-].
  match type of Hw with context [update _ (put_cluster _ _ ?c)] =>
    destruct (update_fresh (W_store w) (W_cfg w) cluster c Ha Hs) as (s' & Hu & Hs') end.
  rewrite Hu in Hw. injection Hw as <-. right. exists msg. split; [done|].
  apply messageForStage_Ret in Em as (st & Hst' & Hsub & _ & Hcl & Him & Hp & Ht).
  unfold handed_over. rewrite Hcl. repeat eexists; eauto.
Qed.

Lemma watch_clusters_sends l w w' :
  answers → contents (W_store w) !! Db_Name (W_cfg w) = Some (W_cfg w) →
  (∀ e, e ∈ l → Db_Clusters (W_cfg w) !! e.1 = Some e.2) → watch_clusters w l = Ret w' →
  W_sent w' = W_sent w ∨
  ∃ m, W_sent w' = W_sent w ++ [m] ∧ handed_over (W_cfg w) m (contents (W_store w)) (contents (W_store w')).
Proof.
  intros Ha. revert w. induction l as [|[cluster state] l IH]; intros w Hs Hl; simpl; [intros [= ->]; by left|].
  intros Hw. bind_inv Hw. apply watch_cluster_sends in Hx; [|done|done|apply (Hl (cluster, state)); by left].
  destruct x as [w2|w2]; [|by injection Hw as ->].
  destruct Hx as (E1 & E2 & E3). apply IH in Hw; rewrite ?E1, ?E2; [by rewrite E1, E2, E3 in Hw|done|].
  intros e He. apply Hl. by right.
Qed.

(** C14: While every write is answered ([answers]), one pass over a scheduled
    configuration exactly as it is stored publishes at most one message, of
    those whose publication was confirmed: it carries the passes of the current
    stage of a task that waits for pickup, to that stage's worker, and the
    stored document then differs only in that cluster, which is in
    progress. *)
Theorem one_stage_handed_over (now : Z) (s s' : T) (cfg : DbConfig) (sent : list Msg) :
  answers → contents s !! Db_Name cfg = Some cfg →
  watch_scheduled now s cfg = Ret (s', sent) →
  sent = [] ∨ ∃ m, sent = [m] ∧ handed_over cfg m (contents s) (contents s').
Proof.
  intros Ha Hs Hw. unfold watch_scheduled in Hw. bind_inv Hw. subst sent s'. rename x into w, Hx into Hw.
  pose proof (watch_clusters_count _ _ _ Hw) as [_ Hall]. pose proof Hw as Hw2.
  apply watch_clusters_sends in Hw2; [|done|done|intros [k v]; apply elem_of_range].
  destruct Hw2 as [->|(m & Hm & Hh)]; [by left|right]. exists m. split; [done|].
  assert (Hinv : loop_inv cfg (contents s) w).
  { apply (watch_clusters_inv cfg (contents s) _ _ _) in Hw; [done| |apply loop_inv_start; done].
    intros [k v] Hin%elem_of_range. by eapply elem_of_dom_2. }
  unfold finish_manifest. case_bool_decide as Hd; [|done].
  destruct Hall as (_ & _ & _ & E & _); [|rewrite Hm in E; done].
  rewrite Hd, (loop_inv_length _ _ _ Hinv). done.
Qed.

(** What becomes of an idle document: it is deleted only when its manifest
    is done and was removed and applied (both checksums are nil); it becomes
    pending only when its manifest changed since it was last applied, and
    then it loses exactly the clusters that have neither infrastructure nor a
    task; no other document is touched. *)
Lemma idle_documents_progress (now : Z) (s : T) (cfg : DbConfig) :
  contents s !! Db_Name cfg = Some cfg →
  (∀ n, n ≠ Db_Name cfg → contents (watch_idle now s cfg) !! n = contents s !! n) ∧
  match contents (watch_idle now s cfg) !! Db_Name cfg with
  | None => Db_ManifestState (Db_Manifest cfg) = enum_String Done ∧
            Db_Checksum (Db_Manifest cfg) = None ∧ Db_LastAppliedChecksum (Db_Manifest cfg) = None
  | Some d => d = cfg ∨
      (bytes_equal (Db_LastAppliedChecksum (Db_Manifest cfg)) (Db_Checksum (Db_Manifest cfg)) = false ∧
       Db_ManifestState (Db_Manifest d) = enum_String Pending ∧
       ∀ k, Db_Clusters d !! k = match Db_Clusters cfg !! k with
                                 | Some c => if destroyed c then None else Some c
                                 | None => None
                                 end)
  end.
Proof.
  intros Hs. unfold watch_idle.
  destruct (bytes_equal _ _) eqn:Eb; simpl.
  - destruct (_ && _) eqn:Ed; [|rewrite Hs; by split; [|left]].
    apply andb_true_iff in Ed as [[E1 E2]%andb_true_iff E3].
    apply bool_decide_eq_true in E1, E2, E3.
    destruct (DeleteConfig s (Db_Name cfg) (Db_Version cfg)) as [s' [e|]] eqn:E; simpl.
    + apply DeleteConfig_err in E as [->|[_ ->]]; [rewrite Hs; by split; [|left]|].
      rewrite lookup_delete_eq. split; [intros n Hn; by rewrite lookup_delete_ne|done].
    + apply DeleteConfig_ok in E as [_ ->]. rewrite lookup_delete_eq.
      split; [intros n Hn; by rewrite lookup_delete_ne|done].
  - destruct (ValidStateTransitionString _ _) as [[]|?|?]; try (rewrite Hs; by split; [|left]).
    match goal with |- context [UpdateConfig s ?c] =>
      set (cfg2 := c); pose proof (update_contents s cfg2) as Hu; unfold update in Hu;
      destruct (UpdateConfig s cfg2) as [s' [e|]]; simpl end;
    destruct Hu as [_ [-> | ->]]; try (rewrite Hs; by split; [|left]);
    (split; [intros n Hn; by rewrite lookup_insert_ne|]);
    change (Db_Name cfg2) with (Db_Name cfg); rewrite lookup_insert_eq; right; (split; [done|]); (split; [done|]);
    intros k; simpl; rewrite map_lookup_filter;
    destruct (Db_Clusters cfg !! k) as [c|]; simpl; try done; by destruct (destroyed c).
Qed.

(** The guard of a task without work lets a task through whose stages are all
    done: the current stage is then looked up outside of the pipeline. *)
Lemma past_the_last_stage_panics w cluster state e pipeline task :
  Db_InFlight state = Some e → Db_Status (Db_State state) = enum_String WAIT_FOR_PICKUP →
  ConvertToGRPCStages (Db_Pipeline e) = Ret pipeline → pipeline ≠ [] →
  Db_CurrentStage e = Z.of_nat (length (Db_Pipeline e)) → length pipeline = length (Db_Pipeline e) →
  unmarshal_task (Db_Task e) = Some task →
  ∃ why, watch_cluster w cluster state = Panic why.
Proof.
  intros He Hst Hp Hne Hcur Hlen Ht. unfold watch_cluster.
  rewrite Hst, !bool_decide_eq_false_2 by done. rewrite He. unfold no_work.
  rewrite (bool_decide_eq_false_2 (length _ < 1)) by (rewrite <- Hlen; destruct pipeline; simpl; [done|lia]).
  rewrite (bool_decide_eq_false_2 (_ < _)%Z) by lia. cbn [orb deref bindO]. rewrite Hp. rewrite bool_decide_eq_true_2 by done.
  unfold pick_up, messageForStage, index. rewrite Ht. simpl.
  rewrite lookup_ge_None_2 by (rewrite Hcur, Nat2Z.id, Hlen; done). simpl. by eexists.
Qed.

End watch.

(** ** Witnesses *)

Definition waiting (stage : Z) : DbClusterState :=
  mkDbClusterState (mkDbClusters blob_none blob_none)
    (Some (mkDbTaskEvent "t1" "" (enum_String CREATE) (blob_task (Task_Create Samples.clusters)) "creating"
             (ConvertFromGRPCStages sample_pipeline) stage None))
    (mkDbWorkflow "WAIT_FOR_PICKUP" "" "" [] 100) ∅.

Definition finished_with (st : Workflow_Status) : DbClusterState :=
  mkDbClusterState (mkDbClusters blob_none blob_none) None (mkDbWorkflow (enum_String st) "" "" [] 100) ∅.

Definition scheduled_config (checksum : option string) (state : Manifest_State) (cl : gmap string DbClusterState) : DbConfig :=
  mkDbConfig 1 "m" (mkKubernetesContext "" "") (mkDbManifest "" checksum None (enum_String state) "") cl.

Lemma manifest_finishes_with_its_clusters_witness :
  let cfg := scheduled_config (Some "a") Scheduled {["prod" := finished_with DONE; "dev" := finished_with ERROR]} in
  let s : gmap string DbConfig := {["m" := cfg]} in
  ∃ s' sent d, watch_scheduled 5 s cfg = Ret (s', sent) ∧ s' !! "m" = Some d ∧
    Db_ManifestState (Db_Manifest d) = "Error".
Proof.
  intros cfg s.
  assert (Hc : match watch_scheduled 5 s cfg with
               | Ret (s', _) => ((λ d, Db_ManifestState (Db_Manifest d)) <$> s' !! "m") = Some "Error"
               | _ => False end) by (vm_compute; reflexivity).
  destruct (watch_scheduled 5 s cfg) as [[s' sent]|?|?] eqn:E; [|destruct Hc..].
  destruct (manifest_finishes_with_its_clusters 5 s s' cfg sent (lookup_singleton_eq _ _) eq_refl E) as [_ (d & Hd & Hst)].
  change (s' !! "m" = Some d) in Hd. rewrite Hd in Hc. injection Hc as Hc.
  exists s', sent, d. split; [reflexivity|]. split; [exact Hd|].
  destruct Hst as [Hst|(_ & _ & Hst)]; [|exact Hst]. rewrite Hc in Hst. discriminate Hst.
Defined.

Lemma one_stage_handed_over_witness :
  let cfg := scheduled_config (Some "a") Scheduled {["prod" := waiting 0; "dev" := waiting 1]} in
  let s : gmap string DbConfig := {["m" := cfg]} in
  ∃ s' m, watch_scheduled 5 s cfg = Ret (s', [m]) ∧ handed_over cfg m s s'.
Proof.
  intros cfg s.
  assert (Hc : match watch_scheduled 5 s cfg with Ret (_, [_]) => true | _ => false end = true)
    by (vm_compute; reflexivity).
  destruct (watch_scheduled 5 s cfg) as [[s' sent]|?|?] eqn:E; [|discriminate Hc..].
  destruct (one_stage_handed_over 5 s s' cfg sent) as [->|(m & -> & Hm)];
    [|apply lookup_singleton_eq|exact E|discriminate Hc|].
  - intros s0 c e. unfold UpdateConfig. simpl. unfold Mongo_UpdateConfig. simpl.
    destruct (s0 !! Db_Name c); [case_bool_decide|]; discriminate.
  - exists s', m. split; [reflexivity|exact Hm].
Defined.

Lemma idle_documents_progress_witness :
  let cfg := scheduled_config (Some "a") Done {["prod" := waiting 0; "dev" := finished_with DONE]} in
  let s : gmap string DbConfig := {["m" := cfg]} in
  ∃ d, watch_idle 5 s cfg !! "m" = Some d ∧ Db_Clusters d !! "dev" = None.
Proof.
  intros cfg s. destruct (idle_documents_progress 5 s cfg (lookup_singleton_eq _ _)) as [_ Hd].
  assert (Hc : ((λ d, Db_ManifestState (Db_Manifest d)) <$> watch_idle 5 s cfg !! "m") = Some "Pending")
    by (vm_compute; reflexivity).
  destruct (watch_idle 5 s cfg !! "m") as [d|] eqn:E; [|discriminate Hc].
  exists d. split; [reflexivity|].
  change (contents (watch_idle 5 s cfg) !! Db_Name cfg) with (watch_idle 5 s cfg !! "m") in Hd. rewrite E in Hd.
  destruct Hd as [->|(_ & _ & Hk)]; [discriminate Hc|]. rewrite Hk. reflexivity.
Defined.

End Watchers.
