(* ===== verification/Pending.v ===== *)
(** * Pending documents (WatchForPendingDocuments of service/watchers.go)

    The pass over the pending configurations: the desired state is computed
    from the manifest, every cluster is reconciled, and the configuration is
    scheduled. *)

From stdpp Require Import base gmap strings list.
From S2P Require Import Prelude Spec SpecUtils Samples Store NodePools Consume Diff GenerateState Cidr ExistingState Manifest Validate DesiredState Schedule Health ScheduleKubernetes ScheduleLoadBalancers Unreachable Union ManagementCluster Reconcile Watchers.
Import Store Consume GenerateState Health DesiredState ManagementCluster Reconcile Watchers.

Module PendingDocuments.

Definition set_Config_Manifest (c : Config) (m : Manifest) : Config :=
  mkConfig (Config_Version c) (Config_Name c) (Config_K8SCtx c) m (Config_Clusters c).

Section pending.
Context `{Codec} `{RangeOrder} `{Entropy} `{Git} `{Yaml} `{Network} `{Deployment} {T : Type} `{!Store T} `{!Crud T}.

(** The manifest after the result of the reconciliation. *)
Definition scheduled_manifest (now : Z) (result : ScheduleResult) (m : Manifest) : Manifest :=
  match result with
  | Noop | NotReady => m
  | Reschedule => mkManifest (Manifest_Raw m) (Manifest_Checksum m) (Manifest_LastAppliedChecksum m) Scheduled now
  | NoReschedule => mkManifest (Manifest_Raw m) (Manifest_Checksum m) (Manifest_Checksum m) Scheduled now
  end.

(** One configuration.  A failed write is only logged; whatever it drew, a
    configuration that is skipped leaves the store as it is. *)
Definition watch_pending (now : Z) (fuel : nat) (TimeForNodeDeletion ticks : Z) (uuid : string → nat → string)
    (s : T) (cfg : DbConfig) : draws T := λ i,
  match ConvertToGRPC cfg with
  | Panic w => Panic w
  | Fail _ => Ret (s, i)
  | Ret pending =>
      match createDesiredState pending i with
      | Panic w => Panic w
      | Fail _ => Ret (s, i)
      | Ret (desiredState, i) =>
          match ValidStateTransitionString (enum_String (Manifest_State_ (Config_Manifest pending))) Scheduled with
          | Ret true =>
              let* (r, i) := reconciliate now fuel TimeForNodeDeletion ticks uuid pending desiredState i in
              let '(result, pending) := r in
              match result with
              | Noop => Ret (s, i)
              | _ =>
                  match ConvertFromGRPC now
                          (set_Config_Manifest pending (scheduled_manifest now result (Config_Manifest pending))) with
                  | Panic w => Panic w
                  | Fail _ => Ret (s, i)
                  | Ret modified => Ret ((UpdateConfig s modified).1, i)
                  end
              end
          | _ => Ret (s, i)
          end
      end
  end.

Fixpoint watch_all_pending (f : T → DbConfig → draws T) (s : T) (cfgs : list DbConfig) : draws T := λ i,
  match cfgs with
  | [] => Ret (s, i)
  | cfg :: cfgs => let* (s, i) := f s cfg i in watch_all_pending f s cfgs i
  end.

Definition WatchForPendingDocuments (now : Z) (fuel : nat) (TimeForNodeDeletion ticks : Z) (uuid : string → string → nat → string)
    (s : T) : draws T := λ i,
  match ListConfigs s [enum_String Pending] with
  | inr _ => Fail "failed to list configs"
  | inl cfgs => watch_all_pending (λ s cfg, watch_pending now fuel TimeForNodeDeletion ticks (uuid (Db_Name cfg)) s cfg) s cfgs i
  end.

(** ** All clusters *)

Lemma reconcile_all_spec (f : string → ClusterState → draws (ScheduleResult * ClusterState)) l i rs m j :
  reconcile_all f l i = Ret ((rs, m), j) → NoDup l.*1 →
  (∀ r, r ∈ rs → ∃ k st st' i j, (k, st) ∈ l ∧ f k st i = Ret ((r, st'), j) ∧ m !! k = Some st') ∧
  (∀ k st', m !! k = Some st' → ∃ r st i j, r ∈ rs ∧ (k, st) ∈ l ∧ f k st i = Ret ((r, st'), j)).
Proof.
  revert i rs m j. induction l as [|[k st] l IH]; intros i rs m j; cbn [reconcile_all].
  { intros [= <- <- <-] _. split; [intros r Hr; by apply not_elem_of_nil in Hr|done]. }
  intros E Hnd. bind_inv E. destruct x as [[r st'] i1]. bind_inv E. destruct x as [[rs1 m1] i2]. injection E as <- <- <-.
  simpl in Hnd. apply NoDup_cons in Hnd as [Hk Hnd]. destruct (IH _ _ _ _ Hx0 Hnd) as [IH1 IH2]. simpl. split.
  - intros r' [->|Hr]%elem_of_cons.
    + exists k, st, st', i, i1. split_and!; [by left|done|apply lookup_insert_eq].
    + destruct (IH1 r' Hr) as (k' & s1 & s2 & i' & j' & Hin & Hf & Hm). exists k', s1, s2, i', j'.
      split_and!; [by right|done|]. rewrite lookup_insert_ne; [done|]. intros <-. apply Hk.
      apply list_elem_of_fmap. by exists (k, s1).
  - intros k' s2. destruct (decide (k = k')) as [<-|Hne].
    + rewrite lookup_insert_eq. intros [= <-]. exists r, st, i, i1. split_and!; [by left|by left|done].
    + rewrite lookup_insert_ne by done. intros (r' & s1 & i' & j' & ? & ? & ?)%IH2. exists r', s1, i', j'.
      split_and!; [by right|by right|done].
Qed.

(** Whether there is a cluster to work on. *)
Lemma final_result_Reschedule rs : final_result rs = Reschedule → ∃ r, r ∈ rs ∧ (r = Reschedule ∨ r = NoReschedule).
Proof.
  unfold final_result. destruct (contains rs Reschedule) eqn:E1; [apply contains_spec in E1; eauto|].
  destruct (contains rs NotReady) eqn:E2; [done|]. apply contains_false in E1, E2.
  case_bool_decide as E3; [done|]. case_bool_decide as E4; [done|]. intros _.
  destruct (decide (NoReschedule ∈ rs)) as [?|E5]; [eauto|]. destruct E4. apply Forall_forall. intros [] Hr; done.
Qed.

Lemma final_result_NoReschedule rs r : final_result rs = NoReschedule → r ∈ rs → r = NoReschedule.
Proof.
  unfold final_result. destruct (contains rs Reschedule) eqn:E1; [done|]. destruct (contains rs NotReady) eqn:E2; [done|].
  case_bool_decide as E3; [|by case_bool_decide]. intros _ Hr. by eapply Forall_forall in E3.
Qed.

Lemma final_result_NotReady rs : final_result rs = NotReady → Reschedule ∉ rs.
Proof.
  unfold final_result. destruct (contains rs Reschedule) eqn:E1; [done|]. by apply contains_false in E1.
Qed.

(** What the reconciliation says of the clusters it returns. *)
Lemma reconciliate_spec now fuel T0 ticks uuid pending desired i result pending' j :
  reconciliate now fuel T0 ticks uuid pending desired i = Ret ((result, pending'), j) →
  (Config_Version pending' = Config_Version pending ∧ Config_Name pending' = Config_Name pending ∧
   Config_Manifest pending' = Config_Manifest pending) ∧
  match result with
  | Reschedule => ∃ k st, Config_Clusters pending' !! k = Some st ∧ Workflow_Status_ <$> State st = Some WAIT_FOR_PICKUP
  | NoReschedule => ∀ k st, Config_Clusters pending' !! k = Some st → is_nil (Current st) = true ∧ InFlight st = None
  | _ => True
  end.
Proof.
  unfold reconciliate. intros E. bind_inv E. destruct x as [[rs m] i1]. injection E as <- <- <-. split; [done|]. simpl.
  apply reconcile_all_spec in Hx as [S1 S2]; [|apply NoDup_range_fst].
  destruct (final_result rs) eqn:Ef; [| |done..].
  - apply final_result_Reschedule in Ef as (r & Hr & Hcase).
    destruct (S1 r Hr) as (k & st & st' & i' & j' & _ & Hf & Hm). apply reconcile_cluster_iteration in Hf as [_ Hf].
    exists k, st'. split; [done|]. destruct Hcase as [-> | ->]; [by destruct Hf|]. by destruct Hf as (_ & _ & _ & ->).
  - intros k st Hk. destruct (S2 k st Hk) as (r & st0 & i' & j' & Hr & _ & Hf).
    rewrite (final_result_NoReschedule _ _ Ef Hr) in Hf. apply reconcile_cluster_iteration in Hf as [_ (Hn & _ & Hi & ->)].
    done.
Qed.

(** What is stored of a cluster without infrastructure and without a task. *)
Lemma stored_destroyed now st c :
  is_nil (Current st) = true → InFlight st = None → ConvertFromGRPCClusterState now st = Ret c → destroyed c = true.
Proof.
  intros Hn Hi. unfold ConvertFromGRPCClusterState, ConvertFromGRPCClusters, or_fail. rewrite Hi.
  assert (Hk : Current st ≫= K8S = None ∧ match Current st with Some c => LoadBalancers c | None => [] end = []).
  { unfold is_nil in Hn. destruct (Current st) as [cs|]; [|done]. simpl.
    apply andb_true_iff in Hn as [Hk%bool_decide_eq_true Hl%bool_decide_eq_true]. done. }
  destruct Hk as [-> ->]. destruct (marshal_k8s None) as [kb|] eqn:Ek; simpl; [|done].
  destruct (marshal_lbs []) as [lb|] eqn:El; simpl; [|done]. intros E. bind_inv E. subst c.
  unfold destroyed. simpl. rewrite (k8s_nil _ Ek). apply lbs_roundtrip in El as [_ El]. rewrite (proj2 El eq_refl). done.
Qed.

Lemma stored_status now st c w :
  State st = Some w → ConvertFromGRPCClusterState now st = Ret c → Db_Status (Db_State c) = enum_String (Workflow_Status_ w).
Proof. intros Hs. unfold ConvertFromGRPCClusterState. intros E. bind_inv E. subst c. rewrite Hs in Hx1. by injection Hx1 as <-. Qed.

(** The three ways a pending document is written. *)
Definition scheduled_as (cfg d : DbConfig) : Prop :=
  let m := Db_Manifest cfg in
  let m' := Db_Manifest d in
  Db_Raw m' = Db_Raw m ∧ Db_Checksum m' = Db_Checksum m ∧
  ((Db_ManifestState m' = enum_String Pending ∧ Db_LastAppliedChecksum m' = Db_LastAppliedChecksum m) ∨
   (Db_ManifestState m' = enum_String Scheduled ∧ Db_LastAppliedChecksum m' = Db_LastAppliedChecksum m ∧
    ∃ k c, Db_Clusters d !! k = Some c ∧ is_status WAIT_FOR_PICKUP c = true) ∨
   (Db_ManifestState m' = enum_String Scheduled ∧ Db_LastAppliedChecksum m' = Db_Checksum m ∧
    ∀ k c, Db_Clusters d !! k = Some c → destroyed c = true)).

Lemma modified_scheduled now fuel T0 ticks uuid cfg pending desired i result pending' j modified :
  ConvertToGRPC cfg = Ret pending → Db_ManifestState (Db_Manifest cfg) = enum_String Pending →
  reconciliate now fuel T0 ticks uuid pending desired i = Ret ((result, pending'), j) →
  ConvertFromGRPC now (set_Config_Manifest pending' (scheduled_manifest now result (Config_Manifest pending'))) = Ret modified →
  Db_Name modified = Db_Name cfg ∧ scheduled_as cfg modified.
Proof.
  intros Hto Hp Hr Hfrom. apply reconciliate_spec in Hr as [(Hver & Hname & Hm) Hr].
  unfold ConvertToGRPC in Hto. bind_inv Hto. subst pending. simpl in *.
  unfold ConvertFromGRPC in Hfrom. bind_inv Hfrom. subst modified. rename x0 into clusters.
  pose proof (convert_map_lookup _ _ _ _ Hx0) as Hl. simpl in *. split; [done|]. unfold scheduled_as. simpl. rewrite Hm. simpl.
  destruct result; simpl; rewrite ?Hm; simpl; (split_and!; [done..|]).
  - right. left. split_and!; [done..|]. destruct Hr as (k & st & Hk & Hst). specialize (Hl k). rewrite Hk in Hl.
    destruct (clusters !! k) as [c|] eqn:Ec; [|done]. exists k, c. split; [done|].
    apply fmap_Some in Hst as (w & Hw & Hs). unfold is_status. apply bool_decide_eq_true.
    by rewrite (stored_status _ _ _ _ Hw Hl), <- Hs.
  - right. right. split_and!; [done..|]. intros k c Hc. specialize (Hl k). rewrite Hc in Hl.
    destruct (Config_Clusters pending' !! k) as [st|] eqn:Ek; [|done]. destruct (Hr k st Ek). by eapply stored_destroyed.
  - left. split; [|done]. by rewrite Hp.
  - left. split; [|done]. by rewrite Hp.
Qed.

Definition progressed (s s' : T) (cfg : DbConfig) : Prop :=
  (∀ n, n ≠ Db_Name cfg → contents s' !! n = contents s !! n) ∧
  ∃ d, contents s' !! Db_Name cfg = Some d ∧ (d = cfg ∨ scheduled_as cfg d).

Lemma kept_progress s cfg : contents s !! Db_Name cfg = Some cfg → progressed s s cfg.
Proof. intros Hs. split; [done|]. exists cfg. by split; [|left]. Qed.

Lemma written_progress s cfg modified :
  contents s !! Db_Name cfg = Some cfg → Db_Name modified = Db_Name cfg → scheduled_as cfg modified →
  progressed s (UpdateConfig s modified).1 cfg.
Proof.
  intros Hs Hname Hm. pose proof (update_contents s modified) as Hu. unfold update in Hu.
  assert (Hc : contents (UpdateConfig s modified).1 = contents s ∨
               contents (UpdateConfig s modified).1 = <[Db_Name modified := bumped modified]> (contents s)).
  { destruct (UpdateConfig s modified) as [s' [e|]]; simpl in *; tauto. }
  unfold progressed. destruct Hc as [-> | ->]; [by apply kept_progress|]. rewrite Hname. split.
  - intros n Hn. by rewrite lookup_insert_ne.
  - exists (bumped modified). rewrite lookup_insert_eq. split; [done|]. by right.
Qed.

(** C15: What becomes of a pending document: no other document is touched; its
    manifest and checksum stay; it stays pending, or it is scheduled with a
    cluster that waits for pickup, or it is scheduled with the manifest
    recorded as applied, which happens only when none of its clusters has any
    infrastructure or task left. *)
Theorem pending_documents_progress (now : Z) (fuel : nat) (T0 ticks : Z) (uuid : string → nat → string) (s s' : T) (cfg : DbConfig)
    (i j : nat) :
  contents s !! Db_Name cfg = Some cfg → Db_ManifestState (Db_Manifest cfg) = enum_String Pending →
  watch_pending now fuel T0 ticks uuid s cfg i = Ret (s', j) →
  progressed s s' cfg.
Proof.
  intros Hs Hp. unfold watch_pending.
  destruct (ConvertToGRPC cfg) as [pending|?|?] eqn:Hto; [|intros [= <- _]; by apply kept_progress|done].
  destruct (createDesiredState pending i) as [[desired i0]|?|?]; [|intros [= <- _]; by apply kept_progress|done].
  destruct (ValidStateTransitionString _ _) as [[]|?|?] eqn:Hv; [|intros [= <- _]; by apply kept_progress..].
  intros E. bind_inv E. destruct x as [[result pending'] i1].
  pose proof (modified_scheduled now fuel T0 ticks uuid cfg pending desired i0 result pending' i1) as Hmod.
  destruct result; try (injection E as <- _; by apply kept_progress);
    (destruct (ConvertFromGRPC now _) as [modified|?|?] eqn:Hfrom; [|injection E as <- _; by apply kept_progress|done]);
    injection E as <- _; destruct (Hmod modified Hto Hp Hx eq_refl) as [Hname Hsch]; by apply written_progress.
Qed.

End pending.

(** *** Instances *)

#[local] Existing Instance claudie.

(** A configuration that was removed while its cluster is running. *)
Lemma pending_documents_progress_witness :
  let cfg := scheduled_config None Pending {["prod" := waiting 0]} in
  let s : gmap string DbConfig := {["m" := cfg]} in
  let yaml : Yaml := yaml_of (Validate.sample_manifest [] []) in
  ∃ s' j, watch_pending 5 0 600 20 (λ _ _, "id") s cfg 0 = Ret (s', j) ∧ progressed s s' cfg.
Proof.
  intros cfg s yaml.
  assert (Hc : match watch_pending 5 0 600 20 (λ _ _, "id") s cfg 0 with Ret _ => true | _ => false end = true)
    by (vm_compute; reflexivity).
  destruct (watch_pending 5 0 600 20 (λ _ _, "id") s cfg 0) as [[s' j]|?|?] eqn:E; [|discriminate Hc..].
  exists s', j. split; [reflexivity|].
  exact (pending_documents_progress 5 0 600 20 (λ _ _, "id") s s' cfg 0 j (lookup_singleton_eq _ _) eq_refl E).
Defined.

End PendingDocuments.
