(* ===== verification/Handlers.v ===== *)
(** * The gRPC handlers of the manager (service/handler_*.go)

    The requests that create, change and remove configurations, and those of
    the autoscaler that change a single node pool.  A handler returns the
    store after the call and a response or the code of an error. *)

From stdpp Require Import base gmap strings list.
From S2P Require Import Prelude Spec SpecUtils Samples Store NodePools GenerateState Manifest Validate DesiredState Watchers.
Import Store NodePools Manifest.Manifest DesiredState Watchers.

(** [codes.Code] *)
Inductive rpc_code := InvalidArgument | NotFound | Internal | Aborted.
#[export] Instance rpc_code_eq_dec : EqDecision rpc_code.
Proof. solve_decision. Defined.

Module Handlers.

(** ** Requests of the autoscaler *)

Section pools.
Context `{Codec} `{RangeOrder} {T : Type} `{!Store T}.

(** The pool named [np] of the kubernetes cluster or of a load balancer. *)
Definition locate (lb : option string) (np : string) (c : Clusters) : outcome (NodePool + rpc_code) :=
  let found nps := match FindByName np nps with Some p => inl p | None => inr NotFound end in
  match lb with
  | None => let* k := deref (K8S c) in Ret (found (K8s_NodePools k))
  | Some id =>
      match IndexLoadbalancerById id (LoadBalancers c) with
      | None => Ret (inr Internal)
      | Some idx => let* l := index (LoadBalancers c) idx in Ret (found (LB_NodePools l))
      end
  end.

(** A change of that pool through its pointer. *)
Definition change_pool (lb : option string) (np : string) (f : NodePool → NodePool) (c : Clusters) : Clusters :=
  match lb with
  | None => mkClusters ((λ k, set_K8s_NodePools k (update_nodepool np f (K8s_NodePools k))) <$> K8S c) (LoadBalancers c)
  | Some id =>
      mkClusters (K8S c) (update_first (λ l, bool_decide (LB_Id l = id))
                            (λ l, set_LB_NodePools l (update_nodepool np f (LB_NodePools l))) (LoadBalancers c))
  end.

(** [edit] decides on the pool: the changed pool and the target size that is
    reported, or an error. *)
Definition edit_pool (now : Z) (s : T) (config cluster : string) (lb : option string) (np : string)
    (edit : NodePool → (NodePool * Z) + rpc_code) : outcome (T * (Z + rpc_code)) :=
  match GetConfig s config with
  | inr ErrNotFoundOrDirty => Ret (s, inr NotFound)
  | inr (ErrOther _) => Ret (s, inr Internal)
  | inl cfg =>
      let cs := Db_Clusters cfg !! cluster in
      if negb (Exists cs) then Ret (s, inr NotFound)
      else
        let* cs := deref cs in
        match Db_InFlight cs with
        | Some _ => Ret (s, inr Internal)
        | None =>
            match ConvertToGRPCClusterState cs with
            | Panic w => Panic w
            | Fail _ => Ret (s, inr Internal)
            | Ret state =>
                let* current := deref (Current state) in
                let* r := locate lb np current in
                match r with
                | inr code => Ret (s, inr code)
                | inl nodepool =>
                    match edit nodepool with
                    | inr code => Ret (s, inr code)
                    | inl (changed, size) =>
                        match ConvertFromGRPCClusterState now
                                (set_Current state (Some (change_pool lb np (λ _, changed) current))) with
                        | Panic w => Panic w
                        | Fail _ => Ret (s, inr Internal)
                        | Ret db =>
                            match UpdateConfig s (put_cluster cfg cluster db) with
                            | (s, None) => Ret (s, inl size)
                            | (s, Some ErrNotFoundOrDirty) => Ret (s, inr Aborted)
                            | (s, Some (ErrOther _)) => Ret (s, inr Internal)
                            end
                        end
                    end
                end
            end
        end
  end.

(** The pool with another autoscaler target. *)
Definition set_target (np : NodePool) (d : DynamicNodePool) (a : AutoscalerConf) (target : Z) : NodePool :=
  set_NodePool_Type np (NodePool_DynamicNodePool (set_Dyn_Autoscaler d (Some (set_Autoscaler_TargetSize a target)))).

Definition edit_target (target : Z) (np : NodePool) : (NodePool * Z) + rpc_code :=
  match GetDynamicNodePool np with
  | None => inl (np, int32 (Z.of_nat (length (NodePool_Nodes np))))
  | Some d =>
      match Dyn_AutoscalerConfig d with
      | None => inl (np, Dyn_Count d)
      | Some a =>
          if bool_decide (target < Autoscaler_Min a)%Z then inr InvalidArgument
          else if bool_decide (Autoscaler_Max a < target)%Z then inr InvalidArgument
          else inl (set_target np d a target, target)
      end
  end.

Definition NodePoolUpdateTargetSize (now : Z) (s : T) (config cluster np : string) (lb : option string) (target : Z)
    : outcome (T * (Z + rpc_code)) :=
  if bool_decide (config = "") || bool_decide (cluster = "") || bool_decide (np = "") then Ret (s, inr InvalidArgument)
  else edit_pool now s config cluster lb np (edit_target target).

(** The node is looked for first, the autoscaler may still refuse. *)
Definition mark_node (node : string) (np : NodePool) : NodePool :=
  set_NodePool_Nodes np (update_first (is_node node) (λ n, set_Node_Status n MarkedForDeletion) (NodePool_Nodes np)).

Definition edit_mark (node : string) (decrement : bool) (np : NodePool) : (NodePool * Z) + rpc_code :=
  if negb (existsb (is_node node) (NodePool_Nodes np)) then inr NotFound
  else match GetDynamicNodePool np with
  | None => inl (mark_node node np, Z.of_nat (length (NodePool_Nodes np)))
  | Some d =>
      match Dyn_AutoscalerConfig d with
      | None => inl (mark_node node np, Dyn_Count d)
      | Some a =>
          if decrement then
            let target := int32 (Autoscaler_TargetSize a - 1) in
            if bool_decide (target < Autoscaler_Min a)%Z then inr InvalidArgument
            else inl (mark_node node (set_target np d a target), target)
          else inl (mark_node node np, Autoscaler_TargetSize a)
      end
  end.

Definition MarkNodeForDeletion (now : Z) (s : T) (config cluster np node : string) (lb : option string) (decrement : bool)
    : outcome (T * (Z + rpc_code)) :=
  if bool_decide (config = "") || bool_decide (cluster = "") || bool_decide (np = "") || bool_decide (node = "")
  then Ret (s, inr InvalidArgument)
  else edit_pool now s config cluster lb np (edit_mark node decrement).

End pools.

(** ** Configurations *)

Section configs.
Context `{Codec} `{RangeOrder} `{Yaml} (Digest : string → string) {T : Type} `{!Store T} `{!Crud T}.

Definition collectIPs (m : InputManifest) : gset string :=
  list_to_set (M_Static m ≫= λ snp, SN_Endpoint <$> SP_Nodes snp).

Definition ipMatch (first second : gset string) : bool := negb (bool_decide (first ∩ second = ∅)).

Fixpoint validateStaticNodePools (m : InputManifest) (allConfigs : list DbConfig) : outcome unit :=
  match allConfigs with
  | [] => Ret ()
  | cfg :: allConfigs =>
      if bool_decide (Db_Name cfg = M_Name m) then validateStaticNodePools m allConfigs
      else
        let* other := Validate.wrap "failed to unmarshal manifest: " (Unmarshal (Db_Raw (Db_Manifest cfg))) in
        if ipMatch (collectIPs m) (collectIPs other) then Fail "reference to the same static node is already in use"
        else validateStaticNodePools m allConfigs
  end.

(** [manifest] is the raw manifest and the state of the request, [None] when
    there is none.  A configuration that is new is stored as it is. *)
Definition UpsertManifest (now : Z) (s : T) (name : string) (ctx : KubernetesContext) (manifest : option (string * Manifest_State))
    : outcome (T * ((string * Z) + rpc_code)) :=
  match manifest with
  | None => Ret (s, inr InvalidArgument)
  | Some (raw, state) =>
      if bool_decide (name = "") || bool_decide (raw = "") then Ret (s, inr InvalidArgument)
      else
        let checksum := Some (Digest raw) in
        match GetConfig s name with
        | inr (ErrOther _) => Ret (s, inr Internal)
        | inr ErrNotFoundOrDirty =>
            let newConfig := mkDbConfig 0 name ctx (mkDbManifest raw checksum None (enum_String state) (format_time now)) ∅ in
            match CreateConfig s newConfig with
            | (s, None) => Ret (s, inl (name, 0%Z))
            | (s, Some _) => Ret (s, inr Internal)
            end
        | inl cfg =>
            let m := Db_Manifest cfg in
            let cfg := if bytes_equal (Db_Checksum m) checksum then cfg
                       else mkDbConfig (Db_Version cfg) (Db_Name cfg) ctx
                              (mkDbManifest raw checksum (Db_LastAppliedChecksum m) (Db_ManifestState m) (Db_StateTimestamp m))
                              (Db_Clusters cfg) in
            match ListConfigs s [] with
            | inr _ => Ret (s, inr Internal)
            | inl all =>
                match (let* parsed := Unmarshal raw in validateStaticNodePools parsed all) with
                | Panic w => Panic w
                | Fail _ => Ret (s, inr Internal)
                | Ret _ =>
                    match UpdateConfig s cfg with
                    | (s, None) => Ret (s, inl (Db_Name cfg, Db_Version (bumped cfg)))
                    | (s, Some ErrNotFoundOrDirty) => Ret (s, inr Aborted)
                    | (s, Some (ErrOther _)) => Ret (s, inr Internal)
                    end
                end
            end
        end
  end.

(** [digest] is that of the word delete. *)
Definition MarkForDeletion_ {digest : string} `{!Marking T digest} (s : T) (name : string) (version : Z)
    : T * ((string * Z) + rpc_code) :=
  match MarkForDeletion s name version with
  | (s, None) => (s, inl (name, version))
  | (s, Some (ErrOther _)) => (s, inr Internal)
  | (s, Some ErrNotFoundOrDirty) =>
      match GetConfig s name with
      | inr (ErrOther _) => (s, inr Internal)
      | inr ErrNotFoundOrDirty => (s, inr NotFound)
      | inl _ => (s, inr Aborted)
      end
  end.

Definition GetConfig_ (s : T) (name : string) : outcome (Config + rpc_code) :=
  match GetConfig s name with
  | inr ErrNotFoundOrDirty => Ret (inr NotFound)
  | inr (ErrOther _) => Ret (inr Internal)
  | inl cfg =>
      match ConvertToGRPC cfg with
      | Panic w => Panic w
      | Fail _ => Ret (inr Internal)
      | Ret c => Ret (inl c)
      end
  end.

Definition ListConfigs_ (s : T) : outcome (list Config + rpc_code) :=
  match ListConfigs s [] with
  | inr _ => Ret (inr Internal)
  | inl cfgs =>
      match convert_all ConvertToGRPC cfgs with
      | Panic w => Panic w
      | Fail _ => Ret (inr Internal)
      | Ret out => Ret (inl out)
      end
  end.

End configs.

(** ** What a request changes *)

Section changes.
Context `{Codec} `{RangeOrder} {T : Type} `{!Store T}.

(** The state of a cluster that is read has its parts set. *)
Lemma read_state_storable cs state :
  ConvertToGRPCClusterState cs = Ret state →
  ∃ current w, Current state = Some current ∧ State state = Some w ∧ (K8S current = None → LoadBalancers current = []).
Proof.
  unfold ConvertToGRPCClusterState, ConvertToGRPCClusters. intros E. bind_inv E. subst state. simpl.
  exists x0. eexists. split; [done|]. split; [done|]. destruct (len0 (Db_K8s _)); [by injection Hx0 as <-|].
  bind_inv Hx0. by subst x0.
Qed.

Lemma change_pool_none lb np f c : K8S (change_pool lb np f c) = None → K8S c = None.
Proof. destruct lb; simpl; [done|]. by destruct (K8S c). Qed.

(** The stored document after a change of one pool, and what is read of it. *)
Definition pool_changed (s s' : T) (config cluster : string) (lb : option string) (np : string) (changed : NodePool → NodePool → Prop) : Prop :=
  ∃ cfg d cs cs' state current pool pool',
    contents s !! config = Some cfg ∧ contents s' = <[Db_Name cfg := d]> (contents s) ∧
    Db_Manifest d = Db_Manifest cfg ∧ (∀ k, k ≠ cluster → Db_Clusters d !! k = Db_Clusters cfg !! k) ∧
    Db_Clusters cfg !! cluster = Some cs ∧ Db_Clusters d !! cluster = Some cs' ∧ Db_InFlight cs = None ∧
    ConvertToGRPCClusterState cs = Ret state ∧ Current state = Some current ∧ locate lb np current = Ret (inl pool) ∧
    ConvertToGRPCClusterState cs' = Ret (whole_state (set_Current state (Some (change_pool lb np (λ _, pool') current)))) ∧
    changed pool pool'.

Lemma edit_pool_Ret now s config cluster lb np edit s' r :
  edit_pool now s config cluster lb np edit = Ret (s', r) →
  match r with
  | inl size => pool_changed s s' config cluster lb np (λ pool pool', edit pool = inl (pool', size))
  | inr Internal => True
  | inr _ => contents s' = contents s
  end.
Proof.
  unfold edit_pool. destruct (GetConfig s config) as [cfg|[|e]] eqn:Eg; [|by intros [= <- <-]..].
  destruct (Exists (Db_Clusters cfg !! cluster)) eqn:Ee; [|by intros [= <- <-]]. simpl.
  destruct (Db_Clusters cfg !! cluster) as [cs|] eqn:Ec; simpl; [|done].
  destruct (Db_InFlight cs) eqn:Ei; [by intros [= <- <-]|].
  destruct (ConvertToGRPCClusterState cs) as [state|?|?] eqn:Et; [|by intros [= <- <-]|done].
  destruct (read_state_storable _ _ Et) as (current & w & Hc & Hw & Hk). rewrite Hc. simpl. intros E. bind_inv E.
  destruct x as [pool|code]; [|injection E as <- <-; by destruct code].
  destruct (edit pool) as [[pool' size]|code] eqn:Eed; [|injection E as <- <-; by destruct code].
  destruct (ConvertFromGRPCClusterState now _) as [db|?|?] eqn:Ef; [|by injection E as <- <-|done].
  destruct (UpdateConfig s _) as [s2 [[|e]|]] eqn:Eu; injection E as <- <-; [by apply UpdateConfig_dirty in Eu as [_ ->]|done|].
  apply UpdateConfig_ok in Eu as [_ Eu]. apply GetConfig_ok in Eg.
  exists cfg, (bumped (put_cluster cfg cluster db)), cs, db, state, current, pool, pool'.
  split_and!; try done.
  - intros k Hne. simpl. by rewrite lookup_insert_ne.
  - simpl. by rewrite lookup_insert_eq.
  - eapply cluster_state_roundtrip; [|exact Ef]. exists (change_pool lb np (λ _, pool') current), w.
    split_and!; [done|done|]. intros Hn. pose proof (change_pool_none _ _ _ _ Hn) as Hn'. specialize (Hk Hn').
    destruct lb; simpl; by rewrite Hk.
Qed.

Lemma pool_changed_impl s s' config cluster lb np (P Q : NodePool → NodePool → Prop) :
  pool_changed s s' config cluster lb np P → (∀ p p', P p p' → Q p p') → pool_changed s s' config cluster lb np Q.
Proof.
  intros (cfg & d & cs & cs' & state & current & pool & pool' & Hp) Himp.
  exists cfg, d, cs, cs', state, current, pool, pool'. destruct_and! Hp. split_and!; auto.
Qed.

(** The target of an autoscaled pool is set within its limits, and nothing
    else of the pool changes; a pool that is not autoscaled stays as it is. *)
Definition retargeted (target size : Z) (pool pool' : NodePool) : Prop :=
  match GetDynamicNodePool pool ≫= Dyn_AutoscalerConfig with
  | Some a => (Autoscaler_Min a ≤ target ≤ Autoscaler_Max a)%Z ∧ size = target ∧
              ∃ d, GetDynamicNodePool pool = Some d ∧ pool' = set_target pool d a target
  | None => pool' = pool
  end.

Lemma edit_target_inl target pool pool' size : edit_target target pool = inl (pool', size) → retargeted target size pool pool'.
Proof.
  unfold edit_target, retargeted. destruct (GetDynamicNodePool pool) as [d|] eqn:Ed; simpl; [|by intros [= <- <-]].
  destruct (Dyn_AutoscalerConfig d) as [a|]; [|by intros [= <- <-]].
  case_bool_decide; [done|]. case_bool_decide; [done|]. intros [= <- <-]. split_and!; [lia..|done|]. by exists d.
Qed.

(** A request for a target size that is answered set the target of
    exactly the named pool of the named cluster, within the limits of its
    autoscaler: no other document, cluster or pool is touched, the manifest
    stays, and reading the cluster back gives the state before with that pool
    exchanged.  A request that is refused changes nothing, unless the
    database failed. *)
Lemma target_size_request (now : Z) (s s' : T) (config cluster np : string) (lb : option string) (target : Z) (r : Z + rpc_code) :
  NodePoolUpdateTargetSize now s config cluster np lb target = Ret (s', r) →
  match r with
  | inl size => pool_changed s s' config cluster lb np (retargeted target size)
  | inr Internal => True
  | inr _ => contents s' = contents s
  end.
Proof.
  unfold NodePoolUpdateTargetSize. destruct (_ || _); [by intros [= <- <-]|]. intros E%edit_pool_Ret.
  destruct r as [size|[]]; try exact E. eapply pool_changed_impl; [exact E|]. intros pool pool'. apply edit_target_inl.
Qed.

(** The first node of that name is marked and nothing else of the nodes
    changes; the target goes down by one, not below the limit, only when
    asked to, and only for an autoscaled pool. *)
Definition marked_in (node : string) (decrement : bool) (size : Z) (pool pool' : NodePool) : Prop :=
  node ∈ Node_Name <$> NodePool_Nodes pool ∧
  NodePool_Nodes pool' = update_first (is_node node) (λ n, set_Node_Status n MarkedForDeletion) (NodePool_Nodes pool) ∧
  match GetDynamicNodePool pool ≫= Dyn_AutoscalerConfig with
  | Some a =>
      if decrement
      then size = int32 (Autoscaler_TargetSize a - 1) ∧ (Autoscaler_Min a ≤ size)%Z ∧
           GetDynamicNodePool pool' ≫= Dyn_AutoscalerConfig = Some (set_Autoscaler_TargetSize a size)
      else size = Autoscaler_TargetSize a ∧ NodePool_Type pool' = NodePool_Type pool
  | None => NodePool_Type pool' = NodePool_Type pool
  end.

Lemma edit_mark_inl node decrement pool pool' size :
  edit_mark node decrement pool = inl (pool', size) → marked_in node decrement size pool pool'.
Proof.
  unfold edit_mark, marked_in. destruct (existsb _ _) eqn:Ee; simpl; [|done].
  apply existsb_exists in Ee as (n & Hn & Hname). apply bool_decide_eq_true in Hname as <-.
  apply list_elem_of_In in Hn. intros E. split; [by apply list_elem_of_fmap_2|]. revert E.
  destruct (GetDynamicNodePool pool) as [d|]; simpl; [|by intros [= <- <-]].
  destruct (Dyn_AutoscalerConfig d) as [a|]; [|by intros [= <- <-]].
  destruct decrement; [|by intros [= <- <-]]. case_bool_decide; [done|]. intros [= <- <-]. split_and!; [done..|lia|done].
Qed.

(** A request to mark a node that is answered marked exactly the named node
    of the named pool for deletion, and lowered the target of an autoscaled
    pool by one only when asked to and not below its minimum; no other
    document, cluster or pool is touched.  A request that is refused changes
    nothing, unless the database failed. *)
Lemma mark_node_request (now : Z) (s s' : T) (config cluster np node : string) (lb : option string) (decrement : bool)
    (r : Z + rpc_code) :
  MarkNodeForDeletion now s config cluster np node lb decrement = Ret (s', r) →
  match r with
  | inl size => pool_changed s s' config cluster lb np (marked_in node decrement size)
  | inr Internal => True
  | inr _ => contents s' = contents s
  end.
Proof.
  unfold MarkNodeForDeletion. destruct (_ || _); [by intros [= <- <-]|]. intros E%edit_pool_Ret.
  destruct r as [size|[]]; try exact E. eapply pool_changed_impl; [exact E|]. intros pool pool'. apply edit_mark_inl.
Qed.

End changes.

Section upsert.
Context `{Codec} `{RangeOrder} `{Yaml} (Digest : string → string) {T : Type} `{!Store T} `{!Crud T}.

Lemma validated_apart m cfgs c :
  validateStaticNodePools m cfgs = Ret () → c ∈ cfgs → Db_Name c ≠ M_Name m →
  ∃ other, Unmarshal (Db_Raw (Db_Manifest c)) = Ret other ∧ collectIPs m ## collectIPs other.
Proof.
  induction cfgs as [|c' cfgs IH]; simpl; [intros _ Hc; by apply not_elem_of_nil in Hc|].
  intros E [->|Hc]%elem_of_cons Hne.
  - rewrite bool_decide_eq_false_2 in E by done. bind_inv E.
    destruct (ipMatch _ _) eqn:Ei in E; [done|]. exists x. split; [by apply Validate.wrap_Ret in Hx|].
    unfold ipMatch in Ei. apply negb_false_iff, bool_decide_eq_true in Ei. by apply disjoint_intersection_L.
  - case_bool_decide; [by apply IH|]. bind_inv E. destruct (ipMatch _ _) in E; [done|]. by apply IH.
Qed.

(** A manifest that is accepted is stored under the name of the request.
    For a name that was free a pending document without clusters is created;
    otherwise the document gets the new manifest and checksum (or keeps the
    old, when the checksum is the same), its clusters, its state and what was
    applied last stay, and no static node of the manifest is used by another
    configuration. *)
Lemma upserted_manifest (now : Z) (s s' : T) (name : string) (ctx : KubernetesContext) (raw : string) (st : Manifest_State)
    (resp : string * Z) :
  UpsertManifest Digest now s name ctx (Some (raw, st)) = Ret (s', inl resp) →
  raw ≠ "" ∧
  ((contents s !! name = None ∧
    ∃ d, contents s' = <[name := d]> (contents s) ∧ Db_Clusters d = ∅ ∧
      Db_ManifestState (Db_Manifest d) = enum_String Pending ∧ Db_Raw (Db_Manifest d) = raw ∧
      Db_Checksum (Db_Manifest d) = Some (Digest raw) ∧ Db_LastAppliedChecksum (Db_Manifest d) = None) ∨
   (∃ cfg d m, contents s !! name = Some cfg ∧ contents s' = <[Db_Name cfg := d]> (contents s) ∧
      Db_Clusters d = Db_Clusters cfg ∧ Db_ManifestState (Db_Manifest d) = Db_ManifestState (Db_Manifest cfg) ∧
      Db_LastAppliedChecksum (Db_Manifest d) = Db_LastAppliedChecksum (Db_Manifest cfg) ∧
      bytes_equal (Db_Checksum (Db_Manifest d)) (Some (Digest raw)) = true ∧ Unmarshal raw = Ret m ∧
      ∀ c, contents s !! Db_Name c = Some c → Db_Name c ≠ M_Name m →
        ∃ other, Unmarshal (Db_Raw (Db_Manifest c)) = Ret other ∧ collectIPs m ## collectIPs other)).
Proof.
  unfold UpsertManifest. destruct (bool_decide (name = "") || bool_decide (raw = "")) eqn:Ei; [done|].
  apply orb_false_iff in Ei as [_ Er%bool_decide_eq_false]. intros E. split; [done|]. revert E.
  destruct (GetConfig s name) as [cfg|[|e]] eqn:Eg; [|..|done].
  - destruct (ListConfigs s []) as [all|] eqn:El; [|done].
    destruct (let* parsed := Unmarshal raw in validateStaticNodePools parsed all) as [[]|?|?] eqn:Ev; [|done..].
    set (cfg' := if bytes_equal _ _ then cfg else _).
    destruct (UpdateConfig s cfg') as [s2 [[|e]|]] eqn:Eu; intros [= <- _]. apply UpdateConfig_ok in Eu as [_ Eu].
    right. bind_inv Ev. apply GetConfig_ok in Eg. exists cfg, (bumped cfg'), x.
    assert (Hn : Db_Name cfg' = Db_Name cfg) by (unfold cfg'; by destruct (bytes_equal _ _)).
    rewrite Hn in Eu. split_and!; try done.
    1-4: unfold cfg'; destruct (bytes_equal _ _) eqn:Eb; simpl; try done.
    + unfold bytes_equal. by apply bool_decide_eq_true.
    + intros c Hc Hne. apply (validated_apart x all); [done| |done]. apply (ListConfigs_ok _ _ _ El). split; [done|by left].
  - destruct (CreateConfig s _) as [s2 [e|]] eqn:Ec; intros [= <- _]. apply CreateConfig_ok in Ec as [Hno Hc].
    left. simpl in *. split; [done|]. eexists. by split; [exact Hc|].
Qed.

End upsert.

(** *** Instances *)

Definition scaled : NodePool :=
  Samples.pool "auto-0000001" false (Samples.dyn 2 (Some (mkAutoscalerConf 1 5 2)) "t" "c1" "10.0.2.0/24")
    [Samples.node "auto-0000001-01" "5.5.5.1" worker; Samples.node "auto-0000001-02" "5.5.5.2" worker].

Definition running : DbClusterState :=
  mkDbClusterState (mkDbClusters (blob_k8s (Samples.k8s_with [Samples.ctrl; scaled])) blob_none) None
    (mkDbWorkflow "DONE" "" "" [] 100) ∅.

Definition running_config : DbConfig := scheduled_config (Some "a") Done {["prod" := running]}.
Definition running_store : gmap string DbConfig := {["m" := running_config]}.

Lemma target_size_request_witness :
  ∃ s', NodePoolUpdateTargetSize 5 running_store "m" "prod" "auto-0000001" None 4 = Ret (s', inl 4%Z) ∧
    pool_changed running_store s' "m" "prod" None "auto-0000001" (retargeted 4 4).
Proof.
  assert (Hc : match NodePoolUpdateTargetSize 5 running_store "m" "prod" "auto-0000001" None 4 with
               | Ret (_, inl size) => Z.eqb size 4 | _ => false end = true) by (vm_compute; reflexivity).
  destruct (NodePoolUpdateTargetSize 5 running_store "m" "prod" "auto-0000001" None 4) as [[s' [size|?]]|?|?] eqn:E;
    [|discriminate Hc..].
  apply Z.eqb_eq in Hc as ->.
  exists s'. split; [reflexivity|]. exact (target_size_request 5 running_store s' "m" "prod" "auto-0000001" None 4 (inl 4%Z) E).
Defined.

Lemma mark_node_request_witness :
  ∃ s' size, MarkNodeForDeletion 5 running_store "m" "prod" "auto-0000001" "auto-0000001-02" None true = Ret (s', inl size) ∧
    pool_changed running_store s' "m" "prod" None "auto-0000001" (marked_in "auto-0000001-02" true size).
Proof.
  assert (Hc : match MarkNodeForDeletion 5 running_store "m" "prod" "auto-0000001" "auto-0000001-02" None true with
               | Ret (_, inl _) => true | _ => false end = true) by (vm_compute; reflexivity).
  destruct (MarkNodeForDeletion 5 running_store "m" "prod" "auto-0000001" "auto-0000001-02" None true) as [[s' [size|?]]|?|?] eqn:E;
    [|discriminate Hc..].
  exists s', size. split; [reflexivity|].
  exact (mark_node_request 5 running_store s' "m" "prod" "auto-0000001" "auto-0000001-02" None true (inl size) E).
Defined.

(** Every raw manifest reads as one with the static nodes of the samples. *)
Definition one_manifest : Yaml := yaml_of (Validate.sample_manifest [] []).

Lemma upserted_manifest_witness :
  ∃ s' resp, UpsertManifest (H1 := one_manifest) id 5 (∅ : gmap string DbConfig) "sample" (mkKubernetesContext "" "") (Some ("raw", Pending))
             = Ret (s', inl resp) ∧ is_Some (s' !! "sample").
Proof.
  assert (Hc : match UpsertManifest (H1 := one_manifest) id 5 (∅ : gmap string DbConfig) "sample" (mkKubernetesContext "" "")
                       (Some ("raw", Pending)) with Ret (_, inl _) => true | _ => false end = true) by (vm_compute; reflexivity).
  destruct (UpsertManifest (H1 := one_manifest) id 5 (∅ : gmap string DbConfig) "sample" (mkKubernetesContext "" "") (Some ("raw", Pending)))
    as [[s' [resp|?]]|?|?] eqn:E; [|discriminate Hc..].
  exists s', resp. split; [reflexivity|].
  destruct (upserted_manifest (H1 := one_manifest) id 5 ∅ s' "sample" (mkKubernetesContext "" "") "raw" Pending resp E)
    as (_ & [(_ & d & Hd & _)|(cfg & _ & _ & Hn & _)]).
  - exists d. change (s' = <["sample" := d]> ∅) in Hd. rewrite Hd. apply lookup_insert_eq.
  - discriminate Hn.
Defined.

(** A manifest that is new is not compared with the others: two
    configurations end up with the same static nodes. *)
Example new_manifest_shares_static_nodes :
  (match UpsertManifest (H1 := one_manifest) id 5 (∅ : gmap string DbConfig) "first" (mkKubernetesContext "" "") (Some ("raw", Pending)) with
   | Ret (s, inl _) =>
       match UpsertManifest (H1 := one_manifest) id 6 s "second" (mkKubernetesContext "" "") (Some ("raw", Pending)) with
       | Ret (s, inl _) => bool_decide (is_Some (s !! "first")) && bool_decide (is_Some (s !! "second"))
       | _ => false
       end
   | _ => false
   end && ipMatch (collectIPs (Validate.sample_manifest [] [])) (collectIPs (Validate.sample_manifest [] []))) = true.
Proof. vm_compute. reflexivity. Qed.

End Handlers.
