(* ===== verification/Worker.v ===== *)
(** * What the workers have in common (services/*/internal/worker/service/process_task.go)

    A worker receives a task and the passes of a stage, runs the passes one
    after the other, and replies with a result: what it changed, and the
    errors of the passes that were not to be ignored.  The loop is the same in
    the four workers; what a pass does is a parameter of it.

    The contract between a worker and the manager is [report_ok]: every reply
    that fulfils it is accepted by [ConsumeUpdateResult]. *)

From stdpp Require Import base gmap strings list.
From S2P Require Import Prelude Spec SpecUtils Samples NodePools Consume.
Import NodePools Consume.

Module Worker.

(** process_task.go: [Tracker], with the number of calls made so far,
    which indexes the answers of the tools a worker runs. *)
Record Tracker := mkTracker {
  Tr_Task : Task;
  Tr_Result : TaskResult;
  Tr_Diagnostics : list string;
  Tr_Calls : nat }.

Definition Push (tr : Tracker) (err : string) : Tracker :=
  mkTracker (Tr_Task tr) (Tr_Result tr) (Tr_Diagnostics tr ++ [err]) (Tr_Calls tr).

Definition push_error (tr : Tracker) (err : option string) : Tracker :=
  match err with Some e => Push tr e | None => tr end.

(** The state of the task after [n] more calls. *)
Definition progressed (tr : Tracker) (te : Task) (n : nat) : Tracker :=
  mkTracker te (Tr_Result tr) (Tr_Diagnostics tr) (Tr_Calls tr + n).

Definition commit_update (tr : Tracker) (k8s : option K8Scluster) (lbs : list LBcluster) : Tracker :=
  mkTracker (Tr_Task tr)
    (InFlightUpdate_Commit (Tr_Result tr)
       (InFlightUpdate_Loadbalancers (InFlightUpdate_Kubernetes Update_ k8s) (Some <$> lbs)))
    (Tr_Diagnostics tr) (Tr_Calls tr).

Definition commit_clear (tr : Tracker) (k8s : bool) (ids : list string) : Tracker :=
  mkTracker (Tr_Task tr)
    (InFlightClear_Commit (Tr_Result tr)
       (InFlightClear_LoadBalancers (if k8s then InFlightClear_Kubernetes Clear_ else Clear_) ids))
    (Tr_Diagnostics tr) (Tr_Calls tr).

(** The pools, the load balancers and the delta of a task that builds something. *)
Definition builds (te : Task) : option (Clusters * Delta) :=
  match te with
  | Task_Create s => Some (s, Update_nil)
  | Task_Update s d => Some (s, d)
  | _ => None
  end.

(** A playbook without a report. *)
Definition finish (tr : Tracker) (err : option string) : Tracker := push_error (progressed tr (Tr_Task tr) 1) err.

Section passes.
Context {K : Type} (run_pass : K → Tracker → outcome Tracker).

(** [cancelled i]: the context is done when the [i]-th pass is about to start. *)
Fixpoint run_passes (cancelled : nat → bool) (i : nat) (passes : list (SubPass K)) (tr : Tracker) : outcome Tracker :=
  match passes with
  | [] => Ret tr
  | pass :: passes =>
      if cancelled i then Ret (Push tr "context canceled")
      else
        let lst := length (Tr_Diagnostics tr) in
        let* tr := run_pass (Kind pass) tr in
        if bool_decide (lst < length (Tr_Diagnostics tr)) then
          match Level (Description pass) with
          | ERROR_FATAL => Ret tr
          | ERROR_WARN =>
              run_passes cancelled (S i) passes
                (mkTracker (Tr_Task tr) (Tr_Result tr) (take lst (Tr_Diagnostics tr)) (Tr_Calls tr))
          end
        else run_passes cancelled (S i) passes tr
  end.

Definition start (task : Task) : Tracker := mkTracker task (mkTaskResult None TaskResult_None_) [] 0.

Definition reply (diags : list string) (r : TaskResult) : TaskResult :=
  if bool_decide (diags = []) then r
  else mkTaskResult (Some (PARTIAL, String.append "[" (String.append (String.concat " " diags) "]"))) (TaskResult_Result_ r).

Definition process_passes (cancelled : nat → bool) (task : Task) (passes : list (SubPass K)) : outcome TaskResult :=
  let* tr := run_passes cancelled 0 passes (start task) in Ret (reply (Tr_Diagnostics tr) (Tr_Result tr)).

(** What every pass keeps, the loop keeps. *)
Lemma run_passes_keeps (P : Task → TaskResult → Prop) cancelled i passes tr tr' :
  (∀ kind tr tr', P (Tr_Task tr) (Tr_Result tr) → run_pass kind tr = Ret tr' → P (Tr_Task tr') (Tr_Result tr')) →
  P (Tr_Task tr) (Tr_Result tr) → run_passes cancelled i passes tr = Ret tr' → P (Tr_Task tr') (Tr_Result tr').
Proof.
  intros Hp. revert i tr. induction passes as [|pass passes IH]; intros i tr Htr; simpl; [by intros [= <-]|].
  destruct (cancelled i); [by intros [= <-]|]. intros Hr. bind_inv Hr.
  apply Hp in Hx; [|done]. revert Hr. case_bool_decide; [destruct (Level _)|].
  - by intros [= <-].
  - by apply IH.
  - by apply IH.
Qed.

Lemma process_passes_keeps (P : Task → TaskResult → Prop) cancelled task passes r :
  (∀ kind tr tr', P (Tr_Task tr) (Tr_Result tr) → run_pass kind tr = Ret tr' → P (Tr_Task tr') (Tr_Result tr')) →
  P task (mkTaskResult None TaskResult_None_) → (∀ te r err, P te r → P te (mkTaskResult err (TaskResult_Result_ r))) →
  process_passes cancelled task passes = Ret r → ∃ te, P te r.
Proof.
  intros Hp H0 He Hr. unfold process_passes in Hr. bind_inv Hr. subst r.
  eapply run_passes_keeps in Hx; [|done..]. unfold reply. case_bool_decide; eauto.
Qed.

(** A stage of a single pass: an error of it is reported unless the pass is
    one whose errors are ignored. *)
Lemma process_one cancelled task p r :
  cancelled 0 = false → process_passes cancelled task [p] = Ret r →
  ∃ tr, run_pass (Kind p) (start task) = Ret tr ∧
    r = reply (match Level (Description p) with ERROR_FATAL => Tr_Diagnostics tr | ERROR_WARN => [] end) (Tr_Result tr).
Proof.
  intros Hc Hr. unfold process_passes in Hr. bind_inv Hr. subst r. simpl in Hx. rewrite Hc in Hx.
  bind_inv Hx. exists x0. split; [done|]. revert Hx. case_bool_decide as Hd.
  - by destruct (Level _); intros [= <-].
  - intros [= <-]. destruct (Tr_Diagnostics x0); [by destruct (Level _)|]. simpl in Hd. lia.
Qed.

End passes.

(** ** Reports the manager accepts *)

Definition cluster_name (k : K8Scluster) : string := ClusterInfo_Name (K8s_ClusterInfo k).

(** Load balancers of the cluster named [name], each reported once. *)
Definition lbs_of (name : string) (lbs : list LBcluster) : Prop :=
  NoDup (lb_ids lbs) ∧ Forall (λ lb, LB_TargetedK8S lb = name) lbs.

(** [k'] is another version of the cluster [k]. *)
Definition same_cluster (k k' : K8Scluster) : Prop := K8s_Id k' = K8s_Id k ∧ cluster_name k' = cluster_name k.

Definition report_ok (k : K8Scluster) (r : TaskResult) : Prop :=
  match TaskResult_Result_ r with
  | TaskResult_Update u =>
      (∀ k', UpdateState_K8S u = Some k' → same_cluster k k') ∧ lbs_of (cluster_name k) (UpdateState_LoadBalancers u)
  | TaskResult_None_ | TaskResult_Clear _ => True
  | TaskResult_nil => False
  end.

(** A task for the cluster [k]; [None] once the cluster was cleared. *)
Definition task_for (k : K8Scluster) (te : Task) : Prop :=
  match task_state te with
  | Some s => (∀ k', K8S s = Some k' → same_cluster k k') ∧ lbs_of (cluster_name k) (LoadBalancers s)
  | None => True
  end ∧
  match task_delta te with
  | Some (Update_TfAddLoadBalancer lb) => LB_TargetedK8S lb = cluster_name k
  | _ => True
  end.

Definition tracker_ok (k : K8Scluster) (te : Task) (r : TaskResult) : Prop := task_for k te ∧ report_ok k r.
Definition ok (k : K8Scluster) (tr : Tracker) : Prop := tracker_ok k (Tr_Task tr) (Tr_Result tr).

Lemma same_cluster_refl k : same_cluster k k.
Proof. done. Qed.

Lemma same_cluster_pools k k' nps : same_cluster k k' → same_cluster k (set_K8s_NodePools k' nps).
Proof. done. Qed.

#[export] Hint Resolve same_cluster_refl same_cluster_pools : claudie.

Lemma commit_update_ok k tr k8s lbs :
  ok k tr → (∀ k', k8s = Some k' → same_cluster k k') → lbs_of (cluster_name k) lbs →
  ok k (commit_update tr k8s lbs).
Proof.
  intros [Ht Hr] Hk [Hn Hl]. split; [done|]. unfold commit_update, InFlightUpdate_Commit, report_ok in *. simpl.
  assert (Hu : let u := InFlightUpdate_Loadbalancers (InFlightUpdate_Kubernetes Update_ k8s) (Some <$> lbs) in
               UpdateState_K8S u = k8s ∧ UpdateState_LoadBalancers u = lbs).
  { destruct k8s, lbs; simpl; split; try done; f_equal; clear; induction lbs; simpl; congruence. }
  destruct Hu as [Eu1 Eu2]. destruct (TaskResult_Result_ (Tr_Result tr)) as [|old|c|]; simpl; rewrite ?Eu1, ?Eu2; [done| |done..].
  destruct Hr as (Hr1 & Hr2 & Hr3). split.
  - destruct k8s; [by intros ? [= <-]; apply Hk|done].
  - split; [by apply merge_lbs_spec|by apply Forall_merge_lbs].
Qed.

Lemma commit_clear_ok k tr k8s ids : ok k tr → ok k (commit_clear tr k8s ids).
Proof. by intros [Ht Hr]. Qed.

Lemma push_error_ok k tr err : ok k tr → ok k (push_error tr err).
Proof. by destruct err. Qed.

(** A task with a new version of the cluster and its load balancers. *)
Lemma progressed_ok k tr te n : ok k tr → task_for k te → ok k (progressed tr te n).
Proof. by intros [_ Hr]. Qed.

Lemma report_ok_error k r err : report_ok k r → report_ok k (mkTaskResult err (TaskResult_Result_ r)).
Proof. done. Qed.

(** The delta of a task names pools and load balancers of its state. *)
Definition delta_resolves (te : Task) : Prop :=
  ∀ s k d, task_state te = Some s → K8S s = Some k → task_delta te = Some d →
  ∃ d', consume_delete k (LoadBalancers s) d = inl d'.

(** What the manager makes of a reply to the task [te]: an update is merged
    into the task, a clear removes what it names. *)
Definition accepted (te : Task) (s : Clusters) (k : K8Scluster) (r : TaskResult) : Prop :=
  match TaskResult_Result_ r with
  | TaskResult_Update u =>
      ∃ te' s', ConsumeUpdateResult te u = Ret (te', None) ∧ task_state te' = Some s' ∧
        K8S s' = Some (default k (UpdateState_K8S u)) ∧
        lbs_of (cluster_name k) (LoadBalancers s') ∧
        ∀ id, lb_lookup id (LoadBalancers s') = merged id (LoadBalancers s) (UpdateState_LoadBalancers u)
  | TaskResult_None_ | TaskResult_Clear _ => True
  | TaskResult_nil => False
  end.

Lemma report_accepted te s k r :
  task_state te = Some s → K8S s = Some k → task_for k te → delta_resolves te → report_ok k r → accepted te s k r.
Proof.
  intros Hs Hk [Ht _] Hd Hr. unfold accepted, report_ok in *. rewrite Hs in Ht. destruct Ht as [_ [Hn Hl]].
  destruct (TaskResult_Result_ r) as [|u|c|]; try done. destruct Hr as (Hr1 & Hr2 & Hr3).
  assert (∃ te', ConsumeUpdateResult te u = Ret (te', None)) as [te' Hc].
  { unfold ConsumeUpdateResult. rewrite Hs, Hk. simpl.
    assert (∃ d1, match task_delta te with Some d => consume_delete k (LoadBalancers s) d | None => inl Update_nil end
            = inl d1) as [d1 ->].
    { destruct (task_delta te) as [d|] eqn:Ed; [|by eexists]. by apply (Hd s k d). }
    destruct (UpdateState_K8S u) as [k'|]; [|by eexists].
    destruct (Hr1 k' eq_refl) as [-> _]. rewrite bool_decide_ne_refl. by eexists. }
  destruct (ConsumeUpdateResult_Ret _ _ _ _ Hs Hc) as (k0 & Hk0 & _ & Hst & _).
  rewrite Hk in Hk0. injection Hk0 as <-. fold (cluster_name k) in Hst. rewrite (targeting_all _ _ Hr3) in Hst.
  destruct (merge_lbs_spec _ _ Hn Hr2) as (M1 & M2 & _).
  exists te'. eexists. split_and!; [done|exact Hst|done|split; [done|by apply Forall_merge_lbs]|done].
Qed.

(** ** Versions of a cluster and its load balancers *)

Lemma lbs_of_map name lbs lbs' :
  lb_ids lbs' = lb_ids lbs → LB_TargetedK8S <$> lbs' = LB_TargetedK8S <$> lbs → lbs_of name lbs → lbs_of name lbs'.
Proof.
  intros Ei Et [Hn Hl]. split; [by rewrite Ei|]. rewrite Forall_forall in Hl |- *. intros lb Hlb.
  assert (Hin : LB_TargetedK8S lb ∈ LB_TargetedK8S <$> lbs) by (rewrite <- Et; by apply list_elem_of_fmap_2).
  apply list_elem_of_fmap in Hin as (lb0 & -> & Hin). by apply Hl.
Qed.

(** Replacing a load balancer by another version of it. *)
Lemma lbs_of_insert name lbs idx lb lb' :
  lbs_of name lbs → lbs !! idx = Some lb → LB_Id lb' = LB_Id lb → LB_TargetedK8S lb' = LB_TargetedK8S lb →
  lbs_of name (<[idx := lb']> lbs).
Proof.
  intros [Hn Hl] Hi Eid Et. split.
  - unfold lb_ids. rewrite list_fmap_insert, Eid. rewrite list_insert_id; [done|]. by rewrite list_lookup_fmap, Hi.
  - apply Forall_insert; [done|]. rewrite Et. by eapply Forall_lookup_1 in Hl.
Qed.

Lemma lbs_of_singleton name lbs idx lb lb' :
  lbs_of name lbs → lbs !! idx = Some lb → LB_TargetedK8S lb' = LB_TargetedK8S lb → lbs_of name [lb'].
Proof.
  intros [_ Hl] Hi Et. split; [by apply NoDup_singleton|]. constructor; [|done]. rewrite Et. by eapply Forall_lookup_1 in Hl.
Qed.

Lemma lbs_of_nil name : lbs_of name [].
Proof. split; constructor. Qed.

Lemma task_for_update k k8s lbs d :
  (∀ k', k8s = Some k' → same_cluster k k') → lbs_of (cluster_name k) lbs →
  (∀ lb, d = Update_TfAddLoadBalancer lb → LB_TargetedK8S lb = cluster_name k) →
  task_for k (Task_Update (mkClusters k8s lbs) d).
Proof. intros Hk Hl Hd. split; [done|]. simpl. destruct d; auto. Qed.

Lemma task_for_inv k s d :
  task_for k (Task_Update s d) → (∀ k', K8S s = Some k' → same_cluster k k') ∧ lbs_of (cluster_name k) (LoadBalancers s).
Proof. by intros [[??] _]. Qed.

(** The task after the manager consumed the reply. *)
Definition consumed (te : Task) (r : TaskResult) (te' : Task) : Prop :=
  match TaskResult_Result_ r with
  | TaskResult_None_ => te' = te
  | TaskResult_Update u => ConsumeUpdateResult te u = Ret (te', None)
  | TaskResult_Clear c => ConsumeClearResult te c = (te', None)
  | TaskResult_nil => False
  end.

(** A report of all load balancers replaces them one by one. *)
Lemma merge_same_ids lbs lbs' : NoDup (lb_ids lbs) → lb_ids lbs' = lb_ids lbs → merge_lbs lbs lbs' = lbs'.
Proof.
  intros Hn He. unfold merge_lbs. assert (update_existing lbs lbs' = (lbs', [])) as ->; [|by rewrite app_nil_r].
  revert lbs' He Hn. induction lbs as [|lb lbs IH]; intros [|lb' lbs'] He Hn; try done.
  rewrite !lb_ids_cons in *. injection He as He1 He2. apply NoDup_cons in Hn as [_ Hn]. simpl.
  rewrite bool_decide_eq_true_2 by done. by rewrite IH.
Qed.

(** The reply of a worker that reports the cluster and all its load balancers. *)
Lemma whole_state_consumed te s k r k' lbs' :
  task_state te = Some s → K8S s = Some k → task_for k te → delta_resolves te →
  TaskResult_Result_ r = TaskResult_Update (mkUpdateState (Some k') lbs') →
  report_ok k r → lb_ids lbs' = lb_ids (LoadBalancers s) →
  ∃ te', consumed te r te' ∧ task_state te' = Some (mkClusters (Some k') lbs').
Proof.
  intros Hs Hk Ht Hd Hr Hok Hids. pose proof (report_accepted _ _ _ _ Hs Hk Ht Hd Hok) as Ha.
  unfold accepted, report_ok, consumed in *. rewrite Hr in Ha, Hok |- *. destruct Ha as (te' & _ & Hc & _). exists te'. split; [done|].
  destruct (ConsumeUpdateResult_Ret _ _ _ _ Hs Hc) as (k0 & Hk0 & _ & Hst & _). rewrite Hk in Hk0. injection Hk0 as <-.
  simpl in Hst, Hok. destruct Hok as (_ & _ & Hl). fold (cluster_name k) in Hst. rewrite (targeting_all _ _ Hl) in Hst.
  destruct Ht as [Ht _]. rewrite Hs in Ht. destruct Ht as (_ & Hn & _). by rewrite merge_same_ids in Hst.
Qed.

Lemma finish_ok k tr err : ok k tr → ok k (finish tr err).
Proof. intros Hok. apply push_error_ok, progressed_ok; [done|apply Hok]. Qed.

(** A new version of the clusters of the task. *)
Lemma put_state_ok k tr s k8s lbs n :
  ok k tr → task_state (Tr_Task tr) = Some s → (∀ k', k8s = Some k' → same_cluster k k') → lbs_of (cluster_name k) lbs →
  ok k (progressed tr (set_task_state (Tr_Task tr) (mkClusters k8s lbs)) n).
Proof.
  intros Hok Hs Hk Hl. apply progressed_ok; [done|]. destruct Hok as [[_ Hd] _].
  split; [by erewrite task_state_set by done|by rewrite task_delta_set_state].
Qed.

Lemma builds_state te s d : builds te = Some (s, d) → task_state te = Some s.
Proof. by destruct te; intros [= <- <-]. Qed.

Lemma ok_state k tr s :
  ok k tr → task_state (Tr_Task tr) = Some s →
  (∀ k', K8S s = Some k' → same_cluster k k') ∧ lbs_of (cluster_name k) (LoadBalancers s).
Proof. intros [[Hst _] _] Hs. by rewrite Hs in Hst. Qed.

Lemma deref_Ret {A} (o : option A) x : deref o = Ret x → o = Some x.
Proof. by destruct o; intros [= ->]. Qed.

Lemma merge_lbs_nil lbs : merge_lbs lbs [] = lbs.
Proof.
  unfold merge_lbs. assert (update_existing lbs [] = (lbs, [])) as ->; [|apply app_nil_r].
  induction lbs as [|lb lbs IH]; [done|]. simpl. by rewrite IH.
Qed.

(** The reply of a worker that reports the cluster only. *)
Lemma kubernetes_consumed te s k r k' :
  task_state te = Some s → K8S s = Some k → task_for k te → delta_resolves te →
  TaskResult_Result_ r = TaskResult_Update (mkUpdateState (Some k') []) → same_cluster k k' →
  ∃ te', consumed te r te' ∧ task_state te' = Some (mkClusters (Some k') (LoadBalancers s)).
Proof.
  intros Hs Hk Ht Hd Hr Hsame. unfold consumed. rewrite Hr.
  assert (Hok : report_ok k r) by (unfold report_ok; rewrite Hr; split; [by intros ? [= <-]|apply lbs_of_nil]).
  pose proof (report_accepted _ _ _ _ Hs Hk Ht Hd Hok) as Ha. unfold accepted in Ha. rewrite Hr in Ha.
  destruct Ha as (te' & _ & Hc & _). exists te'. split; [done|].
  destruct (ConsumeUpdateResult_Ret _ _ _ _ Hs Hc) as (k0 & Hk0 & _ & Hst & _). rewrite Hk in Hk0. injection Hk0 as <-.
  rewrite Hst. do 2 f_equal. apply merge_lbs_nil.
Qed.

(** A worker whose passes keep [ok] replies with reports the manager accepts. *)
Lemma process_passes_report_ok {K} (run_pass : K → Tracker → outcome Tracker) cancelled te k passes r :
  (∀ kind tr tr', ok k tr → run_pass kind tr = Ret tr' → ok k tr') →
  task_for k te → process_passes run_pass cancelled te passes = Ret r → report_ok k r.
Proof.
  intros Hrun Ht Hr. apply (process_passes_keeps _ (tracker_ok k)) in Hr as (te' & _ & Hok); [done|exact Hrun|done..].
Qed.

(** A context that is never cancelled. *)
Definition never (_ : nat) : bool := false.

Lemma sample_task_for d : (∀ lb, d ≠ Update_TfAddLoadBalancer lb) → task_for Samples.k8s (Task_Update Samples.clusters d).
Proof.
  intros Hd. apply task_for_update; [by intros ? [= <-]| |by intros ? ?%Hd].
  split; [by_decide|by repeat constructor].
Qed.


End Worker.
