(* ===== verification/Mirror.v ===== *)
(** * Local mirrors of template repositories

    Download of internal/extemplates/extofu/download.go and
    VerifyCommitExists, UnsetWorktree and SparseCheckout of
    internal/extemplates/ext.go: how a directory gets the templates of a
    provider at a commit.  The state is the directory; go-git, the git
    processes and the disk are the parameter [GitTools], whose answers depend
    on the call. *)

From stdpp Require Import base strings list.
From S2P Require Import Prelude Spec SpecUtils Samples Manifest.

(** A clone: the commits it has, what HEAD resolves to, whether the extension
    [worktreeConfig], which go-git does not support, is set, and the commit
    and path that are checked out. *)
Record Repo := mkRepo {
  Repo_Objects : list string;
  Repo_Head : option string;
  Repo_Worktree : bool;
  Repo_Checkout : option (string * string) }.

Inductive directory := Absent | NotARepository | Repository (r : Repo).

Inductive git_process := GetConfig | UnsetConfig | RevParse | SparseSet | Checkout.

(** [PlainClone] gives a clone without a checkout or fails; when it fails it
    removes what it created but not the directory, which exists.  [runs] is
    whether a process can be started and, but for what the model says, ends
    well. *)
Class GitTools := {
  url_valid : string → bool;
  template_dir_of : Provider → string;
  PlainClone : nat → string → option (string * string) → option (list string * option string);
  runs : nat → git_process → bool;
  mkdir : nat → bool;
  removeAll : nat → bool }.

Module Mirror.

Inductive download_error :=
| ErrUnsupportedProtocol | ErrUnknownCommit_ | ErrInvalidUrl | ErrNotARepository | ErrHead | ErrDisk | ErrClone | ErrGit.

Section mirror.
Context `{GitTools}.

(** ** internal/extemplates/ext.go *)

(** Asking for the configuration fails when it is not set or there is no
    repository, and then there is nothing to do. *)
Definition UnsetWorktree (t : nat) (d : directory) : directory * option download_error :=
  match d with
  | Repository r =>
      if Repo_Worktree r && runs t GetConfig then
        if runs t UnsetConfig
        then (Repository (mkRepo (Repo_Objects r) (Repo_Head r) false (Repo_Checkout r)), None)
        else (d, Some ErrGit)
      else (d, None)
  | _ => (d, None)
  end.

(** An exit code of git means that there is no such object. *)
Definition VerifyCommitExists (t : nat) (r : Repo) (commit : string) : option download_error :=
  if negb (runs t RevParse) then Some ErrGit
  else if contains (Repo_Objects r) commit then None
  else Some ErrUnknownCommit_.

(** [git sparse-checkout set] turns the extension on; [git checkout] moves
    HEAD to the commit, when it is there. *)
Definition SparseCheckout (t : nat) (r : Repo) (path commit : string) : Repo * option download_error :=
  if negb (runs t SparseSet) then (r, Some ErrGit)
  else
    let r := mkRepo (Repo_Objects r) (Repo_Head r) true (Repo_Checkout r) in
    if runs t Checkout && contains (Repo_Objects r) commit
    then (mkRepo (Repo_Objects r) (Some commit) true (Some (commit, path)), None)
    else (r, Some ErrGit).

(** ** internal/extemplates/extofu/download.go *)

Definition credentials (p : Provider) : option (string * string) :=
  match Tpl_Auth (Provider_Templates p) with
  | Some a => Some (default "x-access-token" (Auth_Username a), Auth_Token a)
  | None => None
  end.

(** The last part: a new clone in the directory that was just created. *)
Definition clone (t : nat) (p : Provider) (d : directory) : directory * option download_error :=
  let commit := Tpl_CommitHash (Provider_Templates p) in
  if negb (mkdir t) then (d, Some ErrDisk)
  else
    match PlainClone t (Manifest.HttpsUrl (Provider_Templates p)) (credentials p) with
    | None => (NotARepository, Some ErrClone)
    | Some (objects, head) =>
        let r := mkRepo objects head false None in
        match VerifyCommitExists t r commit with
        | Some e => (Repository r, Some e)
        | None =>
            match SparseCheckout t r (template_dir_of p) commit with
            | (r, Some e) => (Repository r, Some e)
            | (r, None) => UnsetWorktree t (Repository r)
            end
        end
    end.

(** A directory that exists has to be a repository go-git can open, which one
    with the extension is not.  Every provider of the model has templates, so
    there is no [ErrEmptyRepository]. *)
Definition Download (t : nat) (p : Provider) (d : directory) : directory * option download_error :=
  let repo := Provider_Templates p in
  let commit := Tpl_CommitHash repo in
  if bool_decide (Endpoint_Protocol (Tpl_Endpoint repo) ≠ PROTOCOL_HTTPS) then (d, Some ErrUnsupportedProtocol)
  else if negb (url_valid (Manifest.HttpsUrl repo)) then (d, Some ErrInvalidUrl)
  else
    match d with
    | Absent => clone t p Absent
    | _ =>
        match UnsetWorktree t d with
        | (d, Some e) => (d, Some e)
        | (Repository r, None) =>
            if Repo_Worktree r then (Repository r, Some ErrNotARepository)
            else
              match Repo_Head r with
              | None => (Repository r, Some ErrHead)
              | Some head =>
                  if bool_decide (head = commit) then
                    let '(r, e) := SparseCheckout t r (template_dir_of p) commit in (Repository r, e)
                  else if removeAll t then clone t p Absent
                  else (Repository r, Some ErrDisk)
              end
        | (d, None) => (d, Some ErrNotARepository)
        end
    end.

(** ** What a successful download leaves *)

Lemma UnsetWorktree_checkout t r d e :
  UnsetWorktree t (Repository r) = (d, e) →
  ∃ r', d = Repository r' ∧ Repo_Objects r' = Repo_Objects r ∧ Repo_Head r' = Repo_Head r ∧ Repo_Checkout r' = Repo_Checkout r.
Proof.
  unfold UnsetWorktree. destruct (Repo_Worktree r && runs t GetConfig); [destruct (runs t UnsetConfig)|]; intros [= <- <-]; eexists; by split_and!.
Qed.

Lemma SparseCheckout_ok t r path commit r' :
  SparseCheckout t r path commit = (r', None) →
  Repo_Head r' = Some commit ∧ Repo_Checkout r' = Some (commit, path) ∧ commit ∈ Repo_Objects r'.
Proof.
  unfold SparseCheckout. destruct (negb (runs t SparseSet)); [done|]. simpl.
  destruct (runs t Checkout && contains (Repo_Objects r) commit) eqn:E; [|done]. intros [= <-]. simpl.
  apply andb_true_iff in E as [_ E%contains_spec]. done.
Qed.

(** The templates of the provider at its commit are checked out. *)
Definition mirrors (p : Provider) (d : directory) : Prop :=
  ∃ r, d = Repository r ∧ Repo_Head r = Some (Tpl_CommitHash (Provider_Templates p))
       ∧ Repo_Checkout r = Some (Tpl_CommitHash (Provider_Templates p), template_dir_of p).

Lemma clone_ok t p d d' : clone t p d = (d', None) → mirrors p d'.
Proof.
  unfold clone. destruct (negb (mkdir t)); [done|]. destruct (PlainClone _ _ _) as [[objects head]|]; [|done].
  destruct (VerifyCommitExists _ _ _); [done|]. destruct (SparseCheckout _ _ _ _) as [r [e|]] eqn:Es; [done|].
  apply SparseCheckout_ok in Es as (Hh & Hc & _). intros (r' & -> & _ & Hh' & Hc')%UnsetWorktree_checkout.
  exists r'. by rewrite Hh', Hc'.
Qed.

Lemma download_ok t p d d' : Download t p d = (d', None) → mirrors p d'.
Proof.
  unfold Download. case_bool_decide; [done|]. destruct (negb (url_valid _)); [done|].
  destruct d as [| |r]; [apply clone_ok|done|]. destruct (UnsetWorktree t (Repository r)) as [d1 e1] eqn:Eu.
  apply UnsetWorktree_checkout in Eu as (r1 & -> & _). destruct e1; [done|]. destruct (Repo_Worktree r1); [done|].
  destruct (Repo_Head r1) as [head|]; [|done]. case_bool_decide.
  - destruct (SparseCheckout _ _ _ _) as [r2 e] eqn:Es. intros [= <- ->]. apply SparseCheckout_ok in Es as (? & ? & _).
    by exists r2.
  - destruct (removeAll t); [apply clone_ok|done].
Qed.

(** ** Recovery *)

(** At the call the tools work and the remote has the commit. *)
Definition available (t : nat) (p : Provider) : Prop :=
  (∀ proc, runs t proc = true) ∧ mkdir t = true ∧ removeAll t = true ∧
  Endpoint_Protocol (Tpl_Endpoint (Provider_Templates p)) = PROTOCOL_HTTPS ∧
  url_valid (Manifest.HttpsUrl (Provider_Templates p)) = true ∧
  ∃ objects head, PlainClone t (Manifest.HttpsUrl (Provider_Templates p)) (credentials p) = Some (objects, head)
                  ∧ Tpl_CommitHash (Provider_Templates p) ∈ objects.

Lemma clone_available t p d : available t p → (clone t p d).2 = None.
Proof.
  intros (Hr & Hm & _ & _ & _ & objects & head & Hc & Hin). apply contains_spec in Hin.
  unfold clone. rewrite Hm, Hc; simpl. unfold VerifyCommitExists, SparseCheckout. rewrite !Hr; simpl. rewrite Hin; simpl.
  unfold UnsetWorktree; simpl. by rewrite ?Hr.
Qed.

(** From a directory that is absent or a clone with a readable HEAD, whose
    objects have the commit when HEAD is at it, a download succeeds once the
    tools work, whatever went wrong before. *)
Definition recoverable (p : Provider) (d : directory) : Prop :=
  match d with
  | Absent => True
  | NotARepository => False
  | Repository r => ∃ head, Repo_Head r = Some head
      ∧ (head = Tpl_CommitHash (Provider_Templates p) → Tpl_CommitHash (Provider_Templates p) ∈ Repo_Objects r)
  end.

Lemma download_recovers t p d : available t p → recoverable p d → (Download t p d).2 = None.
Proof.
  intros Ha Hd. pose proof Ha as (Hr & _ & Hrm & Hproto & Hurl & _). unfold Download.
  rewrite bool_decide_eq_false_2 by (intros []; done). rewrite Hurl; simpl. destruct d as [| |r]; [by apply clone_available|done|].
  destruct Hd as (head & Hh & Hin). unfold UnsetWorktree. rewrite !Hr, andb_true_r. destruct (Repo_Worktree r) eqn:Hw; simpl.
  all: rewrite ?Hw, Hh, Hrm; case_bool_decide; [|by apply clone_available].
  all: unfold SparseCheckout; rewrite !Hr; simpl; by rewrite (proj2 (contains_spec _ _) (Hin H0)).
Qed.

(** ** A clone that failed once *)

(** A failed clone leaves a directory that is not a repository ... *)
Lemma failed_clone_leaves_directory t p d :
  mkdir t = true → PlainClone t (Manifest.HttpsUrl (Provider_Templates p)) (credentials p) = None →
  clone t p d = (NotARepository, Some ErrClone).
Proof. intros Hm Hc. unfold clone. by rewrite Hm, Hc. Qed.

(** ... and every later download of these templates fails and leaves it as it
    is, also when the remote can be reached again: the directory is neither
    opened nor removed. *)
Lemma failed_clone_is_permanent t p : ∃ e, Download t p NotARepository = (NotARepository, Some e).
Proof. unfold Download. case_bool_decide; [eauto|]. destruct (negb (url_valid _)); simpl; eauto. Qed.

End mirror.

(** *** Instances *)

(** The remote cannot be reached at the first call. *)
Definition flaky_remote : GitTools :=
  {| url_valid := λ _, true; template_dir_of := Provider_CloudProviderName;
     PlainClone := λ t _ _, if bool_decide (t = 0) then None else Some (["c1"; "c2"], Some "c2");
     runs := λ _ _, true; mkdir := λ _, true; removeAll := λ _, true |}.

Example second_download_fails :
  let p := Samples.hetzner "t" "c1" in
  let first := Download (H := flaky_remote) 0 p Absent in
  first = (NotARepository, Some ErrClone) ∧ Download (H := flaky_remote) 1 p first.1 = (NotARepository, Some ErrNotARepository)
  ∧ (Download (H := flaky_remote) 1 p Absent).2 = None.
Proof. by split_and!; vm_compute. Qed.

End Mirror.
