(* ===== verification/TofuFiles.v ===== *)
(** * The files OpenTofu runs with

    generateFiles and generateProviderTemplates of
    services/terraformer/.../internal/cluster-builder/cluster_builder.go, of
    .../internal/loadbalancer/dns.go, .../internal/templates/provider.go, and
    internal/extemplates/extofu/{generator,terraformer}.go: which templates
    of which provider are rendered with which data into which file.

    Generating is a sequence of effects on disk and git that stops at the
    first error.  The effects are data here: [cluster_files] is the whole
    sequence, [attempt] the answer of the outside to one of them, and
    [written] the files that are there when all of them succeeded. *)

From Stdlib Require Import Ascii.
From stdpp Require Import base gmap strings list sets pretty.
From S2P Require Import Prelude Spec SpecUtils Samples NodePools Schedule.
Import NodePools Schedule.

Inductive ClusterType := Kubernetes | LoadBalancer.

(** cluster_builder.ClusterBuilder *)
Record ClusterBuilder := mkClusterBuilder {
  Cb_Name : string; Cb_Hash : string; Cb_Id : string;
  Cb_NodePools : list NodePool;
  Cb_GhostNodePools : list NodePool;
  Cb_ProjectName : string;
  Cb_ClusterType : ClusterType;
  Cb_ExportPort6443 : bool;
  Cb_Roles : list Role }.

(** loadbalancer.DNS; [d.Dns] may be nil. *)
Record DnsBuilder := mkDnsBuilder {
  Db_ProjectName : string; Db_ClusterName : string; Db_ClusterHash : string;
  Db_NodeIPs : list string;
  Db_Dns : option DNS }.

Inductive generate_error := ErrUnknownCommit | ErrGenerate (e : string).

(** ** Data of templates (extofu/structure.go) *)

Record ClusterData := mkClusterData { Cd_Name : string; Cd_Hash : string; Cd_Type : ClusterType }.

Record NodePoolInfo := mkNodePoolInfo {
  Npi_Name : string; Npi_Nodes : list Node; Npi_Details : DynamicNodePool; Npi_IsControl : bool }.

Inductive render_data :=
| ProviderData (cluster : ClusterData) (p : Provider) (regions : list string)
| NetworkingData (cluster : ClusterData) (p : Provider) (regions : list string) (networks : list (string * string))
    (hasAPIServer : bool) (roles : list Role)
| NodepoolsData (cluster : ClusterData) (pools : list NodePoolInfo)
| DnsData (zone hostname name hash : string) (ips : list string) (p : Provider) (alternativeNames : list string)
    (allowsHA : bool).

(** The directories of a template repository. *)
Inductive template_kind := TplProvider | TplNetworking | TplNodepool | TplDns.

(** templates.usedProvidersTemplateData *)
Record UsedProviders := mkUsedProviders {
  Gcp : bool; Hetzner : bool; Aws : bool; Oci : bool; Azure : bool; Cloudflare : bool;
  Openstack : bool; Exoscale : bool; CloudRift : bool; Verda : bool; OVH : bool }.

(** ** Effects *)

Inductive effect :=
| WriteBackend (project cluster : string)
| WriteProviders (used : UsedProviders)
| WriteKey (key name : string)
| Download (directory : string) (p : Provider)
| ReadDir (directory : string)
| WriteTemplate (file : string) (fingerprint : string) (data : render_data).

(** An answer of the API of Cloudflare: the names of the products subscribed
    to and the flag [success], when the body is valid JSON. *)
Inductive api_answer :=
| ApiForbidden
| ApiFailed
| ApiBody (body : option (list string * bool)).

(** What is outside: git, the disk and the template engine answer each
    effect; [dir_files] are the regular files of a directory.  [TemplatesPath]
    is the cleaned path of the repository's host, path, commit and of the
    provider's directory.  Ranging over a Go map visits its entries in some
    order. *)
Class Templates := {
  path_Join : list string → string;
  TemplatesPath : Provider → string;
  digest_hex : string → string;
  digest_hex_length s : String.length (digest_hex s) = 32;
  attempt : nat → effect → option generate_error;
  dir_files : nat → string → list string;
  cloudflare_api : nat → string → string → nat → api_answer;
  order : string → ∀ {A : Type}, list A → list A;
  order_perm site A (l : list A) : order site l ≡ₚ l }.

Module TofuFiles.

(** ** Groups of node pools *)

Section group.
Context {K : Type} `{EqDecision K}.

(** [m\[k\] = append(m\[k\], x)], as an association list. *)
Fixpoint add_to (k : K) (np : NodePool) (gs : list (K * list NodePool)) : list (K * list NodePool) :=
  match gs with
  | [] => [(k, [np])]
  | (k', nps) :: gs => if decide (k' = k) then (k', nps ++ [np]) :: gs else (k', nps) :: add_to k np gs
  end.

Definition group_pools (key : NodePool → option K) (nps : list NodePool) : list (K * list NodePool) :=
  foldl (λ gs np, match key np with Some k => add_to k np gs | None => gs end) [] nps.

End group.

(** nodepools.ProviderTemplateGroup *)
Record ProviderTemplateGroup := mkGroup { Grp_CloudProvider : string; Grp_SpecName : string; Grp_Creds : string }.
#[export] Instance ProviderTemplateGroup_eq_dec : EqDecision ProviderTemplateGroup.
Proof. solve_decision. Defined.

(** Providers have a type; [Credentials] of one without panics. *)
Definition creds (p : Provider) : string := match Credentials (Some p) with Ret s => s | _ => "" end.

Definition provider_group (p : Provider) : ProviderTemplateGroup :=
  mkGroup (Provider_CloudProviderName p) (Provider_SpecName p) (creds p).

Definition pool_provider (np : NodePool) : option Provider := Dyn_Provider <$> GetDynamicNodePool np.

Section files.
Context `{Templates}.

Definition ByProviderDynamic (nps : list NodePool) : list (ProviderTemplateGroup * list NodePool) :=
  order "ByProviderDynamic" (group_pools (λ np, provider_group <$> pool_provider np) nps).

(** extofu.NodePoolsByTemplatesPath *)
Definition NodePoolsByTemplatesPath (nps : list NodePool) : list (string * list NodePool) :=
  order "NodePoolsByTemplatesPath" (group_pools (λ np, TemplatesPath <$> pool_provider np) nps).

Definition ExtractRegions (nps : list DynamicNodePool) : list string :=
  order "ExtractRegions" (remove_dups (Dyn_Region <$> nps)).

Definition ExtractRegionNetwork (nps : list DynamicNodePool) : list (string * string) :=
  order "ExtractRegionNetwork" (remove_dups ((λ d, (Dyn_Region d, Dyn_ExternalNetworkName d)) <$> nps)).

(** ** Rendering templates (extofu/generator.go) *)

Definition Fingerprint (p : Provider) : string := digest_hex (path_Join [Provider_SpecName p; TemplatesPath p]).

Definition kind_dir (k : template_kind) : string :=
  match k with TplProvider => "provider" | TplNetworking => "networking" | TplNodepool => "nodepool" | TplDns => "dns" end.

(** extofu.Generator; the target directory is that of the cluster. *)
Record Generator := mkGenerator { Gen_ID : string; Gen_ReadFrom : string; Gen_Path : string; Gen_Fingerprint : string }.

(** [strings.HasSuffix(name, ".tpl")] and [strings.TrimSuffix]. *)
Definition strip_tpl (name : string) : option string :=
  match rev (String.list_ascii_of_string name) with
  | "l"%char :: "p"%char :: "t"%char :: "."%char :: r => Some (String.string_of_list_ascii (rev r))
  | _ => None
  end.

Definition output_file (g : Generator) (specName tpl : string) : string :=
  sprintf [Gen_ID g; "-"; specName; "-"; tpl; "-"; Gen_Fingerprint g; ".tf"].

Definition template_dir (g : Generator) (k : template_kind) : string := path_Join [Gen_ReadFrom g; Gen_Path g; kind_dir k].

Definition generateTemplates (t : nat) (g : Generator) (k : template_kind) (specName : string) (data : render_data)
    : list effect :=
  let dir := template_dir g k in
  ReadDir dir :: ((λ tpl, WriteTemplate (output_file g specName tpl) (Gen_Fingerprint g) data)
                    <$> omap strip_tpl (dir_files t dir)).

Definition provider_generator (id downloadDir : string) (p : Provider) : Generator :=
  mkGenerator id downloadDir (TemplatesPath p) (Fingerprint p).

(** ** Used providers (templates/provider.go) *)

Definition no_providers : UsedProviders :=
  mkUsedProviders false false false false false false false false false false false.

Definition use_provider (u : UsedProviders) (cloud : string) : UsedProviders :=
  let on name b := bool_decide (cloud = name) || b in
  mkUsedProviders (on "gcp" (Gcp u)) (on "hetzner" (Hetzner u)) (on "aws" (Aws u)) (on "oci" (Oci u)) (on "azure" (Azure u))
    (Cloudflare u) (on "openstack" (Openstack u)) (on "exoscale" (Exoscale u)) (on "cloudrift" (CloudRift u))
    (on "verda" (Verda u)) (on "ovh" (OVH u)).

Definition getProvidersUsed (nps : list DynamicNodePool) : UsedProviders :=
  foldl use_provider no_providers ((λ d, Provider_CloudProviderName (Dyn_Provider d)) <$> nps).

Definition getDNSProvider (dns : DNS) : UsedProviders :=
  let on name := bool_decide (Provider_CloudProviderName (DNS_Provider dns) = name) in
  mkUsedProviders (on "gcp") (on "hetzner") (on "aws") (on "oci") (on "azure") (on "cloudflare") false (on "exoscale")
    false false (on "ovh").

(** ** Files of a cluster (cluster_builder.go) *)

Definition TemplatesRootDir : string := "services/terraformer/templates".

Definition cluster_data (c : ClusterBuilder) : ClusterData := mkClusterData (Cb_Name c) (Cb_Hash c) (Cb_ClusterType c).

Definition download_dir (c : ClusterBuilder) (specName : string) : string := path_Join [TemplatesRootDir; Cb_Id c; specName].

(** The provider of the first pool of a group; groups are not empty. *)
Definition for_first (nps : list NodePool) (f : Provider → list effect) : list effect :=
  match nps with
  | np :: _ => match pool_provider np with Some p => f p | None => [] end
  | [] => []
  end.

Definition provider_files (t : nat) (c : ClusterBuilder) (specName : string) (pools : list NodePool) : list effect :=
  for_first pools (λ p,
    let dir := download_dir c specName in
    Download dir p ::
    generateTemplates t (provider_generator (Cb_Id c) dir p) TplProvider (Provider_SpecName p)
      (ProviderData (cluster_data c) p (ExtractRegions (ExtractDynamic pools)))).

Definition generateProviderTemplates (t : nat) (c : ClusterBuilder) : list effect :=
  ByProviderDynamic (Cb_NodePools c ++ Cb_GhostNodePools c) ≫= λ '(info, pools),
    WriteKey (Grp_Creds info) (Grp_SpecName info) ::
    (NodePoolsByTemplatesPath pools ≫= λ '(_, pools), provider_files t c (Grp_SpecName info) pools).

Definition nodepool_info (np : NodePool) (d : DynamicNodePool) : NodePoolInfo :=
  mkNodePoolInfo (NodePool_Name np) (NodePool_Nodes np) d (NodePool_IsControl np).

Definition pool_infos (pools : list NodePool) : list NodePoolInfo :=
  omap (λ np, nodepool_info np <$> GetDynamicNodePool np) pools.

Definition pool_keys (pools : list NodePool) : list effect :=
  omap (λ np, (λ d, WriteKey (Dyn_PublicKey d) (NodePool_Name np)) <$> GetDynamicNodePool np) pools.

Definition pool_files (t : nat) (c : ClusterBuilder) (specName : string) (pools : list NodePool) : list effect :=
  for_first pools (λ p,
    let dir := download_dir c specName in
    let g := provider_generator (Cb_Id c) dir p in
    let dyn := ExtractDynamic pools in
    Download dir p :: pool_keys pools ++
    generateTemplates t g TplNetworking (Provider_SpecName p)
      (NetworkingData (cluster_data c) p (ExtractRegions dyn) (ExtractRegionNetwork dyn) (Cb_ExportPort6443 c) (Cb_Roles c)) ++
    generateTemplates t g TplNodepool (Provider_SpecName p) (NodepoolsData (cluster_data c) (pool_infos pools))).

(** The whole sequence. *)
Definition cluster_files (t : nat) (c : ClusterBuilder) : list effect :=
  WriteBackend (Cb_ProjectName c) (Cb_Id c) ::
  WriteProviders (getProvidersUsed (ExtractDynamic (Cb_NodePools c ++ Cb_GhostNodePools c))) ::
  generateProviderTemplates t c ++
  (ByProviderDynamic (Cb_NodePools c) ≫= λ '(info, pools),
     NodePoolsByTemplatesPath pools ≫= λ '(_, pools), pool_files t c (Grp_SpecName info) pools).

(** It stops at the first error. *)
Fixpoint run_effects (t : nat) (es : list effect) : option generate_error :=
  match es with
  | [] => None
  | e :: es => match attempt t e with Some err => Some err | None => run_effects t es end
  end.

Definition generateFiles (t : nat) (c : ClusterBuilder) : option generate_error := run_effects t (cluster_files t c).

(** ** Files of DNS records (loadbalancer/dns.go) *)

Definition dns_id (b : DnsBuilder) : string := sprintf [Db_ClusterName b; "-"; Db_ClusterHash b; "-dns"].

Definition generateProvider (b : DnsBuilder) (dns : DNS) : list effect :=
  [WriteBackend (Db_ProjectName b) (dns_id b); WriteProviders (getDNSProvider dns)].

(** The request is tried three times; a forbidden one is not repeated. *)
Inductive subscription := Subscribed (b : bool) | Forbidden | SubscriptionError.

Fixpoint request_subscription (t : nat) (token account : string) (i retries : nat) : subscription :=
  match retries with
  | 0 => SubscriptionError
  | S retries =>
      match cloudflare_api t token account i with
      | ApiForbidden => Forbidden
      | ApiFailed => request_subscription t token account (S i) retries
      | ApiBody None => SubscriptionError
      | ApiBody (Some (products, success)) => Subscribed (contains products "prod_load_balancing" && success)
      end
  end.

(** spec.CloudflareProvider.GetSubscription (pb/spec/utils.go) *)
Definition GetSubscription (t : nat) (token account : string) : subscription := request_subscription t token account 0 3.

Definition allows_ha (t : nat) (p : Provider) : bool + string :=
  match Provider_Type p with
  | Provider_Cloudflare token account =>
      match GetSubscription t token account with
      | Subscribed b => inl b
      | Forbidden => inl false
      | SubscriptionError => inr "error while checking cloudflare load balancing subscription"
      end
  | _ => inl false
  end.

Definition dns_files (t : nat) (b : DnsBuilder) (dns : DNS) (ha : bool) : list effect :=
  let p := DNS_Provider dns in
  let dir := path_Join [TemplatesRootDir; dns_id b; Provider_SpecName p] in
  generateTemplates t (provider_generator (dns_id b) dir p) TplDns (Provider_SpecName p)
    (DnsData (DNS_DnsZone dns) (DNS_Hostname dns) (Db_ClusterName b) (Db_ClusterHash b) (Db_NodeIPs b) p
       (Alt_Hostname <$> DNS_AlternativeNames dns) ha) ++
  [WriteKey (creds p) (Provider_SpecName p)].

(** Both functions, in the order they are called for [d.Dns]. *)
Definition generateDnsFiles (t : nat) (b : DnsBuilder) (dns : DNS) : option string :=
  let p := DNS_Provider dns in
  let dir := path_Join [TemplatesRootDir; dns_id b; Provider_SpecName p] in
  let failed es := match run_effects t es with
                   | Some ErrUnknownCommit => Some "failed to checkout to specified commit"
                   | Some (ErrGenerate e) => Some e
                   | None => None
                   end in
  match failed (generateProvider b dns ++ [Download dir p]) with
  | Some e => Some e
  | None => match allows_ha t p with
            | inr e => Some e
            | inl ha => failed (dns_files t b dns ha)
            end
  end.

End files.

(** ** Groups *)

Section group_facts.
Context {K : Type} `{EqDecision K} (key : NodePool → option K).

(** The pools of a key, in order. *)
Definition members (k : K) (nps : list NodePool) : list NodePool := filter (λ np, key np = Some k) nps.

Lemma add_to_keys (k : K) np (gs : list (K * list NodePool)) : (add_to k np gs).*1 = if decide (k ∈ gs.*1) then gs.*1 else gs.*1 ++ [k].
Proof.
  induction gs as [|[k' xs] gs IH]; csimpl; [done|].
  destruct (decide (k' = k)) as [->|Hne]; csimpl.
  - destruct (decide (k ∈ k :: gs.*1)) as [Hin|Hin]; [done|]. destruct Hin. by left.
  - rewrite IH. destruct (decide (k ∈ gs.*1)) as [Hin|Hin], (decide (k ∈ k' :: gs.*1)) as [Hin'|Hin']; set_solver.
Qed.

Lemma add_to_elem (k : K) np (gs : list (K * list NodePool)) k' xs :
  NoDup gs.*1 → (k', xs) ∈ add_to k np gs →
  (k' ≠ k ∧ (k', xs) ∈ gs) ∨ (k' = k ∧ ((∃ ys, (k, ys) ∈ gs ∧ xs = ys ++ [np]) ∨ k ∉ gs.*1 ∧ xs = [np])).
Proof.
  induction gs as [|[k0 ys] gs IH]; csimpl; intros Hnd Hin.
  { apply list_elem_of_singleton in Hin as [= -> ->]. right. split; [done|]. right. by split; [apply not_elem_of_nil|]. }
  apply NoDup_cons in Hnd as [Hk0 Hnd]. destruct (decide (k0 = k)) as [->|Hne].
  - apply elem_of_cons in Hin as [[= -> ->]|Hin].
    + right. split; [done|]. left. exists ys. by split; [left|].
    + left. split; [|by right]. intros ->. apply Hk0. apply list_elem_of_fmap. by exists (k, xs).
  - apply elem_of_cons in Hin as [[= -> ->]|Hin]; [left; by split; [|left]|].
    destruct (IH Hnd Hin) as [[? ?]|[-> [(zs & ? & ->)|[? ->]]]].
    + left. split; [done|by right].
    + right. split; [done|]. left. exists zs. by split; [right|].
    + right. split; [done|]. right. split; [|done]. apply not_elem_of_cons. auto.
Qed.

Lemma group_pools_snoc nps np :
  group_pools key (nps ++ [np]) = match key np with Some k => add_to k np (group_pools key nps) | None => group_pools key nps end.
Proof. unfold group_pools. by rewrite foldl_app. Qed.

(** Each key that occurs has one group: its pools in order. *)
Lemma group_spec nps :
  NoDup (group_pools key nps).*1
  ∧ (∀ k, k ∈ (group_pools key nps).*1 ↔ members k nps ≠ [])
  ∧ (∀ k xs, (k, xs) ∈ group_pools key nps → xs = members k nps).
Proof.
  induction nps as [|np nps (Hnd & Hk & Hm)] using rev_ind.
  { split_and!; [constructor| |]; [intros k; split; [by intros ?%not_elem_of_nil|done]|intros k xs Hin; by apply not_elem_of_nil in Hin]. }
  rewrite group_pools_snoc. unfold members in *. setoid_rewrite filter_app. destruct (key np) as [k0|] eqn:Hkey; split_and!.
  - rewrite add_to_keys. case_decide as Hin; [done|]. apply NoDup_app. split_and!; [done| |by apply NoDup_singleton].
    intros x Hx ->%list_elem_of_singleton. done.
  - intros k. rewrite add_to_keys. destruct (decide (k = k0)) as [->|Hne].
    + rewrite filter_cons_True by done. split; [by intros _ [_ ?]%app_nil|]. intros _. case_decide; [done|].
      apply elem_of_app. right. by apply list_elem_of_singleton.
    + rewrite (filter_cons_False _ np) by congruence. rewrite filter_nil, app_nil_r, <- Hk.
      case_decide; [done|]. rewrite elem_of_app, list_elem_of_singleton. naive_solver.
  - intros k xs [[Hne Hin]|[-> [(ys & Hin & ->)|[Hin ->]]]]%add_to_elem; [| | |done].
    + rewrite (filter_cons_False _ np) by congruence. rewrite filter_nil, app_nil_r. by apply Hm.
    + rewrite filter_cons_True, filter_nil by done. by rewrite (Hm _ _ Hin).
    + rewrite filter_cons_True, filter_nil by done. rewrite Hk in Hin.
      destruct (filter (λ np, key np = Some k0) nps); [done|]. by destruct Hin.
  - done.
  - intros k. rewrite (filter_cons_False _ np) by congruence. by rewrite filter_nil, app_nil_r.
  - intros k xs Hin. rewrite (filter_cons_False _ np) by congruence. rewrite filter_nil, app_nil_r. by apply Hm.
Qed.

Lemma group_elem nps k xs :
  (k, xs) ∈ group_pools key nps ↔ xs = members k nps ∧ xs ≠ [].
Proof.
  destruct (group_spec nps) as (_ & Hk & Hm). split.
  - intros Hin. pose proof (Hm _ _ Hin) as ->. split; [done|]. apply Hk, list_elem_of_fmap. by exists (k, members k nps).
  - intros [-> Hne]. apply Hk, list_elem_of_fmap in Hne as ([k' ys] & -> & Hin). simpl. pose proof (Hm _ _ Hin). by subst.
Qed.

End group_facts.

(** ** What is on disk afterwards *)

Section written.
Context `{Templates}.

(** The effects that took place: those before the first error. *)
Fixpoint performed (t : nat) (es : list effect) : list effect :=
  match es with
  | [] => []
  | e :: es => match attempt t e with Some _ => [] | None => e :: performed t es end
  end.

Lemma performed_all t es : run_effects t es = None → performed t es = es.
Proof. induction es as [|e es IH]; simpl; [done|]. destruct (attempt t e); [done|]. intros. by rewrite IH. Qed.

Definition write (m : gmap string render_data) (e : effect) : gmap string render_data :=
  match e with WriteTemplate f _ d => <[f := d]> m | _ => m end.

(** The rendered files and their data. *)
Definition written (es : list effect) : gmap string render_data := foldl write ∅ es.

(** A file that is always written with the same data has them. *)
Lemma written_unique f d es m :
  (∃ fp, WriteTemplate f fp d ∈ es) ∨ m !! f = Some d → (∀ fp' d', WriteTemplate f fp' d' ∈ es → d' = d) →
  foldl write m es !! f = Some d.
Proof.
  induction es as [|e es IH] in m |- *; simpl; intros Hw Hall.
  { destruct Hw as [[fp Hin]|Hm]; [by apply not_elem_of_nil in Hin|done]. }
  apply IH; [|intros; eapply Hall; by right].
  assert (Hcase : (∃ fp d', e = WriteTemplate f fp d') ∨ ∀ fp d', e ≠ WriteTemplate f fp d').
  { destruct e as [| | | | |f0 fp0 d0]; [right; done..|]. destruct (decide (f0 = f)) as [->|?]; [left; eauto|right; congruence]. }
  destruct Hcase as [(fp & d' & ->)|Hne].
  { right. simpl. rewrite (Hall fp d') by left. apply lookup_insert_eq. }
  destruct Hw as [[fp [He|Hin]%elem_of_cons]|Hm]; [by destruct (Hne fp d)|left; eauto|right].
  destruct e; simpl; try done. rewrite lookup_insert_ne; [done|]. intros ->. by eapply Hne.
Qed.

(** The templates of a directory of a provider, and the file of one. *)
Definition generator (c : ClusterBuilder) (p : Provider) : Generator :=
  provider_generator (Cb_Id c) (download_dir c (Provider_SpecName p)) p.

Definition template_names (t : nat) (c : ClusterBuilder) (p : Provider) (k : template_kind) : list string :=
  omap strip_tpl (dir_files t (template_dir (generator c p) k)).

Definition file (c : ClusterBuilder) (p : Provider) (tpl : string) : string :=
  output_file (generator c p) (Provider_SpecName p) tpl.

(** The pools that are rendered together with those of a provider. *)
Definition pools_like (p : Provider) (nps : list NodePool) : list NodePool :=
  members (λ np, TemplatesPath <$> pool_provider np) (TemplatesPath p)
    (members (λ np, provider_group <$> pool_provider np) (provider_group p) nps).

Lemma pools_like_elem p nps np :
  np ∈ pools_like p nps ↔
  np ∈ nps ∧ ∃ q, pool_provider np = Some q ∧ provider_group q = provider_group p ∧ TemplatesPath q = TemplatesPath p.
Proof.
  unfold pools_like, members. rewrite !list_elem_of_filter. destruct (pool_provider np) as [q|]; simpl.
  - split.
    + intros (Hp & Hg & ?). apply (inj Some) in Hp, Hg. eauto 6.
    + intros (? & q' & Hq & Hg & Hp). injection Hq as <-. by rewrite Hg, Hp.
  - split; [by intros (? & _)|by intros (_ & q & ? & _)].
Qed.

(** The groups the two nested loops visit. *)
Lemma group_visited nps info pools path pools' :
  (info, pools) ∈ ByProviderDynamic nps → (path, pools') ∈ NodePoolsByTemplatesPath pools →
  ∃ np p rest, pools' = np :: rest ∧ np ∈ nps ∧ pool_provider np = Some p ∧ info = provider_group p ∧ pools' = pools_like p nps.
Proof.
  unfold ByProviderDynamic, NodePoolsByTemplatesPath. rewrite !order_perm, !group_elem. intros [Hp _] [Hp' Hne].
  destruct pools' as [|np rest]; [done|]. assert (Hin : np ∈ np :: rest) by left.
  rewrite Hp' in Hin. unfold members in Hin. apply list_elem_of_filter in Hin as [Hpath Hin].
  rewrite Hp in Hin. unfold members in Hin. apply list_elem_of_filter in Hin as [Hinfo Hin].
  destruct (pool_provider np) as [p|] eqn:Hprov; [|done]. apply (inj Some) in Hpath as <-. apply (inj Some) in Hinfo as <-.
  exists np, p, rest. split_and!; [done..|]. rewrite Hp', Hp. done.
Qed.

Lemma generateTemplates_write f fp d t g k spec data :
  WriteTemplate f fp d ∈ generateTemplates t g k spec data ↔
  d = data ∧ fp = Gen_Fingerprint g ∧ ∃ tpl, f = output_file g spec tpl ∧ tpl ∈ omap strip_tpl (dir_files t (template_dir g k)).
Proof.
  unfold generateTemplates. rewrite elem_of_cons, list_elem_of_fmap. split.
  - intros [?|(tpl & [= -> -> ->] & ?)]; [done|]. eauto 6.
  - intros (-> & -> & tpl & -> & ?). right. eauto.
Qed.

Lemma pool_keys_write f fp d pools : WriteTemplate f fp d ∉ pool_keys pools.
Proof.
  unfold pool_keys. rewrite list_elem_of_omap. intros (np & _ & E). by destruct (GetDynamicNodePool np).
Qed.

(** A rendered file: which provider, which directory and, for the node pools,
    which data. *)
Definition rendered (t : nat) (c : ClusterBuilder) (f : string) (d : render_data) : Prop :=
  ∃ np p k tpl, np ∈ Cb_NodePools c ++ Cb_GhostNodePools c ∧ pool_provider np = Some p ∧ f = file c p tpl ∧
    tpl ∈ template_names t c p k ∧
    (k = TplNodepool → d = NodepoolsData (cluster_data c) (pool_infos (pools_like p (Cb_NodePools c)))).

Lemma provider_write_rendered t c f fp d :
  WriteTemplate f fp d ∈ generateProviderTemplates t c → rendered t c f d.
Proof.
  unfold generateProviderTemplates. rewrite list_elem_of_bind. intros ([info pools] & Hin & Hg).
  apply elem_of_cons in Hin as [?|Hin]; [done|]. apply list_elem_of_bind in Hin as ([path pools'] & Hin & Hg').
  destruct (group_visited _ _ _ _ _ Hg Hg') as (np & p & rest & -> & Hnp & Hp & -> & _).
  unfold provider_files, for_first in Hin. rewrite Hp in Hin. apply elem_of_cons in Hin as [?|Hin]; [done|].
  apply generateTemplates_write in Hin as (-> & -> & tpl & -> & Htpl).
  exists np, p, TplProvider, tpl. by split_and!.
Qed.

Lemma pools_write_rendered t c f fp d info pools path pools' :
  (info, pools) ∈ ByProviderDynamic (Cb_NodePools c) → (path, pools') ∈ NodePoolsByTemplatesPath pools →
  WriteTemplate f fp d ∈ pool_files t c (Grp_SpecName info) pools' → rendered t c f d.
Proof.
  intros Hg Hg' Hin. destruct (group_visited _ _ _ _ _ Hg Hg') as (np & p & rest & Hl & Hnp & Hp & -> & Hlike).
  unfold pool_files, for_first in Hin. rewrite Hl, Hp in Hin. apply elem_of_cons in Hin as [?|Hin]; [done|].
  assert (np ∈ Cb_NodePools c ++ Cb_GhostNodePools c) by (apply elem_of_app; by left).
  rewrite !elem_of_app in Hin. destruct Hin as [Hin|[Hin|Hin]]; [by apply pool_keys_write in Hin| |].
  - apply generateTemplates_write in Hin as (-> & -> & tpl & -> & Htpl). exists np, p, TplNetworking, tpl. by split_and!.
  - apply generateTemplates_write in Hin as (-> & -> & tpl & -> & Htpl). exists np, p, TplNodepool, tpl.
    split_and!; [done..|]. intros _. by rewrite <- Hlike, Hl.
Qed.

Lemma write_rendered t c f fp d : WriteTemplate f fp d ∈ cluster_files t c → rendered t c f d.
Proof.
  unfold cluster_files. rewrite !elem_of_cons, elem_of_app. intros [?|[?|[Hin|Hin]]]; [done|done|by eapply provider_write_rendered|].
  apply list_elem_of_bind in Hin as ([info pools] & Hin & Hg). apply list_elem_of_bind in Hin as ([path pools'] & Hin & Hg').
  by eapply pools_write_rendered.
Qed.

(** Pools that are rendered together have one generator. *)
Lemma generator_eq c p q :
  Provider_SpecName q = Provider_SpecName p → TemplatesPath q = TemplatesPath p → generator c q = generator c p.
Proof. intros Hs Ht. unfold generator, provider_generator, Fingerprint. by rewrite Hs, Ht. Qed.

(** The file of a pool is written. *)
Lemma pool_written t c np p tpl :
  np ∈ Cb_NodePools c → pool_provider np = Some p → tpl ∈ template_names t c p TplNodepool →
  ∃ fp, WriteTemplate (file c p tpl) fp (NodepoolsData (cluster_data c) (pool_infos (pools_like p (Cb_NodePools c))))
        ∈ cluster_files t c.
Proof.
  intros Hnp Hp Htpl. set (nps := Cb_NodePools c) in *.
  assert (Hlike : np ∈ pools_like p nps) by (apply pools_like_elem; eauto 6).
  destruct (pools_like p nps) as [|np0 rest] eqn:Hl; [by apply not_elem_of_nil in Hlike|].
  assert (H0 : np0 ∈ pools_like p nps) by (rewrite Hl; left).
  apply pools_like_elem in H0 as (_ & q & Hq & Hg & Ht). injection Hg as _ Hs _.
  assert (Hge : generator c q = generator c p) by by apply generator_eq.
  eexists. unfold cluster_files. do 2 (apply elem_of_cons; right). apply elem_of_app. right.
  apply list_elem_of_bind. exists (provider_group p, members (λ np, provider_group <$> pool_provider np) (provider_group p) nps).
  split; [apply list_elem_of_bind; exists (TemplatesPath p, np0 :: rest); split|].
  - unfold pool_files, for_first. rewrite Hq. apply elem_of_cons. right. rewrite !elem_of_app. right. right.
    apply generateTemplates_write. split_and!; [done..|]. exists tpl. unfold file, template_names, generator in *. simpl in *.
    rewrite <- Hs, Hge. by split.
  - unfold NodePoolsByTemplatesPath. rewrite order_perm, group_elem. by split.
  - unfold ByProviderDynamic. rewrite order_perm, group_elem. split; [done|]. intros E.
    unfold pools_like in Hl. by rewrite E in Hl.
Qed.

(** ** Names of files *)

Lemma output_file_split g spec tpl :
  output_file g spec tpl = String.append (sprintf [Gen_ID g; "-"; spec; "-"; tpl; "-"]) (String.append (Gen_Fingerprint g) ".tf").
Proof. unfold output_file, sprintf. cbn [foldr]. rewrite !string_app_assoc. done. Qed.

(** The fingerprint has a fixed length, so the name determines it. *)
Lemma file_fingerprint c p q tpl tpl' : file c p tpl = file c q tpl' → Fingerprint p = Fingerprint q.
Proof.
  unfold file. rewrite !output_file_split. intros E. apply string_app_inj in E as [_ E].
  - by apply string_app_inj in E as [? _].
  - rewrite !string_length_app. unfold Gen_Fingerprint, generator, provider_generator, Fingerprint. by rewrite !digest_hex_length.
Qed.

Lemma file_template c p tpl tpl' : file c p tpl = file c p tpl' → tpl = tpl'.
Proof.
  unfold file, output_file, sprintf. cbn [foldr]. intros E. do 4 apply string_app_inj_l in E.
  by apply string_app_inj in E as [? _].
Qed.

(** ** Every pool is rendered *)

Definition providers (c : ClusterBuilder) : list Provider := omap pool_provider (Cb_NodePools c ++ Cb_GhostNodePools c).

(** The digests of the providers of a cluster do not collide. *)
Definition distinct_fingerprints (c : ClusterBuilder) : Prop :=
  ∀ p q, p ∈ providers c → q ∈ providers c → Fingerprint p = Fingerprint q →
    Provider_SpecName p = Provider_SpecName q ∧ TemplatesPath p = TemplatesPath q.

(** Pools of providers of one name have the same cloud and credentials. *)
Definition one_provider_per_name (c : ClusterBuilder) : Prop :=
  ∀ p q, p ∈ providers c → q ∈ providers c → Provider_SpecName p = Provider_SpecName q → provider_group p = provider_group q.

(** No template has the name of one in another directory of its provider. *)
Definition disjoint_templates (t : nat) (c : ClusterBuilder) : Prop :=
  ∀ p k k' tpl, p ∈ providers c → tpl ∈ template_names t c p k → tpl ∈ template_names t c p k' → k = k'.

Lemma elem_of_providers c np p :
  np ∈ Cb_NodePools c ++ Cb_GhostNodePools c → pool_provider np = Some p → p ∈ providers c.
Proof. intros ??. apply list_elem_of_omap. eauto. Qed.

(** All writes to the file of a pool have the same data. *)
Lemma pool_file_data t c np p tpl d :
  distinct_fingerprints c → one_provider_per_name c → disjoint_templates t c →
  np ∈ Cb_NodePools c → pool_provider np = Some p → tpl ∈ template_names t c p TplNodepool →
  rendered t c (file c p tpl) d → d = NodepoolsData (cluster_data c) (pool_infos (pools_like p (Cb_NodePools c))).
Proof.
  intros Hfp Hone Hdis Hnp Hp Htpl (np' & q & k & tpl' & Hnp' & Hq & Hf & Htpl' & Hd).
  assert (Hpin : p ∈ providers c) by (eapply elem_of_providers; [apply elem_of_app; by left|done]).
  assert (Hqin : q ∈ providers c) by by eapply elem_of_providers.
  destruct (Hfp p q Hpin Hqin (file_fingerprint _ _ _ _ _ Hf)) as [Hs Ht].
  assert (Hg : generator c q = generator c p) by by apply generator_eq.
  assert (Htt : tpl = tpl').
  { apply (file_template c p). rewrite Hf. unfold file. by rewrite Hg, Hs. }
  subst tpl'. assert (Hk : k = TplNodepool).
  { eapply (Hdis p); [done| |done]. unfold template_names in *. by rewrite <- Hg. }
  rewrite (Hd Hk). unfold pools_like. by rewrite Ht, (Hone p q Hpin Hqin Hs).
Qed.

(** C31: OpenTofu gets every node pool of the cluster.  When generating the
    files succeeded, then for each dynamic pool and each node template of its
    provider the file of that template holds the pool, together with the
    other pools of the same provider and templates and nothing else: no file
    was overwritten with other data, in whichever order the groups were
    visited.  It is assumed that digests do not collide, that pools of one
    provider name have the same credentials, and that the template directories
    of a provider do not share names. *)
Theorem every_pool_is_rendered (t : nat) (c : ClusterBuilder) (np : NodePool) (d : DynamicNodePool) (tpl : string) :
  distinct_fingerprints c → one_provider_per_name c → disjoint_templates t c →
  generateFiles t c = None →
  np ∈ Cb_NodePools c → GetDynamicNodePool np = Some d → tpl ∈ template_names t c (Dyn_Provider d) TplNodepool →
  ∃ infos, written (performed t (cluster_files t c)) !! file c (Dyn_Provider d) tpl = Some (NodepoolsData (cluster_data c) infos)
  ∧ nodepool_info np d ∈ infos
  ∧ ∀ info, info ∈ infos → ∃ np' d', np' ∈ Cb_NodePools c ∧ GetDynamicNodePool np' = Some d' ∧ info = nodepool_info np' d'
      ∧ Provider_SpecName (Dyn_Provider d') = Provider_SpecName (Dyn_Provider d)
      ∧ TemplatesPath (Dyn_Provider d') = TemplatesPath (Dyn_Provider d).
Proof.
  intros Hfp Hone Hdis Hgen Hnp Hd Htpl. rewrite performed_all by done. set (p := Dyn_Provider d) in *.
  assert (Hp : pool_provider np = Some p) by (unfold pool_provider; by rewrite Hd).
  exists (pool_infos (pools_like p (Cb_NodePools c))). split_and!.
  - apply written_unique; [left; by eapply pool_written|]. intros fp' d' Hw. eapply pool_file_data; eauto using write_rendered.
  - apply list_elem_of_omap. exists np. rewrite Hd. split; [|done]. apply pools_like_elem. eauto 6.
  - intros info (np' & Hin & Hi)%list_elem_of_omap. apply pools_like_elem in Hin as (Hin & q & Hq & Hg & Ht).
    unfold pool_provider in Hq. destruct (GetDynamicNodePool np') as [d'|] eqn:Hd'; [|done].
    injection Hi as <-. injection Hq as <-. injection Hg as _ Hs _. eauto 8.
Qed.

End written.

(** *** Instances *)

Definition constant_digest : string := "0123456789abcdef0123456789abcdef".

Definition ends_with (suffix s : string) : bool :=
  bool_decide (String.substring (String.length s - String.length suffix) (String.length suffix) s = suffix).

(** A repository with one template for each directory. *)
Definition sample_templates : Templates.
Proof.
  refine {| path_Join := String.concat "/"; TemplatesPath := Provider_CloudProviderName; digest_hex := λ _, constant_digest;
            attempt := λ _ _, None;
            dir_files := λ _ dir, if ends_with "nodepool" dir then ["node.tpl"; "README.md"]
                                  else if ends_with "networking" dir then ["networking.tpl"]
                                  else if ends_with "provider" dir then ["provider.tpl"] else ["dns.tpl"];
            cloudflare_api := λ _ _ _ _, ApiFailed; order := λ _ _ l, l |}; done.
Defined.

#[local] Existing Instance sample_templates.

Definition sample_builder (nps : list NodePool) : ClusterBuilder :=
  mkClusterBuilder "prod" "abcdefg" "prod-abcdefg" nps [] "m" Kubernetes true [].

(** Two pools of one provider name with different credentials: the second
    group overwrites the file of the first, whose pool is then missing. *)
Example split_credentials_lose_a_pool :
  let other := Samples.pool "extra-0000003" false (Samples.dyn 1 None "new" "c1" "10.0.2.0/24") [] in
  let c := sample_builder [Samples.ctrl; other] in
  match written (cluster_files 0 c) !! file c (Samples.hetzner "t" "c1") "node" with
  | Some (NodepoolsData _ infos) => Npi_Name <$> infos = ["extra-0000003"]
  | _ => False
  end.
Proof. vm_compute. reflexivity. Qed.

Lemma every_pool_is_rendered_witness :
  ∃ infos, written (performed 0 (cluster_files 0 (sample_builder [Samples.ctrl; Samples.lb_pool])))
             !! file (sample_builder [Samples.ctrl; Samples.lb_pool]) (Samples.hetzner "t" "c1") "node"
           = Some (NodepoolsData (mkClusterData "prod" "abcdefg" Kubernetes) infos).
Proof.
  set (c := sample_builder [Samples.ctrl; Samples.lb_pool]).
  assert (Hone : ∀ p, p ∈ providers c → p = Samples.hetzner "t" "c1").
  { intros p Hp. change (p ∈ [Samples.hetzner "t" "c1"; Samples.hetzner "t" "c1"]) in Hp.
    apply elem_of_cons in Hp as [Hp|Hp]; [exact Hp|]. apply elem_of_cons in Hp as [Hp|Hp]; [exact Hp|]. by apply not_elem_of_nil in Hp. }
  destruct (every_pool_is_rendered 0 c Samples.ctrl (Samples.dyn 2 None "t" "c1" "10.0.0.0/24") "node") as (infos & Hw & _).
  - intros p q Hp Hq _. rewrite (Hone p Hp), (Hone q Hq). done.
  - intros p q Hp Hq _. rewrite (Hone p Hp), (Hone q Hq). done.
  - intros p k k' tpl Hp Hk Hk'. rewrite (Hone p Hp) in Hk, Hk'.
    destruct k, k'; try reflexivity; vm_compute in Hk, Hk'; apply list_elem_of_singleton in Hk, Hk'; congruence.
  - vm_compute. reflexivity.
  - left.
  - reflexivity.
  - vm_compute. left.
  - exists infos. exact Hw.
Defined.

End TofuFiles.
