(* ===== verification/Tofu.v ===== *)
(** * Building infrastructure (services/terraformer/.../service/internal)

    What the terraformer does to the node pools and DNS records of a cluster
    around its calls of OpenTofu: the outputs of tofu are read back into the
    nodes and endpoints.  The files it runs with are those of [TofuFiles]; the
    tofu process, the JSON library and the S3 storage of state files are the
    parameter [Tofu];
    an answer depends on how many clusters were handled before, so two calls
    for the same cluster may be answered differently. *)

From Stdlib Require Import Ascii.
From stdpp Require Import base gmap strings list pretty.
From S2P Require Import Prelude Spec SpecUtils Samples NodePools Schedule Commands TofuFiles.
Import NodePools Schedule Commands TofuFiles.

(** A decoded JSON value: what [any] holds after [json.Unmarshal].  Numbers,
    booleans and objects are kept as they are printed by [fmt.Sprint]. *)
Inductive any :=
| Any_nil
| Any_string (s : string)
| Any_array (l : list any)
| Any_other (printed : string).

Inductive s3_error := ErrS3KeyNotExists | ErrS3 (e : string).

Inductive tofu_command := TofuInit | TofuApply | TofuDestroy | TofuOutput (resource : string).

Class Tofu := {
  tofu_templates :: Templates;
  (** what the [i]-th run of a command in a directory prints, or its error *)
  tofu_process : nat → string → tofu_command → nat → string + string;
  (** TERRAFORMER_TOFU_PARALLELISM *)
  parallelism : Z;
  json_ips : string → gmap string any + string;
  json_domain : string → gmap string string + string;
  s3_Stat : nat → string → option s3_error;
  os_RemoveAll : nat → string → option string }.

Module TofuBuild.

Definition join (sep : string) (parts : list string) : string := String.concat sep parts.

(** ** Output of a node *)

Fixpoint Sprint (v : any) : string :=
  match v with
  | Any_nil => "<nil>"
  | Any_string s => s
  | Any_array l => String.append "[" (String.append (join " " (List.map Sprint l)) "]")
  | Any_other p => p
  end.

Definition is_white (c : Ascii.ascii) : bool :=
  let n := Ascii.nat_of_ascii c in bool_decide (n = 32 ∨ (9 ≤ n ∧ n ≤ 13)).

Fixpoint skip_spaces (s : list Ascii.ascii) : list Ascii.ascii :=
  match s with
  | c :: s' => if is_white c then skip_spaces s' else s
  | [] => []
  end.

(** strings.TrimSpace, on ASCII characters *)
Definition TrimSpace (s : string) : list Ascii.ascii :=
  rev (skip_spaces (rev (skip_spaces (String.list_ascii_of_string s)))).

Fixpoint decimal (acc : Z) (s : list Ascii.ascii) : option Z :=
  match s with
  | [] => Some acc
  | c :: s =>
      let n := Z.of_nat (Ascii.nat_of_ascii c) in
      if bool_decide (48 ≤ n ≤ 57)%Z then decimal (10 * acc + (n - 48))%Z s else None
  end.

(** strconv.Atoi: an optional sign and at least one digit, within an int64 *)
Definition Atoi (s : list Ascii.ascii) : option Z :=
  let '(sign, ds) := match s with
                     | "+"%char :: ds => (1, ds)%Z
                     | "-"%char :: ds => (-1, ds)%Z
                     | _ => (1, s)%Z
                     end in
  match ds with
  | [] => None
  | _ => match decimal 0 ds with
         | Some n => if bool_decide (-(2^63) ≤ sign * n < 2^63)%Z then Some (sign * n)%Z else None
         | None => None
         end
  end.

Definition parsePort (val : any) : Z :=
  match Atoi (TrimSpace (Sprint val)) with
  | Some p => if bool_decide (p < 1)%Z || bool_decide (65535 < p)%Z then 0%Z else int32 p
  | None => 0%Z
  end.

(** The address and the two optional ports, or an error. *)
Definition parseNodeOutput (val : any) : (string * Z * Z) + string :=
  match val with
  | Any_string s => inl (s, 0%Z, 0%Z)
  | Any_array [] => inr "empty output array"
  | Any_array (Any_string ip :: rest) =>
      if bool_decide (ip = "") then inr "invalid IP value type"
      else inl (ip, match rest with p :: _ => parsePort p | [] => 0%Z end,
                    match rest with _ :: p :: _ => parsePort p | _ => 0%Z end)
  | Any_array _ => inr "invalid IP value type"
  | Any_nil => inr "nil output value"
  | Any_other _ => inr "unsupported output value type"
  end.

Definition set_address (n : Node) (ip : string) (sshPort wgPort : Z) : Node :=
  mkNode (Node_Name n) (Node_Private n) ip (Node_NodeType n) (Node_Username n) (Node_Status n)
    (if bool_decide (0 < sshPort)%Z then sshPort else Node_SshPort n)
    (if bool_decide (0 < wgPort)%Z then wgPort else Node_WireguardPort n).

Definition fill_node (ips : gmap string any) (n : Node) : Node + string :=
  match ips !! Node_Name n with
  | None => inr (sprintf ["node "; Node_Name n; " was missing from the tofu output"])
  | Some val =>
      match parseNodeOutput val with
      | inr e => inr (sprintf ["node "; quoted (Node_Name n); ": "; e])
      | inl (ip, sshPort, wgPort) =>
          if bool_decide (ip = "") then inr (sprintf ["node "; quoted (Node_Name n); " has no public address assigned"])
          else inl (set_address n ip sshPort wgPort)
      end
  end.

(** Nodes in front of the one that fails keep what was written to them. *)
Fixpoint fill_nodes (ips : gmap string any) (ns : list Node) : list Node * option string :=
  match ns with
  | [] => ([], None)
  | n :: ns' =>
      match fill_node ips n with
      | inr e => (ns, Some e)
      | inl n => let '(ns', err) := fill_nodes ips ns' in (n :: ns', err)
      end
  end.

Section build.
Context `{Tofu}.

(** ** Runs of OpenTofu (internal/tofu/terraform.go) *)

Definition maxTfCommandRetryCount : nat := 1.

(** The command that is run again and logged. *)
Definition tofu_text (cmd : tofu_command) : string :=
  match cmd with
  | TofuInit => "tofu init"
  | TofuApply => sprintf ["tofu apply --auto-approve --parallelism="; pretty parallelism]
  | TofuDestroy => sprintf ["tofu destroy --auto-approve --parallelism="; pretty parallelism]
  | TofuOutput resourceName => sprintf ["tofu output -json "; resourceName]
  end.

(** A run and, when it fails, its retries; none of their back-offs is out of
    range. *)
Definition tofu_output (t : nat) (dir : string) (cmd : tofu_command) : string + string :=
  match tofu_process t dir cmd 0 with
  | inl out => inl out
  | inr _ => (RetryCommandWithOutput 0 (tofu_process t dir cmd) (mkCmd (tofu_text cmd) []) maxTfCommandRetryCount).1
  end.

Definition run_tofu (cmd : tofu_command) (t : nat) (dir : string) : option string :=
  match tofu_output t dir cmd with inl _ => None | inr e => Some e end.

Definition tofu_Output (t : nat) (dir resourceName : string) : string + string := tofu_output t dir (TofuOutput resourceName).

Definition tofu_Init := run_tofu TofuInit.
Definition tofu_Apply := run_tofu TofuApply.
Definition tofu_Destroy := run_tofu TofuDestroy.

(** extofu.NodePoolTerraformKey *)
Definition NodePoolTerraformKey (name : string) (p : Provider) : string :=
  sprintf [name; "_"; Provider_SpecName p; "_"; Fingerprint p].

Definition readIPs (output : string + string) : gmap string any + string :=
  match output with
  | inr e => inr e
  | inl data => json_ips data
  end.

Fixpoint read_outputs (t : nat) (dir : string) (nps : list NodePool) : list NodePool * option string :=
  match nps with
  | [] => ([], None)
  | np :: rest =>
      match GetDynamicNodePool np with
      | None => let '(rest, err) := read_outputs t dir rest in (np :: rest, err)
      | Some d =>
          match readIPs (tofu_Output t dir (NodePoolTerraformKey (NodePool_Name np) (Dyn_Provider d))) with
          | inr e => (nps, Some e)
          | inl ips =>
              match fill_nodes ips (NodePool_Nodes np) with
              | (ns, Some e) => (set_NodePool_Nodes np ns :: rest, Some e)
              | (ns, None) =>
                  let '(rest, err) := read_outputs t dir rest in (set_NodePool_Nodes np ns :: rest, err)
              end
          end
      end
  end.

(** The node pools after the call and the error, if any. *)
Definition ReconcileNodePools (t : nat) (c : ClusterBuilder) : list NodePool * option string :=
  match generateFiles t c with
  | Some _ => (Cb_NodePools c, Some "failed to generate files")
  | None =>
      match tofu_Init t (Cb_Id c) with
      | Some e => (Cb_NodePools c, Some e)
      | None =>
          match tofu_Apply t (Cb_Id c) with
          | Some e => (Cb_NodePools c, Some e)
          | None => read_outputs t (Cb_Id c) (Cb_NodePools c)
          end
      end
  end.

Definition DestroyNodepools (t : nat) (c : ClusterBuilder) : option string :=
  match generateFiles t c with
  | Some ErrUnknownCommit => None
  | Some (ErrGenerate e) => Some e
  | None =>
      match tofu_Init t (Cb_Id c) with
      | Some e => Some e
      | None => tofu_Destroy t (Cb_Id c)
      end
  end.

(** ** Kubernetes clusters (internal/kubernetes) *)

Definition k8s_builder (projectName : string) (k : K8Scluster) (ghosts : list NodePool) (exportPort6443 : bool)
    : ClusterBuilder :=
  mkClusterBuilder (ClusterInfo_Name (K8s_ClusterInfo k)) (ClusterInfo_Hash (K8s_ClusterInfo k)) (K8s_Id k)
    (K8s_NodePools k) ghosts projectName Kubernetes exportPort6443 [].

(** K8Scluster.Build; [NodePools] of the builder is the slice of the cluster. *)
Definition K8s_Build (t : nat) (projectName : string) (k : K8Scluster) (ghosts : list NodePool)
    (exportPort6443 : bool) : K8Scluster * option string :=
  let '(nps, err) := ReconcileNodePools t (k8s_builder projectName k ghosts exportPort6443) in
  (set_K8s_NodePools k nps, err).

(** BuildK8Scluster (process_task.go) adds log lines. *)
Definition BuildK8Scluster := K8s_Build.

(** K8Scluster.Destroy *)
Definition K8s_Destroy (t : nat) (projectName : string) (k : K8Scluster) : option string :=
  DestroyNodepools t (k8s_builder projectName k [] false).

(** ** DNS records (internal/loadbalancer/dns.go) *)

(** A final dot is cut off; the empty string has no last character. *)
Definition validateDomain (s : string) : outcome string :=
  match rev (String.list_ascii_of_string s) with
  | [] => Panic "index out of range"
  | c :: s' => Ret (if bool_decide (c = "."%char) then String.string_of_list_ascii (rev s') else s)
  end.

Definition hex_char (n : nat) : Ascii.ascii :=
  Ascii.ascii_of_nat (if bool_decide (n < 10) then 48 + n else 87 + n).

(** tmplutils.SanitizeStringForResourceName, on ASCII characters *)
Fixpoint SanitizeStringForResourceName (s : string) : string :=
  match s with
  | EmptyString => EmptyString
  | String c s =>
      let n := Ascii.nat_of_ascii c in
      let rest := SanitizeStringForResourceName s in
      if bool_decide (97 ≤ n ≤ 122) || bool_decide (65 ≤ n ≤ 90) || bool_decide (48 ≤ n ≤ 57) || bool_decide (n = 45)
      then String c rest
      else String.append "_x" (String (hex_char (n / 16)) (String (hex_char (n mod 16)) rest))
  end.

(** extofu.DnsEndpointTerraformKey *)
Definition DnsEndpointTerraformKey (dns : DNS) (clusterID alternativeName : string) : string :=
  let resource := if bool_decide (alternativeName ≠ "")
                  then sprintf [clusterID; "_"; SanitizeStringForResourceName alternativeName] else clusterID in
  sprintf [resource; "_"; Provider_SpecName (DNS_Provider dns); "_"; Fingerprint (DNS_Provider dns)].

(** A missing entry of the map is the empty string. *)
Definition domain_of (m : gmap string string) (outputID : string) : outcome string :=
  validateDomain (default "" (m !! outputID)).

Fixpoint alternative_names (t : nat) (dir clusterID : string) (dns : DNS) (names : list AlternativeName)
    : outcome (list AlternativeName * option string) :=
  match names with
  | [] => Ret ([], None)
  | n :: rest =>
      match tofu_Output t dir (DnsEndpointTerraformKey dns clusterID (Alt_Hostname n)) with
      | inr _ => let* (rest, err) := alternative_names t dir clusterID dns rest in Ret (n :: rest, err)
      | inl output =>
          match json_domain output with
          | inr e => Ret (names, Some e)
          | inl m =>
              let* e := domain_of m (sprintf [clusterID; "-"; Alt_Hostname n; "-endpoint"]) in
              let* (rest, err) := alternative_names t dir clusterID dns rest in
              Ret (mkAlternativeName (Alt_Hostname n) e :: rest, err)
          end
      end
  end.

Definition set_DNS_Endpoint (d : DNS) (e : string) : DNS :=
  mkDNS (DNS_DnsZone d) (DNS_Hostname d) (DNS_Provider d) e (DNS_AlternativeNames d).

Definition set_DNS_AlternativeNames (d : DNS) (names : list AlternativeName) : DNS :=
  mkDNS (DNS_DnsZone d) (DNS_Hostname d) (DNS_Provider d) (DNS_Endpoint d) names.

Definition CreateDNSRecords (t : nat) (b : DnsBuilder) : outcome (DNS * option string) :=
  let* dns := deref (Db_Dns b) in
  let clusterID := sprintf [Db_ClusterName b; "-"; Db_ClusterHash b] in
  match generateDnsFiles t b dns with
  | Some e => Ret (dns, Some e)
  | None =>
  match tofu_Init t (dns_id b) with
  | Some e => Ret (dns, Some e)
  | None =>
  match tofu_Apply t (dns_id b) with
  | Some e => Ret (dns, Some e)
  | None =>
  match tofu_Output t (dns_id b) (DnsEndpointTerraformKey dns clusterID "") with
  | inr e => Ret (dns, Some e)
  | inl output =>
  match json_domain output with
  | inr e => Ret (dns, Some e)
  | inl m =>
      let* e := domain_of m (sprintf [clusterID; "-endpoint"]) in
      let dns := set_DNS_Endpoint dns e in
      let* (names, err) := alternative_names t (dns_id b) clusterID dns (DNS_AlternativeNames dns) in
      Ret (set_DNS_AlternativeNames dns names, err)
  end end end end end.

Definition DestroyDNSRecords (t : nat) (b : DnsBuilder) : outcome (option string) :=
  let* dns := deref (Db_Dns b) in
  match generateDnsFiles t b dns with
  | Some e => Ret (Some e)
  | None =>
      match tofu_Init t (dns_id b) with
      | Some e => Ret (Some e)
      | None => Ret (tofu_Destroy t (dns_id b))
      end
  end.

(** ** Load balancers (internal/loadbalancer/loadbalancer.go) *)

Definition lb_builder (projectName : string) (l : LBcluster) (ghosts : list NodePool) (roles : list Role) : ClusterBuilder :=
  mkClusterBuilder (ClusterInfo_Name (LB_ClusterInfo l)) (ClusterInfo_Hash (LB_ClusterInfo l)) (LB_Id l)
    (LB_NodePools l) ghosts projectName LoadBalancer false roles.

Definition dns_builder (projectName : string) (l : LBcluster) (dns : option DNS) : DnsBuilder :=
  mkDnsBuilder projectName (ClusterInfo_Name (LB_ClusterInfo l)) (ClusterInfo_Hash (LB_ClusterInfo l))
    (PublicEndpoints (LB_NodePools l)) dns.

(** LBcluster.Build *)
Definition LB_Build (t : nat) (projectName : string) (l : LBcluster) (ghosts : list NodePool)
    : outcome (LBcluster * option string) :=
  match ReconcileNodePools t (lb_builder projectName l ghosts (LB_Roles l)) with
  | (nps, Some e) => Ret (set_LB_NodePools l nps, Some e)
  | (nps, None) =>
      let l := set_LB_NodePools l nps in
      let* (dns, err) := CreateDNSRecords t (dns_builder projectName l (LB_Dns l)) in
      Ret (set_LB_Dns l (Some dns), err)
  end.

(** BuildLoadbalancers (process_task.go) adds log lines. *)
Definition BuildLoadbalancers := LB_Build.

(** LBcluster.Destroy: both goroutines run to their end, an error of either
    is an error of the call. *)
Definition LB_Destroy (t : nat) (projectName : string) (l : LBcluster) : outcome (option string) :=
  let pools := DestroyNodepools t (lb_builder projectName l [] []) in
  let nodeIPs := PublicEndpoints (LB_NodePools l) in
  let* dns := match LB_Dns l with
              | None => Ret None
              | Some _ =>
                  if bool_decide (1 < length (filter (λ ip, ip = "") nodeIPs)) then Ret None
                  else DestroyDNSRecords t (dns_builder projectName l (LB_Dns l))
              end in
  Ret (match pools with Some e => Some e | None => dns end).

(** ** Destroying a cluster (task_destroy_infrastructure.go) *)

Inductive AnyCluster := AnyK8s (k : K8Scluster) | AnyLb (l : LBcluster).

Definition cluster_id (c : AnyCluster) : string :=
  match c with AnyK8s k => K8s_Id k | AnyLb l => LB_Id l end.

Definition Destroy (t : nat) (projectName : string) (c : AnyCluster) : outcome (option string) :=
  match c with
  | AnyK8s k => Ret (K8s_Destroy t projectName k)
  | AnyLb l => LB_Destroy t projectName l
  end.

Definition DestroyCluster (t : nat) (projectName : string) (c : AnyCluster) : outcome (option string) :=
  match s3_Stat t (cluster_id c) with
  | Some ErrS3KeyNotExists => Ret None
  | Some (ErrS3 e) => Ret (Some e)
  | None =>
      let* err := Destroy t projectName c in
      match err with
      | Some e => Ret (Some e)
      | None =>
          match os_RemoveAll t (cluster_id c) with
          | Some e => Ret (Some e)
          | None =>
              match c with
              | AnyK8s _ => Ret None
              | AnyLb _ => Ret (os_RemoveAll t (String.append (cluster_id c) "-dns"))
              end
          end
      end
  end.

End build.

(** Distinct host names get distinct resources. *)
Lemma hex_char_inj a b : a < 16 → b < 16 → hex_char a = hex_char b → a = b.
Proof.
  intros Ha Hb E. apply (f_equal Ascii.nat_of_ascii) in E. unfold hex_char in E.
  destruct (decide (a < 10)) as [H1|H1], (decide (b < 10)) as [H2|H2];
    rewrite ?(bool_decide_true _ H1), ?(bool_decide_false _ H1), ?(bool_decide_true _ H2), ?(bool_decide_false _ H2) in E;
    rewrite !Ascii.nat_ascii_embedding in E by lia; lia.
Qed.

Lemma nat_of_ascii_inj c c' : Ascii.nat_of_ascii c = Ascii.nat_of_ascii c' → c = c'.
Proof. intros E. rewrite <- (Ascii.ascii_nat_embedding c), E. apply Ascii.ascii_nat_embedding. Qed.

Lemma SanitizeStringForResourceName_inj s s' :
  SanitizeStringForResourceName s = SanitizeStringForResourceName s' → s = s'.
Proof.
  set (plain := λ n, bool_decide (97 ≤ n ≤ 122) || bool_decide (65 ≤ n ≤ 90) || bool_decide (48 ≤ n ≤ 57) || bool_decide (n = 45)).
  assert (Hu : plain (Ascii.nat_of_ascii "_") = false) by reflexivity.
  assert (Hdiv : ∀ c, Ascii.nat_of_ascii c / 16 < 16 ∧ Ascii.nat_of_ascii c mod 16 < 16).
  { intros c. pose proof (Ascii.nat_ascii_bounded c). split; [apply Nat.Div0.div_lt_upper_bound|apply Nat.mod_upper_bound]; lia. }
  assert (Hs : ∀ c s, SanitizeStringForResourceName (String c s) =
    if plain (Ascii.nat_of_ascii c) then String c (SanitizeStringForResourceName s)
    else String.append "_x" (String (hex_char (Ascii.nat_of_ascii c / 16))
           (String (hex_char (Ascii.nat_of_ascii c mod 16)) (SanitizeStringForResourceName s)))) by reflexivity.
  clearbody plain. revert s'. induction s as [|c s IH]; intros [|c' s']; rewrite ?Hs;
    [done|match goal with |- context [if ?b then _ else _] => destruct b end; intros E; discriminate E..|].
  destruct (plain (Ascii.nat_of_ascii c)) eqn:Ep, (plain (Ascii.nat_of_ascii c')) eqn:Ep'; intros E.
  - injection E as -> E. by rewrite (IH _ E).
  - injection E as -> _. congruence.
  - injection E as <- _. congruence.
  - injection E as E1 E2 E. rewrite (IH _ E). f_equal. apply nat_of_ascii_inj.
    destruct (Hdiv c), (Hdiv c'). apply hex_char_inj in E1, E2; [|done..].
    change (Ascii.nat_of_ascii c / 16 = Ascii.nat_of_ascii c' / 16) in E1.
    change (Ascii.nat_of_ascii c mod 16 = Ascii.nat_of_ascii c' mod 16) in E2.
    pose proof (Nat.div_mod_eq (Ascii.nat_of_ascii c) 16). pose proof (Nat.div_mod_eq (Ascii.nat_of_ascii c') 16). lia.
Qed.

(** The endpoint of a load balancer and its alternative names are read from
    different outputs. *)
Lemma DnsEndpointTerraformKey_inj `{Tofu} dns clusterID a a' :
  DnsEndpointTerraformKey dns clusterID a = DnsEndpointTerraformKey dns clusterID a' → a = a'.
Proof.
  unfold DnsEndpointTerraformKey, sprintf. simpl. intros [E _]%string_app_inj; [|done]. revert E.
  assert (Hlen : ∀ x, clusterID = String.append clusterID (String.append "_" x) → False).
  { intros x E. apply (f_equal String.length) in E. rewrite !string_length_app in E. simpl in E. lia. }
  repeat case_bool_decide; simpl; intros E.
  - apply string_app_inj_l, string_app_inj_l, string_app_inj in E as [E _]; [|done].
    by apply SanitizeStringForResourceName_inj.
  - by destruct (Hlen _ (eq_sym E)).
  - by destruct (Hlen _ E).
  - assert (a = "") as -> by (by destruct (decide (a = ""))). by destruct (decide (a' = "")).
Qed.

(** A command fails only when both its run and its retry did. *)
Lemma run_tofu_fails `{Tofu} cmd t dir e :
  run_tofu cmd t dir = Some e → (∃ e0, tofu_process t dir cmd 0 = inr e0) ∧ tofu_process t dir cmd 1 = inr e.
Proof.
  unfold run_tofu, tofu_output, RetryCommandWithOutput. destruct (tofu_process t dir cmd 0) as [|e0]; [done|]. simpl.
  destruct (tofu_process t dir cmd 1); simpl; [done|]. intros [= ->]. eauto.
Qed.
(** ** What building keeps and what it establishes *)

(** What tofu's output may not change of a node. *)
Definition node_identity (n : Node) : string * string * NodeType * string * NodeStatus :=
  (Node_Name n, Node_Private n, Node_NodeType n, Node_Username n, Node_Status n).

(** A pool up to the addresses and ports of its nodes. *)
Definition pool_identity (np : NodePool) : NodePool * list (string * string * NodeType * string * NodeStatus) :=
  (set_NodePool_Nodes np [], node_identity <$> NodePool_Nodes np).

(** The forms of a node's entry in the output: its address, or a list of its
    address, its ssh port and its wireguard port, the ports optional. *)
Inductive node_entry : any → string → option any → option any → Prop :=
| Entry_string ip : node_entry (Any_string ip) ip None None
| Entry_array ip rest : node_entry (Any_array (Any_string ip :: rest)) ip (rest !! 0) (rest !! 1).

(** The value prints as the decimal number of a port. *)
Definition is_port (v : any) (p : Z) : Prop := Atoi (TrimSpace (Sprint v)) = Some p ∧ (1 ≤ p ≤ 65535)%Z.

(** The port of a node: the one of its entry when that is a port, and the one
    it had before otherwise. *)
Definition port_read (before : Z) (given : option any) (after : Z) : Prop :=
  (∃ v, given = Some v ∧ is_port v after) ∨
  ((∀ v p, given = Some v → ¬ is_port v p) ∧ after = before).

(** The node can be reached as its own entry of the output says. *)
Definition reachable (ips : gmap string any) (n n' : Node) : Prop :=
  node_identity n' = node_identity n ∧
  ∃ v ssh wg, ips !! Node_Name n = Some v ∧ node_entry v (Node_Public n') ssh wg ∧ Node_Public n' ≠ "" ∧
    port_read (Node_SshPort n) ssh (Node_SshPort n') ∧ port_read (Node_WireguardPort n) wg (Node_WireguardPort n').

Lemma parsePort_read v before :
  port_read before (Some v) (if bool_decide (0 < parsePort v)%Z then parsePort v else before).
Proof.
  unfold port_read, is_port, parsePort. destruct (Atoi _) as [p|] eqn:E; [|right; naive_solver].
  destruct (decide (1 ≤ p ≤ 65535)%Z) as [Hp|Hp].
  - rewrite (bool_decide_eq_false_2 (p < 1)%Z), (bool_decide_eq_false_2 (65535 < p)%Z) by lia. simpl.
    rewrite int32_id by (unfold in_int32; lia). rewrite bool_decide_eq_true_2 by lia. left. by exists v.
  - assert (bool_decide (p < 1)%Z || bool_decide (65535 < p)%Z = true) as -> by (apply orb_true_iff; rewrite !bool_decide_eq_true; lia).
    right. split; [|done]. intros ? q [= <-] [Hq ?]. rewrite E in Hq. injection Hq as ->. lia.
Qed.

Lemma no_port_read before : port_read before None before.
Proof. right. naive_solver. Qed.

Lemma fill_node_reachable ips n n' : fill_node ips n = inl n' → reachable ips n n'.
Proof.
  unfold fill_node. destruct (ips !! _) as [v|] eqn:Ev; [|done].
  destruct (parseNodeOutput v) as [[[ip s] w]|e] eqn:E; [|done].
  case_bool_decide as Hip; [done|]. intros [= <-]. split; [done|].
  assert (∃ ssh wg, node_entry v ip ssh wg ∧ ∀ before,
    port_read before ssh (if bool_decide (0 < s)%Z then s else before) ∧
    port_read before wg (if bool_decide (0 < w)%Z then w else before)) as (ssh & wg & He & Hp).
  { destruct v as [|x|[|[|y|l|p] rest]|p]; simpl in E; try done.
    - injection E as <- <- <-. do 2 eexists. split; [constructor|]. intros before. split; apply no_port_read.
    - case_bool_decide; [done|]. injection E as <- <- <-. do 2 eexists. split; [constructor|]. intros before.
      destruct rest as [|a [|b rest]]; split; try apply no_port_read; apply parsePort_read. }
  exists v, ssh, wg. split_and!; [done|exact He|done|apply Hp|apply Hp].
Qed.

Lemma fill_nodes_identity ips ns ns' err :
  fill_nodes ips ns = (ns', err) →
  node_identity <$> ns' = node_identity <$> ns ∧ (err = None → Forall2 (reachable ips) ns ns').
Proof.
  revert ns' err. induction ns as [|n ns IH]; intros ns' err; simpl; [intros [= <- <-]; eauto|].
  destruct (fill_node ips n) as [n1|e] eqn:E; [|by intros [= <- <-]].
  destruct (fill_nodes ips ns) as [ns1 err1]. intros [= <- <-]. apply fill_node_reachable in E.
  destruct (IH ns1 err1 eq_refl) as [I1 I2]. split.
  - simpl. f_equal; [apply E|done].
  - intros He. constructor; auto.
Qed.

Lemma Forall2_same {A} (R : A → A → Prop) (l : list A) : (∀ x, R x x) → Forall2 R l l.
Proof. induction l; auto. Qed.

Section built.
Context `{Tofu}.

(** A dynamic pool after its nodes were read from the output of its own
    resource; other pools are left alone. *)
Definition pool_built (t : nat) (dir : string) (np np' : NodePool) : Prop :=
  match GetDynamicNodePool np with
  | Some d =>
      pool_identity np' = pool_identity np ∧
      ∃ ips, readIPs (tofu_Output t dir (NodePoolTerraformKey (NodePool_Name np) (Dyn_Provider d))) = inl ips ∧
        Forall2 (reachable ips) (NodePool_Nodes np) (NodePool_Nodes np')
  | None => np' = np
  end.

(** The files of the cluster were generated, initialised and applied. *)
Definition applied (t : nat) (c : ClusterBuilder) : Prop :=
  generateFiles t c = None ∧ tofu_Init t (Cb_Id c) = None ∧ tofu_Apply t (Cb_Id c) = None.

Lemma read_outputs_pools t dir nps nps' err :
  read_outputs t dir nps = (nps', err) →
  Forall2 (λ np np', pool_identity np' = pool_identity np) nps nps' ∧ (err = None → Forall2 (pool_built t dir) nps nps').
Proof.
  revert nps' err. induction nps as [|np nps IH]; intros nps' err; simpl; [intros [= <- <-]; eauto|].
  assert (Hrefl : Forall2 (λ np np', pool_identity np' = pool_identity np) nps nps) by (by apply Forall2_same).
  destruct (GetDynamicNodePool np) as [d|] eqn:Ed.
  - destruct (readIPs _) as [ips|e] eqn:Eips; [|intros [= <- <-]; split; [by constructor|done]].
    destruct (fill_nodes ips _) as [ns [e|]] eqn:Ef; apply fill_nodes_identity in Ef as [F1 F2].
    + intros [= <- <-]. split; [|done]. constructor; [|done]. unfold pool_identity. by simpl; rewrite F1.
    + destruct (read_outputs t dir nps) as [r e]. intros [= <- <-]. destruct (IH r e eq_refl) as [I1 I2].
      assert (Hid : pool_identity (set_NodePool_Nodes np ns) = pool_identity np) by (unfold pool_identity; by simpl; rewrite F1).
      split; [by constructor|]. intros He. constructor; [|auto]. unfold pool_built. rewrite Ed. eauto.
  - destruct (read_outputs t dir nps) as [r e]. intros [= <- <-]. destruct (IH r e eq_refl) as [I1 I2].
    split; [by constructor|]. intros He. constructor; [|auto]. unfold pool_built. by rewrite Ed.
Qed.

Lemma ReconcileNodePools_pools t c nps' err :
  ReconcileNodePools t c = (nps', err) →
  Forall2 (λ np np', pool_identity np' = pool_identity np) (Cb_NodePools c) nps' ∧
  (err = None → applied t c ∧ Forall2 (pool_built t (Cb_Id c)) (Cb_NodePools c) nps').
Proof.
  unfold ReconcileNodePools, applied. case_goal; try (intros [= <- <-]; split; [by apply Forall2_same|done]).
  intros (E1 & E2)%read_outputs_pools. auto.
Qed.

(** C32: Building a cluster either reports an error, or OpenTofu applied its
    files and every node of its dynamic pools has the address of its own entry
    in the output of its pool's resource, and its ssh and wireguard ports are
    those of that entry where the entry gives a port in 1..65535 and unchanged
    where it does not; static pools are not touched.  Whether it fails or not,
    the cluster keeps its identity, its pools and their nodes (names, order,
    types). *)
Theorem built_nodes_are_reachable t projectName k ghosts exportPort6443 k' err :
  BuildK8Scluster t projectName k ghosts exportPort6443 = (k', err) →
  k' = set_K8s_NodePools k (K8s_NodePools k') ∧ K8s_Id k' = K8s_Id k ∧
  Forall2 (λ np np', pool_identity np' = pool_identity np) (K8s_NodePools k) (K8s_NodePools k') ∧
  (err = None → applied t (k8s_builder projectName k ghosts exportPort6443) ∧
     Forall2 (pool_built t (K8s_Id k)) (K8s_NodePools k) (K8s_NodePools k')).
Proof.
  unfold BuildK8Scluster, K8s_Build. destruct (ReconcileNodePools _ _) as [nps e] eqn:E. intros [= <- <-].
  apply ReconcileNodePools_pools in E as [E1 E2]. split_and!; try done; by destruct k as [[] ? ? ? ?].
Qed.

End built.
(** A cloud that builds everything it is asked to. *)
Definition sample_ips : gmap string any :=
  {["ctrl-0000001-01" := Any_array [Any_string "9.9.9.1"; Any_other "2222"; Any_string " 51821 "];
    "ctrl-0000001-02" := Any_string "9.9.9.2";
    "lb-0000002-01" := Any_string "9.9.9.3"]}.

Definition sample_cloud (apply : nat → string → option string) : Tofu :=
  {| tofu_templates := sample_templates;
     tofu_process := λ t dir cmd _,
       match cmd with
       | TofuInit => inl ""
       | TofuApply | TofuDestroy => match apply t dir with None => inl "" | Some e => inr e end
       | TofuOutput key => inl key
       end;
     parallelism := 40;
     json_ips := λ _, inl sample_ips;
     json_domain := λ _, inl {["lb-hijklmn-endpoint" := "api.example.com."]};
     s3_Stat := λ _ _, None;
     os_RemoveAll := λ _ _, None |}.

Example sample_ports :
  (BuildK8Scluster (H := sample_cloud (λ _ _, None)) 0 "m" Samples.k8s [] true).2 = None ∧
  (parsePort (Any_other "2222"), parsePort (Any_string " 51821 "), parsePort (Any_other "70000"), parsePort Any_nil)
  = (2222, 51821, 0, 0)%Z.
Proof. vm_compute. by split. Qed.

Lemma built_nodes_are_reachable_witness :
  ∃ k', BuildK8Scluster (H := sample_cloud (λ _ _, None)) 0 "m" Samples.k8s [] true = (k', None) ∧
        Forall2 (pool_built (H := sample_cloud (λ _ _, None)) 0 (K8s_Id Samples.k8s)) (K8s_NodePools Samples.k8s) (K8s_NodePools k').
Proof.
  destruct (BuildK8Scluster (H := sample_cloud (λ _ _, None)) 0 "m" Samples.k8s [] true) as [k' [e|]] eqn:E;
    [exfalso; vm_compute in E; discriminate E|].
  exists k'. split; [done|]. by apply (built_nodes_are_reachable _ _ _ _ _ _ _ E).
Defined.

End TofuBuild.
