(* ===== verification/Terraformer.v ===== *)
(** * The terraformer (services/terraformer/internal/worker/service)

    The worker that builds, changes and destroys infrastructure: one function
    per kind of change a task asks for, and the loop over the passes of a
    stage.  The task of a message belongs to the worker, which changes its
    state in place; what the manager learns is only what is committed to the
    result.  [ProcessTask]'s reply is what [Consume] consumes. *)

From stdpp Require Import base gmap strings list.
From S2P Require Import Prelude Spec SpecUtils Samples NodePools Consume Schedule Worker TofuFiles Tofu.
Import NodePools Consume Schedule Worker TofuFiles TofuBuild.

Module Terraformer.

Section tasks.
Context `{Tofu} (projectName : string).

Definition exports_6443 (s : Clusters) : bool := bool_decide (FindAssignedLbApiEndpoint (LoadBalancers s) = None).

(** concurrent.Exec over the load balancers: every one of them is built. *)
Fixpoint build_all (t : nat) (lbs : list LBcluster) : outcome (list LBcluster * option string) :=
  match lbs with
  | [] => Ret ([], None)
  | lb :: lbs =>
      let* (lb, err) := BuildLoadbalancers t projectName lb [] in
      let* (lbs, err') := build_all (S t) lbs in
      Ret (lb :: lbs, match err with Some e => Some e | None => err' end)
  end.

(** ** task_build_infrastructure.go *)

Definition build_clusters (s : Clusters) (tr : Tracker) : outcome Tracker :=
  match K8S s with
  | None => Ret tr
  | Some k8s =>
      match BuildK8Scluster (Tr_Calls tr) projectName k8s [] (exports_6443 s) with
      | (k8s, Some e) =>
          let tr := progressed tr (set_task_state (Tr_Task tr) (mkClusters (Some k8s) (LoadBalancers s))) 1 in
          Ret (commit_update (Push tr e) (Some k8s) [])
      | (k8s, None) =>
          let* (lbs, err) := build_all (S (Tr_Calls tr)) (LoadBalancers s) in
          let tr := progressed tr (set_task_state (Tr_Task tr) (mkClusters (Some k8s) lbs)) (S (length lbs)) in
          Ret (commit_update (push_error tr err) (Some k8s) lbs)
      end
  end.

Definition build (tr : Tracker) : outcome Tracker :=
  match Tr_Task tr with
  | Task_Create s | Task_Update s _ => build_clusters s tr
  | _ => Ret tr
  end.

(** ** Node pools with new nodes *)

(** The pools with the addition, or [None] when it is ignored. *)
Definition with_nodes (kind : AddNodesKind) (nps : list NodePool) : option (list NodePool) :=
  match kind with
  | Existing nodepool nodes =>
      match FindByName nodepool nps with
      | None => None
      | Some np =>
          if is_static np then None
          else Some (update_nodepool nodepool (λ np, AppendDynamicNodes np nodes) nps)
      end
  | New nodepool => Some (nps ++ [nodepool])
  | AddNodes_nil => None
  end.

(** The added pool or nodes are shared with the delta, so what is read back
    from tofu is visible there too. *)
Definition built_kind (kind : AddNodesKind) (before after : list NodePool) : AddNodesKind :=
  match kind with
  | Existing nodepool nodes =>
      match FindByName nodepool before, FindByName nodepool after with
      | Some old, Some np => Existing nodepool (drop (length (NodePool_Nodes old)) (NodePool_Nodes np))
      | _, _ => kind
      end
  | New nodepool => match last after with Some np => New np | None => kind end
  | AddNodes_nil => kind
  end.

(** ** task_add_kubernetes_nodes.go *)

Definition addKubernetesNodes (s : Clusters) (k8s : K8Scluster) (kind : AddNodesKind) (tr : Tracker) : outcome Tracker :=
  match with_nodes kind (K8s_NodePools k8s) with
  | None => Ret tr
  | Some nps =>
      let '(k, err) := BuildK8Scluster (Tr_Calls tr) projectName (set_K8s_NodePools k8s nps) [] (exports_6443 s) in
      let te := Task_Update (mkClusters (Some k) (LoadBalancers s))
                  (Update_TfAddK8SNodes (built_kind kind (K8s_NodePools k8s) (K8s_NodePools k))) in
      Ret (commit_update (push_error (progressed tr te 1) err) (Some k) [])
  end.

(** ** The load balancer a change is about *)

(** Looks the load balancer up, changes it, and builds it; [f] returns the
    changed load balancer and the pools that are going away, or [None] when
    the change is ignored.  [partial] tells whether the result is reported
    after an error. *)
Definition change_lb (s : Clusters) (delta : LBcluster → Delta) (handle : string)
    (f : LBcluster → option (LBcluster * list NodePool)) (partial : bool) (tr : Tracker) : outcome Tracker :=
  match IndexLoadbalancerById handle (LoadBalancers s) with
  | None => Ret tr
  | Some idx =>
      let* current := index (LoadBalancers s) idx in
      match f current with
      | None => Ret tr
      | Some (lb, ghosts) =>
          let* (lb, err) := BuildLoadbalancers (Tr_Calls tr) projectName lb ghosts in
          let te := Task_Update (mkClusters (K8S s) (<[idx := lb]> (LoadBalancers s))) (delta lb) in
          let tr := push_error (progressed tr te 1) err in
          Ret (if bool_decide (err ≠ None) && negb partial then tr else commit_update tr None [lb])
      end
  end.

(** ** task_add_loadbalancer_nodes.go *)

Definition addLoadBalancerNodes (s : Clusters) (handle : string) (kind : AddNodesKind) (tr : Tracker) : outcome Tracker :=
  let before := match lb_lookup handle (LoadBalancers s) with Some lb => LB_NodePools lb | None => [] end in
  change_lb s (λ lb, Update_TfAddLoadBalancerNodes handle (built_kind kind before (LB_NodePools lb))) handle
    (λ lb, match with_nodes kind (LB_NodePools lb) with
           | None => None
           | Some nps => Some (set_LB_NodePools lb nps, [])
           end) true tr.

(** ** task_add_loadbalancer_roles.go *)

Definition addLoadBalancerRoles (s : Clusters) (handle : string) (roles : list Role) (tr : Tracker) : outcome Tracker :=
  change_lb s (λ _, Update_TfAddLoadBalancerRoles handle roles) handle
    (λ lb, Some (set_LB_Roles lb (LB_Roles lb ++ roles), [])) true tr.

(** ** task_delete_loadbalancer_nodes.go *)

Definition deleteLoadBalancerNodes (s : Clusters) (d : Delta) (handle : string) (withNodePool : bool) (nodepool : string)
    (nodes : list string) (tr : Tracker) : outcome Tracker :=
  change_lb s (λ _, d) handle
    (λ lb,
      if withNodePool then
        Some (set_LB_NodePools lb (DeleteByName (LB_NodePools lb) nodepool),
              option_list (FindByName nodepool (LB_NodePools lb)))
      else match FindByName nodepool (LB_NodePools lb) with
           | None => None
           | Some _ => Some (set_LB_NodePools lb (update_nodepool nodepool (λ np, DeleteNodes np nodes) (LB_NodePools lb)), [])
           end) false tr.

(** ** task_delete_loadbalancer_roles.go *)

Definition deleteLoadBalancerRoles (s : Clusters) (handle : string) (roles : list string) (tr : Tracker) : outcome Tracker :=
  change_lb s (λ _, Update_DeleteLoadBalancerRoles_ handle roles) handle
    (λ lb, Some (set_LB_Roles lb (delete_func (λ r, contains roles (Role_Name r)) (LB_Roles lb)), [])) false tr.

(** ** task_replace_role_external_settings.go *)

Definition replaceRoleExternalSettings (s : Clusters) (handle role : string) (roleType : RoleType) (protocol : string)
    (port : Z) (tr : Tracker) : outcome Tracker :=
  change_lb s (λ _, Update_TfReplaceRoleExternalSettings handle role roleType protocol port) handle
    (λ lb, match find_first (λ r, bool_decide (Role_Name r = role)) (LB_Roles lb) with
           | None => None
           | Some _ =>
               Some (set_LB_Roles lb (update_first (λ r, bool_decide (Role_Name r = role))
                       (λ r, mkRole (Role_Name r) protocol port (Role_TargetPort r) roleType (Role_TargetPools r)
                               (Role_Settings_ r)) (LB_Roles lb)), [])
           end) true tr.

(** ** task_add_loadbalancer.go *)

Definition addLoadBalancer (s : Clusters) (toReconcile : LBcluster) (tr : Tracker) : outcome Tracker :=
  let* (lb, err) := BuildLoadbalancers (Tr_Calls tr) projectName toReconcile [] in
  Ret (commit_update (push_error (progressed tr (Task_Update s (Update_TfAddLoadBalancer lb)) 1) err) None [lb]).

(** ** task_delete_kubernetes_nodes.go *)

Definition deleteKubernetesNodes (s : Clusters) (k8s : K8Scluster) (d : Delta) (kind : DeletedNodesKind) (tr : Tracker)
    : outcome Tracker :=
  let ghosts := match kind with Whole np => option_list np | _ => [] end in
  let '(k, err) := BuildK8Scluster (Tr_Calls tr) projectName k8s ghosts (exports_6443 s) in
  let tr := progressed tr (Task_Update (mkClusters (Some k) (LoadBalancers s)) d) 1 in
  match err with
  | Some e => Ret (Push tr e)
  | None => Ret (commit_update tr (Some k) [])
  end.

(** ** task_delete_loadbalancer.go *)

Definition destroyLoadBalancer (s : Clusters) (toDestroy : string) (tr : Tracker) : outcome Tracker :=
  match IndexLoadbalancerById toDestroy (LoadBalancers s) with
  | None => Ret tr
  | Some idx =>
      let* lb := index (LoadBalancers s) idx in
      let* err := DestroyCluster (Tr_Calls tr) projectName (AnyLb lb) in
      let tr := progressed tr (Tr_Task tr) 1 in
      match err with
      | Some e => Ret (Push tr e)
      | None => Ret (commit_clear tr false [LB_Id lb])
      end
  end.

(** ** task_move_nodepool_to_autoscaled.go, task_move_nodepool_from_autoscaled.go *)

Definition set_autoscaler (s : Clusters) (k8s : K8Scluster) (d : Delta) (nodepool : string) (config : option AutoscalerConf)
    (tr : Tracker) : outcome Tracker :=
  match FindByName nodepool (K8s_NodePools k8s) with
  | None => Ret tr
  | Some np =>
      match GetDynamicNodePool np with
      | None => Ret tr
      | Some dyn =>
          let k := set_K8s_NodePools k8s (update_nodepool nodepool
                     (λ np, set_NodePool_Type np (NodePool_DynamicNodePool (set_Dyn_Autoscaler dyn config)))
                     (K8s_NodePools k8s)) in
          Ret (commit_update (progressed tr (Task_Update (mkClusters (Some k) (LoadBalancers s)) d) 0) (Some k) [])
      end
  end.

Definition moveNodePoolFromAutoscaled (s : Clusters) (k8s : K8Scluster) (nodepool : string) (tr : Tracker) : outcome Tracker :=
  set_autoscaler s k8s (Update_TfMoveNodePoolFromAutoscaled nodepool) nodepool None tr.

Definition moveNodePoolToAutoscaled (s : Clusters) (k8s : K8Scluster) (nodepool : string) (config : AutoscalerConf) (tr : Tracker)
    : outcome Tracker :=
  set_autoscaler s k8s (Update_TfMoveNodePoolToAutoscaled nodepool config) nodepool (Some config) tr.

(** ** task_replace_dns.go *)

Definition replaceDns (s : Clusters) (handle : string) (dns : option DNS) (oldApiEndpoint : option string) (tr : Tracker)
    : outcome Tracker :=
  match IndexLoadbalancerById handle (LoadBalancers s) with
  | None => Ret tr
  | Some idx =>
      let* lb := index (LoadBalancers s) idx in
      let put := λ lb d, Task_Update (mkClusters (K8S s) (<[idx := lb]> (LoadBalancers s)))
                           (Update_TfReplaceDns handle d oldApiEndpoint) in
      let cleared := set_LB_Dns lb None in
      let* (tr, err) := match LB_Dns lb with
                        | None => Ret (tr, None)
                        | Some _ =>
                            let* err := DestroyDNSRecords (Tr_Calls tr) (dns_builder projectName lb (LB_Dns lb)) in
                            Ret (push_error (commit_update (progressed tr (put cleared dns) 1) None [cleared]) err, err)
                        end in
      match err, dns with
      | Some _, _ => Ret tr
      | None, None => Ret tr
      | None, Some _ =>
          let* (created, err) := CreateDNSRecords (Tr_Calls tr) (dns_builder projectName cleared dns) in
          let lb := set_LB_Dns lb (Some created) in
          let tr := progressed tr (put lb (Some created)) 1 in
          match err with
          | Some e => Ret (Push tr e)
          | None => Ret (commit_update tr None [lb])
          end
      end
  end.

(** ** task_update_infrastructure.go *)

Definition reconcileInfrastructure (tr : Tracker) : outcome Tracker :=
  match Tr_Task tr with
  | Task_Update s delta =>
      match K8S s with
      | None => Ret tr
      | Some k8s =>
          match delta with
          | Update_None_ => build tr
          | Update_TfReplaceRoleExternalSettings handle role roleType protocol port =>
              replaceRoleExternalSettings s handle role roleType protocol port tr
          | Update_TfMoveNodePoolFromAutoscaled nodepool => moveNodePoolFromAutoscaled s k8s nodepool tr
          | Update_TfMoveNodePoolToAutoscaled nodepool config => moveNodePoolToAutoscaled s k8s nodepool config tr
          | Update_TfAddLoadBalancer handle => addLoadBalancer s handle tr
          | Update_TfDeleteLoadBalancerNodes handle withNodePool nodepool nodes _ =>
              deleteLoadBalancerNodes s delta handle withNodePool nodepool nodes tr
          | Update_TfAddLoadBalancerNodes handle kind => addLoadBalancerNodes s handle kind tr
          | Update_DeleteLoadBalancerRoles_ handle roles => deleteLoadBalancerRoles s handle roles tr
          | Update_TfAddLoadBalancerRoles handle roles => addLoadBalancerRoles s handle roles tr
          | Update_TfReplaceDns handle dns oldApiEndpoint => replaceDns s handle dns oldApiEndpoint tr
          | Update_DeleteLoadBalancer_ handle _ => destroyLoadBalancer s handle tr
          | Update_DeletedK8SNodes_ _ kind => deleteKubernetesNodes s k8s delta kind tr
          | Update_TfAddK8SNodes kind => addKubernetesNodes s k8s kind tr
          | _ => Ret tr
          end
      end
  | _ => Ret tr
  end.

(** ** task_reconcile_api_port.go *)

Definition reconcileApiPort (tr : Tracker) : outcome Tracker :=
  match Tr_Task tr with
  | Task_Update s (Update_ClusterApiPort open) =>
      let* k8s := deref (K8S s) in
      let '(k, err) := BuildK8Scluster (Tr_Calls tr) projectName k8s [] open in
      let tr := progressed tr (Task_Update (mkClusters (Some k) (LoadBalancers s)) (Update_ClusterApiPort open)) 1 in
      match err with
      | Some e => Ret (Push tr e)
      | None => Ret (commit_update tr (Some k) [])
      end
  | _ => Ret tr
  end.

(** ** task_destroy_infrastructure.go *)

(** concurrent.Exec over the clusters: [errs] *)
Fixpoint destroy_all (t : nat) (cs : list AnyCluster) : outcome (list (AnyCluster * option string)) :=
  match cs with
  | [] => Ret []
  | c :: cs =>
      let* err := DestroyCluster t projectName c in
      let* rest := destroy_all (S t) cs in
      Ret ((c, err) :: rest)
  end.

Definition is_kubernetes (c : AnyCluster) : bool := match c with AnyK8s _ => true | AnyLb _ => false end.

(** The ids of the clusters without an error. *)
Definition destroyed_ids (k8s : bool) (rs : list (AnyCluster * option string)) : list string :=
  omap (λ '(c, err), if bool_decide (err = None) && bool_decide (is_kubernetes c = k8s)
                     then Some (cluster_id c) else None) rs.

Definition destroy (tr : Tracker) : outcome Tracker :=
  match Tr_Task tr with
  | Task_Delete s =>
      match K8S s with
      | None => Ret tr
      | Some k8s =>
          let cs := AnyK8s k8s :: (AnyLb <$> LoadBalancers s) in
          let* rs := destroy_all (Tr_Calls tr) cs in
          let tr := push_error (progressed tr (Tr_Task tr) (length cs)) (head (omap snd rs)) in
          let k8sId := default "" (last (destroyed_ids true rs)) in
          Ret (commit_clear tr (bool_decide (k8sId ≠ "")) (destroyed_ids false rs))
      end
  | _ => Ret tr
  end.

(** ** process_task.go *)

Definition run_pass (kind : StageTerraformer_SubPassKind) (tr : Tracker) : outcome Tracker :=
  match kind with
  | BUILD_INFRASTRUCTURE => build tr
  | UPDATE_INFRASTRUCTURE => reconcileInfrastructure tr
  | DESTROY_INFRASTRUCTURE => destroy tr
  | API_PORT_ON_KUBERNETES => reconcileApiPort tr
  end.

Definition Terraformer_ProcessTask (cancelled : nat → bool) (task : Task) (passes : list (SubPass StageTerraformer_SubPassKind))
    : outcome TaskResult :=
  process_passes run_pass cancelled task passes.

End tasks.
(** ** Every reply is accepted *)

Section accepted.
Context `{Tofu} (projectName : string).

(** What building keeps of a load balancer. *)
Definition lb_same (l l' : LBcluster) : Prop :=
  LB_Id l' = LB_Id l ∧ LB_TargetedK8S l' = LB_TargetedK8S l ∧ LB_Roles l' = LB_Roles l ∧
  Forall2 (λ np np', pool_identity np' = pool_identity np) (LB_NodePools l) (LB_NodePools l').

Lemma BuildLoadbalancers_same t l ghosts l' err :
  BuildLoadbalancers t projectName l ghosts = Ret (l', err) → lb_same l l'.
Proof.
  unfold BuildLoadbalancers, LB_Build. destruct (ReconcileNodePools _ _) as [nps [e|]] eqn:E;
    apply ReconcileNodePools_pools in E as [E _]; [by intros [= <- <-]|].
  intros Hb. destruct (CreateDNSRecords _ _) as [[d e]|?|?]; simpl in Hb; [|done..]. by injection Hb as <- <-.
Qed.

Lemma BuildK8Scluster_same t k k0 ghosts e k' err :
  BuildK8Scluster t projectName k0 ghosts e = (k', err) → same_cluster k k0 → same_cluster k k'.
Proof.
  unfold BuildK8Scluster, K8s_Build. destruct (ReconcileNodePools _ _) as [nps err']. intros [= <- <-]. auto with claudie.
Qed.

Lemma build_all_same t lbs lbs' err : build_all projectName t lbs = Ret (lbs', err) → Forall2 lb_same lbs lbs'.
Proof.
  revert t lbs' err. induction lbs as [|lb lbs IH]; intros t lbs' err Hb; simpl in Hb; [by injection Hb as <- <-|].
  bind_inv Hb. destruct x as [lb1 e1]. bind_inv Hb. destruct x as [lbs1 e2]. injection Hb as <- <-.
  constructor; [by eapply BuildLoadbalancers_same|by eapply IH].
Qed.

Lemma lbs_of_same name lbs lbs' : Forall2 lb_same lbs lbs' → lbs_of name lbs → lbs_of name lbs'.
Proof.
  intros Hs [Hn Hl]. split.
  - assert (lb_ids lbs' = lb_ids lbs) as ->; [|done]. clear -Hs. induction Hs as [|l l' ls ls' (E & _) _ IH]; [done|].
    rewrite !lb_ids_cons. congruence.
  - clear Hn. induction Hs as [|l l' ls ls' (_ & E & _) _ IH]; [done|]. apply Forall_cons in Hl as [Hl1 Hl2].
    constructor; [congruence|auto].
Qed.

Lemma change_lb_ok k s delta handle f partial tr tr' :
  ok k tr →
  (∀ k', K8S s = Some k' → same_cluster k k') → lbs_of (cluster_name k) (LoadBalancers s) →
  (∀ l lb, delta l ≠ Update_TfAddLoadBalancer lb) →
  (∀ l l' g, f l = Some (l', g) → LB_Id l' = LB_Id l ∧ LB_TargetedK8S l' = LB_TargetedK8S l) →
  change_lb projectName s delta handle f partial tr = Ret tr' → ok k tr'.
Proof.
  intros Htr Hk Hl Hd Hf. unfold change_lb. destruct (IndexLoadbalancerById _ _) as [idx|]; [|by intros [= <-]].
  intros Hc. bind_inv Hc. apply index_Ret in Hx. destruct (f x) as [[l g]|] eqn:Ef; [|by injection Hc as <-].
  apply Hf in Ef as [Eid Et]. bind_inv Hc. destruct x0 as [l' err]. apply BuildLoadbalancers_same in Hx0 as (Bid & Bt & _).
  set (te := Task_Update _ _) in Hc.
  assert (Hte : task_for k te).
  { apply task_for_update; [done| |by intros ? ?%Hd]. eapply lbs_of_insert; [done..|congruence|congruence]. }
  assert (Hok : ok k (push_error (progressed tr te 1) err)) by (by apply push_error_ok, progressed_ok).
  injection Hc as <-. destruct (_ && _); [done|]. apply commit_update_ok; [done..|].
  eapply lbs_of_singleton; [done..|congruence].
Qed.

Lemma build_clusters_ok k s tr tr' :
  ok k tr → task_state (Tr_Task tr) = Some s → build_clusters projectName s tr = Ret tr' → ok k tr'.
Proof.
  intros Htr Hs. pose proof Htr as [[Hst Hdl] _]. rewrite Hs in Hst. destruct Hst as [Hk Hl]. unfold build_clusters.
  assert (Hput : ∀ k1 lbs, same_cluster k k1 → lbs_of (cluster_name k) lbs →
    task_for k (set_task_state (Tr_Task tr) (mkClusters (Some k1) lbs))).
  { intros k1 lbs H1 H2. split; [erewrite task_state_set by done|by rewrite task_delta_set_state].
    split; [by intros ? [= <-]|done]. }
  destruct (K8S s) as [k8s|] eqn:Ek; [|by intros [= <-]].
  destruct (BuildK8Scluster _ _ _ _ _) as [k1 [e|]] eqn:Eb; apply (BuildK8Scluster_same _ k) in Eb; try by apply Hk.
  - intros [= <-]. apply commit_update_ok; [|by intros ? [= <-]|apply lbs_of_nil].
    refine (push_error_ok _ _ (Some e) _). apply progressed_ok; auto.
  - intros Hb. bind_inv Hb. destruct x as [lbs err]. injection Hb as <-.
    apply build_all_same in Hx. eapply lbs_of_same in Hx; [|done].
    apply commit_update_ok; [|by intros ? [= <-]|done]. apply push_error_ok, progressed_ok; auto.
Qed.

Lemma build_ok k tr tr' : ok k tr → build projectName tr = Ret tr' → ok k tr'.
Proof.
  intros Htr. unfold build. destruct (Tr_Task tr) eqn:Et; try (by intros [= <-]);
    apply build_clusters_ok; by rewrite ?Et.
Qed.

Lemma with_k8s_ok k tr s d k' n err :
  ok k tr → lbs_of (cluster_name k) (LoadBalancers s) → same_cluster k k' →
  (∀ lb, d ≠ Update_TfAddLoadBalancer lb) →
  let tr1 := push_error (progressed tr (Task_Update (mkClusters (Some k') (LoadBalancers s)) d) n) err in
  ok k tr1 ∧ ok k (commit_update tr1 (Some k') []).
Proof.
  intros Htr Hl Hk Hd tr1.
  assert (ok k tr1) as Hok.
  { apply push_error_ok, progressed_ok; [done|]. apply task_for_update; [by intros ? [= <-]|done|by intros ? ?%Hd]. }
  split; [done|]. apply commit_update_ok; [done|by intros ? [= <-]|apply lbs_of_nil].
Qed.

Lemma replaceDns_ok k tr s handle dns old tr' :
  ok k tr → (∀ k', K8S s = Some k' → same_cluster k k') → lbs_of (cluster_name k) (LoadBalancers s) →
  replaceDns projectName s handle dns old tr = Ret tr' → ok k tr'.
Proof.
  intros Htr Hk Hl. unfold replaceDns. destruct (IndexLoadbalancerById _ _) as [idx|]; [|by intros [= <-]].
  intros Hr. bind_inv Hr. apply index_Ret in Hx.
  assert (Hput : ∀ tr d d' n, ok k tr →
    let te := Task_Update (mkClusters (K8S s) (<[idx := set_LB_Dns x d]> (LoadBalancers s))) (Update_TfReplaceDns handle d' old) in
    ok k (progressed tr te n) ∧ ok k (commit_update (progressed tr te n) None [set_LB_Dns x d])).
  { intros tr0 d d' n H0 te.
    assert (ok k (progressed tr0 te n)).
    { apply progressed_ok; [done|]. apply task_for_update; [done| |done]. by eapply lbs_of_insert. }
    split; [done|]. apply commit_update_ok; [done|done|]. by eapply lbs_of_singleton. }
  bind_inv Hr. destruct x0 as [tr1 err1]. simpl in Hr. assert (ok k tr1) as H1.
  { destruct (LB_Dns x) as [d0|] eqn:Ed; [|by injection Hx0 as <- <-].
    destruct (DestroyDNSRecords _ _) as [e|?|?]; simpl in Hx0; try done. injection Hx0 as <- <-.
    apply push_error_ok. by apply Hput. }
  clear Hx0. destruct err1; [by injection Hr as <-|]. destruct dns as [d|]; [|by injection Hr as <-].
  bind_inv Hr. destruct x0 as [d1 err2]. destruct err2 as [e|]; injection Hr as <-.
  - refine (push_error_ok _ _ (Some e) _). by apply Hput.
  - by apply Hput.
Qed.

Lemma set_autoscaler_ok k tr s k8s d np config tr' :
  ok k tr → same_cluster k k8s → lbs_of (cluster_name k) (LoadBalancers s) → (∀ lb, d ≠ Update_TfAddLoadBalancer lb) →
  set_autoscaler s k8s d np config tr = Ret tr' → ok k tr'.
Proof.
  intros Htr Hk Hl Hd. unfold set_autoscaler. destruct (FindByName _ _); [|by intros [= <-]].
  destruct (GetDynamicNodePool _); [|by intros [= <-]]. intros [= <-].
  eapply (with_k8s_ok _ _ _ _ _ _ None); auto with claudie.
Qed.

Lemma reconcileInfrastructure_ok k tr tr' : ok k tr → reconcileInfrastructure projectName tr = Ret tr' → ok k tr'.
Proof.
  intros Htr. unfold reconcileInfrastructure. destruct (Tr_Task tr) as [s|s d|s|] eqn:Et; try by intros [= <-].
  assert (Htf : task_for k (Task_Update s d)) by (rewrite <- Et; apply Htr).
  pose proof Htf as [_ Hdl]. apply task_for_inv in Htf as [Hk Hl].
  destruct (K8S s) as [k8s|] eqn:Ek; [|by intros [= <-]]. specialize (Hk k8s eq_refl) as Hk8s.
  rewrite <- Ek in Hk. destruct d; try (by intros [= <-]).
  - by apply build_ok.
  - unfold addLoadBalancer. intros Hr. bind_inv Hr. destruct x as [lb err]. injection Hr as <-.
    apply BuildLoadbalancers_same in Hx as (Bid & Bt & _). simpl in Hdl.
    apply commit_update_ok; [|done|split; [by apply NoDup_singleton|constructor; [congruence|done]]].
    apply push_error_ok, progressed_ok; [done|]. destruct s. apply task_for_update; [done..|].
    intros ? [= <-]. congruence.
  - apply change_lb_ok; try done. intros l l' g. by destruct (with_nodes _ _); intros [= <- <-].
  - by apply replaceDns_ok.
  - unfold addKubernetesNodes. destruct (with_nodes _ _) as [nps|]; [|by intros [= <-]].
    destruct (BuildK8Scluster _ _ _ _ _) as [k1 err] eqn:Eb. apply (BuildK8Scluster_same _ k) in Eb; [|by auto with claudie].
    intros [= <-]. by eapply with_k8s_ok.
  - apply change_lb_ok; try done. by intros l l' g [= <- <-].
  - apply change_lb_ok; try done. intros l l' g. destruct withNodePool; [by intros [= <- <-]|].
    by destruct (FindByName _ _); intros [= <- <-].
  - by apply set_autoscaler_ok.
  - by apply set_autoscaler_ok.
  - apply change_lb_ok; try done. intros l l' g. by destruct (find_first _ _); intros [= <- <-].
  - unfold destroyLoadBalancer. destruct (IndexLoadbalancerById _ _); [|by intros [= <-]]. intros Hr. bind_inv Hr.
    assert (ok k (progressed tr (Tr_Task tr) 1)) by (by apply progressed_ok; [|apply Htr]).
    destruct x0; injection Hr as <-; [done|by apply commit_clear_ok].
  - unfold deleteKubernetesNodes. destruct (BuildK8Scluster _ _ _ _ _) as [k1 err] eqn:Eb.
    apply (BuildK8Scluster_same _ k) in Eb; [|done].
    pose proof (with_k8s_ok k tr s (Update_DeletedK8SNodes_ unreachable kind) k1 1 err Htr Hl Eb) as Hw.
    destruct err; intros [= <-]; by apply Hw.
  - apply change_lb_ok; try done. by intros l l' g [= <- <-].
Qed.

Lemma run_pass_ok k kind tr tr' : ok k tr → run_pass projectName kind tr = Ret tr' → ok k tr'.
Proof.
  intros Htr. destruct kind; simpl; [by apply build_ok|by apply reconcileInfrastructure_ok|..].
  - unfold destroy. destruct (Tr_Task tr) as [s|s d|s|] eqn:Et; try by intros [= <-].
    destruct (K8S s); [|by intros [= <-]]. intros Hr. bind_inv Hr. subst tr'. apply commit_clear_ok, push_error_ok, progressed_ok; [done|].
    rewrite <- Et. apply Htr.
  - unfold reconcileApiPort. destruct (Tr_Task tr) as [s|s d|s|] eqn:Et; try by intros [= <-].
    destruct d; try (by intros [= <-]).
    assert (Htf : task_for k (Task_Update s (Update_ClusterApiPort open))) by (rewrite <- Et; apply Htr).
    apply task_for_inv in Htf as [Hk Hl]. destruct (K8S s) as [k8s|] eqn:Ek; simpl; [|done].
    destruct (BuildK8Scluster _ _ _ _ _) as [k1 err] eqn:Eb. apply (BuildK8Scluster_same _ k) in Eb; [|by apply Hk].
    pose proof (with_k8s_ok k tr s (Update_ClusterApiPort open) k1 1 err Htr Hl Eb) as Hw.
    destruct err; intros [= <-]; by apply Hw.
Qed.

(** Whatever OpenTofu answers, whichever passes a stage has and wherever
    it is interrupted: the reply of the terraformer to a task of a cluster is
    accepted by the manager.  An update is consumed without an error, keeps
    the identity of the cluster and merges exactly the reported load
    balancers, whose ids stay unique. *)
Lemma terraformer_reply_accepted cancelled te s k passes r :
  task_state te = Some s → K8S s = Some k → task_for k te → delta_resolves te →
  Terraformer_ProcessTask projectName cancelled te passes = Ret r →
  report_ok k r ∧ accepted te s k r.
Proof.
  intros Hs Hk Ht Hd Hr. apply (process_passes_report_ok _ _ _ k) in Hr; [|apply run_pass_ok|done].
  split; [done|by apply report_accepted].
Qed.

End accepted.
(** ** What a reply says about additions and removals *)

(** The names of the pools and of their nodes, in order. *)
Definition pool_nodes (nps : list NodePool) : list (string * list string) :=
  (λ np, (NodePool_Name np, Node_Name <$> NodePool_Nodes np)) <$> nps.

(** The oneof of every pool is set. *)
Definition typed_pools (nps : list NodePool) : Prop := Forall (λ np, NodePool_Type np ≠ NodePool_nil) nps.

Definition grown (kind : AddNodesKind) (before after : list NodePool) : Prop :=
  match kind with
  | New np => pool_nodes after = pool_nodes (before ++ [np])
  | Existing name nodes =>
      ∃ l1 l2 ns, pool_nodes before = l1 ++ (name, ns) :: l2 ∧
                  pool_nodes after = l1 ++ (name, ns ++ (Node_Name <$> nodes)) :: l2
  | AddNodes_nil => False
  end.

Definition shrunk (withNodePool : bool) (name : string) (nodes : list string) (before after : list NodePool) : Prop :=
  ∃ l1 l2 ns, pool_nodes before = l1 ++ (name, ns) :: l2 ∧
    pool_nodes after = if withNodePool then l1 ++ l2
                       else l1 ++ (name, filter (λ n, n ∉ nodes) ns) :: l2.

Lemma identity_pool_nodes nps nps' :
  Forall2 (λ np np', pool_identity np' = pool_identity np) nps nps' → pool_nodes nps' = pool_nodes nps.
Proof.
  induction 1 as [|np np' nps nps' E _ IH]; [done|]. unfold pool_nodes in *. rewrite !fmap_cons, IH. f_equal.
  pose proof (f_equal (λ x, NodePool_Name x.1) E) as E1. pose proof (f_equal snd E) as E2. f_equal; [done|].
  apply (f_equal (fmap (λ x, x.1.1.1.1))) in E2. simpl in E2. by rewrite <- !list_fmap_compose in E2.
Qed.

Lemma update_first_split {A} (f : A → bool) (g : A → A) l x :
  find_first f l = Some x → ∃ l1 l2, l = l1 ++ x :: l2 ∧ update_first f g l = l1 ++ g x :: l2.
Proof.
  induction l as [|y l IH]; simpl; [done|]. destruct (f y) eqn:E.
  - intros [= ->]. by exists [], l.
  - intros (l1 & l2 & -> & ->)%IH. by exists (y :: l1), l2.
Qed.

Lemma DeleteByName_split name nps np :
  FindByName name nps = Some np → ∃ l1 l2, nps = l1 ++ np :: l2 ∧ DeleteByName nps name = l1 ++ l2.
Proof.
  unfold FindByName. induction nps as [|y nps IH]; simpl; [done|]. destruct (has_name name y) eqn:E.
  - intros [= ->]. by exists [], nps.
  - intros (l1 & l2 & -> & ->)%IH. by exists (y :: l1), l2.
Qed.

Lemma with_nodes_grown kind nps nps' after :
  typed_pools nps →
  with_nodes kind nps = Some nps' → Forall2 (λ np np', pool_identity np' = pool_identity np) nps' after →
  grown kind nps after.
Proof.
  intros Hty Hw Hf. apply identity_pool_nodes in Hf. destruct kind as [name nodes|np|]; simpl in *; [| |done].
  - destruct (FindByName name nps) as [np|] eqn:Ef; [|done]. destruct (is_static np) eqn:Es; [done|]. injection Hw as <-.
    pose proof (FindByName_Some _ _ _ Ef) as [Hin Hname].
    destruct (update_first_split _ (λ np, AppendDynamicNodes np nodes) _ _ Ef) as (l1 & l2 & -> & E).
    unfold update_nodepool in Hf. rewrite E in Hf. exists (pool_nodes l1), (pool_nodes l2), (Node_Name <$> NodePool_Nodes np).
    unfold pool_nodes in *. rewrite Hf, !fmap_app, !fmap_cons. split; [by rewrite Hname|].
    apply Forall_app in Hty as [_ [Hd _]%Forall_cons]. unfold is_static, GetStaticNodePool in Es.
    unfold AppendDynamicNodes. destruct (NodePool_Type np); try done. simpl. by rewrite fmap_app, Hname.
  - by injection Hw as <-.
Qed.

Lemma find_first_index {A} (f : A → bool) l x :
  find_first f l = Some x → ∃ i, index_func f l = Some i ∧ l !! i = Some x.
Proof.
  unfold index_func. induction l as [|y l IH]; simpl; [done|]. destruct (f y) eqn:E.
  - intros [= ->]. exists 0. by rewrite decide_True by done.
  - intros (i & Hi & Hx)%IH. exists (S i). rewrite decide_False by congruence. split; [|done].
    apply fmap_Some in Hi as ([j z] & Hl & ->). by rewrite Hl.
Qed.

Section reports.
Context `{Tofu} (projectName : string).

(** A change of an existing load balancer, started afresh. *)
Lemma change_lb_start s te delta handle f partial tr lb l g :
  lb_lookup handle (LoadBalancers s) = Some lb → f lb = Some (l, g) →
  change_lb projectName s delta handle f partial (start te) = Ret tr →
  ∃ l' err, BuildLoadbalancers 0 projectName l g = Ret (l', err) ∧ Tr_Diagnostics tr = option_list err ∧
    Tr_Result tr = mkTaskResult None (if bool_decide (err ≠ None) && negb partial then TaskResult_None_
                                      else TaskResult_Update (mkUpdateState None [l'])).
Proof.
  intros Hlb Hf. unfold change_lb, IndexLoadbalancerById. apply find_first_index in Hlb as (i & -> & Hi).
  intros Hc. bind_inv Hc. apply index_Ret in Hx. rewrite Hi in Hx. injection Hx as <-. rewrite Hf in Hc.
  bind_inv Hc. destruct x as [l' err]. exists l', err. split; [done|]. injection Hc as <-.
  destruct err; simpl; [|done]. by destruct partial.
Qed.

(** The pools a delta asks to add to are there. *)
Definition addable (kind : AddNodesKind) (nps : list NodePool) : Prop := typed_pools nps ∧ is_Some (with_nodes kind nps).

(** A delta that adds something to a state. *)
Definition adds (s : Clusters) (d : Delta) : Prop :=
  match d with
  | Update_TfAddK8SNodes kind => ∃ k, K8S s = Some k ∧ addable kind (K8s_NodePools k)
  | Update_TfAddLoadBalancer _ => True
  | Update_TfAddLoadBalancerNodes handle kind =>
      ∃ lb, lb_lookup handle (LoadBalancers s) = Some lb ∧ addable kind (LB_NodePools lb)
  | Update_TfAddLoadBalancerRoles handle _ => is_Some (lb_lookup handle (LoadBalancers s))
  | _ => False
  end.

(** Only the load balancer [handle] changed, from [lb] to [lb']. *)
Definition only_lb (s s' : Clusters) (handle : string) (lb' : LBcluster) : Prop :=
  K8S s' = K8S s ∧ lb_lookup handle (LoadBalancers s') = Some lb' ∧
  ∀ id, id ≠ handle → lb_lookup id (LoadBalancers s') = lb_lookup id (LoadBalancers s).

(** The state [s'] is [s] with what [d] adds. *)
Definition added (s s' : Clusters) (d : Delta) : Prop :=
  match d with
  | Update_TfAddK8SNodes kind =>
      ∃ k k', K8S s = Some k ∧ K8S s' = Some k' ∧ grown kind (K8s_NodePools k) (K8s_NodePools k') ∧
        ∀ id, lb_lookup id (LoadBalancers s') = lb_lookup id (LoadBalancers s)
  | Update_TfAddLoadBalancer lb => ∃ lb', only_lb s s' (LB_Id lb) lb' ∧ lb_same lb lb'
  | Update_TfAddLoadBalancerNodes handle kind =>
      ∃ lb lb', lb_lookup handle (LoadBalancers s) = Some lb ∧ only_lb s s' handle lb' ∧
        grown kind (LB_NodePools lb) (LB_NodePools lb')
  | Update_TfAddLoadBalancerRoles handle roles =>
      ∃ lb lb', lb_lookup handle (LoadBalancers s) = Some lb ∧ only_lb s s' handle lb' ∧
        LB_Roles lb' = LB_Roles lb ++ roles
  | _ => False
  end.

(** A report of one load balancer changes that load balancer only. *)
Lemma accepted_lb te s k r handle l' :
  K8S s = Some k → accepted te s k r → TaskResult_Result_ r = TaskResult_Update (mkUpdateState None [l']) → LB_Id l' = handle →
  ∃ u te' s', TaskResult_Result_ r = TaskResult_Update u ∧ ConsumeUpdateResult te u = Ret (te', None) ∧
    task_state te' = Some s' ∧ only_lb s s' handle l'.
Proof.
  intros Hk Ha Hr Hid. unfold accepted in Ha. rewrite Hr in Ha. destruct Ha as (te' & s' & Hc & Hs' & Hk' & _ & Hm).
  do 3 eexists. split_and!; [done..|]. split; [by rewrite Hk', Hk|].
  assert (Hl : ∀ id, lb_lookup id [l'] = if bool_decide (handle = id) then Some l' else None).
  { intros id. unfold lb_lookup. simpl. by rewrite Hid. }
  split; [|intros id Hne]; rewrite Hm; unfold merged; simpl; rewrite Hl.
  - by rewrite bool_decide_eq_true_2.
  - by rewrite bool_decide_eq_false_2 by congruence.
Qed.

Lemma one_update_pass cancelled s k d p r :
  K8S s = Some k → cancelled 0 = false → Kind p = UPDATE_INFRASTRUCTURE →
  Terraformer_ProcessTask projectName cancelled (Task_Update s d) [p] = Ret r →
  ∃ tr, reconcileInfrastructure projectName (start (Task_Update s d)) = Ret tr ∧
    TaskResult_Result_ r = TaskResult_Result_ (Tr_Result tr) ∧
    (Level (Description p) = ERROR_FATAL → TaskResult_Error (Tr_Result tr) = None →
       (TaskResult_Error r = None ↔ Tr_Diagnostics tr = [])).
Proof.
  intros Hk Hc Hp Hr. apply process_one in Hr as (tr & Hrun & ->); [|done]. rewrite Hp in Hrun. exists tr.
  split; [done|]. unfold reply. split; [by case_bool_decide|]. intros -> He. by case_bool_decide; rewrite ?He.
Qed.

Lemma ProcessTask_accepted cancelled s k d passes r :
  K8S s = Some k → task_for k (Task_Update s d) → delta_resolves (Task_Update s d) →
  Terraformer_ProcessTask projectName cancelled (Task_Update s d) passes = Ret r → accepted (Task_Update s d) s k r.
Proof.
  intros Hk Ht Hd Hr. apply report_accepted; [done..|]. by eapply process_passes_report_ok; [apply run_pass_ok|..].
Qed.

(** C25: An addition is never lost: when a task adds nodes, a node pool, a
    load balancer or roles, then whatever fails while the terraformer builds
    them, its reply makes the manager's state contain the whole addition, and
    change nothing else, so that what was built can be found and removed. *)
Theorem additions_survive_failures cancelled s k d p r :
  K8S s = Some k → task_for k (Task_Update s d) → adds s d →
  cancelled 0 = false → Kind p = UPDATE_INFRASTRUCTURE →
  Terraformer_ProcessTask projectName cancelled (Task_Update s d) [p] = Ret r →
  ∃ u te' s', TaskResult_Result_ r = TaskResult_Update u ∧ ConsumeUpdateResult (Task_Update s d) u = Ret (te', None) ∧
    task_state te' = Some s' ∧ added s s' d.
Proof.
  intros Hk Ht Ha Hc Hp Hr.
  assert (Hd : delta_resolves (Task_Update s d)) by (intros ? ? ? ? ? [= <-]; destruct d; by eauto).
  pose proof (ProcessTask_accepted _ _ _ _ _ _ Hk Ht Hd Hr) as Hacc.
  destruct (one_update_pass _ _ _ _ _ _ Hk Hc Hp Hr) as (tr & Hrun & Hres & _). clear Hr.
  unfold reconcileInfrastructure in Hrun. simpl in Hrun. rewrite Hk in Hrun.
  destruct d; try done; simpl in Ha.
  - unfold addLoadBalancer in Hrun. bind_inv Hrun. destruct x as [l' err]. injection Hrun as <-.
    apply BuildLoadbalancers_same in Hx as Hs. pose proof Hs as (Hid & _).
    destruct (accepted_lb _ _ _ _ (LB_Id handle) l' Hk Hacc) as (u & te' & s' & ? & ? & ? & Ho);
      [rewrite Hres; by destruct err|done|]. exists u, te', s'. split_and!; [done..|]. by exists l'.
  - destruct Ha as (lb & Hlb & Hty & nps & Hw).
    eapply change_lb_start in Hrun as (l' & err & Hb & _ & Hres'); [|done|simpl; by rewrite Hw].
    apply BuildLoadbalancers_same in Hb as (Hid & _ & _ & Hf). rewrite Hres', andb_false_r in Hres.
    destruct (lb_lookup_Some _ _ _ Hlb) as [_ Hh].
    destruct (accepted_lb _ _ _ _ handle l' Hk Hacc Hres) as (u & te' & s' & ? & ? & ? & Ho); [by rewrite Hid|].
    exists u, te', s'. split_and!; [done..|]. exists lb, l'. split_and!; [done..|]. by eapply with_nodes_grown.
  - destruct Ha as (k0 & Hk0 & Hty & nps & Hw). rewrite Hk in Hk0. injection Hk0 as <-. unfold addKubernetesNodes in Hrun.
    rewrite Hw in Hrun. destruct (BuildK8Scluster _ _ _ _ _) as [k' err] eqn:Eb. injection Hrun as <-.
    unfold BuildK8Scluster, K8s_Build in Eb. destruct (ReconcileNodePools _ _) as [nps' err'] eqn:Er.
    apply ReconcileNodePools_pools in Er as [Hf _]. injection Eb as <- <-.
    unfold accepted in Hacc. assert (Hu : TaskResult_Result_ r = TaskResult_Update (mkUpdateState (Some (set_K8s_NodePools (set_K8s_NodePools k nps) nps')) []))
      by (rewrite Hres; by destruct err'). rewrite Hu in Hacc. destruct Hacc as (te' & s' & Hcons & Hs' & Hk' & _ & Hm).
    do 3 eexists. split_and!; [done..|]. do 2 eexists. split_and!; [done|exact Hk'|by eapply with_nodes_grown|exact Hm].
  - destruct Ha as (lb & Hlb).
    eapply change_lb_start in Hrun as (l' & err & Hb & _ & Hres'); [|done|done].
    apply BuildLoadbalancers_same in Hb as (Hid & _ & Hroles & _). rewrite Hres', andb_false_r in Hres.
    destruct (lb_lookup_Some _ _ _ Hlb) as [_ Hh].
    destruct (accepted_lb _ _ _ _ handle l' Hk Hacc Hres) as (u & te' & s' & ? & ? & ? & Ho); [by rewrite Hid|].
    exists u, te', s'. split_and!; [done..|]. by exists lb, l'.
Qed.

(** A delta that removes something that is there. *)
Definition removes (s : Clusters) (d : Delta) : Prop :=
  match d with
  | Update_TfDeleteLoadBalancerNodes handle _ np _ _ =>
      ∃ lb, lb_lookup handle (LoadBalancers s) = Some lb ∧ is_Some (FindByName np (LB_NodePools lb))
  | Update_DeleteLoadBalancerRoles_ handle _ | Update_DeleteLoadBalancer_ handle _ =>
      is_Some (lb_lookup handle (LoadBalancers s))
  | Update_DeletedK8SNodes_ _ _ => True
  | _ => False
  end.

(** The state [s'] is [s] without what [d] removes; the nodes of
    [DeletedK8SNodes] left the state in an earlier stage. *)
Definition removed (s s' : Clusters) (d : Delta) : Prop :=
  match d with
  | Update_TfDeleteLoadBalancerNodes handle withNodePool np nodes _ =>
      ∃ lb lb', lb_lookup handle (LoadBalancers s) = Some lb ∧ only_lb s s' handle lb' ∧
        shrunk withNodePool np nodes (LB_NodePools lb) (LB_NodePools lb')
  | Update_DeleteLoadBalancerRoles_ handle roles =>
      ∃ lb lb', lb_lookup handle (LoadBalancers s) = Some lb ∧ only_lb s s' handle lb' ∧
        ∀ r, r ∈ LB_Roles lb' ↔ r ∈ LB_Roles lb ∧ ¬ Role_Name r ∈ roles
  | Update_DeleteLoadBalancer_ handle _ =>
      K8S s' = K8S s ∧
      ∀ id, lb_lookup id (LoadBalancers s') = if bool_decide (id = handle) then None else lb_lookup id (LoadBalancers s)
  | Update_DeletedK8SNodes_ _ _ =>
      (∃ k k', K8S s = Some k ∧ K8S s' = Some k' ∧ pool_nodes (K8s_NodePools k') = pool_nodes (K8s_NodePools k)) ∧
      ∀ id, lb_lookup id (LoadBalancers s') = lb_lookup id (LoadBalancers s)
  | _ => False
  end.

(** *** What OpenTofu did

    Call [t] of the worker applied the files of the load balancer and of its
    DNS records (written with the addresses of the built pools). *)
Definition lb_applied (t : nat) (l : LBcluster) (ghosts : list NodePool) : Prop :=
  applied t (lb_builder projectName l ghosts (LB_Roles l)) ∧
  ∃ nps dns, let b := dns_builder projectName (set_LB_NodePools l nps) (LB_Dns l) in
    LB_Dns l = Some dns ∧ generateDnsFiles t b dns = None ∧ tofu_Init t (dns_id b) = None ∧ tofu_Apply t (dns_id b) = None.

(** It destroyed the resources of the load balancer.  There is nothing to
    destroy when no state was ever stored, and nothing that can be destroyed
    when the commit of the templates is gone; the records are left alone when
    more than one node has no address. *)
Definition lb_destroyed (t : nat) (l : LBcluster) : Prop :=
  let c := lb_builder projectName l [] [] in
  s3_Stat t (LB_Id l) = Some ErrS3KeyNotExists ∨
  ((generateFiles t c = Some ErrUnknownCommit ∨
    (generateFiles t c = None ∧ tofu_Init t (Cb_Id c) = None ∧ tofu_Destroy t (Cb_Id c) = None)) ∧
   (LB_Dns l = None ∨ 1 < length (filter (λ ip, ip = "") (PublicEndpoints (LB_NodePools l))) ∨
    ∃ dns, let b := dns_builder projectName l (LB_Dns l) in
      LB_Dns l = Some dns ∧ generateDnsFiles t b dns = None ∧ tofu_Init t (dns_id b) = None ∧ tofu_Destroy t (dns_id b) = None)).

(** OpenTofu carried the removal out: it applied the cluster without what is
    removed, or destroyed the load balancer. *)
Definition tofu_removed (t : nat) (s : Clusters) (d : Delta) : Prop :=
  match d with
  | Update_TfDeleteLoadBalancerNodes handle withNodePool np nodes _ =>
      ∃ lb l ghosts, lb_lookup handle (LoadBalancers s) = Some lb ∧ LB_Id l = LB_Id lb ∧
        shrunk withNodePool np nodes (LB_NodePools lb) (LB_NodePools l) ∧ lb_applied t l ghosts
  | Update_DeleteLoadBalancerRoles_ handle roles =>
      ∃ lb l ghosts, lb_lookup handle (LoadBalancers s) = Some lb ∧ LB_Id l = LB_Id lb ∧
        (∀ r, r ∈ LB_Roles l ↔ r ∈ LB_Roles lb ∧ ¬ Role_Name r ∈ roles) ∧ lb_applied t l ghosts
  | Update_DeleteLoadBalancer_ handle _ =>
      ∃ lb, lb_lookup handle (LoadBalancers s) = Some lb ∧ lb_destroyed t lb
  | Update_DeletedK8SNodes_ _ kind =>
      ∃ k ghosts, K8S s = Some k ∧ applied t (k8s_builder projectName k ghosts (exports_6443 s))
  | _ => False
  end.

Lemma LB_Build_applied t l ghosts l' : LB_Build t projectName l ghosts = Ret (l', None) → lb_applied t l ghosts.
Proof.
  unfold LB_Build, lb_applied. destruct (ReconcileNodePools _ _) as [nps [e|]] eqn:E; [done|].
  apply ReconcileNodePools_pools in E as [_ E]. destruct (E eq_refl) as [Ha _]. intros Hb. split; [done|].
  bind_inv Hb. destruct x as [dns' err]. unfold CreateDNSRecords in Hx. simpl in Hx.
  destruct (LB_Dns l) as [dns|] eqn:Ed; simpl in Hx; [|done]. exists nps, dns. simpl in *.
  injection Hb as _ ->.
  destruct (generateDnsFiles _ _ _); [congruence|]. destruct (tofu_Init _ _); [congruence|].
  by destruct (tofu_Apply _ _); [congruence|].
Qed.

Lemma DestroyCluster_lb_destroyed t l : DestroyCluster t projectName (AnyLb l) = Ret None → lb_destroyed t l.
Proof.
  unfold DestroyCluster, lb_destroyed. simpl. destruct (s3_Stat t (LB_Id l)) as [[|e]|]; [by left|done|].
  intros Hd. right. bind_inv Hd. destruct x as [e|]; [done|]. clear Hd. unfold LB_Destroy in Hx.
  bind_inv Hx. destruct (DestroyNodepools _ _) as [e|] eqn:Ep; [done|]. subst x. split.
  - unfold DestroyNodepools in Ep. destruct (generateFiles _ _) as [[|e]|]; [by left|done|right].
    by destruct (tofu_Init _ _).
  - simpl in *.
    destruct (LB_Dns l) as [dns|] eqn:Ed; [right|by left]. case_bool_decide as Hn; [by left|right]. exists dns. simpl in *.
    unfold DestroyDNSRecords in Hx0. simpl in Hx0.
    destruct (generateDnsFiles _ _ _); [congruence|]. destruct (tofu_Init _ _); [congruence|]. split_and!; congruence.
Qed.

Lemma shrunk_built (withNodePool : bool) np nodes nps nps' :
  is_Some (FindByName np nps) →
  Forall2 (λ np np', pool_identity np' = pool_identity np)
    (if withNodePool then DeleteByName nps np else update_nodepool np (λ np, DeleteNodes np nodes) nps) nps' →
  shrunk withNodePool np nodes nps nps'.
Proof.
  intros [x Hx] Hf%identity_pool_nodes. pose proof (FindByName_Some _ _ _ Hx) as [_ Hname].
  assert (∃ l1 l2, nps = l1 ++ x :: l2 ∧
    (if withNodePool then DeleteByName nps np else update_nodepool np (λ np, DeleteNodes np nodes) nps) =
    if withNodePool then l1 ++ l2 else l1 ++ DeleteNodes x nodes :: l2) as (l1 & l2 & -> & E).
  { destruct withNodePool; [by apply DeleteByName_split|exact (update_first_split _ (λ np, DeleteNodes np nodes) _ _ Hx)]. }
  rewrite E in Hf. exists (pool_nodes l1), (pool_nodes l2), (Node_Name <$> NodePool_Nodes x).
  unfold pool_nodes in *. rewrite Hf, !fmap_app, !fmap_cons. split; [by rewrite Hname|]. clear Hf E.
  destruct withNodePool; rewrite fmap_app, ?fmap_cons; [done|]. do 2 f_equal. rewrite DeleteNodes_nodes.
  simpl. f_equal; [done|]. clear. induction (NodePool_Nodes x) as [|n ns IH]; [done|].
  unfold delete_func in *. rewrite fmap_cons, !filter_cons. unfold node_in in *.
  destruct (decide (Node_Name n ∈ nodes)) as [Hin|Hin].
  - rewrite decide_False by (rewrite contains_false; tauto). rewrite decide_False by tauto. exact IH.
  - rewrite decide_True by (by rewrite contains_false). rewrite decide_True by tauto. by rewrite fmap_cons, IH.
Qed.

Lemma lb_same_refl l : lb_same l l.
Proof. split_and!; [done..|]. by apply Forall2_same. Qed.

Lemma lb_nodes_removal (withNodePool : bool) nodepool nodes lb :
  is_Some (FindByName nodepool (LB_NodePools lb)) →
  ∃ l g, (if withNodePool then
            Some (set_LB_NodePools lb (DeleteByName (LB_NodePools lb) nodepool),
                  option_list (FindByName nodepool (LB_NodePools lb)))
          else match FindByName nodepool (LB_NodePools lb) with
               | None => None
               | Some _ => Some (set_LB_NodePools lb (update_nodepool nodepool (λ np, DeleteNodes np nodes) (LB_NodePools lb)), [])
               end) = Some (l, g) ∧ LB_Id l = LB_Id lb ∧
    ∀ l', lb_same l l' → shrunk withNodePool nodepool nodes (LB_NodePools lb) (LB_NodePools l').
Proof.
  intros Hnp. pose proof (λ l', shrunk_built withNodePool nodepool nodes (LB_NodePools lb) l' Hnp) as Hsh.
  destruct Hnp as [x Hx]. destruct withNodePool; [|rewrite Hx]; do 2 eexists; (split; [reflexivity|]); (split; [done|]);
    intros l' (_ & _ & _ & Hf); by apply Hsh.
Qed.

Lemma lb_lookup_delete id handle lbs :
  lb_lookup id (delete_func (λ lb, contains [handle] (LB_Id lb)) lbs) =
  if bool_decide (id = handle) then None else lb_lookup id lbs.
Proof.
  unfold lb_lookup, delete_func. induction lbs as [|lb lbs IH]; simpl; [by case_bool_decide|].
  rewrite filter_cons. destruct (decide (LB_Id lb = handle)) as [E|E].
  - rewrite decide_False by (rewrite contains_false; set_solver). rewrite IH. case_bool_decide; [done|].
    by rewrite bool_decide_eq_false_2 by congruence.
  - rewrite decide_True by (rewrite contains_false; set_solver). simpl. rewrite IH.
    do 2 case_bool_decide; congruence.
Qed.

(** A removal within one load balancer, consumed. *)
Lemma removal_of_lb s k d r tr delta handle f lb l g (Q : LBcluster → Prop) :
  K8S s = Some k → accepted (Task_Update s d) s k r →
  TaskResult_Result_ r = TaskResult_Result_ (Tr_Result tr) →
  (TaskResult_Error (Tr_Result tr) = None → (TaskResult_Error r = None ↔ Tr_Diagnostics tr = [])) →
  change_lb projectName s delta handle f false (start (Task_Update s d)) = Ret tr →
  lb_lookup handle (LoadBalancers s) = Some lb →
  f lb = Some (l, g) → LB_Id l = LB_Id lb → (∀ l', lb_same l l' → Q l') →
  ∃ te', consumed (Task_Update s d) r te' ∧ (TaskResult_Error r ≠ None → te' = Task_Update s d) ∧
    (TaskResult_Error r = None →
       lb_applied 0 l g ∧ ∃ s' l', task_state te' = Some s' ∧ only_lb s s' handle l' ∧ Q l').
Proof.
  intros Hk Hacc Hres Herr Hch Hlb Hf Hid HQ.
  eapply change_lb_start in Hch as (l' & err & Hb & Hdiag & Hres'); [|done|done].
  pose proof (BuildLoadbalancers_same _ _ _ _ _ _ Hb) as Hs.
  rewrite Hres' in Hres, Herr. specialize (Herr eq_refl). rewrite Hdiag in Herr.
  unfold consumed. destruct err as [e|]; simpl in Hres.
  - rewrite Hres. exists (Task_Update s d). split_and!; [done..|]. by intros ?%Herr.
  - destruct (lb_lookup_Some _ _ _ Hlb) as [_ Hh]. pose proof Hs as [Hid' _].
    destruct (accepted_lb _ _ _ _ handle l' Hk Hacc Hres) as (u & te' & s' & Hu & ? & ? & Ho); [congruence|].
    rewrite Hu. exists te'. split_and!; [done|intros He; by destruct (He (proj2 Herr eq_refl))|]. intros _.
    split; [by eapply LB_Build_applied|]. exists s', l'. auto.
Qed.

(** C26: A removal is recorded only when OpenTofu carried it out.  When the
    terraformer replies without an error to a task that removes nodes, roles
    or a load balancer, OpenTofu applied the files of the cluster without what
    is removed (of a load balancer also those of its DNS records), or destroyed
    the load balancer, and the manager's state is without exactly what was to
    be removed.  When it replies with an error, the manager's task stays as it
    was and the removal is tried again. *)
Theorem removals_only_when_done cancelled s k d p r :
  K8S s = Some k → task_for k (Task_Update s d) → removes s d →
  cancelled 0 = false → Kind p = UPDATE_INFRASTRUCTURE → Level (Description p) = ERROR_FATAL →
  Terraformer_ProcessTask projectName cancelled (Task_Update s d) [p] = Ret r →
  ∃ te', consumed (Task_Update s d) r te' ∧
    (TaskResult_Error r ≠ None → te' = Task_Update s d) ∧
    (TaskResult_Error r = None → tofu_removed 0 s d ∧ ∃ s', task_state te' = Some s' ∧ removed s s' d).
Proof.
  intros Hk Ht Ha Hc Hp Hlev Hr.
  assert (Hd : delta_resolves (Task_Update s d)).
  { intros s0 k0 d0 [= <-] Hk0 [= <-]. destruct d; try done; eauto. simpl in *. destruct Ha as (lb & Hlb & x & Hx).
    unfold lb_lookup in Hlb. rewrite Hlb. unfold FindByName in Hx. rewrite Hx. eauto. }
  pose proof (ProcessTask_accepted _ _ _ _ _ _ Hk Ht Hd Hr) as Hacc.
  destruct (one_update_pass _ _ _ _ _ _ Hk Hc Hp Hr) as (tr & Hrun & Hres & Herr). specialize (Herr Hlev). clear Hr Hp Hlev.
  unfold reconcileInfrastructure in Hrun. simpl in Hrun. rewrite Hk in Hrun.
  destruct d; try done; simpl in Ha.
  - destruct Ha as (lb & Hlk & Hnp).
    destruct (lb_nodes_removal withNodePool nodepool nodes lb Hnp) as (l & g & Hf & Hid & Hsh).
    destruct (removal_of_lb _ _ _ _ _ _ _ _ _ _ _ (λ l', shrunk withNodePool nodepool nodes (LB_NodePools lb) (LB_NodePools l'))
      Hk Hacc Hres Herr Hrun Hlk Hf Hid Hsh) as (te' & H1 & H2 & H3).
    exists te'. split_and!; [done..|]. intros He. destruct (H3 He) as (Htf & s' & l' & ? & ? & ?).
    split; [|exists s'; split; [done|]; by exists lb, l'].
    exists lb, l, g. split_and!; [done|done|apply Hsh|done]. by apply lb_same_refl.
  - destruct Ha as (lb & Hlk). destruct (lb_lookup_Some _ _ _ Hlk) as [_ Hh]. unfold destroyLoadBalancer in Hrun.
    destruct (find_first_index _ _ _ Hlk) as (i & Hi & Hx). unfold IndexLoadbalancerById in Hrun. rewrite Hi in Hrun.
    bind_inv Hrun. apply index_Ret in Hx0. rewrite Hx in Hx0. injection Hx0 as <-. bind_inv Hrun.
    unfold consumed. rewrite Hres. destruct x0 as [e|]; injection Hrun as <-; simpl in *; specialize (Herr eq_refl).
    + exists (Task_Update s (Update_DeleteLoadBalancer_ handle unreachable)). split_and!; [done..|]. by intros ?%Herr.
    + eexists. split_and!; [reflexivity|intros He; by destruct (He (proj2 Herr eq_refl))|]. intros _.
      split; [exists lb; split; [done|by apply DestroyCluster_lb_destroyed]|]. eexists.
      split; [reflexivity|]. split; [done|]. intros id. simpl. rewrite Hh. apply lb_lookup_delete.
  - unfold deleteKubernetesNodes in Hrun. destruct (BuildK8Scluster _ _ _ _ _) as [k' err] eqn:Eb.
    unfold BuildK8Scluster, K8s_Build in Eb. destruct (ReconcileNodePools _ _) as [nps' err'] eqn:Er.
    apply ReconcileNodePools_pools in Er as [Hf%identity_pool_nodes Happ]. injection Eb as <- <-.
    unfold consumed. destruct err' as [e|]; injection Hrun as <-; simpl in *; specialize (Herr eq_refl).
    + rewrite Hres. eexists. split_and!; [reflexivity|done|]. by intros ?%Herr.
    + unfold accepted in Hacc. rewrite Hres in Hacc |- *. destruct Hacc as (te' & s' & Hcons & Hs' & Hk' & _ & Hm).
      destruct (Happ eq_refl) as [Happ' _].
      exists te'. split_and!; [done|intros He; by destruct (He (proj2 Herr eq_refl))|]. intros _.
      split; [by do 2 eexists|]. exists s'.
      split; [done|]. split; [|exact Hm]. do 2 eexists. split_and!; [exact Hk|exact Hk'|exact Hf].
  - destruct Ha as (lb & Hlk).
    assert (Hroles : ∀ l', lb_same (set_LB_Roles lb (delete_func (λ r, contains roles (Role_Name r)) (LB_Roles lb))) l' →
      ∀ r, r ∈ LB_Roles l' ↔ r ∈ LB_Roles lb ∧ ¬ Role_Name r ∈ roles).
    { intros l' (_ & _ & -> & _) rl. simpl. by rewrite elem_of_delete_func, contains_false. }
    destruct (removal_of_lb _ _ _ _ _ _ _ _ _ _ _ (λ l', ∀ r, r ∈ LB_Roles l' ↔ r ∈ LB_Roles lb ∧ ¬ Role_Name r ∈ roles)
      Hk Hacc Hres Herr Hrun Hlk eq_refl eq_refl Hroles) as (te' & H1 & H2 & H3).
    exists te'. split_and!; [done..|]. intros He. destruct (H3 He) as (Htf & s' & l' & ? & ? & ?).
    split; [|exists s'; split; [done|]; by exists lb, l'].
    do 3 eexists. split; [done|]. split; [|split; [|exact Htf]]; [reflexivity|by apply Hroles, lb_same_refl].
Qed.

End reports.
(** ** A concrete task *)

Definition update_pass : SubPass StageTerraformer_SubPassKind := mkSubPass UPDATE_INFRASTRUCTURE (fatal "updating infrastructure").
Definition quota_exceeded : Tofu := sample_cloud (λ _ _, Some "quota exceeded").
Definition new_pool : NodePool :=
  Samples.pool "compute-0000003" false (Samples.dyn 1 None "t" "c1" "10.0.2.0/24") [Samples.node "compute-0000003-01" "" worker].

(** A refresh while the second cluster that is built, the load balancer, fails. *)
Lemma terraformer_reply_accepted_witness :
  let H := sample_cloud (λ t _, if bool_decide (t = 1) then Some "timeout" else None) in
  ∃ r, Terraformer_ProcessTask (H := H) "m" never (Task_Update Samples.clusters Update_None_) [update_pass] = Ret r ∧
       TaskResult_Error r ≠ None ∧ accepted (Task_Update Samples.clusters Update_None_) Samples.clusters Samples.k8s r.
Proof.
  intros H. destruct (Terraformer_ProcessTask (H := H) "m" never (Task_Update Samples.clusters Update_None_) [update_pass]) as [r|e|w] eqn:E;
    [|exfalso; vm_compute in E; discriminate E..].
  exists r. split; [done|]. split.
  - assert (Hb : match Terraformer_ProcessTask (H := H) "m" never (Task_Update Samples.clusters Update_None_) [update_pass] with
                 | Ret r => bool_decide (TaskResult_Error r = None) | _ => true end = false) by (vm_compute; reflexivity).
    rewrite E in Hb. by apply bool_decide_eq_false in Hb.
  - refine (proj2 (terraformer_reply_accepted (H := H) "m" never _ _ _ _ _ _ _ _ _ E)); [reflexivity|reflexivity| |].
    + by apply sample_task_for.
    + intros s k d [= <-] [= <-] [= <-]. by eexists.
Defined.

Lemma additions_survive_failures_witness :
  let d := Update_TfAddK8SNodes (New new_pool) in
  ∃ r, Terraformer_ProcessTask (H := quota_exceeded) "m" never (Task_Update Samples.clusters d) [update_pass] = Ret r ∧
    ∃ te' s', task_state te' = Some s' ∧ added Samples.clusters s' d ∧ TaskResult_Error r ≠ None.
Proof.
  intros d. destruct (Terraformer_ProcessTask (H := quota_exceeded) "m" never (Task_Update Samples.clusters d) [update_pass]) as [r|e|w] eqn:E;
    [|exfalso; vm_compute in E; discriminate E..].
  exists r. split; [done|].
  destruct (additions_survive_failures (H := quota_exceeded) "m" never Samples.clusters Samples.k8s d update_pass r)
    as (u & te' & s' & _ & _ & Hs & Ha); [reflexivity|by apply sample_task_for| |done|done|done|].
  { exists Samples.k8s. split; [done|]. split; [by repeat constructor|by eexists]. }
  exists te', s'. split_and!; [done..|].
  assert (Hb : match Terraformer_ProcessTask (H := quota_exceeded) "m" never (Task_Update Samples.clusters d) [update_pass] with
               | Ret r => bool_decide (TaskResult_Error r = None) | _ => true end = false) by (vm_compute; reflexivity).
  rewrite E in Hb. by apply bool_decide_eq_false in Hb.
Defined.

Lemma removals_only_when_done_witness :
  let d := Update_DeleteLoadBalancer_ "lb-hijklmn" None in
  let H := sample_cloud (λ _ _, None) in
  ∃ r te', Terraformer_ProcessTask (H := H) "m" never (Task_Update Samples.clusters d) [update_pass] = Ret r ∧
    consumed (Task_Update Samples.clusters d) r te' ∧ tofu_removed (H := H) "m" 0 Samples.clusters d.
Proof.
  intros d H. destruct (Terraformer_ProcessTask (H := H) "m" never (Task_Update Samples.clusters d) [update_pass]) as [r|e|w] eqn:E;
    [|exfalso; vm_compute in E; discriminate E..].
  assert (TaskResult_Error r = None) as He.
  { assert (Hb : match Terraformer_ProcessTask (H := H) "m" never (Task_Update Samples.clusters d) [update_pass] with
                 | Ret r => bool_decide (TaskResult_Error r = None) | _ => true end = true) by (vm_compute; reflexivity).
    rewrite E in Hb. by apply bool_decide_eq_true in Hb. }
  destruct (removals_only_when_done (H := H) "m" never Samples.clusters Samples.k8s d update_pass r) as (te' & Hc & _ & Hok);
    [reflexivity|by apply sample_task_for|vm_compute; by eexists|done|done|done|done|].
  exists r, te'. split; [done|]. split; [exact Hc|]. exact (proj1 (Hok He)).
Defined.

End Terraformer.
