(* ===== verification/Vpn.v ===== *)
(** * Private addresses (services/ansibler/.../service/task_install_vpn.go)

    Every node of a cluster and of its load balancers gets an address in the
    private network of the cluster, which the VPN is built on. *)

From Stdlib Require Import Ascii.
From stdpp Require Import base gmap strings list pretty.
From S2P Require Import Prelude Spec SpecUtils Samples NodePools Cidr.
Import NodePools Cidr.

Module Vpn.

(** ** net/netip, for IPv4: an address is a number below 2^32 *)

Definition octets (a : Z) : list Z :=
  [(a / 2 ^ 24) mod 256; (a / 2 ^ 16) mod 256; (a / 2 ^ 8) mod 256; a mod 256]%Z.

Definition Addr_String (a : Z) : string := IP_String (octets a).

(** netip.ParsePrefix on IPv4: the address (not masked) and the number of bits
    of the prefix.  An IPv6 prefix, which Go accepts, is not parsed here; the
    networks it is applied to were validated as IPv4 (cidrv4) in the
    manifest. *)
Definition ParsePrefix (s : string) : option (Z * Z) :=
  match split_on "/"%char s with
  | [addr; bits] =>
      ip ← mapM parse_octet (split_on "."%char addr);
      ones ← parse_octet bits;
      match ip with
      | [a; b; c; d] => if bool_decide (ones ≤ 32)%Z then Some ((((a * 256 + b) * 256 + c) * 256 + d)%Z, ones) else None
      | _ => None
      end
  | _ => None
  end.

(** [address.Next] of the last address is the zero [Addr], which no prefix contains. *)
Definition Contains (network : Z * Z) (address : Z) : bool :=
  let '(addr, bits) := network in
  bool_decide (0 ≤ address < 2 ^ 32)%Z && bool_decide (address / 2 ^ (32 - bits) = addr / 2 ^ (32 - bits))%Z.

(** ** assignPrivateIPs *)

Definition set_Node_Private (n : Node) (p : string) : Node :=
  mkNode (Node_Name n) p (Node_Public n) (Node_NodeType n) (Node_Username n) (Node_Status n) (Node_SshPort n)
    (Node_WireguardPort n).

(** The addresses the loop hands out, in order, while [n] nodes are waiting.
    Every round hands out an address or skips one in use, so as many rounds as
    there are waiting nodes and addresses in use are all the loop can take. *)
Fixpoint hand_out (rounds : nat) (network : Z * Z) (assigned : gset string) (address : Z) (n : nat) : list string :=
  match rounds, n with
  | S rounds, S n' =>
      if Contains network address then
        if bool_decide (Addr_String address ∈ assigned) then hand_out rounds network assigned (address + 1) n
        else Addr_String address :: hand_out rounds network assigned (address + 1) n'
      else []
  | _, _ => []
  end.

(** The waiting nodes take the addresses in order. *)
Fixpoint give (ips : list string) (nodes : list Node) : list Node :=
  match nodes with
  | [] => []
  | n :: nodes =>
      if bool_decide (Node_Private n ≠ "") then n :: give ips nodes
      else match ips with
           | ip :: ips => set_Node_Private n ip :: give ips nodes
           | [] => n :: give [] nodes
           end
  end.

Definition assigned_ips (nodes : list Node) : gset string :=
  list_to_set (filter (λ p, p ≠ "") (Node_Private <$> nodes)).
Definition waiting (nodes : list Node) : list Node := filter (λ n, Node_Private n = "") nodes.

Definition assignPrivateIPs (nodes : list Node) (cidr : string) : list Node * option string :=
  match ParsePrefix cidr with
  | None => (nodes, Some "invalid prefix")
  | Some network =>
      let n := length (waiting nodes) in
      let ips := hand_out (size (assigned_ips nodes) + n) network (assigned_ips nodes) (network.1 + 1) n in
      (give ips nodes,
       if bool_decide (length ips < n) then Some "failed to assign private IPs to all nodes" else None)
  end.

(** ** Printed addresses differ *)

Definition octet_ok (i : Z) : bool :=
  bool_decide (parse_octet (pretty i) = Some i) && no_char "."%char (pretty i).

Lemma octets_print : forallb octet_ok (seqZ 0 256) = true.
Proof. vm_compute. reflexivity. Qed.

Lemma octet_print i : (0 ≤ i < 256)%Z → parse_octet (pretty i) = Some i ∧ no_char "."%char (pretty i) = true.
Proof.
  intros Hi. assert (Hin : i ∈ seqZ 0 256) by (apply elem_of_seqZ; lia). apply list_elem_of_In in Hin.
  pose proof (proj1 (List.forallb_forall octet_ok (seqZ 0 256)) octets_print i Hin) as Ho.
  unfold octet_ok in Ho. apply andb_true_iff in Ho as [H1 H2]. by apply bool_decide_eq_true in H1.
Qed.

Lemma split_on_app s rest :
  no_char "."%char s = true → split_on "."%char (String.append s (String.append "." rest)) = s :: split_on "."%char rest.
Proof.
  induction s as [|a s IH]; [done|]. intros [Ha Hs]%andb_true_iff. apply negb_true_iff in Ha.
  rewrite string_app_cons. cbn [split_on]. by rewrite Ha, IH.
Qed.

Lemma split_on_single s : no_char "."%char s = true → split_on "."%char s = [s].
Proof.
  induction s as [|a s IH]; [done|]. intros [Ha Hs]%andb_true_iff. apply negb_true_iff in Ha. cbn [split_on]. by rewrite Ha, IH.
Qed.

Lemma octets_range a : Forall (λ i, 0 ≤ i < 256)%Z (octets a).
Proof. repeat constructor; apply Z.mod_pos_bound; lia. Qed.

Lemma octets_inj a b : (0 ≤ a < 2 ^ 32)%Z → (0 ≤ b < 2 ^ 32)%Z → octets a = octets b → a = b.
Proof.
  intros Ha Hb E. injection E as E1 E2 E3 E4.
  pose proof (Z.div_mod a 256). pose proof (Z.div_mod b 256).
  pose proof (Z.div_mod (a / 2 ^ 8) 256). pose proof (Z.div_mod (b / 2 ^ 8) 256).
  pose proof (Z.div_mod (a / 2 ^ 16) 256). pose proof (Z.div_mod (b / 2 ^ 16) 256).
  assert (a / 2 ^ 16 = (a / 2 ^ 8) / 256)%Z by (rewrite Z.div_div by lia; done).
  assert (b / 2 ^ 16 = (b / 2 ^ 8) / 256)%Z by (rewrite Z.div_div by lia; done).
  assert (a / 2 ^ 24 = (a / 2 ^ 16) / 256)%Z by (rewrite Z.div_div by lia; done).
  assert (b / 2 ^ 24 = (b / 2 ^ 16) / 256)%Z by (rewrite Z.div_div by lia; done).
  assert (∀ x, 0 ≤ x < 2 ^ 32 → (x / 2 ^ 24) mod 256 = x / 2 ^ 24)%Z as Hsmall.
  { intros x Hx. apply Z.mod_small. split; [apply Z.div_pos; lia|]. apply Z.div_lt_upper_bound; lia. }
  rewrite !Hsmall in E1 by done. change (2 ^ 8)%Z with 256%Z in *. lia.
Qed.

(** Reading a printed address back. *)
Lemma print_octets l : l ≠ [] → Forall (λ i, 0 ≤ i < 256)%Z l → mapM parse_octet (split_on "."%char (IP_String l)) = Some l.
Proof.
  intros Hne Hl. apply mapM_Some. induction Hl as [|a l Ha Hl IH]; [done|]. destruct (octet_print a Ha) as [Hp Hn].
  destruct l as [|b l]; simpl IP_String.
  - rewrite split_on_single by done. by constructor.
  - rewrite split_on_app by done. constructor; [done|by apply IH].
Qed.

Lemma Addr_String_inj a b :
  (0 ≤ a < 2 ^ 32)%Z → (0 ≤ b < 2 ^ 32)%Z → Addr_String a = Addr_String b → a = b.
Proof.
  intros Ha Hb E. apply octets_inj; [done..|].
  pose proof (print_octets (octets a) ltac:(done) (octets_range a)) as Pa.
  pose proof (print_octets (octets b) ltac:(done) (octets_range b)) as Pb.
  unfold Addr_String in E. rewrite E, Pb in Pa. symmetry. exact (f_equal (default []) Pa).
Qed.

(** ** What is assigned *)

Section assigned.
Context (network : Z * Z).

Definition usable (a : Z) : Prop := (network.1 < a)%Z ∧ Contains network a = true.

Lemma Contains_range a : Contains network a = true → (0 ≤ a < 2 ^ 32)%Z.
Proof. unfold Contains. destruct network. intros [H _]%andb_true_iff. by apply bool_decide_eq_true in H. Qed.

(** A network is an interval. *)
Lemma Contains_convex a b c :
  Contains network a = true → Contains network c = true → (a ≤ b ≤ c)%Z → Contains network b = true.
Proof.
  unfold Contains. destruct network as [n bits]. rewrite !andb_true_iff, !bool_decide_eq_true. intros [Ha Ea] [Hc Ec] Hb.
  split; [lia|]. destruct (decide (32 - bits < 0)%Z) as [Hn|Hn].
  - rewrite !Z.pow_neg_r, !Z.div_0_r in * by lia. done.
  - assert (a / 2 ^ (32 - bits) ≤ b / 2 ^ (32 - bits) ≤ c / 2 ^ (32 - bits))%Z; [|lia].
    split; apply Z.div_le_mono; try lia; apply Z.pow_pos_nonneg; lia.
Qed.

(** What is handed out from [address] on: distinct, unused addresses of the
    network; when there are too few, everything from [address] on is used.
    [ahead] are the addresses in use that the loop may still meet. *)
Lemma hand_out_spec rounds (ahead assigned : gset string) address n :
  Contains network network.1 = true → (network.1 < address)%Z →
  (∀ a, (address ≤ a)%Z → Contains network a = true → Addr_String a ∈ assigned → Addr_String a ∈ ahead) →
  size ahead + n ≤ rounds →
  let ips := hand_out rounds network assigned address n in
  length ips ≤ n ∧ NoDup ips ∧
  Forall (λ ip, (ip ∉ assigned) ∧ ∃ a, (address ≤ a)%Z ∧ Contains network a = true ∧ ip = Addr_String a) ips ∧
  (length ips < n → ∀ a, (address ≤ a)%Z → Contains network a = true → Addr_String a ∈ assigned ∨ Addr_String a ∈ ips).
Proof.
  intros Hbase. revert ahead address n. induction rounds as [|rounds IH]; intros ahead address n Hlt Hahead Hr ips.
  { assert (n = 0) as -> by lia. subst ips. simpl. split_and!; [lia|constructor|constructor|lia]. }
  subst ips. destruct n as [|n]; simpl; [split_and!; [lia|constructor|constructor|lia]|].
  destruct (Contains network address) eqn:Ec.
  2:{ simpl. split_and!; [lia|constructor|constructor|]. intros _ a Ha Hca. exfalso.
      rewrite (Contains_convex network.1 address a) in Ec by (try done; lia). done. }
  pose proof (Contains_range _ Ec) as Hrange.
  assert (Hdiff : ∀ a, (address + 1 ≤ a)%Z → Contains network a = true → Addr_String a ≠ Addr_String address).
  { intros a Ha Hca E. apply Addr_String_inj in E; [lia|by apply Contains_range|done]. }
  case_bool_decide as Hin.
  - destruct (IH (ahead ∖ {[Addr_String address]}) (address + 1)%Z (S n)) as (I1 & I2 & I3 & I4); [lia| | |].
    + intros a Ha Hca Has. apply elem_of_difference. split; [apply Hahead; [lia|done..]|].
      rewrite elem_of_singleton. by apply Hdiff.
    + assert (Addr_String address ∈ ahead) by (apply Hahead; [lia|done..]).
      rewrite size_difference by set_solver. rewrite size_singleton.
      assert (size ahead ≠ 0) by (rewrite size_non_empty_iff; set_solver). lia.
    + split_and!; [done..| |].
      * eapply Forall_impl; [exact I3|]. simpl. intros ip (? & a & ? & ? & ?). split; [done|]. exists a. split_and!; [lia|done..].
      * intros Hl a Ha Hca. destruct (decide (a = address)) as [->|Hne]; [by left|]. apply I4; [done|lia|done].
  - destruct (IH ahead (address + 1)%Z n) as (I1 & I2 & I3 & I4); [lia| |lia|].
    { intros a Ha Hca Has. apply Hahead; [lia|done..]. }
    simpl. split_and!; [lia| | |].
    + constructor; [|done]. intros Hx. rewrite Forall_forall in I3. apply I3 in Hx as (_ & a & Ha & Hca & E).
      by apply (Hdiff a Ha Hca).
    + constructor; [split; [done|]; exists address; split_and!; [lia|done..]|].
      eapply Forall_impl; [exact I3|]. simpl. intros ip (? & a & ? & ? & ?). split; [done|]. exists a. split_and!; [lia|done..].
    + intros Hl a Ha Hca. destruct (decide (a = address)) as [->|Hne]; [right; by left|].
      destruct (I4 ltac:(lia) a ltac:(lia) Hca); [by left|right; by right].
Qed.

End assigned.

Lemma Addr_String_nonempty a : Addr_String a ≠ "".
Proof.
  intros E. pose proof (print_octets (octets a) ltac:(done) (octets_range a)) as P. unfold Addr_String in E. by rewrite E in P.
Qed.

Lemma digits_nonneg s acc n : (0 ≤ acc)%Z → digits acc s = Some n → (0 ≤ n)%Z.
Proof.
  revert acc. induction s as [|a s IH]; intros acc Ha; simpl; [by intros [= <-]|].
  case_bool_decide; [|done]. apply IH. lia.
Qed.

Lemma parse_octet_range s n : parse_octet s = Some n → (0 ≤ n ≤ 255)%Z.
Proof.
  unfold parse_octet. destruct (parse_dec s) as [m|] eqn:E; simpl; [|done]. case_bool_decide; simpl; [|done].
  destruct (_ || _); [|done]. intros [= <-]. split; [|done]. unfold parse_dec in E. destruct s; [done|].
  by apply digits_nonneg in E.
Qed.

Lemma ParsePrefix_base cidr network : ParsePrefix cidr = Some network → Contains network network.1 = true.
Proof.
  unfold ParsePrefix. destruct (split_on _ cidr) as [|addr [|bits [|]]]; try done.
  destruct (mapM parse_octet (split_on _ addr)) as [ip|] eqn:Em; simpl; [|done].
  destruct (parse_octet bits) as [ones|] eqn:Eb; simpl; [|done].
  destruct ip as [|a [|b [|c [|d [|]]]]]; try done. case_bool_decide; [|done]. intros [= <-].
  apply mapM_Some in Em. assert (Hr : Forall (λ n, 0 ≤ n ≤ 255)%Z [a; b; c; d]).
  { clear -Em. induction Em as [|s n ss ns E _ IH]; constructor; [by eapply parse_octet_range|done]. }
  repeat (apply Forall_cons in Hr as [? Hr]). simpl. apply andb_true_iff. split; apply bool_decide_eq_true_2; [lia|done].
Qed.

(** The private addresses in use. *)
Definition used_ips (nodes : list Node) : list string := filter (λ p, p ≠ "") (Node_Private <$> nodes).

Lemma used_ips_cons n nodes :
  used_ips (n :: nodes) = if decide (Node_Private n = "") then used_ips nodes else Node_Private n :: used_ips nodes.
Proof.
  unfold used_ips. rewrite fmap_cons, filter_cons. by repeat case_decide.
Qed.

(** A node before and after: only an empty private address changes. *)
Definition kept (n n' : Node) : Prop :=
  n' = set_Node_Private n (Node_Private n') ∧ (Node_Private n ≠ "" → n' = n).

Lemma give_spec ips nodes :
  Forall (λ p, p ≠ "") ips → length ips ≤ length (waiting nodes) →
  Forall2 kept nodes (give ips nodes) ∧ used_ips (give ips nodes) ≡ₚ ips ++ used_ips nodes ∧
  (length ips = length (waiting nodes) ↔ Forall (λ n, Node_Private n ≠ "") (give ips nodes)).
Proof.
  revert ips. induction nodes as [|n nodes IH]; intros ips Hne Hlen; simpl.
  { unfold waiting in Hlen. simpl in Hlen. destruct ips; simpl in *; [|lia]. by split_and!. }
  unfold waiting in *. rewrite filter_cons in *. rewrite used_ips_cons. case_bool_decide as Hp; case_decide as Hd; try done.
  - destruct (IH ips Hne Hlen) as (I1 & I2 & I3). rewrite used_ips_cons, decide_False by done. split_and!.
    + constructor; [|done]. split; [by destruct n|done].
    + rewrite I2. by rewrite Permutation_middle.
    + rewrite I3, Forall_cons. tauto.
  - simpl in Hlen. destruct ips as [|ip ips].
    + destruct (IH [] Hne ltac:(simpl; lia)) as (I1 & I2 & I3). rewrite used_ips_cons, decide_True by done. split_and!.
      * constructor; [|done]. split; [by destruct n|done].
      * done.
      * rewrite Forall_cons. simpl. split; [lia|tauto].
    + apply Forall_cons in Hne as [Hip Hne]. destruct (IH ips Hne ltac:(simpl in *; lia)) as (I1 & I2 & I3).
      rewrite used_ips_cons. simpl. rewrite decide_False by done. split_and!.
      * constructor; [|done]. by split.
      * by rewrite I2.
      * rewrite Forall_cons. simpl. rewrite <- I3. split; [intros; split; [done|lia]|intros [? ?]; lia].
Qed.

Lemma elem_of_assigned nodes p : p ∈ assigned_ips nodes ↔ p ∈ used_ips nodes.
Proof. unfold assigned_ips. by rewrite elem_of_list_to_set. Qed.

(** C30: Private addresses never clash: when the VPN is set up over the
    network of a cluster, nodes with an address keep it, the addresses given
    out are distinct addresses of the network behind its base address, and no
    node gets an address another one has.  Every node has an address
    afterwards, unless an error is reported, and then every address of the
    network is in use. *)
Theorem private_ips_assigned nodes cidr network nodes' err :
  ParsePrefix cidr = Some network → assignPrivateIPs nodes cidr = (nodes', err) →
  Forall2 kept nodes nodes' ∧
  (NoDup (used_ips nodes) → NoDup (used_ips nodes')) ∧
  (∀ p, p ∈ used_ips nodes' → p ∈ used_ips nodes ∨ ∃ a, usable network a ∧ p = Addr_String a) ∧
  (err = None ↔ Forall (λ n, Node_Private n ≠ "") nodes') ∧
  (err ≠ None → ∀ a, usable network a → Addr_String a ∈ used_ips nodes').
Proof.
  intros Hp. unfold assignPrivateIPs. rewrite Hp. set (ips := hand_out _ _ _ _ _). intros [= <- <-].
  destruct (hand_out_spec network (size (assigned_ips nodes) + length (waiting nodes)) (assigned_ips nodes)
    (assigned_ips nodes) (network.1 + 1) (length (waiting nodes))) as (I1 & I2 & I3 & I4);
    [by eapply ParsePrefix_base|lia|done|done|]. fold ips in I1, I2, I3, I4.
  assert (Hne : Forall (λ p, p ≠ "") ips).
  { eapply Forall_impl; [exact I3|]. intros p (_ & a & _ & _ & ->). apply Addr_String_nonempty. }
  destruct (give_spec ips nodes Hne I1) as (G1 & G2 & G3). rewrite Forall_forall in I3. split_and!; [done|..].
  - intros Hnd. rewrite G2. apply NoDup_app. split_and!; [done| |done]. intros p [Hn _]%I3 Hu. by apply Hn, elem_of_assigned.
  - intros p. rewrite G2, elem_of_app. intros [(_ & a & Ha & Hc & ->)%I3|?]; [right|by left].
    exists a. split; [split; [lia|done]|done].
  - rewrite <- G3. case_bool_decide; split; try done; lia.
  - case_bool_decide as Hl; [|done]. intros _ a [Ha Hc]. rewrite G2, elem_of_app.
    destruct (I4 Hl a ltac:(lia) Hc); [right; by apply elem_of_assigned|by left].
Qed.

(** Two nodes without an address, in a network where the first one is taken. *)
Lemma private_ips_assigned_witness :
  let fresh name := Samples.node name "1.2.3.4" worker in
  let nodes := [fresh "a"; set_Node_Private (fresh "b") "192.168.2.1"; fresh "c"] in
  NoDup (used_ips (assignPrivateIPs nodes "192.168.2.0/24").1) ∧
  used_ips (assignPrivateIPs nodes "192.168.2.0/24").1 = ["192.168.2.2"; "192.168.2.1"; "192.168.2.3"].
Proof.
  intros fresh nodes. split; [|vm_compute; reflexivity].
  assert (Hp : ParsePrefix "192.168.2.0/24" = Some (3232236032, 24)%Z) by (vm_compute; reflexivity).
  destruct (assignPrivateIPs nodes "192.168.2.0/24") as [nodes' err] eqn:E.
  destruct (private_ips_assigned nodes "192.168.2.0/24" (3232236032, 24)%Z nodes' err Hp E) as (_ & Hnd & _).
  apply Hnd. by_decide.
Defined.

End Vpn.
