(* ===== verification/Ansibler.v ===== *)
(** * The ansibler (services/ansibler/internal/worker/service)

    The worker that configures nodes: VPN, load balancer software, proxy
    settings, the API endpoint.  Running a playbook (directories, keys and
    inventory written for it, and the ansible process) is the parameter
    [Ansible]; the nodes a playbook is run on are part of the call. *)

From stdpp Require Import base gmap strings list pretty.
From S2P Require Import Prelude Spec SpecUtils Samples NodePools Consume Schedule Worker Commands Cidr Vpn.
Import NodePools Consume Schedule Worker Commands Vpn.

(** The pools of one cluster in an inventory. *)
Record NodepoolsInfo := mkNodepoolsInfo {
  Npi_Dynamic : list NodePool;
  Npi_Static : list NodePool;
  Npi_ClusterID : string;
  Npi_ClusterNetwork : string }.

Class Ansible := {
  (** creating the directory, the inventory and the key files *)
  prepare : nat → string → list NodepoolsInfo → option string;
  (** the [i]-th run of a playbook with some flags *)
  ansible_playbook : nat → string → string → nat → option string;
  (** ANSIBLER_FORKS *)
  defaultAnsibleForks : Z }.

Module Ansibler.

Section tasks.
Context `{Ansible}.

(** ** internal/ansible.go *)

Definition maxAnsibleRetries : Z := 3.

Definition InventoryFileName : string := "inventory.ini".

(** A run and, when it fails, its retries; none of their back-offs is out of
    range. *)
Definition RunAnsiblePlaybook (t : nat) (RetryCount : Z) (playbook flags : string) : option string :=
  let RetryCount := if bool_decide (RetryCount ≤ 0)%Z then maxAnsibleRetries else RetryCount in
  let command := sprintf ["ansible-playbook "; playbook; " -i "; InventoryFileName; " -f "; pretty defaultAnsibleForks; " "; flags] in
  match ansible_playbook t playbook flags 0 with
  | None => None
  | Some _ => (RetryCommand 0 (ansible_playbook t playbook flags) (mkCmd command []) (Z.to_nat RetryCount)).1
  end.

Definition run_with_retries (RetryCount : Z) (t : nat) (playbook : string) (npis : list NodepoolsInfo) (flags : string)
    : option string :=
  match prepare t playbook npis with
  | Some e => Some e
  | None => RunAnsiblePlaybook t RetryCount playbook flags
  end.

Definition run_playbook := run_with_retries 0.

Definition npi_of (nps : list NodePool) (id network : string) : NodepoolsInfo :=
  mkNodepoolsInfo (Dynamic nps) (Static nps) id network.

(** ** process_task.go: the nodes a task is about *)

Definition DefaultToSingleLoadBalancerIfPossible (s : Clusters) (d : Delta) : option LBcluster :=
  let handle := match d with
    | Update_AddedLoadBalancerNodes_ handle _ _ _ | Update_AddedLoadBalancerRoles_ handle _
    | Update_AddedLoadBalancer_ handle | Update_AnsReplaceTargetPools handle _
    | Update_AnsReplaceRoleInternalSettings handle _ _ _ | Update_ReplacedRoleInternalSettings_ handle _
    | Update_ReplacedRoleExternalSettings_ handle _ | Update_DeletedLoadBalancerNodes_ _ handle _
    | Update_DeleteLoadBalancerRoles_ handle _ | Update_DeleteLoadBalancer_ handle _
    | Update_ReplacedDns_ handle _ | Update_ReplacedTargetPools_ handle _ => handle
    | _ => ""
    end in
  if bool_decide (handle = "") then None else lb_lookup handle (LoadBalancers s).

Definition DefaultKubernetesToNewNodesIfPossible (k : K8Scluster) (d : Delta) : option NodePool :=
  match d with
  | Update_AddedK8SNodes_ _ npId nodes =>
      if bool_decide (npId = "") || bool_decide (nodes = []) then None
      else match FindByName npId (K8s_NodePools k) with
           | None => None
           | Some np => Some (PartialCopyWithNodeFilter np nodes)
           end
  | _ => None
  end.

Definition deleted_nodes_only (nps : list NodePool) (kind : DeletedNodesKind) : option NodePool :=
  match kind with
  | Partial nodepool nodes keys =>
      match FindByName nodepool nps with
      | None => None
      | Some np => Some (PartialCopyWithReplacedNodes np nodes keys)
      end
  | Whole np => np
  | DeletedNodes_nil => None
  end.

Definition DefaultKubernetesToDeletedNodesOnly (k : K8Scluster) (kind : DeletedNodesKind) : option NodePool :=
  deleted_nodes_only (K8s_NodePools k) kind.

Definition DefaultLoadBalancerToDeletedNodesOnly (lb : LBcluster) (kind : DeletedNodesKind) : option NodePool :=
  deleted_nodes_only (LB_NodePools lb) kind.

(** The names of the nodes of a pool that can be reached. *)
Definition reachable_names (unreachable : gmap string (list string)) (np : NodePool) : list string :=
  Node_Name <$> filter (λ n, Node_Public n ∉ default [] (unreachable !! NodePool_Name np)) (NodePool_Nodes np).

Definition DefaultNodePoolsToReachableInfrastructureOnly (nps : list NodePool) (unreachable : gmap string (list string))
    : list NodePool :=
  (λ np, PartialCopyWithNodeFilter np (reachable_names unreachable np)) <$> nps.

Definition UnreachableInfrastructure (d : Delta) : option Unreachable :=
  match d with
  | Update_DeletedK8SNodes_ u _ | Update_DeleteLoadBalancer_ _ u | Update_DeletedLoadBalancerNodes_ u _ _ => u
  | _ => None
  end.

Definition reachable_k8s (u : option Unreachable) (nps : list NodePool) : list NodePool :=
  match u with
  | Some u => DefaultNodePoolsToReachableInfrastructureOnly nps (Unreachable_Kubernetes u)
  | None => nps
  end.

Definition lb_unreachable (u : Unreachable) (handle : string) : gmap string (list string) :=
  default ∅ (Unreachable_Loadbalancers u !! handle).

Definition reachable_lb (u : option Unreachable) (lb : LBcluster) : list NodePool :=
  match u with
  | Some u => DefaultNodePoolsToReachableInfrastructureOnly (LB_NodePools lb) (lb_unreachable u (LB_Id lb))
  | None => LB_NodePools lb
  end.

(** ** task_install_node_requirements.go *)

Definition InstallNodeRequirements (tr : Tracker) : outcome Tracker :=
  match builds (Tr_Task tr) with
  | None => Ret tr
  | Some (s, d) =>
      let* k := deref (K8S s) in
      let nps := match DefaultKubernetesToNewNodesIfPossible k d with Some np => [np] | None => K8s_NodePools k end in
      Ret (finish tr (run_playbook (Tr_Calls tr) "longhorn-req.yml" [npi_of nps (K8s_Id k) (K8s_Network k)] ""))
  end.

(** ** task_install_vpn.go *)

(** The nodes the VPN is installed on are shared with the state, so the
    addresses they get are written through: first those of the dynamic pools,
    then those of the static ones.  [keep] tells which nodes of a pool are
    considered.  The addresses left over are returned too. *)
Fixpoint give_nodes (keep : Node → bool) (ips : list string) (ns : list Node) : list Node * list string :=
  match ns with
  | [] => ([], ips)
  | n :: ns =>
      if keep n && bool_decide (Node_Private n = "") then
        match ips with
        | ip :: ips => let '(ns, ips) := give_nodes keep ips ns in (set_Node_Private n ip :: ns, ips)
        | [] => let '(ns, ips) := give_nodes keep [] ns in (n :: ns, ips)
        end
      else let '(ns, ips) := give_nodes keep ips ns in (n :: ns, ips)
  end.

Fixpoint give_pools (keep : NodePool → Node → bool) (ips : list string) (nps : list NodePool) : list NodePool * list string :=
  match nps with
  | [] => ([], ips)
  | np :: nps =>
      let '(ns, ips) := give_nodes (keep np) ips (NodePool_Nodes np) in
      let '(nps, ips) := give_pools keep ips nps in
      (set_NodePool_Nodes np ns :: nps, ips)
  end.

Definition reached (unreachable : option (gmap string (list string))) (np : NodePool) (n : Node) : bool :=
  match unreachable with
  | None => true
  | Some u => contains (reachable_names u np) (Node_Name n)
  end.

Definition give_cluster (unreachable : option (gmap string (list string))) (ips : list string) (nps : list NodePool)
    : list NodePool * list string :=
  let '(nps, ips) := give_pools (λ np n, is_dynamic np && reached unreachable np n) ips nps in
  give_pools (λ np n, is_static np && reached unreachable np n) ips nps.

Fixpoint give_lbs (u : option Unreachable) (ips : list string) (lbs : list LBcluster) : list LBcluster :=
  match lbs with
  | [] => []
  | lb :: lbs =>
      let '(nps, ips) := give_cluster ((λ u, lb_unreachable u (LB_Id lb)) <$> u) ips (LB_NodePools lb) in
      set_LB_NodePools lb nps :: give_lbs u ips lbs
  end.

(** getAllNodepools and the nodes of the pools it returns. *)
Definition getAllNodepools (npis : list NodepoolsInfo) : list NodePool := npis ≫= λ i, Npi_Dynamic i ++ Npi_Static i.
Definition vpn_info (k : K8Scluster) (lbs : list LBcluster) (u : option Unreachable) : list NodepoolsInfo :=
  npi_of (reachable_k8s u (K8s_NodePools k)) (K8s_Id k) (K8s_Network k) ::
  ((λ lb, npi_of (reachable_lb u lb) (LB_Id lb) (K8s_Network k)) <$> lbs).
Definition vpn_nodes (k : K8Scluster) (lbs : list LBcluster) (u : option Unreachable) : list Node :=
  getAllNodepools (vpn_info k lbs u) ≫= NodePool_Nodes.

(** The addresses [assignPrivateIPs] gives out, and its error. *)
Definition new_ips (nodes : list Node) (cidr : string) : list string :=
  match ParsePrefix cidr with
  | None => []
  | Some network =>
      let n := length (waiting nodes) in
      hand_out (size (assigned_ips nodes) + n) network (assigned_ips nodes) (network.1 + 1) n
  end.

Definition is_hairpin (np : NodePool) : bool :=
  match GetDynamicNodePool np with
  | Some d => contains ["cloudrift"; "openstack"] (Provider_CloudProviderName (Dyn_Provider d))
  | None => false
  end.

(** The group a pool belongs to: provider, cluster and region. *)
Definition hairpin_key (id : string) (np : NodePool) : string :=
  match GetDynamicNodePool np with
  | Some d => sprintf [Provider_SpecName (Dyn_Provider d); "__"; id; "__"; Dyn_Region d]
  | None => ""
  end.

Definition hairpin_infos (npis : list NodepoolsInfo) : list NodepoolsInfo :=
  omap (λ i, let nps := filter (λ np, is_hairpin np = true) (Npi_Dynamic i) in
             if bool_decide (nps = []) then None
             else Some (mkNodepoolsInfo nps [] (Npi_ClusterID i) (Npi_ClusterNetwork i))) npis.

Definition groupCounts (npis : list NodepoolsInfo) : gmap string nat :=
  foldl (λ m '(key, n), <[key := default 0 (m !! key) + n]> m) ∅
    (npis ≫= λ i, (λ np, (hairpin_key (Npi_ClusterID i) np, length (NodePool_Nodes np))) <$> Npi_Dynamic i).

Definition fixHairpinNAT (t : nat) (npis : list NodepoolsInfo) : option string :=
  let infos := hairpin_infos npis in
  if bool_decide (map_Forall (λ _ n, n < 2) (groupCounts infos)) then None
  else run_playbook t "nat-hairpin-fix.yml" infos "".

(** The pools with the new addresses; the load balancers continue where the
    kubernetes cluster stopped. *)
Definition addressed (k : K8Scluster) (lbs : list LBcluster) (u : option Unreachable) (ips : list string)
    : K8Scluster * list LBcluster :=
  let '(nps, ips) := give_cluster (Unreachable_Kubernetes <$> u) ips (K8s_NodePools k) in
  (set_K8s_NodePools k nps, give_lbs u ips lbs).

Definition installWireguardVPN (t : nat) (k : K8Scluster) (lbs : list LBcluster) (u : option Unreachable)
    : K8Scluster * list LBcluster * option string :=
  let nodes := vpn_nodes k lbs u in
  let '(k', lbs') := addressed k lbs u (new_ips nodes (K8s_Network k)) in
  (k', lbs',
   match (assignPrivateIPs nodes (K8s_Network k)).2 with
   | Some e => Some e
   | None =>
       match prepare t "inventory" (vpn_info k' lbs' u) with
       | Some e => Some e
       | None =>
           match fixHairpinNAT t (vpn_info k' lbs' u) with
           | Some e => Some e
           | None => run_playbook t "wireguard.yml" (vpn_info k' lbs' u) ""
           end
       end
   end).

Definition InstallVPN (tr : Tracker) : outcome Tracker :=
  match builds (Tr_Task tr) with
  | None => Ret tr
  | Some (s, d) =>
      let* k := deref (K8S s) in
      let '(k', lbs', err) := installWireguardVPN (Tr_Calls tr) k (LoadBalancers s) (UnreachableInfrastructure d) in
      let tr := progressed tr (set_task_state (Tr_Task tr) (mkClusters (Some k') lbs')) 1 in
      match err with
      | Some e => Ret (Push tr e)
      | None => Ret (commit_update tr (Some k') lbs')
      end
  end.

(** ** task_reconcile_loadbalancers.go *)

Definition replace_target_pools (roles : gmap string (list string)) (r : Role) : Role :=
  match roles !! Role_Name r with Some pools => set_Role_TargetPools r pools | None => r end.

(** A nil [Settings] is written as it is; reading it later would panic. *)
Definition replace_internal (role : string) (targetPort : Z) (settings : option Role_Settings) (r : Role) : outcome Role :=
  if bool_decide (Role_Name r = role) then
    let* settings := deref settings in
    Ret (mkRole (Role_Name r) (Role_Protocol r) (Role_Port r) targetPort (Role_RoleType r) (Role_TargetPools r) settings)
  else Ret r.

Fixpoint map_roles (f : Role → outcome Role) (rs : list Role) : outcome (list Role) :=
  match rs with
  | [] => Ret []
  | r :: rs => let* r := f r in let* rs := map_roles f rs in Ret (r :: rs)
  end.

(** The load balancer with the replaced roles, through its pointer. *)
Fixpoint edit_roles (handle : string) (f : Role → outcome Role) (lbs : list LBcluster) : outcome (list LBcluster) :=
  match lbs with
  | [] => Ret []
  | lb :: lbs =>
      if bool_decide (LB_Id lb = handle) then
        let* rs := map_roles f (LB_Roles lb) in Ret (set_LB_Roles lb rs :: lbs)
      else let* lbs := edit_roles handle f lbs in Ret (lb :: lbs)
  end.

Definition role_changes (d : Delta) (lbs : list LBcluster) : outcome (list LBcluster) :=
  match d with
  | Update_AnsReplaceTargetPools handle roles => edit_roles handle (λ r, Ret (replace_target_pools roles r)) lbs
  | Update_AnsReplaceRoleInternalSettings handle role targetPort settings =>
      edit_roles handle (replace_internal role targetPort settings) lbs
  | _ => Ret lbs
  end.

Definition targetNodes (targetPools : list string) (nps : list NodePool) : list Node :=
  (targetPools ≫= λ target,
     filter (λ np, (if is_dynamic np then HasNodePoolTypeOf target (NodePool_Name np)
                    else is_static np && bool_decide (target = NodePool_Name np)) = true) nps) ≫= NodePool_Nodes.

(** The nodes a role of a load balancer forwards to. *)
Definition roleTargetPools (lb : LBcluster) (nps : list NodePool) : list (Role * list Node) :=
  (λ r, (r, targetNodes (Role_TargetPools r)
              (if bool_decide (Role_RoleType r = ApiServer) then Control nps else nps))) <$> LB_Roles lb.

(** The playbook of envoy is rendered from the targets of the roles. *)
Definition envoy_flags (lb : LBcluster) (nps : list NodePool) : string :=
  sprintf ((λ '(r, ns), sprintf (Role_Name r :: ":" :: (Node_Private <$> ns))) <$> roleTargetPools lb nps).

Definition set_up_lb (t : nat) (k : K8Scluster) (u : option Unreachable) (lb : LBcluster) : option string :=
  let npi := [npi_of (reachable_lb u lb) (LB_Id lb) ""] in
  match run_playbook t "node-exporter.yml" npi "" with
  | Some e => Some e
  | None => run_with_retries 2 t "envoy.yml" npi (envoy_flags lb (K8s_NodePools k))
  end.

(** concurrent.Exec: every load balancer is set up. *)
Definition setUpLoadbalancers (t : nat) (k : K8Scluster) (u : option Unreachable) (lbs : list LBcluster) : option string :=
  head (omap id (imap (λ i lb, set_up_lb (t + i) k u lb) lbs)).

Definition reports_roles (d : Delta) : bool :=
  match d with Update_AnsReplaceTargetPools _ _ | Update_AnsReplaceRoleInternalSettings _ _ _ _ => true | _ => false end.

(** A single load balancer when the task is about one, all of them otherwise. *)
Definition selected_lbs (s : Clusters) (d : Delta) : list LBcluster :=
  match DefaultToSingleLoadBalancerIfPossible s d with Some lb => [lb] | None => LoadBalancers s end.

Definition ReconcileLoadBalancers (tr : Tracker) : outcome Tracker :=
  match builds (Tr_Task tr) with
  | None => Ret tr
  | Some (s, d) =>
      let* all := role_changes d (LoadBalancers s) in
      let s' := mkClusters (K8S s) all in
      let lbs := selected_lbs s' d in
      let* k := deref (K8S s) in
      let err := setUpLoadbalancers (Tr_Calls tr) k (UnreachableInfrastructure d) lbs in
      let tr := progressed tr (set_task_state (Tr_Task tr) s') (length lbs) in
      match err with
      | Some e => Ret (Push tr e)
      | None => Ret (if reports_roles d then commit_update tr None lbs else tr)
      end
  end.

(** ** The API endpoint *)

(** Writes the type of the node [FindApiEndpoint] returns a pointer to. *)
Fixpoint retype_endpoint (t : NodeType) (nps : list NodePool) : list NodePool :=
  match nps with
  | [] => []
  | np :: nps =>
      if NodePool_IsControl np && bool_decide (is_Some (EndpointNode (Some np))) then
        set_NodePool_Nodes np (update_first (λ n, bool_decide (Node_NodeType n = apiEndpoint))
          (λ n, set_Node_NodeType n t) (NodePool_Nodes np)) :: nps
      else np :: retype_endpoint t nps
  end.

(** ... and of the node [FirstControlNode] returns a pointer to. *)
Fixpoint retype_first_control (t : NodeType) (nps : list NodePool) : list NodePool :=
  match nps with
  | [] => []
  | np :: nps =>
      match NodePool_IsControl np, NodePool_Nodes np with
      | true, n :: ns => set_NodePool_Nodes np (set_Node_NodeType n t :: ns) :: nps
      | _, _ => np :: retype_first_control t nps
      end
  end.

Definition use_endpoint (b : bool) (i : nat) (lbs : list LBcluster) : list LBcluster :=
  alter (λ lb, set_LB_UsedApiEndpoint lb b) i lbs.

Definition lb_endpoint (lbs : list LBcluster) (i : nat) : outcome string :=
  let* lb := index lbs i in let* d := deref (LB_Dns lb) in Ret (DNS_Endpoint d).

(** [ChangeAPIEndpoint]: the playbook that moves the endpoint. *)
Definition ChangeAPIEndpoint (t : nat) (k : K8Scluster) (old new : string) : option string :=
  run_playbook t "apiEndpointChange.yml" [npi_of (K8s_NodePools k) (K8s_Id k) ""]
    (sprintf ["--extra-vars NewEndpoint="; new; " OldEndpoint="; old]).

(** ** task_move_api_endpoint.go *)

(** The changed state, and the old and the new endpoint. *)
Definition endpoint_change (k : K8Scluster) (lbs : list LBcluster) (state : ApiEndpointChangeState) (current desired : string)
    : outcome (option (K8Scluster * list LBcluster * string * string)) :=
  match state with
  | NoChange => Ret None
  | EndpointRenamed => Ret (Some (k, lbs, current, desired))
  | AttachingLoadBalancer =>
      match FindApiEndpoint (K8s_NodePools k) with
      | None => Fail "failed to find APIEndpoint k8s node"
      | Some (_, n) =>
          match IndexLoadbalancerById desired lbs with
          | None => Fail "failed to find requested loadbalancer to move api endpoint to"
          | Some i =>
              let* e := lb_endpoint lbs i in
              Ret (Some (set_K8s_NodePools k (retype_endpoint master (K8s_NodePools k)), use_endpoint true i lbs, Node_Public n, e))
          end
      end
  | DetachingLoadBalancer =>
      match IndexLoadbalancerById current lbs with
      | None => Fail "failed to find requested loadbalancer from which to move the api endpoint from"
      | Some i =>
          match FirstControlNode (K8s_NodePools k) with
          | None => Fail "failed to find node with type master"
          | Some n =>
              let* e := lb_endpoint lbs i in
              Ret (Some (set_K8s_NodePools k (retype_first_control apiEndpoint (K8s_NodePools k)), use_endpoint false i lbs, e, Node_Public n))
          end
      end
  | MoveEndpoint =>
      match IndexLoadbalancerById current lbs, IndexLoadbalancerById desired lbs with
      | None, _ => Fail "failed to find requested loadbalancer from which to move the api endpoint from"
      | _, None => Fail "failed to find requested loadbalancer to which to move the api endpoint"
      | Some c, Some d =>
          let lbs := use_endpoint true d (use_endpoint false c lbs) in
          let* old := lb_endpoint lbs c in
          let* new := lb_endpoint lbs d in
          Ret (Some (k, lbs, old, new))
      end
  end.

(** [determineApiChanges]: the directory, keys and inventory come first. *)
Definition determineApiChanges (t : nat) (k : K8Scluster) (lbs : list LBcluster) (state : ApiEndpointChangeState)
    (current desired : string) : outcome (K8Scluster * list LBcluster * option string) :=
  match prepare t "k8s-inventory" [npi_of (K8s_NodePools k) (K8s_Id k) ""] with
  | Some e => Ret (k, lbs, Some e)
  | None =>
      match endpoint_change k lbs state current desired with
      | Panic w => Panic w
      | Fail e => Ret (k, lbs, Some e)
      | Ret None => Ret (k, lbs, None)
      | Ret (Some (k', lbs', old, new)) => Ret (k', lbs', ChangeAPIEndpoint t k' old new)
      end
  end.

(** The change a task asks for, [None] when it is ignored. *)
Definition requested_change (s : Clusters) (d : Delta) : outcome (option (ApiEndpointChangeState * string * string)) :=
  match d with
  | Update_ApiEndpoint_ state current desired => Ret (Some (state, current, desired))
  | Update_ReplacedDns_ handle (Some old) =>
      match IndexLoadbalancerById handle (LoadBalancers s) with
      | None => Panic "index out of range"
      | Some i =>
          let* new := lb_endpoint (LoadBalancers s) i in
          Ret (if bool_decide (old = "") || bool_decide (new = "") then None else Some (EndpointRenamed, old, new))
      end
  | _ => Ret None
  end.

Definition MoveApiEndpoint (tr : Tracker) : outcome Tracker :=
  match Tr_Task tr with
  | Task_Update s d =>
      let* change := requested_change s d in
      match change with
      | None => Ret tr
      | Some (state, current, desired) =>
          let* k := deref (K8S s) in
          let* r := determineApiChanges (Tr_Calls tr) k (LoadBalancers s) state current desired in
          let '(k', lbs', err) := r in
          let tr := progressed tr (Task_Update (mkClusters (Some k') lbs') d) 1 in
          match err with
          | Some e => Ret (Push tr e)
          | None => Ret (commit_update tr (Some k') lbs')
          end
      end
  | _ => Ret tr
  end.

(** ** task_update_api_endpoint.go *)

Definition updateApiEndpoint (t : nat) (k : K8Scluster) (nodepool node : string) : K8Scluster * option string :=
  match prepare t "k8s-inventory" [npi_of (K8s_NodePools k) (K8s_Id k) ""] with
  | Some e => (k, Some e)
  | None =>
      match FindApiEndpoint (K8s_NodePools k) with
      | None => (k, Some "current state cluster doesn't have api endpoint as a control plane node")
      | Some (_, old) =>
          match FindByName nodepool (K8s_NodePools k) with
          | None => (k, Some "no nodepool found within current state")
          | Some np =>
              match find_first (λ n, bool_decide (Node_Name n = node)) (NodePool_Nodes np) with
              | None => (k, Some "no node within nodepool found in current state")
              | Some new =>
                  let k' := set_K8s_NodePools k
                    (update_nodepool nodepool (λ np, set_NodePool_Nodes np
                       (update_first (λ n, bool_decide (Node_Name n = node)) (λ n, set_Node_NodeType n apiEndpoint) (NodePool_Nodes np)))
                      (retype_endpoint master (K8s_NodePools k))) in
                  (k', ChangeAPIEndpoint t k' (Node_Public old) (Node_Public new))
              end
          end
      end
  end.

Definition UpdateApiEndpoint (tr : Tracker) : outcome Tracker :=
  match Tr_Task tr with
  | Task_Update s (Update_K8SApiEndpoint nodepool node) =>
      let* k := deref (K8S s) in
      let '(k', err) := updateApiEndpoint (Tr_Calls tr) k nodepool node in
      let tr := progressed tr (Task_Update (mkClusters (Some k') (LoadBalancers s)) (Update_K8SApiEndpoint nodepool node)) 1 in
      match err with
      | Some e => Ret (Push tr e)
      | None => Ret (commit_update tr (Some k') [])
      end
  | _ => Ret tr
  end.

(** ** Proxy settings (internal/proxy.go, task_*_proxy_envs.go) *)

Definition noProxyDefault : string := "127.0.0.1/8,localhost,cluster.local,10.244.0.0/16,10.96.0.0/12".

Definition endpoints_of (nps : list NodePool) : list string :=
  nps ≫= λ np, NodePool_Nodes np ≫= λ n, [Node_Private n; Node_Public n].

Definition lb_no_proxy (lb : LBcluster) : outcome (list string) :=
  let* d := deref (LB_Dns lb) in
  Ret (DNS_Endpoint d :: filter (λ e, e ≠ "") (Alt_Endpoint <$> DNS_AlternativeNames d) ++ endpoints_of (LB_NodePools lb)).

Fixpoint lbs_no_proxy (lbs : list LBcluster) : outcome (list string) :=
  match lbs with
  | [] => Ret []
  | lb :: lbs => let* a := lb_no_proxy lb in let* b := lbs_no_proxy lbs in Ret (a ++ b)
  end.

Definition createNoProxyList (k : K8Scluster) (lbs : list LBcluster) (p : InstallationProxy) : outcome string :=
  let* eps := lbs_no_proxy lbs in
  Ret (sprintf [String.concat "," (noProxyDefault :: (if bool_decide (Proxy_NoProxy p = "") then [] else [Proxy_NoProxy p])
                                     ++ endpoints_of (K8s_NodePools k) ++ eps);
                ",svc,metadata,metadata.google.internal,169.254.169.254,metadata.google.internal.,"]).

Definition HttpProxyUrlAndNoProxyList (k : K8Scluster) (lbs : list LBcluster) (p : InstallationProxy) : outcome (string * string) :=
  let* noProxy := createNoProxyList k lbs p in
  Ret (if bool_decide (Proxy_Endpoint p = "") then "http://proxy.claudie.io:8880" else Proxy_Endpoint p, noProxy).

Definition UpdateProxyEnvs (tr : Tracker) : outcome Tracker :=
  match builds (Tr_Task tr) with
  | None => Ret tr
  | Some (s, d) =>
      let* k := deref (K8S s) in
      let nps := reachable_k8s (UnreachableInfrastructure d) (K8s_NodePools k) in
      let p := match d with Update_AnsReplaceProxy p => p | _ => K8s_InstallationProxy k end in
      let* (url, noProxy) := HttpProxyUrlAndNoProxyList k (LoadBalancers s) p in
      Ret (finish tr (run_playbook (Tr_Calls tr) "populate-proxy-envs.yml" [npi_of nps (K8s_Id k) ""] (sprintf [url; " "; noProxy])))
  end.

Definition ClearProxyEnvs (tr : Tracker) : outcome Tracker :=
  match Tr_Task tr with
  | Task_Update s _ =>
      let* k := deref (K8S s) in
      Ret (finish tr (run_playbook (Tr_Calls tr) "remove-proxy-envs.yml" [npi_of (K8s_NodePools k) (K8s_Id k) ""] ""))
  | _ => Ret tr
  end.

(** On an addition only the nodes that are already part of the cluster. *)
Definition established (d : Delta) (nps : list NodePool) : list NodePool :=
  match d with
  | Update_AddedK8SNodes_ _ nodepool nodes =>
      match IndexByName nodepool nps with
      | Some i => alter (λ np, PartialCopyWithNodeExclusion np nodes) i nps
      | None => nps
      end
  | _ => nps
  end.

Definition set_K8s_InstallationProxy (k : K8Scluster) (p : InstallationProxy) : K8Scluster :=
  mkK8Scluster (K8s_ClusterInfo k) (K8s_Network k) (K8s_Kubeconfig k) (K8s_Kubernetes k) p.

Definition CommitProxyEnvs (tr : Tracker) : outcome Tracker :=
  match Tr_Task tr with
  | Task_Update s d =>
      let* k := deref (K8S s) in
      let nps := reachable_k8s (UnreachableInfrastructure d) (established d (K8s_NodePools k)) in
      match run_playbook (Tr_Calls tr) "commit-proxy-envs.yml" [npi_of nps (K8s_Id k) ""] "", d with
      | Some e, _ => Ret (finish tr (Some e))
      | None, Update_AnsReplaceProxy p =>
          let k := set_K8s_InstallationProxy k p in
          Ret (commit_update (progressed tr (Task_Update (mkClusters (Some k) (LoadBalancers s)) d) 1) (Some k) [])
      | None, _ => Ret (finish tr None)
      end
  | _ => Ret tr
  end.

(** ** task_remove_utilities.go *)

(** The static pools of a cluster, left out when there are none. *)
Definition static_info (nps : list NodePool) (id network : string) : list NodepoolsInfo :=
  if bool_decide (nps = []) then [] else [mkNodepoolsInfo [] nps id network].

Definition nodepoolsInfoDelete (s : Clusters) (k : K8Scluster) : list NodepoolsInfo :=
  static_info (Static (K8s_NodePools k)) (K8s_Id k) (K8s_Network k) ++
  (LoadBalancers s ≫= λ lb, static_info (Static (LB_NodePools lb)) (LB_Id lb) (K8s_Network k)).

(** [None] when the task is ignored. *)
Definition nodepoolsInfoUpdate (s : Clusters) (d : Delta) : outcome (option (list NodepoolsInfo)) :=
  match d with
  | Update_DeletedK8SNodes_ u kind =>
      let* k := deref (K8S s) in
      match DefaultKubernetesToDeletedNodesOnly k kind with
      | None => Ret None
      | Some np => Ret (Some (static_info (reachable_k8s u (Static [np])) (K8s_Id k) (K8s_Network k)))
      end
  | Update_DeletedLoadBalancerNodes_ u handle kind =>
      match lb_lookup handle (LoadBalancers s) with
      | None => Ret None
      | Some lb =>
          match DefaultLoadBalancerToDeletedNodesOnly lb kind with
          | None => Ret None
          | Some np =>
              let* k := deref (K8S s) in
              Ret (Some (static_info (reachable_lb u (set_LB_NodePools lb (Static [np]))) (LB_Id lb) (K8s_Network k)))
          end
      end
  | Update_DeleteLoadBalancer_ handle u =>
      match lb_lookup handle (LoadBalancers s) with
      | None => Ret None
      | Some lb =>
          let* k := deref (K8S s) in
          Ret (Some (static_info (reachable_lb u (set_LB_NodePools lb (Static (LB_NodePools lb)))) (LB_Id lb) (K8s_Network k)))
      end
  | _ => Ret None
  end.

(** An error of the playbook itself is only logged. *)
Definition removeUtilities (t : nat) (npis : list NodepoolsInfo) : option string := prepare t "wireguard-uninstall.yml" npis.

Definition RemoveUtilities (tr : Tracker) : outcome Tracker :=
  let* npis := match Tr_Task tr with
               | Task_Update s d => nodepoolsInfoUpdate s d
               | Task_Delete s => let* k := deref (K8S s) in Ret (Some (nodepoolsInfoDelete s k))
               | _ => Ret None
               end in
  match npis with
  | None | Some [] => Ret tr
  | Some npis => Ret (finish tr (removeUtilities (Tr_Calls tr) npis))
  end.

(** ** process_task.go *)

Definition ansibler_pass (kind : StageAnsibler_SubPassKind) (tr : Tracker) : outcome Tracker :=
  match kind with
  | DETERMINE_API_ENDPOINT_CHANGE => MoveApiEndpoint tr
  | INSTALL_NODE_REQUIREMENTS => InstallNodeRequirements tr
  | INSTALL_VPN => InstallVPN tr
  | RECONCILE_LOADBALANCERS => ReconcileLoadBalancers tr
  | REMOVE_CLAUDIE_UTILITIES => RemoveUtilities tr
  | UPDATE_API_ENDPOINT => UpdateApiEndpoint tr
  | UPDATE_PROXY_ENVS_ON_NODES => UpdateProxyEnvs tr
  | CLEAR_PROXY_ENVS_ON_NODES => ClearProxyEnvs tr
  | COMMIT_PROXY_ENVS => CommitProxyEnvs tr
  end.

Definition Ansibler_ProcessTask (cancelled : nat → bool) (task : Task) (passes : list (SubPass StageAnsibler_SubPassKind))
    : outcome TaskResult :=
  process_passes ansibler_pass cancelled task passes.

End tasks.

(** A playbook fails only when its run and all its retries did: three unless
    the task asks for another number. *)
Lemma RunAnsiblePlaybook_fails `{Ansible} t RetryCount playbook flags e :
  RunAnsiblePlaybook t RetryCount playbook flags = Some e →
  ∀ i, i ≤ Z.to_nat (if bool_decide (RetryCount ≤ 0)%Z then maxAnsibleRetries else RetryCount) →
    ansible_playbook t playbook flags i ≠ None.
Proof.
  unfold RunAnsiblePlaybook. destruct (ansible_playbook t playbook flags 0) eqn:E0; [|done].
  intros (_ & _ & Hall)%RetryCommand_fails [|i] Hi; [by rewrite E0|]. apply Hall. lia.
Qed.

(** ** Every reply is accepted *)

Lemma fmap_alter_same {A B} (g : A → B) (f : A → A) (i : nat) (l : list A) : (∀ x, g (f x) = g x) → g <$> alter f i l = g <$> l.
Proof.
  intros Hg. revert i. induction l as [|x l IH]; intros [|i]; [done|done|simpl; by rewrite Hg|simpl; f_equal; apply IH].
Qed.

Lemma use_endpoint_lbs name b i lbs : lbs_of name lbs → lbs_of name (use_endpoint b i lbs).
Proof. apply lbs_of_map; by apply fmap_alter_same. Qed.

Lemma give_lbs_lbs name u ips lbs : lbs_of name lbs → lbs_of name (give_lbs u ips lbs).
Proof.
  apply lbs_of_map; revert ips; induction lbs as [|lb lbs IH]; intros ips; simpl; try done;
    destruct (give_cluster _ _ _) as [nps ips']; unfold lb_ids in *; by rewrite !fmap_cons, IH.
Qed.

Lemma edit_roles_lbs name handle f lbs lbs' : edit_roles handle f lbs = Ret lbs' → lbs_of name lbs → lbs_of name lbs'.
Proof.
  intros He. cut (lb_ids lbs' = lb_ids lbs ∧ LB_TargetedK8S <$> lbs' = LB_TargetedK8S <$> lbs); [intros []; by apply lbs_of_map|].
  revert lbs' He. induction lbs as [|lb lbs IH]; intros lbs' He; simpl in He; [by injection He as <-|].
  case_bool_decide; bind_inv He; subst lbs'; [done|]. destruct (IH _ eq_refl) as [E1 E2].
  unfold lb_ids in *. by rewrite !fmap_cons, E1, E2.
Qed.

Lemma role_changes_lbs name d lbs lbs' : role_changes d lbs = Ret lbs' → lbs_of name lbs → lbs_of name lbs'.
Proof. destruct d; simpl; try (by intros [= <-]); apply edit_roles_lbs. Qed.

Section accepted.
Context `{Ansible}.

Lemma InstallVPN_ok k tr tr' : ok k tr → InstallVPN tr = Ret tr' → ok k tr'.
Proof.
  intros Hok. unfold InstallVPN. destruct (builds _) as [[s d]|] eqn:Eb; [|by intros [= <-]].
  apply builds_state in Eb. destruct (ok_state _ _ _ Hok Eb) as [Hk Hl]. intros Hr. bind_inv Hr. apply deref_Ret in Hx.
  unfold installWireguardVPN, addressed in Hr. destruct (give_cluster _ _ _) as [nps ips]. simpl in Hr.
  set (k' := set_K8s_NodePools x nps) in *. set (lbs' := give_lbs _ _ _) in *.
  assert (Hk' : ∀ k0, Some k' = Some k0 → same_cluster k k0) by (intros ? [= <-]; by apply same_cluster_pools, Hk).
  assert (Hl' : lbs_of (cluster_name k) lbs') by (by apply give_lbs_lbs).
  pose proof (put_state_ok k tr s (Some k') lbs' 1 Hok Eb Hk' Hl') as Hput.
  revert Hr. case_match; intros [= <-]; [done|by apply commit_update_ok].
Qed.

Lemma ReconcileLoadBalancers_ok k tr tr' : ok k tr → ReconcileLoadBalancers tr = Ret tr' → ok k tr'.
Proof.
  intros Hok. unfold ReconcileLoadBalancers. destruct (builds _) as [[s d]|] eqn:Eb; [|by intros [= <-]].
  apply builds_state in Eb. destruct (ok_state _ _ _ Hok Eb) as [Hk Hl]. intros Hr. bind_inv Hr.
  apply role_changes_lbs with (name := cluster_name k) in Hx; [|done]. set (lbs := selected_lbs _ _) in *.
  assert (Hlbs : lbs_of (cluster_name k) lbs).
  { unfold lbs, selected_lbs, DefaultToSingleLoadBalancerIfPossible. case_bool_decide; [done|]. simpl.
    destruct (lb_lookup _ x) as [lb|] eqn:El; [|done]. apply lb_lookup_Some in El as [[i Hi]%list_elem_of_lookup _].
    by eapply lbs_of_singleton. }
  pose proof (put_state_ok k tr s (K8S s) x (length lbs) Hok Eb Hk Hx) as Hput.
  revert Hr. case_match; intros [= <-]; [done|]. destruct (reports_roles d); [by apply commit_update_ok|done].
Qed.

Lemma endpoint_change_keeps k k0 lbs state current desired k' lbs' old new :
  same_cluster k k0 → lbs_of (cluster_name k) lbs →
  endpoint_change k0 lbs state current desired = Ret (Some (k', lbs', old, new)) →
  same_cluster k k' ∧ lbs_of (cluster_name k) lbs'.
Proof.
  intros Hk Hl. destruct state; simpl; try done; [| |by intros [= <- <- <- <-]|]; intros Hr; repeat case_match; try done;
    bind_inv Hr; simplify_eq; auto using use_endpoint_lbs with claudie.
Qed.

Lemma MoveApiEndpoint_ok k tr tr' : ok k tr → MoveApiEndpoint tr = Ret tr' → ok k tr'.
Proof.
  intros Hok. unfold MoveApiEndpoint. destruct (Tr_Task tr) as [s|s d|s|] eqn:Et; try by intros [= <-].
  destruct (ok_state k tr s Hok) as [Hk Hl]; [by rewrite Et|]. intros Hr. bind_inv Hr.
  destruct x as [[[state current] desired]|]; [|by injection Hr as <-]. bind_inv Hr. apply deref_Ret in Hx0. apply Hk in Hx0.
  destruct x0 as [[k' lbs'] err].
  assert (same_cluster k k' ∧ lbs_of (cluster_name k) lbs') as [Hk' Hl'].
  { unfold determineApiChanges in Hx1. destruct (prepare _ _ _); [by injection Hx1 as <- <- <-|].
    destruct (endpoint_change _ _ _ _ _) as [[[[[? ?] ?] ?]|]|?|?] eqn:Ec; simplify_eq; try done.
    by eapply endpoint_change_keeps. }
  assert (Hput : ok k (progressed tr (set_task_state (Tr_Task tr) (mkClusters (Some k') lbs')) 1)).
  { apply (put_state_ok k tr s); [done|by rewrite Et|by intros ? [= <-]|done]. }
  rewrite Et in Hput. destruct err; injection Hr as <-; [done|]. apply commit_update_ok; [done|by intros ? [= <-]|done].
Qed.

Lemma UpdateApiEndpoint_ok k tr tr' : ok k tr → UpdateApiEndpoint tr = Ret tr' → ok k tr'.
Proof.
  intros Hok. unfold UpdateApiEndpoint. destruct (Tr_Task tr) as [s|s d|s|] eqn:Et; try by intros [= <-].
  destruct (ok_state k tr s Hok) as [Hk Hl]; [by rewrite Et|]. destruct d; try by intros [= <-].
  intros Hr. bind_inv Hr. apply deref_Ret in Hx. apply Hk in Hx. destruct (updateApiEndpoint _ _ _ _) as [k' err] eqn:Eu.
  assert (Hk' : same_cluster k k').
  { unfold updateApiEndpoint in Eu. repeat case_match; simplify_eq; auto with claudie. }
  assert (Hput : ok k (progressed tr (set_task_state (Tr_Task tr) (mkClusters (Some k') (LoadBalancers s))) 1)).
  { apply (put_state_ok k tr s); [done|by rewrite Et|by intros ? [= <-]|done]. }
  rewrite Et in Hput. destruct err; injection Hr as <-; [done|]. apply commit_update_ok; [done|by intros ? [= <-]|apply lbs_of_nil].
Qed.

Lemma CommitProxyEnvs_ok k tr tr' : ok k tr → CommitProxyEnvs tr = Ret tr' → ok k tr'.
Proof.
  intros Hok. unfold CommitProxyEnvs. destruct (Tr_Task tr) as [s|s d|s|] eqn:Et; try by intros [= <-].
  destruct (ok_state k tr s Hok) as [Hk Hl]; [by rewrite Et|]. intros Hr. bind_inv Hr. apply deref_Ret in Hx. apply Hk in Hx.
  destruct (run_playbook _ _ _ _); [injection Hr as <-; by apply (finish_ok _ _ (Some s0))|].
  destruct d; try (injection Hr as <-; by apply (finish_ok _ _ None)). injection Hr as <-.
  set (k' := set_K8s_InstallationProxy x proxy).
  assert (Hput : ok k (progressed tr (set_task_state (Tr_Task tr) (mkClusters (Some k') (LoadBalancers s))) 1)).
  { apply (put_state_ok k tr s); [done|by rewrite Et|by intros ? [= <-]|done]. }
  rewrite Et in Hput. apply commit_update_ok; [done|by intros ? [= <-]|apply lbs_of_nil].
Qed.

Lemma ansibler_pass_ok k kind tr tr' : ok k tr → ansibler_pass kind tr = Ret tr' → ok k tr'.
Proof.
  intros Hok. destruct kind; simpl.
  - unfold InstallNodeRequirements. destruct (builds _) as [[s d]|]; [|by intros [= <-]]. intros Hr. bind_inv Hr.
    subst tr'. by apply finish_ok.
  - by apply InstallVPN_ok.
  - by apply MoveApiEndpoint_ok.
  - by apply ReconcileLoadBalancers_ok.
  - unfold RemoveUtilities. intros Hr. bind_inv Hr. destruct x as [[|i rest]|]; injection Hr as <-; [done|by apply finish_ok|done].
  - by apply UpdateApiEndpoint_ok.
  - by apply CommitProxyEnvs_ok.
  - unfold UpdateProxyEnvs. destruct (builds _) as [[s d]|]; [|by intros [= <-]]. intros Hr. bind_inv Hr.
    destruct x0 as [url np]. injection Hr as <-. by apply finish_ok.
  - unfold ClearProxyEnvs. destruct (Tr_Task tr); try by intros [= <-]. intros Hr. bind_inv Hr. subst tr'. by apply finish_ok.
Qed.

End accepted.
(** ** The API endpoint is unique *)

Definition is_endpoint (n : Node) : Prop := Node_NodeType n = apiEndpoint.
#[export] Instance is_endpoint_dec n : Decision (is_endpoint n).
Proof. unfold is_endpoint. apply _. Defined.

Definition node_endpoints (nps : list NodePool) : list string :=
  nps ≫= λ np, if NodePool_IsControl np then Node_Name <$> filter is_endpoint (NodePool_Nodes np) else [].
Definition lb_endpoints (lbs : list LBcluster) : list string := LB_Id <$> filter (λ lb, LB_UsedApiEndpoint lb = true) lbs.

(** Where the API of a cluster is served: control nodes and load balancers. *)
Definition endpoints (k : K8Scluster) (lbs : list LBcluster) : list (string + string) :=
  (inl <$> node_endpoints (K8s_NodePools k)) ++ (inr <$> lb_endpoints lbs).

Lemma retype_endpoint_endpoints nps np n :
  FindApiEndpoint nps = Some (np, n) →
  ∃ rest, node_endpoints nps = Node_Name n :: rest ∧ node_endpoints (retype_endpoint master nps) = rest.
Proof.
  unfold node_endpoints. induction nps as [|x nps IH]; simpl; [done|].
  destruct (NodePool_IsControl x) eqn:Ec; simpl; [|intros Hf; destruct (IH Hf) as (rest & E1 & E2); rewrite Ec; eauto].
  destruct (find_first _ _) as [y|] eqn:Ef.
  - intros [= <- <-]. rewrite bool_decide_eq_true_2 by eauto. simpl. rewrite Ec. clear IH. revert Ef.
    generalize (NodePool_Nodes x) as ns. induction ns as [|m ns IH]; simpl; [done|]. unfold is_endpoint in *.
    case_bool_decide as Hm.
    + intros [= <-]. rewrite !filter_cons, decide_True by done. simpl. eauto.
    + intros Hf. rewrite !filter_cons, !decide_False by done. eauto.
  - rewrite bool_decide_eq_false_2 by (by intros []). intros Hf. destruct (IH Hf) as (rest & E1 & E2).
    simpl. rewrite Ec.
    assert (filter is_endpoint (NodePool_Nodes x) = []) as ->; [|eauto].
    apply filter_nil_iff. intros m Hm. rewrite find_first_None in Ef. apply Ef in Hm. by apply bool_decide_eq_false in Hm.
Qed.

Lemma retype_first_control_endpoints nps n :
  FirstControlNode nps = Some n → node_endpoints nps = [] →
  node_endpoints (retype_first_control apiEndpoint nps) = [Node_Name n].
Proof.
  unfold node_endpoints. induction nps as [|x nps IH]; simpl; [done|].
  destruct (NodePool_IsControl x) eqn:Ec; [destruct (NodePool_Nodes x) as [|m ns] eqn:En|]; simpl; rewrite ?Ec, ?En; simpl.
  - intros Hf Hn. by apply IH.
  - intros [= ->] [Hx Hr]%app_eq_nil. rewrite Hr, app_nil_r. apply fmap_nil_inv in Hx. rewrite filter_cons in Hx.
    case_decide; [done|]. simpl. by rewrite Hx.
  - intros Hf Hn. by apply IH.
Qed.

Lemma alter_split {A} (f : A → A) (l : list A) i x :
  l !! i = Some x → ∃ a b, l = a ++ x :: b ∧ alter f i l = a ++ f x :: b.
Proof.
  revert i. induction l as [|y l IH]; intros [|i]; simpl; try done.
  - intros [= ->]. by exists [], l.
  - intros (a & b & -> & E)%IH. exists (y :: a), b. split; [done|]. simpl. f_equal. exact E.
Qed.

Lemma attach_endpoint lbs i lb :
  lbs !! i = Some lb → lb_endpoints lbs = [] → lb_endpoints (use_endpoint true i lbs) = [LB_Id lb].
Proof.
  intros Hi He. unfold use_endpoint. destruct (alter_split (λ lb, set_LB_UsedApiEndpoint lb true) lbs i lb Hi) as (a & b & -> & E). rewrite E.
  unfold lb_endpoints in *. rewrite filter_app, fmap_app in *. apply app_eq_nil in He as [Ha Hb]. rewrite Ha. simpl.
  rewrite filter_cons in *. simpl. case_decide; [done|]. f_equal. exact Hb.
Qed.

Lemma detach_endpoint lbs i lb :
  NoDup (lb_ids lbs) → lbs !! i = Some lb → lb_endpoints lbs = [LB_Id lb] → lb_endpoints (use_endpoint false i lbs) = [].
Proof.
  intros Hn Hi He. unfold use_endpoint. destruct (alter_split (λ lb, set_LB_UsedApiEndpoint lb false) lbs i lb Hi) as (a & b & -> & E). rewrite E.
  unfold lb_endpoints, lb_ids in *. rewrite filter_app, fmap_app in *. rewrite filter_cons in *. simpl in Hn.
  simpl. apply NoDup_app in Hn as (_ & Hab & [Hb _]%NoDup_cons).
  assert (Hno : ∀ l : list LBcluster, LB_Id lb ∉ LB_Id <$> l → LB_Id lb ∉ LB_Id <$> filter (λ lb, LB_UsedApiEndpoint lb = true) l).
  { intros l Hl (x & Ex & Hx)%list_elem_of_fmap. apply list_elem_of_filter in Hx as [_ Hx]. apply Hl. rewrite Ex.
    by apply list_elem_of_fmap_2. }
  assert (Ha : LB_Id lb ∉ LB_Id <$> a) by (intros Hx; by apply (Hab _ Hx); left).
  apply Hno in Ha, Hb. case_decide; simpl in He; rewrite ?fmap_cons in He.
  - destruct (LB_Id <$> filter _ a) as [|x xs]; simpl in He; [injection He as He; exact He|].
    injection He as -> He. destruct xs; discriminate He.
  - exfalso. assert (LB_Id lb ∈ [LB_Id lb]) as Hin by (by left). rewrite <- He, elem_of_app in Hin. tauto.
Qed.

Lemma IndexLoadbalancerById_Some id lbs i : IndexLoadbalancerById id lbs = Some i → ∃ lb, lbs !! i = Some lb ∧ LB_Id lb = id.
Proof. intros (lb & Hi & Hid)%index_func_Some. apply bool_decide_eq_true in Hid. by exists lb. Qed.

(** Where the endpoint is before and after a change. *)
Definition endpoint_from (k : K8Scluster) (lbs : list LBcluster) (state : ApiEndpointChangeState) (current : string) : Prop :=
  match state with
  | AttachingLoadBalancer => ∃ n, endpoints k lbs = [inl n]
  | DetachingLoadBalancer | MoveEndpoint => endpoints k lbs = [inr current]
  | NoChange | EndpointRenamed => ∃ e, endpoints k lbs = [e]
  end.

Definition endpoint_to (k : K8Scluster) (lbs : list LBcluster) (state : ApiEndpointChangeState) (desired : string)
    (k' : K8Scluster) (lbs' : list LBcluster) : Prop :=
  match state with
  | AttachingLoadBalancer | MoveEndpoint => endpoints k' lbs' = [inr desired]
  | DetachingLoadBalancer =>
      ∃ n, FirstControlNode (K8s_NodePools k) = Some n ∧ endpoints k' lbs' = [inl (Node_Name n)]
  | NoChange | EndpointRenamed => endpoints k' lbs' = endpoints k lbs
  end.

Lemma endpoints_node k lbs n : endpoints k lbs = [inl n] → node_endpoints (K8s_NodePools k) = [n] ∧ lb_endpoints lbs = [].
Proof.
  unfold endpoints. destruct (node_endpoints _) as [|x [|]], (lb_endpoints lbs); simpl; try done. by intros [= ->].
Qed.

Lemma endpoints_lb k lbs n : endpoints k lbs = [inr n] → node_endpoints (K8s_NodePools k) = [] ∧ lb_endpoints lbs = [n].
Proof.
  unfold endpoints. destruct (node_endpoints _) as [|x [|]], (lb_endpoints lbs) as [|y [|]]; simpl; try done. by intros [= ->].
Qed.

Lemma endpoint_change_moves k lbs state current desired k' lbs' old new :
  NoDup (lb_ids lbs) → endpoint_from k lbs state current →
  endpoint_change k lbs state current desired = Ret (Some (k', lbs', old, new)) →
  endpoint_to k lbs state desired k' lbs'.
Proof.
  intros Hn. destruct state; simpl; [done|..].
  - intros [m [Hm Hl]%endpoints_node]. destruct (FindApiEndpoint _) as [[np n]|] eqn:Ef; [|done].
    destruct (IndexLoadbalancerById _ _) as [i|] eqn:Ei; [|done]. intros Hr. bind_inv Hr. simplify_eq.
    apply IndexLoadbalancerById_Some in Ei as (lb & Hi & <-). apply retype_endpoint_endpoints in Ef as (rest & E1 & E2).
    rewrite Hm in E1. injection E1 as -> <-. unfold endpoints.
    change (K8s_NodePools (set_K8s_NodePools k (retype_endpoint master (K8s_NodePools k)))) with (retype_endpoint master (K8s_NodePools k)).
    by rewrite E2, (attach_endpoint _ _ _ Hi Hl).
  - intros [Hm Hl]%endpoints_lb. destruct (IndexLoadbalancerById _ _) as [i|] eqn:Ei; [|done].
    destruct (FirstControlNode _) as [n|] eqn:Ef; [|done]. intros Hr. bind_inv Hr. simplify_eq.
    apply IndexLoadbalancerById_Some in Ei as (lb & Hi & <-). exists n. split; [done|]. unfold endpoints.
    change (K8s_NodePools (set_K8s_NodePools k (retype_first_control apiEndpoint (K8s_NodePools k))))
      with (retype_first_control apiEndpoint (K8s_NodePools k)).
    by rewrite (retype_first_control_endpoints _ _ Ef Hm), (detach_endpoint _ _ _ Hn Hi Hl).
  - intros _ [= <- <- <- <-]. done.
  - intros [Hm Hl]%endpoints_lb. destruct (IndexLoadbalancerById current _) as [c|] eqn:Ec; [|done].
    destruct (IndexLoadbalancerById desired _) as [d|] eqn:Ed; [|done]. intros Hr. bind_inv Hr. simplify_eq.
    apply IndexLoadbalancerById_Some in Ec as (lc & Hc & <-). apply IndexLoadbalancerById_Some in Ed as (ld & Hd & <-).
    pose proof (detach_endpoint _ _ _ Hn Hc Hl) as Hdet. unfold endpoints. rewrite Hm. simpl.
    assert (∃ l, use_endpoint false c lbs !! d = Some l ∧ LB_Id l = LB_Id ld) as (l & Hl' & <-).
    { unfold use_endpoint. destruct (decide (c = d)) as [->|Hne].
      - rewrite list_lookup_alter_eq, Hd. by eexists.
      - rewrite list_lookup_alter_ne by done. by eexists. }
    by rewrite (attach_endpoint _ _ _ Hl' Hdet).
Qed.

Section replies.
Context `{Ansible}.

(** Whatever the playbooks of the ansibler answer, on every task about a
    cluster and for every sequence of passes, a reply reports only that
    cluster and load balancers targeting it, each once, and the manager
    accepts it: the reported versions replace the ones of its task. *)
Lemma ansibler_reply_accepted cancelled te s k passes r :
  task_state te = Some s → K8S s = Some k → task_for k te → delta_resolves te →
  Ansibler_ProcessTask cancelled te passes = Ret r →
  report_ok k r ∧ accepted te s k r.
Proof.
  intros Hs Hk Ht Hd Hr. apply (process_passes_report_ok _ _ _ k) in Hr; [|apply ansibler_pass_ok|done].
  split; [done|by apply report_accepted].
Qed.

Lemma determineApiChanges_moves t k lbs state current desired k' lbs' :
  NoDup (lb_ids lbs) → endpoint_from k lbs state current →
  determineApiChanges t k lbs state current desired = Ret (k', lbs', None) →
  endpoint_to k lbs state desired k' lbs' ∧ lb_ids lbs' = lb_ids lbs.
Proof.
  intros Hn Hf. unfold determineApiChanges. destruct (prepare _ _ _); [done|].
  destruct (endpoint_change _ _ _ _ _) as [[[[[k1 lbs1] old] new]|]|?|?] eqn:Ec; try done.
  - intros [= <- <- _]. split; [by eapply endpoint_change_moves|]. clear Hf Hn.
    destruct state; simpl in Ec; repeat case_match; try done; bind_inv Ec; simplify_eq; try done;
      unfold use_endpoint, lb_ids; by rewrite !fmap_alter_same.
  - intros [= <- <-]. split; [|done]. destruct state; simpl in *; [done|..]; repeat case_match; try done; bind_inv Ec; simplify_eq.
Qed.

(** C27: the API endpoint of a cluster stays unique.  A task that moves it
    (from a node to a load balancer, back to a node, or between load
    balancers), handled by the ansibler and consumed by the manager, leaves
    exactly one endpoint, at the requested place; when the ansibler reports an
    error the state of the manager is unchanged.  The move from a node to
    another node is a delta of its own and not part of this. *)
Theorem api_endpoint_stays_unique cancelled s k state current desired p r :
  let te := Task_Update s (Update_ApiEndpoint_ state current desired) in
  K8S s = Some k → task_for k te → endpoint_from k (LoadBalancers s) state current →
  Kind p = DETERMINE_API_ENDPOINT_CHANGE → Level (Description p) = ERROR_FATAL → cancelled 0 = false →
  Ansibler_ProcessTask cancelled te [p] = Ret r →
  ∃ te' s' k', consumed te r te' ∧ task_state te' = Some s' ∧ K8S s' = Some k' ∧
    if bool_decide (TaskResult_Error r = None) then endpoint_to k (LoadBalancers s) state desired k' (LoadBalancers s')
    else s' = s.
Proof.
  intros te Hk Ht Hf Hp Hlev Hc Hr.
  assert (Hd : delta_resolves te) by (intros s0 k0 d [= <-] _ [= <-]; by eexists).
  pose proof (process_passes_report_ok _ _ _ k _ _ (ansibler_pass_ok k) Ht Hr) as Hok.
  apply process_one in Hr as (tr & Hr & Er); [|done]. rewrite Hlev in Er. rewrite Hp in Hr.
  simpl in Hr. unfold MoveApiEndpoint in Hr. simpl in Hr. rewrite Hk in Hr. simpl in Hr.
  destruct (determineApiChanges _ _ _ _ _ _) as [[[k' lbs'] [e|]]|?|?] eqn:Ed; simpl in Hr; [| |done..]; injection Hr as <-.
  - exists te, s, k. subst r. by split_and!.
  - destruct (task_for_inv _ _ _ Ht) as (_ & Hn & _).
    destruct (determineApiChanges_moves _ _ _ _ _ _ _ _ Hn Hf Ed) as [Hto Hids].
    assert (Hres : TaskResult_Result_ r = TaskResult_Update (mkUpdateState (Some k') lbs')).
    { subst r. unfold commit_update, InFlightUpdate_Loadbalancers. simpl. do 2 f_equal. clear.
      destruct lbs'; simpl; [done|]. f_equal. induction lbs'; simpl; congruence. }
    destruct (whole_state_consumed te s k r k' lbs') as (te' & Hcon & Hst); [done..|].
    exists te', (mkClusters (Some k') lbs'), k'. split_and!; [done..|]. subst r. by rewrite bool_decide_eq_true_2.
Qed.

End replies.

(** ** Witnesses *)

Definition all_reachable : Ansible := {| prepare := λ _ _ _, None; ansible_playbook := λ _ _ _ _, None; defaultAnsibleForks := 32 |}.
Definition playbook_fails : Ansible := {| prepare := λ _ _ _, None; ansible_playbook := λ _ _ _ _, Some "unreachable"; defaultAnsibleForks := 32 |}.

Definition detach_pass : SubPass StageAnsibler_SubPassKind :=
  mkSubPass DETERMINE_API_ENDPOINT_CHANGE (fatal "moving the endpoint").
Definition vpn_pass : SubPass StageAnsibler_SubPassKind :=
  mkSubPass INSTALL_VPN (fatal "installing the vpn").

(** The samples with the endpoint at a node only. *)
Definition plain_lb : LBcluster := set_LB_UsedApiEndpoint Samples.lb false.
Definition node_state : Clusters := mkClusters (Some Samples.k8s) [plain_lb].

Lemma node_state_task_for d : (∀ lb, d ≠ Update_TfAddLoadBalancer lb) → task_for Samples.k8s (Task_Update node_state d).
Proof.
  intros Hd. apply task_for_update; [by intros ? [= <-]| |by intros ? ?%Hd].
  split; [by_decide|by repeat constructor].
Qed.

(** Attaching the load balancer: the endpoint is the load balancer afterwards. *)
Lemma api_endpoint_stays_unique_witness :
  let te := Task_Update node_state (Update_ApiEndpoint_ AttachingLoadBalancer "" "lb-hijklmn") in
  ∃ r te' s' k', Ansibler_ProcessTask (H := all_reachable) never te [detach_pass] = Ret r ∧
    consumed te r te' ∧ task_state te' = Some s' ∧ K8S s' = Some k' ∧ endpoints k' (LoadBalancers s') = [inr "lb-hijklmn"].
Proof.
  intros te. destruct (Ansibler_ProcessTask (H := all_reachable) never te [detach_pass]) as [r|e|w] eqn:E; [|exfalso; vm_compute in E; discriminate E..].
  assert (Hb : match Ansibler_ProcessTask (H := all_reachable) never te [detach_pass] with
               | Ret r => bool_decide (TaskResult_Error r = None) | _ => false end = true) by (vm_compute; reflexivity).
  rewrite E in Hb. simpl in Hb.
  destruct (api_endpoint_stays_unique (H := all_reachable) never node_state Samples.k8s AttachingLoadBalancer "" "lb-hijklmn" detach_pass r)
    as (te' & s' & k' & Hc & Hs & Hk & He); [reflexivity|by apply node_state_task_for| |done|done|done|done|].
  - exists "ctrl-0000001-01". reflexivity.
  - rewrite Hb in He. by exists r, te', s', k'.
Defined.

Lemma ansibler_reply_accepted_witness :
  let te := Task_Update node_state Update_None_ in
  ∃ r, Ansibler_ProcessTask (H := playbook_fails) never te [vpn_pass] = Ret r ∧ TaskResult_Error r ≠ None ∧
       accepted te node_state Samples.k8s r.
Proof.
  intros te. destruct (Ansibler_ProcessTask (H := playbook_fails) never te [vpn_pass]) as [r|e|w] eqn:E; [|exfalso; vm_compute in E; discriminate E..].
  assert (Hb : match Ansibler_ProcessTask (H := playbook_fails) never te [vpn_pass] with
               | Ret r => bool_decide (TaskResult_Error r = None) | _ => true end = false) by (vm_compute; reflexivity).
  rewrite E in Hb. exists r. split; [done|]. split; [by apply bool_decide_eq_false in Hb|].
  refine (proj2 (ansibler_reply_accepted (H := playbook_fails) never _ _ _ _ _ _ _ _ _ E)); [reflexivity|reflexivity|by apply node_state_task_for|].
  intros s k d [= <-] [= <-] [= <-]. by eexists.
Defined.

End Ansibler.
