(* ===== verification/KubeEleven.v ===== *)
(** * Kube-eleven (services/kube-eleven/internal/worker/service)

    The worker that turns nodes into a kubernetes cluster with kubeone: the
    passes [Reconcile] and [Destroy], and internal/kube-eleven, which
    generates the manifest of kubeone from the state.  The template
    templates/kubeone.tpl is modelled by the hosts it lists.  Writing files and
    running kubeone is the parameter [KubeOne]. *)

From stdpp Require Import base gmap strings list.
From S2P Require Import Prelude Spec SpecUtils Samples NodePools Consume Health Worker Commands.
Import NodePools Consume Worker Commands.

(** internal/kube-eleven/types.go *)
Record NodeInfo := mkNodeInfo { Ni_Node : Node; Ni_Name : string; Ni_SshPort : Z }.

Record NodepoolInfo := mkNodepoolInfo {
  Np_Nodes : list NodeInfo;
  Np_IsDynamic : bool;
  Np_NodepoolName : string;
  Np_Region : string;
  Np_Zone : string;
  Np_CloudProviderName : string;
  Np_ProviderName : string }.

(** A pool that is neither dynamic nor static is a nil pointer. *)
Record templateData := mkTemplateData {
  Td_APIEndpoint : string;
  Td_AlternativeNames : list string;
  Td_KubernetesVersion : string;
  Td_ClusterName : string;
  Td_Nodepools : list (option NodepoolInfo) }.

(** A host of the manifest, as templates/kubeone.tpl writes it. *)
Record Host := mkHost {
  Host_Public : string;
  Host_Private : string;
  Host_SshPort : Z;
  Host_Username : string;
  Host_KeyFile : string;
  Host_Hostname : string;
  Host_IsLeader : bool }.

Record KubeOneCluster := mkKubeOneCluster {
  Ko_Name : string;
  Ko_Version : string;
  Ko_ApiEndpoint : string;
  Ko_AlternativeNames : list string;
  Ko_ControlPlane : list Host;
  Ko_StaticWorkers : list Host }.

(** What is written to the directory kubeone runs in: the manifest and the
    key files by name. *)
Class KubeOne := {
  write_files : nat → KubeOneCluster → list (string * string) → option string;
  kubeone_apply : nat → KubeOneCluster → list (string * string) → option string;
  (** the [i]-th run of [kubeone reset] *)
  kubeone_reset : nat → KubeOneCluster → list (string * string) → nat → option string;
  (** the content of the kubeconfig kubeone downloaded, or an error *)
  readKubeconfigFromFile : nat → string → string + string }.

Module KubeEleven.

(** ** internal/kube-eleven/kube_eleven.go *)

Definition staticRegion : string := "on-premise".
Definition staticZone : string := "datacenter".
Definition staticProvider : string := "on-premise".
Definition staticProviderName : string := "claudie".

(** The port of the pool is normalised on the way ([NodeSSHPort]). *)
Fixpoint node_data (nameFunc : string → string) (np : NodePool) (ns : list Node) : NodePool * list NodeInfo :=
  match ns with
  | [] => (np, [])
  | n :: ns =>
      let '(np, port) := NodeSSHPort np n in
      let '(np, infos) := node_data nameFunc np ns in
      (np, mkNodeInfo n (nameFunc (Node_Name n)) port :: infos)
  end.

Definition getNodeData (np : NodePool) (nameFunc : string → string) : NodePool * list NodeInfo :=
  node_data nameFunc np (NodePool_Nodes np).

Definition pool_info (clusterId : string) (np : NodePool) : NodePool * option NodepoolInfo :=
  match NodePool_Type np with
  | NodePool_DynamicNodePool d =>
      let '(np', ns) := getNodeData np (Health.stripped clusterId) in
      (np', Some (mkNodepoolInfo ns true (NodePool_Name np) (sanitise_String (Dyn_Region d)) (sanitise_String (Dyn_Zone d))
                    (sanitise_String (Provider_CloudProviderName (Dyn_Provider d)))
                    (sanitise_String (Provider_SpecName (Dyn_Provider d)))))
  | NodePool_StaticNodePool _ =>
      let '(np', ns) := getNodeData np (λ s, s) in
      (np', Some (mkNodepoolInfo ns false (NodePool_Name np) (sanitise_String staticRegion) (sanitise_String staticZone)
                    (sanitise_String staticProvider) (sanitise_String staticProviderName)))
  | NodePool_nil => (np, None)
  end.

Definition getClusterNodes (k : K8Scluster) : K8Scluster * list (option NodepoolInfo) :=
  let r := pool_info (K8s_Id k) <$> K8s_NodePools k in (set_K8s_NodePools k (fst <$> r), snd <$> r).

Definition apiEndpoint_ (k : K8Scluster) (loadBalancerEndpoint : string) : (string * bool) + string :=
  if bool_decide (loadBalancerEndpoint ≠ "") then inl (loadBalancerEndpoint, false)
  else match FindApiEndpoint (K8s_NodePools k) with
       | None => inr "malformed k8s state, no loadbalancer attached with api role nor any control plane node has api server role"
       | Some (_, n) => inl (Node_Public n, true)
       end.

Definition alternativeNames (k : K8Scluster) : list string :=
  Control (K8s_NodePools k) ≫= λ np, Node_Public <$> filter (λ n, Node_NodeType n ≠ apiEndpoint) (NodePool_Nodes np).

(** [templateData] *)
Definition template_data (k : K8Scluster) (loadBalancerEndpoint : string) : K8Scluster * (templateData + string) :=
  let '(k, infos) := getClusterNodes k in
  (k, match apiEndpoint_ k loadBalancerEndpoint with
      | inr e => inr e
      | inl (endpoint, ofNode) =>
          inl (mkTemplateData endpoint (if ofNode : bool then alternativeNames k else []) (K8s_Kubernetes k)
                 (ClusterInfo_Name (K8s_ClusterInfo k)) infos)
      end).

(** ** templates/kubeone.tpl *)

Definition is_control_host (n : NodeInfo) : bool := bool_decide (Node_NodeType (Ni_Node n) ≠ worker).

Definition host_of (endpoint : string) (np : NodepoolInfo) (n : NodeInfo) : Host :=
  mkHost (Node_Public (Ni_Node n)) (Node_Private (Ni_Node n)) (Ni_SshPort n)
    (if Np_IsDynamic np then "root" else Node_Username (Ni_Node n))
    (if Np_IsDynamic np then String.append (Np_NodepoolName np) ".pem"
     else String.append "./" (String.append (Ni_Name n) ".pem"))
    (Ni_Name n)
    (is_control_host n && bool_decide (Node_Public (Ni_Node n) = endpoint)).

Definition hosts (keep : NodeInfo → bool) (endpoint : string) (nps : list NodepoolInfo) : list Host :=
  nps ≫= λ np, host_of endpoint np <$> filter (λ n, keep n = true) (Np_Nodes np).

(** Executing the template fails on a nil pool. *)
Definition render (td : templateData) : option KubeOneCluster :=
  nps ← mapM id (Td_Nodepools td);
  Some (mkKubeOneCluster (Td_ClusterName td) (Td_KubernetesVersion td) (Td_APIEndpoint td) (Td_AlternativeNames td)
          (hosts is_control_host (Td_APIEndpoint td) nps)
          (hosts (λ n, negb (is_control_host n)) (Td_APIEndpoint td) nps)).

(** ** Key files (internal/nodepools) *)

Definition DynamicGenerateKeys (nps : list NodePool) : list (string * string) :=
  omap (λ np, d ← GetDynamicNodePool np; Some (String.append (NodePool_Name np) ".pem", Dyn_PrivateKey d)) nps.

Definition StaticGenerateKeys (nps : list NodePool) : list (string * string) :=
  nps ≫= λ np, match GetStaticNodePool np with
               | None => []
               | Some sp => omap (λ n, key ← Static_NodeKeys sp !! Node_Public n;
                                       Some (String.append (Node_Name n) ".pem", key)) (NodePool_Nodes np)
               end.

Definition key_files (k : K8Scluster) : list (string * string) :=
  DynamicGenerateKeys (Dynamic (K8s_NodePools k)) ++ StaticGenerateKeys (Static (K8s_NodePools k)).

Definition set_K8s_Kubeconfig (k : K8Scluster) (c : string) : K8Scluster :=
  mkK8Scluster (K8s_ClusterInfo k) (K8s_Network k) c (K8s_Kubernetes k) (K8s_InstallationProxy k).
Definition set_K8s_Kubernetes (k : K8Scluster) (v : string) : K8Scluster :=
  mkK8Scluster (K8s_ClusterInfo k) (K8s_Network k) (K8s_Kubeconfig k) v (K8s_InstallationProxy k).

Section worker.
Context `{KubeOne}.

(** The manifest that was written. *)
Definition generateFiles (t : nat) (k : K8Scluster) (loadBalancerEndpoint : string) : K8Scluster * (KubeOneCluster + string) :=
  let '(k, td) := template_data k loadBalancerEndpoint in
  (k, match td with
      | inr e => inr e
      | inl td =>
          match render td with
          | None => inr "error while generating kubeone.yaml from kubeone template"
          | Some m => match write_files t m (key_files k) with Some e => inr e | None => inl m end
          end
      end).

Definition BuildCluster (t : nat) (k : K8Scluster) (loadBalancerEndpoint : string) : K8Scluster * option string :=
  let '(k, files) := generateFiles t k loadBalancerEndpoint in
  match files with
  | inr e => (k, Some e)
  | inl m =>
      match kubeone_apply t m (key_files k) with
      | Some e => (k, Some e)
      | None =>
          match readKubeconfigFromFile t (String.append (ClusterInfo_Name (K8s_ClusterInfo k)) "-kubeconfig") with
          | inr e => (k, Some e)
          | inl kubeconfig => (if bool_decide (kubeconfig = "") then k else set_K8s_Kubeconfig k kubeconfig, None)
          end
      end
  end.

(** [kubeone reset] is run at last; an error of it is only logged. *)
Definition maxRetryCount : nat := 1.

(** internal/kubeone/kubeone.go; the back-off of the retry is in range *)
Definition kubeone_Reset (t : nat) (m : KubeOneCluster) (keys : list (string * string)) : option string :=
  match kubeone_reset t m keys 0 with
  | None => None
  | Some _ => (RetryCommand 0 (kubeone_reset t m keys) (mkCmd "kubeone reset -m kubeone.yaml -y --remove-binaries" []) maxRetryCount).1
  end.

(** The error of the reset is only logged. *)
Definition DestroyCluster (t : nat) (k : K8Scluster) (loadBalancerEndpoint : string) : K8Scluster * option string :=
  let '(k, files) := generateFiles t k loadBalancerEndpoint in
  match files with
  | inr e => (k, Some e)
  | inl m => let _ := kubeone_Reset t m (key_files k) in (k, None)
  end.

(** ** The passes *)

Definition lb_api_endpoint (lbs : list LBcluster) : outcome string :=
  match FindAssignedLbApiEndpoint lbs with
  | None => Ret ""
  | Some lb => let* d := deref (LB_Dns lb) in Ret (DNS_Endpoint d)
  end.

Definition mark_joined (k : K8Scluster) : K8Scluster :=
  set_K8s_NodePools k ((λ np, set_NodePool_Nodes np ((λ n, set_Node_Status n Joined) <$> NodePool_Nodes np)) <$> K8s_NodePools k).

Definition requested_version (d : Delta) (k : K8Scluster) : string :=
  match d with Update_UpgradeVersion_ v => v | _ => K8s_Kubernetes k end.

(** task_reconcile_infrastructure.go *)
Definition Reconcile (tr : Tracker) : outcome Tracker :=
  match builds (Tr_Task tr) with
  | None => Ret tr
  | Some (s, d) =>
      let* k := deref (K8S s) in
      let* ep := lb_api_endpoint (LoadBalancers s) in
      let '(k, err) := BuildCluster (Tr_Calls tr) (set_K8s_Kubernetes k (requested_version d k)) ep in
      let put := λ k, progressed tr (set_task_state (Tr_Task tr) (mkClusters (Some k) (LoadBalancers s))) 1 in
      match err with
      | Some e => Ret (Push (put k) e)
      | None => let k := mark_joined k in Ret (commit_update (put k) (Some k) [])
      end
  end.

(** task_destroy_infrastructure.go *)
Definition Destroy (tr : Tracker) : outcome Tracker :=
  match Tr_Task tr with
  | Task_Delete s =>
      let* k := deref (K8S s) in
      let* ep := lb_api_endpoint (LoadBalancers s) in
      let '(k, err) := DestroyCluster (Tr_Calls tr) k ep in
      let put := λ k, progressed tr (Task_Delete (mkClusters (Some k) (LoadBalancers s))) 1 in
      match err with
      | Some e => Ret (Push (put k) e)
      | None => let k := set_K8s_Kubeconfig k "" in Ret (commit_update (put k) (Some k) [])
      end
  | _ => Ret tr
  end.

Definition kube_eleven_pass (kind : StageKubeEleven_SubPassKind) (tr : Tracker) : outcome Tracker :=
  match kind with
  | RECONCILE_CLUSTER => Reconcile tr
  | DESTROY_CLUSTER => Destroy tr
  end.

Definition KubeEleven_ProcessTask (cancelled : nat → bool) (task : Task) (passes : list (SubPass StageKubeEleven_SubPassKind))
    : outcome TaskResult :=
  process_passes kube_eleven_pass cancelled task passes.

End worker.

(** ** The manifest lists the cluster *)

Definition all_nodes (k : K8Scluster) : list Node := K8s_NodePools k ≫= NodePool_Nodes.

(** The key file of a host was written. *)
Definition has_key_file (k : K8Scluster) (h : Host) : Prop :=
  ∃ f key, (f, key) ∈ key_files k ∧ (Host_KeyFile h = f ∨ Host_KeyFile h = String.append "./" f).

Lemma node_data_pool f np ns : ∃ p, fst (node_data f np ns) = set_NodePool_SshPort np p.
Proof.
  revert np. induction ns as [|n ns IH]; intros np; simpl.
  - exists (NodePool_SshPort np). by destruct np.
  - assert (∃ q, fst (NodeSSHPort np n) = set_NodePool_SshPort np q) as [q Eq].
    { unfold NodeSSHPort, SSHPort. repeat case_bool_decide; [exists (NodePool_SshPort np)|exists DefaultSSHPort|exists (NodePool_SshPort np)];
        by destruct np. }
    destruct (NodeSSHPort np n) as [np1 port]. simpl in Eq. subst np1.
    destruct (IH (set_NodePool_SshPort np q)) as [p Ep]. destruct (node_data _ _ _). simpl in *. subst. by exists p.
Qed.

Lemma node_data_nodes f np ns :
  Ni_Node <$> snd (node_data f np ns) = ns ∧ Ni_Name <$> snd (node_data f np ns) = f ∘ Node_Name <$> ns.
Proof.
  revert np. induction ns as [|n ns IH]; intros np; [done|]. simpl. destruct (NodeSSHPort np n) as [np1 port].
  specialize (IH np1). destruct (node_data f np1 ns). destruct IH as [E1 E2]. split; simpl; f_equal; [exact E1|exact E2].
Qed.

Lemma pool_info_pool id np : ∃ p, fst (pool_info id np) = set_NodePool_SshPort np p.
Proof.
  unfold pool_info, getNodeData. destruct (NodePool_Type np) eqn:E.
  - destruct (node_data_pool (Health.stripped id) np (NodePool_Nodes np)) as [p Ep]. destruct (node_data _ _ _). by exists p.
  - destruct (node_data_pool (λ s, s) np (NodePool_Nodes np)) as [p Ep]. destruct (node_data _ _ _). by exists p.
  - exists (NodePool_SshPort np). by destruct np.
Qed.

(** What a pool contributes to the manifest. *)
Definition describes (np : NodePool) (i : NodepoolInfo) : Prop :=
  Ni_Node <$> Np_Nodes i = NodePool_Nodes np ∧ Np_NodepoolName i = NodePool_Name np ∧
  (Np_IsDynamic i = true ∧ is_Some (GetDynamicNodePool np) ∨
   Np_IsDynamic i = false ∧ is_Some (GetStaticNodePool np) ∧ Ni_Name <$> Np_Nodes i = Node_Name <$> NodePool_Nodes np).

Lemma pool_info_describes id np i : snd (pool_info id np) = Some i → describes np i.
Proof.
  unfold pool_info, getNodeData, describes, GetDynamicNodePool, GetStaticNodePool.
  destruct (NodePool_Type np) eqn:E; [..|done].
  - destruct (node_data_nodes (Health.stripped id) np (NodePool_Nodes np)) as [E1 E2]. destruct (node_data _ _ _).
    simpl in *. intros [= <-]. simpl. split_and!; [done..|]. left. by split.
  - destruct (node_data_nodes (λ s, s) np (NodePool_Nodes np)) as [E1 E2]. destruct (node_data _ _ _).
    simpl in *. intros [= <-]. simpl. split_and!; [done..|]. right. by split_and!.
Qed.

(** The pools of a cluster described one by one, with normalised ports. *)
Lemma infos_describe id (nps : list NodePool) infos :
  mapM Datatypes.id (snd <$> (pool_info id <$> nps)) = Some infos → Forall2 describes nps infos.
Proof.
  intros Hm. apply mapM_Some_1 in Hm. revert infos Hm. induction nps as [|np nps IH]; intros infos Hm; inversion Hm as [|? i ? is' Hi Hr]; subst.
  - constructor.
  - constructor; [by apply (pool_info_describes id)|by apply IH].
Qed.

Lemma hosts_public keep P `{!∀ n, Decision (P n)} ep nps infos :
  (∀ i, keep i = true ↔ P (Ni_Node i)) → Forall2 describes nps infos →
  Host_Public <$> hosts keep ep infos = Node_Public <$> filter P (nps ≫= NodePool_Nodes).
Proof.
  intros Hkeep. induction 1 as [|np i nps infos (E & _) _ IH]; [done|].
  unfold hosts in *. rewrite !bind_cons, filter_app, !fmap_app, IH. f_equal. rewrite <- E.
  clear E IH. induction (Np_Nodes i) as [|x l IHl]; [done|].
  rewrite fmap_cons, !filter_cons. destruct (decide (keep x = true)) as [Hx|Hx]; rewrite Hkeep in Hx.
  - rewrite decide_True by done. rewrite !fmap_cons, IHl. done.
  - rewrite decide_False by done. exact IHl.
Qed.

Lemma ports_only_nodes id nps : (fst <$> (pool_info id <$> nps)) ≫= NodePool_Nodes = nps ≫= NodePool_Nodes.
Proof.
  induction nps as [|np nps IH]; [done|]. rewrite !fmap_cons, !bind_cons, IH. f_equal. by destruct (pool_info_pool id np) as [p ->].
Qed.

Lemma ports_only_endpoint id nps :
  FindApiEndpoint (fst <$> (pool_info id <$> nps)) = None ∧ FindApiEndpoint nps = None ∨
  ∃ np np' n, FindApiEndpoint (fst <$> (pool_info id <$> nps)) = Some (np', n) ∧ FindApiEndpoint nps = Some (np, n).
Proof.
  induction nps as [|np nps IH]; [by left|]. simpl. destruct (pool_info_pool id np) as [p ->]. simpl.
  destruct (NodePool_IsControl np); [|exact IH]. destruct (find_first _ _) as [n|]; [|exact IH]. right. by eexists _, _, _.
Qed.

Lemma ports_only_dynamic id nps :
  DynamicGenerateKeys (Dynamic (fst <$> (pool_info id <$> nps))) = DynamicGenerateKeys (Dynamic nps).
Proof.
  induction nps as [|np nps IH]; [done|]. unfold Dynamic in *. rewrite !fmap_cons, !filter_cons.
  destruct (pool_info_pool id np) as [p ->]. change (is_dynamic (set_NodePool_SshPort np p)) with (is_dynamic np).
  case_decide; [|exact IH]. unfold DynamicGenerateKeys, GetDynamicNodePool in *. simpl.
  destruct (NodePool_Type np); simpl; [f_equal|..]; exact IH.
Qed.

Lemma ports_only_static id nps :
  StaticGenerateKeys (Static (fst <$> (pool_info id <$> nps))) = StaticGenerateKeys (Static nps).
Proof.
  induction nps as [|np nps IH]; [done|]. unfold Static in *. rewrite !fmap_cons, !filter_cons.
  destruct (pool_info_pool id np) as [p ->]. change (is_static (set_NodePool_SshPort np p)) with (is_static np).
  case_decide; [|exact IH]. unfold StaticGenerateKeys in *. rewrite !bind_cons, IH. done.
Qed.

Lemma ports_only_keys k : key_files (fst (getClusterNodes k)) = key_files k.
Proof. unfold key_files. f_equal; [apply ports_only_dynamic|apply ports_only_static]. Qed.

Lemma describes_key_files k infos keep ep h :
  Forall wf_nodepool (K8s_NodePools k) → Forall2 describes (K8s_NodePools k) infos → h ∈ hosts keep ep infos → has_key_file k h.
Proof.
  intros Hwf Hd (i & Hi & Hin)%list_elem_of_bind. 
  apply list_elem_of_fmap in Hi as (ni & -> & [_ Hni]%list_elem_of_filter).
  apply list_elem_of_lookup in Hin as [x Hx]. destruct (Forall2_lookup_r _ _ _ _ _ Hd Hx) as (np & Hnp & En & Enm & Hty).
  apply list_elem_of_lookup_2 in Hnp. unfold has_key_file, key_files.
  assert (Hnode : Ni_Node ni ∈ NodePool_Nodes np) by (rewrite <- En; by apply list_elem_of_fmap_2).
  destruct Hty as [[Hb [d Hdyn]]|(Hb & [sp Hsp] & Hnames)]; simpl; rewrite Hb.
  - eexists _, (Dyn_PrivateKey d). split; [|by left; rewrite Enm]. apply elem_of_app. left.
    apply list_elem_of_omap. exists np. split; [|by rewrite Hdyn]. apply list_elem_of_filter. split; [|done].
    apply bool_decide_eq_true. by exists d.
  - rewrite Forall_forall in Hwf. destruct (Hwf np Hnp) as (_ & _ & Hkeys). unfold GetStaticNodePool in Hsp.
    destruct (NodePool_Type np) as [|sp'|] eqn:Et; try done. injection Hsp as ->. destruct Hkeys as [_ Hdom].
    assert (is_Some (Static_NodeKeys sp !! Node_Public (Ni_Node ni))) as [key Hkey].
    { apply elem_of_dom. rewrite Hdom. apply elem_of_list_to_set. by apply list_elem_of_fmap_2. }
    assert (Ni_Name ni = Node_Name (Ni_Node ni)) as ->.
    { rewrite <- En in Hnames. rewrite <- list_fmap_compose in Hnames. apply list_elem_of_lookup in Hni as [y Hy].
      apply (f_equal (λ l, l !! y)) in Hnames. rewrite !list_lookup_fmap, Hy in Hnames. by injection Hnames. }
    eexists _, key. split; [|by right]. apply elem_of_app. right. apply list_elem_of_bind. exists np.
    split; [|apply list_elem_of_filter; split; [|done]; apply bool_decide_eq_true; unfold GetStaticNodePool; rewrite Et; by eexists].
    unfold GetStaticNodePool. rewrite Et. apply list_elem_of_omap. exists (Ni_Node ni). split; [done|]. by rewrite Hkey.
Qed.

Lemma FindApiEndpoint_in nps np n :
  FindApiEndpoint nps = Some (np, n) → n ∈ nps ≫= NodePool_Nodes ∧ Node_NodeType n = apiEndpoint.
Proof.
  induction nps as [|x nps IH]; simpl; [done|]. destruct (NodePool_IsControl x).
  - destruct (find_first _ _) as [y|] eqn:E.
    + intros [= <- <-]. apply find_first_Some in E as [Hin Hb]. apply bool_decide_eq_true in Hb. split; [|done]. apply elem_of_app. by left.
    + intros [? ?]%IH. split; [|done]. apply elem_of_app. by right.
  - intros [? ?]%IH. split; [|done]. apply elem_of_app. by right.
Qed.

(** The leaders are the hosts with the address of the endpoint. *)
Lemma leader_hosts ep infos : Forall (λ h, Host_IsLeader h = true ↔ Host_Public h = ep) (hosts is_control_host ep infos).
Proof.
  apply Forall_forall. intros h (i & Hi & _)%list_elem_of_bind.
  apply list_elem_of_fmap in Hi as (ni & -> & [Hc _]%list_elem_of_filter). simpl. rewrite Hc. simpl. apply bool_decide_eq_true.
Qed.

Lemma leaders ep infos :
  Host_Public <$> filter (λ h, Host_IsLeader h = true) (hosts is_control_host ep infos) =
  filter (λ p, p = ep) (Host_Public <$> hosts is_control_host ep infos).
Proof.
  induction (leader_hosts ep infos) as [|h l Hh _ IH]; [done|]. rewrite fmap_cons, !filter_cons.
  destruct (decide (Host_IsLeader h = true)) as [H1|H1]; rewrite Hh in H1.
  - by rewrite decide_True, fmap_cons, IH.
  - by rewrite decide_False.
Qed.

Lemma filter_unique (l : list Node) (P : Node → Prop) `{!∀ n, Decision (P n)} n :
  NoDup (Node_Public <$> l) → n ∈ l → P n → filter (λ p, p = Node_Public n) (Node_Public <$> filter P l) = [Node_Public n].
Proof.
  intros Hn Hin HP. induction l as [|x l IH]; [by apply elem_of_nil in Hin|]. rewrite fmap_cons in Hn.
  apply NoDup_cons in Hn as [Hx Hn]. apply elem_of_cons in Hin as [<-|Hin].
  - rewrite filter_cons, decide_True, fmap_cons, filter_cons, decide_True by done. f_equal.
    apply filter_nil_iff. intros p Hp ->. apply Hx. apply list_elem_of_fmap in Hp as (y & -> & [_ Hy]%list_elem_of_filter).
    by apply list_elem_of_fmap_2.
  - rewrite filter_cons. case_decide; [|by apply IH]. rewrite fmap_cons, filter_cons, decide_False; [by apply IH|].
    intros E. apply Hx. rewrite E. by apply list_elem_of_fmap_2.
Qed.

Section manifest.
Context `{KubeOne}.

(** C33: The manifest kubeone is run with describes the cluster.  It has the
    requested version, the nodes that are not workers as the control plane and
    the workers as static workers, each once and in order; the key file of
    every host was written, when the pools are well formed.  The leaders are
    exactly the hosts of the control plane whose public address is the API
    endpoint: without a load balancer that is the address of the endpoint
    node, which is the only leader when public addresses are distinct (nodes
    that share an address all become leaders); with one it is the load
    balancer's endpoint. *)
Theorem kubeone_manifest_correct t k ep k' m :
  generateFiles t k ep = (k', inl m) →
  Ko_Version m = K8s_Kubernetes k ∧
  Host_Public <$> Ko_ControlPlane m = Node_Public <$> filter (λ n, Node_NodeType n ≠ worker) (all_nodes k) ∧
  Host_Public <$> Ko_StaticWorkers m = Node_Public <$> filter (λ n, Node_NodeType n = worker) (all_nodes k) ∧
  (Forall wf_nodepool (K8s_NodePools k) → Forall (has_key_file k') (Ko_ControlPlane m ++ Ko_StaticWorkers m)) ∧
  Forall (λ h, Host_IsLeader h = true ↔ Host_Public h = Ko_ApiEndpoint m) (Ko_ControlPlane m) ∧
  (if bool_decide (ep = "") then
     ∃ np n, FindApiEndpoint (K8s_NodePools k) = Some (np, n) ∧ Ko_ApiEndpoint m = Node_Public n ∧
       (NoDup (Node_Public <$> all_nodes k) →
        Host_Public <$> filter (λ h, Host_IsLeader h = true) (Ko_ControlPlane m) = [Node_Public n])
   else Ko_ApiEndpoint m = ep ∧ Ko_AlternativeNames m = []).
Proof.
  unfold generateFiles, template_data. destruct (getClusterNodes k) as [k1 infos] eqn:Eg. intros [= <- Hm].
  destruct (apiEndpoint_ k1 ep) as [[endpoint ofNode]|] eqn:Ea; [|done].
  destruct (render _) as [m'|] eqn:Er; [|done]. destruct (write_files _ _ _); [done|]. injection Hm as <-.
  unfold render in Er. simpl in Er. destruct (mapM _ _) as [nps|] eqn:Em; [|done]. injection Er as <-. simpl.
  pose proof (ports_only_keys k) as Hkeys. rewrite Eg in Hkeys. simpl in Hkeys.
  unfold getClusterNodes in Eg. injection Eg as <- <-. apply infos_describe in Em.
  assert (Hc : Host_Public <$> hosts is_control_host endpoint nps = Node_Public <$> filter (λ n, Node_NodeType n ≠ worker) (all_nodes k)).
  { apply hosts_public; [|done]. intros i. apply bool_decide_eq_true. }
  split_and!; [done|exact Hc|apply hosts_public; [|done]| |apply leader_hosts|].
  - intros i. unfold is_control_host. case_bool_decide; simpl; split; (done || by intros _; apply dec_stable).
  - intros Hwf. apply Forall_forall. intros h Hh.
    assert (has_key_file k h) as (f & key & Hf & Hh') by (apply elem_of_app in Hh as [Hh|Hh]; by eapply describes_key_files).
    exists f, key. by rewrite Hkeys.
  - unfold apiEndpoint_ in Ea. destruct (decide (ep = "")) as [He|He].
    + rewrite (bool_decide_eq_true_2 (ep = "")) by done. rewrite (bool_decide_eq_false_2 (ep ≠ "")) in Ea by (by intros []).
      change (K8s_NodePools (set_K8s_NodePools k (pool_info (K8s_Id k) <$> K8s_NodePools k).*1))
        with ((pool_info (K8s_Id k) <$> K8s_NodePools k).*1) in Ea.
      destruct (ports_only_endpoint (K8s_Id k) (K8s_NodePools k)) as [[E1 E2]|(np & np' & n & E1 & E2)]; rewrite E1 in Ea; [done|].
      injection Ea as <- <-. exists np, n. split_and!; [done..|]. intros Hnd. rewrite leaders, Hc.
      destruct (FindApiEndpoint_in _ _ _ E2) as [Hin Hty]. apply filter_unique; [done|done|by rewrite Hty].
    + rewrite (bool_decide_eq_false_2 (ep = "")) by done. rewrite (bool_decide_eq_true_2 (ep ≠ "")) in Ea by done. by injection Ea as <- <-.
Qed.

End manifest.

(** ** A reconciled cluster *)

Lemma getClusterNodes_same k k0 : same_cluster k k0 → same_cluster k (fst (getClusterNodes k0)).
Proof. done. Qed.

(** The pools and nodes of a cluster but for the state of the nodes and the ports. *)
Definition shape (k : K8Scluster) : list (string * list (string * string * string * NodeType)) :=
  (λ np, (NodePool_Name np, (λ n, (Node_Name n, Node_Public n, Node_Private n, Node_NodeType n)) <$> NodePool_Nodes np)) <$> K8s_NodePools k.

Lemma getClusterNodes_shape k : shape (fst (getClusterNodes k)) = shape k.
Proof.
  unfold shape, getClusterNodes. simpl. generalize (K8s_Id k) as id. intros id.
  change (K8s_NodePools (set_K8s_NodePools k (pool_info id <$> K8s_NodePools k).*1)) with ((pool_info id <$> K8s_NodePools k).*1).
  induction (K8s_NodePools k) as [|np nps IH]; [done|]. rewrite !fmap_cons, IH. by destruct (pool_info_pool id np) as [p ->].
Qed.

Lemma mark_joined_shape k : shape (mark_joined k) = shape k.
Proof.
  unfold shape, mark_joined.
  change (K8s_NodePools (set_K8s_NodePools k ?l)) with l. rewrite <- list_fmap_compose. apply list_fmap_ext. intros i np _. simpl.
  by rewrite <- list_fmap_compose.
Qed.

Lemma mark_joined_all k n : n ∈ all_nodes (mark_joined k) → Node_Status n = Joined.
Proof.
  intros (np & Hn & Hnp)%list_elem_of_bind. unfold mark_joined in Hnp.
  change (K8s_NodePools (set_K8s_NodePools k ?l)) with l in Hnp. apply list_elem_of_fmap in Hnp as (np0 & -> & _). simpl in Hn.
  by apply list_elem_of_fmap in Hn as (n0 & -> & _).
Qed.

Section replies.
Context `{KubeOne}.

Lemma generateFiles_state t k ep : fst (generateFiles t k ep) = fst (getClusterNodes k).
Proof. unfold generateFiles, template_data. by destruct (getClusterNodes k). Qed.

Lemma BuildCluster_state t k ep :
  ∃ c, fst (BuildCluster t k ep) = set_K8s_Kubeconfig (fst (getClusterNodes k)) c.
Proof.
  unfold BuildCluster. pose proof (generateFiles_state t k ep) as E. destruct (generateFiles t k ep) as [k1 files]. simpl in E. subst k1.
  assert (Hid : ∃ c, fst (getClusterNodes k) = set_K8s_Kubeconfig (fst (getClusterNodes k)) c) by (exists (K8s_Kubeconfig k); done).
  destruct files; [|exact Hid]. destruct (kubeone_apply _ _ _); [exact Hid|].
  destruct (readKubeconfigFromFile _ _); [|exact Hid]. case_bool_decide; [exact Hid|]. simpl. by eexists.
Qed.

Lemma kube_eleven_pass_ok k kind tr tr' : ok k tr → kube_eleven_pass kind tr = Ret tr' → ok k tr'.
Proof.
  intros Hok. destruct kind; simpl.
  - unfold Reconcile. destruct (builds _) as [[s d]|] eqn:Eb; [|by intros [= <-]]. apply builds_state in Eb.
    destruct (ok_state _ _ _ Hok Eb) as [Hk Hl]. intros Hr. bind_inv Hr. apply deref_Ret in Hx. apply Hk in Hx.
    destruct (BuildCluster_state (Tr_Calls tr) (set_K8s_Kubernetes x (requested_version d x)) x0) as [c Ec].
    destruct (BuildCluster _ _ _) as [k' err]. simpl in Ec. subst k'. destruct err; injection Hr as <-.
    + by apply (put_state_ok k tr s); [..|by intros ? [= <-]|].
    + apply commit_update_ok; [|by intros ? [= <-]|apply lbs_of_nil]. by apply (put_state_ok k tr s); [..|by intros ? [= <-]|].
  - unfold Destroy. destruct (Tr_Task tr) as [s|s d|s|] eqn:Et; try by intros [= <-].
    destruct (ok_state k tr s Hok) as [Hk Hl]; [by rewrite Et|]. intros Hr. bind_inv Hr. apply deref_Ret in Hx. apply Hk in Hx.
    assert (Hput : ∀ k', same_cluster k k' → ok k (progressed tr (set_task_state (Tr_Task tr) (mkClusters (Some k') (LoadBalancers s))) 1)).
    { intros k' Hk'. apply (put_state_ok k tr s); [done|by rewrite Et|by intros ? [= <-]|done]. }
    rewrite Et in Hput. simpl in Hput. unfold DestroyCluster in Hr.
    pose proof (generateFiles_state (Tr_Calls tr) x x0) as E. destruct (generateFiles _ _ _) as [k1 files]. simpl in E. subst k1.
    destruct files; injection Hr as <-; [apply commit_update_ok; [by apply Hput|by intros ? [= <-]|apply lbs_of_nil]|by apply Hput].
Qed.

(** A cluster has joined exactly when kubeone succeeded.  When kube-eleven
    reports no error, the manager's state after the reply has the same pools
    and nodes, all nodes joined, the version that was asked for and the load
    balancers as they were; on an error the manager's state is unchanged, so a
    version is upgraded only when kubeone applied it. *)
Lemma reconciled_cluster_joined cancelled te s d k p r :
  builds te = Some (s, d) → K8S s = Some k → task_for k te → delta_resolves te →
  Kind p = RECONCILE_CLUSTER → Level (Description p) = ERROR_FATAL → cancelled 0 = false →
  KubeEleven_ProcessTask cancelled te [p] = Ret r →
  ∃ te' k', consumed te r te' ∧ task_state te' = Some (mkClusters (Some k') (LoadBalancers s)) ∧ shape k' = shape k ∧
    if bool_decide (TaskResult_Error r = None)
    then K8s_Kubernetes k' = requested_version d k ∧ (∀ n, n ∈ all_nodes k' → Node_Status n = Joined)
    else k' = k.
Proof.
  intros Hb Hk Ht Hd Hp Hlev Hc Hr. apply process_one in Hr as (tr & Hr & Er); [|done].
  rewrite Hlev in Er. rewrite Hp in Hr. simpl in Hr. unfold Reconcile in Hr. simpl in Hr. rewrite Hb in Hr. rewrite Hk in Hr.
  cbn [deref bindO] in Hr. bind_inv Hr. destruct (BuildCluster_state 0 (set_K8s_Kubernetes k (requested_version d k)) x) as [c Ec].
  apply builds_state in Hb. destruct (BuildCluster _ _ _) as [k1 err]. simpl in Ec. subst k1. destruct err as [e|]; injection Hr as <-.
  - exists te, k. subst r. split_and!; [done| |done..]. rewrite Hb. rewrite <- Hk. by destruct s.
  - set (k1 := mark_joined _) in *. destruct (kubernetes_consumed te s k r k1) as (te' & Hcon & Hst); [done..|by subst r|done|].
    exists te', k1. split_and!; [done..| |].
    + unfold k1. rewrite mark_joined_shape. exact (getClusterNodes_shape (set_K8s_Kubernetes k (requested_version d k))).
    + subst r. simpl. split; [done|]. apply mark_joined_all.
Qed.

End replies.

(** ** Witnesses *)

(** kubeone that downloads a kubeconfig. *)
Definition sample_kubeone : KubeOne := {|
  write_files := λ _ _ _, None;
  kubeone_apply := λ _ _ _, None;
  kubeone_reset := λ _ _ _ _, None;
  readKubeconfigFromFile := λ _ _, inl "kubeconfig of the cluster" |}.

Definition reconcile_pass : SubPass StageKubeEleven_SubPassKind := mkSubPass RECONCILE_CLUSTER (fatal "building kubernetes cluster").

Lemma kubeone_manifest_correct_witness :
  ∃ k' m, generateFiles (H := sample_kubeone) 0 Samples.k8s "" = (k', inl m) ∧
    Host_Public <$> Ko_StaticWorkers m = ["2.2.2.1"; "2.2.2.2"] ∧
    Host_Public <$> filter (λ h, Host_IsLeader h = true) (Ko_ControlPlane m) = ["1.1.1.1"].
Proof.
  destruct (generateFiles (H := sample_kubeone) 0 Samples.k8s "") as [k' [m|e]] eqn:E; [|exfalso; vm_compute in E; discriminate E].
  destruct (kubeone_manifest_correct (H := sample_kubeone) 0 Samples.k8s "" k' m E) as (_ & _ & Hw & _ & _ & (np & n & Hf & _ & Hl)).
  exists k', m. split_and!; [done|by rewrite Hw|]. rewrite Hl by by_decide. apply (f_equal (fmap snd)) in Hf. vm_compute in Hf. by injection Hf as <-.
Defined.

Lemma reconciled_cluster_joined_witness :
  let te := Task_Update Samples.clusters (Update_UpgradeVersion_ "v1.31.0") in
  ∃ r te' k', KubeEleven_ProcessTask (H := sample_kubeone) never te [reconcile_pass] = Ret r ∧ consumed te r te' ∧
    task_state te' = Some (mkClusters (Some k') [Samples.lb]) ∧ K8s_Kubernetes k' = "v1.31.0".
Proof.
  intros te. destruct (KubeEleven_ProcessTask (H := sample_kubeone) never te [reconcile_pass]) as [r|e|w] eqn:E; [|exfalso; vm_compute in E; discriminate E..].
  assert (Hb : match KubeEleven_ProcessTask (H := sample_kubeone) never te [reconcile_pass] with
               | Ret r => bool_decide (TaskResult_Error r = None) | _ => false end = true) by (vm_compute; reflexivity).
  rewrite E in Hb. simpl in Hb.
  destruct (reconciled_cluster_joined (H := sample_kubeone) never te Samples.clusters (Update_UpgradeVersion_ "v1.31.0") Samples.k8s reconcile_pass r)
    as (te' & k' & Hc & Hs & _ & Hv); [done|done|by apply sample_task_for| |done|done|done|done|].
  - intros s k d [= <-] [= <-] [= <-]. by eexists.
  - rewrite Hb in Hv. destruct Hv as [Hv _]. by exists r, te', k'.
Defined.

End KubeEleven.
