(* ===== verification/Kubectl.v ===== *)
(** * kubectl (internal/kubectl/kubectl.go)

    Commands are run by a shell that is the parameter [Shell]; its answer may
    depend on everything that was run before, so a computation threads the log
    of the commands and their answers (the monad [K]).  Modelled are the
    commands of the kubectl wrapper, their text and their retries; the back-off
    and the log of the retries are in Commands.v. *)

From stdpp Require Import base gmap strings list.
From S2P Require Import Prelude Spec Schedule Commands.
Import Schedule.

(** ** The commands of the wrapper *)

(** The documents passed to [KubectlPatch]; their JSON text is left to
    encoding/json. *)
Inductive PatchBody :=
| ProviderID (id : string)
| JsonPatch (op path : string) (value : option string)
| JsonTaints (taints : list Taint)
| MergeAnnotations (annotations : gmap string string)
| MergeText (text : string).
#[export] Instance PatchBody_eq_dec : EqDecision PatchBody.
Proof. solve_decision. Defined.

Inductive Command :=
| KubectlApply (manifest : string) (options : list string)
| KubectlApplyString (str : string) (options : list string)
| KubectlDeleteManifest (manifest : string) (options : list string)
| KubectlDeleteResource (resource name : string) (options : list string)
| KubectlDeleteString (str : string) (options : list string)
| KubectlTaintNodeShutdown (node : string)
| KubectlTaintRemove (node : string) (t : Taint)
| KubectlTaint (node : string) (t : Taint)
| KubectlNodeHasLabel (node : string)
| KubectlDrain (node : string)
| KubectlDescribe (resource name : string) (options : list string)
| KubectlGet (resource : string) (options : list string)
| KubectlAnnotate (resource name annotation : string) (options : list string)
| KubectlLabel (resource name label : string) (options : list string)
| KubectlGetNodeNames
| KubectlGetEtcdPods (masterNode : string)
| KubectlExecEtcd (pod cmd : string)
| KubectlPatch (resource name : string) (patch : PatchBody) (options : list string)
| KubectlCordon (node : string)
| RolloutRestart (resource : string) (options : list string).
#[export] Instance Command_eq_dec : EqDecision Command.
Proof. solve_decision. Defined.

Inductive Exit := Success | Failed | TimedOut.
#[export] Instance Exit_eq_dec : EqDecision Exit.
Proof. solve_decision. Defined.

(** A command that was run, with its exit and its output. *)
Definition KEvent : Type := Command * (Exit * string).

(** [write_kubeconfig]: the error of writing the temporary kubeconfig;
    [sh]: what a command does after the given commands were run. *)
Class Shell := {
  write_kubeconfig : list KEvent → string → option string;
  sh : list KEvent → Command → Exit * string }.

(** Computations that run commands. *)
Definition K (A : Type) : Type := list KEvent → A * list KEvent.
#[export] Instance K_ret : MRet K := λ A x log, (x, log).
#[export] Instance K_bind : MBind K := λ A B k m log, let '(x, log) := m log in k x log.

(** ** Reasoning about the log

    [seg m Φ]: whatever was run before, the answer of [m] and the commands it
    adds to the log satisfy [Φ]. *)
Definition seg {A} (m : K A) (Φ : A → list KEvent → Prop) : Prop :=
  ∀ log a log', m log = (a, log') → ∃ l, log' = log ++ l ∧ Φ a l.

Lemma seg_ret {A} (x : A) Φ : Φ x [] → seg (mret x) Φ.
Proof. intros Hx log a log' [= <- <-]. exists []. by rewrite app_nil_r. Qed.

Lemma seg_bind {A B} (m : K A) (k : A → K B) Φ Ψ :
  seg m Φ → (∀ a l, Φ a l → seg (k a) (λ b l', Ψ b (l ++ l'))) → seg (m ≫= k) Ψ.
Proof.
  intros Hm Hk log b log' Hb. unfold mbind, K_bind in Hb. destruct (m log) as [a log1] eqn:Ea.
  apply Hm in Ea as (l & -> & Hl). apply (Hk a l Hl) in Hb as (l' & -> & Hl'). exists (l ++ l'). by rewrite app_assoc.
Qed.

Lemma seg_mono {A} (m : K A) (Φ Ψ : A → list KEvent → Prop) : seg m Φ → (∀ a l, Φ a l → Ψ a l) → seg m Ψ.
Proof. intros Hm HΨ log a log' Ha. apply Hm in Ha as (l & -> & Hl). exists l. auto. Qed.

Module Kubectl.

(** ** Running and retrying *)

Section shell.
Context `{Shell}.

Definition exec (cmd : Command) : K (Exit * string) := λ log, let a := sh log cmd in (a, log ++ [(cmd, a)]).

Definition succeeded (a : Exit * string) : bool := bool_decide (a.1 = Success).

Fixpoint retry (n : nat) (err : Exit * string) (cmd : Command) : K (Exit * string) :=
  match n with
  | O => mret err
  | S n => a ← exec cmd; if succeeded a then mret a else retry n a cmd
  end.

Definition RetryCommand (numOfRetries : nat) (cmd : Command) : K (Exit * string) := retry numOfRetries (Success, "") cmd.

(** ** internal/kubectl/kubectl.go *)

Record Kubectl := mkKubectl { Kc_Kubeconfig : string; Kc_MaxKubectlRetries : Z }.

Definition defaultMaxKubectlRetries : Z := 10.
Definition NoRetries : Z := -1.

Definition retryCount (k : Kubectl) : nat :=
  Z.to_nat (if bool_decide (Kc_MaxKubectlRetries k = 0%Z) then defaultMaxKubectlRetries else Kc_MaxKubectlRetries k).

Definition run (k : Kubectl) (cmd : Command) : K (Exit * string) :=
  a ← exec cmd;
  if succeeded a || bool_decide (Kc_MaxKubectlRetries k < 0)%Z then mret a
  else RetryCommand (retryCount k) cmd.

(** The output is dropped when the command fails and is not retried. *)
Definition runWithOutput (k : Kubectl) (cmd : Command) : K (Exit * string) :=
  a ← exec cmd;
  if succeeded a then mret a
  else if bool_decide (Kc_MaxKubectlRetries k < 0)%Z then mret (a.1, "")
  else RetryCommand (retryCount k) cmd.

(** A timeout leaves no time for retries. *)
Definition runWithTimeout (k : Kubectl) (cmd : Command) : K (Exit * string) :=
  a ← exec cmd;
  match a.1 with
  | Success => mret a
  | TimedOut => mret (TimedOut, "")
  | Failed => if bool_decide (Kc_MaxKubectlRetries k < 0)%Z then mret a else RetryCommand (retryCount k) cmd
  end.

(** [getKubeconfig]: the kubeconfig is written to a temporary file first. *)
Definition with_kubeconfig (k : Kubectl) (m : K (Exit * string)) : K (Exit * string) := λ log,
  if bool_decide (Kc_Kubeconfig k = "") then m log
  else match write_kubeconfig log (Kc_Kubeconfig k) with
       | Some e => ((Failed, e), log)
       | None => m log
       end.

(** The commands whose output is returned. *)
Definition has_output (cmd : Command) : bool :=
  match cmd with
  | KubectlNodeHasLabel _ | KubectlGet _ _ | KubectlGetNodeNames | KubectlGetEtcdPods _ | KubectlExecEtcd _ _ => true
  | _ => false
  end.

Definition kubectl (k : Kubectl) (cmd : Command) : K (Exit * string) :=
  with_kubeconfig k (if has_output cmd then runWithOutput k cmd else run k cmd).

Definition KubectlDrainWithTimeout (k : Kubectl) (node : string) : K (Exit * string) :=
  with_kubeconfig k (runWithTimeout k (KubectlDrain node)).

End shell.

(** The text of a command and its options; [arg] is the flag that names the
    kubeconfig. *)
Definition command_format (patch_text : PatchBody → string) (arg : string) (cmd : Command) : list string * list string :=
  match cmd with
  | KubectlApply manifest options => (["kubectl apply -f "; manifest; " "; arg], options)
  | KubectlApplyString str options => (["echo '"; str; "' | kubectl apply -f - "; arg], options)
  | KubectlDeleteManifest manifest options => (["kubectl delete -f "; manifest; " "; arg], options)
  | KubectlDeleteResource resource name options => (["kubectl delete "; resource; " "; name; " "; arg], options)
  | KubectlDeleteString str options => (["echo '"; str; "' | kubectl delete -f - "; arg], options)
  | KubectlTaintNodeShutdown node =>
      (["kubectl taint nodes "; node; " node.kubernetes.io/out-of-service=nodeshutdown:NoExecute --overwrite "; arg], [])
  | KubectlTaintRemove node t =>
      (["kubectl taint nodes "; node; " "; Taint_Key t; "="; Taint_Value t; ":"; Taint_Effect t; "- "; arg], [])
  | KubectlTaint node t =>
      (["kubectl taint nodes "; node; " "; Taint_Key t; "="; Taint_Value t; ":"; Taint_Effect t; " "; arg], [])
  | KubectlNodeHasLabel node => (["kubectl get node "; node; " -o json "; arg], [])
  | KubectlDrain node => (["kubectl drain "; node; " --ignore-daemonsets --delete-emptydir-data "; arg], [])
  | KubectlDescribe resource name options => (["kubectl describe "; resource; " "; name; " "; arg], options)
  | KubectlGet resource options => (["kubectl get "; resource; " "; arg], options)
  | KubectlAnnotate resource name annotation options =>
      (["kubectl annotate "; resource; " "; name; " "; annotation; " "; arg], options)
  | KubectlLabel resource name label options => (["kubectl label "; resource; " "; name; " "; label; " "; arg], options)
  | KubectlGetNodeNames => (["kubectl get nodes --no-headers -o custom-columns="; quoted ":metadata.name"; " "; arg], [])
  | KubectlGetEtcdPods masterNode =>
      (["kubectl "; arg; " get pods -n kube-system --no-headers -o custom-columns="; quoted ":metadata.name"; " | grep etcd-"; masterNode], [])
  | KubectlExecEtcd pod cmd => (["kubectl "; arg; " -n kube-system exec -i "; pod; " -- etcdctl "; cmd], [])
  | KubectlPatch resource name patch options =>
      (["kubectl patch "; resource; " "; name; " -p '"; patch_text patch; "' "; arg], options)
  | KubectlCordon node => (["kubectl cordon "; node; " "; arg], [])
  | RolloutRestart resource options => (["kubectl rollout restart "; resource; " "; arg], options)
  end.

Definition command_text (patch_text : PatchBody → string) (arg : string) (cmd : Command) : string :=
  let '(parts, options) := command_format patch_text arg cmd in String.concat " " (sprintf parts :: options).

(** ** Retries *)

(** The events of running [cmd]. *)
Definition attempts (cmd : Command) (l : list KEvent) : Prop := Forall (λ e, e.1 = cmd) l.

Section runs.
Context `{Shell}.

Lemma retry_log n err cmd log a log' :
  retry n err cmd log = (a, log') →
  ∃ l, log' = log ++ l ∧ attempts cmd l ∧ length l ≤ n ∧
       (n = 0 ∧ a = err ∨ ∃ l1, l = l1 ++ [(cmd, a)] ∧ Forall (λ e, e.2.1 ≠ Success) l1 ∧ (a.1 ≠ Success → length l = n)).
Proof.
  revert err log. induction n as [|n IH]; intros err log; simpl.
  - intros [= <- <-]. exists []. rewrite app_nil_r. split_and!; [done|constructor|done|by left].
  - unfold mbind, K_bind, exec. simpl. destruct (succeeded _) eqn:Es.
    + intros [= <- <-]. exists [(cmd, sh log cmd)]. split_and!; [done|by repeat constructor|simpl; lia|].
      right. exists []. split_and!; [done|constructor|]. apply bool_decide_eq_true in Es. by rewrite Es.
    + apply bool_decide_eq_false in Es. intros (l & -> & Hl & Hn & Hc)%IH. exists ((cmd, sh log cmd) :: l).
      split_and!; [by rewrite <- app_assoc|by constructor|simpl; lia|]. right. destruct Hc as [[-> ->]|(l1 & -> & Hl1 & Ha)].
      * exists []. destruct l; [|simpl in Hn; lia]. by split_and!.
      * exists ((cmd, sh log cmd) :: l1). split_and!; [done|by constructor|]. intros Hna. simpl. by rewrite Ha.
Qed.

(** A command is run until it succeeds, at most [1 + retryCount] times; the
    answer is the one of the last attempt. *)
Lemma runWithOutput_run k cmd log : (0 ≤ Kc_MaxKubectlRetries k)%Z → runWithOutput k cmd log = run k cmd log.
Proof.
  intros Hk. unfold runWithOutput, run, mbind, K_bind, exec. simpl.
  rewrite (bool_decide_eq_false_2 (_ < 0)%Z) by lia. by rewrite orb_false_r.
Qed.

Lemma kubectl_log k cmd log a log' :
  (0 ≤ Kc_MaxKubectlRetries k)%Z → kubectl k cmd log = (a, log') →
  ∃ l, log' = log ++ l ∧ attempts cmd l ∧ length l ≤ S (retryCount k) ∧
       (l = [] ∧ a.1 = Failed ∨ ∃ l1, l = l1 ++ [(cmd, a)] ∧ Forall (λ e, e.2.1 ≠ Success) l1).
Proof.
  intros Hk. unfold kubectl, with_kubeconfig.
  assert (Hrun : run k cmd log = (a, log') → ∃ l, log' = log ++ l ∧ attempts cmd l ∧ length l ≤ S (retryCount k) ∧
    (l = [] ∧ a.1 = Failed ∨ ∃ l1, l = l1 ++ [(cmd, a)] ∧ Forall (λ e, e.2.1 ≠ Success) l1)).
  { unfold run, mbind, K_bind, exec. simpl. rewrite (bool_decide_eq_false_2 (_ < 0)%Z) by lia. rewrite orb_false_r.
    destruct (succeeded _) eqn:Es.
    - intros [= <- <-]. exists [(cmd, sh log cmd)]. split_and!; [done|by repeat constructor|simpl; lia|]. right. by exists [].
    - apply bool_decide_eq_false in Es. intros (l & -> & Hl & Hn & Hc)%retry_log. exists ((cmd, sh log cmd) :: l).
      split_and!; [by rewrite <- app_assoc|by constructor|simpl; lia|]. right. destruct Hc as [[Hz _]|(l1 & -> & Hl1 & _)].
      + exfalso. unfold retryCount in Hz. case_bool_decide; unfold defaultMaxKubectlRetries in *; lia.
      + exists ((cmd, sh log cmd) :: l1). split; [done|by constructor]. }
  assert (Hr : (if has_output cmd then runWithOutput k cmd else run k cmd) log = run k cmd log)
    by (destruct (has_output cmd); [by apply runWithOutput_run|done]).
  rewrite Hr. case_bool_decide; [done|]. destruct (write_kubeconfig _ _); [|done]. intros [= <- <-]. exists [].
  rewrite app_nil_r. split_and!; [done|constructor|simpl; lia|by left].
Qed.

Lemma drain_log k node log a log' :
  (0 ≤ Kc_MaxKubectlRetries k)%Z → KubectlDrainWithTimeout k node log = (a, log') →
  ∃ l, log' = log ++ l ∧ attempts (KubectlDrain node) l ∧ (a.1 ≠ Failed → l ≠ []).
Proof.
  intros Hk. unfold KubectlDrainWithTimeout, with_kubeconfig.
  assert (Hrun : runWithTimeout k (KubectlDrain node) log = (a, log') → ∃ l, log' = log ++ l ∧ attempts (KubectlDrain node) l ∧ (a.1 ≠ Failed → l ≠ [])).
  { unfold runWithTimeout, mbind, K_bind, exec. simpl. rewrite (bool_decide_eq_false_2 (_ < 0)%Z) by lia.
    destruct (sh _ _).1 eqn:Es.
    - intros [= <- <-]. eexists. split_and!; [done|by repeat constructor|done].
    - intros (l & -> & Hl & _ & _)%retry_log. exists ((KubectlDrain node, sh log (KubectlDrain node)) :: l).
      split_and!; [by rewrite <- app_assoc|by constructor|done].
    - intros [= <- <-]. eexists. split_and!; [done|by repeat constructor|done]. }
  case_bool_decide; [done|]. destruct (write_kubeconfig _ _); [|done]. intros [= <- <-]. exists [].
  rewrite app_nil_r. split_and!; [done|constructor|done].
Qed.

(** What running [cmd] adds to the log. *)
Definition ran (cmd : Command) (a : Exit * string) (l : list KEvent) : Prop :=
  attempts cmd l ∧ (a.1 = Success → (cmd, a) ∈ l).

Lemma seg_kubectl k cmd : (0 ≤ Kc_MaxKubectlRetries k)%Z → seg (kubectl k cmd) (ran cmd).
Proof.
  intros Hk log a log' (l & -> & Hl & _ & Hc)%kubectl_log; [|done]. exists l. split; [done|]. split; [done|]. intros Ha.
  destruct Hc as [[_ E]|(l1 & -> & _)]; [congruence|]. apply elem_of_app. right. by left.
Qed.

Lemma seg_drain k node :
  (0 ≤ Kc_MaxKubectlRetries k)%Z →
  seg (KubectlDrainWithTimeout k node) (λ a l, attempts (KubectlDrain node) l ∧ (a.1 ≠ Failed → l ≠ [])).
Proof. intros Hk log a log' (l & -> & Hl & Hc)%drain_log; [|done]. by exists l. Qed.

End runs.

End Kubectl.
