(* ===== verification/NodeDeletion.v ===== *)
(** * Removing nodes from a cluster
    (services/kuber/internal/worker/service/internal/nodes/delete.go, pvc_replication_utils.go)

    The nodes are removed one after the other: unless the operator locked the
    node, it is cordoned, drained, taken out of etcd when it is a control node,
    and deleted.  Decoding the JSON and YAML that kubectl prints, and the sockets of the pings,
    is the parameter [NodeTools]. *)

From Stdlib Require Import Ascii.
From stdpp Require Import base gmap strings list.
From S2P Require Import Prelude Spec SpecUtils Samples NodePools Schedule Cidr Ping Health Kubectl.
Import NodePools Schedule Cidr Ping Health Kubectl.

Record LonghornReplica := mkLonghornReplica {
  Replica_Name : string;
  Replica_InstanceManagerName : string;
  Replica_CurrentState : string;
  Replica_Started : bool;
  Replica_NodeID : string;
  Replica_FailedAt : string }.

(** The labels of a node, the members (id, name) of etcd and the replicas of
    longhorn in what kubectl printed; the sockets of the pings. *)
Class NodeTools := {
  node_icmp : list KEvent → Icmp;
  labels_of : string → option (gmap string string);
  members_of : string → option (list (string * string));
  replicas_of : string → option (list LonghornReplica) }.

Module NodeDeletion.

Definition longhornNamespace : string := "longhorn-system".
Definition upgradeLockLabelKey : string := "claudie.io/upgrade-lock".

Record nodeInfo := mkNodeInfo_ { fullname : string; k8sName : string; publicEndpoint : string }.

Record Deleter := mkDeleter {
  masterNodes : list nodeInfo;
  workerNodes : list nodeInfo;
  D_kubeconfig : string;
  clusterPrefix : string;
  controlNode : string }.

Definition node_info (clusterID : string) (n : Node) : nodeInfo :=
  mkNodeInfo_ (Node_Name n) (stripped clusterID (Node_Name n)) (Node_Public n).

(** The loop over the pools goes on after a pool had a remaining node. *)
Definition remaining (deleteMaster : list Node) (nps : list NodePool) : string :=
  foldl (λ notDeleted np,
    match find_first (λ n, negb (contains (Node_Name <$> deleteMaster) (Node_Name n))) (NodePool_Nodes np) with
    | Some n => Node_Name n
    | None => notDeleted
    end) "" (Control nps).

Definition NewDeleter (deleteMaster deleteWorker : list Node) (cluster : K8Scluster) : Deleter + string :=
  let notDeleted := remaining deleteMaster (K8s_NodePools cluster) in
  if bool_decide (notDeleted = "") then inr "no control nodes, will remain after the deletion, invalid state"
  else inl (mkDeleter (node_info (K8s_Id cluster) <$> deleteMaster) (node_info (K8s_Id cluster) <$> deleteWorker)
              (K8s_Kubeconfig cluster) (K8s_Id cluster) (stripped (K8s_Id cluster) notDeleted)).

(** The non-empty lines of an output. *)
Definition lines (out : string) : list string :=
  filter (λ l, l ≠ "") (trim is_space <$> split_on (Ascii.ascii_of_nat 10) out).

Section deletion.
Context `{Shell} `{NodeTools}.
Variable kc : Kubectl.

(** ** pvc_replication_utils.go *)

Definition disableDiskScheduling (node : string) : K (Exit * string) :=
  kubectl kc (KubectlPatch "nodes.longhorn.io" node (MergeText (sprintf ["{"; quoted "spec"; ":{"; quoted "allowScheduling"; ":false}}"]))
                ["--type=merge"; "-n"; longhornNamespace]).

Definition unused_replica (node : string) (r : LonghornReplica) : bool :=
  bool_decide (Replica_NodeID r = node) && bool_decide (Replica_CurrentState r = "stopped") && negb (Replica_Started r) &&
  bool_decide (Replica_InstanceManagerName r = "") && bool_decide (Replica_FailedAt r ≠ "").

Fixpoint delete_replicas (rs : list LonghornReplica) : K unit :=
  match rs with
  | [] => mret ()
  | r :: rs => kubectl kc (KubectlDeleteResource "replicas.longhorn.io" (Replica_Name r) ["-n"; longhornNamespace]) ≫= λ _, delete_replicas rs
  end.

(** Its error is only logged. *)
Definition removeReplicasOnDeletedNode (node : string) : K unit :=
  a ← kubectl kc (KubectlGet "replicas.longhorn.io" ["-n"; longhornNamespace; "-o"; "yaml"]);
  if succeeded a then
    match replicas_of a.2 with
    | None => mret ()
    | Some rs => delete_replicas (filter (λ r, unused_replica node r = true) rs)
    end
  else mret ().

(** ** etcd *)

Definition getEtcdPodNames (masterNodeName : string) : K (list string + string) :=
  a ← kubectl kc (KubectlGetEtcdPods masterNodeName);
  mret (if succeeded a then match lines a.2 with [] => inr "no etcd pods found in cluster" | ls => inl ls end
        else inr "cannot find etcd pods in cluster with master node").

Definition member_list : string := "member list -w json --hex=true".
Definition member_remove (id : string) : string := String.append "member remove " id.

Definition getEtcdMembers (etcdPod : string) : K (list (string * string) + string) :=
  a ← kubectl kc (KubectlExecEtcd etcdPod member_list);
  mret (if succeeded a then match members_of a.2 with Some ms => inl ms | None => inr "failed to unmarshal etcd member list output" end
        else inr "cannot find etcd members in cluster with etcd pod").

Definition member_of (k8snode : string) (ms : list (string * string)) : option (string * string) :=
  find_first (λ m, bool_decide (k8snode = m.2)) ms.

Definition deleteFromEtcd (d : Deleter) (k8snode : string) : K (option string) :=
  pods ← getEtcdPodNames (controlNode d);
  match pods with
  | inr e => mret (Some e)
  | inl [] => mret (Some "no etcd pods found in cluster")
  | inl (pod :: _) =>
      ms ← getEtcdMembers pod;
      match ms with
      | inr e => mret (Some e)
      | inl ms =>
          match member_of k8snode ms with
          | None => mret None
          | Some m =>
              a ← kubectl kc (KubectlExecEtcd pod (member_remove m.1));
              mret (if succeeded a then None else Some "error while executing etcdctl member remove")
          end
      end
  end.

(** ** Nodes *)

Definition deleteNodesByName (node : nodeInfo) (realNodeNames : list string) : K (option string) :=
  if contains realNodeNames (k8sName node) then
    a ← kubectl kc (KubectlDeleteResource "nodes" (k8sName node) []);
    mret (if succeeded a then None else Some "error while deleting node from cluster")
  else mret None.

(** The node is locked, too, when its labels cannot be read. *)
Definition has_lock (node : string) : K bool :=
  a ← kubectl kc (KubectlNodeHasLabel node);
  mret (if succeeded a then
          match labels_of a.2 with Some m => bool_decide (is_Some (m !! upgradeLockLabelKey)) | None => true end
        else true).

Definition UnreachableNodesPingCount : nat := PingRetryCount + 3.

Definition shut_down (node : nodeInfo) : K unit := λ log,
  match Ping (H := node_icmp log) UnreachableNodesPingCount (publicEndpoint node) with
  | Some ErrEchoTimeout => (kubectl kc (KubectlTaintNodeShutdown (k8sName node)) ≫= λ _, mret ()) log
  | _ => ((), log)
  end.

(** What one node adds: errors, and whether it was skipped because of a lock;
    or an error that ends the deletion. *)
Inductive step := Next (errs : list string) (locked : bool) | Stop (err : string).

Definition delete_master (d : Deleter) (k8snodes : list string) (node : nodeInfo) : K step :=
  if negb (contains k8snodes (k8sName node)) then mret (Next [] false)
  else
    locked ← has_lock (k8sName node);
    if locked : bool then mret (Next [] true)
    else
      shut_down node ≫= λ _,
      c ← kubectl kc (KubectlCordon (k8sName node));
      if negb (succeeded c) then mret (Next ["error while cordon master node from cluster"] false)
      else
        dr ← KubectlDrainWithTimeout kc (k8sName node);
        if bool_decide (dr.1 = Failed) then mret (Stop "error while draining node from cluster")
        else
          e ← deleteFromEtcd d (k8sName node);
          match e with
          | Some e => mret (Stop e)
          | None =>
              e ← deleteNodesByName node k8snodes;
              mret (match e with Some e => Stop e | None => Next [] false end)
          end.

Definition delete_worker (k8snodes : list string) (node : nodeInfo) : K step :=
  if negb (contains k8snodes (k8sName node)) then mret (Next [] false)
  else
    locked ← has_lock (k8sName node);
    if locked : bool then mret (Next [] true)
    else
      shut_down node ≫= λ _,
      disableDiskScheduling (k8sName node) ≫= λ _,
      c ← kubectl kc (KubectlCordon (k8sName node));
      if negb (succeeded c) then mret (Next ["error while cordon worker node from cluster"] false)
      else
        dr ← KubectlDrainWithTimeout kc (k8sName node);
        if bool_decide (dr.1 = Failed) then mret (Stop "error while draining node from cluster")
        else
          e ← deleteNodesByName node k8snodes;
          match e with
          | Some e => mret (Next [e] false)
          | None => removeReplicasOnDeletedNode (k8sName node) ≫= λ _, mret (Next [] false)
          end.

Fixpoint each (f : nodeInfo → K step) (nodes : list nodeInfo) (errs : list string) (locked : bool) : K step :=
  match nodes with
  | [] => mret (Next errs locked)
  | n :: nodes =>
      s ← f n;
      match s with
      | Stop e => mret (Stop e)
      | Next es l => each f nodes (errs ++ es) (locked || l)
      end
  end.

Definition ErrUpgradeLocked : string := "nodes with claudie.io/upgrade-lock label skipped, waiting for operator to remove label".

(** The joined errors, [[]] when there is none. *)
Definition DeleteNodes (d : Deleter) : K (list string) :=
  a ← kubectl kc KubectlGetNodeNames;
  if negb (succeeded a) then mret ["error while getting nodes from cluster"]
  else
    let k8snodes := lines a.2 in
    s ← each (delete_master d k8snodes) (masterNodes d) [] false;
    match s with
    | Stop e => mret [e]
    | Next errs locked =>
        s ← each (delete_worker k8snodes) (workerNodes d) errs locked;
        mret (match s with
              | Stop e => [e]
              | Next errs locked => errs ++ (if locked : bool then [ErrUpgradeLocked] else [])
              end)
    end.

End deletion.

(** ** The protocol of a deletion *)

(** The node a command changes. *)
Definition touched (c : Command) : option string :=
  match c with
  | KubectlTaintNodeShutdown n | KubectlCordon n | KubectlDrain n | KubectlPatch _ n _ _ => Some n
  | KubectlDeleteResource resource n _ => if bool_decide (resource = "nodes") then Some n else None
  | _ => None
  end.

Section protocol.
Context `{Shell} `{NodeTools}.

(** The labels of the node were read and it is not locked. *)
Definition unlocked (n : string) (e : KEvent) : Prop :=
  ∃ out m, e = (KubectlNodeHasLabel n, (Success, out)) ∧ labels_of out = Some m ∧ m !! upgradeLockLabelKey = None.

Definition cordoned (n : string) (e : KEvent) : Prop := ∃ out, e = (KubectlCordon n, (Success, out)).

(** A member of etcd with that name was removed, when there was one. *)
Definition etcd_gone (n : string) (l : list KEvent) : Prop :=
  ∃ pod out ms, (KubectlExecEtcd pod member_list, (Success, out)) ∈ l ∧ members_of out = Some ms ∧
    ∀ m, member_of n ms = Some m → ∃ out', (KubectlExecEtcd pod (member_remove m.1), (Success, out')) ∈ l.

(** Cordoned, then drained, then taken out of etcd. *)
Definition prepared (control : Prop) (n : string) (pre : list KEvent) : Prop :=
  ∃ a b c, pre = a ++ b ++ c ∧ Exists (cordoned n) a ∧ Exists (λ e, e.1 = KubectlDrain n) b ∧ (control → etcd_gone n c).

(** A change of the node [n] after [pre]. *)
Definition change_ok (control : Prop) (n : string) (pre : list KEvent) (e : KEvent) : Prop :=
  Exists (unlocked n) pre ∧ (e.1 = KubectlDeleteResource "nodes" n [] → prepared control n pre).

(** Every change in [l] is one of the node [n] and in order. *)
Definition orderly (control : Prop) (n : string) (l : list KEvent) : Prop :=
  ∀ pre e post n', l = pre ++ e :: post → touched e.1 = Some n' → n' = n ∧ change_ok control n pre e.

Definition deleted (n : string) (l : list KEvent) : Prop := ∃ out, (KubectlDeleteResource "nodes" n [], (Success, out)) ∈ l.

Lemma etcd_gone_mono n l l' : l ⊆ l' → etcd_gone n l → etcd_gone n l'.
Proof.
  intros Hs (pod & out & ms & Hin & Hm & Hr). exists pod, out, ms. split_and!; [by apply Hs|done|].
  intros m Hmem. destruct (Hr m Hmem) as [out' Hout]. exists out'. by apply Hs.
Qed.

Lemma change_ok_mono control (control' : Prop) n x pre y e :
  (control' → control) → change_ok control n pre e → change_ok control' n (x ++ pre ++ y) e.
Proof.
  intros Hc [Hu Hp]. split; [by apply Exists_app; right; apply Exists_app; left|].
  intros He. destruct (Hp He) as (a & b & c & -> & Ha & Hb & Hgone). exists (x ++ a), b, (c ++ y).
  split_and!; [by rewrite <- !app_assoc|by apply Exists_app; right|done|].
  intros ?%Hc%Hgone. eapply etcd_gone_mono; [|done]. set_solver.
Qed.

Lemma app_cons_split {A} (l1 l2 pre post : list A) e :
  l1 ++ l2 = pre ++ e :: post → (∃ q, l1 = pre ++ e :: q) ∨ (∃ p, pre = l1 ++ p ∧ l2 = p ++ e :: post).
Proof.
  intros [(k & -> & Hk)|(k & -> & ->)]%app_eq_inv; [|right; by exists k].
  destruct k as [|x k]; simpl in Hk; [right; exists []; by rewrite !app_nil_r|]. injection Hk as <- ->. left. by exists k.
Qed.

(** Commands that change no node. *)
Definition harmless (l : list KEvent) : Prop := Forall (λ e, touched e.1 = None) l.

Lemma harmless_attempts cmd l : attempts cmd l → touched cmd = None → harmless l.
Proof. intros Ha Hc. eapply Forall_impl; [exact Ha|]. by intros e ->. Qed.

(** Nothing changes before the lock was read. *)
Lemma orderly_guarded (control : Prop) n l0 l1 l2 :
  harmless l0 → Exists (unlocked n) l0 →
  Forall (λ e, touched e.1 = None ∨ touched e.1 = Some n ∧ e.1 ≠ KubectlDeleteResource "nodes" n []) l1 →
  Forall (λ e, touched e.1 = None ∨ touched e.1 = Some n) l2 → (l2 = [] ∨ prepared control n l1) →
  orderly control n (l0 ++ l1 ++ l2).
Proof.
  intros Hh Hu H1 H2 Hp pre e post n' Hl Ht. apply app_cons_split in Hl as [[q ->]|(p & -> & Hl)].
  { apply Forall_app in Hh as [_ [Hh _]%Forall_cons]. congruence. }
  assert (Hu' : Exists (unlocked n) (l0 ++ p)) by (apply Exists_app; by left).
  apply app_cons_split in Hl as [[q ->]|(p' & -> & ->)].
  - apply Forall_app in H1 as [_ [H1 _]%Forall_cons]. destruct H1 as [?|[He Hne]]; [congruence|].
    rewrite He in Ht. injection Ht as <-. split; [done|]. by split.
  - apply Forall_app in H2 as [_ [H2 _]%Forall_cons]. destruct H2 as [?|He]; [congruence|].
    rewrite He in Ht. injection Ht as <-. split; [done|]. split; [done|]. intros _.
    destruct Hp as [Hnil|(a & b & c & -> & Ha & Hb & Hc)]; [by destruct p'|].
    exists (l0 ++ a), b, (c ++ p'). split_and!; [by rewrite <- !app_assoc|by apply Exists_app; right|done|].
    intros ?%Hc. eapply etcd_gone_mono; [|done]. set_solver.
Qed.

Lemma orderly_harmless control n l : harmless l → orderly control n l.
Proof.
  intros Hh pre e post n' -> Ht. apply Forall_app in Hh as [_ [Hh _]%Forall_cons]. congruence.
Qed.

End protocol.

(** *** The steps *)

Section steps.
Context `{Shell} `{NodeTools}.
Variable kc : Kubectl.
Hypothesis Hkc : (0 ≤ Kc_MaxKubectlRetries kc)%Z.

Lemma seg_has_lock n :
  seg (has_lock kc n) (λ b l, attempts (KubectlNodeHasLabel n) l ∧ (b = false → Exists (unlocked n) l)).
Proof.
  eapply seg_bind; [by apply seg_kubectl|]. intros [x out] l [Hl Ha]. apply seg_ret. rewrite app_nil_r. split; [done|].
  unfold succeeded. case_bool_decide as Hs; [|done]. simpl in *. subst x. destruct (labels_of out) as [m|] eqn:Em; [|done].
  intros Hb%bool_decide_eq_false. apply Exists_exists. exists (KubectlNodeHasLabel n, (Success, out)). split; [by apply Ha|].
  exists out, m. split_and!; [done..|]. by apply eq_None_not_Some.
Qed.

Lemma seg_shut_down node : seg (shut_down kc node) (λ _ l, attempts (KubectlTaintNodeShutdown (k8sName node)) l).
Proof.
  intros log a log'. unfold shut_down. destruct (Ping _ _) as [[]|];
    [|intros [= <- <-]; exists []; rewrite app_nil_r; split; [done|constructor]..].
  assert (Hs : seg (kubectl kc (KubectlTaintNodeShutdown (k8sName node)) ≫= λ _, mret ()) (λ _ l, attempts (KubectlTaintNodeShutdown (k8sName node)) l)).
  { eapply seg_bind; [by apply seg_kubectl|]. intros a0 l [Hl _]. apply seg_ret. by rewrite app_nil_r. }
  apply Hs.
Qed.

Lemma seg_delete node names :
  contains names (k8sName node) = true →
  seg (deleteNodesByName kc node names)
    (λ e l, attempts (KubectlDeleteResource "nodes" (k8sName node) []) l ∧ (e = None → deleted (k8sName node) l)).
Proof.
  intros Hc. unfold deleteNodesByName. rewrite Hc. eapply seg_bind; [by apply seg_kubectl|]. intros [x out] l [Hl Ha].
  apply seg_ret. rewrite app_nil_r. split; [done|]. unfold succeeded. case_bool_decide as Hs; [|done]. simpl in *. subst x.
  intros _. exists out. by apply Ha.
Qed.

Lemma seg_etcd d n : seg (deleteFromEtcd kc d n) (λ e l, harmless l ∧ (e = None → etcd_gone n l)).
Proof.
  unfold deleteFromEtcd, getEtcdPodNames, getEtcdMembers.
  eapply seg_bind.
  { eapply seg_bind; [by apply seg_kubectl|]. intros a l [Hl _]. apply seg_ret with (Φ := λ _ l', harmless (l ++ l')).
    rewrite app_nil_r. exact (harmless_attempts _ _ Hl eq_refl). }
  intros [[|pod pods]|e] l1 H1; [apply seg_ret; rewrite app_nil_r; by split| |apply seg_ret; rewrite app_nil_r; by split].
  eapply (seg_bind _ _ (λ ms l, harmless l ∧ ∀ x, ms = inl x → ∃ out, (KubectlExecEtcd pod member_list, (Success, out)) ∈ l ∧ members_of out = Some x)).
  { eapply seg_bind; [by apply seg_kubectl|]. intros [x out] l [Hl Ha]. apply seg_ret. rewrite app_nil_r.
    split; [exact (harmless_attempts _ _ Hl eq_refl)|]. intros ms. unfold succeeded. case_bool_decide as Hs; [|done]. simpl in *. subst x.
    destruct (members_of out) eqn:Em; [|done]. intros [= <-]. exists out. split; [by apply Ha|done]. }
  intros [ms|e] l2 [H2 Hm]; [|apply seg_ret; split; [by rewrite app_nil_r; apply Forall_app|done]].
  destruct (Hm ms eq_refl) as (out & Hout & Ems). destruct (member_of n ms) as [m|] eqn:Emem.
  - eapply seg_bind; [by apply seg_kubectl|]. intros [x out'] l3 [H3 Ha]. apply seg_ret. rewrite app_nil_r.
    split; [repeat apply Forall_app_2; [done|done|exact (harmless_attempts _ _ H3 eq_refl)]|].
    unfold succeeded. case_bool_decide as Hs; [|done]. simpl in *. subst x. intros _.
    exists pod, out, ms. split_and!; [set_solver|done|]. intros m'. rewrite Emem. intros [= <-]. exists out'. specialize (Ha eq_refl). set_solver.
  - apply seg_ret. rewrite app_nil_r. split; [by apply Forall_app|]. intros _. exists pod, out, ms. split_and!; [set_solver|done|].
    intros m'. by rewrite Emem.
Qed.

Lemma seg_delete_replicas rs : seg (delete_replicas kc rs) (λ _ l, harmless l).
Proof.
  induction rs as [|r rs IH]; [apply seg_ret; constructor|]. simpl. eapply seg_bind; [by apply seg_kubectl|].
  intros a l [Hl _]. eapply seg_mono; [apply IH|]. intros u l' Hl'. apply Forall_app.
  split; [exact (harmless_attempts _ _ Hl eq_refl)|done].
Qed.

Lemma seg_replicas n : seg (removeReplicasOnDeletedNode kc n) (λ _ l, harmless l).
Proof.
  eapply seg_bind; [by apply seg_kubectl|]. intros a l [Hl _]. apply harmless_attempts in Hl; [|done].
  destruct (succeeded a); [|apply seg_ret; by rewrite app_nil_r]. destruct (replicas_of _) as [rs|]; [|apply seg_ret; by rewrite app_nil_r].
  eapply seg_mono; [apply seg_delete_replicas|]. intros u l' Hl'. by apply Forall_app.
Qed.

End steps.

(** *** A node *)

(** What the deletion of one node adds to the log. *)
Definition node_step `{NodeTools} (control : Prop) (names : list string) (n : string) (s : step) (l : list KEvent) : Prop :=
  orderly control n l ∧ (s = Next [] false → n ∈ names → deleted n l).

Lemma touched_attempts n cmd l :
  attempts cmd l → touched cmd = Some n → cmd ≠ KubectlDeleteResource "nodes" n [] →
  Forall (λ e, touched e.1 = None ∨ touched e.1 = Some n ∧ e.1 ≠ KubectlDeleteResource "nodes" n []) l.
Proof. intros Ha Ht Hn. eapply Forall_impl; [exact Ha|]. intros e ->. by right. Qed.

Lemma harmless_weaken n l :
  harmless l → Forall (λ e, touched e.1 = None ∨ touched e.1 = Some n ∧ e.1 ≠ KubectlDeleteResource "nodes" n []) l.
Proof. intros Hl. eapply Forall_impl; [exact Hl|]. by left. Qed.

Lemma deleted_attempts n l :
  attempts (KubectlDeleteResource "nodes" n []) l → Forall (λ e, touched e.1 = None ∨ touched e.1 = Some n) l.
Proof. intros Ha. eapply Forall_impl; [exact Ha|]. intros e ->. right. done. Qed.

Lemma Exists_drain n l : attempts (KubectlDrain n) l → l ≠ [] → Exists (λ e, e.1 = KubectlDrain n) l.
Proof. destruct 1; [done|]. intros _. by left. Qed.

Section node.
Context `{Shell} `{NodeTools}.
Variable kc : Kubectl.
Hypothesis Hkc : (0 ≤ Kc_MaxKubectlRetries kc)%Z.

(** A node that is not part of the cluster, or is locked, is left alone. *)
Lemma seg_master d names node : seg (delete_master kc d names node) (node_step True names (k8sName node)).
Proof.
  unfold delete_master. set (n := k8sName node). destruct (contains names n) eqn:Hc; simpl.
  2: { apply seg_ret. split; [by apply orderly_harmless; constructor|]. intros _ Hin. by rewrite <- contains_spec, Hc in Hin. }
  eapply seg_bind; [by apply seg_has_lock|]. intros locked l0 [Hl0 Hu]. apply harmless_attempts in Hl0; [|done].
  destruct locked. { apply seg_ret. rewrite app_nil_r. split; [by apply orderly_harmless|done]. } specialize (Hu eq_refl).
  assert (Hg : ∀ l1, Forall (λ e, touched e.1 = None ∨ touched e.1 = Some n ∧ e.1 ≠ KubectlDeleteResource "nodes" n []) l1 →
                     orderly True n (l0 ++ l1)).
  { intros l1 Hl1. rewrite <- (app_nil_r l1). apply orderly_guarded; [done..|constructor|by left]. }
  eapply seg_bind; [by apply seg_shut_down|]. intros u1 l1 Hl1. apply (touched_attempts n) in Hl1; [|done..].
  eapply seg_bind; [by apply seg_kubectl|]. intros c l2 [Hl2 Hc2]. apply (touched_attempts n) in Hl2; [|done..].
  destruct (succeeded c) eqn:Es; simpl.
  2: { apply seg_ret. rewrite app_nil_r. split; [|done]. apply Hg. by apply Forall_app. }
  apply bool_decide_eq_true in Es. specialize (Hc2 Es).
  eapply seg_bind; [by apply seg_drain|]. intros dr l3 [Hl3 Hd]. pose proof (touched_attempts n _ _ Hl3 eq_refl ltac:(done)) as Hl3'.
  case_bool_decide as Hf.
  { apply seg_ret. rewrite app_nil_r. split; [|done]. apply Hg. by repeat apply Forall_app_2. }
  apply Exists_drain in Hl3; [|by apply Hd].
  eapply seg_bind; [by apply seg_etcd|]. intros e l4 [Hl4 He]. apply (harmless_weaken n) in Hl4. destruct e as [e|].
  { apply seg_ret. rewrite app_nil_r. split; [|done]. apply Hg. by repeat apply Forall_app_2. }
  eapply seg_bind; [by apply seg_delete|]. intros e l5 [Hl5 Hdel]. apply deleted_attempts in Hl5.
  apply seg_ret. rewrite app_nil_r. split.
  - rewrite !(app_assoc l1), !(app_assoc _ l3), !(app_assoc _ l4). apply orderly_guarded; [done|done|by repeat apply Forall_app_2|done|].
    right. exists (l1 ++ l2), l3, l4. split_and!; [by rewrite <- !app_assoc| |done|auto].
    apply Exists_app. right. apply Exists_exists. exists (KubectlCordon n, c). split; [done|]. destruct c as [x o]. simpl in Es. subst x. by exists o.
  - destruct e; [done|]. intros _ _. destruct (Hdel eq_refl) as [out Hout]. exists out. set_solver.
Qed.

Lemma seg_worker names node : seg (delete_worker kc names node) (node_step False names (k8sName node)).
Proof.
  unfold delete_worker. set (n := k8sName node). destruct (contains names n) eqn:Hc; simpl.
  2: { apply seg_ret. split; [by apply orderly_harmless; constructor|]. intros _ Hin. by rewrite <- contains_spec, Hc in Hin. }
  eapply seg_bind; [by apply seg_has_lock|]. intros locked l0 [Hl0 Hu]. apply harmless_attempts in Hl0; [|done].
  destruct locked. { apply seg_ret. rewrite app_nil_r. split; [by apply orderly_harmless|done]. } specialize (Hu eq_refl).
  assert (Hg : ∀ l1, Forall (λ e, touched e.1 = None ∨ touched e.1 = Some n ∧ e.1 ≠ KubectlDeleteResource "nodes" n []) l1 →
                     orderly False n (l0 ++ l1)).
  { intros l1 Hl1. rewrite <- (app_nil_r l1). apply orderly_guarded; [done..|constructor|by left]. }
  eapply seg_bind; [by apply seg_shut_down|]. intros u1 l1 Hl1. apply (touched_attempts n) in Hl1; [|done..].
  eapply seg_bind; [by apply seg_kubectl|]. intros up lp [Hlp _]. apply (touched_attempts n) in Hlp; [|done..].
  eapply seg_bind; [by apply seg_kubectl|]. intros c l2 [Hl2 Hc2]. apply (touched_attempts n) in Hl2; [|done..].
  destruct (succeeded c) eqn:Es; simpl.
  2: { apply seg_ret. rewrite app_nil_r. split; [|done]. apply Hg. by repeat apply Forall_app_2. }
  apply bool_decide_eq_true in Es. specialize (Hc2 Es).
  eapply seg_bind; [by apply seg_drain|]. intros dr l3 [Hl3 Hd]. pose proof (touched_attempts n _ _ Hl3 eq_refl ltac:(done)) as Hl3'.
  case_bool_decide as Hf.
  { apply seg_ret. rewrite app_nil_r. split; [|done]. apply Hg. by repeat apply Forall_app_2. }
  apply Exists_drain in Hl3; [|by apply Hd].
  assert (Hpre : prepared False n (l1 ++ lp ++ l2 ++ l3)).
  { exists (l1 ++ lp ++ l2), l3, []. split_and!; [by rewrite app_nil_r, <- !app_assoc| |done|done]. rewrite !Exists_app. do 2 right.
    apply Exists_exists. exists (KubectlCordon n, c). split; [done|]. destruct c as [x o]. simpl in Es. subst x. by exists o. }
  eapply seg_bind; [by apply seg_delete|]. intros e l5 [Hl5 Hdel]. apply deleted_attempts in Hl5.
  assert (Hend : ∀ l6, Forall (λ e, touched e.1 = None ∨ touched e.1 = Some n) l6 → orderly False n (l0 ++ l1 ++ lp ++ l2 ++ l3 ++ l6)).
  { intros l6 Hl6. replace (l1 ++ lp ++ l2 ++ l3 ++ l6) with ((l1 ++ lp ++ l2 ++ l3) ++ l6) by (by rewrite <- !app_assoc). apply orderly_guarded; [done|done|by repeat apply Forall_app_2|done|by right]. }
  destruct e as [e|].
  - apply seg_ret. rewrite app_nil_r. split; [|done]. by apply Hend.
  - eapply seg_bind; [by apply seg_replicas|]. intros u6 l6 Hl6. apply seg_ret. rewrite app_nil_r. split.
    + apply Hend. apply Forall_app_2; [done|]. eapply Forall_impl; [exact Hl6|]. by left.
    + intros _ _. destruct (Hdel eq_refl) as [out Hout]. exists out. set_solver.
Qed.

End node.

(** *** All nodes *)

(** Every change in [l] is one of [requested], and in order. *)
Definition changes_ok `{NodeTools} (control : string → Prop) (requested : list string) (l : list KEvent) : Prop :=
  ∀ pre e post n, l = pre ++ e :: post → touched e.1 = Some n → n ∈ requested ∧ change_ok (control n) n pre e.

Lemma changes_ok_app `{NodeTools} control r1 r2 r l1 l2 :
  r1 ⊆ r → r2 ⊆ r → changes_ok control r1 l1 → changes_ok control r2 l2 → changes_ok control r (l1 ++ l2).
Proof.
  intros Hr1 Hr2 Hl1 Hl2 pre e post n Hl Ht. apply app_cons_split in Hl as [[q ->]|(p & -> & ->)].
  - destruct (Hl1 _ _ _ _ eq_refl Ht) as [Hin Hok]. split; [by apply Hr1|done].
  - destruct (Hl2 _ _ _ _ eq_refl Ht) as [Hin Hok]. split; [by apply Hr2|]. rewrite <- (app_nil_r p). by eapply change_ok_mono.
Qed.

Lemma deleted_app n l1 l2 : deleted n l1 ∨ deleted n l2 → deleted n (l1 ++ l2).
Proof. unfold deleted. intros [[out Ho]|[out Ho]]; exists out; set_solver. Qed.

Section all.
Context `{Shell} `{NodeTools}.

Lemma seg_each f (control : Prop) names nodes errs locked :
  (∀ node, seg (f node) (node_step control names (k8sName node))) →
  seg (each f nodes errs locked)
    (λ s l, changes_ok (λ _, control) (k8sName <$> nodes) l ∧
       (s = Next [] false → errs = [] ∧ locked = false ∧ ∀ n, n ∈ k8sName <$> nodes → n ∈ names → deleted n l)).
Proof.
  intros Hf. revert errs locked. induction nodes as [|node nodes IH]; intros errs locked; simpl.
  - apply seg_ret. split; [intros [] e post n; discriminate|]. intros [= -> ->]. split_and!; [done..|]. intros n []%elem_of_nil.
  - eapply seg_bind; [apply Hf|]. intros st l [Ho Hs].
    assert (Hc1 : changes_ok (λ _, control) [k8sName node] l).
    { intros pre e post n Hl Ht. destruct (Ho _ _ _ _ Hl Ht) as [-> Hok]. split; [by left|done]. }
    destruct st as [es lk|err].
    + eapply seg_mono; [apply IH|]. intros st l' [Hc2 Hs']. split; [by eapply changes_ok_app; [..|exact Hc1|exact Hc2]; set_solver|].
      intros Est. destruct (Hs' Est) as ([-> ->]%app_eq_nil & Hlk & Hdel). apply orb_false_iff in Hlk as [-> ->].
      split_and!; [done..|]. intros n Hin Hn. apply deleted_app. apply elem_of_cons in Hin as [->|Hin]; [left; by apply Hs|right; by apply Hdel].
    + apply seg_ret. rewrite app_nil_r. split; [|done]. intros pre e post n Hl Ht. destruct (Hc1 _ _ _ _ Hl Ht). split; [set_solver|done].
Qed.

Variable kc : Kubectl.
Hypothesis Hkc : (0 ≤ Kc_MaxKubectlRetries kc)%Z.

Definition masters (d : Deleter) : list string := k8sName <$> masterNodes d.
Definition workers (d : Deleter) : list string := k8sName <$> workerNodes d.

Lemma seg_DeleteNodes d :
  seg (DeleteNodes kc d)
    (λ errs l, changes_ok (λ n, n ∉ workers d) (masters d ++ workers d) l ∧
       (errs = [] → ∃ out, (KubectlGetNodeNames, (Success, out)) ∈ l ∧
          ∀ n, n ∈ masters d ++ workers d → n ∈ lines out → deleted n l)).
Proof.
  assert (Hmono : ∀ (c c' : string → Prop) r l, (∀ n, n ∈ r → c' n → c n) → changes_ok c r l → changes_ok c' r l).
  { intros c c' r l Hc Hl pre e post n El Ht. destruct (Hl _ _ _ _ El Ht) as [Hin Hok]. split; [done|].
    rewrite <- (app_nil_l pre), <- (app_nil_r pre). eapply change_ok_mono; [|done]. auto. }
  unfold DeleteNodes. eapply seg_bind; [by apply seg_kubectl|]. intros [x out] l0 [Hl0 Ha].
  assert (Hc0 : changes_ok (λ n, n ∉ workers d) [] l0).
  { intros pre e post n -> Ht. apply Forall_app in Hl0 as [_ [He _]%Forall_cons]. rewrite He in Ht. done. }
  unfold succeeded. case_bool_decide as Hs; simpl in *.
  2: { apply seg_ret. rewrite app_nil_r. split; [|done]. intros pre e post n Hl Ht. by destruct (Hc0 _ _ _ _ Hl Ht) as [[]%elem_of_nil _]. }
  subst x. eapply seg_bind; [apply seg_each; intros node; by apply seg_master|]. intros s1 l1 [Hc1 Hs1].
  assert (Hc1' : changes_ok (λ n, n ∉ workers d) (masters d) l1) by (by eapply (Hmono (λ _, True))).
  destruct s1 as [errs lk|err].
  2: { apply seg_ret. rewrite app_nil_r. split; [|done]. eapply changes_ok_app; [| |exact Hc0|exact Hc1']; set_solver. }
  eapply seg_bind; [apply seg_each; intros node; by apply seg_worker|]. intros s2 l2 [Hc2 Hs2]. apply seg_ret. rewrite app_nil_r.
  assert (Hc2' : changes_ok (λ n, n ∉ workers d) (workers d) l2) by (by eapply (Hmono (λ _, False)); [|exact Hc2]).
  split.
  - eapply (changes_ok_app _ [] (masters d ++ workers d)); [set_solver|set_solver|done|].
    eapply (changes_ok_app _ (masters d) (workers d)); [set_solver|set_solver|done|done].
  - destruct s2 as [errs' lk'|]; [|done]. intros [-> Hlk]%app_eq_nil. destruct lk'; [done|].
    destruct (Hs2 eq_refl) as (-> & -> & Hw). destruct (Hs1 eq_refl) as (_ & _ & Hm). exists out. split; [set_solver|].
    intros n [Hn|Hn]%elem_of_app Hl; rewrite !app_assoc; apply deleted_app; [left; apply deleted_app; right; by apply Hm|right; by apply Hw].
Qed.

Lemma remaining_not_deleted ms nps :
  remaining ms nps ≠ "" → ∃ np n, np ∈ nps ∧ NodePool_IsControl np = true ∧ n ∈ NodePool_Nodes np ∧
    remaining ms nps = Node_Name n ∧ (Node_Name n ∉ Node_Name <$> ms).
Proof.
  unfold remaining. set (f := λ _ _, _). assert (Hg : ∀ l acc, (∀ np, np ∈ l → np ∈ nps ∧ NodePool_IsControl np = true) →
    foldl f acc l ≠ acc → ∃ np n, np ∈ nps ∧ NodePool_IsControl np = true ∧ n ∈ NodePool_Nodes np ∧
    foldl f acc l = Node_Name n ∧ (Node_Name n ∉ Node_Name <$> ms)).
  { induction l as [|np l IH]; intros acc Hl Hne; [done|]. simpl in *.
    destruct (decide (foldl f (f acc np) l = f acc np)) as [E|E]; [|apply IH; [|done]; set_solver].
    rewrite E in *. unfold f in Hne |- *. destruct (find_first _ _) as [n|] eqn:Ef; [|done].
    apply find_first_Some in Ef as [Hin Hb]. exists np, n. destruct (Hl np) as [? ?]; [set_solver|]. split_and!; [done..|].
    apply negb_true_iff in Hb. by apply contains_false in Hb. }
  intros Hne. apply Hg; [|done]. intros np [Hc Hin]%list_elem_of_filter. by split.
Qed.

(** C8: Nodes are removed from a cluster in order and never against the
    operator.  Whatever kubectl answers and whatever was run before: only
    requested nodes are changed; a node is tainted, cordoned, drained or
    deleted only after its labels were read and the upgrade lock was not among
    them; it is deleted only after it was cordoned and then drained, a control
    node also only after its etcd member was removed, through a control node
    that is not deleted; and when no error is returned, every requested node
    that is part of the cluster was deleted. *)
Theorem node_deletion_protocol ms ws k d log errs log' :
  NewDeleter ms ws k = inl d → DeleteNodes kc d log = (errs, log') →
  masters d = stripped (K8s_Id k) ∘ Node_Name <$> ms ∧ workers d = stripped (K8s_Id k) ∘ Node_Name <$> ws ∧
  (∃ np n, np ∈ K8s_NodePools k ∧ NodePool_IsControl np = true ∧ n ∈ NodePool_Nodes np ∧
     controlNode d = stripped (K8s_Id k) (Node_Name n) ∧ (Node_Name n ∉ Node_Name <$> ms)) ∧
  ∃ l, log' = log ++ l ∧ changes_ok (λ n, n ∉ workers d) (masters d ++ workers d) l ∧
    (errs = [] → ∃ out, (KubectlGetNodeNames, (Success, out)) ∈ l ∧
       ∀ n, n ∈ masters d ++ workers d → n ∈ lines out → deleted n l).
Proof.
  unfold NewDeleter. case_bool_decide as Hr; [done|]. intros [= <-] Hd. apply remaining_not_deleted in Hr as (np & n & ? & ? & ? & E & ?).
  split_and!; [by unfold masters; simpl; rewrite <- list_fmap_compose|by unfold workers; simpl; rewrite <- list_fmap_compose| |].
  - exists np, n. simpl. by rewrite E.
  - apply seg_DeleteNodes in Hd as (l & -> & Hl). by exists l.
Qed.

End all.

(** ** Witness *)

(** A cluster with one of the workers, where every command succeeds. *)
Definition sample_shell : Shell := {|
  write_kubeconfig _ _ := None;
  sh _ c := (Success, match c with KubectlGetNodeNames => "workers-02" | _ => "" end) |}.

(** Nothing answers an echo request. *)
Definition silent_pings : Icmp := {|
  icmp_ListenPacket _ := None; icmp_send _ _ := None; icmp_reads _ _ := [DeadlineExceeded];
  ping_workers := 20; arrival l := l; arrival_perm l := reflexivity l |}.

Definition sample_tools : NodeTools := {|
  node_icmp _ := silent_pings; labels_of _ := Some ∅; members_of _ := Some []; replicas_of _ := Some [] |}.

Lemma node_deletion_protocol_witness :
  let kc := mkKubectl "" 3 in
  let ws := NodePool_Nodes Samples.workers in
  ∃ d log, NewDeleter [] ws Samples.k8s = inl d ∧
    DeleteNodes (H := sample_shell) (H0 := sample_tools) kc d [] = ([], log) ∧ deleted "workers-02" log.
Proof.
  intros kc ws. destruct (NewDeleter [] ws Samples.k8s) as [d|e] eqn:Ed; [|exfalso; vm_compute in Ed; discriminate Ed].
  destruct (DeleteNodes (H := sample_shell) (H0 := sample_tools) kc d []) as [errs log] eqn:El.
  assert (Hb : match NewDeleter [] ws Samples.k8s with
               | inl d => bool_decide ((DeleteNodes (H := sample_shell) (H0 := sample_tools) kc d []).1 = []) | _ => false end = true)
    by (vm_compute; reflexivity).
  rewrite Ed, El in Hb. apply bool_decide_eq_true in Hb. simpl in Hb. subst errs.
  destruct (node_deletion_protocol (H := sample_shell) (H0 := sample_tools) kc ltac:(done) [] ws Samples.k8s d [] [] log Ed El)
    as (_ & Hw & _ & (l & -> & _ & Hdel)).
  exists d, l. split_and!; [done..|]. destruct (Hdel eq_refl) as (out & Hout & Hall).
  assert (Hl : Forall (λ e, e.1 = KubectlGetNodeNames → e.2 = (Success, "workers-02"))
    (match NewDeleter [] ws Samples.k8s with inl d => (DeleteNodes (H := sample_shell) (H0 := sample_tools) kc d []).2 | _ => [] end)).
  { vm_compute. repeat constructor; discriminate. }
  rewrite Ed, El in Hl. rewrite Forall_forall in Hl. apply Hl in Hout; [|done]. injection Hout as ->.
  apply Hall; [|vm_compute; by left]. rewrite Hw. apply elem_of_app. right. vm_compute. right. by left.
Defined.

End NodeDeletion.
