(* ===== verification/NodePatch.v ===== *)
(** * Labels, annotations and taints of nodes
    (proto/pb/spec/metadata.go, services/kuber/.../internal/nodes/patch.go, task_patch_nodes.go)

    What the state of a node pool asks for is written to its nodes with
    concurrent kubectl patches: first everything there is and everything new,
    then the removals; afterwards the state is updated.  The order of
    concurrent commands is the parameter [Interleaving]; encoding and decoding
    the JSON list of longhorn tags is the parameter [TagList]. *)

From stdpp Require Import base gmap strings list.
From S2P Require Import Prelude Spec SpecUtils Samples NodePools Schedule Health Kubectl.
Import NodePools Schedule Health Kubectl.

(** An element of the list: a string, or the text of any other value. *)
Inductive Tag := TagString (s : string) | TagOther (raw : string).
#[export] Instance Tag_eq_dec : EqDecision Tag.
Proof. solve_decision. Defined.

Class TagList := {
  decode_tags : string → option (list Tag);
  encode_tags : list Tag → string;
  decode_encode : ∀ l, decode_tags (encode_tags l) = Some l }.

Class Interleaving := {
  interleave : list Command → list Command;
  interleave_perm : ∀ l, interleave l ≡ₚ l }.

Module NodePatch.

(** ** proto/pb/spec/metadata.go *)

Definition tilde : Ascii.ascii := Ascii.ascii_of_nat 126.
Definition slash : Ascii.ascii := Ascii.ascii_of_nat 47.
Definition one : Ascii.ascii := Ascii.ascii_of_nat 49.

(** [strings.ReplaceAll(s, "/", "~1")] *)
Fixpoint escape (s : string) : string :=
  match s with
  | EmptyString => EmptyString
  | String a s => if Ascii.eqb a slash then String tilde (String one (escape s)) else String a (escape s)
  end.

Definition ProviderId : string := "claudie://".
Definition NodepoolKey : string := "claudie.io~1nodepool".
Definition ProviderKey : string := "claudie.io~1provider".
Definition ProviderInstanceKey : string := "claudie.io~1provider-instance".
Definition NodeTypeKey : string := "claudie.io~1node-type".
Definition KubernetesZoneKey : string := "topology.kubernetes.io~1zone".
Definition KubernetesRegionKey : string := "topology.kubernetes.io~1region".
Definition KubernetesOsKey : string := "kubernetes.io~1os".
Definition KubeoneOsKey : string := "v1.kubeone.io~1operating-system".
Definition SpotKey : string := "claudie.io~1spot".

Definition ControlPlane : string := "node-role.kubernetes.io/control-plane".
Definition SpotTaintKey : string := "claudie.io/spot".
Definition SpotValue : string := "true".
Definition TaintEffectNoSchedule : string := "NoSchedule".

Definition getNodeType (np : NodePool) : string := if NodePool_IsControl np then "control" else "compute".

(** Defaults of a static pool, which the user may overwrite. *)
Definition static_labels (np : NodePool) : list (string * string) :=
  match GetStaticNodePool np with
  | Some _ =>
      [(ProviderKey, sanitise_String "STATIC_PROVIDER"); (ProviderInstanceKey, sanitise_String "STATIC_PROVIDER");
       (KubernetesZoneKey, sanitise_String "STATIC_ZONE"); (KubernetesRegionKey, sanitise_String "STATIC_REGION")]
  | None => []
  end.

(** The labels of claudie, which overwrite the ones of the user. *)
Definition claudie_labels (np : NodePool) : list (string * string) :=
  [(NodepoolKey, NodePool_Name np); (NodeTypeKey, getNodeType np); (KubernetesOsKey, "linux"); (KubeoneOsKey, "ubuntu")] ++
  match GetDynamicNodePool np with
  | Some d =>
      [(ProviderKey, Provider_CloudProviderName (Dyn_Provider d)); (ProviderInstanceKey, Provider_SpecName (Dyn_Provider d));
       (KubernetesZoneKey, sanitise_String (Dyn_Zone d)); (KubernetesRegionKey, sanitise_String (Dyn_Region d))] ++
      (if Dyn_Spot d then [(SpotKey, SpotValue)] else [])
  | None => []
  end.

(** [m[escape(sanitise.String(k))] = sanitise.String(v)] for every entry *)
Definition put_labels (m : gmap string string) (l : list (string * string)) : gmap string string :=
  foldl (λ m '(k, v), <[escape (sanitise_String k) := sanitise_String v]> m) m l.

(** Keys are escaped for a JSON pointer. *)
Definition AllLabels `{RangeOrder} (np : NodePool) (additionalLabels : gmap string string) : gmap string string :=
  list_to_map (claudie_labels np) ∪
  put_labels (put_labels (list_to_map (static_labels np)) (range "AllLabels.Labels" (NodePool_Labels np)))
    (range "AllLabels.additionalLabels" additionalLabels).

(** The keys of a map, so in any order; every taint once. *)
Definition AllTaints (np : NodePool) (additionalTaints : list Taint) : list Taint :=
  remove_dups (NodePool_Taints np ++ additionalTaints ++
    (match GetDynamicNodePool np with
     | Some d => if Dyn_Spot d then [mkTaint SpotTaintKey SpotValue TaintEffectNoSchedule] else []
     | None => []
     end) ++
    (if NodePool_IsControl np then [mkTaint ControlPlane "" TaintEffectNoSchedule] else [])).

(** ** internal/nodes/patch.go *)

Definition tags_key : string := "node.longhorn.io/default-node-tags".

(** The annotations of a pool, with the zone among the tags of a worker;
    [inr] when the tags are not a list. *)
Definition pool_annotations `{TagList} (np : NodePool) (additional : gmap string string) : outcome (gmap string string + string) :=
  let* zone := Zone np in
  let annotations := additional ∪ NodePool_Annotations np in
  Ret (if NodePool_IsControl np then inl annotations
       else match decode_tags (default "[]" (annotations !! tags_key)) with
            | None => inr "nodepool has invalid value for annotation, expected value to by of type array"
            | Some v =>
                let v := if contains v (TagString zone) then v else v ++ [TagString zone] in
                inl (<[tags_key := encode_tags v]> annotations)
            end).

Definition label_path : string := "/metadata/labels/".
Definition annotation_path : string := "/metadata/annotations/".
Definition json : list string := ["--type"; "json"].

Section patch.
Context `{RangeOrder} `{TagList}.
Variable clusterID : string.

Definition on_nodes (np : NodePool) (f : string → Command) : list Command :=
  (λ n, f (stripped clusterID (Node_Name n))) <$> NodePool_Nodes np.

Definition patchProviderID (np : NodePool) : list Command :=
  on_nodes np (λ node, KubectlPatch "node" node (ProviderID (String.append ProviderId node)) []).

Definition annotateNodePool (np : NodePool) (additional : gmap string string) : outcome (list Command * list string) :=
  let* r := pool_annotations np additional in
  Ret (match r with
       | inl annotations => (on_nodes np (λ node, KubectlPatch "node" node (MergeAnnotations annotations) ["--type"; "merge"]), [])
       | inr e => ([], [e])
       end).

Definition labelNodePool (np : NodePool) (additional : gmap string string) : list Command :=
  range "labelNodePool" (AllLabels np additional) ≫= λ '(key, value),
    on_nodes np (λ node, KubectlPatch "node" node (JsonPatch "replace" (String.append label_path key) (Some value)) json).

Definition taintNodePool (np : NodePool) (additional : list Taint) : list Command :=
  on_nodes np (λ node, KubectlPatch "node" node (JsonTaints (AllTaints np additional)) json).

Definition removeLabels (np : NodePool) (toRemove : list string) : list Command :=
  toRemove ≫= λ key,
    on_nodes np (λ node, KubectlPatch "node" node (JsonPatch "remove" (String.append label_path (escape key)) None) json).

Definition removeAnnotations (np : NodePool) (toRemove : list string) : list Command :=
  toRemove ≫= λ key,
    on_nodes np (λ node, KubectlPatch "node" node (JsonPatch "remove" (String.append annotation_path (escape key)) None) json).

Definition removeTaints (np : NodePool) (taints : list Taint) : list Command :=
  taints ≫= λ t, on_nodes np (λ node, KubectlTaintRemove node t).

(** The commands of the first phase for a pool, with the errors found
    before a command was run. *)
Definition additions (patch : KuberPatchNodes) (np : NodePool) : outcome (list Command * list string) :=
  let name := NodePool_Name np in
  let* (cmds, errs) := annotateNodePool np (default ∅ (Add_Annotations patch !! name)) in
  Ret (patchProviderID np ++ cmds ++ labelNodePool np (default ∅ (Add_Labels patch !! name)) ++
         taintNodePool np (default [] (Add_Taints patch !! name)), errs).

Definition removals (patch : KuberPatchNodes) (np : NodePool) : list Command :=
  let name := NodePool_Name np in
  removeLabels np (default [] (Remove_Labels patch !! name)) ++
  removeAnnotations np (default [] (Remove_Annotations patch !! name)) ++
  removeTaints np (default [] (Remove_Taints patch !! name)).

Fixpoint all_additions (patch : KuberPatchNodes) (nps : list NodePool) : outcome (list Command * list string) :=
  match nps with
  | [] => Ret ([], [])
  | np :: nps =>
      let* (c1, e1) := additions patch np in
      let* (c2, e2) := all_additions patch nps in
      Ret (c1 ++ c2, e1 ++ e2)
  end.

Context `{Shell} `{Interleaving}.
Variable kc : Kubectl.

(** Every command is run; the errors are collected. *)
Fixpoint run_all (cmds : list Command) : K (list string) :=
  match cmds with
  | [] => mret []
  | c :: cmds =>
      a ← kubectl kc c;
      errs ← run_all cmds;
      mret (if succeeded a then errs else "error while patching one or more nodes" :: errs)
  end.

Definition Patch (patch : KuberPatchNodes) (nps : list NodePool) : outcome (K (list string)) :=
  let* (adds, errs) := all_additions patch nps in
  Ret (e1 ← run_all (interleave adds);
       e2 ← run_all (interleave (nps ≫= removals patch));
       mret (errs ++ e1 ++ e2)).

End patch.

(** ** task_patch_nodes.go: the state after a patch *)

Definition remove_taints (remove ts : list Taint) : list Taint := filter (λ t, t ∉ remove) ts.

Definition removeAnnotationsLabelsTaints (patch : KuberPatchNodes) (np : NodePool) : NodePool :=
  let name := NodePool_Name np in
  mkNodePool (NodePool_Type np) name (NodePool_Nodes np) (NodePool_IsControl np)
    (foldl (λ m k, delete k m) (NodePool_Labels np) (default [] (Remove_Labels patch !! name)))
    (remove_taints (default [] (Remove_Taints patch !! name)) (NodePool_Taints np))
    (foldl (λ m k, delete k m) (NodePool_Annotations np) (default [] (Remove_Annotations patch !! name)))
    (NodePool_SshPort np).

(** [strings.Compare] of effect, key and value *)
Definition taint_le (l r : Taint) : bool :=
  match String.compare (Taint_Effect l) (Taint_Effect r) with
  | Lt => true | Gt => false
  | Eq => match String.compare (Taint_Key l) (Taint_Key r) with
          | Lt => true | Gt => false
          | Eq => match String.compare (Taint_Value l) (Taint_Value r) with Gt => false | _ => true end
          end
  end.

Fixpoint insert_taint (t : Taint) (ts : list Taint) : list Taint :=
  match ts with
  | [] => [t]
  | u :: us => if taint_le t u then t :: ts else u :: insert_taint t us
  end.

Definition sort_taints (ts : list Taint) : list Taint := foldr insert_taint [] ts.

(** [slices.CompactFunc] *)
Fixpoint compact (ts : list Taint) : list Taint :=
  match ts with
  | [] => []
  | t :: ts' =>
      match ts' with
      | u :: _ => if bool_decide (t = u) then compact ts' else t :: compact ts'
      | [] => [t]
      end
  end.

Definition updateExistingAnnotationsLabelsTaints (patch : KuberPatchNodes) (np : NodePool) : NodePool :=
  let name := NodePool_Name np in
  mkNodePool (NodePool_Type np) name (NodePool_Nodes np) (NodePool_IsControl np)
    (default ∅ (Add_Labels patch !! name) ∪ NodePool_Labels np)
    (match Add_Taints patch !! name with
     | Some ts => compact (sort_taints (NodePool_Taints np ++ ts))
     | None => NodePool_Taints np
     end)
    (default ∅ (Add_Annotations patch !! name) ∪ NodePool_Annotations np)
    (NodePool_SshPort np).

Definition patched (patch : KuberPatchNodes) (np : NodePool) : NodePool :=
  updateExistingAnnotationsLabelsTaints patch (removeAnnotationsLabelsTaints patch np).

(** [buildPatchAllNodes] and [extractPatchFromUpdate] *)
Definition add_pool (patch : KuberPatchNodes) (np : NodePool) : KuberPatchNodes :=
  mkKuberPatchNodes (<[NodePool_Name np := NodePool_Taints np]> (Add_Taints patch))
    (<[NodePool_Name np := NodePool_Labels np]> (Add_Labels patch))
    (<[NodePool_Name np := NodePool_Annotations np]> (Add_Annotations patch)) ∅ ∅ ∅.

Definition no_patch : KuberPatchNodes := mkKuberPatchNodes ∅ ∅ ∅ ∅ ∅ ∅.

Definition buildPatchAllNodes (k : K8Scluster) : KuberPatchNodes := foldl add_pool no_patch (K8s_NodePools k).

Definition extractPatchFromUpdate (k : K8Scluster) (d : Delta) : option KuberPatchNodes :=
  match d with
  | Update_None_ => Some (buildPatchAllNodes k)
  | Update_KpatchNodes patch => Some patch
  | Update_AddedK8SNodes_ _ nodepool _ =>
      match FindByName nodepool (K8s_NodePools k) with
      | None => None
      | Some np => Some (add_pool no_patch np)
      end
  | _ => None
  end.

(** ** What the commands do to a node *)

Record KNode := mkKNode {
  KN_ProviderID : string;
  KN_Labels : gmap string string;
  KN_Annotations : gmap string string;
  KN_Taints : list Taint }.

(** The decoding of a JSON pointer: [~1] is a slash, [~0] a tilde. *)
Fixpoint unescape (s : string) : string :=
  match s with
  | EmptyString => EmptyString
  | String a s' =>
      if Ascii.eqb a tilde then
        match s' with
        | String b s'' =>
            if Ascii.eqb b one then String slash (unescape s'')
            else if Ascii.eqb b (Ascii.ascii_of_nat 48) then String tilde (unescape s'')
            else String a (unescape s')
        | EmptyString => String a EmptyString
        end
      else String a (unescape s')
  end.

(** The key a path below [parent] points to. *)
Definition pointed (parent path : string) : option string :=
  if String.prefix parent path then Some (unescape (TrimPrefix path parent)) else None.

(** The value a successful command leaves at a label, [Some None] when it
    removes the label, [None] when it does not concern it. *)
Definition label_effect (key : string) (c : Command) : option (option string) :=
  match c with
  | KubectlPatch _ _ (JsonPatch op path v) _ => if bool_decide (pointed label_path path = Some key) then Some v else None
  | _ => None
  end.

Definition annotation_effect (key : string) (c : Command) : option (option string) :=
  match c with
  | KubectlPatch _ _ (JsonPatch op path v) _ => if bool_decide (pointed annotation_path path = Some key) then Some v else None
  | KubectlPatch _ _ (MergeAnnotations m) _ => Some <$> m !! key
  | _ => None
  end.

(** The node a command is for. *)
Definition target (c : Command) : option string :=
  match c with KubectlPatch _ n _ _ | KubectlTaintRemove n _ => Some n | _ => None end.

Definition set_or_delete (key : string) (v : option string) (m : gmap string string) : gmap string string :=
  match v with Some v => <[key := v]> m | None => delete key m end.

(** A successful command for the node. *)
Definition effect (c : Command) (x : KNode) : KNode :=
  match c with
  | KubectlPatch _ _ (ProviderID id) _ => mkKNode id (KN_Labels x) (KN_Annotations x) (KN_Taints x)
  | KubectlPatch _ _ (JsonPatch op path v) _ =>
      let labels := match pointed label_path path with Some key => set_or_delete key v (KN_Labels x) | None => KN_Labels x end in
      let annotations := match pointed annotation_path path with
                         | Some key => set_or_delete key v (KN_Annotations x) | None => KN_Annotations x end in
      mkKNode (KN_ProviderID x) labels annotations (KN_Taints x)
  | KubectlPatch _ _ (JsonTaints ts) _ => mkKNode (KN_ProviderID x) (KN_Labels x) (KN_Annotations x) ts
  | KubectlPatch _ _ (MergeAnnotations m) _ => mkKNode (KN_ProviderID x) (KN_Labels x) (m ∪ KN_Annotations x) (KN_Taints x)
  | KubectlTaintRemove _ t => mkKNode (KN_ProviderID x) (KN_Labels x) (KN_Annotations x) (filter (λ u, u ≠ t) (KN_Taints x))
  | _ => x
  end.

Definition effect_on (node : string) (x : KNode) (c : Command) : KNode :=
  if bool_decide (target c = Some node) then effect c x else x.

(** *** Escaping *)

(** Keys the sanitiser leaves alone and that need no escape of a tilde. *)
Definition plain (key : string) : Prop := sanitise_String key = key ∧ no_char tilde key = true.
Definition token (tok : string) : Prop := escape (unescape tok) = tok.

Lemma unescape_escape key : no_char tilde key = true → unescape (escape key) = key.
Proof.
  induction key as [|a key IH]; simpl; [done|]. rewrite andb_true_iff, negb_true_iff. intros [Ha Hk].
  destruct (Ascii.eqb a slash) eqn:Es; simpl.
  - apply Ascii.eqb_eq in Es as ->. by rewrite IH.
  - by rewrite Ha, IH.
Qed.

Lemma plain_token key : plain key → token (escape key).
Proof. intros [_ Hk]. unfold token. by rewrite unescape_escape. Qed.

Lemma escape_inj k1 k2 : plain k1 → plain k2 → escape k1 = escape k2 → k1 = k2.
Proof. intros [_ H1] [_ H2] E. by rewrite <- (unescape_escape k1), <- (unescape_escape k2), E. Qed.

Lemma pointed_below parent tok : pointed parent (String.append parent tok) = Some (unescape tok).
Proof.
  unfold pointed, TrimPrefix.
  assert (Hp : String.prefix parent (String.append parent tok) = true).
  { induction parent as [|a p IH]; simpl; [by destruct tok|]. destruct (Ascii.ascii_dec a a); [exact IH|done]. }
  rewrite Hp. do 2 f_equal. clear Hp. rewrite string_length_app.
  replace (String.length parent + String.length tok - String.length parent) with (String.length tok) by lia.
  induction parent as [|a p IH]; [|exact IH]. simpl. change (String.append "" tok) with tok.
  induction tok as [|b t IHt]; [done|]. simpl. by rewrite IHt.
Qed.

Lemma label_not_annotation tok : pointed annotation_path (String.append label_path tok) = None.
Proof. done. Qed.
Lemma annotation_not_label tok : pointed label_path (String.append annotation_path tok) = None.
Proof. done. Qed.

(** *** The order of the commands does not matter *)

Section after.
Variable node : string.
Implicit Types (cmds : list Command) (x : KNode).

Definition after (x : KNode) (cmds : list Command) : KNode := foldl (effect_on node) x cmds.

(** A part of the node that is [v] after a command with [eff c = Some v], and
    as before otherwise. *)
Lemma after_field {V} `{EqDecision V} (field : KNode → V) (eff : Command → option V) (o : V) x cmds :
  (∀ c x, c ∈ cmds → field (effect c x) = match eff c with Some v => v | None => field x end) →
  (∀ c, c ∈ cmds → target c = Some node → eff c = None ∨ eff c = Some o) →
  (Exists (λ c, target c = Some node ∧ eff c = Some o) cmds → field (after x cmds) = o) ∧
  (¬ Exists (λ c, target c = Some node ∧ eff c = Some o) cmds → field (after x cmds) = field x).
Proof.
  revert x. induction cmds as [|c cmds IH]; intros x Hf Hc; simpl; [split; [by intros ?%Exists_nil|done]|].
  destruct (IH (effect_on node x c)) as [IH1 IH2]; [intros; apply Hf; by right|intros; apply Hc; [by right|done]|].
  rewrite Exists_cons. unfold effect_on in *. destruct (decide (target c = Some node)) as [Ht|Ht].
  - rewrite bool_decide_eq_true_2 in * by done. rewrite Hf in IH2 by (by left). destruct (Hc c) as [E|E]; [by left|done| |]; rewrite E in *.
    + split; [intros [[_ ?]|?]; [done|by apply IH1]|intros Hn; apply IH2; tauto].
    + split; [|tauto]. intros _. destruct (decide (Exists (λ c, target c = Some node ∧ eff c = Some o) cmds)) as [He|He]; [by apply IH1|by apply IH2].
  - rewrite bool_decide_eq_false_2 in * by done. split; [intros [[? _]|?]; [done|by apply IH1]|intros Hn; apply IH2; tauto].
Qed.

Lemma label_effect_spec key c x : KN_Labels (effect c x) !! key = match label_effect key c with Some v => v | None => KN_Labels x !! key end.
Proof.
  destruct c; try done. destruct patch; try done. simpl.
  destruct (pointed label_path path) as [k|]; simpl; [|done].
  unfold set_or_delete. case_bool_decide as E.
  - injection E as ->. destruct value; [by rewrite lookup_insert_eq|by rewrite lookup_delete_eq].
  - destruct value; [rewrite lookup_insert_ne by congruence|rewrite lookup_delete_ne by congruence]; done.
Qed.

Lemma annotation_effect_spec key c x :
  KN_Annotations (effect c x) !! key = match annotation_effect key c with Some v => v | None => KN_Annotations x !! key end.
Proof.
  destruct c; try done. destruct patch; try done; simpl.
  - destruct (pointed annotation_path path) as [k|]; simpl; [|done].
    unfold set_or_delete. case_bool_decide as E.
    + injection E as ->. destruct value; [by rewrite lookup_insert_eq|by rewrite lookup_delete_eq].
    + destruct value; [rewrite lookup_insert_ne by congruence|rewrite lookup_delete_ne by congruence]; done.
  - rewrite lookup_union. by destruct (annotations !! key), (KN_Annotations x !! key).
Qed.

Definition taints_effect (c : Command) : option (list Taint) :=
  match c with KubectlPatch _ _ (JsonTaints ts) _ => Some ts | _ => None end.

Lemma taints_effect_spec c x :
  (∀ n t, c ≠ KubectlTaintRemove n t) → KN_Taints (effect c x) = match taints_effect c with Some v => v | None => KN_Taints x end.
Proof. intros Hc. destruct c; try done; [by destruct (Hc node0 t)|by destruct patch]. Qed.

Lemma after_remove_taints x cmds t :
  (∀ c, c ∈ cmds → taints_effect c = None) →
  t ∈ KN_Taints (after x cmds) ↔ t ∈ KN_Taints x ∧ KubectlTaintRemove node t ∉ cmds.
Proof.
  revert x. induction cmds as [|c cmds IH]; intros x Hc; simpl; [set_solver|].
  rewrite IH by (intros; apply Hc; by right). rewrite not_elem_of_cons.
  assert (E : t ∈ KN_Taints (effect_on node x c) ↔ t ∈ KN_Taints x ∧ KubectlTaintRemove node t ≠ c); [|tauto].
  specialize (Hc c ltac:(by left)). unfold effect_on. case_bool_decide as Ht.
  - destruct c; simpl in Ht; try discriminate Ht; [|destruct patch; try discriminate Hc; simpl; (split; [by intros ?; split|tauto])].
    injection Ht as ->. simpl. rewrite list_elem_of_filter. split; [intros [? ?]; split; congruence|].
    intros [? Hne]. split; [|done]. intros ->. done.
  - split; [|tauto]. intros ?. split; [done|]. intros <-. done.
Qed.

End after.

(** *** The commands for a node *)

Section commands.
Context `{RangeOrder} `{TagList}.
Variable clusterID : string.

Definition k8s_name (n : Node) : string := stripped clusterID (Node_Name n).

Lemma elem_of_on_nodes np f c : c ∈ on_nodes clusterID np f ↔ ∃ n, n ∈ NodePool_Nodes np ∧ c = f (k8s_name n).
Proof. unfold on_nodes. rewrite list_elem_of_fmap. naive_solver. Qed.

(** A command of the first phase of a pool. *)
Inductive addition (patch : KuberPatchNodes) (np : NodePool) (node : string) : Command → Prop :=
| add_provider id : addition patch np node (KubectlPatch "node" node (ProviderID id) [])
| add_annotations m : pool_annotations np (default ∅ (Add_Annotations patch !! NodePool_Name np)) = Ret (inl m) →
    addition patch np node (KubectlPatch "node" node (MergeAnnotations m) ["--type"; "merge"])
| add_label tok v : AllLabels np (default ∅ (Add_Labels patch !! NodePool_Name np)) !! tok = Some v →
    addition patch np node (KubectlPatch "node" node (JsonPatch "replace" (String.append label_path tok) (Some v)) json)
| add_taints : addition patch np node
    (KubectlPatch "node" node (JsonTaints (AllTaints np (default [] (Add_Taints patch !! NodePool_Name np)))) json).

Lemma additions_spec patch np cs :
  additions clusterID patch np = Ret (cs, []) →
  (∃ m, pool_annotations np (default ∅ (Add_Annotations patch !! NodePool_Name np)) = Ret (inl m)) ∧
  ∀ c, (c ∈ cs → ∃ n, n ∈ NodePool_Nodes np ∧ addition patch np (k8s_name n) c) ∧
       (∀ n, n ∈ NodePool_Nodes np → addition patch np (k8s_name n) c → (∀ r b id os, c ≠ KubectlPatch r b (ProviderID id) os) → c ∈ cs).
Proof.
  unfold additions, annotateNodePool. intros Hr. bind_inv Hr. destruct x as [cm es]. simpl in Hr. injection Hr as <- ->. bind_inv Hx.
  destruct x as [m|e]; [|discriminate Hx]. injection Hx as <-. rename Hx0 into Hx. split; [by eexists|]. intros c. rewrite !elem_of_app. unfold patchProviderID, labelNodePool, taintNodePool. split.
  - intros [Hc|[Hc|[Hc|Hc]]].
    + apply elem_of_on_nodes in Hc as (n & Hn & ->). exists n. split; [done|constructor].
    + apply elem_of_on_nodes in Hc as (n & Hn & ->). exists n. split; [done|by constructor].
    + apply list_elem_of_bind in Hc as ([tok v] & Hc & Hin%elem_of_range). apply elem_of_on_nodes in Hc as (n & Hn & ->).
      exists n. split; [done|by constructor].
    + apply elem_of_on_nodes in Hc as (n & Hn & ->). exists n. split; [done|constructor].
  - intros n Hn Ha Hp. rewrite !elem_of_app. inversion Ha as [id E|m' Hm E|tok v Ht E|E]; subst c.
    + by destruct (Hp "node" (k8s_name n) id []).
    + right. left. apply elem_of_on_nodes. exists n. split; [done|]. rewrite Hm in Hx. by injection Hx as ->.
    + do 2 right. left. apply list_elem_of_bind. exists (tok, v). split; [|by apply elem_of_range]. apply elem_of_on_nodes. eauto.
    + do 3 right. apply elem_of_on_nodes. eauto.
Qed.

Lemma all_additions_spec patch nps cmds :
  all_additions clusterID patch nps = Ret (cmds, []) →
  ∀ c, c ∈ cmds ↔ ∃ np cs, np ∈ nps ∧ additions clusterID patch np = Ret (cs, []) ∧ c ∈ cs.
Proof.
  revert cmds. induction nps as [|np nps IH]; intros cmds Hr; simpl in Hr.
  - injection Hr as <-. set_solver.
  - bind_inv Hr. destruct x as [c1 e1]. bind_inv Hr. destruct x as [c2 e2]. injection Hr as <- [-> ->]%app_eq_nil.
    intros c. rewrite elem_of_app, (IH c2 eq_refl). split.
    + intros [Hc|(np' & cs & Hin & Ha & Hc)]; [exists np, c1; set_solver|exists np', cs; set_solver].
    + intros (np' & cs & [->|Hin]%elem_of_cons & Ha & Hc); [left; rewrite Hx in Ha; by injection Ha as ->|right; eauto].
Qed.

Lemma all_additions_pool patch nps cmds np :
  all_additions clusterID patch nps = Ret (cmds, []) → np ∈ nps → ∃ cs, additions clusterID patch np = Ret (cs, []).
Proof.
  revert cmds. induction nps as [|x nps IH]; intros cmds Hr Hin; simpl in Hr; [by apply elem_of_nil in Hin|].
  bind_inv Hr. destruct x0 as [c1 e1]. bind_inv Hr. destruct x0 as [c2 e2]. injection Hr as <- [-> ->]%app_eq_nil.
  apply elem_of_cons in Hin as [->|Hin]; [by exists c1|by eapply IH].
Qed.

(** Node names are unique in the cluster. *)
Lemma pool_of_node nps np1 np2 n1 n2 :
  NoDup (k8s_name <$> (nps ≫= NodePool_Nodes)) → np1 ∈ nps → np2 ∈ nps → n1 ∈ NodePool_Nodes np1 → n2 ∈ NodePool_Nodes np2 →
  k8s_name n1 = k8s_name n2 → np1 = np2.
Proof.
  induction nps as [|np nps IH]; intros Hn H1 H2 Hn1 Hn2 E; [by apply elem_of_nil in H1|].
  rewrite bind_cons, fmap_app in Hn. apply NoDup_app in Hn as (_ & Hd & Hn).
  assert (Hx : ∀ np' n', np' ∈ nps → n' ∈ NodePool_Nodes np' → k8s_name n' ∈ k8s_name <$> (nps ≫= NodePool_Nodes)).
  { intros np' n' Hp Hn'. apply list_elem_of_fmap_2, list_elem_of_bind. eauto. }
  apply elem_of_cons in H1 as [->|H1], H2 as [->|H2]; [done| | |by apply IH].
  - exfalso. eapply Hd; [by apply list_elem_of_fmap_2|]. rewrite E. eauto.
  - exfalso. eapply Hd; [by apply list_elem_of_fmap_2|]. rewrite <- E. eauto.
Qed.

Lemma elem_of_removals patch np c :
  c ∈ removals clusterID patch np ↔ ∃ n, n ∈ NodePool_Nodes np ∧
    ((∃ key, key ∈ default [] (Remove_Labels patch !! NodePool_Name np) ∧
             c = KubectlPatch "node" (k8s_name n) (JsonPatch "remove" (String.append label_path (escape key)) None) json) ∨
     (∃ key, key ∈ default [] (Remove_Annotations patch !! NodePool_Name np) ∧
             c = KubectlPatch "node" (k8s_name n) (JsonPatch "remove" (String.append annotation_path (escape key)) None) json) ∨
     (∃ t, t ∈ default [] (Remove_Taints patch !! NodePool_Name np) ∧ c = KubectlTaintRemove (k8s_name n) t)).
Proof.
  unfold removals, removeLabels, removeAnnotations, removeTaints. rewrite !elem_of_app, !list_elem_of_bind.
  setoid_rewrite elem_of_on_nodes. naive_solver.
Qed.

End commands.

(** *** Labels *)

Definition plain_keys (m : gmap string string) : Prop := ∀ k v, m !! k = Some v → plain k.

Lemma put_labels_out m l tok : (∀ k v, (k, v) ∈ l → escape (sanitise_String k) ≠ tok) → put_labels m l !! tok = m !! tok.
Proof.
  revert m. induction l as [|[k v] l IH]; intros m Hl; [done|]. simpl. rewrite IH by (intros; eapply Hl; by right).
  apply lookup_insert_ne. apply (Hl k v). by left.
Qed.

Lemma put_labels_in m l k v :
  NoDup l.*1 → (∀ k v, (k, v) ∈ l → plain k) → (k, v) ∈ l → put_labels m l !! escape k = Some (sanitise_String v).
Proof.
  revert m. induction l as [|[k0 v0] l IH]; intros m Hn Hp Hin; [by apply elem_of_nil in Hin|]. simpl.
  rewrite fmap_cons in Hn. apply NoDup_cons in Hn as [Hk0 Hn].
  assert (Hp0 : plain k0) by (eapply Hp; by left). apply elem_of_cons in Hin as [[= -> ->]|Hin].
  - rewrite put_labels_out; [rewrite (proj1 Hp0); apply lookup_insert_eq|]. intros k' v' Hin E. assert (Hp' : plain k') by (eapply Hp; by right).
    rewrite (proj1 Hp') in E. apply escape_inj in E; [|done..]. subst k'. apply Hk0. by apply (list_elem_of_fmap_2 fst) in Hin.
  - apply IH; [done|intros; eapply Hp; by right|done].
Qed.

Section labels.
Context `{RangeOrder}.

Definition claudie_map (np : NodePool) : gmap string string := list_to_map (claudie_labels np).
Definition static_map (np : NodePool) : gmap string string := list_to_map (static_labels np).

(** The label of the user with that key, the additional ones first. *)
Definition user_label (np : NodePool) (add : gmap string string) (key : string) : option string :=
  (add ∪ NodePool_Labels np) !! key.

Lemma AllLabels_claudie np add tok v : claudie_map np !! tok = Some v → AllLabels np add !! tok = Some v.
Proof. intros Hc. unfold AllLabels. rewrite lookup_union. fold (claudie_map np). rewrite Hc. by destruct (put_labels _ _ !! tok). Qed.

Lemma AllLabels_user np add key w :
  plain_keys (NodePool_Labels np) → plain_keys add → claudie_map np !! escape key = None → user_label np add key = Some w →
  AllLabels np add !! escape key = Some (sanitise_String w).
Proof.
  intros Hl Ha Hc. unfold user_label, AllLabels. fold (claudie_map np). rewrite (lookup_union_r _ _ (escape key)) by done.
  assert (Hpl : ∀ site m k v, plain_keys m → (k, v) ∈ range site m → plain k) by (intros ???? Hm Hin%elem_of_range; by eapply Hm).
  intros [Ea|[Ea Ew]]%lookup_union_Some_raw.
  - apply put_labels_in; [apply NoDup_range_fst|eauto|by apply elem_of_range].
  - assert (Hk : plain key) by (by eapply Hl). rewrite put_labels_out.
    + apply put_labels_in; [apply NoDup_range_fst|eauto|by apply elem_of_range].
    + intros k v Hin%elem_of_range E. assert (Hk' : plain k) by (by eapply Ha). rewrite (proj1 Hk') in E. apply escape_inj in E; [|done..]. congruence.
Qed.

Lemma AllLabels_static np add tok :
  plain_keys (NodePool_Labels np) → plain_keys add → claudie_map np !! tok = None →
  (∀ key w, user_label np add key = Some w → escape key ≠ tok) → AllLabels np add !! tok = static_map np !! tok.
Proof.
  intros Hl Ha Hc Hu. unfold AllLabels. fold (claudie_map np). rewrite (lookup_union_r _ _ tok) by done.
  rewrite put_labels_out; [apply put_labels_out|]; intros k v Hin%elem_of_range.
  - rewrite (proj1 (Hl k v Hin)). intros E. unfold user_label in Hu. destruct (add !! k) as [a|] eqn:Eadd.
    + eapply (Hu k a); [|done]. rewrite lookup_union, Eadd, Hin. done.
    + eapply (Hu k v); [|done]. rewrite lookup_union, Eadd, Hin. done.
  - rewrite (proj1 (Ha k v Hin)). apply (Hu k v). unfold user_label. rewrite lookup_union, Hin. by destruct (NodePool_Labels np !! k).
Qed.

(** Where a label comes from. *)
Lemma AllLabels_inv np add tok v :
  plain_keys (NodePool_Labels np) → plain_keys add → AllLabels np add !! tok = Some v →
  claudie_map np !! tok = Some v ∨ claudie_map np !! tok = None ∧
  ((∃ key w, tok = escape key ∧ v = sanitise_String w ∧ user_label np add key = Some w) ∨
   (∀ key w, user_label np add key = Some w → escape key ≠ tok) ∧ static_map np !! tok = Some v).
Proof.
  intros Hl Ha Hv. destruct (claudie_map np !! tok) as [c|] eqn:Ec.
  { left. rewrite (AllLabels_claudie _ _ _ _ Ec) in Hv. congruence. }
  right. split; [done|].
  destruct (decide (Exists (λ kv, escape kv.1 = tok) (map_to_list (add ∪ NodePool_Labels np)))) as [He|He].
  - apply Exists_exists in He as ([key w] & Hin%elem_of_map_to_list & E). simpl in E. subst tok. left. exists key, w. split_and!; [done| |done].
    rewrite (AllLabels_user _ _ _ w) in Hv; [by injection Hv|done..].
  - right. assert (Hu : ∀ key w, user_label np add key = Some w → escape key ≠ tok).
    { intros key w Hk E. apply He, Exists_exists. exists (key, w). split; [by apply elem_of_map_to_list|done]. }
    split; [done|]. by rewrite <- (AllLabels_static np add).
Qed.

Lemma const_token np tok v : claudie_map np !! tok = Some v ∨ static_map np !! tok = Some v → token tok.
Proof.
  assert (Hk : ∀ l : list (string * string), Forall (λ kv, token kv.1) l → (list_to_map l : gmap string string) !! tok = Some v → token tok).
  { intros l Hl Hin%elem_of_list_to_map_2. rewrite Forall_forall in Hl. by apply Hl in Hin. }
  intros [Hc|Hc]; eapply Hk in Hc; try done.
  - unfold claudie_labels. apply Forall_app. split; [by repeat constructor|]. destruct (GetDynamicNodePool np); [|constructor].
    apply Forall_app. split; [by repeat constructor|]. destruct (Dyn_Spot _); by repeat constructor.
  - unfold static_labels. destruct (GetStaticNodePool np); by repeat constructor.
Qed.

Lemma AllLabels_token np add tok v :
  plain_keys (NodePool_Labels np) → plain_keys add → AllLabels np add !! tok = Some v → token tok.
Proof.
  intros Hl Ha [Hc|[_ [(key & w & -> & _ & Hu)|[_ Hs]]]]%AllLabels_inv; [eapply const_token; eauto| |eapply const_token; eauto|done..].
  apply plain_token. unfold user_label in Hu. apply lookup_union_Some_raw in Hu as [Hu|[_ Hu]]; eauto.
Qed.

End labels.

(** *** A patch without errors *)

Lemma foldl_delete (ks : list string) (m : gmap string string) key :
  foldl (λ m k, delete k m) m ks !! key = if decide (key ∈ ks) then None else m !! key.
Proof.
  revert m. induction ks as [|k ks IH]; intros m; [by rewrite decide_False by apply not_elem_of_nil|]. simpl. rewrite IH.
  destruct (decide (key = k)) as [->|Hne].
  - rewrite (decide_True (P := k ∈ k :: ks)) by (by left). case_decide; [done|apply lookup_delete_eq].
  - rewrite lookup_delete_ne by done. apply decide_ext. rewrite elem_of_cons. naive_solver.
Qed.

Lemma elem_of_insert_taint t u ts : t ∈ insert_taint u ts ↔ t = u ∨ t ∈ ts.
Proof. induction ts as [|v ts IH]; simpl; [set_solver|]. destruct (taint_le u v); rewrite ?elem_of_cons, ?IH; naive_solver. Qed.

Lemma elem_of_sort_taints t ts : t ∈ sort_taints ts ↔ t ∈ ts.
Proof. induction ts as [|v ts IH]; [done|]. simpl. rewrite elem_of_insert_taint, IH. set_solver. Qed.

Lemma elem_of_compact t ts : t ∈ compact ts ↔ t ∈ ts.
Proof.
  induction ts as [|v ts IH]; [done|]. simpl. destruct ts as [|u ts]; [done|]. case_bool_decide as E.
  - subst u. rewrite IH. set_solver.
  - rewrite elem_of_cons, IH. set_solver.
Qed.

(** The taints the pool always has. *)
Definition own_taints (np : NodePool) : list Taint :=
  match GetDynamicNodePool np with
  | Some d => if Dyn_Spot d then [mkTaint SpotTaintKey SpotValue TaintEffectNoSchedule] else []
  | None => []
  end ++ (if NodePool_IsControl np then [mkTaint ControlPlane "" TaintEffectNoSchedule] else []).

Lemma elem_of_AllTaints np add t : t ∈ AllTaints np add ↔ t ∈ NodePool_Taints np ∨ t ∈ add ∨ t ∈ own_taints np.
Proof. unfold AllTaints, own_taints. rewrite elem_of_remove_dups, !elem_of_app. tauto. Qed.

(** What is removed is not added at the same time, and belongs to the user. *)
Record tidy (patch : KuberPatchNodes) (np : NodePool) : Prop := {
  tidy_labels : plain_keys (NodePool_Labels np);
  tidy_added : plain_keys (default ∅ (Add_Labels patch !! NodePool_Name np));
  tidy_removed : ∀ key, key ∈ default [] (Remove_Labels patch !! NodePool_Name np) →
    plain key ∧ default ∅ (Add_Labels patch !! NodePool_Name np) !! key = None ∧
    claudie_map np !! escape key = None ∧ static_map np !! escape key = None;
  tidy_annotations : ∀ key, key ∈ default [] (Remove_Annotations patch !! NodePool_Name np) →
    no_char tilde key = true ∧ key ≠ tags_key ∧ default ∅ (Add_Annotations patch !! NodePool_Name np) !! key = None;
  tidy_taints : ∀ t, t ∈ default [] (Remove_Taints patch !! NodePool_Name np) →
    (t ∉ default [] (Add_Taints patch !! NodePool_Name np)) ∧ (t ∉ own_taints np) }.

(** The commands that succeeded. *)
Definition successes (l : list KEvent) : list Command := omap (λ e, if decide (e.2.1 = Success) then Some e.1 else None) l.

Lemma successes_app l1 l2 : successes (l1 ++ l2) = successes l1 ++ successes l2.
Proof. apply omap_app. Qed.

Lemma run_all_successes `{Shell} kc cmds log log' :
  (0 ≤ Kc_MaxKubectlRetries kc)%Z → run_all kc cmds log = ([], log') → ∃ l, log' = log ++ l ∧ successes l = cmds.
Proof.
  intros Hkc. revert log. induction cmds as [|c cmds IH]; intros log; simpl.
  - intros [= <-]. exists []. by rewrite app_nil_r.
  - unfold mbind, K_bind. destruct (kubectl kc c log) as [a log1] eqn:Ea. destruct (run_all kc cmds log1) as [errs log2] eqn:Er.
    unfold mret, K_ret. destruct (succeeded a) eqn:Es; [|done]. intros [= -> <-]. apply bool_decide_eq_true in Es.
    apply kubectl_log in Ea as (l1 & -> & _ & _ & Hl1); [|done]. apply IH in Er as (l2 & -> & <-).
    exists (l1 ++ l2). rewrite app_assoc. split; [done|]. rewrite successes_app.
    destruct Hl1 as [[_ ?]|(l0 & -> & Hl0)]; [congruence|]. rewrite successes_app.
    assert (successes l0 = []) as ->. { clear -Hl0. induction Hl0 as [|e l He _ IH]; [done|]. simpl. by rewrite decide_False. }
    simpl. by rewrite decide_True.
Qed.

Section patched_labels.
Context `{RangeOrder} (patch : KuberPatchNodes) (np : NodePool).
Hypothesis Ht : tidy patch np.

Lemma patched_user_label key w :
  user_label (patched patch np) ∅ key = Some w →
  user_label np (default ∅ (Add_Labels patch !! NodePool_Name np)) key = Some w ∧
  (key ∉ default [] (Remove_Labels patch !! NodePool_Name np)).
Proof.
  unfold user_label. simpl. rewrite left_id by apply _. intros Hl. split.
  - apply lookup_union_Some_raw in Hl as [Hl|[Ha Hl]]; apply lookup_union_Some_raw; [by left|right; split; [done|]].
    rewrite foldl_delete in Hl. by case_decide.
  - intros Hin. apply lookup_union_Some_raw in Hl as [Hl|[Ha Hl]].
    + apply (tidy_removed _ _ Ht) in Hin as (_ & Hn & _). congruence.
    + rewrite foldl_delete, decide_True in Hl by done. done.
Qed.

Lemma plain_patched : plain_keys (NodePool_Labels (patched patch np)).
Proof.
  intros k v Hk. simpl in Hk. apply lookup_union_Some_raw in Hk as [Hk|[_ Hk]]; [by eapply (tidy_added _ _ Ht)|].
  rewrite foldl_delete in Hk. case_decide; [done|]. by eapply (tidy_labels _ _ Ht).
Qed.

(** A label of the patched state is one of those that are applied, and is
    not among the removed ones. *)
Lemma patched_label tok v :
  AllLabels (patched patch np) ∅ !! tok = Some v →
  AllLabels np (default ∅ (Add_Labels patch !! NodePool_Name np)) !! tok = Some v ∧
  ∀ key, key ∈ default [] (Remove_Labels patch !! NodePool_Name np) → escape key ≠ tok.
Proof.
  pose proof (tidy_labels _ _ Ht) as Hl. pose proof (tidy_added _ _ Ht) as Ha. pose proof (tidy_removed _ _ Ht) as Hr.
  intros Hv. apply AllLabels_inv in Hv as [Hc|[Hc Hv]]; [..|apply plain_patched|by intros k w ?%lookup_empty_Some].
  - change (claudie_map (patched patch np)) with (claudie_map np) in Hc. split; [by apply AllLabels_claudie|].
    intros key (_ & _ & Hn & _)%Hr E. congruence.
  - change (claudie_map (patched patch np)) with (claudie_map np) in Hc. change (static_map (patched patch np)) with (static_map np) in Hv.
    destruct Hv as [(key & w & -> & -> & [Hu Hn]%patched_user_label)|[Hu Hs]].
    + split; [by apply AllLabels_user|]. intros key' Hin E. apply escape_inj in E; [by subst key'|by apply Hr|].
      unfold user_label in Hu. apply lookup_union_Some_raw in Hu as [Hu|[_ Hu]]; eauto.
    + split; [|intros key (_ & _ & _ & Hn)%Hr E; congruence]. rewrite AllLabels_static; [done..|].
      intros key w Huser E. destruct (decide (key ∈ default [] (Remove_Labels patch !! NodePool_Name np))) as [Hin|Hin].
      * apply Hr in Hin as (_ & _ & _ & Hn). congruence.
      * apply (Hu key w); [|done]. unfold user_label in Huser |- *. simpl. rewrite left_id by apply _.
        apply lookup_union_Some_raw in Huser as [Huser|[Hn Huser]]; apply lookup_union_Some_raw; [by left|right; split; [done|]].
        by rewrite foldl_delete, decide_False.
Qed.

Lemma patched_taint t :
  t ∈ AllTaints (patched patch np) [] ↔
  t ∈ AllTaints np (default [] (Add_Taints patch !! NodePool_Name np)) ∧ (t ∉ default [] (Remove_Taints patch !! NodePool_Name np)).
Proof.
  pose proof (tidy_taints _ _ Ht t) as Hr. rewrite !elem_of_AllTaints. change (own_taints (patched patch np)) with (own_taints np).
  assert (E : t ∈ NodePool_Taints (patched patch np) ↔
    t ∈ default [] (Add_Taints patch !! NodePool_Name np) ∨ t ∈ NodePool_Taints np ∧ (t ∉ default [] (Remove_Taints patch !! NodePool_Name np))).
  { simpl. destruct (Add_Taints patch !! NodePool_Name np) as [ts|]; simpl.
    - rewrite elem_of_compact, elem_of_sort_taints, elem_of_app. unfold remove_taints. rewrite list_elem_of_filter. tauto.
    - unfold remove_taints. rewrite list_elem_of_filter. set_solver. }
  rewrite E. set_solver.
Qed.

End patched_labels.

Section effects.
Context `{RangeOrder} `{TagList}.
Variables (clusterID : string) (nps : list NodePool) (patch : KuberPatchNodes) (np : NodePool) (n : Node).
Hypothesis Huniq : NoDup (k8s_name clusterID <$> (nps ≫= NodePool_Nodes)).
Hypothesis Hnp : np ∈ nps.
Hypothesis Hn : n ∈ NodePool_Nodes np.
Hypothesis Ht : tidy patch np.
Variables (adds adds' rems' : list Command).
Hypothesis Hadds : all_additions clusterID patch nps = Ret (adds, []).
Hypothesis Hadds' : adds' ≡ₚ adds.
Hypothesis Hrems' : rems' ≡ₚ nps ≫= removals clusterID patch.

Definition this : string := k8s_name clusterID n.

Lemma addition_target m p node c : addition m p node c → target c = Some node.
Proof. by destruct 1. Qed.

Lemma adds_inv c : c ∈ adds' → ∃ np' n', np' ∈ nps ∧ n' ∈ NodePool_Nodes np' ∧ addition patch np' (k8s_name clusterID n') c.
Proof.
  rewrite Hadds'. intros (np' & cs & Hin & Ha & Hc)%(all_additions_spec _ _ _ _ Hadds).
  apply additions_spec in Ha as [_ Ha]. apply Ha in Hc as (n' & Hn' & Hadd). by exists np', n'.
Qed.

Lemma adds_of_this c : c ∈ adds' → target c = Some this → addition patch np this c.
Proof.
  intros (np' & n' & Hin & Hn' & Ha)%adds_inv Htg. rewrite (addition_target _ _ _ _ Ha) in Htg. injection Htg as E.
  assert (np' = np) as -> by (by eapply pool_of_node). by rewrite <- E.
Qed.

Lemma adds_has c : addition patch np this c → (∀ r b id os, c ≠ KubectlPatch r b (ProviderID id) os) → c ∈ adds'.
Proof.
  intros Ha Hp. rewrite Hadds'. destruct (all_additions_pool _ _ _ _ _ Hadds Hnp) as [cs Hcs].
  apply (all_additions_spec _ _ _ _ Hadds). exists np, cs. split_and!; [done..|]. apply additions_spec in Hcs as [_ Hcs]. by eapply Hcs.
Qed.

Lemma rems_of_this c :
  c ∈ rems' → target c = Some this →
  (∃ key, key ∈ default [] (Remove_Labels patch !! NodePool_Name np) ∧
          c = KubectlPatch "node" this (JsonPatch "remove" (String.append label_path (escape key)) None) json) ∨
  (∃ key, key ∈ default [] (Remove_Annotations patch !! NodePool_Name np) ∧
          c = KubectlPatch "node" this (JsonPatch "remove" (String.append annotation_path (escape key)) None) json) ∨
  (∃ t, t ∈ default [] (Remove_Taints patch !! NodePool_Name np) ∧ c = KubectlTaintRemove this t).
Proof.
  rewrite Hrems'. intros (np' & Hc & Hin)%list_elem_of_bind Htg. apply elem_of_removals in Hc as (n' & Hn' & Hc).
  assert (E : k8s_name clusterID n' = this) by (destruct Hc as [(? & _ & ->)|[(? & _ & ->)|(? & _ & ->)]]; by injection Htg).
  assert (np' = np) as -> by (by eapply pool_of_node). by rewrite <- E.
Qed.

Lemma rems_has c : c ∈ removals clusterID patch np → c ∈ rems'.
Proof. intros Hc. rewrite Hrems'. apply list_elem_of_bind. eauto. Qed.

Lemma labels_applied x tok v :
  AllLabels (patched patch np) ∅ !! tok = Some v → KN_Labels (after this (after this x adds') rems') !! unescape tok = Some v.
Proof.
  intros [Hv Hr]%patched_label; [|done]. pose proof (AllLabels_token _ _ _ _ (tidy_labels _ _ Ht) (tidy_added _ _ Ht) Hv) as Htok.
  destruct (after_field this (λ x, KN_Labels x !! unescape tok) (label_effect (unescape tok)) (Some v) x adds') as [H1 _].
  - intros c y _. apply label_effect_spec.
  - intros c Hc Htg. apply adds_of_this in Hc; [|done]. destruct Hc as [|m Hm|tok' v' Hv'|]; simpl; try by left.
    rewrite pointed_below. case_bool_decide as E; [right|by left]. injection E as E.
    pose proof (AllLabels_token _ _ _ _ (tidy_labels _ _ Ht) (tidy_added _ _ Ht) Hv') as Htok'.
    assert (tok' = tok) as -> by (by rewrite <- Htok, <- Htok', E). congruence.
  - destruct (after_field this (λ x, KN_Labels x !! unescape tok) (label_effect (unescape tok)) None (after this x adds') rems') as [_ H2].
    + intros c y _. apply label_effect_spec.
    + intros c Hc Htg. apply rems_of_this in Hc as [(key & _ & ->)|[(key & _ & ->)|(t & _ & ->)]]; [|by left|by left|done]. simpl.
      case_bool_decide; [by right|by left].
    + rewrite H2, H1; [done| |].
      * apply Exists_exists. eexists. split; [apply adds_has; [by apply add_label|done]|]. split; [done|]. simpl. by rewrite pointed_below, bool_decide_eq_true_2.
      * intros (c & Hc & Htg & He)%Exists_exists. apply rems_of_this in Hc as [(key & Hk & ->)|[(key & _ & ->)|(t & _ & ->)]]; [|done..].
        simpl in He. rewrite pointed_below in He. case_bool_decide as E; [|done]. injection E as E. apply (Hr key Hk).
        rewrite <- Htok, <- E. symmetry. apply (plain_token key). by apply (tidy_removed _ _ Ht).
Qed.

Lemma labels_removed x key :
  key ∈ default [] (Remove_Labels patch !! NodePool_Name np) → KN_Labels (after this (after this x adds') rems') !! key = None.
Proof.
  intros Hk. destruct (after_field this (λ x, KN_Labels x !! key) (label_effect key) None (after this x adds') rems') as [H1 _].
  - intros c y _. apply label_effect_spec.
  - intros c Hc Htg. apply rems_of_this in Hc as [(key' & _ & ->)|[(key' & _ & ->)|(t & _ & ->)]]; [|by left|by left|done]. simpl.
    case_bool_decide; [by right|by left].
  - apply H1. apply Exists_exists. eexists. split.
    + apply rems_has, elem_of_removals. exists n. split; [done|]. left. eauto.
    + split; [done|]. simpl. rewrite pointed_below, bool_decide_eq_true_2; [done|]. f_equal. apply unescape_escape. by apply (tidy_removed _ _ Ht).
Qed.

Lemma taints_applied x t : t ∈ KN_Taints (after this (after this x adds') rems') ↔ t ∈ AllTaints (patched patch np) [].
Proof.
  rewrite patched_taint by done. rewrite after_remove_taints.
  2: { intros c Hc. rewrite Hrems' in Hc. apply list_elem_of_bind in Hc as (np' & Hc & _).
       by apply elem_of_removals in Hc as (n' & _ & [(? & _ & ->)|[(? & _ & ->)|(? & _ & ->)]]). }
  set (ts := AllTaints np _). destruct (after_field this KN_Taints taints_effect ts x adds') as [H1 _].
  - intros c y Hc. apply taints_effect_spec. intros m u ->. apply adds_inv in Hc as (? & ? & _ & _ & Ha). inversion Ha.
  - intros c Hc Htg. apply adds_of_this in Hc; [|done]. destruct Hc; try (by left). by right.
  - rewrite H1; [|apply Exists_exists; eexists; split; [apply adds_has; [apply add_taints|done]|done]].
    split; intros [Hin Hr]; (split; [done|]); intros Hx; apply Hr.
    + apply rems_has, elem_of_removals. exists n. split; [done|]. do 2 right. eauto.
    + apply rems_of_this in Hx as [(? & _ & ?)|[(? & _ & ?)|(u & Hu & E)]]; [done|done| |done]. by injection E as ->.
Qed.

Lemma annotations_applied x key v :
  NodePool_Annotations (patched patch np) !! key = Some v → key ≠ tags_key →
  KN_Annotations (after this (after this x adds') rems') !! key = Some v.
Proof.
  intros Hv Hne. simpl in Hv. destruct (all_additions_pool _ _ _ _ _ Hadds Hnp) as [cs Hcs]. apply additions_spec in Hcs as [[m Hm] _].
  assert (Hnr : key ∉ default [] (Remove_Annotations patch !! NodePool_Name np)).
  { intros Hin. apply lookup_union_Some_raw in Hv as [Hv|[_ Hv]].
    - apply (tidy_annotations _ _ Ht) in Hin as (_ & _ & E). congruence.
    - by rewrite foldl_delete, decide_True in Hv. }
  assert (Hmv : m !! key = Some v).
  { unfold pool_annotations in Hm. destruct (Zone np); simpl in Hm; [|done..]. injection Hm as Hm.
    assert (Hu : (default ∅ (Add_Annotations patch !! NodePool_Name np) ∪ NodePool_Annotations np) !! key = Some v).
    { apply lookup_union_Some_raw in Hv as [Hv|[Hv1 Hv2]]; apply lookup_union_Some_raw; [by left|right; split; [done|]].
      by rewrite foldl_delete, decide_False in Hv2. }
    destruct (NodePool_IsControl np); [by injection Hm as <-|]. destruct (decode_tags _); [|done]. injection Hm as <-.
    by rewrite lookup_insert_ne. }
  destruct (after_field this (λ x, KN_Annotations x !! key) (annotation_effect key) (Some v) x adds') as [H1 _].
  - intros c y _. apply annotation_effect_spec.
  - intros c Hc Htg. apply adds_of_this in Hc; [|done]. destruct Hc as [|m' Hm'|tok' v' Hv'|]; try (by left).
    right. simpl. assert (m' = m) as -> by congruence. by rewrite Hmv.
  - destruct (after_field this (λ x, KN_Annotations x !! key) (annotation_effect key) None (after this x adds') rems') as [_ H2].
    + intros c y _. apply annotation_effect_spec.
    + intros c Hc Htg. apply rems_of_this in Hc as [(key' & _ & ->)|[(key' & _ & ->)|(t & _ & ->)]]; [by left| |by left|done]. simpl.
      case_bool_decide; [by right|by left].
    + rewrite H2, H1; [done| |].
      * apply Exists_exists. eexists. split; [apply adds_has; [by apply add_annotations|done]|]. split; [done|]. simpl. by rewrite Hmv.
      * intros (c & Hc & Htg & He)%Exists_exists. apply rems_of_this in Hc as [(key' & _ & ->)|[(key' & Hk & ->)|(t & _ & ->)]]; [done| |done..].
        simpl in He. rewrite pointed_below in He. case_bool_decide as E; [|done]. injection E as E.
        rewrite unescape_escape in E by (by apply (tidy_annotations _ _ Ht)). by subst key'.
Qed.

Lemma annotations_removed x key :
  key ∈ default [] (Remove_Annotations patch !! NodePool_Name np) →
  KN_Annotations (after this (after this x adds') rems') !! key = None.
Proof.
  intros Hk. destruct (after_field this (λ x, KN_Annotations x !! key) (annotation_effect key) None (after this x adds') rems') as [H1 _].
  - intros c y _. apply annotation_effect_spec.
  - intros c Hc Htg. apply rems_of_this in Hc as [(key' & _ & ->)|[(key' & _ & ->)|(t & _ & ->)]]; [by left| |by left|done]. simpl.
    case_bool_decide; [by right|by left].
  - apply H1. apply Exists_exists. eexists. split.
    + apply rems_has, elem_of_removals. exists n. split; [done|]. right. left. eauto.
    + split; [done|]. simpl. rewrite pointed_below, bool_decide_eq_true_2; [done|]. f_equal. apply unescape_escape.
      by apply (tidy_annotations _ _ Ht).
Qed.

End effects.

Section patch_correct.
Context `{RangeOrder} `{TagList} `{Shell} `{Interleaving}.

(** C28: A patch without errors makes the nodes match the state.  Whatever the
    order in which the concurrent commands ran and however often they were
    retried, afterwards every node has the labels and annotations the updated
    state of its pool asks for (but for the annotation claudie sets itself),
    the removed labels and annotations are gone, and its taints are exactly
    the ones of the state.  The patch of the pool is [tidy]: it does not remove
    what it adds or what claudie itself sets, and the label keys are ones the
    sanitiser leaves alone ([unsanitised_label_survives] shows that a removed
    label with another key stays); node names are distinct. *)
Theorem patched_nodes_match_state clusterID kc patch nps m log log' np n x :
  (0 ≤ Kc_MaxKubectlRetries kc)%Z → Patch clusterID kc patch nps = Ret m → m log = ([], log') →
  NoDup (k8s_name clusterID <$> (nps ≫= NodePool_Nodes)) → np ∈ nps → n ∈ NodePool_Nodes np → tidy patch np →
  ∃ l, log' = log ++ l ∧
    let x' := after (k8s_name clusterID n) x (successes l) in
    (∀ tok v, AllLabels (patched patch np) ∅ !! tok = Some v → KN_Labels x' !! unescape tok = Some v) ∧
    (∀ key, key ∈ default [] (Remove_Labels patch !! NodePool_Name np) → KN_Labels x' !! key = None) ∧
    (∀ key v, NodePool_Annotations (patched patch np) !! key = Some v → key ≠ tags_key → KN_Annotations x' !! key = Some v) ∧
    (∀ key, key ∈ default [] (Remove_Annotations patch !! NodePool_Name np) → KN_Annotations x' !! key = None) ∧
    (∀ t, t ∈ KN_Taints x' ↔ t ∈ AllTaints (patched patch np) []).
Proof.
  intros Hkc Hp Hm Huniq Hnp Hn Ht. unfold Patch in Hp. bind_inv Hp. destruct x0 as [adds errs]. simpl in Hp. injection Hp as <-.
  remember (nps ≫= removals clusterID patch) as rems eqn:Erems.
  unfold mbind, K_bind in Hm. destruct (run_all kc (interleave adds) log) as [e1 log1] eqn:E1.
  destruct (run_all kc (interleave rems) log1) as [e2 log2] eqn:E2.
  unfold mret, K_ret in Hm. cbv beta in Hm. injection Hm as [-> [-> ->]%app_eq_nil]%app_eq_nil <-.
  apply run_all_successes in E1 as (l1 & -> & Hl1); [|done]. apply run_all_successes in E2 as (l2 & -> & Hl2); [|done].
  exists (l1 ++ l2). rewrite app_assoc. split; [done|]. rewrite successes_app, Hl1, Hl2. unfold after. rewrite foldl_app.
  pose proof (interleave_perm adds) as Ha. pose proof (interleave_perm rems) as Hr. rewrite Erems in Hr at 2.
  split_and!; intros.
  - by eapply labels_applied.
  - by eapply labels_removed.
  - by eapply annotations_applied.
  - by eapply annotations_removed.
  - by eapply taints_applied.
Qed.

End patch_correct.

(** ** Labels that cannot be removed

    Labels are applied under their sanitised key but removed under the key of
    the manifest: a label with an upper case letter or an underscore stays. *)

Definition shouting : NodePool :=
  mkNodePool (NodePool_DynamicNodePool (Samples.dyn 1 None "t" "c1" "10.0.0.0/24")) "pool-0000001"
    [Samples.node "prod-abcdefg-pool-0000001-01" "1.1.1.1" worker] false {["My_Team" := "a"]} [] ∅ 22.

Definition remove_shouting : KuberPatchNodes := mkKuberPatchNodes ∅ ∅ ∅ ∅ ∅ {["pool-0000001" := ["My_Team"]]}.

Lemma unsanitised_label_survives x :
  let node := "pool-0000001-01" in
  KN_Labels (after node (after node x (labelNodePool "prod-abcdefg" shouting ∅)) (removals "prod-abcdefg" remove_shouting shouting))
    !! "my-team" = Some "a" ∧
  NodePool_Labels (patched remove_shouting shouting) = ∅.
Proof.
  split; [|by vm_compute].
  assert (Hr : removals "prod-abcdefg" remove_shouting shouting =
    [KubectlPatch "node" "pool-0000001-01" (JsonPatch "remove" "/metadata/labels/My_Team" None) json]) by (vm_compute; reflexivity).
  rewrite Hr. unfold after at 1. cbn [foldl]. unfold effect_on at 1. rewrite bool_decide_eq_true_2 by done. rewrite label_effect_spec.
  change (label_effect "my-team" (KubectlPatch "node" "pool-0000001-01" (JsonPatch "remove" "/metadata/labels/My_Team" None) json)) with (@None (option string)).
  destruct (after_field "pool-0000001-01" (λ x, KN_Labels x !! "my-team") (label_effect "my-team") (Some "a") x
    (labelNodePool "prod-abcdefg" shouting ∅)) as [H1 _].
  - intros c y _. apply label_effect_spec.
  - rewrite <- (Forall_forall (λ c, target c = Some "pool-0000001-01" → label_effect "my-team" c = None ∨ label_effect "my-team" c = Some (Some "a"))).
    vm_compute (labelNodePool _ _ _).
    repeat (apply Forall_cons; split; [intros _; first [left; vm_compute; reflexivity|right; vm_compute; reflexivity]|]). constructor.
  - apply H1. vm_compute (labelNodePool _ _ _).
    repeat first [apply Exists_cons_hd; split; [vm_compute; reflexivity|vm_compute; reflexivity]|apply Exists_cons_tl].
Qed.

(** ** Witness *)

Fixpoint bits (p : positive) : string :=
  match p with
  | xH => EmptyString
  | xO p => String tilde (bits p)
  | xI p => String slash (bits p)
  end.

Fixpoint unbits (s : string) : positive :=
  match s with
  | EmptyString => xH
  | String a s => if Ascii.eqb a tilde then xO (unbits s) else xI (unbits s)
  end.

Lemma unbits_bits p : unbits (bits p) = p.
Proof. induction p as [p IH|p IH|]; simpl; by rewrite ?IH. Qed.

Definition of_tag (t : Tag) : string + string := match t with TagString a => inl a | TagOther a => inr a end.
Definition to_tag (t : string + string) : Tag := match t with inl a => TagString a | inr a => TagOther a end.

Definition sample_tags : TagList.
Proof.
  refine {| decode_tags s := list_fmap _ _ to_tag <$> decode (A := list (string + string)) (unbits s);
            encode_tags l := bits (encode (of_tag <$> l)) |}.
  intros l. rewrite unbits_bits, countable.decode_encode. cbn [fmap option_fmap option_map]. f_equal.
  induction l as [|[a|a] l IH]; [done|..]; simpl; f_equal; exact IH.
Defined.

Definition in_order : Interleaving := {| interleave l := l; interleave_perm l := reflexivity _ |}.
Definition obedient : Shell := {| write_kubeconfig _ _ := None; sh _ _ := (Success, "") |}.

Definition labelled : NodePool :=
  mkNodePool (NodePool_Type Samples.ctrl) "ctrl-0000001" (NodePool_Nodes Samples.ctrl) true {["team" := "a"]} [] ∅ 22.
Definition retier : KuberPatchNodes :=
  mkKuberPatchNodes ∅ {["ctrl-0000001" := {["tier" := "gold"]}]} ∅ ∅ ∅ {["ctrl-0000001" := ["team"]]}.

Lemma retier_tidy : tidy retier labelled.
Proof.
  constructor.
  - change (plain_keys {["team" := "a"]}). intros k v [<- <-]%lookup_singleton_Some. by vm_compute.
  - change (plain_keys {["tier" := "gold"]}). intros k v [<- <-]%lookup_singleton_Some. by vm_compute.
  - intros key Hk. vm_compute in Hk. apply list_elem_of_singleton in Hk as ->. by vm_compute.
  - intros key []%elem_of_nil.
  - intros t []%elem_of_nil.
Qed.

Lemma patched_nodes_match_state_witness :
  let kc := mkKubectl "" 3 in
  ∃ m log', Patch (H0 := sample_tags) (H1 := obedient) (H2 := in_order) "prod-abcdefg" kc retier [labelled] = Ret m ∧ m [] = ([], log') ∧
    KN_Labels (after "ctrl-0000001-01" (mkKNode "" {["team" := "a"]} ∅ []) (successes log')) !! "team" = None.
Proof.
  intros kc. destruct (Patch (H0 := sample_tags) (H1 := obedient) (H2 := in_order) "prod-abcdefg" kc retier [labelled]) as [m|e|w] eqn:Ep;
    [|exfalso; vm_compute in Ep; discriminate Ep..].
  destruct (m []) as [errs log'] eqn:Em. assert (errs = []) as ->.
  { assert (Hb : match Patch (H0 := sample_tags) (H1 := obedient) (H2 := in_order) "prod-abcdefg" kc retier [labelled] with
                 | Ret m => bool_decide ((m []).1 = []) | _ => false end = true) by (vm_compute; reflexivity).
    rewrite Ep, Em in Hb. by apply bool_decide_eq_true in Hb. }
  exists m, log'. split_and!; [done..|].
  destruct (patched_nodes_match_state (H0 := sample_tags) (H1 := obedient) (H2 := in_order) "prod-abcdefg" kc retier [labelled] m [] log' labelled
    (Samples.node "ctrl-0000001-01" "1.1.1.1" apiEndpoint) (mkKNode "" {["team" := "a"]} ∅ [])) as (l & -> & _ & Hr & _);
    [done|done|done|by_decide|by left|by left|apply retier_tidy|]. apply (Hr "team"). by left.
Defined.

End NodePatch.
