(* ===== verification/Kuber.v ===== *)
(** * Kuber (services/kuber/internal/worker/service)

    The worker that configures a running kubernetes cluster: it removes and
    patches nodes, keeps the config maps of kubeadm and the storage classes of
    longhorn up to date, and deploys manifests.  Every pass starts from the
    shell [shell_at] of the calls made so far; generating files and decoding
    what kubectl prints is the parameter [KuberEnv]. *)

From stdpp Require Import base gmap strings list.
From S2P Require Import Prelude Spec SpecUtils Samples NodePools Consume Schedule Health Worker Kubectl NodeDeletion NodePatch.
Import NodePools Consume Schedule Health Worker Kubectl.

(** The parts of the kubeadm configuration that are changed. *)
Record KubeadmConfig := mkKubeadmConfig { certSANs : list string; controlPlaneEndpoint : option string }.

(** A kubeconfig; [None] for a missing list or an entry that is no cluster. *)
Record ClusterEntry := mkClusterEntry { Entry_Server : string; Entry_CA : string }.
Definition KubeConfig : Type := option (list (option ClusterEntry)).

(** The files rendered from templates/*.goyaml, by the data of their templates. *)
Record ScrapeCluster := mkScrapeCluster { Sc_Dynamic : list NodePool; Sc_Static : list NodePool; Sc_Roles : list Role }.

Inductive RenderedFile :=
| KubeletCSRApproverDeployment (ClusterName ProjectName ClusterID ProviderIPPrefixes : string)
| ScrapeConfigManifest (namespace : string) (LBClusters : list ScrapeCluster)
| StorageClassManifest (ZoneName StorageClassName : string)
| EnableClusterAutoscaler (IsAutoscaled : string).

Class KuberEnv := {
  shell_at : nat → Shell;
  node_tools : NodeTools;
  tag_list : TagList;
  interleaving : Interleaving;
  (** creating the directory of a pass, and rendering a template into it *)
  create_directory : nat → option string;
  generate : nat → RenderedFile → option string;
  (** the configuration in the kubeadm-config map, and the name of the
      temporary file the patched map is written to *)
  decode_kubeadm : string → KubeadmConfig + string;
  kubeadm_file : nat → string → KubeadmConfig → string + string;
  (** the kubeconfig in the cluster-info map, and the file of the patched map *)
  cluster_info_kubeconfig : string → string;
  decode_kubeconfig : string → KubeConfig + string;
  cluster_info_file : nat → string → list (option ClusterEntry) → string + string;
  (** the version label of the longhorn deployments *)
  longhorn_version : string → string + string;
  version_below : string → string → bool + string;
  (** the storage classes and their labels *)
  decode_storage_classes : string → option (list (string * gmap string string)) }.

Module Kuber.
Import NodeDeletion NodePatch.

Section tasks.
Context `{KuberEnv} `{RangeOrder}.

#[local] Existing Instances node_tools tag_list interleaving.

(** The answer of a computation that starts at the given call. *)
Definition answer {A} (t : nat) (m : Shell → K A) : A := fst (m (shell_at t) []).

(** The error of a command. *)
Definition run_error (t : nat) (kc : Kubectl) (c : Command) : option string :=
  if succeeded (answer t (λ s, kubectl (H := s) kc c)) then None else Some "kubectl failed".

Definition with_retries (k : K8Scluster) (n : Z) : Kubectl := mkKubectl (K8s_Kubeconfig k) n.

(** ** task_delete_nodes.go *)

Definition isControlNode (t : nat) (name kubeconfig : string) : bool + string :=
  let a := answer t (λ s, kubectl (H := s) (mkKubectl kubeconfig NoRetries) (KubectlGet "nodes" [name; "-ojson"])) in
  if succeeded a then
    match labels_of a.2 with
    | Some m => inl (bool_decide (is_Some (m !! "node-role.kubernetes.io/control-plane")))
    | None => inr "failed to unmarshal node output"
    end
  else inr "failed to output nodes".

Definition deleteNodes (t : nat) (ms ws : list Node) (k : K8Scluster) : option string :=
  match NewDeleter ms ws k with
  | inr e => Some e
  | inl d =>
      match answer t (λ s, NodeDeletion.DeleteNodes (H := s) (with_retries k 3) d) with
      | [] => None
      | errs => Some (String.concat newline errs)
      end
  end.

(** A node of a pool that is not in the state is removed from the cluster
    only, when its role there can be told. *)
Definition delete_drifted (tr : Tracker) (k : K8Scluster) (n : Node) : Tracker :=
  match isControlNode (Tr_Calls tr) (stripped (K8s_Id k) (Node_Name n)) (K8s_Kubeconfig k) with
  | inr _ => progressed tr (Tr_Task tr) 1
  | inl true => push_error (progressed tr (Tr_Task tr) 2) (deleteNodes (S (Tr_Calls tr)) [n] [] k)
  | inl false => push_error (progressed tr (Tr_Task tr) 2) (deleteNodes (S (Tr_Calls tr)) [] [n] k)
  end.

(** [&spec.Node{Name: fullname}] *)
Definition named_node (name : string) : Node := mkNode name "" "" worker "" Preparing 0 0.

Definition deleteFromState (tr : Tracker) (s : Clusters) (d : Delta) (k : K8Scluster) (withNodePool : bool) (nodepool : string)
    (nodes : list string) : Tracker :=
  let commit := λ nps, let k := set_K8s_NodePools k nps in
    commit_update (progressed tr (Task_Update (mkClusters (Some k) (LoadBalancers s)) d) 0) (Some k) [] in
  if withNodePool then commit (DeleteByName (K8s_NodePools k) nodepool)
  else match FindByName nodepool (K8s_NodePools k) with
       | Some _ => commit (update_nodepool nodepool (λ np, NodePools.DeleteNodes np nodes) (K8s_NodePools k))
       | None => match nodes with [] => tr | n :: _ => delete_drifted tr k (named_node n) end
       end.

Definition deleteNodesFromCluster (tr : Tracker) (k : K8Scluster) (kind : DeletedNodesKind) : outcome Tracker :=
  let delete := λ (control : bool) (ns : list Node),
    match ns with
    | [] => tr
    | _ => finish tr (if control then deleteNodes (Tr_Calls tr) ns [] k else deleteNodes (Tr_Calls tr) [] ns k)
    end in
  match kind with
  | Partial nodepool nodes _ =>
      match FindByName nodepool (K8s_NodePools k) with
      | Some np => Ret (delete (NodePool_IsControl np) nodes)
      | None => Ret (match nodes with [] => tr | n :: _ => delete_drifted tr k n end)
      end
  | Whole np => let* np := deref np in Ret (delete (NodePool_IsControl np) (NodePool_Nodes np))
  | DeletedNodes_nil => Ret tr
  end.

Definition DeleteNodes (tr : Tracker) : outcome Tracker :=
  match Tr_Task tr with
  | Task_Update s (Update_DeletedK8SNodes_ _ kind) => let* k := deref (K8S s) in deleteNodesFromCluster tr k kind
  | Task_Update s (Update_KDeleteNodes withNodePool nodepool nodes u) =>
      let* k := deref (K8S s) in
      Ret (deleteFromState tr s (Update_KDeleteNodes withNodePool nodepool nodes u) k withNodePool nodepool nodes)
  | _ => Ret tr
  end.

(** ** task_patch_nodes.go *)

Definition PatchNodes (tr : Tracker) : outcome Tracker :=
  let run := λ s k patch,
    let* m := Patch (H1 := shell_at (Tr_Calls tr)) (K8s_Id k) (with_retries k 3) patch (K8s_NodePools k) in
    match fst (m []) with
    | [] =>
        let k := set_K8s_NodePools k (patched patch <$> K8s_NodePools k) in
        Ret (commit_update (progressed tr (set_task_state (Tr_Task tr) (mkClusters (Some k) (LoadBalancers s))) 1) (Some k) [])
    | errs => Ret (finish tr (Some (String.concat newline errs)))
    end in
  match Tr_Task tr with
  | Task_Create s => let* k := deref (K8S s) in run s k (buildPatchAllNodes k)
  | Task_Update s ((Update_None_ | Update_KpatchNodes _ | Update_AddedK8SNodes_ _ _ _) as d) =>
      let* k := deref (K8S s) in
      match extractPatchFromUpdate k d with
      | None => Ret tr
      | Some patch => run s k patch
      end
  | _ => Ret tr
  end.

(** ** task_patch_kubeadm_cm.go *)

Definition PatchKubeadmConfigRetries : nat := 3.

(** The names the certificate of the API server is valid for. *)
Definition cert_sans (k : K8Scluster) (lbs : list LBcluster) : outcome (list string) :=
  let* ep := match FindAssignedLbApiEndpoint lbs with
             | None => Ret ""
             | Some lb => let* d := deref (LB_Dns lb) in Ret (DNS_Endpoint d)
             end in
  Ret (if bool_decide (ep = "") then Control (K8s_NodePools k) ≫= λ np, Node_Public <$> NodePool_Nodes np else [ep]).

(** The changes of [patchKubeadmConfigMap]; [net.JoinHostPort] of an IPv4
    address or a host name. *)
Definition patch_config (sans : list string) (c : KubeadmConfig) : outcome KubeadmConfig :=
  match controlPlaneEndpoint c with
  | None => Ret (mkKubeadmConfig sans None)
  | Some _ => let* first := index sans 0 in Ret (mkKubeadmConfig sans (Some (String.append first ":6443")))
  end.

(** One attempt; an error is retried. *)
Definition patch_kubeadm_once (t : nat) (k : K8Scluster) (sans : list string) : outcome (option string) :=
  let a := answer t (λ s, kubectl (H := s) (with_retries k 1) (KubectlGet "cm kubeadm-config" ["-oyaml"; "-n kube-system"])) in
  if negb (succeeded a) then Ret (Some "kubectl failed")
  else if bool_decide (a.2 = "") then Ret (Some "received empty kubeadm config map")
  else match decode_kubeadm a.2 with
       | inr e => Ret (Some e)
       | inl c =>
           let* c := patch_config sans c in
           Ret (match kubeadm_file t a.2 c with
                | inr e => Some e
                | inl file => run_error (S t) (with_retries k NoRetries) (KubectlApply file ["-n kube-system"])
                end)
       end.

Fixpoint patch_kubeadm (retries t : nat) (err : option string) (k : K8Scluster) (sans : list string) : outcome (option string) :=
  match retries with
  | O => Ret err
  | S n =>
      let* e := patch_kubeadm_once t k sans in
      match e with
      | None => Ret None
      | Some e => patch_kubeadm n (2 + t) (Some e) k sans
      end
  end.

Definition PatchKubeadmCM (tr : Tracker) : outcome Tracker :=
  match Tr_Task tr with
  | Task_Update s _ =>
      let* k := deref (K8S s) in
      match create_directory (Tr_Calls tr) with
      | Some e => Ret (finish tr (Some e))
      | None =>
          let* sans := cert_sans k (LoadBalancers s) in
          let* e := patch_kubeadm PatchKubeadmConfigRetries (Tr_Calls tr) None k sans in
          Ret (push_error (progressed tr (Tr_Task tr) (2 * PatchKubeadmConfigRetries)) e)
      end
  | _ => Ret tr
  end.

(** ** task_patch_cluster_info_cm.go *)

(** The type assertions panic on other documents. *)
Definition first_cluster (c : KubeConfig) : outcome (option (ClusterEntry * list (option ClusterEntry))) :=
  match c with
  | None => Panic "interface conversion: interface is nil, not list"
  | Some [] => Ret None
  | Some (None :: _) => Panic "interface conversion: interface is nil, not map"
  | Some (Some e :: rest) => Ret (Some (e, rest))
  end.

(** Only the server and the certificate authority are replaced. *)
Definition patch_cluster_info (new old : KubeConfig) : outcome (list (option ClusterEntry) + string) :=
  let* n := first_cluster new in
  match n with
  | None => Ret (inr "kubeconfig provided with the kubernetes cluster in the task has no clusters")
  | Some (e, _) =>
      let* o := first_cluster old in
      Ret (match o with
           | None => inr "config-map kubeconfig has no clusters"
           | Some (_, rest) => inl (Some e :: rest)
           end)
  end.

Definition patchClusterInfoCM (t : nat) (k : K8Scluster) : outcome (option string) :=
  let a := answer t (λ s, kubectl (H := s) (with_retries k 0) (KubectlGet "cm cluster-info" ["-ojson"; "-n kube-public"])) in
  if negb (succeeded a) then Ret (Some "kubectl failed")
  else match decode_kubeconfig (K8s_Kubeconfig k), decode_kubeconfig (cluster_info_kubeconfig a.2) with
       | inr e, _ | _, inr e => Ret (Some e)
       | inl new, inl old =>
           let* c := patch_cluster_info new old in
           Ret (match c with
                | inr e => Some e
                | inl c => match cluster_info_file t a.2 c with
                           | inr e => Some e
                           | inl file => run_error (S t) (with_retries k 0) (KubectlApply file ["-n kube-public"])
                           end
                end)
       end.

Definition PatchClusterInfoCM (tr : Tracker) : outcome Tracker :=
  match Tr_Task tr with
  | Task_Update s _ =>
      let* k := deref (K8S s) in
      match create_directory (Tr_Calls tr) with
      | Some e => Ret (finish tr (Some e))
      | None => let* e := patchClusterInfoCM (Tr_Calls tr) k in Ret (push_error (progressed tr (Tr_Task tr) 2) e)
      end
  | _ => Ret tr
  end.

(** ** Manifests *)

(** A pass that applies something to the cluster of a task that builds one. *)
Definition on_cluster (tr : Tracker) (n : nat) (f : K8Scluster → option string) : outcome Tracker :=
  match builds (Tr_Task tr) with
  | None => Ret tr
  | Some (s, _) => let* k := deref (K8S s) in Ret (push_error (progressed tr (Tr_Task tr) n) (f k))
  end.

(** task_cilium_rollout_restart.go *)
Definition CiliumRolloutRestart (tr : Tracker) : outcome Tracker :=
  on_cluster tr 1 (λ k,
    if bool_decide (K8s_Kubeconfig k = "") then None
    else run_error (Tr_Calls tr) (with_retries k 3) (RolloutRestart "daemonset" ["cilium"; "-n kube-system"])).

(** The setting of templates/enable-ca.goyaml. *)
Definition setting_manifest (isAutoscaled : string) : string :=
  String.concat newline
    ["---"; "# Enable CA functionality"; "apiVersion: longhorn.io/v1beta2"; "kind: Setting"; "metadata:";
     "  name: kubernetes-cluster-autoscaler-enabled"; "  namespace: longhorn-system"; String.append "value: " (quoted isAutoscaled)].

(** The error of the first of the steps that fails. *)
Definition first_error (a b : option string) : option string := match a with Some e => Some e | None => b end.

(** task_enable_disable_longhorn_ca.go *)
Definition apply_longhorn_ca (isAutoscaled : string) (tr : Tracker) : outcome Tracker :=
  on_cluster tr 1 (λ k,
    first_error (create_directory (Tr_Calls tr))
      (first_error (generate (Tr_Calls tr) (EnableClusterAutoscaler isAutoscaled))
         (run_error (Tr_Calls tr) (with_retries k 3) (KubectlApplyString (setting_manifest isAutoscaled) [])))).

Definition EnableLonghornCA : Tracker → outcome Tracker := apply_longhorn_ca "true".
Definition DisableLonghornCA : Tracker → outcome Tracker := apply_longhorn_ca "false".

(** task_deploy_kubelet-csr-approver.go, internal/kubelet-csr-approver *)
Definition DeployKubeletCSRApprover (projectName : string) (tr : Tracker) : outcome Tracker :=
  on_cluster tr 1 (λ k,
    first_error (create_directory (Tr_Calls tr))
      (first_error (generate (Tr_Calls tr) (KubeletCSRApproverDeployment (cluster_name k) projectName (K8s_Id k) (K8s_Network k)))
         (run_error (Tr_Calls tr) (with_retries k 3) (KubectlApply "kubelet-csr-approver.yaml" [""])))).

(** task_deploy_storage_longhorn.go *)
Definition minVersionForDrainPolicy : string := "v1.9.2".
Definition nodeDrainPolicyValue : string := "block-for-eviction-if-contains-last-replica".

Definition getCurrentLonghornVersion (t : nat) (k : K8Scluster) : string + string :=
  let a := answer t (λ s, kubectl (H := s) (with_retries k 3)
             (KubectlGet "deployment" ["-n"; "longhorn-system"; "-l"; "app.kubernetes.io/name=longhorn"; "-o"; "json"])) in
  if negb (succeeded a) then inr "kubectl failed"
  else if Contains a.2 "No resources found" then inl "" else longhorn_version a.2.

Definition isVersionBelow (version target : string) : bool + string :=
  if bool_decide (version = "") then inl false else version_below version target.

(** Whether the drain policy is set before the upgrade; its error is only
    logged. *)
Definition patches_drain_policy (t : nat) (k : K8Scluster) : bool :=
  match getCurrentLonghornVersion t k with
  | inr _ => false
  | inl v => if bool_decide (v = "") then false
             else match isVersionBelow v minVersionForDrainPolicy with inl b => b | inr _ => false end
  end.

Definition patchNodeDrainPolicy : Command :=
  KubectlPatch "setting.longhorn.io" "node-drain-policy"
    (MergeText (sprintf ["{"; quoted "value"; ":"; quoted nodeDrainPolicyValue; "}"])) ["-n"; "longhorn-system"; "--type=merge"].

(** The commands that are run until one fails. *)
Fixpoint run_in_order (t : nat) (kc : Kubectl) (cmds : list Command) : option string :=
  match cmds with
  | [] => None
  | c :: cmds => match run_error t kc c with Some e => Some e | None => run_in_order (S t) kc cmds end
  end.

Definition DeployLonghorn (tr : Tracker) : outcome Tracker :=
  on_cluster tr 4 (λ k,
    run_in_order (Tr_Calls tr + (if patches_drain_policy (Tr_Calls tr) k then 2 else 1)) (with_retries k 3)
      [KubectlApply "services/kuber/manifests/longhorn.yaml" []; KubectlApply "services/kuber/manifests/claudie-defaults.yaml" []]).

(** task_reconcile_storage_classes_longhorn.go *)
Definition defaultSC : string := "longhorn".
Definition storageClassLabel : string := "claudie.io/storage-class".

Definition currentClaudieStorageClasses (t : nat) (k : K8Scluster) : list string + string :=
  let a := answer t (λ s, kubectl (H := s) (with_retries k 3) (KubectlGet "sc" ["-o"; "json"])) in
  if negb (succeeded a) then inr "error while getting storage classes"
  else if Contains a.2 "No resources found" then inl []
  else match decode_storage_classes a.2 with
       | None => inr "error while unmarshalling kubectl output"
       | Some scs => inl (fst <$> filter (λ sc, is_Some (sc.2 !! storageClassLabel)) scs)
       end.

Definition zone_name (provider : string) : string := sanitise_String (String.append provider "-zone").
Definition storage_class (provider : string) : string := String.append "longhorn-" (zone_name provider).

(** One class per provider with a worker. *)
Definition desired_classes (nps : list NodePool) : list (string * string) :=
  omap (λ '(provider, nps), if existsb (λ np, negb (NodePool_IsControl np)) nps then Some (zone_name provider, storage_class provider) else None)
    (range "ReconcileLonghornStorageClasses" (ByProviderSpecName nps)).

Fixpoint apply_classes (t : nat) (k : K8Scluster) (scs : list (string * string)) : option string :=
  match scs with
  | [] => None
  | (zone, sc) :: scs =>
      match generate t (StorageClassManifest zone sc) with
      | Some e => Some e
      | None => match run_error t (with_retries k 3) (KubectlApply (String.append sc ".yaml") [""]) with
                | Some e => Some e
                | None => apply_classes (S t) k scs
                end
      end
  end.

Definition unused_classes (existing applied : list string) : list string :=
  filter (λ sc, sc ≠ defaultSC ∧ sc ∉ applied) existing.

Definition deleteUnused (t : nat) (k : K8Scluster) (existing applied : list string) : option string :=
  run_in_order t (with_retries k 3) ((λ sc, KubectlDeleteResource "sc" sc []) <$> unused_classes existing applied).

Definition reconcile_classes (t : nat) (k : K8Scluster) : option string :=
  match create_directory t with
  | Some e => Some e
  | None =>
      match currentClaudieStorageClasses t k with
      | inr e => Some e
      | inl current =>
          let desired := desired_classes (K8s_NodePools k) in
          match apply_classes (S t) k desired with
          | Some e => Some e
          | None => deleteUnused (S t + length desired) k current desired.*2
          end
      end
  end.

Definition ReconcileLonghornStorageClasses (tr : Tracker) : outcome Tracker :=
  on_cluster tr 1 (λ k, reconcile_classes (Tr_Calls tr) k).

(** task_store_scrape_config.go, task_remove_scrape_config.go, internal/scrape-config *)
Definition scrapeConfigNamespace : string := "monitoring".

Definition getData (lbs : list LBcluster) : list ScrapeCluster :=
  (λ lb, mkScrapeCluster (Dynamic (LB_NodePools lb)) (Static (LB_NodePools lb)) (LB_Roles lb)) <$> lbs.

Definition StoreScrapeConfig (tr : Tracker) : outcome Tracker :=
  match builds (Tr_Task tr) with
  | None => Ret tr
  | Some (s, _) =>
      let* k := deref (K8S s) in
      Ret (finish tr (first_error (generate (Tr_Calls tr) (ScrapeConfigManifest scrapeConfigNamespace (getData (LoadBalancers s))))
                        (run_error (Tr_Calls tr) (with_retries k 0) (KubectlApply "scrape-config-manifest.yaml" []))))
  end.

Definition RemoveScrapeConfig (tr : Tracker) : outcome Tracker :=
  match Tr_Task tr with
  | Task_Update s _ =>
      let* k := deref (K8S s) in
      Ret (finish tr (run_error (Tr_Calls tr) (with_retries k 3)
                        (KubectlDeleteResource "secret" "loadbalancers-scrape-config" ["-n"; scrapeConfigNamespace])))
  | _ => Ret tr
  end.

(** ** process_task.go *)

Definition kuber_pass (projectName : string) (kind : StageKuber_SubPassKind) (tr : Tracker) : outcome Tracker :=
  match kind with
  | CILIUM_RESTART => CiliumRolloutRestart tr
  | DELETE_NODES => DeleteNodes tr
  | PATCH_CLUSTER_INFO_CM => PatchClusterInfoCM tr
  | PATCH_KUBEADM => PatchKubeadmCM tr
  | PATCH_NODES => PatchNodes tr
  | REMOVE_LB_SCRAPE_CONFIG => RemoveScrapeConfig tr
  | DEPLOY_LONGHORN => DeployLonghorn tr
  | ENABLE_LONGHORN_CA => EnableLonghornCA tr
  | DISABLE_LONGHORN_CA => DisableLonghornCA tr
  | RECONCILE_LONGHORN_STORAGE_CLASSES => ReconcileLonghornStorageClasses tr
  | STORE_LB_SCRAPE_CONFIG => StoreScrapeConfig tr
  | DEPLOY_KUBELET_CSR_APPROVER => DeployKubeletCSRApprover projectName tr
  end.

Definition Kuber_ProcessTask (projectName : string) (cancelled : nat → bool) (task : Task) (passes : list (SubPass StageKuber_SubPassKind))
    : outcome TaskResult :=
  process_passes (kuber_pass projectName) cancelled task passes.

End tasks.

(** ** Every reply is accepted *)

Section accepted.
Context `{KuberEnv} `{RangeOrder}.

Lemma delete_drifted_ok k tr k' n : ok k tr → ok k (delete_drifted tr k' n).
Proof.
  intros Hok. unfold delete_drifted. assert (Hp : ∀ m, ok k (progressed tr (Tr_Task tr) m)) by (intros; apply progressed_ok; [done|apply Hok]).
  destruct (isControlNode _ _ _) as [[]|]; [by apply push_error_ok..|done].
Qed.

Lemma commit_pools_ok k tr s k' nps n :
  ok k tr → task_state (Tr_Task tr) = Some s → same_cluster k k' → lbs_of (cluster_name k) (LoadBalancers s) →
  ok k (commit_update (progressed tr (set_task_state (Tr_Task tr) (mkClusters (Some (set_K8s_NodePools k' nps)) (LoadBalancers s))) n)
          (Some (set_K8s_NodePools k' nps)) []).
Proof.
  intros Hok Hs Hk Hl. apply commit_update_ok; [|by intros ? [= <-]|apply lbs_of_nil].
  by apply (put_state_ok k tr s); [..|by intros ? [= <-]|].
Qed.

Lemma DeleteNodes_ok k tr tr' : ok k tr → DeleteNodes tr = Ret tr' → ok k tr'.
Proof.
  intros Hok. unfold DeleteNodes. destruct (Tr_Task tr) as [s|s d|s|] eqn:Et; try by intros [= <-].
  destruct (ok_state k tr s Hok) as [Hk Hl]; [by rewrite Et|]. destruct d; try by intros [= <-].
  - intros Hr. bind_inv Hr. apply deref_Ret in Hx. apply Hk in Hx. subst tr'. unfold deleteFromState.
    assert (Hc : ∀ nps, ok k (commit_update (progressed tr (Task_Update (mkClusters (Some (set_K8s_NodePools x nps)) (LoadBalancers s))
      (Update_KDeleteNodes withNodePool nodepool nodes unreachable)) 0) (Some (set_K8s_NodePools x nps)) [])).
    { intros nps. pose proof (commit_pools_ok k tr s x nps 0 Hok) as Hc. rewrite Et in Hc. by apply Hc. }
    destruct withNodePool; [apply Hc|]. destruct (FindByName _ _); [apply Hc|]. destruct nodes; [done|by apply delete_drifted_ok].
  - intros Hr. bind_inv Hr. unfold deleteNodesFromCluster in Hr.
    assert (Hf : ∀ (ns : list Node) e, ok k (match ns with [] => tr | _ => finish tr e end)) by (intros [] e; [done|by apply finish_ok]).
    destruct kind; [|destruct (FindByName _ _)|].
    + bind_inv Hr. subst tr'. apply Hf.
    + injection Hr as <-. apply Hf.
    + injection Hr as <-. destruct nodes; [done|by apply delete_drifted_ok].
    + by injection Hr as <-.
Qed.

Lemma PatchNodes_ok k tr tr' : ok k tr → PatchNodes tr = Ret tr' → ok k tr'.
Proof.
  intros Hok. unfold PatchNodes. pose proof (λ s k' nps, commit_pools_ok k tr s k' nps 1 Hok) as Hc.
  pose proof (λ e, finish_ok k tr (Some e) Hok) as Hf. destruct (Tr_Task tr) as [s|s d|s|] eqn:Et; try by intros [= <-].
  - destruct (ok_state k tr s Hok) as [Hk Hl]; [by rewrite Et|]. intros Hr. bind_inv Hr. apply deref_Ret in Hx. apply Hk in Hx.
    destruct (x0 []).1; injection Hr as <-; [by apply (Hc s)|apply Hf].
  - destruct (ok_state k tr s Hok) as [Hk Hl]; [by rewrite Et|]. destruct d; try by intros [= <-].
    all: intros Hr; bind_inv Hr; apply deref_Ret in Hx; apply Hk in Hx.
    all: try (destruct (FindByName _ _); [|by injection Hr as <-]); bind_inv Hr.
    all: destruct (x0 []).1; injection Hr as <-; [by apply (Hc s)|apply Hf].
Qed.

Lemma on_cluster_ok k tr n f tr' : ok k tr → on_cluster tr n f = Ret tr' → ok k tr'.
Proof.
  intros Hok. unfold on_cluster. destruct (builds _) as [[s d]|]; [|by intros [= <-]]. intros Hr. bind_inv Hr. subst tr'.
  apply push_error_ok, progressed_ok; [done|apply Hok].
Qed.

Lemma kuber_pass_ok projectName k kind tr tr' : ok k tr → kuber_pass projectName kind tr = Ret tr' → ok k tr'.
Proof.
  intros Hok. assert (Hp : ∀ m e, ok k (push_error (progressed tr (Tr_Task tr) m) e)).
  { intros. apply push_error_ok, progressed_ok; [done|apply Hok]. }
  destruct kind; simpl; try (by apply on_cluster_ok).
  - by apply DeleteNodes_ok.
  - unfold PatchClusterInfoCM. destruct (Tr_Task tr) eqn:Et; try by intros [= <-]. intros Hr. bind_inv Hr.
    destruct (create_directory _); [injection Hr as <-; exact (finish_ok _ _ (Some _) Hok)|]. bind_inv Hr. subst tr'. apply Hp.
  - unfold PatchKubeadmCM. destruct (Tr_Task tr) eqn:Et; try by intros [= <-]. intros Hr. bind_inv Hr.
    destruct (create_directory _); [injection Hr as <-; exact (finish_ok _ _ (Some _) Hok)|]. bind_inv Hr. subst tr'. apply Hp.
  - unfold RemoveScrapeConfig. destruct (Tr_Task tr) eqn:Et; try by intros [= <-]. intros Hr. bind_inv Hr. subst tr'. by apply finish_ok.
  - unfold StoreScrapeConfig. destruct (builds _) as [[s d]|]; [|by intros [= <-]]. intros Hr. bind_inv Hr. subst tr'. by apply finish_ok.
  - by apply PatchNodes_ok.
Qed.

End accepted.

(** ** What the config map and the storage classes say *)

(** Without a load balancer the endpoint of the control plane becomes the
    first node of the first control pool, whichever node is the endpoint. *)
Lemma kubeadm_endpoint_first_node k lbs sans c np nps n ns e :
  FindAssignedLbApiEndpoint lbs = None → Control (K8s_NodePools k) = np :: nps → NodePool_Nodes np = n :: ns →
  controlPlaneEndpoint c = Some e → cert_sans k lbs = Ret sans →
  patch_config sans c = Ret (mkKubeadmConfig sans (Some (String.append (Node_Public n) ":6443"))).
Proof.
  intros Hl Hc Hn He. unfold cert_sans. rewrite Hl, Hc. simpl. rewrite Hn. intros [= <-]. unfold patch_config. by rewrite He.
Qed.

(** With a load balancer both are its host name. *)
Lemma kubeadm_endpoint_load_balancer k lbs lb dns c e :
  FindAssignedLbApiEndpoint lbs = Some lb → LB_Dns lb = Some dns → DNS_Endpoint dns ≠ "" → controlPlaneEndpoint c = Some e →
  ∃ sans, cert_sans k lbs = Ret sans ∧
          patch_config sans c = Ret (mkKubeadmConfig [DNS_Endpoint dns] (Some (String.append (DNS_Endpoint dns) ":6443"))).
Proof.
  intros Hl Hd Hne He. unfold cert_sans. rewrite Hl. simpl. rewrite Hd. simpl. rewrite bool_decide_eq_false_2 by done.
  eexists. split; [reflexivity|]. unfold patch_config. by rewrite He.
Qed.

(** The endpoint was moved to the second node; the map names the first. *)
Example kubeadm_endpoint_mismatch :
  let n1 := Samples.node "ctrl-0000001-01" "1.1.1.1" master in
  let n2 := Samples.node "ctrl-0000001-02" "1.1.1.2" apiEndpoint in
  let k := Samples.k8s_with [set_NodePool_Nodes Samples.ctrl [n1; n2]; Samples.workers] in
  snd <$> FindApiEndpoint (K8s_NodePools k) = Some n2 ∧
  (let* sans := cert_sans k [] in patch_config sans (mkKubeadmConfig [] (Some "1.1.1.2:6443")))
  = Ret (mkKubeadmConfig ["1.1.1.1"; "1.1.1.2"] (Some "1.1.1.1:6443")).
Proof. by vm_compute. Qed.

(** The storage class of the static nodes selects a tag no node has. *)
Example static_zone_mismatch :
  Zone Samples.workers = Ret "STATIC_PROVIDER-zone" ∧ zone_name "STATIC_PROVIDER" = "static-provider-zone".
Proof. by vm_compute. Qed.

(** ** Storage classes *)

(** What longhorn keeps: the default class is never deleted, and every other
    class of claudie that is deleted belongs to no provider with a worker. *)
Lemma unused_classes_spec existing applied sc :
  sc ∈ unused_classes existing applied ↔ sc ∈ existing ∧ sc ≠ defaultSC ∧ sc ∉ applied.
Proof. unfold unused_classes. rewrite list_elem_of_filter. tauto. Qed.

End Kuber.
