(* ===== verification/Pipeline.v ===== *)
(** * A task through its pipeline

    The stages of a task are handled one after the other by the worker each
    stage names, and the manager consumes every reply before the next stage
    starts ([ProcessTask] of the manager, [ProcessTask] of the four workers).
    This file composes the models of the workers with the manager's side. *)

From stdpp Require Import base gmap strings list relations.
From S2P Require Import Prelude Spec SpecUtils Samples NodePools Consume Store ProcessTask Schedule Worker Tofu Terraformer Ansibler KubeEleven Kubectl NodeDeletion NodePatch Kuber.
Import NodePools Consume ProcessTask Schedule Worker TofuBuild Terraformer Ansibler KubeEleven NodeDeletion NodePatch Kuber.

(** What the tools of the workers answer while one stage is handled. *)
Record Tools := mkTools {
  tofu_tool : Tofu;
  ansible_tool : Ansible;
  kubeone_tool : KubeOne;
  kuber_tool : KuberEnv;
  stage_cancelled : nat → bool }.

Module Pipeline.

Section pipeline.
Context `{RangeOrder} (projectName : string).

(** The reply of the worker a stage names. *)
Definition worker_reply (w : Tools) (st : Stage) (te : Task) : outcome TaskResult :=
  match st with
  | Stage_Terraformer _ passes => Terraformer_ProcessTask (H := tofu_tool w) projectName (stage_cancelled w) te passes
  | Stage_Ansibler _ passes => Ansibler_ProcessTask (H := ansible_tool w) (stage_cancelled w) te passes
  | Stage_KubeEleven _ passes => KubeEleven_ProcessTask (H := kubeone_tool w) (stage_cancelled w) te passes
  | Stage_Kuber _ passes => Kuber_ProcessTask (H := kuber_tool w) projectName (stage_cancelled w) te passes
  end.

Definition stage_level (st : Stage) : ErrorLevel :=
  match st with
  | Stage_Terraformer d _ | Stage_Ansibler d _ | Stage_KubeEleven d _ | Stage_Kuber d _ => Level d
  end.

(** How a pipeline ends: all stages are done; a stage failed and waits to be
    repeated; the manager refused a reply; a worker or the manager panicked. *)
Inductive PipelineEnd :=
| Finished (te : Task)
| Errored (te : Task) (descr : string)
| Refused (te : Task) (r : TaskResult) (err : string)
| WorkerPanicked (te : Task)
| ManagerPanicked (te : Task) (r : TaskResult).

(** The stages from the [i]-th on.  The result of a stage is consumed also
    when the stage failed partially; whether the next stage starts then is
    decided by the level of the stage. *)
Fixpoint run_pipeline (world : nat → Tools) (i : nat) (stages : list Stage) (te : Task) : PipelineEnd :=
  match stages with
  | [] => Finished te
  | st :: stages =>
      match worker_reply (world i) st te with
      | Ret r =>
          match consume te (TaskResult_Result_ r) with
          | Ret (te', None) =>
              match TaskResult_Error r, stage_level st with
              | Some (_, descr), ERROR_FATAL => Errored te' descr
              | _, _ => run_pipeline world (S i) stages te'
              end
          | Ret (te', Some e) => Refused te r e
          | Fail _ | Panic _ => ManagerPanicked te r
          end
      | Fail _ | Panic _ => WorkerPanicked te
      end
  end.

(** ** Every reply is accepted *)

Lemma worker_report_ok w st te k r : task_for k te → worker_reply w st te = Ret r → report_ok k r.
Proof.
  intros Ht. destruct st; apply process_passes_report_ok; try done.
  - intros. by eapply run_pass_ok.
  - intros. by eapply ansibler_pass_ok.
  - intros. by eapply kube_eleven_pass_ok.
  - intros. by eapply kuber_pass_ok.
Qed.

(** ** Who clears

    Only the terraformer clears, and only what its task destroys. *)

Definition clears (r : TaskResult) : Prop := ∃ c, TaskResult_Result_ r = TaskResult_Clear c.

Lemma commit_no_clear r u : ¬ clears r → ¬ clears (InFlightUpdate_Commit r u).
Proof. unfold clears, InFlightUpdate_Commit. intros Hn [c Hc]. apply Hn. exists c. by destruct (TaskResult_Result_ r). Qed.

Lemma push_error_result tr err : Tr_Result (push_error tr err) = Tr_Result tr.
Proof. by destruct err. Qed.

(** Follow every branch of a pass; each ends in the tracker, with errors or
    more calls, or in an update. *)
Ltac no_clear :=
  repeat first
    [ assumption
    | progress simplify_eq/=
    | match goal with
      | Hr : bindO ?m _ = Ret _ |- _ => destruct m; simpl in Hr
      | Hr : context [match ?x with _ => _ end] |- _ => destruct x
      | |- ¬ clears (InFlightUpdate_Commit _ _) => apply commit_no_clear
      | |- context [Tr_Result (push_error _ _)] => rewrite push_error_result
      | |- context [match ?x with _ => _ end] => destruct x
      end ].

Lemma kube_eleven_no_clear `{KubeOne} kind tr tr' :
  kube_eleven_pass kind tr = Ret tr' → ¬ clears (Tr_Result tr) → ¬ clears (Tr_Result tr').
Proof. intros Hr Hn. destruct kind; simpl in Hr; unfold Reconcile, Destroy in Hr; no_clear. Qed.

Lemma kuber_no_clear `{KuberEnv} kind tr tr' :
  kuber_pass projectName kind tr = Ret tr' → ¬ clears (Tr_Result tr) → ¬ clears (Tr_Result tr').
Proof.
  intros Hr Hn. destruct kind; simpl in Hr;
  unfold CiliumRolloutRestart, DeleteNodes, PatchClusterInfoCM, PatchKubeadmCM, PatchNodes, RemoveScrapeConfig, DeployLonghorn,
    EnableLonghornCA, DisableLonghornCA, ReconcileLonghornStorageClasses, StoreScrapeConfig, DeployKubeletCSRApprover,
    apply_longhorn_ca, on_cluster, deleteNodesFromCluster, deleteFromState, delete_drifted, finish in Hr; no_clear.
Qed.

Lemma ansibler_no_clear `{Ansible} kind tr tr' :
  ansibler_pass kind tr = Ret tr' → ¬ clears (Tr_Result tr) → ¬ clears (Tr_Result tr').
Proof.
  intros Hr Hn. destruct kind; simpl in Hr;
  unfold MoveApiEndpoint, InstallNodeRequirements, InstallVPN, ReconcileLoadBalancers, RemoveUtilities, UpdateApiEndpoint,
    UpdateProxyEnvs, ClearProxyEnvs, CommitProxyEnvs, finish in Hr; no_clear.
Qed.

(** The delta of a task that removes nodes of a load balancer. *)
Definition pending (te : Task) : Prop :=
  ∃ h w np ns u, task_delta te = Some (Update_TfDeleteLoadBalancerNodes h w np ns u).

Lemma terraformer_no_clear `{Tofu} kind tr tr' :
  run_pass projectName kind tr = Ret tr' → pending (Tr_Task tr) ∧ ¬ clears (Tr_Result tr) →
  pending (Tr_Task tr') ∧ ¬ clears (Tr_Result tr').
Proof.
  intros Hr [Hp Hn]. pose proof Hp as (h & w & np & ns & u & Hd). destruct (Tr_Task tr) as [s|s d|s|] eqn:Et; try done.
  simpl in Hd. injection Hd as ->.
  assert (Hp' : ∀ s', pending (Task_Update s' (Update_TfDeleteLoadBalancerNodes h w np ns u))) by (intros; do 5 eexists; reflexivity).
  destruct kind; simpl in Hr; unfold build, reconcileInfrastructure, destroy, reconcileApiPort, build_clusters, deleteLoadBalancerNodes, change_lb in Hr;
    rewrite Et in Hr.
  all: split; no_clear; try (rewrite Et; apply Hp').
  all: destruct o; apply Hp'.
Qed.

Lemma worker_no_clear w st te r : worker_reply w st te = Ret r → pending te → ¬ clears r.
Proof.
  intros Hr Hp. assert (H0 : ¬ clears (mkTaskResult None TaskResult_None_)) by (by intros [??]).
  destruct st; simpl in Hr.
  - apply (process_passes_keeps _ (λ te r, pending te ∧ ¬ clears r)) in Hr as (_ & _ & Hn); [done| |done|done].
    intros. by eapply terraformer_no_clear.
  - apply (process_passes_keeps _ (λ _ r, ¬ clears r)) in Hr as (_ & Hn); [done| |done|done]. intros. by eapply ansibler_no_clear.
  - apply (process_passes_keeps _ (λ _ r, ¬ clears r)) in Hr as (_ & Hn); [done| |done|done]. intros. by eapply kube_eleven_no_clear.
  - apply (process_passes_keeps _ (λ _ r, ¬ clears r)) in Hr as (_ & Hn); [done| |done|done]. intros. by eapply kuber_no_clear.
Qed.

Lemma same_cluster_sym k k' : same_cluster k k' → same_cluster k' k.
Proof. by intros [Hi Hn]. Qed.

Lemma task_for_same k k' te : same_cluster k k' → task_for k te → task_for k' te.
Proof. unfold task_for, same_cluster. by intros [-> ->]. Qed.

Lemma report_ok_same k k' r : same_cluster k k' → report_ok k r → report_ok k' r.
Proof. unfold report_ok, same_cluster. by intros [-> ->]. Qed.

Lemma lbs_of_filter name lbs (P : LBcluster → bool) : lbs_of name lbs → lbs_of name (delete_func P lbs).
Proof.
  intros [Hn Hl]. split; [by apply NoDup_fmap_filter|]. rewrite Forall_forall in Hl |- *.
  intros lb [Hlb _]%elem_of_delete_func. by apply Hl.
Qed.

Lemma cleared_task_for k te s cs :
  task_for k te → task_state te = Some s → (∀ k', K8S cs = Some k' → K8S s = Some k') → lbs_of (cluster_name k) (LoadBalancers cs) →
  task_for k (set_task_state te cs).
Proof.
  intros [Ht Hd] Hs Hk Hl. rewrite Hs in Ht. split; [|by rewrite task_delta_set_state].
  rewrite (task_state_set _ _ _ Hs). split; [|done]. intros k' Hk'%Hk. by apply Ht.
Qed.

(** What is left of a consumed delta names nothing that has to be found. *)
Lemma consumed_delta_resolves te u te' : ConsumeUpdateResult te u = Ret (te', None) → delta_resolves te'.
Proof.
  intros Hc s' k' d' Hs' _ Hd'. destruct (task_state te) as [s|] eqn:Hs.
  - destruct (ConsumeUpdateResult_Ret _ _ _ _ Hs Hc) as (k & _ & _ & _ & Hd). destruct (task_delta te) as [d|].
    + destruct Hd as (d1 & Hd1 & Hd2). rewrite Hd2 in Hd'. injection Hd' as <-.
      destruct d; simpl in Hd1; repeat (case_match; try done); simplify_eq; simpl; eauto;
        destruct (added_nodes _) as [[??]?]; simpl; eauto.
    + by rewrite Hd in Hd'.
  - unfold ConsumeUpdateResult in Hc. rewrite Hs in Hc. injection Hc as <-. by rewrite Hs in Hs'.
Qed.

Lemma consumed_delta_lb te s u te' lb :
  task_state te = Some s → ConsumeUpdateResult te u = Ret (te', None) → task_delta te' ≠ Some (Update_TfAddLoadBalancer lb).
Proof.
  intros Hs Hc Hd'. destruct (ConsumeUpdateResult_Ret _ _ _ _ Hs Hc) as (k & _ & _ & _ & Hd).
  destruct (task_delta te) as [d|]; [|by rewrite Hd in Hd'].
  destruct Hd as (d1 & Hd1 & Hd2). rewrite Hd2 in Hd'. injection Hd' as Hd'.
  destruct d; simpl in Hd1; repeat (case_match; try done); simplify_eq; simpl in Hd'; try done;
    by destruct (added_nodes _) as [[??]?].
Qed.

Lemma task_for_state k te s :
  task_for k te → task_state te = Some s → (∀ k', K8S s = Some k' → same_cluster k k') ∧ lbs_of (cluster_name k) (LoadBalancers s).
Proof. intros [Ht _] Hs. by rewrite Hs in Ht. Qed.

(** Dropping load balancers does not matter to other deltas. *)
Lemma cleared_resolves te s lbs :
  ¬ pending te → task_state te = Some s → delta_resolves te → delta_resolves (set_task_state te (mkClusters (K8S s) lbs)).
Proof.
  intros Hp Hs Hd s' k d Hs' Hk Hd'. rewrite (task_state_set _ _ _ Hs) in Hs'. injection Hs' as <-. rewrite task_delta_set_state in Hd'.
  destruct (Hd s k d Hs Hk Hd') as [d' Hd1]. destruct d; simpl in *; eauto. destruct Hp. by do 5 eexists.
Qed.

(** A clear of the cluster that leaves one of its load balancers behind. *)
Definition leaves_balancer (te : Task) (r : TaskResult_Result) : Prop :=
  ∃ c s lb, r = TaskResult_Clear c ∧ ClearState_K8S c = Some true ∧ task_state te = Some s ∧
            lb ∈ LoadBalancers s ∧ LB_Id lb ∉ ClearState_LoadBalancersIDs c.

(** The manager answers; an accepted result leaves a task about the same
    cluster whose delta can still be resolved. *)
Definition digested (k : K8Scluster) (te : Task) (r : TaskResult_Result) : Prop :=
  ∃ te' err, consume te r = Ret (te', err) ∧ (err ≠ None → leaves_balancer te r) ∧
             (err = None → task_for k te' ∧ delta_resolves te').

Lemma clear_digested te s k c :
  task_state te = Some s → task_for k te → delta_resolves te → ¬ pending te → digested k te (TaskResult_Clear c).
Proof.
  intros Hs Ht Hd Hp. unfold digested. simpl. unfold ConsumeClearResult. rewrite Hs.
  pose proof (λ P, lbs_of_filter _ _ P (proj2 (task_for_state _ _ _ Ht Hs))) as Hf.
  set (P := λ lb, contains _ _). specialize (Hf P). case_bool_decide as Hb; [case_bool_decide as Hn|].
  - eexists _, _. split; [reflexivity|]. split; [|done]. intros _.
    destruct (delete_func P (LoadBalancers s)) as [|lb lbs] eqn:El; [done|].
    assert (Hin : lb ∈ delete_func P (LoadBalancers s)) by (rewrite El; left). apply elem_of_delete_func in Hin as [Hin Hc].
    exists c, s, lb. split_and!; [done..|]. by apply contains_false.
  - eexists _, _. split; [reflexivity|]. split; [done|]. intros _. split; [by apply (cleared_task_for _ _ s); [..|apply lbs_of_nil]|].
    intros s' k' d Hs'. rewrite (task_state_set _ _ _ Hs) in Hs'. by injection Hs' as <-.
  - eexists _, _. split; [reflexivity|]. split; [done|]. intros _. split; [by apply (cleared_task_for _ _ s)|by apply cleared_resolves].
Qed.

Lemma update_digested te s k0 k u :
  task_state te = Some s → K8S s = Some k → task_for k0 te → delta_resolves te →
  report_ok k0 (mkTaskResult None (TaskResult_Update u)) → digested k0 te (TaskResult_Update u).
Proof.
  intros Hs Hk Ht Hd Hr. destruct (task_for_state _ _ _ Ht Hs) as [Hsame _]. specialize (Hsame k Hk).
  pose proof (report_accepted te s k _ Hs Hk (task_for_same _ _ _ Hsame Ht) Hd (report_ok_same _ _ _ Hsame Hr)) as Ha.
  unfold accepted, report_ok in *. simpl in *. destruct Ha as (te' & s' & Hc & Hs' & Hk' & Hl' & _).
  exists te', None. split; [done|]. split; [done|]. intros _. split; [|by eapply consumed_delta_resolves].
  split.
  - rewrite Hs'. destruct Hsame as [I N]. rewrite <- N. split; [|done]. intros k' Hk1. rewrite Hk' in Hk1. injection Hk1 as <-.
    destruct (UpdateState_K8S u) as [ku|] eqn:Eu; simpl; [exact (proj1 Hr ku eq_refl)|by split].
  - destruct (task_delta te') as [d|] eqn:Ed; [|done]. destruct d; try done. by destruct (consumed_delta_lb _ _ _ _ handle Hs Hc).
Qed.

(** The task lost its cluster: it was cleared. *)
Definition cluster_gone (te : Task) : Prop := ∃ s, task_state te = Some s ∧ K8S s = None.

Lemma reply_digested w st te k r :
  task_for k te → delta_resolves te → worker_reply w st te = Ret r →
  digested k te (TaskResult_Result_ r) ∨ (cluster_gone te ∧ ∃ e, consume te (TaskResult_Result_ r) = Panic e).
Proof.
  intros Ht Hd Hw. pose proof (worker_report_ok _ _ _ _ _ Ht Hw) as Hr. pose proof (worker_no_clear _ _ _ _ Hw) as Hc.
  unfold report_ok in Hr. destruct (TaskResult_Result_ r) as [|u|c|] eqn:Er; [by left; exists te, None| | |done].
  - destruct (task_state te) as [s|] eqn:Hs.
    + destruct (K8S s) as [k'|] eqn:Hk; [left; by apply (update_digested te s k k')|]. right. split; [by exists s|].
      simpl. unfold ConsumeUpdateResult. rewrite Hs, Hk. by eexists.
    + left. exists te, None. split; [|done]. simpl. unfold ConsumeUpdateResult. by rewrite Hs.
  - left. destruct (task_state te) as [s|] eqn:Hs.
    + apply (clear_digested te s); [done..|]. intros Hp. apply (Hc Hp). by exists c.
    + exists te, None. split; [|done]. simpl. unfold ConsumeClearResult. by rewrite Hs.
Qed.

(** ** The composition *)

(** C1: The workers and the manager agree, whatever the tools of the workers
    answer, wherever stages are interrupted and whichever stages the pipeline
    has.  Starting from a task about a cluster, the task stays about that
    cluster (the same id and name, load balancers that target it, each once)
    until the pipeline ends; the manager refuses a reply only when it clears
    the cluster and leaves a load balancer behind, and consuming a reply
    panics only in a task whose cluster was cleared before. *)
Theorem pipeline_keeps_agreement world i stages te k :
  task_for k te → delta_resolves te →
  match run_pipeline world i stages te with
  | Finished te' | Errored te' _ => task_for k te' ∧ delta_resolves te'
  | Refused te' r _ => task_for k te' ∧ leaves_balancer te' (TaskResult_Result_ r)
  | WorkerPanicked te' => task_for k te'
  | ManagerPanicked te' _ => task_for k te' ∧ cluster_gone te'
  end.
Proof.
  revert i te. induction stages as [|st stages IH]; intros i te Ht Hd; simpl; [done|].
  destruct (worker_reply (world i) st te) as [r|e|e] eqn:Hw; [|done..].
  destruct (reply_digested _ _ _ _ _ Ht Hd Hw) as [(te' & err & -> & Herr & Hok)|[Hg [e ->]]]; [|done].
  destruct err as [e|]; [split; [done|by apply Herr]|]. destruct (Hok eq_refl) as [Ht' Hd'].
  destruct (TaskResult_Error r) as [[? descr]|], (stage_level st); done || by apply IH.
Qed.

End pipeline.

(** ** Witness *)

Definition sample_kuber : KuberEnv := {|
  shell_at _ := obedient;
  node_tools := sample_tools;
  tag_list := sample_tags;
  interleaving := in_order;
  create_directory _ := None;
  generate _ _ := None;
  decode_kubeadm _ := inl (mkKubeadmConfig [] None);
  kubeadm_file _ _ _ := inl "kubeadm.yaml";
  cluster_info_kubeconfig _ := "";
  decode_kubeconfig _ := inr "no kubeconfig";
  cluster_info_file _ _ _ := inl "cluster-info.yaml";
  longhorn_version _ := inl "v1.9.2";
  version_below _ _ := inl false;
  decode_storage_classes _ := Some [] |}.

Definition sample_world (_ : nat) : Tools := mkTools (sample_cloud (λ _ _, None)) playbook_fails sample_kubeone sample_kuber never.

Definition sample_pipeline : list Stage :=
  [Stage_Terraformer (fatal "updating infrastructure") [update_pass];
   Stage_Ansibler (warn "configuring infrastructure") [vpn_pass];
   Stage_KubeEleven (fatal "building kubernetes cluster") [reconcile_pass];
   Stage_Kuber (fatal "finalizing cluster") [mkSubPass PATCH_NODES (fatal "patching nodes")]].

(** A refresh of the sample cluster; the failing playbook is a warning. *)
Lemma pipeline_keeps_agreement_witness :
  ∃ te', run_pipeline "m" sample_world 0 sample_pipeline (Task_Update Samples.clusters Update_None_) = Finished te' ∧
         task_for Samples.k8s te' ∧ task_state te' ≠ Some Samples.clusters.
Proof.
  set (te := Task_Update Samples.clusters Update_None_).
  assert (Hb : match run_pipeline "m" sample_world 0 sample_pipeline te with
               | Finished te' => bool_decide (task_state te' ≠ Some Samples.clusters) | _ => false end = true) by (vm_compute; reflexivity).
  pose proof (pipeline_keeps_agreement "m" sample_world 0 sample_pipeline te Samples.k8s) as Ht.
  destruct (run_pipeline "m" sample_world 0 sample_pipeline te) as [te'|te' d|te' r e|te'|te' r]; try discriminate Hb.
  exists te'. split; [done|]. split; [apply Ht|by apply bool_decide_eq_true in Hb].
  - by apply sample_task_for.
  - intros s k d [= <-] [= <-] [= <-]. by eexists.
Defined.

End Pipeline.
