(* ===== verification/Messages.v ===== *)
(** * Messages between the manager and the workers

    services/*/internal/worker/service/handler_msg.go,
    services/manager/internal/service/handler_msg.go and
    internal/natsutils/work_queue_utils.go: how a worker takes a stage from
    its queue, replies and acknowledges, and how the manager takes the reply.
    NATS delivers at least once; JetStream is the parameter [JetStream], and
    what a handler does to the queue is the list of its [Act]s. *)

From Stdlib Require Import Ascii.
From stdpp Require Import base gmap strings list pretty.
From S2P Require Import Prelude Spec SpecUtils Samples NodePools Consume Store ProcessTask Cidr Schedule Worker Kuber Watchers Pipeline.
Import Consume Store ProcessTask Cidr Worker Watchers Pipeline.

(** ** What is not in the repository *)

(** A message of a queue: the subject, the headers and the data. *)
Record NatsMsg (D : Type) := mkNatsMsg { Nm_Subject : string; Nm_Header : gmap string string; Nm_Data : D }.
#[global] Arguments mkNatsMsg {_} _ _ _.
#[global] Arguments Nm_Subject {_} _.
#[global] Arguments Nm_Header {_} _.
#[global] Arguments Nm_Data {_} _.

(** [uuid.New().String()]: 36 lower case hexadecimal digits and dashes. *)
Definition uuid_char (a : ascii) : bool :=
  let n := nat_of_ascii a in
  bool_decide (48 ≤ n ≤ 57) || bool_decide (97 ≤ n ≤ 102) || bool_decide (n = 45).

Fixpoint all_chars (f : ascii → bool) (s : string) : bool :=
  match s with EmptyString => true | String a s => f a && all_chars f s end.

Definition canonical_uuid (s : string) : Prop := String.length s = 36 ∧ all_chars uuid_char s = true.

(** The protobuf encoding of works and results, and [uuid.Parse]. *)
Class Wire := {
  wire : Type;
  encode_work : Task → list AnyPass → wire;
  decode_work : wire → option (Task * list AnyPass);
  decode_encode_work t ps : decode_work (encode_work t ps) = Some (t, ps);
  encode_result : TaskResult → option wire;
  decode_result : wire → option TaskResult;
  decode_encode_result r d : encode_result r = Some d → decode_result d = Some r;
  uuid_Parse : string → bool;
  uuid_Parse_canonical s : canonical_uuid s → uuid_Parse s = true }.

Inductive ConsumerAnswer := Found | NotFound | Unavailable.

(** The answers of JetStream to the calls of one handler: the [i]-th look-up
    of the consumer, the [i]-th publication and the [i]-th acknowledgement. *)
Class JetStream `{Wire} := {
  js_Consumer : nat → ConsumerAnswer;
  js_PublishMsg : nat → NatsMsg wire → option string;
  js_DoubleAck : nat → bool }.

(** What a handler does to the queue; a publication or an acknowledgement
    that was not confirmed may still have been stored. *)
Inductive Act `{Wire} :=
| Publish (m : NatsMsg wire) (confirmed : bool)
| DoubleAck (confirmed : bool)
| Nak
| NakWithDelay.

Module Messages.

(** ** strings.Split and strconv.ParseInt *)

(** The pieces of [s] between the leftmost disjoint occurrences of a
    non-empty separator; [skip] characters belong to an occurrence. *)
Fixpoint split_go (sep : string) (skip : nat) (acc s : string) : list string :=
  match s with
  | EmptyString => [acc]
  | String a s' =>
      match skip with
      | S skip => split_go sep skip acc s'
      | O => if String.prefix sep s then acc :: split_go sep (String.length sep - 1) "" s'
             else split_go sep 0 (String.append acc (String a "")) s'
      end
  end.

Definition Split (s sep : string) : list string := split_go sep 0 "" s.

Definition ParseInt (s : string) : option Z :=
  let n := match s with
           | String a s' => if Ascii.eqb a "-"%char then Z.opp <$> parse_dec s'
                            else if Ascii.eqb a "+"%char then parse_dec s' else parse_dec s
           | EmptyString => None
           end in
  n ← n; if bool_decide (- 2 ^ 63 ≤ n < 2 ^ 63)%Z then Some n else None.

(** A stage: a number that fits an uint32. *)
Definition parse_stage (s : string) : option Z :=
  n ← ParseInt s; if bool_decide (0 ≤ n ≤ 2 ^ 32 - 1)%Z then Some n else None.

(** ** Headers (natsutils/subjects.go) *)

Definition MsgIdHdr : string := "Nats-Msg-Id".
Definition ReplyToHeader : string := "claudie-internal-reply-to".
Definition ReplyDiscard : string := "".
Definition WorkID : string := "claudie-internal-work-id".
Definition InputManifestName : string := "claudie-internal-input-manifest-name".
Definition ClusterName : string := "claudie-internal-cluster-name".
Definition StageHeader : string := "claudie-internal-work-stage".

(** [Header.Get]: the empty string when the header is missing. *)
Definition Get (h : gmap string string) (key : string) : string := default "" (h !! key).

Definition requests (k : StageKind) : string :=
  match k with
  | Terraformer => TerraformerRequests
  | Ansibler => AnsiblerRequests
  | KubeEleven => KubeElevenRequests
  | Kuber => KuberRequests
  | Unknown => ""
  end.

(** [strings.Split(id, "-<subject>-")] *)
Definition split_id (id subject : string) : list string := Split id (String.append "-" (String.append subject "-")).

Section handlers.
Context `{JetStream}.

(** ** natsutils/work_queue_utils.go *)

Record ReplyMsg := mkReplyMsg {
  Rm_InputManifest : string;
  Rm_Cluster : string;
  Rm_TaskID : string;
  Rm_Stage : string;
  Rm_Subject : string;
  Rm_Result : TaskResult }.

Definition reply_headers (r : ReplyMsg) : gmap string string :=
  <[StageHeader := Rm_Stage r]> (<[ClusterName := Rm_Cluster r]> (<[InputManifestName := Rm_InputManifest r]>
    (<[WorkID := Rm_TaskID r]>
       {[MsgIdHdr := String.append (Rm_TaskID r) (String.append "-" (String.append (Rm_Subject r)
                       (String.append "-" (Rm_Stage r))))]}))).

(** The [i]-th publication of the handler. *)
Definition ReplyTo (i : nat) (r : ReplyMsg) : list Act * option string :=
  if bool_decide (Rm_Subject r = ReplyDiscard) then ([], None)
  else match encode_result (Rm_Result r) with
       | None => ([], Some "marshal")
       | Some d =>
           let m := mkNatsMsg (Rm_Subject r) (reply_headers r) d in
           match js_PublishMsg i m with
           | Some e => ([Publish m false], Some e)
           | None => ([Publish m true], None)
           end
       end.

Definition set_Rm_Result (r : ReplyMsg) (res : TaskResult) : ReplyMsg :=
  mkReplyMsg (Rm_InputManifest r) (Rm_Cluster r) (Rm_TaskID r) (Rm_Stage r) (Rm_Subject r) res.

Definition TryReplyErrorFTL (err : string) (reply : ReplyMsg) : list Act :=
  let reply := set_Rm_Result reply (mkTaskResult (Some (FATAL, err)) TaskResult_None_) in
  match ReplyTo 0 reply with
  | (acts, Some _) => acts ++ [NakWithDelay]
  | (acts, None) => acts ++ [DoubleAck (js_DoubleAck 0)]
  end.

(** ** The handler of a worker *)

(** [for range retries]: look up the consumer, reply. *)
Fixpoint reply_loop (retries i : nat) (err : option string) (r : ReplyMsg) : list Act * option string :=
  match retries with
  | O => ([], err)
  | S retries =>
      match js_Consumer i with
      | NotFound => ([], Some "consumer not found")
      | Unavailable => reply_loop retries (S i) (Some "no answer") r
      | Found =>
          match ReplyTo i r with
          | (acts, None) => (acts, None)
          | (acts, Some e) => let '(rest, err) := reply_loop retries (S i) (Some e) r in (acts ++ rest, err)
          end
      end
  end.

(** [for range retries]: acknowledge until it is confirmed. *)
Fixpoint ack_loop (retries i : nat) : list Act :=
  match retries with
  | O => []
  | S retries => if js_DoubleAck i then [DoubleAck true] else DoubleAck false :: ack_loop retries (S i)
  end.

(** [anypb.UnmarshalTo] of every pass to the passes of the worker; a stage
    without its description, which is not part of the message. *)
Definition work_stage (k : StageKind) (ps : list AnyPass) : option Stage :=
  match k with
  | Terraformer => Stage_Terraformer (fatal "") <$> mapM (λ p, match p with Any_Terraformer p => Some p | _ => None end) ps
  | Ansibler => Stage_Ansibler (fatal "") <$> mapM (λ p, match p with Any_Ansibler p => Some p | _ => None end) ps
  | KubeEleven => Stage_KubeEleven (fatal "") <$> mapM (λ p, match p with Any_KubeEleven p => Some p | _ => None end) ps
  | Kuber => Stage_Kuber (fatal "") <$> mapM (λ p, match p with Any_Kuber p => Some p | _ => None end) ps
  | Unknown => None
  end.

(** The id and the stage of a message and whether they are usable. *)
Definition parse_request (k : StageKind) (m : NatsMsg wire) : string * string * bool :=
  let parts := split_id (Get (Nm_Header m) MsgIdHdr) (requests k) in
  let '(id, stage, discard) :=
    match parts with
    | id :: stage :: _ => if bool_decide (id = "") || bool_decide (stage = "") then (id, "unknown", true) else (id, stage, false)
    | id :: [] => (id, "unknown", true)
    | [] => ("", "unknown", true)
    end in
  (id, stage, discard || negb (uuid_Parse id) || bool_decide (parse_stage stage = None)).

Context `{RangeOrder}.

(** [k] is the worker, [w] its tools. *)
Definition worker_handler (k : StageKind) (w : Tools) (m : NatsMsg wire) : outcome (list Act) :=
  let '(eventID, eventStage, discard) := parse_request k m in
  let inputManifestName := Get (Nm_Header m) InputManifestName in
  let reply := mkReplyMsg inputManifestName (Get (Nm_Header m) ClusterName) eventID eventStage
                 (Get (Nm_Header m) ReplyToHeader) in
  let noop := reply (mkTaskResult None TaskResult_None_) in
  if discard then Ret (TryReplyErrorFTL "nats message with unknown/unsupported/missing headers received" noop)
  else match decode_work (Nm_Data m) with
       | None => Ret (TryReplyErrorFTL "unmarshal" noop)
       | Some (task, passes) =>
           match work_stage k passes with
           | None => Ret (TryReplyErrorFTL "unmarshal" noop)
           | Some st =>
               let* result := worker_reply inputManifestName w st task in
               let '(acts, err) := reply_loop 5 0 None (reply result) in
               Ret (acts ++ match err with Some _ => [Nak] | None => ack_loop 45 0 end)
           end
       end.

(** The four workers have the same handler; each listens to its own subject
    and unpacks its own passes. *)
Definition Terraformer_handlerInner (w : Tools) (m : NatsMsg wire) : outcome (list Act) := worker_handler Terraformer w m.
Definition Ansibler_handlerInner (w : Tools) (m : NatsMsg wire) : outcome (list Act) := worker_handler Ansibler w m.
Definition KubeEleven_handlerInner (w : Tools) (m : NatsMsg wire) : outcome (list Act) := worker_handler KubeEleven w m.
Definition Kuber_handlerInner (w : Tools) (m : NatsMsg wire) : outcome (list Act) := worker_handler Kuber w m.

(** ** The handler of the manager *)

Definition taskStageFromNatsSubject (subject : string) : option StageKind :=
  if bool_decide (subject = TerraformerResponse) then Some Terraformer
  else if bool_decide (subject = AnsiblerResponse) then Some Ansibler
  else if bool_decide (subject = KubeElevenResponse) then Some KubeEleven
  else if bool_decide (subject = KuberResponse) then Some Kuber
  else None.

(** The work a reply is about; [None] when the reply is discarded. *)
Definition parse_reply (m : NatsMsg wire) : option Work :=
  let subject := Nm_Subject m in
  let stage := match split_id (Get (Nm_Header m) MsgIdHdr) subject with _ :: stage :: _ => stage | _ => "unknown" end in
  let taskID := Get (Nm_Header m) WorkID in
  let inputManifestName := Get (Nm_Header m) InputManifestName in
  let clusterName := Get (Nm_Header m) ClusterName in
  if bool_decide (inputManifestName = "") || bool_decide (clusterName = "") || bool_decide (taskID = "") then None
  else
    taskStage ← parse_stage stage;
    kind ← taskStageFromNatsSubject subject;
    result ← decode_result (Nm_Data m);
    Some (mkWork inputManifestName clusterName taskID taskStage kind result).

(** The store and the acts on the reply after the handler. *)
Definition manager_handler `{Codec} {T : Type} `{!Store T} (ticks : Z) (s : T) (m : NatsMsg wire) (newUUID : string) (now : Z)
    : outcome (T * list Act) :=
  match parse_reply m with
  | None => Ret (s, [DoubleAck (js_DoubleAck 0)])
  | Some work =>
      let* (s, acknowledge) := ProcessTask ticks s work newUUID now in
      Ret (s, if (acknowledge : bool) then ack_loop 5 0 else [Nak])
  end.

End handlers.

(** ** Splitting and parsing what was printed *)

Definition ell : ascii := "l"%char.

(** Subjects start with [claudie]. *)
Definition dashed (sep : string) : Prop := ∃ rest, sep = String "-" (String "c" (String ell rest)).

Lemma no_char_app c a b : no_char c (String.append a b) = no_char c a && no_char c b.
Proof. induction a as [|x a IH]; [done|]. rewrite string_app_cons. simpl. rewrite IH. by rewrite andb_assoc. Qed.

Lemma string_app_nil a : String.append a "" = a.
Proof. induction a as [|x a IH]; [done|]. by rewrite string_app_cons, IH. Qed.

Lemma prefix_app a b : String.prefix a (String.append a b) = true.
Proof. induction a as [|x a IH]; [by destruct b|]. rewrite string_app_cons. cbn [String.prefix]. destruct (ascii_dec x x); [done|congruence]. Qed.

(** A string without an ell in its third position. *)
Lemma prefix_dashed sep s :
  dashed sep → (∀ a b c rest, s = String a (String b (String c rest)) → a = "-"%char → b = "c"%char → c ≠ ell) →
  String.prefix sep s = false.
Proof.
  intros [rest ->] Hs. destruct s as [|a [|b [|c s]]]; cbn [String.prefix]; repeat (destruct (ascii_dec _ _)); try done.
  exfalso. by eapply Hs.
Qed.

Lemma split_rest sep acc y : dashed sep → no_char ell y = true → split_go sep 0 acc y = [String.append acc y].
Proof.
  intros Hsep. revert acc. induction y as [|a y IH]; intros acc Hy; [simpl; by rewrite string_app_nil|].
  cbn [split_go]. rewrite prefix_dashed; [|done|].
  - simpl in Hy. apply andb_true_iff in Hy as [_ Hy]. rewrite IH by done. by rewrite string_app_assoc.
  - intros a' b c rest [= <- ->] _ _ ->. simpl in Hy. by rewrite !andb_false_r in Hy.
Qed.

Lemma split_skip sep acc z y : split_go sep (String.length z) acc (String.append z y) = split_go sep 0 acc y.
Proof. induction z as [|a z IH]; [done|]. rewrite string_app_cons. simpl. apply IH. Qed.

Lemma split_first sep acc x y :
  dashed sep → no_char ell x = true →
  split_go sep 0 acc (String.append x (String.append sep y)) = String.append acc x :: split_go sep 0 "" y.
Proof.
  intros Hsep. revert acc. induction x as [|a x IH]; intros acc Hx.
  - rewrite string_app_nil. destruct Hsep as [rest ->]. set (sep := String "-" _).
    change (String.append "" ?t) with t. assert (Hp : String.prefix sep (String.append sep y) = true) by apply prefix_app.
    unfold sep at 2. rewrite string_app_cons. cbn [split_go]. rewrite <- string_app_cons. fold sep. rewrite Hp. f_equal.
    replace (String.length sep - 1) with (String.length (String "c" (String ell rest))) by (simpl; lia). apply split_skip.
  - rewrite string_app_cons. cbn [split_go]. rewrite prefix_dashed; [|done|].
    + simpl in Hx. apply andb_true_iff in Hx as [_ Hx]. rewrite IH by done. by rewrite string_app_assoc.
    + destruct Hsep as [rest ->]. intros a' b c r E _ -> ->. simpl in Hx. apply andb_true_iff in Hx as [_ Hx].
      destruct x as [|b' [|c' x]]; simpl in E; try discriminate E. injection E as _ -> -> _. done.
Qed.

(** An id is taken apart into what it was put together from. *)
Lemma Split_id x y sep : dashed sep → no_char ell x = true → no_char ell y = true →
  Split (String.append x (String.append sep y)) sep = [x; y].
Proof. intros Hs Hx Hy. unfold Split. rewrite split_first by done. by rewrite split_rest. Qed.

Lemma digit_value n : (n < 10)%N → ∀ acc s, digits acc (String (pretty_N_char n) s) = digits (acc * 10 + Z.of_N n) s.
Proof.
  intros Hn acc s. assert (n = 0 ∨ n = 1 ∨ n = 2 ∨ n = 3 ∨ n = 4 ∨ n = 5 ∨ n = 6 ∨ n = 7 ∨ n = 8 ∨ n = 9)%N as Hc by lia.
  destruct_or! Hc; subst; done.
Qed.

Lemma digits_pretty n s : digits 0 (pretty_N_go n s) = digits (Z.of_N n) s.
Proof.
  revert s. induction (N.lt_wf_0 n) as [n _ IH]; intros s. destruct (decide (n = 0%N)) as [->|Hn]; [done|].
  rewrite pretty_N_go_step by lia. rewrite IH by (apply N.div_lt; lia).
  rewrite digit_value by (apply N.mod_lt; lia). f_equal. rewrite N2Z.inj_div, N2Z.inj_mod. pose proof (Z.div_mod (Z.of_N n) 10). lia.
Qed.

Definition digit (a : ascii) : bool := bool_decide (48 ≤ nat_of_ascii a ≤ 57).

Lemma pretty_digits n s : all_chars digit s = true → all_chars digit (pretty_N_go n s) = true.
Proof.
  revert s. induction (N.lt_wf_0 n) as [n _ IH]; intros s Hs. destruct (decide (n = 0%N)) as [->|Hn]; [done|].
  rewrite pretty_N_go_step by lia. apply IH; [apply N.div_lt; lia|]. simpl. rewrite Hs, andb_true_r.
  assert (n mod 10 < 10)%N as Hm by (apply N.mod_lt; lia).
  assert (∀ m, (m < 10)%N → digit (pretty_N_char m) = true) as Hd; [|by apply Hd].
  intros m Hm'. assert (m = 0 ∨ m = 1 ∨ m = 2 ∨ m = 3 ∨ m = 4 ∨ m = 5 ∨ m = 6 ∨ m = 7 ∨ m = 8 ∨ m = 9)%N as Hc by lia.
  destruct_or! Hc; subst; done.
Qed.

Lemma pretty_go_nonempty n s : s ≠ "" → pretty_N_go n s ≠ "".
Proof.
  revert s. induction (N.lt_wf_0 n) as [n _ IH]; intros s Hs. destruct (decide (n = 0%N)) as [->|Hn]; [done|].
  rewrite pretty_N_go_step by lia. apply IH; [apply N.div_lt; lia|done].
Qed.

Lemma pretty_stage z :
  (0 ≤ z)%Z → pretty z ≠ "" ∧ digits 0 (pretty z) = Some z ∧ all_chars digit (pretty z) = true.
Proof.
  intros Hz. destruct z as [|p|p]; [done| |lia]. change (pretty (Z.pos p)) with (pretty_N_go (N.pos p) "").
  split_and!; [|by rewrite digits_pretty|by apply pretty_digits].
  rewrite pretty_N_go_step by lia. by apply pretty_go_nonempty.
Qed.

Lemma all_chars_no_char f c s : f c = false → all_chars f s = true → no_char c s = true.
Proof.
  intros Hc. induction s as [|a s IH]; [done|]. simpl. intros [Ha Hs]%andb_true_iff. apply andb_true_iff. split; [|auto].
  destruct (Ascii.eqb_spec a c) as [->|]; [congruence|done].
Qed.

Lemma parse_pretty_stage z : (0 ≤ z ≤ 2 ^ 32 - 1)%Z → parse_stage (pretty z) = Some z.
Proof.
  intros Hz. destruct (pretty_stage z) as (Hne & Hd & Hc); [lia|]. unfold parse_stage, ParseInt.
  destruct (pretty z) as [|a s] eqn:E; [done|]. simpl in Hc. apply andb_true_iff in Hc as [Ha _].
  destruct (Ascii.eqb_spec a "-"%char) as [->|]; [done|]. destruct (Ascii.eqb_spec a "+"%char) as [->|]; [done|].
  unfold parse_dec. rewrite Hd. simpl. rewrite bool_decide_eq_true_2 by lia. simpl. by rewrite bool_decide_eq_true_2.
Qed.

Lemma canonical_no_ell id : canonical_uuid id → no_char ell id = true.
Proof. intros [_ Hc]. by apply (all_chars_no_char uuid_char). Qed.

Lemma pretty_no_ell z : (0 ≤ z)%Z → no_char ell (pretty z) = true.
Proof. intros (_ & _ & Hc)%pretty_stage. by apply (all_chars_no_char digit). Qed.

Lemma split_stage_id id subject stage rest :
  canonical_uuid id → (0 ≤ stage)%Z → subject = String "c" (String ell rest) →
  split_id (stage_id id subject stage) subject = [id; pretty stage].
Proof.
  intros Hid Hs ->. unfold split_id, stage_id. set (subject := String "c" _).
  replace (String.append id _) with (String.append id (String.append (String.append "-" (String.append subject "-")) (pretty stage)))
    by (by rewrite !string_app_assoc).
  apply Split_id; [by eexists|by apply canonical_no_ell|by apply pretty_no_ell].
Qed.

(** Stages and subjects have ids of their own: the detection of duplicates
    never drops the message of another stage. *)
Lemma stage_id_inj id id' k stage stage' :
  canonical_uuid id → canonical_uuid id' → (0 ≤ stage)%Z → (0 ≤ stage')%Z → k ≠ Unknown →
  stage_id id (requests k) stage = stage_id id' (requests k) stage' → id = id' ∧ stage = stage'.
Proof.
  intros Hid Hid' Hs Hs' Hk E. assert (∃ rest, requests k = String "c" (String ell rest)) as [rest Er] by (destruct k; try done; by eexists).
  apply (f_equal (λ x, split_id x (requests k))) in E. rewrite !(split_stage_id _ _ _ rest) in E by done.
  injection E as -> E. split; [done|]. destruct (pretty_stage stage Hs) as (_ & D & _), (pretty_stage stage' Hs') as (_ & D' & _). congruence.
Qed.

(** ** The protocol *)

Section protocol.
Context `{JetStream}.

(** What a handler does with a message whose reply goes to [subject]: replies
    that are not confirmed, and then either a refusal, which makes NATS
    deliver the message again, or a confirmed reply and acknowledgements. *)
Definition conversation (subject : string) (is_reply : NatsMsg wire → Prop) (acts : list Act) : Prop :=
  ∃ failed ending, acts = failed ++ ending ∧ Forall (λ a, ∃ m, a = Publish m false ∧ is_reply m) failed ∧
    (ending = [Nak] ∨ ending = [NakWithDelay] ∨
     ∃ sent acks, ending = sent ++ acks ∧ acks ≠ [] ∧ Forall (λ a, ∃ b, a = DoubleAck b) acks ∧
       if bool_decide (subject = ReplyDiscard) then sent = [] else ∃ m, sent = [Publish m true] ∧ is_reply m).

Definition reply_of (r : ReplyMsg) (m : NatsMsg wire) : Prop :=
  Nm_Subject m = Rm_Subject r ∧ Nm_Header m = reply_headers r ∧ encode_result (Rm_Result r) = Some (Nm_Data m).

Lemma ReplyTo_spec i r :
  (∃ m e, ReplyTo i r = ([Publish m false], Some e) ∧ reply_of r m) ∨ (∃ e, ReplyTo i r = ([], Some e)) ∨
  (∃ sent, ReplyTo i r = (sent, None) ∧
     if bool_decide (Rm_Subject r = ReplyDiscard) then sent = [] else ∃ m, sent = [Publish m true] ∧ reply_of r m).
Proof.
  unfold ReplyTo. case_bool_decide; [by right; right; eexists|]. destruct (encode_result _) as [d|] eqn:E; [|by right; left; eexists].
  destruct (js_PublishMsg i _) as [e|]; [left; by do 2 eexists|right; right; eexists; split; [done|by eexists]].
Qed.

(** The loop ends with a confirmed reply or with an error. *)
Lemma reply_loop_spec n i err r acts e :
  (err = None → n ≠ 0) → reply_loop n i err r = (acts, e) →
  ∃ failed sent, acts = failed ++ sent ∧ Forall (λ a, ∃ m, a = Publish m false ∧ reply_of r m) failed ∧
    match e with
    | Some _ => sent = []
    | None => if bool_decide (Rm_Subject r = ReplyDiscard) then sent = [] else ∃ m, sent = [Publish m true] ∧ reply_of r m
    end.
Proof.
  revert i err acts e. induction n as [|n IH]; intros i err acts e Hn; simpl.
  { intros [= <- <-]. exists [], []. destruct err; [done|by destruct Hn]. }
  destruct (js_Consumer i).
  - destruct (ReplyTo_spec i r) as [(m & e1 & -> & Hm)|[[e1 ->]|(sent & -> & Hs)]].
    + destruct (reply_loop n (S i) (Some e1) r) as [rest err'] eqn:El. intros [= <- <-].
      destruct (IH (S i) (Some e1) rest err') as (failed & sent & -> & Hf & Hs); [done|exact El|]. exists (Publish m false :: failed), sent.
      split_and!; [done| |done]. constructor; [by exists m|done].
    + destruct (reply_loop n (S i) (Some e1) r) as [rest err'] eqn:El. intros [= <- <-]. simpl. by apply (IH (S i) (Some e1)).
    + intros [= <- <-]. by exists [], sent.
  - intros [= <- <-]. by exists [], [].
  - intros El. by apply (IH (S i) (Some "no answer")).
Qed.

Lemma ack_loop_spec n i : n ≠ 0 → ack_loop n i ≠ [] ∧ Forall (λ a, ∃ b, a = DoubleAck b) (ack_loop n i).
Proof.
  intros Hn. split; [destruct n; [done|]; simpl; by destruct (js_DoubleAck i)|].
  clear Hn. revert i. induction n as [|n IH]; intros i; simpl; [done|]. destruct (js_DoubleAck i); repeat constructor; eauto.
Qed.

Lemma TryReply_conversation err r :
  conversation (Rm_Subject r) (reply_of (set_Rm_Result r (mkTaskResult (Some (FATAL, err)) TaskResult_None_))) (TryReplyErrorFTL err r).
Proof.
  unfold TryReplyErrorFTL. set (r' := set_Rm_Result r _). change (Rm_Subject r) with (Rm_Subject r').
  destruct (ReplyTo_spec 0 r') as [(m & e & -> & Hm)|[[e ->]|(sent & -> & Hs)]].
  - exists [Publish m false], [NakWithDelay]. split_and!; [done|repeat constructor; by exists m|by right; left].
  - exists [], [NakWithDelay]. split_and!; [done|done|by right; left].
  - exists [], (sent ++ [DoubleAck (js_DoubleAck 0)]). split_and!; [done|done|right; right].
    exists sent, [DoubleAck (js_DoubleAck 0)]. split_and!; [done|done|repeat constructor; by eexists|done].
Qed.

Lemma reply_conversation r acts e :
  reply_loop 5 0 None r = (acts, e) →
  conversation (Rm_Subject r) (reply_of r) (acts ++ match e with Some _ => [Nak] | None => ack_loop 45 0 end).
Proof.
  intros (failed & sent & -> & Hf & Hs)%reply_loop_spec; [|done].
  exists failed, (sent ++ match e with Some _ => [Nak] | None => ack_loop 45 0 end). split_and!; [by rewrite app_assoc|done|].
  destruct e as [e|]; [subst sent; by left|]. right. right. exists sent, (ack_loop 45 0).
  destruct (ack_loop_spec 45 0) as [Hne Ha]; [done|]. by split_and!.
Qed.

(** The replies of a handler carry the identity of the message. *)
Definition answers (k : StageKind) (m : NatsMsg wire) (reply : NatsMsg wire) : Prop :=
  ∃ r, reply_of r reply ∧ Rm_Subject r = Get (Nm_Header m) ReplyToHeader ∧
       (Rm_TaskID r, Rm_Stage r) = (parse_request k m).1 ∧
       Rm_InputManifest r = Get (Nm_Header m) InputManifestName ∧ Rm_Cluster r = Get (Nm_Header m) ClusterName.

Lemma conversation_mono subject (P Q : NatsMsg wire → Prop) acts :
  (∀ m, P m → Q m) → conversation subject P acts → conversation subject Q acts.
Proof.
  intros HPQ (failed & ending & -> & Hf & He). exists failed, ending. split_and!; [done| |].
  - eapply Forall_impl; [exact Hf|]. intros a (m & -> & Hm). eauto.
  - destruct He as [?|[?|(sent & acks & ? & ? & ? & Hs)]]; [by left|by right; left|]. right. right. exists sent, acks.
    split_and!; [done..|]. case_bool_decide; [done|]. destruct Hs as (m & ? & ?). eauto.
Qed.

Context `{RangeOrder}.

(** C6: A worker acknowledges a message only after its reply.  For every
    message, every worker and all answers of JetStream and of the tools, the
    handler ends in one of two ways: it refuses the message, so that it is
    delivered again, or it acknowledges it, and then a reply was confirmed
    before, or the message names no subject to reply to (the manager sends no
    such message).  Every reply it publishes goes to the subject the message
    names and carries the task, the stage, the manifest and the cluster of the
    message. *)
Theorem acknowledged_after_reply (k : StageKind) (w : Tools) (m : NatsMsg wire) acts :
  worker_handler k w m = Ret acts → conversation (Get (Nm_Header m) ReplyToHeader) (answers k m) acts.
Proof.
  unfold worker_handler, answers. destruct (parse_request k m) as [[id stage] discard].
  set (reply := mkReplyMsg _ _ _ _ _). set (noop := reply _).
  assert (Hmono : ∀ res acts, conversation (Get (Nm_Header m) ReplyToHeader) (reply_of (reply res)) acts →
    conversation (Get (Nm_Header m) ReplyToHeader) (λ x, ∃ r, reply_of r x ∧ Rm_Subject r = Get (Nm_Header m) ReplyToHeader ∧
      (Rm_TaskID r, Rm_Stage r) = (id, stage) ∧ Rm_InputManifest r = Get (Nm_Header m) InputManifestName ∧
      Rm_Cluster r = Get (Nm_Header m) ClusterName) acts).
  { intros res l. apply conversation_mono. intros x Hx. by exists (reply res). }
  pose proof (λ e, Hmono _ _ (TryReply_conversation e noop)) as Hftl.
  destruct discard; [intros [= <-]; apply Hftl|]. destruct (decode_work _) as [[task passes]|]; [|intros [= <-]; apply Hftl].
  destruct (work_stage k passes) as [st|]; [|intros [= <-]; apply Hftl]. destruct (worker_reply _ _ _ _) as [x|?|?]; [|done..].
  cbn [bindO]. destruct (reply_loop 5 0 None (reply x)) as [l e] eqn:El. intros [= <-]. apply (Hmono x). by apply reply_conversation.
Qed.

(** ** From the manager to a worker and back *)

(** The message published by the manager. *)
Definition to_nats (msg : Msg) : NatsMsg wire :=
  mkNatsMsg (Msg_Subject msg)
    (<[ClusterName := Msg_Cluster msg]> (<[InputManifestName := Msg_InputManifest msg]>
       (<[ReplyToHeader := Msg_ReplyTo msg]> {[MsgIdHdr := Msg_Id msg]})))
    (encode_work (Msg_Task msg) (Msg_Passes msg)).

Definition stage_kind (st : Stage) : StageKind :=
  match st with
  | Stage_Terraformer _ _ => Terraformer
  | Stage_Ansibler _ _ => Ansibler
  | Stage_KubeEleven _ _ => KubeEleven
  | Stage_Kuber _ _ => Kuber
  end.

Lemma mapM_fmap_Some {A B} (f : A → B) (g : B → option A) (l : list A) : (∀ x, g (f x) = Some x) → mapM g (f <$> l) = Some l.
Proof. intros Hg. apply mapM_Some, Forall2_fmap_l. induction l; constructor; [apply Hg|done]. Qed.

(** The worker of a stage runs the passes of the stage. *)
Lemma work_stage_parts st : ∃ st', work_stage (stage_kind st) (stage_parts st).1.1.1 = Some st' ∧
  ∀ name w te, worker_reply name w st' te = worker_reply name w st te.
Proof.
  destruct st; cbn [stage_parts stage_kind work_stage fst snd]; eexists; split.
  all: try (rewrite mapM_fmap_Some; [reflexivity|done]).
  all: done.
Qed.

Lemma subjects st :
  (stage_parts st).1.1.2 = requests (stage_kind st) ∧ (stage_parts st).1.2 ≠ ReplyDiscard ∧
  taskStageFromNatsSubject (stage_parts st).1.2 = Some (stage_kind st) ∧
  (∃ rest, requests (stage_kind st) = String "c" (String ell rest)) ∧ (∃ rest, (stage_parts st).1.2 = String "c" (String ell rest)).
Proof. destruct st; simpl; split_and!; try done; by eexists. Qed.

Lemma parse_request_stage st msg id stage :
  canonical_uuid id → (0 ≤ stage ≤ 2 ^ 32 - 1)%Z → Msg_Id msg = stage_id id (requests (stage_kind st)) stage →
  parse_request (stage_kind st) (to_nats msg) = (id, pretty stage, false).
Proof.
  intros Hid Hs Em. unfold parse_request. change (Get _ MsgIdHdr) with (Msg_Id msg). rewrite Em.
  destruct (subjects st) as (_ & _ & _ & [rest Er] & _). rewrite (split_stage_id _ _ _ rest) by (done || lia).
  assert (id ≠ "") by (intros ->; by destruct Hid).
  rewrite (bool_decide_eq_false_2 (id = "")), (bool_decide_eq_false_2 (pretty stage = "")) by (done || apply pretty_stage; lia).
  simpl. rewrite (uuid_Parse_canonical id Hid), (parse_pretty_stage stage Hs). done.
Qed.

Lemma parse_reply_of st id stage im cl r m :
  canonical_uuid id → (0 ≤ stage ≤ 2 ^ 32 - 1)%Z → im ≠ "" → cl ≠ "" →
  reply_of (mkReplyMsg im cl id (pretty stage) (stage_parts st).1.2 r) m →
  parse_reply m = Some (mkWork im cl id stage (stage_kind st) r).
Proof.
  intros Hid Hs Him Hcl (Esub & Ehd & Edata). unfold parse_reply. rewrite Esub, Ehd. simpl in *.
  set (subject := (stage_parts st).1.2) in *.
  change (Get _ WorkID) with id. change (Get _ InputManifestName) with im. change (Get _ ClusterName) with cl.
  change (Get _ MsgIdHdr) with (stage_id id subject stage).
  destruct (subjects st) as (_ & _ & Hk & _ & [rest Er]). rewrite (split_stage_id _ _ _ rest) by (done || lia).
  rewrite !bool_decide_eq_false_2 by (done || by intros ->; destruct Hid). simpl.
  rewrite (parse_pretty_stage stage Hs). simpl. rewrite (Hk : taskStageFromNatsSubject subject = _). simpl. by rewrite (decode_encode_result _ _ Edata).
Qed.

(** C7: A reply finds its task.  When the manager hands the current stage of a
    task to a worker, the worker of that stage runs exactly the passes of the
    stage on the task, and every reply it publishes, confirmed or not, is
    read by the manager as the result of that run for the same manifest,
    cluster, task and stage, whatever JetStream answers. *)
Theorem replies_find_their_task `{Codec} `{Nats} im cl id task stage pipeline msg d w acts :
  messageForStage im cl id task stage pipeline = Ret (msg, d) →
  canonical_uuid id → (0 ≤ stage ≤ 2 ^ 32 - 1)%Z → im ≠ "" → cl ≠ "" →
  ∃ st, pipeline !! Z.to_nat stage = Some st ∧ Msg_Subject msg = requests (stage_kind st) ∧
    (worker_handler (stage_kind st) w (to_nats msg) = Ret acts →
     ∃ r, worker_reply im w st (Msg_Task msg) = Ret r ∧
       conversation (stage_parts st).1.2 (λ m, parse_reply m = Some (mkWork im cl id stage (stage_kind st) r)) acts).
Proof.
  intros Hm Hid Hs Him Hcl. assert (Hre : ∀ st, pipeline !! Z.to_nat stage = Some st → Msg_ReplyTo msg = (stage_parts st).1.2).
  { intros st Hst. unfold messageForStage in Hm. bind_inv Hm. apply index_Ret in Hx0. rewrite Hst in Hx0. injection Hx0 as <-.
    destruct (stage_parts st) as [[[ps sub] re] descr]. destruct (marshal_work _ _); [|done]. by injection Hm as <- _. }
  apply messageForStage_Ret in Hm as (st & Hst & Hsub & Hmid & Hcl' & Him' & Hps & _).
  destruct (subjects st) as (Esub & _). rewrite Esub in Hsub. exists st. split_and!; [done..|]. rewrite Hsub in Hmid. specialize (Hre st Hst).
  unfold worker_handler. rewrite (parse_request_stage _ _ _ _ Hid Hs Hmid).
  change (Get _ InputManifestName) with (Msg_InputManifest msg). change (Get _ ClusterName) with (Msg_Cluster msg).
  change (Get _ ReplyToHeader) with (Msg_ReplyTo msg). rewrite Him', Hcl', Hre. cbn [Nm_Data to_nats]. rewrite decode_encode_work, Hps.
  destruct (work_stage_parts st) as (st' & -> & Hrun). rewrite Hrun. destruct (worker_reply im w st _) as [x|?|?]; [|done..].
  cbn [bindO]. destruct (reply_loop 5 0 None _) as [l e] eqn:El. intros [= <-]. exists x. split; [done|]. apply reply_conversation in El.
  eapply conversation_mono; [|exact El]. intros m. by apply parse_reply_of.
Qed.

End protocol.

(** ** Witnesses *)

Definition sample_wire : Wire.
Proof.
  refine {| wire := (Task * list AnyPass) + TaskResult;
            encode_work t ps := inl (t, ps);
            decode_work d := match d with inl w => Some w | inr _ => None end;
            encode_result r := Some (inr r);
            decode_result d := match d with inr r => Some r | inl _ => None end;
            uuid_Parse s := bool_decide (String.length s = 36) && all_chars uuid_char s |}.
  - done.
  - by intros r d [= <-].
  - intros s [Hl Hc]. by rewrite bool_decide_eq_true_2, Hc.
Defined.

(** The first reply and the first acknowledgement are lost. *)
Definition flaky : JetStream (H := sample_wire) := {|
  js_Consumer _ := Found;
  js_PublishMsg i _ := match i with O => Some "timeout" | _ => None end;
  js_DoubleAck i := bool_decide (i ≠ 0) |}.

Definition sample_id : string := "0b9dc27e-6f3e-4f4c-9a6b-2f4d8a1c7e55".

Lemma sample_id_canonical : canonical_uuid sample_id.
Proof. by vm_compute. Qed.

Definition sample_request : outcome (Msg * string) :=
  messageForStage "m" "prod" sample_id (blob_task (Task_Update Samples.clusters Update_None_)) 2 sample_pipeline.

Definition sample_msg : Msg :=
  match sample_request with Ret (m, _) => m | _ => mkMsg "" "" "" "" "" (Task_Update Samples.clusters Update_None_) [] end.

Definition sample_handled : outcome (list (Act (H := sample_wire))) :=
  worker_handler (H0 := flaky) KubeEleven (sample_world 0) (to_nats (H := sample_wire) sample_msg).

(** One reply is lost, the second is confirmed, then the acknowledgements. *)
Example sample_handled_acts :
  match sample_handled with Ret [Publish _ false; Publish _ true; DoubleAck false; DoubleAck true] => true | _ => false end = true.
Proof. vm_compute. reflexivity. Qed.

Lemma acknowledged_after_reply_witness :
  ∃ acts, sample_handled = Ret acts ∧ conversation (H := sample_wire)
    (Get (Nm_Header (to_nats (H := sample_wire) sample_msg)) ReplyToHeader)
    (answers (H := sample_wire) KubeEleven (to_nats (H := sample_wire) sample_msg)) acts.
Proof.
  pose proof sample_handled_acts as Hb. destruct sample_handled as [acts|e|e] eqn:Ew; [|discriminate Hb..].
  exists acts. split; [done|].
  exact (acknowledged_after_reply (H0 := flaky) KubeEleven (sample_world 0) (to_nats (H := sample_wire) sample_msg) acts Ew).
Defined.

Lemma replies_find_their_task_witness :
  ∃ st acts r, sample_pipeline !! 2 = Some st ∧ sample_handled = Ret acts ∧
    worker_reply "m" (sample_world 0) st (Msg_Task sample_msg) = Ret r ∧
    conversation (H := sample_wire) (stage_parts st).1.2
      (λ m, parse_reply m = Some (mkWork "m" "prod" sample_id 2 (stage_kind st) r)) acts.
Proof.
  pose proof sample_handled_acts as Hb. destruct sample_handled as [acts|e|e] eqn:Ew; [|discriminate Hb..].
  assert (Hm : ∃ d, sample_request = Ret (sample_msg, d)) by (eexists; vm_compute; reflexivity). destruct Hm as [d Hm].
  destruct (replies_find_their_task (H0 := flaky) (H2 := blob_codec) (H3 := reliable_nats) "m" "prod" sample_id (blob_task (Task_Update Samples.clusters Update_None_)) 2 sample_pipeline sample_msg d (sample_world 0) acts Hm sample_id_canonical)
    as (st & Hst & _ & Hr); [lia|done|done|]. simpl in Hst. injection Hst as <-. destruct (Hr Ew) as (r & Hr1 & Hr2).
  eexists _, acts, r. split_and!; [reflexivity|reflexivity|exact Hr1|exact Hr2].
Defined.

End Messages.
