(* ===== verification/ManagerClient.v ===== *)
(** * The client of the manager (services/manager/client/*.go)

    The calls the operator makes: the errors of gRPC become the errors of the
    client, a write that lost against another one is retried.  Around every
    call other clients and the manager itself may change the store, and the
    connection may break; what happens is the list [events] of the [World].
    The use cases of the operator that create and delete a configuration are
    at the end (claudie-operator/server/domain/usecases). *)

From stdpp Require Import base gmap strings list.
From S2P Require Import Prelude Spec SpecUtils Store NodePools GenerateState Manifest Validate DesiredState Watchers Handlers.
Import Store Manifest.Manifest DesiredState Handlers.

(** [errors.Is] of a joined error finds [ErrVersionMismatch] or [ErrNotFound];
    any other status or a broken connection matches neither. *)
Inductive client_err :=
| ErrVersionMismatch
| ErrNotFound
| ErrStatus (code : rpc_code)
| ErrUnavailable
| ErrRetriesExhausted (cause : option client_err).

(** What may happen at a call: another client changes the store first, the
    request does not arrive, or the answer is lost. *)
Inductive event (T : Type) := Changed (f : T → T) | Refused | Lost.
Arguments Changed {T} f.
Arguments Refused {T}.
Arguments Lost {T}.

Record World (T : Type) := mkWorld { store : T; events : list (event T) }.
Arguments mkWorld {T} store events.
Arguments store {T} w : rename.
Arguments events {T} w : rename.

Module ManagerClient.

(** ** retry.go *)

Definition TolerateDirtyWrites : nat := 20.

Fixpoint is_mismatch (e : client_err) : bool :=
  match e with
  | ErrVersionMismatch => true
  | ErrRetriesExhausted (Some e) => is_mismatch e
  | _ => false
  end.

Section retry.
Context {W : Type} (fn : W → outcome (W * option client_err)).

(** The loop, with the attempts that are left and those that were made. *)
Fixpoint retry_loop (n retries : nat) (err : option client_err) (w : W) : outcome (W * option client_err * nat) :=
  match n with
  | O => Ret (w, err, retries)
  | S n =>
      let* (w, err) := fn w in
      match err with
      | Some e => if is_mismatch e then retry_loop n (S retries) err w else Ret (w, err, S retries)
      | None => Ret (w, err, S retries)
      end
  end.

Definition Retry (w : W) : outcome (W * option client_err) :=
  let* (w, err, retries) := retry_loop TolerateDirtyWrites 0 None w in
  Ret (w, if bool_decide (retries = TolerateDirtyWrites) then Some (ErrRetriesExhausted err) else err).

End retry.

(** ** client.go *)

Section client.
Context `{Codec} `{RangeOrder} `{Yaml} (Digest : string → string) {T : Type} `{!Store T} `{!Crud T}.

(** A remote call: the handler runs on the store as it is by then. *)
Definition call {R} (w : World T) (handler : T → outcome (T * (R + rpc_code))) : outcome (World T * (R + client_err)) :=
  let answer (r : R + rpc_code) : R + client_err := match r with inl a => inl a | inr c => inr (ErrStatus c) end in
  match events w with
  | [] => let* (s, r) := handler (store w) in Ret (mkWorld s [], answer r)
  | Changed f :: es => let* (s, r) := handler (f (store w)) in Ret (mkWorld s es, answer r)
  | Refused :: es => Ret (mkWorld (store w) es, inr ErrUnavailable)
  | Lost :: es => let* (s, _) := handler (store w) in Ret (mkWorld s es, inr ErrUnavailable)
  end.

(** The switch on the status of an error. *)
Definition from_status (e : client_err) : client_err :=
  match e with
  | ErrStatus NotFound => ErrNotFound
  | ErrStatus Aborted => ErrVersionMismatch
  | e => e
  end.

Definition not_found (e : client_err) : client_err :=
  match e with ErrStatus NotFound => ErrNotFound | e => e end.

Definition mismatch (e : client_err) : client_err :=
  match e with ErrStatus Aborted => ErrVersionMismatch | e => e end.

Definition map_err {R} (f : client_err → client_err) (r : R + client_err) : R + client_err :=
  match r with inl a => inl a | inr e => inr (f e) end.

Definition Client_NodePoolUpdateTargetSize (now : Z) (w : World T) (config cluster np : string) (lb : option string) (target : Z)
    : outcome (World T * (Z + client_err)) :=
  let* (w, r) := call w (λ s, NodePoolUpdateTargetSize now s config cluster np lb target) in
  Ret (w, map_err from_status r).

Definition Client_MarkNodeForDeletion (now : Z) (w : World T) (config cluster np node : string) (lb : option string)
    (decrement : bool) : outcome (World T * (Z + client_err)) :=
  let* (w, r) := call w (λ s, MarkNodeForDeletion now s config cluster np node lb decrement) in
  Ret (w, map_err from_status r).

(** A handler that only reads. *)
Definition reading {R} (f : T → outcome (R + rpc_code)) (s : T) : outcome (T * (R + rpc_code)) :=
  let* r := f s in Ret (s, r).

Definition Client_GetConfig (w : World T) (name : string) : outcome (World T * (Config + client_err)) :=
  let* (w, r) := call w (reading (λ s, GetConfig_ s name)) in Ret (w, map_err not_found r).

Definition Client_ListConfigs (w : World T) : outcome (World T * (list Config + client_err)) :=
  call w (reading ListConfigs_).

Definition Client_MarkForDeletion {digest : string} `{!Marking T digest} (w : World T) (name : string)
    : outcome (World T * option client_err) :=
  let* (w, current) := call w (reading (λ s, GetConfig_ s name)) in
  match current with
  | inr e => Ret (w, Some (not_found e))
  | inl current =>
      let* (w, r) := call w (λ s, Ret (MarkForDeletion_ (digest := digest) s name (Config_Version current))) in
      match r with
      | inl _ => Ret (w, None)
      | inr e => Ret (w, Some (from_status e))
      end
  end.

(** The request has no state: its zero value is [Pending]. *)
Definition Client_UpsertManifest (now : Z) (w : World T) (name : string) (ctx : KubernetesContext) (raw : string)
    : outcome (World T * option client_err) :=
  let* (w, r) := call w (λ s, UpsertManifest Digest now s name ctx (Some (raw, Pending))) in
  match r with
  | inl _ => Ret (w, None)
  | inr e => Ret (w, Some (mismatch e))
  end.

(** ** process_manifest_files.go *)

Definition Usecases_CreateConfig (now : Z) (w : World T) (name raw : string) (ctx : KubernetesContext)
    : outcome (World T * option client_err) :=
  Retry (λ w, Client_UpsertManifest now w name ctx raw) w.

Definition Usecases_DeleteConfig {digest : string} `{!Marking T digest} (w : World T) (name : string)
    : outcome (World T * option client_err) :=
  Retry (λ w, let* (w, err) := Client_MarkForDeletion (digest := digest) w name in
              match err with
              | Some ErrNotFound => Ret (w, None)
              | err => Ret (w, err)
              end) w.

End client.

(** ** Retries *)

Section retried.
Context {W : Type} (fn : W → outcome (W * option client_err)).

(** Every attempt but the last one was refused as a dirty write. *)
Inductive attempts : nat → W → W → option client_err → Prop :=
| attempts_last w w' err : fn w = Ret (w', err) → attempts 1 w w' err
| attempts_more n w w1 w' e err :
    fn w = Ret (w1, Some e) → is_mismatch e = true → attempts n w1 w' err → attempts (S n) w w' err.

Lemma retry_loop_attempts n retries err w w' err' r :
  retry_loop fn (S n) retries err w = Ret (w', err', r) →
  ∃ k, attempts k w w' err' ∧ k ≤ S n ∧ r = retries + k.
Proof.
  revert retries err w. induction n as [|n IH]; intros retries err w E; cbn [retry_loop] in E;
    destruct (fn w) as [[w1 o]|?|?] eqn:Ef; cbn [bindO] in E; try done;
    destruct o as [e|]; try (destruct (is_mismatch e) eqn:Em);
    try (injection E as <- <- <-; exists 1; split; [by apply attempts_last|lia]).
  apply (IH (S retries) (Some e)) in E as (k & Ha & Hk & ->). exists (S k). split; [by eapply attempts_more|lia].
Qed.

Lemma Retry_attempts w w' err :
  Retry fn w = Ret (w', err) →
  ∃ k e, attempts k w w' e ∧ k ≤ TolerateDirtyWrites ∧
    err = if bool_decide (k = TolerateDirtyWrites) then Some (ErrRetriesExhausted e) else e.
Proof.
  unfold Retry. intros E. destruct (retry_loop _ _ _ _ _) as [[[w1 e] r]|?|?] eqn:El; cbn [bindO] in E; try done.
  injection E as <- <-. apply (retry_loop_attempts 19) in El as (k & Ha & Hk & ->). by exists k, e.
Qed.

Lemma attempts_final k w w' err : attempts k w w' err → ∃ w0, fn w0 = Ret (w', err).
Proof. induction 1 as [w w' err E|n w w1 w' e err _ _ _ IH]; [by exists w|done]. Qed.

(** Attempts that are refused at most [k] times in a row end within
    [S k] attempts, which [Retry] makes when [S k] is below its limit. *)
Lemma retry_loop_converges (fuel : W → nat) (ok : W → Prop) :
  (∀ w, ok w → ∃ w' err, fn w = Ret (w', err) ∧
     match err with
     | None => True
     | Some e => is_mismatch e = true ∧ ok w' ∧ fuel w' < fuel w
     end) →
  ∀ n retries err w, ok w → fuel w < n →
  ∃ w' r, retry_loop fn n retries err w = Ret (w', None, r) ∧ r ≤ retries + S (fuel w).
Proof.
  intros Hstep n. induction n as [|n IH]; intros retries err w Hw Hn; [lia|]. cbn [retry_loop].
  destruct (Hstep w Hw) as (w1 & o & -> & Ho). cbn [bindO]. destruct o as [e|].
  - destruct Ho as (-> & Hw1 & Hlt). destruct (IH (S retries) (Some e) w1 Hw1 ltac:(lia)) as (w' & r & -> & Hr).
    exists w', r. split; [done|lia].
  - exists w1, (S retries). split; [done|lia].
Qed.

End retried.

(** ** Requests of deletion *)

Section deletion.
Context `{Codec} `{RangeOrder} {T : Type} `{!Store T} {digest : string} `{!Marking T digest} (name : string).

Definition marked_doc (d : DbConfig) : Prop :=
  Db_Raw (Db_Manifest d) = "" ∧ Db_Checksum (Db_Manifest d) = None.

(** Nothing is left to request: the document is gone or carries the mark. *)
Definition deletion_requested (s : T) : Prop :=
  ∀ d, contents s !! name = Some d → marked_doc d.

Lemma call_reading {R} (f : T → outcome (R + rpc_code)) w w' (r : R) :
  call w (reading f) = Ret (w', inl r) → f (store w') = Ret (inl r).
Proof.
  unfold call, reading. destruct (events w) as [|[g| |] es]; try done; intros E;
    match type of E with context [f ?s] => destruct (f s) as [[a|c]|?|?] eqn:Ef end; cbn in E; simplify_eq; done.
Qed.

Lemma call_reading_err {R} (f : T → outcome (R + rpc_code)) w w' c :
  call w (reading f) = Ret (w', inr (ErrStatus c)) → f (store w') = Ret (inr c).
Proof.
  unfold call, reading. destruct (events w) as [|[g| |] es]; try done; intros E;
    match type of E with context [f ?s] => destruct (f s) as [[a|c']|?|?] eqn:Ef end; cbn in E; simplify_eq; done.
Qed.

Lemma GetConfig_missing_ (s : T) : GetConfig_ s name = Ret (inr NotFound) → contents s !! name = None.
Proof.
  unfold GetConfig_. destruct (GetConfig s name) as [cfg|[|e]] eqn:E; [|by intros _; apply GetConfig_missing|done].
  by destruct (ConvertToGRPC cfg).
Qed.

Lemma MarkForDeletion_handler_ok (s s' : T) v r :
  MarkForDeletion_ (digest := digest) s name v = (s', inl r) → deletion_requested s'.
Proof.
  unfold MarkForDeletion_. destruct (MarkForDeletion s name v) as [s1 [[|e]|]] eqn:E.
  - by destruct (GetConfig s1 name) as [|[]].
  - done.
  - intros [= <- _]. apply MarkForDeletion_ok in E as (old & _ & _ & E). intros d. rewrite E, lookup_insert_eq.
    by intros [= <-].
Qed.

Lemma MarkForDeletion_handler_gone (s s' : T) v :
  MarkForDeletion_ (digest := digest) s name v = (s', inr NotFound) → contents s' !! name = None.
Proof.
  unfold MarkForDeletion_. destruct (MarkForDeletion s name v) as [s1 [[|e]|]] eqn:E; [|done..].
  destruct (GetConfig s1 name) as [|[]] eqn:Eg; intros [= <-]. by apply GetConfig_missing.
Qed.

Lemma Client_MarkForDeletion_done (w w' : World T) err :
  Client_MarkForDeletion (digest := digest) w name = Ret (w', err) →
  err = None ∨ err = Some ErrNotFound → deletion_requested (store w').
Proof.
  unfold Client_MarkForDeletion. intros E Herr.
  destruct (call w _) as [[w1 [cur|e]]|?|?] eqn:Ec; cbn [bindO] in E; try done.
  - destruct (call w1 _) as [[w2 [r|e]]|?|?] eqn:Em; cbn [bindO] in E; try done.
    + injection E as <- <-. revert Em. unfold call.
      destruct (events w1) as [|[g| |] es]; cbn [bindO]; try done;
        match goal with |- context [MarkForDeletion_ ?s ?n ?v] => destruct (MarkForDeletion_ s n v) as [s2 [?|?]] eqn:E end;
        intros [= <- <-]; by eapply MarkForDeletion_handler_ok.
    + injection E as <- <-. destruct Herr as [Hx|He]; [done|injection He as He].
      assert (e = ErrStatus NotFound ∨ e = ErrNotFound) as Hc by (destruct e as [| |[]| |]; naive_solver).
      revert Em. unfold call.
      destruct (events w1) as [|[g| |] es]; cbn [bindO];
        try match goal with |- context [MarkForDeletion_ ?s ?n ?v] => destruct (MarkForDeletion_ s n v) as [s2 [?|c]] eqn:E end;
        intros [= <- Hx]; destruct Hc as [Hc|Hc]; subst e; simplify_eq; intros d;
        cbn [store]; rewrite (MarkForDeletion_handler_gone _ _ _ E); done.
  - injection E as <- <-. destruct Herr as [Hx|He]; [done|injection He as He].
    assert (e = ErrStatus NotFound) as ->.
    { destruct e as [| |[]| |]; try done. exfalso. revert Ec. unfold call, reading.
      destruct (events w) as [|[g| |] es]; try done;
        match goal with |- context [GetConfig_ ?s ?n] => destruct (GetConfig_ s n) as [[?|?]|?|?] end; done. }
    apply call_reading_err, GetConfig_missing_ in Ec. intros d. by rewrite Ec.
Qed.

(** One attempt of the request. *)
Definition attempt_mark (w : World T) : outcome (World T * option client_err) :=
  let* (w, err) := Client_MarkForDeletion (digest := digest) w name in
  match err with
  | Some ErrNotFound => Ret (w, None)
  | err => Ret (w, err)
  end.

Lemma attempt_mark_done (w w' : World T) : attempt_mark w = Ret (w', None) → deletion_requested (store w').
Proof.
  unfold attempt_mark. destruct (Client_MarkForDeletion w name) as [[w1 err]|?|?] eqn:E; cbn [bindO]; try done.
  destruct err as [[| | | |]|]; intros; simplify_eq;
    (eapply Client_MarkForDeletion_done; [exact E|]); [by right|by left].
Qed.

(** The stored document can be read. *)
Definition readable (s : T) : Prop := ∀ d, contents s !! name = Some d → ∃ c, ConvertToGRPC d = Ret c.

(** Only other writers interfere, and they leave the document readable. *)
Definition benign (e : event T) : Prop :=
  match e with Changed f => ∀ s, readable s → readable (f s) | _ => False end.

(** The database answers. *)
Definition reliable : Prop :=
  (∀ (s : T) e, GetConfig s name ≠ inr (ErrOther e)) ∧
  (∀ (s s' : T) v e, MarkForDeletion (digest := digest) s name v ≠ (s', Some (ErrOther e))).

Lemma get_answers (s : T) :
  reliable → readable s →
  (GetConfig_ s name = Ret (inr NotFound) ∧ contents s !! name = None) ∨
  ∃ d c, contents s !! name = Some d ∧ GetConfig_ s name = Ret (inl c) ∧ Config_Version c = Db_Version d.
Proof.
  intros [Hr _] Hs. unfold GetConfig_. destruct (GetConfig s name) as [d|[|e]] eqn:E.
  - apply GetConfig_ok in E. destruct (Hs d E) as [c Hc]. right. exists d, c. rewrite Hc. split_and!; [done..|].
    revert Hc. unfold ConvertToGRPC. destruct (convert_map _ _ _); cbn [bindO]; by intros [= <-].
  - left. split; [done|]. by apply GetConfig_missing.
  - by apply Hr in E.
Qed.

Lemma mark_answers (s : T) v :
  reliable → readable s →
  ∃ s' r, MarkForDeletion_ (digest := digest) s name v = (s', r) ∧
    (r = inr Aborted → ¬ current_version (contents s) name v ∧ readable s') ∧
    (is_Some (match r with inl _ => Some () | inr _ => None end) ∨ r = inr NotFound ∨ r = inr Aborted).
Proof.
  intros Hrel Hs. unfold MarkForDeletion_.
  destruct (MarkForDeletion s name v) as [s1 [[|e]|]] eqn:E.
  - apply MarkForDeletion_dirty in E as [Hv Hc].
    destruct (GetConfig s1 name) as [d|[|e]] eqn:Eg.
    + exists s1, (inr Aborted). split; [done|]. split; [|by right; right]. intros _. split; [done|].
      unfold readable. by rewrite Hc.
    + exists s1, (inr NotFound). split; [done|]. split; [done|by right; left].
    + by apply (proj1 Hrel) in Eg.
  - by apply (proj2 Hrel) in E.
  - exists s1. eexists. split; [done|]. split; [done|left; by eexists].
Qed.

(** An attempt succeeds unless another writer changed the store between the
    read of the version and the write. *)
Lemma attempt_mark_step (w : World T) :
  reliable → readable (store w) → Forall benign (events w) →
  ∃ w' err, attempt_mark w = Ret (w', err) ∧
    match err with
    | None => True
    | Some e => is_mismatch e = true ∧ (readable (store w') ∧ Forall benign (events w')) ∧
                S (S (length (events w'))) = length (events w)
    end.
Proof.
  intros Hrel Hr Hb. unfold attempt_mark, Client_MarkForDeletion.
  set (s1 := match events w with Changed f :: _ => f (store w) | _ => store w end).
  assert (readable s1) as Hs1.
  { unfold s1. destruct (events w) as [|[f| |] es]; try done. apply Forall_cons in Hb as [Hf _]. by apply Hf. }
  assert (call w (reading (λ s, GetConfig_ s name)) =
          let* r := GetConfig_ s1 name in
          Ret (mkWorld s1 (tail (events w)), match r with inl a => inl a | inr c => inr (ErrStatus c) end)) as ->.
  { unfold call, reading, s1. destruct (events w) as [|[f| |] es]; simpl;
      try (by apply Forall_cons in Hb as [[] _]); by destruct (GetConfig_ _ name). }
  destruct (get_answers s1 Hrel Hs1) as [[-> _]|(d & c & Hd & -> & Hv)]; cbn [bindO not_found].
  { by eexists _, None. }
  unfold call. cbn [events store].
  destruct (events w) as [|[f| |] es] eqn:Ee; cbn [tail]; try (by apply Forall_cons in Hb as [[] _]).
  - destruct (mark_answers s1 (Config_Version c) Hrel Hs1) as (s2 & r & -> & Ha & Hc). cbn [bindO].
    destruct r as [?|[]]; cbn [bindO from_status]; try (by eexists _, None); destruct Hc as [[? ?]|Hc]; try naive_solver.
    destruct (Ha eq_refl) as [Hn _]. exfalso. apply Hn. exists d. by rewrite Hv.
  - apply Forall_cons in Hb as [Hf Hb]. destruct es as [|[g| |] es]; try (by apply Forall_cons in Hb as [[] _]).
    + destruct (mark_answers s1 (Config_Version c) Hrel Hs1) as (s2 & r & -> & Ha & Hc). cbn [bindO].
      destruct r as [?|[]]; cbn [bindO from_status]; try (by eexists _, None); destruct Hc as [[? ?]|Hc]; try naive_solver.
      destruct (Ha eq_refl) as [Hn _]. exfalso. apply Hn. exists d. by rewrite Hv.
    + apply Forall_cons in Hb as [Hg Hb].
      destruct (mark_answers (g s1) (Config_Version c) Hrel (Hg s1 Hs1)) as (s2 & r & -> & Ha & Hc). cbn [bindO].
      destruct r as [?|[]]; cbn [bindO from_status]; try (by eexists _, None); destruct Hc as [[? ?]|Hc]; try naive_solver.
Qed.

Lemma DeleteConfig_safe (w w' : World T) :
  Usecases_DeleteConfig (digest := digest) w name = Ret (w', None) → deletion_requested (store w').
Proof.
  change (Usecases_DeleteConfig (digest := digest) w name) with (Retry attempt_mark w).
  intros (k & e & Ha & _ & He)%Retry_attempts. case_bool_decide; [done|]. subst e.
  apply attempts_final in Ha as [w0 Hw0]. by eapply attempt_mark_done.
Qed.

(** C21: The operator's request to delete a configuration takes effect. When
    [DeleteConfig] returns no error, the document is gone or marked for
    deletion (no manifest, no checksum), whatever other clients did meanwhile
    and however often the connection failed. And it does return without error
    when the database answers and other writers, each leaving the document
    readable, change the store at most 37 times during the request: then at
    most 18 attempts are dirty writes. *)
Theorem deletion_request_takes_effect (w : World T) :
  (∀ w', Usecases_DeleteConfig (digest := digest) w name = Ret (w', None) → deletion_requested (store w')) ∧
  (reliable → readable (store w) → Forall benign (events w) → length (events w) ≤ 37 →
   ∃ w', Usecases_DeleteConfig (digest := digest) w name = Ret (w', None) ∧ deletion_requested (store w')).
Proof.
  assert (∀ w', Usecases_DeleteConfig (digest := digest) w name = Ret (w', None) → deletion_requested (store w')) as Hsafe
    by apply DeleteConfig_safe.
  change (Usecases_DeleteConfig (digest := digest) w name) with (Retry attempt_mark w) in *.
  split; [exact Hsafe|]. intros Hrel Hr Hb Hl.
  destruct (retry_loop_converges attempt_mark (λ w, Nat.div2 (length (events w)))
              (λ w, readable (store w) ∧ Forall benign (events w))) with (n := TolerateDirtyWrites) (retries := 0)
    (err := @None client_err) (w := w) as (w' & r & E & Hle); [|done| |].
  - intros w0 [Hr0 Hb0]. destruct (attempt_mark_step w0 Hrel Hr0 Hb0) as (w1 & err & E & Herr).
    exists w1, err. split; [done|]. destruct err as [e|]; [|done]. destruct Herr as (? & ? & Hlen).
    split; [done|]. split; [done|]. rewrite <- Hlen. simpl. lia.
  - unfold TolerateDirtyWrites. pose proof (Nat.div2_odd (length (events w))). lia.
  - assert (r < 20) as Hlt by (pose proof (Nat.div2_odd (length (events w))); lia).
    assert (Retry attempt_mark w = Ret (w', None)) as ER.
    { unfold Retry. rewrite E. cbn [bindO]. rewrite bool_decide_eq_false_2; [done|]. unfold TolerateDirtyWrites. lia. }
    exists w'. split; [done|]. by apply Hsafe.
Qed.

End deletion.

(** ** What calls keep *)

Lemma Retry_keeps {W} (fn : W → outcome (W * option client_err)) (J : W → Prop) w w' err :
  (∀ w w' e, fn w = Ret (w', e) → J w → J w') → Retry fn w = Ret (w', err) → J w → J w'.
Proof.
  intros Hfn (k & e & Ha & _ & _)%Retry_attempts. induction Ha as [w w' err' E|n w w1 w' e' err' E _ _ IH]; [by apply (Hfn _ _ _ E)|].
  intros HJ. apply IH. by apply (Hfn _ _ _ E).
Qed.

Section keeps.
Context `{Codec} `{RangeOrder} {T : Type} (I : T → Prop).

(** What other clients do keeps [I]. *)
Definition keeping (e : event T) : Prop := match e with Changed f => ∀ s, I s → I (f s) | _ => True end.

Definition kept (w : World T) : Prop := I (store w) ∧ Forall keeping (events w).

Lemma call_keeps {R} (handler : T → outcome (T * (R + rpc_code))) w w' r :
  (∀ s s' r, handler s = Ret (s', r) → I s → I s') → call w handler = Ret (w', r) → kept w → kept w'.
Proof.
  intros Hh E [Hs He]. unfold call in E. destruct (events w) as [|[f| |] es]; try (apply Forall_cons in He as [Hf He]);
    match type of E with context [handler ?s] => destruct (handler s) as [[s1 r1]|?|?] eqn:Eh | _ => idtac end;
    cbn [bindO] in E; simplify_eq; split; try done; eapply Hh; try done; by apply Hf.
Qed.

Lemma reading_keeps {R} (f : T → outcome (R + rpc_code)) s s' r : reading f s = Ret (s', r) → I s → I s'.
Proof. unfold reading. destruct (f s); cbn [bindO]; by intros [= <- _]. Qed.

End keeps.

Section names.
Context `{Codec} `{RangeOrder} `{Yaml} (Digest : string → string) {T : Type} `{!Store T} `{!Crud T} {digest : string}
  `{!Marking T digest}.

(** Every document is stored under its name. *)
Definition keyed (s : T) : Prop := ∀ n c, contents s !! n = Some c → Db_Name c = n.

(** ... and there is none of this name. *)
Definition absent (name : string) (s : T) : Prop := keyed s ∧ contents s !! name = None.

Lemma keyed_insert (s s' : T) n d : keyed s → Db_Name d = n → contents s' = <[n := d]> (contents s) → keyed s'.
Proof.
  intros Hk Hd E n' c. rewrite E. intros [[<- <-]|[_ Hc]]%lookup_insert_Some; [done|by apply Hk].
Qed.

Lemma UpdateConfig_keyed (s s' : T) c e : UpdateConfig s c = (s', e) → keyed s → keyed s'.
Proof.
  intros E Hk. destruct e as [[|e]|].
  - apply UpdateConfig_dirty in E as [_ E]. intros n d. rewrite E. apply Hk.
  - apply UpdateConfig_err in E as [E|[_ E]]; [intros n d; rewrite E; apply Hk|eapply keyed_insert; [exact Hk| |exact E]; done].
  - apply UpdateConfig_ok in E as [_ E]. eapply keyed_insert; [exact Hk| |exact E]; done.
Qed.

Lemma CreateConfig_keyed (s s' : T) c e : CreateConfig s c = (s', e) → keyed s → keyed s'.
Proof.
  intros E Hk. destruct e as [e|].
  - apply CreateConfig_err in E as [E|[_ E]]; [intros n d; rewrite E; apply Hk|eapply keyed_insert; [exact Hk| |exact E]; done].
  - apply CreateConfig_ok in E as [_ E]. eapply keyed_insert; [exact Hk| |exact E]; done.
Qed.

Lemma UpsertManifest_keyed now (s s' : T) name ctx mf r : UpsertManifest Digest now s name ctx mf = Ret (s', r) → keyed s → keyed s'.
Proof.
  unfold UpsertManifest. destruct mf as [[raw state]|]; [|by intros [= <- _]].
  destruct (_ || _); [by intros [= <- _]|]. destruct (GetConfig s name) as [cfg|[|e]]; [|..|by intros [= <- _]].
  - destruct (ListConfigs s []) as [all|]; [|by intros [= <- _]].
    destruct (bindO _ _) as [[]|?|?]; [|by intros [= <- _]|done].
    destruct (UpdateConfig s _) as [s1 [[|e]|]] eqn:E; intros [= <- _]; by eapply UpdateConfig_keyed.
  - destruct (CreateConfig s _) as [s1 [e|]] eqn:E; intros [= <- _]; by eapply CreateConfig_keyed.
Qed.

(** Marking changes neither the keys nor the names. *)
Lemma MarkForDeletion_handler_dom (s s' : T) n v r :
  MarkForDeletion_ (digest := digest) s n v = (s', r) → keyed s → keyed s' ∧ ∀ k, contents s !! k = None → contents s' !! k = None.
Proof.
  intros E Hk.
  assert (∃ e, MarkForDeletion (digest := digest) s n v = (s', e)) as [e Em].
  { unfold MarkForDeletion_ in E. destruct (MarkForDeletion s n v) as [s1 [[|e]|]];
      [destruct (GetConfig s1 n) as [|[]]|..]; injection E as <- _; by eexists. }
  assert (contents s' = contents s ∨
    ∃ old, contents s !! n = Some old ∧ contents s' = <[n := marked digest old]> (contents s)) as [Hc|(old & Ho & Hc)].
  { destruct e as [[|e]|].
    - apply MarkForDeletion_dirty in Em as [_ ?]. by left.
    - apply MarkForDeletion_err in Em as [?|(old & ? & _ & ?)]; [by left|right; by exists old].
    - apply MarkForDeletion_ok in Em as (old & ? & _ & ?). right. by exists old. }
  - split; [intros k c; rewrite Hc; apply Hk|intros k; by rewrite Hc].
  - split; [eapply keyed_insert; [done| |done]; exact (Hk n old Ho)|].
    intros k Hn. rewrite Hc. apply lookup_insert_None. split; [done|]. intros <-. congruence.
Qed.

Lemma ListConfigs_keeps (I : T → Prop) w w' x : Client_ListConfigs w = Ret (w', x) → kept I w → kept I w'.
Proof. apply call_keeps. intros s s' r. apply reading_keeps. Qed.

Lemma create_keeps_keyed now w w' name raw ctx err :
  Usecases_CreateConfig Digest now w name raw ctx = Ret (w', err) → kept keyed w → kept keyed w'.
Proof.
  apply Retry_keeps. clear. intros w w' e E. unfold Client_UpsertManifest in E.
  destruct (call w _) as [[w1 r]|?|?] eqn:Ec; cbn [bindO] in E; try done.
  assert (w1 = w') as -> by (destruct r; by injection E).
  revert Ec. apply call_keeps. intros s s' r'. apply UpsertManifest_keyed.
Qed.

Lemma delete_keeps (I : T → Prop) w w' name err :
  (∀ s s' v r, MarkForDeletion_ (digest := digest) s name v = (s', r) → I s → I s') →
  Usecases_DeleteConfig (digest := digest) w name = Ret (w', err) → kept I w → kept I w'.
Proof.
  intros HI. apply Retry_keeps. clear -HI. intros w w' e E Hk. unfold Client_MarkForDeletion in E.
  destruct (call w _) as [[w1 r]|?|?] eqn:Ec; cbn [bindO] in E; try done.
  apply call_keeps with (I := I) in Ec; [|intros s s' ?; apply reading_keeps|done].
  destruct r as [cur|e1]; cbn [bindO] in E.
  - destruct (call w1 _) as [[w2 r]|?|?] eqn:Em; cbn [bindO] in E; try done.
    apply call_keeps with (I := I) in Em; [|intros s s' r' [= Es]; by eapply HI|done].
    destruct r as [|e2]; cbn [bindO] in E; [by injection E as <- _|]. by destruct (from_status e2); injection E as <- _.
  - by destruct (not_found e1); injection E as <- _.
Qed.

End names.

(** *** Instances *)

(** Another writer saves the document again. *)
Definition rewrite_doc (s : gmap string DbConfig) : gmap string DbConfig := alter bumped "m" s.

Definition contended : World (gmap string DbConfig) :=
  mkWorld running_store [Changed id; Changed rewrite_doc; Changed rewrite_doc; Changed rewrite_doc].

Lemma bumped_readable d c : ConvertToGRPC d = Ret c → is_Some (match ConvertToGRPC (bumped d) with Ret c => Some c | _ => None end).
Proof. unfold ConvertToGRPC. simpl. by destruct (convert_map _ _ _). Qed.

Lemma map_reliable : reliable (T := gmap string DbConfig) (digest := "d") "m".
Proof.
  split.
  - intros s e. simpl. unfold Mongo_GetConfig. simpl. by destruct (s !! "m").
  - intros s s' v e. simpl. unfold Mongo_MarkForDeletion. simpl.
    destruct (s !! "m"); [|done]. by case_bool_decide.
Qed.

Lemma rewrite_benign : benign "m" (Changed rewrite_doc).
Proof.
  intros s Hs d Hd. change (alter bumped "m" s !! "m" = Some d) in Hd. rewrite lookup_alter_eq in Hd.
  apply fmap_Some in Hd as (d0 & Hd0 & ->). destruct (Hs d0 Hd0) as [c Hc].
  apply bumped_readable in Hc as [c' Hc']. destruct (ConvertToGRPC (bumped d0)) as [c''|?|?]; [by exists c''|done..].
Qed.

Lemma running_readable : readable (T := gmap string DbConfig) "m" running_store.
Proof.
  intros d Hd. change (Some running_config = Some d) in Hd. injection Hd as <-.
  destruct (ConvertToGRPC running_config) as [c|?|?] eqn:E; [by exists c|..]; exfalso;
    assert (match ConvertToGRPC running_config with Ret _ => true | _ => false end = true) as Hc by (vm_compute; reflexivity);
    by rewrite E in Hc.
Qed.

Lemma deletion_request_takes_effect_witness :
  ∃ w', Usecases_DeleteConfig (digest := "d") contended "m" = Ret (w', None) ∧ deletion_requested "m" (store w').
Proof.
  refine (proj2 (deletion_request_takes_effect (digest := "d") "m" contended) map_reliable running_readable _ _).
  - repeat constructor; try apply rewrite_benign. intros s Hs. exact Hs.
  - vm_compute. lia.
Defined.

(** A request that succeeds at the last attempt is reported as failed: the
    number of attempts is compared with the limit, not the error. *)
Example late_success_is_an_error :
  Retry (λ n, Ret (S n, if bool_decide (n < 19) then Some ErrVersionMismatch else None)) 0
  = Ret (20, Some (ErrRetriesExhausted None)).
Proof. reflexivity. Qed.

End ManagerClient.
