(* ===== verification/Crd.v ===== *)
(** * The InputManifest resource (internal/api/crd, claudie-operator/pkg/controller)

    The custom resource a user writes, the secrets and template references it
    points to, how the operator turns them into the manifest the manager
    reads ([constructInputManifest] of controler_helpers.go), and the
    validating webhook (validator.go).  Objects other than the resource are
    read from the Kubernetes API: every read is a question to the class
    [KubeReader], numbered by its place in the code. *)

From Stdlib Require Import Ascii.
From stdpp Require Import base gmap strings list sorting.
From S2P Require Import Prelude Spec SpecUtils NodePools GenerateState Manifest Validate.
Import Manifest Validate.

(** [client.ObjectKey] *)
Record ObjectKey := mkObjectKey { Key_Name : string; Key_Namespace : string }.
#[export] Instance ObjectKey_eq_dec : EqDecision ObjectKey.
Proof. solve_decision. Defined.

(** [corev1.Secret]: the values are bytes. *)
Record Secret := mkSecret { Secret_Name : string; Secret_Namespace : string; Secret_Data : gmap string string }.

(** template-git-reference/v1beta1 *)
Record GitPaths := mkGitPaths {
  Git_Terraformer : string; Git_Playbooks : string; Git_ConfigLB : string; Git_ConfigK8s : string;
  Git_ManifestsK8s : string }.
Record TemplateGitReference := mkTemplateGitReference {
  Tgr_Name : string; Tgr_Namespace : string; Tgr_URL : string; Tgr_Protocol : string;
  Tgr_AuthSecret : option ObjectKey; Tgr_Commit : string; Tgr_Paths : GitPaths }.

(** The answer of [kc.Get]. *)
Inductive answer (A : Type) := Got (a : A) | Missing | Failed (err : string).
Arguments Got {A} a.
Arguments Missing {A}.
Arguments Failed {A} err.

(** Reads of the API server; the number sequence is the place of the call, as
    two reads of one key may be answered differently. *)
Class KubeReader := {
  Get_Secret : list nat → ObjectKey → answer Secret;
  Get_Templates : list nat → ObjectKey → answer TemplateGitReference
}.

(** The namespace and repository of the default templates, from the
    environment of the operator. *)
Class OperatorEnvs := {
  TemplateReferenceHttpsUrl : string;
  TemplateReferenceCommit : string;
  TemplatesDefaultNamespace : string
}.

Module Crd.

(** ** Bytes of a string *)

(** [utf8.Valid]: the lead byte of a sequence determines how many bytes
    follow and the range of the first of them. *)
Definition utf8_lead (n : nat) : option (nat * nat * nat) :=
  if bool_decide (194 ≤ n ≤ 223) then Some (1, 128, 191)
  else if bool_decide (n = 224) then Some (2, 160, 191)
  else if bool_decide (n = 237) then Some (2, 128, 159)
  else if bool_decide (225 ≤ n ≤ 239) then Some (2, 128, 191)
  else if bool_decide (n = 240) then Some (3, 144, 191)
  else if bool_decide (241 ≤ n ≤ 243) then Some (3, 128, 191)
  else if bool_decide (n = 244) then Some (3, 128, 143)
  else None.

Fixpoint utf8_go (need lo hi : nat) (s : string) : bool :=
  match s with
  | EmptyString => bool_decide (need = 0)
  | String a s =>
      let n := nat_of_ascii a in
      match need with
      | O => if bool_decide (n < 128) then utf8_go 0 0 0 s
             else match utf8_lead n with Some (k, lo, hi) => utf8_go k lo hi s | None => false end
      | S need => bool_decide (lo ≤ n ≤ hi) && utf8_go need 128 191 s
      end
  end.

Definition utf8_Valid (s : string) : bool := utf8_go 0 0 0 s.

(** The encodings of the runes with the property White_Space. *)
Definition white_space : list (list ascii) :=
  map (map ascii_of_nat)
  ([[9]; [10]; [11]; [12]; [13]; [32]; [194; 133]; [194; 160]; [225; 154; 128]] ++
   map (λ n, [226; 128; n]) (seq 128 11 ++ [168; 169; 175]) ++ [[226; 129; 159]; [227; 128; 128]]).

(** [s] without the prefix [w]. *)
Fixpoint strip (w s : list ascii) : option (list ascii) :=
  match w, s with
  | [], s => Some s
  | a :: w, b :: s => if Ascii.eqb a b then strip w s else None
  | _ :: _, [] => None
  end.

Fixpoint strip_any (ws : list (list ascii)) (s : list ascii) : option (list ascii) :=
  match ws with
  | [] => None
  | w :: ws => match strip w s with Some r => Some r | None => strip_any ws s end
  end.

(** Remove prefixes as long as there is one; as many rounds as bytes. *)
Fixpoint trim_prefixes (ws : list (list ascii)) (fuel : nat) (s : list ascii) : list ascii :=
  match fuel with
  | O => s
  | S fuel => match strip_any ws s with Some r => trim_prefixes ws fuel r | None => s end
  end.

Definition TrimLeft (s : list ascii) : list ascii := trim_prefixes white_space (length s) s.
Definition TrimRight (s : list ascii) : list ascii :=
  reverse (trim_prefixes (map reverse white_space) (length s) (reverse s)).

Definition TrimSpace (s : string) : string :=
  String.string_of_list_ascii (TrimRight (TrimLeft (String.list_ascii_of_string s))).

(** ** inputmanifest_types.go *)

(** [ProviderType] is a string; the constants. *)
Definition t_AWS : string := "aws".
Definition t_AZURE : string := "azure".
Definition t_CLOUDFLARE : string := "cloudflare".
Definition t_GCP : string := "gcp".
Definition t_HETZNER : string := "hetzner".
Definition t_OCI : string := "oci".
Definition t_OPENSTACK : string := "openstack".
Definition t_EXOSCALE : string := "exoscale".
Definition t_CLOUDRIFT : string := "cloudrift".
Definition t_VERDA : string := "verda".
Definition t_OVH : string := "ovh".

Record CrdProvider := mkCrdProvider {
  CP_Name : string; CP_Type : string; CP_SecretRef : ObjectKey; CP_TemplatesRef : ObjectKey }.

Record CrdStaticNode := mkCrdStaticNode { CSN_Endpoint : string; CSN_SecretRef : ObjectKey; CSN_Username : string }.

Record CrdStaticPool := mkCrdStaticPool {
  CSP_Name : string; CSP_Nodes : list CrdStaticNode; CSP_Labels : gmap string string;
  CSP_Annotations : gmap string string; CSP_Taints : list Taint; CSP_SshPort : Z }.

Record CrdRole := mkCrdRole {
  CR_Name : string; CR_Protocol : string; CR_Port : Z; CR_TargetPort : Z; CR_TargetPools : list string;
  CR_Settings : option RoleSettings }.

Record CrdFinishedWorkflow := mkCrdFinishedWorkflow {
  CF_Status : string; CF_Stage : string; CF_TaskDescription : string; CF_Timestamp : string }.
Record ClustersStatus := mkClustersStatus {
  CS_State : string; CS_Phase : string; CS_Message : string; CS_Previous : list CrdFinishedWorkflow }.
Record InputManifestStatus := mkInputManifestStatus {
  Ims_State : string; Ims_Clusters : gmap string ClustersStatus }.

Record Resource := mkResource {
  Im_Name : string; Im_Namespace : string; Im_Finalizers : list string; Im_DeletionTimestamp : option Z;
  Im_Providers : list CrdProvider; Im_Dynamic : list DynamicPool; Im_Static : list CrdStaticPool;
  Im_Clusters : list Cluster; Im_Roles : list CrdRole; Im_LoadBalancers : list LoadBalancerCluster;
  Im_Status : InputManifestStatus }.

Record ProviderWithData := mkProviderWithData {
  PWD_Name : string; PWD_Type : string; PWD_Secret : Secret; PWD_Templates : TemplateGitReference;
  PWD_TemplatesAuth : option Secret }.

Record StaticNodeWithData := mkStaticNodeWithData {
  SNWD_Endpoint : string; SNWD_Username : string; SNWD_Secret : Secret }.

(** ** helpers.go *)

Definition STATUS_IN_PROGRESS : string := "IN_PROGRESS".
Definition STATUS_ERROR : string := "ERROR".
Definition STATUS_DONE : string := "DONE".
Definition STATUS_WATCH : string := "WATCHING_FOR_CHANGES".
Definition STATUS_SCHEDULED_FOR_DELETION : string := "SCHEDULED_FOR_DELETION".

Definition GetNamespacedName (im : Resource) : string :=
  if bool_decide (Im_Namespace im = "") then String.append "default/" (Im_Name im)
  else String.append (Im_Namespace im) (String.append "/" (Im_Name im)).

Definition GetNamespacedNameDashed (im : Resource) : string :=
  if bool_decide (Im_Namespace im = "") then String.append "default-" (Im_Name im)
  else String.append (Im_Namespace im) (String.append "-" (Im_Name im)).

(** The body of both accessors, on the data of a secret. *)
Definition secret_field (data : gmap string string) (name : string) : outcome string :=
  match data !! name with
  | None => Fail (String.append "field " (String.append name " not found"))
  | Some v => if utf8_Valid v then Ret v
              else Fail (String.append "field " (String.append name " is not a valid UTF-8 string"))
  end.

Definition ProviderSecretField (pwd : ProviderWithData) (name : string) : outcome string :=
  secret_field (Secret_Data (PWD_Secret pwd)) name.

Definition TemplatesAuthSecretField (pwd : ProviderWithData) (name : string) : outcome string :=
  match PWD_TemplatesAuth pwd with
  | None => Ret ""
  | Some auth => secret_field (Secret_Data auth) name
  end.

Definition set_Status (im : Resource) (st : InputManifestStatus) : Resource :=
  mkResource (Im_Name im) (Im_Namespace im) (Im_Finalizers im) (Im_DeletionTimestamp im) (Im_Providers im)
    (Im_Dynamic im) (Im_Static im) (Im_Clusters im) (Im_Roles im) (Im_LoadBalancers im) st.
Definition set_StatusState (im : Resource) (state : string) : Resource :=
  set_Status im (mkInputManifestStatus state (Ims_Clusters (Im_Status im))).
Definition set_Finalizers (im : Resource) (fs : list string) : Resource :=
  mkResource (Im_Name im) (Im_Namespace im) fs (Im_DeletionTimestamp im) (Im_Providers im)
    (Im_Dynamic im) (Im_Static im) (Im_Clusters im) (Im_Roles im) (Im_LoadBalancers im) (Im_Status im).

Definition SetWatchResourceStatus (im : Resource) : Resource := set_StatusState im STATUS_WATCH.
Definition new_line : string := String (ascii_of_nat 10) "".
Definition SetWatchResourceStatusWithMsg (im : Resource) (msg : string) : Resource :=
  set_StatusState im (String.append STATUS_WATCH (String.append " (describe resource for detailed report)"
    (String.append new_line (String.append new_line msg)))).
Definition SetUpdateResourceStatus (im : Resource) (newStatus : InputManifestStatus) : Resource := set_Status im newStatus.
Definition SetDeletingStatus (im : Resource) : Resource := set_StatusState im STATUS_SCHEDULED_FOR_DELETION.

Definition IntoManifestRole (r : CrdRole) : ManifestRole :=
  mkManifestRole (CR_Name r) (CR_Protocol r) (CR_Port r) (CR_TargetPort r) (CR_TargetPools r) (CR_Settings r).

(** ** generics.IterateMapInOrder *)

Definition IterateMapInOrder `{RangeOrder} {A} (m : gmap string A) : list (string * A) :=
  omap (λ k, (λ v, (k, v)) <$> m !! k) (merge_sort String.le (range "IterateMapInOrder" m).*1).

(** ** Providers of every kind *)

Inductive AnyProvider :=
| P_GCP (c : GCP) | P_Hetzner (c : Hetzner) | P_AWS (c : AWS) | P_OCI (c : OCI) | P_Azure (c : Azure)
| P_Cloudflare (c : Cloudflare) | P_Openstack (c : Openstack) | P_Exoscale (c : Exoscale)
| P_CloudRift (c : CloudRift) | P_Verda (c : Verda) | P_OVH (c : OVH).

Definition any_name (p : AnyProvider) : string :=
  match p with
  | P_GCP c => GCP_Name c | P_Hetzner c => Hetzner_Name c | P_AWS c => AWS_Name c | P_OCI c => OCI_Name c
  | P_Azure c => Azure_Name c | P_Cloudflare c => Cloudflare_Name c | P_Openstack c => Openstack_Name c
  | P_Exoscale c => Exoscale_Name c | P_CloudRift c => CloudRift_Name c | P_Verda c => Verda_Name c
  | P_OVH c => OVH_Name c
  end.

Definition any_type (p : AnyProvider) : string :=
  match p with
  | P_GCP _ => t_GCP | P_Hetzner _ => t_HETZNER | P_AWS _ => t_AWS | P_OCI _ => t_OCI | P_Azure _ => t_AZURE
  | P_Cloudflare _ => t_CLOUDFLARE | P_Openstack _ => t_OPENSTACK | P_Exoscale _ => t_EXOSCALE
  | P_CloudRift _ => t_CLOUDRIFT | P_Verda _ => t_VERDA | P_OVH _ => t_OVH
  end.

(** [providers.X = append(providers.X, c)] *)
Definition add_provider (ps : Providers) (p : AnyProvider) : Providers :=
  let '(mkProviders gcp hetzner aws oci azure cloudflare openstack exoscale cloudrift verda ovh) := ps in
  match p with
  | P_GCP c => mkProviders (gcp ++ [c]) hetzner aws oci azure cloudflare openstack exoscale cloudrift verda ovh
  | P_Hetzner c => mkProviders gcp (hetzner ++ [c]) aws oci azure cloudflare openstack exoscale cloudrift verda ovh
  | P_AWS c => mkProviders gcp hetzner (aws ++ [c]) oci azure cloudflare openstack exoscale cloudrift verda ovh
  | P_OCI c => mkProviders gcp hetzner aws (oci ++ [c]) azure cloudflare openstack exoscale cloudrift verda ovh
  | P_Azure c => mkProviders gcp hetzner aws oci (azure ++ [c]) cloudflare openstack exoscale cloudrift verda ovh
  | P_Cloudflare c => mkProviders gcp hetzner aws oci azure (cloudflare ++ [c]) openstack exoscale cloudrift verda ovh
  | P_Openstack c => mkProviders gcp hetzner aws oci azure cloudflare (openstack ++ [c]) exoscale cloudrift verda ovh
  | P_Exoscale c => mkProviders gcp hetzner aws oci azure cloudflare openstack (exoscale ++ [c]) cloudrift verda ovh
  | P_CloudRift c => mkProviders gcp hetzner aws oci azure cloudflare openstack exoscale (cloudrift ++ [c]) verda ovh
  | P_Verda c => mkProviders gcp hetzner aws oci azure cloudflare openstack exoscale cloudrift (verda ++ [c]) ovh
  | P_OVH c => mkProviders gcp hetzner aws oci azure cloudflare openstack exoscale cloudrift verda (ovh ++ [c])
  end.

Definition no_providers : Providers := mkProviders [] [] [] [] [] [] [] [] [] [] [].

(** ** controler_helpers.go *)

Definition buildSecretError (secret err : string) : string :=
  String.append "in secret: " (String.append secret (String.append " - " err)).

Definition namespaced (s : Secret) : string :=
  String.append (Secret_Namespace s) (String.append "/" (Secret_Name s)).

(** [if err != nil { return manifest.Manifest{}, buildSecretError(s, err) }] *)
Definition in_secret {A} (s : Secret) (m : outcome A) : outcome A :=
  match m with Fail e => Fail (buildSecretError (namespaced s) e) | m => m end.

(** [v, _ := p.ProviderSecretField(..)] *)
Definition or_empty (m : outcome string) : string := match m with Ret s => s | _ => "" end.

Definition template_repo (pwd : ProviderWithData) : outcome TemplateRepo :=
  let t := PWD_Templates pwd in
  let tmpl auth :=
    mkTemplateRepo (mkTemplatesEndpoint (Tgr_URL t) (Tgr_Protocol t)) auth (Tgr_Commit t)
      (mkTemplatesPaths (Git_Terraformer (Tgr_Paths t)) (Git_Playbooks (Tgr_Paths t)) (Git_ConfigLB (Tgr_Paths t))
         (Git_ConfigK8s (Tgr_Paths t)) (Git_ManifestsK8s (Tgr_Paths t))) in
  match PWD_TemplatesAuth pwd with
  | None => Ret (tmpl None)
  | Some auth =>
      let* token := in_secret auth (TemplatesAuthSecretField pwd "token") in
      match Secret_Data auth !! "username" with
      | None => Ret (tmpl (Some (mkGitAuth "" token)))
      | Some u =>
          if utf8_Valid u then Ret (tmpl (Some (mkGitAuth u token)))
          else Fail (buildSecretError (namespaced auth) "field 'username' contains invalid UTF-8 characters")
      end
  end.

(** The cases of the switch from Openstack on; no case matches an unknown
    type. *)
Definition provider_rest (p : ProviderWithData) (t : option TemplateRepo) : outcome (option AnyProvider) :=
  let field name := in_secret (PWD_Secret p) (ProviderSecretField p name) in
  let optional name := or_empty (ProviderSecretField p name) in
  let n := PWD_Name p in
  let kind t := bool_decide (PWD_Type p = t) in
  if kind t_OPENSTACK then
    let* authURL := field "authurl" in
    let* domainId := field "domainid" in
    let* projectId := field "projectid" in
    let* credId := field "applicationcredentialid" in
    let* credSecret := field "applicationcredentialsecret" in
    Ret (Some (P_Openstack (mkOpenstack n (TrimSpace authURL) (TrimSpace domainId) (TrimSpace projectId)
                              (TrimSpace credId) (TrimSpace credSecret) t)))
  else if kind t_EXOSCALE then
    let* apiKey := field "apikey" in
    let* apiSecret := field "apisecret" in
    Ret (Some (P_Exoscale (mkExoscale n (TrimSpace apiKey) (TrimSpace apiSecret) t)))
  else if kind t_CLOUDRIFT then
    let* token := field "token" in
    Ret (Some (P_CloudRift (mkCloudRift n (TrimSpace token) (TrimSpace (optional "teamid")) t)))
  else if kind t_VERDA then
    let* clientId := field "clientid" in
    let* clientSecret := field "clientsecret" in
    Ret (Some (P_Verda (mkVerda n (TrimSpace clientId) (TrimSpace clientSecret) (TrimSpace (optional "baseurl")) t)))
  else if kind t_OVH then
    let* clientId := field "clientid" in
    let* clientSecret := field "clientsecret" in
    let* serviceName := field "servicename" in
    Ret (Some (P_OVH (mkOVH n (TrimSpace clientId) (TrimSpace clientSecret) (TrimSpace serviceName)
                        (TrimSpace (optional "endpoint")) t)))
  else Ret None.

(** The switch over the type of a provider: the fields of its secret in the
    order they are read. *)
Definition provider_of (p : ProviderWithData) (t : option TemplateRepo) : outcome (option AnyProvider) :=
  let field name := in_secret (PWD_Secret p) (ProviderSecretField p name) in
  let n := PWD_Name p in
  let kind t := bool_decide (PWD_Type p = t) in
  if kind t_GCP then
    let* credentials := field "credentials" in
    let* project := field "gcpproject" in
    Ret (Some (P_GCP (mkGCP n (TrimSpace credentials) (TrimSpace project) t)))
  else if kind t_AWS then
    let* accesskey := field "accesskey" in
    let* secretkey := field "secretkey" in
    Ret (Some (P_AWS (mkAWS n (TrimSpace accesskey) (TrimSpace secretkey) t)))
  else if kind t_HETZNER then
    let* key := field "credentials" in
    Ret (Some (P_Hetzner (mkHetzner n (TrimSpace key) t)))
  else if kind t_OCI then
    let* tenant := field "tenancyocid" in
    let* compartment := field "compartmentocid" in
    let* fingerprint := field "keyfingerprint" in
    let* privateKey := field "privatekey" in
    let* user := field "userocid" in
    Ret (Some (P_OCI (mkOCI n (TrimSpace privateKey) (TrimSpace fingerprint) (TrimSpace tenant) (TrimSpace user)
                        (TrimSpace compartment) t)))
  else if kind t_AZURE then
    let* clientId := field "clientid" in
    let* clientSecret := field "clientsecret" in
    let* subscriptionId := field "subscriptionid" in
    let* tenantId := field "tenantid" in
    Ret (Some (P_Azure (mkAzure n (TrimSpace subscriptionId) (TrimSpace tenantId) (TrimSpace clientId)
                          (TrimSpace clientSecret) t)))
  else if kind t_CLOUDFLARE then
    let* apiToken := field "apitoken" in
    let* accountId := field "accountid" in
    Ret (Some (P_Cloudflare (mkCloudflare n (TrimSpace apiToken) accountId t)))
  else provider_rest p t.

(** One round of the loop over the providers. *)
Definition construct_provider (ps : Providers) (p : ProviderWithData) : outcome Providers :=
  let* tmpl := template_repo p in
  let* c := provider_of p (Some tmpl) in
  Ret (match c with Some c => add_provider ps c | None => ps end).

Definition construct_node (n : StaticNodeWithData) : outcome StaticNode :=
  let* key := in_secret (SNWD_Secret n) (secret_field (Secret_Data (SNWD_Secret n)) "privatekey") in
  Ret (mkStaticNode (SNWD_Endpoint n) key (SNWD_Username n)).

Definition getStaticNodePool (name : string) (nps : list CrdStaticPool) : option CrdStaticPool :=
  find_first (λ v, bool_decide (CSP_Name v = name)) nps.

(** One round of the loop over the static pools, in the order of their names. *)
Definition construct_static (nps : list CrdStaticPool) (entry : string * list StaticNodeWithData) : outcome StaticPool :=
  let '(nodepool, withSecret) := entry in
  let* nodes := mapM construct_node withSecret in
  let* np := deref (getStaticNodePool nodepool nps) in
  Ret (mkStaticPool nodepool nodes (CSP_Labels np) (CSP_Annotations np) (CSP_Taints np) (Some (CSP_SshPort np))).

Definition constructInputManifest `{RangeOrder} (crd : Resource) (providerData : list ProviderWithData)
    (staticNodesWithSecret : gmap string (list StaticNodeWithData)) : outcome InputManifest :=
  let* providers := for_each construct_provider no_providers providerData in
  let* static := mapM (construct_static (Im_Static crd)) (IterateMapInOrder staticNodesWithSecret) in
  Ret (mkInputManifest (GetNamespacedNameDashed crd) providers (Im_Dynamic crd) static (Im_Clusters crd)
         (IntoManifestRole <$> Im_Roles crd) (Im_LoadBalancers crd)).

Definition buildProvisioningError `{RangeOrder} (state : InputManifestStatus) : string :=
  foldl (λ msg '(name, cluster),
    if bool_decide (CS_State cluster = STATUS_ERROR)
    then String.append msg (String.append "For cluster: " (String.append name (String.append " Message: "
           (String.append (CS_Message cluster) "; "))))
    else msg) "" (range "buildProvisioningError" (Ims_Clusters state)).

(** ** validate_provider.go

    The struct tags of a provider are checked by go-playground/validator. *)

Class ProviderValidator := { Struct_Provider : AnyProvider → option string }.

(** The providers in the order of the loops. *)
Definition all_providers (ps : Providers) : list AnyProvider :=
  (P_GCP <$> gcp ps) ++ (P_Hetzner <$> hetzner ps) ++ (P_OCI <$> oci ps) ++ (P_AWS <$> aws ps) ++
  (P_Azure <$> azure ps) ++ (P_Cloudflare <$> cloudflare ps) ++ (P_Openstack <$> openstack ps) ++
  (P_Exoscale <$> exoscale ps) ++ (P_CloudRift <$> cloudrift ps) ++ (P_Verda <$> verda ps) ++ (P_OVH <$> ovh ps).

(** The body of the eleven loops, which share the set of names. *)
Definition validate_provider_entry `{ProviderValidator} (names : gset string) (c : AnyProvider) : outcome (gset string) :=
  let* _ := wrap "failed to validate provider: " (accept (Struct_Provider c)) in
  let* _ := reject (bool_decide (any_name c ∈ names)) "name is used across multiple providers, must be unique" in
  Ret ({[any_name c]} ∪ names).

Definition Providers_Validate `{ProviderValidator} (ps : Providers) : outcome () :=
  let* _ := for_each validate_provider_entry ∅ (all_providers ps) in Ret ().

(** ** validator.go *)

Definition DefaultTemplatesReferenceName : string := "claudie-default-templates".

(** A provider of which only the name is filled in. *)
Definition named_provider (name type : string) : option AnyProvider :=
  let kind t := bool_decide (type = t) in
  if kind t_GCP then Some (P_GCP (mkGCP name "" "" None))
  else if kind t_AWS then Some (P_AWS (mkAWS name "" "" None))
  else if kind t_HETZNER then Some (P_Hetzner (mkHetzner name "" None))
  else if kind t_OCI then Some (P_OCI (mkOCI name "" "" "" "" "" None))
  else if kind t_AZURE then Some (P_Azure (mkAzure name "" "" "" "" None))
  else if kind t_CLOUDFLARE then Some (P_Cloudflare (mkCloudflare name "" "" None))
  else if kind t_OPENSTACK then Some (P_Openstack (mkOpenstack name "" "" "" "" "" None))
  else if kind t_EXOSCALE then Some (P_Exoscale (mkExoscale name "" "" None))
  else if kind t_CLOUDRIFT then Some (P_CloudRift (mkCloudRift name "" "" None))
  else if kind t_VERDA then Some (P_Verda (mkVerda name "" "" "" None))
  else if kind t_OVH then Some (P_OVH (mkOVH name "" "" "" "" None))
  else None.

Definition unique_provider (vars : gset string * Providers) (p : CrdProvider) : outcome (gset string * Providers) :=
  let '(names, ps) := vars in
  let* _ := reject (bool_decide (CP_Name p ∈ names)) "spec.providers.name has to be unique" in
  Ret ({[CP_Name p]} ∪ names,
       match named_provider (CP_Name p) (CP_Type p) with Some c => add_provider ps c | None => ps end).

(** Of a static pool only the name is kept. *)
Definition named_pool (n : CrdStaticPool) : StaticPool := mkStaticPool (CSP_Name n) [] ∅ ∅ [] None.

(** The manifest the webhook validates. *)
Definition stub_manifest (im : Resource) (ps : Providers) : InputManifest :=
  mkInputManifest (GetNamespacedName im) ps (Im_Dynamic im) (named_pool <$> Im_Static im) (Im_Clusters im)
    (IntoManifestRole <$> Im_Roles im) (Im_LoadBalancers im).

Definition validateInputManifest `{Validator} (im : Resource) : outcome () :=
  let* (_, ps) := for_each unique_provider (∅, no_providers) (Im_Providers im) in
  Validate (stub_manifest im ps).

#[export] Instance ProviderSpec_eq_dec : EqDecision ProviderSpec.
Proof. solve_decision. Defined.
#[export] Instance MachineSpecConf_eq_dec : EqDecision MachineSpecConf.
Proof. solve_decision. Defined.

Section references.
Context `{KubeReader} `{OperatorEnvs}.

(** [kc.Get] of an object that has to exist. *)
Definition must_exist {A} (missing : string) (a : answer A) : outcome A :=
  match a with
  | Got a => Ret a
  | Missing => Fail missing
  | Failed e => Fail (String.append "failed to check: " e)
  end.

(** One round of the loop, for the provider at place [i]. *)
Definition validate_reference (i : nat) (p : CrdProvider) : outcome () :=
  let key := CP_SecretRef p in
  let* _ := reject (bool_decide (Key_Name key = "") || bool_decide (Key_Namespace key = ""))
              "provider has invalid credentials secret" in
  let* _ := must_exist "secret does not exists" (Get_Secret [3; i] key) in
  let key := CP_TemplatesRef p in
  if bool_decide (Key_Name key = "") || bool_decide (Key_Name key = DefaultTemplatesReferenceName) then Ret ()
  else
    let key := mkObjectKey (Key_Name key)
                 (if bool_decide (Key_Namespace key = "") then TemplatesDefaultNamespace else Key_Namespace key) in
    let* discard := must_exist "template reference does not exists" (Get_Templates [3; i] key) in
    match Tgr_AuthSecret discard with
    | None => Ret ()
    | Some key =>
        let* _ := reject (bool_decide (Key_Name key = "")) "missing name for auth secret" in
        let* _ := reject (bool_decide (Key_Namespace key = "")) "missing namespace for auth secret" in
        let* _ := must_exist "git auth secret does not exist" (Get_Secret [4; i] key) in
        Ret ()
    end.

Definition validateReferences (im : Resource) : outcome () :=
  for_each (λ _ '(i, p), validate_reference i p) () (imap pair (Im_Providers im)).

Context `{Validator}.

Definition validate (obj : Resource) : outcome () :=
  let* _ := validateInputManifest obj in
  validateReferences obj.






Definition ValidateDelete (obj : Resource) : outcome () := validate obj.

End references.

(** ** White space *)

Lemma strip_app w s r : strip w s = Some r ↔ s = w ++ r.
Proof.
  revert s. induction w as [|a w IH]; intros s; simpl; [naive_solver|].
  destruct s as [|b s]; [naive_solver|]. destruct (Ascii.eqb_spec a b) as [->|Hab]; [rewrite IH; naive_solver|].
  split; [done|naive_solver].
Qed.

Lemma strip_any_None ws s : strip_any ws s = None ↔ ∀ w r, w ∈ ws → s ≠ w ++ r.
Proof.
  induction ws as [|w ws IH]; simpl.
  - split; [|done]. intros _ w r Hw. by apply not_elem_of_nil in Hw.
  - destruct (strip w s) as [r|] eqn:E.
    + split; [done|]. intros Hn. apply strip_app in E. exfalso. eapply Hn; [by left|done].
    + rewrite IH. split.
      * intros Hn w' r' [->|Hw]%elem_of_cons; [|by apply Hn]. intros Hs. apply strip_app in Hs. congruence.
      * intros Hn w' r' Hw. apply Hn. by right.
Qed.

Lemma strip_any_shorter ws s r :
  (∀ w, w ∈ ws → w ≠ []) → strip_any ws s = Some r → ∃ w, s = w ++ r ∧ length r < length s.
Proof.
  induction ws as [|w ws IH]; simpl; [done|]. intros Hne. destruct (strip w s) as [r'|] eqn:E.
  - intros [= ->]. apply strip_app in E as ->. exists w. split; [done|]. rewrite length_app.
    destruct w; [by destruct (Hne []); [left|]|simpl; lia].
  - apply IH. intros w' Hw. apply Hne. by right.
Qed.

(** Removing prefixes ends with a suffix that has none of them. *)
Lemma trim_prefixes_spec ws fuel s :
  (∀ w, w ∈ ws → w ≠ []) → length s ≤ fuel →
  strip_any ws (trim_prefixes ws fuel s) = None ∧ ∃ w, s = w ++ trim_prefixes ws fuel s.
Proof.
  intros Hne. revert s. induction fuel as [|fuel IH]; intros s Hl; simpl.
  - split; [|by exists []]. destruct s; [|simpl in Hl; lia]. apply strip_any_None.
    intros w r Hw E. symmetry in E. apply app_eq_nil in E as [-> _]. by apply (Hne [] Hw).
  - destruct (strip_any ws s) as [r|] eqn:E; [|split; [done|by exists []]].
    apply strip_any_shorter in E as (w & -> & Hlt); [|done].
    destruct (IH r ltac:(lia)) as [Hn [w' Hw']]. split; [done|]. exists (w ++ w'). by rewrite <- app_assoc, <- Hw'.
Qed.

Lemma white_space_nonempty w : w ∈ white_space → w ≠ [].
Proof.
  assert (Forall (λ w, bool_decide (w ≠ []) = true) white_space) as HF by (vm_compute; repeat constructor).
  rewrite Forall_forall in HF. intros Hw. by apply HF, bool_decide_eq_true in Hw.
Qed.

(** No rune of white space is left at either end, and what was removed is a
    prefix and a suffix. *)
Lemma TrimSpace_spec s :
  ∃ l t r, String.list_ascii_of_string s = l ++ t ++ r ∧ TrimSpace s = String.string_of_list_ascii t ∧
    ∀ w u, w ∈ white_space → t ≠ w ++ u ∧ t ≠ u ++ w.
Proof.
  set (b := String.list_ascii_of_string s).
  destruct (trim_prefixes_spec white_space (length b) b white_space_nonempty ltac:(lia)) as [Hl [l Hb]].
  fold (TrimLeft b) in Hl, Hb. set (m := TrimLeft b) in *.
  destruct (trim_prefixes_spec (map reverse white_space) (length m) (reverse m)) as [Hr [r Hm]].
  { intros w (w' & -> & Hw)%list_elem_of_fmap. apply white_space_nonempty in Hw. intros E.
    apply Hw. by rewrite <- (reverse_involutive w'), E. }
  { by rewrite length_reverse. }
  assert (m = TrimRight m ++ reverse r) as Hm'.
  { unfold TrimRight. rewrite <- reverse_app, <- Hm. by rewrite reverse_involutive. }
  exists l, (TrimRight m), (reverse r). split; [by rewrite <- Hm'|]. split; [done|]. intros w u Hw. split.
  - intros E. rewrite E, <- app_assoc in Hm'. by apply (proj1 (strip_any_None _ _) Hl w (u ++ reverse r) Hw).
  - intros E. refine (proj1 (strip_any_None _ _) Hr (reverse w) (reverse u) _ _).
    + apply list_elem_of_fmap. by exists w.
    + rewrite <- reverse_app, <- E. unfold TrimRight. by rewrite reverse_involutive.
Qed.

(** ** Iteration in the order of the keys *)

Section ordered.
Context `{RangeOrder} {A : Type}.
Implicit Types (m : gmap string A).

Lemma IterateMapInOrder_perm m : IterateMapInOrder m ≡ₚ map_to_list m.
Proof.
  unfold IterateMapInOrder. rewrite merge_sort_Permutation.
  assert (∀ l, (∀ k v, (k, v) ∈ l → m !! k = Some v) → omap (λ k, (λ v, (k, v)) <$> m !! k) l.*1 = l) as Hl.
  { induction l as [|[k v] l IH]; intros Hin; [done|]. csimpl.
    rewrite (Hin k v) by left. simpl. f_equal. apply IH. intros k' v' Hkv. apply Hin. by right. }
  rewrite Hl; [apply range_perm|]. intros k v. apply elem_of_range.
Qed.

Lemma IterateMapInOrder_sorted m : Sorted String.le (IterateMapInOrder m).*1.
Proof.
  unfold IterateMapInOrder.
  assert (∀ l, (∀ k, k ∈ l → is_Some (m !! k)) → (omap (λ k, (λ v, (k, v)) <$> m !! k) l).*1 = l) as ->.
  { induction l as [|k l IH]; intros Hin; [done|]. csimpl. destruct (Hin k) as [v ->]; [by left|]. simpl. f_equal.
    apply IH. intros k' Hk. apply Hin. by right. }
  - apply (Sorted_merge_sort _).
  - intros k. rewrite merge_sort_Permutation. intros ([k' v] & -> & Hkv)%list_elem_of_fmap.
    apply elem_of_range in Hkv. by exists v.
Qed.

Lemma elem_of_IterateMapInOrder m k v : (k, v) ∈ IterateMapInOrder m ↔ m !! k = Some v.
Proof. rewrite IterateMapInOrder_perm. apply elem_of_map_to_list. Qed.

End ordered.

(** The order Go visits the map in makes no difference. *)
Lemma IterateMapInOrder_fixed (R1 R2 : RangeOrder) {A} (m : gmap string A) :
  IterateMapInOrder (H := R1) m = IterateMapInOrder (H := R2) m.
Proof.
  unfold IterateMapInOrder. f_equal. apply (Sorted_unique String.le); [apply (Sorted_merge_sort _)..|].
  rewrite !merge_sort_Permutation, !range_perm. done.
Qed.

(** ** The manifest of a resource *)

(** The same names under every kind. *)
Definition alike (p q : Providers) : Prop :=
  (GCP_Name <$> gcp p = GCP_Name <$> gcp q) ∧ (Hetzner_Name <$> hetzner p = Hetzner_Name <$> hetzner q) ∧
  (AWS_Name <$> aws p = AWS_Name <$> aws q) ∧ (OCI_Name <$> oci p = OCI_Name <$> oci q) ∧
  (Azure_Name <$> azure p = Azure_Name <$> azure q) ∧
  (Cloudflare_Name <$> cloudflare p = Cloudflare_Name <$> cloudflare q) ∧
  (Openstack_Name <$> openstack p = Openstack_Name <$> openstack q) ∧
  (Exoscale_Name <$> exoscale p = Exoscale_Name <$> exoscale q) ∧
  (CloudRift_Name <$> cloudrift p = CloudRift_Name <$> cloudrift q) ∧
  (Verda_Name <$> verda p = Verda_Name <$> verda q) ∧ (OVH_Name <$> ovh p = OVH_Name <$> ovh q).

Lemma alike_refl p : alike p p.
Proof. by unfold alike. Qed.

Lemma alike_add p q c d :
  alike p q → any_name c = any_name d → any_type c = any_type d → alike (add_provider p c) (add_provider q d).
Proof.
  destruct p, q. intros Hp Hn Ht. destruct c, d; try discriminate Ht; unfold alike in *; simpl in *;
    rewrite ?fmap_app; simpl; rewrite ?Hn; intuition congruence.
Qed.

Lemma fmap_through {A B} (f : A → string) (g : B → string) (t : string) (l : list A) (k : list B) :
  f <$> l = g <$> k → (λ c, (f c, t)) <$> l = (λ c, (g c, t)) <$> k.
Proof.
  intros E. change (((λ n, (n, t)) ∘ f) <$> l = ((λ n, (n, t)) ∘ g) <$> k).
  by rewrite (list_fmap_compose f), (list_fmap_compose g), E.
Qed.

Lemma alike_ForEachProvider m n : alike (M_Providers m) (M_Providers n) → ForEachProvider m = ForEachProvider n.
Proof.
  unfold alike, ForEachProvider. intros (?&?&?&?&?&?&?&?&?&?&?).
  repeat (f_equal; [by apply fmap_through|]). by apply fmap_through.
Qed.

(** The two switches over the type of a provider take the same case. *)
Lemma provider_of_named p t o :
  provider_of p t = Ret o →
  match o, named_provider (PWD_Name p) (PWD_Type p) with
  | Some c, Some d => any_name c = any_name d ∧ any_type c = any_type d ∧ any_name c = PWD_Name p ∧ any_type c = PWD_Type p
  | None, None => True
  | _, _ => False
  end.
Proof.
  unfold provider_of, provider_rest, named_provider. cbv zeta.
  repeat (case_bool_decide as Hk; [intros E; bind_inv E; subst o; rewrite Hk; done|clear Hk]). by intros [= <-].
Qed.

(** The provider of the resource a fetched provider belongs to. *)
Definition fetched (p : CrdProvider) (d : ProviderWithData) : Prop := PWD_Name d = CP_Name p ∧ PWD_Type d = CP_Type p.

Lemma construct_alike ps ds q names p q' r :
  Forall2 fetched ps ds → alike q p →
  for_each construct_provider q ds = Ret q' → for_each unique_provider (names, p) ps = Ret r →
  alike q' r.2.
Proof.
  intros HF. revert q names p. induction HF as [|c d ps ds [Hn Ht] HF IH]; intros q names p Ha; simpl.
  { by intros [= <-] [= <-]. }
  intros E1 E2. bind_inv E1. destruct (bool_decide (CP_Name c ∈ names)) in E2; [done|]. cbn [reject bindO] in E2.
  unfold construct_provider in Hx. bind_inv Hx. subst x.
  match goal with Hp : provider_of d _ = Ret ?o |- _ => apply provider_of_named in Hp; rewrite Hn, Ht in Hp; rename Hp into Ho end.
  revert Ho E1 E2. destruct (named_provider _ _) as [d'|]; destruct_or?;
    match goal with |- match ?o with _ => _ end → _ => destruct o as [c'|] end; try done.
  - intros (Hn' & Ht' & _) E1 E2. eapply IH; [|exact E1|exact E2]. by apply alike_add.
  - intros _ E1 E2. by eapply IH.
Qed.

Lemma wrap_unit ctx (m : outcome ()) : wrap ctx m = Ret () ↔ m = Ret ().
Proof. by destruct m. Qed.


Lemma bind_unit (m k : outcome ()) : (let* _ := m in k) = Ret () ↔ m = Ret () ∧ k = Ret ().
Proof. destruct m as [[]|?|?]; cbn [bindO]; naive_solver. Qed.

Lemma Validate_parts `{Validator} m :
  Validate m = Ret () → validate_nodepools m = Ret () ∧ validate_kubernetes m = Ret () ∧ validate_loadbalancers m = Ret ().
Proof. unfold Validate. rewrite !bind_unit, !wrap_unit. tauto. Qed.

Section admitted.
Context `{RangeOrder} `{Validator}.

Lemma existsb_names {A B} (f : A → string) (g : B → string) l k pool :
  (∀ x, x ∈ f <$> l ↔ x ∈ g <$> k) →
  existsb (λ a, bool_decide (f a = pool)) l = existsb (λ b, bool_decide (g b = pool)) k.
Proof.
  intros Heq. apply eq_bool_prop_intro. rewrite !Is_true_true, !existsb_exists.
  specialize (Heq pool). rewrite !list_elem_of_fmap in Heq. setoid_rewrite bool_decide_eq_true.
  setoid_rewrite list_elem_of_In in Heq. naive_solver.
Qed.

(** What the checks across sections read of a manifest. *)
Definition same_plan (m n : InputManifest) : Prop :=
  M_Dynamic m = M_Dynamic n ∧ M_Clusters m = M_Clusters n ∧ M_Roles m = M_Roles n ∧
  M_LoadBalancers m = M_LoadBalancers n ∧ ForEachProvider m = ForEachProvider n ∧
  ∀ x, x ∈ SP_Name <$> M_Static m ↔ x ∈ SP_Name <$> M_Static n.

Lemma same_plan_defined m n pool : same_plan m n → nodePoolDefined m pool = nodePoolDefined n pool.
Proof.
  intros (Hd & _ & _ & _ & _ & Hs). unfold nodePoolDefined. by rewrite (existsb_names _ _ _ _ pool Hs), Hd.
Qed.

Lemma same_plan_cluster m n c : same_plan m n → cluster_valid m c → cluster_valid n c.
Proof.
  intros Hp (? & ? & Hd & Hs). split_and!; try done; eapply Forall_impl; try done; intros pool; cbv beta;
    by rewrite (same_plan_defined m n).
Qed.

Lemma same_plan_lb m n lb : same_plan m n → lb_valid m lb → lb_valid n lb.
Proof.
  intros Hp (? & Hr & Ht & Hk & ? & Hd). pose proof Hp as (_ & Hc & Hro & _ & Hf & _).
  split_and!; try done.
  - intros role Hrole. destruct (Hr role Hrole) as (r & Hin & Hname & Htv). exists r. rewrite <- Hro. split_and!; try done.
    revert Htv. unfold targets_valid. by rewrite Hc.
  - revert Ht. unfold GetProviderType. by rewrite Hf.
  - revert Hk. unfold IsKubernetesClusterPresent. by rewrite Hc.
  - eapply Forall_impl; [done|]. intros pool. cbv beta. by rewrite (same_plan_defined m n).
Qed.

(** *** The loops of the validation on two such manifests *)

Lemma same_plan_dynamic m n names d :
  same_plan m n → validate_dynamic_entry m names d = validate_dynamic_entry n names d.
Proof.
  intros (_ & Hc & _ & Hl & Hf & _).
  assert (∀ x, GetProviderType m x = GetProviderType n x) as Hp by (intros x; unfold GetProviderType; by rewrite Hf).
  unfold validate_dynamic_entry, validate_dynamic, validateGCPGpuConfig, validateSpot, IsReferenced, isControlPlane.
  by rewrite !Hp, Hc, Hl.
Qed.

Lemma same_plan_claims m n : same_plan m n → validateStaticNodepool m (M_Clusters m) = validateStaticNodepool n (M_Clusters n).
Proof.
  intros Hp. pose proof Hp as (_ & <- & _). unfold validateStaticNodepool. apply for_each_ext. intros v c.
  assert (∀ v x, claim_pool m (Cluster_Name c) v x = claim_pool n (Cluster_Name c) v x) as Hcl.
  { intros v' x. unfold claim_pool. by rewrite (same_plan_defined m n). }
  rewrite (for_each_ext _ _ _ _ Hcl). destruct (for_each _ v _); simpl; [|done..]. by apply for_each_ext.
Qed.

Lemma same_plan_kubernetes m n : same_plan m n → validate_kubernetes m = validate_kubernetes n.
Proof.
  intros Hp. pose proof Hp as (_ & Hc & _). unfold validate_kubernetes. rewrite (same_plan_claims m n) by done. rewrite Hc.
  f_equal. apply for_each_ext. intros v c. unfold validate_kubernetes_entry, validateNodepools.
  erewrite (for_each_ext _ _ _ (Cluster_Control c)) by (intros; by rewrite (same_plan_defined m n)).
  destruct (accept _); simpl; [|done..]. destruct (reject _ _); simpl; [|done..]. f_equal. f_equal.
  destruct (for_each _ _ (Cluster_Control c)); simpl; [|done..].
  erewrite (for_each_ext _ _ _ (Cluster_Compute c)); [done|]. intros. simpl. by rewrite (same_plan_defined m n).
Qed.

Lemma same_plan_loadbalancers m n : same_plan m n → validate_loadbalancers m = validate_loadbalancers n.
Proof.
  intros Hp. pose proof Hp as (_ & Hc & Hr & Hl & Hf & _). unfold validate_loadbalancers. rewrite Hr, Hl.
  assert (∀ v r, validate_role m v r = validate_role n v r) as Hrole.
  { intros [roles api] r. unfold validate_role.
    erewrite (for_each_ext _ _ _ (MR_TargetPools r)); [done|]. intros. simpl. by rewrite (same_plan_defined m n). }
  rewrite (for_each_ext _ _ _ _ Hrole). destruct (for_each _ _ (M_Roles n)) as [[roles api]|?|?]; cbn [bindO]; [|done..].
  assert (∀ v lb, validate_lb m roles api v lb = validate_lb n roles api v lb) as Hlb.
  { intros v lb. unfold validate_lb.
    assert (∀ a r, validate_lb_role m roles api lb a r = validate_lb_role n roles api lb a r) as Hlr
      by (intros; unfold validate_lb_role, targets_valid; by rewrite Hc).
    rewrite (for_each_ext _ _ _ _ Hlr).
    assert (GetProviderType m (MD_Provider (LBC_DNS lb)) = GetProviderType n (MD_Provider (LBC_DNS lb))) as ->
      by (unfold GetProviderType; by rewrite Hf).
    assert (IsKubernetesClusterPresent m (LBC_TargetedK8s lb) = IsKubernetesClusterPresent n (LBC_TargetedK8s lb)) as ->
      by (unfold IsKubernetesClusterPresent; by rewrite Hc).
    erewrite (for_each_ext _ _ _ (LBC_Pools lb)); [done|]. intros. simpl. by rewrite (same_plan_defined m n). }
  rewrite (for_each_ext _ _ _ _ Hlb). destruct (for_each _ _ (M_LoadBalancers n)); cbn [bindO]; [|done..].
  f_equal. unfold validateLBStaticNodePool.
  apply for_each_ext. intros _ lb. apply for_each_ext. intros _ pool.
  by rewrite (same_plan_defined m n), (same_plan_claims m n).
Qed.

Lemma mapM_static nps l ps :
  mapM (construct_static nps) l = Ret ps → SP_Name <$> ps = l.*1.
Proof.
  revert ps. induction l as [|[k ns] l IH]; intros ps E.
  { change (Ret (@nil StaticPool) = Ret ps) in E. by injection E as <-. }
  change ((let* y := construct_static nps (k, ns) in let* z := mapM (construct_static nps) l in Ret (y :: z)) = Ret ps) in E.
  destruct (construct_static nps (k, ns)) as [y|?|?] eqn:Ey; cbn [bindO] in E; [|done..].
  destruct (mapM (construct_static nps) l) as [z|?|?]; cbn [bindO] in E; [|done..].
  injection E as <-. simpl. f_equal; [|by apply IH]. unfold construct_static in Ey. bind_inv Ey. by subst y.
Qed.

(** The checks the resource passed, on the manifest built from it: the loops
    of [Validate] over the dynamic pools, the clusters, and the roles and load
    balancers succeed, and what they establish.  The rest of [Validate]
    depends on what the webhook does not see, the credentials and the nodes of
    static pools: the loop over the static pools (in which addresses have to be
    unique), the checks of struct tags and the lengths of future domains. *)
Definition plan_valid (m : InputManifest) : Prop :=
  ((∃ names, for_each (validate_dynamic_entry m) ∅ (M_Dynamic m) = Ret names) ∧
   validate_kubernetes m = Ret () ∧ validate_loadbalancers m = Ret ()) ∧
  NoDup ((DP_Name <$> M_Dynamic m) ++ (SP_Name <$> M_Static m)) ∧
  Forall (λ d, (DP_Count d ≤ 255)%Z ∧ Struct_Dynamic d = None ∧
    is_Some (GetProviderType m (PS_Name (DP_ProviderSpec d))) ∧
    IsReferenced (DP_Name d) m = true ∧ (DP_Count d = 0%Z ∨ isDefined (DP_AutoscalerConfig d) = false)) (M_Dynamic m) ∧
  (NoDup (Cluster_Name <$> M_Clusters m) ∧ Forall (cluster_valid m) (M_Clusters m)) ∧
  (NoDup (MR_Name <$> M_Roles m) ∧ Forall role_valid (M_Roles m)) ∧
  (NoDup (LBC_Name <$> M_LoadBalancers m) ∧ Forall (lb_valid m) (M_LoadBalancers m)).

Lemma same_plan_valid m n :
  same_plan m n → NoDup (SP_Name <$> M_Static n) → Validate m = Ret () → plan_valid n.
Proof.
  intros Hp Hnd (Hn & Hk & Hl)%Validate_parts.
  assert (Hsec : (∃ names, for_each (validate_dynamic_entry n) ∅ (M_Dynamic n) = Ret names) ∧
    validate_kubernetes n = Ret () ∧ validate_loadbalancers n = Ret ()).
  { rewrite <- (same_plan_kubernetes m n), <- (same_plan_loadbalancers m n) by done. split_and!; [|done..].
    unfold validate_nodepools in Hn. pose proof Hp as (<- & _).
    rewrite <- (for_each_ext _ _ ∅ (M_Dynamic m) (λ v d, same_plan_dynamic m n v d Hp)).
    destruct (for_each _ _ (M_Dynamic m)); [by eexists|done..]. }
  apply validate_nodepools_sound in Hn as (Hns & _ & Hdyn). apply validate_kubernetes_sound in Hk as [Hkn Hkv].
  apply validate_loadbalancers_sound in Hl as (Hrn & Hrv & Hln & Hlv).
  pose proof Hp as (Hd & Hc & Hro & Hlb & Hf & Hs). unfold plan_valid.
  split; [exact Hsec|]. clear Hsec. rewrite <- Hd, <- Hc, <- Hro, <- Hlb. split_and!.
  - apply NoDup_app in Hns as (Hnd1 & Hdis & _). apply NoDup_app. split_and!; [done| |done].
    intros x Hx. rewrite <- Hs. by apply Hdis.
  - eapply Forall_impl; [exact Hdyn|]. intros d (? & ? & ? & Href & ?). split_and!; try done.
    + unfold GetProviderType. by rewrite <- Hf.
    + revert Href. unfold IsReferenced. by rewrite Hc, Hlb.
  - done.
  - eapply Forall_impl; [exact Hkv|]. intros c. by apply same_plan_cluster.
  - done.
  - done.
  - done.
  - eapply Forall_impl; [exact Hlv|]. intros lb. by apply same_plan_lb.
Qed.

(** The manifest built from an admitted resource passes the checks across
    its sections, although the webhook saw neither the secrets of its
    providers nor the nodes of its static pools. *)
Lemma construct_admitted im ds statics m :
  validateInputManifest im = Ret () →
  Forall2 fetched (Im_Providers im) ds →
  (∀ k, is_Some (statics !! k) ↔ k ∈ CSP_Name <$> Im_Static im) →
  constructInputManifest im ds statics = Ret m → plan_valid m.
Proof.
  unfold validateInputManifest, constructInputManifest. intros Hv Hf Hs E.
  destruct (for_each unique_provider _ _) as [[names ps]|?|?] eqn:Eu; cbn [bindO] in Hv; [|done..].
  destruct (for_each construct_provider _ _) as [qs|?|?] eqn:Ec; cbn [bindO] in E; [|done..].
  destruct (mapM _ _) as [static|?|?] eqn:Es; cbn [bindO] in E; [|done..]. injection E as <-.
  apply mapM_static in Es.
  eapply same_plan_valid; [|simpl|exact Hv].
  - split_and!; try done.
    + apply alike_ForEachProvider. simpl.
      pose proof (construct_alike _ _ _ _ _ _ _ Hf (alike_refl no_providers) Ec Eu) as Ha. simpl in Ha. clear -Ha. unfold alike in *. intuition congruence.
    + intros x. simpl. rewrite Es. rewrite <- list_fmap_compose. split.
      * intros Hx. destruct (proj2 (Hs x) Hx) as [v Hv']. apply list_elem_of_fmap. exists (x, v).
        split; [done|]. by apply elem_of_IterateMapInOrder.
      * intros ([k v] & -> & Hkv)%list_elem_of_fmap. apply Hs. apply elem_of_IterateMapInOrder in Hkv. by exists v.
  - rewrite Es, IterateMapInOrder_perm. apply NoDup_fst_map_to_list.
Qed.

End admitted.

(** ** Updates *)








(** The order of Go's maps does not reach the manifest, nor its checksum. *)
Lemma construct_deterministic (R1 R2 : RangeOrder) im ds statics :
  constructInputManifest (H := R1) im ds statics = constructInputManifest (H := R2) im ds statics.
Proof. unfold constructInputManifest. by rewrite (IterateMapInOrder_fixed R1 R2). Qed.

(** *** Instances *)

Definition sample_secret (k : ObjectKey) : Secret :=
  mkSecret (Key_Name k) (Key_Namespace k) {["credentials" := " token "; "privatekey" := "key"]}.

Definition sample_templates : TemplateGitReference :=
  mkTemplateGitReference DefaultTemplatesReferenceName "claudie" "github.com/berops/claudie-config" "https" None "release"
    (mkGitPaths "templates/terraformer" "templates/playbooks" "templates/config-lb" "templates/config-k8s" "templates/manifests-k8s").

Definition sample_reader : KubeReader :=
  {| Get_Secret _ k := Got (sample_secret k); Get_Templates _ _ := Got sample_templates |}.

Definition sample_envs : OperatorEnvs :=
  {| TemplateReferenceHttpsUrl := "github.com/berops/claudie-config"; TemplateReferenceCommit := "release";
     TemplatesDefaultNamespace := "claudie" |}.

Definition sample_nodes (endpoints : list string) : list CrdStaticNode :=
  (λ e, mkCrdStaticNode e (mkObjectKey "node-key" "claudie") "") <$> endpoints.

(** The resource of the manifest of the samples. *)
Definition sample_resource (namespace name : string) (fs : list string) (deletion : option Z) (pools : list DynamicPool)
    (endpoints : list string) : Resource :=
  mkResource name namespace fs deletion
    [mkCrdProvider "hetzner-1" "hetzner" (mkObjectKey "hetzner-secret" "claudie") (mkObjectKey "" "")]
    pools [mkCrdStaticPool "workers" (sample_nodes endpoints) {["zone" := "home"]} ∅ [] 0]
    [mkCluster "prod" "v1.34.0" "192.168.2.0/24" ["ctrl"] ["workers"] None]
    [mkCrdRole "api" "tcp" 6443 6443 ["ctrl"] None] [sample_lb "lb" ["api"] "example.com" "api"]
    (mkInputManifestStatus "" ∅).

Definition sample_pools : list DynamicPool := [sample_pool "ctrl"; sample_pool "lb"].



(** The webhook keeps only the names of static pools: a resource with two
    nodes of one address is admitted, and the manifest built from it would be
    refused by the check that nothing runs on it. *)
Example shared_endpoint_admitted :
  let im := sample_resource "claudie" "m" [] None sample_pools ["2.2.2.1"; "2.2.2.1"] in
  let ds := [mkProviderWithData "hetzner-1" "hetzner" (sample_secret (mkObjectKey "hetzner-secret" "claudie")) sample_templates None] in
  let nodes := (λ e, mkStaticNodeWithData e "root" (sample_secret (mkObjectKey "node-key" "claudie"))) <$> ["2.2.2.1"; "2.2.2.1"] in
  validate (H := sample_reader) (H0 := sample_envs) im = Ret () ∧
  match constructInputManifest im ds {["workers" := nodes]} with
  | Ret m => match Validate m with Fail _ => true | _ => false end
  | _ => false
  end = true.
Proof. split; vm_compute; reflexivity. Qed.

(** Two resources of different namespaces under one name of the manager. *)
Example dashed_names_collide :
  GetNamespacedNameDashed (sample_resource "team" "a-prod" [] None [] []) =
  GetNamespacedNameDashed (sample_resource "team-a" "prod" [] None [] []).
Proof. reflexivity. Qed.

End Crd.
