(* ===== verification/Operator.v ===== *)
(** * The controller of the operator (claudie-operator/pkg/controller/controller.go)

    [Reconcile] runs for a resource whenever it changes and every few
    seconds: it collects the objects the resource points to, builds the
    manifest, compares it with the configuration the manager has under the
    name of the resource and then adds or removes its finalizer, writes its
    status and asks the manager to create, update or delete the
    configuration.  A pass is a function of the answers of the Kubernetes API
    and of the world of the manager; it returns what it did, in order. *)

From stdpp Require Import base gmap strings list.
From S2P Require Import Prelude Spec SpecUtils Store NodePools GenerateState Manifest Validate DesiredState Schedule Watchers Handlers ManagerClient Crd.
Import Store Manifest.Manifest Validate.Validate DesiredState Watchers Handlers ManagerClient Crd.

(** Writes to the API server: the error of the [n]-th act of a pass, if it
    is a write. *)
Class KubeWriter := { Write_err : nat → option string }.

(** [yaml.Marshal] *)
Class YamlOut := { Marshal : InputManifest → outcome string }.

(** controllerutil: a set of names kept in a list. *)
Class Finalizers := {
  ContainsFinalizer : list string → string → bool;
  AddFinalizer : list string → string → list string;
  RemoveFinalizer : list string → string → list string;
  ContainsFinalizer_spec : ∀ l f, ContainsFinalizer l f = true ↔ f ∈ l;
  AddFinalizer_spec : ∀ l f g, g ∈ AddFinalizer l f ↔ g = f ∨ g ∈ l;
  RemoveFinalizer_spec : ∀ l f g, g ∈ RemoveFinalizer l f ↔ g ≠ f ∧ g ∈ l
}.

Module Operator.

(** ** controller_types.go *)

Definition REQUEUE_WATCH : Z := 8.
Definition REQUEUE_UPDATE : Z := 8.
Definition REQUEUE_IN_PROGRES : Z := 8.
Definition REQUEUE_AFTER_ERROR : Z := 8.
Definition finalizerName : string := "v1beta1.claudie.io/finalizer".

(** [ctrl.Result] and the error: the seconds after which the resource is
    looked at again. *)
Record Finish := mkFinish { RequeueAfter : option Z; Finish_err : option string }.

(** What a pass does, with the error of each act. *)
Inductive OpAct :=
| CreateTemplates (t : TemplateGitReference) (err : option string)
| UpdateTemplates (t : TemplateGitReference) (err : option string)
| Eventf (reason action : string)
| Update (im : Resource) (err : option string)
| StatusUpdate (im : Resource) (err : option string)
| CallUpsert (name raw : string) (ctx : KubernetesContext) (err : option client_err)
| CallMark (name : string) (err : option client_err).

(** ** Passes

    The state is the world of the manager and the acts so far; a pass stops
    early with a [Finish]. *)

Section passes.
Context {T : Type}.

Definition st : Type := World T * list OpAct.
Definition pass (A : Type) : Type := st → outcome (st * (A + Finish)).

Definition ret {A} (a : A) : pass A := λ s, Ret (s, inl a).
Definition stop {A} (after : option Z) (err : option string) : pass A := λ s, Ret (s, inr (mkFinish after err)).
Definition bindP {A B} (m : pass A) (k : A → pass B) : pass B := λ s,
  let* (s, r) := m s in
  match r with
  | inl a => k a s
  | inr d => Ret (s, inr d)
  end.
(** A computation of Go that may panic. *)
Definition lift {A} (m : outcome A) : pass (A + string) := λ s,
  match m with
  | Ret a => Ret (s, inl (inl a))
  | Fail e => Ret (s, inl (inr e))
  | Panic w => Panic w
  end.
Definition emit (a : OpAct) : pass () := λ s, Ret ((s.1, s.2 ++ [a]), inl ()).
(** A call of the manager's client. *)
Definition remote {A} (f : World T → outcome (World T * A)) : pass A := λ s,
  let* (w, a) := f s.1 in Ret ((w, s.2), inl a).

End passes.

Declare Scope pass_scope.
Delimit Scope pass_scope with pass.
Notation "'let!' x := m 'in' k" := (bindP m (λ x, k))
  (at level 10, x pattern, m at level 100, k at level 200) : pass_scope.
#[local] Open Scope pass_scope.

(** ** The objects a resource refers to *)

Section fetch.
Context `{KubeReader} `{OperatorEnvs}.

(** The variables of the loop over the providers. *)
Record Fetch := mkFetch {
  F_providers : list ProviderWithData; F_missingSecrets : list string; F_missingTemplates : list string;
  F_missingTemplatesAuth : list string }.

Definition item (p : CrdProvider) (rest : list (string * string)) : string :=
  foldl (λ msg '(label, v), String.append msg (String.append label (Schedule.quoted v)))
    (String.append "Provider: " (String.append (Schedule.quoted (CP_Name p))
       (String.append " Type: " (Schedule.quoted (CP_Type p))))) rest.

Definition no_secret : Secret := mkSecret "" "" ∅.

(** [Fail] is [return ctrl.Result{}, err]. *)
Definition fetch_provider (vars : Fetch) (entry : nat * CrdProvider) : outcome Fetch :=
  let '(i, p) := entry in
  let '(mkFetch providers ms mt ma) := vars in
  let secretKey := CP_SecretRef p in
  let* (secret, ms) := match Get_Secret [0; i] secretKey with
      | Got s => Ret (s, ms)
      | Failed e => Fail e
      | Missing => Ret (no_secret, ms ++ [item p [(" Secret Name: ", Key_Name secretKey); (" Secret Namespace: ", Key_Namespace secretKey)]])
      end in
  let ref := CP_TemplatesRef p in
  let templatesKey := mkObjectKey
      (if bool_decide (Key_Name ref = "") then DefaultTemplatesReferenceName else Key_Name ref)
      (if bool_decide (Key_Namespace ref = "") then TemplatesDefaultNamespace else Key_Namespace ref) in
  match Get_Templates [0; i] templatesKey with
  | Failed e => Fail e
  | Missing =>
      Ret (mkFetch providers ms
             (mt ++ [item p [(" Templates Name: ", Key_Name templatesKey); (" Templates Namespace: ", Key_Namespace templatesKey)]]) ma)
  | Got templates =>
      match Tgr_AuthSecret templates with
      | None => Ret (mkFetch (providers ++ [mkProviderWithData (CP_Name p) (CP_Type p) secret templates None]) ms mt ma)
      | Some secretKey =>
          match Get_Secret [1; i] secretKey with
          | Failed e => Fail e
          | Missing =>
              Ret (mkFetch (providers ++ [mkProviderWithData (CP_Name p) (CP_Type p) secret templates (Some no_secret)]) ms mt
                     (ma ++ [item p [(" Templates Name: ", Key_Name ref); (" Templates Namespace: ", Key_Namespace ref);
                                     (", Auth Secret Name: ", Key_Name secretKey); ("  Auth Secret Namespace: ", Key_Namespace secretKey)]]))
          | Got auth =>
              Ret (mkFetch (providers ++ [mkProviderWithData (CP_Name p) (CP_Type p) secret templates (Some auth)]) ms mt ma)
          end
      end
  end.

Definition fetch_providers (im : Resource) : outcome Fetch :=
  for_each fetch_provider (mkFetch [] [] [] []) (imap pair (Im_Providers im)).

(** A read that fails for any reason ends the pass. *)
Definition fetch_node (i : nat) (nodes : list StaticNodeWithData) (entry : nat * CrdStaticNode) : outcome (list StaticNodeWithData) :=
  let '(j, n) := entry in
  match Get_Secret [2; i; j] (CSN_SecretRef n) with
  | Missing => Fail "not found"
  | Failed e => Fail e
  | Got secret =>
      Ret (nodes ++ [mkStaticNodeWithData (CSN_Endpoint n)
                       (if bool_decide (CSN_Username n ≠ "") then CSN_Username n else "root") secret])
  end.

Definition fetch_pool (acc : gmap string (list StaticNodeWithData)) (entry : nat * CrdStaticPool)
    : outcome (gmap string (list StaticNodeWithData)) :=
  let '(i, s) := entry in
  let* nodes := for_each (fetch_node i) [] (imap pair (CSP_Nodes s)) in
  Ret (<[CSP_Name s := nodes]> acc).

Definition fetch_static (im : Resource) : outcome (gmap string (list StaticNodeWithData)) :=
  for_each fetch_pool ∅ (imap pair (Im_Static im)).

End fetch.

(** ** The configuration of the manager *)

Definition StageKind_string (k : StageKind) : string :=
  match k with
  | Unknown => "" | Terraformer => "TERRAFORMER" | Ansibler => "ANSIBLER" | KubeEleven => "KUBE_ELEVEN" | Kuber => "KUBER"
  end.

Definition stage_phase (current : Stage) : string :=
  match current with
  | Stage_Ansibler _ _ => "Ansibler"
  | Stage_KubeEleven _ _ => "KubeEleven"
  | Stage_Kuber _ _ => "Kuber"
  | Stage_Terraformer _ _ => "Terraformer"
  end.

(** The body of the loop over the clusters of a configuration. *)
Definition cluster_status `{Codec} (state : ClusterState) : outcome ClustersStatus :=
  let* stage := match InFlight state with
      | Some te =>
          if bool_decide (0 < length (TaskEvent_Pipeline te)) then
            let* current := index (TaskEvent_Pipeline te) (Z.to_nat (TaskEvent_CurrentStage te)) in
            Ret (stage_phase current)
          else Ret "None"
      | None => Ret "None"
      end in
  let* w := deref (State state) in
  Ret (mkClustersStatus (enum_String (Workflow_Status_ w)) stage (Workflow_Description w)
         ((λ p, mkCrdFinishedWorkflow (enum_String (Finished_Status p)) (StageKind_string (Finished_Stage p))
                  (Finished_TaskDescription p) (format_time (Finished_Timestamp p))) <$> Workflow_Previous w)).

(** The variables the pass fills from the list of configurations. *)
Record Observed := mkObserved {
  markedForDeletion : bool; deleted : bool; lastChecksum : option string; alreadyExists : bool;
  configState : Manifest_State; clusterStatus : gmap string ClustersStatus }.

Definition nothing_observed : Observed := mkObserved false false None false Pending ∅.

Definition unbuilt (state : ClusterState) : bool := bool_decide (Current state = None).

Definition observe_config `{Codec} `{RangeOrder} (config : Config) : outcome Observed :=
  let m := Config_Manifest config in
  let* clusters := convert_map "Reconcile" cluster_status (Config_Clusters config) in
  let deletedCount := length (filter (λ c, unbuilt c = true) (snd <$> range "Reconcile" (Config_Clusters config))) in
  Ret (mkObserved (bool_decide (Manifest_Raw m = "") && bool_decide (default "" (Manifest_Checksum m) = ""))
         (bool_decide (deletedCount = size (Config_Clusters config))) (Manifest_Checksum m) true
         (Manifest_State_ m) clusters).

Definition observe `{Codec} `{RangeOrder} (name : string) (configs : list Config) : outcome Observed :=
  match find_first (λ c, bool_decide (name = Config_Name c)) configs with
  | None => Ret nothing_observed
  | Some config => observe_config config
  end.

Definition status_of (st : Manifest_State) : string :=
  match st with
  | Pending => STATUS_WATCH
  | Scheduled => STATUS_IN_PROGRESS
  | Done => STATUS_DONE
  | Error => STATUS_ERROR
  end.

(** ** Reconcile *)

Section reconcile.
Context `{Codec} `{RangeOrder} `{Yaml} (Digest : string → string) {T : Type} `{!Store T} `{!Crud T} {digest : string}
  `{!Marking T digest}.
Context `{KubeReader} `{KubeWriter} `{OperatorEnvs} `{YamlOut} `{ProviderValidator} `{Finalizers}.
Implicit Types (im : Resource) (rawManifest : InputManifest).

(** A write to the API server. *)
Definition write (a : option string → OpAct) : pass (T := T) (option string) := λ s,
  let err := Write_err (length s.2) in Ret ((s.1, s.2 ++ [a err]), inl err).

Definition wrapped (context err : string) : string := String.append context (String.append ": " err).

(** [if err := r.kc.Status().Update(..); err != nil { return ctrl.Result{}, .. }] *)
Definition update_status im (context : string) : pass (T := T) () :=
  let! err := write (StatusUpdate im) in
  match err with
  | Some e => stop None (Some (wrapped context e))
  | None => ret ()
  end.

Definition update im (context : string) : pass (T := T) () :=
  let! err := write (Update im) in
  match err with
  | Some e => stop None (Some (wrapped context e))
  | None => ret ()
  end.

Definition default_templates : TemplateGitReference :=
  mkTemplateGitReference DefaultTemplatesReferenceName TemplatesDefaultNamespace TemplateReferenceHttpsUrl "https" None
    TemplateReferenceCommit
    (mkGitPaths "templates/terraformer" "templates/playbooks" "templates/config-lb" "templates/config-k8s" "templates/manifests-k8s").

(** The desired specification under the names of the existing object. *)
Definition with_spec (existing desired : TemplateGitReference) : TemplateGitReference :=
  mkTemplateGitReference (Tgr_Name existing) (Tgr_Namespace existing) (Tgr_URL desired) (Tgr_Protocol desired)
    (Tgr_AuthSecret desired) (Tgr_Commit desired) (Tgr_Paths desired).

Definition ensureDefaultTemplateReference : pass (T := T) (option string) :=
  match Get_Templates [5] (mkObjectKey DefaultTemplatesReferenceName TemplatesDefaultNamespace) with
  | Failed e => ret (Some e)
  | Missing => write (CreateTemplates default_templates)
  | Got existing => write (UpdateTemplates (with_spec existing default_templates))
  end.

(** One entry of the table of missing objects. *)
Definition report_missing im (items : list string) (title reason action : string) : pass (T := T) () :=
  match items with
  | [] => ret ()
  | i :: rest =>
      let msg := foldl (λ m i, String.append m (String.append new_line i)) (String.append title (String.append new_line i)) rest in
      let! _ := emit (Eventf reason action) in
      let! _ := update_status (SetWatchResourceStatusWithMsg im msg) "failed updating status" in
      stop (Some REQUEUE_AFTER_ERROR) None
  end.

(** An error that is recorded as an event; the pass is repeated later. *)
Definition failed {A} (action : string) : pass (T := T) A :=
  let! _ := emit (Eventf "ProvisioningFailed" action) in
  stop (Some REQUEUE_AFTER_ERROR) None.

(** The manifest of the resource, up to the validation of its providers. *)
Definition gather im : pass (T := T) InputManifest :=
  let! f := lift (fetch_providers im) in
  match f with
  | inr e => stop None (Some e)
  | inl f =>
      let! _ := report_missing im (F_missingSecrets f)
                  "The following referenced providers credentials secrets were not found:" "SecretNotFound" "FetchingSecrets" in
      let! _ := report_missing im (F_missingTemplates f)
                  "The following referenced provider templates were not found:" "TemplatesNotFound" "FetchingTemplates" in
      let! _ := report_missing im (F_missingTemplatesAuth f)
                  "The following auth secrets within referenced templates were not found:" "AuthSecretNotFound" "FetchingSecrets" in
      let! nodes := lift (fetch_static im) in
      match nodes with
      | inr _ => failed "FetchingSecrets"
      | inl nodes =>
          let! raw := lift (constructInputManifest im (F_providers f) nodes) in
          match raw with
          | inr _ => failed "FetchingSecrets"
          | inl rawManifest =>
              let! v := lift (Providers_Validate (M_Providers rawManifest)) in
              match v with
              | inr _ =>
                  let! _ := emit (Eventf "ProvisioningFailed" "ValidatingInputManifest") in
                  let! _ := update_status (SetUpdateResourceStatus im (mkInputManifestStatus STATUS_ERROR ∅)) "failed updating status" in
                  stop (Some REQUEUE_AFTER_ERROR) None
              | inl _ => ret rawManifest
              end
          end
      end
  end.

(** [r.CreateConfig(ctx, &rawManifest, ..)] *)
Definition create_config (now : Z) rawManifest (ctx : KubernetesContext) : pass (T := T) () :=
  let! raw := lift (Marshal rawManifest) in
  match raw with
  | inr e => stop None (Some e)
  | inl raw =>
      let! err := remote (λ w, Usecases_CreateConfig Digest now w (M_Name rawManifest) raw ctx) in
      let! _ := emit (CallUpsert (M_Name rawManifest) raw ctx err) in
      match err with
      | Some _ => stop None (Some "UpsertManifest")
      | None => ret ()
      end
  end.

Definition delete_config (name : string) : pass (T := T) () :=
  let! err := remote (λ w, Usecases_DeleteConfig (digest := digest) w name) in
  let! _ := emit (CallMark name err) in
  match err with
  | Some _ => stop None (Some "MarkForDeletion")
  | None => ret ()
  end.

(** The branch of a resource that is being deleted. *)
Definition reconcile_deleted im rawManifest (o : Observed) (currentState : InputManifestStatus) : pass (T := T) () :=
  if negb (alreadyExists o) then
    let! _ := update (set_Finalizers im (RemoveFinalizer (Im_Finalizers im) finalizerName)) "failed removing finalizer" in
    stop None None
  else
    let im := SetUpdateResourceStatus im currentState in
    let! _ := update_status im "failed updating status" in
    if ContainsFinalizer (Im_Finalizers im) finalizerName then
      if markedForDeletion o || deleted o then stop (Some REQUEUE_WATCH) None
      else
        let! _ := delete_config (M_Name rawManifest) in
        let! _ := update_status (SetDeletingStatus im) "failed updating status" in
        stop (Some REQUEUE_IN_PROGRES) None
    else stop (Some REQUEUE_IN_PROGRES) None.

(** The branch of a resource that is not: [updated] says whether the checksum
    of the manifest differs from the last one. *)
Definition reconcile_live (now : Z) im rawManifest (o : Observed) (currentState : InputManifestStatus) (updated : bool)
    : pass (T := T) () :=
  let ctx := mkKubernetesContext (Im_Name im) (Im_Namespace im) in
  if negb (alreadyExists o) then
    let! _ := create_config now rawManifest ctx in
    let! _ := update_status (SetWatchResourceStatus im) "failed executing finalizer" in
    stop (Some REQUEUE_WATCH) None
  else if bool_decide (configState o = Scheduled) then
    let! _ := update_status (SetUpdateResourceStatus im currentState) "failed updating status" in
    stop (Some REQUEUE_IN_PROGRES) None
  else
    let! im :=
      if bool_decide (configState o = Error) then
        let im := SetUpdateResourceStatus im currentState in
        let! _ := update_status im "failed updating status" in
        let! _ := emit (Eventf "ProvisioningFailed" "WorkflowFailed") in
        ret im
      else ret im in
    if updated && bool_decide (Im_DeletionTimestamp im = None) then
      let! _ := create_config now rawManifest ctx in
      let! _ := update_status (SetUpdateResourceStatus im currentState) "failed updating status" in
      stop (Some REQUEUE_UPDATE) None
    else
      let! _ := update_status (SetUpdateResourceStatus im currentState) "failed updating status" in
      stop (Some REQUEUE_UPDATE) None.

(** [request] is the answer to the read of the resource itself. *)
Definition Reconcile (now : Z) (request : answer Resource) : pass (T := T) () :=
  let! _ := ensureDefaultTemplateReference in
  match request with
  | Missing => stop None None
  | Failed e => stop None (Some e)
  | Got im =>
      let! rawManifest := gather im in
      let! resp := remote Client_ListConfigs in
      match resp with
      | inr _ => stop None (Some "ListConfigs")
      | inl configs =>
          let! o := lift (observe (GetNamespacedNameDashed im) configs) in
          match o with
          | inr e => stop None (Some e)
          | inl o =>
              let! marshalled := lift (Marshal rawManifest) in
              match marshalled with
              | inr e => stop (Some REQUEUE_AFTER_ERROR) (Some e)
              | inl marshalled =>
                  let updated := negb (bytes_equal (Some (Digest marshalled)) (lastChecksum o)) in
                  let currentState := mkInputManifestStatus (status_of (configState o)) (clusterStatus o) in
                  match Im_DeletionTimestamp im with
                  | None =>
                      let! im :=
                        if ContainsFinalizer (Im_Finalizers im) finalizerName then ret im
                        else
                          let im := set_Finalizers im (AddFinalizer (Im_Finalizers im) finalizerName) in
                          let! _ := update im "failed executing finalizer" in
                          ret im in
                      reconcile_live now im rawManifest o currentState updated
                  | Some _ => reconcile_deleted im rawManifest o currentState
                  end
              end
          end
      end
  end.

End reconcile.

(** ** Reasoning about passes *)

Section triples.
Context {T : Type}.

(** Whatever a pass returns satisfies [Q]. *)
Definition wp {A} (m : pass (T := T) A) (Q : st → A + Finish → Prop) (s : st) : Prop :=
  ∀ s' r, m s = Ret (s', r) → Q s' r.

Lemma wp_bind {A B} (m : pass (T := T) A) (k : A → pass B) Q s :
  wp m (λ s r, match r with inl a => wp (k a) Q s | inr d => Q s (inr d) end) s → wp (bindP m k) Q s.
Proof.
  unfold wp, bindP. intros Hm s' r E. destruct (m s) as [[s1 [a|d]]|?|?] eqn:Em; cbn [bindO] in E; try done.
  - exact (Hm s1 (inl a) eq_refl s' r E).
  - injection E as <- <-. exact (Hm s1 (inr d) eq_refl).
Qed.

Lemma wp_ret {A} (a : A) Q s : Q s (inl a) → wp (ret a) Q s.
Proof. by intros HQ s' r [= <- <-]. Qed.

Lemma wp_stop {A} after err Q s : Q s (inr (mkFinish after err)) → wp (stop (A := A) after err) Q s.
Proof. by intros HQ s' r [= <- <-]. Qed.

Lemma wp_emit a Q (s : st) : Q (s.1, s.2 ++ [a]) (inl ()) → wp (emit a) Q s.
Proof. by intros HQ s' r [= <- <-]. Qed.

Lemma wp_lift {A} (m : outcome A) Q s :
  (∀ a, m = Ret a → Q s (inl (inl a))) → (∀ e, m = Fail e → Q s (inl (inr e))) → wp (lift m) Q s.
Proof. intros H1 H2 s' r. unfold lift. destruct m; intros [= <- <-]; [by apply H1|by apply H2]. Qed.

Lemma wp_remote {A} (f : World T → outcome (World T * A)) Q (s : st) :
  (∀ w a, f s.1 = Ret (w, a) → Q (w, s.2) (inl a)) → wp (remote f) Q s.
Proof. intros HQ s' r. unfold remote. destruct (f s.1) as [[w a]|?|?]; intros [= <- <-]. by apply HQ. Qed.

Lemma wp_write `{KubeWriter} a Q (s : st) :
  Q (s.1, s.2 ++ [a (Write_err (length s.2))]) (inl (Write_err (length s.2))) → wp (write a) Q s.
Proof. by intros HQ s' r [= <- <-]. Qed.

Lemma wp_mono {A} (m : pass (T := T) A) (Q R : st → A + Finish → Prop) s :
  wp m Q s → (∀ s' r, Q s' r → R s' r) → wp m R s.
Proof. intros Hm HQR s' r E. apply HQR, Hm, E. Qed.

End triples.

(** Acts that neither touch the finalizer nor ask the manager to write. *)
Definition harmless (a : OpAct) : bool :=
  match a with CreateTemplates _ _ | UpdateTemplates _ _ | Eventf _ _ | StatusUpdate _ _ => true | _ => false end.

Definition significant (acts : list OpAct) : list OpAct := filter (λ a, harmless a = false) acts.

Lemma significant_app l k : significant (l ++ k) = significant l ++ significant k.
Proof. apply filter_app. Qed.

(** ** What a pass decides

    The steps the controller means to take for a resource, from what it saw. *)

Inductive decision := AddFinalizer_ | RemoveFinalizer_ | Upsert_ | Mark_.
#[export] Instance decision_eq_dec : EqDecision decision.
Proof. solve_decision. Defined.

Definition decide_pass (im : Resource) (finalized : bool) (o : Observed) (updated : bool) : list decision :=
  if bool_decide (Im_DeletionTimestamp im = None) then
    (if finalized then [] else [AddFinalizer_]) ++
    (if negb (alreadyExists o) then [Upsert_]
     else if bool_decide (configState o = Scheduled) then []
     else if updated then [Upsert_] else [])
  else if negb (alreadyExists o) then [RemoveFinalizer_]
  else if finalized && negb (markedForDeletion o || deleted o) then [Mark_]
  else [].

Section refinement.
Context `{Codec} `{RangeOrder} `{Yaml} (Digest : string → string) {T : Type} `{!Store T} `{!Crud T} {digest : string}
  `{!Marking T digest}.
Context `{KubeReader} `{KubeWriter} `{OperatorEnvs} `{YamlOut} `{ProviderValidator} `{Finalizers}.

(** The act that carries out a decision for a resource and its manifest. *)
Definition carries (im : Resource) (m : InputManifest) (raw : string) (d : decision) (a : OpAct) : Prop :=
  match d, a with
  | AddFinalizer_, Update im' _ => im' = set_Finalizers im (AddFinalizer (Im_Finalizers im) finalizerName)
  | RemoveFinalizer_, Update im' _ => im' = set_Finalizers im (RemoveFinalizer (Im_Finalizers im) finalizerName)
  | Upsert_, CallUpsert name raw' ctx _ =>
      name = M_Name m ∧ raw' = raw ∧ ctx = mkKubernetesContext (Im_Name im) (Im_Namespace im)
  | Mark_, CallMark name _ => name = M_Name m
  | _, _ => False
  end.

Definition act_failed (a : OpAct) : bool :=
  match a with
  | CreateTemplates _ err | UpdateTemplates _ err | Update _ err | StatusUpdate _ err => bool_decide (err ≠ None)
  | CallUpsert _ _ _ err | CallMark _ err => match err with Some _ => true | None => false end
  | Eventf _ _ => false
  end.

(** The manager's world and the significant acts are as before. *)
Definition quiet (s s' : @st T) : Prop := s'.1 = s.1 ∧ significant s'.2 = significant s.2.

#[local] Instance quiet_preorder : PreOrder quiet.
Proof. split; [by intros s|]. intros s1 s2 s3 [E1 E2] [E3 E4]. split; congruence. Qed.

Lemma quiet_act s a : harmless a = true → quiet s (s.1, s.2 ++ [a]).
Proof.
  intros Ha. split; [done|]. simpl. rewrite significant_app. unfold significant at 2. rewrite filter_cons_False by congruence.
  by rewrite app_nil_r.
Qed.

Lemma quiet_trans_act s s' a : quiet s s' → harmless a = true → quiet s (s'.1, s'.2 ++ [a]).
Proof. intros Hq Ha. etrans; [exact Hq|by apply quiet_act]. Qed.

Lemma update_status_spec im context Q (s : @st T) :
  (∀ s' r, quiet s s' → match r with inl _ => True | inr f => is_Some (Finish_err f) end → Q s' r) →
  wp (update_status im context) Q s.
Proof.
  intros HQ. apply wp_bind, wp_write. destruct (Write_err _) as [e|].
  - apply wp_stop, HQ; [by apply quiet_act|by eexists].
  - apply wp_ret, HQ; [by apply quiet_act|done].
Qed.

Lemma report_missing_spec im items title reason action Q (s : @st T) :
  (items = [] → Q s (inl ())) → (∀ s' f, quiet s s' → items ≠ [] → Q s' (inr f)) →
  wp (report_missing im items title reason action) Q s.
Proof.
  intros Hok Hbad. destruct items as [|i items]; [by apply wp_ret, Hok|].
  apply wp_bind, wp_emit, wp_bind, update_status_spec. intros s' [[]|f] Hq _.
  - apply wp_stop, Hbad; [|done]. etrans; [|exact Hq]. by apply quiet_act.
  - apply Hbad; [|done]. etrans; [|exact Hq]. by apply quiet_act.
Qed.

Lemma failed_spec {A} action Q (s : @st T) :
  (∀ s' f, quiet s s' → Q s' (inr f)) → wp (failed (A := A) action) Q s.
Proof. intros HQ. apply wp_bind, wp_emit, wp_stop, HQ. by apply quiet_act. Qed.

(** The manifest a pass works with. *)
Definition gathered (im : Resource) (m : InputManifest) : Prop :=
  ∃ f nodes, fetch_providers im = Ret f ∧ F_missingSecrets f = [] ∧ F_missingTemplates f = [] ∧
    F_missingTemplatesAuth f = [] ∧ fetch_static im = Ret nodes ∧
    constructInputManifest im (F_providers f) nodes = Ret m ∧ Providers_Validate (M_Providers m) = Ret ().

Ltac gathered_contra :=
  intros m' (f' & nodes' & Hf' & Hms' & Hmt' & Hma' & Hn' & Hm' & Hv');
  repeat match goal with
  | A : ?x = Ret _, B : ?x = Ret _ |- _ => rewrite A in B; injection B as <-
  end; congruence.

Lemma gather_spec im (s : @st T) :
  wp (gather im) (λ s' r, quiet s s' ∧ match r with inl m => gathered im m | inr _ => ∀ m, ¬ gathered im m end) s.
Proof.
  apply wp_bind, wp_lift; [|by intros e He; apply wp_stop; split; [done|]; intros m (? & ? & ? & _); congruence]. intros f Hf.
  apply wp_bind, report_missing_spec; [intros Hms|intros s' d Hq Hne; split; [done|]; gathered_contra].
  apply wp_bind, report_missing_spec; [intros Hmt|intros s' d Hq Hne; split; [done|]; gathered_contra].
  apply wp_bind, report_missing_spec; [intros Hma|intros s' d Hq Hne; split; [done|]; gathered_contra].
  apply wp_bind, wp_lift; [intros nodes Hn|intros e He; apply failed_spec; intros s' d Hq; split; [done|]; gathered_contra].
  apply wp_bind, wp_lift; [intros m Hm|intros e He; apply failed_spec; intros s' d Hq; split; [done|]; gathered_contra].
  apply wp_bind, wp_lift.
  - intros [] Hv. apply wp_ret. split; [done|]. exists f, nodes. by split_and!.
  - intros e He. apply wp_bind, wp_emit, wp_bind, update_status_spec. intros s' [[]|d] Hq _; [apply wp_stop|];
      (split; [etrans; [|exact Hq]; by apply quiet_act|gathered_contra]).
Qed.

Lemma ensure_spec (s : @st T) : wp ensureDefaultTemplateReference (λ s' r, quiet s s' ∧ ∃ e, r = inl e) s.
Proof.
  unfold ensureDefaultTemplateReference. destruct (Get_Templates _ _).
  - apply wp_write. split; [by apply quiet_act|by eexists].
  - apply wp_write. split; [by apply quiet_act|by eexists].
  - apply wp_ret. split; [done|by eexists].
Qed.

(** *** The decisions and the calls of the manager *)

Variable now : Z.

(** Where the calls among the acts take the manager. *)
Fixpoint reached (w : World T) (acts : list OpAct) (w' : World T) : Prop :=
  match acts with
  | [] => w' = w
  | CallUpsert name raw ctx err :: acts =>
      ∃ w1, Usecases_CreateConfig Digest now w name raw ctx = Ret (w1, err) ∧ reached w1 acts w'
  | CallMark name err :: acts => ∃ w1, Usecases_DeleteConfig (digest := digest) w name = Ret (w1, err) ∧ reached w1 acts w'
  | _ :: acts => reached w acts w'
  end.

Lemma reached_app w l k w' : reached w (l ++ k) w' ↔ ∃ w1, reached w l w1 ∧ reached w1 k w'.
Proof.
  revert w. induction l as [|a l IH]; intros w; simpl; [naive_solver|]. destruct a; try apply IH; setoid_rewrite IH; naive_solver.
Qed.

Section deciding.
Context (im : Resource) (m : InputManifest) (raw : string) (w1 : World T).
Hypothesis (Hraw : Marshal m = Ret raw).

(** The acts are those of the decisions [taken], and only the last of them
    may have failed. *)
Definition attempted (taken : list decision) (s : @st T) : Prop :=
  Forall2 (carries im m raw) taken (significant s.2) ∧ reached w1 (significant s.2) s.1 ∧
  Forall (λ a, act_failed a = false) (removelast (significant s.2)).

(** ... and none of them failed. *)
Definition carried (taken : list decision) (s : @st T) : Prop :=
  attempted taken s ∧ Forall (λ a, act_failed a = false) (significant s.2).

(** A pass that ends without an error took every decision successfully; one
    that ends with an error took the first ones. *)
Definition followed (ds : list decision) (s : @st T) (r : () + Finish) : Prop :=
  ∃ taken, taken `prefix_of` ds ∧ attempted taken s ∧
    match r with inl _ => False | inr f => Finish_err f = None → taken = ds ∧ carried ds s end.

Lemma carried_quiet taken s s' : carried taken s → quiet s s' → carried taken s'.
Proof. intros Hc [E1 E2]. unfold carried, attempted. by rewrite E1, E2. Qed.

Lemma carried_attempt taken (s : @st T) d a w :
  carried taken s → carries im m raw d a → reached s.1 (significant [a]) w → attempted (taken ++ [d]) (w, s.2 ++ [a]).
Proof.
  intros [(Hc & Hr & _) Hok] Hd Ha. assert (significant [a] = [a]) as Es.
  { unfold significant. rewrite filter_cons_True; [done|]. by destruct d, a. }
  unfold attempted. simpl. rewrite significant_app, Es, removelast_last in *. split_and!.
  - apply Forall2_app; [done|]. by constructor.
  - apply reached_app. by exists s.1.
  - done.
Qed.

Lemma carried_act taken (s : @st T) d a w :
  carried taken s → carries im m raw d a → act_failed a = false → reached s.1 (significant [a]) w →
  carried (taken ++ [d]) (w, s.2 ++ [a]).
Proof.
  intros Hc Hd Hok Ha. split; [by apply carried_attempt|]. simpl. rewrite significant_app. apply Forall_app.
  split; [apply Hc|]. unfold significant. apply Forall_forall. by intros x [_ ->%list_elem_of_singleton]%list_elem_of_filter.
Qed.

Lemma followed_status taken ds im' context (k : pass (T := T) ()) (s : @st T) :
  taken `prefix_of` ds → carried taken s → (∀ s', carried taken s' → wp k (followed ds) s') →
  wp (let! _ := update_status im' context in k) (followed ds) s.
Proof.
  intros Hp Hc Hk. apply wp_bind, update_status_spec. intros s' [[]|f] Hq He.
  - apply Hk. by eapply carried_quiet.
  - exists taken. split; [done|]. destruct (carried_quiet _ _ _ Hc Hq). split; [done|]. destruct He as [e He]. by rewrite He.
Qed.

Lemma followed_stop ds after (s : @st T) : carried ds s → wp (stop after None) (followed ds) s.
Proof. intros Hc. apply wp_stop. exists ds. split; [done|]. split; [apply Hc|done]. Qed.

Lemma followed_update taken ds d im' context (k : pass (T := T) ()) (s : @st T) :
  (taken ++ [d]) `prefix_of` ds → carried taken s → (∀ e, carries im m raw d (Update im' e)) →
  (∀ s', carried (taken ++ [d]) s' → wp k (followed ds) s') →
  wp (let! _ := update im' context in k) (followed ds) s.
Proof.
  intros Hp Hc Hd Hk. apply wp_bind. unfold update. apply wp_bind, wp_write.
  destruct (Write_err _) as [e|].
  - apply wp_stop. exists (taken ++ [d]). split; [done|]. split; [by apply carried_attempt|done].
  - apply wp_ret, Hk. by apply carried_act.
Qed.

Lemma followed_create taken ds (k : pass (T := T) ()) (s : @st T) :
  (taken ++ [Upsert_]) `prefix_of` ds → carried taken s →
  (∀ s', carried (taken ++ [Upsert_]) s' → wp k (followed ds) s') →
  wp (let! _ := create_config Digest now m (mkKubernetesContext (Im_Name im) (Im_Namespace im)) in k) (followed ds) s.
Proof.
  intros Hp Hc Hk. apply wp_bind, wp_bind, wp_lift; [|by rewrite Hraw]. rewrite Hraw. intros ? [= <-].
  apply wp_bind, wp_remote. intros w err Ew. apply wp_bind, wp_emit. simpl.
  destruct err as [e|].
  - apply wp_stop. exists (taken ++ [Upsert_]). split; [done|]. split; [|done]. apply carried_attempt; [done|done|]. by exists w.
  - apply wp_ret, Hk. apply carried_act; [done..|]. by exists w.
Qed.

Lemma followed_delete taken ds (k : pass (T := T) ()) (s : @st T) :
  (taken ++ [Mark_]) `prefix_of` ds → carried taken s →
  (∀ s', carried (taken ++ [Mark_]) s' → wp k (followed ds) s') →
  wp (let! _ := delete_config (digest := digest) (M_Name m) in k) (followed ds) s.
Proof.
  intros Hp Hc Hk. apply wp_bind, wp_bind, wp_remote. intros w err Ew. apply wp_bind, wp_emit. simpl.
  destruct err as [e|].
  - apply wp_stop. exists (taken ++ [Mark_]). split; [done|]. split; [|done]. apply carried_attempt; [done|done|]. by exists w.
  - apply wp_ret, Hk. apply carried_act; [done..|]. by exists w.
Qed.

Lemma followed_emit taken ds a (k : pass (T := T) ()) (s : @st T) :
  harmless a = true → carried taken s → (∀ s', carried taken s' → wp k (followed ds) s') →
  wp (let! _ := emit a in k) (followed ds) s.
Proof. intros Ha Hc Hk. apply wp_bind, wp_emit, Hk. eapply carried_quiet; [done|by apply quiet_act]. Qed.

Lemma reconcile_deleted_spec o cs updated (s : @st T) :
  Im_DeletionTimestamp im ≠ None → carried [] s →
  wp (reconcile_deleted (digest := digest) im m o cs)
     (followed (decide_pass im (ContainsFinalizer (Im_Finalizers im) finalizerName) o updated)) s.
Proof.
  intros Hd Hc. unfold reconcile_deleted, decide_pass. rewrite bool_decide_eq_false_2 by done.
  destruct (alreadyExists o); cbn [negb].
  - apply (followed_status []); [apply prefix_nil|done|]. intros s1 Hc1. cbn [SetUpdateResourceStatus set_Status Im_Finalizers].
    destruct (ContainsFinalizer _ _); cbn [andb]; [|by apply followed_stop].
    destruct (markedForDeletion o || deleted o); cbn [negb]; [by apply followed_stop|].
    apply (followed_delete []); [done|done|]. intros s2 Hc2.
    apply (followed_status [Mark_]); [done|done|]. intros s3 Hc3. by apply followed_stop.
  - apply (followed_update [] _ RemoveFinalizer_); [done|done|done|]. intros s1 Hc1. by apply followed_stop.
Qed.

Lemma reconcile_live_spec im' taken o cs updated (s : @st T) :
  Im_Name im' = Im_Name im → Im_Namespace im' = Im_Namespace im → Im_DeletionTimestamp im' = None → carried taken s →
  wp (reconcile_live Digest now im' m o cs updated)
     (followed (taken ++ (if negb (alreadyExists o) then [Upsert_]
                          else if bool_decide (configState o = Scheduled) then []
                          else if updated then [Upsert_] else []))) s.
Proof.
  intros Hn Hns Hdel Hc. unfold reconcile_live. cbv zeta. rewrite Hn, Hns. destruct (alreadyExists o); cbn [negb].
  - case_bool_decide.
    { rewrite app_nil_r. apply (followed_status taken); [done|done|]. intros s1 Hc1. by apply followed_stop. }
    assert (∀ im' s, Im_DeletionTimestamp im' = None → carried taken s →
      wp (if updated && bool_decide (Im_DeletionTimestamp im' = None) then
            let! _ := create_config Digest now m (mkKubernetesContext (Im_Name im) (Im_Namespace im)) in
            let! _ := update_status (SetUpdateResourceStatus im' cs) "failed updating status" in
            stop (Some REQUEUE_UPDATE) None
          else
            let! _ := update_status (SetUpdateResourceStatus im' cs) "failed updating status" in
            stop (Some REQUEUE_UPDATE) None)
         (followed (taken ++ (if updated then [Upsert_] else []))) s) as Hrest.
    { intros im2 s2 Hd Hc2. rewrite bool_decide_eq_true_2, andb_true_r by done. destruct updated.
      - apply (followed_create taken); [done|done|]. intros s3 Hc3.
        apply (followed_status (taken ++ [Upsert_])); [done|done|]. intros s4 Hc4. by apply followed_stop.
      - rewrite app_nil_r. apply (followed_status taken); [done|done|]. intros s3 Hc3. by apply followed_stop. }
    apply wp_bind. case_bool_decide; [|by apply wp_ret, Hrest].
    apply wp_bind, update_status_spec. intros s1 [[]|f] Hq He.
    + apply wp_bind, wp_emit, wp_ret, Hrest; [done|]. eapply carried_quiet; [exact Hc|].
      etrans; [exact Hq|by apply quiet_act].
    + exists taken. split; [by apply prefix_app_r|]. destruct (carried_quiet _ _ _ Hc Hq). split; [done|].
      destruct He as [e He]. by rewrite He.
  - apply (followed_create taken); [done|done|]. intros s1 Hc1.
    apply (followed_status (taken ++ [Upsert_])); [done|done|]. intros s2 Hc2. by apply followed_stop.
Qed.

End deciding.

(** Why a pass ends before it decides: the manifest could not be gathered (an
    object it refers to is missing, or what was read is invalid); or it was,
    and the pass reports that the manager could not be asked or that its
    answer or the manifest could not be converted. *)
Definition undecided (im : Resource) (w w' : World T) (f : Finish) : Prop :=
  (w' = w ∧ ∀ m, ¬ gathered im m) ∨
  (∃ m, gathered im m ∧ is_Some (Finish_err f) ∧
     ((∃ e, Client_ListConfigs w = Ret (w', inr e)) ∨
      ∃ configs e, Client_ListConfigs w = Ret (w', inl configs) ∧
        (observe (GetNamespacedNameDashed im) configs = Fail e ∨ Marshal m = Fail e))).

Lemma undecided_world im w w' f : undecided im w w' f → w' = w ∨ ∃ x, Client_ListConfigs w = Ret (w', x).
Proof. intros [[? _]|(m & _ & _ & [[e ?]|(c & e & ? & _)])]; eauto. Qed.

Lemma undecided_silent im w w' f m : undecided im w w' f → gathered im m → is_Some (Finish_err f).
Proof. intros [[_ Hno]|(m' & _ & ? & _)] Hg; [by destruct (Hno m)|done]. Qed.

(** What is left after a pass: nothing was decided, or the decisions were
    followed. *)
Definition pass_outcome (im : Resource) (w : World T) (s' : @st T) (r : () + Finish) : Prop :=
  (significant s'.2 = [] ∧ ∃ f, r = inr f ∧ undecided im w s'.1 f) ∨
  ∃ m raw w1 configs o,
    gathered im m ∧ Marshal m = Ret raw ∧ Client_ListConfigs w = Ret (w1, inl configs) ∧
    observe (GetNamespacedNameDashed im) configs = Ret o ∧
    followed im m raw w1
      (decide_pass im (ContainsFinalizer (Im_Finalizers im) finalizerName) o
         (negb (bytes_equal (Some (Digest raw)) (lastChecksum o)))) s' r.

Lemma reconcile_spec im w : wp (Reconcile Digest now (digest := digest) (Got im)) (pass_outcome im w) (w, []).
Proof.
  apply wp_bind. eapply wp_mono; [apply ensure_spec|]. intros s1 r1 [Hq1 [e ->]].
  apply wp_bind. eapply wp_mono; [apply gather_spec|]. intros s2 [m|f] [Hq2 Hm].
  2: { left. destruct Hq1 as [E1 E1'], Hq2 as [E2 E2']. split; [by rewrite E2', E1'|].
       exists f. split; [done|]. left. by rewrite E2, E1. }
  assert (quiet (w, []) s2) as [Ew Es] by (by etrans). cbn [fst snd] in Ew, Es. change (significant []) with (@nil OpAct) in Es.
  apply wp_bind, wp_remote. rewrite Ew.
  intros w1 [configs|?] El;
    [|apply wp_stop; left; split; [done|]; eexists; split; [done|]; right; exists m; split_and!; [done|by eexists|left; by eexists]].
  apply wp_bind, wp_lift;
    [|intros e' He'; apply wp_stop; left; split; [done|]; eexists; split; [done|]; right; exists m;
      split_and!; [done|by eexists|right; exists configs, e'; auto]].
  intros o Ho.
  apply wp_bind, wp_lift;
    [|intros e' He'; apply wp_stop; left; split; [done|]; eexists; split; [done|]; right; exists m;
      split_and!; [done|by eexists|right; exists configs, e'; auto]].
  intros raw Hr. cbv zeta.
  apply (wp_mono _ (followed im m raw w1 (decide_pass im (ContainsFinalizer (Im_Finalizers im) finalizerName) o
           (negb (bytes_equal (Some (Digest raw)) (lastChecksum o)))))).
  2: { intros s' r' Hf. right. exists m, raw, w1, configs, o. by split_and!. }
  assert (carried im m raw w1 [] (w1, s2.2)) as Hc
    by (unfold carried, attempted; cbn [fst snd]; rewrite Es; by repeat split; constructor).
  destruct (Im_DeletionTimestamp im) as [t|] eqn:Ed.
  - apply reconcile_deleted_spec; [by rewrite Ed|done].
  - unfold decide_pass. rewrite bool_decide_eq_true_2 by done. apply wp_bind. destruct (ContainsFinalizer _ _).
    + apply wp_ret. by apply (reconcile_live_spec im m raw w1 Hr im []).
    + unfold update. apply wp_bind, wp_bind, wp_write.
      destruct (Write_err _) as [e'|].
      * apply wp_stop. exists [AddFinalizer_]. split; [by apply prefix_app_r|]. split; [|done].
        by apply (carried_attempt im m raw w1 [] (w1, s2.2)).
      * apply wp_ret, wp_ret. apply (reconcile_live_spec im m raw w1 Hr _ [AddFinalizer_]); [done..|].
        by apply (carried_act im m raw w1 [] (w1, s2.2)).
Qed.

(** C9: A pass of the controller does what the decision table says.  Either
    it ends before it decides, having neither changed the finalizer nor
    written to the manager, for one of the reasons of [undecided]: the
    manifest cannot be gathered because objects the resource refers to are
    missing or invalid (the only case that may end without an error), or it
    reports an error because the manager could not be asked, or its answer or
    the manifest could not be converted.  Or, for the manifest it gathered, the
    configurations it listed and the checksum it compared, the significant acts
    are the decisions of [decide_pass] in order, each with its arguments (the
    name and YAML of the manifest, the resource with the finalizer added or
    removed), and lead the manager from the state after the listing to its
    final state; when it ends without an error it took every decision
    successfully, when it ends with an error a first part of them. *)
Theorem reconcile_follows_decision (im : Resource) (w w' : World T) (acts : list OpAct) (r : () + Finish) :
  Reconcile Digest now (digest := digest) (Got im) (w, []) = Ret ((w', acts), r) →
  (significant acts = [] ∧ ∃ f, r = inr f ∧ undecided im w w' f) ∨
  ∃ m raw w1 configs o,
    gathered im m ∧ Marshal m = Ret raw ∧ Client_ListConfigs w = Ret (w1, inl configs) ∧
    observe (GetNamespacedNameDashed im) configs = Ret o ∧
    followed im m raw w1
      (decide_pass im (ContainsFinalizer (Im_Finalizers im) finalizerName) o
         (negb (bytes_equal (Some (Digest raw)) (lastChecksum o)))) (w', acts) r.
Proof. intros E. exact (reconcile_spec im w (w', acts) r E). Qed.

End refinement.

(** ** The resource and the configuration together *)

Lemma observe_none `{Codec} `{RangeOrder} {T} `{!Store T} `{!Crud T} name (w w1 : World T) configs o :
  Client_ListConfigs w = Ret (w1, inl configs) → observe name configs = Ret o → alreadyExists o = false →
  keyed (store w1) → contents (store w1) !! name = None.
Proof.
  intros El Ho Ha Hk. apply call_reading in El. unfold ListConfigs_ in El.
  destruct (ListConfigs (store w1) []) as [cfgs|?] eqn:E; [|done].
  destruct (convert_all ConvertToGRPC cfgs) as [cs|?|?] eqn:Ec; [|done..]. injection El as ->.
  destruct (contents (store w1) !! name) as [c|] eqn:Hc; [|done]. exfalso. pose proof (Hk name c Hc) as Hn.
  assert (c ∈ cfgs) as Hin by (apply (ListConfigs_ok _ _ _ E); split; [by rewrite Hn|by left]).
  assert (∃ g, g ∈ configs ∧ Config_Name g = name) as (g & Hg & Hgn).
  { clear -Hin Ec Hn. revert configs Ec. induction cfgs as [|d cfgs IH]; intros configs Ec; [by apply not_elem_of_nil in Hin|].
    cbn [convert_all] in Ec. destruct (ConvertToGRPC d) as [y|?|?] eqn:Ey; cbn [bindO] in Ec; [|done..].
    destruct (convert_all _ cfgs) as [ys|?|?]; cbn [bindO] in Ec; [|done..]. injection Ec as <-.
    apply elem_of_cons in Hin as [->|Hin].
    - exists y. split; [by left|]. unfold ConvertToGRPC in Ey. destruct (convert_map _ _ _); cbn [bindO] in Ey; [|done..].
      by injection Ey as <-.
    - destruct (IH Hin ys eq_refl) as (g & ? & ?). exists g. split; [by right|done]. }
  unfold observe in Ho. destruct (find_first _ configs) as [g'|] eqn:Ef.
  - unfold observe_config in Ho. destruct (convert_map _ _ _); cbn [bindO] in Ho; [|done..]. by injection Ho as <-.
  - rewrite find_first_None in Ef. apply Ef in Hg. by apply bool_decide_eq_false in Hg.
Qed.

(** The object the API server keeps: a successful update replaces it, an
    object that is being deleted is gone with its last finalizer; the status
    is written on its own. *)
Definition stored_act (obj : option Resource) (a : OpAct) : option Resource :=
  match a with
  | Update im None =>
      if bool_decide (Im_Finalizers im = []) && bool_decide (Im_DeletionTimestamp im ≠ None) then None else Some im
  | StatusUpdate im None => (λ o, set_Status o (Im_Status im)) <$> obj
  | _ => obj
  end.

Definition stored (acts : list OpAct) (obj : option Resource) : option Resource := foldl stored_act obj acts.

Section system.
Context `{Codec} `{RangeOrder} `{Yaml} (Digest : string → string) {T : Type} `{!Store T} `{!Crud T} {digest : string}
  `{!Marking T digest}.
Context `{OperatorEnvs} `{YamlOut} `{ProviderValidator} `{Finalizers} (name : string).

Definition holds_finalizer (obj : option Resource) : Prop :=
  ∃ im, obj = Some im ∧ finalizerName ∈ Im_Finalizers im.

(** Users and the API server: an object under the finalizer stays and keeps
    it; any other object may be created, changed and removed, but there is
    one object only for the name of the configuration. *)
Definition others_object (obj obj' : option Resource) : Prop :=
  (holds_finalizer obj → holds_finalizer obj') ∧ ∀ im, obj' = Some im → GetNamespacedNameDashed im = name.

(** The manager and its other clients create no configuration of the name. *)
Definition others_store (f : T → T) : Prop :=
  (∀ s, keyed s → keyed (f s)) ∧ (∀ s, absent name s → absent name (f s)).

Definition others_event (e : event T) : Prop := match e with Changed f => others_store f | _ => True end.

(** A pass runs with any answers of the API server and any interference. *)
Inductive step : option Resource * T → option Resource * T → Prop :=
| step_pass (Kr : KubeReader) (Kw : KubeWriter) now im s es w' acts r :
    Forall others_event es →
    Reconcile Digest now (digest := digest) (Got im) (mkWorld s es, []) = Ret ((w', acts), r) →
    step (Some im, s) (stored acts (Some im), store w')
| step_object obj obj' s : others_object obj obj' → step (obj, s) (obj', s)
| step_store obj f s : others_store f → step (obj, s) (obj, f s).

(** A configuration is owned by an object that cannot disappear. *)
Definition owned (x : option Resource * T) : Prop :=
  keyed x.2 ∧ (∀ im, x.1 = Some im → GetNamespacedNameDashed im = name) ∧
  (is_Some (contents x.2 !! name) → holds_finalizer x.1).

Lemma events_keep es : Forall others_event es → Forall (keeping keyed) es ∧ Forall (keeping (absent name)) es.
Proof. intros He. split; eapply Forall_impl; try exact He; intros [f| |]; simpl; try done; by intros [??]. Qed.

Lemma stored_snoc acts a obj : stored (acts ++ [a]) obj = stored_act (stored acts obj) a.
Proof. unfold stored. by rewrite foldl_app. Qed.

(** Updates that keep or add the finalizer. *)
Lemma stored_holds acts obj :
  (∀ im, Update im None ∈ acts → finalizerName ∈ Im_Finalizers im) →
  holds_finalizer obj ∨ (∃ im, Update im None ∈ acts) → holds_finalizer (stored acts obj).
Proof.
  induction acts as [|a acts IH] using rev_ind; intros Hu Hh.
  { destruct Hh as [?|[im Hi]]; [done|by apply not_elem_of_nil in Hi]. }
  rewrite stored_snoc. setoid_rewrite elem_of_app in Hu. setoid_rewrite list_elem_of_singleton in Hu.
  assert ((∀ im, a ≠ Update im None) → holds_finalizer (stored acts obj)) as Hrest.
  { intros Hne. apply IH; [naive_solver|]. destruct Hh as [?|[im Hi]]; [by left|right].
    apply elem_of_app in Hi as [Hi|Hi%list_elem_of_singleton]; [by exists im|]. by destruct (Hne im). }
  destruct a as [ | | |im [e|]|im [e|]| | ]; cbn [stored_act]; try (apply Hrest; naive_solver).
  - rewrite bool_decide_eq_false_2; [exists im; naive_solver|]. intros E. specialize (Hu im ltac:(by right)).
    rewrite E in Hu. by apply not_elem_of_nil in Hu.
  - destruct Hrest as (im0 & -> & Hf); [done|]. by eexists.
Qed.

Lemma stored_name acts obj im :
  (∀ im, Update im None ∈ acts → GetNamespacedNameDashed im = name) →
  (∀ im, obj = Some im → GetNamespacedNameDashed im = name) →
  stored acts obj = Some im → GetNamespacedNameDashed im = name.
Proof.
  revert im. induction acts as [|a acts IH] using rev_ind; intros im Hu Hn; [apply Hn|].
  rewrite stored_snoc. setoid_rewrite elem_of_app in Hu. setoid_rewrite list_elem_of_singleton in Hu.
  destruct a as [ | | |im' [e|]|im' [e|]| | ]; cbn [stored_act]; try (apply IH; naive_solver).
  - destruct (_ && _); [done|]. intros [= <-]. naive_solver.
  - destruct (stored acts obj) as [o|] eqn:E; [|done]. simpl. intros [= <-].
    change (GetNamespacedNameDashed o = name). apply IH; [naive_solver|done|done].
Qed.

Lemma significant_elem a acts : harmless a = false → a ∈ acts → a ∈ significant acts.
Proof. intros Ha Hin. apply list_elem_of_filter. by split. Qed.

Lemma gathered_name `{KubeReader} im m : gathered im m → M_Name m = GetNamespacedNameDashed im.
Proof.
  intros (f & nodes & _ & _ & _ & _ & _ & Hm & _). unfold constructInputManifest in Hm. bind_inv Hm. by subst m.
Qed.

Lemma carried_update im m raw taken acts i e :
  Forall2 (carries im m raw) taken acts → Update i e ∈ acts →
  (AddFinalizer_ ∈ taken ∧ i = set_Finalizers im (AddFinalizer (Im_Finalizers im) finalizerName)) ∨
  (RemoveFinalizer_ ∈ taken ∧ i = set_Finalizers im (RemoveFinalizer (Im_Finalizers im) finalizerName)).
Proof.
  induction 1 as [|d a taken acts Hd _ IH]; [by intros Hi%not_elem_of_nil|].
  intros [<-|Hi]%elem_of_cons; [destruct d; simpl in Hd; try done; [left|right]; (split; [by left|done])|].
  destruct (IH Hi) as [[? ?]|[? ?]]; [left|right]; (split; [by right|done]).
Qed.

Definition is_upsert (a : OpAct) : bool := match a with CallUpsert _ _ _ _ => true | _ => false end.

Lemma carried_upsert im m raw taken acts :
  Forall2 (carries im m raw) taken acts → Upsert_ ∈ taken ∨ Forall (λ a, is_upsert a = false) acts.
Proof.
  induction 1 as [|d a taken acts Hd _ [IH|IH]]; [by right|left; by right|].
  destruct d, a; simpl in Hd; try done; try (right; by constructor). left. by left.
Qed.

Lemma reached_keyed now w acts w' : reached Digest now (digest := digest) w acts w' → kept keyed w → kept keyed w'.
Proof.
  revert w. induction acts as [|a acts IH]; intros w; simpl; [by intros ->|]. destruct a; try apply IH.
  - intros (w1 & E & Hr) Hk. apply (IH w1 Hr). by eapply create_keeps_keyed.
  - intros (w1 & E & Hr) Hk. apply (IH w1 Hr). eapply delete_keeps; [|exact E|done].
    intros s s' v r Em Hks. by apply (MarkForDeletion_handler_dom _ _ _ _ _ Em).
Qed.

(** Only an upsert creates the configuration. *)
Lemma reached_absent now w acts w' :
  reached Digest now (digest := digest) w acts w' → Forall (λ a, is_upsert a = false) acts →
  kept (absent name) w → kept (absent name) w'.
Proof.
  revert w. induction acts as [|a acts IH]; intros w; simpl; [by intros ->|].
  intros Hr [Ha Hacts]%Forall_cons. destruct a; try done; try by apply (IH w Hr).
  destruct Hr as (w1 & E & Hr). intros Hk. apply (IH w1 Hr Hacts). eapply delete_keeps; [|exact E|done].
  intros s s' v r Em [Hks Hn]. apply MarkForDeletion_handler_dom in Em as [Hks' Hd]; [|done]. split; [done|by apply Hd].
Qed.

Lemma decide_remove im fin o u :
  RemoveFinalizer_ ∈ decide_pass im fin o u → decide_pass im fin o u = [RemoveFinalizer_] ∧ alreadyExists o = false.
Proof.
  unfold decide_pass. case_bool_decide; [|destruct (alreadyExists o); simpl; [destruct (fin && _)|done]; set_solver].
  destruct fin, (alreadyExists o), (bool_decide _), u; simpl; set_solver.
Qed.

Lemma decide_upsert im fin o u :
  Upsert_ ∈ decide_pass im fin o u → fin = true ∨ ∃ rest, decide_pass im fin o u = AddFinalizer_ :: rest.
Proof.
  unfold decide_pass. case_bool_decide; [destruct fin; [by left|right; by eexists]|].
  destruct (alreadyExists o); simpl; [destruct (fin && _)|]; set_solver.
Qed.

(** What the decisions leave is owned if it was at the listing. *)
Lemma decided_owned `{KubeReader} now im m raw (w w1 : World T) configs o u taken (w' : World T) acts :
  GetNamespacedNameDashed im = name → Client_ListConfigs w = Ret (w1, inl configs) → observe name configs = Ret o →
  taken `prefix_of` decide_pass im (ContainsFinalizer (Im_Finalizers im) finalizerName) o u →
  attempted Digest now (digest := digest) im m raw w1 taken (w', acts) →
  kept keyed w1 → Forall (keeping (absent name)) (events w1) →
  (is_Some (contents (store w1) !! name) → holds_finalizer (Some im)) →
  owned (stored acts (Some im), store w').
Proof.
  intros Hname El Ho Hp (Hc & Hr & Hok) Hkw1 Hev1 Hown1. unfold owned. cbn [fst snd] in *.
  assert (∀ i e, Update i e ∈ acts → Update i e ∈ significant acts) as Hsig by (intros i e; by apply significant_elem).
  split_and!.
  + by apply (reached_keyed _ _ _ _ Hr).
  + intros im' Hi. apply (stored_name acts (Some im) im'); [|naive_solver|done].
    intros i Hi'. apply Hsig in Hi'. by apply (carried_update _ _ _ _ _ _ _ Hc) in Hi' as [[_ ->]|[_ ->]].
  + intros Hcon.
    destruct (decide (RemoveFinalizer_ ∈ taken)) as [Hrem|Hnrem].
    { exfalso. apply (elem_of_prefix _ _ _ Hrem) in Hp as Hrem'. apply decide_remove in Hrem' as [Eds Hex].
      rewrite Eds in Hp. assert (contents (store w1) !! name = None) as Hn.
      { eapply observe_none; [exact El|exact Ho|done|apply Hkw1]. }
      destruct (carried_upsert _ _ _ _ _ Hc) as [Hup|Hnup].
      - apply (elem_of_prefix _ _ _ Hup) in Hp. by apply list_elem_of_singleton in Hp.
      - assert (kept (absent name) w1) as Hka by (split; [split; [apply Hkw1|done]|done]).
        apply (reached_absent _ _ _ _ Hr Hnup) in Hka as [[_ Hn'] _]. destruct Hcon. congruence. }
    apply stored_holds.
    { intros i Hi. apply Hsig in Hi. apply (carried_update _ _ _ _ _ _ _ Hc) in Hi as [[_ ->]|[? _]]; [|done].
      simpl. apply AddFinalizer_spec. by left. }
    destruct (carried_upsert _ _ _ _ _ Hc) as [Hup|Hnup].
    * apply (elem_of_prefix _ _ _ Hup) in Hp as Hup'. apply decide_upsert in Hup' as [Hfin|[rest Eds]].
      { left. exists im. split; [done|]. by apply ContainsFinalizer_spec. }
      right. rewrite Eds in Hp. destruct taken as [|d taken]; [by apply not_elem_of_nil in Hup|].
      apply prefix_cons_inv_1 in Hp as Hd. subst d. apply elem_of_cons in Hup as [?|Hup]; [done|].
      apply Forall2_cons_inv_l in Hc as (a & sig & Ha & Hc & Es).
      rewrite Es in Hok. destruct a as [ | | |i e| | | ]; simpl in Ha; try done. exists i.
      destruct sig as [|a' sig]; [apply Forall2_nil_inv_r in Hc; subst; by apply not_elem_of_nil in Hup|].
      cbn [removelast] in Hok. apply Forall_cons in Hok as [Hok _]. simpl in Hok.
      apply bool_decide_eq_false, dec_stable in Hok as ->.
      assert (Update i None ∈ significant acts) as Hin by (rewrite Es; by left). by apply list_elem_of_filter in Hin as [_ ?].
    * left. apply Hown1. destruct (contents (store w1) !! name) eqn:Hn; [by eexists|].
      assert (kept (absent name) w1) as Hka by (split; [split; [apply Hkw1|done]|done]).
      apply (reached_absent _ _ _ _ Hr Hnup) in Hka as [[_ Hn'] _]. destruct Hcon. congruence.
Qed.

Lemma step_owned x y : step x y → owned x → owned y.
Proof.
  intros Hstep. destruct Hstep as [Kr Kw now im s es w' acts r He E|obj obj' s Ho|obj f s [Hk Ha]];
    intros (Hkey & Hname & Hown); unfold owned; cbn [fst snd] in *.
  2: { split; [done|]. split; [apply Ho|]. intros Hc. apply Ho. by apply Hown. }
  2: { split; [by apply Hk|]. split; [done|]. intros [c Hc]. apply Hown. destruct (contents s !! name) eqn:En; [by eexists|].
       destruct (Ha s (conj Hkey En)) as [_ ?]. congruence. }
  apply events_keep in He as [He1 He2]. specialize (Hname im eq_refl).
  assert (kept keyed (mkWorld s es)) as Hkw by done.
  assert (∀ w1 x, Client_ListConfigs (mkWorld s es) = Ret (w1, x) →
            kept keyed w1 ∧ Forall (keeping (absent name)) (events w1) ∧
            (is_Some (contents (store w1) !! name) → holds_finalizer (Some im))) as Hlist.
  { intros w1 x El. split; [by apply (ListConfigs_keeps keyed _ _ _ El)|].
    destruct (decide (is_Some (contents s !! name))) as [Hs|Hs].
    - split; [|by intros _; apply Hown].
      revert El. unfold Client_ListConfigs, call. cbn [events store]. clear -He2.
      destruct es as [|[f| |] es]; try (apply Forall_cons in He2 as [_ He2]); unfold reading;
        match goal with |- context [ListConfigs_ ?s] => destruct (ListConfigs_ s) | _ => idtac end; cbn [bindO];
        intros; simplify_eq; done.
    - apply eq_None_not_Some in Hs.
      apply (ListConfigs_keeps (absent name)) in El as [[_ Hn] Hev]; [|done]. split; [done|]. rewrite Hn. by intros []. }
  destruct (reconcile_spec Digest now im (mkWorld s es) (w', acts) r E) as [(Hsig & f & _ & Hw%undecided_world)|Hdec]; cbn [fst snd] in *.
  - assert (∀ im, Update im None ∉ acts) as Hnu.
    { intros i Hi. apply significant_elem in Hi; [|done]. rewrite Hsig in Hi. by apply not_elem_of_nil in Hi. }
    split_and!.
    + destruct Hw as [->|[x El]]; [done|]. by apply Hlist in El as [[? _] _].
    + intros im' Hi. apply (stored_name acts (Some im) im'); [|naive_solver|done]. intros i Hi'. by apply Hnu in Hi'.
    + intros Hc. apply stored_holds; [intros i Hi'; by apply Hnu in Hi'|]. left. destruct Hw as [->|[x El]]; [by apply Hown|].
      destruct (Hlist _ _ El) as (_ & _ & Hl). by apply Hl.
  - destruct Hdec as (m & raw & w1 & configs & o & _ & _ & El & Ho & taken & Hp & Ha & _).
    destruct (Hlist _ _ El) as (Hkw1 & Hev1 & Hown1). rewrite Hname in Ho. by eapply decided_owned.
Qed.

(** C2: No infrastructure is orphaned. Starting without a configuration of the
    resource's name, whatever passes run, with any answers and failures of the
    API server, of the connection to the manager and of its database: as long
    as the manager has a configuration of the name, the resource exists and
    carries the finalizer, so that the API server cannot remove it.  Users and
    the manager may interfere between and during the passes as [others_object]
    and [others_store] say: nobody takes the finalizer off by hand, one object
    only has the name (dashed names can collide, [Crd.dashed_names_collide]),
    and no other client creates a configuration of the name. *)
Theorem configuration_keeps_its_resource (obj obj' : option Resource) (s s' : T) :
  keyed s → contents s !! name = None → (∀ im, obj = Some im → GetNamespacedNameDashed im = name) →
  rtc step (obj, s) (obj', s') →
  is_Some (contents s' !! name) → ∃ im, obj' = Some im ∧ GetNamespacedNameDashed im = name ∧ finalizerName ∈ Im_Finalizers im.
Proof.
  intros Hk Hn Hname Hsteps Hs.
  assert (owned (obj, s)) as Ho by (split; [done|]; split; [done|]; simpl; rewrite Hn; by intros []).
  assert (owned (obj', s')) as (_ & Hname' & Hf).
  { revert Ho. clear -Hsteps. induction Hsteps as [|x y z Hxy _ IH]; [done|]. intros Hx. by apply IH, (step_owned x y). }
  destruct (Hf Hs) as (im & Ei & Him). exists im. split; [done|]. split; [by apply Hname'|done].
Qed.

End system.

(** ** What the manager is sent *)

Section sent.
Context `{Codec} `{RangeOrder} `{Yaml} (Digest : string → string) {T : Type} `{!Store T} `{!Crud T} {digest : string}
  `{!Marking T digest}.
Context `{KubeReader} `{KubeWriter} `{OperatorEnvs} `{YamlOut} `{ProviderValidator} `{Finalizers} `{Validator}.

Lemma fetch_provider_spec v e f :
  fetch_provider v e = Ret f → F_missingTemplates f = [] →
  F_missingTemplates v = [] ∧ ∃ d, F_providers f = F_providers v ++ [d] ∧ fetched e.2 d.
Proof.
  destruct e as [i p], v as [ps ms mt ma]. unfold fetch_provider. intros E. bind_inv E. destruct x as [secret ms'].
  destruct (Get_Templates _ _) as [t| |]; [|injection E as <-; simpl; by intros [? ?]%app_eq_nil|done].
  destruct (Tgr_AuthSecret t) as [k|]; [destruct (Get_Secret [1; i] k) as [auth| |]; [|..|done]|];
    injection E as <-; simpl; intros ->; (split; [done|]); eexists; by split.
Qed.

Lemma fetch_loop l v f :
  for_each fetch_provider v l = Ret f → F_missingTemplates f = [] →
  F_missingTemplates v = [] ∧ ∃ ds, F_providers f = F_providers v ++ ds ∧ Forall2 fetched l.*2 ds.
Proof.
  revert v. induction l as [|e l IH]; intros v E Hf; simpl in E.
  { injection E as <-. split; [done|]. exists []. by rewrite app_nil_r. }
  destruct (fetch_provider v e) as [v1|?|?] eqn:Ev; cbn [bindO] in E; [|done..].
  destruct (IH v1 E Hf) as [Hv1 (ds & Hds & HF)]. apply fetch_provider_spec in Ev as [Hv (d & Hd & He)]; [|done].
  split; [done|]. exists (d :: ds). rewrite Hds, Hd, <- app_assoc. split; [done|]. by constructor.
Qed.

Lemma imap_pair_snd {A} (l : list A) : (imap pair l).*2 = l.
Proof. rewrite fmap_imap. change (imap (const (λ x : A, x)) l = l). rewrite imap_const. apply list_fmap_id. Qed.

Lemma fetch_pools l acc nodes :
  for_each fetch_pool acc l = Ret nodes →
  ∀ k, is_Some (nodes !! k) ↔ is_Some (acc !! k) ∨ k ∈ CSP_Name <$> l.*2.
Proof.
  revert acc. induction l as [|[i p] l IH]; intros acc E k; simpl in E.
  { injection E as <-. simpl. rewrite elem_of_nil. tauto. }
  destruct (for_each (fetch_node i) _ _) as [ns|?|?]; cbn [bindO] in E; [|done..]. rewrite (IH _ E k). csimpl.
  rewrite elem_of_cons. destruct (decide (CSP_Name p = k)) as [<-|Hne].
  - rewrite lookup_insert_eq. split; [tauto|intros _; left; by eexists].
  - rewrite lookup_insert_ne by done. naive_solver.
Qed.

Lemma gathered_valid im m : validateInputManifest im = Ret () → gathered im m → plan_valid m.
Proof.
  intros Hv (f & nodes & Hf & _ & Hmt & _ & Hs & Hm & _).
  apply fetch_loop in Hf as [_ (ds & Hds & HF)]; [|done]. rewrite imap_pair_snd in HF. simpl in Hds. rewrite <- Hds in HF.
  eapply construct_admitted; [exact Hv|exact HF| |exact Hm].
  intros k. rewrite (fetch_pools _ _ _ Hs k), lookup_empty, imap_pair_snd. split; [intros [[? ?]|?]; done|by right].
Qed.

Lemma Providers_Validate_unique ps : Providers_Validate ps = Ret () → NoDup (any_name <$> all_providers ps).
Proof.
  unfold Providers_Validate. intros E. bind_inv E.
  refine (proj1 (for_each_unique validate_provider_entry any_name ∅ _ _ _ Hx)).
  intros s c s' Hb. unfold validate_provider_entry in Hb. accepted Hb. done.
Qed.

(** C12: Whatever the controller sends to the manager for a resource the
    webhook admitted is the YAML of a manifest of the resource's name on which
    the manager's checks of the dynamic pools (with the checks of spot
    instances and GPUs), of the clusters (with the reuse of static pools), and
    of the roles and load balancers (with those of the API server's load
    balancer) succeed; provider names and pool names are unique.  The webhook
    validates a manifest without credentials and static nodes, the controller
    builds the full one from objects it fetched; checks on what the webhook
    does not see (addresses of static nodes, struct tags, lengths of domains)
    may still fail, see [Crd.shared_endpoint_admitted]. *)
Theorem sent_manifests_are_valid (now : Z) (im : Resource) (w w' : World T) (acts : list OpAct) (r : () + Finish)
    (name raw : string) (ctx : KubernetesContext) (err : option client_err) :
  validateInputManifest im = Ret () →
  Reconcile Digest now (digest := digest) (Got im) (w, []) = Ret ((w', acts), r) →
  CallUpsert name raw ctx err ∈ acts →
  name = GetNamespacedNameDashed im ∧
  ∃ m, Marshal m = Ret raw ∧ M_Name m = name ∧ plan_valid m ∧ NoDup (any_name <$> all_providers (M_Providers m)).
Proof.
  intros Hv E Hin. apply significant_elem in Hin; [|done].
  destruct (reconcile_spec Digest now im w (w', acts) r E) as [[Hsig _]|Hdec]; cbn [fst snd] in *.
  { rewrite Hsig in Hin. by apply not_elem_of_nil in Hin. }
  destruct Hdec as (m & raw' & w1 & configs & o & Hg & Hraw & _ & _ & taken & _ & (Hc & _) & _). cbn [fst snd] in Hc.
  assert (name = M_Name m ∧ raw = raw') as [-> ->].
  { clear -Hc Hin. induction Hc as [|d a taken sig Hd _ IH]; [by apply not_elem_of_nil in Hin|].
    apply elem_of_cons in Hin as [<-|Hin]; [|by apply IH]. destruct d; simpl in Hd; naive_solver. }
  pose proof (gathered_name im m Hg) as Hname. split; [done|]. exists m. split_and!; try done.
  - by apply gathered_valid with im.
  - destruct Hg as (? & ? & _ & _ & _ & _ & _ & _ & Hpv). by apply Providers_Validate_unique.
Qed.

(** C20: A deletion reaches the manager. When a pass for a resource that is
    being deleted under its finalizer ends without error, the objects it
    refers to are there, and the manager listed a configuration of its name
    that is not yet marked and has a built cluster, then afterwards the
    configuration is marked for deletion or gone, whatever other clients did
    during the pass. *)
Theorem deletion_is_requested (now : Z) (im : Resource) (m : InputManifest) (w w' w1 : World T) (acts : list OpAct)
    (after : option Z) (configs : list Config) (o : Observed) :
  Im_DeletionTimestamp im ≠ None → finalizerName ∈ Im_Finalizers im → gathered im m →
  Reconcile Digest now (digest := digest) (Got im) (w, []) = Ret ((w', acts), inr (mkFinish after None)) →
  Client_ListConfigs w = Ret (w1, inl configs) → observe (GetNamespacedNameDashed im) configs = Ret o →
  alreadyExists o = true → markedForDeletion o = false → deleted o = false →
  deletion_requested (GetNamespacedNameDashed im) (store w').
Proof.
  intros Hd Hf Hgm E El Ho Hex Hma Hde.
  destruct (reconcile_spec Digest now im w (w', acts) _ E) as [(_ & f & [= <-] & Hno)|Hdec];
    [by destruct (undecided_silent _ _ _ _ _ Hno ltac:(eassumption))|].
  destruct Hdec as (m' & raw & w2 & configs' & o' & Hg & _ & El' & Ho' & taken & _ & _ & Hfin).
  rewrite El in El'. injection El' as <- <-. rewrite Ho in Ho'. injection Ho' as <-.
  destruct (Hfin eq_refl) as [_ [(Hc & Hr & _) Hok]]. cbn [fst snd] in *.
  unfold decide_pass in Hc. rewrite bool_decide_eq_false_2, Hex, Hma, Hde in Hc by done. cbn [negb] in Hc.
  rewrite (proj2 (ContainsFinalizer_spec _ _) Hf) in Hc. cbn [andb orb negb] in Hc.
  apply Forall2_cons_inv_l in Hc as (a & sig & Ha & Hc & Es). apply Forall2_nil_inv_l in Hc as ->.
  rewrite Es in Hr, Hok. destruct a as [ | | | | | |n e]; simpl in Ha; try done. subst n.
  rewrite (gathered_name im m' Hg) in Hr. destruct Hr as (w3 & Em & ->). apply Forall_cons in Hok as [Hok _].
  destruct e as [e|]; [done|]. by apply DeleteConfig_safe in Em.
Qed.

End sent.

(** *** Instances *)

Definition sample_writer : KubeWriter := {| Write_err _ := None |}.
Definition sample_marshal : YamlOut := {| Marshal _ := Ret "raw" |}.
Definition sample_provider_validator : ProviderValidator := {| Struct_Provider _ := None |}.

Definition list_finalizers : Finalizers.
Proof.
  refine {| ContainsFinalizer l f := contains l f;
            AddFinalizer l f := if contains l f then l else l ++ [f];
            RemoveFinalizer l f := filter (λ g, g ≠ f) l |}.
  - intros l f. apply contains_spec.
  - intros l f g. destruct (contains l f) eqn:E; [apply contains_spec in E; split; [by right|by intros [->|?]]|].
    rewrite elem_of_app, list_elem_of_singleton. tauto.
  - intros l f g. rewrite list_elem_of_filter. done.
Defined.

#[local] Existing Instance sample_writer.
#[local] Existing Instance sample_marshal.
#[local] Existing Instance sample_provider_validator.
#[local] Existing Instance list_finalizers.
#[local] Existing Instance sample_reader.
#[local] Existing Instance sample_envs.
#[local] Existing Instance one_manifest.

Definition sample_pass (im : Resource) (s : gmap string DbConfig) : outcome (@st (gmap string DbConfig) * (() + Finish)) :=
  Reconcile id 5 (digest := "d") (Got im) (mkWorld s [], []).

(** A new resource: the finalizer is added, then the manifest is sent. *)
Definition new_resource : Resource := sample_resource "claudie" "m" [] None sample_pools ["2.2.2.1"].

Definition sends (name raw : string) (a : OpAct) : bool :=
  match a with CallUpsert n r c None => bool_decide (n = name) && bool_decide (r = raw) | _ => false end.

Lemma reconcile_follows_decision_witness :
  ∃ w' acts r, sample_pass new_resource ∅ = Ret ((w', acts), r) ∧ length (significant acts) = 2 ∧
    pass_outcome (digest := "d") id 5 new_resource (mkWorld ∅ []) (w', acts) r.
Proof.
  assert (Hc : match sample_pass new_resource ∅ with
               | Ret ((_, acts), _) => bool_decide (length (significant acts) = 2) | _ => false end = true)
    by (vm_compute; reflexivity).
  destruct (sample_pass new_resource ∅) as [[[w' acts] r]|?|?] eqn:E; [|discriminate Hc..].
  exists w', acts, r. split; [reflexivity|]. split; [by apply bool_decide_eq_true in Hc|].
  exact (reconcile_follows_decision (digest := "d") id 5 new_resource (mkWorld ∅ []) w' acts r E).
Defined.

Lemma configuration_keeps_its_resource_witness :
  ∃ im (s : gmap string DbConfig), is_Some (s !! "claudie-m") ∧ finalizerName ∈ Im_Finalizers im.
Proof.
  assert (Hc : match sample_pass new_resource ∅ with
               | Ret ((w', acts), _) => bool_decide (is_Some (store w' !! "claudie-m")) | _ => false end = true)
    by (vm_compute; reflexivity).
  destruct (sample_pass new_resource ∅) as [[[w' acts] r]|?|?] eqn:E; [|discriminate Hc..].
  apply bool_decide_eq_true in Hc.
  destruct (configuration_keeps_its_resource (T := gmap string DbConfig) (digest := "d") id "claudie-m" (Some new_resource)
    (stored acts (Some new_resource)) ∅ (store w')) as (im & _ & _ & Him).
  - intros n c Hn. discriminate Hn.
  - reflexivity.
  - intros im [= <-]. reflexivity.
  - apply rtc_once. exact (step_pass (digest := "d") id "claudie-m" sample_reader sample_writer 5 new_resource ∅ [] w' acts r
      (Forall_nil_2 _) E).
  - exact Hc.
  - exists im, (store w'). split; [exact Hc|exact Him].
Defined.

Lemma sent_manifests_are_valid_witness :
  ∃ m, M_Name m = "claudie-m" ∧ plan_valid m.
Proof.
  assert (Hc : match sample_pass new_resource ∅ with
               | Ret ((_, acts), _) => existsb (sends "claudie-m" "raw") acts | _ => false end = true)
    by (vm_compute; reflexivity).
  destruct (sample_pass new_resource ∅) as [[[w' acts] r]|?|?] eqn:E; [|discriminate Hc..].
  apply existsb_exists in Hc as (a & Hin%list_elem_of_In & Ha). destruct a as [ | | | | |n rw ctx [e|]| ]; try discriminate Ha.
  destruct (sent_manifests_are_valid (digest := "d") id 5 new_resource (mkWorld ∅ []) w' acts r n rw ctx None) as [Hn (m & _ & Hm & Hv & _)].
  - vm_compute. reflexivity.
  - exact E.
  - exact Hin.
  - exists m. split; [|exact Hv]. rewrite Hm, Hn. reflexivity.
Defined.

(** The configuration of a resource, with one running cluster. *)
Definition built_config : DbConfig :=
  mkDbConfig 4 "claudie-m" (mkKubernetesContext "m" "claudie") (mkDbManifest "raw" (Some "raw") (Some "raw") "Done" "")
    {["prod" := running]}.

Definition deleted_resource (endpoints : list string) : Resource :=
  sample_resource "claudie" "m" [finalizerName] (Some 7%Z) sample_pools endpoints.

(** The manifest a pass would gather, when the objects are there. *)
Definition gather_manifest (im : Resource) : option InputManifest :=
  match fetch_providers im, fetch_static im with
  | Ret (mkFetch ps [] [] []), Ret nodes =>
      match constructInputManifest im ps nodes with
      | Ret m => match Providers_Validate (M_Providers m) with Ret _ => Some m | _ => None end
      | _ => None
      end
  | _, _ => None
  end.

Lemma gather_manifest_gathered im m : gather_manifest im = Some m → gathered im m.
Proof.
  unfold gather_manifest. destruct (fetch_providers im) as [[ps [|? ?] [|? ?] [|? ?]]|?|?] eqn:Ef; try done.
  destruct (fetch_static im) as [nodes|?|?] eqn:Es; try done.
  destruct (constructInputManifest im ps nodes) as [m'|?|?] eqn:Em; try done.
  destruct (Providers_Validate _) as [[]|?|?] eqn:Ev; try done. intros [= <-]. eexists _, nodes. by split_and!.
Qed.

Definition sample_listing : outcome (World (gmap string DbConfig) * (list Config + client_err)) :=
  Client_ListConfigs (mkWorld {["claudie-m" := built_config]} []).

Lemma deletion_is_requested_witness :
  ∃ w' : World (gmap string DbConfig), deletion_requested "claudie-m" (store w').
Proof.
  pose (im := deleted_resource ["2.2.2.1"]).
  assert (Hc : match sample_pass im {["claudie-m" := built_config]} with
               | Ret (_, inr f) => bool_decide (Finish_err f = None) | _ => false end = true) by (vm_compute; reflexivity).
  destruct (sample_pass im {["claudie-m" := built_config]}) as [[[w' acts] [[]|[after err]]]|?|?] eqn:E; [discriminate Hc| |discriminate Hc..].
  apply bool_decide_eq_true in Hc. cbn in Hc. subst err.
  assert (Hl : match sample_listing with
               | Ret (_, inl configs) =>
                   match observe "claudie-m" configs with
                   | Ret o => alreadyExists o && negb (markedForDeletion o) && negb (deleted o)
                   | _ => false
                   end
               | _ => false
               end = true) by (vm_compute; reflexivity).
  destruct sample_listing as [[w1 [configs|?]]|?|?] eqn:El; [|discriminate Hl..].
  destruct (observe "claudie-m" configs) as [o|?|?] eqn:Eo; [|discriminate Hl..].
  apply andb_true_iff in Hl as [Hl Hd%negb_true_iff]. apply andb_true_iff in Hl as [He Hm%negb_true_iff].
  assert (Hg : match gather_manifest im with Some _ => true | None => false end = true) by (vm_compute; reflexivity).
  destruct (gather_manifest im) as [m|] eqn:Eg; [|discriminate Hg].
  exists w'. change "claudie-m" with (GetNamespacedNameDashed im).
  apply (deletion_is_requested (digest := "d") id 5 im m (mkWorld {["claudie-m" := built_config]} []) w' w1 acts after configs o).
  - discriminate.
  - left.
  - exact (gather_manifest_gathered im m Eg).
  - exact E.
  - exact El.
  - exact Eo.
  - exact He.
  - exact Hm.
  - exact Hd.
Defined.

(** A configuration without a built cluster counts as deleted: its deletion
    is not requested, however often the pass runs.  A resource that asks for
    no cluster, which the webhook admits, can never be removed. *)
Example unbuilt_configuration_stays :
  let im := mkResource "m" "claudie" [finalizerName] (Some 7%Z) [] [] [] [] [] [] (mkInputManifestStatus "" ∅) in
  let empty := mkDbConfig 0 "claudie-m" (mkKubernetesContext "m" "claudie") (mkDbManifest "raw" (Some "raw") None "Done" "") ∅ in
  validate im = Ret () ∧
  match sample_pass im {["claudie-m" := empty]} with
  | Ret ((w', acts), inr f) =>
      bool_decide (significant acts = []) && bool_decide (Finish_err f = None) && bool_decide (is_Some (store w' !! "claudie-m"))
  | _ => false
  end = true.
Proof. split; vm_compute; reflexivity. Qed.

End Operator.
