(* ===== verification/Services.v ===== *)
(** * Starting, stopping and probing a service

    What a service opens when it starts and closes when it stops
    (service.New and Stop of src/services/*/internal/.../service.go,
    natsutils.NewClientWithJetStream), its settings (internal/envs/envs.go) and
    the probe that tells for how long the services it depends on have been
    failing (internal/healthcheck/healthcheck.go).  What the operating system
    and the servers answer is the parameter [Host]. *)

From Stdlib Require Import Ascii.
From stdpp Require Import base gmap strings list.
From S2P Require Import Prelude Cidr.
Import Cidr.

Module Services.

(** ** internal/envs/envs.go *)

Definition GetOrDefault (LookupEnv : string → option string) (envKey defaultVal : string) : string :=
  match LookupEnv envKey with Some v => v | None => defaultVal end.

(** [strconv.ParseInt(v, 10, 64)] *)
Definition ParseInt (s : string) : option Z :=
  n ← (match s with
       | String "-" s => Z.opp <$> parse_dec s
       | String "+" s => parse_dec s
       | _ => parse_dec s
       end);
  if bool_decide (- 2 ^ 63 ≤ n < 2 ^ 63)%Z then Some n else None.

Definition GetOrDefaultInt (LookupEnv : string → option string) (key : string) (def : Z) : Z :=
  match LookupEnv key with
  | Some v => match ParseInt v with Some n => n | None => def end
  | None => def
  end.

(** ** Connections *)

Inductive resource := NatsConn | TcpListener | MongoConn.
#[export] Instance resource_eq_dec : EqDecision resource.
Proof. solve_decision. Defined.

Inductive op := Opened (r : resource) | Closed (r : resource).

(** The errors of opening a connection, of [jetstream.New], of creating the
    work queue and of creating the index of the collection. *)
Class Host := {
  open_err : resource → option string;
  jetstream_New : option string;
  JetStreamWorkQueue : option string;
  mongo_Init : option string }.

Section start.
Context `{Host}.

(** The error, and what was opened and closed. *)
Definition NewClientWithJetStream : list op * option string :=
  match open_err NatsConn with
  | Some e => ([], Some e)
  | None => ([Opened NatsConn], jetstream_New)
  end.

(** [New] of a worker *)
Definition New_worker : list op * option string :=
  match open_err TcpListener with
  | Some e => ([], Some e)
  | None =>
      let '(ops, err) := NewClientWithJetStream in
      match err with
      | Some e => (Opened TcpListener :: ops ++ [Closed TcpListener], Some e)
      | None => (Opened TcpListener :: ops, None)
      end
  end.

(** [New] of the manager *)
Definition New_manager : list op * option string :=
  let '(ops, err) := NewClientWithJetStream in
  match err with
  | Some e => (ops, Some e)
  | None =>
      match JetStreamWorkQueue with
      | Some e => (ops ++ [Closed NatsConn], Some e)
      | None =>
          match open_err TcpListener with
          | Some e => (ops ++ [Closed NatsConn], Some e)
          | None =>
              match open_err MongoConn with
              | Some e => (ops ++ [Opened TcpListener; Closed NatsConn; Closed TcpListener], Some e)
              | None =>
                  match mongo_Init with
                  | Some e => (ops ++ [Opened TcpListener; Opened MongoConn; Closed NatsConn; Closed TcpListener; Closed MongoConn], Some e)
                  | None => (ops ++ [Opened TcpListener; Opened MongoConn], None)
                  end
              end
          end
      end
  end.

End start.

(** What [Stop] closes, once the consumer loop has returned. *)
Definition Stop_worker : list op := [Closed NatsConn; Closed TcpListener].
Definition Stop_manager : list op := [Closed NatsConn; Closed TcpListener; Closed MongoConn].

(** ** internal/healthcheck/healthcheck.go *)

Record HealthCheck := mkHealthCheck { ServiceName : string; timeSinceFailure : option Z }.

Definition updateTimeSinceFailure (now : Z) (t : option Z) (err : option string) : option Z :=
  match err with
  | None => None
  | Some _ => match t with Some t => Some t | None => Some now end
  end.

(** One round: the time, and the error of each service's ping. *)
Definition round : Type := Z * (nat → option string).

Definition check (services : list HealthCheck) (r : round) : list HealthCheck :=
  imap (λ i svc, mkHealthCheck (ServiceName svc) (updateTimeSinceFailure r.1 (timeSinceFailure svc) (r.2 i))) services.

Definition minute : Z := 60 * 1000000000.

Definition checkFailure (now : Z) (t : option Z) (service : string) (perr : option string) : option string :=
  match t with
  | Some t =>
      if bool_decide (4 * minute ≤ now - t)%Z
      then Some (match perr with
                 | Some e => e +:+ "; " +:+ service +:+ " is unhealthy"
                 | None => service +:+ " is unhealthy"
                 end)
      else perr
  | None => perr
  end.

Definition CheckForFailures (services : list HealthCheck) (now : Z) : option string :=
  foldl (λ err svc, checkFailure now (timeSinceFailure svc) (ServiceName svc) err) None services.

Definition AnyServiceUnhealthy (services : list HealthCheck) : bool :=
  foldl (λ ok svc, ok || bool_decide (timeSinceFailure svc ≠ None)) false services.

(** The state of [NewHealthCheck] after some rounds, the first of them its
    own. *)
Definition NewHealthCheck (names : list string) (rounds : list round) : list HealthCheck :=
  foldl check ((λ n, mkHealthCheck n None) <$> names) rounds.

(** The status and body of the endpoint [/health]. *)
Definition health (checkFunc : option string) : Z * string :=
  match checkFunc with Some _ => (500%Z, "not ready") | None => (200%Z, "ok") end.

(** ** Connections are closed *)

(** What is open after some operations. *)
Fixpoint held (ops : list op) (rs : list resource) : list resource :=
  match ops with
  | [] => rs
  | Opened r :: ops => held ops (r :: rs)
  | Closed r :: ops => held ops (filter (λ x, x ≠ r) rs)
  end.

Section connections.
Context `{Host}.

(** A service that could not start has closed what it opened, provided
    [jetstream.New] is not what failed. *)
Lemma failed_start_releases :
  jetstream_New = None →
  (New_worker.2 ≠ None → held New_worker.1 [] = []) ∧ (New_manager.2 ≠ None → held New_manager.1 [] = []).
Proof.
  unfold New_worker, New_manager, NewClientWithJetStream. intros ->.
  destruct (open_err NatsConn), (open_err TcpListener), (open_err MongoConn), JetStreamWorkQueue, mongo_Init; done.
Qed.

(** When it fails, the connection to NATS stays open. *)
Lemma jetstream_error_keeps_connection e :
  open_err NatsConn = None → jetstream_New = Some e → held NewClientWithJetStream.1 [] = [NatsConn].
Proof. unfold NewClientWithJetStream. by intros -> _. Qed.

(** A service that started closes everything when it stops. *)
Lemma stop_closes_everything :
  (New_worker.2 = None → held (New_worker.1 ++ Stop_worker) [] = []) ∧
  (New_manager.2 = None → held (New_manager.1 ++ Stop_manager) [] = []).
Proof.
  unfold New_worker, New_manager, NewClientWithJetStream.
  destruct (open_err NatsConn), (open_err TcpListener), (open_err MongoConn), jetstream_New, JetStreamWorkQueue, mongo_Init; done.
Qed.

End connections.

(** ** Probes *)

(** Service [i] has failed in every round since the one at time [t]. *)
Definition failing_since (i : nat) (rounds : list round) (t : Z) : Prop :=
  ∃ before p after, rounds = before ++ (t, p) :: after ∧
    Forall (λ r : round, r.2 i ≠ None) ((t, p) :: after) ∧ (∀ r, last before = Some r → r.2 i = None).

Lemma NewHealthCheck_app names rounds r : NewHealthCheck names (rounds ++ [r]) = check (NewHealthCheck names rounds) r.
Proof. unfold NewHealthCheck. by rewrite foldl_app. Qed.

Lemma NewHealthCheck_lookup names rounds i n :
  names !! i = Some n → ∃ t, NewHealthCheck names rounds !! i = Some (mkHealthCheck n t).
Proof.
  intros Hn. induction rounds as [|r rounds [t IH]] using rev_ind.
  - exists None. unfold NewHealthCheck. simpl. by rewrite list_lookup_fmap, Hn.
  - rewrite NewHealthCheck_app. unfold check. rewrite list_lookup_imap, IH. by eexists.
Qed.

Lemma failing_since_snoc i rounds r t :
  failing_since i (rounds ++ [r]) t ↔
  r.2 i ≠ None ∧ (failing_since i rounds t ∨ t = r.1 ∧ ∀ r', last rounds = Some r' → r'.2 i = None).
Proof.
  split.
  - intros (before & p & after & E & Hall & Hb). destruct after as [|x after _] using rev_ind.
    + apply app_inj_tail in E as [<- ->]. apply Forall_cons in Hall as [Hp _]. split; [done|]. by right.
    + rewrite app_comm_cons, app_assoc in E. apply app_inj_tail in E as [-> ->].
      rewrite app_comm_cons in Hall. apply Forall_app in Hall as [Hall Hx]. apply Forall_cons in Hx as [Hx _].
      split; [done|]. left. by exists before, p, after.
  - intros [Hr [(before & p & after & -> & Hall & Hb)|[-> Hl]]].
    + exists before, p, (after ++ [r]). rewrite app_comm_cons, app_assoc. split_and!; [done| |done].
      apply Forall_app. split; [done|]. by apply Forall_singleton.
    + exists rounds, r.2, []. destruct r as [t p]. split_and!; [done|by apply Forall_singleton|done].
Qed.

Lemma failing_since_last i rounds t r : failing_since i rounds t → last rounds = Some r → r.2 i ≠ None.
Proof.
  destruct rounds as [|x rounds _] using rev_ind; [done|]. rewrite failing_since_snoc, last_snoc. by intros [? _] [= <-].
Qed.

(** The recorded time is that of the first round of the current failures. *)
Lemma timeSinceFailure_spec names rounds i svc t :
  NewHealthCheck names rounds !! i = Some svc → timeSinceFailure svc = Some t ↔ failing_since i rounds t.
Proof.
  revert svc t. induction rounds as [|r rounds IH] using rev_ind; intros svc t Hs.
  - unfold NewHealthCheck in Hs. simpl in Hs. rewrite list_lookup_fmap in Hs. destruct (names !! i); [|done]. injection Hs as <-.
    split; [done|]. intros ([|] & ? & ? & ? & _); done.
  - rewrite NewHealthCheck_app in Hs. unfold check in Hs. rewrite list_lookup_imap in Hs.
    destruct (NewHealthCheck names rounds !! i) as [svc'|] eqn:E; [|done]. injection Hs as <-. simpl.
    rewrite failing_since_snoc. unfold updateTimeSinceFailure. destruct (r.2 i) as [e|]; [|split; [done|by intros [? _]]].
    destruct (timeSinceFailure svc') as [t'|] eqn:Et.
    + pose proof (proj1 (IH svc' t' eq_refl) Et) as Hf. split.
      * intros [= <-]. split; [done|by left].
      * intros [_ [Ht|[-> Hl]]]; [by rewrite <- (IH svc' t eq_refl), Et in Ht|].
        destruct (last rounds) as [r'|] eqn:El; [by destruct (failing_since_last _ _ _ _ Hf El (Hl _ eq_refl))|].
        apply last_None in El as ->. by destruct Hf as ([|] & ? & ? & ? & _).
    + split.
      * intros [= <-]. split; [done|]. right. split; [done|]. intros r' Hl.
        destruct rounds as [|x rounds _] using rev_ind; [done|]. rewrite last_snoc in Hl. injection Hl as <-.
        destruct (x.2 i) eqn:Ex; [|done].
        rewrite NewHealthCheck_app in E. unfold check in E. rewrite list_lookup_imap in E.
        destruct (_ !! i) as [s0|]; [|done]. injection E as <-. simpl in Et. rewrite Ex in Et. by destruct (timeSinceFailure s0).
      * intros [_ [Ht|[-> _]]]; [by rewrite <- (IH svc' t eq_refl), Et in Ht|done].
Qed.

(** The service has failed for four minutes. *)
Definition overdue (now : Z) (svc : HealthCheck) : bool :=
  match timeSinceFailure svc with Some t => bool_decide (4 * minute ≤ now - t)%Z | None => false end.

Lemma CheckForFailures_None services now :
  CheckForFailures services now = None ↔ ∀ svc, svc ∈ services → overdue now svc = false.
Proof.
  unfold CheckForFailures. assert (Hf : ∀ err, foldl (λ err svc, checkFailure now (timeSinceFailure svc) (ServiceName svc) err) err services = None ↔
    err = None ∧ Forall (λ svc, overdue now svc = false) services).
  { induction services as [|svc services IH]; intros err; simpl; [rewrite Forall_nil; tauto|].
    rewrite IH, Forall_cons. unfold checkFailure, overdue. destruct (timeSinceFailure svc) as [t|]; [case_bool_decide|]; split; try tauto;
      [by intros [? _]|by intros (_ & ? & _)]. }
  rewrite Hf, Forall_forall. tauto.
Qed.

Lemma length_NewHealthCheck names rounds : length (NewHealthCheck names rounds) = length names.
Proof.
  induction rounds as [|r rounds IH] using rev_ind; [apply length_fmap|].
  rewrite NewHealthCheck_app. unfold check. by rewrite length_imap.
Qed.

(** The probe fails exactly when a service has failed in every round since
    one that is four minutes ago. *)
Lemma unhealthy_after_four_minutes names rounds now :
  CheckForFailures (NewHealthCheck names rounds) now ≠ None ↔
  ∃ i t, i < length names ∧ failing_since i rounds t ∧ (4 * minute ≤ now - t)%Z.
Proof.
  rewrite CheckForFailures_None. split.
  - intros Hn. destruct (existsb (overdue now) (NewHealthCheck names rounds)) eqn:Ee.
    + apply existsb_exists in Ee as (svc & Hin & Ho). apply list_elem_of_In, list_elem_of_lookup in Hin as [i Hi].
      unfold overdue in Ho. destruct (timeSinceFailure svc) as [t|] eqn:Et; [|done]. apply bool_decide_eq_true in Ho.
      exists i, t. split_and!; [|by eapply timeSinceFailure_spec|done].
      apply lookup_lt_Some in Hi. by rewrite length_NewHealthCheck in Hi.
    + destruct Hn. intros svc Hin%list_elem_of_In. destruct (overdue now svc) eqn:Eo; [|done].
      enough (existsb (overdue now) (NewHealthCheck names rounds) = true) by congruence. apply existsb_exists. by exists svc.
  - intros (i & t & Hi & Hf & Hle) Hall. apply lookup_lt_is_Some in Hi as [n Hn].
    destruct (NewHealthCheck_lookup names rounds i n Hn) as [t' Ht'].
    apply (timeSinceFailure_spec _ _ _ _ t Ht') in Hf. simpl in Hf. subst t'.
    apply list_elem_of_lookup_2, Hall in Ht'. unfold overdue in Ht'. simpl in Ht'. apply bool_decide_eq_false in Ht'. lia.
Qed.

End Services.
