(* ===== verification/Consumer.v ===== *)
(** * The loop that consumes messages, and how a service stops

    [consumerLoop], [errHandler], [Handler] and [Stop] of
    services/*/internal/worker/service/service.go and handler_msg.go, and of
    services/manager/internal/service/service.go; [JSWorkQueueConsumer] of
    internal/natsutils/client.go.  The five services have the same loop and
    differ in the name and the subjects of the consumer.

    The loop, the callbacks of JetStream, the handlers they start and [Stop]
    are go-routines: the model is an executable labelled transition system
    whose labels say which of them moves and what the calls it makes answer.
    The proofs go by induction on executions. *)

From stdpp Require Import base strings list.
From S2P Require Import Prelude Spec SpecUtils Samples Schedule Watchers Messages.
Import Watchers Messages.

Module Consumer.

(** ** Consumers *)

(** The fields of [jetstream.ConsumerConfig] that depend on the arguments; the
    others are constants. *)
Record ConsumerConfig := mkConsumerConfig {
  Cc_Durable : string;
  Cc_AckWait : Z;
  Cc_FilterSubject : string;
  Cc_FilterSubjects : list string }.

Definition JSWorkQueueConsumer (durableName : string) (ackWait : Z) (subjects : list string) : ConsumerConfig :=
  match subjects with
  | [subject] => mkConsumerConfig durableName ackWait subject []
  | _ => mkConsumerConfig durableName ackWait "" subjects
  end.

(** Whether JetStream hands a message of a subject to a consumer: the filter
    lists the subject, or there is no filter.  The subjects of the code have
    no wildcards. *)
Definition receives (c : ConsumerConfig) (subject : string) : bool :=
  let filters := (if bool_decide (Cc_FilterSubject c = "") then [] else [Cc_FilterSubject c]) ++ Cc_FilterSubjects c in
  bool_decide (filters = []) || bool_decide (subject ∈ filters).

Inductive service := ServiceManager | ServiceTerraformer | ServiceAnsibler | ServiceKubeEleven | ServiceKuber.

Definition manager_subjects : list string := [AnsiblerResponse; KuberResponse; KubeElevenResponse; TerraformerResponse].
Definition terraformer_subjects : list string := [TerraformerRequests].
Definition ansibler_subjects : list string := [AnsiblerRequests].
Definition kube_eleven_subjects : list string := [KubeElevenRequests].
Definition kuber_subjects : list string := [KuberRequests].

Definition subjects_of (s : service) : list string :=
  match s with
  | ServiceManager => manager_subjects
  | ServiceTerraformer => terraformer_subjects
  | ServiceAnsibler => ansibler_subjects
  | ServiceKubeEleven => kube_eleven_subjects
  | ServiceKuber => kuber_subjects
  end.

(** The consumer a service registers; the durable name and the wait for an
    acknowledgement come from the environment. *)
Definition consumer_of (durable : service → string) (ackWait : Z) (s : service) : ConsumerConfig :=
  JSWorkQueueConsumer (durable s) ackWait (subjects_of s).

(** ** The state of a running service *)

(** A [jetstream.ConsumeContext]: it receives, it was stopped, or its channel
    [Closed()] is closed.  JetStream promises that it calls [Handler] for one
    message at a time, starts no call after [Stop], and closes the channel
    only when the last call has returned. *)
Inductive consume_context := Receiving | Stopped | Closed.

(** Where [consumerLoop] is. *)
Inductive position :=
| AtTop             (* the select on s.done with a default *)
| AtTopWait         (* inFlight.Wait() before the return in that select *)
| AtCreate          (* JSWorkQueueConsumer *)
| AtConsume         (* consumer.Consume *)
| AtSelect          (* the select on cctx.Closed() and s.done *)
| AtRestartWait     (* inFlight.Wait() in the case of cctx.Closed() *)
| AtStop            (* cctx.Stop() in the case of s.done *)
| AtStopWait        (* inFlight.Wait() after it *)
| AtStopClosed      (* <-cctx.Closed() after that *)
| Returned.         (* exit is closed *)

#[global] Instance position_eq_dec : EqDecision position.
Proof. solve_decision. Defined.
#[global] Instance consume_context_eq_dec : EqDecision consume_context.
Proof. solve_decision. Defined.

Record state := mkState {
  done : bool;                       (* s.done is closed *)
  pc : position;
  session : nat;                     (* how many consumers were registered *)
  cctx : option consume_context;     (* the last of them *)
  callback : bool;                   (* JetStream is calling Handler *)
  inFlight : list nat;               (* the handlers counted by inFlight, by
                                        the consumer their message came from *)
  connected : bool }.                (* natsclient is open *)

Definition init : state := mkState false AtTop 0 None false [] true.

(** ** The go-routines *)

(** What the loop's calls answer, or which ready case a select takes. *)
Inductive choice := Succeeds | Fails | CaseClosed | CaseDone.

Definition at_pc (p : position) (s : state) : state :=
  mkState (done s) p (session s) (cctx s) (callback s) (inFlight s) (connected s).
Definition with_cctx (c : option consume_context) (s : state) : state :=
  mkState (done s) (pc s) (session s) c (callback s) (inFlight s) (connected s).

(** [inFlight.Wait()] returns when the counter is zero. *)
Definition wait_then (p : position) (s : state) : option state :=
  if bool_decide (inFlight s = []) then Some (at_pc p s) else None.

(** [ConsumeContext.Stop()]; a closed context stays closed. *)
Definition stop_consuming (c : consume_context) : consume_context :=
  match c with Closed => Closed | _ => Stopped end.

(** One step of [consumerLoop]; [None] when it is blocked there or the answer
    is none of that call. *)
Definition loop_step (c : choice) (s : state) : option state :=
  match pc s, c with
  | AtTop, CaseDone => if done s then Some (at_pc AtTopWait s) else None
  | AtTop, Succeeds => if done s then None else Some (at_pc AtCreate s)
  | AtTopWait, Succeeds => wait_then Returned s
  | AtCreate, Succeeds => Some (at_pc AtConsume s)
  | AtCreate, Fails => Some (at_pc AtTop s)
  | AtConsume, Succeeds =>
      Some (mkState (done s) AtSelect (S (session s)) (Some Receiving) (callback s) (inFlight s) (connected s))
  | AtConsume, Fails => Some (at_pc AtTop s)
  | AtSelect, CaseClosed => if bool_decide (cctx s = Some Closed) then Some (at_pc AtRestartWait s) else None
  | AtSelect, CaseDone => if done s then Some (at_pc AtStop s) else None
  | AtRestartWait, Succeeds => wait_then AtTop s
  | AtStop, Succeeds => Some (with_cctx (stop_consuming <$> cctx s) (at_pc AtStopWait s))
  | AtStopWait, Succeeds => wait_then AtStopClosed s
  | AtStopClosed, Succeeds => if bool_decide (cctx s = Some Closed) then Some (at_pc Returned s) else None
  | _, _ => None
  end.

Inductive consume_error := ErrConsumerDeleted | ErrNoResponders | ErrNoHeartbeat | ErrOther.

(** [errHandler] stops the consumer when it was deleted and logs otherwise. *)
Definition errHandler (e : consume_error) (c : consume_context) : consume_context :=
  match e with ErrConsumerDeleted => stop_consuming c | _ => c end.

(** [Handler]: the callback counts the new handler and returns. *)
Definition Handler (s : state) : option state :=
  if callback s
  then Some (mkState (done s) (pc s) (session s) (cctx s) false (session s :: inFlight s) (connected s))
  else None.

(** A handler that returns is taken off the counter. *)
Definition handler_returns (i : nat) (s : state) : option state :=
  if decide (i < length (inFlight s))
  then Some (mkState (done s) (pc s) (session s) (cctx s) (callback s) (delete i (inFlight s)) (connected s))
  else None.

(** [Stop]: the first half closes [s.done], once; the second waits for the
    loop and closes the connection. *)
Definition Stop_signal (s : state) : option state :=
  if done s then None
  else Some (mkState true (pc s) (session s) (cctx s) (callback s) (inFlight s) (connected s)).

Definition Stop_close (s : state) : option state :=
  if done s && bool_decide (pc s = Returned) && connected s
  then Some (mkState (done s) (pc s) (session s) (cctx s) (callback s) (inFlight s) false)
  else None.

(** JetStream: a call of [Handler] starts; an error is reported; the context
    closes, after [Stop] or because of the server. *)
Definition deliver (s : state) : option state :=
  if bool_decide (cctx s = Some Receiving) && negb (callback s)
  then Some (mkState (done s) (pc s) (session s) (cctx s) true (inFlight s) (connected s))
  else None.

Definition report (e : consume_error) (s : state) : option state :=
  match cctx s with
  | Some Closed | None => None
  | Some c => Some (with_cctx (Some (errHandler e c)) s)
  end.

Definition close_context (s : state) : option state :=
  match cctx s with
  | Some Closed | None => None
  | Some _ => if callback s then None else Some (with_cctx (Some Closed) s)
  end.

Inductive event :=
| Loop (c : choice) | Callback | HandlerReturns (i : nat) | Signal | CloseConnection
| Deliver | Report (e : consume_error) | CloseContext.

Definition step (e : event) (s : state) : option state :=
  match e with
  | Loop c => loop_step c s
  | Callback => Handler s
  | HandlerReturns i => handler_returns i s
  | Signal => Stop_signal s
  | CloseConnection => Stop_close s
  | Deliver => deliver s
  | Report e => report e s
  | CloseContext => close_context s
  end.

Fixpoint exec (es : list event) (s : state) : option state :=
  match es with [] => Some s | e :: es => s' ← step e s; exec es s' end.

Definition reachable (s : state) : Prop := ∃ es, exec es init = Some s.

(** ** Health of a service *)

Inductive serving := SERVING | NOT_SERVING.

(** What the readiness and the liveness service answer. *)
Definition manager_health (store_healthy : bool) : serving * serving :=
  if store_healthy then (SERVING, SERVING) else (NOT_SERVING, NOT_SERVING).

Definition terraformer_health (storage_healthy nats_connected : bool) : serving * serving :=
  if negb storage_healthy then (NOT_SERVING, NOT_SERVING)
  else if negb nats_connected then (NOT_SERVING, NOT_SERVING)
  else (SERVING, SERVING).

Definition worker_health (nats_connected : bool) : serving * serving :=
  if negb nats_connected then (NOT_SERVING, NOT_SERVING) else (SERVING, SERVING).

(** ** One service for each subject *)

(** Each consumer receives exactly the subjects its service lists. *)
Lemma receives_subjects durable ackWait s subject :
  receives (consumer_of durable ackWait s) subject = bool_decide (subject ∈ subjects_of s).
Proof. by destruct s. Qed.

(** Whatever stage the manager publishes is received by one service, the
    worker of the stage, and the reply to it by the manager alone. *)
Lemma stage_has_one_consumer durable ackWait (st : Stage) s :
  (receives (consumer_of durable ackWait s) (stage_parts st).1.1.2 = true ↔
     s = match st with
         | Stage_Terraformer _ _ => ServiceTerraformer | Stage_Ansibler _ _ => ServiceAnsibler
         | Stage_KubeEleven _ _ => ServiceKubeEleven | Stage_Kuber _ _ => ServiceKuber end)
  ∧ (receives (consumer_of durable ackWait s) (stage_parts st).1.2 = true ↔ s = ServiceManager).
Proof. rewrite !receives_subjects. destruct st, s; vm_compute; split; split; done. Qed.

(** ** Executions *)

(** An invariant of steps holds in every reachable state. *)
Lemma exec_ind (P : state → Prop) :
  (∀ e s s', P s → step e s = Some s' → P s') → ∀ es s s', P s → exec es s = Some s' → P s'.
Proof.
  intros Hstep es. induction es as [|e es IH]; simpl; intros s s' Hs He; [by injection He as <-|].
  destruct (step e s) as [s1|] eqn:E; [|done]. eauto.
Qed.

(** Splits a step into its cases; every remaining case is a concrete one. *)
Ltac step_cases H :=
  unfold step, loop_step, wait_then, Handler, handler_returns, Stop_signal, Stop_close, deliver, report, close_context in H;
  repeat case_match; simplify_eq/=; try done;
  repeat match goal with
         | H : _ && _ = true |- _ => apply andb_true_iff in H as [??]
         | H : negb _ = true |- _ => apply negb_true_iff in H
         | H : bool_decide _ = true |- _ => apply bool_decide_eq_true_1 in H
         | H : bool_decide _ = false |- _ => apply bool_decide_eq_false_1 in H
         end.

(** ** The invariant of a running service *)

(** The calls of [Handler] that have not returned and the handlers that run. *)
Definition calls (s : state) : nat := length (inFlight s) + Nat.b2n (callback s).

(** No consumer is registered, or the last one is closed. *)
Definition over (c : option consume_context) : bool := match c with None | Some Closed => true | _ => false end.
(** The last consumer receives no more messages. *)
Definition stopped (c : option consume_context) : bool := match c with Some Stopped | Some Closed => true | _ => false end.
Definition registered (c : option consume_context) : bool := match c with Some _ => true | None => false end.

(** What holds at each position of the loop: before a consumer is registered
    nothing runs; after the wait in the shutdown at most the call that was
    under way during [Stop] is left. *)
Definition at_position (s : state) : Prop :=
  match pc s with
  | AtTop | AtCreate | AtConsume => over (cctx s) ∧ calls s = 0
  | AtTopWait => done s ∧ over (cctx s) ∧ calls s = 0
  | AtSelect => Is_true (registered (cctx s))
  | AtRestartWait => cctx s = Some Closed
  | AtStop => done s ∧ registered (cctx s)
  | AtStopWait => done s ∧ stopped (cctx s)
  | AtStopClosed => done s ∧ stopped (cctx s) ∧ calls s ≤ 1
  | Returned => done s ∧ over (cctx s) ∧ calls s ≤ 1
  end.

Record healthy (s : state) : Prop := {
  healthy_position : at_position s;
  healthy_session : Forall (λ n, n = session s) (inFlight s);
  healthy_callback : callback s → over (cctx s) = false;
  healthy_connected : connected s = false → pc s = Returned }.

Lemma healthy_init : healthy init.
Proof. by split. Qed.

(** A step keeps the messages in flight those of the last consumer. *)
Lemma step_session e s s' : healthy s → step e s = Some s' → Forall (λ n, n = session s') (inFlight s').
Proof.
  intros [Hp Hf _ _] Hs. destruct s as [d p n c b f k]. destruct e; step_cases Hs; simpl in *; auto.
  - destruct Hp as [_ H]. unfold calls in H; simpl in H. by destruct f.
  - rewrite Forall_forall in Hf |- *. intros x Hx. apply Hf. eapply elem_of_sublist; [done|]. apply sublist_delete.
Qed.

Lemma step_callback e s s' : healthy s → step e s = Some s' → callback s' → over (cctx s') = false.
Proof.
  intros [Hp _ Hc _] Hs. destruct s as [d p n c b f k]. destruct e; step_cases Hs; simpl in *; auto.
  all: intros Hb; try specialize (Hc Hb); repeat case_match; simplify_eq/=; auto.
  - by destruct c as [[]|].
  - by destruct e.
  - by destruct e.
Qed.

Lemma step_connected e s s' : healthy s → step e s = Some s' → connected s' = false → pc s' = Returned.
Proof.
  intros [_ _ _ Hk] Hs. destruct s as [d p n c b f k]. destruct e; step_cases Hs; simpl in *; auto.
  all: intros Hb; by apply Hk in Hb.
Qed.

(** The moves of the loop itself. *)
Lemma loop_position c s s' : healthy s → loop_step c s = Some s' → at_position s'.
Proof.
  intros [Hp _ Hc _] Hs. destruct s as [d p n o b f k].
  destruct p, c; unfold loop_step, wait_then in Hs; simpl in Hs; simplify_eq.
  all: try match type of Hs with (if ?x then _ else _) = _ => destruct x eqn:Hx end; simplify_eq.
  all: try apply bool_decide_eq_true_1 in Hx; unfold at_position, calls in *; simpl in *; simplify_eq/=; try done.
  all: try (destruct b; simpl in *; intuition auto with lia; fail).
  destruct o as [[]|]; simpl in *; intuition auto.
Qed.

(** A step of another go-routine that starts no call leaves a calmer state. *)
Definition calmer (s s' : state) : Prop :=
  pc s' = pc s ∧ calls s' ≤ calls s ∧ (done s → done s')
  ∧ (over (cctx s) → over (cctx s')) ∧ (stopped (cctx s) → stopped (cctx s'))
  ∧ (registered (cctx s) → registered (cctx s')) ∧ (cctx s = Some Closed → cctx s' = Some Closed).

Lemma calmer_position s s' : calmer s s' → at_position s → at_position s'.
Proof.
  intros (Hpc & Hn & Hd & Ho & Hst & Hr & Hcl). unfold at_position. rewrite Hpc.
  destruct (pc s); intuition lia.
Qed.

Lemma other_calmer e s s' : (∀ c, e ≠ Loop c) → e ≠ Deliver → step e s = Some s' → calmer s s'.
Proof.
  intros Hl Hd Hs. destruct s as [d p n o b f k].
  destruct e as [c| |i| | | |e|]; [by destruct (Hl c)|..];
    step_cases Hs; unfold calmer, calls; simpl in *; split_and!; auto; try lia; try done.
  1: pose proof (sublist_length _ _ (sublist_delete f i)); lia.
  all: by destruct e.
Qed.

Lemma deliver_position s s' : at_position s → deliver s = Some s' → at_position s'.
Proof.
  destruct s as [d p n o b f k]. unfold deliver, at_position; simpl. intros Hp Hs. case_match; simplify_eq/=.
  apply andb_true_iff in H as [->%bool_decide_eq_true_1 _]. destruct p; simpl in *; intuition auto.
Qed.

Lemma step_healthy e s s' : healthy s → step e s = Some s' → healthy s'.
Proof.
  intros Hh Hs. split; eauto using step_session, step_callback, step_connected.
  destruct e as [c| |i| | | |e|]; [by eapply loop_position| | | | |by eapply deliver_position, Hs; apply Hh| |].
  all: eapply calmer_position; [|apply Hh]; eapply other_calmer; [| |exact Hs]; done.
Qed.

Lemma reachable_healthy s : reachable s → healthy s.
Proof. intros [es He]. exact (exec_ind healthy step_healthy es _ _ healthy_init He). Qed.

(** C23: At most one consumer of a service is at work.  In every reachable
    state the messages in flight came from the consumer registered last; when
    the loop is about to register another one, the old one is closed, no call
    of [Handler] is under way and nothing is in flight.  The connection is
    closed only after the loop returned, and then no consumer is open and at
    most one message is still in flight. *)
Theorem consumers_do_not_overlap s :
  reachable s →
  Forall (λ n, n = session s) (inFlight s)
  ∧ (pc s ∈ [AtTop; AtCreate; AtConsume] → over (cctx s) ∧ callback s = false ∧ inFlight s = [])
  ∧ (connected s = false → pc s = Returned)
  ∧ (pc s = Returned → over (cctx s) ∧ callback s = false ∧ length (inFlight s) ≤ 1).
Proof.
  intros [Hp Hf Hc Hk]%reachable_healthy. unfold at_position, calls in Hp.
  destruct s as [d p n o b f k]; simpl in *. split_and!; [done| |done|].
  - intros Hin. assert (Hq : over o ∧ length f + Nat.b2n b = 0) by (repeat (apply elem_of_cons in Hin as [->|Hin]; [done|]); by apply not_elem_of_nil in Hin).
    destruct Hq as [? ?]. destruct b, f; simpl in *; auto; lia.
  - intros ->. destruct Hp as (_ & Ho & Hn). split_and!; [done| |lia].
    destruct b; [|done]. apply Is_true_eq_true in Ho. rewrite Hc in Ho; done.
Qed.

(** ** Shutting down *)

(** How many steps are left after [s.done] was closed, not counting the
    messages and errors that JetStream still delivers. *)
Definition position_weight (p : position) : nat :=
  match p with
  | AtCreate => 8 | AtConsume => 7 | AtSelect => 4 | AtRestartWait => 3 | AtTop => 2 | AtTopWait => 1
  | AtStop => 3 | AtStopWait => 2 | AtStopClosed => 1 | Returned => 0
  end.

Definition context_weight (c : option consume_context) : nat :=
  match c with Some Receiving => 2 | Some Stopped => 1 | _ => 0 end.

Definition weight (s : state) : nat :=
  position_weight (pc s) + context_weight (cctx s) + length (inFlight s) + 2 * Nat.b2n (callback s) + Nat.b2n (connected s).

(** What a step may add to the weight, itself included. *)
Definition cost (e : event) : nat := match e with Deliver => 3 | Report _ => 1 | _ => 0 end.

Fixpoint costs (es : list event) : nat := match es with [] => 0 | e :: es => cost e + costs es end.

Lemma step_weight e s s' : done s → step e s = Some s' → done s' ∧ S (weight s') ≤ weight s + cost e.
Proof.
  intros Hd Hs. destruct s as [d p n o b f k]. apply Is_true_eq_true in Hd; simpl in Hd; subst.
  destruct e as [c| |i| | | |e|]; step_cases Hs; unfold weight; simpl; subst; simpl; split; auto; try lia.
  - destruct o as [[]|]; simpl; lia.
  - assert (Hx : is_Some (f !! i)) by by apply lookup_lt_is_Some_2. pose proof (length_delete f i Hx). lia.
  - destruct e; simpl; lia.
  - destruct e; simpl; lia.
Qed.

Lemma exec_weight es s s' :
  done s → exec es s = Some s' → done s' ∧ length es + weight s' ≤ weight s + costs es.
Proof.
  induction es as [|e es IH] in s |- *; simpl; intros Hd He; [simplify_eq; split; [done|lia]|].
  destruct (step e s) as [s1|] eqn:Hs; [|done]. destruct (step_weight _ _ _ Hd Hs) as [Hd1 Hw].
  destruct (IH s1 Hd1 He). split; [done|lia].
Qed.

(** A wait ends: either nothing is in flight or a handler can return. *)
Lemma wait_progress p s : is_Some (wait_then p s) ∨ is_Some (handler_returns 0 s).
Proof.
  unfold wait_then, handler_returns. destruct s as [d q n o b f k]; simpl.
  destruct f as [|x f]; [left|right]; [by eexists|]. rewrite decide_True by (simpl; lia). by eexists.
Qed.

(** A context that was stopped closes once the call under way returned. *)
Lemma closing_progress s :
  stopped (cctx s) → cctx s = Some Closed ∨ is_Some (Handler s) ∨ is_Some (close_context s).
Proof.
  unfold Handler, close_context. destruct s as [d p n [[]|] b f k]; simpl; try done; auto.
  destruct b; eauto.
Qed.

(** The service moves by itself until the connection is closed. *)
Lemma shutdown_progress s :
  healthy s → done s → pc s = Returned ∧ connected s = false ∨ ∃ e, cost e = 0 ∧ is_Some (step e s).
Proof.
  intros Hh Hd. pose proof (healthy_position _ Hh) as Hp. unfold at_position in Hp. apply Is_true_eq_true in Hd.
  destruct (pc s) eqn:Hpc.
  - right. exists (Loop CaseDone). simpl. unfold loop_step. rewrite Hpc, Hd. eauto.
  - right. destruct (wait_progress Returned s); [exists (Loop Succeeds)|exists (HandlerReturns 0)]; simpl; unfold loop_step; by rewrite ?Hpc.
  - right. exists (Loop Succeeds). simpl. unfold loop_step. rewrite Hpc. eauto.
  - right. exists (Loop Succeeds). simpl. unfold loop_step. rewrite Hpc. eauto.
  - right. exists (Loop CaseDone). simpl. unfold loop_step. rewrite Hpc, Hd. eauto.
  - right. destruct (wait_progress AtTop s); [exists (Loop Succeeds)|exists (HandlerReturns 0)]; simpl; unfold loop_step; by rewrite ?Hpc.
  - right. exists (Loop Succeeds). simpl. unfold loop_step. rewrite Hpc. eauto.
  - right. destruct (wait_progress AtStopClosed s); [exists (Loop Succeeds)|exists (HandlerReturns 0)]; simpl; unfold loop_step; by rewrite ?Hpc.
  - right. destruct (closing_progress s) as [Hc|[Hc|Hc]]; [apply Hp| | |].
    + exists (Loop Succeeds). simpl. unfold loop_step. rewrite Hpc, Hc. eauto.
    + by exists Callback.
    + by exists CloseContext.
  - destruct (connected s) eqn:Hk; [right|by left]. exists CloseConnection. simpl. unfold Stop_close.
    rewrite Hd, Hpc, Hk. eauto.
Qed.

(** The steps of the loop itself in an execution, and the messages that are
    delivered in it. *)
Fixpoint loop_steps (es : list event) : nat :=
  match es with [] => 0 | e :: es => (match e with Loop _ => 1 | _ => 0 end) + loop_steps es end.
Fixpoint delivered (es : list event) : nat :=
  match es with [] => 0 | e :: es => (match e with Deliver => 1 | _ => 0 end) + delivered es end.

(** Every step of the loop brings it closer to its return; no other step moves
    it. *)
Lemma step_position e s s' :
  done s → step e s = Some s' →
  position_weight (pc s') + match e with Loop _ => 1 | _ => 0 end ≤ position_weight (pc s).
Proof.
  intros Hd Hs. destruct s as [d p n o b f k]. apply Is_true_eq_true in Hd; simpl in Hd; subst.
  destruct e as [c| |i| | | |e|]; step_cases Hs; simpl; lia.
Qed.

Lemma exec_position es s s' :
  done s → exec es s = Some s' → position_weight (pc s') + loop_steps es ≤ position_weight (pc s).
Proof.
  induction es as [|e es IH] in s |- *; simpl; intros Hd He; [simplify_eq; simpl; lia|].
  destruct (step e s) as [s1|] eqn:Hs; [|done]. destruct (step_weight _ _ _ Hd Hs) as [Hd1 _].
  pose proof (step_position _ _ _ Hd Hs). specialize (IH s1 Hd1 He). lia.
Qed.

(** A message is delivered only while the loop can take its next step. *)
Lemma deliver_loop_enabled s : healthy s → done s → is_Some (deliver s) → ∃ c, is_Some (loop_step c s).
Proof.
  intros Hh Hd [s' Hs]. pose proof (healthy_position _ Hh) as Hp. unfold at_position in Hp. unfold deliver in Hs.
  apply Is_true_eq_true in Hd. unfold loop_step. destruct (bool_decide (cctx s = Some Receiving)) eqn:Hc; [|done].
  apply bool_decide_eq_true_1 in Hc. rewrite Hc in Hp.
  destruct (pc s) eqn:Hpc; simpl in Hp; try (exfalso; intuition congruence; fail).
  - exists CaseDone. rewrite Hd. eauto.
  - exists Succeeds. eauto.
Qed.

(** Once the consumer is stopped or closed, and no other can be registered any
    more, nothing is delivered. *)
Definition past_stop (s : state) : Prop := pc s ∈ [AtStopWait; AtStopClosed; Returned; AtTopWait; AtRestartWait; AtTop].

Lemma past_stop_step e s s' : healthy s → done s → past_stop s → step e s = Some s' → past_stop s' ∧ e ≠ Deliver.
Proof.
  intros Hh Hd Hp Hs. pose proof (healthy_position _ Hh) as Hpos. unfold past_stop, at_position in *.
  destruct s as [d p n o b f k]. apply Is_true_eq_true in Hd; simpl in Hd; subst. simpl in *.
  assert (Hin : ∀ q, q ∈ [AtStopWait; AtStopClosed; Returned; AtTopWait; AtRestartWait; AtTop] → bool_decide (q ∈ [AtStopWait; AtStopClosed; Returned; AtTopWait; AtRestartWait; AtTop]) = true) by (intros; by apply bool_decide_eq_true).
  apply Hin in Hp. split.
  - apply (bool_decide_eq_true_1 _). destruct e as [c| |i| | | |e|]; step_cases Hs; simpl; try done.
  - intros ->. unfold step, deliver in Hs. simpl in Hs. destruct (bool_decide (o = Some Receiving)) eqn:Ho; [|done]. apply bool_decide_eq_true_1 in Ho. rewrite Ho in Hpos.
    destruct p; simpl in *; try discriminate Hp; intuition (auto; congruence).
Qed.

Lemma exec_past_stop es s s' : healthy s → done s → past_stop s → exec es s = Some s' → delivered es = 0.
Proof.
  induction es as [|e es IH] in s |- *; simpl; intros Hh Hd Hp He; [done|].
  destruct (step e s) as [s1|] eqn:Hs; [|done]. destruct (past_stop_step _ _ _ Hh Hd Hp Hs) as [Hp1 Hne].
  destruct (step_weight _ _ _ Hd Hs) as [Hd1 _]. rewrite (IH s1); [by destruct e|by eapply step_healthy|done..].
Qed.

(** C24: A service that was asked to stop does.  From every reachable state
    in which [s.done] is closed, in every execution: the loop takes at most
    eight more steps; messages are delivered only while the loop's own next
    step is enabled, and none from the moment it stopped its consumer or found
    it closed; every execution has at most as many steps as the weight of the
    state plus three for each message and one for each error JetStream still
    delivers; and the service is never blocked before the loop has returned
    and the connection is closed.  So it ends under every scheduler that
    eventually runs the loop, however much is delivered until then. *)
Theorem shutdown_terminates s es s' :
  reachable s → done s → exec es s = Some s' →
  loop_steps es ≤ 8
  ∧ length es ≤ weight s + costs es
  ∧ (is_Some (deliver s') → ∃ c, is_Some (loop_step c s'))
  ∧ (past_stop s → delivered es = 0)
  ∧ (pc s' = Returned ∧ connected s' = false ∨ ∃ e, cost e = 0 ∧ is_Some (step e s')).
Proof.
  intros Hr%reachable_healthy Hd He. destruct (exec_weight es s s' Hd He) as [Hd' Hw].
  pose proof (exec_position es s s' Hd He). assert (position_weight (pc s) ≤ 8) by (destruct (pc s); simpl; lia).
  assert (healthy s') by exact (exec_ind healthy step_healthy es s s' Hr He).
  split_and!; [lia|lia| | |by apply shutdown_progress].
  - intros Hs. by apply deliver_loop_enabled.
  - intros Hp. by apply (exec_past_stop es s s').
Qed.

(** A service that consumes a message, is told to stop while JetStream calls
    [Handler] for a second one, and waits for the first. *)
Definition stopping_run : list event :=
  [Loop Succeeds; Loop Succeeds; Loop Succeeds; Deliver; Callback; Deliver; Signal; Loop CaseDone; Loop Succeeds;
   HandlerReturns 0; Loop Succeeds; Callback; CloseContext; Loop Succeeds; CloseConnection].

Definition stopped_service : state := mkState true Returned 1 (Some Closed) false [1] false.

(** The comment of [Stop] says that no message is processed any more when it
    closes the connection: the second message still is, because the loop waits
    for the handlers before the consumer is closed and not after. *)
Example message_in_flight_after_stop :
  exec stopping_run init = Some stopped_service ∧ inFlight stopped_service = [1].
Proof. by split; vm_compute. Qed.

(** Witness of [consumers_do_not_overlap]. *)
Lemma consumers_do_not_overlap_witness :
  reachable stopped_service ∧ length (inFlight stopped_service) ≤ 1.
Proof.
  assert (Hr : reachable stopped_service) by (exists stopping_run; vm_compute; reflexivity).
  split; [exact Hr|]. apply (consumers_do_not_overlap stopped_service Hr). reflexivity.
Defined.

(** Witness of [shutdown_terminates]: the rest of the run after the signal. *)
Lemma shutdown_terminates_witness :
  ∃ s, exec (take 7 stopping_run) init = Some s ∧ done s
       ∧ length (drop 7 stopping_run) ≤ weight s + costs (drop 7 stopping_run).
Proof.
  eexists. split; [vm_compute; reflexivity|]. split; [exact I|].
  eapply (shutdown_terminates _ (drop 7 stopping_run) stopped_service); [|exact I|vm_compute; reflexivity].
  exists (take 7 stopping_run). vm_compute. reflexivity.
Defined.

End Consumer.
