(* ===== verification/InMemory.v ===== *)
(** * The in-memory store

    services/manager/internal/store/in_memory_store.go: the second
    implementation of the interface of store/api.go.  It keeps the pointers it
    is given, so the model has a heap: a [*Config] is a location, the map
    [db] holds locations, and a caller that got a location from the store
    shares the stored document with it.

    On a well-formed heap the operations refine those of the mongo client
    ([Store.Mongo_UpdateConfig] and the others), with three exceptions that
    are proved as they are: an update or a mark of a missing name panics, an
    empty filter lists nothing, and a writer that holds the stored pointer is
    never refused. *)

From stdpp Require Import base gmap strings list.
From S2P Require Import Prelude Spec Store.
Import Store.

Module InMemory.
Section in_memory.
Context `{Codec} `{RangeOrder}.

(** [sync.Map] from names to pointers, and the documents they point to. *)
Record Mem := mkMem { db : gmap string nat; heap : gmap nat DbConfig }.

Definition NewInMemoryStore : Mem := mkMem ∅ ∅.

(** The documents a caller of the store can read. *)
Definition documents (m : Mem) : gmap string DbConfig := omap (λ p, heap m !! p) (db m).

(** Dereferencing a pointer that points to nothing panics. *)
Definition deref (m : Mem) (p : nat) : outcome DbConfig :=
  match heap m !! p with Some c => Ret c | None => Panic "nil pointer dereference" end.

Definition CreateConfig (m : Mem) (config : nat) : outcome (Mem * option store_err) :=
  let* c := deref m config in
  match db m !! Db_Name c with
  | Some _ => Ret (m, Some (ErrOther "already exists"))
  | None => Ret (mkMem (<[Db_Name c := config]> (db m)) (<[config := created c]> (heap m)), None)
  end.

(** The type assertion comes before the test of [exists]: a missing entry is
    a nil interface, and asserting its type panics. *)
Definition UpdateConfig (m : Mem) (config : nat) : outcome (Mem * option store_err) :=
  let* c := deref m config in
  match db m !! Db_Name c with
  | None => Panic "interface conversion: interface is nil"
  | Some q =>
      let* cfg := deref m q in
      if bool_decide (Db_Version cfg = Db_Version c)
      then Ret (mkMem (<[Db_Name c := config]> (db m)) (<[config := bumped c]> (heap m)), None)
      else Ret (m, Some ErrNotFoundOrDirty)
  end.

Definition GetConfig (m : Mem) (name : string) : nat + store_err :=
  match db m !! name with Some p => inl p | None => inr ErrNotFoundOrDirty end.

Fixpoint list_loop (m : Mem) (states : list string) (entries : list (string * nat)) : outcome (list nat) :=
  match entries with
  | [] => Ret []
  | (_, p) :: rest =>
      let* cfg := deref m p in
      let* out := list_loop m states rest in
      Ret (if contains states (Db_ManifestState (Db_Manifest cfg)) then p :: out else out)
  end.

Definition ListConfigs (m : Mem) (states : list string) : outcome (list nat) :=
  list_loop m states (range "ListConfigs" (db m)).

Definition DeleteConfig (m : Mem) (name : string) (version : Z) : outcome (Mem * option store_err) :=
  match db m !! name with
  | None => Ret (m, Some ErrNotFoundOrDirty)
  | Some p =>
      let* cfg := deref m p in
      if bool_decide (Db_Version cfg = version)
      then Ret (mkMem (delete name (db m)) (heap m), None)
      else Ret (m, Some ErrNotFoundOrDirty)
  end.

(** The stored document itself is changed; [digest] is
    [hash.Digest("delete")]. *)
Definition marked_in_place (digest : string) (cfg : DbConfig) : DbConfig :=
  set_Db_Version
    (set_Db_Manifest cfg (mkDbManifest "" None (Some digest) (Db_ManifestState (Db_Manifest cfg))
                            (Db_StateTimestamp (Db_Manifest cfg))))
    (uint64 (Db_Version cfg + 1)).

Definition MarkForDeletion (digest : string) (m : Mem) (name : string) (version : Z) : outcome (Mem * option store_err) :=
  match db m !! name with
  | None => Panic "interface conversion: interface is nil"
  | Some q =>
      let* cfg := deref m q in
      if bool_decide (Db_Version cfg = version)
      then Ret (mkMem (<[name := q]> (db m)) (<[q := marked_in_place digest cfg]> (heap m)), None)
      else Ret (m, Some ErrNotFoundOrDirty)
  end.

(** ** Well-formed heaps *)

(** Every pointer of the map points to a document with the name it is stored
    under; so two names never share a document. *)
Definition wf (m : Mem) : Prop :=
  ∀ n p, db m !! n = Some p → ∃ c, heap m !! p = Some c ∧ Db_Name c = n.

Lemma documents_lookup m n : documents m !! n = db m !! n ≫= λ p, heap m !! p.
Proof. apply lookup_omap. Qed.

Lemma documents_present m n p :
  wf m → db m !! n = Some p → ∃ c, heap m !! p = Some c ∧ Db_Name c = n ∧ documents m !! n = Some c.
Proof. intros Hwf Hn. destruct (Hwf n p Hn) as (c & Hc & Hname). exists c. by rewrite documents_lookup, Hn. Qed.

Lemma documents_absent m n : wf m → documents m !! n = None ↔ db m !! n = None.
Proof.
  intros Hwf. rewrite documents_lookup. destruct (db m !! n) as [p|] eqn:Hn; [|done].
  destruct (Hwf n p Hn) as (c & Hc & _). simpl. by rewrite Hc.
Qed.

(** Storing a document at a location that no other name uses. *)
Lemma store_at m n p c c0 :
  wf m → heap m !! p = Some c0 → Db_Name c0 = n → Db_Name c = n →
  let m' := mkMem (<[n := p]> (db m)) (<[p := c]> (heap m)) in
  wf m' ∧ documents m' = <[n := c]> (documents m).
Proof.
  intros Hwf Hp Hc0 Hc m'.
  assert (Hother : ∀ n' p', n' ≠ n → db m !! n' = Some p' → p' ≠ p).
  { intros n' p' Hne Hn' ->. destruct (Hwf n' p Hn') as (c' & ? & ?). congruence. }
  split.
  - intros n' p'. unfold m'; simpl. destruct (decide (n' = n)) as [->|Hne].
    + rewrite lookup_insert_eq. intros [= <-]. exists c. by rewrite lookup_insert_eq.
    + rewrite lookup_insert_ne by done. intros Hn'. rewrite lookup_insert_ne by (symmetry; eauto). by apply Hwf.
  - apply map_eq. intros n'. rewrite documents_lookup. unfold m'; simpl. destruct (decide (n' = n)) as [->|Hne].
    + rewrite !lookup_insert_eq; simpl. by rewrite lookup_insert_eq.
    + rewrite !lookup_insert_ne by done. rewrite documents_lookup. destruct (db m !! n') as [p'|] eqn:Hn'; [|done]. simpl.
      rewrite lookup_insert_ne; [done|]. symmetry; eauto.
Qed.

Lemma documents_delete m n : documents (mkMem (delete n (db m)) (heap m)) = delete n (documents m).
Proof.
  apply map_eq. intros n'. rewrite documents_lookup; simpl.
  destruct (decide (n' = n)) as [->|Hne]; [by rewrite !lookup_delete_eq|].
  rewrite !lookup_delete_ne by done. by rewrite documents_lookup.
Qed.

(** ** Refinement of the mongo client *)

(** An update of a name that is stored answers and changes the documents as
    mongo's does; of a name that is not, it panics where mongo's reports
    [ErrNotFoundOrDirty]. *)
Lemma update_refines m p c :
  wf m → heap m !! p = Some c →
  match UpdateConfig m p with
  | Ret (m', r) => is_Some (documents m !! Db_Name c) ∧ wf m' ∧ (documents m', r) = Mongo_UpdateConfig (documents m) c
  | Fail _ => False
  | Panic _ => documents m !! Db_Name c = None ∧ Mongo_UpdateConfig (documents m) c = (documents m, Some ErrNotFoundOrDirty)
  end.
Proof.
  intros Hwf Hp. unfold UpdateConfig, deref, Mongo_UpdateConfig. rewrite Hp; simpl.
  destruct (db m !! Db_Name c) as [q|] eqn:Hq.
  - destruct (documents_present m _ q Hwf Hq) as (old & Hold & Hname & ->). rewrite Hold; simpl.
    case_bool_decide; [|by split_and!].
    destruct (store_at m (Db_Name c) p (bumped c) c Hwf Hp) as [? ->]; [done..|]. by split_and!.
  - apply documents_absent in Hq as ->; [|done]. done.
Qed.

(** Creating a document: stored with version 0 and as pending, or refused when
    the name is taken. *)
Lemma create_refines m p c :
  wf m → heap m !! p = Some c →
  ∃ m' r, CreateConfig m p = Ret (m', r) ∧ wf m' ∧ documents m' = (Mongo_CreateConfig (documents m) c).1
          ∧ (r = None ↔ (Mongo_CreateConfig (documents m) c).2 = None).
Proof.
  intros Hwf Hp. unfold CreateConfig, deref, Mongo_CreateConfig. rewrite Hp; simpl.
  destruct (db m !! Db_Name c) as [q|] eqn:Hq.
  - destruct (documents_present m _ q Hwf Hq) as (old & _ & _ & ->). by do 2 eexists.
  - pose proof Hq as ->%(documents_absent _ _ Hwf).
    destruct (store_at m (Db_Name c) p (created c) c Hwf Hp) as [? Hd]; [done..|]. do 2 eexists. split_and!; eauto.
Qed.

Lemma delete_refines m n v :
  wf m → ∃ m' r, DeleteConfig m n v = Ret (m', r) ∧ wf m' ∧ (documents m', r) = Mongo_DeleteConfig (documents m) n v.
Proof.
  intros Hwf. unfold DeleteConfig, deref, Mongo_DeleteConfig; simpl.
  destruct (db m !! n) as [q|] eqn:Hq.
  - destruct (documents_present m _ q Hwf Hq) as (old & Hold & Hname & ->). rewrite Hold; simpl.
    case_bool_decide; [|by do 2 eexists]. do 2 eexists. split_and!; [done| |by rewrite documents_delete].
    intros n' p'. simpl. intros [_ ?]%lookup_delete_Some. by apply Hwf.
  - pose proof Hq as ->%(documents_absent _ _ Hwf). by do 2 eexists.
Qed.

(** Marking a stored name; the version may not be the largest, after which the
    increment of mongo and the one of a uint64 differ. *)
Lemma mark_refines digest m n v :
  wf m → (0 ≤ v < 2 ^ 64 - 1)%Z →
  match MarkForDeletion digest m n v with
  | Ret (m', r) => is_Some (documents m !! n) ∧ wf m' ∧ (documents m', r) = Mongo_MarkForDeletion digest (documents m) n v
  | Fail _ => False
  | Panic _ => documents m !! n = None ∧ Mongo_MarkForDeletion digest (documents m) n v = (documents m, Some ErrNotFoundOrDirty)
  end.
Proof.
  intros Hwf Hv. unfold MarkForDeletion, deref, Mongo_MarkForDeletion; simpl.
  destruct (db m !! n) as [q|] eqn:Hq.
  - destruct (documents_present m _ q Hwf Hq) as (old & Hold & Hname & ->). rewrite Hold; simpl.
    case_bool_decide as Hver; [|by split_and!].
    assert (Hm : marked_in_place digest old = marked digest old).
    { unfold marked_in_place, marked, uint64. by rewrite Z.mod_small by lia. }
    rewrite Hm. destruct (store_at m n q (marked digest old) old Hwf Hold) as [? ->]; [done..|]. by split_and!.
  - apply documents_absent in Hq as ->; [|done]. done.
Qed.

(** ** Listing *)

Lemma list_loop_spec m states entries :
  (∀ n p, (n, p) ∈ entries → is_Some (heap m !! p)) →
  ∃ ps, list_loop m states entries = Ret ps
        ∧ ∀ p, p ∈ ps ↔ ∃ n c, (n, p) ∈ entries ∧ heap m !! p = Some c ∧ Db_ManifestState (Db_Manifest c) ∈ states.
Proof.
  induction entries as [|[n0 p0] entries IH]; simpl; intros Hall.
  { exists []. split; [done|]. intros p. split; [by intros ?%not_elem_of_nil|]. by intros (n & c & ?%not_elem_of_nil & _). }
  destruct IH as (ps & -> & Hps); [intros; eapply Hall; by right|].
  destruct (Hall n0 p0) as [c0 Hc0]; [by left|]. unfold deref. rewrite Hc0; simpl.
  eexists; split; [done|]. intros p. destruct (contains states _) eqn:E; [apply contains_spec in E|].
  - rewrite elem_of_cons, Hps. setoid_rewrite elem_of_cons. naive_solver.
  - assert (Db_ManifestState (Db_Manifest c0) ∉ states) by (intros ?%contains_spec; congruence).
    rewrite Hps. setoid_rewrite elem_of_cons. naive_solver.
Qed.

Lemma entries_present m : wf m → ∀ n p, (n, p) ∈ range "ListConfigs" (db m) → is_Some (heap m !! p).
Proof. intros Hwf n p Hin%elem_of_range. destruct (Hwf n p Hin) as (c & Hc & _). by exists c. Qed.

(** A non-empty filter lists the documents mongo lists. *)
Lemma list_refines m states :
  wf m → ∃ ps, ListConfigs m states = Ret ps
               ∧ ∀ c, (∃ p, p ∈ ps ∧ heap m !! p = Some c) ↔
                      documents m !! Db_Name c = Some c ∧ Db_ManifestState (Db_Manifest c) ∈ states.
Proof.
  intros Hwf. destruct (list_loop_spec m states (range "ListConfigs" (db m))) as (ps & Hl & Hps).
  { by apply entries_present. }
  exists ps. split; [done|]. intros c. split.
  - intros (p & Hin & Hc). apply Hps in Hin as (n & c' & Hn%elem_of_range & Hc' & Hs).
    destruct (documents_present m n p Hwf Hn) as (c'' & ? & Hname & Hd). simplify_eq. done.
  - intros [Hd Hs]. rewrite documents_lookup in Hd. destruct (db m !! Db_Name c) as [p|] eqn:Hn; [|done]. simpl in Hd.
    exists p. split; [|done]. apply Hps. exists (Db_Name c), c. by rewrite elem_of_range.
Qed.

(** An empty filter, which in mongo means no condition, lists nothing. *)
Lemma empty_filter_lists_nothing m : wf m → ListConfigs m [] = Ret [].
Proof.
  intros Hwf. destruct (list_loop_spec m [] (range "ListConfigs" (db m))) as (ps & Hl & Hps).
  { by apply entries_present. }
  unfold ListConfigs. rewrite Hl. destruct ps as [|p ps]; [done|].
  destruct (proj1 (Hps p) ltac:(by left)) as (n & c & _ & _ & []%not_elem_of_nil).
Qed.

(** ** Shared documents *)

(** A writer that holds the pointer [GetConfig] gave it is never refused,
    whatever was written since: it shares the version it is compared with. *)
Lemma shared_writer_never_refused m n p :
  wf m → GetConfig m n = inl p → ∃ m', UpdateConfig m p = Ret (m', None).
Proof.
  intros Hwf Hg. unfold GetConfig in Hg. destruct (db m !! n) as [q|] eqn:Hq; [|done]. injection Hg as ->.
  destruct (Hwf n p Hq) as (c & Hc & Hname). unfold UpdateConfig, deref. rewrite Hc; simpl. rewrite Hname, Hq; simpl.
  rewrite Hc; simpl. rewrite bool_decide_eq_true_2 by done. eauto.
Qed.

End in_memory.
End InMemory.
